(* ===== verification/_CoqProject ===== *)
-Q . S2P
Prelude.v
Exceptions.v
Effects.v
Intervals.v
Engine.v
StateMachines.v
Money.v
Numbers.v
Store.v
PyText.v
PyDate.v
Attribution.v
VoucherSnapshot.v
VoucherService.v
VoucherLedger.v
VoucherSpec.v
VoucherDelivery.v
Loyalty.v
RefundLifecycle.v
RefundInvariant.v
RefundSpec.v
RefundService.v
RefundServiceSpec.v
Sessions.v
SessionPlanner.v
SessionSpec.v
PlanSpec.v
LinkGateway.v
LinkAdapters.v
Settlement.v
LinkService.v
LinkWebhook.v
LinkRefund.v
LinkApi.v
LinkLedger.v
LinkFrame.v
LinkSpec.v
LinkSettle.v
LinkInbox.v
LinkRefundSpec.v
BookingEvents.v
BookingRepo.v
BookingService.v
BookingChanges.v
BookingUpdate.v
BookingSlots.v
BookingFrame.v
BookingSpec.v
SessionChange.v
UpdateSpec.v
CancelSpec.v
BookingRuns.v
GatewayParser.v
PaymentApi.v
BookingApi.v
BookingIntake.v
BookingApiSpec.v
BookingRequests.v
BookingPoints.v
PaymentFrame.v
PaymentSpec.v
PaymentHistory.v
PaymentRuns.v
BookingApiRuns.v
Shop.v
ShopSpec.v
CacheOutbox.v
OutboxSpec.v
