(* ===== verification/Prelude.v ===== *)
(** * ushbooknpay: a verification development

    The development models the parts of the booking and payment service under
    src/app that decide something (availability, status machines, amounts,
    document numbers, loyalty points, bookings, refunds, gift vouchers, payment
    links, payments, shop orders, the retry queue of the appointment cache), as
    executable definitions over explicit state, and proves what makes them
    correct.

    ** The program and its model

    The service is a set of FastAPI components over one PostgreSQL database.  A
    request runs in one database session ([get_db_session], committed on return
    and rolled back on an exception); services call each other and the domain
    code inside that session; events go to SQS and payment providers are called
    over HTTP.

    - State: [Store.Store], a record of tables (finite maps from primary keys to
      rows, lists for the append-only tables), the clock, the events published
      and the calls sent outside.  Rows carry the columns the modelled code
      reads or writes.
    - Effects: [Effects.M S A], a state and exception monad over
      [Exceptions.exn], the exception hierarchy of app/core/exceptions.py.  A
      handler of the source is one definition, its early returns and raises in
      the order of the code.  [Store.in_session] is the rollback; [try_except]
      keeps the writes made before the exception, as a session does.
    - Amounts: [Money.Decimal] is Python's Decimal under its default context (28
      digits, half-even) for finite values; database columns of type
      Numeric(10, 3) are whole fils in Z.  Times are microseconds in Z.

    ** Files

    - Prelude.v: notations, the [ush] hint database, Python's truthiness on
      strings, sums over finite maps, stable sorting, record updates.
    - Exceptions.v: app/core/exceptions.py.
    - Effects.v: the monad, weakest preconditions ([wp]), invariants
      ([preserves]), frames ([changes R m]: the operation relates the states
      before and after by the preorder [R]), results ([returns]), symbolic
      execution ([run_steps]).
    - Intervals.v, Engine.v: app/availability/domain.  Intervals as sets of
      instants; merge, subtract and intersect compute the union, difference and
      intersection; the blocks of a day.
    - StateMachines.v: the status machines of booking, payment, voucher, shop
      and gifts, against the interfaces [StrEnum] and [StateMachine].
    - Money.v: Decimal, [Money], [PricingBreakdown], the coercion [_dec].
    - Numbers.v: the generators of document numbers.
    - Store.v: the shared rows, the session, the primitive reads and writes.
    - PyText.v: the functions of Python's library on text the modelled code
      uses: UUIDs, numbers and JSON values as text, replacement.
    - PyDate.v: civil dates, instants, [to_local_tz] of app/common/utils.py,
      ISO texts.
    - Sessions.v: the stored services and sessions of a booking
      (app/booking/domain/services_snapshot.py, sessions.py,
      app/booking/application/multi_therapist.py); SessionPlanner.v: the
      planner that builds them from a request and the catalogue of another
      service, the class [Ushauth] (multi_service.py, package_rules.py,
      session_planner.py).  SessionSpec.v: validation, blocked windows, legacy
      bookings; PlanSpec.v: what a plan promises.
    - The booking service (app/booking/application/services.py):
      BookingEvents.v builds the payload of its events; BookingRepo.v has the
      overlap queries and holds of infrastructure/repository.py and the rules of
      domain/rules.py; BookingService.v creates bookings; BookingChanges.v
      confirms, cancels, reschedules and changes therapists; BookingUpdate.v is
      the update of a booking, with its status changes.  BookingSlots.v states
      when a row is well formed and that no therapist is in two bookings at
      once; BookingFrame.v what the helpers leave alone; BookingSpec.v,
      SessionChange.v and UpdateSpec.v that the operations keep it; CancelSpec.v
      what confirming and cancelling do; BookingRuns.v runs the theorems and the
      failures at a concrete database.
    - The booking endpoints (app/api/v1/bookings.py): BookingApi.v updates,
      cancels, reschedules and reassigns a booking; BookingIntake.v creates one,
      in a session that commits in between ([with_commits]: what was committed
      beside what the session sees).  BookingApiSpec.v: what the planner and the
      endpoint hand to the service; BookingRequests.v: histories of requests,
      whose booking it is; BookingPoints.v: bookings bought with points;
      BookingApiRuns.v: the theorems and the failures at a concrete database.
    - CacheOutbox.v: the retry queue of the appointment cache
      (app/booking/application/cache_outbox_relay.py, the reliable POST of
      app/integrations/ushauth_client.py), with its own state; OutboxSpec.v: a
      tick as small steps, the order of the calls, the queue runs dry.
    - Shop.v: app/shop (value objects, rows, repository, service, endpoints),
      with its own state; ShopSpec.v: the invariant of histories, placing an
      order and confirming its receipt.
    - Attribution.v: app/common/payment_attribution.py, the canonical channel,
      provider, gateway and method of a row.
    - VoucherSnapshot.v, VoucherService.v: app/voucher/application (the
      snapshots of a voucher's services; the service and the batch endpoints of
      app/voucher/api/router.py).  VoucherLedger.v: the abstract ledger;
      VoucherSpec.v: the refinement, redemption; VoucherDelivery.v: schedules
      and activation.
    - GatewayParser.v: app/payment/domain/parser.py.  PaymentApi.v: the endpoints
      of app/api/v1/payments.py that change payments, over drafts (rows with
      pending assignments); PaymentFrame.v: what the confirmation of a booking
      leaves of the payments; PaymentSpec.v: what every endpoint keeps;
      PaymentHistory.v: histories of requests, creation, the Tap webhook;
      PaymentRuns.v: the theorems and the failures at a concrete database.
    - Loyalty.v: app/loyalty (rules, repository, service).
    - RefundLifecycle.v: app/payment/application/refund_lifecycle.py;
      RefundInvariant.v: the money invariant every operation keeps;
      RefundSpec.v: the refund state machine, idempotence, and the effect of
      each operation.
    - RefundService.v: app/payment/application/refund_service.py;
      RefundServiceSpec.v: the invariant over histories of endpoint calls,
      gateway refunds, one refund per cancellation, credit notes.
    - Payment links (app/payment_links): LinkGateway.v has the statuses, the
      registry of gateways and the class [World]; LinkAdapters.v reads and
      authenticates what gateways send (infrastructure/deema_gateway.py,
      tap_gateway.py, myfatoorah_gateway.py); Settlement.v, LinkService.v,
      LinkWebhook.v and LinkRefund.v are the four services of application/;
      LinkApi.v the endpoints of api/router.py and histories of them.
      LinkLedger.v is the abstract board of links and announcements; LinkFrame.v
      what each operation leaves alone, for every relation of a class
      [LinkFrame]; LinkSpec.v the refinement; LinkSettle.v, LinkInbox.v and
      LinkRefundSpec.v settlement, webhooks and refunds.

    ** What the theorems show

    - Refunds: whatever the order of operations and whether or not they raise,
      the refunds completed in money never exceed what was paid and the summary
      column agrees with the completed refunds; a refund completes, and its
      event is published, once; requests are idempotent per key and accepted
      exactly within the cap.  At the level of the endpoints the same holds
      whatever the payment provider answers, as long as no cancellation request
      meets a completed refund without a payment; two theorems exhibit what
      happens otherwise and when points are turned into money.
    - Payment links: every history of requests refines the board, on which a
      request does what its kind may and nothing else, so a link is announced as
      paid at most once and an announced link stays settled; a webhook is
      handled at most once, only when signed, and settles nothing its gateway
      denies; a payment settles its booking completely, for the amount of the
      link when it names one, or is sent back; refunds of voucher payments stay
      within them.
      Examples in LinkRefundSpec.v exhibit where the code falls short.
    - Payments: over every history of payment requests numbers stay unique and a
      payment nobody deletes keeps its customer and its refunds, and no therapist
      is booked twice when no booking was parked at the start (a success confirms
      a parked booking without looking at the calendar); a booking gets one
      payment, created exactly as asked, and a success confirms it whenever its
      state admits it; the Tap webhook is specified on every branch.  PaymentRuns.v shows where the endpoints leave
      the payment machine or lose what a gateway said.
    - Booking sessions: validation accepts exactly the sessions that are well
      formed, in one day and apart; a plan keeps every requested session, each
      confirmed for its whole length when availability is asked for; a package
      is charged once and a loyalty booking earns nothing; blocked windows are
      those of the sessions; a booking from before sessions keeps its columns
      when it is read as one session and mirrored back.
    - Bookings: creating, updating, confirming, cancelling and reassigning never
      put a therapist into two active bookings at once, whatever the other
      services answer, as long as an update does not move several stored
      sessions or bring back an inactive booking by its status alone; three runs
      in BookingRuns.v show double bookings otherwise.  Cancelling and
      confirming are specified on every branch.  The same holds over every
      history of requests to the endpoints, which refuse a customer who cancels,
      moves or, as a customer, updates the booking of another; points are taken
      once, exactly, and for a stored booking only.
      BookingApiRuns.v shows requests charged twice, refused bookings that stay,
      and a booking anyone can cancel.
    - Retry queue: whatever the other service answers, the calls of a booking go
      out in the order of their requests and an acknowledged one is not repeated;
      a queue that is polled, at whatever interval of a second or more, runs dry,
      with a bounded number of calls.
    - Shop: over every history orders add up, their log is the path to their
      status and deliveries never move back; placing an order and confirming its
      receipt are specified on every branch.
    - Gift vouchers: every history refines a ledger in which no service is
      redeemed twice and closed vouchers stay closed; a redemption on every
      branch; a scheduled voucher waits, is activated once and is not forgotten.
    - Availability: an offered slot is exactly one whose run of slots is
      bookable; the rounding of the service length is exhibited.
    - Loyalty: balances, earnings and redemptions stay consistent over every
      history; crediting a booking is idempotent.
    - Status machines, amounts, attribution and document numbers: safety of
      every path, rounding bounds, canonical values, freshness of numbers below
      999999 and collisions beyond.

    ** Bounds and fuel

    [Intervals.slot_starts] takes one unit of fuel per slot that fits the window
    plus one, and [slot_starts_seq] shows that it collects them all;
    [Money.ndigits_fuel] takes the binary length of the number; [Exceptions.mro]
    the number of classes; the replacements of PyText.v the length of the text,
    which each of their steps shortens.  [Attribution.walk] stops at the depth
    the code stops at.

    ** Hypotheses and parameters

    Everything outside the repository is a field of [LinkGateway.World], of
    [SessionPlanner.Ushauth], of [BookingService.BookingWorld], of
    [Shop.ProductCatalogue], of [CacheOutbox.Upstream] or a section variable of
    the same type ([PaymentApi.PaymentWorld] adds the UTC offset of the process,
    [BookingApi.BookingApiWorld] branches, customers, tokens and whether the
    driver stores a UUID object in a text column): what payment providers, gateways, the
    accounting service and the scheduler answer, each a function of the calls
    made so far and the request; Python's JSON and ISO date parsers and digests;
    the keys of the settings.  No theorem constrains any of them except where a
    hypothesis names the answer to one request.  Primary keys are fresh
    ([Store.new_id_fresh]; a link's key also against the links announced, as
    random UUIDs are); the uniqueness of the idempotency key column is a
    hypothesis of the one theorem that uses it.  The write listeners of payment
    attribution run where the payment link and voucher services flush a row; what
    they do to the attribution columns of a row the refund services write is left
    out.

    ** Not modelled

    Listings, detail pages, pagination and the bodies the endpoints render;
    the validators of the request schemas; the gift
    services (placeholders that no endpoint calls), what follows the status
    guard of initiate_payment (it always raises), HTTP routing and schemas,
    the clients of other services with their retries and payloads, redirect
    URLs, message texts, configuration, logging, migrations and scripts.
    Concurrency between sessions is outside the model: a history is a sequence
    of sessions, as the row locks of the source intend. *)

From stdpp Require Export base tactics option list gmap strings sorting.
From Stdlib Require Export ZArith Lia.
#[export] Set Default Goal Selector "!".
#[global] Open Scope Z_scope.

(** ** Scope, hint databases and tactics *)

Declare Scope ush_scope.
Delimit Scope ush_scope with ush.
#[global] Open Scope ush_scope.

Create HintDb ush discriminated.
Create Rewrite HintDb msum.

(** Boolean equality test on a type with decidable equality, written the way
    the Python source writes it. *)
Notation "x '==?' y" := (bool_decide (x = y)) (at level 70, no associativity) : ush_scope.
Notation "x '!=?' y" := (negb (bool_decide (x = y))) (at level 70, no associativity) : ush_scope.
(** [x in l] and [x not in l] of Python, on literal collections. *)
Notation "x 'in?' l" := (bool_decide (x ∈ l)) (at level 70, no associativity) : ush_scope.

(** Split every boolean conjunction, disjunction and reflection in the
    hypotheses and in the goal. *)
Ltac breflect :=
  repeat match goal with
  | H : _ && _ = true |- _ => apply andb_true_iff in H; destruct H
  | H : _ || _ = false |- _ => apply orb_false_iff in H; destruct H
  | H : negb _ = true |- _ => apply negb_true_iff in H
  | H : negb _ = false |- _ => apply negb_false_iff in H
  | H : bool_decide _ = true |- _ => apply bool_decide_eq_true in H
  | H : bool_decide _ = false |- _ => apply bool_decide_eq_false in H
  | H : (_ <? _) = true |- _ => apply Z.ltb_lt in H
  | H : (_ <? _) = false |- _ => apply Z.ltb_ge in H
  | H : (_ <=? _) = true |- _ => apply Z.leb_le in H
  | H : (_ <=? _) = false |- _ => apply Z.leb_gt in H
  | H : (_ =? _)%Z = true |- _ => apply Z.eqb_eq in H
  | H : (_ =? _)%Z = false |- _ => apply Z.eqb_neq in H
  | H : (_ =? _)%string = true |- _ => apply String.eqb_eq in H
  | H : (_ =? _)%string = false |- _ => apply String.eqb_neq in H
  end.

(** Case analysis on the scrutinee of a conditional of the goal, keeping the
    equation and reflecting it. *)
Ltac case_if :=
  match goal with
  | |- context [if ?b then _ else _] =>
      lazymatch type of b with
      | bool => let E := fresh "E" in destruct b eqn:E; breflect
      | _ => let E := fresh "E" in destruct b as [E|E]
      end
  end.

(** ** Python helpers *)

(** [a or b] on integers. *)
Definition or_int (a b : Z) : Z := if a =? 0 then b else a.

(** Truth value of a string, of an optional string and of an optional value. *)
Definition truthy (s : string) : bool := negb (String.eqb s "").
Definition truthy_opt (s : option string) : bool :=
  match s with Some s => truthy s | None => false end.

(** [sub in s] on strings. *)
Definition contains (sub s : string) : bool :=
  match String.index 0 sub s with Some _ => true | None => false end.

(** [a or b] on optional strings: the first truthy one, else the last. *)
Definition por (a b : option string) : option string := if truthy_opt a then a else b.

(** [a or b] when the left is optional and the right a string. *)
Definition por_str (a : option string) (b : string) : string :=
  match a with Some s => if truthy s then s else b | None => b end.

(** [str.lower] and [str.upper] on ASCII. *)
Definition ascii_lower (c : Ascii.ascii) : Ascii.ascii :=
  let n := Ascii.nat_of_ascii c in
  if (65 <=? n)%nat && (n <=? 90)%nat then Ascii.ascii_of_nat (n + 32) else c.
Definition ascii_upper (c : Ascii.ascii) : Ascii.ascii :=
  let n := Ascii.nat_of_ascii c in
  if (97 <=? n)%nat && (n <=? 122)%nat then Ascii.ascii_of_nat (n - 32) else c.
Fixpoint smap (f : Ascii.ascii → Ascii.ascii) (s : string) : string :=
  match s with
  | EmptyString => EmptyString
  | String c s => String (f c) (smap f s)
  end.
Definition lower (s : string) : string := smap ascii_lower s.
Definition upper (s : string) : string := smap ascii_upper s.

(** [str.strip()] on ASCII white space. *)
Definition is_space (c : Ascii.ascii) : bool :=
  let n := Ascii.nat_of_ascii c in
  ((9 <=? n)%nat && (n <=? 13)%nat) || ((28 <=? n)%nat && (n <=? 32)%nat).
Fixpoint lstrip (s : string) : string :=
  match s with
  | String c s' => if is_space c then lstrip s' else s
  | EmptyString => EmptyString
  end.
Fixpoint rstrip (s : string) : string :=
  match s with
  | String c s' =>
      let r := rstrip s' in
      if is_space c && String.eqb r "" then EmptyString else String c r
  | EmptyString => EmptyString
  end.
Definition strip (s : string) : string := rstrip (lstrip s).

Lemma truthy_spec s : truthy s = true ↔ s ≠ "".
Proof. unfold truthy. rewrite negb_true_iff. apply String.eqb_neq. Qed.

(** ** Sums over finite maps

    The database aggregates of the source ([SELECT sum(..) WHERE ..]) are sums
    over the rows of a table, a finite map from primary keys to rows. *)

Definition msum `{Countable K} {V} (f : V → Z) (m : gmap K V) : Z :=
  map_fold (λ _ v acc, f v + acc) 0 m.

Section msum.
Context `{Countable K} {V : Type}.
Implicit Types (m : gmap K V) (f g : V → Z).

Lemma msum_empty f : msum f (∅ : gmap K V) = 0.
Proof. apply map_fold_empty. Qed.

Lemma msum_insert_new f m k v :
  m !! k = None → msum f (<[k:=v]> m) = f v + msum f m.
Proof.
  intros Hk. unfold msum.
  apply (map_fold_insert_L (λ _ v acc, f v + acc) 0 k v m); [|done].
  intros; lia.
Qed.

Lemma msum_delete f m k v :
  m !! k = Some v → msum f m = f v + msum f (delete k m).
Proof.
  intros Hk. rewrite <- (insert_delete_id m k v Hk) at 1.
  apply msum_insert_new, lookup_delete_eq.
Qed.

Lemma msum_update f m k v v' :
  m !! k = Some v → msum f (<[k:=v']> m) = msum f m - f v + f v'.
Proof.
  intros Hk. rewrite (msum_delete f m k v Hk), <- insert_delete_eq.
  rewrite msum_insert_new by apply lookup_delete_eq. lia.
Qed.

Lemma msum_ext f g m :
  (∀ k v, m !! k = Some v → f v = g v) → msum f m = msum g m.
Proof.
  induction m as [|k v m Hk IH] using map_ind; intros Hext.
  { by rewrite !msum_empty. }
  rewrite !msum_insert_new by done. rewrite (Hext k v) by apply lookup_insert_eq.
  f_equal. apply IH. intros k' v' Hk'. apply (Hext k').
  rewrite lookup_insert_ne; [done|]. intros ->. congruence.
Qed.

Lemma msum_mono f g m :
  (∀ k v, m !! k = Some v → f v ≤ g v) → msum f m ≤ msum g m.
Proof.
  induction m as [|k v m Hk IH] using map_ind; intros Hle.
  { by rewrite !msum_empty. }
  rewrite !msum_insert_new by done.
  pose proof (Hle k v (lookup_insert_eq _ _ _)).
  assert (msum f m ≤ msum g m); [|lia]. apply IH. intros k' v' Hk'. apply (Hle k').
  rewrite lookup_insert_ne; [done|]. intros ->. congruence.
Qed.

Lemma msum_zero m : msum (λ _, 0) m = 0.
Proof.
  induction m as [|k v m Hk IH] using map_ind; [apply msum_empty|].
  by rewrite msum_insert_new.
Qed.

Lemma msum_nonneg f m : (∀ k v, m !! k = Some v → 0 ≤ f v) → 0 ≤ msum f m.
Proof. intros Hf. rewrite <- (msum_zero m). by apply msum_mono. Qed.

Lemma msum_lookup_le f m k v :
  (∀ k v, m !! k = Some v → 0 ≤ f v) → m !! k = Some v → f v ≤ msum f m.
Proof.
  intros Hf Hk. rewrite (msum_delete f m k v Hk).
  assert (0 ≤ msum f (delete k m)); [|lia].
  apply msum_nonneg. intros k' v' [_ Hk']%lookup_delete_Some. eauto.
Qed.
End msum.

#[export] Hint Rewrite @msum_empty : msum.

(** ** Selecting rows

    [ORDER BY key DESC LIMIT 1] over a table restricted by a [WHERE] clause: the
    row of greatest key; the source's keys are creation times. *)
Definition rows `{Countable K} {V} (m : gmap K V) : list V := (map_to_list m).*2.

Fixpoint argmax {V} (key : V → Z) (l : list V) : option V :=
  match l with
  | [] => None
  | v :: l =>
      match argmax key l with
      | Some w => if key v <? key w then Some w else Some v
      | None => Some v
      end
  end.

Definition newest `{Countable K} {V} (where_ : V → bool) (key : V → Z) (m : gmap K V) : option V :=
  argmax key (List.filter where_ (rows m)).

Lemma elem_of_rows `{Countable K} {V} (m : gmap K V) v :
  v ∈ rows m ↔ ∃ k, m !! k = Some v.
Proof.
  unfold rows. rewrite list_elem_of_fmap. split.
  - intros ([k w] & -> & Hin). exists k. by apply elem_of_map_to_list.
  - intros [k Hk]. exists (k, v). split; [done|]. by apply elem_of_map_to_list.
Qed.

Lemma argmax_elem {V} (key : V → Z) l v : argmax key l = Some v → v ∈ l.
Proof.
  revert v; induction l as [|w l IH]; simpl; [done|]. intros v.
  destruct (argmax key l) as [u|]; [case_if|]; intros [= <-];
    try apply list_elem_of_here. apply list_elem_of_further; auto.
Qed.

Lemma argmax_max {V} (key : V → Z) l v w :
  argmax key l = Some v → w ∈ l → key w ≤ key v.
Proof.
  revert v w; induction l as [|u l IH]; simpl; [done|]. intros v w Hv Hw.
  destruct (argmax key l) as [x|] eqn:Ex.
  - apply elem_of_cons in Hw as [->|Hw]; [|specialize (IH x w eq_refl Hw)];
      destruct (key u <? key x) eqn:E; breflect; simplify_eq; lia.
  - destruct l as [|y l]; [|simpl in Ex; destruct (argmax key l); [case_match|]; done].
    apply list_elem_of_singleton in Hw as ->. simplify_eq. lia.
Qed.

Lemma argmax_None {V} (key : V → Z) l : argmax key l = None ↔ l = [].
Proof.
  destruct l as [|v l]; simpl; [done|]. split; [|done].
  destruct (argmax key l); [case_match|]; done.
Qed.

Lemma elem_of_filter_list {V} (p : V → bool) l v : v ∈ List.filter p l ↔ v ∈ l ∧ p v = true.
Proof. rewrite !list_elem_of_In. apply List.filter_In. Qed.

Lemma newest_spec `{Countable K} {V} (p : V → bool) key (m : gmap K V) v :
  newest p key m = Some v →
  (∃ k, m !! k = Some v) ∧ p v = true ∧
  (∀ k w, m !! k = Some w → p w = true → key w ≤ key v).
Proof.
  intros Hn. pose proof (argmax_elem _ _ _ Hn) as Hin.
  apply elem_of_filter_list in Hin as [Hin Hp]. split; [by apply elem_of_rows|].
  split; [done|]. intros k w Hw Hpw. apply (argmax_max _ _ _ _ Hn).
  apply elem_of_filter_list. split; [|done]. apply elem_of_rows. eauto.
Qed.

Lemma newest_None `{Countable K} {V} (p : V → bool) key (m : gmap K V) :
  newest p key m = None ↔ ∀ k v, m !! k = Some v → p v = false.
Proof.
  unfold newest. rewrite argmax_None. split.
  - intros Hnil k v Hk. destruct (p v) eqn:Hp; [|done].
    assert (v ∈ List.filter p (rows m)) as Hin.
    { apply elem_of_filter_list. split; [|done]. apply elem_of_rows. eauto. }
    rewrite Hnil in Hin. by apply elem_of_nil in Hin.
  - intros Hall. destruct (List.filter p (rows m)) as [|v l] eqn:E; [done|].
    assert (v ∈ List.filter p (rows m)) as Hin by (rewrite E; apply list_elem_of_here).
    apply elem_of_filter_list in Hin as [[k Hk]%elem_of_rows Hp].
    by rewrite (Hall k v Hk) in Hp.
Qed.

(** The key of the row. *)
Definition newest_key `{Countable K} {V} (where_ : V → bool) (key : V → Z) (m : gmap K V) : option K :=
  fst <$> argmax (λ kv, key kv.2) (List.filter (λ kv, where_ kv.2) (map_to_list m)).

Lemma newest_key_spec `{Countable K} {V} (p : V → bool) key (m : gmap K V) k :
  newest_key p key m = Some k →
  ∃ v, m !! k = Some v ∧ p v = true ∧ (∀ k' w, m !! k' = Some w → p w = true → key w ≤ key v).
Proof.
  unfold newest_key. rewrite fmap_Some. intros ([k0 v] & Hn & ->). simpl. exists v.
  pose proof (argmax_elem _ _ _ Hn) as [Hin Hp]%elem_of_filter_list.
  apply elem_of_map_to_list in Hin. split_and!; [done|done|]. intros k' w Hw Hpw.
  apply (argmax_max _ _ _ (k', w) Hn), elem_of_filter_list. split; [by apply elem_of_map_to_list|done].
Qed.

Lemma newest_key_None `{Countable K} {V} (p : V → bool) key (m : gmap K V) :
  newest_key p key m = None ↔ ∀ k v, m !! k = Some v → p v = false.
Proof.
  unfold newest_key. rewrite fmap_None, argmax_None. split.
  - intros Hnil k v Hk. destruct (p v) eqn:Hp; [|done].
    assert ((k, v) ∈ List.filter (λ kv, p kv.2) (map_to_list m)) as Hin.
    { apply elem_of_filter_list. split; [by apply elem_of_map_to_list|done]. }
    rewrite Hnil in Hin. by apply elem_of_nil in Hin.
  - intros Hall. destruct (List.filter _ _) as [|[k v] l] eqn:E; [done|].
    assert ((k, v) ∈ List.filter (λ kv, p kv.2) (map_to_list m)) as Hin by (rewrite E; apply list_elem_of_here).
    apply elem_of_filter_list in Hin as [Hk%elem_of_map_to_list Hp]. simpl in Hp.
    by rewrite (Hall k v Hk) in Hp.
Qed.

(** ** Lists

    Mapping over what is concatenated or numbered. *)

Lemma fmap_bind {A B C} (f : B → C) (g : A → list B) l : f <$> (l ≫= g) = l ≫= λ a, f <$> g a.
Proof. induction l as [|a l IH]; [done|]. by rewrite !bind_cons, fmap_app, IH. Qed.
Lemma bind_imap {A B C} (f : nat → A → B) (g : B → list C) (h : A → list C) l :
  (∀ i a, g (f i a) = h a) → imap f l ≫= g = l ≫= h.
Proof.
  revert f. induction l as [|a l IH]; intros f Hf; [done|]. rewrite imap_cons, !bind_cons, Hf. f_equal.
  apply IH. intros. apply Hf.
Qed.
Lemma fmap_imap_ext {A B C} (f : nat → A → B) (g : B → C) (h : A → C) l : (∀ i a, g (f i a) = h a) → g <$> imap f l = h <$> l.
Proof.
  revert f. induction l as [|a l IH]; intros f Hf; [done|]. rewrite imap_cons, !fmap_cons, Hf. f_equal.
  apply IH. intros. apply Hf.
Qed.

Lemma filter_keys_nodup {A B} (f : A * B → bool) l : NoDup l.*1 → NoDup (List.filter f l).*1.
Proof.
  induction l as [|[x b] l IH]; [done|]. cbn [fmap list_fmap fst List.filter]. intros [Hx Hnd]%NoDup_cons.
  destruct (f _); [|auto]. cbn. apply NoDup_cons. split; [|auto].
  intros ([y b'] & -> & [Hy _]%elem_of_filter_list)%list_elem_of_fmap. destruct Hx. apply list_elem_of_fmap. by exists (y, b').
Qed.

(** ** Record update

    [x <| f := v |>] is the record [x] with field [f] replaced, the way the
    source assigns [x.f = v] to a row.  A record opts in with an instance of
    [Eta] that rebuilds it from its projections. *)
Class Eta (R : Type) := eta : R → R.
Class Setter {R E : Type} (proj : R → E) := set_field : (E → E) → R → R.
Arguments set_field {R E} proj {_} _ _ /.

Ltac derive_setter :=
  lazymatch goal with
  | |- @Setter ?R ?E ?p =>
      let u := fresh "u" in let x := fresh "x" in red; intros u x;
      let inst := constr:(_ : Eta R) in
      let body := eval cbv beta delta [eta] in (@eta R inst x) in
      let body := lazymatch body with ?i _ => eval unfold i in body end in
      let body := eval cbv beta in body in
      lazymatch eval pattern (p x) in body with
      | ?ctx _ => let t := eval cbv beta in (ctx (u (p x))) in exact t
      end
  end.
#[export] Hint Extern 1 (Setter _) => derive_setter : typeclass_instances.

Notation "x <| f := v |>" := (set_field f (λ _, v) x)
  (at level 1, f at level 1, v at level 99, left associativity) : ush_scope.

(** ** Python's [sorted(l, key=...)]

    A stable sort: an insertion sort that puts an element before the ones of
    equal key that follow it in the list. *)
Section sorted_by.
Context {V : Type} (key : V → Z).

Fixpoint insert_by (v : V) (l : list V) : list V :=
  match l with
  | [] => [v]
  | w :: l' => if key v <=? key w then v :: l else w :: insert_by v l'
  end.

Fixpoint sorted_by (l : list V) : list V :=
  match l with [] => [] | v :: l => insert_by v (sorted_by l) end.

Lemma insert_by_perm v l : insert_by v l ≡ₚ v :: l.
Proof. induction l as [|w l IH]; simpl; [done|]. case_if; [done|]. rewrite IH. constructor. Qed.

Lemma sorted_by_perm l : sorted_by l ≡ₚ l.
Proof. induction l as [|v l IH]; simpl; [done|]. by rewrite insert_by_perm, IH. Qed.

Lemma elem_of_sorted_by l v : v ∈ sorted_by l ↔ v ∈ l.
Proof. by rewrite sorted_by_perm. Qed.

Lemma insert_by_sorted v l :
  StronglySorted (λ a b, key a ≤ key b) l → StronglySorted (λ a b, key a ≤ key b) (insert_by v l).
Proof.
  induction 1 as [|w l Hl IH Hw]; simpl; [repeat constructor|].
  case_if; constructor; try done.
  - by constructor.
  - constructor; [done|]. eapply Forall_impl; [exact Hw|]. simpl; lia.
  - rewrite insert_by_perm. constructor; [lia|done].
Qed.

Lemma sorted_by_sorted l : StronglySorted (λ a b, key a ≤ key b) (sorted_by l).
Proof. induction l; simpl; [constructor|]. by apply insert_by_sorted. Qed.

(** Stability: the elements of one key keep their order. *)
Lemma insert_by_filter_key k v l :
  List.filter (λ w, key w =? k) (insert_by v l) =
  List.filter (λ w, key w =? k) (v :: l).
Proof.
  induction l as [|w l IH]; [done|]. cbn [insert_by]. case_if; [done|].
  cbn [List.filter]. rewrite IH. cbn [List.filter].
  destruct (key v =? k) eqn:Ev, (key w =? k) eqn:Ew; breflect; done || lia.
Qed.

Lemma sorted_by_stable k l :
  List.filter (λ w, key w =? k) (sorted_by l) = List.filter (λ w, key w =? k) l.
Proof.
  induction l as [|v l IH]; [done|]. cbn [sorted_by].
  rewrite insert_by_filter_key. cbn [List.filter]. by rewrite IH.
Qed.
End sorted_by.
