(* ===== verification/Exceptions.v ===== *)
(** * The exception hierarchy (app/core/exceptions.py)

    One constructor per exception class, the class's direct bases, the HTTP
    status each class defines or inherits, and the subclass test that every
    [except] clause of the source relies on.  The classes [RuntimeError],
    [ValueError], [PythonException] stand for Python's own. *)

From S2P Require Import Prelude.

Inductive exc_class :=
  (* Python's own classes *)
  | PythonException | ValueError | RuntimeError | KeyError
  | ArithmeticError
  | USHBaseError
  (* HTTP level *)
  | NotFoundError | ConflictError | ValidationError | AuthenticationError
  | AuthorizationError | RateLimitError | IdempotencyConflictError
  (* booking *)
  | BookingNotFoundError | BookingStateError | DoubleBookingError
  | ServiceNotAvailableError | TherapistNotAvailableError
  | InvalidRescheduleError | RescheduleWindowError
  (* payment *)
  | PaymentNotFoundError | PaymentStateError | PaymentProviderError | RefundError
  (* integration *)
  | GatewayError | GatewayTimeoutError
  (* infrastructure *)
  | CacheError | OutboxPublishError
  (* gift vouchers *)
  | GiftVoucherNotFoundError | GiftVoucherStateError
  | GiftVoucherExpiredError | GiftVoucherAlreadyRedeemedError
  (* declared where they are raised: booking sessions and services *)
  | SessionValidationError | ServiceValidationError | SessionAvailabilityError.

#[export] Instance exc_class_eq_dec : EqDecision exc_class.
Proof. solve_decision. Defined.

(** The direct base classes, in the order of the class statement. *)
Definition bases (c : exc_class) : list exc_class :=
  match c with
  | PythonException => []
  | ValueError | RuntimeError | KeyError | ArithmeticError | USHBaseError => [PythonException]
  | NotFoundError | ConflictError | AuthenticationError | AuthorizationError
  | RateLimitError | IdempotencyConflictError => [USHBaseError]
  | ValidationError => [USHBaseError; ValueError]
  | BookingNotFoundError => [NotFoundError]
  | BookingStateError => [USHBaseError]
  | DoubleBookingError => [ConflictError]
  | ServiceNotAvailableError | TherapistNotAvailableError
  | InvalidRescheduleError | RescheduleWindowError => [ValidationError]
  | PaymentNotFoundError => [NotFoundError]
  | PaymentStateError | PaymentProviderError | RefundError => [USHBaseError]
  | GatewayError => [USHBaseError]
  | GatewayTimeoutError => [GatewayError]
  | CacheError | OutboxPublishError => [USHBaseError]
  | GiftVoucherNotFoundError => [NotFoundError]
  | GiftVoucherStateError => [USHBaseError]
  | GiftVoucherExpiredError => [ValidationError]
  | GiftVoucherAlreadyRedeemedError => [ConflictError]
  | SessionValidationError | ServiceValidationError => [ValueError]
  | SessionAvailabilityError => [PythonException]
  end.

(** [status_code] as the class body assigns it, when it does. *)
Definition own_status_code (c : exc_class) : option Z :=
  match c with
  | USHBaseError => Some 500
  | NotFoundError => Some 404
  | ConflictError => Some 409
  | ValidationError => Some 422
  | AuthenticationError => Some 401
  | AuthorizationError => Some 403
  | RateLimitError => Some 429
  | IdempotencyConflictError => Some 409
  | BookingStateError | PaymentStateError | RefundError | GiftVoucherStateError => Some 422
  | PaymentProviderError | GatewayError => Some 502
  | GatewayTimeoutError => Some 504
  | CacheError | OutboxPublishError => Some 500
  | _ => None
  end.

(** The method resolution order: depth first over the bases.  The hierarchy
    has depth four and a single diamond (at [PythonException]), so a
    left-to-right depth-first walk finds the same attribute as Python's C3
    order. *)
Fixpoint ancestors (fuel : nat) (c : exc_class) : list exc_class :=
  match fuel with
  | O => [c]
  | S n => c :: flat_map (ancestors n) (bases c)
  end.
Definition mro (c : exc_class) : list exc_class := ancestors 5 c.

Definition issubclass (c d : exc_class) : bool := d in? mro c.

(** Attribute lookup: the first class of the resolution order defining it. *)
Definition status_code (c : exc_class) : option Z :=
  head (omap own_status_code (mro c)).

(** The class name, which [USHBaseError.__init__] uses as the default code. *)
Definition class_name (c : exc_class) : string :=
  match c with
  | PythonException => "Exception" | ValueError => "ValueError"
  | RuntimeError => "RuntimeError" | KeyError => "KeyError"
  | ArithmeticError => "ArithmeticError" | USHBaseError => "USHBaseError"
  | NotFoundError => "NotFoundError" | ConflictError => "ConflictError"
  | ValidationError => "ValidationError" | AuthenticationError => "AuthenticationError"
  | AuthorizationError => "AuthorizationError" | RateLimitError => "RateLimitError"
  | IdempotencyConflictError => "IdempotencyConflictError"
  | BookingNotFoundError => "BookingNotFoundError" | BookingStateError => "BookingStateError"
  | DoubleBookingError => "DoubleBookingError"
  | ServiceNotAvailableError => "ServiceNotAvailableError"
  | TherapistNotAvailableError => "TherapistNotAvailableError"
  | InvalidRescheduleError => "InvalidRescheduleError"
  | RescheduleWindowError => "RescheduleWindowError"
  | PaymentNotFoundError => "PaymentNotFoundError" | PaymentStateError => "PaymentStateError"
  | PaymentProviderError => "PaymentProviderError" | RefundError => "RefundError"
  | GatewayError => "GatewayError" | GatewayTimeoutError => "GatewayTimeoutError"
  | CacheError => "CacheError" | OutboxPublishError => "OutboxPublishError"
  | GiftVoucherNotFoundError => "GiftVoucherNotFoundError"
  | GiftVoucherStateError => "GiftVoucherStateError"
  | GiftVoucherExpiredError => "GiftVoucherExpiredError"
  | GiftVoucherAlreadyRedeemedError => "GiftVoucherAlreadyRedeemedError"
  | SessionValidationError => "SessionValidationError"
  | ServiceValidationError => "ServiceValidationError"
  | SessionAvailabilityError => "SessionAvailabilityError"
  end.

(** An exception value: its class and its [code]; messages and details are
    for people and are not modelled. *)
Record exn := mk_exn { exn_class : exc_class; exn_code : string }.

#[export] Instance exn_eq_dec : EqDecision exn.
Proof. solve_decision. Defined.

(** [raise C(message, code=code)] and [raise C(message)]: [self.code = code or
    self.__class__.__name__]. *)
Definition make_exn (c : exc_class) (code : option string) : exn :=
  mk_exn c (por_str code (class_name c)).
Definition err (c : exc_class) : exn := make_exn c None.
Definition err_code (c : exc_class) (code : string) : exn := make_exn c (Some code).

(** [HTTPException(status_code=status)]. *)
Definition http_error (status : string) : exn := err_code PythonException status.

Definition isinstance (e : exn) (c : exc_class) : bool := issubclass e.(exn_class) c.

(** The exceptions the handlers of [main.py] translate: those of the
    hierarchy. *)
Definition is_ush_error (c : exc_class) : bool := issubclass c USHBaseError.

Definition all_classes : list exc_class :=
  [PythonException; ValueError; RuntimeError; KeyError; ArithmeticError; USHBaseError;
   NotFoundError; ConflictError; ValidationError; AuthenticationError; AuthorizationError;
   RateLimitError; IdempotencyConflictError; BookingNotFoundError; BookingStateError;
   DoubleBookingError; ServiceNotAvailableError; TherapistNotAvailableError;
   InvalidRescheduleError; RescheduleWindowError; PaymentNotFoundError; PaymentStateError;
   PaymentProviderError; RefundError; GatewayError; GatewayTimeoutError; CacheError;
   OutboxPublishError; GiftVoucherNotFoundError; GiftVoucherStateError;
   GiftVoucherExpiredError; GiftVoucherAlreadyRedeemedError; SessionValidationError;
   ServiceValidationError; SessionAvailabilityError].

Lemma elem_of_all_classes c : c ∈ all_classes.
Proof. destruct c; by apply (bool_decide_unpack _). Qed.

(** A decidable statement about every class is checked by evaluation. *)
Lemma exc_class_forall (P : exc_class → bool) :
  forallb P all_classes = true → ∀ c, P c = true.
Proof.
  rewrite forallb_forall. intros Hall c. apply Hall, list_elem_of_In, elem_of_all_classes.
Qed.

(** The fuel of [mro] suffices: one more unfolding adds no class. *)
Lemma mro_complete c d : d ∈ ancestors 6 c ↔ d ∈ mro c.
Proof. destruct c; reflexivity. Qed.
