(* ===== verification/Effects.v ===== *)
(** * Stateful operations that may raise

    The services of the source are coroutines over one database session: they
    read and write rows and raise exceptions.  [M S A] is such an operation
    over a state [S]: it returns a value or an exception, and the state it has
    reached in either case, because a caller that catches the exception goes
    on with the rows as they were left. *)

From S2P Require Import Prelude Exceptions.

Inductive result (A : Type) :=
  | Ok (a : A)
  | Raise (e : exn).
Arguments Ok {A} a.
Arguments Raise {A} e.

#[export] Instance Ok_inj {A} : Inj (=) (=) (@Ok A).
Proof. by intros a b [= ->]. Qed.

#[export] Instance result_eq_dec `{EqDecision A} : EqDecision (result A).
Proof. solve_decision. Defined.

Definition M (S A : Type) : Type := S → result A * S.

#[export] Instance M_ret {S} : MRet (M S) := λ A a s, (Ok a, s).
#[export] Instance M_bind {S} : MBind (M S) := λ A B k m s,
  match m s with
  | (Ok a, s') => k a s'
  | (Raise e, s') => (Raise e, s')
  end.

Definition raise {S A} (e : exn) : M S A := λ s, (Raise e, s).
Definition get {S} : M S S := λ s, (Ok s, s).
Definition gets {S A} (f : S → A) : M S A := λ s, (Ok (f s), s).
Definition modify {S} (f : S → S) : M S () := λ s, (Ok (), f s).

(** [if b: raise e]. *)
Definition raise_if {S} (b : bool) (e : exn) : M S () := if b then raise e else mret ().
(** [if b: m]. *)
Definition when {S} (b : bool) (m : M S ()) : M S () := if b then m else mret ().
(** [try: m except <class>: handler]. *)
Definition try_except {S A} (m : M S A) (catch : exn → bool) (h : exn → M S A) : M S A := λ s,
  match m s with
  | (Ok a, s') => (Ok a, s')
  | (Raise e, s') => if catch e then h e s' else (Raise e, s')
  end.
(** [x = ...; if x is None: raise e]. *)
Definition some_or_raise {S A} (o : option A) (e : exn) : M S A :=
  match o with Some a => mret a | None => raise e end.
(** A pure computation that may raise. *)
Definition lift {S A} (r : result A) : M S A := λ s, (r, s).
(** [for x in l: f(x)]. *)
Fixpoint for_each {S A} (l : list A) (f : A → M S ()) : M S () :=
  match l with
  | [] => mret ()
  | a :: l => f a ;; for_each l f
  end.

#[export] Instance result_ret : MRet result := λ A a, Ok a.
#[export] Instance result_bind : MBind result := λ A B k m,
  match m with Ok a => k a | Raise e => Raise e end.

(** *** Runs that return *)

Lemma result_bind_ok {A B} (m : result A) (k : A → result B) b : m ≫= k = Ok b → ∃ a, m = Ok a ∧ k a = Ok b.
Proof. destruct m as [a|e]; [eauto|discriminate]. Qed.

Lemma mapM_ok {A B} (f : A → result B) l k : mapM f l = Ok k → Forall2 (λ x y, f x = Ok y) l k.
Proof.
  revert k; induction l as [|x l IH]; intros k.
  - intros H. inversion H. constructor.
  - intros (y & Hy & (k' & Hk & H)%result_bind_ok)%result_bind_ok. inversion H; subst. constructor; auto.
Qed.

(** Takes apart a run that returns, one call at a time. *)
Ltac ok_step :=
  match goal with
  | H : Ok _ = Ok _ |- _ => apply (inj Ok) in H
  | H : Raise _ = Ok _ |- _ => discriminate H
  | H : _ ≫= _ = Ok _ |- _ => apply result_bind_ok in H; destruct H as (? & ? & H); cbv beta in H
  end.
Ltac ok_steps := repeat ok_step.

(** ** Weakest preconditions

    [wp m s Q]: run from [s], [m] ends in a result and a state satisfying
    [Q]. *)
Definition wp {S A} (m : M S A) (s : S) (Q : result A → S → Prop) : Prop :=
  Q (m s).1 (m s).2.

Section wp.
Context {S A B : Type}.
Implicit Types (s : S).

Lemma wp_run (m : M S A) s Q r s' : wp m s Q → m s = (r, s') → Q r s'.
Proof. unfold wp. intros HQ E. by rewrite E in HQ. Qed.

Lemma wp_of_run (m : M S A) s (Q : result A → S → Prop) r s' : m s = (r, s') → Q r s' → wp m s Q.
Proof. unfold wp. by intros ->. Qed.

Lemma wp_mono (m : M S A) s (Q Q' : result A → S → Prop) :
  wp m s Q → (∀ r s', Q r s' → Q' r s') → wp m s Q'.
Proof. unfold wp. auto. Qed.

Lemma wp_ret (a : A) s Q : Q (Ok a) s → wp (mret a) s Q.
Proof. done. Qed.

Lemma wp_raise e s (Q : result A → S → Prop) : Q (Raise e) s → wp (raise e) s Q.
Proof. done. Qed.

Lemma wp_bind (m : M S A) (k : A → M S B) s Q :
  wp m s (λ r s', match r with Ok a => wp (k a) s' Q | Raise e => Q (Raise e) s' end) →
  wp (m ≫= k) s Q.
Proof. unfold wp, mbind, M_bind. destruct (m s) as [[a|e] s']; done. Qed.

Lemma wp_get s Q : Q (Ok s) s → wp (get : M S S) s Q.
Proof. done. Qed.

Lemma wp_gets (f : S → A) s Q : Q (Ok (f s)) s → wp (gets f) s Q.
Proof. done. Qed.

Lemma wp_modify (f : S → S) s Q : Q (Ok ()) (f s) → wp (modify f) s Q.
Proof. done. Qed.

Lemma wp_raise_if b e s Q :
  (b = true → Q (Raise e) s) → (b = false → Q (Ok ()) s) → wp (raise_if b e) s Q.
Proof. destruct b; intros H1 H2; [by apply H1|by apply H2]. Qed.

Lemma wp_when (b : bool) (m : M S ()) s Q :
  (b = true → wp m s Q) → (b = false → Q (Ok ()) s) → wp (when b m) s Q.
Proof. destruct b; intros H1 H2; [by apply H1|by apply H2]. Qed.

Lemma wp_some_or_raise (o : option A) e s Q :
  (∀ a, o = Some a → Q (Ok a) s) → (o = None → Q (Raise e) s) →
  wp (some_or_raise o e) s Q.
Proof. destruct o; intros H1 H2; [by apply H1|by apply H2]. Qed.

Lemma wp_lift (r : result A) s Q : Q r s → wp (lift r) s Q.
Proof. done. Qed.

Lemma wp_try (m : M S A) (catch : exn → bool) (h : exn → M S A) s Q :
  wp m s (λ r s', match r with
                  | Ok a => Q (Ok a) s'
                  | Raise e => if catch e then wp (h e) s' Q else Q (Raise e) s'
                  end) →
  wp (try_except m catch h) s Q.
Proof.
  unfold wp, try_except. destruct (m s) as [[a|e] s']; [done|].
  simpl. by destruct (catch e).
Qed.
End wp.

(** ** Invariants of operations

    [preserves I m]: [m] takes states satisfying [I] to states satisfying [I],
    whether it returns or raises. *)
Definition preserves {S A} (I : S → Prop) (m : M S A) : Prop :=
  ∀ s, I s → I (m s).2.

Section preserves.
Context {S : Type} (I : S → Prop).

Lemma preserves_wp {A} (m : M S A) :
  (∀ s, I s → wp m s (λ _ s', I s')) → preserves I m.
Proof. intros Hm s Hs. by apply Hm. Qed.

Lemma preserves_elim {A} (m : M S A) s : preserves I m → I s → wp m s (λ _ s', I s').
Proof. intros Hm Hs. by apply Hm. Qed.

(** One step of an operation that keeps the invariant. *)
Lemma wp_bind_preserves {A B} (m : M S A) (k : A → M S B) s (Q : result B → S → Prop) :
  preserves I m → I s → (∀ a s1, I s1 → wp (k a) s1 Q) → (∀ e s1, I s1 → Q (Raise e) s1) →
  wp (m ≫= k) s Q.
Proof.
  intros Hm Hs Hk Hr. unfold wp, mbind, M_bind. specialize (Hm s Hs).
  destruct (m s) as [[a|e] s1]; [by apply Hk|by apply Hr].
Qed.

Lemma preserves_ret {A} (a : A) : preserves I (mret a).
Proof. intros s Hs. exact Hs. Qed.
Lemma preserves_raise {A} e : preserves I (raise e : M S A).
Proof. intros s Hs. exact Hs. Qed.
Lemma preserves_get : preserves I get.
Proof. intros s Hs. exact Hs. Qed.
Lemma preserves_gets {A} (f : S → A) : preserves I (gets f).
Proof. intros s Hs. exact Hs. Qed.
Lemma preserves_lift {A} (r : result A) : preserves I (lift r).
Proof. intros s Hs. exact Hs. Qed.
Lemma preserves_modify (f : S → S) : (∀ s, I s → I (f s)) → preserves I (modify f).
Proof. intros Hf s Hs. by apply Hf. Qed.
Lemma preserves_raise_if b e : preserves I (raise_if b e).
Proof. intros s Hs. destruct b; exact Hs. Qed.
Lemma preserves_some_or_raise {A} (o : option A) e : preserves I (some_or_raise o e).
Proof. intros s Hs. destruct o; exact Hs. Qed.
Lemma preserves_when b m : preserves I m → preserves I (when b m).
Proof. intros Hm s Hs. destruct b; [by apply Hm|exact Hs]. Qed.
Lemma preserves_bind {A B} (m : M S A) (k : A → M S B) :
  preserves I m → (∀ a, preserves I (k a)) → preserves I (m ≫= k).
Proof.
  intros Hm Hk s Hs. unfold mbind, M_bind. specialize (Hm s Hs).
  destruct (m s) as [[a|e] s']; [by apply Hk|done].
Qed.
Lemma preserves_try {A} (m : M S A) catch h :
  preserves I m → (∀ e, preserves I (h e)) → preserves I (try_except m catch h).
Proof.
  intros Hm Hh s Hs. unfold try_except. specialize (Hm s Hs).
  destruct (m s) as [[a|e] s']; [done|]. destruct (catch e); [by apply Hh|done].
Qed.
Lemma preserves_for_each {A} (l : list A) f :
  (∀ a, preserves I (f a)) → preserves I (for_each l f).
Proof.
  intros Hf. induction l; simpl; [intros s Hs; exact Hs|]. apply preserves_bind; auto.
Qed.
End preserves.

(** The run of a sequence. *)
Lemma bind_run {S A B} (m : M S A) (k : A → M S B) s :
  (m ≫= k) s = match m s with (Ok a, s') => k a s' | (Raise e, s') => (Raise e, s') end.
Proof. reflexivity. Qed.

(** The run of each primitive, to execute an operation on a symbolic state. *)
Lemma ret_run {S A} (a : A) (s : S) : (mret a : M S A) s = (Ok a, s).
Proof. reflexivity. Qed.
Lemma raise_run {S A} e (s : S) : (raise e : M S A) s = (Raise e, s).
Proof. reflexivity. Qed.
Lemma get_run {S} (s : S) : get s = (Ok s, s).
Proof. reflexivity. Qed.
Lemma gets_run {S A} (f : S → A) s : gets f s = (Ok (f s), s).
Proof. reflexivity. Qed.
Lemma modify_run {S} (f : S → S) s : modify f s = (Ok (), f s).
Proof. reflexivity. Qed.
Lemma raise_if_run {S} b e (s : S) : raise_if b e s = if b then (Raise e, s) else (Ok (), s).
Proof. by destruct b. Qed.
Lemma when_run {S} b (m : M S ()) s : when b m s = if b then m s else (Ok (), s).
Proof. by destruct b. Qed.
Lemma some_or_raise_run {S A} (o : option A) e (s : S) :
  some_or_raise o e s = match o with Some a => (Ok a, s) | None => (Raise e, s) end.
Proof. by destruct o. Qed.

Create Rewrite HintDb run.
#[export] Hint Rewrite @bind_run @ret_run @raise_run @get_run @gets_run @modify_run @raise_if_run @when_run
  @some_or_raise_run : run.
Ltac run_steps := repeat (progress (autorewrite with run); cbn beta iota zeta).

(** ** What an operation may change

    [changes R m]: the state [m] reaches is related by the preorder [R] to the
    one it started from, whether it returns or raises. *)
Definition changes {S A} (R : S → S → Prop) (m : M S A) : Prop := ∀ s, R s (m s).2.

Section changes.
Context {S : Type} (R : S → S → Prop) `{!PreOrder R}.

Lemma changes_ret {A} (a : A) : changes R (mret a).
Proof. intros s. change (R s s). reflexivity. Qed.
Lemma changes_raise {A} e : changes R (raise e : M S A).
Proof. intros s. change (R s s). reflexivity. Qed.
Lemma changes_get : changes R get.
Proof. intros s. change (R s s). reflexivity. Qed.
Lemma changes_gets {A} (f : S → A) : changes R (gets f).
Proof. intros s. change (R s s). reflexivity. Qed.
Lemma changes_lift {A} (r : result A) : changes R (lift r).
Proof. intros s. change (R s s). reflexivity. Qed.
Lemma changes_raise_if b e : changes R (raise_if b e).
Proof. intros s. destruct b; change (R s s); reflexivity. Qed.
Lemma changes_some_or_raise {A} (o : option A) e : changes R (some_or_raise o e).
Proof. intros s. destruct o; change (R s s); reflexivity. Qed.
Lemma changes_modify f : (∀ s, R s (f s)) → changes R (modify f).
Proof. intros Hf s. apply Hf. Qed.
Lemma changes_bind {A B} (m : M S A) (k : A → M S B) :
  changes R m → (∀ a, changes R (k a)) → changes R (m ≫= k).
Proof.
  intros Hm Hk s. rewrite bind_run. specialize (Hm s).
  destruct (m s) as [[a|e] s1]; [|exact Hm]. etransitivity; [exact Hm|apply Hk].
Qed.
Lemma changes_when b m : changes R m → changes R (when b m).
Proof. intros Hm. destruct b; [exact Hm|apply changes_ret]. Qed.
Lemma changes_try {A} (m : M S A) (catch : exn → bool) (h : exn → M S A) :
  changes R m → (∀ e, changes R (h e)) → changes R (try_except m catch h).
Proof.
  intros Hm Hh s. unfold try_except. specialize (Hm s).
  destruct (m s) as [[a|e] s1]; [exact Hm|]. destruct (catch e); [|exact Hm].
  etransitivity; [exact Hm|apply Hh].
Qed.
End changes.

Lemma wp_changes {S A} (R : S → S → Prop) (m : M S A) s (Q : result A → S → Prop) :
  changes R m → (∀ r s', R s s' → Q r s') → wp m s Q.
Proof. intros Hm HQ. apply HQ, Hm. Qed.

Lemma wp_mono_changes {S A} (R : S → S → Prop) (m : M S A) s (Q Q' : result A → S → Prop) :
  wp m s Q → changes R m → (∀ r s', Q r s' → R s s' → Q' r s') → wp m s Q'.
Proof. intros HQ Hm H. apply H; [exact HQ|apply Hm]. Qed.

(** ** What an operation returns

    [returns m P]: whatever the state, a value [m] returns satisfies [P]. *)
Definition returns {S A} (m : M S A) (P : A → Prop) : Prop := ∀ s, match (m s).1 with Ok a => P a | Raise _ => True end.

Section returns.
Context {S A B : Type}.

Lemma returns_ret (a : A) (P : A → Prop) : P a → returns (mret a : M S A) P.
Proof. intros Ha s. exact Ha. Qed.
Lemma returns_bind (m : M S A) (k : A → M S B) (P : B → Prop) : (∀ a, returns (k a) P) → returns (m ≫= k) P.
Proof.
  intros Hk s. unfold mbind, M_bind. destruct (m s) as [[a|e] s1]; [apply Hk|exact I].
Qed.
Lemma returns_raise e (P : A → Prop) : returns (raise e : M S A) P.
Proof. intros s. exact I. Qed.
Lemma returns_try (m : M S A) catch h (P : A → Prop) :
  returns m P → (∀ e, returns (h e) P) → returns (try_except m catch h) P.
Proof.
  intros Hm Hh s. unfold try_except. specialize (Hm s). destruct (m s) as [[a|e] s1]; [exact Hm|].
  destruct (catch e); [apply Hh|exact I].
Qed.
Lemma returns_run (m : M S A) (P : A → Prop) s a s' : returns m P → m s = (Ok a, s') → P a.
Proof. intros Hm Hrun. specialize (Hm s). by rewrite Hrun in Hm. Qed.
End returns.

Lemma wp_returns {S A} (m : M S A) s (P : A → Prop) (Q : result A → S → Prop) :
  returns m P → wp m s (λ r s', match r with Ok a => P a → Q r s' | Raise _ => Q r s' end) → wp m s Q.
Proof.
  unfold wp. intros Hm HQ. specialize (Hm s). destruct (m s) as [[a|e] s1]; [by apply HQ|exact HQ].
Qed.

(** ** Automation *)

(** Structural proof of [returns m P], down to the values returned. *)
Ltac return_step :=
  lazymatch goal with
  | |- returns (mbind _ _) _ => apply returns_bind; intros
  | |- returns (mret _) _ => apply returns_ret
  | |- returns (raise _) _ => apply returns_raise
  | |- returns (try_except _ _ _) _ => apply returns_try; [|intros]
  | |- returns (if ?b then _ else _) _ => destruct b
  | |- returns (match ?o with _ => _ end) _ => destruct o
  | |- returns (let _ := _ in _) _ => cbv zeta
  end.
Ltac return_steps := repeat return_step.

#[export] Hint Resolve changes_ret changes_raise changes_get changes_gets changes_lift
  changes_raise_if changes_some_or_raise : ush.

(** Structural proof of [changes R m]. *)
Ltac change_step :=
  lazymatch goal with
  | |- changes _ (mbind _ _) => apply changes_bind; [apply _| |intros]
  | |- changes _ (when _ _) => apply changes_when; [apply _|]
  | |- changes _ (try_except _ _ _) => apply changes_try; [apply _| |intros]
  | |- changes _ (if ?b then _ else _) => destruct b
  | |- changes _ (match ?o with _ => _ end) => destruct o
  | |- changes _ (let _ := _ in _) => cbv zeta
  | |- changes _ _ => solve [eauto with ush typeclass_instances]
  end.
Ltac change_only := repeat change_step.


#[export] Hint Resolve preserves_ret preserves_raise preserves_get preserves_gets preserves_lift
  preserves_raise_if preserves_some_or_raise : ush.

(** One structural step of a weakest precondition. *)
Ltac wp_step :=
  lazymatch goal with
  | |- wp (mbind _ _) _ _ => apply wp_bind
  | |- wp (mret _) _ _ => apply wp_ret
  | |- wp (raise _) _ _ => apply wp_raise
  | |- wp get _ _ => apply wp_get
  | |- wp (gets _) _ _ => apply wp_gets
  | |- wp (modify _) _ _ => apply wp_modify
  | |- wp (lift _) _ _ => apply wp_lift
  | |- wp (raise_if _ _) _ _ => apply wp_raise_if; intros ?; breflect
  | |- wp (when _ _) _ _ => apply wp_when; intros ?; breflect
  | |- wp (some_or_raise _ _) _ _ => apply wp_some_or_raise; intros
  | |- wp (try_except _ _ _) _ _ => apply wp_try
  | |- wp (if ?b then _ else _) _ _ => let E := fresh "E" in destruct b eqn:E; breflect
  | |- wp (match ?o with Some _ => _ | None => _ end) _ _ => let E := fresh "E" in destruct o eqn:E
  end; cbn beta iota.
Ltac wp_steps := repeat wp_step.

(** Structural proof that an operation preserves an invariant; the leaves that
    change the state are left to the caller or to the [ush] hints. *)
Ltac preserve_step :=
  lazymatch goal with
  | |- preserves _ (mbind _ _) => apply preserves_bind; [|intros]
  | |- preserves _ (when _ _) => apply preserves_when
  | |- preserves _ (try_except _ _ _) => apply preserves_try; [|intros]
  | |- preserves _ (for_each _ _) => apply preserves_for_each; intros
  | |- preserves _ (if ?b then _ else _) => destruct b
  | |- preserves _ (match ?o with _ => _ end) => destruct o
  | |- preserves _ (let _ := _ in _) => cbv zeta
  | |- preserves _ _ => solve [eauto with ush]
  end.
Ltac preserve := repeat preserve_step.
