(* ===== verification/Intervals.v ===== *)
(** * Interval arithmetic of the availability engine
    (app/availability/domain/interval_engine.py and value_objects.py)

    Instants are microseconds since the epoch, as Z: the interval engine only
    compares datetimes and adds a [timedelta] of whole minutes to them.  An
    interval [start, end) denotes a set of instants, [covers]; the algorithms
    are specified by the sets they compute. *)

From S2P Require Import Prelude.

Inductive BlockType :=
  | AVAILABLE | BOOKING | HOME_BOOKING | LEAVE
  | OUTSIDE_WORKING_HOURS | OUTSIDE_BRANCH_HOURS | TEMPORARY_HOLD.

#[export] Instance BlockType_eq_dec : EqDecision BlockType.
Proof. solve_decision. Defined.

Definition BlockType_value (b : BlockType) : string :=
  match b with
  | AVAILABLE => "available" | BOOKING => "booking" | HOME_BOOKING => "home_booking"
  | LEAVE => "leave" | OUTSIDE_WORKING_HOURS => "outside_working_hours"
  | OUTSIDE_BRANCH_HOURS => "outside_branch_hours" | TEMPORARY_HOLD => "temporary_hold"
  end.

Record Interval := mk_interval { iv_start : Z; iv_end : Z }.

#[export] Instance Interval_eq_dec : EqDecision Interval.
Proof. solve_decision. Defined.

(** [Interval.overlaps]. *)
Definition overlaps (self other : Interval) : bool :=
  (self.(iv_start) <? other.(iv_end)) && (other.(iv_start) <? self.(iv_end)).

Definition minute : Z := 60 * 1000000.

(** [int(x.total_seconds() / 60)]: truncation towards zero. *)
Definition minutes_of (delta : Z) : Z := Z.quot delta minute.
Definition duration_minutes (self : Interval) : Z := minutes_of (self.(iv_end) - self.(iv_start)).

Record TimeBlock := mk_block {
  tb_start : Z; tb_end : Z; tb_available : bool; tb_blocking_type : BlockType;
  tb_booking_id : option string; tb_resource_type : option string }.

(** The data class's defaults. *)
Definition TimeBlock_new (s e : Z) (available : bool) (bt : BlockType) : TimeBlock :=
  mk_block s e available bt None None.

Module IntervalEngine.

(** ** merge_intervals *)

(** The sweep: [last] is [merged[-1]], the only element the loop rewrites. *)
Fixpoint merge_sweep (last : Interval) (rest : list Interval) : list Interval :=
  match rest with
  | [] => [last]
  | current :: rest =>
      if current.(iv_start) <=? last.(iv_end)
      then merge_sweep (mk_interval last.(iv_start) (Z.max last.(iv_end) current.(iv_end))) rest
      else last :: merge_sweep current rest
  end.

Definition merge_intervals (intervals : list Interval) : list Interval :=
  match sorted_by iv_start intervals with
  | [] => []
  | first :: rest => merge_sweep first rest
  end.

(** ** subtract_intervals *)

(** The inner [while] loop for one working interval [w], from position
    [current_start] with the blocked intervals that remain from index [bi] on:
    the intervals appended to the result, the position reached and the blocked
    intervals left for the next working interval. *)
Fixpoint subtract_one (w : Interval) (current_start : Z) (blocked : list Interval)
    : list Interval * Z * list Interval :=
  match blocked with
  | [] => ([], current_start, [])
  | b :: bs =>
      if b.(iv_start) <? w.(iv_end) then
        if b.(iv_end) <=? current_start then subtract_one w current_start bs
        else
          let gap := if current_start <? b.(iv_start)
                     then [mk_interval current_start (Z.min b.(iv_start) w.(iv_end))] else [] in
          let current_start' := Z.max current_start b.(iv_end) in
          if w.(iv_end) <=? current_start' then (gap, current_start', blocked)
          else if w.(iv_end) <? b.(iv_end) then (gap, current_start', blocked)
          else let '(r, c, rest) := subtract_one w current_start' bs in (gap ++ r, c, rest)
      else ([], current_start, blocked)
  end.

(** The outer [for] loop. *)
Fixpoint subtract_loop (working blocked : list Interval) : list Interval :=
  match working with
  | [] => []
  | w :: ws =>
      let '(r, current_start, rest) := subtract_one w w.(iv_start) blocked in
      let tail := if current_start <? w.(iv_end)
                  then [mk_interval current_start w.(iv_end)] else [] in
      r ++ tail ++ subtract_loop ws rest
  end.

Definition subtract_intervals (working blocked : list Interval) : list Interval :=
  match blocked with
  | [] => working
  | _ => subtract_loop working blocked
  end.

(** ** intersect_intervals: the two cursors advance one list each. *)
Fixpoint intersect_intervals (a : list Interval) : list Interval → list Interval :=
  fix go b :=
    match a, b with
    | x :: a', y :: b' =>
        let s := Z.max x.(iv_start) y.(iv_start) in
        let e := Z.min x.(iv_end) y.(iv_end) in
        (if s <? e then [mk_interval s e] else []) ++
        (if x.(iv_end) <? y.(iv_end) then intersect_intervals a' b else go b')
    | _, _ => []
    end.

(** ** generate_blocks *)

(** The [while] loop collecting the slot starts, bounded by [fuel]. *)
Fixpoint slot_starts (fuel : nat) (slot branch_close slot_start : Z) : list Z :=
  match fuel with
  | O => []
  | S fuel =>
      if slot_start + slot <=? branch_close
      then slot_start :: slot_starts fuel slot branch_close (slot_start + slot)
      else []
  end.

(** The number of iterations of that loop is at most the window's length in
    slots, see [slot_starts_seq]. *)
Definition all_slot_starts (slot branch_open branch_close : Z) : list Z :=
  slot_starts (S (Z.to_nat ((branch_close - branch_open) / slot))) slot branch_close branch_open.

Definition slot_is_free (free_intervals : list Interval) (slot ss : Z) : bool :=
  existsb (λ iv, (iv.(iv_start) <=? ss) && (ss + slot <=? iv.(iv_end))) free_intervals.

(** The indices of [free_set]. *)
Definition free_set (free_intervals : list Interval) (slot : Z) (starts : list Z) : list nat :=
  (List.filter (λ p : nat * Z, slot_is_free free_intervals slot p.2)
     (zip (seq 0 (length starts)) starts)).*1.

Definition classify_blocking_reason (slot_start slot_end : Z) (blocked : list Interval)
    (branch_open branch_close : Z) : BlockType :=
  if (slot_start <? branch_open) || (branch_close <? slot_end) then OUTSIDE_BRANCH_HOURS
  else BOOKING.

Definition slots_needed (service_duration_minutes slot_minutes : Z) : nat :=
  Z.to_nat (Z.max 1 (service_duration_minutes / slot_minutes)).

Definition generate_blocks (free_intervals all_intervals blocked_intervals : list Interval)
    (slot_minutes branch_open branch_close service_duration_minutes : Z) : list TimeBlock :=
  let slot := slot_minutes * minute in
  let needed := slots_needed service_duration_minutes slot_minutes in
  let starts := all_slot_starts slot branch_open branch_close in
  let free := free_set free_intervals slot starts in
  imap (λ idx ss,
    let slot_end := ss + slot in
    let is_available := forallb (λ k, (idx + k)%nat in? free) (seq 0 needed) in
    if is_available then TimeBlock_new ss slot_end true AVAILABLE
    else TimeBlock_new ss slot_end false
           (classify_blocking_reason ss slot_end blocked_intervals branch_open branch_close))
    starts.

End IntervalEngine.

(** * Specification: intervals as sets of instants *)

Definition covers (l : list Interval) (t : Z) : Prop :=
  Exists (λ iv, iv.(iv_start) <= t < iv.(iv_end)) l.

(** Well-formed lists: every interval non-empty, and each one ends strictly
    before the later ones start ([separated]) or at the latest when they start
    ([ordered]). *)
Definition nonempty (iv : Interval) : Prop := iv.(iv_start) < iv.(iv_end).
Definition separated (l : list Interval) : Prop :=
  StronglySorted (λ a b, a.(iv_end) < b.(iv_start)) l.
Definition ordered (l : list Interval) : Prop :=
  StronglySorted (λ a b, a.(iv_end) <= b.(iv_start)) l.

#[export] Instance covers_dec l t : Decision (covers l t).
Proof. unfold covers. apply _. Defined.

(** Two lists that denote the same set of instants. *)
Definition same_set (l k : list Interval) : Prop := ∀ t, covers l t ↔ covers k t.

#[export] Instance same_set_equiv : Equivalence same_set.
Proof.
  split.
  - intros l t. done.
  - intros l k H t. by rewrite (H t).
  - intros l k m H1 H2 t. by rewrite (H1 t).
Qed.

Lemma covers_nil t : covers [] t ↔ False.
Proof. apply Exists_nil. Qed.
Lemma covers_cons iv l t :
  covers (iv :: l) t ↔ iv.(iv_start) <= t < iv.(iv_end) ∨ covers l t.
Proof. apply Exists_cons. Qed.
Lemma covers_app l k t : covers (l ++ k) t ↔ covers l t ∨ covers k t.
Proof. apply Exists_app. Qed.
Lemma covers_elem l t : covers l t ↔ ∃ iv, iv ∈ l ∧ iv.(iv_start) <= t < iv.(iv_end).
Proof. unfold covers. rewrite Exists_exists. done. Qed.

#[export] Instance covers_perm : Proper ((≡ₚ) ==> (=) ==> iff) covers.
Proof. intros l k Hlk t ? <-. unfold covers. by rewrite Hlk. Qed.
#[export] Instance covers_same_set : Proper (same_set ==> (=) ==> iff) covers.
Proof. intros l k Hlk t ? <-. apply Hlk. Qed.
#[export] Instance app_same_set : Proper (same_set ==> same_set ==> same_set) app.
Proof. intros l l' Hl k k' Hk t. by rewrite !covers_app, (Hl t), (Hk t). Qed.

Create Rewrite HintDb covers.
#[export] Hint Rewrite covers_nil covers_cons covers_app : covers.

Lemma covers_before l lo t :
  Forall (λ b, lo <= b.(iv_start)) l → t < lo → ¬ covers l t.
Proof.
  unfold covers. intros Hl Ht [iv [Hin Hiv]]%Exists_exists.
  rewrite Forall_forall in Hl. specialize (Hl iv Hin). simpl in *. lia.
Qed.
Lemma covers_after l hi t :
  Forall (λ b, b.(iv_end) <= hi) l → hi <= t → ¬ covers l t.
Proof.
  unfold covers. intros Hl Ht [iv [Hin Hiv]]%Exists_exists.
  rewrite Forall_forall in Hl. specialize (Hl iv Hin). simpl in *. lia.
Qed.

Lemma separated_ordered l : separated l → ordered l.
Proof.
  induction 1 as [|a l _ IH Ha]; constructor; [done|].
  eapply Forall_impl; [exact Ha|]. simpl; lia.
Qed.

(** * Theorems *)

Import IntervalEngine.

(** ** merge_intervals *)

Lemma merge_sweep_covers last l t :
  StronglySorted (λ a b, iv_start a <= iv_start b) (last :: l) →
  covers (merge_sweep last l) t ↔ covers (last :: l) t.
Proof.
  revert last; induction l as [|c l IH]; intros last Hs; [done|].
  apply StronglySorted_inv in Hs as [Hs Hl].
  pose proof (Forall_inv Hl) as Hc; pose proof (Forall_inv_tail Hl) as Hl'. simpl in Hc.
  apply StronglySorted_inv in Hs as [Hs Hcl].
  simpl. case_if.
  - rewrite IH by (constructor; done).
    rewrite !covers_cons; simpl.
    assert (last.(iv_start) <= t < Z.max last.(iv_end) c.(iv_end) ↔
            last.(iv_start) <= t < last.(iv_end) ∨ c.(iv_start) <= t < c.(iv_end)) by lia.
    tauto.
  - rewrite !covers_cons, IH by (constructor; done). rewrite covers_cons. done.
Qed.

Lemma merge_sweep_separated last l :
  StronglySorted (λ a b, iv_start a <= iv_start b) (last :: l) →
  separated (merge_sweep last l) ∧
  Forall (λ b, last.(iv_start) <= b.(iv_start)) (merge_sweep last l).
Proof.
  revert last; induction l as [|c l IH]; intros last Hs; simpl.
  { split; repeat constructor. lia. }
  apply StronglySorted_inv in Hs as [Hs Hl].
  pose proof (Forall_inv Hl) as Hc; pose proof (Forall_inv_tail Hl) as Hl'. simpl in Hc.
  case_if.
  - apply StronglySorted_inv in Hs as [Hs _].
    apply (IH (mk_interval _ _)). by constructor.
  - destruct (IH c Hs) as [Hsep Hge]. split.
    + constructor; [done|]. eapply Forall_impl; [exact Hge|]. simpl; lia.
    + constructor; [lia|]. eapply Forall_impl; [exact Hge|]. simpl; lia.
Qed.

Lemma merge_sweep_nonempty last l :
  nonempty last → Forall nonempty l → Forall nonempty (merge_sweep last l).
Proof.
  revert last; induction l as [|c l IH]; intros last Hn Hl; simpl; [by constructor|].
  inversion_clear Hl. case_if; [|constructor; auto].
  apply IH; [|done]. unfold nonempty in *; simpl in *; lia.
Qed.

(** Merging keeps the set of instants, whatever the input. *)
Lemma merge_intervals_same_set l : same_set (merge_intervals l) l.
Proof.
  intros t. unfold merge_intervals.
  pose proof (sorted_by_sorted iv_start l) as Hs.
  pose proof (sorted_by_perm iv_start l) as Hp.
  destruct (sorted_by iv_start l) as [|c k].
  { by rewrite <- Hp. }
  rewrite merge_sweep_covers by done. by rewrite Hp.
Qed.

Lemma merge_intervals_separated l : separated (merge_intervals l).
Proof.
  unfold merge_intervals. pose proof (sorted_by_sorted iv_start l) as Hs.
  destruct (sorted_by iv_start l); [constructor|]. by apply merge_sweep_separated.
Qed.

Lemma merge_intervals_nonempty l : Forall nonempty l → Forall nonempty (merge_intervals l).
Proof.
  intros Hl. assert (Forall nonempty (sorted_by iv_start l)) as Hs by by rewrite sorted_by_perm.
  unfold merge_intervals. destruct (sorted_by iv_start l); [done|].
  inversion_clear Hs. by apply merge_sweep_nonempty.
Qed.

#[export] Hint Resolve merge_intervals_separated merge_intervals_nonempty separated_ordered : ush.

(** ** subtract_intervals *)

(** The inner loop: from position [cs] inside [w], the emitted intervals and
    the final position [c] account for every instant of [cs, w.end) that no
    blocked interval covers, and only for those. *)
Lemma subtract_one_covers w cs bl r c rest :
  ordered bl → Forall nonempty bl → cs <= w.(iv_end) →
  subtract_one w cs bl = (r, c, rest) →
  cs <= c ∧
  (∀ t, covers r t → cs <= t < w.(iv_end)) ∧
  (∀ t, cs <= t < w.(iv_end) → (covers r t ∨ c <= t) ↔ ¬ covers bl t).
Proof.
  revert cs r c rest; induction bl as [|b bl IH]; intros cs r c rest Hs Hn Hcs; simpl.
  { intros [= <- <- <-]. split_and!; [lia| |]; intros t; rewrite covers_nil; [done|]. intuition lia. }
  apply StronglySorted_inv in Hs as [Hs Hb]. inversion_clear Hn as [|? ? Hne Hn'].
  unfold nonempty in Hne.
  assert (Forall (λ x, b.(iv_end) <= x.(iv_start)) bl) as Hb' by done.
  destruct (b.(iv_start) <? w.(iv_end)) eqn:E1; breflect; cycle 1.
  { intros [= <- <- <-]. split_and!; [lia| |]; intros t; rewrite covers_nil; [done|].
    intros Ht. rewrite covers_cons.
    assert (¬ covers bl t) by (apply (covers_before bl b.(iv_end)); [done|lia]). intuition lia. }
  destruct (b.(iv_end) <=? cs) eqn:E2; breflect.
  { intros Hr. destruct (IH cs r c rest Hs Hn' Hcs Hr) as (Hc & Hr1 & Hr2).
    split_and!; [done|done|]. intros t Ht. rewrite Hr2 by done. rewrite covers_cons. intuition lia. }
  set (gap := if cs <? b.(iv_start) then _ else _).
  assert (∀ t, covers gap t ↔ cs <= t < b.(iv_start)) as Hgap.
  { intros t. unfold gap. destruct (cs <? b.(iv_start)) eqn:E3; breflect;
      rewrite ?covers_cons, covers_nil; simpl; intuition lia. }
  clearbody gap. pose proof (λ t, covers_before bl b.(iv_end) t Hb') as Hbefore.
  assert (∀ t, cs <= t < w.(iv_end) → w.(iv_end) <= Z.max cs b.(iv_end) →
          (covers gap t ∨ Z.max cs b.(iv_end) <= t) ↔ ¬ covers (b :: bl) t) as Hlast.
  { intros t Ht Hw. rewrite covers_cons, Hgap.
    destruct (decide (t < b.(iv_end))) as [Hlt|]; [specialize (Hbefore t Hlt)|]; intuition lia. }
  destruct (w.(iv_end) <=? Z.max cs b.(iv_end)) eqn:E4; breflect.
  { intros [= <- <- <-]. split_and!; [lia| |]; intros t Ht; [apply Hgap in Ht; lia|].
    by apply Hlast. }
  destruct (w.(iv_end) <? b.(iv_end)) eqn:E5; breflect; [lia|].
  destruct (subtract_one w (Z.max cs b.(iv_end)) bl) as [[r' c'] rest'] eqn:Er.
  intros [= <- <- <-].
  destruct (IH (Z.max cs b.(iv_end)) r' c' rest' Hs Hn' ltac:(lia) Er) as (Hc & Hr1 & Hr2).
  split_and!; [lia| |].
  - intros t. rewrite covers_app, Hgap. intros [?|H]; [lia|]. apply Hr1 in H. lia.
  - intros t Ht. rewrite covers_app, covers_cons, Hgap.
    destruct (decide (Z.max cs b.(iv_end) <= t)) as [Hle|Hlt].
    + assert (covers r' t ∨ c' <= t ↔ ¬ covers bl t) as H by (apply Hr2; lia). intuition lia.
    + assert (¬ covers bl t) by (apply Hbefore; lia).
      assert (¬ covers r' t) by (intros Hx; apply Hr1 in Hx; lia). intuition lia.
Qed.

(** What the inner loop leaves for the next working interval: the dropped
    blocks all end by the end of [w]. *)
Lemma subtract_one_rest w cs bl r c rest :
  cs <= w.(iv_end) → subtract_one w cs bl = (r, c, rest) →
  ∃ dropped, bl = dropped ++ rest ∧ Forall (λ b, b.(iv_end) <= w.(iv_end)) dropped.
Proof.
  revert cs r c rest; induction bl as [|b bl IH]; intros cs r c rest Hcs; simpl.
  { intros [= <- <- <-]. by exists []. }
  destruct (b.(iv_start) <? w.(iv_end)); [|intros [= <- <- <-]; by exists []].
  destruct (b.(iv_end) <=? cs) eqn:E2; breflect.
  { intros Hr. destruct (IH cs r c rest Hcs Hr) as (d & -> & Hd).
    exists (b :: d). split; [done|]. constructor; [lia|done]. }
  destruct (w.(iv_end) <=? Z.max cs b.(iv_end)) eqn:E4; breflect;
    [intros [= <- <- <-]; by exists []|].
  destruct (w.(iv_end) <? b.(iv_end)) eqn:E5; breflect; [lia|].
  destruct (subtract_one w (Z.max cs b.(iv_end)) bl) as [[r' c'] rest'] eqn:Er.
  intros [= <- <- <-].
  destruct (IH (Z.max cs b.(iv_end)) r' c' rest' ltac:(lia) Er) as (d & -> & Hd).
  exists (b :: d). split; [done|]. constructor; [lia|done].
Qed.

Lemma ordered_app_r l k : ordered (l ++ k) → ordered k.
Proof. induction l as [|a l IH]; simpl; [done|]. intros [H _]%StronglySorted_inv. auto. Qed.

Lemma subtract_loop_same_set ws bl t :
  ordered ws → Forall nonempty ws → ordered bl → Forall nonempty bl →
  covers (subtract_loop ws bl) t ↔ covers ws t ∧ ¬ covers bl t.
Proof.
  revert bl; induction ws as [|w ws IH]; intros bl Hws Hwn Hbl Hbn; simpl.
  { rewrite covers_nil. tauto. }
  apply StronglySorted_inv in Hws as [Hws Hw]. inversion_clear Hwn as [|? ? Hne Hwn'].
  unfold nonempty in Hne.
  destruct (subtract_one w w.(iv_start) bl) as [[r c] rest] eqn:Er.
  destruct (subtract_one_covers w w.(iv_start) bl r c rest Hbl Hbn ltac:(lia) Er)
    as (Hc & Hr1 & Hr2).
  destruct (subtract_one_rest w w.(iv_start) bl r c rest ltac:(lia) Er) as (d & -> & Hd).
  assert (Forall nonempty rest) as Hrn by by apply Forall_app in Hbn as [_ ?].
  rewrite !covers_app, IH by (done || by eapply ordered_app_r).
  assert (covers (if c <? w.(iv_end) then [mk_interval c w.(iv_end)] else []) t ↔
          c <= t < w.(iv_end)) as ->.
  { destruct (c <? w.(iv_end)) eqn:E; breflect; rewrite ?covers_cons, covers_nil; simpl;
      intuition lia. }
  rewrite covers_cons. specialize (Hr1 t). specialize (Hr2 t). rewrite covers_app in Hr2.
  destruct (decide (w.(iv_start) <= t < w.(iv_end))) as [Hin|Hout].
  - assert (¬ covers ws t) by (apply (covers_before ws w.(iv_end)); [done|lia]).
    specialize (Hr2 Hin). intuition lia.
  - assert (¬ covers r t) by tauto.
    destruct (decide (covers ws t)) as [Hcw|]; [|intuition lia].
    assert (w.(iv_end) <= t).
    { destruct (decide (w.(iv_end) <= t)); [done|]. exfalso.
      apply (covers_before ws w.(iv_end) t Hw); [lia|done]. }
    assert (¬ covers d t) by (apply (covers_after d w.(iv_end)); done).
    intuition lia.
Qed.

(** Subtraction computes the set difference. *)
Lemma subtract_intervals_spec ws bl t :
  ordered ws → Forall nonempty ws → ordered bl → Forall nonempty bl →
  covers (subtract_intervals ws bl) t ↔ covers ws t ∧ ¬ covers bl t.
Proof.
  intros ?? Hb ?. unfold subtract_intervals. destruct bl as [|b bl].
  - rewrite covers_nil. tauto.
  - by apply subtract_loop_same_set.
Qed.

(** The emitted intervals are non-empty, start from [cs] on and end strictly
    before the position reached, so the next emission is detached. *)
Lemma subtract_one_separated w cs bl r c rest :
  ordered bl → Forall nonempty bl → cs <= w.(iv_end) →
  subtract_one w cs bl = (r, c, rest) →
  separated r ∧ Forall nonempty r ∧ Forall (λ iv, cs <= iv.(iv_start)) r ∧
  Forall (λ iv, iv.(iv_end) < c ∧ iv.(iv_end) <= w.(iv_end)) r ∧ cs <= c.
Proof.
  revert cs r c rest; induction bl as [|b bl IH]; intros cs r c rest Hs Hn Hcs; simpl.
  { intros [= <- <- <-]. split_and!; (constructor || lia). }
  apply StronglySorted_inv in Hs as [Hs Hb]. inversion_clear Hn as [|? ? Hne Hn'].
  unfold nonempty in Hne.
  destruct (b.(iv_start) <? w.(iv_end)) eqn:E1; breflect; cycle 1.
  { intros [= <- <- <-]. split_and!; (constructor || lia). }
  destruct (b.(iv_end) <=? cs) eqn:E2; breflect; [by apply IH|].
  set (gap := if cs <? b.(iv_start) then _ else _).
  assert (gap = [] ∨ cs < b.(iv_start) ∧ gap = [mk_interval cs b.(iv_start)]) as Hgap.
  { unfold gap. destruct (cs <? b.(iv_start)) eqn:E3; breflect; [right|by left].
    split; [done|]. by rewrite Z.min_l by lia. }
  clearbody gap.
  assert (∀ c rest, (gap, Z.max cs b.(iv_end), b :: bl) = (r, c, rest) →
    separated r ∧ Forall nonempty r ∧ Forall (λ iv, cs <= iv.(iv_start)) r ∧
    Forall (λ iv, iv.(iv_end) < c ∧ iv.(iv_end) <= w.(iv_end)) r ∧ cs <= c) as Hstop.
  { intros ?? [= <- <- <-]. unfold separated, nonempty.
    destruct Hgap as [->|[? ->]]; split_and!; repeat constructor; simpl; lia. }
  destruct (w.(iv_end) <=? Z.max cs b.(iv_end)) eqn:E4; [by apply Hstop|].
  destruct (w.(iv_end) <? b.(iv_end)); [by apply Hstop|]. clear Hstop. breflect.
  destruct (subtract_one w (Z.max cs b.(iv_end)) bl) as [[r' c'] rest'] eqn:Er.
  intros [= <- <- <-].
  destruct (IH (Z.max cs b.(iv_end)) r' c' rest' Hs Hn' ltac:(lia) Er)
    as (H1 & H2 & H3 & H4 & H5).
  assert (Forall (λ iv, b.(iv_start) < iv.(iv_start)) r') as H3'.
  { eapply Forall_impl; [exact H3|]. simpl; lia. }
  assert (Forall (λ iv, cs <= iv.(iv_start)) r') as H3''.
  { eapply Forall_impl; [exact H3|]. simpl; lia. }
  destruct Hgap as [->|[? ->]]; [split_and!; done || lia|].
  unfold separated in *; simpl; split_and!; try (constructor; simpl; done || lia). lia.
Qed.

Lemma StronglySorted_app_intro {A} (R : A → A → Prop) l k :
  StronglySorted R l → StronglySorted R k → Forall (λ a, Forall (R a) k) l →
  StronglySorted R (l ++ k).
Proof.
  induction 1 as [|a l Hl IH Ha]; simpl; [done|]. intros Hk [Hak Hlk]%Forall_cons.
  constructor; [by apply IH|]. apply Forall_app. by split.
Qed.

Lemma subtract_loop_separated ws bl lo :
  separated ws → Forall nonempty ws → ordered bl → Forall nonempty bl →
  Forall (λ w, lo <= w.(iv_start)) ws →
  separated (subtract_loop ws bl) ∧ Forall nonempty (subtract_loop ws bl) ∧
  Forall (λ iv, lo <= iv.(iv_start)) (subtract_loop ws bl).
Proof.
  revert bl lo; induction ws as [|w ws IH]; intros bl lo Hws Hwn Hbl Hbn Hlo; simpl.
  { split_and!; constructor. }
  apply StronglySorted_inv in Hws as [Hws Hw]. apply Forall_cons in Hwn as [Hne Hwn'].
  apply Forall_cons in Hlo as [Hlow _]. unfold nonempty in Hne.
  destruct (subtract_one w w.(iv_start) bl) as [[r c] rest] eqn:Er.
  destruct (subtract_one_separated w w.(iv_start) bl r c rest Hbl Hbn ltac:(lia) Er)
    as (H1 & H2 & H3 & H4 & H5).
  destruct (subtract_one_rest w w.(iv_start) bl r c rest ltac:(lia) Er) as (d & -> & _).
  destruct (IH rest (w.(iv_end) + 1)) as (I1 & I2 & I3).
  { done. }
  { done. }
  { by eapply ordered_app_r. }
  { by apply Forall_app in Hbn as [_ ?]. }
  { eapply Forall_impl; [exact Hw|]. simpl; lia. }
  set (out := subtract_loop ws rest) in *. clearbody out.
  set (tail := if c <? w.(iv_end) then _ else _).
  assert (tail = [] ∨ c < w.(iv_end) ∧ tail = [mk_interval c w.(iv_end)]) as Htail.
  { unfold tail. destruct (c <? w.(iv_end)) eqn:E; breflect; auto. }
  clearbody tail.
  assert (separated (tail ++ out) ∧ Forall nonempty (tail ++ out) ∧
          Forall (λ iv, c <= iv.(iv_start) ∨ w.(iv_end) < iv.(iv_start)) (tail ++ out))
    as (T1 & T2 & T3).
  { assert (Forall (λ iv, c <= iv.(iv_start) ∨ w.(iv_end) < iv.(iv_start)) out).
    { eapply Forall_impl; [exact I3|]. simpl; lia. }
    destruct Htail as [->|[? ->]]; [done|]. unfold separated, nonempty.
    split_and!; constructor; simpl; try done; try lia.
    eapply Forall_impl; [exact I3|]. simpl; lia. }
  split_and!.
  - apply StronglySorted_app_intro; [done..|].
    eapply Forall_impl; [exact H4|]. intros iv [Hc Hw']. simpl in *.
    eapply Forall_impl; [exact T3|]. simpl; lia.
  - by apply Forall_app.
  - apply Forall_app; split.
    + eapply Forall_impl; [exact H3|]. simpl; lia.
    + eapply Forall_impl; [exact T3|]. simpl; lia.
Qed.

Lemma subtract_intervals_separated ws bl :
  separated ws → Forall nonempty ws → ordered bl → Forall nonempty bl →
  separated (subtract_intervals ws bl) ∧ Forall nonempty (subtract_intervals ws bl).
Proof.
  intros Hs Hn Hb Hbn. unfold subtract_intervals. destruct bl as [|b bl]; [done|].
  destruct ws as [|w ws]; [by split; constructor|].
  destruct (subtract_loop_separated (w :: ws) (b :: bl) w.(iv_start)) as (?&?&?); try done.
  apply StronglySorted_inv in Hs as [_ Hw]. apply Forall_cons in Hn as [Hn _].
  constructor; [lia|]. eapply Forall_impl; [exact Hw|]. unfold nonempty in Hn; simpl; lia.
Qed.

(** In a separated list, a whole window of instants is covered exactly when
    one interval contains it: this is what the slot test asks. *)
Lemma separated_window l s e :
  separated l → Forall nonempty l → s < e →
  (∀ t, s <= t < e → covers l t) ↔ Exists (λ iv, iv.(iv_start) <= s ∧ e <= iv.(iv_end)) l.
Proof.
  intros Hs Hn Hse. split.
  - induction Hs as [|a l Hl IH Ha]; intros Hall.
    { exfalso. apply (proj1 (covers_nil s)), Hall. lia. }
    apply Forall_cons in Hn as [Hna Hn]. unfold nonempty in Hna.
    destruct (decide (a.(iv_start) <= s < a.(iv_end))) as [Hin|Hout].
    + left. split; [lia|]. destruct (decide (e <= a.(iv_end))) as [|He]; [done|].
      exfalso. assert (covers (a :: l) a.(iv_end)) as Hc by (apply Hall; lia).
      apply covers_cons in Hc as [?|Hc]; [lia|].
      apply (covers_before l (a.(iv_end) + 1) a.(iv_end)); [|lia|done].
      eapply Forall_impl; [exact Ha|]. simpl; lia.
    + right. apply IH; [done|]. intros t Ht. pose proof (Hall t Ht) as Hc.
      apply covers_cons in Hc as [Hta|]; [|done]. exfalso.
      assert (covers (a :: l) s) as Hcs by (apply Hall; lia).
      apply covers_cons in Hcs as [?|Hcs]; [lia|].
      apply (covers_before l (a.(iv_end) + 1) s); [|lia|done].
      eapply Forall_impl; [exact Ha|]. simpl; lia.
  - intros [iv [Hin Hiv]]%Exists_exists t Ht. apply covers_elem. exists iv. split; [done|lia].
Qed.

(** ** intersect_intervals *)

Lemma covers_singleton s e t : covers (if s <? e then [mk_interval s e] else []) t ↔ s <= t < e.
Proof. destruct (s <? e) eqn:E; breflect; rewrite ?covers_cons, covers_nil; simpl; intuition lia. Qed.

Lemma intersect_intervals_eq a b :
  intersect_intervals a b =
  match a, b with
  | x :: a', y :: b' =>
      let s := Z.max x.(iv_start) y.(iv_start) in
      let e := Z.min x.(iv_end) y.(iv_end) in
      (if s <? e then [mk_interval s e] else []) ++
      (if x.(iv_end) <? y.(iv_end) then intersect_intervals a' b else intersect_intervals a b')
  | _, _ => []
  end.
Proof. by destruct a, b. Qed.

Lemma ordered_later a l t :
  ordered (a :: l) → covers l t → a.(iv_end) <= t.
Proof.
  intros [_ Ha]%StronglySorted_inv Hc. destruct (decide (a.(iv_end) <= t)); [done|].
  exfalso. apply (covers_before l a.(iv_end) t Ha); [lia|done].
Qed.

Lemma intersect_intervals_spec a b t :
  ordered a → ordered b →
  covers (intersect_intervals a b) t ↔ covers a t ∧ covers b t.
Proof.
  remember (length a + length b)%nat as n eqn:Hn.
  revert a b Hn; induction n as [n IH] using lt_wf_ind; intros a b -> Ha Hb.
  rewrite intersect_intervals_eq.
  destruct a as [|x a]; [rewrite covers_nil; tauto|].
  destruct b as [|y b]; [rewrite covers_nil; tauto|]. cbv zeta.
  rewrite covers_app, covers_singleton.
  pose proof (ordered_later x a t Ha) as Hxa. pose proof (ordered_later y b t Hb) as Hyb.
  pose proof (proj1 (StronglySorted_inv Ha)) as Ha'. pose proof (proj1 (StronglySorted_inv Hb)) as Hb'.
  case_if.
  - rewrite (IH (length a + length (y :: b))%nat) by (simpl; done || lia).
    rewrite !covers_cons. intuition lia.
  - rewrite (IH (length (x :: a) + length b)%nat) by (simpl; done || lia).
    rewrite !covers_cons. intuition lia.
Qed.

(** ** generate_blocks *)

(** With a positive slot the fuel of the loop suffices: the starts are exactly
    the multiples of the slot that fit in the window. *)
Lemma slot_starts_seq slot branch_close n start :
  0 < slot → start + Z.of_nat n * slot <= branch_close →
  branch_close < start + (Z.of_nat n + 1) * slot →
  slot_starts (S n) slot branch_close start = (λ i, start + Z.of_nat i * slot) <$> seq 0 n.
Proof.
  intros Hslot. revert start; induction n as [|n IH]; intros start H1 H2.
  { simpl. case_if; [lia|done]. }
  cbn [slot_starts]. case_if; [|lia]. fold (slot_starts (S n) slot branch_close (start + slot)).
  change (if start + slot + slot <=? branch_close then _ else _)
    with (slot_starts (S n) slot branch_close (start + slot)).
  rewrite IH by lia. cbn [seq fmap list_fmap]. f_equal; [lia|].
  rewrite <- seq_shift, <- list_fmap_compose. apply list_fmap_ext. intros _ i _. simpl. lia.
Qed.

Definition slot_count (slot branch_open branch_close : Z) : nat :=
  Z.to_nat ((branch_close - branch_open) / slot).

Lemma all_slot_starts_seq slot o c :
  0 < slot → o <= c →
  all_slot_starts slot o c = (λ i, o + Z.of_nat i * slot) <$> seq 0 (slot_count slot o c).
Proof.
  intros Hslot Hoc. apply slot_starts_seq; [done| |];
    unfold slot_count; rewrite Z2Nat.id by (apply Z.div_pos; lia);
    pose proof (Z.div_mod (c - o) slot); pose proof (Z.mod_pos_bound (c - o) slot); nia.
Qed.

Lemma all_slot_starts_lookup slot o c i :
  0 < slot → o <= c →
  all_slot_starts slot o c !! i =
  if decide (i < slot_count slot o c)%nat then Some (o + Z.of_nat i * slot) else None.
Proof.
  intros Hslot Hoc. rewrite all_slot_starts_seq by done. rewrite list_lookup_fmap.
  case_decide.
  - by rewrite lookup_seq_lt.
  - by rewrite lookup_seq_ge by lia.
Qed.

Lemma elem_of_free_set free slot starts i :
  i ∈ free_set free slot starts ↔ ∃ ss, starts !! i = Some ss ∧ slot_is_free free slot ss = true.
Proof.
  unfold free_set. rewrite list_elem_of_fmap. split.
  - intros ([j ss] & -> & Hin). apply elem_of_filter_list in Hin as [Hin Hf]. exists ss.
    split; [|done]. simpl. apply list_elem_of_lookup in Hin as [k Hk].
    apply lookup_zip_with_Some in Hk as (j' & ss' & [= -> ->] & Hj & Hss).
    by apply lookup_seq in Hj as [-> _].
  - intros (ss & Hss & Hf). exists (i, ss). split; [done|]. apply elem_of_filter_list.
    split; [|done]. apply list_elem_of_lookup. exists i. apply lookup_zip_with_Some.
    exists i, ss. split_and!; [done| |done]. apply lookup_seq. split; [done|].
    by apply lookup_lt_Some in Hss.
Qed.

Lemma slot_is_free_spec free slot ss :
  separated free → Forall nonempty free → 0 < slot →
  slot_is_free free slot ss = true ↔ ∀ t, ss <= t < ss + slot → covers free t.
Proof.
  intros Hs Hn Hslot. rewrite separated_window by (done || lia). unfold slot_is_free.
  rewrite existsb_exists, Exists_exists. setoid_rewrite list_elem_of_In.
  split; intros (iv & Hin & H); exists iv; split; try done.
  - breflect. done.
  - by rewrite !andb_true_iff, !Z.leb_le.
Qed.

(** The lookup of a generated block. *)
Lemma generate_blocks_lookup free all blocked slot_minutes o c dur i :
  0 < slot_minutes → o <= c →
  generate_blocks free all blocked slot_minutes o c dur !! i =
  let slot := slot_minutes * minute in
  if decide (i < slot_count slot o c)%nat then
    let ss := o + Z.of_nat i * slot in
    Some (if forallb (λ k, (i + k)%nat in? free_set free slot (all_slot_starts slot o c))
               (seq 0 (slots_needed dur slot_minutes))
          then TimeBlock_new ss (ss + slot) true AVAILABLE
          else TimeBlock_new ss (ss + slot) false BOOKING)
  else None.
Proof.
  intros Hslot Hoc. unfold generate_blocks. cbv zeta. rewrite list_lookup_imap.
  assert (0 < slot_minutes * minute) as Hs by (unfold minute; lia).
  rewrite all_slot_starts_lookup by done. case_decide as Hi; [|done]. simpl.
  f_equal. case_match; [done|]. unfold classify_blocking_reason.
  assert (o + Z.of_nat i * (slot_minutes * minute) + slot_minutes * minute <= c).
  { unfold slot_count in Hi.
    pose proof (Z.mul_div_le (c - o) (slot_minutes * minute) ltac:(lia)).
    assert (Z.of_nat i + 1 <= (c - o) / (slot_minutes * minute)) by lia. nia. }
  destruct (_ <? _) eqn:E1; breflect; [nia|]. destruct (_ <? _) eqn:E2; breflect; [nia|]. done.
Qed.

Lemma slots_needed_pos dur slot_minutes : (1 <= slots_needed dur slot_minutes)%nat.
Proof. unfold slots_needed. lia. Qed.

(** A run of free slots is a free window. *)
Lemma slot_run_free free slot o c i n :
  0 < slot → o <= c → separated free → Forall nonempty free → (1 <= n)%nat →
  (∀ t, covers free t → o <= t < c) →
  let ss := o + Z.of_nat i * slot in
  forallb (λ k, (i + k)%nat in? free_set free slot (all_slot_starts slot o c)) (seq 0 n) = true ↔
  ∀ t, ss <= t < ss + Z.of_nat n * slot → covers free t.
Proof.
  intros Hslot Hoc Hs Hn Hn1 Hwin ss. rewrite forallb_forall.
  setoid_rewrite in_seq. setoid_rewrite bool_decide_eq_true. setoid_rewrite elem_of_free_set.
  split.
  - intros Hall t Ht. set (k := Z.to_nat ((t - ss) / slot)).
    assert (Z.of_nat k = (t - ss) / slot) as Hk by (unfold k; rewrite Z2Nat.id; [done|apply Z.div_pos; lia]).
    pose proof (Z.div_mod (t - ss) slot). pose proof (Z.mod_pos_bound (t - ss) slot).
    destruct (Hall k) as (x & Hx & Hf); [split; nia|].
    rewrite all_slot_starts_lookup in Hx by done. case_decide; simplify_eq.
      refine (proj1 (slot_is_free_spec free slot _ Hs Hn Hslot) Hf t _). nia.
  - intros Hall k [_ Hk]. simpl in Hk. exists (o + Z.of_nat (i + k) * slot). split.
    + rewrite all_slot_starts_lookup by done. rewrite decide_True; [done|].
      assert (o + Z.of_nat (i + k) * slot + slot <= c) as Hend.
      { assert (covers free (ss + (Z.of_nat k + 1) * slot - 1)) as Hc by (apply Hall; nia).
        apply Hwin in Hc. nia. }
      unfold slot_count. assert (Z.of_nat (i + k) + 1 <= (c - o) / slot); [|lia].
      apply Z.div_le_lower_bound; nia.
    + apply slot_is_free_spec; [done..|]. intros t Ht. apply Hall. nia.
Qed.
