(* ===== verification/Engine.v ===== *)
(** * The appointment availability engine
    (app/availability/domain/engine.py)

    [compute_day] is the body of the loop over the dates of
    [compute_therapist_availability], and the method itself folds it into the
    dictionary keyed by the date.  A date is a day number and a wall-clock time
    is the microseconds since midnight; [tz_offset] is the UTC offset of the
    branch's zone, a constant for the zones without daylight saving the
    service is deployed for (Asia/Kuwait, the configured default). *)

From S2P Require Import Prelude Intervals.
From stdpp Require Import pretty.
Import IntervalEngine.
#[local] Open Scope Z_scope.

Definition day_us : Z := 24 * 60 * minute.

Record DayAvailability := mk_day {
  da_date : Z; da_branch_opening : string; da_branch_closing : string;
  da_blocks : list TimeBlock; da_is_closed : bool }.

Record TherapistScheduleInput := mk_schedule {
  ts_therapist_id : string; ts_therapist_name : string;
  ts_is_available_for_home_service : bool;
  ts_working_hours : list Interval; ts_leaves : list Interval;
  ts_extra_hours : list Interval; ts_existing_bookings : list Interval;
  ts_home_bookings : list Interval; ts_temporary_holds : list Interval }.

(** [strftime("%H:%M")] of a wall-clock time. *)
Definition pad2 (n : Z) : string := ((if (n <? 10)%Z then "0" else "") ++ pretty n)%string.
Definition hhmm (wall : Z) : string :=
  let m := (wall / minute) mod (24 * 60) in
  (pad2 (m / 60) ++ ":" ++ pad2 (m mod 60))%string.

(** [TimeBlock.to_display], as the list of the dictionary's items. *)
Inductive DisplayValue := DStr (s : string) | DBool (b : bool).
Definition to_display (tz_offset : Z) (self : TimeBlock) : list (string * DisplayValue) :=
  [("start", DStr (hhmm (self.(tb_start) + tz_offset)));
   ("end", DStr (hhmm (self.(tb_end) + tz_offset)));
   ("available", DBool self.(tb_available))] ++
  (if self.(tb_available) then []
   else [("blocking_type", DStr (BlockType_value self.(tb_blocking_type)))]) ++
  match self.(tb_booking_id) with
  | Some b => if truthy b then [("booking_id", DStr b)] else []
  | None => []
  end.

Module Engine.

(** [datetime.combine(d, t, tzinfo=tz)]. *)
Definition combine (tz_offset d t : Z) : Z := d * day_us + t - tz_offset.

Definition filter_for_day (day_window : Interval) (ivs : list Interval) : list Interval :=
  List.filter (λ iv, overlaps iv day_window) ivs.

(** [_intersect_with_window]. *)
Fixpoint intersect_with_window (intervals : list Interval) (window : Interval) : list Interval :=
  match intervals with
  | [] => []
  | iv :: ivs =>
      let s := Z.max iv.(iv_start) window.(iv_start) in
      let e := Z.min iv.(iv_end) window.(iv_end) in
      (if s <? e then [mk_interval s e] else []) ++ intersect_with_window ivs window
  end.

(** [_generate_closed_blocks]: the loop visits the starts the block generator
    visits. *)
Definition generate_closed_blocks (branch_open branch_close slot_minutes : Z) : list TimeBlock :=
  let slot := slot_minutes * minute in
  (λ current, TimeBlock_new current (current + slot) false OUTSIDE_WORKING_HOURS)
    <$> all_slot_starts slot branch_open branch_close.

(** Steps 1 to 3: the effective working time of the day. *)
Definition effective_working (th : TherapistScheduleInput) (day_window : Interval) : list Interval :=
  let base_working := merge_intervals
    (filter_for_day day_window th.(ts_working_hours) ++ filter_for_day day_window th.(ts_extra_hours)) in
  subtract_intervals (intersect_with_window base_working day_window)
    (merge_intervals (filter_for_day day_window th.(ts_leaves))).

(** Step 4: everything that blocks. *)
Definition all_blocked (th : TherapistScheduleInput) (day_window : Interval) : list Interval :=
  merge_intervals
    (filter_for_day day_window th.(ts_existing_bookings) ++
     filter_for_day day_window th.(ts_home_bookings) ++
     filter_for_day day_window th.(ts_temporary_holds)).

(** Step 5. *)
Definition free_intervals (th : TherapistScheduleInput) (day_window : Interval) : list Interval :=
  subtract_intervals (effective_working th day_window) (all_blocked th day_window).

Section engine.
(** The engine's configuration: the fields of [__init__]. *)
Context (duration slot home_buffer : Z).

Definition compute_day (th : TherapistScheduleInput)
    (tz_offset branch_opening_time branch_closing_time d : Z) : DayAvailability :=
  let branch_open := combine tz_offset d branch_opening_time in
  let branch_close := combine tz_offset d branch_closing_time in
  let day_window := mk_interval branch_open branch_close in
  let working := effective_working th day_window in
  let blocked := all_blocked th day_window in
  let free := free_intervals th day_window in
  let blocks :=
    match working with
    | [] => generate_closed_blocks branch_open branch_close slot
    | _ => generate_blocks free working blocked slot branch_open branch_close duration
    end in
  mk_day d (hhmm branch_opening_time) (hhmm branch_closing_time) blocks
    (match working with [] => true | _ => false end).

Definition compute_therapist_availability (th : TherapistScheduleInput)
    (dates : list Z) (tz_offset branch_opening_time branch_closing_time : Z)
    : gmap Z DayAvailability :=
  foldl (λ result d,
    <[d := compute_day th tz_offset branch_opening_time branch_closing_time d]> result) ∅ dates.

Definition apply_home_service_buffer (iv : Interval) : Interval :=
  let buf := home_buffer * minute in
  mk_interval (iv.(iv_start) - buf) (iv.(iv_end) + buf).
End engine.

End Engine.

(** * Specification *)

(** The intervals of a schedule row are non-empty: its tables hold a start and
    a later end. *)
Definition schedule_wf (th : TherapistScheduleInput) : Prop :=
  Forall nonempty th.(ts_working_hours) ∧ Forall nonempty th.(ts_leaves) ∧
  Forall nonempty th.(ts_extra_hours) ∧ Forall nonempty th.(ts_existing_bookings) ∧
  Forall nonempty th.(ts_home_bookings) ∧ Forall nonempty th.(ts_temporary_holds).

(** When a therapist is at work, and when an appointment can start: at work,
    inside the branch's hours, not on leave, not booked, not held. *)
Definition at_work (th : TherapistScheduleInput) (w : Interval) (t : Z) : Prop :=
  w.(iv_start) <= t < w.(iv_end) ∧
  (covers th.(ts_working_hours) t ∨ covers th.(ts_extra_hours) t) ∧
  ¬ covers th.(ts_leaves) t.

Definition bookable (th : TherapistScheduleInput) (w : Interval) (t : Z) : Prop :=
  at_work th w t ∧ ¬ covers th.(ts_existing_bookings) t ∧
  ¬ covers th.(ts_home_bookings) t ∧ ¬ covers th.(ts_temporary_holds) t.

(** * Theorems *)

Import Engine.

Lemma filter_for_day_nonempty w l : Forall nonempty l → Forall nonempty (filter_for_day w l).
Proof.
  rewrite !Forall_forall. intros Hl iv [Hin _]%elem_of_filter_list. auto.
Qed.

Lemma filter_for_day_covers w l t :
  w.(iv_start) <= t < w.(iv_end) → covers (filter_for_day w l) t ↔ covers l t.
Proof.
  intros Ht. rewrite !covers_elem. unfold filter_for_day. setoid_rewrite elem_of_filter_list.
  split; [intros (iv & [Hin _] & Hiv); eauto|]. intros (iv & Hin & Hiv).
  exists iv. split_and!; try done; try lia. unfold overlaps. rewrite andb_true_iff, !Z.ltb_lt. lia.
Qed.

Lemma intersect_with_window_covers l w t :
  covers (intersect_with_window l w) t ↔ covers l t ∧ w.(iv_start) <= t < w.(iv_end).
Proof.
  induction l as [|iv l IH]; cbn [intersect_with_window].
  { rewrite covers_nil. tauto. }
  cbv zeta. rewrite covers_app, covers_singleton, covers_cons, IH. intuition lia.
Qed.

Lemma intersect_with_window_wf l w :
  separated l →
  separated (intersect_with_window l w) ∧ Forall nonempty (intersect_with_window l w) ∧
  ∀ lo, Forall (λ b, lo < b.(iv_start)) l → Forall (λ b, lo < b.(iv_start)) (intersect_with_window l w).
Proof.
  induction 1 as [|iv l Hl IH Hiv]; cbn [intersect_with_window]; [by split_and!; constructor|].
  cbv zeta. destruct IH as (IH1 & IH2 & IH3). case_if; cbn [app].
  - split_and!.
    + constructor; [done|]. apply IH3. eapply Forall_impl; [exact Hiv|]. simpl; lia.
    + by constructor.
    + intros lo [Hlo Hl']%Forall_cons. constructor; [simpl; lia|auto].
  - split_and!; [done|done|]. intros lo [_ Hl']%Forall_cons. auto.
Qed.

Lemma effective_working_spec th w t :
  schedule_wf th → covers (effective_working th w) t ↔ at_work th w t.
Proof.
  intros (H1 & H2 & H3 & _). unfold effective_working, at_work.
  destruct (intersect_with_window_wf (merge_intervals
    (filter_for_day w th.(ts_working_hours) ++ filter_for_day w th.(ts_extra_hours))) w)
    as (Hs & Hn & _); [auto with ush|].
  rewrite subtract_intervals_spec, intersect_with_window_covers, !merge_intervals_same_set, covers_app
    by auto using filter_for_day_nonempty with ush.
  split.
  - intros ((Hc & Hw) & Hleave). rewrite !filter_for_day_covers in * by done. tauto.
  - intros (Hw & Hc & Hleave). rewrite !filter_for_day_covers by done. tauto.
Qed.

Lemma effective_working_separated th w :
  schedule_wf th →
  separated (effective_working th w) ∧ Forall nonempty (effective_working th w).
Proof.
  intros (H1 & H2 & H3 & _). unfold effective_working.
  destruct (intersect_with_window_wf (merge_intervals
    (filter_for_day w th.(ts_working_hours) ++ filter_for_day w th.(ts_extra_hours))) w)
    as (Hs & Hn & _); [auto with ush|].
  apply subtract_intervals_separated; auto using filter_for_day_nonempty with ush.
Qed.

Lemma all_blocked_wf th w :
  schedule_wf th → separated (all_blocked th w) ∧ Forall nonempty (all_blocked th w).
Proof.
  intros (_ & _ & _ & H4 & H5 & H6). unfold all_blocked. split; [auto with ush|].
  apply merge_intervals_nonempty. rewrite !Forall_app. auto using filter_for_day_nonempty.
Qed.

Lemma free_intervals_bookable th w t :
  schedule_wf th → covers (free_intervals th w) t ↔ bookable th w t.
Proof.
  intros Hwf. destruct (effective_working_separated th w Hwf) as [Hs Hn].
  destruct (all_blocked_wf th w Hwf) as [Hbs Hbn].
  unfold free_intervals. rewrite subtract_intervals_spec by auto with ush.
  rewrite effective_working_spec by done. unfold bookable.
  assert (w.(iv_start) <= t < w.(iv_end) → covers (all_blocked th w) t ↔
    covers th.(ts_existing_bookings) t ∨ covers th.(ts_home_bookings) t ∨
    covers th.(ts_temporary_holds) t) as Hb.
  { intros Ht. unfold all_blocked. rewrite merge_intervals_same_set, !covers_app.
    by rewrite !filter_for_day_covers. }
  split; intros (Ha & H); (split; [done|]); pose proof (proj1 Ha) as Ht; rewrite Hb in * by done; tauto.
Qed.

Lemma free_intervals_separated th w :
  schedule_wf th → separated (free_intervals th w) ∧ Forall nonempty (free_intervals th w).
Proof.
  intros Hwf. destruct (effective_working_separated th w Hwf) as [Hs Hn].
  destruct (all_blocked_wf th w Hwf) as [Hbs Hbn].
  apply subtract_intervals_separated; auto with ush.
Qed.

Lemma slot_us_pos slot : 0 < slot → 0 < slot * minute.
Proof. unfold minute. lia. Qed.
Lemma combine_le tz_offset d opening closing :
  opening <= closing → combine tz_offset d opening <= combine tz_offset d closing.
Proof. unfold combine. lia. Qed.

Section day.
Context (duration slot : Z) (th : TherapistScheduleInput).
Context (tz_offset opening closing d : Z).
Hypothesis slot_pos : 0 < slot.
Hypothesis hours_ordered : opening <= closing.
Hypothesis th_wf : schedule_wf th.

Let o := combine tz_offset d opening.
Let c := combine tz_offset d closing.
Let w := mk_interval o c.
Let us := slot * minute.

Lemma free_intervals_in_window t : covers (free_intervals th w) t → o <= t < c.
Proof. rewrite free_intervals_bookable by done. intros [[Ht _] _]. exact Ht. Qed.

Lemma compute_day_blocks_length :
  length (compute_day duration slot th tz_offset opening closing d).(da_blocks) = slot_count us o c.
Proof.
  assert (length (all_slot_starts us o c) = slot_count us o c) as Hlen.
  { rewrite all_slot_starts_seq by (by apply slot_us_pos || by apply combine_le).
    by rewrite length_fmap, length_seq. }
  unfold compute_day; cbn [da_blocks]. case_match.
  - unfold generate_closed_blocks. rewrite length_fmap. exact Hlen.
  - unfold generate_blocks. rewrite length_imap. exact Hlen.
Qed.

(** A block of the day: where it lies and what its availability means. *)
Lemma compute_day_block i b :
  (compute_day duration slot th tz_offset opening closing d).(da_blocks) !! i = Some b →
  (i < slot_count us o c)%nat ∧
  b.(tb_start) = o + Z.of_nat i * us ∧ b.(tb_end) = b.(tb_start) + us ∧
  (b.(tb_available) = true ↔
    ∀ t, b.(tb_start) <= t < b.(tb_start) + Z.of_nat (slots_needed duration slot) * us →
         bookable th w t) ∧
  b.(tb_blocking_type) =
    (if b.(tb_available) then AVAILABLE
     else if (compute_day duration slot th tz_offset opening closing d).(da_is_closed)
     then OUTSIDE_WORKING_HOURS else BOOKING).
Proof.
  assert (0 < us) as Hus by by apply slot_us_pos. assert (o <= c) as Hoc by by apply combine_le.
  destruct (free_intervals_separated th w th_wf) as [Hfs Hfn].
  unfold compute_day; cbn [da_blocks da_is_closed]. fold o c w.
  destruct (effective_working th w) as [|iv ivs] eqn:Ew.
  - unfold generate_closed_blocks. rewrite list_lookup_fmap.
    fold us. rewrite all_slot_starts_lookup by done. case_decide; [|done].
    intros [= <-]. split_and!; try done. cbn [tb_available tb_start TimeBlock_new].
    split; [done|]. intros Hall. exfalso.
    assert (bookable th w (o + Z.of_nat i * us)) as [Hw _].
    { apply Hall. pose proof (slots_needed_pos duration slot). nia. }
    apply effective_working_spec in Hw; [|done]. rewrite Ew in Hw. by apply covers_nil in Hw.
  - rewrite generate_blocks_lookup by done. fold us. cbv zeta. case_decide; [|done].
    intros [= <-]. split; [done|].
    pose proof (slot_run_free (free_intervals th w) us o c i (slots_needed duration slot)
      Hus Hoc Hfs Hfn (slots_needed_pos _ _) free_intervals_in_window) as Hrun.
    cbv zeta in Hrun. setoid_rewrite (free_intervals_bookable th w _ th_wf) in Hrun.
    destruct (forallb _ _) eqn:Ef; cbn; split_and!; try done; rewrite <- Hrun; done.
Qed.
End day.

(** ** Claims *)

(** merging keeps the set of instants the intervals cover and leaves them
    sorted and pairwise detached (neither overlapping nor adjacent), whatever
    the input list. *)
Theorem merge_intervals_correct (l : list Interval) :
  same_set (merge_intervals l) l ∧ separated (merge_intervals l).
Proof. split; [apply merge_intervals_same_set|apply merge_intervals_separated]. Qed.

(** on merged inputs [subtract_intervals] computes the set difference
    working minus blocked, and its two-cursor loop again yields detached,
    non-empty intervals. *)
Theorem subtract_intervals_correct (ws bl : list Interval) :
  separated ws → Forall nonempty ws → separated bl → Forall nonempty bl →
  (∀ t, covers (subtract_intervals ws bl) t ↔ covers ws t ∧ ¬ covers bl t) ∧
  separated (subtract_intervals ws bl) ∧ Forall nonempty (subtract_intervals ws bl).
Proof.
  intros ????. split; [intros t; apply subtract_intervals_spec|apply subtract_intervals_separated];
    auto with ush.
Qed.

Lemma subtract_intervals_correct_witness :
  subtract_intervals [mk_interval 0 10; mk_interval 20 30] [mk_interval 5 22] =
    [mk_interval 0 5; mk_interval 22 30] ∧
  (∀ t, covers (subtract_intervals [mk_interval 0 10; mk_interval 20 30] [mk_interval 5 22]) t ↔
        covers [mk_interval 0 10; mk_interval 20 30] t ∧ ¬ covers [mk_interval 5 22] t).
Proof.
  split; [reflexivity|].
  apply (subtract_intervals_correct [mk_interval 0 10; mk_interval 20 30] [mk_interval 5 22]);
    repeat constructor.
Defined.

(** [intersect_intervals] computes the intersection of two sorted,
    non-overlapping lists. *)
Theorem intersect_intervals_correct (a b : list Interval) :
  ordered a → ordered b →
  ∀ t, covers (intersect_intervals a b) t ↔ covers a t ∧ covers b t.
Proof. intros ?? t. by apply intersect_intervals_spec. Qed.

Lemma intersect_intervals_correct_witness :
  intersect_intervals [mk_interval 0 10; mk_interval 20 30] [mk_interval 5 22] =
    [mk_interval 5 10; mk_interval 20 22] ∧
  (covers (intersect_intervals [mk_interval 0 10; mk_interval 20 30] [mk_interval 5 22]) 21 ↔
   covers [mk_interval 0 10; mk_interval 20 30] 21 ∧ covers [mk_interval 5 22] 21).
Proof.
  split; [reflexivity|].
  apply (intersect_intervals_correct [mk_interval 0 10; mk_interval 20 30] [mk_interval 5 22]);
    repeat constructor; simpl; lia.
Defined.

(** C23: the computed day of a therapist consists of the consecutive slots that
    fit between opening and closing, and a slot is offered exactly when every
    instant of the run of slots it needs is bookable: inside the branch's
    hours, at work, not on leave, and neither booked nor held. *)
Theorem day_blocks_correct (duration slot : Z) (th : TherapistScheduleInput)
    (tz_offset opening closing d : Z) :
  0 < slot → opening <= closing → schedule_wf th →
  let day := compute_day duration slot th tz_offset opening closing d in
  let o := combine tz_offset d opening in
  let w := mk_interval o (combine tz_offset d closing) in
  let us := slot * minute in
  length day.(da_blocks) = slot_count us o w.(iv_end) ∧
  ∀ i b, day.(da_blocks) !! i = Some b →
    b.(tb_start) = o + Z.of_nat i * us ∧ b.(tb_end) = b.(tb_start) + us ∧
    (b.(tb_available) = true ↔
      ∀ t, b.(tb_start) <= t < b.(tb_start) + Z.of_nat (slots_needed duration slot) * us →
           bookable th w t).
Proof.
  intros Hs Hh Hwf. cbv zeta. split; [by apply compute_day_blocks_length|].
  intros i b Hb. apply compute_day_block in Hb; [|done..]. tauto.
Qed.

(** A therapist working 9:00-12:00 on day 0 with a booking 10:00-10:30. *)
Definition sample_schedule : TherapistScheduleInput :=
  mk_schedule "t1" "Noor" false
    [mk_interval (9 * 60 * minute) (12 * 60 * minute)] [] []
    [mk_interval (10 * 60 * minute) (10 * 60 * minute + 30 * minute)] [] [].

Lemma sample_schedule_wf : schedule_wf sample_schedule.
Proof. split_and!; repeat constructor. Qed.

Lemma day_blocks_correct_witness :
  tb_available <$> (compute_day 60 30 sample_schedule 0 (8 * 60 * minute) (12 * 60 * minute) 0).(da_blocks)
    = [false; false; true; false; false; true; true; false] ∧
  let day := compute_day 60 30 sample_schedule 0 (8 * 60 * minute) (12 * 60 * minute) 0 in
  length day.(da_blocks) = 8%nat.
Proof.
  split; [vm_compute; reflexivity|]. cbv zeta.
  assert (slot_count (30 * minute) (combine 0 0 (8 * 60 * minute))
    (combine 0 0 (12 * 60 * minute)) = 8%nat) as <- by (vm_compute; reflexivity).
  apply (day_blocks_correct 60 30 sample_schedule 0 (8 * 60 * minute) (12 * 60 * minute) 0);
    [reflexivity|vm_compute; discriminate|apply sample_schedule_wf].
Defined.

(** when the slot length divides the service duration, an offered slot has
    room for the whole service: every instant up to the service's end is
    bookable. *)
Theorem available_slot_fits_service (duration slot : Z) (th : TherapistScheduleInput)
    (tz_offset opening closing d : Z) (i : nat) (b : TimeBlock) :
  0 < slot → opening <= closing → schedule_wf th → (slot | duration) → 0 < duration →
  (compute_day duration slot th tz_offset opening closing d).(da_blocks) !! i = Some b →
  b.(tb_available) = true →
  ∀ t, b.(tb_start) <= t < b.(tb_start) + duration * minute →
       bookable th (mk_interval (combine tz_offset d opening) (combine tz_offset d closing)) t.
Proof.
  intros Hs Hh Hwf [q ->] Hd Hb Ha t Ht.
  apply compute_day_block in Hb as (_ & Hst & _ & Hav & _); [|done..].
  apply (proj1 Hav Ha). unfold slots_needed. rewrite Z.div_mul by lia.
  unfold minute in *. nia.
Qed.

Lemma available_slot_fits_service_witness :
  bookable sample_schedule (mk_interval (8 * 60 * minute) (12 * 60 * minute)) (9 * 60 * minute + 45 * minute).
Proof.
  apply (available_slot_fits_service 60 30 sample_schedule 0 (8 * 60 * minute) (12 * 60 * minute) 0
    2 (TimeBlock_new (9 * 60 * minute) (9 * 60 * minute + 30 * minute) true AVAILABLE)).
  - reflexivity.
  - vm_compute; discriminate.
  - apply sample_schedule_wf.
  - by exists 2.
  - reflexivity.
  - vm_compute; reflexivity.
  - reflexivity.
  - split; [vm_compute; discriminate|reflexivity].
Defined.

(** When it does not divide it, the number of slots is rounded down and a
    slot is offered whose service runs into a booking: a 45-minute service on
    30-minute slots is offered at 9:30 although 10:00 is booked. *)
Theorem available_slot_too_short :
  ∃ th d b t, schedule_wf th ∧
    b ∈ (compute_day 45 30 th 0 (8 * 60 * minute) (12 * 60 * minute) d).(da_blocks) ∧
    b.(tb_available) = true ∧
    b.(tb_start) <= t < b.(tb_start) + 45 * minute ∧
    covers th.(ts_existing_bookings) t.
Proof.
  exists sample_schedule, 0,
    (TimeBlock_new (9 * 60 * minute + 30 * minute) (10 * 60 * minute) true AVAILABLE),
    (10 * 60 * minute).
  split; [apply sample_schedule_wf|].
  split; [apply (list_elem_of_lookup_2 _ 3); vm_compute; reflexivity|].
  split; [reflexivity|].
  split; [vm_compute; split; [discriminate|reflexivity]|].
  apply (bool_decide_unpack _). vm_compute. exact I.
Qed.

(** The day is reported closed exactly when the therapist is never at work
    in the branch's hours, and then no slot is offered. *)
Theorem day_closed_correct (duration slot : Z) (th : TherapistScheduleInput)
    (tz_offset opening closing d : Z) :
  0 < slot → opening <= closing → schedule_wf th →
  let day := compute_day duration slot th tz_offset opening closing d in
  let w := mk_interval (combine tz_offset d opening) (combine tz_offset d closing) in
  (day.(da_is_closed) = true ↔ ∀ t, ¬ at_work th w t) ∧
  (day.(da_is_closed) = true → Forall (λ b, b.(tb_available) = false ∧
     b.(tb_blocking_type) = OUTSIDE_WORKING_HOURS) day.(da_blocks)).
Proof.
  intros Hs Hh Hwf. cbv zeta. set (w := mk_interval _ _).
  unfold compute_day. cbn [da_is_closed da_blocks]. fold w.
  destruct (effective_working th w) as [|iv ivs] eqn:E.
  - split.
    + split; [|done]. intros _ t Ht. apply effective_working_spec in Ht; [|done].
      rewrite E in Ht. by apply covers_nil in Ht.
    + intros _. unfold generate_closed_blocks. apply Forall_fmap, Forall_forall. by intros.
  - split; [|done]. split; [done|]. intros Hall. exfalso.
    destruct (effective_working_separated th w Hwf) as [_ Hn]. rewrite E in Hn.
    apply Forall_cons in Hn as [Hn _]. apply (Hall iv.(iv_start)).
    apply effective_working_spec; [done|]. rewrite E. left. unfold nonempty in Hn. lia.
Qed.

Lemma day_closed_correct_witness :
  (compute_day 60 30 sample_schedule 0 (13 * 60 * minute) (15 * 60 * minute) 0).(da_is_closed) = true ∧
  Forall (λ b, b.(tb_available) = false ∧ b.(tb_blocking_type) = OUTSIDE_WORKING_HOURS)
    (compute_day 60 30 sample_schedule 0 (13 * 60 * minute) (15 * 60 * minute) 0).(da_blocks).
Proof.
  split; [vm_compute; reflexivity|].
  apply (day_closed_correct 60 30 sample_schedule 0 (13 * 60 * minute) (15 * 60 * minute) 0);
    [reflexivity|vm_compute; discriminate|apply sample_schedule_wf|vm_compute; reflexivity].
Defined.

(** the result of [compute_therapist_availability] has exactly the
    requested dates as keys, each with the day computed for it. *)
Theorem availability_lookup (duration slot : Z) (th : TherapistScheduleInput)
    (dates : list Z) (tz_offset opening closing d : Z) :
  compute_therapist_availability duration slot th dates tz_offset opening closing !! d =
  if d in? dates then Some (compute_day duration slot th tz_offset opening closing d) else None.
Proof.
  unfold compute_therapist_availability.
  assert (∀ m : gmap Z DayAvailability,
    foldl (λ result d, <[d := compute_day duration slot th tz_offset opening closing d]> result) m dates !! d =
    if d in? dates then Some (compute_day duration slot th tz_offset opening closing d) else m !! d) as Hall.
  { induction dates as [|d' dates IH]; intros m; cbn [foldl]; [done|]. rewrite IH.
    destruct (decide (d = d')) as [->|Hne].
    - rewrite lookup_insert_eq.
      rewrite (bool_decide_true (d' ∈ d' :: dates)) by apply list_elem_of_here. by case_match.
    - rewrite lookup_insert_ne by done.
      rewrite (bool_decide_ext (d ∈ d' :: dates) (d ∈ dates)); [done|].
      rewrite elem_of_cons. tauto. }
  rewrite Hall. by rewrite lookup_empty.
Qed.

(** a home booking registered with the buffer keeps every appointment at
    least the buffer away from it, before and after. *)
Theorem home_buffer_respected (home_buffer : Z) (th : TherapistScheduleInput) (w iv : Interval) (t : Z) :
  apply_home_service_buffer home_buffer iv ∈ th.(ts_home_bookings) → bookable th w t →
  t < iv.(iv_start) - home_buffer * minute ∨ iv.(iv_end) + home_buffer * minute <= t.
Proof.
  intros Hin (_ & _ & Hhome & _). rewrite covers_elem in Hhome.
  destruct (decide (t < iv.(iv_start) - home_buffer * minute)); [by left|right].
  destruct (decide (iv.(iv_end) + home_buffer * minute <= t)); [done|]. exfalso. apply Hhome.
  exists (apply_home_service_buffer home_buffer iv). split; [done|]. simpl. lia.
Qed.

Lemma home_buffer_respected_witness :
  let iv := mk_interval (10 * 60 * minute) (11 * 60 * minute) in
  let th := mk_schedule "t1" "Noor" true [mk_interval 0 (24 * 60 * minute)] [] [] []
              [apply_home_service_buffer 30 iv] [] in
  let t := 9 * 60 * minute in
  t < iv.(iv_start) - 30 * minute ∨ iv.(iv_end) + 30 * minute <= t.
Proof.
  cbv zeta.
  apply (home_buffer_respected 30
    (mk_schedule "t1" "Noor" true [mk_interval 0 (24 * 60 * minute)] [] [] []
       [apply_home_service_buffer 30 (mk_interval (10 * 60 * minute) (11 * 60 * minute))] [])
    (mk_interval 0 (24 * 60 * minute))).
  - apply list_elem_of_here.
  - split_and!; try (apply (bool_decide_unpack _); vm_compute; exact I).
Defined.
