(* ===== verification/StateMachines.v ===== *)
(** * The status machines of the domain layers

    Each component of the source has an enumeration of statuses stored as
    strings, a transition table and a class that validates transitions:
    app/booking/domain/state_machine.py, app/payment/domain/state_machine.py,
    app/voucher/domain/state_machine.py, app/shop/domain/state_machine.py and
    app/gifts/domain/state_machine.py.  [StrEnum] is the interface of a string
    enumeration and [StateMachine] that of a machine; what holds of every
    machine is proved once against the interface. *)

From S2P Require Import Prelude Exceptions Effects.

(** ** String enumerations: [class X(str, Enum)] *)

Class StrEnum (A : Type) := {
  members : list A;
  value : A → string;
  enum_eq_dec :: EqDecision A;
  members_complete : ∀ a, a ∈ members;
  value_inj : ∀ a b, value a = value b → a = b;
}.
Arguments members A {_}.

(** [X(s)]: the member with that value, or [ValueError]. *)
Definition of_value {A} `{StrEnum A} (s : string) : result A :=
  match List.find (λ a, String.eqb (value a) s) (members A) with
  | Some a => Ok a
  | None => Raise (err ValueError)
  end.

(** ** Machines *)

Class StateMachine (A : Type) `{StrEnum A} := {
  VALID_TRANSITIONS : A → list A;
  TERMINAL_STATUSES : list A;
  transition_error : exn;
}.

Definition can_transition_to `{StateMachine A} (self target : A) : bool :=
  target in? VALID_TRANSITIONS self.

Definition transition_to `{StateMachine A} (self target : A) : result A :=
  if negb (can_transition_to self target) then Raise transition_error else Ok target.

Definition is_terminal `{StateMachine A} (self : A) : bool := self in? TERMINAL_STATUSES.

(** The [validate_transition] of the voucher and gift machines, which also
    accepts a status re-applied to itself. *)
Definition validate_transition `{StateMachine A} (current new : A) : result () :=
  if current ==? new then Ok ()
  else if negb (new in? VALID_TRANSITIONS current) then Raise transition_error
  else Ok ().

(** One accepted transition, and a run of the machine: the statuses requested
    of it in turn, stopping at the first refusal. *)
Inductive step `{StateMachine A} : A → A → Prop :=
  | step_intro s t : t ∈ VALID_TRANSITIONS s → step s t.

Fixpoint run `{StateMachine A} (s : A) (targets : list A) : result A :=
  match targets with
  | [] => Ok s
  | t :: ts => match transition_to s t with Ok s' => run s' ts | Raise e => Raise e end
  end.

(** ** Booking (app/booking/domain/value_objects.py, state_machine.py) *)
Module Booking.
Inductive BookingStatus :=
  | DRAFT | REQUESTED | PAYMENT_PENDING | CONFIRMED | CHECKED_IN | IN_PROGRESS
  | PAYMENT_FAILED | RESCHEDULE_REQUESTED | RESCHEDULE_APPROVED | CANCELLED
  | REFUNDED | COMPLETED | NO_SHOW | PARKED.

Definition BookingStatus_value (s : BookingStatus) : string :=
  match s with
  | DRAFT => "draft" | REQUESTED => "requested" | PAYMENT_PENDING => "payment_pending"
  | CONFIRMED => "confirmed" | CHECKED_IN => "checked_in" | IN_PROGRESS => "in_progress"
  | PAYMENT_FAILED => "payment_failed" | RESCHEDULE_REQUESTED => "reschedule_requested"
  | RESCHEDULE_APPROVED => "reschedule_approved" | CANCELLED => "cancelled"
  | REFUNDED => "refunded" | COMPLETED => "completed" | NO_SHOW => "no_show"
  | PARKED => "parked"
  end.

#[global] Instance BookingStatus_eq_dec : EqDecision BookingStatus.
Proof. solve_decision. Defined.

#[global, refine] Instance BookingStatus_enum : StrEnum BookingStatus := {
  members := [DRAFT; REQUESTED; PAYMENT_PENDING; CONFIRMED; CHECKED_IN; IN_PROGRESS;
    PAYMENT_FAILED; RESCHEDULE_REQUESTED; RESCHEDULE_APPROVED; CANCELLED; REFUNDED;
    COMPLETED; NO_SHOW; PARKED];
  value := BookingStatus_value }.
Proof.
  - intros []; by apply (bool_decide_unpack _).
  - by intros [] [].
Defined.

Definition transitions (s : BookingStatus) : list BookingStatus :=
  match s with
  | DRAFT => [CONFIRMED; PAYMENT_PENDING; REQUESTED; CANCELLED; PAYMENT_FAILED]
  | REQUESTED => [DRAFT; PAYMENT_PENDING; CONFIRMED; PAYMENT_FAILED; CANCELLED]
  | PAYMENT_PENDING => [CONFIRMED; PAYMENT_FAILED; CANCELLED]
  | CONFIRMED => [CHECKED_IN; IN_PROGRESS; RESCHEDULE_REQUESTED; CANCELLED; REFUNDED;
                  COMPLETED; NO_SHOW; PARKED]
  | CHECKED_IN => [IN_PROGRESS; COMPLETED; CANCELLED; NO_SHOW]
  | IN_PROGRESS => [COMPLETED; CANCELLED]
  | PAYMENT_FAILED => [PAYMENT_PENDING; CANCELLED]
  | RESCHEDULE_REQUESTED => [RESCHEDULE_APPROVED; CONFIRMED; CANCELLED; REFUNDED]
  | RESCHEDULE_APPROVED => [CONFIRMED; CANCELLED; REFUNDED]
  | PARKED => [CONFIRMED; CANCELLED; REFUNDED]
  | CANCELLED => [REFUNDED]
  | REFUNDED | COMPLETED | NO_SHOW => []
  end.

#[global] Instance machine : StateMachine BookingStatus := {
  VALID_TRANSITIONS := transitions;
  TERMINAL_STATUSES := [CANCELLED; REFUNDED; COMPLETED; NO_SHOW];
  transition_error := err_code BookingStateError "INVALID_BOOKING_STATE_TRANSITION" }.

Definition NON_BLOCKING_BOOKING_STATUSES : list string :=
  BookingStatus_value <$> [CANCELLED; NO_SHOW; REFUNDED; PAYMENT_FAILED; PARKED].
End Booking.

(** ** Payment (app/payment/domain/value_objects.py, state_machine.py) *)
Module Payment.
Inductive PaymentTransactionStatus :=
  | INITIATED | PENDING | SUCCESS | FAILED | CANCELLED | REFUNDED | PARTIALLY_REFUNDED.

Definition PaymentTransactionStatus_value (s : PaymentTransactionStatus) : string :=
  match s with
  | INITIATED => "initiated" | PENDING => "pending" | SUCCESS => "success"
  | FAILED => "failed" | CANCELLED => "cancelled" | REFUNDED => "refunded"
  | PARTIALLY_REFUNDED => "partially_refunded"
  end.

#[global] Instance PaymentTransactionStatus_eq_dec : EqDecision PaymentTransactionStatus.
Proof. solve_decision. Defined.

#[global, refine] Instance PaymentTransactionStatus_enum : StrEnum PaymentTransactionStatus := {
  members := [INITIATED; PENDING; SUCCESS; FAILED; CANCELLED; REFUNDED; PARTIALLY_REFUNDED];
  value := PaymentTransactionStatus_value }.
Proof.
  - intros []; by apply (bool_decide_unpack _).
  - by intros [] [].
Defined.

Definition transitions (s : PaymentTransactionStatus) : list PaymentTransactionStatus :=
  match s with
  | INITIATED => [PENDING; FAILED; CANCELLED]
  | PENDING => [SUCCESS; FAILED; CANCELLED]
  | SUCCESS => [REFUNDED; PARTIALLY_REFUNDED]
  | FAILED => [PENDING]
  | CANCELLED | REFUNDED => []
  | PARTIALLY_REFUNDED => [REFUNDED]
  end.

#[global] Instance machine : StateMachine PaymentTransactionStatus := {
  VALID_TRANSITIONS := transitions;
  TERMINAL_STATUSES := [CANCELLED; REFUNDED];
  transition_error := err_code PaymentStateError "INVALID_PAYMENT_STATE_TRANSITION" }.
End Payment.

(** ** Gift vouchers (app/voucher/domain/value_objects.py, state_machine.py) *)
Module Voucher.
Inductive GiftVoucherStatus :=
  | CREATED | PAYMENT_PENDING | SCHEDULED | ACTIVE | PARTIALLY_REDEEMED | REDEEMED
  | FULFILLED | EXPIRED | CANCELLED.

Definition GiftVoucherStatus_value (s : GiftVoucherStatus) : string :=
  match s with
  | CREATED => "created" | PAYMENT_PENDING => "payment_pending" | SCHEDULED => "scheduled"
  | ACTIVE => "active" | PARTIALLY_REDEEMED => "partially_redeemed" | REDEEMED => "redeemed"
  | FULFILLED => "fulfilled" | EXPIRED => "expired" | CANCELLED => "cancelled"
  end.

#[global] Instance GiftVoucherStatus_eq_dec : EqDecision GiftVoucherStatus.
Proof. solve_decision. Defined.

#[global, refine] Instance GiftVoucherStatus_enum : StrEnum GiftVoucherStatus := {
  members := [CREATED; PAYMENT_PENDING; SCHEDULED; ACTIVE; PARTIALLY_REDEEMED; REDEEMED;
    FULFILLED; EXPIRED; CANCELLED];
  value := GiftVoucherStatus_value }.
Proof.
  - intros []; by apply (bool_decide_unpack _).
  - by intros [] [].
Defined.

Definition transitions (s : GiftVoucherStatus) : list GiftVoucherStatus :=
  match s with
  | CREATED => [PAYMENT_PENDING; ACTIVE; SCHEDULED; CANCELLED]
  | PAYMENT_PENDING => [ACTIVE; SCHEDULED; PAYMENT_PENDING; CANCELLED]
  | SCHEDULED => [SCHEDULED; ACTIVE; CANCELLED]
  | ACTIVE => [PARTIALLY_REDEEMED; REDEEMED; EXPIRED; CANCELLED]
  | PARTIALLY_REDEEMED => [PARTIALLY_REDEEMED; REDEEMED; EXPIRED; CANCELLED]
  | REDEEMED => [FULFILLED]
  | FULFILLED | EXPIRED | CANCELLED => []
  end.

(** [GiftVoucherStatus.is_terminal]. *)
#[global] Instance machine : StateMachine GiftVoucherStatus := {
  VALID_TRANSITIONS := transitions;
  TERMINAL_STATUSES := [FULFILLED; EXPIRED; CANCELLED];
  transition_error := err ValueError }.

(** [GiftVoucherStatus.normalise]: the value of a member recognised up to
    case and surrounding space, else the stripped input; blank is [None]. *)
Definition normalise (val : option string) : option string :=
  match val with
  | None => None
  | Some s =>
      if negb (truthy s) || negb (truthy (strip s)) then None
      else match List.find (λ m, String.eqb (GiftVoucherStatus_value m) (lower (strip s)))
                   (members GiftVoucherStatus) with
           | Some m => Some (GiftVoucherStatus_value m)
           | None => Some (strip s)
           end
  end.
End Voucher.

(** ** Shop deliveries (app/shop/domain/value_objects.py, state_machine.py) *)
Module Delivery.
Inductive DeliveryStatus := ORDERED | READY_TO_GO | ON_THE_WAY | DELIVERED | RECEIVED.

Definition DeliveryStatus_value (s : DeliveryStatus) : string :=
  match s with
  | ORDERED => "ordered" | READY_TO_GO => "ready_to_go" | ON_THE_WAY => "on_the_way"
  | DELIVERED => "delivered" | RECEIVED => "received"
  end.

#[global] Instance DeliveryStatus_eq_dec : EqDecision DeliveryStatus.
Proof. solve_decision. Defined.

#[global, refine] Instance DeliveryStatus_enum : StrEnum DeliveryStatus := {
  members := [ORDERED; READY_TO_GO; ON_THE_WAY; DELIVERED; RECEIVED];
  value := DeliveryStatus_value }.
Proof.
  - intros []; by apply (bool_decide_unpack _).
  - by intros [] [].
Defined.

Definition TRANSITIONS (s : DeliveryStatus) : list DeliveryStatus :=
  match s with
  | ORDERED => [READY_TO_GO] | READY_TO_GO => [ON_THE_WAY] | ON_THE_WAY => [DELIVERED]
  | DELIVERED => [RECEIVED] | RECEIVED => []
  end.

Definition CUSTOMER_ONLY_TRANSITIONS : list (DeliveryStatus * DeliveryStatus) := [].
Definition CUSTOMER_ALLOWED_TRANSITIONS : list (DeliveryStatus * DeliveryStatus) :=
  [(DELIVERED, RECEIVED)].

(** [InvalidDeliveryTransitionError] is a class of its own, outside the
    application's hierarchy; its callers catch it by name. *)
#[global] Instance machine : StateMachine DeliveryStatus := {
  VALID_TRANSITIONS := TRANSITIONS;
  TERMINAL_STATUSES := [RECEIVED];
  transition_error := mk_exn PythonException "InvalidDeliveryTransitionError" }.

Definition assert_can_transition (current to : DeliveryStatus) : result () :=
  if negb (can_transition_to current to) then Raise transition_error else Ok ().

Definition assert_staff_can_transition (current to : DeliveryStatus) : result () :=
  assert_can_transition current to ;;
  if (current, to) in? CUSTOMER_ONLY_TRANSITIONS then Raise transition_error else Ok ().

Definition assert_customer_can_transition (current to : DeliveryStatus) : result () :=
  assert_can_transition current to ;;
  if negb ((current, to) in? CUSTOMER_ALLOWED_TRANSITIONS) then Raise transition_error else Ok ().

(** The stage of a delivery, on which every transition advances by one. *)
Definition stage (s : DeliveryStatus) : nat :=
  match s with ORDERED => 0 | READY_TO_GO => 1 | ON_THE_WAY => 2 | DELIVERED => 3 | RECEIVED => 4 end.
End Delivery.

(** ** Gift purchases (app/gifts/domain/value_objects.py, state_machine.py) *)
Module Gift.
Inductive GiftType := DIGITAL | PHYSICAL | SERVICE.
#[global] Instance GiftType_eq_dec : EqDecision GiftType.
Proof. solve_decision. Defined.
Definition requires_service (self : GiftType) : bool := self in? [DIGITAL; SERVICE].
Definition forbids_service (self : GiftType) : bool := self ==? PHYSICAL.

Inductive GiftPurchaseStatus :=
  | PENDING_PAYMENT | PAID | ACTIVE | CLAIMED | REDEEMED | CANCELLED | EXPIRED.

Definition GiftPurchaseStatus_value (s : GiftPurchaseStatus) : string :=
  match s with
  | PENDING_PAYMENT => "PENDING_PAYMENT" | PAID => "PAID" | ACTIVE => "ACTIVE"
  | CLAIMED => "CLAIMED" | REDEEMED => "REDEEMED" | CANCELLED => "CANCELLED"
  | EXPIRED => "EXPIRED"
  end.

#[global] Instance GiftPurchaseStatus_eq_dec : EqDecision GiftPurchaseStatus.
Proof. solve_decision. Defined.

#[global, refine] Instance GiftPurchaseStatus_enum : StrEnum GiftPurchaseStatus := {
  members := [PENDING_PAYMENT; PAID; ACTIVE; CLAIMED; REDEEMED; CANCELLED; EXPIRED];
  value := GiftPurchaseStatus_value }.
Proof.
  - intros []; by apply (bool_decide_unpack _).
  - by intros [] [].
Defined.

Definition transitions (s : GiftPurchaseStatus) : list GiftPurchaseStatus :=
  match s with
  | PENDING_PAYMENT => [PAID; ACTIVE; CANCELLED]
  | PAID => [ACTIVE; CANCELLED]
  | ACTIVE => [CLAIMED; REDEEMED; EXPIRED; CANCELLED]
  | CLAIMED => [REDEEMED; EXPIRED; CANCELLED]
  | REDEEMED | CANCELLED | EXPIRED => []
  end.

#[global] Instance machine : StateMachine GiftPurchaseStatus := {
  VALID_TRANSITIONS := transitions;
  TERMINAL_STATUSES := [REDEEMED; CANCELLED; EXPIRED];
  transition_error := err ValueError }.
End Gift.

(** * Theorems *)

Section enum.
Context `{StrEnum A}.

Lemma of_value_value (a : A) : of_value (value a) = Ok a.
Proof.
  unfold of_value. destruct (List.find _ _) as [b|] eqn:E.
  - apply List.find_some in E as [_ E]. apply String.eqb_eq in E. by apply value_inj in E as ->.
  - pose proof (List.find_none _ _ E a) as Hn. simpl in Hn.
    rewrite String.eqb_refl in Hn. discriminate Hn. apply list_elem_of_In, members_complete.
Qed.

Lemma of_value_ok s (a : A) : of_value s = Ok a ↔ value a = s.
Proof.
  split; [|intros <-; apply of_value_value]. unfold of_value.
  destruct (List.find _ _) as [b|] eqn:E; [|done]. intros [= ->].
  apply List.find_some in E as [_ E]. by apply String.eqb_eq in E.
Qed.
End enum.

Section machine.
Context `{StateMachine A}.
Implicit Types s t : A.

Lemma step_iff s t : step s t ↔ t ∈ VALID_TRANSITIONS s.
Proof. split; [by inversion 1|by constructor]. Qed.

Lemma transition_to_ok s t u : transition_to s t = Ok u ↔ u = t ∧ step s t.
Proof.
  unfold transition_to, can_transition_to. split.
  - destruct (bool_decide_reflect (t ∈ VALID_TRANSITIONS s)); [|done].
    intros [= ->]. done.
  - intros [-> Ht%step_iff]. by rewrite (bool_decide_true _ Ht).
Qed.

Lemma transition_to_refused s t e :
  transition_to s t = Raise e ↔ e = transition_error ∧ ¬ step s t.
Proof.
  unfold transition_to, can_transition_to.
  destruct (bool_decide_reflect (t ∈ VALID_TRANSITIONS s)) as [Ht|Ht]; simpl.
  - split; [done|]. intros [_ []]. by apply step_iff.
  - split; [intros [= <-]; split; [done|]; by inversion 1|]. by intros [-> _].
Qed.

Lemma run_rtc s ts u : run s ts = Ok u → rtc step s u.
Proof.
  revert s; induction ts as [|t ts IH]; intros s; simpl; [intros [= ->]; apply rtc_refl|].
  destruct (transition_to s t) as [s'|] eqn:E; [|done].
  apply transition_to_ok in E as [-> Hst]. intros Hr. eapply rtc_l; eauto.
Qed.

(** Reachability: the relation is exactly what runs of the machine reach. *)
Lemma rtc_run s u : rtc step s u → ∃ ts, run s ts = Ok u.
Proof.
  induction 1 as [s|s t u Hst _ [ts Hts]]; [by exists []|].
  exists (t :: ts). simpl. by rewrite (proj2 (transition_to_ok s t t) (conj eq_refl Hst)).
Qed.

(** An invariant set of statuses is never left. *)
Lemma run_invariant (P : A → Prop) s ts u :
  (∀ s t, P s → t ∈ VALID_TRANSITIONS s → P t) → P s → run s ts = Ok u → P u.
Proof.
  intros Hinv Hs Hr. apply run_rtc in Hr. revert Hs.
  induction Hr as [|s t u Hst _ IH]; [done|]. intros Hs. apply IH.
  apply step_iff in Hst. eauto.
Qed.

(** If the only way out of [P] is [c], every run leaving [P] went through
    [c]. *)
Lemma run_through (P : A → Prop) (c : A) s ts u :
  (∀ s t, P s → t ∈ VALID_TRANSITIONS s → P t ∨ t = c) → P s → ¬ P u →
  run s ts = Ok u → c ∈ ts.
Proof.
  intros Hout. revert s; induction ts as [|t ts IH]; intros s Hs Hu; simpl; [by intros [= ->]|].
  destruct (transition_to s t) as [s'|] eqn:E; [|done].
  apply transition_to_ok in E as [-> Ht%step_iff]. intros Hr.
  destruct (Hout _ _ Hs Ht) as [Hp| ->]; [|apply list_elem_of_here].
  apply list_elem_of_further. by apply (IH t).
Qed.
End machine.

(** Decide a statement about every member of an enumeration by evaluation. *)
Lemma enum_forall `{StrEnum A} (P : A → Prop) `{∀ a, Decision (P a)} :
  bool_decide (Forall P (members A)) = true → ∀ a, P a.
Proof.
  intros HP%bool_decide_eq_true a. rewrite Forall_forall in HP. apply HP, members_complete.
Qed.

Lemma enum_forall2 `{StrEnum A} (P : A → A → Prop) `{∀ a b, Decision (P a b)} :
  bool_decide (Forall (λ a, Forall (P a) (members A)) (members A)) = true → ∀ a b, P a b.
Proof.
  intros HP%bool_decide_eq_true a b. rewrite Forall_forall in HP.
  specialize (HP a (members_complete a)). rewrite Forall_forall in HP. apply HP, members_complete.
Qed.

Ltac by_enum :=
  cbv beta;
  first [ refine (enum_forall2 _ _); vm_compute; reflexivity
        | refine (enum_forall _ _); vm_compute; reflexivity ].

(** ** Claims *)

(** Reading back the value of a booking status gives the status, and any
    string that is not the value of a member is a [ValueError]. *)
Theorem booking_status_roundtrip (s : Booking.BookingStatus) (str : string) :
  of_value (value s) = Ok s ∧
  ((∀ t : Booking.BookingStatus, value t ≠ str) →
   of_value (A:=Booking.BookingStatus) str = Raise (err ValueError)).
Proof.
  split; [apply of_value_value|]. intros Hno.
  destruct (of_value str) as [t|e] eqn:E.
  - apply of_value_ok in E. by destruct (Hno t).
  - unfold of_value in E. destruct (List.find _ _); congruence.
Qed.

Lemma booking_status_roundtrip_witness :
  of_value (A:=Booking.BookingStatus) "confirmed" = Ok Booking.CONFIRMED ∧
  of_value (A:=Booking.BookingStatus) "Confirmed" = Raise (err ValueError).
Proof.
  split; [apply (booking_status_roundtrip Booking.CONFIRMED "")|].
  apply (booking_status_roundtrip Booking.CONFIRMED "Confirmed"). by intros [].
Defined.

(** a booking that starts unpaid reaches check-in, treatment, completion,
    no-show, parking or rescheduling only through confirmation. *)
Theorem booking_served_was_confirmed (s u : Booking.BookingStatus) (ts : list Booking.BookingStatus) :
  s ∈ [Booking.DRAFT; Booking.REQUESTED; Booking.PAYMENT_PENDING; Booking.PAYMENT_FAILED] →
  u ∈ [Booking.CHECKED_IN; Booking.IN_PROGRESS; Booking.COMPLETED; Booking.NO_SHOW;
       Booking.PARKED; Booking.RESCHEDULE_REQUESTED; Booking.RESCHEDULE_APPROVED] →
  run s ts = Ok u → Booking.CONFIRMED ∈ ts.
Proof.
  intros Hs Hu.
  apply (run_through (λ s, s ∈ [Booking.DRAFT; Booking.REQUESTED; Booking.PAYMENT_PENDING;
    Booking.PAYMENT_FAILED; Booking.CANCELLED; Booking.REFUNDED])).
  - by_enum.
  - revert s Hs. by_enum.
  - revert u Hu. by_enum.
Qed.

Lemma booking_served_was_confirmed_witness :
  Booking.CONFIRMED ∈ [Booking.REQUESTED; Booking.PAYMENT_PENDING; Booking.CONFIRMED; Booking.COMPLETED].
Proof.
  apply (booking_served_was_confirmed Booking.DRAFT Booking.COMPLETED);
    [| |vm_compute; reflexivity]; apply (bool_decide_unpack _); vm_compute; exact I.
Defined.

(** completed, no-show and refunded bookings are final, and the only thing
    that can still happen to a cancelled booking is a refund. *)
Theorem booking_terminal_final (s u : Booking.BookingStatus) (ts : list Booking.BookingStatus) :
  is_terminal s = true → run s ts = Ok u →
  u = s ∨ s = Booking.CANCELLED ∧ u = Booking.REFUNDED.
Proof.
  intros Hs. apply (run_invariant (λ v, v = s ∨ s = Booking.CANCELLED ∧ v = Booking.REFUNDED)); [|by left].
  intros v t Hv Ht. destruct s; try discriminate Hs; destruct Hv as [->|[? ->]];
    try discriminate; cbn in Ht; rewrite ?list_elem_of_singleton in Ht;
    try (by apply elem_of_nil in Ht); subst; auto.
Qed.

Lemma booking_terminal_final_witness :
  run Booking.CANCELLED [Booking.REFUNDED] = Ok Booking.REFUNDED ∧
  (Booking.REFUNDED = Booking.CANCELLED ∨
   Booking.CANCELLED = Booking.CANCELLED ∧ Booking.REFUNDED = Booking.REFUNDED).
Proof.
  split; [reflexivity|].
  apply (booking_terminal_final Booking.CANCELLED Booking.REFUNDED [Booking.REFUNDED]); reflexivity.
Defined.

(** in the payment machine money is returned only after it was taken: a
    payment that has not succeeded reaches a refunded status only through
    [SUCCESS]. *)
Theorem payment_refunded_was_success (s u : Payment.PaymentTransactionStatus)
    (ts : list Payment.PaymentTransactionStatus) :
  s ∈ [Payment.INITIATED; Payment.PENDING; Payment.FAILED] →
  u ∈ [Payment.REFUNDED; Payment.PARTIALLY_REFUNDED] →
  run s ts = Ok u → Payment.SUCCESS ∈ ts.
Proof.
  intros Hs Hu.
  apply (run_through (λ s, s ∈ [Payment.INITIATED; Payment.PENDING; Payment.FAILED; Payment.CANCELLED])).
  - by_enum.
  - revert s Hs. by_enum.
  - revert u Hu. by_enum.
Qed.

Lemma payment_refunded_was_success_witness :
  Payment.SUCCESS ∈ [Payment.PENDING; Payment.SUCCESS; Payment.PARTIALLY_REFUNDED].
Proof.
  apply (payment_refunded_was_success Payment.INITIATED Payment.PARTIALLY_REFUNDED);
    [| |vm_compute; reflexivity]; apply (bool_decide_unpack _); vm_compute; exact I.
Defined.

(** A gift voucher is redeemed, partially or fully, only after activation,
    and fulfilled only after full redemption. *)
Theorem voucher_redeemed_was_active (s u : Voucher.GiftVoucherStatus) (ts : list Voucher.GiftVoucherStatus) :
  s ∈ [Voucher.CREATED; Voucher.PAYMENT_PENDING; Voucher.SCHEDULED] →
  run s ts = Ok u →
  (u ∈ [Voucher.PARTIALLY_REDEEMED; Voucher.REDEEMED; Voucher.FULFILLED; Voucher.EXPIRED] →
   Voucher.ACTIVE ∈ ts) ∧
  (u = Voucher.FULFILLED → Voucher.REDEEMED ∈ ts).
Proof.
  intros Hs Hr. split.
  - intros Hu. revert Hr.
    apply (run_through (λ s, s ∈ [Voucher.CREATED; Voucher.PAYMENT_PENDING; Voucher.SCHEDULED; Voucher.CANCELLED])).
    + by_enum.
    + revert s Hs. by_enum.
    + revert u Hu. by_enum.
  - intros ->. revert Hr. apply (run_through (λ s, s ∉ [Voucher.REDEEMED; Voucher.FULFILLED])).
    + by_enum.
    + revert s Hs. by_enum.
    + intros Hn. apply Hn. apply (bool_decide_unpack _). vm_compute. exact I.
Qed.

Lemma voucher_redeemed_was_active_witness :
  Voucher.ACTIVE ∈ [Voucher.SCHEDULED; Voucher.ACTIVE; Voucher.PARTIALLY_REDEEMED; Voucher.REDEEMED].
Proof.
  apply (voucher_redeemed_was_active Voucher.CREATED Voucher.REDEEMED); try reflexivity;
    apply (bool_decide_unpack _); vm_compute; exact I.
Defined.

(** a delivery advances one stage at a time and never goes back, so every
    run takes exactly the difference of the stages; the customer can only
    confirm reception of a delivered order, and staff can do every step. *)
Theorem delivery_linear (s u : Delivery.DeliveryStatus) (ts : list Delivery.DeliveryStatus) :
  run s ts = Ok u →
  Delivery.stage u = (Delivery.stage s + length ts)%nat ∧
  (∀ to, Delivery.assert_customer_can_transition s to = Ok () ↔
         s = Delivery.DELIVERED ∧ to = Delivery.RECEIVED) ∧
  (∀ to, Delivery.assert_staff_can_transition s to = Ok () ↔ step s to).
Proof.
  intros Hr. split_and!.
  - revert s Hr. induction ts as [|t ts IH]; intros s; simpl; [intros [= ->]; lia|].
    destruct (transition_to s t) as [s'|] eqn:E; [|done]. intros Hr.
    apply transition_to_ok in E as [-> Ht%step_iff]. rewrite (IH t Hr).
    destruct s; cbn in Ht; rewrite ?list_elem_of_singleton in Ht;
      try (by apply elem_of_nil in Ht); subst; simpl; lia.
  - intros to. destruct s, to; vm_compute; split; intros ?; try done; try (by destruct H);
      by destruct_and?.
  - intros to. unfold Delivery.assert_staff_can_transition, Delivery.assert_can_transition,
      can_transition_to, Delivery.CUSTOMER_ONLY_TRANSITIONS.
    rewrite (bool_decide_false ((s, to) ∈ [])) by apply not_elem_of_nil.
    rewrite step_iff. destruct (decide (to ∈ VALID_TRANSITIONS s)) as [Ht|Ht];
      [rewrite (bool_decide_true _ Ht)|rewrite (bool_decide_false _ Ht)]; by split.
Qed.

Lemma delivery_linear_witness :
  Delivery.stage Delivery.DELIVERED = (Delivery.stage Delivery.ORDERED + 3)%nat.
Proof.
  apply (delivery_linear Delivery.ORDERED Delivery.DELIVERED
    [Delivery.READY_TO_GO; Delivery.ON_THE_WAY; Delivery.DELIVERED]). reflexivity.
Defined.
