(* ===== verification/Money.v ===== *)
(** * Amounts of money

    Python's [decimal.Decimal] under its default context (28 significant
    digits, ROUND_HALF_EVEN) as the source uses it, restricted to finite
    values; the [Money] and [PricingBreakdown] value objects of
    app/booking/domain/value_objects.py; and the [_dec] coercion with its
    tolerance of app/payment/application/refund_lifecycle.py.

    A [Numeric(10, 3)] column holds a whole number of fils (thousandths of a
    dinar), so the rows of the other files carry amounts as Z, in fils. *)

From S2P Require Import Prelude Exceptions Effects.

(** ** decimal.Decimal *)

(** The number [coeff * 10^exp]. *)
Record Decimal := mk_dec { coeff : Z; exp : Z }.

#[export] Instance Decimal_eq_dec : EqDecision Decimal.
Proof. solve_decision. Defined.

Definition prec : Z := 28.

(** Decimal digits of a non-negative coefficient; every division by ten at
    least halves it, so the fuel suffices. *)
Fixpoint ndigits_fuel (fuel : nat) (z : Z) : Z :=
  match fuel with
  | O => 1
  | S n => if z <? 10 then 1 else 1 + ndigits_fuel n (z / 10)
  end.
Definition ndigits (z : Z) : Z := ndigits_fuel (S (Z.to_nat (Z.log2 (Z.abs z)))) (Z.abs z).

(** [n / d] rounded to the nearest integer, ties to the even one. *)
Definition round_half_even (n d : Z) : Z :=
  let q := n / d in
  let r := n mod d in
  if 2 * r <? d then q
  else if d <? 2 * r then q + 1
  else if Z.even q then q else q + 1.

(** Rounding of a result to the precision of the context. *)
Definition fix_prec (x : Decimal) : Decimal :=
  let excess := ndigits x.(coeff) - prec in
  if 0 <? excess
  then mk_dec (round_half_even x.(coeff) (10 ^ excess)) (x.(exp) + excess)
  else x.

(** The coefficient of [x] at a smaller or equal exponent [e]. *)
Definition coeff_at (e : Z) (x : Decimal) : Z := x.(coeff) * 10 ^ (x.(exp) - e).

Definition dec_add (x y : Decimal) : Decimal :=
  let e := Z.min x.(exp) y.(exp) in fix_prec (mk_dec (coeff_at e x + coeff_at e y) e).
Definition dec_sub (x y : Decimal) : Decimal :=
  let e := Z.min x.(exp) y.(exp) in fix_prec (mk_dec (coeff_at e x - coeff_at e y) e).
Definition dec_mul (x y : Decimal) : Decimal :=
  fix_prec (mk_dec (x.(coeff) * y.(coeff)) (x.(exp) + y.(exp))).
(** Division: [prec + 1] digits with a sticky last one, then rounded; an exact
    quotient drops trailing zeros towards the exponent [x.exp - y.exp]. *)
Fixpoint drop_trailing (fuel : nat) (c e : Z) : Z * Z :=
  match fuel with
  | O => (c, e)
  | S fuel => if c mod 10 =? 0 then drop_trailing fuel (c / 10) (e + 1) else (c, e)
  end.
Definition dec_div (x y : Decimal) : Decimal :=
  let ideal := x.(exp) - y.(exp) in
  if x.(coeff) =? 0 then mk_dec 0 ideal
  else
    let shift := ndigits y.(coeff) - ndigits x.(coeff) + prec + 1 in
    let n := Z.abs x.(coeff) * 10 ^ Z.max shift 0 in
    let d := Z.abs y.(coeff) * 10 ^ Z.max (- shift) 0 in
    let q := n / d in
    let '(c, e) := if n mod d =? 0 then drop_trailing (Z.to_nat shift) q (ideal - shift)
                   else (if q mod 5 =? 0 then q + 1 else q, ideal - shift) in
    fix_prec (mk_dec (Z.sgn x.(coeff) * Z.sgn y.(coeff) * c) e).
Definition dec_abs (x : Decimal) : Decimal := fix_prec (mk_dec (Z.abs x.(coeff)) x.(exp)).

(** Comparisons are exact. *)
Definition dec_compare (x y : Decimal) : comparison :=
  let e := Z.min x.(exp) y.(exp) in Z.compare (coeff_at e x) (coeff_at e y).
Definition dec_ltb (x y : Decimal) : bool :=
  match dec_compare x y with Lt => true | _ => false end.
Definition dec_leb (x y : Decimal) : bool := negb (dec_ltb y x).
Definition dec_max (x y : Decimal) : Decimal := if dec_ltb x y then y else x.

(** [x.quantize(Decimal("0.001"))], as the number of thousandths, or [None]
    for [InvalidOperation] when the result needs more digits than the context
    has. *)
Definition quantize_fils (x : Decimal) : option Z :=
  let q := if -3 <=? x.(exp) then x.(coeff) * 10 ^ (x.(exp) + 3)
           else round_half_even x.(coeff) (10 ^ (-3 - x.(exp))) in
  if 10 ^ prec <=? Z.abs q then None else Some q.

Definition quantize (x : Decimal) : result Decimal :=
  match quantize_fils x with
  | Some q => Ok (mk_dec q (-3))
  | None => Raise (err ArithmeticError)
  end.

(** The value of a [Numeric(10, 3)] column, and the constants of the source. *)
Definition of_fils (z : Z) : Decimal := mk_dec z (-3).
Definition ZERO : Decimal := of_fils 0.

(** ** refund_lifecycle._dec: coerce to fils; [None] and values it cannot
    quantize give zero. *)
Definition dec_fils (x : Decimal) : Z := default 0 (quantize_fils x).
Definition dec_fils_opt (x : option Decimal) : Z :=
  match x with Some x => dec_fils x | None => 0 end.

(** [TOLERANCE = Decimal("0.0005")], half a fils, in tenths of fils; and the
    comparisons [a > b + TOLERANCE] and [a + TOLERANCE >= b] of two amounts of
    fils. *)
Definition TOLERANCE_tenths : Z := 5.
Definition exceeds (a b : Z) : bool := 10 * b + TOLERANCE_tenths <? 10 * a.
Definition reaches (a b : Z) : bool := 10 * b <=? 10 * a + TOLERANCE_tenths.

(** ** Money *)
Record Money := mk_money { amount : Decimal; currency : string }.

#[export] Instance Money_eq_dec : EqDecision Money.
Proof. solve_decision. Defined.

(** [__post_init__]: a currency has three letters. *)
Definition Money_new (amount : Decimal) (currency : string) : result Money :=
  if negb (String.length currency =? 3)%nat then Raise (err ValueError)
  else Ok (mk_money amount currency).

Definition money_add (self other : Money) : result Money :=
  if negb (String.eqb self.(currency) other.(currency)) then Raise (err ValueError)
  else Money_new (dec_add self.(amount) other.(amount)) self.(currency).

Definition money_sub (self other : Money) : result Money :=
  if negb (String.eqb self.(currency) other.(currency)) then Raise (err ValueError)
  else Money_new (dec_sub self.(amount) other.(amount)) self.(currency).

Definition money_zero (currency : string) : result Money := Money_new ZERO currency.

(** ** PricingBreakdown *)
Record PricingBreakdown := mk_pricing {
  pb_arrangement_price : Decimal; pb_price_for_extra_minutes : Decimal; pb_addon_price : Decimal;
  pb_discount : Decimal; pb_tax : Decimal; pb_fees : Decimal; pb_total : Decimal;
  pb_currency : string }.

Definition calculate (arrangement_price price_for_extra_minutes addon_price discount
    tax_rate fees : Decimal) (currency : string) : result PricingBreakdown :=
  let subtotal :=
    dec_sub (dec_add (dec_add arrangement_price price_for_extra_minutes) addon_price) discount in
  tax ← quantize (dec_mul subtotal tax_rate);
  total ← quantize (dec_add (dec_add subtotal tax) fees);
  ap ← quantize arrangement_price;
  ep ← quantize price_for_extra_minutes;
  ad ← quantize addon_price;
  di ← quantize discount;
  fe ← quantize fees;
  Ok (mk_pricing ap ep ad di tax fe total currency).

(** * Theorems *)

Lemma exceeds_spec a b : exceeds a b = true ↔ b < a.
Proof. unfold exceeds, TOLERANCE_tenths. rewrite Z.ltb_lt. lia. Qed.
Lemma exceeds_false a b : exceeds a b = false ↔ a <= b.
Proof. unfold exceeds, TOLERANCE_tenths. rewrite Z.ltb_ge. lia. Qed.
Lemma reaches_spec a b : reaches a b = true ↔ b <= a.
Proof. unfold reaches, TOLERANCE_tenths. rewrite Z.leb_le. lia. Qed.
Lemma reaches_false a b : reaches a b = false ↔ a < b.
Proof. unfold reaches, TOLERANCE_tenths. rewrite Z.leb_gt. lia. Qed.

(** Rounding is to a nearest integer, and to the even one on a tie. *)
Lemma round_half_even_spec n d :
  0 < d →
  2 * Z.abs (n - d * round_half_even n d) <= d ∧
  (2 * Z.abs (n - d * round_half_even n d) = d → Z.even (round_half_even n d) = true).
Proof.
  intros Hd. unfold round_half_even.
  pose proof (Z.div_mod n d ltac:(lia)) as Hn. pose proof (Z.mod_pos_bound n d Hd) as Hr.
  set (q := n / d) in *. set (r := n mod d) in *. clearbody q r.
  case_if; [split; nia|]. case_if; [split; nia|].
  destruct (Z.even q) eqn:Eq; [split; [nia|done]|].
  split; [nia|]. intros _. rewrite Z.add_1_r, Z.even_succ. by rewrite <- Z.negb_even, Eq.
Qed.

(** Numbers below [10^k] have at most [k] digits, so results that fit the
    context are exact. *)
Lemma ndigits_fuel_le fuel z k :
  1 <= k → 0 <= z < 10 ^ k → ndigits_fuel fuel z <= k.
Proof.
  revert z k; induction fuel as [|n IH]; intros z k Hk Hz; simpl; [lia|].
  case_if; [lia|].
  destruct (decide (k = 1)) as [->|Hk1]; [change (10 ^ 1) with 10 in Hz; lia|].
  assert (ndigits_fuel n (z / 10) <= k - 1); [|lia]. apply IH; [lia|].
  split; [apply Z.div_pos; lia|]. apply Z.div_lt_upper_bound; [lia|].
  replace k with (1 + (k - 1)) in Hz by lia. rewrite Z.pow_add_r in Hz by lia.
  change (10 ^ 1) with 10 in Hz. lia.
Qed.

Lemma fix_prec_exact x : Z.abs x.(coeff) < 10 ^ prec → fix_prec x = x.
Proof.
  intros Hx. unfold fix_prec, ndigits.
  pose proof (ndigits_fuel_le (S (Z.to_nat (Z.log2 (Z.abs x.(coeff))))) (Z.abs x.(coeff)) prec
    ltac:(unfold prec; lia) ltac:(lia)).
  case_if; [lia|done].
Qed.

Lemma quantize_fils_of_fils z : Z.abs z < 10 ^ prec → quantize_fils (of_fils z) = Some z.
Proof.
  intros Hz. unfold quantize_fils, of_fils; simpl. rewrite Z.mul_1_r. case_if; [lia|done].
Qed.

(** The coercion of a column value is the value. *)
Lemma dec_fils_of_fils z : Z.abs z < 10 ^ prec → dec_fils (of_fils z) = z.
Proof. intros Hz. unfold dec_fils. by rewrite quantize_fils_of_fils. Qed.

(** Results of sums of column-sized values are exact. *)
Lemma dec_add_fils a b :
  Z.abs (a + b) < 10 ^ prec → dec_add (of_fils a) (of_fils b) = of_fils (a + b).
Proof.
  intros H. unfold dec_add, of_fils, coeff_at; simpl. rewrite !Z.mul_1_r. by apply fix_prec_exact.
Qed.
Lemma dec_sub_fils a b :
  Z.abs (a - b) < 10 ^ prec → dec_sub (of_fils a) (of_fils b) = of_fils (a - b).
Proof.
  intros H. unfold dec_sub, of_fils, coeff_at; simpl. rewrite !Z.mul_1_r. by apply fix_prec_exact.
Qed.

(** Comparison is that of the numbers. *)
Lemma dec_ltb_fils a b : dec_ltb (of_fils a) (of_fils b) = (a <? b).
Proof. unfold dec_ltb, dec_compare, of_fils, coeff_at, Z.ltb; simpl. by rewrite !Z.mul_1_r. Qed.

Ltac breflect_money :=
  repeat match goal with
  | H : exceeds _ _ = true |- _ => apply exceeds_spec in H
  | H : exceeds _ _ = false |- _ => apply exceeds_false in H
  | H : reaches _ _ = true |- _ => apply reaches_spec in H
  | H : reaches _ _ = false |- _ => apply reaches_false in H
  end.

(** ** Claims *)

(** Quantizing to fils gives the nearest multiple of a fils, the even one
    on a tie, for every number of at most 25 integer digits, and is the
    identity on amounts that are already whole fils. *)
Theorem quantize_nearest (x : Decimal) (q : Z) :
  quantize_fils x = Some q →
  (-3 <= x.(exp) → q = x.(coeff) * 10 ^ (x.(exp) + 3)) ∧
  (x.(exp) < -3 →
     let d := 10 ^ (-3 - x.(exp)) in
     2 * Z.abs (x.(coeff) - d * q) <= d ∧ (2 * Z.abs (x.(coeff) - d * q) = d → Z.even q = true)) ∧
  quantize_fils (of_fils q) = Some q.
Proof.
  unfold quantize_fils at 1. cbv zeta. destruct (-3 <=? x.(exp)) eqn:E1; breflect;
    (destruct (10 ^ prec <=? _) eqn:E2; breflect; [done|]); intros [= <-].
  - split_and!; [done|lia|by apply quantize_fils_of_fils].
  - split_and!; [lia| |by apply quantize_fils_of_fils]. intros _. apply round_half_even_spec.
    apply Z.pow_pos_nonneg; lia.
Qed.

Lemma quantize_nearest_witness :
  quantize_fils (mk_dec 12345 (-4)) = Some 1234 ∧ quantize_fils (of_fils 1234) = Some 1234.
Proof. split; [reflexivity|]. apply (quantize_nearest (mk_dec 12345 (-4))). reflexivity. Defined.

Lemma quantize_of_fils z : Z.abs z < 10 ^ prec → quantize (of_fils z) = Ok (of_fils z).
Proof. intros Hz. unfold quantize. by rewrite quantize_fils_of_fils. Qed.

(** The tax of [calculate]: a product rounded to the nearest fils. *)
Lemma quantize_mul_rate sub rc re :
  re <= 0 → Z.abs (sub * rc) < 10 ^ prec →
  (∀ q, 2 * Z.abs (sub * rc - 10 ^ (- re) * q) <= 10 ^ (- re) → Z.abs q < 10 ^ prec) →
  ∃ tax, quantize (dec_mul (of_fils sub) (mk_dec rc re)) = Ok (of_fils tax) ∧
         2 * Z.abs (sub * rc - 10 ^ (- re) * tax) <= 10 ^ (- re).
Proof.
  intros Hre Hprod Hbound. unfold dec_mul, of_fils; cbn [coeff exp].
  rewrite fix_prec_exact by exact Hprod. unfold quantize, quantize_fils; cbn [coeff exp].
  destruct (-3 <=? -3 + re) eqn:Ere; breflect.
  - assert (re = 0) as -> by lia. exists (sub * rc).
    replace (-3 + 0 + 3) with 0 by lia. rewrite Z.mul_1_r.
    destruct (10 ^ prec <=? _) eqn:E; breflect; [lia|]. split; [done|simpl; lia].
  - replace (-3 - (-3 + re)) with (- re) by lia.
    pose proof (proj1 (round_half_even_spec (sub * rc) (10 ^ (- re))
      (Z.pow_pos_nonneg 10 (- re) ltac:(lia) ltac:(lia)))) as Hr.
    exists (round_half_even (sub * rc) (10 ^ (- re))). split; [|exact Hr].
    destruct (10 ^ prec <=? _) eqn:E; breflect; [|done]. apply Hbound in Hr. lia.
Qed.

Lemma calculate_ok ap ep ad di tr fe cur s1 s2 sub tax t1 total :
  dec_add ap ep = s1 → dec_add s1 ad = s2 → dec_sub s2 di = sub →
  quantize (dec_mul sub tr) = Ok tax → dec_add sub tax = t1 →
  quantize (dec_add t1 fe) = Ok total →
  quantize ap = Ok ap → quantize ep = Ok ep → quantize ad = Ok ad → quantize di = Ok di →
  quantize fe = Ok fe →
  calculate ap ep ad di tr fe cur = Ok (mk_pricing ap ep ad di tax fe total cur).
Proof.
  intros H1 H2 H3 H4 H5 H6 H7 H8 H9 H10 H11. unfold calculate, mbind, result_bind.
  by rewrite H1, H2, H3, H4, H5, H6, H7, H8, H9, H10, H11.
Qed.

Lemma small_prec z : Z.abs z < 10 ^ 22 → Z.abs z < 10 ^ prec.
Proof. intros Hz. eapply Z.lt_trans; [exact Hz|]. reflexivity. Qed.

Lemma tax_bound p d q : 0 < d → Z.abs p < 4 * 10 ^ 20 → 2 * Z.abs (p - d * q) <= d → Z.abs q < 10 ^ 21.
Proof.
  intros Hd Hp Hq.
  assert (d * Z.abs q = Z.abs (d * q)) as Hdq by (rewrite Z.abs_mul, (Z.abs_eq d); lia).
  assert (d * Z.abs q <= Z.abs p + d) as Hb by lia. nia.
Qed.

(** the price of a booking, for component prices in whole fils: the total
    is subtotal plus tax plus fees to the last fils, the tax is the subtotal
    times the rate rounded to the nearest fils, and every component is kept
    as given. *)
Theorem pricing_calculate (ap ep ad di fe rc re : Z) (cur : string) :
  let sub := ap + ep + ad - di in
  Z.abs ap < 10 ^ 10 → Z.abs ep < 10 ^ 10 → Z.abs ad < 10 ^ 10 → Z.abs di < 10 ^ 10 →
  Z.abs fe < 10 ^ 10 → re <= 0 → Z.abs rc < 10 ^ 10 →
  ∃ tax, calculate (of_fils ap) (of_fils ep) (of_fils ad) (of_fils di) (mk_dec rc re) (of_fils fe) cur =
    Ok (mk_pricing (of_fils ap) (of_fils ep) (of_fils ad) (of_fils di) (of_fils tax) (of_fils fe)
          (of_fils (sub + tax + fe)) cur) ∧
  2 * Z.abs (sub * rc - 10 ^ (- re) * tax) <= 10 ^ (- re).
Proof.
  intros sub Hap Hep Had Hdi Hfe Hre Hrc.
  assert (Z.abs sub < 4 * 10 ^ 10) as Hsub by lia.
  assert (Z.abs (sub * rc) < 4 * 10 ^ 20) as Hprod by (rewrite Z.abs_mul; nia).
  assert (0 < 10 ^ (- re)) as Hpos by (apply Z.pow_pos_nonneg; lia).
  assert (∀ q, 2 * Z.abs (sub * rc - 10 ^ (- re) * q) <= 10 ^ (- re) → Z.abs q < 10 ^ 21) as Hq.
  { intros q. by apply tax_bound. }
  destruct (quantize_mul_rate sub rc re Hre) as (tax & Htax & Hr).
  { apply small_prec. lia. }
  { intros q Hq'. apply Hq in Hq'. apply small_prec. lia. }
  exists tax. split; [|exact Hr]. apply Hq in Hr.
  eapply calculate_ok; [apply dec_add_fils|apply dec_add_fils|apply dec_sub_fils|exact Htax
    |apply dec_add_fils|rewrite dec_add_fils; [apply quantize_of_fils|]|apply quantize_of_fils..];
    apply small_prec; unfold sub in *; lia.
Qed.

Lemma pricing_calculate_witness :
  ∃ tax, calculate (of_fils 25000) (of_fils 5000) (of_fils 0) (of_fils 2500) (mk_dec 5 (-2)) (of_fils 250) "KWD" =
    Ok (mk_pricing (of_fils 25000) (of_fils 5000) (of_fils 0) (of_fils 2500) (of_fils tax) (of_fils 250)
          (of_fils (25000 + 5000 + 0 - 2500 + tax + 250)) "KWD") ∧
  2 * Z.abs ((25000 + 5000 + 0 - 2500) * 5 - 10 ^ 2 * tax) <= 10 ^ 2.
Proof. apply (pricing_calculate 25000 5000 0 2500 250 5 (-2)); lia. Defined.
