(* ===== verification/Numbers.v ===== *)
(** * Sequential document numbers

    Bookings, payments, refunds and vouchers are numbered
    PREFIX/YYYY/MM/NNNNNN by app/booking/infrastructure/repository.py,
    app/payment/infrastructure/repository.py and
    app/voucher/infrastructure/repository.py: the greatest existing number of
    the month, as a string, plus one.  Shop orders
    (app/shop/infrastructure/repository.py) count the month's orders instead.
    String order is the byte order of the C collation. *)

From S2P Require Import Prelude Exceptions Effects Money.
From Stdlib Require Import Ascii.
#[local] Open Scope Z_scope.

(** ** The calendar: the date of an instant *)

Definition us_per_day : Z := 24 * 60 * 60 * 1000000.

(** Proleptic Gregorian (year, month) of a day number since 1970-01-01. *)
Definition year_month (days : Z) : Z * Z :=
  let z := days + 719468 in
  let era := z / 146097 in
  let doe := z - era * 146097 in
  let yoe := (doe - doe / 1460 + doe / 36524 - doe / 146096) / 365 in
  let doy := doe - (365 * yoe + yoe / 4 - yoe / 100) in
  let mp := (5 * doy + 2) / 153 in
  let m := if mp <? 10 then mp + 3 else mp - 9 in
  (yoe + era * 400 + (if m <=? 2 then 1 else 0), m).

(** ** Decimal text *)

Definition digit_char (d : Z) : Ascii.ascii := Ascii.ascii_of_nat (48 + Z.to_nat d).
Definition char_digit (c : Ascii.ascii) : option Z :=
  let n := Ascii.nat_of_ascii c in
  if (48 <=? n)%nat && (n <=? 57)%nat then Some (Z.of_nat n - 48) else None.

(** The last [w] decimal digits of [n]. *)
Fixpoint fixed_width (w : nat) (n : Z) : string :=
  match w with
  | O => ""
  | S w => (fixed_width w (n / 10) ++ String (digit_char (n mod 10)) "")%string
  end.

(** [f"{n:0wd}"] for a non-negative [n]. *)
Definition format_d (w : Z) (n : Z) : string := fixed_width (Z.to_nat (Z.max w (ndigits n))) n.

(** [str.isdigit] and the value of a digit string. *)
Fixpoint parse_digits (acc : Z) (s : string) : option Z :=
  match s with
  | EmptyString => Some acc
  | String c s => match char_digit c with Some d => parse_digits (10 * acc + d) s | None => None end
  end.
Definition isdigit_value (s : string) : option Z :=
  match s with EmptyString => None | _ => parse_digits 0 s end.

(** [int(s)]: surrounding space, a sign, digits with single underscores
    between them; [None] for [ValueError]. *)
Fixpoint parse_int_digits (after_digit : bool) (acc : Z) (s : string) : option Z :=
  match s with
  | EmptyString => if after_digit then Some acc else None
  | String c s =>
      if (c =? "_")%char then if after_digit then parse_int_digits false acc s else None
      else match char_digit c with
           | Some d => parse_int_digits true (10 * acc + d) s
           | None => None
           end
  end.
Definition py_int (s : string) : option Z :=
  match strip s with
  | String c s' =>
      if (c =? "-")%char then Z.opp <$> parse_int_digits false 0 s'
      else if (c =? "+")%char then parse_int_digits false 0 s'
      else parse_int_digits false 0 (String c s')
  | EmptyString => None
  end.

(** [s.split("/")[-1]]. *)
Fixpoint last_part (s : string) : string :=
  match s with
  | EmptyString => EmptyString
  | String c s' =>
      let r := last_part s' in
      if (c =? "/")%char then r
      else if (String.length r =? String.length s')%nat then String c s' else r
  end.

(** ** The generators *)

(** The scalar a query returns. *)
Inductive scalar := SNone | SInt (z : Z) | SStr (s : string).

(** [_extract_sequence]. *)
Definition extract_sequence (existing_val : scalar) : Z :=
  match existing_val with
  | SNone => 0
  | SInt z => z
  | SStr s =>
      let val_str := strip s in
      if negb (truthy val_str) then 0
      else match isdigit_value (last_part val_str) with
           | Some n => n
           | None => default 0 (py_int val_str)
           end
  end.

(** [SELECT max(number) ... WHERE number LIKE prefix%]. *)
Definition str_max (a b : string) : string := if (a <? b)%string then b else a.
Fixpoint max_string (l : list string) : scalar :=
  match l with
  | [] => SNone
  | s :: l => match max_string l with SStr m => SStr (str_max s m) | _ => SStr s end
  end.
Definition like_prefix (prefix : string) (l : list string) : list string :=
  List.filter (String.prefix prefix) l.

(** [f"{kind}/{ref_date.strftime('%Y/%m')}/"]. *)
Definition date_prefix (kind : string) (day : Z) : string :=
  let '(y, m) := year_month day in
  (kind ++ "/" ++ format_d 4 y ++ "/" ++ format_d 2 m ++ "/")%string.

Definition next_number (prefix : string) (existing : list string) : string :=
  let highest_sequence := extract_sequence (max_string (like_prefix prefix existing)) in
  (prefix ++ format_d 6 (highest_sequence + 1))%string.

(** The generators of the repositories; [utc_now] is the instant of the call,
    and [existing] the numbers in the table. *)
Definition generate_payment_number (utc_now : Z) (existing : list string) : string :=
  next_number (date_prefix "PMT" (utc_now / us_per_day)) existing.
Definition generate_refund_number (utc_now : Z) (existing : list string) : string :=
  next_number (date_prefix "REF" (utc_now / us_per_day)) existing.
Definition generate_voucher_number (utc_now : Z) (existing : list string) : string :=
  next_number (date_prefix "VOU" (utc_now / us_per_day)) existing.
(** Bookings use the local (Asia/Kuwait, UTC+3) date. *)
Definition kuwait_offset : Z := 3 * 60 * 60 * 1000000.
Definition generate_booking_number (utc_now : Z) (existing : list string) : string :=
  next_number (date_prefix "BOK" ((utc_now + kuwait_offset) / us_per_day)) existing.

(** [next_order_number]: by the number of orders of the month. *)
Definition next_order_number (utc_now : Z) (existing : list string) : string :=
  let prefix := date_prefix "ORD" ((utc_now + kuwait_offset) / us_per_day) in
  (prefix ++ format_d 6 (Z.of_nat (length (like_prefix prefix existing)) + 1))%string.

(** * Theorems *)

#[local] Arguments digit_char : simpl never.
#[local] Arguments char_digit : simpl never.
#[local] Arguments is_space : simpl never.

Lemma char_digit_char d : 0 <= d < 10 → char_digit (digit_char d) = Some d.
Proof.
  intros Hd. assert (d ∈ [0;1;2;3;4;5;6;7;8;9]) as Hin.
  { rewrite !elem_of_cons, elem_of_nil. lia. }
  revert d Hd Hin. cut (Forall (λ d, char_digit (digit_char d) = Some d) [0;1;2;3;4;5;6;7;8;9]).
  - rewrite Forall_forall. auto.
  - repeat constructor.
Qed.

Lemma parse_digits_app acc s t :
  parse_digits acc (s ++ t) = match parse_digits acc s with Some a => parse_digits a t | None => None end.
Proof.
  revert acc; induction s as [|c s IH]; intros acc; simpl; [done|].
  destruct (char_digit c); [apply IH|done].
Qed.

Lemma parse_fixed_width w n acc :
  0 <= n → parse_digits acc (fixed_width w n) = Some (acc * 10 ^ Z.of_nat w + n mod 10 ^ Z.of_nat w).
Proof.
  revert n acc; induction w as [|w IH]; intros n acc Hn.
  { simpl. rewrite Z.mod_1_r. f_equal. lia. }
  cbn [fixed_width]. rewrite parse_digits_app, IH by (apply Z.div_pos; lia). cbn [parse_digits].
  rewrite char_digit_char by (apply Z.mod_pos_bound; lia). f_equal.
  rewrite Nat2Z.inj_succ, Z.pow_succ_r by lia.
  rewrite Z.rem_mul_r by lia. nia.
Qed.

Lemma length_app_string s t : String.length (s ++ t) = (String.length s + String.length t)%nat.
Proof. induction s; simpl; [done|]. by f_equal. Qed.

Lemma length_fixed_width w n : String.length (fixed_width w n) = w.
Proof. revert n; induction w as [|w IH]; intros n; simpl; [done|]. rewrite length_app_string, IH. simpl. lia. Qed.

Lemma last_part_length s : (String.length (last_part s) <= String.length s)%nat.
Proof. induction s as [|c s IH]; simpl; [done|]. case_match; [lia|]. case_match; simpl; lia. Qed.

(** What is after the last slash. *)
Lemma last_part_noslash t :
  (∀ acc, parse_digits acc t ≠ None) → last_part t = t.
Proof.
  induction t as [|c t IH]; intros Hd; simpl; [done|].
  assert (last_part t = t) as Ht.
  { apply IH. intros acc Hacc. destruct (char_digit c) as [d|] eqn:Hc.
    - clear IH. revert acc Hacc Hd. revert Hc. clear. intros Hc acc Hacc Hd.
      assert (∀ s a b, parse_digits a s = None → parse_digits b s = None) as Hind.
      { induction s as [|c' s IH]; intros a b; simpl; [done|]. destruct (char_digit c'); [apply IH|done]. }
      apply (Hd 0). simpl. rewrite Hc. by apply (Hind t acc).
    - apply (Hd 0). simpl. by rewrite Hc. }
  destruct (c =? "/")%char eqn:Hc.
  - apply Ascii.eqb_eq in Hc as ->. exfalso. by apply (Hd 0).
  - by rewrite Ht, Nat.eqb_refl.
Qed.

Lemma last_part_app p t : last_part t = t → last_part (p ++ "/" ++ t) = t.
Proof.
  intros Ht. induction p as [|c p IH]; [exact Ht|]. simpl in *. rewrite IH.
  destruct (c =? "/")%char; [done|].
  destruct (_ =? _)%nat eqn:E; [|done]. apply Nat.eqb_eq in E.
  rewrite !length_app_string in E. simpl in E. lia.
Qed.

Lemma fixed_width_digits w n acc : 0 <= n → parse_digits acc (fixed_width w n) ≠ None.
Proof. intros Hn. by rewrite parse_fixed_width. Qed.

(** Document numbers start with a letter and end with a digit: [strip] keeps
    them. *)
Lemma rstrip_last s c : is_space c = false → rstrip (s ++ String c "") = (s ++ String c "")%string.
Proof.
  intros Hc. induction s as [|b s IH]; simpl; [by rewrite Hc|]. rewrite IH.
  destruct (is_space b); [|done]. by destruct s.
Qed.

Lemma digit_not_space d : 0 <= d < 10 → is_space (digit_char d) = false.
Proof.
  intros Hd. assert (d ∈ [0;1;2;3;4;5;6;7;8;9]) as Hin.
  { rewrite !elem_of_cons, elem_of_nil. lia. }
  revert d Hd Hin. cut (Forall (λ d, is_space (digit_char d) = false) [0;1;2;3;4;5;6;7;8;9]).
  - rewrite Forall_forall. auto.
  - repeat constructor.
Qed.

Lemma append_assoc s t u : ((s ++ t) ++ u = s ++ (t ++ u))%string.
Proof. induction s as [|c s IH]; [done|]. exact (f_equal (String c) IH). Qed.

Lemma extract_sequence_number c p w n :
  is_space c = false → (0 < w)%nat → 0 <= n < 10 ^ Z.of_nat w →
  extract_sequence (SStr (String c (p ++ "/" ++ fixed_width w n))) = n.
Proof.
  intros Hc Hw Hn. unfold extract_sequence.
  assert (strip (String c (p ++ "/" ++ fixed_width w n)) = String c (p ++ "/" ++ fixed_width w n)) as ->.
  { unfold strip. cbn [lstrip]. rewrite Hc.
    destruct w as [|w]; [lia|]. cbn [fixed_width].
    change (String c (p ++ "/" ++ ?x)) with (String c p ++ ("/" ++ x))%string.
    rewrite <- !append_assoc. apply rstrip_last, digit_not_space, Z.mod_pos_bound. lia. }
  cbn [truthy]. unfold truthy. cbn [negb String.eqb].
  change (String c (p ++ "/" ++ fixed_width w n)) with (String c p ++ "/" ++ fixed_width w n)%string.
  rewrite last_part_app by (apply last_part_noslash; intros acc; apply fixed_width_digits; lia).
  assert (isdigit_value (fixed_width w n) = Some n) as ->; [|done].
  unfold isdigit_value. pose proof (length_fixed_width w n) as Hl.
  destruct (fixed_width w n) eqn:E; [simpl in Hl; lia|]. rewrite <- E, parse_fixed_width by lia.
  f_equal. rewrite Z.mod_small by lia. lia.
Qed.

(** ** The order of numbers is the order of their text *)

Lemma digit_compare a b :
  0 <= a < 10 → 0 <= b < 10 → Ascii.compare (digit_char a) (digit_char b) = Z.compare a b.
Proof.
  intros Ha Hb. assert (a ∈ seqZ 0 10) as Hin by (apply elem_of_seqZ; lia).
  assert (b ∈ seqZ 0 10) as Hin' by (apply elem_of_seqZ; lia).
  assert (Forall (λ a, Forall (λ b, Ascii.compare (digit_char a) (digit_char b) = Z.compare a b)
    (seqZ 0 10)) (seqZ 0 10)) as Hall.
  { apply (bool_decide_unpack _). vm_compute. exact I. }
  rewrite Forall_forall in Hall. specialize (Hall a Hin). rewrite Forall_forall in Hall. auto.
Qed.

Lemma ascii_compare_refl c : Ascii.compare c c = Eq.
Proof. unfold Ascii.compare. apply N.compare_refl. Qed.

Lemma compare_cons c s d t :
  String.compare (String c s) (String d t) =
  match Ascii.compare c d with Eq => String.compare s t | o => o end.
Proof. reflexivity. Qed.

Lemma compare_app a b x y :
  String.length a = String.length b →
  String.compare (a ++ x) (b ++ y) =
  match String.compare a b with Eq => String.compare x y | o => o end.
Proof.
  revert b; induction a as [|c a IH]; intros [|d b]; try done. intros [= Hl].
  change ((String ?c ?s ++ ?t)%string) with (String c (s ++ t)%string).
  rewrite !compare_cons. destruct (Ascii.compare c d); [by apply IH|done..].
Qed.

Lemma compare_refl s : String.compare s s = Eq.
Proof. induction s; [done|]. by rewrite compare_cons, ascii_compare_refl. Qed.

Lemma compare_prefix p a b : String.compare (p ++ a) (p ++ b) = String.compare a b.
Proof. by rewrite compare_app, compare_refl. Qed.

Lemma compare_fixed_width w n m :
  0 <= n < 10 ^ Z.of_nat w → 0 <= m < 10 ^ Z.of_nat w →
  String.compare (fixed_width w n) (fixed_width w m) = Z.compare n m.
Proof.
  revert n m; induction w as [|w IH]; intros n m Hn Hm.
  { simpl in *. assert (n = m) as -> by lia. by rewrite Z.compare_refl. }
  rewrite Nat2Z.inj_succ, Z.pow_succ_r in Hn, Hm by lia.
  pose proof (Z.div_mod n 10 ltac:(lia)). pose proof (Z.mod_pos_bound n 10 ltac:(lia)).
  pose proof (Z.div_mod m 10 ltac:(lia)). pose proof (Z.mod_pos_bound m 10 ltac:(lia)).
  cbn [fixed_width]. rewrite compare_app by by rewrite !length_fixed_width.
  rewrite IH by lia. rewrite compare_cons, digit_compare by lia.
  destruct (Z.compare_spec (n / 10) (m / 10)) as [He|Hl|Hg].
  - destruct (Z.compare_spec (n mod 10) (m mod 10)); symmetry;
      [apply Z.compare_eq_iff|apply Z.compare_lt_iff|apply Z.compare_gt_iff]; lia.
  - symmetry. apply Z.compare_lt_iff. lia.
  - symmetry. apply Z.compare_gt_iff. lia.
Qed.

Lemma format_d_small w n :
  1 <= w → 0 <= n < 10 ^ w → format_d w n = fixed_width (Z.to_nat w) n.
Proof.
  intros Hw Hn. unfold format_d, ndigits. rewrite Z.abs_eq by lia.
  pose proof (ndigits_fuel_le (S (Z.to_nat (Z.log2 n))) n w Hw Hn). by rewrite Z.max_l by lia.
Qed.

Lemma fixed_width_inj w n m :
  0 <= n < 10 ^ Z.of_nat w → 0 <= m < 10 ^ Z.of_nat w → fixed_width w n = fixed_width w m → n = m.
Proof.
  intros Hn Hm Heq. apply Z.compare_eq_iff. rewrite <- (compare_fixed_width w) by done.
  by rewrite Heq, compare_refl.
Qed.

Lemma append_inj_l p s t : (p ++ s = p ++ t)%string → s = t.
Proof. induction p as [|c p IH]; [done|]. intros [= H]. by apply IH. Qed.

Lemma prefix_app p s : String.prefix p (p ++ s) = true.
Proof.
  induction p as [|c p IH]; [by destruct s|].
  change ((String c p ++ s)%string) with (String c (p ++ s)%string). simpl.
  by destruct (ascii_dec c c).
Qed.

(** The greatest sequence number. *)
Lemma foldr_max_bounds B ks :
  0 < B → Forall (λ k, 0 <= k < B) ks → 0 <= foldr Z.max 0 ks < B.
Proof. intros HB. induction 1; simpl; lia. Qed.
Lemma foldr_max_ge k ks : k ∈ ks → k <= foldr Z.max 0 ks.
Proof.
  induction ks as [|k' ks IH]; [by intros ?%elem_of_nil|].
  intros [->|Hin]%elem_of_cons; simpl; [lia|]. specialize (IH Hin). lia.
Qed.
Lemma foldr_max_le x ks : 0 <= x → Forall (λ k, k <= x) ks → foldr Z.max 0 ks <= x.
Proof. intros Hx. induction 1; simpl; lia. Qed.

Section month.
(** The numbers of one month: a prefix ending in a slash and a sequence
    number of six digits. *)
Context (c : ascii) (p : string).
Hypothesis c_visible : is_space c = false.
Let prefix : string := String c (p ++ "/").

Definition number (k : Z) : string := (prefix ++ fixed_width 6 k)%string.

Lemma number_max j k :
  0 <= j < 10 ^ 6 → 0 <= k < 10 ^ 6 → str_max (number j) (number k) = number (Z.max j k).
Proof.
  intros Hj Hk. unfold str_max, number, String.ltb. rewrite compare_prefix, compare_fixed_width by done.
  destruct (Z.compare_spec j k); f_equal; f_equal; lia.
Qed.

Lemma extract_number k : 0 <= k < 10 ^ 6 → extract_sequence (SStr (number k)) = k.
Proof.
  intros Hk. unfold number, prefix.
  change (String c (p ++ "/") ++ fixed_width 6 k)%string with (String c ((p ++ "/") ++ fixed_width 6 k)).
  rewrite append_assoc. apply extract_sequence_number; [done|lia|done].
Qed.

Lemma max_numbers ks :
  Forall (λ k, 0 <= k < 10 ^ 6) ks → ks ≠ [] →
  ∃ m, max_string (number <$> ks) = SStr (number m) ∧ m ∈ ks ∧ Forall (λ k, k <= m) ks.
Proof.
  induction 1 as [|k ks Hk Hks IH]; [done|]. intros _. cbn [fmap list_fmap max_string].
  destruct ks as [|k' ks].
  { exists k. split_and!; [done|apply list_elem_of_here|]. repeat constructor. lia. }
  destruct IH as (m & -> & Hm & Hall); [done|].
  rewrite number_max; [|done|by rewrite Forall_forall in Hks; apply Hks].
  exists (Z.max k m). split_and!; [done| |].
  - destruct (Z.max_spec k m) as [[_ ->]|[_ ->]]; [by apply list_elem_of_further|apply list_elem_of_here].
  - constructor; [lia|]. eapply Forall_impl; [exact Hall|]. simpl; lia.
Qed.

Lemma next_number_spec existing ks :
  like_prefix prefix existing = number <$> ks →
  Forall (λ k, 0 <= k < 10 ^ 6 - 1) ks →
  next_number prefix existing = number (foldr Z.max 0 ks + 1) ∧
  next_number prefix existing ∉ existing.
Proof.
  intros Hex Hks. set (m := foldr Z.max 0 ks).
  assert (0 <= m < 10 ^ 6 - 1) as Hm by (apply foldr_max_bounds; [lia|done]).
  assert (extract_sequence (max_string (number <$> ks)) = m) as Hext.
  { unfold m. destruct ks as [|k0 ks0] eqn:Eks; [done|]. rewrite <- Eks in *.
    destruct (max_numbers ks) as (x & -> & Hx & Hall).
    { eapply Forall_impl; [exact Hks|]. simpl; lia. }
    { by rewrite Eks. }
    rewrite extract_number.
    - rewrite Forall_forall in Hks. specialize (Hks x Hx).
      pose proof (foldr_max_le x ks ltac:(lia) Hall). pose proof (foldr_max_ge x ks Hx). lia.
    - rewrite Forall_forall in Hks. specialize (Hks x Hx). lia. }
  assert (next_number prefix existing = number (m + 1)) as Hnext.
  { unfold next_number. rewrite Hex, Hext, format_d_small by lia. done. }
  split; [done|]. rewrite Hnext. intros Hin.
  assert (number (m + 1) ∈ like_prefix prefix existing) as Hin'.
  { apply elem_of_filter_list. split; [done|apply prefix_app]. }
  rewrite Hex in Hin'. apply list_elem_of_fmap in Hin' as (k & Hk & Hkin).
  unfold number in Hk. apply append_inj_l in Hk.
  pose proof (foldr_max_ge k ks Hkin) as Hkm. fold m in Hkm.
  rewrite Forall_forall in Hks. specialize (Hks k Hkin).
  apply fixed_width_inj in Hk; [lia| |]; change (Z.of_nat 6) with 6; lia.
Qed.
End month.

Lemma date_prefix_shape (k : string) c p' day :
  k = String c p' → ∃ p, date_prefix k day = String c (p ++ "/").
Proof.
  intros ->. unfold date_prefix. destruct (year_month day) as [y m].
  exists (p' ++ "/" ++ format_d 4 y ++ "/" ++ format_d 2 m)%string.
  change ((String c p' ++ ?t)%string) with (String c (p' ++ t)%string).
  by rewrite !append_assoc.
Qed.

(** ** Claims *)

(** while a month has fewer than 999999 refunds, the refund number
    generated is the greatest sequence number of the month plus one, in the
    month of the (UTC) date, and no refund has it yet. *)
Theorem refund_number_fresh (utc_now : Z) (existing : list string) (ks : list Z) :
  let prefix := date_prefix "REF" (utc_now / us_per_day) in
  like_prefix prefix existing = (λ k, prefix ++ fixed_width 6 k)%string <$> ks →
  Forall (λ k, 0 <= k < 999999) ks →
  generate_refund_number utc_now existing = (prefix ++ fixed_width 6 (foldr Z.max 0 ks + 1))%string ∧
  generate_refund_number utc_now existing ∉ existing.
Proof.
  cbv zeta. unfold generate_refund_number.
  destruct (date_prefix_shape "REF" "R" "EF" (utc_now / us_per_day) eq_refl) as [p Hp].
  rewrite Hp. intros Hex Hks.
  apply (next_number_spec "R" p eq_refl); [exact Hex|exact Hks].
Qed.

Lemma refund_number_fresh_witness :
  generate_refund_number (1790000000 * 1000000)
    ["REF/2026/08/000412"; "REF/2026/09/000007"; "REF/2026/09/000003"] = "REF/2026/09/000008" ∧
  generate_refund_number (1790000000 * 1000000)
    ["REF/2026/08/000412"; "REF/2026/09/000007"; "REF/2026/09/000003"] ∉
    ["REF/2026/08/000412"; "REF/2026/09/000007"; "REF/2026/09/000003"].
Proof.
  split; [vm_compute; reflexivity|].
  apply (refund_number_fresh (1790000000 * 1000000)
    ["REF/2026/08/000412"; "REF/2026/09/000007"; "REF/2026/09/000003"] [7; 3]).
  - vm_compute. reflexivity.
  - repeat (apply Forall_cons; split; [lia|]). constructor.
Defined.

(** Past 999999 documents the text order no longer follows the sequence
    number ("1000000" sorts before "999999") and the generator returns a number
    that already exists. *)
Theorem payment_number_collides (utc_now : Z) :
  let prefix := date_prefix "PMT" (utc_now / us_per_day) in
  let existing := [prefix ++ "999999"; prefix ++ "1000000"]%string in
  generate_payment_number utc_now existing ∈ existing.
Proof.
  cbv zeta. unfold generate_payment_number.
  destruct (date_prefix_shape "PMT" "P" "MT" (utc_now / us_per_day) eq_refl) as [p Hp].
  rewrite Hp. unfold next_number, like_prefix. cbn [List.filter]. rewrite !prefix_app.
  cbn [max_string]. unfold str_max, String.ltb. rewrite compare_prefix.
  change (String.compare "999999" "1000000") with Gt. cbv iota.
  pose proof (extract_number "P" p eq_refl 999999 ltac:(lia)) as Hx.
  unfold number in Hx. change (fixed_width 6 999999) with "999999"%string in Hx. rewrite Hx.
  change (format_d 6 (999999 + 1)) with "1000000"%string.
  apply list_elem_of_further, list_elem_of_here.
Qed.

(** The shop's order number counts the month's orders, so after a gap in
    the numbering (an order deleted) it can return a number in use. *)
Theorem order_number_collides :
  ∃ utc_now existing, next_order_number utc_now existing ∈ existing ∧ NoDup existing.
Proof.
  exists (1790000000 * 1000000), ["ORD/2026/09/000002"; "ORD/2026/09/000003"].
  split; [|apply (bool_decide_unpack _); vm_compute; exact I].
  apply (bool_decide_unpack _). vm_compute. exact I.
Qed.
