(* ===== verification/Store.v ===== *)
(** * The rows the services share

    The tables that bookings, payments, refunds, loyalty and gift vouchers read
    and write (app/booking/infrastructure/models.py,
    app/payment/infrastructure/models.py, app/loyalty/infrastructure/models.py,
    app/voucher/infrastructure/models.py), as records over one database state.
    A row carries the columns the modelled services read or write.  A UUID is
    an integer and a table a finite map from primary keys; [Numeric(10, 3)]
    columns are whole fils; timestamps are microseconds.

    The session flushes before every query that depends on a pending change,
    and the ORM keeps one object per row, so an operation reads its own
    writes: a row variable of the source is the row's key here, read from the
    state where the source reads the attribute. *)

From S2P Require Import Prelude Exceptions Effects Money.

(** ** JSON columns

    A float is the decimal that its [repr] denotes. *)

#[warnings="-register-all"]
Inductive json :=
  | JNull | JBool (b : bool) | JInt (z : Z) | JFloat (d : Decimal) | JStr (s : string)
  | JList (l : list json) | JDict (d : list (string * json)).

Definition jdict : Type := list (string * json).

Fixpoint dict_get (d : jdict) (k : string) : option json :=
  match d with
  | [] => None
  | (k', v) :: d => if String.eqb k' k then Some v else dict_get d k
  end.

(** [{**d, k: v}]: the key keeps its position, a new key goes last. *)
Fixpoint dict_set (d : jdict) (k : string) (v : json) : jdict :=
  match d with
  | [] => [(k, v)]
  | (k', v') :: d => if String.eqb k' k then (k, v) :: d else (k', v') :: dict_set d k v
  end.

(** [{**a, **b}]. *)
Definition dict_merge (a b : jdict) : jdict := foldl (λ d '(k, x), dict_set d k x) a b.

(** [d or {}]. *)
Definition or_empty (d : option jdict) : jdict := default [] d.

(** [a or b] for two optional dictionaries. *)
Definition por_dict (a b : option jdict) : option jdict :=
  match a with Some (_ :: _) => a | _ => b end.

(** Truth value of a JSON value. *)
Definition jtruthy (j : option json) : bool :=
  match j with
  | None | Some JNull => false
  | Some (JBool b) => b
  | Some (JInt z) => negb (z =? 0)
  | Some (JFloat d) => negb (d.(coeff) =? 0)
  | Some (JStr s) => truthy s
  | Some (JList l) => match l with [] => false | _ => true end
  | Some (JDict d) => match d with [] => false | _ => true end
  end.

(** ** Rows *)

(** A booking's [payment_id] column is free text: the UUID of a payment row, or
    a gateway reference ([uuid.UUID(text)] raises [ValueError]). *)
Inductive PaymentRef := RefUuid (id : Z) | RefText (s : string).

Definition ref_truthy (r : option PaymentRef) : bool :=
  match r with None => false | Some (RefUuid _) => true | Some (RefText s) => truthy s end.

(** The columns of a booking that describe its appointment, its price in parts and
    its origin. *)
Record BookingSchedule := mk_schedule {
  sc_services : list json; sc_sessions : list json;
  sc_therapist_id : Z; sc_therapist_data : option jdict;
  sc_secondary_therapist_id : option Z; sc_secondary_therapist_data : option jdict;
  sc_addons : option (list json); sc_appointment_date : Z; sc_appointment_end : Z; sc_extra_minutes : Z;
  sc_base_price : option Z; sc_addons_duration : option Z; sc_arrangement_price : Z;
  sc_price_for_extra_minutes : Z; sc_addon_price : Z; sc_discount : Z; sc_tax : Z; sc_fees : Z;
  sc_idempotency_key : option string; sc_customer_notes : option string;
  sc_voucher_id : option Z; sc_voucher_data : option jdict;
  sc_created_by_user : option string; sc_created_by_user_data : option jdict; sc_created_at : Z;
  sc_branch_name : option string }.

#[export] Instance eta_BookingSchedule : Eta BookingSchedule := λ c, mk_schedule
  c.(sc_services) c.(sc_sessions) c.(sc_therapist_id) c.(sc_therapist_data) c.(sc_secondary_therapist_id)
  c.(sc_secondary_therapist_data) c.(sc_addons) c.(sc_appointment_date) c.(sc_appointment_end)
  c.(sc_extra_minutes) c.(sc_base_price) c.(sc_addons_duration) c.(sc_arrangement_price)
  c.(sc_price_for_extra_minutes) c.(sc_addon_price) c.(sc_discount) c.(sc_tax) c.(sc_fees)
  c.(sc_idempotency_key) c.(sc_customer_notes) c.(sc_voucher_id) c.(sc_voucher_data)
  c.(sc_created_by_user) c.(sc_created_by_user_data) c.(sc_created_at) c.(sc_branch_name).

(** A schedule with nothing in it. *)
Definition no_schedule : BookingSchedule :=
  mk_schedule [] [] 0 None None None None 0 0 0 None None 0 0 0 0 0 0 None None None None None None 0 None.

Record Booking := mk_booking {
  bk_booking_number : option string; bk_invoice_number : option string;
  bk_customer_id : Z; bk_customer_data : option jdict;
  bk_branch_id : option Z; bk_branch_data : option jdict; bk_service_id : Z;
  bk_appointment_start : Z; bk_total_amount : Z; bk_currency : string;
  bk_status : string; bk_payment_status : string;
  bk_booking_type : string; bk_payment_type : string;
  bk_payment_id : option PaymentRef; bk_payment_provider : option string;
  bk_payment_gateway : option string; bk_internal_notes : option string;
  bk_loyalty_data : option jdict; bk_reward_id : option Z;
  bk_service_data : option jdict; bk_service_arrangement_id : option Z;
  bk_service_arrangement_data : option jdict; bk_duration_minutes : Z; bk_total_duration : option Z;
  bk_payment_through : option string; bk_payment_method : option string;
  bk_payment_provider_group : option string; bk_payment_source : option string;
  bk_payment_link_id : option Z; bk_payment_url : option string; bk_payment_data : option jdict;
  bk_schedule : BookingSchedule }.

#[export] Instance eta_Booking : Eta Booking := λ b, mk_booking
  b.(bk_booking_number) b.(bk_invoice_number) b.(bk_customer_id) b.(bk_customer_data)
  b.(bk_branch_id) b.(bk_branch_data) b.(bk_service_id) b.(bk_appointment_start)
  b.(bk_total_amount) b.(bk_currency) b.(bk_status) b.(bk_payment_status)
  b.(bk_booking_type) b.(bk_payment_type) b.(bk_payment_id) b.(bk_payment_provider)
  b.(bk_payment_gateway) b.(bk_internal_notes) b.(bk_loyalty_data) b.(bk_reward_id)
  b.(bk_service_data) b.(bk_service_arrangement_id) b.(bk_service_arrangement_data)
  b.(bk_duration_minutes) b.(bk_total_duration) b.(bk_payment_through) b.(bk_payment_method)
  b.(bk_payment_provider_group) b.(bk_payment_source) b.(bk_payment_link_id) b.(bk_payment_url)
  b.(bk_payment_data) b.(bk_schedule).

(** A slot kept for a booking that is not confirmed yet. *)
Record TemporaryHold := mk_hold {
  th_booking_id : Z; th_therapist_id : Z; th_service_arrangement_id : Z;
  th_appointment_start : Z; th_appointment_end : Z; th_expires_at : Z }.

#[export] Instance eta_TemporaryHold : Eta TemporaryHold := λ h, mk_hold
  h.(th_booking_id) h.(th_therapist_id) h.(th_service_arrangement_id) h.(th_appointment_start)
  h.(th_appointment_end) h.(th_expires_at).

(** An immutable row of [booking_status_history]. *)
Record BookingStatusHistory := mk_booking_history {
  bh_booking_id : Z; bh_old_status : option string; bh_new_status : string;
  bh_source : option string; bh_reason : option string }.

(** The columns of a payment that describe what was sold and to whom. *)
Record PaymentDetails := mk_details {
  pd_sender_id : option Z; pd_sender_data : option jdict; pd_branch_name : option string;
  pd_addons : option json; pd_addons_price : option Z; pd_extra_time : option Z; pd_price_for_extra_time : option Z;
  pd_country : option string; pd_recipient_id : option Z; pd_booking_data : option jdict; pd_voucher_data : option jdict;
  pd_product_order_id : option Z; pd_product_order_items : option json;
  pd_transaction_date : option string; pd_receipt_image : option string }.
#[export] Instance eta_PaymentDetails : Eta PaymentDetails := λ d, mk_details
  d.(pd_sender_id) d.(pd_sender_data) d.(pd_branch_name) d.(pd_addons) d.(pd_addons_price) d.(pd_extra_time)
  d.(pd_price_for_extra_time) d.(pd_country) d.(pd_recipient_id) d.(pd_booking_data) d.(pd_voucher_data)
  d.(pd_product_order_id) d.(pd_product_order_items) d.(pd_transaction_date) d.(pd_receipt_image).
Definition no_details : PaymentDetails :=
  mk_details None None None None None None None None None None None None None None None.

Record Payment := mk_payment {
  pm_id : Z; pm_booking_id : option Z; pm_customer_id : Z;
  pm_total_amount : Z; pm_amount_refunded : Z; pm_currency : string;
  pm_status : option string; pm_payment_provider : option string;
  pm_payment_gateway : option string; pm_payment_id : option string;
  pm_invoice_id : option string; pm_invoice_number : option string;
  pm_transaction_id : option string; pm_payment_data : option jdict; pm_created_at : Z;
  pm_payment_number : string; pm_customer_data : option jdict;
  pm_service_id : option Z; pm_service_data : option jdict; pm_branch_id : option Z;
  pm_branch_data : option jdict; pm_service_arrangement_id : option Z;
  pm_service_arrangement_data : option jdict; pm_total_duration : Z; pm_paid_at : option Z;
  pm_recipient_phone : option string; pm_recipient_data : option jdict;
  pm_voucher_id : option Z; pm_voucher_number : option string; pm_invoice_value : option Z;
  pm_payment_url : option string; pm_track_id : option string; pm_reference_id : option string;
  pm_transaction_status : option string; pm_payment_method : option string;
  pm_payment_through : option string; pm_payment_provider_group : option string;
  pm_payment_source : option string; pm_payment_link_id : option Z; pm_payment_for : option string;
  pm_created_by_user : option string; pm_created_by_user_data : option jdict; pm_details : PaymentDetails }.

#[export] Instance eta_Payment : Eta Payment := λ p, mk_payment
  p.(pm_id) p.(pm_booking_id) p.(pm_customer_id) p.(pm_total_amount) p.(pm_amount_refunded)
  p.(pm_currency) p.(pm_status) p.(pm_payment_provider) p.(pm_payment_gateway)
  p.(pm_payment_id) p.(pm_invoice_id) p.(pm_invoice_number) p.(pm_transaction_id)
  p.(pm_payment_data) p.(pm_created_at) p.(pm_payment_number) p.(pm_customer_data) p.(pm_service_id)
  p.(pm_service_data) p.(pm_branch_id) p.(pm_branch_data) p.(pm_service_arrangement_id)
  p.(pm_service_arrangement_data) p.(pm_total_duration) p.(pm_paid_at) p.(pm_recipient_phone)
  p.(pm_recipient_data) p.(pm_voucher_id) p.(pm_voucher_number) p.(pm_invoice_value)
  p.(pm_payment_url) p.(pm_track_id) p.(pm_reference_id) p.(pm_transaction_status)
  p.(pm_payment_method) p.(pm_payment_through) p.(pm_payment_provider_group) p.(pm_payment_source)
  p.(pm_payment_link_id) p.(pm_payment_for) p.(pm_created_by_user) p.(pm_created_by_user_data) p.(pm_details).

(** [RefundStatus]. *)
Inductive RefundStatus :=
  | REQUESTED | APPROVED | REJECTED | PROCESSING | COMPLETED | FAILED | CANCELLED.
#[export] Instance RefundStatus_eq_dec : EqDecision RefundStatus.
Proof. solve_decision. Defined.

(** The values [_booking_snapshot] renders. *)
Record BookingSnapshot := mk_snapshot {
  sn_booking_number : option string; sn_status : string; sn_payment_status : string;
  sn_appointment_start : Z; sn_service_id : Z; sn_branch_id : option Z; sn_total_amount : Z }.

Record Refund := mk_refund {
  rf_id : Z; rf_refund_number : string; rf_idempotency_key : option string;
  rf_booking_id : option Z; rf_booking_data : option BookingSnapshot; rf_payment_id : option Z;
  rf_invoice_number : option string; rf_credit_note_number : option string;
  rf_credit_note_id : option string; rf_customer_id : option Z; rf_customer_data : option jdict;
  rf_branch_id : option Z; rf_branch_data : option jdict;
  rf_refund_type : string; rf_refund_method : string; rf_status : RefundStatus;
  rf_requested_amount : Z; rf_cancellation_fee : Z; rf_refunded_amount : Z; rf_currency : string;
  rf_reason : option string; rf_notes : option string; rf_customer_confirmation : option string;
  rf_reference_number : option string; rf_payment_gateway : option string;
  rf_gateway_transaction_id : option string; rf_gateway_refund_id : option string;
  rf_gateway_response : option jdict; rf_processed_by : option string;
  rf_processed_by_data : option jdict; rf_processed_at : option Z; rf_completed_at : option Z;
  rf_failure_reason : option string; rf_created_at : Z }.

#[export] Instance eta_Refund : Eta Refund := λ r, mk_refund
  r.(rf_id) r.(rf_refund_number) r.(rf_idempotency_key) r.(rf_booking_id) r.(rf_booking_data)
  r.(rf_payment_id) r.(rf_invoice_number) r.(rf_credit_note_number) r.(rf_credit_note_id)
  r.(rf_customer_id) r.(rf_customer_data) r.(rf_branch_id) r.(rf_branch_data)
  r.(rf_refund_type) r.(rf_refund_method) r.(rf_status) r.(rf_requested_amount)
  r.(rf_cancellation_fee) r.(rf_refunded_amount) r.(rf_currency) r.(rf_reason) r.(rf_notes)
  r.(rf_customer_confirmation) r.(rf_reference_number) r.(rf_payment_gateway)
  r.(rf_gateway_transaction_id) r.(rf_gateway_refund_id) r.(rf_gateway_response)
  r.(rf_processed_by) r.(rf_processed_by_data) r.(rf_processed_at) r.(rf_completed_at)
  r.(rf_failure_reason) r.(rf_created_at).

(** An immutable row of [payment_status_history]; [hs_metadata] holds the
    values of the JSON column the refund lifecycle writes: the refund, its
    status and amount, and the payment's refunded total.  The reason is a text
    for people and left out. *)
Record PaymentStatusHistory := mk_history {
  hs_payment_id : Z; hs_old_status : option string; hs_new_status : string;
  hs_source : string; hs_provider_reference : option string; hs_correlation_id : option string;
  hs_metadata : option (Z * RefundStatus * Z * Z);
  hs_change_by_user : option string; hs_change_by_user_data : option jdict }.

Inductive TransactionType := EARN | REDEEM | EXPIRE | ADJUST | CANCEL.
#[export] Instance TransactionType_eq_dec : EqDecision TransactionType.
Proof. solve_decision. Defined.

(** The descriptions the loyalty services render. *)
Inductive TxnNote :=
  | Note (text : string)
  | PointsEarnedFrom (booking_number : option string) (booking_id : option Z)
  | PointsRedeemedFor (booking_number : option string) (booking_id : option Z)
  | PointsReversedFor (booking_number : option string) (booking_id : option Z).

(** [loyalty_account.customer_id] is unique, and the table is keyed by it. *)
Record LoyaltyAccount := mk_account {
  la_balance_points : Z; la_total_earned : Z; la_total_redeemed : Z;
  la_points_expire_at : option Z; la_updated_at : Z }.

#[export] Instance eta_LoyaltyAccount : Eta LoyaltyAccount := λ a, mk_account
  a.(la_balance_points) a.(la_total_earned) a.(la_total_redeemed) a.(la_points_expire_at)
  a.(la_updated_at).

Record LoyaltyTransaction := mk_txn {
  lt_customer_id : Z; lt_transaction_type : TransactionType; lt_points : Z;
  lt_booking_id : option Z; lt_booking_number : option string;
  lt_description : TxnNote; lt_created_by : option string }.

(** One entry of [GiftVoucher.services].  The price is the text of a decimal
    in the column, read back by [Decimal(str(price))]. *)
Record ServiceEntry := mk_service_entry {
  se_service_id : option string; se_service_data : jdict; se_addons : list jdict;
  se_extra_time : Z; se_price_for_extra_time : option Decimal; se_position : Z }.

(** One entry of [GiftVoucher.redemptions]: a booking made from the voucher and
    the services it used. *)
Record UsedService := mk_used_service {
  us_service_id : string; us_service_name : option string; us_addon_ids : list string;
  us_extra_time : Z }.
Record Redemption := mk_redemption {
  rd_booking_id : option string; rd_booking_number : option string; rd_redeemed_at : Z;
  rd_redeemed_by : option string; rd_services : list UsedService }.

(** One entry of [GiftVoucher.update_history]; [vh_changed_by_name] and the
    list of updated fields of [update_voucher] are for people and left out. *)
Record VoucherHistory := mk_voucher_history {
  vh_action : string; vh_timestamp : Z; vh_changed_by : string;
  vh_old_status : option string; vh_new_status : option string;
  vh_new_scheduled_delivery_at : option Z; vh_reschedule_count : option Z }.

(** A nullable list or dictionary column that the code only reads through
    [x or []] or [x or {}] is a plain list here. *)
Record GiftVoucher := mk_voucher {
  gv_voucher_number : option string;
  gv_service_id : option Z; gv_service_data : jdict;
  gv_branch_id : option Z; gv_branch_data : option jdict;
  gv_service_arrangement_id : option Z; gv_service_arrangement_data : option jdict;
  gv_services : list ServiceEntry; gv_redemptions : list Redemption;
  gv_addons : list jdict; gv_extra_time : Z; gv_price_for_extra_time : option Decimal;
  gv_expire_date : Z; gv_status : string; gv_gift_category : string;
  gv_ordered_items : option json; gv_delivery_status : option string;
  gv_delivery_address : option jdict; gv_digital_product_data : option jdict;
  gv_is_digital_gift_opened : bool;
  gv_sender_id : Z; gv_sender_data : option jdict;
  gv_recipient_phone : option string; gv_recipient_id : option Z; gv_recipient_data : option jdict;
  gv_created_by : option Z;
  gv_total_duration : Z; gv_total_amount : Z; gv_discount : Z; gv_currency : string;
  gv_gift_message : option string; gv_gift_from : option string; gv_gift_template : option string;
  gv_secret_code : string; gv_public_token : string;
  gv_redeemed_booking_id : option Z; gv_redeemed_at : option Z; gv_redeemed_by : option Z;
  gv_booking_id : option Z; gv_booking_data : option jdict;
  gv_payment_id : option string; gv_payment_data : option jdict; gv_payment_url : option string;
  gv_payment_provider : option string; gv_payment_through : option string;
  gv_delivery_mode : string; gv_scheduled_delivery_at : option Z;
  gv_delivery_schedule_name : option string; gv_delivery_schedule_arn : option string;
  gv_delivered_at : option Z; gv_delivery_result : option jdict; gv_reschedule_count : Z;
  gv_update_history : list VoucherHistory }.

#[export] Instance eta_GiftVoucher : Eta GiftVoucher := λ v, mk_voucher v.(gv_voucher_number)
  v.(gv_service_id) v.(gv_service_data) v.(gv_branch_id) v.(gv_branch_data)
  v.(gv_service_arrangement_id) v.(gv_service_arrangement_data) v.(gv_services) v.(gv_redemptions)
  v.(gv_addons) v.(gv_extra_time) v.(gv_price_for_extra_time) v.(gv_expire_date) v.(gv_status)
  v.(gv_gift_category) v.(gv_ordered_items) v.(gv_delivery_status) v.(gv_delivery_address)
  v.(gv_digital_product_data) v.(gv_is_digital_gift_opened) v.(gv_sender_id) v.(gv_sender_data)
  v.(gv_recipient_phone) v.(gv_recipient_id) v.(gv_recipient_data) v.(gv_created_by)
  v.(gv_total_duration) v.(gv_total_amount) v.(gv_discount) v.(gv_currency) v.(gv_gift_message)
  v.(gv_gift_from) v.(gv_gift_template) v.(gv_secret_code) v.(gv_public_token)
  v.(gv_redeemed_booking_id) v.(gv_redeemed_at) v.(gv_redeemed_by) v.(gv_booking_id)
  v.(gv_booking_data) v.(gv_payment_id) v.(gv_payment_data) v.(gv_payment_url)
  v.(gv_payment_provider) v.(gv_payment_through) v.(gv_delivery_mode) v.(gv_scheduled_delivery_at)
  v.(gv_delivery_schedule_name) v.(gv_delivery_schedule_arn) v.(gv_delivered_at)
  v.(gv_delivery_result) v.(gv_reschedule_count) v.(gv_update_history).

(** A payment link; its [customer_data], [created_by_data] and the copies of
    gateway requests and responses are audit columns that no modelled code
    reads back, and only the ones settlement and cancellation write are kept. *)
Record PaymentLink := mk_link {
  pl_link_number : option string; pl_target_type : string; pl_target_id : Z;
  pl_target_ref : option string; pl_invoice_id : option string; pl_invoice_number : option string;
  pl_gateway : string; pl_provider_label : string; pl_gateway_invoice_id : option string;
  pl_payment_url : option string; pl_amount : Z; pl_amount_refunded : Z; pl_currency : string;
  pl_status : string; pl_customer_id : option Z; pl_webhook_data : option jdict;
  pl_failure_data : option jdict; pl_meta : option jdict; pl_gateway_payment_id : option string;
  pl_transaction_id : option string; pl_track_id : option string; pl_reference_id : option string;
  pl_payment_method : option string; pl_payment_row_id : option Z; pl_created_by : option string;
  pl_created_by_data : option jdict; pl_expires_at : option Z; pl_paid_at : option Z;
  pl_created_at : Z }.

#[export] Instance eta_PaymentLink : Eta PaymentLink := λ l, mk_link
  l.(pl_link_number) l.(pl_target_type) l.(pl_target_id) l.(pl_target_ref) l.(pl_invoice_id)
  l.(pl_invoice_number) l.(pl_gateway) l.(pl_provider_label) l.(pl_gateway_invoice_id)
  l.(pl_payment_url) l.(pl_amount) l.(pl_amount_refunded) l.(pl_currency) l.(pl_status)
  l.(pl_customer_id) l.(pl_webhook_data) l.(pl_failure_data) l.(pl_meta) l.(pl_gateway_payment_id)
  l.(pl_transaction_id) l.(pl_track_id) l.(pl_reference_id) l.(pl_payment_method)
  l.(pl_payment_row_id) l.(pl_created_by) l.(pl_created_by_data) l.(pl_expires_at) l.(pl_paid_at)
  l.(pl_created_at).

(** The inbox of gateway webhooks. *)
Record PaymentWebhookEvent := mk_webhook_event {
  we_gateway : string; we_event_reference : string; we_event_kind : string;
  we_invoice_id : option string; we_payment_id : option Z; we_outcome : string;
  we_processed_at : option Z }.

#[export] Instance eta_PaymentWebhookEvent : Eta PaymentWebhookEvent := λ e, mk_webhook_event
  e.(we_gateway) e.(we_event_reference) e.(we_event_kind) e.(we_invoice_id) e.(we_payment_id)
  e.(we_outcome) e.(we_processed_at).

(** Events handed to SQS. *)
Record RefundEvent := mk_refund_event {
  ev_refund_id : Z; ev_refund_number : string; ev_booking_id : option Z;
  ev_payment_id : option Z; ev_customer_id : option Z; ev_branch_id : option Z;
  ev_refund_type : string; ev_refund_method : string; ev_status : RefundStatus;
  ev_requested_amount : Z; ev_cancellation_fee : Z; ev_refund_amount : Z; ev_currency : string;
  ev_reference_number : option string; ev_gateway_refund_id : option string;
  ev_payment_total_amount : Z; ev_payment_amount_refunded : Z;
  ev_booking_payment_status : string; ev_is_fully_refunded : bool }.

Inductive Event :=
  | BookingRefundCompletedEvent (e : RefundEvent)
  | BookingRefundApprovedEvent (refund_id : Z) (approved_amount : Z) (method : string)
  | VoucherActiveEvent (voucher_id : Z) | VoucherScheduledEvent (voucher_id : Z)
  | VoucherPaymentPendingEvent (voucher_id : Z) | VoucherRedeemedEvent (voucher_id : Z)
  | PaymentLinkPaidEvent (link_id booking_id : Z) (gateway_payment_id : option string) (amount : Z)
  | PaymentLinkFailedEvent (link_id booking_id : Z) (failure_reason : option string) (amount : Z)
  (** The events of the booking service, by name, with their fields. *)
  | BookingEvent (name : string) (data : jdict).

(** Calls to services outside the process.  A transaction that is rolled back
    does not take them back. *)
Record RefundRequest := mk_refund_request {
  rq_provider_payment_id : string; rq_amount : Z; rq_reason : string }.

Inductive OutboundCall :=
  | RefundPaymentCall (provider : string) (request : RefundRequest)
  | CreateCreditNoteCall (booking_id refund_amount cancellation_fee : Z) (refund_method refund_number : string)
      (branch_id : option Z) (processed_by : string)
  | CreateScheduleCall (name voucher_id : string) (at_ : Z)
  | UpdateScheduleCall (name voucher_id : string) (at_ : Z)
  | DeleteScheduleCall (name : string)
  | CreateLinkCall (gateway : string) (link_id : Z) (amount : Decimal)
  | InvoiceLookupCall (booking_id : Z)
  | PaymentStateCall (gateway key key_type : string)
  | CancelLinkCall (gateway gateway_invoice_id : string)
  | LinkRefundCall (gateway provider_payment_id : string) (amount : Decimal)
  | DeleteAppointmentCacheCall (booking_id : string)
  | UpdateAppointmentCacheCall (booking_id new_status payment_status : string)
  | SyncAppointmentCacheCall (booking_id : string) (fields : jdict)
  | CreateAppointmentCacheCall (booking_id : string) (fields : jdict)
  | BookingInvoiceCall (booking_id : Z)
  | MarkInvoicePaidCall (invoice_name : string) (amount_paid : Decimal) (payment_id : Z).

(** ** The database *)
Record Store := mk_store {
  now : Z;
  bookings : gmap Z Booking; payments : gmap Z Payment; refunds : gmap Z Refund;
  payment_status_history : list PaymentStatusHistory;
  loyalty_accounts : gmap Z LoyaltyAccount; loyalty_transactions : list LoyaltyTransaction;
  vouchers : gmap Z GiftVoucher; payment_links : gmap Z PaymentLink;
  payment_webhook_events : gmap Z PaymentWebhookEvent;
  booking_status_history : list BookingStatusHistory;
  events : list Event; outbound : list OutboundCall; holds : list TemporaryHold }.

#[export] Instance eta_Store : Eta Store := λ s, mk_store
  s.(now) s.(bookings) s.(payments) s.(refunds) s.(payment_status_history)
  s.(loyalty_accounts) s.(loyalty_transactions) s.(vouchers) s.(payment_links)
  s.(payment_webhook_events) s.(booking_status_history) s.(events) s.(outbound) s.(holds).

Definition empty_store (t : Z) : Store := mk_store t ∅ ∅ ∅ [] ∅ [] ∅ ∅ ∅ [] [] [] [].

(** [uuid.uuid4()]: a key not in the table. *)
Definition new_id {V} (m : gmap Z V) : Z := map_fold (λ k _ acc, Z.max (k + 1) acc) 1 m.

(** Attribute assignments: update a row that exists. *)
Definition upd_booking (id : Z) (f : Booking → Booking) : M Store () :=
  modify (λ s, s <| bookings := alter f id s.(bookings) |>).
Definition upd_payment (id : Z) (f : Payment → Payment) : M Store () :=
  modify (λ s, s <| payments := alter f id s.(payments) |>).
Definition upd_refund (id : Z) (f : Refund → Refund) : M Store () :=
  modify (λ s, s <| refunds := alter f id s.(refunds) |>).
Definition upd_voucher (id : Z) (f : GiftVoucher → GiftVoucher) : M Store () :=
  modify (λ s, s <| vouchers := alter f id s.(vouchers) |>).
Definition upd_link (id : Z) (f : PaymentLink → PaymentLink) : M Store () :=
  modify (λ s, s <| payment_links := alter f id s.(payment_links) |>).
Definition add_booking_history (h : BookingStatusHistory) : M Store () :=
  modify (λ s, s <| booking_status_history := s.(booking_status_history) ++ [h] |>).
Definition add_history (h : PaymentStatusHistory) : M Store () :=
  modify (λ s, s <| payment_status_history := s.(payment_status_history) ++ [h] |>).
Definition publish (e : Event) : M Store () :=
  modify (λ s, s <| events := s.(events) ++ [e] |>).

Definition call_out (c : OutboundCall) : M Store () :=
  modify (λ s, s <| outbound := s.(outbound) ++ [c] |>).

(** [get_db_session] (app/core/database.py): a request runs in one session,
    committed when it returns and rolled back when it raises; what was sent
    outside stays sent. *)
Definition in_session {A} (m : M Store A) : M Store A := λ s,
  match m s with
  | (Ok a, s') => (Ok a, s')
  | (Raise e, s') => (Raise e, s <| now := s'.(now) |> <| events := s'.(events) |> <| outbound := s'.(outbound) |>)
  end.

(** Reading the row a key stands for; the rows of a session exist while it
    lasts, so the exception is never observed (see the lemmas on the
    operations). *)
Definition get_refund_row (id : Z) : M Store Refund := λ s,
  some_or_raise (s.(refunds) !! id) (err PythonException) s.
Definition get_payment_row (id : Z) : M Store Payment := λ s,
  some_or_raise (s.(payments) !! id) (err PythonException) s.
Definition get_booking_row (id : Z) : M Store Booking := λ s,
  some_or_raise (s.(bookings) !! id) (err PythonException) s.
Definition get_voucher_row (id : Z) : M Store GiftVoucher := λ s,
  some_or_raise (s.(vouchers) !! id) (err PythonException) s.

Definition get_link_row (id : Z) : M Store PaymentLink := λ s,
  some_or_raise (s.(payment_links) !! id) (err PythonException) s.

(** * Theorems *)

Lemma new_id_fresh {V} (m : gmap Z V) : m !! new_id m = None.
Proof.
  destruct (m !! new_id m) as [v|] eqn:E; [|done]. exfalso.
  assert (∀ k v, m !! k = Some v → k < new_id m) as Hlt; [|specialize (Hlt _ _ E); lia].
  unfold new_id. clear E v.
  apply (map_fold_weak_ind (λ r m, ∀ k (v : V), m !! k = Some v → k < r)).
  - intros k v. by rewrite lookup_empty.
  - intros k v m' r _ IH k' v'. destruct (decide (k = k')) as [->|Hne]; [lia|].
    rewrite lookup_insert_ne by done. intros Hk'. specialize (IH _ _ Hk'). lia.
Qed.

(** [alter] on a row that exists. *)
Lemma alter_lookup {V} (f : V → V) (m : gmap Z V) k v :
  m !! k = Some v → alter f k m = <[k := f v]> m.
Proof.
  intros Hk. apply map_eq. intros j. destruct (decide (j = k)) as [->|Hne].
  - by rewrite lookup_alter_eq, lookup_insert_eq, Hk.
  - by rewrite lookup_alter_ne, lookup_insert_ne.
Qed.

Lemma alter_twice {V} (f g : V → V) (m : gmap Z V) k v :
  m !! k = Some v → alter g k (alter f k m) = <[k := g (f v)]> m.
Proof.
  intros Hk. rewrite (alter_lookup f m k v Hk), (alter_lookup g _ k (f v)) by apply lookup_insert_eq.
  apply insert_insert_eq.
Qed.

Lemma dict_get_set d k v k' :
  dict_get (dict_set d k v) k' = if String.eqb k k' then Some v else dict_get d k'.
Proof.
  induction d as [|[k0 v0] d IH]; simpl.
  - done.
  - destruct (String.eqb k0 k) eqn:E; simpl.
    + apply String.eqb_eq in E as ->. by destruct (String.eqb k k').
    + destruct (String.eqb k0 k') eqn:E'; [|done].
      apply String.eqb_eq in E' as ->. rewrite String.eqb_sym, E. done.
Qed.

(** Reading rows in weakest preconditions. *)
Lemma wp_get_refund_row id s (Q : result Refund → Store → Prop) :
  (∀ r, s.(refunds) !! id = Some r → Q (Ok r) s) →
  (s.(refunds) !! id = None → Q (Raise (err PythonException)) s) →
  wp (get_refund_row id) s Q.
Proof. unfold wp, get_refund_row. destruct (refunds s !! id); simpl; auto. Qed.
Lemma wp_get_payment_row id s (Q : result Payment → Store → Prop) :
  (∀ r, s.(payments) !! id = Some r → Q (Ok r) s) →
  (s.(payments) !! id = None → Q (Raise (err PythonException)) s) →
  wp (get_payment_row id) s Q.
Proof. unfold wp, get_payment_row. destruct (payments s !! id); simpl; auto. Qed.
Lemma wp_get_booking_row id s (Q : result Booking → Store → Prop) :
  (∀ r, s.(bookings) !! id = Some r → Q (Ok r) s) →
  (s.(bookings) !! id = None → Q (Raise (err PythonException)) s) →
  wp (get_booking_row id) s Q.
Proof. unfold wp, get_booking_row. destruct (bookings s !! id); simpl; auto. Qed.

Lemma wp_get_voucher_row id s (Q : result GiftVoucher → Store → Prop) :
  (∀ v, s.(vouchers) !! id = Some v → Q (Ok v) s) →
  (s.(vouchers) !! id = None → Q (Raise (err PythonException)) s) →
  wp (get_voucher_row id) s Q.
Proof. unfold wp, get_voucher_row. destruct (vouchers s !! id); simpl; auto. Qed.

Lemma wp_get_link_row id s (Q : result PaymentLink → Store → Prop) :
  (∀ v, s.(payment_links) !! id = Some v → Q (Ok v) s) →
  (s.(payment_links) !! id = None → Q (Raise (err PythonException)) s) →
  wp (get_link_row id) s Q.
Proof. unfold wp, get_link_row. destruct (payment_links s !! id); simpl; auto. Qed.

(** A session that raised before writing anything, and one that returned. *)
Lemma in_session_raise {A} (m : M Store A) e s : m s = (Raise e, s) → in_session m s = (Raise e, s).
Proof. intros E. unfold in_session. rewrite E. by destruct s. Qed.
Lemma in_session_returns {A} (m : M Store A) (a : A) s s' : in_session m s = (Ok a, s') → m s = (Ok a, s').
Proof. unfold in_session. destruct (m s) as [[b|e] s1]; intros H; by simplify_eq. Qed.

(** Reading and writing rows in runs. *)
Lemma get_refund_row_run id s r : s.(refunds) !! id = Some r → get_refund_row id s = (Ok r, s).
Proof. intros Hr. unfold get_refund_row. by rewrite Hr. Qed.
Lemma get_payment_row_run id s p : s.(payments) !! id = Some p → get_payment_row id s = (Ok p, s).
Proof. intros Hp. unfold get_payment_row. by rewrite Hp. Qed.
Lemma get_booking_row_run id s b : s.(bookings) !! id = Some b → get_booking_row id s = (Ok b, s).
Proof. intros Hb. unfold get_booking_row. by rewrite Hb. Qed.
Lemma get_voucher_row_run id s v : s.(vouchers) !! id = Some v → get_voucher_row id s = (Ok v, s).
Proof. intros Hv. unfold get_voucher_row. by rewrite Hv. Qed.
Lemma get_link_row_run id s l : s.(payment_links) !! id = Some l → get_link_row id s = (Ok l, s).
Proof. intros Hl. unfold get_link_row. by rewrite Hl. Qed.
Lemma upd_link_run id f s : upd_link id f s = (Ok (), s <| payment_links := alter f id s.(payment_links) |>).
Proof. reflexivity. Qed.
Lemma upd_voucher_run id f s : upd_voucher id f s = (Ok (), s <| vouchers := alter f id s.(vouchers) |>).
Proof. reflexivity. Qed.
Lemma call_out_run c s : call_out c s = (Ok (), s <| outbound := s.(outbound) ++ [c] |>).
Proof. reflexivity. Qed.
Lemma upd_refund_run id f s : upd_refund id f s = (Ok (), s <| refunds := alter f id s.(refunds) |>).
Proof. reflexivity. Qed.
Lemma upd_payment_run id f s : upd_payment id f s = (Ok (), s <| payments := alter f id s.(payments) |>).
Proof. reflexivity. Qed.
Lemma upd_booking_run id f s : upd_booking id f s = (Ok (), s <| bookings := alter f id s.(bookings) |>).
Proof. reflexivity. Qed.
Lemma publish_run e s : publish e s = (Ok (), s <| events := s.(events) ++ [e] |>).
Proof. reflexivity. Qed.
#[export] Hint Rewrite upd_refund_run upd_payment_run upd_booking_run publish_run
  upd_link_run call_out_run : run.

(** Execute as far as the rows known to exist allow. *)
Ltac row_runs :=
  repeat first
    [ progress (autorewrite with run; cbn beta iota zeta)
    | match goal with
      | H : refunds ?s !! ?id = Some _ |- context [get_refund_row ?id ?s] =>
          rewrite (get_refund_row_run _ _ _ H); cbn beta iota zeta
      | H : payments ?s !! ?id = Some _ |- context [get_payment_row ?id ?s] =>
          rewrite (get_payment_row_run _ _ _ H); cbn beta iota zeta
      | H : bookings ?s !! ?id = Some _ |- context [get_booking_row ?id ?s] =>
          rewrite (get_booking_row_run _ _ _ H); cbn beta iota zeta
      | H : vouchers ?s !! ?id = Some _ |- context [get_voucher_row ?id ?s] =>
          rewrite (get_voucher_row_run _ _ _ H); cbn beta iota zeta
      | H : payment_links ?s !! ?id = Some _ |- context [get_link_row ?id ?s] =>
          rewrite (get_link_row_run _ _ _ H); cbn beta iota zeta
      end ].

(** Symbolic execution over the store: one step, then all of them. *)
Ltac store_step :=
  first
  [ wp_step
  | lazymatch goal with
    | |- wp (get_refund_row _) _ _ =>
        let H := fresh "Hrow" in apply wp_get_refund_row; [intros ? H|intros H]; cbn beta iota
    | |- wp (get_payment_row _) _ _ =>
        let H := fresh "Hrow" in apply wp_get_payment_row; [intros ? H|intros H]; cbn beta iota
    | |- wp (get_booking_row _) _ _ =>
        let H := fresh "Hrow" in apply wp_get_booking_row; [intros ? H|intros H]; cbn beta iota
    | |- wp (get_voucher_row _) _ _ =>
        let H := fresh "Hrow" in apply wp_get_voucher_row; [intros ? H|intros H]; cbn beta iota
    | |- wp (get_link_row _) _ _ =>
        let H := fresh "Hrow" in apply wp_get_link_row; [intros ? H|intros H]; cbn beta iota
    | |- wp (upd_link _ _) _ _ => unfold upd_link
    | |- wp (add_booking_history _) _ _ => unfold add_booking_history
    | |- wp (upd_refund _ _) _ _ => unfold upd_refund
    | |- wp (upd_voucher _ _) _ _ => unfold upd_voucher
    | |- wp (call_out _) _ _ => unfold call_out
    | |- wp (upd_payment _ _) _ _ => unfold upd_payment
    | |- wp (upd_booking _ _) _ _ => unfold upd_booking
    | |- wp (add_history _) _ _ => unfold add_history
    | |- wp (publish _) _ _ => unfold publish
    | |- wp (let _ := _ in _) _ _ => cbv zeta
    end ].
Ltac store_steps := repeat store_step.
