(* ===== verification/PyText.v ===== *)
(** * Text of identifiers and numbers

    What the source uses of Python's conversions between values and text: the
    text of a UUID and back, [str] of decimals, floats and JSON values, the
    numbers [float(text)] reads.  Shared by the voucher and payment link
    components. *)

From S2P Require Import Prelude Exceptions Effects Money Numbers Store.
From stdpp Require Import pretty.
From Stdlib Require Import Ascii.
#[local] Open Scope Z_scope.

(** ** UUID text *)

Definition hex_char (d : Z) : Ascii.ascii :=
  Ascii.ascii_of_nat (Z.to_nat (if d <? 10 then 48 + d else 87 + d)).
Definition char_hex (c : Ascii.ascii) : option Z :=
  let n := Ascii.nat_of_ascii c in
  if (48 <=? n)%nat && (n <=? 57)%nat then Some (Z.of_nat n - 48)
  else if (97 <=? n)%nat && (n <=? 102)%nat then Some (Z.of_nat n - 87)
  else if (65 <=? n)%nat && (n <=? 70)%nat then Some (Z.of_nat n - 55)
  else None.

(** The last [w] hexadecimal digits of [n]. *)
Fixpoint hex_digits (w : nat) (n : Z) : string :=
  match w with
  | O => ""
  | S w => (hex_digits w (n / 16) ++ String (hex_char (n mod 16)) "")%string
  end.

(** [str(uuid)] of a 128-bit identifier. *)
Definition uuid_str (z : Z) : string :=
  (hex_digits 8 (z / 16 ^ 24) ++ "-" ++ hex_digits 4 (z / 16 ^ 20) ++ "-" ++
   hex_digits 4 (z / 16 ^ 16) ++ "-" ++ hex_digits 4 (z / 16 ^ 12) ++ "-" ++ hex_digits 12 z)%string.

(** [s.replace(sub, "")]. *)
Fixpoint skip (n : nat) (s : string) : string :=
  match n, s with S n, String _ s => skip n s | _, _ => s end.
Fixpoint remove_all (fuel : nat) (sub s : string) : string :=
  match fuel with
  | O => s
  | S fuel =>
      match s with
      | EmptyString => EmptyString
      | String c s' =>
          if String.prefix sub s then remove_all fuel sub (skip (String.length sub) s)
          else String c (remove_all fuel sub s')
      end
  end.
Definition remove (sub s : string) : string := remove_all (String.length s) sub s.

(** [s.replace(a, b)] for a non-empty [a]. *)
Fixpoint replace_fuel (fuel : nat) (a b s : string) : string :=
  match fuel with
  | O => s
  | S fuel =>
      match s with
      | EmptyString => EmptyString
      | String c s' =>
          if String.prefix a s then (b ++ replace_fuel fuel a b (skip (String.length a) s))%string
          else String c (replace_fuel fuel a b s')
      end
  end.
Definition replace_all (a b s : string) : string := replace_fuel (String.length s) a b s.

(** [s.strip("{}")]. *)
Definition is_brace (c : Ascii.ascii) : bool := (c =? "{")%char || (c =? "}")%char.
Fixpoint lstrip_braces (s : string) : string :=
  match s with String c s' => if is_brace c then lstrip_braces s' else s | _ => s end.
Fixpoint rstrip_braces (s : string) : string :=
  match s with
  | String c s' =>
      let r := rstrip_braces s' in if is_brace c && String.eqb r "" then EmptyString else String c r
  | _ => s
  end.

Fixpoint parse_hex (acc : Z) (s : string) : option Z :=
  match s with
  | EmptyString => Some acc
  | String c s => match char_hex c with Some d => parse_hex (16 * acc + d) s | None => None end
  end.

(** [uuid.UUID(s)]; [None] for [ValueError].  The 32 characters left are
    hexadecimal digits (Python's [int] also reads underscores and a prefix). *)
Definition uuid_of_string (s : string) : option Z :=
  let hex := remove "-" (rstrip_braces (lstrip_braces (remove "uuid:" (remove "urn:" s)))) in
  if (String.length hex =? 32)%nat then parse_hex 0 hex else None.

(** ** Reading JSON values *)

(** ** Numbers as text *)

(** [s * n]. *)
Fixpoint repeat_char (c : Ascii.ascii) (n : nat) : string :=
  match n with O => "" | S n => String c (repeat_char c n) end.

(** The digits of a number with the point after the first [place] of them. *)
Definition with_point (digits : string) (place : Z) : string * string :=
  let len := Z.of_nat (String.length digits) in
  if place <=? 0 then ("0", repeat_char "0" (Z.to_nat (- place)) ++ digits)%string
  else if len <=? place then ((digits ++ repeat_char "0" (Z.to_nat (place - len)))%string, "")
  else (String.substring 0 (Z.to_nat place) digits, skip (Z.to_nat place) digits).
Definition point_and (frac : string) : string := if truthy frac then ("." ++ frac)%string else "".
Definition minus_sign (z : Z) : string := if z <? 0 then "-" else "".

(** [str] of a [Decimal]. *)
Definition dec_str (d : Decimal) : string :=
  let digits := pretty (Z.abs d.(coeff)) in
  let leftdigits := d.(exp) + Z.of_nat (String.length digits) in
  let place := if (d.(exp) <=? 0) && (-6 <? leftdigits) then leftdigits else 1 in
  let '(whole, frac) := with_point digits place in
  (minus_sign d.(coeff) ++ whole ++ point_and frac ++
   (if Z.eqb leftdigits place then "" else
      "E" ++ (if Z.leb place leftdigits then "+" else "") ++ pretty (Z.sub leftdigits place)))%string.

(** The digits of a number without the zeros that end them. *)
Fixpoint drop_zeros (fuel : nat) (c e : Z) : Z * Z :=
  match fuel with
  | O => (c, e)
  | S fuel => if (c mod 10 =? 0) && negb (c =? 0) then drop_zeros fuel (c / 10) (e + 1) else (c, e)
  end.

(** [repr] of a float. *)
Definition float_repr (d : Decimal) : string :=
  let '(c, e) := drop_zeros (Z.to_nat (Z.log2 (Z.abs d.(coeff)) + 1)) (Z.abs d.(coeff)) d.(exp) in
  let digits := pretty c in
  let leftdigits := if c =? 0 then 1 else e + Z.of_nat (String.length digits) in
  (minus_sign d.(coeff) ++
   (if Z.ltb (-4) leftdigits && Z.leb leftdigits 16 then
      let '(whole, frac) := with_point digits leftdigits in
      whole ++ "." ++ (if truthy frac then frac else "0")
    else
      let '(whole, frac) := with_point digits 1 in
      let e' := Z.pred leftdigits in
      whole ++ point_and frac ++ "e" ++ (if Z.leb 0 e' then "+" else "-") ++
      (if Z.ltb (Z.abs e') 10 then "0" else "") ++ pretty (Z.abs e')))%string.

Example dec_str_values :
  dec_str (mk_dec 20500 (-3)) = "20.500" ∧ dec_str (mk_dec (-5) (-3)) = "-0.005" ∧
  dec_str (mk_dec 12 3) = "1.2E+4" ∧ dec_str (mk_dec 5 (-8)) = "5E-8" ∧ dec_str (mk_dec 0 (-3)) = "0.000".
Proof. repeat split. Qed.
Example float_repr_values :
  float_repr (mk_dec 20500 (-3)) = "20.5" ∧ float_repr (mk_dec 20 0) = "20.0" ∧
  float_repr (mk_dec 1 (-4)) = "0.0001" ∧ float_repr (mk_dec 15 (-6)) = "1.5e-05" ∧
  float_repr (mk_dec 1 16) = "1e+16" ∧ float_repr (mk_dec 0 0) = "0.0".
Proof. repeat split. Qed.

(** [repr] of a string without quotes, and [str] of a JSON value. *)
Definition quoted (s : string) : string := ("'" ++ s ++ "'")%string.
Fixpoint join (sep : string) (l : list string) : string :=
  match l with [] => "" | [s] => s | s :: l => (s ++ sep ++ join sep l)%string end.
Fixpoint json_repr (j : json) : string :=
  match j with
  | JNull => "None"
  | JBool b => if b then "True" else "False"
  | JInt z => pretty z
  | JFloat d => float_repr d
  | JStr s => quoted s
  | JList l => ("[" ++ join ", " (json_repr <$> l) ++ "]")%string
  | JDict d => ("{" ++ join ", " ((λ '(k, v), (quoted k ++ ": " ++ json_repr v)%string) <$> d) ++ "}")%string
  end.
Definition json_str (j : json) : string := match j with JStr s => s | _ => json_repr j end.

(** Digits with single underscores between them: value, count, rest. *)
Fixpoint scan_digits (acc : Z) (n : nat) (s : string) : Z * nat * string :=
  match s with
  | EmptyString => (acc, n, s)
  | String c s' =>
      match char_digit c with
      | Some d => scan_digits (10 * acc + d) (S n) s'
      | None =>
          if (c =? "_")%char && (0 <? n)%nat &&
             match s' with String c' _ => match char_digit c' with Some _ => true | None => false end
                         | EmptyString => false end
          then scan_digits acc n s' else (acc, n, s)
      end
  end.

Definition scan_sign (s : string) : Z * string :=
  match s with
  | String c s' => if (c =? "-")%char then (-1, s') else if (c =? "+")%char then (1, s') else (1, s)
  | EmptyString => (1, s)
  end.

(** A decimal literal as [float(s)] reads it: sign, digits, fraction, exponent;
    [None] for [ValueError] (and for infinities and NaN). *)
Definition parse_number (s : string) : option Decimal :=
  let '(sign, s) := scan_sign (strip s) in
  let '(m, n, s) := scan_digits 0 0 s in
  let '(m, k, s) :=
    match s with
    | String c s' => if (c =? ".")%char then scan_digits m 0 s' else (m, 0%nat, s)
    | EmptyString => (m, 0%nat, s)
    end in
  if (n + k =? 0)%nat then None
  else match s with
       | EmptyString => Some (mk_dec (sign * m) (- Z.of_nat k))
       | String c s' =>
           if (c =? "e")%char || (c =? "E")%char then
             let '(esign, s') := scan_sign s' in
             match scan_digits 0 0 s' with
             | (e, S _, EmptyString) => Some (mk_dec (sign * m) (esign * e - Z.of_nat k))
             | _ => None
             end
           else None
       end.

(** [int] of a number: towards zero. *)
Definition truncate (d : Decimal) : Z :=
  if 0 <=? d.(exp) then d.(coeff) * 10 ^ d.(exp) else Z.quot d.(coeff) (10 ^ (- d.(exp))).

(** [f"{d:.{k}f}"] of a decimal. *)
Definition format_fixed (k : nat) (d : Decimal) : string :=
  let e := d.(exp) + Z.of_nat k in
  let n := if 0 <=? e then Z.abs d.(coeff) * 10 ^ e else round_half_even (Z.abs d.(coeff)) (10 ^ (- e)) in
  (minus_sign d.(coeff) ++ format_d 1 (n / 10 ^ Z.of_nat k) ++ "." ++ fixed_width k n)%string.

(** ** JSON objects *)

(** [d.get(k)] of a mapping, [{}] for anything else; null and missing alike. *)
Definition jget (j : json) (k : string) : json :=
  match j with JDict d => default JNull (dict_get d k) | _ => JNull end.
(** [d.get(k, default)]. *)
Definition jget_or (j : json) (k : string) (d : json) : json :=
  match j with JDict l => default d (dict_get l k) | _ => d end.
(** [a or b]. *)
Definition jor (a b : json) : json := if jtruthy (Some a) then a else b.
(** [a or b or c]. *)
Fixpoint jor_list (l : list json) : json :=
  match l with [] => JNull | [a] => a | a :: l => jor a (jor_list l) end.
(** [x if isinstance(x, Mapping) else {}]. *)
Definition mapping (j : json) : json := match j with JDict _ => j | _ => JDict [] end.
Definition is_mapping (j : json) : bool := match j with JDict _ => true | _ => false end.
(** [value in (None, "")]. *)
Definition jblank (j : json) : bool := match j with JNull => true | JStr s => negb (truthy s) | _ => false end.

(** [text or None]. *)
Definition or_none (s : string) : option string := if truthy s then Some s else None.

(** * Theorems *)

(** ** UUIDs *)

#[local] Arguments hex_char : simpl never.
#[local] Arguments char_hex : simpl never.
#[local] Arguments is_brace : simpl never.

Fixpoint all_chars (P : Ascii.ascii → bool) (s : string) : bool :=
  match s with EmptyString => true | String c s => P c && all_chars P s end.
Fixpoint filter_chars (P : Ascii.ascii → bool) (s : string) : string :=
  match s with
  | EmptyString => EmptyString
  | String c s => if P c then String c (filter_chars P s) else filter_chars P s
  end.

Lemma all_chars_app P s t : all_chars P (s ++ t) = all_chars P s && all_chars P t.
Proof. induction s as [|c s IH]; simpl; [done|]. by rewrite IH, andb_assoc. Qed.
Lemma all_chars_impl (P Q : Ascii.ascii → bool) s :
  (∀ c, P c = true → Q c = true) → all_chars P s = true → all_chars Q s = true.
Proof.
  intros HPQ. induction s as [|c s IH]; simpl; [done|]. rewrite !andb_true_iff. intros [H1 H2]. auto.
Qed.
Lemma filter_chars_app P s t : filter_chars P (s ++ t) = (filter_chars P s ++ filter_chars P t)%string.
Proof. induction s as [|c s IH]; simpl; [done|]. rewrite IH. by destruct (P c). Qed.
Lemma filter_chars_all P s : all_chars P s = true → filter_chars P s = s.
Proof. induction s as [|c s IH]; simpl; [done|]. intros [-> Hs]%andb_true_iff. by rewrite IH. Qed.

(** Removing a text whose first character does not occur does nothing. *)
Lemma remove_absent c sub s fuel :
  all_chars (λ a, negb (a =? c)%char) s = true → remove_all fuel (String c sub) s = s.
Proof.
  revert s; induction fuel as [|fuel IH]; intros s Hs; [done|].
  destruct s as [|a s]; [done|]. simpl in Hs. apply andb_true_iff in Hs as [Ha Hs].
  cbn [remove_all String.prefix]. destruct (ascii_dec c a) as [->|Hne].
  { by rewrite Ascii.eqb_refl in Ha. }
  by rewrite IH.
Qed.

(** Removing a character. *)
Lemma remove_char c s fuel :
  (String.length s ≤ fuel)%nat →
  remove_all fuel (String c "") s = filter_chars (λ a, negb (a =? c)%char) s.
Proof.
  revert s; induction fuel as [|fuel IH]; intros s Hf.
  { by destruct s; simpl in *; [|lia]. }
  destruct s as [|a s]; [done|]. cbn [remove_all String.prefix filter_chars]. simpl in Hf.
  destruct (ascii_dec c a) as [->|Hne].
  - rewrite Ascii.eqb_refl. simpl. destruct s; simpl; apply IH; simpl in *; lia.
  - rewrite (proj2 (Ascii.eqb_neq a c)) by congruence. simpl. f_equal. apply IH. lia.
Qed.

(** Text without white space is stripped, and without [c] nothing is replaced. *)
Lemma strip_id s : all_chars (λ c, negb (is_space c)) s = true → strip s = s.
Proof.
  intros Hs. unfold strip. assert (lstrip s = s) as ->.
  { destruct s as [|c s]; [done|]. simpl in *. apply andb_true_iff in Hs as [Hc _]. by destruct (is_space c). }
  induction s as [|c s IH]; [done|]. simpl in *. apply andb_true_iff in Hs as [Hc Hs].
  apply negb_true_iff in Hc. rewrite Hc. simpl. by rewrite IH.
Qed.
Lemma replace_absent c a b s :
  all_chars (λ x, negb (x =? c)%char) s = true → replace_all (String c a) b s = s.
Proof.
  unfold replace_all. generalize (String.length s). intros fuel. revert s.
  induction fuel as [|fuel IH]; intros s Hs; [done|].
  destruct s as [|x s]; [done|]. simpl in Hs. apply andb_true_iff in Hs as [Hx Hs].
  cbn [replace_fuel String.prefix]. destruct (ascii_dec c x) as [->|Hne].
  { by rewrite Ascii.eqb_refl in Hx. }
  by rewrite IH.
Qed.

Lemma strip_braces_absent s :
  all_chars (λ a, negb (is_brace a)) s = true → rstrip_braces (lstrip_braces s) = s.
Proof.
  intros Hs.
  assert (lstrip_braces s = s) as ->.
  { destruct s as [|c s]; [done|]. simpl in *. apply andb_true_iff in Hs as [Hc _]. by destruct (is_brace c). }
  induction s as [|c s IH]; [done|]. simpl in *. apply andb_true_iff in Hs as [Hc Hs].
  apply negb_true_iff in Hc. rewrite Hc. simpl. by rewrite IH.
Qed.

Definition is_hex (c : Ascii.ascii) : bool := match char_hex c with Some _ => true | None => false end.

Lemma hex_char_spec d : 0 <= d < 16 → char_hex (hex_char d) = Some d.
Proof.
  intros Hd. assert (d ∈ [0;1;2;3;4;5;6;7;8;9;10;11;12;13;14;15]) as Hin.
  { rewrite !elem_of_cons, elem_of_nil. lia. }
  revert d Hd Hin.
  cut (Forall (λ d, char_hex (hex_char d) = Some d) [0;1;2;3;4;5;6;7;8;9;10;11;12;13;14;15]).
  - rewrite Forall_forall. auto.
  - repeat constructor.
Qed.

Lemma hex_digits_is_hex w n : 0 <= n → all_chars is_hex (hex_digits w n) = true.
Proof.
  revert n; induction w as [|w IH]; intros n Hn; [done|]. cbn [hex_digits].
  rewrite all_chars_app, IH by (apply Z.div_pos; lia). simpl. unfold is_hex.
  by rewrite hex_char_spec by (apply Z.mod_pos_bound; lia).
Qed.

Lemma string_length_app s t : String.length (s ++ t) = (String.length s + String.length t)%nat.
Proof. induction s as [|c s IH]; simpl; [done|]. by rewrite IH. Qed.

Lemma hex_digits_length w n : String.length (hex_digits w n) = w.
Proof.
  revert n; induction w as [|w IH]; intros n; [done|]. cbn [hex_digits].
  rewrite string_length_app, IH. simpl. lia.
Qed.

Lemma parse_hex_app acc s t :
  parse_hex acc (s ++ t) = match parse_hex acc s with Some a => parse_hex a t | None => None end.
Proof. revert acc; induction s as [|c s IH]; intros acc; simpl; [done|]. destruct (char_hex c); auto. Qed.

Lemma parse_hex_digits w n acc :
  0 <= n → parse_hex acc (hex_digits w n) = Some (acc * 16 ^ Z.of_nat w + n mod 16 ^ Z.of_nat w).
Proof.
  revert n acc; induction w as [|w IH]; intros n acc Hn.
  { simpl. rewrite Z.mod_1_r. f_equal. lia. }
  cbn [hex_digits]. rewrite parse_hex_app, IH by (apply Z.div_pos; lia). cbn [parse_hex].
  rewrite hex_char_spec by (apply Z.mod_pos_bound; lia). f_equal.
  rewrite Nat2Z.inj_succ, Z.pow_succ_r by lia. rewrite Z.rem_mul_r by lia. nia.
Qed.

(** A character class decided by evaluation over the 256 characters. *)
Lemma ascii_forall (P : Ascii.ascii → bool) :
  forallb P (Ascii.ascii_of_nat <$> seq 0 256) = true → ∀ c, P c = true.
Proof.
  rewrite forallb_forall. intros HP c. apply HP, list_elem_of_In, list_elem_of_fmap.
  exists (Ascii.nat_of_ascii c). rewrite Ascii.ascii_nat_embedding. split; [done|].
  apply elem_of_seq. pose proof (Ascii.nat_ascii_bounded c). lia.
Qed.

Lemma hex_not (P : Ascii.ascii → bool) :
  forallb (λ c, implb (is_hex c) (P c)) (Ascii.ascii_of_nat <$> seq 0 256) = true →
  ∀ s, all_chars is_hex s = true → all_chars P s = true.
Proof.
  intros HP s. apply all_chars_impl. intros c Hc. pose proof (ascii_forall _ HP c) as H.
  cbv beta in H. rewrite Hc in H. exact H.
Qed.

(** The characters of the text of a UUID. *)
Lemma uuid_str_all (P : Ascii.ascii → bool) z :
  0 <= z → P "-"%char = true →
  forallb (λ c, implb (is_hex c) (P c)) (Ascii.ascii_of_nat <$> seq 0 256) = true →
  all_chars P (uuid_str z) = true.
Proof.
  intros Hz HP Hhex. assert (∀ k, 0 <= k → 0 <= z / 16 ^ k) as Hpos by (intros; apply Z.div_pos; lia).
  unfold uuid_str. rewrite !all_chars_app. cbn [all_chars].
  rewrite !(hex_not P Hhex) by (apply hex_digits_is_hex; try apply Hpos; lia). by rewrite HP.
Qed.

(** A UUID read back from its text ([uuid.UUID(str(u))], which the service
    snapshots and the legacy columns rely on) is the same UUID. *)
Lemma uuid_roundtrip z : 0 <= z < 2 ^ 128 → uuid_of_string (uuid_str z) = Some z.
Proof.
  intros Hz.
  assert (∀ k, 0 <= k → 0 <= z / 16 ^ k) as Hpos by (intros; apply Z.div_pos; lia).
  assert (∀ P : Ascii.ascii → bool, P "-"%char = true →
    forallb (λ c, implb (is_hex c) (P c)) (Ascii.ascii_of_nat <$> seq 0 256) = true →
    all_chars P (uuid_str z) = true) as Hall by (intros; apply uuid_str_all; [lia|done..]).
  unfold uuid_of_string, remove.
  rewrite (remove_absent "u" "rn:"), (remove_absent "u" "uid:"), strip_braces_absent
    by (apply Hall; vm_compute; reflexivity).
  rewrite remove_char by lia. unfold uuid_str. rewrite !filter_chars_app. cbn [filter_chars].
  rewrite Ascii.eqb_refl. cbn [negb].
  rewrite !filter_chars_all
    by (eapply hex_not; [vm_compute; reflexivity|apply hex_digits_is_hex; try apply Hpos; lia]).
  assert (∀ t, ("" ++ t)%string = t) as Hnil by reflexivity. rewrite !Hnil.
  rewrite !string_length_app, !hex_digits_length. cbn [Nat.add Nat.eqb String.length].
  repeat (rewrite ?parse_hex_app; rewrite parse_hex_digits by (try apply Hpos; lia); cbv iota).
  f_equal. change (Z.of_nat 8) with 8. change (Z.of_nat 4) with 4. change (Z.of_nat 12) with 12.
  rewrite (Z.mod_small (z / 16 ^ 24)).
  2:{ split; [apply Hpos; lia|]. apply Z.div_lt_upper_bound; lia. }
  assert (∀ a b, 0 <= a → 0 <= b → (z / 16 ^ (a + b)) * 16 ^ b + (z / 16 ^ a) mod 16 ^ b = z / 16 ^ a) as Hj.
  { intros a b Ha Hb. rewrite Z.pow_add_r by lia. rewrite <- Z.div_div by lia.
    rewrite (Z.div_mod (z / 16 ^ a) (16 ^ b)) at 3 by lia. lia. }
  pose proof (Hj 20 4 ltac:(lia) ltac:(lia)) as H1. pose proof (Hj 16 4 ltac:(lia) ltac:(lia)) as H2.
  pose proof (Hj 12 4 ltac:(lia) ltac:(lia)) as H3. pose proof (Hj 0 12 ltac:(lia) ltac:(lia)) as H4.
  change (20 + 4) with 24 in H1. change (16 + 4) with 20 in H2. change (12 + 4) with 16 in H3.
  change (0 + 12) with 12 in H4. change (16 ^ 0) with 1 in H4. rewrite Z.div_1_r in H4.
  rewrite Z.mul_0_l, Z.add_0_l. congruence.
Qed.

Lemma uuid_roundtrip_witness :
  let z := 2 ^ 127 + 255 in
  uuid_str z = "80000000-0000-0000-0000-0000000000ff" ∧ uuid_of_string (uuid_str z) = Some z.
Proof. split; [vm_compute; reflexivity|]. apply uuid_roundtrip. by vm_compute. Defined.

(** ** Amounts as text

    A number written with [format_fixed] is read back rounded. *)

Lemma ndigits_fuel_lt fuel z : 0 <= z < 2 ^ Z.of_nat fuel → z < 10 ^ ndigits_fuel fuel z ∧ 1 <= ndigits_fuel fuel z.
Proof.
  revert z; induction fuel as [|fuel IH]; intros z Hz; cbn [ndigits_fuel]; [cbn in Hz; lia|].
  destruct (z <? 10) eqn:E; breflect; [lia|]. rewrite Nat2Z.inj_succ, Z.pow_succ_r in Hz by lia.
  destruct (IH (z / 10)) as [H1 H2]; [Z.to_euclidean_division_equations; lia|]. split; [|lia].
  rewrite Z.add_comm, Z.pow_add_r by lia. Z.to_euclidean_division_equations. lia.
Qed.
Lemma ndigits_lt z : 0 <= z → z < 10 ^ ndigits z ∧ 1 <= ndigits z.
Proof.
  intros Hz. unfold ndigits. rewrite Z.abs_eq by done. apply ndigits_fuel_lt. split; [done|].
  rewrite Nat2Z.inj_succ, Z2Nat.id by apply Z.log2_nonneg.
  destruct (decide (z = 0)) as [->|]; [done|]. apply Z.log2_spec. lia.
Qed.

Lemma string_app_nil_r s : (s ++ "" = s)%string.
Proof. induction s as [|c s IH]; [done|]. change (String c s ++ "")%string with (String c (s ++ "")). by rewrite IH. Qed.

(** What ends a run of digits. *)
Definition ends_digits (s : string) : Prop :=
  match s with EmptyString => True | String c _ => char_digit c = None ∧ c ≠ "_"%char end.

Lemma scan_digits_parse s acc k t v :
  parse_digits acc s = Some v → ends_digits t → scan_digits acc k (s ++ t) = (v, (k + String.length s)%nat, t).
Proof.
  revert acc k; induction s as [|c s IH]; intros acc k; cbn [parse_digits].
  - intros [= ->] Ht. change ("" ++ t)%string with t. rewrite Nat.add_0_r.
    destruct t as [|c t]; [done|]. destruct Ht as [Hc Hu]. cbn [scan_digits]. rewrite Hc.
    by rewrite (proj2 (Ascii.eqb_neq c "_") Hu).
  - intros Hp Ht. change (String c s ++ t)%string with (String c (s ++ t)). cbn [scan_digits].
    destruct (char_digit c); [|done]. rewrite (IH _ _ Hp Ht). f_equal. f_equal. simpl. lia.
Qed.
Lemma scan_fixed_width w n acc k t :
  0 <= n → ends_digits t →
  scan_digits acc k (fixed_width w n ++ t) = (acc * 10 ^ Z.of_nat w + n mod 10 ^ Z.of_nat w, (k + w)%nat, t).
Proof.
  intros Hn Ht. rewrite (scan_digits_parse _ _ _ _ _ (parse_fixed_width w n acc Hn) Ht). by rewrite length_fixed_width.
Qed.

(** The number of units of [10^-k] a decimal is rounded to. *)
Definition rounded_abs (k : nat) (d : Decimal) : Z :=
  let e := d.(exp) + Z.of_nat k in
  if 0 <=? e then Z.abs d.(coeff) * 10 ^ e else round_half_even (Z.abs d.(coeff)) (10 ^ (- e)).
Definition rounded (k : nat) (d : Decimal) : Z :=
  if d.(coeff) <? 0 then - rounded_abs k d else rounded_abs k d.

Lemma rounded_abs_nonneg k d : 0 <= rounded_abs k d.
Proof.
  unfold rounded_abs. case_if; [apply Z.mul_nonneg_nonneg; [lia|apply Z.pow_nonneg; lia]|].
  unfold round_half_even.
  pose proof (Z.div_pos (Z.abs d.(coeff)) (10 ^ (- (d.(exp) + Z.of_nat k))) ltac:(lia) ltac:(apply Z.pow_pos_nonneg; lia)).
  repeat case_if; lia.
Qed.

(** An amount in fils is not rounded. *)
Lemma rounded_fils z : rounded 3 (of_fils z) = z.
Proof. unfold rounded, rounded_abs. change (0 <=? exp (of_fils z) + Z.of_nat 3) with true. cbn. case_if; breflect; lia. Qed.

Lemma char_digit_spec c : char_digit c ≠ None → is_space c = false ∧ (c =? "-")%char = false ∧ (c =? "+")%char = false.
Proof.
  intros Hc. assert (implb (match char_digit c with Some _ => true | None => false end)
    (negb (is_space c) && negb (c =? "-")%char && negb (c =? "+")%char) = true) as Hb.
  { apply (ascii_forall (λ c, implb (match char_digit c with Some _ => true | None => false end)
      (negb (is_space c) && negb (c =? "-")%char && negb (c =? "+")%char))). vm_compute. reflexivity. }
  destruct (char_digit c); [|done]. cbn [implb] in Hb. rewrite !andb_true_iff, !negb_true_iff in Hb. tauto.
Qed.

Definition is_digit (c : Ascii.ascii) : bool := match char_digit c with Some _ => true | None => false end.
Lemma fixed_width_all w n : 0 <= n → all_chars is_digit (fixed_width w n) = true.
Proof.
  revert n; induction w as [|w IH]; intros n Hn; cbn [fixed_width]; [done|].
  rewrite all_chars_app, IH by (apply Z.div_pos; lia). cbn [all_chars]. unfold is_digit.
  by rewrite char_digit_char by (apply Z.mod_pos_bound; lia).
Qed.

Lemma fixed_width_no_space w n : 0 <= n → all_chars (λ c, negb (is_space c)) (fixed_width w n) = true.
Proof.
  intros Hn. apply (all_chars_impl is_digit); [|by apply fixed_width_all].
  intros c Hc. apply negb_true_iff, char_digit_spec. unfold is_digit in Hc. by destruct (char_digit c).
Qed.

(** The text of an unsigned number, scanned. *)
Lemma scan_unsigned w q t :
  (0 < w)%nat → 0 <= q → scan_sign (fixed_width w q ++ t) = (1, fixed_width w q ++ t)%string.
Proof.
  intros Hw Hq. pose proof (fixed_width_all w q Hq) as Hall. pose proof (length_fixed_width w q) as Hl.
  destruct (fixed_width w q) as [|c u]; [simpl in Hl; lia|]. cbn [all_chars] in Hall. apply andb_true_iff in Hall as [Hc _].
  change (String c u ++ t)%string with (String c (u ++ t)). cbn [scan_sign].
  destruct (char_digit_spec c) as (_ & -> & ->); [|done]. unfold is_digit in Hc. by destruct (char_digit c).
Qed.
Lemma scan_signed (neg : bool) w q t :
  (0 < w)%nat → 0 <= q →
  scan_sign ((if neg then "-" else "") ++ fixed_width w q ++ t) = (if neg then -1 else 1, fixed_width w q ++ t)%string.
Proof. intros Hw Hq. destruct neg; [done|]. by apply scan_unsigned. Qed.

Lemma parse_format_fixed k d :
  (0 < k)%nat → parse_number (format_fixed k d) = Some (mk_dec (rounded k d) (- Z.of_nat k)).
Proof.
  intros Hk. pose proof (rounded_abs_nonneg k d) as Hn. unfold format_fixed.
  assert ((if 0 <=? d.(exp) + Z.of_nat k then Z.abs d.(coeff) * 10 ^ (d.(exp) + Z.of_nat k)
           else round_half_even (Z.abs d.(coeff)) (10 ^ (- (d.(exp) + Z.of_nat k)))) = rounded_abs k d) as -> by done.
  unfold rounded. generalize dependent (rounded_abs k d). intros n Hn. unfold minus_sign.
  set (neg := coeff d <? 0).
  set (q := n / 10 ^ Z.of_nat k). assert (0 <= q) as Hq by (apply Z.div_pos; [done|apply Z.pow_pos_nonneg; lia]).
  unfold format_d. pose proof (ndigits_lt q Hq) as [Hlt H1]. rewrite Z.max_r by lia.
  set (w := Z.to_nat (ndigits q)). assert (q < 10 ^ Z.of_nat w) as Hw by (unfold w; by rewrite Z2Nat.id by lia).
  assert (0 < w)%nat as Hwpos by (unfold w; lia). clearbody w neg. clear Hlt H1.
  unfold parse_number. rewrite strip_id.
  2:{ rewrite !all_chars_app. cbn [all_chars]. rewrite !fixed_width_no_space by done. by destruct neg. }
  rewrite scan_signed by done. cbv beta iota.
  rewrite scan_fixed_width by (done || (cbn; split; [reflexivity|done])).
  change ("." ++ fixed_width k n)%string with (String "." (fixed_width k n)).
  change ("." =? ".")%char with true. cbn match.
  rewrite <- (string_app_nil_r (fixed_width k n)), scan_fixed_width by done. cbn match.
  change ("." =? ".")%char with true. cbn match.
  replace ((0 + w + (0 + k) =? 0)%nat) with false by (symmetry; apply Nat.eqb_neq; lia).
  do 2 f_equal. rewrite (Z.mod_small q) by lia. unfold q.
  pose proof (Z.div_mod n (10 ^ Z.of_nat k) ltac:(apply Z.pow_nonzero; lia)). destruct neg; lia.
Qed.
