(* ===== verification/PyDate.v ===== *)
(** * Dates and times

    Python's [datetime] as the source uses it, and [to_local_tz] of
    app/common/utils.py.  A [datetime] is a wall clock in microseconds since
    1970-01-01T00:00 with its UTC offset, or without one when it is naive; after
    [to_local_tz] it is the instant alone, read in Kuwait, which is three hours
    ahead of UTC the whole year.  [fromisoformat] reads calendar dates with an
    optional time of day; week dates and the formats without separators, which
    Python accepts as well, count as unreadable. *)

From S2P Require Import Prelude Exceptions Effects Money Numbers Store PyText.
From Stdlib Require Import Ascii.
#[local] Open Scope Z_scope.

(** ** The calendar *)

(** The day of the month of a day number since 1970-01-01. *)
Definition day_of_month (days : Z) : Z :=
  let z := days + 719468 in
  let doe := z - z / 146097 * 146097 in
  let yoe := (doe - doe / 1460 + doe / 36524 - doe / 146096) / 365 in
  let doy := doe - (365 * yoe + yoe / 4 - yoe / 100) in
  let mp := (5 * doy + 2) / 153 in
  doy - (153 * mp + 2) / 5 + 1.

Definition civil (days : Z) : Z * Z * Z := (year_month days, day_of_month days).
(** The day number of a date; of a date that does not exist, some number. *)
Definition days_of (y m d : Z) : Z :=
  let y := if m <=? 2 then y - 1 else y in
  let era := y / 400 in
  let yoe := y mod 400 in
  let mp := (m + 9) mod 12 in
  era * 146097 + (yoe * 365 + yoe / 4 - yoe / 100 + ((153 * mp + 2) / 5 + d - 1)) - 719468.
(** The dates of the calendar. *)
Definition is_date (y m d : Z) : bool := (1 <=? y) && (civil (days_of y m d) ==? (y, m, d)).

(** ** datetime *)

Definition us_per_second : Z := 1000000.
Definition us_per_minute : Z := 60 * us_per_second.

Record datetime := mk_datetime { wall : Z; offset : option Z }.

#[export] Instance datetime_eq_dec : EqDecision datetime.
Proof. solve_decision. Defined.

(** [DEFAULT_TIMEZONE], Asia/Kuwait. *)
Definition KUWAIT : Z := 180 * us_per_minute.

(** [to_local_tz]: the instant; a naive value is Kuwait's wall clock. *)
Definition to_local_tz (dt : datetime) : Z := dt.(wall) - default KUWAIT dt.(offset).

(** [.date()] of a local value, as a day number, and of its time of day. *)
Definition local_day (t : Z) : Z := (t + KUWAIT) / us_per_day.
Definition time_of_day (t : Z) : Z := (t + KUWAIT) mod us_per_day.

(** ** ISO 8601 text *)

Definition date_text (day : Z) : string :=
  let '(y, m, d) := civil day in
  (fixed_width 4 y ++ "-" ++ fixed_width 2 m ++ "-" ++ fixed_width 2 d)%string.

(** [strftime("%H:%M:%S")] of the microseconds of a day. *)
Definition clock_text (us : Z) : string :=
  let s := us / us_per_second in
  (fixed_width 2 (s / 3600) ++ ":" ++ fixed_width 2 (s / 60 mod 60) ++ ":" ++ fixed_width 2 (s mod 60))%string.

(** [isoformat()] of an aware value; [off] is a whole number of minutes, not negative. *)
Definition isoformat (off : Z) (t : Z) : string :=
  let w := t + off in
  let us := w mod us_per_second in
  (date_text (w / us_per_day) ++ "T" ++ clock_text (w mod us_per_day) ++
   (if Z.eqb us 0 then "" else "." ++ fixed_width 6 us) ++
   "+" ++ fixed_width 2 (off / us_per_minute / 60)%Z ++ ":" ++ fixed_width 2 (off / us_per_minute mod 60)%Z)%string.

(** *** Reading it *)

(** The next [w] digits. *)
Fixpoint read_digits (w : nat) (acc : Z) (s : string) : option (Z * string) :=
  match w with
  | O => Some (acc, s)
  | S w => match s with
           | String c s => match char_digit c with Some d => read_digits w (10 * acc + d) s | None => None end
           | EmptyString => None
           end
  end.
Definition read_char (c : ascii) (s : string) : option string :=
  match s with String c' s => if (c' =? c)%char then Some s else None | EmptyString => None end.

(** [:MM] or [:SS], below sixty; zero when it is left out. *)
Definition read_sixtieth (s : string) : option (Z * string) :=
  match read_char ":" s with
  | Some s => '(n, s) ← read_digits 2 0 s; if n <? 60 then Some (n, s) else None
  | None => Some (0, s)
  end.

(** Six digits of a fraction; further ones are dropped. *)
Fixpoint read_fraction (w : nat) (acc : Z) (s : string) : Z * string :=
  match s with
  | String c s' => match char_digit c with
                   | Some d => match w with
                               | O => read_fraction O acc s'
                               | S w => read_fraction w (10 * acc + d) s'
                               end
                   | None => (acc * 10 ^ Z.of_nat w, s)
                   end
  | EmptyString => (acc * 10 ^ Z.of_nat w, s)
  end.

(** [HH[:MM[:SS[.ffffff]]]]: microseconds. *)
Definition read_clock (s : string) : option (Z * string) :=
  '(h, s) ← read_digits 2 0 s;
  '(m, s) ← read_sixtieth s;
  '(sec, s) ← read_sixtieth s;
  let '(us, s) :=
    match s with
    | String c (String c' _ as s') =>
        if ((c =? ".")%char || (c =? ",")%char) && match char_digit c' with Some _ => true | None => false end
        then read_fraction 6 0 s' else (0, s)
    | _ => (0, s)
    end in
  if h <? 24 then Some (((h * 60 + m) * 60 + sec) * us_per_second + us, s) else None.

(** The UTC offset at the end. *)
Definition read_offset (s : string) : option (option Z) :=
  match s with
  | EmptyString => Some None
  | String c s' =>
      if (c =? "Z")%char then match s' with EmptyString => Some (Some 0) | _ => None end
      else
        sign ← (if (c =? "+")%char then Some 1 else if (c =? "-")%char then Some (-1) else None);
        '(us, s) ← read_clock s';
        match s with EmptyString => Some (Some (sign * us)) | _ => None end
  end.

(** [datetime.fromisoformat(s)]; [None] for [ValueError]. *)
Definition fromisoformat (s : string) : option datetime :=
  '(y, s) ← read_digits 4 0 s;
  s ← read_char "-" s;
  '(m, s) ← read_digits 2 0 s;
  s ← read_char "-" s;
  '(d, s) ← read_digits 2 0 s;
  if is_date y m d then
    match s with
    | EmptyString => Some (mk_datetime (days_of y m d * us_per_day) None)
    | String _ s =>
        '(us, s) ← read_clock s;
        off ← read_offset s;
        Some (mk_datetime (days_of y m d * us_per_day + us) off)
    end
  else None.

(** * Theorems *)

(** ** The calendar *)

(** The year of an era and the day of that year. *)
Definition year_of_era (doe : Z) : Z := (doe - doe / 1460 + doe / 36524 - doe / 146096) / 365.
Definition day_of_year (doe : Z) : Z :=
  doe - (365 * year_of_era doe + year_of_era doe / 4 - year_of_era doe / 100).

Lemma year_of_era_bound doe : 0 <= doe < 146097 → 0 <= year_of_era doe <= 399.
Proof. intros Hd. unfold year_of_era. Z.to_euclidean_division_equations. lia. Qed.
Lemma day_of_year_bound doe : 0 <= doe < 146097 → 0 <= day_of_year doe <= 365.
Proof. intros Hd. unfold day_of_year, year_of_era. Z.to_euclidean_division_equations. lia. Qed.

(** A date in terms of its day of the year, and the ranges of its parts. *)
Lemma civil_parts days :
  let doe := (days + 719468) mod 146097 in
  let mp := (5 * day_of_year doe + 2) / 153 in
  ∃ m, year_month days = (year_of_era doe + (days + 719468) / 146097 * 400 + (if m <=? 2 then 1 else 0), m) ∧
    (m = mp + 3 ∧ mp < 10 ∨ m = mp - 9 ∧ 10 <= mp) ∧
    day_of_month days = day_of_year doe - (153 * mp + 2) / 5 + 1 ∧ 0 <= mp <= 11.
Proof.
  intros doe mp. exists (if mp <? 10 then mp + 3 else mp - 9). unfold year_month, day_of_month.
  replace (days + 719468 - (days + 719468) / 146097 * 146097) with doe by (unfold doe; rewrite Z.mod_eq; lia).
  fold (year_of_era doe). fold (day_of_year doe). fold mp. split_and!; [done|case_if; lia|done|..].
  all: pose proof (day_of_year_bound doe ltac:(apply Z.mod_pos_bound; lia)); unfold mp;
    Z.to_euclidean_division_equations; lia.
Qed.

(** A day number and its date determine each other. *)
Lemma days_of_civil days : days_of (year_month days).1 (year_month days).2 (day_of_month days) = days.
Proof.
  destruct (civil_parts days) as (m & Hy & Hm & Hd & Hmp). rewrite Hy, Hd. clear Hy Hd. cbn [fst snd].
  pose proof (Z.div_mod (days + 719468) 146097 ltac:(lia)) as Hz.
  set (doe := (days + 719468) mod 146097) in *. set (era := (days + 719468) / 146097) in *.
  pose proof (year_of_era_bound doe ltac:(apply Z.mod_pos_bound; lia)) as Hb.
  set (mp := (5 * day_of_year doe + 2) / 153) in *.
  unfold days_of.
  assert ((m + 9) mod 12 = mp) as ->.
  { destruct Hm as [[-> ?]|[-> ?]]; [|rewrite Z.mod_small; lia].
    replace (mp + 3 + 9) with (mp + 1 * 12) by lia. rewrite Z.mod_add, Z.mod_small; lia. }
  replace (if m <=? 2 then year_of_era doe + era * 400 + (if m <=? 2 then 1 else 0) - 1
           else year_of_era doe + era * 400 + (if m <=? 2 then 1 else 0))
    with (year_of_era doe + era * 400) by (destruct (m <=? 2); lia).
  rewrite Z.div_add, Z.mod_add, Z.div_small, Z.mod_small by lia. unfold day_of_year. lia.
Qed.

(** The days [datetime] covers: from 0001-01-01 to 9999-12-31. *)
Definition in_range (day : Z) : Prop := -719162 <= day < 2932897.

Lemma civil_range day : in_range day →
  1 <= (year_month day).1 < 10 ^ 4 ∧ 1 <= (year_month day).2 <= 12 ∧ 1 <= day_of_month day <= 31.
Proof.
  intros Hr. destruct (civil_parts day) as (m & Hy & Hm & Hd & Hmp). rewrite Hy, Hd. clear Hy Hd. cbn [fst snd].
  pose proof (Z.mod_pos_bound (day + 719468) 146097 ltac:(lia)) as Hb.
  pose proof (Z.div_mod (day + 719468) 146097 ltac:(lia)) as Hz.
  set (doe := (day + 719468) mod 146097) in *. set (era := (day + 719468) / 146097) in *. clearbody doe era.
  unfold in_range in Hr.
  assert (era = 0 ∧ 306 <= doe ∨ 1 <= era <= 23 ∨ era = 24 ∧ doe <= 146036) as Hera by nia.
  pose proof (year_of_era_bound doe Hb) as Hyb. pose proof (day_of_year_bound doe Hb) as Hdb.
  assert (era = 0 → year_of_era doe = 0 → 10 <= (5 * day_of_year doe + 2) / 153) as Hlow.
  { intros -> E. unfold day_of_year. rewrite E. Z.to_euclidean_division_equations. lia. }
  assert (doe <= 146036 → year_of_era doe = 399 → (5 * day_of_year doe + 2) / 153 < 10) as Hup.
  { intros ? E. unfold day_of_year. rewrite E. Z.to_euclidean_division_equations. lia. }
  split_and!; [case_if; lia..|lia|lia|Z.to_euclidean_division_equations; lia|Z.to_euclidean_division_equations; lia].
Qed.

(** ** Reading what [isoformat] wrote *)

Lemma string_cons_app c s t : (String c s ++ t)%string = String c (s ++ t).
Proof. done. Qed.

Lemma read_digits_app w s acc t v :
  read_digits w acc s = Some (v, EmptyString) → read_digits w acc (s ++ t) = Some (v, t).
Proof.
  revert s acc; induction w as [|w IH]; intros s acc; cbn [read_digits]; [by intros [= -> ->]|].
  destruct s as [|c s]; [done|]. rewrite string_cons_app. destruct (char_digit c); [apply IH|done].
Qed.

Lemma read_digits_parse w s acc :
  String.length s = w → read_digits w acc s = (λ v, (v, EmptyString)) <$> parse_digits acc s.
Proof.
  revert s acc; induction w as [|w IH]; intros [|c s] acc Hl; try discriminate; cbn [read_digits parse_digits]; [done|].
  destruct (char_digit c); [|done]. apply IH. by injection Hl.
Qed.

Lemma read_fixed_width w n t : 0 <= n < 10 ^ Z.of_nat w → read_digits w 0 (fixed_width w n ++ t) = Some (n, t).
Proof.
  intros Hn. apply read_digits_app. rewrite read_digits_parse by apply length_fixed_width.
  rewrite parse_fixed_width by lia. cbn [fmap option_fmap option_map]. by rewrite Z.mod_small by lia.
Qed.

Lemma is_date_civil day : in_range day → is_date (year_month day).1 (year_month day).2 (day_of_month day) = true.
Proof.
  intros Hr. pose proof (civil_range day Hr) as (Hy & _). unfold is_date, civil. rewrite days_of_civil.
  apply andb_true_iff. split; [apply Z.leb_le; lia|]. apply bool_decide_eq_true. by destruct (year_month day).
Qed.

Lemma read_fraction_fixed w n t :
  0 <= n < 10 ^ Z.of_nat w → (∀ c t', t = String c t' → char_digit c = None) →
  read_fraction w 0 (fixed_width w n ++ t) = (n, t).
Proof.
  intros Hn Ht. enough (∀ s acc v, parse_digits acc s = Some v → String.length s = w →
    read_fraction w acc (s ++ t) = (v, t)) as Hgen.
  { apply Hgen; [rewrite parse_fixed_width by lia; by rewrite Z.mod_small by lia|apply length_fixed_width]. }
  clear n Hn. induction w as [|w IH]; intros [|c s] acc v Hp Hl; try discriminate; cbn [parse_digits] in Hp.
  - injection Hp as ->. change ("" ++ t)%string with t.
    destruct t as [|c t]; cbn [read_fraction]; [by rewrite Z.mul_1_r|]. rewrite (Ht c t eq_refl). by rewrite Z.mul_1_r.
  - rewrite string_cons_app. cbn [read_fraction]. destruct (char_digit c); [|done]. apply IH; [done|]. by injection Hl.
Qed.

Lemma read_sixtieth_fixed n t : 0 <= n < 60 → read_sixtieth (":" ++ fixed_width 2 n ++ t) = Some (n, t).
Proof.
  intros Hn. unfold read_sixtieth. change (read_char ":" (":" ++ fixed_width 2 n ++ t)) with (Some (fixed_width 2 n ++ t)%string).
  cbn match. rewrite read_fixed_width by (cbn; lia). cbn. case_if; [done|lia].
Qed.

Lemma string_app_assoc s t u : ((s ++ t) ++ u = s ++ t ++ u)%string.
Proof. induction s as [|c s IH]; [done|]. rewrite !string_cons_app. by f_equal. Qed.

(** What may follow a time of day without being read as a part of it. *)
Definition ends_clock (t : string) : Prop :=
  match t with
  | EmptyString => True
  | String c _ => char_digit c = None ∧ c ≠ "."%char ∧ c ≠ ","%char ∧ c ≠ ":"%char
  end.

(** The fraction [isoformat] writes. *)
Definition fraction_text (f : Z) : string := if Z.eqb f 0 then "" else "." ++ fixed_width 6 f.

Lemma read_clock_text us t :
  0 <= us < us_per_day → ends_clock t →
  read_clock (clock_text us ++ fraction_text (us mod us_per_second) ++ t) = Some (us, t).
Proof.
  intros Hus Ht. set (sec := us / us_per_second). set (f := us mod us_per_second).
  assert (0 <= sec < 86400 ∧ 0 <= f < 10 ^ 6 ∧ us = sec * us_per_second + f) as (Hs & Hf & Hd).
  { unfold sec, f, us_per_day, us_per_second in *. Z.to_euclidean_division_equations. lia. }
  unfold clock_text. fold sec. clearbody sec f. unfold read_clock. rewrite !string_app_assoc.
  rewrite read_fixed_width by (cbn; Z.to_euclidean_division_equations; lia). cbn [mbind option_bind].
  do 2 (rewrite read_sixtieth_fixed by (apply Z.mod_pos_bound; lia); cbn [mbind option_bind]).
  assert (sec = (sec / 3600 * 60 + sec / 60 mod 60) * 60 + sec mod 60) as Hsec
    by (Z.to_euclidean_division_equations; lia).
  assert (sec / 3600 < 24) as Hh by (Z.to_euclidean_division_equations; lia).
  rewrite <- Hsec. clear Hsec. unfold fraction_text. destruct (f =? 0) eqn:Ef; breflect.
  - subst f. change ("" ++ t)%string with t. destruct t as [|c [|c' t']]; cbn [ends_clock] in Ht.
    1,2: case_if; [do 2 f_equal; lia|lia].
    destruct Ht as (_ & H1 & H2 & _). apply Ascii.eqb_neq in H1, H2. rewrite H1, H2. cbn [orb andb].
    case_if; [do 2 f_equal; lia|lia].
  - rewrite string_app_assoc. change ("." ++ fixed_width 6 f ++ t)%string with (String "." (fixed_width 6 f ++ t)).
    assert (∃ c u, (fixed_width 6 f ++ t)%string = String c u ∧ char_digit c ≠ None) as (c & u & Eu & Hc).
    { pose proof (fixed_width_digits 6 f 0 ltac:(lia)) as Hp. pose proof (length_fixed_width 6 f) as Hl.
      destruct (fixed_width 6 f) as [|c u]; [done|]. rewrite string_cons_app. do 2 eexists. split; [done|].
      cbn [parse_digits] in Hp. by destruct (char_digit c). }
    rewrite Eu. change ("." =? ".")%char with true. destruct (char_digit c) eqn:Ed; [|done]. cbn [orb andb]. rewrite <- Eu.
    rewrite read_fraction_fixed; [|cbn; lia|intros c0 t0 ->; apply Ht].
    case_if; [do 2 f_equal; lia|lia].
Qed.

Lemma read_offset_text minutes : 0 <= minutes < 1440 →
  read_offset ("+" ++ fixed_width 2 (minutes * us_per_minute / us_per_minute / 60) ++ ":" ++
               fixed_width 2 (minutes * us_per_minute / us_per_minute mod 60)) = Some (Some (minutes * us_per_minute)).
Proof.
  intros Hm. rewrite Z.div_mul by done.
  assert (0 <= minutes / 60 < 24 ∧ 0 <= minutes mod 60 < 60 ∧ minutes = 60 * (minutes / 60) + minutes mod 60) as (Hh & Hr & Hd)
    by (Z.to_euclidean_division_equations; lia).
  set (h := minutes / 60) in *. set (r := minutes mod 60) in *. clearbody h r.
  match goal with |- context [("+" ++ ?s)%string] => change ("+" ++ s)%string with (String "+" s) end. unfold read_offset. change ("+" =? "Z")%char with false.
  change ("+" =? "+")%char with true. cbn [mbind option_bind]. unfold read_clock.
  rewrite read_fixed_width by (cbn; lia). cbn [mbind option_bind].
  rewrite <- (string_app_nil_r (fixed_width 2 r)), read_sixtieth_fixed by done. cbn [mbind option_bind].
  change (read_sixtieth "") with (Some (0, "")). cbn [mbind option_bind].
  case_if; [|lia]. cbn. do 2 f_equal. unfold us_per_minute, us_per_second. lia.
Qed.

(** [isoformat] and [fromisoformat] are inverse on the years 1 to 9999. *)
Lemma iso_roundtrip minutes t :
  0 <= minutes < 1440 → in_range ((t + minutes * us_per_minute) / us_per_day) →
  fromisoformat (isoformat (minutes * us_per_minute) t)
  = Some (mk_datetime (t + minutes * us_per_minute) (Some (minutes * us_per_minute))).
Proof.
  intros Hm Hr. set (off := minutes * us_per_minute). fold off in Hr.
  unfold isoformat, date_text, civil. set (w := t + off) in *. set (day := w / us_per_day) in *.
  pose proof (civil_range day Hr) as (Hy & Hmo & Hd). pose proof (is_date_civil day Hr) as Hdate.
  pose proof (days_of_civil day) as Hday. destruct (year_month day) as [y mo]. cbn [fst snd] in *.
  fold (fraction_text (w mod us_per_second)). unfold fromisoformat. rewrite !string_app_assoc.
  assert (∀ s, read_char "-" ("-" ++ s) = Some s) as Hdash by done.
  do 2 (rewrite read_fixed_width by (cbn; lia); cbn [mbind option_bind]; rewrite Hdash; cbn [mbind option_bind]).
  rewrite read_fixed_width by (cbn; lia). cbn [mbind option_bind]. rewrite Hdate, Hday.
  match goal with |- context [("T" ++ ?s)%string] => change ("T" ++ s)%string with (String "T" s) end. cbn match.
  assert (0 <= w mod us_per_day < us_per_day) as Hus by by apply Z.mod_pos_bound.
  rewrite <- (Z.mod_mod_divide w us_per_day us_per_second) by by exists 86400.
  rewrite read_clock_text; [|done|done]. cbn [mbind option_bind].
  unfold off. rewrite read_offset_text by done. cbn [mbind option_bind]. fold off.
  do 2 f_equal. pose proof (Z.div_mod w us_per_day ltac:(done)) as Hw. fold day in Hw. lia.
Qed.

(** The characters [isoformat] writes. *)
Definition is_iso_char (c : ascii) : bool :=
  match char_digit c with Some _ => true | None => (c =? "-")%char || (c =? ":")%char || (c =? "T")%char || (c =? ".")%char || (c =? "+")%char end.

Lemma digit_is_iso d : 0 <= d < 10 → is_iso_char (digit_char d) = true.
Proof. intros Hd. unfold is_iso_char. by rewrite char_digit_char. Qed.

Lemma fixed_width_iso w n : 0 <= n → all_chars is_iso_char (fixed_width w n) = true.
Proof.
  revert n; induction w as [|w IH]; intros n Hn; cbn [fixed_width]; [done|].
  rewrite all_chars_app, IH by (apply Z.div_pos; lia). cbn [all_chars].
  by rewrite digit_is_iso by (apply Z.mod_pos_bound; lia).
Qed.

Lemma isoformat_iso off t : 0 <= off → in_range ((t + off) / us_per_day) → all_chars is_iso_char (isoformat off t) = true.
Proof.
  intros Hoff Hr. unfold isoformat, date_text, civil, clock_text.
  pose proof (civil_range _ Hr) as (Hy & Hm & Hd). destruct (year_month _) as [y m]. cbn [fst snd] in *.
  set (w := t + off) in *. set (sec := w mod us_per_day / us_per_second).
  assert (0 <= sec) as Hs.
  { apply Z.div_pos; [|done]. by apply Z.mod_pos_bound. }
  rewrite !all_chars_app. rewrite !fixed_width_iso.
  - destruct (_ =? 0); [done|]. rewrite all_chars_app, fixed_width_iso; [done|]. by apply Z.mod_pos_bound.
  - by apply Z.mod_pos_bound.
  - by repeat apply Z.div_pos.
  - by apply Z.mod_pos_bound.
  - by apply Z.mod_pos_bound.
  - by apply Z.div_pos.
  - lia.
  - lia.
  - lia.
Qed.
