(* ===== verification/Attribution.v ===== *)
(** * Canonical payment channels and providers
    (app/common/payment_attribution.py and the normalisers of
    app/voucher/domain/value_objects.py)

    How a payment is recorded: the sales channel and the provider, in one
    spelling, and the method the customer chose, derived from what the gateway
    answered. *)

From S2P Require Import Prelude Exceptions Effects Money Numbers Store PyText.
From Stdlib Require Import Ascii.
#[local] Open Scope Z_scope.

(** [re.sub(r"[\s_\-]+", "", str(value or "").strip().lower())]. *)
Definition is_separator (c : Ascii.ascii) : bool :=
  is_space c || (c =? "_")%char || (c =? "-")%char.
Fixpoint drop_separators (s : string) : string :=
  match s with
  | EmptyString => EmptyString
  | String c s => if is_separator c then drop_separators s else String c (drop_separators s)
  end.
Definition key (value : option string) : string :=
  drop_separators (lower (strip (default "" value))).

(** A dictionary of strings. *)
Fixpoint table_get (t : list (string * string)) (k : string) : option string :=
  match t with
  | [] => None
  | (k', v) :: t => if String.eqb k' k then Some v else table_get t k
  end.

Definition THROUGH : list (string * string) := [
  ("ushdesk", "ushdesk"); ("desk", "ushdesk"); ("pos", "ushdesk");
  ("counter", "ushdesk"); ("reception", "ushdesk"); ("frontdesk", "ushdesk");
  ("dashboard", "ushdesk"); ("admin", "ushdesk"); ("staff", "ushdesk");
  ("ushweb", "ushweb"); ("web", "ushweb"); ("website", "ushweb");
  ("ushspa", "ushspa"); ("app", "ushspa"); ("mobile", "ushspa");
  ("mobileapp", "ushspa"); ("ios", "ushspa"); ("android", "ushspa");
  ("ushspaapp", "ushspa")].

Definition PROVIDER : list (string * string) := [
  ("myfatoorah", "myfatoorah"); ("myfatora", "myfatoorah"); ("fatoorah", "myfatoorah");
  ("paymentlink", "myfatoorah"); ("directlink", "myfatoorah"); ("direct", "myfatoorah");
  ("deema", "tap"); ("deemapaymentlink", "tap"); ("deemalink", "tap");
  ("tapdeema", "tap"); ("tap", "tap"); ("tapknet", "tap");
  ("tapcard", "tap"); ("tapapplepay", "tap");
  ("knetcard", "knet_pos"); ("knetpos", "knet_pos"); ("knetterminal", "knet_pos");
  ("boubyan", "boubyan"); ("boubyanlink", "boubyan")].


Definition normalise_through (value : option string) : option string := table_get THROUGH (key value).
Definition normalise_provider (value : option string) : option string := table_get PROVIDER (key value).

(** ** The payment method *)

Definition METHOD_VALUES : list string :=
  ["knet_card"; "apple_pay"; "deema_link"; "boubyan_link"; "gift_voucher"].
Definition PAID_STATUSES : list string := ["success"; "paid"; "completed"; "rewarded"].

(** [METHOD_BY_KEY]. *)
Definition METHOD_BY_KEY : list (string * string) := (λ v, (key (Some v), v)) <$> METHOD_VALUES.

(** The keys of a gateway response under which names are looked for. *)
Definition GATEWAY_KEYS : list string := [
  "paymentgateway"; "payment_gateway"; "paymentmethod"; "payment_method";
  "gateway"; "source"; "invoicetransactions"; "transactions"; "data"; "transaction"].

(** [walk]: the depth counts down from seven. *)
Fixpoint walk (depth : nat) (obj : json) : list string :=
  match depth with
  | O => []
  | S depth =>
      match obj with
      | JStr s => [s]
      | JDict d => d ≫= λ '(k, v), if lower k in? GATEWAY_KEYS then walk depth v else []
      | JList l => l ≫= walk depth
      | _ => []
      end
  end.

(** [stripped[:1] in "{["], which the empty text satisfies. *)
Definition looks_like_json (stripped : string) : bool :=
  match stripped with
  | EmptyString => true
  | String c _ => (c =? "{")%char || (c =? "[")%char
  end.

(** [_is_paid]: the values of the status attributes. *)
Definition is_paid (statuses : list (option string)) : bool :=
  existsb (λ v, lower (strip (default "" v)) in? PAID_STATUSES) statuses.

Section json_text.
(** [json.loads], [None] for [ValueError]. *)
Context (json_loads : string → option json).

Definition source_text (source : json) : list string :=
  match source with
  | JStr s =>
      let stripped := strip s in
      if looks_like_json stripped
      then match json_loads stripped with Some j => walk 7 j | None => [s] end
      else [s]
  | _ => walk 7 source
  end.
Definition gateway_text (sources : list json) : string := lower (join " " (sources ≫= source_text)).

Definition opt_str (o : option string) : json := match o with Some s => JStr s | None => JNull end.
Definition opt_dict (o : option jdict) : json := match o with Some d => JDict d | None => JNull end.

Definition normalise_method (value provider gateway : option string) (payment_data : option jdict) (paid : bool) : option string :=
  let text := gateway_text [opt_str value; opt_str gateway; opt_dict payment_data] in
  if contains "apple" text then Some "apple_pay"
  else if contains "deema" text then Some "deema_link"
  else if contains "boubyan" text then Some "boubyan_link"
  else if contains "voucher" text then Some "gift_voucher"
  else if provider ==? Some "tap" then Some "deema_link"
  else if provider ==? Some "boubyan" then Some "boubyan_link"
  else if provider ==? Some "knet_pos" then Some "knet_card"
  else if provider ==? Some "myfatoorah" then
    if contains "knet" text || contains "visa" text || contains "master" text || contains "mada" text
    then Some "knet_card"
    else if paid then Some "knet_card" else None
  else None.

(** ** Writing a row

    The attributes [apply_attribution] finds on a row; the gateway and the
    method are absent on some models. *)
Record Attributed := mk_attributed {
  at_through : option string; at_provider : option string;
  at_gateway : option (option string); at_method : option (option string);
  at_payment_data : option jdict; at_statuses : list (option string) }.

(** The provider, derived from the other columns when its label is unclear. *)
Definition attributed_provider (a : Attributed) : option string :=
  match normalise_provider a.(at_provider) with
  | Some provider => Some provider
  | None =>
      let hint := gateway_text [opt_str (default None a.(at_gateway)); opt_str (default None a.(at_method))] in
      if contains "boubyan" hint then Some "boubyan"
      else if contains "deema" hint then Some "tap"
      else None
  end.
Definition attributed_method (a : Attributed) (provider raw_method : option string) : option string :=
  match table_get METHOD_BY_KEY (key raw_method) with
  | Some method => Some method
  | None => normalise_method raw_method provider (default None a.(at_gateway)) a.(at_payment_data)
              (is_paid a.(at_statuses))
  end.
Definition attributed_gateway (gateway : option string) : option string :=
  if lower (strip (default "" gateway)) in? [""; "other"; "unknown"; "none"; "null"] then None else gateway.

Definition apply_attribution (a : Attributed) : Attributed :=
  let provider := attributed_provider a in
  let method := attributed_method a provider <$> a.(at_method) in
  mk_attributed (normalise_through a.(at_through))
    (if method ==? Some (Some "gift_voucher") then None else provider)
    (attributed_gateway <$> a.(at_gateway)) method a.(at_payment_data) a.(at_statuses).
End json_text.

(** A gift voucher has neither of the two columns: an unclear provider has no
    other hint ([voucher_attribution_spec]). *)
Definition voucher_attribution (payment_through payment_provider : option string) : option string * option string :=
  (normalise_through payment_through, normalise_provider payment_provider).

(** [not val or not str(val).strip()]. *)
Definition blank (val : option string) : bool := negb (truthy_opt (strip <$> val)).

(** [VoucherPaymentProvider.normalise] and [VoucherPaymentThrough.normalise]. *)
Definition voucher_provider_normalise (val : option string) : option string :=
  if blank val then None
  else match normalise_provider val with
       | Some canonical => Some canonical
       | None => if String.eqb (lower (strip (default "" val))) "other" then Some "other"
                 else strip <$> val
       end.
Definition voucher_through_normalise (val : option string) : option string :=
  if blank val then None
  else match normalise_through val with
       | Some v => if truthy v then Some v else strip <$> val
       | None => strip <$> val
       end.

(** * Theorems *)





Lemma voucher_attribution_spec json_loads t p statuses :
  apply_attribution json_loads (mk_attributed t p None None None statuses) =
  mk_attributed (voucher_attribution t p).1 (voucher_attribution t p).2 None None None statuses.
Proof.
  unfold apply_attribution, attributed_provider, voucher_attribution. simpl.
  by destruct (normalise_provider p).
Qed.













(** One write is not enough when only the response names the provider. *)
Example attribution_second_write :
  let a := mk_attributed (Some "web") (Some "Other") (Some None) (Some None)
             (Some [("PaymentGateway", JStr "Boubyan")]) [Some "success"] in
  let once := apply_attribution (λ _, None) a in
  once.(at_method) = Some (Some "boubyan_link") ∧ once.(at_provider) = None ∧
  (apply_attribution (λ _, None) once).(at_provider) = Some "boubyan".
Proof. by vm_compute. Qed.
