(* ===== verification/VoucherSnapshot.v ===== *)
(** * The services of a gift voucher
    (app/voucher/domain/services_snapshot.py)

    A voucher gifts up to ten services, kept as a list of entries; the legacy
    single-service columns mirror the list, and a voucher without a list is read
    as one entry built from them.  Redemptions consume services by identifier.

    An incoming entry is the [VoucherServiceItem] of
    app/voucher/interfaces/schemas.py, whose validators make the snapshot and
    the add-ons a dictionary and a list of dictionaries, so that the source's
    tests for other types do not fire.  JSON numbers are integers, below 2^53
    where [int(float(x))] passes through a double. *)

From S2P Require Import Prelude Exceptions Effects Money Numbers Store PyText.
From stdpp Require Import pretty.
From Stdlib Require Import Ascii.
#[local] Open Scope Z_scope.

(** [_to_int]. *)
Definition to_int (value : option json) : Z :=
  match value with
  | Some (JInt z) => z
  | Some (JFloat d) => truncate d
  | Some (JBool b) => if b then 1 else 0
  | Some (JStr s) => default 0 (truncate <$> parse_number s)
  | _ => 0
  end.

(** ** Entries *)

Definition MAX_VOUCHER_SERVICES : nat := 10.

Definition addon_duration (addon : jdict) : Z :=
  or_int (to_int (dict_get addon "duration_minutes")) (to_int (dict_get addon "duration")).

Definition normalise_addon (addon : jdict) : jdict :=
  let aid := if jtruthy (dict_get addon "addon_id") then dict_get addon "addon_id"
             else dict_get addon "id" in
  let out := match aid with
             | None | Some JNull => addon
             | Some a => dict_set addon "addon_id" (JStr (json_str a))
             end in
  dict_set out "duration_minutes" (JInt (addon_duration out)).

Record VoucherServiceItem := mk_service_item {
  vs_service_id : option Z; vs_service_data : jdict; vs_addons : list jdict;
  vs_extra_time : Z; vs_price_for_extra_time : option Decimal }.

Definition service_id_str (service_id : option Z) (service_data : jdict) : option string :=
  match service_id with
  | Some id => Some (uuid_str id)
  | None =>
      match dict_get service_data "id" with
      | None | Some JNull | Some (JStr "") => None
      | Some j =>
          match uuid_of_string (json_str j) with
          | Some id => Some (uuid_str id)
          | None => Some (json_str j)
          end
      end
  end.

Definition normalise_service_entry (raw : VoucherServiceItem) (position : Z) : option ServiceEntry :=
  let service_id := service_id_str raw.(vs_service_id) raw.(vs_service_data) in
  match service_id, raw.(vs_service_data) with
  | None, [] => None
  | _, _ =>
      Some (mk_service_entry service_id raw.(vs_service_data) (normalise_addon <$> raw.(vs_addons))
              (Z.max raw.(vs_extra_time) 0) raw.(vs_price_for_extra_time) position)
  end.

Fixpoint normalise_entries (entries : list ServiceEntry) (services : list VoucherServiceItem) : list ServiceEntry :=
  match services with
  | [] => entries
  | raw :: services =>
      match normalise_service_entry raw (Z.of_nat (length entries)) with
      | Some entry => normalise_entries (entries ++ [entry]) services
      | None => normalise_entries entries services
      end
  end.

Definition normalise_services (services : list VoucherServiceItem) (service_id : option Z)
    (service_data : jdict) (addons : list jdict) (extra_time : Z)
    (price_for_extra_time : option Decimal) : list ServiceEntry :=
  let entries := normalise_entries [] services in
  let has_legacy := match service_id, service_data with None, [] => false | _, _ => true end in
  let entries :=
    match entries with
    | [] =>
        if has_legacy
        then option_list (normalise_service_entry
               (mk_service_item service_id service_data addons extra_time price_for_extra_time) 0)
        else []
    | _ => entries
    end in
  take MAX_VOUCHER_SERVICES entries.

(** The legacy columns of a non-empty list. *)
Record LegacyFields := mk_legacy {
  lf_service_id : option Z; lf_service_data : jdict; lf_addons : list jdict; lf_extra_time : Z;
  lf_price_for_extra_time : option Decimal }.

Definition mirror_legacy_fields (services : list ServiceEntry) : option LegacyFields :=
  match services with
  | [] => None
  | primary :: _ =>
      Some (mk_legacy (primary.(se_service_id) ≫= uuid_of_string) primary.(se_service_data)
              (services ≫= se_addons) (foldr Z.add 0 (se_extra_time <$> services))
              primary.(se_price_for_extra_time))
  end.

Definition entry_duration (s : ServiceEntry) : Z :=
  or_int (to_int (dict_get s.(se_service_data) "duration_minutes"))
         (to_int (dict_get s.(se_service_data) "duration")) +
  foldr Z.add 0 (addon_duration <$> s.(se_addons)) + s.(se_extra_time).
Definition services_duration (services : list ServiceEntry) : Z :=
  foldr Z.add 0 (entry_duration <$> services).

(** ** A voucher's services and what is left of them *)

Definition voucher_services_of (voucher : GiftVoucher) : list ServiceEntry :=
  match voucher.(gv_services) with
  | [] =>
      match voucher.(gv_service_id), voucher.(gv_service_data) with
      | None, [] => []
      | legacy_id, legacy_data =>
          normalise_services [] legacy_id legacy_data voucher.(gv_addons) voucher.(gv_extra_time)
            voucher.(gv_price_for_extra_time)
      end
  | stored => stored
  end.

(** [[str(e["service_id"]) for e in ... if e.get("service_id")]]. *)
Definition entry_ids (l : list ServiceEntry) : list string :=
  List.filter truthy (omap se_service_id l).

Definition used_service_ids (voucher : GiftVoucher) : list string :=
  List.filter truthy (us_service_id <$> (voucher.(gv_redemptions) ≫= rd_services)).

Definition remaining_service_ids (voucher : GiftVoucher) : list string :=
  List.filter (λ i, negb (i in? used_service_ids voucher)) (entry_ids (voucher_services_of voucher)).
