(* ===== verification/VoucherService.v ===== *)
(** * The gift voucher service
    (app/voucher/application/voucher_service.py, with the rules of
    app/voucher/infrastructure/repository.py it calls)

    The scheduler that delivers vouchers is AWS EventBridge:
    [schedule_answer] is the ARN or the exception it answers to a call, given
    the calls made before it, and every call is recorded in the store's
    [outbound] trace.  An SQS event of a background task is recorded where the
    task is created; its payload is the voucher's identifier.  A flush applies
    the attribution listeners of app/common/payment_attribution_listeners.py
    and the constraints of the table. *)

From S2P Require Import Prelude Exceptions Effects StateMachines Money Numbers Store PyText Attribution.
From S2P Require Import VoucherSnapshot.
From Stdlib Require Import Ascii.
Import Voucher.
#[local] Open Scope Z_scope.

Definition us_per_hour : Z := 3600 * 1000000.

(** ** Requests *)

(** The body of a redemption; an item's identifier is its text, [""] when
    missing. *)
Record RedemptionItem := mk_redemption_item {
  ri_service_id : string; ri_service_name : option string; ri_addon_ids : list string;
  ri_extra_time : Z }.
Record RedemptionRequest := mk_redemption_request {
  rq_booking_id : option string; rq_booking_number : option string; rq_services : list RedemptionItem }.

(** [UpdateGiftVoucherRequest.model_dump(exclude_unset=True)]
    (app/voucher/interfaces/schemas.py): the outer option tells whether the key
    is present, the inner one is its value, [None] for null. *)
Record UpdateGiftVoucherRequest := mk_update {
  uv_gift_category : option (option string); uv_ordered_items : option (option json);
  uv_delivery_status : option (option string); uv_delivery_address : option (option jdict);
  uv_digital_product_data : option (option jdict);
  uv_is_digital_gift_opened : option (option bool);
  uv_services : option (option (list VoucherServiceItem)); uv_service_id : option (option Z);
  uv_service_data : option (option jdict); uv_branch_id : option (option Z);
  uv_branch_data : option (option jdict); uv_service_arrangement_id : option (option Z);
  uv_service_arrangement_data : option (option jdict);
  uv_addons : option (option (list jdict)); uv_extra_time : option (option Z);
  uv_price_for_extra_time : option (option Decimal); uv_total_duration : option (option Z);
  uv_total_amount : option (option Z); uv_currency : option (option string);
  uv_sender_id : option (option Z); uv_sender_data : option (option jdict);
  uv_recipient_phone : option (option string); uv_recipient_id : option (option Z);
  uv_recipient_data : option (option jdict); uv_gift_message : option (option string);
  uv_gift_from : option (option string); uv_gift_template : option (option string);
  uv_status : option (option string); uv_expire_date : option (option Z);
  uv_booking_id : option (option Z); uv_booking_data : option (option jdict);
  uv_payment_id : option (option string); uv_payment_data : option (option jdict);
  uv_payment_url : option (option string); uv_payment_provider : option (option string);
  uv_payment_through : option (option string); uv_redeemed_by : option (option Z);
  uv_redemption : option (option RedemptionRequest) }.

#[export] Instance eta_update : Eta UpdateGiftVoucherRequest := λ u, mk_update u.(uv_gift_category)
  u.(uv_ordered_items) u.(uv_delivery_status) u.(uv_delivery_address) u.(uv_digital_product_data)
  u.(uv_is_digital_gift_opened) u.(uv_services) u.(uv_service_id) u.(uv_service_data)
  u.(uv_branch_id) u.(uv_branch_data) u.(uv_service_arrangement_id) u.(uv_service_arrangement_data)
  u.(uv_addons) u.(uv_extra_time) u.(uv_price_for_extra_time) u.(uv_total_duration)
  u.(uv_total_amount) u.(uv_currency) u.(uv_sender_id) u.(uv_sender_data) u.(uv_recipient_phone)
  u.(uv_recipient_id) u.(uv_recipient_data) u.(uv_gift_message) u.(uv_gift_from)
  u.(uv_gift_template) u.(uv_status) u.(uv_expire_date) u.(uv_booking_id) u.(uv_booking_data)
  u.(uv_payment_id) u.(uv_payment_data) u.(uv_payment_url) u.(uv_payment_provider)
  u.(uv_payment_through) u.(uv_redeemed_by) u.(uv_redemption).

Definition no_updates : UpdateGiftVoucherRequest :=
  mk_update None None None None None None None None None None None None None None None None None None None None None None None None None None None None None None None None None None None None None None.

(** The keyword arguments of [update_status]. *)
Record StatusArgs := mk_status_args {
  st_payment_id : option string; st_payment_data : option jdict; st_payment_url : option string;
  st_booking_id : option Z; st_booking_data : option jdict; st_payment_provider : option string;
  st_payment_through : option string; st_redeemed_by : option Z; st_actor_id : option string;
  st_ordered_items : option json; st_delivery_status : option string;
  st_delivery_address : option jdict; st_digital_product_data : option jdict;
  st_is_digital_gift_opened : option bool }.

#[export] Instance eta_StatusArgs : Eta StatusArgs := λ a, mk_status_args
  a.(st_payment_id) a.(st_payment_data) a.(st_payment_url) a.(st_booking_id) a.(st_booking_data)
  a.(st_payment_provider) a.(st_payment_through) a.(st_redeemed_by) a.(st_actor_id)
  a.(st_ordered_items) a.(st_delivery_status) a.(st_delivery_address) a.(st_digital_product_data)
  a.(st_is_digital_gift_opened).

Definition no_args : StatusArgs :=
  mk_status_args None None None None None None None None None None None None None None.

(** The arguments of [create_voucher], with the two tokens the columns draw at
    random. *)
Record NewVoucher := mk_new_voucher {
  nv_service_id : option Z; nv_service_data : jdict; nv_services : list VoucherServiceItem;
  nv_total_amount : Z; nv_discount : Z; nv_sender_id : Z; nv_sender_data : option jdict;
  nv_branch_id : option Z; nv_branch_data : option jdict;
  nv_service_arrangement_id : option Z; nv_service_arrangement_data : option jdict;
  nv_addons : list jdict; nv_extra_time : Z; nv_price_for_extra_time : option Decimal;
  nv_total_duration : Z; nv_currency : string;
  nv_recipient_phone : option string; nv_recipient_id : option Z; nv_recipient_data : option jdict;
  nv_gift_message : option string; nv_gift_from : option string; nv_gift_template : option string;
  nv_booking_id : option Z; nv_booking_data : option jdict; nv_created_by : option Z;
  nv_payment_id : option string; nv_payment_data : option jdict; nv_payment_url : option string;
  nv_payment_provider : option string; nv_payment_through : option string;
  nv_status : option string; nv_expire_date : option Z; nv_validity_days : option Z;
  nv_validity : option Z; nv_gift_category : option string; nv_ordered_items : option json;
  nv_delivery_status : option string; nv_delivery_address : option jdict;
  nv_digital_product_data : option jdict; nv_is_digital_gift_opened : bool;
  nv_delivery_mode : option string; nv_scheduled_delivery_at : option Z;
  nv_secret_code : string; nv_public_token : string }.

(** ** Value objects (app/voucher/domain/value_objects.py) *)

Fixpoint replace_char (a b : Ascii.ascii) (s : string) : string :=
  match s with
  | EmptyString => EmptyString
  | String c s => String (if Ascii.eqb c a then b else c) (replace_char a b s)
  end.

(** [VoucherDeliveryMode.normalise]. *)
Definition delivery_mode_normalise (val : option string) : string :=
  let cleaned := replace_char " "%char "_"%char (replace_char "-"%char "_"%char (lower (strip (default "" val)))) in
  if String.eqb cleaned "scheduled" then "scheduled" else "on_activation".

(** [GiftCategory.normalise]: a recognised member's value is its cleaned text,
    as is everything else. *)
Definition gift_category_normalise (val : option string) : string :=
  if blank val then "service" else lower (strip (default "" val)).

(** ** Shared pieces *)

(** [except ValueError as exc: raise ValidationError(...)], also for
    [InvalidDeliveryTransitionError]. *)
Definition as_validation {A} (r : result A) : M Store A :=
  match r with Ok a => mret a | Raise _ => raise (err ValidationError) end.

(** [if x is not None: voucher.f = x]. *)
Definition set_opt {A} (o : option A) (f : A → GiftVoucher → GiftVoucher) (v : GiftVoucher) : GiftVoucher :=
  match o with Some a => f a v | None => v end.

Definition append_history (voucher_id : Z) (h : VoucherHistory) : M Store () :=
  upd_voucher voucher_id (λ v, v <| gv_update_history := v.(gv_update_history) ++ [h] |>).
Definition history (action by_ : string) (t : Z) (old new : option string) : VoucherHistory :=
  mk_voucher_history action t by_ old new None None.

(** [_emit_status_event]. *)
Definition emit_status_event (voucher_id : Z) (status : GiftVoucherStatus) : M Store () :=
  match status with
  | ACTIVE => publish (VoucherActiveEvent voucher_id)
  | SCHEDULED => publish (VoucherScheduledEvent voucher_id)
  | PAYMENT_PENDING => publish (VoucherPaymentPendingEvent voucher_id)
  | REDEEMED => publish (VoucherRedeemedEvent voucher_id)
  | _ => mret ()
  end.

(** The foreign keys to [bookings]. *)
Definition booking_exists (s : Store) (id : option Z) : bool :=
  match id with Some b => bool_decide (is_Some (s.(bookings) !! b)) | None => true end.

(** [apply_attribution(voucher)]. *)
Definition attribute (v : GiftVoucher) : GiftVoucher :=
  let '(through_, provider) := voucher_attribution v.(gv_payment_through) v.(gv_payment_provider) in
  v <| gv_payment_through := through_ |> <| gv_payment_provider := provider |>.

(** [session.flush()] of a changed voucher: the listeners normalise the
    attribution, then the database checks the row ([IntegrityError]). *)
Definition flush_voucher (voucher_id : Z) : M Store () :=
  upd_voucher voucher_id attribute ;;
  v ← get_voucher_row voucher_id;
  s ← get;
  raise_if (negb (booking_exists s v.(gv_booking_id) && booking_exists s v.(gv_redeemed_booking_id)))
    (err PythonException).

(** [repo.get_by_id] and the [NotFoundError] of its callers. *)
Definition get_by_id (voucher_id : Z) : M Store GiftVoucher :=
  v ← gets (λ s, s.(vouchers) !! voucher_id);
  some_or_raise v (err NotFoundError).

(** [repo.get_by_public_token] and [repo.get_by_voucher_number]: columns with a
    unique constraint. *)
Definition find_voucher (p : GiftVoucher → bool) (s : Store) : option Z :=
  fst <$> head (List.filter (λ '(_, v), p v) (map_to_list s.(vouchers))).

(** [GiftVoucherService.get_by_public_token]. *)
Definition get_by_public_token (public_token : string) : M Store Z :=
  s ← get;
  let by_token := find_voucher (λ v, v.(gv_public_token) ==? public_token) s in
  let by_id := match uuid_of_string public_token with
               | Some id => match s.(vouchers) !! id with Some _ => Some id | None => None end
               | None => None
               end in
  let by_number := find_voucher (λ v, v.(gv_voucher_number) ==? Some public_token) s in
  some_or_raise (match by_token with
                 | Some id => Some id
                 | None => match by_id with Some id => Some id | None => by_number end
                 end) (err NotFoundError).

Module GiftVoucherService.
Section service.
Context (schedule_answer : list OutboundCall → OutboundCall → result string).
Context (GIFT_VOUCHER_EXPIRE_DAYS : Z).

(** ** The scheduler client (app/events/scheduler_client.py) *)

Definition call_scheduler (c : OutboundCall) : M Store string :=
  calls ← gets outbound;
  call_out c ;;
  lift (schedule_answer calls c).

Definition create_voucher_schedule (voucher_id : string) (scheduled_delivery_at : Z) : M Store (string * string) :=
  let schedule_name := ("voucher-delivery-" ++ voucher_id)%string in
  arn ← call_scheduler (CreateScheduleCall schedule_name voucher_id scheduled_delivery_at);
  mret (schedule_name, arn).

Definition update_voucher_schedule (schedule_name voucher_id : string) (new_scheduled_delivery_at : Z) : M Store string :=
  call_scheduler (UpdateScheduleCall schedule_name voucher_id new_scheduled_delivery_at).

Definition delete_voucher_schedule (schedule_name : string) : M Store () :=
  call_scheduler (DeleteScheduleCall schedule_name) ;; mret ().

(** [try: ... except Exception: log]. *)
Definition best_effort (m : M Store ()) : M Store () := try_except m (λ _, true) (λ _, mret ()).

(** ** Creation *)

(** [_default_expire_date]. *)
Definition default_expire_date (now_ : Z) : Z :=
  now_ + us_per_day * (if GIFT_VOUCHER_EXPIRE_DAYS =? 0 then 60 else GIFT_VOUCHER_EXPIRE_DAYS).

Definition is_digit (c : Ascii.ascii) : bool :=
  match char_digit c with Some _ => true | None => false end.
Definition is_phone_char (c : Ascii.ascii) : bool :=
  is_digit c || (match c with "+"%char | " "%char | "-"%char | "("%char | ")"%char => true | _ => false end).

(** The check on the sender's phone number, when there is one. *)
Definition sender_phone_ok (sender_data : option jdict) : bool :=
  let phone := dict_get (or_empty sender_data) "phone_number" in
  let sender_phone := if jtruthy phone then strip (json_str (default JNull phone)) else "" in
  let sender_digits := filter_chars is_digit sender_phone in
  negb (truthy sender_phone) ||
  (truthy sender_digits &&
   (8 <=? String.length sender_digits)%nat && (String.length sender_digits <=? 15)%nat &&
   all_chars is_phone_char sender_phone).

(** [expire_date], or the validity in days, or the default. *)
Definition resolve_expire_date (a : NewVoucher) (now_ : Z) : Z :=
  match a.(nv_expire_date) with
  | Some t => t
  | None =>
      let eff_days := match a.(nv_validity_days) with Some d => Some d | None => a.(nv_validity) end in
      match eff_days with
      | Some d => if 0 <? d then now_ + us_per_day * d else default_expire_date now_
      | None => default_expire_date now_
      end
  end.

(** The row before it has a number and a key. *)
Definition new_row (a : NewVoucher) (now_ : Z) : GiftVoucher :=
  let service_entries := normalise_services a.(nv_services) a.(nv_service_id) a.(nv_service_data)
      a.(nv_addons) a.(nv_extra_time) a.(nv_price_for_extra_time) in
  let legacy :=
    default (mk_legacy a.(nv_service_id) a.(nv_service_data) a.(nv_addons) a.(nv_extra_time)
               a.(nv_price_for_extra_time))
      (match a.(nv_services) with [] => None | _ => mirror_legacy_fields service_entries end) in
  let total_duration := Z.max a.(nv_total_duration) (services_duration service_entries) in
  let delivery_mode := delivery_mode_normalise a.(nv_delivery_mode) in
  let initial_status := por_str a.(nv_status) (value CREATED) in
  let initial_status :=
    if String.eqb delivery_mode "scheduled" && String.eqb initial_status (value ACTIVE)
    then value SCHEDULED else initial_status in
  let redeemed := String.eqb initial_status (value REDEEMED) in
  {| gv_voucher_number := None;
     gv_service_id := legacy.(lf_service_id); gv_service_data := legacy.(lf_service_data);
     gv_branch_id := a.(nv_branch_id); gv_branch_data := a.(nv_branch_data);
     gv_service_arrangement_id := a.(nv_service_arrangement_id);
     gv_service_arrangement_data := a.(nv_service_arrangement_data);
     gv_services := service_entries; gv_redemptions := [];
     gv_addons := legacy.(lf_addons); gv_extra_time := legacy.(lf_extra_time);
     gv_price_for_extra_time := legacy.(lf_price_for_extra_time);
     gv_expire_date := resolve_expire_date a now_; gv_status := initial_status;
     gv_gift_category := gift_category_normalise a.(nv_gift_category);
     gv_ordered_items := a.(nv_ordered_items); gv_delivery_status := a.(nv_delivery_status);
     gv_delivery_address := a.(nv_delivery_address);
     gv_digital_product_data := a.(nv_digital_product_data);
     gv_is_digital_gift_opened := a.(nv_is_digital_gift_opened);
     gv_sender_id := a.(nv_sender_id); gv_sender_data := a.(nv_sender_data);
     gv_recipient_phone := a.(nv_recipient_phone); gv_recipient_id := a.(nv_recipient_id);
     gv_recipient_data := a.(nv_recipient_data); gv_created_by := a.(nv_created_by);
     gv_total_duration := total_duration; gv_total_amount := a.(nv_total_amount);
     gv_discount := a.(nv_discount); gv_currency := a.(nv_currency);
     gv_gift_message := a.(nv_gift_message); gv_gift_from := a.(nv_gift_from);
     gv_gift_template := a.(nv_gift_template); gv_secret_code := a.(nv_secret_code);
     gv_public_token := a.(nv_public_token);
     gv_redeemed_booking_id := None; gv_redeemed_at := if redeemed then Some now_ else None;
     gv_redeemed_by := if redeemed then a.(nv_created_by) else None;
     gv_booking_id := a.(nv_booking_id); gv_booking_data := a.(nv_booking_data);
     gv_payment_id := a.(nv_payment_id); gv_payment_data := a.(nv_payment_data);
     gv_payment_url := a.(nv_payment_url);
     gv_payment_provider := voucher_provider_normalise a.(nv_payment_provider);
     gv_payment_through := voucher_through_normalise a.(nv_payment_through);
     gv_delivery_mode := delivery_mode; gv_scheduled_delivery_at := a.(nv_scheduled_delivery_at);
     gv_delivery_schedule_name := None; gv_delivery_schedule_arn := None;
     gv_delivered_at := None; gv_delivery_result := None; gv_reschedule_count := 0;
     gv_update_history := [history "created" (match a.(nv_created_by) with
                             | Some u => uuid_str u | None => "system" end) now_ None None] |}.

(** The row is keyed when it is flushed: the identifier the schedule is made
    for is still unset, [str(None)].  A number already taken is an
    [IntegrityError]; the source retries with the number of the same query, in
    the transaction the error has aborted, so it ends in an exception. *)
Definition create_voucher (a : NewVoucher) : M Store Z :=
  raise_if (negb (sender_phone_ok a.(nv_sender_data))) (err ValidationError) ;;
  now_ ← gets now;
  let voucher := new_row a now_ in
  schedule ←
    match voucher.(gv_scheduled_delivery_at) with
    | Some at_ =>
        if String.eqb voucher.(gv_status) (value SCHEDULED)
        then try_except (na ← create_voucher_schedule "None" at_; mret (Some na))
               (λ _, true) (λ _, mret None)
        else mret None
    | None => mret None
    end;
  s ← get;
  let numbers := omap gv_voucher_number (rows s.(vouchers)) in
  let number := generate_voucher_number now_ numbers in
  let voucher := voucher <| gv_voucher_number := Some number |>
    <| gv_delivery_schedule_name := fst <$> schedule |>
    <| gv_delivery_schedule_arn := snd <$> schedule |> in
  raise_if (number in? numbers) (err PythonException) ;;
  let id := new_id s.(vouchers) in
  modify (λ s, s <| vouchers := <[id := voucher]> s.(vouchers) |>) ;;
  flush_voucher id ;;
  (if String.eqb voucher.(gv_status) (value ACTIVE) then emit_status_event id ACTIVE
   else if String.eqb voucher.(gv_status) (value SCHEDULED) then emit_status_event id SCHEDULED
   else mret ()) ;;
  mret id.

(** ** Status transitions *)

(** A payment on a voucher that becomes active or scheduled. *)
Definition record_payment (a : StatusArgs) (v : GiftVoucher) : GiftVoucher :=
  set_opt a.(st_payment_data) (λ d v, v <| gv_payment_data := Some (dict_merge (or_empty v.(gv_payment_data)) d) |>)
    (set_opt a.(st_payment_id) (λ p v, v <| gv_payment_id := Some p |>) v).

(** The fields set whatever the target. *)
Definition set_status (target : GiftVoucherStatus) (a : StatusArgs) (v : GiftVoucher) : GiftVoucher :=
  let v := v <| gv_status := value target |> in
  let v := set_opt a.(st_payment_url) (λ x v, v <| gv_payment_url := Some x |>) v in
  let v := set_opt a.(st_payment_provider)
             (λ x v, v <| gv_payment_provider := voucher_provider_normalise (Some x) |>) v in
  let v := set_opt a.(st_payment_through)
             (λ x v, v <| gv_payment_through := voucher_through_normalise (Some x) |>) v in
  let v := set_opt a.(st_ordered_items) (λ x v, v <| gv_ordered_items := Some x |>) v in
  let v := set_opt a.(st_delivery_status) (λ x v, v <| gv_delivery_status := Some x |>) v in
  let v := set_opt a.(st_delivery_address) (λ x v, v <| gv_delivery_address := Some x |>) v in
  let v := set_opt a.(st_digital_product_data) (λ x v, v <| gv_digital_product_data := Some x |>) v in
  set_opt a.(st_is_digital_gift_opened) (λ x v, v <| gv_is_digital_gift_opened := x |>) v.

Definition set_redeemed (a : StatusArgs) (now_ : Z) (v : GiftVoucher) : GiftVoucher :=
  let v := v <| gv_redeemed_at := Some now_ |> in
  let v := set_opt a.(st_booking_id)
             (λ b v, v <| gv_redeemed_booking_id := Some b |> <| gv_booking_id := Some b |>) v in
  let v := set_opt a.(st_booking_data) (λ d v, v <| gv_booking_data := Some d |>) v in
  set_opt a.(st_redeemed_by) (λ u v, v <| gv_redeemed_by := Some u |>) v.

(** An undelivered voucher with scheduled delivery is scheduled, not made
    active. *)
Definition redirect_target (v : GiftVoucher) (target : GiftVoucherStatus) : GiftVoucherStatus :=
  if (target ==? ACTIVE) && String.eqb v.(gv_delivery_mode) "scheduled" &&
     match v.(gv_delivered_at) with None => true | Some _ => false end
  then SCHEDULED else target.

(** The schedule of a voucher that becomes scheduled; best effort. *)
Definition schedule_delivery (voucher_id : Z) : M Store () :=
  v ← get_voucher_row voucher_id;
  match v.(gv_scheduled_delivery_at) with
  | Some at_ =>
      when (negb (truthy_opt v.(gv_delivery_schedule_name)))
        (best_effort
           (na ← create_voucher_schedule (uuid_str voucher_id) at_;
            upd_voucher voucher_id (λ v, v <| gv_delivery_schedule_name := Some (fst na) |>
                                           <| gv_delivery_schedule_arn := Some (snd na) |>)))
  | None => mret ()
  end.

Definition cancel_delivery (voucher_id : Z) : M Store () :=
  v ← get_voucher_row voucher_id;
  match v.(gv_delivery_schedule_name) with
  | Some name => when (truthy name) (best_effort (delete_voucher_schedule name))
  | None => mret ()
  end.

Definition update_status (voucher_id : Z) (new_status : string) (a : StatusArgs) : M Store () :=
  voucher ← get_by_id voucher_id;
  current ← as_validation (of_value voucher.(gv_status));
  target ← as_validation (of_value new_status);
  let target := redirect_target voucher target in
  as_validation (validate_transition current target) ;;
  let old_status := voucher.(gv_status) in
  upd_voucher voucher_id (set_status target a) ;;
  match target with
  | ACTIVE => upd_voucher voucher_id (record_payment a)
  | SCHEDULED => upd_voucher voucher_id (record_payment a) ;; schedule_delivery voucher_id
  | CANCELLED => cancel_delivery voucher_id
  | _ => mret ()
  end ;;
  now_ ← gets now;
  when (target ==? REDEEMED) (upd_voucher voucher_id (set_redeemed a now_)) ;;
  append_history voucher_id (history "status_updated" (por_str a.(st_actor_id) "staff") now_
                               (Some old_status) (Some (value target))) ;;
  flush_voucher voucher_id ;;
  when (negb (String.eqb old_status (value target))) (emit_status_event voucher_id target).

(** The check of [DeliveryStateMachine], when a delivery has started. *)
Definition delivery_check (current : option string) (target : Delivery.DeliveryStatus) : M Store () :=
  match current with
  | Some c =>
      if truthy c then curr ← as_validation (of_value c);
                       as_validation (Delivery.assert_can_transition curr target)
      else mret ()
  | None => mret ()
  end.

Definition update_delivery_status (voucher_id : Z) (new_status : string) : M Store () :=
  voucher ← get_by_id voucher_id;
  target ← as_validation (of_value new_status);
  delivery_check voucher.(gv_delivery_status) target ;;
  upd_voucher voucher_id (λ v, v <| gv_delivery_status := Some (value target) |>) ;;
  flush_voucher voucher_id.

(** ** [update_voucher] *)

(** [updates.get(key)], null and missing alike. *)
Definition given {A} (o : option (option A)) : option A := default None o.

(** Step 0, the items of a redemption: each names a gifted service that no
    redemption, earlier or this one, has used. *)
Fixpoint redeem_items (all_ids already_used new_ids : list string) (items : list RedemptionItem) : result (list string) :=
  match items with
  | [] => Ok new_ids
  | item :: items =>
      let sid := item.(ri_service_id) in
      if negb (sid in? all_ids) then Raise (err ValidationError)
      else if (sid in? already_used) || (sid in? new_ids) then Raise (err ValidationError)
      else redeem_items all_ids already_used (new_ids ++ [sid]) items
  end.
Definition used_entry (item : RedemptionItem) : UsedService :=
  mk_used_service item.(ri_service_id) item.(ri_service_name) item.(ri_addon_ids) (Z.max item.(ri_extra_time) 0).

(** The fields of the latest redemption. *)
Definition set_redemption_fields (u : UpdateGiftVoucherRequest) (now_ : Z) (v : GiftVoucher) : GiftVoucher :=
  let v := v <| gv_redeemed_at := Some now_ |> in
  let v := set_opt (given u.(uv_booking_id))
             (λ b v, v <| gv_redeemed_booking_id := Some b |> <| gv_booking_id := Some b |>) v in
  let v := set_opt (given u.(uv_booking_data)) (λ d v, v <| gv_booking_data := Some d |>) v in
  set_opt (given u.(uv_redeemed_by)) (λ x v, v <| gv_redeemed_by := Some x |>) v.

Definition redemption_record (u : UpdateGiftVoucherRequest) (r : RedemptionRequest) (now_ : Z) : Redemption :=
  mk_redemption
    (match given u.(uv_booking_id) with
     | Some b => Some (uuid_str b)
     | None => match r.(rq_booking_id) with Some t => if truthy t then Some t else None | None => None end
     end)
    r.(rq_booking_number) now_ (uuid_str <$> given u.(uv_redeemed_by)) (used_entry <$> r.(rq_services)).

(** The whole of step 0, and the status it derives. *)
Definition redeem (voucher_id : Z) (u : UpdateGiftVoucherRequest) (r : RedemptionRequest) : M Store string :=
  v ← get_voucher_row voucher_id;
  raise_if (negb (v.(gv_status) in? [value ACTIVE; value PARTIALLY_REDEEMED])) (err ValidationError) ;;
  let all_ids := entry_ids (voucher_services_of v) in
  let already_used := used_service_ids v in
  new_ids ← lift (redeem_items all_ids already_used [] r.(rq_services));
  raise_if (match new_ids with [] => true | _ => false end) (err ValidationError) ;;
  now_ ← gets now;
  upd_voucher voucher_id (λ v, set_redemption_fields u now_
    (v <| gv_redemptions := v.(gv_redemptions) ++ [redemption_record u r now_] |>)) ;;
  mret (if forallb (λ i, i in? (already_used ++ new_ids)) all_ids
        then value REDEEMED else value PARTIALLY_REDEEMED).

(** Step 1: the status, and the fields of the payment or the redemption. *)
Definition change_status (voucher_id : Z) (old_status : string) (u : UpdateGiftVoucherRequest) : M Store (option GiftVoucherStatus) :=
  match given u.(uv_status) with
  | None => mret None
  | Some new_status =>
      if String.eqb new_status old_status then mret None
      else
        curr ← as_validation (of_value old_status);
        target ← as_validation (of_value new_status);
        as_validation (validate_transition curr target) ;;
        now_ ← gets now;
        upd_voucher voucher_id (λ v,
          let v := v <| gv_status := value target |> in
          match target with
          | ACTIVE =>
              set_opt (given u.(uv_payment_data)) (λ d v, v <| gv_payment_data := Some d |>)
                (set_opt (given u.(uv_payment_id)) (λ p v, v <| gv_payment_id := Some p |>) v)
          | REDEEMED => set_redemption_fields u now_ v
          | _ => v
          end) ;;
        mret (Some target)
  end.

(** Step 2: the delivery status. *)
Definition change_delivery (voucher_id : Z) (u : UpdateGiftVoucherRequest) : M Store () :=
  match given u.(uv_delivery_status) with
  | None => mret ()
  | Some new_ds =>
      v ← get_voucher_row voucher_id;
      if bool_decide (Some new_ds = v.(gv_delivery_status)) then mret ()
      else
        target ← as_validation (of_value new_ds);
        delivery_check v.(gv_delivery_status) target ;;
        upd_voucher voucher_id (λ v, v <| gv_delivery_status := Some (value target) |>)
  end.

(** Steps 3 and 3b: normalised fields and a new list of services. *)
Definition set_normalised (u : UpdateGiftVoucherRequest) (v : GiftVoucher) : GiftVoucher :=
  let v := set_opt (given u.(uv_gift_category))
             (λ c v, v <| gv_gift_category := gift_category_normalise (Some c) |>) v in
  let v := set_opt u.(uv_payment_provider) (λ p v, v <| gv_payment_provider :=
             if truthy_opt p then voucher_provider_normalise p else None |>) v in
  set_opt u.(uv_payment_through) (λ t v, v <| gv_payment_through :=
    if truthy_opt t then voucher_through_normalise t else None |>) v.

Definition set_services (u : UpdateGiftVoucherRequest) (v : GiftVoucher) : GiftVoucher :=
  let entries := normalise_services (default [] (given u.(uv_services))) None [] [] 0 None in
  match mirror_legacy_fields entries with
  | None => v
  | Some l =>
      let v := v <| gv_services := entries |> <| gv_service_id := l.(lf_service_id) |>
        <| gv_service_data := l.(lf_service_data) |> <| gv_addons := l.(lf_addons) |>
        <| gv_extra_time := l.(lf_extra_time) |>
        <| gv_price_for_extra_time := l.(lf_price_for_extra_time) |> in
      match given u.(uv_total_duration) with
      | None => v <| gv_total_duration := services_duration entries |>
      | Some _ => v
      end
  end.

(** Step 4: [setattr] for every other key present. *)
Definition set_remaining (u : UpdateGiftVoucherRequest) (v : GiftVoucher) : GiftVoucher :=
  let v := set_opt u.(uv_ordered_items) (λ x v, v <| gv_ordered_items := x |>) v in
  let v := set_opt u.(uv_delivery_address) (λ x v, v <| gv_delivery_address := x |>) v in
  let v := set_opt u.(uv_digital_product_data) (λ x v, v <| gv_digital_product_data := x |>) v in
  let v := set_opt (given u.(uv_is_digital_gift_opened)) (λ x v, v <| gv_is_digital_gift_opened := x |>) v in
  let v := set_opt u.(uv_service_id) (λ x v, v <| gv_service_id := x |>) v in
  let v := set_opt u.(uv_service_data) (λ x v, v <| gv_service_data := or_empty x |>) v in
  let v := set_opt u.(uv_branch_id) (λ x v, v <| gv_branch_id := x |>) v in
  let v := set_opt u.(uv_branch_data) (λ x v, v <| gv_branch_data := x |>) v in
  let v := set_opt u.(uv_service_arrangement_id) (λ x v, v <| gv_service_arrangement_id := x |>) v in
  let v := set_opt u.(uv_service_arrangement_data) (λ x v, v <| gv_service_arrangement_data := x |>) v in
  let v := set_opt u.(uv_addons) (λ x v, v <| gv_addons := default [] x |>) v in
  let v := set_opt (given u.(uv_extra_time)) (λ x v, v <| gv_extra_time := x |>) v in
  let v := set_opt u.(uv_price_for_extra_time) (λ x v, v <| gv_price_for_extra_time := x |>) v in
  let v := set_opt (given u.(uv_total_duration)) (λ x v, v <| gv_total_duration := x |>) v in
  let v := set_opt (given u.(uv_total_amount)) (λ x v, v <| gv_total_amount := x |>) v in
  let v := set_opt (given u.(uv_currency)) (λ x v, v <| gv_currency := x |>) v in
  let v := set_opt (given u.(uv_sender_id)) (λ x v, v <| gv_sender_id := x |>) v in
  let v := set_opt u.(uv_sender_data) (λ x v, v <| gv_sender_data := x |>) v in
  let v := set_opt u.(uv_recipient_phone) (λ x v, v <| gv_recipient_phone := x |>) v in
  let v := set_opt u.(uv_recipient_id) (λ x v, v <| gv_recipient_id := x |>) v in
  let v := set_opt u.(uv_recipient_data) (λ x v, v <| gv_recipient_data := x |>) v in
  let v := set_opt u.(uv_gift_message) (λ x v, v <| gv_gift_message := x |>) v in
  let v := set_opt u.(uv_gift_from) (λ x v, v <| gv_gift_from := x |>) v in
  let v := set_opt u.(uv_gift_template) (λ x v, v <| gv_gift_template := x |>) v in
  let v := set_opt (given u.(uv_expire_date)) (λ x v, v <| gv_expire_date := x |>) v in
  let v := set_opt u.(uv_booking_id) (λ x v, v <| gv_booking_id := x |>) v in
  let v := set_opt u.(uv_booking_data) (λ x v, v <| gv_booking_data := x |>) v in
  let v := set_opt u.(uv_payment_id) (λ x v, v <| gv_payment_id := x |>) v in
  let v := set_opt u.(uv_payment_data) (λ x v, v <| gv_payment_data := x |>) v in
  let v := set_opt u.(uv_payment_url) (λ x v, v <| gv_payment_url := x |>) v in
  set_opt u.(uv_redeemed_by) (λ x v, v <| gv_redeemed_by := x |>) v.

(** Null for a column that does not take it: the flush raises
    [IntegrityError]. *)
Definition is_null {A} (o : option (option A)) : bool :=
  match o with Some None => true | _ => false end.
Definition null_column (u : UpdateGiftVoucherRequest) : bool :=
  is_null u.(uv_is_digital_gift_opened) || is_null u.(uv_extra_time) || is_null u.(uv_total_duration) ||
  is_null u.(uv_total_amount) || is_null u.(uv_currency) || is_null u.(uv_sender_id) ||
  is_null u.(uv_expire_date).

Definition update_voucher (voucher_id : Z) (u : UpdateGiftVoucherRequest) (actor_id : option string) : M Store () :=
  voucher ← get_by_id voucher_id;
  let old_status := voucher.(gv_status) in
  u ← match given u.(uv_redemption) with
      | Some r => status ← redeem voucher_id u r; mret (u <| uv_status := Some (Some status) |>)
      | None => mret u
      end;
  target_status ← change_status voucher_id old_status u;
  change_delivery voucher_id u ;;
  upd_voucher voucher_id (set_normalised u) ;;
  upd_voucher voucher_id (set_services u) ;;
  upd_voucher voucher_id (set_remaining u) ;;
  now_ ← gets now;
  append_history voucher_id
    (match target_status with
     | Some t => history "status_updated" (por_str actor_id "staff") now_ (Some old_status) (Some (value t))
     | None => history "details_updated" (por_str actor_id "staff") now_ None None
     end) ;;
  raise_if (null_column u) (err PythonException) ;;
  flush_voucher voucher_id ;;
  match target_status with
  | Some t => when (negb (String.eqb old_status (value t))) (emit_status_event voucher_id t)
  | None => mret ()
  end.

(** ** Deletion *)

Definition delete_voucher (voucher_id : Z) : M Store bool :=
  voucher ← get_by_id voucher_id;
  let current_status := lower (strip voucher.(gv_status)) in
  raise_if ((current_status in? [lower (value ACTIVE); lower (value REDEEMED)]) ||
            negb (current_status in? [lower (value CREATED); lower (value PAYMENT_PENDING); "pending"]))
    (err ValidationError) ;;
  modify (λ s, s <| vouchers := delete voucher_id s.(vouchers) |>) ;;
  mret true.

(** ** The recipient's operations *)

Definition verify_secret_code (public_token secret_code : string) : M Store Z :=
  voucher_id ← get_by_public_token public_token;
  voucher ← get_voucher_row voucher_id;
  raise_if (negb (truthy secret_code) ||
            negb (String.eqb (strip voucher.(gv_secret_code)) (strip secret_code))) (err ValueError) ;;
  mret voucher_id.

(** The identifier is a key or a public token. *)
Definition mark_digital_gift_opened (identifier : Z + string) : M Store Z :=
  found ← gets (λ s,
    match identifier with
    | inl id => match s.(vouchers) !! id with Some _ => Some id | None => None end
    | inr token => find_voucher (λ v, v.(gv_public_token) ==? token) s
    end);
  voucher_id ← some_or_raise found (err NotFoundError);
  voucher ← get_voucher_row voucher_id;
  when (negb voucher.(gv_is_digital_gift_opened))
    (upd_voucher voucher_id (λ v, v <| gv_is_digital_gift_opened := true |>) ;;
     flush_voucher voucher_id) ;;
  mret voucher_id.

(** ** Scheduled delivery *)

Definition DELIVERY_VALIDITY : Z := 60 * us_per_day.

Definition activate_scheduled_voucher (voucher_id : Z) (delivery_result : option jdict) : M Store () :=
  voucher ← get_by_id voucher_id;
  if voucher.(gv_status) in? [value ACTIVE; value REDEEMED] then mret ()
  else if negb (String.eqb voucher.(gv_status) (value SCHEDULED)) then mret ()
  else
    now_utc ← gets now;
    let result := match delivery_result with
                  | Some (x :: d) => x :: d
                  | _ => [("delivered", JBool true); ("activated_at", JInt now_utc); ("source", JStr "scheduler")]
                  end in
    upd_voucher voucher_id (λ v, v <| gv_status := value ACTIVE |> <| gv_delivered_at := Some now_utc |>
      <| gv_expire_date := now_utc + DELIVERY_VALIDITY |> <| gv_delivery_result := Some result |>) ;;
    append_history voucher_id (history "scheduled_delivery_activated" "scheduler" now_utc
      (Some (value SCHEDULED)) (Some (value ACTIVE))) ;;
    flush_voucher voucher_id ;;
    emit_status_event voucher_id ACTIVE.

(** A [datetime]: without a zone, in UTC, or in another zone; a wall clock is
    read as if it were UTC. *)
Inductive PyDatetime := Naive (wall : Z) | Utc (instant : Z) | Zoned (instant : Z).

(** A naive time and a time in UTC are both taken as Kuwait wall clocks. *)
Definition to_kuwait (t : PyDatetime) : Z :=
  match t with
  | Naive wall => wall - kuwait_offset
  | Utc wall => wall - kuwait_offset
  | Zoned instant => instant
  end.

Definition RESCHEDULE_WINDOW : Z := 62 * us_per_day.

Definition reschedule_voucher (voucher_id : Z) (new_scheduled_delivery_at : PyDatetime) (actor_id : option string) : M Store () :=
  voucher ← get_by_id voucher_id;
  raise_if (negb (String.eqb voucher.(gv_status) (value SCHEDULED))) (err ValidationError) ;;
  let dt_kuwait := to_kuwait new_scheduled_delivery_at in
  now_kuwait ← gets now;
  raise_if (dt_kuwait <=? now_kuwait) (err ValidationError) ;;
  raise_if (now_kuwait + RESCHEDULE_WINDOW <? dt_kuwait) (err ValidationError) ;;
  match voucher.(gv_delivery_schedule_name) with
  | Some name =>
      if truthy name then
        arn ← update_voucher_schedule name (uuid_str voucher_id) dt_kuwait;
        upd_voucher voucher_id (λ v, v <| gv_delivery_schedule_arn := Some arn |>)
      else
        na ← create_voucher_schedule (uuid_str voucher_id) dt_kuwait;
        upd_voucher voucher_id (λ v, v <| gv_delivery_schedule_name := Some (fst na) |>
                                       <| gv_delivery_schedule_arn := Some (snd na) |>)
  | None =>
      na ← create_voucher_schedule (uuid_str voucher_id) dt_kuwait;
      upd_voucher voucher_id (λ v, v <| gv_delivery_schedule_name := Some (fst na) |>
                                     <| gv_delivery_schedule_arn := Some (snd na) |>)
  end ;;
  upd_voucher voucher_id (λ v, v <| gv_scheduled_delivery_at := Some dt_kuwait |>
                                 <| gv_reschedule_count := v.(gv_reschedule_count) + 1 |>) ;;
  v ← get_voucher_row voucher_id;
  append_history voucher_id
    (mk_voucher_history "rescheduled" now_kuwait (por_str actor_id "staff") None None
       (Some dt_kuwait) (Some v.(gv_reschedule_count))) ;;
  flush_voucher voucher_id.

(** [repo.list_overdue_scheduled]. *)
Definition is_overdue (now_ : Z) (v : GiftVoucher) : bool :=
  String.eqb v.(gv_status) (value SCHEDULED) &&
  match v.(gv_scheduled_delivery_at) with Some t => t <=? now_ | None => false end.
Definition list_overdue_scheduled (limit : nat) (s : Store) : list Z :=
  take limit (fst <$> sorted_by (λ '(_, v), default 0 v.(gv_scheduled_delivery_at))
                        (List.filter (λ '(_, v), is_overdue s.(now) v) (map_to_list s.(vouchers)))).

(** The loop over the overdue vouchers; the ones that raise are skipped. *)
Fixpoint reconcile_loop (overdue activated_ids : list Z) : M Store (list Z) :=
  match overdue with
  | [] => mret activated_ids
  | voucher_id :: overdue =>
      ok ← try_except
        (now_ ← gets now;
         activate_scheduled_voucher voucher_id
           (Some [("delivered", JBool true); ("activated_at", JInt now_); ("source", JStr "reconciler")]) ;;
         mret true)
        (λ _, true) (λ _, mret false);
      reconcile_loop overdue (if (ok : bool) then activated_ids ++ [voucher_id] else activated_ids)
  end.
Definition reconcile_overdue_scheduled_vouchers (limit : nat) : M Store (list Z) :=
  overdue_vouchers ← gets (list_overdue_scheduled limit);
  reconcile_loop overdue_vouchers [].

(** ** The router's batch operations (app/voucher/api/router.py) *)

(** Each deletion runs in a savepoint. *)
Fixpoint batch_delete_gift_vouchers (voucher_ids : list Z) : M Store (list Z) :=
  match voucher_ids with
  | [] => mret []
  | vid :: voucher_ids =>
      ok ← try_except (in_session (delete_voucher vid)) (λ _, true) (λ _, mret false);
      deleted ← batch_delete_gift_vouchers voucher_ids;
      mret (if (ok : bool) then vid :: deleted else deleted)
  end.

Fixpoint batch_update_voucher_status (voucher_ids : list Z) (new_status : string) (actor_id : option string) : M Store (list Z) :=
  match voucher_ids with
  | [] => mret []
  | vid :: voucher_ids =>
      ok ← try_except (update_status vid new_status (no_args <| st_actor_id := actor_id |>) ;; mret true)
             (λ _, true) (λ _, mret false);
      updated ← batch_update_voucher_status voucher_ids new_status actor_id;
      mret (if (ok : bool) then vid :: updated else updated)
  end.
End service.
End GiftVoucherService.
