(* ===== verification/VoucherLedger.v ===== *)
(** * What a gift voucher is, abstractly

    The contract of the voucher service without its forty columns: a ledger
    that holds, for each voucher, its status and the services already used.
    [VoucherSpec] shows that the service implements it; what holds of every
    run of the ledger is proved here. *)

From S2P Require Import Prelude Exceptions Effects StateMachines.
Import Voucher.

(** One voucher: its status and the services used up. *)
Definition entry : Type := string * list string.
Notation ledger := (gmap Z entry).

Definition status_edge (a b : string) : Prop :=
  ∃ sa sb : GiftVoucherStatus, value sa = a ∧ value sb = b ∧ step sa sb.

(** A voucher moves along the machine, or has services used, none of them
    before, while it may be redeemed. *)
Inductive entry_step : entry → entry → Prop :=
  | entry_moves a b used : status_edge a b → entry_step (a, used) (b, used)
  | entry_used a used new :
      a ∈ [value ACTIVE; value PARTIALLY_REDEEMED] → NoDup new → Forall (λ i, i ∉ used) new →
      entry_step (a, used) (a, used ++ new).

(** A voucher may be dropped while it is not paid for. *)
Definition deletable (status : string) : bool :=
  lower (strip status) in? ["created"; "payment_pending"; "pending"].

Inductive ledger_step : ledger → ledger → Prop :=
  | ledger_opens m id st : m !! id = None → ledger_step m (<[id := (st, [])]> m)
  | ledger_moves m id e e' : m !! id = Some e → entry_step e e' → ledger_step m (<[id := e']> m)
  | ledger_drops m id e : m !! id = Some e → deletable e.1 = true → ledger_step m (delete id m).

(** ** Runs of one entry *)

Lemma entry_steps_path e e' : rtc entry_step e e' → rtc status_edge e.1 e'.1.
Proof.
  induction 1 as [|e1 e2 e3 H _ IH]; [reflexivity|].
  destruct H as [a b used Hab|]; simpl in *; [by eapply rtc_l|done].
Qed.
Lemma entry_steps_grow e e' : rtc entry_step e e' → ∃ l, e'.2 = e.2 ++ l.
Proof.
  induction 1 as [e|e1 e2 e3 H _ [l IH]]; [exists []; by rewrite app_nil_r|].
  destruct H as [|a used new]; simpl in *; [by exists l|]. exists (new ++ l). by rewrite IH, app_assoc.
Qed.
Lemma entry_steps_once e e' : rtc entry_step e e' → NoDup e.2 → NoDup e'.2.
Proof.
  induction 1 as [|e1 e2 e3 H _ IH]; [done|]. intros Hnd. apply IH.
  destruct H as [|a used new _ Hnew Hfresh]; simpl in *; [done|].
  apply NoDup_app. split_and!; [done| |done]. intros i Hu Hi.
  rewrite Forall_forall in Hfresh. by apply (Hfresh i).
Qed.

Lemma edge_from (a : GiftVoucherStatus) b :
  status_edge (value a) b → ∃ t, b = value t ∧ t ∈ transitions a.
Proof.
  intros (sa & sb & Ha & <- & Hstep). apply value_inj in Ha as ->. exists sb.
  split; [done|]. by destruct Hstep.
Qed.

Lemma terminal_path (a : GiftVoucherStatus) b :
  is_terminal a = true → rtc status_edge (value a) b → b = value a.
Proof.
  intros Ha H. inversion H as [|? c ? Hstep _]; subst; [done|].
  apply edge_from in Hstep as (t & _ & Ht). by destruct a; apply elem_of_nil in Ht || done.
Qed.

(** ** Runs of the ledger *)

(** Two ledgers whose entries are related one by one. *)
Definition entries_related (o o' : option entry) : Prop :=
  match o, o' with
  | Some e, Some e' => rtc entry_step e e'
  | Some e, None => deletable e.1 = true
  | None, Some e' => e'.2 = []
  | None, None => True
  end.

(** One entry brought from one ledger to the other. *)
Lemma ledger_steps_entry (m m' : ledger) id :
  entries_related (m !! id) (m' !! id) → rtc ledger_step m (partial_alter (λ _, m' !! id) id m).
Proof.
  destruct (m !! id) as [e|] eqn:Em, (m' !! id) as [e'|] eqn:Em'; simpl; intros H.
  - change (partial_alter (λ _, Some e') id m) with (<[id := e']> m). clear Em'.
    revert m Em. induction H as [e0|e0 e1 e2 H _ IH]; intros m Em; [by rewrite insert_id|].
    eapply rtc_l; [by apply (ledger_moves m id e0 e1)|].
    rewrite <- (insert_insert_eq m id e2 e1). apply IH, lookup_insert_eq.
  - change (partial_alter (λ _, None) id m) with (delete id m). apply rtc_once. by eapply ledger_drops.
  - change (partial_alter (λ _, Some e') id m) with (<[id := e']> m). destruct e' as [st used]. simpl in H.
    subst. by apply rtc_once, ledger_opens.
  - change (partial_alter (λ _, None) id m) with (delete id m). by rewrite delete_id.
Qed.

(** [m] with the entries of [ids] taken from [m']. *)
Definition overlay (m m' : ledger) (ids : list Z) : ledger :=
  foldl (λ acc id, partial_alter (λ _, m' !! id) id acc) m ids.

Lemma overlay_lookup m m' ids j : overlay m m' ids !! j = if j in? ids then m' !! j else m !! j.
Proof.
  revert m; induction ids as [|id ids IH]; intros m; [done|]. cbn [overlay foldl].
  change (foldl _ ?x ids) with (overlay x m' ids). rewrite IH.
  destruct (decide (j ∈ ids)) as [Hin|Hni].
  - by rewrite !bool_decide_eq_true_2 by (try apply list_elem_of_further; done).
  - rewrite (bool_decide_eq_false_2 _ Hni). destruct (decide (j = id)) as [->|Hne].
    + by rewrite lookup_partial_alter_eq, bool_decide_eq_true_2 by apply list_elem_of_here.
    + rewrite lookup_partial_alter_ne by done. rewrite bool_decide_eq_false_2; [done|].
      by intros [?|?]%elem_of_cons.
Qed.

Lemma ledger_steps_overlay (m m' : ledger) ids :
  NoDup ids → (∀ id, entries_related (m !! id) (m' !! id)) → rtc ledger_step m (overlay m m' ids).
Proof.
  intros Hnd Hrel. induction ids as [|id ids IH] using rev_ind; [reflexivity|].
  apply NoDup_app in Hnd as (Hnd & Hni & _).
  unfold overlay. rewrite foldl_app. simpl. fold (overlay m m' ids).
  etransitivity; [by apply IH|]. apply ledger_steps_entry.
  rewrite overlay_lookup, bool_decide_eq_false_2; [apply Hrel|].
  intros Hin. apply (Hni _ Hin), list_elem_of_here.
Qed.

(** Entrywise related ledgers are connected by a run. *)
Lemma ledger_steps_related (m m' : ledger) :
  (∀ id, entries_related (m !! id) (m' !! id)) → rtc ledger_step m m'.
Proof.
  intros Hrel. set (ids := elements (dom m ∪ dom m')).
  assert (overlay m m' ids = m') as Heq.
  { apply map_eq. intros id. rewrite overlay_lookup. destruct (id in? ids) eqn:E; breflect; [done|].
    unfold ids in E. rewrite elem_of_elements, elem_of_union in E.
    rewrite !(proj1 (not_elem_of_dom _ _)); [done|intros H; apply E; by right|intros H; apply E; by left]. }
  rewrite <- Heq. apply ledger_steps_overlay; [apply NoDup_elements|done].
Qed.

(** What every run keeps: no voucher has a service used twice. *)
Definition used_once (m : ledger) : Prop := ∀ id e, m !! id = Some e → NoDup e.2.

Lemma ledger_step_once m m' : ledger_step m m' → used_once m → used_once m'.
Proof.
  intros H Hm id e. destruct H as [m id0 st|m id0 e0 e1 He0 H|m id0 e0].
  - rewrite lookup_insert_Some. intros [[_ <-]|[_ He]]; [constructor|eauto].
  - rewrite lookup_insert_Some. intros [[_ <-]|[_ He]]; [|eauto].
    apply (entry_steps_once e0); [by apply rtc_once|eauto].
  - intros [_ He]%lookup_delete_Some. eauto.
Qed.
Lemma ledger_steps_once m m' : rtc ledger_step m m' → used_once m → used_once m'.
Proof. induction 1; [done|]. eauto using ledger_step_once. Qed.
