(* ===== verification/VoucherSpec.v ===== *)
(** * What the gift voucher service guarantees

    Every operation moves a voucher along the status machine, a gifted service
    is redeemed at most once over every history of operations, a redemption
    does what it says on each branch, and scheduled vouchers are delivered. *)

From S2P Require Import Prelude Exceptions Effects StateMachines Money Numbers Store PyText Attribution.
From S2P Require Import VoucherSnapshot VoucherService VoucherLedger.
Import Voucher GiftVoucherService.
#[local] Open Scope Z_scope.

(** ** What an operation does to one voucher

    [touches id R]: the row [id] changes as [R] allows, nothing else does, the
    events and the calls outside apart. *)
Definition touches (id : Z) (R : relation GiftVoucher) (s s' : Store) : Prop :=
  s'.(now) = s.(now) ∧ s'.(bookings) = s.(bookings) ∧
  (∀ j, j ≠ id → s'.(vouchers) !! j = s.(vouchers) !! j) ∧
  option_Forall2 R (s.(vouchers) !! id) (s'.(vouchers) !! id).

#[export] Instance touches_preorder id R `{!PreOrder R} : PreOrder (touches id R).
Proof.
  split.
  - intros s. unfold touches. split_and!; try reflexivity.
  - intros s1 s2 s3 (Hn & Hb & Ho & Hr) (Hn' & Hb' & Ho' & Hr'). unfold touches. split_and!.
    + congruence.
    + congruence.
    + intros j Hj. rewrite Ho', Ho; done.
    + etransitivity; [exact Hr|exact Hr'].
Qed.

Lemma touches_weaken id (R R' : relation GiftVoucher) s s' :
  (∀ v v', R v v' → R' v v') → touches id R s s' → touches id R' s s'.
Proof.
  intros HR (Hn & Hb & Ho & Hr). unfold touches. split_and!; try done.
  destruct Hr; constructor; auto.
Qed.

Lemma touches_row id R s s' v :
  touches id R s s' → s.(vouchers) !! id = Some v →
  ∃ v', s'.(vouchers) !! id = Some v' ∧ R v v'.
Proof.
  intros (_ & _ & _ & Hr) Hv. rewrite Hv in Hr. inversion Hr as [v0 v' HR E1 E2|]; subst. eauto.
Qed.

(** Assigning to the row. *)
Lemma touches_alter id (R : relation GiftVoucher) f s :
  (∀ v, s.(vouchers) !! id = Some v → R v (f v)) →
  touches id R s (s <| vouchers := alter f id s.(vouchers) |>).
Proof.
  intros HR. unfold touches. simpl. split_and!; try done.
  - intros j Hj. by rewrite lookup_alter_ne.
  - rewrite lookup_alter_eq. destruct (vouchers s !! id) as [v|] eqn:E; simpl; constructor. auto.
Qed.

(** The values of some columns stay. *)
Definition keeps {A} (f : GiftVoucher → A) (v v' : GiftVoucher) : Prop := f v' = f v.
#[export] Instance keeps_preorder {A} (f : GiftVoucher → A) : PreOrder (keeps f).
Proof. split; unfold keeps; [done|]. intros ???. congruence. Qed.

Lemma set_opt_keeps {A B} (f : GiftVoucher → A) (o : option B) g v :
  (∀ a v, f (g a v) = f v) → f (set_opt o g v) = f v.
Proof. intros Hg. destruct o; simpl; auto. Qed.

(** The columns the guarantees are about. *)
Definition core (v : GiftVoucher) : string * list Redemption := (v.(gv_status), v.(gv_redemptions)).

Ltac keep_columns :=
  intros; repeat (etransitivity; [apply set_opt_keeps; reflexivity|]); reflexivity.

Lemma set_normalised_keeps u v : core (set_normalised u v) = core v.
Proof. unfold set_normalised. cbv zeta. keep_columns. Qed.
Lemma set_services_keeps u v : core (set_services u v) = core v.
Proof.
  unfold set_services. cbv zeta. destruct (mirror_legacy_fields _); [|reflexivity].
  by destruct (given (uv_total_duration u)).
Qed.
Lemma set_remaining_keeps u v : core (set_remaining u v) = core v.
Proof. unfold set_remaining. cbv zeta. keep_columns. Qed.
Lemma set_redemption_fields_keeps u t v : core (set_redemption_fields u t v) = core v.
Proof. unfold set_redemption_fields. cbv zeta. keep_columns. Qed.
Lemma set_redeemed_keeps a t v : core (set_redeemed a t v) = core v.
Proof. unfold set_redeemed. cbv zeta. keep_columns. Qed.
Lemma record_payment_keeps a v : core (record_payment a v) = core v.
Proof. unfold record_payment. cbv zeta. keep_columns. Qed.
Lemma set_status_core t a v : core (set_status t a v) = (value t, v.(gv_redemptions)).
Proof. unfold set_status. cbv zeta. keep_columns. Qed.

(** ** The operations that leave the core alone *)

Section leaves.
Context (id : Z) (R : relation GiftVoucher) `{!PreOrder R}.

Lemma changes_upd_voucher f : (∀ v, R v (f v)) → changes (touches id R) (upd_voucher id f).
Proof. intros Hf s. apply touches_alter. auto. Qed.
Lemma changes_publish e : changes (touches id R) (publish e).
Proof. intros s. unfold touches. simpl. split_and!; done. Qed.
Lemma changes_call_out c : changes (touches id R) (call_out c).
Proof. intros s. unfold touches. simpl. split_and!; done. Qed.
Lemma changes_get_voucher_row j : changes (touches id R) (get_voucher_row j).
Proof. intros s. unfold get_voucher_row. destruct (vouchers s !! j); simpl; reflexivity. Qed.
Lemma changes_as_validation {A} (r : result A) : changes (touches id R) (as_validation r).
Proof. intros s. destruct r; simpl; reflexivity. Qed.
Lemma changes_emit st : changes (touches id R) (emit_status_event id st).
Proof. destruct st; simpl; try apply changes_publish; intros s; simpl; reflexivity. Qed.
End leaves.

#[export] Hint Resolve changes_publish changes_call_out changes_get_voucher_row changes_as_validation
  changes_emit : ush.

Lemma attribute_core v : core (attribute v) = core v.
Proof. unfold attribute. by destruct (voucher_attribution _ _). Qed.

Lemma changes_append_history id h : changes (touches id (keeps core)) (append_history id h).
Proof. apply changes_upd_voucher. reflexivity. Qed.
Lemma changes_flush id : changes (touches id (keeps core)) (flush_voucher id).
Proof.
  unfold flush_voucher. change_only. apply changes_upd_voucher. intros v. apply attribute_core.
Qed.
#[export] Hint Resolve changes_append_history changes_flush : ush.

Section scheduler.
Context (schedule_answer : list OutboundCall → OutboundCall → result string).

Lemma changes_call_scheduler id c :
  changes (touches id (keeps core)) (call_scheduler schedule_answer c).
Proof. unfold call_scheduler. change_only. Qed.
Hint Resolve changes_call_scheduler : ush.

Lemma changes_best_effort id m :
  changes (touches id (keeps core)) m → changes (touches id (keeps core)) (best_effort m).
Proof. intros Hm. unfold best_effort. change_only. Qed.

Lemma changes_create_schedule id n t :
  changes (touches id (keeps core)) (create_voucher_schedule schedule_answer n t).
Proof. unfold create_voucher_schedule. cbv zeta. change_only. Qed.
Hint Resolve changes_create_schedule : ush.

Lemma changes_schedule_delivery id :
  changes (touches id (keeps core)) (schedule_delivery schedule_answer id).
Proof.
  unfold schedule_delivery. change_only. apply changes_best_effort. change_only.
  apply changes_upd_voucher. reflexivity.
Qed.
Lemma changes_cancel_delivery id :
  changes (touches id (keeps core)) (cancel_delivery schedule_answer id).
Proof.
  unfold cancel_delivery. change_only. apply changes_best_effort.
  unfold delete_voucher_schedule. change_only.
Qed.
Hint Resolve changes_schedule_delivery changes_cancel_delivery : ush.

(** ** Evolution of a row: its status moves along the machine, and redemptions
    are only added, of services not used before. *)

Definition redeemed_ids (v : GiftVoucher) : list string :=
  us_service_id <$> (v.(gv_redemptions) ≫= rd_services).

(** The voucher's entry in the ledger. *)
Definition entry_of (v : GiftVoucher) : entry := (v.(gv_status), redeemed_ids v).

Definition evolves (v v' : GiftVoucher) : Prop :=
  rtc entry_step (entry_of v) (entry_of v') ∧ ∃ l, v'.(gv_redemptions) = v.(gv_redemptions) ++ l.

#[local] Instance evolves_preorder : PreOrder evolves.
Proof.
  split.
  - intros v. split; [reflexivity|exists []; by rewrite app_nil_r].
  - intros v1 v2 v3 (H1 & [l1 E1]) (H2 & [l2 E2]). split; [etransitivity; eassumption|].
    exists (l1 ++ l2). by rewrite E2, E1, app_assoc.
Qed.

Lemma keeps_core_evolves v v' : keeps core v v' → evolves v v'.
Proof.
  unfold keeps, core. intros E. injection E as E1 E2. split.
  - unfold entry_of, redeemed_ids. by rewrite E1, E2.
  - exists []. by rewrite app_nil_r.
Qed.

Lemma changes_core_evolves {A} id (m : M Store A) :
  changes (touches id (keeps core)) m → changes (touches id evolves) m.
Proof. intros Hm s. eapply touches_weaken, Hm. apply keeps_core_evolves. Qed.

(** A transition the machine accepts is an edge, or no move. *)
Lemma validate_edge (a b : GiftVoucherStatus) :
  validate_transition a b = Ok () → a = b ∨ step a b.
Proof.
  unfold validate_transition. case_if; [by left|]. case_if; [done|]. intros _. right. by constructor.
Qed.

(** One step of an operation known to have moved the row as [R] so far. *)
Lemma wp_touches {A} id R `{!PreOrder R} (m : M Store A) s0 s :
  changes (touches id R) m → touches id R s0 s → wp m s (λ _ s', touches id R s0 s').
Proof. intros Hm Hs. unfold wp. etransitivity; [exact Hs|apply Hm]. Qed.

(** The start of the operations. *)
Lemma wp_get_by_id id s (Q : result GiftVoucher → Store → Prop) :
  (∀ v, s.(vouchers) !! id = Some v → Q (Ok v) s) →
  (s.(vouchers) !! id = None → Q (Raise (err NotFoundError)) s) →
  wp (get_by_id id) s Q.
Proof.
  intros H1 H2. unfold get_by_id. apply wp_bind, wp_gets, wp_some_or_raise; auto.
Qed.
Lemma wp_as_validation {A} (r : result A) s (Q : result A → Store → Prop) :
  (∀ a, r = Ok a → Q (Ok a) s) → (∀ e, r = Raise e → Q (Raise (err ValidationError)) s) →
  wp (as_validation r) s Q.
Proof. destruct r; intros H1 H2; [by apply H1|by eapply H2]. Qed.

Lemma as_validation_run {A} (a : A) s : as_validation (Ok a) s = (Ok a, s).
Proof. reflexivity. Qed.

Ltac voucher_step :=
  first
  [ lazymatch goal with
    | |- wp (get_by_id _) _ _ =>
        let H := fresh "Hv" in apply wp_get_by_id; [intros ? H|intros H]; cbn beta iota; [|reflexivity]
    | |- wp (as_validation _) _ _ =>
        let H := fresh "Hr" in apply wp_as_validation; [intros ? H|intros ? H]; cbn beta iota; [|reflexivity]
    end
  | wp_step ].

(** The rest of an operation that keeps the core. *)
Ltac finish_core :=
  apply wp_touches; [apply _|apply changes_core_evolves; change_only|].

Lemma value_of_ok s (a : GiftVoucherStatus) : of_value s = Ok a → s = value a.
Proof. intros H. by apply of_value_ok in H. Qed.

(** A row moved from one status to another, or left there. *)
Lemma move_evolves v v' (c t : GiftVoucherStatus) :
  v.(gv_status) = value c → c = t ∨ step c t → core v' = (value t, v.(gv_redemptions)) → evolves v v'.
Proof.
  intros Hc Hedge E. injection E as Es Er. split.
  - unfold entry_of, redeemed_ids. rewrite Hc, Es, Er. destruct Hedge as [->|Hstep]; [reflexivity|].
    apply rtc_once, entry_moves. by exists c, t.
  - exists []. by rewrite app_nil_r.
Qed.

Lemma update_status_evolves id st a s :
  wp (update_status schedule_answer id st a) s (λ _ s', touches id evolves s s').
Proof.
  unfold update_status. do 6 voucher_step. cbv zeta. do 2 voucher_step.
  apply wp_bind, wp_modify. cbn beta iota.
  match goal with H : validate_transition _ _ = Ok ?u |- _ => destruct u; apply validate_edge in H end.
  finish_core.
  all: try (apply changes_upd_voucher; intros; first [apply record_payment_keeps|apply set_redeemed_keeps]).
  - apply touches_alter. intros v' Hv'. simplify_eq.
    eapply move_evolves; [by apply value_of_ok|eassumption|apply set_status_core].
Qed.

Lemma update_delivery_evolves id st s :
  wp (update_delivery_status id st) s (λ _ s', touches id evolves s s').
Proof.
  unfold update_delivery_status. do 4 voucher_step. finish_core.
  - unfold delivery_check. change_only.
  - apply changes_upd_voucher. reflexivity.
  - reflexivity.
Qed.

Lemma activate_evolves id d s :
  wp (activate_scheduled_voucher id d) s (λ _ s', touches id evolves s s').
Proof.
  unfold activate_scheduled_voucher. do 2 voucher_step. case_if; [apply wp_ret; reflexivity|].
  case_if; [apply wp_ret; reflexivity|]. do 2 voucher_step. cbv zeta.
  apply wp_bind, wp_modify. cbn beta iota. finish_core.
  apply touches_alter. intros v' Hv'. simplify_eq.
  apply (move_evolves _ _ SCHEDULED ACTIVE); [done|right; constructor|reflexivity].
  by apply (bool_decide_unpack _).
Qed.

Lemma reschedule_evolves id t actor s :
  wp (reschedule_voucher schedule_answer id t actor) s (λ _ s', touches id evolves s s').
Proof.
  unfold reschedule_voucher. do 2 voucher_step. finish_core.
  all: try (unfold update_voucher_schedule; change_only).
  all: first [apply changes_upd_voucher; reflexivity|reflexivity].
Qed.

(** ** Redemptions *)

(** What the items of a redemption must be. *)
Definition items_ok (all_ids already_used new_ids : list string) (items : list RedemptionItem) : Prop :=
  Forall (λ i, i ∈ all_ids ∧ (i ∉ already_used) ∧ (i ∉ new_ids)) (ri_service_id <$> items) ∧
  NoDup (ri_service_id <$> items).

#[local] Instance items_ok_dec all_ids already_used new_ids items :
  Decision (items_ok all_ids already_used new_ids items).
Proof. unfold items_ok. apply _. Defined.

Lemma redeem_items_spec all_ids already_used new_ids items :
  (items_ok all_ids already_used new_ids items →
     redeem_items all_ids already_used new_ids items = Ok (new_ids ++ (ri_service_id <$> items))) ∧
  (¬ items_ok all_ids already_used new_ids items →
     redeem_items all_ids already_used new_ids items = Raise (err ValidationError)).
Proof.
  revert new_ids; induction items as [|item items IH]; intros new_ids; simpl.
  { split; [by rewrite app_nil_r|]. intros []. by repeat constructor. }
  assert (items_ok all_ids already_used new_ids (item :: items) ↔
    item.(ri_service_id) ∈ all_ids ∧ (item.(ri_service_id) ∉ already_used) ∧
    (item.(ri_service_id) ∉ new_ids) ∧
    items_ok all_ids already_used (new_ids ++ [item.(ri_service_id)]) items) as Hcons.
  { unfold items_ok. cbn [fmap list_fmap]. rewrite Forall_cons, NoDup_cons, !Forall_forall. split.
    - intros (((Ha & Hu & Hn) & Hall) & Hni & Hnd). split_and!; try done. intros j Hj.
      destruct (Hall j Hj) as (? & ? & ?). split_and!; try done.
      rewrite elem_of_app, list_elem_of_singleton. intros [?| ->]; done.
    - intros (Ha & Hu & Hn & Hall & Hnd). split_and!; try done.
      + intros j Hj. destruct (Hall j Hj) as (? & ? & Hj'). split_and!; try done.
        intros Hn'. apply Hj', elem_of_app. by left.
      + intros Hin. destruct (Hall _ Hin) as (_ & _ & Hj'). apply Hj', elem_of_app. right.
        apply list_elem_of_here. }
  destruct (IH (new_ids ++ [item.(ri_service_id)])) as [IH1 IH2].
  destruct (item.(ri_service_id) in? all_ids) eqn:Ea; breflect; simpl;
    [|split; [intros [H _]%Hcons; done|done]].
  destruct (item.(ri_service_id) in? already_used) eqn:Eu; breflect; simpl;
    [split; [intros (_ & H & _)%Hcons; done|done]|].
  destruct (item.(ri_service_id) in? new_ids) eqn:En; breflect; simpl;
    [split; [intros (_ & _ & H & _)%Hcons; done|done]|].
  rewrite Hcons. split.
  - intros (_ & _ & _ & H). rewrite IH1 by done. by rewrite <- app_assoc.
  - intros H. apply IH2. intros Hok. by apply H.
Qed.

(** Gifted identifiers are not blank, so the blank test of the source does not
    hide a used one. *)
Lemma used_redeemed i v : i ∈ redeemed_ids v → truthy i = true → i ∈ used_service_ids v.
Proof. intros Hi Ht. apply elem_of_filter_list. done. Qed.
Lemma used_in_redeemed i v : i ∈ used_service_ids v → i ∈ redeemed_ids v.
Proof. intros [Hi _]%elem_of_filter_list. done. Qed.
Lemma entry_ids_truthy i l : i ∈ entry_ids l → truthy i = true.
Proof. by intros [_ Hi]%elem_of_filter_list. Qed.

Lemma redeemed_ids_app v v' rd :
  v'.(gv_redemptions) = v.(gv_redemptions) ++ [rd] →
  redeemed_ids v' = redeemed_ids v ++ (us_service_id <$> rd.(rd_services)).
Proof. intros E. unfold redeemed_ids. rewrite E, bind_app, fmap_app. simpl. by rewrite app_nil_r. Qed.

Lemma redemption_ids u r t :
  us_service_id <$> (redemption_record u r t).(rd_services) = ri_service_id <$> r.(rq_services).
Proof. simpl. rewrite <- list_fmap_compose. by apply list_fmap_ext. Qed.


(** A redemption the voucher admits. *)
Definition redeemable (v : GiftVoucher) (r : RedemptionRequest) : Prop :=
  v.(gv_status) ∈ [value ACTIVE; value PARTIALLY_REDEEMED] ∧ r.(rq_services) ≠ [] ∧
  items_ok (entry_ids (voucher_services_of v)) (used_service_ids v) [] r.(rq_services).

(** Adding a redemption the voucher admits. *)
Lemma redemption_evolves v v' u r t :
  redeemable v r →
  core v' = (v.(gv_status), v.(gv_redemptions) ++ [redemption_record u r t]) → evolves v v'.
Proof.
  intros (Hst & _ & Hall & Hnd) E. injection E as Es Er. split; [|by eexists].
  unfold entry_of. rewrite Es, (redeemed_ids_app _ _ _ Er), redemption_ids.
  apply rtc_once, entry_used; [done|done|]. apply Forall_forall. intros i Hin Hi.
  rewrite Forall_forall in Hall. destruct (Hall i Hin) as (Ha & Hu & _).
  apply Hu, used_redeemed; [done|]. by eapply entry_ids_truthy.
Qed.

(** The status it derives, and the row it leaves. *)
Definition derived_status (v : GiftVoucher) (r : RedemptionRequest) : GiftVoucherStatus :=
  if forallb (λ i, i in? (used_service_ids v ++ (ri_service_id <$> r.(rq_services))))
       (entry_ids (voucher_services_of v))
  then REDEEMED else PARTIALLY_REDEEMED.
Definition redeemed_row (u : UpdateGiftVoucherRequest) (r : RedemptionRequest) (t : Z) (v : GiftVoucher) : GiftVoucher :=
  set_redemption_fields u t (v <| gv_redemptions := v.(gv_redemptions) ++ [redemption_record u r t] |>).

#[local] Instance redeemable_dec v r : Decision (redeemable v r).
Proof. unfold redeemable. apply _. Defined.

Lemma redeem_run id u r s v :
  s.(vouchers) !! id = Some v →
  (redeemable v r → redeem id u r s =
     (Ok (value (derived_status v r)), s <| vouchers := alter (redeemed_row u r s.(now)) id s.(vouchers) |>)) ∧
  (¬ redeemable v r → redeem id u r s = (Raise (err ValidationError), s)).
Proof.
  intros Hv.
  destruct (redeem_items_spec (entry_ids (voucher_services_of v)) (used_service_ids v) [] r.(rq_services))
    as [Hok Hko].
  unfold redeem, redeemable, derived_status. row_runs. unfold lift. split.
  - intros (Hs & Hne & Hitems). rewrite (bool_decide_eq_true_2 _ Hs), Hok by done. simpl.
    destruct r.(rq_services) as [|x l]; [done|]. simpl. row_runs. by destruct (forallb _ _).
  - intros Hnot. destruct (v.(gv_status) in? _) eqn:E; breflect; simpl; [|done].
    destruct (decide (items_ok (entry_ids (voucher_services_of v)) (used_service_ids v) [] r.(rq_services)))
      as [Hi|Hi]; [|by rewrite Hko].
    rewrite Hok by done. destruct r.(rq_services) as [|x l]; simpl; [by row_runs|]. by destruct Hnot.
Qed.

(** ** [update_voucher], step by step *)

Lemma redeemed_row_core u r t v :
  core (redeemed_row u r t v) = (v.(gv_status), v.(gv_redemptions) ++ [redemption_record u r t]).
Proof. unfold redeemed_row. by rewrite set_redemption_fields_keeps. Qed.

(** Step 0, whatever it was asked: the row evolves at its status. *)
Lemma redemption_step id u s v :
  s.(vouchers) !! id = Some v →
  wp (match given u.(uv_redemption) with
      | Some r => status ← redeem id u r; mret (u <| uv_status := Some (Some status) |>)
      | None => mret u
      end) s
    (λ _ s', ∃ v', s'.(vouchers) !! id = Some v' ∧ v'.(gv_status) = v.(gv_status) ∧ touches id evolves s s').
Proof.
  intros Hv. destruct (given (uv_redemption u)) as [r|].
  2:{ apply wp_ret. exists v. split_and!; [done|done|reflexivity]. }
  destruct (redeem_run id u r s v Hv) as [Hyes Hno].
  apply wp_bind. destruct (decide (redeemable v r)) as [Hr|Hr].
  - eapply wp_of_run; [by apply Hyes|]. cbn beta iota. apply wp_ret.
    exists (redeemed_row u r s.(now) v). simpl. rewrite lookup_alter_eq, Hv.
    pose proof (redeemed_row_core u r s.(now) v) as E. split_and!; [done|by injection E|].
    apply touches_alter. intros v' Hv'. simplify_eq. by eapply redemption_evolves.
  - eapply wp_of_run; [by apply Hno|]. cbn beta iota.
    exists v. split_and!; [done|done|reflexivity].
Qed.

(** Step 1. *)
Lemma change_status_step id u s v old :
  s.(vouchers) !! id = Some v → old = v.(gv_status) →
  wp (change_status id old u) s (λ _ s', touches id evolves s s').
Proof.
  intros Hv ->. unfold change_status. destruct (given (uv_status u)) as [new|]; [|apply wp_ret; reflexivity].
  case_if; [apply wp_ret; reflexivity|]. do 6 voucher_step.
  match goal with H : validate_transition _ _ = Ok ?u |- _ => destruct u; apply validate_edge in H end.
  do 2 voucher_step. apply wp_bind, wp_modify. cbn beta iota. apply wp_ret.
  apply touches_alter. intros v' Hv'. simplify_eq. eapply move_evolves; [by apply value_of_ok|eassumption|].
  cbv zeta. destruct a0; try reflexivity.
  - keep_columns.
  - by rewrite set_redemption_fields_keeps.
Qed.

(** Step 2. *)
Lemma change_delivery_core id u : changes (touches id (keeps core)) (change_delivery id u).
Proof.
  unfold change_delivery, delivery_check. change_only. apply changes_upd_voucher. reflexivity.
Qed.
#[local] Hint Resolve change_delivery_core : ush.

Lemma wp_bind_mono {A B} (m : M Store A) (k : A → M Store B) s (P : result A → Store → Prop) Q :
  wp m s P → (∀ a s1, P (Ok a) s1 → wp (k a) s1 Q) → (∀ e s1, P (Raise e) s1 → Q (Raise e) s1) →
  wp (m ≫= k) s Q.
Proof.
  unfold wp, mbind, M_bind. intros HP Hk Hr. destruct (m s) as [[a|e] s1]; simpl in *; auto.
Qed.

Lemma update_voucher_evolves id u actor s :
  wp (update_voucher id u actor) s (λ _ s', touches id evolves s s').
Proof.
  unfold update_voucher. do 2 voucher_step. cbv zeta.
  eapply wp_bind_mono; [by apply redemption_step| |by intros e s1 (v' & _ & _ & H)].
  intros u' s1 (v' & Hv' & Hst & H1). cbn beta.
  eapply wp_bind_mono; [eapply change_status_step; [exact Hv'|by rewrite Hst]| |].
  - intros t s2 H2. cbn beta in H2. finish_core.
    1-3: apply changes_upd_voucher; intros; first
      [apply set_normalised_keeps|apply set_services_keeps|apply set_remaining_keeps].
    etransitivity; eassumption.
  - intros e s2 H2. cbn beta in H2. etransitivity; eassumption.
Qed.

(** ** Every operation, and histories of them *)

Context (GIFT_VOUCHER_EXPIRE_DAYS : Z).

Inductive VoucherOp :=
  | Create (a : NewVoucher)
  | UpdateStatus (id : Z) (new_status : string) (a : StatusArgs)
  | UpdateDeliveryStatus (id : Z) (new_status : string)
  | UpdateVoucher (id : Z) (u : UpdateGiftVoucherRequest) (actor_id : option string)
  | DeleteVoucher (id : Z)
  | MarkOpened (identifier : Z + string)
  | Activate (id : Z) (delivery_result : option jdict)
  | Reschedule (id : Z) (t : PyDatetime) (actor_id : option string)
  | Reconcile (limit : nat)
  | BatchDelete (ids : list Z)
  | BatchUpdateStatus (ids : list Z) (new_status : string) (actor_id : option string)
  | TimePasses (us : Z).

Definition handle (op : VoucherOp) : M Store () :=
  match op with
  | Create a => create_voucher schedule_answer GIFT_VOUCHER_EXPIRE_DAYS a ;; mret ()
  | UpdateStatus id st a => update_status schedule_answer id st a
  | UpdateDeliveryStatus id st => update_delivery_status id st
  | UpdateVoucher id u actor => update_voucher id u actor
  | DeleteVoucher id => delete_voucher id ;; mret ()
  | MarkOpened i => mark_digital_gift_opened i ;; mret ()
  | Activate id d => activate_scheduled_voucher id d
  | Reschedule id t actor => reschedule_voucher schedule_answer id t actor
  | Reconcile limit => reconcile_overdue_scheduled_vouchers limit ;; mret ()
  | BatchDelete ids => batch_delete_gift_vouchers ids ;; mret ()
  | BatchUpdateStatus ids st actor => batch_update_voucher_status schedule_answer ids st actor ;; mret ()
  | TimePasses us => modify (λ s, s <| now := s.(now) + Z.max us 0 |>)
  end.

(** A request runs in a session of its own. *)
Definition perform (op : VoucherOp) (s : Store) : Store := (in_session (handle op) s).2.
Definition history_of (ops : list VoucherOp) (s : Store) : Store := foldl (λ s op, perform op s) s ops.

(** The rows before and after an operation. *)
Definition row_evolves (o o' : option GiftVoucher) : Prop :=
  match o, o' with
  | Some v, Some v' => evolves v v'
  | Some v, None => deletable v.(gv_status) = true
  | None, Some v' => v'.(gv_redemptions) = []
  | None, None => True
  end.
Definition rows_evolve (s s' : Store) : Prop :=
  ∀ id, row_evolves (s.(vouchers) !! id) (s'.(vouchers) !! id).

Definition rows_by (R : relation GiftVoucher) (s s' : Store) : Prop :=
  ∀ id, option_Forall2 R (s.(vouchers) !! id) (s'.(vouchers) !! id).
#[local] Instance rows_by_preorder R `{!PreOrder R} : PreOrder (rows_by R).
Proof.
  split; [intros s id; reflexivity|]. intros s1 s2 s3 H1 H2 id. etransitivity; [apply H1|apply H2].
Qed.

Lemma touches_rows_by id R `{!Reflexive R} s s' : touches id R s s' → rows_by R s s'.
Proof.
  intros (_ & _ & Ho & Hr) j. destruct (decide (j = id)) as [->|Hj]; [done|].
  rewrite Ho by done. reflexivity.
Qed.

Lemma rows_by_evolve s s' : rows_by evolves s s' → rows_evolve s s'.
Proof. intros H id. specialize (H id). unfold row_evolves. by destruct H. Qed.
Lemma touches_rows id s s' : touches id evolves s s' → rows_by evolves s s'.
Proof. intros H. eapply touches_rows_by; [apply _|exact H]. Qed.
Lemma touches_evolve id s s' : touches id evolves s s' → rows_evolve s s'.
Proof. intros H. by eapply rows_by_evolve, touches_rows. Qed.

Lemma rows_evolve_same s s' : s'.(vouchers) = s.(vouchers) → rows_evolve s s'.
Proof. intros E id. rewrite E. destruct (_ !! _); simpl; [reflexivity|done]. Qed.

Lemma in_session_evolves {A} (m : M Store A) s :
  wp m s (λ _ s', rows_evolve s s') → wp (in_session m) s (λ _ s', rows_evolve s s').
Proof.
  unfold wp, in_session. destruct (m s) as [[a|e] s']; simpl; [done|]. intros _.
  by apply rows_evolve_same.
Qed.

(** Deletions. *)
Definition only_deletes (s s' : Store) : Prop :=
  ∀ id, s'.(vouchers) !! id = s.(vouchers) !! id ∨
    ∃ v, s.(vouchers) !! id = Some v ∧ s'.(vouchers) !! id = None ∧ deletable v.(gv_status) = true.
#[local] Instance only_deletes_preorder : PreOrder only_deletes.
Proof.
  split; [by left|]. intros s1 s2 s3 H1 H2 id.
  destruct (H2 id) as [E2|(v & E & E2 & Hd)], (H1 id) as [E1|(v' & E' & E1 & Hd')].
  - left. congruence.
  - right. exists v'. split_and!; congruence.
  - right. exists v. split_and!; congruence.
  - congruence.
Qed.
Lemma only_deletes_evolve s s' : only_deletes s s' → rows_evolve s s'.
Proof.
  intros H id. destruct (H id) as [->|(v & -> & -> & Hd)]; [|done].
  destruct (_ !! _); simpl; [reflexivity|done].
Qed.

Lemma delete_voucher_deletes id s :
  wp (delete_voucher id) s (λ _ s', only_deletes s s').
Proof.
  unfold delete_voucher. do 2 voucher_step. cbv zeta. do 2 wp_step; [reflexivity|].
  apply wp_bind, wp_modify. cbn beta iota. apply wp_ret. intros j. simpl.
  destruct (decide (j = id)) as [->|Hj]; [|left; by rewrite lookup_delete_ne].
  right. exists v. split_and!; [done|by rewrite lookup_delete_eq|].
  unfold deletable. apply bool_decide_eq_true. assumption.
Qed.

Lemma batch_delete_deletes ids s : wp (batch_delete_gift_vouchers ids) s (λ _ s', only_deletes s s').
Proof.
  revert s; induction ids as [|id ids IH]; intros s; simpl; [apply wp_ret; reflexivity|].
  eapply (wp_bind_mono _ _ _ (λ _ s', only_deletes s s')).
  - apply wp_try. pose proof (delete_voucher_deletes id s) as H. unfold wp, in_session in *.
    destruct (delete_voucher id s) as [[a|e] s1]; simpl in *; [done|by left].
  - intros ok s1 H1. eapply (wp_bind_mono _ _ _ (λ _ s', only_deletes s s')).
    + eapply wp_mono; [apply IH|]. intros r s2 H2. etransitivity; eassumption.
    + intros l s2 H2. by apply wp_ret.
    + done.
  - done.
Qed.

Lemma batch_update_evolves ids st actor s :
  wp (batch_update_voucher_status schedule_answer ids st actor) s (λ _ s', rows_by evolves s s').
Proof.
  revert s; induction ids as [|id ids IH]; intros s; simpl; [apply wp_ret; reflexivity|].
  eapply (wp_bind_mono _ _ _ (λ _ s', rows_by evolves s s')).
  - apply wp_try. eapply (wp_bind_mono _ _ _ (λ _ s', rows_by evolves s s')).
    + eapply wp_mono; [apply update_status_evolves|]. intros r s1. apply touches_rows.
    + intros [] s1 H1. by apply wp_ret.
    + intros e s1 H1. by apply wp_ret.
  - intros ok s1 H1. eapply (wp_bind_mono _ _ _ (λ _ s', rows_by evolves s s')).
    + eapply wp_mono; [apply IH|]. intros r s2 H2. etransitivity; eassumption.
    + intros l s2 H2. by apply wp_ret.
    + done.
  - done.
Qed.

Lemma reconcile_loop_evolves overdue acc s :
  wp (reconcile_loop overdue acc) s (λ _ s', rows_by evolves s s').
Proof.
  revert acc s; induction overdue as [|id overdue IH]; intros acc s; simpl; [apply wp_ret; reflexivity|].
  eapply (wp_bind_mono _ _ _ (λ _ s', rows_by evolves s s')).
  - apply wp_try, wp_bind, wp_gets. cbn beta iota.
    eapply (wp_bind_mono _ _ _ (λ _ s', rows_by evolves s s')).
    + eapply wp_mono; [apply activate_evolves|]. intros r s1. apply touches_rows.
    + intros [] s1 H1. by apply wp_ret.
    + intros e s1 H1. by apply wp_ret.
  - intros ok s1 H1. eapply wp_mono; [apply IH|]. intros r s2 H2. etransitivity; eassumption.
  - done.
Qed.

Lemma mark_opened_evolves i s :
  wp (mark_digital_gift_opened i) s (λ _ s', rows_evolve s s').
Proof.
  unfold mark_digital_gift_opened. do 4 wp_step; [|by apply rows_evolve_same].
  match goal with |- wp (_ ≫= λ _, _ (when _ (upd_voucher ?id _ ;; _)) _) _ _ => idtac id | _ => idtac end.
  eapply wp_mono; [apply (wp_touches a evolves _ s)|intros r s'; apply touches_evolve].
  - apply changes_core_evolves. change_only. apply changes_upd_voucher. reflexivity.
  - reflexivity.
Qed.

(** The schedule of a new voucher writes no row. *)
Definition same_rows (s s' : Store) : Prop := s'.(vouchers) = s.(vouchers).
#[local] Instance same_rows_preorder : PreOrder same_rows.
Proof. split; unfold same_rows; [done|]. intros ???. congruence. Qed.

Lemma changes_schedule_rows n t : changes same_rows (create_voucher_schedule schedule_answer n t).
Proof. unfold create_voucher_schedule, call_scheduler. cbv zeta. change_only. intros s. reflexivity. Qed.
#[local] Hint Resolve changes_schedule_rows : ush.

Lemma insert_evolves id v s s' :
  s.(vouchers) !! id = None → v.(gv_redemptions) = [] →
  touches id (keeps core) (s <| vouchers := <[id := v]> s.(vouchers) |>) s' → rows_evolve s s'.
Proof.
  intros Hid Hv (_ & _ & Ho & Hr) j. simpl in *. destruct (decide (j = id)) as [->|Hj].
  - rewrite Hid. rewrite lookup_insert_eq in Hr. inversion Hr as [v0 v' HR E1 E2|]; subst. simpl.
    unfold keeps, core in HR. injection HR as _ ->. exact Hv.
  - rewrite Ho, lookup_insert_ne by done. destruct (_ !! j); simpl; [reflexivity|done].
Qed.

Lemma create_evolves a s :
  wp (create_voucher schedule_answer GIFT_VOUCHER_EXPIRE_DAYS a) s (λ _ s', rows_evolve s s').
Proof.
  unfold create_voucher. do 2 wp_step; [by apply rows_evolve_same|]. do 2 wp_step. cbv zeta.
  eapply wp_bind_mono.
  { eapply (wp_changes same_rows); [|intros r s1 H1; exact H1]. change_only. }
  2:{ intros e s1. apply rows_evolve_same. }
  intros schedule s1 H1. cbn beta in H1. do 2 wp_step. cbv zeta. do 2 wp_step; [by apply rows_evolve_same|].
  apply wp_bind, wp_modify. cbn beta iota.
  eapply (wp_changes (touches (new_id (vouchers s1)) (keeps core))).
  - change_only.
  - intros r s2 H2. unfold same_rows in H1.
    apply (insert_evolves _ _ s1 s2 (new_id_fresh _)) in H2; [|reflexivity].
    intros j. rewrite <- H1. apply H2.
Qed.

(** ** The two guarantees over every operation *)

Lemma handle_evolves op s : wp (in_session (handle op)) s (λ _ s', rows_evolve s s').
Proof.
  apply in_session_evolves. destruct op; simpl.
  all: try (eapply wp_mono; [|intros r s'; apply touches_evolve];
            first [apply update_status_evolves|apply update_delivery_evolves|apply update_voucher_evolves
                  |apply activate_evolves|apply reschedule_evolves]).
  all: try (eapply wp_bind_mono;
            [first [apply create_evolves|apply delete_voucher_deletes|apply mark_opened_evolves
                   |apply batch_delete_deletes|apply batch_update_evolves]
            |intros ? s1 H1; apply wp_ret|intros ? s1 H1]; cbn beta in H1;
            first [exact H1|by apply only_deletes_evolve|by apply rows_by_evolve]).
  - unfold reconcile_overdue_scheduled_vouchers. do 3 wp_step.
    eapply wp_mono; [apply reconcile_loop_evolves|]. intros [l|e] s1 H1; [apply wp_ret|];
      by apply rows_by_evolve.
  - apply wp_modify. by apply rows_evolve_same.
Qed.

Lemma perform_evolves op s : rows_evolve s (perform op s).
Proof. apply handle_evolves. Qed.

Definition redeemed_once (s : Store) : Prop :=
  ∀ id v, s.(vouchers) !! id = Some v → NoDup (redeemed_ids v).

(** The ledger a store holds. *)
Definition ledger_of (s : Store) : ledger := entry_of <$> s.(vouchers).

Lemma ledger_of_lookup s id : ledger_of s !! id = entry_of <$> s.(vouchers) !! id.
Proof. apply lookup_fmap. Qed.

Lemma perform_refines op s : rtc ledger_step (ledger_of s) (ledger_of (perform op s)).
Proof.
  apply ledger_steps_related. intros id. rewrite !ledger_of_lookup.
  pose proof (perform_evolves op s id) as H. unfold row_evolves in H.
  destruct (vouchers s !! id) as [v|], (vouchers (perform op s) !! id) as [v'|]; simpl; try done.
  - apply H.
  - unfold redeemed_ids. by rewrite H.
Qed.

Lemma history_refines ops s : rtc ledger_step (ledger_of s) (ledger_of (history_of ops s)).
Proof.
  revert s; induction ops as [|op ops IH]; intros s; [reflexivity|].
  etransitivity; [apply perform_refines|]. apply IH.
Qed.

(** C9: the voucher service implements the ledger: over every history of
    requests (creations, updates, status changes, redemptions, deletions,
    deliveries, batches), in any order and whether they succeed or fail, the
    ledger of the store, which keeps only the status of each voucher and the
    services it has used, goes through steps of the abstract ledger: opening a
    voucher, moving it along the machine, using services not used before while
    it is active or partially redeemed, dropping one that is not paid for. *)
Theorem service_refines_ledger ops s : rtc ledger_step (ledger_of s) (ledger_of (history_of ops s)).
Proof.
  apply history_refines.
Qed.

Lemma used_once_ledger s : redeemed_once s ↔ used_once (ledger_of s).
Proof.
  split.
  - intros Hs id e. rewrite ledger_of_lookup, fmap_Some. intros (v & Hv & ->). by apply (Hs id).
  - intros Hm id v Hv. apply (Hm id (entry_of v)). by rewrite ledger_of_lookup, Hv.
Qed.

(** C10: over every history of requests to the voucher service, no service of a
    voucher is redeemed twice: the identifiers in all the redemption records of
    a voucher are distinct. *)
Theorem services_redeemed_at_most_once ops s id v :
  redeemed_once s → (history_of ops s).(vouchers) !! id = Some v → NoDup (redeemed_ids v).
Proof.
  rewrite used_once_ledger. intros Hs. revert id v. change (redeemed_once (history_of ops s)).
  rewrite used_once_ledger. exact (ledger_steps_once _ _ (history_refines ops s) Hs).
Qed.

(** An operation of the voucher service takes an existing voucher along
    the edges of the status machine (or leaves it where it is), keeps the
    redemptions recorded so far, and removes it only when it was never paid
    for: of the statuses of the machine, created and payment_pending. *)
Theorem voucher_follows_machine op s id v :
  s.(vouchers) !! id = Some v →
  match (perform op s).(vouchers) !! id with
  | Some v' => rtc status_edge v.(gv_status) v'.(gv_status) ∧
               ∃ l, v'.(gv_redemptions) = v.(gv_redemptions) ++ l
  | None => ∀ st : GiftVoucherStatus, v.(gv_status) = value st → st = CREATED ∨ st = PAYMENT_PENDING
  end.
Proof.
  intros Hv. pose proof (perform_evolves op s id) as H. rewrite Hv in H.
  destruct (vouchers (perform op s) !! id) as [v'|]; simpl in H.
  - destruct H as (H1 & H2). split; [exact (entry_steps_path _ _ H1)|done].
  - intros st Hst. rewrite Hst in H. destruct st; try (by left); try (by right); discriminate H.
Qed.

(** a voucher that is fulfilled, expired or cancelled stays so, and stays
    in the table with its redemptions, over every history. *)
Theorem terminal_voucher_stays ops s id v (st : GiftVoucherStatus) :
  s.(vouchers) !! id = Some v → v.(gv_status) = value st → is_terminal st = true →
  ∃ v', (history_of ops s).(vouchers) !! id = Some v' ∧ v'.(gv_status) = value st ∧
        ∃ l, v'.(gv_redemptions) = v.(gv_redemptions) ++ l.
Proof.
  intros Hv Hst Ht. revert s v Hv Hst. induction ops as [|op ops IH]; intros s v Hv Hst.
  { exists v. split_and!; [done|done|]. exists []. by rewrite app_nil_r. }
  pose proof (perform_evolves op s id) as H. rewrite Hv in H.
  destruct (vouchers (perform op s) !! id) as [v1|] eqn:Hv1; simpl in H.
  - destruct H as (Hp & (l & Hl)). apply entry_steps_path in Hp. simpl in Hp.
    rewrite Hst in Hp. apply terminal_path in Hp; [|done].
    destruct (IH (perform op s) v1 Hv1 Hp) as (v' & Hv' & Hst' & l' & Hl'). exists v'.
    split_and!; [done|done|]. exists (l ++ l'). by rewrite Hl', Hl, app_assoc.
  - rewrite Hst in H. by destruct st.
Qed.

(** ** A redemption, on every branch *)

(** The core of the row stays and no event is sent. *)
Definition silent (id : Z) (s s' : Store) : Prop :=
  touches id (keeps core) s s' ∧ s'.(events) = s.(events).
#[local] Instance silent_preorder id : PreOrder (silent id).
Proof.
  split; [intros s; split; reflexivity|]. intros s1 s2 s3 [H1 E1] [H2 E2].
  split; [etransitivity; eassumption|congruence].
Qed.

Lemma silent_upd id f : (∀ v, core (f v) = core v) → changes (silent id) (upd_voucher id f).
Proof. intros Hf s. split; [|done]. apply touches_alter. intros v _. apply Hf. Qed.
Lemma silent_read {A} id (m : M Store A) : (∀ s, (m s).2 = s) → changes (silent id) m.
Proof. intros Hm s. rewrite Hm. reflexivity. Qed.
Lemma silent_get_row id j : changes (silent id) (get_voucher_row j).
Proof. apply silent_read. intros s. unfold get_voucher_row. by destruct (_ !! j). Qed.
Lemma silent_as_validation {A} id (r : result A) : changes (silent id) (as_validation r).
Proof. apply silent_read. intros s. by destruct r. Qed.
Lemma silent_append_history id h : changes (silent id) (append_history id h).
Proof. by apply silent_upd. Qed.
#[local] Hint Resolve silent_get_row silent_as_validation silent_append_history : ush.
Lemma silent_flush id : changes (silent id) (flush_voucher id).
Proof.
  unfold flush_voucher. change_only. apply silent_upd, attribute_core.
Qed.
Lemma silent_change_delivery id u : changes (silent id) (change_delivery id u).
Proof. unfold change_delivery, delivery_check. change_only. by apply silent_upd. Qed.
Lemma silent_normalised id u : changes (silent id) (upd_voucher id (set_normalised u)).
Proof. apply silent_upd, set_normalised_keeps. Qed.
Lemma silent_services id u : changes (silent id) (upd_voucher id (set_services u)).
Proof. apply silent_upd, set_services_keeps. Qed.
Lemma silent_remaining id u : changes (silent id) (upd_voucher id (set_remaining u)).
Proof. apply silent_upd, set_remaining_keeps. Qed.
#[local] Hint Resolve silent_flush silent_change_delivery silent_normalised silent_services silent_remaining : ush.

Lemma wp_bind_changes {A B} (R : relation Store) `{!PreOrder R} (m : M Store A) (k : A → M Store B) s0 s Q :
  changes R m → R s0 s → (∀ a s1, R s0 s1 → wp (k a) s1 Q) → (∀ e s1, R s0 s1 → Q (Raise e) s1) →
  wp (m ≫= k) s Q.
Proof.
  intros Hm Hs Hk Hr. unfold wp, mbind, M_bind. specialize (Hm s).
  destruct (m s) as [[a|e] s1]; simpl in Hm; [apply Hk|apply Hr]; (etransitivity; [exact Hs|exact Hm]).
Qed.

(** Step 1 on a known transition. *)
Definition links (v : GiftVoucher) : option Z * option Z := (v.(gv_booking_id), v.(gv_redeemed_booking_id)).
Lemma set_redemption_fields_links u t v b :
  given u.(uv_booking_id) = Some b → links (set_redemption_fields u t v) = (Some b, Some b).
Proof.
  intros Hb. unfold set_redemption_fields. rewrite Hb. cbv zeta.
  do 2 (etransitivity; [apply (set_opt_keeps links); reflexivity|]). reflexivity.
Qed.

Lemma change_status_known id u s v (c t : GiftVoucherStatus) :
  s.(vouchers) !! id = Some v → given u.(uv_status) = Some (value t) → validate_transition c t = Ok () →
  v.(gv_status) = value c →
  ∃ s1 v1, change_status id (value c) u s = (Ok (if c ==? t then None else Some t), s1) ∧
    s1.(vouchers) !! id = Some v1 ∧ core v1 = (value t, v.(gv_redemptions)) ∧ s1.(events) = s.(events) ∧
    s1.(bookings) = s.(bookings) ∧
    (∀ b, given u.(uv_booking_id) = Some b → links v = (Some b, Some b) → links v1 = (Some b, Some b)).
Proof.
  intros Hv Hu Hval Hc. unfold change_status. rewrite Hu.
  destruct (decide (c = t)) as [->|Hne].
  - rewrite String.eqb_refl, bool_decide_eq_true_2 by done. exists s, v. split_and!; try done.
    unfold core. by rewrite Hc.
  - rewrite (bool_decide_eq_false_2 _ Hne), (proj2 (String.eqb_neq _ _)) by (by intros ->%value_inj).
    do 3 (row_runs; rewrite ?of_value_value, ?Hval, ?as_validation_run). row_runs.
    eexists _, _. split_and!; [reflexivity|simpl; rewrite lookup_alter_eq, Hv; reflexivity| |done|done|].
    + destruct t; try reflexivity; [keep_columns|by rewrite set_redemption_fields_keeps].
    + intros b Hb Hl. destruct t; try exact Hl; [|by apply set_redemption_fields_links].
      cbv zeta. rewrite <- Hl. keep_columns.
Qed.

Lemma redeemable_status v r :
  redeemable v r → ∃ c, v.(gv_status) = value c ∧ (c = ACTIVE ∨ c = PARTIALLY_REDEEMED).
Proof.
  intros (H & _). rewrite elem_of_cons, list_elem_of_singleton in H.
  destruct H as [H|H]; [exists ACTIVE|exists PARTIALLY_REDEEMED]; auto.
Qed.

Definition redemption_events (id : Z) (t : GiftVoucherStatus) : list Event :=
  if t ==? REDEEMED then [VoucherRedeemedEvent id] else [].

(** A redemption the voucher does not admit is refused before anything is
    written. *)
Lemma redemption_refused id u r actor s v :
  s.(vouchers) !! id = Some v → given u.(uv_redemption) = Some r → ¬ redeemable v r →
  update_voucher id u actor s = (Raise (err ValidationError), s).
Proof.
  intros Hv Hr Hno. unfold update_voucher, get_by_id. row_runs. rewrite Hv. row_runs. rewrite Hr.
  row_runs. by rewrite (proj2 (redeem_run id u r s v Hv) Hno).
Qed.

(** One it admits ends, unless another part of the request is refused, with
    the redemption recorded. *)
Lemma redemption_recorded id u r actor s v :
  s.(vouchers) !! id = Some v → given u.(uv_redemption) = Some r → redeemable v r →
  wp (update_voucher id u actor) s (λ res s', res = Ok () →
    ∃ v', s'.(vouchers) !! id = Some v' ∧
      core v' = (value (derived_status v r), v.(gv_redemptions) ++ [redemption_record u r s.(now)]) ∧
      s'.(events) = s.(events) ++ redemption_events id (derived_status v r)).
Proof.
  intros Hv Hr Hyes. destruct (redeemable_status v r Hyes) as (c & Hc & Hcc).
  assert (derived_status v r = REDEEMED ∨ derived_status v r = PARTIALLY_REDEEMED) as Hd.
  { unfold derived_status. destruct (forallb _ _); auto. }
  set (d := derived_status v r) in *. 
  unfold update_voucher. apply wp_bind, wp_get_by_id; [|congruence]. intros v0 Hv0.
  simplify_eq. cbv beta iota zeta. rewrite Hr.
  eapply (wp_bind _ _ _ _), wp_of_run.
  { rewrite bind_run, (proj1 (redeem_run id u r s v Hv) Hyes). reflexivity. }
  cbn beta iota. rewrite Hc.
  set (s1 := s <| vouchers := _ |>).
  assert (s1.(vouchers) !! id = Some (redeemed_row u r s.(now) v)) as Hv1.
  { unfold s1. simpl. by rewrite lookup_alter_eq, Hv. }
  pose proof (redeemed_row_core u r s.(now) v) as Hcore. injection Hcore as Hst Hrd.
  destruct (change_status_known id (u <| uv_status := Some (Some (value d)) |>) s1 _ c d Hv1)
    as (s2 & v2 & Hrun & Hv2 & Hcore2 & Hev2 & _).
  { reflexivity. }
  { by destruct Hcc as [->| ->], Hd as [->| ->]. }
  { by rewrite Hst. }
  eapply (wp_bind _ _ _ _), wp_of_run; [exact Hrun|]. cbn beta iota.
  repeat (apply (wp_bind_changes (silent id) _ _ s2);
    [change_only|first [assumption|reflexivity]|intros ? ? ?|by intros ? ? ?]).
  match goal with |- wp _ ?s9 _ => assert (silent id s2 s9) as [Ht He] by assumption end.
  destruct (touches_row _ _ _ _ _ Ht Hv2) as (v3 & Hv3 & Hk). unfold keeps in Hk.
  rewrite Hcore2, Hrd in Hk. rewrite Hev2 in He. unfold s1 in He. simpl in He.
  clearbody d. unfold redemption_events.
  destruct Hcc as [-> | ->], Hd as [-> | ->]; cbn; rewrite <- ?He; intros _; exists v3;
    (split_and!; [exact Hv3|exact Hk|by rewrite ?app_nil_r]).
Qed.

(** The request the booking flow sends: the items and the booking. *)
Definition redemption_request (r : RedemptionRequest) (booking_id : Z) : UpdateGiftVoucherRequest :=
  no_updates <| uv_redemption := Some (Some r) |> <| uv_booking_id := Some (Some booking_id) |>.

(** A write of a row linked to a booking, and the flush after it. *)
Definition linked (b : Z) (v v' : GiftVoucher) : Prop :=
  links v = (Some b, Some b) → links v' = (Some b, Some b).
#[local] Instance linked_preorder b : PreOrder (linked b).
Proof. split; [intros v; exact id|]. intros x y z H1 H2 H. by apply H2, H1. Qed.

Lemma wp_upd_linked {A} id b f (k : M Store A) s0 s Q :
  touches id (linked b) s0 s → (∀ v, linked b v (f v)) →
  (∀ s1, touches id (linked b) s0 s1 → wp k s1 Q) → wp (upd_voucher id f ;; k) s Q.
Proof.
  intros Hs Hf Hk. apply wp_bind, wp_modify. cbn beta iota. apply Hk.
  etransitivity; [exact Hs|]. apply touches_alter. intros v _. apply Hf.
Qed.

Lemma attribute_links v : links (attribute v) = links v.
Proof. unfold attribute. by destruct (voucher_attribution _ _). Qed.

Lemma booking_exists_same s s' o : s'.(bookings) = s.(bookings) → booking_exists s' o = booking_exists s o.
Proof. intros E. unfold booking_exists. by rewrite E. Qed.

Definition links_ok (s : Store) (v : GiftVoucher) : Prop :=
  booking_exists s v.(gv_booking_id) = true ∧ booking_exists s v.(gv_redeemed_booking_id) = true.

Lemma flush_run id s v :
  s.(vouchers) !! id = Some v → links_ok s v →
  flush_voucher id s = (Ok (), s <| vouchers := alter attribute id s.(vouchers) |>).
Proof.
  intros Hv [Hb1 Hb2]. unfold flush_voucher. rewrite bind_run, upd_voucher_run. row_runs.
  unfold get_voucher_row. simpl. rewrite lookup_alter_eq, Hv. simpl. row_runs.
  change (gv_booking_id (attribute v)) with (gv_booking_id v).
  change (gv_redeemed_booking_id (attribute v)) with (gv_redeemed_booking_id v).
  rewrite (booking_exists_same s _ (gv_booking_id v)), Hb1 by done.
  by rewrite (booking_exists_same s _ (gv_redeemed_booking_id v)), Hb2 by done.
Qed.

(** ** Symbolic execution on one voucher

    The states of an operation on the voucher [id] are [with_voucher id w s]:
    the store [s] with [w] as that row. *)
Definition with_voucher (id : Z) (w : GiftVoucher) (s : Store) : Store :=
  s <| vouchers := <[id := w]> s.(vouchers) |>.

Lemma upd_voucher_first id f s v :
  s.(vouchers) !! id = Some v → upd_voucher id f s = (Ok (), with_voucher id (f v) s).
Proof. intros Hv. rewrite upd_voucher_run. unfold with_voucher. by rewrite (alter_lookup _ _ _ v Hv). Qed.
Lemma upd_voucher_with id f w s : upd_voucher id f (with_voucher id w s) = (Ok (), with_voucher id (f w) s).
Proof.
  rewrite upd_voucher_run. unfold with_voucher. cbn [vouchers set_field].
  by rewrite (alter_lookup _ _ id w (lookup_insert_eq _ _ _)), insert_insert_eq.
Qed.
Lemma get_voucher_with id w s : get_voucher_row id (with_voucher id w s) = (Ok w, with_voucher id w s).
Proof. apply get_voucher_row_run. apply lookup_insert_eq. Qed.
Lemma flush_with id w s : links_ok s w → flush_voucher id (with_voucher id w s) = (Ok (), with_voucher id (attribute w) s).
Proof.
  intros Hl. rewrite (flush_run id _ w); [|apply lookup_insert_eq|exact Hl].
  pose proof (upd_voucher_with id attribute w s) as E. rewrite upd_voucher_run in E. exact E.
Qed.
Lemma append_history_with id h w s :
  append_history id h (with_voucher id w s) =
  (Ok (), with_voucher id (w <| gv_update_history := w.(gv_update_history) ++ [h] |>) s).
Proof. exact (upd_voucher_with id (λ v, v <| gv_update_history := v.(gv_update_history) ++ [h] |>) w s). Qed.
Lemma now_with id w s : now (with_voucher id w s) = now s.
Proof. reflexivity. Qed.
Lemma outbound_with id w s : outbound (with_voucher id w s) = outbound s.
Proof. reflexivity. Qed.
Lemma bookings_with id w s : bookings (with_voucher id w s) = bookings s.
Proof. reflexivity. Qed.
Lemma events_with id w s : events (with_voucher id w s) = events s.
Proof. reflexivity. Qed.

Lemma redemption_accepted id r b actor s v :
  s.(vouchers) !! id = Some v → redeemable v r → is_Some (s.(bookings) !! b) →
  wp (update_voucher id (redemption_request r b) actor) s (λ res _, res = Ok ()).
Proof.
  intros Hv Hyes Hb. destruct (redeemable_status v r Hyes) as (c & Hc & Hcc).
  assert (derived_status v r = REDEEMED ∨ derived_status v r = PARTIALLY_REDEEMED) as Hd.
  { unfold derived_status. destruct (forallb _ _); auto. }
  set (d := derived_status v r) in *. set (u := redemption_request r b).
  unfold update_voucher. apply wp_bind, wp_get_by_id; [|congruence]. intros v0 Hv0.
  simplify_eq. cbv beta iota zeta. change (given (uv_redemption u)) with (Some r). cbv iota.
  eapply (wp_bind _ _ _ _), wp_of_run.
  { rewrite bind_run, (proj1 (redeem_run id u r s v Hv) Hyes). reflexivity. }
  cbn beta iota. rewrite Hc. set (s1 := s <| vouchers := _ |>).
  assert (s1.(vouchers) !! id = Some (redeemed_row u r s.(now) v)) as Hv1.
  { unfold s1. simpl. by rewrite lookup_alter_eq, Hv. }
  assert (gv_status (redeemed_row u r s.(now) v) = gv_status v) as Hst by reflexivity.
  destruct (change_status_known id (u <| uv_status := Some (Some (value d)) |>) s1 _ c d Hv1)
    as (s2 & v2 & Hrun & Hv2 & _ & _ & Hb2 & Hl2).
  { reflexivity. }
  { by destruct Hcc as [-> | ->], Hd as [-> | ->]. }
  { by rewrite Hst. }
  assert (links v2 = (Some b, Some b)) as Hlinks by (apply Hl2; reflexivity). clear Hl2. injection Hlinks as Hl Hl'. 
  eapply (wp_bind _ _ _ _), wp_of_run; [exact Hrun|]. cbn beta iota.
  set (u' := u <| uv_status := Some (Some (value d)) |>).
  change (change_delivery id u') with (mret () : M Store ()). apply wp_bind, wp_ret. cbn beta iota.
  do 3 (apply (wp_upd_linked id b _ _ s2); [first [reflexivity|assumption]|intros v' Hx; unfold links in *; injection Hx as Hx1 Hx2; cbn; congruence|intros ? ?]).
  apply wp_bind, wp_gets. cbn beta iota. unfold append_history.
  apply (wp_upd_linked id b _ _ s2); [assumption|by intros ? Hx|intros s5 H5].
  change (null_column u') with false. apply wp_bind, wp_ret. cbn beta iota.
  destruct (touches_row _ _ _ _ _ H5 Hv2) as (v3 & Hv3 & Hk).
  assert (links v3 = (Some b, Some b)) as Hl3 by (apply Hk; unfold links; congruence).
  injection Hl3 as Hk3 Hk3'. assert (links_ok s5 v3) as Hok.
  { destruct H5 as (_ & Hb3 & _). assert (bookings s5 = bookings s) as Hbs by (rewrite Hb3, Hb2; reflexivity).
    unfold links_ok, booking_exists. rewrite Hk3, Hk3', Hbs. split; by apply bool_decide_eq_true. }
  eapply (wp_bind _ _ _ _), wp_of_run; [by apply (flush_run id s5 v3)|]. cbn beta iota.
  destruct (c ==? d); [apply wp_ret; reflexivity|].
  apply wp_when; intros _; [|reflexivity]. by destruct d.
Qed.

(** What is left of the voucher once the items are used. *)
Definition remaining_after (v : GiftVoucher) (r : RedemptionRequest) : list string :=
  List.filter (λ i, negb (i in? (ri_service_id <$> r.(rq_services)))) (remaining_service_ids v).

Lemma derived_remaining v r :
  derived_status v r = if decide (remaining_after v r = []) then REDEEMED else PARTIALLY_REDEEMED.
Proof.
  unfold derived_status, remaining_after, remaining_service_ids.
  induction (entry_ids (voucher_services_of v)) as [|i l IH]; simpl; [reflexivity|].
  destruct (decide (i ∈ used_service_ids v)) as [Hu|Hu].
  - rewrite (bool_decide_eq_true_2 (i ∈ used_service_ids v ++ _)) by (apply elem_of_app; by left).
    by rewrite (bool_decide_eq_true_2 _ Hu).
  - rewrite (bool_decide_eq_false_2 _ Hu). simpl.
    destruct (decide (i ∈ ri_service_id <$> rq_services r)) as [Hr|Hr].
    + rewrite (bool_decide_eq_true_2 (i ∈ used_service_ids v ++ _)) by (apply elem_of_app; by right).
      by rewrite (bool_decide_eq_true_2 _ Hr).
    + rewrite (bool_decide_eq_false_2 (i ∈ used_service_ids v ++ _)) by (intros [?|?]%elem_of_app; done).
      rewrite (bool_decide_eq_false_2 _ Hr). reflexivity.
Qed.

(** C33: a redemption request.  It is refused with a validation error, and
    nothing is written or sent, when the voucher is not active or partially
    redeemed, or the items are none, name a service that is not gifted, one
    that an earlier redemption used, or the same one twice.  Otherwise, unless
    the request fails on another part and is rolled back, the voucher gets one more redemption record, with exactly these items, and
    is redeemed (with one event) when every gifted service is used, partially
    redeemed while some remain.  The request the booking flow sends, the items
    and an existing booking, succeeds whenever the voucher admits it. *)
Theorem redemption_correct id u r actor s v :
  s.(vouchers) !! id = Some v → given u.(uv_redemption) = Some r →
  let '(res, s') := in_session (update_voucher id u actor) s in
  (¬ redeemable v r → res = Raise (err ValidationError) ∧ s' = s) ∧
  (res = Ok () → redeemable v r ∧
    ∃ v', s'.(vouchers) !! id = Some v' ∧
      v'.(gv_redemptions) = v.(gv_redemptions) ++ [redemption_record u r s.(now)] ∧
      v'.(gv_status) = (if decide (remaining_after v r = []) then value REDEEMED else value PARTIALLY_REDEEMED) ∧
      s'.(events) = s.(events) ++ (if decide (remaining_after v r = []) then [VoucherRedeemedEvent id] else [])) ∧
  (∀ b, u = redemption_request r b → redeemable v r → is_Some (s.(bookings) !! b) → res = Ok ()).
Proof.
  intros Hv Hr. destruct (in_session (update_voucher id u actor) s) as [res s'] eqn:E. split_and!.
  - intros Hno. rewrite (in_session_raise _ _ _ (redemption_refused id u r actor s v Hv Hr Hno)) in E.
    by simplify_eq.
  - intros ->. apply in_session_returns in E. destruct (decide (redeemable v r)) as [Hyes|Hno].
    2:{ by rewrite (redemption_refused id u r actor s v Hv Hr Hno) in E. }
    split; [done|]. pose proof (redemption_recorded id u r actor s v Hv Hr Hyes) as Hw.
    unfold wp in Hw. rewrite E in Hw. cbn [fst snd] in Hw. destruct (Hw eq_refl) as (v' & Hv' & Hcore & Hev).
    injection Hcore as Hst Hrd. exists v'. split_and!; [done|done| |].
    + rewrite Hst, derived_remaining. by case_decide.
    + rewrite Hev. unfold redemption_events. rewrite derived_remaining. by case_decide.
  - intros b -> Hyes Hb. pose proof (redemption_accepted id r b actor s v Hv Hyes Hb) as Hw.
    unfold wp in Hw. unfold in_session in E.
    destruct (update_voucher id (redemption_request r b) actor s) as [[[]|e] s1]; cbn [fst snd] in Hw;
      by simplify_eq.
Qed.
End scheduler.

(** One known row, executed to the end. *)
Create Rewrite HintDb voucher.
#[export] Hint Rewrite upd_voucher_with get_voucher_with append_history_with now_with outbound_with
  bookings_with events_with : voucher.
Ltac voucher_runs := repeat (progress (autorewrite with run voucher); cbn beta iota zeta).

(** ** A history at concrete inputs *)

Definition demo_scheduler (calls : list OutboundCall) (c : OutboundCall) : result string := Ok "arn:demo".

Definition demo_service (id minutes : Z) : VoucherServiceItem :=
  mk_service_item (Some id) [("name", JStr "massage"); ("duration_minutes", JInt minutes)] [] 0 None.

(** A voucher of two services for later delivery, or at once. *)
Definition demo_new (delivery_mode : option string) (at_ : option Z) : NewVoucher :=
  mk_new_voucher None [] [demo_service 11 60; demo_service 12 30] 40000 0 7
    (Some [("phone_number", JStr "+965 9999 0000")]) None None None None [] 0 None 0 "KWD"
    (Some "+96598765432") None None None None None None None None None None None (Some "MyFatoorah")
    (Some "web") None None None None None None None None None false delivery_mode at_ "A1B2C3" "token".

Definition demo_item (id : Z) : RedemptionItem := mk_redemption_item (uuid_str id) None [] 0.
Definition demo_redeem (ids : list Z) : VoucherOp :=
  UpdateVoucher 1 (redemption_request (mk_redemption_request None None (demo_item <$> ids)) 1) None.

Definition demo_day : Z := 1784000000000000.
Definition demo_bookings : Store :=
  (empty_store demo_day) <| bookings := {[ 1 := mk_booking (Some "BOK/1") None 7 None None None 3
    demo_day 20000 "KWD" "confirmed" "pending" "branch" "online" None None None None None None
    None None None 60 None None None None None None None None no_schedule ]} |>.

Definition demo_run (ops : list VoucherOp) : Store := history_of demo_scheduler 60 ops demo_bookings.
(** Sold, paid, and its first service used; the second redemption repeats it. *)
Definition demo_ops : list VoucherOp :=
  [Create (demo_new None None); UpdateStatus 1 "active" no_args; demo_redeem [11]; demo_redeem [11]].

Lemma demo_redeemed_once : redeemed_once demo_bookings.
Proof. intros id v Hv. change ((∅ : gmap Z GiftVoucher) !! id = Some v) in Hv. by rewrite lookup_empty in Hv. Qed.

Lemma services_redeemed_at_most_once_witness :
  let s := demo_run (demo_ops ++ [demo_redeem [12; 11]; demo_redeem [12]]) in
  redeemed_once demo_bookings ∧
  ∃ v, s.(vouchers) !! 1 = Some v ∧ redeemed_ids v = [uuid_str 11; uuid_str 12] ∧
       v.(gv_status) = value REDEEMED ∧ NoDup (redeemed_ids v).
Proof.
  intros s. split; [exact demo_redeemed_once|].
  eassert (s.(vouchers) !! 1 = Some _) as Hv by (vm_compute; reflexivity).
  eexists. split; [exact Hv|]. split; [vm_compute; reflexivity|]. split; [vm_compute; reflexivity|].
  apply (services_redeemed_at_most_once demo_scheduler 60 _ demo_bookings 1 _ demo_redeemed_once Hv).
Defined.

(** The voucher of [demo_ops] before its first redemption. *)
Definition demo_sold : Store := demo_run (take 2 demo_ops).
Definition demo_row (s : Store) : GiftVoucher :=
  default (new_row 60 (demo_new None None) 0) (s.(vouchers) !! 1).

Lemma voucher_follows_machine_witness :
  demo_sold.(vouchers) !! 1 = Some (demo_row demo_sold) ∧
  match (perform demo_scheduler 60 (demo_redeem [11]) demo_sold).(vouchers) !! 1 with
  | Some v' => rtc status_edge (demo_row demo_sold).(gv_status) v'.(gv_status) ∧
               ∃ l, v'.(gv_redemptions) = (demo_row demo_sold).(gv_redemptions) ++ l
  | None => ∀ st : GiftVoucherStatus, (demo_row demo_sold).(gv_status) = value st → st = CREATED ∨ st = PAYMENT_PENDING
  end.
Proof.
  assert (demo_sold.(vouchers) !! 1 = Some (demo_row demo_sold)) as Hv by (vm_compute; reflexivity).
  split; [exact Hv|]. exact (voucher_follows_machine demo_scheduler 60 (demo_redeem [11]) demo_sold 1 _ Hv).
Defined.

Lemma terminal_voucher_stays_witness :
  let s := demo_run [Create (demo_new None None); UpdateStatus 1 "cancelled" no_args] in
  s.(vouchers) !! 1 = Some (demo_row s) ∧
  ∃ v', (history_of demo_scheduler 60 [DeleteVoucher 1; UpdateStatus 1 "active" no_args; demo_redeem [11]] s).(vouchers) !! 1
          = Some v' ∧ v'.(gv_status) = "cancelled" ∧ ∃ l, v'.(gv_redemptions) = (demo_row s).(gv_redemptions) ++ l.
Proof.
  intros s. assert (s.(vouchers) !! 1 = Some (demo_row s)) as Hv by (vm_compute; reflexivity).
  split; [exact Hv|].
  apply (terminal_voucher_stays demo_scheduler 60 [DeleteVoucher 1; UpdateStatus 1 "active" no_args; demo_redeem [11]]
           s 1 (demo_row s) CANCELLED Hv); vm_compute; reflexivity.
Defined.

Lemma redemption_correct_witness :
  let r := mk_redemption_request None None [demo_item 12] in
  let u := redemption_request r 1 in
  let s := demo_run (take 3 demo_ops) in
  let '(res, s') := in_session (update_voucher 1 u None) s in
  s.(vouchers) !! 1 = Some (demo_row s) ∧ redeemable (demo_row s) r ∧ res = Ok () ∧
  ∃ v', s'.(vouchers) !! 1 = Some v' ∧ v'.(gv_status) = "redeemed".
Proof.
  intros r u s. assert (s.(vouchers) !! 1 = Some (demo_row s)) as Hv by (vm_compute; reflexivity).
  assert (redeemable (demo_row s) r) as Hr.
  { apply (bool_decide_unpack _). vm_compute. exact I. }
  pose proof (redemption_correct 1 u r None s (demo_row s) Hv eq_refl) as H.
  destruct (in_session (update_voucher 1 u None) s) as [res s'].
  destruct H as (_ & Hok & Hacc). assert (res = Ok ()) as Hres.
  { apply (Hacc 1 eq_refl Hr). eexists. vm_compute. reflexivity. }
  destruct (Hok Hres) as (_ & v' & Hv' & _ & Hst & _). split_and!; [exact Hv|exact Hr|exact Hres|].
  exists v'. split; [exact Hv'|]. rewrite Hst. vm_compute. reflexivity.
Defined.
