(* ===== verification/VoucherDelivery.v ===== *)
(** * Scheduled delivery of gift vouchers, and what the service misses

    A voucher bought for later waits until its time, is activated once, and the
    reconciler activates what the scheduler missed; the examples at the end
    show behaviour that departs from what the source documents. *)

From S2P Require Import Prelude Exceptions Effects StateMachines Money Numbers Store PyText Attribution.
From S2P Require Import VoucherSnapshot VoucherService VoucherLedger VoucherSpec.
Import Voucher GiftVoucherService.
#[local] Open Scope Z_scope.

(** ** Activation *)

(** The row a scheduled voucher becomes. *)
Definition delivered_row (t : Z) (d : option jdict) (v : GiftVoucher) : GiftVoucher :=
  attribute (v <| gv_status := value ACTIVE |> <| gv_delivered_at := Some t |>
    <| gv_expire_date := t + DELIVERY_VALIDITY |>
    <| gv_delivery_result :=
         Some (match d with
               | Some (x :: d) => x :: d
               | _ => [("delivered", JBool true); ("activated_at", JInt t); ("source", JStr "scheduler")]
               end) |>
    <| gv_update_history := v.(gv_update_history) ++
         [history "scheduled_delivery_activated" "scheduler" t (Some (value SCHEDULED)) (Some (value ACTIVE))] |>).

Lemma activate_run id d s v :
  s.(vouchers) !! id = Some v → links_ok s v →
  activate_scheduled_voucher id d s =
    if String.eqb v.(gv_status) (value SCHEDULED)
    then (Ok (), s <| vouchers := <[id := delivered_row s.(now) d v]> s.(vouchers) |>
                   <| events := s.(events) ++ [VoucherActiveEvent id] |>)
    else (Ok (), s).
Proof.
  intros Hv Hl. unfold activate_scheduled_voucher, get_by_id. row_runs. rewrite Hv. row_runs.
  destruct (v.(gv_status) in? _) eqn:E; breflect.
  { destruct (String.eqb _ _) eqn:E'; breflect; [|done].
    rewrite E' in E. rewrite elem_of_cons, list_elem_of_singleton in E. by destruct E. }
  destruct (String.eqb v.(gv_status) (value SCHEDULED)) eqn:E'; breflect; simpl; [|done].
  row_runs. rewrite (upd_voucher_first _ _ _ v Hv). voucher_runs.
  rewrite flush_with by exact Hl. cbn [emit_status_event]. voucher_runs. reflexivity.
Qed.

(** What the activation leaves is no longer scheduled. *)
Lemma delivered_row_facts t d v :
  let v' := delivered_row t d v in
  v'.(gv_status) = value ACTIVE ∧ v'.(gv_delivered_at) = Some t ∧
  v'.(gv_expire_date) = t + DELIVERY_VALIDITY ∧ v'.(gv_redemptions) = v.(gv_redemptions) ∧
  v'.(gv_secret_code) = v.(gv_secret_code) ∧ links v' = links v.
Proof. unfold delivered_row. split_and!; reflexivity. Qed.

(** the activation of a scheduled voucher makes it active and delivered
    now, valid for sixty days from now, and sends one event; repeating it, by
    the scheduler, the queue or the reconciler, at any later time, changes
    nothing and sends nothing.  A voucher in any other status is left alone. *)
Theorem activation_once id d s v :
  s.(vouchers) !! id = Some v → links_ok s v →
  let '(res, s') := activate_scheduled_voucher id d s in
  res = Ok () ∧
  (v.(gv_status) ≠ value SCHEDULED → s' = s) ∧
  (v.(gv_status) = value SCHEDULED →
     (∃ v', s'.(vouchers) = <[id := v']> s.(vouchers) ∧ v'.(gv_status) = value ACTIVE ∧
        v'.(gv_delivered_at) = Some s.(now) ∧ v'.(gv_expire_date) = s.(now) + DELIVERY_VALIDITY ∧
        v'.(gv_redemptions) = v.(gv_redemptions)) ∧
     s'.(events) = s.(events) ++ [VoucherActiveEvent id]) ∧
  (∀ d' t, activate_scheduled_voucher id d' (s' <| now := t |>) = (Ok (), s' <| now := t |>)).
Proof.
  intros Hv Hl. rewrite (activate_run id d s v Hv Hl).
  pose proof (delivered_row_facts s.(now) d v) as (H1 & H2 & H3 & H4 & _ & H6).
  destruct (String.eqb v.(gv_status) (value SCHEDULED)) eqn:E; breflect; split_and!; try done.
  - intros _. split; [|done]. by exists (delivered_row s.(now) d v).
  - intros d' t. erewrite activate_run; [|simpl; apply lookup_insert_eq|].
    + by rewrite H1.
    + exact Hl.
  - intros d' t. erewrite activate_run; [|exact Hv|exact Hl]. by rewrite (proj2 (String.eqb_neq _ _) E).
Qed.

(** ** The reconciler *)

Definition reconciler_result (t : Z) : option jdict :=
  Some [("delivered", JBool true); ("activated_at", JInt t); ("source", JStr "reconciler")].

Definition deliver_all (t : Z) (ids : list Z) (m : gmap Z GiftVoucher) : gmap Z GiftVoucher :=
  foldl (λ m id, alter (delivered_row t (reconciler_result t)) id m) m ids.

Lemma deliver_all_lookup t ids m j :
  NoDup ids →
  deliver_all t ids m !! j =
    if j in? ids then delivered_row t (reconciler_result t) <$> m !! j else m !! j.
Proof.
  revert m; induction ids as [|id ids IH]; intros m; [done|].
  intros [Hni Hnd]%NoDup_cons. cbn [deliver_all foldl]. change (foldl _ _ ids) with
    (deliver_all t ids (alter (delivered_row t (reconciler_result t)) id m)).
  rewrite IH by done. destruct (decide (j = id)) as [->|Hj].
  - rewrite (bool_decide_eq_false_2 _ Hni), bool_decide_eq_true_2 by apply list_elem_of_here.
    apply lookup_alter_eq.
  - rewrite lookup_alter_ne by done. destruct (decide (j ∈ ids)) as [Hin|Hin].
    + by rewrite !bool_decide_eq_true_2 by (try apply list_elem_of_further; done).
    + rewrite !bool_decide_eq_false_2; [done|by intros [?|?]%elem_of_cons|done].
Qed.

Lemma reconcile_loop_run ids acc s :
  NoDup ids →
  (∀ id, id ∈ ids → ∃ v, s.(vouchers) !! id = Some v ∧ v.(gv_status) = value SCHEDULED ∧ links_ok s v) →
  reconcile_loop ids acc s =
    (Ok (acc ++ ids), s <| vouchers := deliver_all s.(now) ids s.(vouchers) |>
                        <| events := s.(events) ++ (VoucherActiveEvent <$> ids) |>).
Proof.
  revert acc s; induction ids as [|id ids IH]; intros acc s Hnd Hids.
  { simpl. rewrite !app_nil_r. by destruct s. }
  apply NoDup_cons in Hnd as [Hni Hnd].
  destruct (Hids id (list_elem_of_here _ _)) as (v & Hv & Hs & Hl).
  cbn [reconcile_loop]. row_runs. unfold try_except. row_runs.
  change (Some _) with (reconciler_result s.(now)) at 1.
  rewrite (activate_run id _ s v Hv Hl), Hs, String.eqb_refl. cbn beta iota. rewrite ret_run. cbv beta iota.
  rewrite IH; [|done|].
  - rewrite <- app_assoc. cbn [app]. rewrite <- (alter_lookup _ _ id v Hv). f_equal.
    simpl. rewrite <- app_assoc. reflexivity.
  - intros j Hj. assert (j ≠ id) as Hne by (intros ->; done).
    destruct (Hids j (list_elem_of_further _ _ _ Hj)) as (w & Hw & Hws & Hwl).
    exists w. simpl. rewrite lookup_insert_ne by done. done.
Qed.

(** The overdue vouchers, by their keys. *)
Definition overdue_rows (s : Store) : list (Z * GiftVoucher) :=
  List.filter (λ '(_, v), is_overdue s.(now) v) (map_to_list s.(vouchers)).

Lemma elem_of_overdue_rows s id v :
  (id, v) ∈ overdue_rows s ↔ s.(vouchers) !! id = Some v ∧ is_overdue s.(now) v = true.
Proof. unfold overdue_rows. by rewrite elem_of_filter_list, elem_of_map_to_list. Qed.

Lemma NoDup_filter_fst {V} (p : Z * V → bool) (l : list (Z * V)) : NoDup l.*1 → NoDup (List.filter p l).*1.
Proof.
  induction l as [|x l IH]; simpl; [done|]. intros [Hni Hnd]%NoDup_cons.
  destruct (p x); simpl; [|auto]. apply NoDup_cons. split; [|auto]. intros Hin. apply Hni.
  apply list_elem_of_fmap in Hin as (y & -> & Hy). apply elem_of_filter_list in Hy as [Hy _].
  apply list_elem_of_fmap. eauto.
Qed.

Lemma sublist_take_elem {A} (l : list A) n x : x ∈ take n l → x ∈ l.
Proof. rewrite <- (take_drop n l) at 2. rewrite elem_of_app. by left. Qed.

Lemma list_overdue_spec limit s :
  NoDup (list_overdue_scheduled limit s) ∧
  (∀ id, id ∈ list_overdue_scheduled limit s → ∃ v, (id, v) ∈ overdue_rows s) ∧
  ((length (overdue_rows s) ≤ limit)%nat → ∀ id v, (id, v) ∈ overdue_rows s → id ∈ list_overdue_scheduled limit s).
Proof.
  unfold list_overdue_scheduled. fold (overdue_rows s).
  set (key := λ '(_, v), _). pose proof (sorted_by_perm key (overdue_rows s)) as Hp.
  split_and!.
  - set (l := (sorted_by key (overdue_rows s)).*1).
    assert (NoDup l) as Hnd by (unfold l; rewrite Hp; apply NoDup_filter_fst, NoDup_fst_map_to_list).
    rewrite <- (take_drop limit l) in Hnd. apply NoDup_app in Hnd as (Hnd & _). exact Hnd.
  - intros id Hin. apply sublist_take_elem in Hin. rewrite Hp in Hin.
    apply list_elem_of_fmap in Hin as ([id' v] & -> & Hin). by exists v.
  - intros Hle id v Hin. rewrite take_ge.
    + rewrite Hp. apply list_elem_of_fmap. by exists (id, v).
    + by rewrite length_fmap, Hp.
Qed.

(** C34: the reconciler.  On rows that satisfy the foreign keys it never fails:
    it activates exactly the vouchers it lists, sends one event for each, and
    returns their keys; every other voucher is as it was; and when the overdue
    vouchers fit the limit, none is overdue afterwards. *)
Theorem reconcile_activates limit s :
  (∀ id v, s.(vouchers) !! id = Some v → links_ok s v) →
  let overdue := list_overdue_scheduled limit s in
  let '(res, s') := reconcile_overdue_scheduled_vouchers limit s in
  res = Ok overdue ∧
  s'.(events) = s.(events) ++ (VoucherActiveEvent <$> overdue) ∧
  (∀ id v, s.(vouchers) !! id = Some v → s'.(vouchers) !! id =
     Some (if id in? overdue then delivered_row s.(now) (reconciler_result s.(now)) v else v)) ∧
  ((length (overdue_rows s) ≤ limit)%nat → overdue_rows s' = []).
Proof.
  intros Hl overdue. destruct (list_overdue_spec limit s) as (Hnd & Hin & Hall). fold overdue in Hnd, Hin, Hall.
  unfold reconcile_overdue_scheduled_vouchers. row_runs. fold overdue.
  rewrite reconcile_loop_run; [|done|].
  2:{ intros id (v & [Hv Ho]%elem_of_overdue_rows)%Hin. unfold is_overdue in Ho. breflect. eauto. }
  assert (∀ id v, s.(vouchers) !! id = Some v →
    deliver_all s.(now) overdue s.(vouchers) !! id =
    Some (if id in? overdue then delivered_row s.(now) (reconciler_result s.(now)) v else v)) as Hlook.
  { intros id v Hv. rewrite deliver_all_lookup, Hv by done. by destruct (id in? overdue). }
  split_and!; try done.
  intros Hfit. match goal with |- ?l = [] => destruct l as [|[id v'] l'] eqn:E; [done|] end. exfalso.
  pose proof (list_elem_of_here (id, v') l') as Hx. rewrite <- E in Hx.
  apply elem_of_overdue_rows in Hx as [Hx Hov].
  change (deliver_all s.(now) overdue s.(vouchers) !! id = Some v') in Hx.
  destruct (s.(vouchers) !! id) as [v|] eqn:Hv.
  2:{ rewrite deliver_all_lookup, Hv in Hx by done. by destruct (id in? overdue). }
  rewrite (Hlook id v Hv) in Hx. destruct (id in? overdue) eqn:Ei; breflect; simplify_eq.
  apply Ei, (Hall Hfit id v'). by apply elem_of_overdue_rows.
Qed.

(** ** Rescheduling *)

Section delivery.
Context (schedule_answer : list OutboundCall → OutboundCall → result string).

(** When a voucher may be given a new time. *)
Definition reschedulable (v : GiftVoucher) (now_ t : Z) : Prop :=
  v.(gv_status) = value SCHEDULED ∧ now_ < t ∧ t <= now_ + RESCHEDULE_WINDOW.

(** The call the scheduler gets. *)
Definition reschedule_call (id : Z) (v : GiftVoucher) (t : Z) : OutboundCall :=
  if truthy_opt v.(gv_delivery_schedule_name)
  then UpdateScheduleCall (default "" v.(gv_delivery_schedule_name)) (uuid_str id) t
  else CreateScheduleCall ("voucher-delivery-" ++ uuid_str id)%string (uuid_str id) t.

Definition rescheduled_row (id : Z) (actor : option string) (now_ t : Z) (arn : string) (v : GiftVoucher) : GiftVoucher :=
  attribute ((if truthy_opt v.(gv_delivery_schedule_name) then v
              else v <| gv_delivery_schedule_name := Some ("voucher-delivery-" ++ uuid_str id)%string |>)
    <| gv_delivery_schedule_arn := Some arn |> <| gv_scheduled_delivery_at := Some t |>
    <| gv_reschedule_count := v.(gv_reschedule_count) + 1 |>
    <| gv_update_history := v.(gv_update_history) ++
         [mk_voucher_history "rescheduled" now_ (por_str actor "staff") None None (Some t)
            (Some (v.(gv_reschedule_count) + 1))] |>).

Lemma reschedule_run id t actor s v :
  s.(vouchers) !! id = Some v → links_ok s v → reschedulable v s.(now) (to_kuwait t) →
  let call := reschedule_call id v (to_kuwait t) in
  reschedule_voucher schedule_answer id t actor s =
    match schedule_answer s.(outbound) call with
    | Ok arn => (Ok (), s <| outbound := s.(outbound) ++ [call] |>
                          <| vouchers := <[id := rescheduled_row id actor s.(now) (to_kuwait t) arn v]> s.(vouchers) |>)
    | Raise e => (Raise e, s <| outbound := s.(outbound) ++ [call] |>)
    end.
Proof.
  intros Hv Hl (Hs & Hlo & Hhi) call. unfold reschedule_voucher, get_by_id. row_runs. rewrite Hv. row_runs.
  rewrite Hs, String.eqb_refl. cbn [negb]. cbv iota.
  row_runs. rewrite (proj2 (Z.leb_gt _ _)) by lia. row_runs. rewrite (proj2 (Z.ltb_ge _ _)) by lia. row_runs.
  unfold update_voucher_schedule, create_voucher_schedule, call_scheduler, call, reschedule_call, rescheduled_row.
  destruct (gv_delivery_schedule_name v) as [name|] eqn:En; [destruct (truthy name) eqn:Et|];
    cbn [truthy_opt default]; rewrite ?Et; cbv zeta; row_runs; unfold lift;
    destruct (schedule_answer _ _) as [arn|e]; try reflexivity; row_runs.
  all: rewrite (upd_voucher_first id _ _ v) by exact Hv; voucher_runs.
  all: rewrite flush_with by exact Hl; reflexivity.
Qed.

(** A voucher gets a new delivery time only while it is scheduled, for a
    time in the future and at most sixty-two days ahead; otherwise the request
    is refused with a validation error, and nothing is written or sent.  When
    it is admitted the scheduler gets exactly one call: if it answers, the
    voucher has the new time and counts one more rescheduling, and keeps its
    status; if it fails, the row is as it was. *)
Theorem reschedule_correct id t actor s v :
  s.(vouchers) !! id = Some v → links_ok s v →
  let '(res, s') := in_session (reschedule_voucher schedule_answer id t actor) s in
  (¬ reschedulable v s.(now) (to_kuwait t) → res = Raise (err ValidationError) ∧ s' = s) ∧
  (reschedulable v s.(now) (to_kuwait t) →
     s'.(outbound) = s.(outbound) ++ [reschedule_call id v (to_kuwait t)] ∧
     match schedule_answer s.(outbound) (reschedule_call id v (to_kuwait t)) with
     | Ok arn => res = Ok () ∧ ∃ v', s'.(vouchers) = <[id := v']> s.(vouchers) ∧
         v'.(gv_status) = value SCHEDULED ∧ v'.(gv_scheduled_delivery_at) = Some (to_kuwait t) ∧
         v'.(gv_reschedule_count) = v.(gv_reschedule_count) + 1 ∧
         v'.(gv_delivery_schedule_arn) = Some arn ∧ v'.(gv_redemptions) = v.(gv_redemptions)
     | Raise e => res = Raise e ∧ s'.(vouchers) = s.(vouchers)
     end).
Proof.
  intros Hv Hl. destruct (in_session _ s) as [res s'] eqn:E. split.
  - intros Hno. rewrite (in_session_raise _ (err ValidationError) s) in E; [by simplify_eq|].
    unfold reschedule_voucher, get_by_id. row_runs. rewrite Hv. row_runs.
    destruct (String.eqb _ _) eqn:Es; breflect; [|done]. cbn [negb]. row_runs.
    destruct (_ <=? _) eqn:Elo; breflect; [done|]. row_runs.
    destruct (_ <? _) eqn:Ehi; breflect; [done|]. by destruct Hno.
  - intros Hyes. unfold in_session in E. rewrite (reschedule_run id t actor s v Hv Hl Hyes) in E.
    destruct (schedule_answer _ _) as [arn|e]; simplify_eq; split_and!; try done.
    eexists. split_and!; [reflexivity|..]; unfold rescheduled_row; destruct (truthy_opt _); try reflexivity;
      apply Hyes.
Qed.

(** ** An undelivered voucher is not made active early *)

Lemma redirect_not_active v t :
  v.(gv_delivery_mode) = "scheduled" → v.(gv_delivered_at) = None → redirect_target v t ≠ ACTIVE.
Proof.
  intros Hm Hd. unfold redirect_target. rewrite Hm, Hd. simpl.
  destruct (decide (t = ACTIVE)) as [->|Hne]; [done|]. by rewrite bool_decide_eq_false_2.
Qed.

(** [update_status] leaves the status alone or sets the redirected target. *)
Lemma update_status_target id st a s v :
  s.(vouchers) !! id = Some v →
  wp (update_status schedule_answer id st a) s (λ _ s', ∃ v', s'.(vouchers) !! id = Some v' ∧
    (v'.(gv_status) = v.(gv_status) ∨ ∃ t, v'.(gv_status) = value (redirect_target v t))).
Proof.
  intros Hv.
  assert (∃ v', s.(vouchers) !! id = Some v' ∧ (v'.(gv_status) = v.(gv_status) ∨
    ∃ t, v'.(gv_status) = value (redirect_target v t))) as Hsame by eauto.
  unfold update_status. apply wp_bind, wp_get_by_id; [|done]. intros v0 Hv0. simplify_eq. cbn beta iota.
  apply wp_bind, wp_as_validation; [intros c Hc|done]. cbn beta iota.
  apply wp_bind, wp_as_validation; [intros t Ht|done]. cbn beta iota zeta.
  apply wp_bind, wp_as_validation; [intros u Hu|done]. cbn beta iota.
  apply wp_bind. eapply wp_of_run; [by apply upd_voucher_first|]. cbn beta iota.
  set (s1 := with_voucher _ _ _).
  eapply wp_mono; [apply (wp_touches id (keeps core) _ s1); [|reflexivity]|].
  - change_only; try apply changes_upd_voucher; intros.
    all: first [apply record_payment_keeps|apply set_redeemed_keeps
               |apply changes_schedule_delivery|apply changes_cancel_delivery].
  - intros r s2 H2. destruct (touches_row _ _ _ _ (set_status (redirect_target v t) a v) H2)
      as (v' & Hv' & Hk); [apply lookup_insert_eq|].
    exists v'. split; [exact Hv'|]. right. exists t. unfold keeps in Hk. rewrite set_status_core in Hk.
    by injection Hk as -> _.
Qed.

(** a status change never makes a voucher active ahead of its delivery: as
    long as a voucher with scheduled delivery has not been delivered, a request
    to activate it (a payment confirmed) only schedules it. *)
Theorem scheduled_voucher_waits id st a s v v' :
  s.(vouchers) !! id = Some v → v.(gv_delivery_mode) = "scheduled" → v.(gv_delivered_at) = None →
  v.(gv_status) ≠ value ACTIVE →
  (in_session (update_status schedule_answer id st a) s).2.(vouchers) !! id = Some v' →
  v'.(gv_status) ≠ value ACTIVE.
Proof.
  intros Hv Hm Hd Hst Hv'. pose proof (update_status_target id st a s v Hv) as Hw.
  unfold wp in Hw. unfold in_session in Hv'.
  destruct (update_status schedule_answer id st a s) as [[u|e] s1]; simpl in *; [|congruence].
  destruct Hw as (v1 & Hv1 & Hcase). rewrite Hv1 in Hv'. injection Hv' as <-.
  destruct Hcase as [->|[t ->]]; [done|]. intros Heq.
  by apply (redirect_not_active v t Hm Hd), (value_inj _ ACTIVE).
Qed.
End delivery.

(** ** At concrete inputs *)

(** A paid voucher waiting for its delivery tomorrow. *)
Definition demo_waiting : Store :=
  demo_run [Create (demo_new (Some "scheduled") (Some (demo_day + us_per_day))); UpdateStatus 1 "active" no_args].
Definition demo_overdue : Store := demo_waiting <| now := demo_day + 2 * us_per_day |>.

Lemma demo_waiting_row : demo_waiting.(vouchers) !! 1 = Some (demo_row demo_waiting).
Proof. vm_compute. reflexivity. Qed.

Lemma activation_once_witness :
  let s := demo_overdue in
  s.(vouchers) !! 1 = Some (demo_row s) ∧ (demo_row s).(gv_status) = value SCHEDULED ∧
  let '(res, s') := activate_scheduled_voucher 1 None s in
  res = Ok () ∧ s'.(events) = s.(events) ++ [VoucherActiveEvent 1] ∧
  activate_scheduled_voucher 1 None s' = (Ok (), s').
Proof.
  intros s. assert (s.(vouchers) !! 1 = Some (demo_row s)) as Hv by (vm_compute; reflexivity).
  assert ((demo_row s).(gv_status) = value SCHEDULED) as Hst by (vm_compute; reflexivity).
  split; [exact Hv|]. split; [exact Hst|].
  assert (links_ok s (demo_row s)) as Hl by (split; vm_compute; reflexivity).
  pose proof (activation_once 1 None s (demo_row s) Hv Hl) as H.
  destruct (activate_scheduled_voucher 1 None s) as [res s'].
  destruct H as (Hres & _ & Hact & Hagain). destruct (Hact Hst) as (_ & Hev).
  split; [exact Hres|]. split; [exact Hev|]. pose proof (Hagain None (now s')) as Hg. by destruct s'.
Defined.

Lemma reconcile_activates_witness :
  (∀ id v, demo_overdue.(vouchers) !! id = Some v → links_ok demo_overdue v) ∧
  let '(res, s') := reconcile_overdue_scheduled_vouchers 50 demo_overdue in
  res = Ok [1] ∧ overdue_rows s' = [].
Proof.
  assert (∀ id v, demo_overdue.(vouchers) !! id = Some v → links_ok demo_overdue v) as Hl.
  { eassert (demo_overdue.(vouchers) = {[ 1 := _ ]}) as -> by (vm_compute; reflexivity).
    intros id v [<- <-]%lookup_singleton_Some. split; vm_compute; reflexivity. }
  split; [exact Hl|]. pose proof (reconcile_activates 50 demo_overdue Hl) as H. cbv zeta in H.
  destruct (reconcile_overdue_scheduled_vouchers 50 demo_overdue) as [res s'].
  destruct H as (Hres & _ & _ & Hnone). split; [rewrite Hres; vm_compute; reflexivity|].
  apply Hnone. vm_compute. lia.
Defined.

Lemma reschedule_correct_witness :
  let t := Naive (demo_day + kuwait_offset + 5 * us_per_day) in
  let '(res, s') := in_session (reschedule_voucher demo_scheduler 1 t None) demo_waiting in
  reschedulable (demo_row demo_waiting) demo_waiting.(now) (to_kuwait t) ∧ res = Ok () ∧
  (demo_row s').(gv_scheduled_delivery_at) = Some (demo_day + 5 * us_per_day).
Proof.
  intros t. assert (links_ok demo_waiting (demo_row demo_waiting)) as Hl by (split; vm_compute; reflexivity).
  assert (reschedulable (demo_row demo_waiting) demo_waiting.(now) (to_kuwait t)) as Hr.
  { unfold reschedulable. split_and!; vm_compute; done. }
  pose proof (reschedule_correct demo_scheduler 1 t None demo_waiting _ demo_waiting_row Hl) as H.
  destruct (in_session _ demo_waiting) as [res s']. destruct H as [_ H].
  destruct (H Hr) as (_ & Hok & v' & Hrows & _ & Hat & _). split; [exact Hr|]. split; [exact Hok|].
  unfold demo_row. rewrite Hrows, lookup_insert_eq. simpl. rewrite Hat. vm_compute. reflexivity.
Defined.

Lemma scheduled_voucher_waits_witness :
  let s := demo_run [Create (demo_new (Some "scheduled") (Some (demo_day + us_per_day)))] in
  s.(vouchers) !! 1 = Some (demo_row s) ∧ (demo_row s).(gv_status) = "created" ∧
  ∃ v', (in_session (update_status demo_scheduler 1 "active" no_args) s).2.(vouchers) !! 1 = Some v' ∧
        v'.(gv_status) ≠ value ACTIVE.
Proof.
  intros s. assert (s.(vouchers) !! 1 = Some (demo_row s)) as Hv by (vm_compute; reflexivity).
  split; [exact Hv|]. split; [vm_compute; reflexivity|].
  eassert ((in_session (update_status demo_scheduler 1 "active" no_args) s).2.(vouchers) !! 1 = Some _) as Hv'
    by (vm_compute; reflexivity).
  eexists. split; [exact Hv'|].
  refine (scheduled_voucher_waits demo_scheduler 1 "active" no_args s (demo_row s) _ Hv _ _ _ Hv');
    vm_compute; done.
Defined.

(** ** What departs from the documents *)

(** A general update has no redirection: the same activation through
    [update_voucher] makes the voucher active before its delivery. *)
Example patched_active_skips_schedule :
  let s := demo_run [Create (demo_new (Some "scheduled") (Some (demo_day + us_per_day)));
                     UpdateVoucher 1 (no_updates <| uv_status := Some (Some "active") |>) None] in
  (demo_row s).(gv_status) = "active" ∧ (demo_row s).(gv_delivered_at) = None.
Proof. split; vm_compute; reflexivity. Qed.

(** The expiry date is not looked at: a voucher past it is redeemed. *)
Example expired_voucher_redeemed :
  let s := demo_run (take 2 demo_ops ++ [TimePasses (400 * us_per_day); demo_redeem [11; 12]]) in
  (demo_row s).(gv_expire_date) < s.(now) ∧ (demo_row s).(gv_status) = "redeemed".
Proof. split; vm_compute; reflexivity. Qed.

(** A service gifted twice is used up by one redemption. *)
Example duplicate_service_lost :

  let a := mk_new_voucher None [] [demo_service 11 60; demo_service 11 60] 40000 0 7 None None None None None
    [] 0 None 0 "KWD" None None None None None None None None None None None None None None (Some "active")
    None None None None None None None None false None None "A1B2C3" "token" in
  let s := demo_run [Create a; demo_redeem [11]; demo_redeem [11]] in
  length (demo_row s).(gv_services) = 2%nat ∧ length (demo_row s).(gv_redemptions) = 1%nat ∧
  (demo_row s).(gv_status) = "redeemed".
Proof. split_and!; vm_compute; reflexivity. Qed.

(** A status change writes a delivery status without consulting the delivery
    machine, here back from delivered to ordered. *)
Example delivery_set_back :
  let s := demo_run [Create (demo_new None None);
    UpdateStatus 1 "active" (no_args <| st_delivery_status := Some "delivered" |>);
    UpdateStatus 1 "active" (no_args <| st_delivery_status := Some "ordered" |>)] in
  (demo_row s).(gv_delivery_status) = Some "ordered".
Proof. vm_compute. reflexivity. Qed.

(** The schedule of a voucher created as scheduled is made before it has a
    key, in the name of no voucher. *)
Example schedule_without_voucher :
  let a := mk_new_voucher None [] [demo_service 11 60] 40000 0 7 None None None None None
    [] 0 None 0 "KWD" None None None None None None None None None None None None None None (Some "active")
    None None None None None None None None false (Some "scheduled") (Some (demo_day + us_per_day)) "A1B2C3" "token" in
  (demo_run [Create a]).(outbound) =
    [CreateScheduleCall "voucher-delivery-None" "None" (demo_day + us_per_day)].
Proof. vm_compute. reflexivity. Qed.
