(* ===== verification/Loyalty.v ===== *)
(** * The loyalty programme

    The rules (app/loyalty/domain/rules.py), the repository
    (app/loyalty/infrastructure/repository.py) and the service
    (app/loyalty/application/services.py).  An account is the row of its
    customer; the ledger is the list of transactions, oldest first. *)

From S2P Require Import Prelude Exceptions Effects Money Store.

(** ** Rules *)
Module Rules.
Definition DEFAULT_EXPIRY_DAYS : Z := 180.
Definition day_us : Z := 24 * 60 * 60 * 1000000.

Definition resolve_earn_points (loyalty_points : Z) (arrangement_loyalty_points : option Z) : Z :=
  match arrangement_loyalty_points with
  | Some a => if 0 <? a then a else Z.max 0 loyalty_points
  | None => Z.max 0 loyalty_points
  end.

Definition compute_expiry (utc_now expiry_days : Z) : Z := utc_now + expiry_days * day_us.

Definition is_account_expired (utc_now : Z) (points_expire_at : option Z) : bool :=
  match points_expire_at with None => false | Some t => t <=? utc_now end.

Definition assert_sufficient_balance (balance_points cost_in_points : Z) : result () :=
  if cost_in_points <=? 0 then Raise (err ValueError)
  else if balance_points <? cost_in_points then Raise (err ValueError)
  else Ok ().
End Rules.
Import Rules.

(** ** Repository *)
Module Repository.
Definition get_account_by_customer (customer_id : Z) : M Store (option LoyaltyAccount) :=
  gets (λ s, s.(loyalty_accounts) !! customer_id).

(** [LoyaltyAccount(customer_id=customer_id)] with the column defaults. *)
Definition new_account (t : Z) : LoyaltyAccount := mk_account 0 0 0 None t.

Definition get_or_create_account (customer_id : Z) : M Store (LoyaltyAccount * bool) :=
  account ← get_account_by_customer customer_id;
  match account with
  | Some a => mret (a, false)
  | None =>
      modify (λ s, s <| loyalty_accounts :=
                    <[customer_id := new_account s.(now)]> s.(loyalty_accounts) |>) ;;
      a ← gets (λ s, new_account s.(now));
      mret (a, true)
  end.

Definition upd_account (customer_id : Z) (f : LoyaltyAccount → LoyaltyAccount) : M Store () :=
  modify (λ s, s <| loyalty_accounts := alter f customer_id s.(loyalty_accounts) |>).

(** [account.updated_at = local_wallclock_now()]. *)
Definition touch_account (customer_id : Z) : M Store () :=
  t ← gets now; upd_account customer_id (λ a, a <| la_updated_at := t |>).

Definition add_txn (t : LoyaltyTransaction) : M Store () :=
  modify (λ s, s <| loyalty_transactions := s.(loyalty_transactions) ++ [t] |>).

(** [description or default]. *)
Definition note_or (description : option string) (d : TxnNote) : TxnNote :=
  match description with Some t => if truthy t then Note t else d | None => d end.

Definition credit_points (customer_id points expiry : Z) (booking_id : option Z)
    (booking_number description created_by : option string) : M Store (option LoyaltyAccount) :=
  raise_if (points <=? 0) (err ValueError) ;;
  get_or_create_account customer_id ;;
  upd_account customer_id (λ a,
    a <| la_balance_points := a.(la_balance_points) + points |>
      <| la_total_earned := a.(la_total_earned) + points |>
      <| la_points_expire_at := Some expiry |>) ;;
  touch_account customer_id ;;
  add_txn (mk_txn customer_id EARN points booking_id booking_number
    (note_or description (PointsEarnedFrom booking_number booking_id)) created_by) ;;
  get_account_by_customer customer_id.

Definition debit_points (customer_id points : Z) (booking_id : option Z)
    (booking_number description created_by : option string) : M Store (option LoyaltyAccount) :=
  account ← get_account_by_customer customer_id;
  match account with
  | None => raise (err ValueError)
  | Some a =>
      lift (assert_sufficient_balance a.(la_balance_points) points) ;;
      upd_account customer_id (λ a,
        a <| la_balance_points := a.(la_balance_points) - points |>
          <| la_total_redeemed := a.(la_total_redeemed) + points |>) ;;
      touch_account customer_id ;;
      add_txn (mk_txn customer_id REDEEM points booking_id booking_number
        (note_or description (PointsRedeemedFor booking_number booking_id)) created_by) ;;
      get_account_by_customer customer_id
  end.

Definition cancel_points (customer_id points : Z) (booking_id : option Z)
    (booking_number description created_by : option string) : M Store (option LoyaltyAccount) :=
  account ← get_account_by_customer customer_id;
  match account with
  | None => mret None
  | Some a =>
      let deduct := Z.min points a.(la_balance_points) in
      when (0 <? deduct)
        (upd_account customer_id (λ a,
           a <| la_balance_points := a.(la_balance_points) - deduct |>) ;;
         touch_account customer_id) ;;
      add_txn (mk_txn customer_id CANCEL points booking_id booking_number
        (note_or description (PointsReversedFor booking_number booking_id)) created_by) ;;
      get_account_by_customer customer_id
  end.

Definition expire_account_if_needed (customer_id : Z) (account : LoyaltyAccount)
    (created_by : string) : M Store bool :=
  t ← gets now;
  if negb (is_account_expired t account.(la_points_expire_at)) then mret false
  else
    when (0 <? account.(la_balance_points))
      (upd_account customer_id (λ a, a <| la_balance_points := 0 |>) ;;
       touch_account customer_id ;;
       add_txn (mk_txn customer_id EXPIRE account.(la_balance_points) None None
         (Note "Points expired due to inactivity.") (Some created_by))) ;;
    mret true.

Definition adjust_points (customer_id delta : Z) (description created_by : option string)
    : M Store (option LoyaltyAccount) :=
  '(account, _) ← get_or_create_account customer_id;
  delta' ←
    (if 0 <? delta then
       upd_account customer_id (λ a,
         a <| la_balance_points := a.(la_balance_points) + delta |>
           <| la_total_earned := a.(la_total_earned) + delta |>) ;;
       mret delta
     else
       let deduct := Z.min (Z.abs delta) account.(la_balance_points) in
       upd_account customer_id (λ a,
         a <| la_balance_points := a.(la_balance_points) - deduct |>) ;;
       mret (- deduct));
  touch_account customer_id ;;
  add_txn (mk_txn customer_id ADJUST (Z.abs delta') None None
    (note_or description (Note "Manual adjustment.")) created_by) ;;
  get_account_by_customer customer_id.

(** [list_transactions]: newest first, one page; and [count_transactions]. *)
Definition customer_transactions (customer_id : Z) (s : Store) : list LoyaltyTransaction :=
  List.filter (λ t, t.(lt_customer_id) ==? customer_id) s.(loyalty_transactions).
Definition list_transactions (customer_id : Z) (limit offset : nat) : M Store (list LoyaltyTransaction) :=
  gets (λ s, take limit (drop offset (rev (customer_transactions customer_id s)))).
Definition count_transactions (customer_id : Z) : M Store Z :=
  gets (λ s, Z.of_nat (length (customer_transactions customer_id s))).
End Repository.

(** ** Service *)
Module LoyaltyService.
Section service.
Context (LOYALTY_POINTS_EXPIRY_DAYS : Z).

Definition get_account (customer_id : Z) : M Store (option LoyaltyAccount) :=
  account ← Repository.get_account_by_customer customer_id;
  match account with
  | None => mret None
  | Some a =>
      Repository.expire_account_if_needed customer_id a "system" ;;
      Repository.get_account_by_customer customer_id
  end.

(** The booking was itself paid with points. *)
Definition is_loyalty_booking (bk : Booking) : bool :=
  String.eqb bk.(bk_booking_type) "loyalty"
  || String.eqb bk.(bk_payment_type) "rewarded"
  || String.eqb (lower bk.(bk_payment_status)) "rewarded"
  || match bk.(bk_reward_id) with Some _ => true | None => false end
  || jtruthy (dict_get (or_empty bk.(bk_loyalty_data)) "points_cost")
  || jtruthy (dict_get (or_empty bk.(bk_loyalty_data)) "reward_id").

(** Return the account without modifying it, creating it if need be. *)
Definition account_unchanged (customer_id : Z) : M Store (option LoyaltyAccount) :=
  account ← Repository.get_account_by_customer customer_id;
  match account with
  | Some a => mret (Some a)
  | None => '(a, _) ← Repository.get_or_create_account customer_id; mret (Some a)
  end.

(** The [SELECT] on the ledger that makes crediting idempotent. *)
Definition already_credited (customer_id booking_id : Z) (s : Store) : bool :=
  existsb (λ t, (t.(lt_customer_id) ==? customer_id) && (t.(lt_booking_id) ==? Some booking_id)
                && (t.(lt_transaction_type) ==? EARN)) s.(loyalty_transactions).

Definition credit_points (customer_id loyalty_points : Z) (arrangement_loyalty_points : option Z)
    (booking_id : option Z) (booking_number : option string) (created_by : string)
    : M Store (option LoyaltyAccount) :=
  skip ← gets (λ s, match booking_id with
                    | Some b => match s.(bookings) !! b with
                                | Some bk => is_loyalty_booking bk
                                | None => false
                                end
                    | None => false
                    end);
  if skip : bool then account_unchanged customer_id
  else
    let points := resolve_earn_points loyalty_points arrangement_loyalty_points in
    if points <=? 0 then account_unchanged customer_id
    else
      already ← gets (λ s, match booking_id with
                           | Some b => already_credited customer_id b s
                           | None => false
                           end);
      if already : bool then account_unchanged customer_id
      else
        t ← gets now;
        Repository.credit_points customer_id points (compute_expiry t LOYALTY_POINTS_EXPIRY_DAYS)
          booking_id booking_number None (Some created_by).

Definition redeem_points (customer_id cost_in_points : Z) (booking_id : option Z)
    (booking_number : option string) (created_by : string) : M Store (option LoyaltyAccount) :=
  account ← get_account customer_id;
  match account with
  | None => raise (err ValueError)
  | Some _ =>
      Repository.debit_points customer_id cost_in_points booking_id booking_number None
        (Some created_by)
  end.

Definition cancel_booking_points (customer_id points : Z) (booking_id : option Z)
    (booking_number : option string) (created_by : string) : M Store (option LoyaltyAccount) :=
  if points <=? 0 then mret None
  else Repository.cancel_points customer_id points booking_id booking_number None (Some created_by).

Definition adjust_points (customer_id delta : Z) (description : option string)
    (created_by : string) : M Store (option LoyaltyAccount) :=
  Repository.adjust_points customer_id delta description (Some created_by).

(** The requests the service receives. *)
Inductive request :=
  | GetAccount (customer_id : Z)
  | Credit (customer_id loyalty_points : Z) (arrangement : option Z) (booking_id : option Z)
      (booking_number : option string)
  | Redeem (customer_id cost : Z) (booking_id : option Z) (booking_number : option string)
  | CancelBooking (customer_id points : Z) (booking_id : option Z) (booking_number : option string)
  | Adjust (customer_id delta : Z) (description : option string)
  | Tick (dt : Z).

(** Handle one request; [Tick] lets time pass. *)
Definition handle (r : request) : M Store () :=
  match r with
  | GetAccount c => get_account c ;; mret ()
  | Credit c p a b n => credit_points c p a b n "ushnotice" ;; mret ()
  | Redeem c k b n => redeem_points c k b n "api" ;; mret ()
  | CancelBooking c p b n => cancel_booking_points c p b n "ushnotice" ;; mret ()
  | Adjust c d t => adjust_points c d t "admin" ;; mret ()
  | Tick dt => modify (λ s, s <| now := s.(now) + Z.max 0 dt |>)
  end.
End service.
End LoyaltyService.

(** * Specification *)

(** The state after an account was written and a transaction appended. *)
Definition book (s : Store) (c : Z) (a : LoyaltyAccount) (t : LoyaltyTransaction) : Store :=
  s <| loyalty_accounts := <[c := a]> s.(loyalty_accounts) |>
    <| loyalty_transactions := s.(loyalty_transactions) ++ [t] |>.

Definition account_or_new (s : Store) (c : Z) : LoyaltyAccount :=
  default (Repository.new_account s.(now)) (s.(loyalty_accounts) !! c).

(** Points are never negative, and what was ever earned covers the balance and
    what was spent. *)
Definition account_ok (a : LoyaltyAccount) : Prop :=
  0 <= a.(la_balance_points) ∧ 0 <= a.(la_total_redeemed) ∧
  a.(la_balance_points) + a.(la_total_redeemed) <= a.(la_total_earned).

(** The times a booking of a customer has earned points. *)
Definition earned_for (c b : Z) (l : list LoyaltyTransaction) : nat :=
  length (List.filter (λ t, (t.(lt_customer_id) ==? c) && (t.(lt_booking_id) ==? Some b)
                            && (t.(lt_transaction_type) ==? EARN)) l).

#[local] Arguments earned_for : simpl never.

(** Every account is in order, and a booking has earned at most once. *)
Definition loyalty_ok (s : Store) : Prop :=
  (∀ c a, s.(loyalty_accounts) !! c = Some a → account_ok a) ∧
  (∀ c b, (earned_for c b s.(loyalty_transactions) <= 1)%nat).

(** * Theorems *)

(** The tail every write of the repository ends with. *)
Lemma write_account_run c f t s a :
  s.(loyalty_accounts) !! c = Some a →
  (Repository.upd_account c f ;; Repository.touch_account c ;; Repository.add_txn t ;;
   Repository.get_account_by_customer c) s =
  let a' := (f a) <| la_updated_at := s.(now) |> in (Ok (Some a'), book s c a' t).
Proof.
  intros Ha. cbv zeta. unfold book, Repository.upd_account, Repository.touch_account,
    Repository.add_txn, Repository.get_account_by_customer, mbind, M_bind, gets, modify. cbn.
  rewrite (alter_twice _ _ _ _ _ Ha), lookup_insert_eq. done.
Qed.

Lemma get_or_create_run c s :
  Repository.get_or_create_account c s =
  let a := account_or_new s c in
  (Ok (a, match s.(loyalty_accounts) !! c with Some _ => false | None => true end),
   s <| loyalty_accounts := <[c := a]> s.(loyalty_accounts) |>).
Proof.
  unfold Repository.get_or_create_account, account_or_new, Repository.get_account_by_customer,
    mbind, M_bind, gets, modify. cbn.
  destruct (s.(loyalty_accounts) !! c) as [a|] eqn:E; cbn; [|done].
  rewrite insert_id by done. by destruct s.
Qed.

Lemma book_overwrite s c a a' t :
  book (s <| loyalty_accounts := <[c := a]> s.(loyalty_accounts) |>) c a' t = book s c a' t.
Proof. unfold book; cbn. by rewrite insert_insert_eq. Qed.

Lemma repo_credit_run c p e b n d by_ s :
  0 < p →
  Repository.credit_points c p e b n d by_ s =
  let a := account_or_new s c in
  let a' := mk_account (a.(la_balance_points) + p) (a.(la_total_earned) + p)
              a.(la_total_redeemed) (Some e) s.(now) in
  (Ok (Some a'), book s c a' (mk_txn c EARN p b n
     (Repository.note_or d (PointsEarnedFrom n b)) by_)).
Proof.
  intros Hp. unfold Repository.credit_points. rewrite bind_run.
  destruct (p <=? 0) eqn:E; breflect; [lia|]. cbn [raise_if mret M_ret].
  rewrite bind_run, get_or_create_run. cbv zeta. cbv beta iota.
  rewrite (write_account_run _ _ _ _ (account_or_new s c)) by apply lookup_insert_eq.
  cbv zeta. by rewrite book_overwrite.
Qed.

Lemma repo_debit_run c p b n d by_ s :
  Repository.debit_points c p b n d by_ s =
  match s.(loyalty_accounts) !! c with
  | None => (Raise (err ValueError), s)
  | Some a =>
      if (p <=? 0) || (a.(la_balance_points) <? p) then (Raise (err ValueError), s)
      else
        let a' := mk_account (a.(la_balance_points) - p) a.(la_total_earned)
                    (a.(la_total_redeemed) + p) a.(la_points_expire_at) s.(now) in
        (Ok (Some a'), book s c a' (mk_txn c REDEEM p b n
           (Repository.note_or d (PointsRedeemedFor n b)) by_))
  end.
Proof.
  unfold Repository.debit_points. rewrite bind_run.
  unfold Repository.get_account_by_customer at 1, gets at 1. cbv beta iota.
  destruct (s.(loyalty_accounts) !! c) as [a|] eqn:Ha; [|done].
  rewrite bind_run. unfold lift, assert_sufficient_balance.
  destruct (p <=? 0); [done|]. destruct (_ <? p); [done|]. cbv beta iota. simpl orb. cbv iota.
  by rewrite (write_account_run _ _ _ _ a Ha).
Qed.

Lemma repo_cancel_run c p b n d by_ s :
  Repository.cancel_points c p b n d by_ s =
  match s.(loyalty_accounts) !! c with
  | None => (Ok None, s)
  | Some a =>
      let deduct := Z.min p a.(la_balance_points) in
      let a' := if 0 <? deduct
                then mk_account (a.(la_balance_points) - deduct) a.(la_total_earned)
                       a.(la_total_redeemed) a.(la_points_expire_at) s.(now)
                else a in
      (Ok (Some a'), book s c a' (mk_txn c CANCEL p b n
         (Repository.note_or d (PointsReversedFor n b)) by_))
  end.
Proof.
  unfold Repository.cancel_points. rewrite bind_run.
  unfold Repository.get_account_by_customer at 1, gets at 1. cbv beta iota.
  destruct (s.(loyalty_accounts) !! c) as [a|] eqn:Ha; [|done]. cbv zeta.
  destruct (0 <? Z.min p a.(la_balance_points)) eqn:E; cbn [when].
  - exact (write_account_run c _ _ s a Ha).
  - unfold book, Repository.add_txn, Repository.get_account_by_customer, mbind, M_bind, mret, M_ret,
      gets, modify; cbn. rewrite Ha. by rewrite insert_id.
Qed.

Lemma repo_adjust_run c delta d by_ s :
  Repository.adjust_points c delta d by_ s =
  let a := account_or_new s c in
  let deduct := Z.min (Z.abs delta) a.(la_balance_points) in
  let a' := if 0 <? delta
            then mk_account (a.(la_balance_points) + delta) (a.(la_total_earned) + delta)
                   a.(la_total_redeemed) a.(la_points_expire_at) s.(now)
            else mk_account (a.(la_balance_points) - deduct) a.(la_total_earned)
                   a.(la_total_redeemed) a.(la_points_expire_at) s.(now) in
  (Ok (Some a'), book s c a' (mk_txn c ADJUST (Z.abs (if 0 <? delta then delta else - deduct)) None None
     (Repository.note_or d (Note "Manual adjustment.")) by_)).
Proof.
  unfold Repository.adjust_points. rewrite bind_run, get_or_create_run. cbv zeta. cbv beta iota.
  set (a := account_or_new s c).
  set (s1 := s <| loyalty_accounts := <[c := a]> s.(loyalty_accounts) |>).
  assert (s1.(loyalty_accounts) !! c = Some a) as Ha by apply lookup_insert_eq.
  rewrite <- (book_overwrite s c a). fold s1.
  destruct (0 <? delta).
  - exact (write_account_run c _ _ s1 a Ha).
  - exact (write_account_run c _ _ s1 a Ha).
Qed.

Lemma get_account_run c s :
  LoyaltyService.get_account c s =
  match s.(loyalty_accounts) !! c with
  | None => (Ok None, s)
  | Some a =>
      if is_account_expired s.(now) a.(la_points_expire_at) && (0 <? a.(la_balance_points)) then
        let a' := mk_account 0 a.(la_total_earned) a.(la_total_redeemed) a.(la_points_expire_at) s.(now) in
        (Ok (Some a'), book s c a' (mk_txn c EXPIRE a.(la_balance_points) None None
           (Note "Points expired due to inactivity.") (Some "system")))
      else (Ok (Some a), s)
  end.
Proof.
  unfold LoyaltyService.get_account. rewrite bind_run.
  unfold Repository.get_account_by_customer at 1, gets at 1. cbv beta iota.
  destruct (s.(loyalty_accounts) !! c) as [a|] eqn:Ha; [|done].
  unfold Repository.expire_account_if_needed, Repository.get_account_by_customer.
  destruct (is_account_expired s.(now) a.(la_points_expire_at)) eqn:Ee, (0 <? a.(la_balance_points));
    unfold mbind, M_bind, gets; rewrite Ee; cbn; rewrite ?Ha; try done.
  unfold book, Repository.touch_account, Repository.upd_account, Repository.add_txn, mbind, M_bind,
    mret, M_ret, gets, modify; cbn. rewrite (alter_twice _ _ _ _ _ Ha), lookup_insert_eq. done.
Qed.

Lemma account_unchanged_run c s :
  LoyaltyService.account_unchanged c s =
  (Ok (Some (account_or_new s c)),
   s <| loyalty_accounts := <[c := account_or_new s c]> s.(loyalty_accounts) |>).
Proof.
  unfold LoyaltyService.account_unchanged. rewrite bind_run.
  unfold Repository.get_account_by_customer, gets; cbv beta iota.
  destruct (s.(loyalty_accounts) !! c) as [a|] eqn:Ha.
  - unfold account_or_new. rewrite Ha. simpl. rewrite insert_id by done. by destruct s.
  - rewrite bind_run, get_or_create_run. cbv zeta. cbv beta iota. done.
Qed.

(** When the service credits nothing. *)
Definition credit_skipped (s : Store) (c p : Z) (a : option Z) (b : option Z) : bool :=
  match b with
  | Some b => match s.(bookings) !! b with
              | Some bk => LoyaltyService.is_loyalty_booking bk | None => false end
  | None => false
  end
  || (resolve_earn_points p a <=? 0)
  || match b with Some b => LoyaltyService.already_credited c b s | None => false end.

Lemma service_credit_run days c p a b n who s :
  LoyaltyService.credit_points days c p a b n who s =
  let acc := account_or_new s c in
  if credit_skipped s c p a b
  then (Ok (Some acc), s <| loyalty_accounts := <[c := acc]> s.(loyalty_accounts) |>)
  else
    let pts := resolve_earn_points p a in
    let a' := mk_account (acc.(la_balance_points) + pts) (acc.(la_total_earned) + pts)
                acc.(la_total_redeemed) (Some (compute_expiry s.(now) days)) s.(now) in
    (Ok (Some a'), book s c a' (mk_txn c EARN pts b n (PointsEarnedFrom n b) (Some who))).
Proof.
  unfold LoyaltyService.credit_points, credit_skipped. rewrite bind_run.
  unfold gets at 1. cbv beta iota zeta.
  destruct (match b with Some _ => _ | None => _ end); [apply account_unchanged_run|].
  destruct (resolve_earn_points p a <=? 0) eqn:Ep; [apply account_unchanged_run|]. breflect.
  rewrite bind_run. unfold gets at 1. cbv beta iota.
  destruct (match b with Some _ => _ | None => _ end); [apply account_unchanged_run|].
  rewrite bind_run. unfold gets at 1. cbv beta iota. by rewrite repo_credit_run.
Qed.

(** ** Invariant *)

Lemma earned_for_app c b l t :
  earned_for c b (l ++ [t]) =
  (earned_for c b l +
   if (t.(lt_customer_id) ==? c) && (t.(lt_booking_id) ==? Some b) && (t.(lt_transaction_type) ==? EARN)
   then 1 else 0)%nat.
Proof. unfold earned_for. rewrite List.filter_app, length_app. simpl. case_match; simpl; lia. Qed.

Lemma already_credited_spec c b s :
  LoyaltyService.already_credited c b s = false ↔ earned_for c b s.(loyalty_transactions) = 0%nat.
Proof.
  unfold LoyaltyService.already_credited, earned_for.
  induction s.(loyalty_transactions) as [|t l IH]; simpl; [done|].
  destruct (_ && _); simpl; [done|exact IH].
Qed.

Lemma new_account_ok t : account_ok (Repository.new_account t).
Proof. unfold account_ok; simpl; lia. Qed.

Lemma account_or_new_ok s c : loyalty_ok s → account_ok (account_or_new s c).
Proof.
  intros [Hacc _]. unfold account_or_new.
  destruct (s.(loyalty_accounts) !! c) eqn:E; simpl; [eauto|apply new_account_ok].
Qed.

(** Writing an account in order, with an entry that is not a second earning of
    the same booking, keeps the invariant. *)
Lemma book_ok s c a t :
  loyalty_ok s → account_ok a →
  (∀ b, t.(lt_transaction_type) = EARN → t.(lt_booking_id) = Some b →
        earned_for t.(lt_customer_id) b s.(loyalty_transactions) = 0%nat) →
  loyalty_ok (book s c a t).
Proof.
  intros [Hacc Hearn] Ha Ht. split; unfold book; cbn.
  - intros c' a' [[-> <-]|[_ Hc']]%lookup_insert_Some; eauto.
  - intros c' b. rewrite earned_for_app. specialize (Hearn c' b).
    destruct (_ && _) eqn:E; [|lia]. breflect. subst. rewrite Ht by done. lia.
Qed.

Lemma set_account_ok s c a :
  loyalty_ok s → account_ok a → loyalty_ok (s <| loyalty_accounts := <[c := a]> s.(loyalty_accounts) |>).
Proof.
  intros [Hacc Hearn] Ha. split; cbn; [|exact Hearn].
  intros c' a' [[-> <-]|[_ Hc']]%lookup_insert_Some; eauto.
Qed.

Lemma get_account_ok c s : loyalty_ok s → loyalty_ok (LoyaltyService.get_account c s).2.
Proof.
  intros Hs. rewrite get_account_run.
  destruct (s.(loyalty_accounts) !! c) as [a|] eqn:Ha; [|done].
  destruct (_ && _); [|done]. cbn [snd]. pose proof (proj1 Hs c a Ha) as Hok.
  apply book_ok; [done| |done]. unfold account_ok in *; simpl; lia.
Qed.

Lemma repo_debit_ok c p b n d by_ s :
  loyalty_ok s → loyalty_ok (Repository.debit_points c p b n d by_ s).2.
Proof.
  intros Hs. rewrite repo_debit_run. destruct (s.(loyalty_accounts) !! c) as [a|] eqn:Ha; [|done].
  destruct (_ || _) eqn:E; [done|]. breflect. cbn [snd]. pose proof (proj1 Hs c a Ha) as Hok.
  apply book_ok; [done| |done]. unfold account_ok in *; simpl; lia.
Qed.

Lemma adjust_points_ok c delta d by_ s :
  loyalty_ok s → loyalty_ok (Repository.adjust_points c delta d by_ s).2.
Proof.
  intros Hs. rewrite repo_adjust_run. cbn [snd]. pose proof (account_or_new_ok s c Hs) as Hok.
  apply book_ok; [done| |done]. unfold account_ok in *.
  destruct (0 <? delta) eqn:E; breflect; cbn; lia.
Qed.

Lemma handle_ok days r s : loyalty_ok s → loyalty_ok (LoyaltyService.handle days r s).2.
Proof.
  intros Hs. assert (∀ {A} (m : M Store A), loyalty_ok (m s).2 → loyalty_ok ((m ;; mret ()) s).2) as Hunit.
  { intros A m Hm. rewrite bind_run. by destruct (m s) as [[?|?] ?]. }
  destruct r as [c|c p a b n|c k b n|c p b n|c d t|dt]; cbn [LoyaltyService.handle]; try apply Hunit.
  - by apply get_account_ok.
  - rewrite service_credit_run. cbv zeta. pose proof (account_or_new_ok s c Hs) as Hok.
    destruct (credit_skipped s c p a b) eqn:Esk; cbn [snd]; [by apply set_account_ok|].
    unfold credit_skipped in Esk. breflect. apply book_ok; [done| |].
    + unfold account_ok in *; simpl; lia.
    + cbn. intros b' _ ->. by apply already_credited_spec.
  - unfold LoyaltyService.redeem_points. rewrite bind_run. pose proof (get_account_ok c s Hs) as Hg.
    destruct (LoyaltyService.get_account c s) as [[[a|]|e] s']; try done. by apply repo_debit_ok.
  - unfold LoyaltyService.cancel_booking_points. destruct (p <=? 0); [done|].
    rewrite repo_cancel_run. destruct (s.(loyalty_accounts) !! c) as [a|] eqn:Ha; [|done].
    cbn [snd]. pose proof (proj1 Hs c a Ha) as Hok. apply book_ok; [done| |done].
    destruct (0 <? _) eqn:E; breflect; unfold account_ok in *; simpl; lia.
  - by apply adjust_points_ok.
  - exact Hs.
Qed.

(** Handle a list of requests one after the other. *)
Definition handle_all (days : Z) (rs : list LoyaltyService.request) (s : Store) : Store :=
  foldl (λ s r, (LoyaltyService.handle days r s).2) s rs.

(** ** Claims *)

(** C30: whatever requests the loyalty service handles, and however much time
    passes between them, no balance ever becomes negative, the points ever
    earned cover the balance plus the points spent, and a booking earns points
    at most once per customer. *)
Theorem loyalty_invariant (days : Z) (rs : list LoyaltyService.request) (s : Store) :
  loyalty_ok s → loyalty_ok (handle_all days rs s).
Proof.
  unfold handle_all. revert s; induction rs as [|r rs IH]; intros s Hs; [done|].
  cbn [foldl]. apply IH. by apply handle_ok.
Qed.

Definition loyalty_demo : list LoyaltyService.request :=
  [LoyaltyService.Credit 7 50 None (Some 1) (Some "BOK/2026/09/000001");
   LoyaltyService.Credit 7 50 None (Some 1) (Some "BOK/2026/09/000001");
   LoyaltyService.Redeem 7 20 (Some 2) None;
   LoyaltyService.CancelBooking 7 50 (Some 1) None;
   LoyaltyService.Adjust 7 5 None].

Lemma loyalty_invariant_witness :
  la_balance_points <$> (handle_all 180 loyalty_demo (empty_store 0)).(loyalty_accounts) !! 7 = Some 5 ∧
  loyalty_ok (handle_all 180 loyalty_demo (empty_store 0)).
Proof.
  split; [vm_compute; reflexivity|]. apply loyalty_invariant. split; simpl.
  - intros c a. by rewrite lookup_empty.
  - intros c b. unfold earned_for; simpl. lia.
Defined.

(** crediting a booking again changes neither balance nor ledger, whatever
    points the repeated call carries. *)
Theorem credit_idempotent (days c p p' : Z) (a a' : option Z) (b : Z) (n n' : option string)
    (who who' : string) (s : Store) :
  let s1 := (LoyaltyService.credit_points days c p a (Some b) n who s).2 in
  let s2 := (LoyaltyService.credit_points days c p' a' (Some b) n' who' s1).2 in
  0 < resolve_earn_points p a →
  s2.(loyalty_transactions) = s1.(loyalty_transactions) ∧
  s2.(loyalty_accounts) = s1.(loyalty_accounts).
Proof.
  intros s1 s2 Hp.
  assert (is_Some (s1.(loyalty_accounts) !! c) ∧ credit_skipped s1 c p' a' (Some b) = true) as [[x Hx] Hskip].
  { unfold s1. rewrite service_credit_run. cbv zeta.
    destruct (credit_skipped s c p a (Some b)) eqn:Esk; cbn; rewrite lookup_insert_eq; (split; [eauto|]);
      unfold credit_skipped in *; cbn.
    - destruct (match s.(bookings) !! b with Some _ => _ | None => _ end); [done|].
      destruct (resolve_earn_points p a <=? 0) eqn:Ep; breflect; [lia|]. simpl in Esk.
      unfold LoyaltyService.already_credited in *; cbn. rewrite Esk. apply orb_true_r.
    - unfold LoyaltyService.already_credited, book; cbn. rewrite existsb_app; cbn.
      rewrite !bool_decide_true by done. cbn. by rewrite !orb_true_r. }
  unfold s2. rewrite service_credit_run. cbv zeta. rewrite Hskip. cbn. split; [done|].
  unfold account_or_new. rewrite Hx. by apply insert_id.
Qed.

Lemma credit_idempotent_witness :
  let s1 := (LoyaltyService.credit_points 180 7 50 None (Some 1) None "api" (empty_store 0)).2 in
  let s2 := (LoyaltyService.credit_points 180 7 90 None (Some 1) None "api" s1).2 in
  s2.(loyalty_transactions) = s1.(loyalty_transactions) ∧
  s2.(loyalty_accounts) = s1.(loyalty_accounts).
Proof. apply (credit_idempotent 180 7 50 90 None None 1 None None "api" "api" (empty_store 0)). reflexivity. Defined.

(** a redemption succeeds exactly when the customer has an account that is
    not expired and holds the positive cost; it then takes exactly the cost
    from the balance and records it, and otherwise nothing is taken beyond the
    points an expired account loses. *)
Theorem redeem_correct (days c cost : Z) (b : option Z) (n : option string) (who : string) (s : Store) :
  let run := LoyaltyService.redeem_points c cost b n who s in
  match s.(loyalty_accounts) !! c with
  | None => run = (Raise (err ValueError), s)
  | Some a =>
      let expired := is_account_expired s.(now) a.(la_points_expire_at) && (0 <? a.(la_balance_points)) in
      if negb expired && (0 <? cost) && (cost <=? a.(la_balance_points)) then
        let a' := mk_account (a.(la_balance_points) - cost) a.(la_total_earned)
                    (a.(la_total_redeemed) + cost) a.(la_points_expire_at) s.(now) in
        run = (Ok (Some a'), book s c a' (mk_txn c REDEEM cost b n (PointsRedeemedFor n b) (Some who)))
      else run = (Raise (err ValueError), (LoyaltyService.get_account c s).2)
  end.
Proof.
  cbv zeta. unfold LoyaltyService.redeem_points. rewrite bind_run, get_account_run.
  destruct (s.(loyalty_accounts) !! c) as [a|] eqn:Ha; [|done]. cbv zeta.
  destruct (is_account_expired s.(now) a.(la_points_expire_at) && (0 <? a.(la_balance_points))) eqn:Ee;
    cbn [negb andb snd]; rewrite repo_debit_run.
  - unfold book; cbn. rewrite lookup_insert_eq; cbn.
    destruct (cost <=? 0) eqn:E1; [done|]. breflect. simpl.
    destruct (0 <? cost) eqn:E2; breflect; [done|lia].
  - rewrite Ha. destruct (0 <? cost) eqn:E1, (cost <=? la_balance_points a) eqn:E2,
      (cost <=? 0) eqn:E3, (la_balance_points a <? cost) eqn:E4; breflect; try lia; done.
Qed.

(** points added by hand to an account whose expiry date has passed are
    lost: the adjustment leaves the date alone, and the next look at the
    account zeroes the balance. *)
Theorem adjust_on_expired_lost (c delta : Z) (who : string) (s : Store) (a : LoyaltyAccount) :
  s.(loyalty_accounts) !! c = Some a → is_account_expired s.(now) a.(la_points_expire_at) = true →
  0 < delta → 0 <= a.(la_balance_points) →
  let s' := (LoyaltyService.adjust_points c delta None who s).2 in
  la_balance_points <$> s'.(loyalty_accounts) !! c = Some (a.(la_balance_points) + delta) ∧
  la_balance_points <$> (LoyaltyService.get_account c s').2.(loyalty_accounts) !! c = Some 0.
Proof.
  intros Ha He Hd Hb. cbv zeta. unfold LoyaltyService.adjust_points. rewrite repo_adjust_run.
  cbv zeta. unfold account_or_new. rewrite Ha. cbn [default].
  destruct (0 <? delta) eqn:E; breflect; [|lia]. cbn [snd]. unfold id. rewrite get_account_run.
  unfold book; cbn. rewrite !lookup_insert_eq; cbn. split; [done|]. rewrite He.
  destruct (0 <? _) eqn:E'; breflect; [|lia]. cbn. by rewrite lookup_insert_eq.
Qed.

Lemma adjust_on_expired_lost_witness :
  let a := mk_account 10 10 0 (Some 100) 0 in
  let s := (empty_store 200) <| loyalty_accounts := {[7 := a]} |> in
  let s' := (LoyaltyService.adjust_points 7 25 None "admin" s).2 in
  la_balance_points <$> s'.(loyalty_accounts) !! 7 = Some 35 ∧
  la_balance_points <$> (LoyaltyService.get_account 7 s').2.(loyalty_accounts) !! 7 = Some 0.
Proof.
  apply (adjust_on_expired_lost 7 25 "admin"
    ((empty_store 200) <| loyalty_accounts := {[7 := mk_account 10 10 0 (Some 100) 0]} |>)
    (mk_account 10 10 0 (Some 100) 0)); vm_compute; done.
Defined.

(** reversing a cancelled booking's points never takes more than the
    balance, but the ledger records the full amount all the same. *)
Theorem cancel_points_floor (c p : Z) (b : option Z) (n : option string) (who : string)
    (s : Store) (a : LoyaltyAccount) :
  s.(loyalty_accounts) !! c = Some a → 0 <= a.(la_balance_points) → 0 < p →
  let s' := (LoyaltyService.cancel_booking_points c p b n who s).2 in
  la_balance_points <$> s'.(loyalty_accounts) !! c = Some (Z.max 0 (a.(la_balance_points) - p)) ∧
  s'.(loyalty_transactions) =
    s.(loyalty_transactions) ++ [mk_txn c CANCEL p b n (PointsReversedFor n b) (Some who)].
Proof.
  intros Ha Hb Hp. cbv zeta. unfold LoyaltyService.cancel_booking_points.
  destruct (p <=? 0) eqn:E; breflect; [lia|]. rewrite repo_cancel_run, Ha. unfold book; cbn.
  rewrite lookup_insert_eq; cbn. split; [|done]. f_equal.
  destruct (0 <? _) eqn:E'; breflect; cbn; lia.
Qed.

Lemma cancel_points_floor_witness :
  let s := (empty_store 200) <| loyalty_accounts := {[7 := mk_account 10 60 50 None 0]} |> in
  let s' := (LoyaltyService.cancel_booking_points 7 60 (Some 1) None "ushnotice" s).2 in
  la_balance_points <$> s'.(loyalty_accounts) !! 7 = Some 0 ∧
  s'.(loyalty_transactions) = [mk_txn 7 CANCEL 60 (Some 1) None (PointsReversedFor None (Some 1)) (Some "ushnotice")].
Proof.
  refine (cancel_points_floor 7 60 (Some 1) None "ushnotice"
    ((empty_store 200) <| loyalty_accounts := {[7 := mk_account 10 60 50 None 0]} |>)
    (mk_account 10 60 50 None 0) _ _ _); vm_compute; done.
Defined.
