(* ===== verification/RefundLifecycle.v ===== *)
(** * The refund lifecycle
    (app/payment/application/refund_lifecycle.py)

    Every operation of [RefundLifecycle], over the shared rows of Store.v.  An
    operation that receives a row object receives its key here.  Amounts that
    arrive as [Decimal] arguments go through [_dec] ([Money.dec_fils]); the
    column values are whole fils already, on which [_dec] is the identity
    ([Money.dec_fils_of_fils]). *)

From S2P Require Import Prelude Exceptions Effects Money Numbers Store.
From Stdlib Require Import Ascii.
#[local] Open Scope Z_scope.

Definition OPEN_STATUSES : list RefundStatus := [REQUESTED; APPROVED; PROCESSING].
Definition PAID_PAYMENT_STATUSES : list string :=
  ["success"; "paid"; "partially_refunded"; "refunded"; "refunded_with_points"].

(** ** RefundMethod (app/payment/domain/value_objects.py) *)
Module RefundMethod.
Definition PAYMENT_GATEWAY := "payment_gateway".
Definition PAYMENT_LINK := "payment_link".
Definition CASH := "cash".
Definition CARD := "card".
Definition BANK_TRANSFER := "bank_transfer".
Definition LOYALTY_POINTS := "loyalty_points".
Definition MONEY := "money".
Definition OTHER := "other".

(** [v.replace("-", "_").replace(" ", "_")]. *)
Definition underscored (s : string) : string :=
  smap (λ c, if Ascii.eqb c "-"%char || Ascii.eqb c " "%char then "_"%char else c) s.

Definition mapping : list (string * string) :=
  [("payment_gateway", PAYMENT_GATEWAY); ("gateway", PAYMENT_GATEWAY); ("tap", PAYMENT_GATEWAY);
   ("deema", PAYMENT_GATEWAY); ("myfatoorah", PAYMENT_GATEWAY); ("knet", PAYMENT_GATEWAY);
   ("payment_link", PAYMENT_LINK); ("deema_paymentlink", PAYMENT_LINK); ("link", PAYMENT_LINK);
   ("cash", CASH); ("card", CARD); ("pos", CARD); ("credit_card", CARD); ("debit_card", CARD);
   ("bank_transfer", BANK_TRANSFER); ("bank", BANK_TRANSFER); ("transfer", BANK_TRANSFER);
   ("loyalty_points", LOYALTY_POINTS); ("loyalty", LOYALTY_POINTS); ("points", LOYALTY_POINTS);
   ("money", MONEY); ("other", OTHER)].

Definition normalise (v : string) : string :=
  if negb (truthy v) then OTHER
  else let v := underscored (lower (strip v)) in
       match List.find (λ p, String.eqb p.1 v) mapping with
       | Some p => p.2
       | None => OTHER
       end.
End RefundMethod.

(** The test of [complete] and of the refund service. *)
Definition is_loyalty_method (m : string) : bool :=
  lower m in? ["loyalty_points"; "loyalty"; "points"].

Module Lifecycle.

(** ** Lookups *)

Definition is_open (r : Refund) : bool := r.(rf_status) in? OPEN_STATUSES.

(** [ORDER BY rank DESC, key DESC LIMIT 1]. *)
Definition best {V} (rank key : V → Z) (l : list V) : option V :=
  match argmax rank l with
  | None => None
  | Some top => argmax key (List.filter (λ v, rank v =? rank top) l)
  end.

(** [status IN (paid statuses)] sorted descending: PostgreSQL puts NULL
    first. *)
Definition paid_rank (paid : list string) (p : Payment) : Z :=
  match p.(pm_status) with
  | None => 2
  | Some st => if st in? paid then 1 else 0
  end.

Definition payments_of_booking (booking_id : Z) (s : Store) : list Payment :=
  List.filter (λ p, p.(pm_booking_id) ==? Some booking_id) (rows s.(payments)).

Definition find_payment_by_ref (r : PaymentRef) (s : Store) : option Payment :=
  match r with
  | RefUuid id => s.(payments) !! id
  | RefText t => head (List.filter (λ p, p.(pm_payment_id) ==? Some t) (rows s.(payments)))
  end.

Definition find_payment_for_booking (booking_id : Z) : M Store (option Z) :=
  booking ← get_booking_row booking_id;
  gets (λ s,
    pm_id <$> match best (paid_rank PAID_PAYMENT_STATUSES) pm_created_at (payments_of_booking booking_id s) with
      | Some p => Some p
      | None =>
          match booking.(bk_payment_id) with
          | Some r => if ref_truthy (Some r) then find_payment_by_ref r s else None
          | None => None
          end
      end).

(** The oldest open refund of a booking. *)
Definition find_open_refund (booking_id : Z) : M Store (option Z) :=
  gets (λ s, rf_id <$> newest (λ r, (r.(rf_booking_id) ==? Some booking_id) && is_open r)
                         (λ r, - r.(rf_created_at)) s.(refunds)).

(** [_sum]: the refunds of a payment in some statuses, one of them possibly
    left out. *)
Definition counted (payment_id : Z) (statuses : list RefundStatus) (exclude : option Z) (r : Refund) : bool :=
  (r.(rf_payment_id) ==? Some payment_id) && (r.(rf_status) in? statuses) &&
  match exclude with Some id => r.(rf_id) !=? id | None => true end.

Definition sum_refunds (payment_id : Z) (statuses : list RefundStatus) (exclude : option Z) (s : Store) : Z :=
  msum (λ r, if counted payment_id statuses exclude r then r.(rf_refunded_amount) else 0) s.(refunds).

Definition completed_total (payment_id : Z) (exclude : option Z) (s : Store) : Z :=
  sum_refunds payment_id [COMPLETED] exclude s.
Definition committed_total (payment_id : Z) (exclude : option Z) (s : Store) : Z :=
  sum_refunds payment_id (COMPLETED :: OPEN_STATUSES) exclude s.

(** [coalesce(max(cancellation_fee), 0)] over completed and open refunds. *)
Definition retained_fee (payment_id : Z) (s : Store) : Z :=
  match rf_cancellation_fee <$> List.filter (counted payment_id (COMPLETED :: OPEN_STATUSES) None) (rows s.(refunds)) with
  | [] => 0
  | f :: fs => foldr Z.max f fs
  end.

Definition refundable_target (p : Payment) (s : Store) : Z :=
  Z.max 0 (p.(pm_total_amount) - retained_fee p.(pm_id) s).

Definition is_fully_refunded (booking_id : Z) : M Store bool :=
  payment ← find_payment_for_booking booking_id;
  match payment with
  | None => mret false
  | Some pid =>
      p ← get_payment_row pid;
      gets (λ s, let target := refundable_target p s in
                 (0 <? target) && reaches (completed_total pid None s) target)
  end.

(** [_payment_of] and [_booking_of]: the referenced row, if it exists. *)
Definition payment_of (r : Refund) (s : Store) : option Z :=
  match r.(rf_payment_id) with
  | Some pid => match s.(payments) !! pid with Some _ => Some pid | None => None end
  | None => None
  end.
Definition booking_of (r : Refund) (s : Store) : option Z :=
  match r.(rf_booking_id) with
  | Some bid => match s.(bookings) !! bid with Some _ => Some bid | None => None end
  | None => None
  end.

(** ** Audit and events *)

Definition audit (payment_id refund_id : Z) (source : string) (actor_id : option string)
    (actor_data : option jdict) (provider_reference old_status : option string) : M Store () :=
  p ← get_payment_row payment_id;
  r ← get_refund_row refund_id;
  add_history (mk_history payment_id (por old_status p.(pm_status)) (por_str p.(pm_status) "success")
    source provider_reference (Some r.(rf_refund_number))
    (Some (refund_id, r.(rf_status), r.(rf_refunded_amount), p.(pm_amount_refunded)))
    (Some (por_str actor_id source)) actor_data).

Definition booking_snapshot (b : Booking) : BookingSnapshot :=
  mk_snapshot b.(bk_booking_number) b.(bk_status) b.(bk_payment_status) b.(bk_appointment_start)
    b.(bk_service_id) b.(bk_branch_id) b.(bk_total_amount).

Definition completed_event (refund_id : Z) (r : Refund) (b : option Booking) (p : option Payment)
    (fully : bool) : Event :=
  BookingRefundCompletedEvent (mk_refund_event refund_id r.(rf_refund_number) r.(rf_booking_id)
    (pm_id <$> p) r.(rf_customer_id) r.(rf_branch_id) r.(rf_refund_type) r.(rf_refund_method)
    r.(rf_status) r.(rf_requested_amount) r.(rf_cancellation_fee) r.(rf_refunded_amount)
    r.(rf_currency) r.(rf_reference_number) r.(rf_gateway_refund_id)
    (match p with Some p => p.(pm_total_amount) | None => 0 end)
    (match p with Some p => p.(pm_amount_refunded) | None => 0 end)
    (match b with Some b => b.(bk_payment_status) | None => "" end) fully).

Definition publish_completed_event (refund_id : Z) (booking payment : option Z) (fully : bool) : M Store () :=
  r ← get_refund_row refund_id;
  e ← gets (λ s, completed_event refund_id r (booking ≫= λ b, s.(bookings) !! b)
                   (payment ≫= λ p, s.(payments) !! p) fully);
  publish e.

(** [if actor_id: processed_by = ...; processed_by_data = actor_data or old]. *)
Definition stamp_actor (actor_id : option string) (actor_data : option jdict) (r : Refund) : Refund :=
  if truthy_opt actor_id
  then r <| rf_processed_by := actor_id |>
         <| rf_processed_by_data := por_dict actor_data r.(rf_processed_by_data) |>
  else r.

(** ** Transitions *)

(** The cap every request is checked against. *)
Definition check_cap (payment : option Z) (exclude : option Z) (net : Z) : M Store () :=
  match payment with
  | None => mret ()
  | Some pid =>
      p ← get_payment_row pid;
      committed ← gets (committed_total pid exclude);
      raise_if (exceeds (committed + net) p.(pm_total_amount)) (err ValidationError)
  end.

Definition request (booking_id : Z) (payment : option Z) (refund_amount cancellation_fee : Decimal)
    (refund_type refund_method : string) (reason notes idempotency_key actor_id : option string)
    (actor_data : option jdict) : M Store (Z * bool) :=
  existing ← gets (λ s, if truthy_opt idempotency_key
    then rf_id <$> head (List.filter (λ r, r.(rf_idempotency_key) ==? idempotency_key) (rows s.(refunds)))
    else None);
  match existing with
  | Some id => mret (id, false)
  | None =>
      let net := dec_fils refund_amount in
      let fee := dec_fils cancellation_fee in
      raise_if (net <=? 0) (err ValidationError) ;;
      raise_if (fee <? 0) (err ValidationError) ;;
      check_cap payment None net ;;
      booking ← get_booking_row booking_id;
      p ← gets (λ s, payment ≫= λ pid, s.(payments) !! pid);
      s ← get;
      let id := new_id s.(refunds) in
      let refund := mk_refund id
        (generate_refund_number s.(now) (rf_refund_number <$> rows s.(refunds)))
        idempotency_key (Some booking_id) (Some (booking_snapshot booking)) (pm_id <$> p)
        (por (p ≫= pm_invoice_number) booking.(bk_invoice_number)) None None
        (Some booking.(bk_customer_id)) booking.(bk_customer_data)
        booking.(bk_branch_id) booking.(bk_branch_data)
        refund_type refund_method REQUESTED (net + fee) fee net
        (por_str (Some booking.(bk_currency)) (match p with Some p => p.(pm_currency) | None => "KWD" end))
        (Some (por_str reason "Booking cancellation refund")) notes None None
        (p ≫= λ p, por p.(pm_payment_gateway) p.(pm_payment_provider))
        (p ≫= pm_transaction_id) None None
        (if truthy_opt actor_id then actor_id else None) (Some (or_empty actor_data))
        (Some s.(now)) None None s.(now) in
      modify (λ s, s <| refunds := <[id := refund]> s.(refunds) |>) ;;
      match payment with
      | Some pid => audit pid id "refund_requested" actor_id actor_data None None
      | None => mret ()
      end ;;
      mret (id, true)
  end.

Definition update_requested_amounts (refund_id : Z) (payment : option Z)
    (refund_amount cancellation_fee : Decimal) : M Store () :=
  r ← get_refund_row refund_id;
  raise_if (r.(rf_status) !=? REQUESTED) (err ValidationError) ;;
  let net := dec_fils refund_amount in
  let fee := dec_fils cancellation_fee in
  raise_if (net <=? 0) (err ValidationError) ;;
  check_cap payment (Some refund_id) net ;;
  upd_refund refund_id (λ r, r <| rf_refunded_amount := net |>
    <| rf_cancellation_fee := fee |> <| rf_requested_amount := net + fee |>).

Definition rejected_row (t : Z) (reason actor_id : option string) (actor_data : option jdict)
    (r : Refund) : Refund :=
  (stamp_actor actor_id actor_data
     (r <| rf_status := REJECTED |>
        <| rf_failure_reason := Some (por_str reason "Refund rejected by staff") |>))
  <| rf_processed_at := Some t |>.

Definition reject (refund_id : Z) (reason actor_id : option string) (actor_data : option jdict)
    : M Store () :=
  r ← get_refund_row refund_id;
  if r.(rf_status) in? [COMPLETED; REJECTED] then mret ()
  else
    raise_if (r.(rf_status) !=? REQUESTED) (err ValidationError) ;;
    t ← gets now;
    upd_refund refund_id (rejected_row t reason actor_id actor_data).

Definition approved_row (t : Z) (norm_method : string) (net : Z) (notes actor_id : option string)
    (actor_data : option jdict) (r : Refund) : Refund :=
  (stamp_actor actor_id actor_data
     (r <| rf_status := APPROVED |> <| rf_refund_method := norm_method |>
        <| rf_refunded_amount := net |> <| rf_requested_amount := net + r.(rf_cancellation_fee) |>
        <| rf_notes := if truthy_opt notes then notes else r.(rf_notes) |>))
  <| rf_processed_at := Some t |>.

Definition approve (refund_id : Z) (refund_method : string) (approved_amount : Decimal)
    (notes actor_id : option string) (actor_data : option jdict) : M Store () :=
  r ← get_refund_row refund_id;
  if r.(rf_status) ==? APPROVED then mret ()
  else
    raise_if (r.(rf_status) !=? REQUESTED) (err ValidationError) ;;
    let net := dec_fils approved_amount in
    raise_if (net <=? 0) (err ValidationError) ;;
    let norm_method := RefundMethod.normalise refund_method in
    payment ← gets (payment_of r);
    when (negb (String.eqb norm_method RefundMethod.LOYALTY_POINTS))
      (check_cap payment (Some refund_id) net) ;;
    t ← gets now;
    upd_refund refund_id (approved_row t norm_method net notes actor_id actor_data) ;;
    when (String.eqb norm_method RefundMethod.LOYALTY_POINTS)
      (booking ← gets (booking_of r);
       match booking with
       | Some b => upd_booking b (λ b, b <| bk_payment_status := "refunded_with_points" |>)
       | None => mret ()
       end).

Definition processing_row (t : Z) (provider_refund_id : option string) (gateway_response : option jdict)
    (actor_id : option string) (actor_data : option jdict) (r : Refund) : Refund :=
  (stamp_actor actor_id actor_data
     (r <| rf_status := PROCESSING |> <| rf_refund_type := "automated" |>
        <| rf_refund_method := RefundMethod.PAYMENT_GATEWAY |>
        <| rf_gateway_refund_id := por provider_refund_id r.(rf_gateway_refund_id) |>
        <| rf_gateway_response := match gateway_response with
                                  | Some g => Some g | None => r.(rf_gateway_response) end |>))
  <| rf_processed_at := Some t |>.

Definition mark_processing (refund_id : Z) (provider_refund_id : option string)
    (gateway_response : option jdict) (actor_id : option string) (actor_data : option jdict) : M Store () :=
  r ← get_refund_row refund_id;
  if r.(rf_status) in? [COMPLETED; PROCESSING] then mret ()
  else
    raise_if (negb (r.(rf_status) in? [REQUESTED; APPROVED])) (err ValidationError) ;;
    t ← gets now;
    upd_refund refund_id (processing_row t provider_refund_id gateway_response actor_id actor_data) ;;
    payment ← gets (payment_of r);
    match payment with
    | Some pid => audit pid refund_id "refund_processing" actor_id actor_data provider_refund_id None
    | None => mret ()
    end.

(** The row of [complete]: completed now, with the provider's reference and
    confirmation. *)
Definition completed_row (t : Z) (provider_reference : option string)
    (gateway_response : option jdict) (r : Refund) : Refund :=
  let r := r <| rf_status := COMPLETED |> <| rf_completed_at := Some t |> <| rf_failure_reason := None |> in
  let r :=
    if truthy_opt provider_reference then
      if String.eqb r.(rf_refund_method) RefundMethod.PAYMENT_GATEWAY
      then r <| rf_gateway_refund_id := por r.(rf_gateway_refund_id) provider_reference |>
      else r <| rf_reference_number := por r.(rf_reference_number) provider_reference |>
    else r in
  match gateway_response with
  | Some g => r <| rf_gateway_response := Some (dict_set (or_empty r.(rf_gateway_response)) "confirmation" (JDict g)) |>
  | None => r
  end.

(** The summary of a money refund on its payment; returns whether the booking
    is fully refunded. *)
Definition settle_payment (payment_id refund_id : Z) (source : string) (provider_reference : option string)
    (actor_id : option string) (actor_data : option jdict) : M Store bool :=
  p ← get_payment_row payment_id;
  r ← get_refund_row refund_id;
  let old_payment_status := p.(pm_status) in
  db_total ← gets (completed_total payment_id None);
  let calc_total := p.(pm_amount_refunded) + r.(rf_refunded_amount) in
  let amount_refunded := Z.max db_total calc_total in
  upd_payment payment_id (λ p, p <| pm_amount_refunded := amount_refunded |>) ;;
  kept ← gets (retained_fee payment_id);
  let fee := Z.max kept r.(rf_cancellation_fee) in
  let booking_target := Z.max 0 (p.(pm_total_amount) - fee) in
  let fully := (0 <? booking_target) && reaches amount_refunded booking_target in
  (if reaches amount_refunded p.(pm_total_amount)
   then upd_payment payment_id (λ p, p <| pm_status := Some "refunded" |>)
   else when (0 <? amount_refunded)
          (upd_payment payment_id (λ p, p <| pm_status := Some "partially_refunded" |>))) ;;
  audit payment_id refund_id source actor_id actor_data
    (por provider_reference r.(rf_gateway_refund_id)) old_payment_status ;;
  mret fully.

Definition complete (refund_id : Z) (source : string) (provider_reference : option string)
    (gateway_response : option jdict) (actor_id : option string) (actor_data : option jdict)
    (publish_event : bool) : M Store bool :=
  r ← get_refund_row refund_id;
  if r.(rf_status) ==? COMPLETED then mret false
  else
    raise_if (negb (is_open r)) (err ValidationError) ;;
    payment ← gets (payment_of r);
    let is_loyalty := is_loyalty_method r.(rf_refund_method) in
    match payment with
    | Some pid =>
        when (negb is_loyalty)
          (p ← get_payment_row pid;
           done ← gets (completed_total pid (Some refund_id));
           raise_if (exceeds (done + r.(rf_refunded_amount)) p.(pm_total_amount)) (err ValidationError))
    | None => mret ()
    end ;;
    t ← gets now;
    upd_refund refund_id (completed_row t provider_reference gateway_response) ;;
    booking ← gets (booking_of r);
    fully ←
      match payment with
      | Some pid =>
          if negb is_loyalty
          then settle_payment pid refund_id source provider_reference actor_id actor_data
          else p ← get_payment_row pid;
               audit pid refund_id source actor_id actor_data None p.(pm_status) ;;
               mret false
      | None => mret false
      end;
    match booking with
    | Some b =>
        if is_loyalty
        then upd_booking b (λ b, b <| bk_payment_status := "refunded_with_points" |>
                                   <| bk_status := "cancelled" |>)
        else upd_booking b (λ b,
               b <| bk_payment_status :=
                      if fully || negb (bool_decide (is_Some payment)) then "refunded" else "partially_refunded" |>
                 <| bk_status := if String.eqb (lower b.(bk_status)) "cancelled"
                                 then b.(bk_status) else "refunded" |>)
    | None => mret ()
    end ;;
    when publish_event (publish_completed_event refund_id booking payment fully) ;;
    mret true.

Definition failed_row (reason : string) (gateway_response : option jdict) (r : Refund) : Refund :=
  r <| rf_status := FAILED |> <| rf_failure_reason := Some reason |>
    <| rf_gateway_response := match gateway_response with
         | Some g => Some (dict_set (or_empty r.(rf_gateway_response)) "failure" (JDict g))
         | None => r.(rf_gateway_response) end |>.

Definition fail (refund_id : Z) (reason source : string) (provider_reference : option string)
    (gateway_response : option jdict) (actor_id : option string) : M Store () :=
  r ← get_refund_row refund_id;
  if r.(rf_status) in? [FAILED; CANCELLED] then mret ()
  else
    let was_completed := r.(rf_status) ==? COMPLETED in
    upd_refund refund_id (failed_row reason gateway_response) ;;
    payment ← gets (payment_of r);
    match payment with
    | Some pid =>
        total ← gets (completed_total pid None);
        upd_payment pid (λ p, p <| pm_amount_refunded := total |>) ;;
        when was_completed
          (upd_payment pid (λ p, p <| pm_payment_data :=
             Some (dict_set (or_empty p.(pm_payment_data)) "needs_attention"
               (JStr ("Completed refund " ++ r.(rf_refund_number) ++ " was reversed by the provider.")%string)) |>)) ;;
        audit pid refund_id source actor_id None provider_reference None
    | None => mret ()
    end ;;
    when was_completed
      (booking ← gets (booking_of r);
       match booking, payment with
       | Some b, Some pid =>
           p ← get_payment_row pid;
           upd_booking b (λ b, b <| bk_payment_status :=
             if 0 <? p.(pm_amount_refunded) then "partially_refunded" else "success" |>)
       | _, _ => mret ()
       end).

End Lifecycle.

(** ** Operations as data, for statements about every history *)
Module Ops.
Inductive op :=
  | Request (booking_id : Z) (payment : option Z) (amount fee : Decimal) (rtype rmethod : string)
      (key : option string)
  | UpdateAmounts (refund_id : Z) (payment : option Z) (amount fee : Decimal)
  | Reject (refund_id : Z)
  | Approve (refund_id : Z) (rmethod : string) (amount : Decimal)
  | MarkProcessing (refund_id : Z) (provider_refund_id : option string)
  | Complete (refund_id : Z) (source : string) (provider_reference : option string) (publish_event : bool)
  | Fail (refund_id : Z) (reason source : string)
  | Tick (dt : Z).

Definition exec (o : op) : M Store () :=
  match o with
  | Request b p a f t m k => Lifecycle.request b p a f t m None None k None None ;; mret ()
  | UpdateAmounts r p a f => Lifecycle.update_requested_amounts r p a f
  | Reject r => Lifecycle.reject r None None None
  | Approve r m a => Lifecycle.approve r m a None None None
  | MarkProcessing r g => Lifecycle.mark_processing r g None None None
  | Complete r src ref pub => Lifecycle.complete r src ref None None None pub ;; mret ()
  | Fail r why src => Lifecycle.fail r why src None None None
  | Tick dt => modify (λ s, s <| now := s.(now) + Z.max 0 dt |>)
  end.

(** A history of operations; one that raises leaves the state it reached. *)
Definition exec_all (os : list op) (s : Store) : Store := foldl (λ s o, (exec o s).2) s os.
End Ops.
