(* ===== verification/RefundInvariant.v ===== *)
(** * The money invariant of refunds

    What every operation of [RefundLifecycle] keeps true of the refund and
    payment rows: the completed money refunds of a payment never exceed what
    was paid, and the payment's [amount_refunded] column never exceeds its
    completed refunds and is exactly their sum while none was paid in points. *)

From S2P Require Import Prelude Exceptions Effects Money Numbers Store RefundLifecycle.
#[local] Open Scope Z_scope.

(** * Specification *)
Import Lifecycle.

Definition is_money (r : Refund) : bool := negb (is_loyalty_method r.(rf_refund_method)).

(** The money paid back for a payment: its completed refunds, those paid in
    loyalty points left out. *)
Definition weight (pid : Z) (sts : list RefundStatus) (money : bool) (r : Refund) : Z :=
  if counted pid sts None r && (negb money || is_money r) then r.(rf_refunded_amount) else 0.
Definition total_of (pid : Z) (sts : list RefundStatus) (money : bool) (rs : gmap Z Refund) : Z :=
  msum (weight pid sts money) rs.

Definition paid_back (pid : Z) (rs : gmap Z Refund) : Z := total_of pid [COMPLETED] true rs.
Definition completed (pid : Z) (rs : gmap Z Refund) : Z := total_of pid [COMPLETED] false rs.

Definition refund_row_ok (k : Z) (r : Refund) : Prop := r.(rf_id) = k ∧ 0 < r.(rf_refunded_amount).

(** The state of the refunds of every payment: no more money was paid back than
    was paid; the summary column never exceeds the completed refunds, and is
    their sum when none of them was paid in points. *)
Definition payment_row_bounds (rs : gmap Z Refund) (pid : Z) (p : Payment) : Prop :=
  p.(pm_id) = pid ∧ paid_back pid rs <= p.(pm_total_amount) ∧
  0 <= p.(pm_amount_refunded) <= completed pid rs.
Definition payment_row_ok (rs : gmap Z Refund) (pid : Z) (p : Payment) : Prop :=
  payment_row_bounds rs pid p ∧
  (paid_back pid rs = completed pid rs → p.(pm_amount_refunded) = completed pid rs).

Definition money_ok (rs : gmap Z Refund) (ps : gmap Z Payment) : Prop :=
  (∀ k r, rs !! k = Some r → refund_row_ok k r) ∧
  (∀ pid p, ps !! pid = Some p → 0 <= p.(pm_total_amount) → payment_row_ok rs pid p).

Definition refunds_ok (s : Store) : Prop := money_ok s.(refunds) s.(payments).

(** * Theorems *)

(** ** Sums *)

Lemma weight_nonneg pid sts money k r : refund_row_ok k r → 0 <= weight pid sts money r.
Proof. intros [_ Hr]. unfold weight. case_match; lia. Qed.

Lemma completed_total_eq pid s : completed_total pid None s = completed pid s.(refunds).
Proof.
  unfold completed_total, sum_refunds, completed, total_of. apply msum_ext. intros k r _.
  unfold weight. simpl. by rewrite andb_true_r.
Qed.

(** Leaving a refund out of the sum subtracts its weight. *)
Lemma sum_exclude pid sts s id r :
  (∀ k r, s.(refunds) !! k = Some r → refund_row_ok k r) → s.(refunds) !! id = Some r →
  sum_refunds pid sts (Some id) s = total_of pid sts false s.(refunds) - weight pid sts false r.
Proof.
  intros Hwf Hr. unfold sum_refunds, total_of. rewrite !(msum_delete _ _ _ _ Hr).
  assert (counted pid sts (Some id) r = false) as ->.
  { unfold counted. rewrite (proj1 (Hwf id r Hr)). rewrite (bool_decide_true (id = id)) by done.
    by rewrite andb_false_r. }
  assert (msum (λ r, if counted pid sts (Some id) r then rf_refunded_amount r else 0) (delete id s.(refunds)) =
          msum (weight pid sts false) (delete id s.(refunds))) as ->; [|lia].
  apply msum_ext. intros k r' [Hne Hk]%lookup_delete_Some. unfold weight, counted.
  rewrite (proj1 (Hwf k r' Hk)), (bool_decide_false (k = id)) by congruence.
  simpl. by rewrite !andb_true_r.
Qed.

Lemma total_money_le pid sts rs :
  (∀ k r, rs !! k = Some r → refund_row_ok k r) → total_of pid sts true rs <= total_of pid sts false rs.
Proof.
  intros Hwf. apply msum_mono. intros k r Hr. destruct (Hwf k r Hr) as [_ Hpos]. unfold weight. simpl.
  destruct (counted pid sts None r), (is_money r); simpl; lia.
Qed.

Lemma total_nonneg pid sts money rs :
  (∀ k r, rs !! k = Some r → refund_row_ok k r) → 0 <= total_of pid sts money rs.
Proof. intros Hwf. apply msum_nonneg. intros k r Hr. eapply weight_nonneg, Hwf, Hr. Qed.

Lemma total_update pid sts money rs k r r' :
  rs !! k = Some r →
  total_of pid sts money (<[k := r']> rs) =
  total_of pid sts money rs - weight pid sts money r + weight pid sts money r'.
Proof. apply msum_update. Qed.

Lemma total_insert pid sts money rs k r :
  rs !! k = None →
  total_of pid sts money (<[k := r]> rs) = weight pid sts money r + total_of pid sts money rs.
Proof. apply msum_insert_new. Qed.

(** A refund that is not in one of the statuses weighs nothing. *)
Lemma weight_other pid sts money r : r.(rf_status) ∉ sts → weight pid sts money r = 0.
Proof. intros Hst. unfold weight, counted. by rewrite (bool_decide_false _ Hst), andb_false_r. Qed.

Lemma weight_elsewhere pid sts money r : r.(rf_payment_id) ≠ Some pid → weight pid sts money r = 0.
Proof. intros Hp. unfold weight, counted. by rewrite (bool_decide_false _ Hp). Qed.

Lemma weight_done pid money r :
  r.(rf_payment_id) = Some pid → r.(rf_status) = COMPLETED →
  weight pid [COMPLETED] money r = if negb money || is_money r then r.(rf_refunded_amount) else 0.
Proof. intros Hp Hst. unfold weight, counted. rewrite Hp, Hst, !bool_decide_true by (done || apply list_elem_of_here). done. Qed.

(** ** Frame lemmas: what does not touch payments and refunds *)

Definition same_money (s s' : Store) : Prop :=
  s'.(refunds) = s.(refunds) ∧ s'.(payments) = s.(payments).

#[export] Instance same_money_preorder : PreOrder same_money.
Proof. split; [done|]. intros a b c [H1 H2] [H3 H4]. split; congruence. Qed.

Lemma refunds_ok_frame s s' : same_money s s' → refunds_ok s → refunds_ok s'.
Proof. intros [Hr Hp] Hs. unfold refunds_ok. by rewrite Hr, Hp. Qed.

Lemma frame_preserves {A} (m : M Store A) : changes same_money m → preserves refunds_ok m.
Proof. intros Hm s. by apply refunds_ok_frame. Qed.

Lemma get_refund_row_frame id : changes same_money (get_refund_row id).
Proof. intros s. unfold get_refund_row. by destruct (refunds s !! id). Qed.
Lemma get_payment_row_frame id : changes same_money (get_payment_row id).
Proof. intros s. unfold get_payment_row. by destruct (payments s !! id). Qed.
Lemma get_booking_row_frame id : changes same_money (get_booking_row id).
Proof. intros s. unfold get_booking_row. by destruct (bookings s !! id). Qed.
Lemma upd_booking_frame id f : changes same_money (upd_booking id f).
Proof. done. Qed.
Lemma add_history_frame h : changes same_money (add_history h).
Proof. done. Qed.
Lemma publish_frame e : changes same_money (publish e).
Proof. done. Qed.
#[export] Hint Resolve get_refund_row_frame get_payment_row_frame get_booking_row_frame
  upd_booking_frame add_history_frame publish_frame : ush.

Lemma audit_frame p r src a d ref old : changes same_money (audit p r src a d ref old).
Proof. unfold audit. change_only. Qed.
Lemma publish_completed_event_frame r b p f : changes same_money (publish_completed_event r b p f).
Proof. unfold publish_completed_event. change_only. Qed.
Lemma check_cap_frame p x n : changes same_money (check_cap p x n).
Proof. unfold check_cap. change_only. Qed.
#[export] Hint Resolve audit_frame publish_completed_event_frame check_cap_frame : ush.

(** ** Preservation by each operation *)

Lemma money_ok_update rs ps id r r' :
  money_ok rs ps → rs !! id = Some r → refund_row_ok id r' →
  (∀ pid money, weight pid [COMPLETED] money r' = weight pid [COMPLETED] money r) →
  money_ok (<[id := r']> rs) ps.
Proof.
  intros [Hrf Hpm] Hr Hok Hw. split.
  - intros k x [[-> <-]|[_ Hk]]%lookup_insert_Some; eauto.
  - intros pid p Hp Htot. specialize (Hpm pid p Hp Htot).
    unfold payment_row_ok, payment_row_bounds, paid_back, completed in *.
    rewrite !(total_update _ _ _ _ _ _ _ Hr), !Hw.
    destruct Hpm as ((? & ? & ?) & Hex). split_and!; lia.
Qed.

Lemma alter_absent {V} (f : V → V) (m : gmap Z V) k : m !! k = None → alter f k m = m.
Proof.
  intros Hk. apply map_eq. intros j. destruct (decide (j = k)) as [->|Hne].
  - by rewrite lookup_alter_eq, Hk.
  - by rewrite lookup_alter_ne.
Qed.

(** Updates of a refund that is not completed, before or after. *)
Lemma money_ok_quiet rs ps id f :
  money_ok rs ps →
  (∀ r, rs !! id = Some r →
     (f r).(rf_id) = r.(rf_id) ∧ 0 < (f r).(rf_refunded_amount) ∧
     r.(rf_status) ≠ COMPLETED ∧ (f r).(rf_status) ≠ COMPLETED) →
  money_ok (alter f id rs) ps.
Proof.
  intros Hs Hf. destruct (rs !! id) as [r|] eqn:Hr; [|by rewrite alter_absent].
  destruct (Hf r eq_refl) as (Hid & Hpos & Hst & Hst'). rewrite (alter_lookup _ _ _ _ Hr).
  apply (money_ok_update _ _ id r); [done|done| |].
  - split; [|done]. rewrite Hid. apply (proj1 Hs id r Hr).
  - intros pid money. rewrite !weight_other; [done| |]; by rewrite list_elem_of_singleton.
Qed.

Lemma money_ok_insert rs ps id r :
  money_ok rs ps → rs !! id = None → refund_row_ok id r → r.(rf_status) ≠ COMPLETED →
  money_ok (<[id := r]> rs) ps.
Proof.
  intros [Hrf Hpm] Hnew Hok Hst. split.
  - intros k x [[-> <-]|[_ Hk]]%lookup_insert_Some; eauto.
  - intros pid p Hp Htot. specialize (Hpm pid p Hp Htot).
    unfold payment_row_ok, payment_row_bounds, paid_back, completed in *. rewrite !(total_insert _ _ _ _ _ _ Hnew).
    by rewrite !weight_other by by rewrite list_elem_of_singleton.
Qed.

(** The fields of the rows the transitions write. *)
Lemma stamp_actor_fields a d r :
  (stamp_actor a d r).(rf_id) = r.(rf_id) ∧ (stamp_actor a d r).(rf_refunded_amount) = r.(rf_refunded_amount) ∧
  (stamp_actor a d r).(rf_status) = r.(rf_status) ∧ (stamp_actor a d r).(rf_payment_id) = r.(rf_payment_id) ∧
  (stamp_actor a d r).(rf_refund_method) = r.(rf_refund_method).
Proof. unfold stamp_actor. by destruct (truthy_opt a). Qed.

Lemma rejected_row_fields t why a d r :
  let r' := rejected_row t why a d r in
  r'.(rf_id) = r.(rf_id) ∧ r'.(rf_refunded_amount) = r.(rf_refunded_amount) ∧ r'.(rf_status) = REJECTED ∧
  r'.(rf_payment_id) = r.(rf_payment_id) ∧ r'.(rf_refund_method) = r.(rf_refund_method).
Proof. cbv zeta. unfold rejected_row, stamp_actor. by destruct (truthy_opt a). Qed.

Lemma approved_row_fields t m net notes a d r :
  let r' := approved_row t m net notes a d r in
  r'.(rf_id) = r.(rf_id) ∧ r'.(rf_refunded_amount) = net ∧ r'.(rf_status) = APPROVED ∧
  r'.(rf_payment_id) = r.(rf_payment_id) ∧ r'.(rf_refund_method) = m.
Proof. cbv zeta. unfold approved_row, stamp_actor. by destruct (truthy_opt a). Qed.

Lemma processing_row_fields t g resp a d r :
  let r' := processing_row t g resp a d r in
  r'.(rf_id) = r.(rf_id) ∧ r'.(rf_refunded_amount) = r.(rf_refunded_amount) ∧ r'.(rf_status) = PROCESSING ∧
  r'.(rf_payment_id) = r.(rf_payment_id) ∧ r'.(rf_refund_method) = RefundMethod.PAYMENT_GATEWAY.
Proof. cbv zeta. unfold processing_row, stamp_actor. by destruct (truthy_opt a). Qed.

Lemma completed_row_fields t ref resp r :
  let r' := completed_row t ref resp r in
  r'.(rf_id) = r.(rf_id) ∧ r'.(rf_refunded_amount) = r.(rf_refunded_amount) ∧ r'.(rf_status) = COMPLETED ∧
  r'.(rf_payment_id) = r.(rf_payment_id) ∧ r'.(rf_refund_method) = r.(rf_refund_method) ∧
  r'.(rf_booking_id) = r.(rf_booking_id).
Proof.
  cbv zeta. unfold completed_row. destruct resp, (truthy_opt ref); cbn; try done; by destruct (String.eqb _ _).
Qed.

#[local] Opaque stamp_actor rejected_row approved_row processing_row completed_row.

(** A refund update followed by steps that leave refunds and payments alone. *)
Lemma wp_upd_refund_end {A} id f (k : () → M Store A) s :
  (∀ a, changes same_money (k a)) → money_ok (alter f id s.(refunds)) s.(payments) →
  wp (upd_refund id f ≫= k) s (λ _ s', refunds_ok s').
Proof.
  intros Hk Hok. apply wp_bind. apply wp_modify.
  apply (wp_changes same_money); [apply Hk|]. intros _ s' Hf. by apply (refunds_ok_frame _ _ Hf).
Qed.
Lemma wp_upd_refund_last id f s :
  money_ok (alter f id s.(refunds)) s.(payments) → wp (upd_refund id f) s (λ _ s', refunds_ok s').
Proof. done. Qed.

(** Run up to the next write of a refund. *)
Ltac to_write :=
  repeat lazymatch goal with
  | |- wp (mbind _ (upd_refund _ _)) _ _ => fail
  | |- wp (upd_refund _ _) _ _ => fail
  | |- _ => store_step
  end.

(** Pass an operation that leaves refunds and payments alone; the state it
    reaches replaces the one it started from. *)
Ltac frame_step :=
  apply (wp_changes same_money); [change_only|];
  let Hf := fresh "Hframe" in
  intros [?|?] ? Hf; cbn beta iota;
  [|try (eapply refunds_ok_frame; [exact Hf|])].

(** The update of a refund that is not completed. *)
Ltac quiet_write fields :=
  first [apply wp_upd_refund_end; [intros; change_only|] | apply wp_upd_refund_last];
  apply money_ok_quiet; [assumption|];
  let r := fresh "r" in let Hr := fresh "Hr" in intros r Hr;
  match goal with
  | H : refunds_ok _ |- _ =>
      let Hpos := fresh "Hpos" in pose proof (proj2 (proj1 H _ _ Hr)) as Hpos
  end; simplify_eq;
  let H := fresh in pose proof fields as H; edestruct H as (-> & -> & -> & _ & _);
  split_and!; try congruence; try lia.

Lemma request_ok b p a f t m why notes key who d :
  preserves refunds_ok (request b p a f t m why notes key who d).
Proof.
  apply preserves_wp. intros s Hs. unfold request. store_steps; try done.
  frame_step; [|done]. pose proof (refunds_ok_frame _ _ Hframe Hs) as Hs1.
  assert (∀ r, r.(rf_status) ≠ COMPLETED → refund_row_ok (new_id s'.(refunds)) r →
    money_ok (<[new_id s'.(refunds) := r]> s'.(refunds)) s'.(payments)) as Hins.
  { intros r Hst Hok. apply money_ok_insert; [done|apply new_id_fresh|done|done]. }
  store_steps; try done; [frame_step; [store_steps; eapply refunds_ok_frame; [exact Hframe0|]|]|];
    apply Hins; done || (split; cbn; [done|lia]).
Qed.

Lemma update_requested_amounts_ok id p a f : preserves refunds_ok (update_requested_amounts id p a f).
Proof.
  apply preserves_wp. intros s Hs. unfold update_requested_amounts. to_write; try done.
  frame_step; [|done]. pose proof (refunds_ok_frame _ _ Hframe Hs) as Hs1.
  destruct Hframe as [Hrf _]. rewrite <- Hrf in Hrow. apply wp_upd_refund_last.
  apply money_ok_quiet; [done|]. intros r0 Hr. simplify_eq. cbn. split_and!; try congruence; lia.
Qed.

Lemma reject_ok id why who d : preserves refunds_ok (reject id why who d).
Proof.
  apply preserves_wp. intros s Hs. unfold reject. to_write; try done.
  quiet_write rejected_row_fields.
Qed.

Lemma approve_ok id m a notes who d : preserves refunds_ok (approve id m a notes who d).
Proof.
  apply preserves_wp. intros s Hs. unfold approve. to_write; try done.
  - frame_step; [|done]. pose proof (refunds_ok_frame _ _ Hframe Hs) as Hs1.
    destruct Hframe as [Hrf _]. rewrite <- Hrf in Hrow. to_write. quiet_write approved_row_fields.
  - quiet_write approved_row_fields.
Qed.

Lemma mark_processing_ok id g resp who d : preserves refunds_ok (mark_processing id g resp who d).
Proof.
  apply preserves_wp. intros s Hs. unfold mark_processing. to_write; try done.
  quiet_write processing_row_fields. intros Hst. breflect.
  match goal with H : rf_status _ ∉ _ |- _ => apply H; rewrite Hst; apply list_elem_of_here end.
Qed.

(** The state between the completion of a money refund and its summary: the
    payment [x] may not be exact yet. *)
Definition money_ok_but (x : Z) (rs : gmap Z Refund) (ps : gmap Z Payment) : Prop :=
  (∀ k r, rs !! k = Some r → refund_row_ok k r) ∧
  (∀ pid p, ps !! pid = Some p → 0 <= p.(pm_total_amount) →
     payment_row_bounds rs pid p ∧ (pid ≠ x → payment_row_ok rs pid p)).

Lemma money_ok_payment rs ps pid f :
  money_ok_but pid rs ps →
  (∀ p, ps !! pid = Some p → 0 <= (f p).(pm_total_amount) → payment_row_ok rs pid (f p)) →
  money_ok rs (alter f pid ps).
Proof.
  intros [Hrf Hpm] Hf. split; [done|]. intros pid' p'. destruct (decide (pid' = pid)) as [->|Hne].
  - rewrite lookup_alter_eq. destruct (ps !! pid) as [p|] eqn:Hp; [|done]. intros [= <-]. auto.
  - rewrite lookup_alter_ne by done. intros Hp Ht. by apply (Hpm pid' p').
Qed.

Lemma money_ok_payment_row rs ps pid p :
  money_ok_but pid rs ps → (0 <= p.(pm_total_amount) → payment_row_ok rs pid p) →
  money_ok rs (<[pid := p]> ps).
Proof.
  intros [Hrf Hpm] Hp. split; [done|]. intros pid' p' [[-> <-]|[Hne Hk]]%lookup_insert_Some; [done|].
  intros Ht. by apply (Hpm pid' p').
Qed.

Lemma money_ok_weaken x rs ps : money_ok rs ps → money_ok_but x rs ps.
Proof. intros [Hrf Hpm]. split; [done|]. intros pid p Hp Ht. split; [by apply Hpm|intros _; by apply Hpm]. Qed.

(** A completed refund of this amount is among the completed ones but not yet
    in the summary. *)
Definition unsummed (pid id : Z) (s : Store) : Prop :=
  is_Some (s.(refunds) !! id) ∧ is_Some (s.(payments) !! pid) ∧
  ∀ p r, s.(payments) !! pid = Some p → s.(refunds) !! id = Some r →
  p.(pm_amount_refunded) + r.(rf_refunded_amount) <= completed pid s.(refunds).

Lemma settle_payment_ok pid id src ref a d s :
  money_ok_but pid s.(refunds) s.(payments) → unsummed pid id s →
  wp (settle_payment pid id src ref a d) s (λ _ s', refunds_ok s').
Proof.
  intros Hs (Hid & Hpid & Hun). unfold settle_payment. store_steps.
  all: try (rewrite Hrow in Hpid; by destruct Hpid). all: try (rewrite Hrow0 in Hid; by destruct Hid).
  all: apply (wp_changes same_money); [apply audit_frame|];
    intros ro s' Hf; assert (refunds_ok s') as Hs'; [|destruct ro; [by store_steps|done]];
    eapply refunds_ok_frame; [exact Hf|]; unfold refunds_ok; cbn.
  all: rewrite ?completed_total_eq in *.
  all: assert (∀ st p, s.(payments) !! pid = Some p → 0 <= p.(pm_total_amount) →
    payment_row_ok s.(refunds) pid (p <| pm_amount_refunded := completed pid s.(refunds) |> <| pm_status := st |>)) as Hrow'
    by (intros st p Hp Htot; destruct (proj1 (proj2 Hs pid p Hp Htot)) as (? & ? & ?); unfold payment_row_ok, payment_row_bounds; cbn; split_and!; done || lia).
  all: pose proof (Hun _ _ Hrow Hrow0) as Hle; rewrite Z.max_l by lia.
  all: first [rewrite (alter_twice _ _ _ _ _ Hrow) | rewrite (alter_lookup _ _ _ _ Hrow)];
    apply money_ok_payment_row; [exact Hs|]; intros Htot;
    first [exact (Hrow' _ r Hrow Htot) | exact (Hrow' r.(pm_status) r Hrow Htot)].
Qed.

(** The refund's payment row does not exist. *)
Definition payment_of_none (r : Refund) (ps : gmap Z Payment) : Prop :=
  match r.(rf_payment_id) with Some pid => ps !! pid = None | None => True end.

(** Completing a refund within the cap. *)
Lemma money_ok_complete rs ps id r f :
  money_ok rs ps → rs !! id = Some r → r.(rf_status) ≠ COMPLETED →
  (f r).(rf_id) = r.(rf_id) ∧ (f r).(rf_refunded_amount) = r.(rf_refunded_amount) ∧
  (f r).(rf_status) = COMPLETED ∧ (f r).(rf_payment_id) = r.(rf_payment_id) ∧
  (f r).(rf_refund_method) = r.(rf_refund_method) →
  (∀ pid p, r.(rf_payment_id) = Some pid → ps !! pid = Some p → is_money r = true →
     completed pid rs + r.(rf_refunded_amount) <= p.(pm_total_amount)) →
  money_ok_but (default 0 r.(rf_payment_id)) (alter f id rs) ps ∧
  (is_money r = false ∨ payment_of_none r ps → money_ok (alter f id rs) ps) ∧
  (∀ pid, r.(rf_payment_id) = Some pid → completed pid (alter f id rs) = completed pid rs + r.(rf_refunded_amount)).
Proof.
  intros Hok Hr Hst (Hid & Hamt & Hst' & Hpid & Hmeth) Hcap.
  destruct (proj1 Hok id r Hr) as [Hrid Hpos]. rewrite (alter_lookup _ _ _ _ Hr).
  assert (is_money (f r) = is_money r) as Hmon by (unfold is_money; by rewrite Hmeth).
  assert (∀ pid money, r.(rf_payment_id) = Some pid →
    total_of pid [COMPLETED] money (<[id := f r]> rs) =
    total_of pid [COMPLETED] money rs + (if negb money || is_money r then r.(rf_refunded_amount) else 0)) as Hthis.
  { intros pid money Hp. rewrite (total_update _ _ _ _ _ _ _ Hr), (weight_other _ _ _ r)
      by by rewrite list_elem_of_singleton.
    rewrite (weight_done _ _ (f r)) by congruence. rewrite Hmon, Hamt. lia. }
  assert (∀ pid money, r.(rf_payment_id) ≠ Some pid →
    total_of pid [COMPLETED] money (<[id := f r]> rs) = total_of pid [COMPLETED] money rs) as Hother.
  { intros pid money Hp. rewrite (total_update _ _ _ _ _ _ _ Hr), !weight_elsewhere by congruence. lia. }
  assert (∀ k x, <[id := f r]> rs !! k = Some x → refund_row_ok k x) as Hrows.
  { intros k x [[-> <-]|[_ Hk]]%lookup_insert_Some; [split; lia|]. by apply (proj1 Hok). }
  assert (∀ pid p, ps !! pid = Some p → 0 <= p.(pm_total_amount) → payment_row_bounds (<[id := f r]> rs) pid p) as Hbounds.
  { intros pid p Hp Htot. destruct (proj2 Hok pid p Hp Htot) as ((? & ? & ?) & _).
    unfold payment_row_bounds, paid_back, completed in *.
    destruct (decide (r.(rf_payment_id) = Some pid)) as [Heq|Hne]; [|by rewrite !Hother].
    rewrite !Hthis by done. simpl. pose proof (total_money_le pid [COMPLETED] rs (proj1 Hok)).
    destruct (is_money r) eqn:Em; [specialize (Hcap pid p Heq Hp eq_refl)|]; split_and!; lia. }
  assert (∀ pid p, r.(rf_payment_id) ≠ Some pid → ps !! pid = Some p → 0 <= p.(pm_total_amount) →
    payment_row_ok (<[id := f r]> rs) pid p) as Helse.
  { intros pid p Hne Hp Htot. split; [by apply Hbounds|]. unfold paid_back, completed.
    rewrite !Hother by done. apply (proj2 Hok pid p Hp Htot). }
  split_and!.
  - split; [done|]. intros pid p Hp Htot. split; [by apply Hbounds|]. intros Hne. apply Helse; [|done..].
    intros Heq. rewrite Heq in Hne. by apply Hne.
  - intros Hcase. split; [done|]. intros pid p Hp Htot.
    destruct (decide (r.(rf_payment_id) = Some pid)) as [Heq|Hne]; [|by apply Helse].
    split; [by apply Hbounds|]. destruct Hcase as [Hm|Hn].
    + unfold paid_back, completed. rewrite !Hthis by done. rewrite Hm. simpl.
      pose proof (total_money_le pid [COMPLETED] rs (proj1 Hok)). lia.
    + unfold payment_of_none in Hn. rewrite Heq in Hn. congruence.
  - intros pid Hp. unfold completed. by rewrite Hthis.
Qed.

(** Where [complete] finds the refund's payment. *)
Lemma payment_of_some r s pid :
  payment_of r s = Some pid → r.(rf_payment_id) = Some pid ∧ is_Some (s.(payments) !! pid).
Proof.
  unfold payment_of. destruct (rf_payment_id r) as [x|]; [|done].
  destruct (payments s !! x) eqn:Hp; [|done]. intros [= <-]. by rewrite Hp.
Qed.
Lemma payment_of_missing r s : payment_of r s = None → payment_of_none r s.(payments).
Proof.
  unfold payment_of, payment_of_none. destruct (rf_payment_id r) as [x|]; [|done].
  by destruct (payments s !! x).
Qed.

(** The cap [complete] checks. *)
Lemma complete_cap s id r pid p :
  refunds_ok s → s.(refunds) !! id = Some r → r.(rf_status) ≠ COMPLETED →
  exceeds (completed_total pid (Some id) s + r.(rf_refunded_amount)) p.(pm_total_amount) = false →
  completed pid s.(refunds) + r.(rf_refunded_amount) <= p.(pm_total_amount).
Proof.
  intros Hs Hr Hst. unfold completed_total. rewrite (sum_exclude _ _ _ _ _ (proj1 Hs) Hr), weight_other
    by by rewrite list_elem_of_singleton.
  intros. breflect_money. unfold completed. lia.
Qed.

Lemma complete_ok id src ref resp who d pub : preserves refunds_ok (complete id src ref resp who d pub).
Proof.
  apply preserves_wp. intros s Hs. unfold complete. to_write; try done.
  all: pose proof (completed_row_fields (now s) ref resp r) as (Hi & Ha & Hst & Hp & Hm & _).
  all: edestruct (money_ok_complete _ _ id r (completed_row (now s) ref resp) Hs Hrow E
         ltac:(by split_and!)) as (Hbut & Hquiet & Htot).
  - intros pid p Hpid Hpr _. apply payment_of_some in E0 as [Hz _]. simplify_eq.
    by apply (complete_cap s id).
  - apply payment_of_some in E0 as [Hz [p Hpr]]. rewrite H0. apply wp_bind, wp_modify. store_step.
    apply wp_bind. eapply wp_mono; [apply settle_payment_ok|].
    + by rewrite Hz in Hbut.
    + split_and!; cbn; [rewrite lookup_alter_eq, Hrow; by eexists|by rewrite Hpr|].
      intros p' r' Hp' Hr'. rewrite lookup_alter_eq, Hrow in Hr'. injection Hr' as <-. simplify_eq.
      rewrite (Htot z Hz), Ha. apply (complete_cap s id) in H1; [|done..].
      pose proof (total_nonneg z [COMPLETED] false _ (proj1 Hs)). unfold completed in H1.
      pose proof (proj2 (proj1 Hs id r Hrow)).
      destruct (proj2 Hs z _ Hpr ltac:(lia)) as ((_ & _ & Hle) & _). lia.
    + intros [fully|?] s' Hs'; cbn beta iota; [|done].
      apply (wp_changes same_money); [change_only|]. intros _ s'' Hf. by apply (refunds_ok_frame _ _ Hf).
  - intros pid p _ _ Hmon. unfold is_money in Hmon. by rewrite H0 in Hmon.
  - apply wp_upd_refund_end; [intros; rewrite H0; cbn [negb]; change_only|]. apply Hquiet. left. unfold is_money. by rewrite H0.
  - intros pid p Hpid Hpr. apply payment_of_missing in E0. unfold payment_of_none in E0. rewrite Hpid in E0. congruence.
  - apply wp_upd_refund_end; [intros; change_only|]. apply Hquiet. right. by apply payment_of_missing.
Qed.

(** Taking a refund out of the completed ones. *)
Lemma money_ok_drop rs ps id r f :
  money_ok rs ps → rs !! id = Some r →
  (f r).(rf_id) = r.(rf_id) → (f r).(rf_refunded_amount) = r.(rf_refunded_amount) →
  (f r).(rf_status) ≠ COMPLETED → (f r).(rf_payment_id) = r.(rf_payment_id) →
  (payment_of_none r ps → money_ok (alter f id rs) ps) ∧
  (∀ pid p p', r.(rf_payment_id) = Some pid → ps !! pid = Some p →
     p'.(pm_id) = p.(pm_id) → p'.(pm_total_amount) = p.(pm_total_amount) →
     p'.(pm_amount_refunded) = completed pid (alter f id rs) → money_ok (alter f id rs) (<[pid := p']> ps)).
Proof.
  intros Hok Hr Hid Hamt Hst Hpid. destruct (proj1 Hok id r Hr) as [Hrid Hpos].
  rewrite (alter_lookup _ _ _ _ Hr).
  assert (∀ k x, <[id := f r]> rs !! k = Some x → refund_row_ok k x) as Hrows.
  { intros k x [[-> <-]|[_ Hk]]%lookup_insert_Some; [split; lia|]. by apply (proj1 Hok). }
  assert (∀ pid money, total_of pid [COMPLETED] money (<[id := f r]> rs) <= total_of pid [COMPLETED] money rs) as Hle.
  { intros pid money. rewrite (total_update _ _ _ _ _ _ _ Hr), (weight_other _ _ _ (f r))
      by by rewrite list_elem_of_singleton.
    pose proof (weight_nonneg pid [COMPLETED] money id r (proj1 Hok id r Hr)). lia. }
  assert (∀ pid p, r.(rf_payment_id) ≠ Some pid → ps !! pid = Some p → 0 <= p.(pm_total_amount) →
    payment_row_ok (<[id := f r]> rs) pid p) as Helse.
  { intros pid p Hne Hp Htot. unfold payment_row_ok, payment_row_bounds, paid_back, completed.
    rewrite !(total_update _ _ _ _ _ _ _ Hr), !weight_elsewhere, !Z.sub_0_r, !Z.add_0_r by congruence.
    by apply (proj2 Hok pid p). }
  split.
  - intros Hn. split; [done|]. intros pid p Hp Htot. apply Helse; [|done..].
    intros Heq. unfold payment_of_none in Hn. rewrite Heq in Hn. congruence.
  - intros pid p p' Hpr Hp Hpi Hpt Hpa. split; [done|].
    intros pid' x [[-> <-]|[Hne Hk]]%lookup_insert_Some Htot.
    + destruct (proj2 Hok pid' p Hp) as ((? & ? & ?) & _); [lia|].
      pose proof (Hle pid' true). pose proof (total_nonneg pid' [COMPLETED] false _ Hrows).
      unfold payment_row_ok, payment_row_bounds, paid_back, completed in *. split_and!; lia.
    + apply Helse; congruence.
Qed.

Lemma fail_ok id why src ref resp who : preserves refunds_ok (fail id why src ref resp who).
Proof.
  apply preserves_wp. intros s Hs. unfold fail. to_write; try done.
  all: destruct (money_ok_drop _ _ id r (failed_row why resp) Hs Hrow eq_refl eq_refl ltac:(done) eq_refl)
    as [Hnone Hsome].
  apply wp_bind, wp_modify, wp_bind, wp_gets. destruct (payment_of r _) as [pid|] eqn:Ep.
  - apply payment_of_some in Ep as [Hpid [p Hp]]. cbn in Hp.
    destruct (rf_status r ==? COMPLETED); cbn [when].
    all: do 8 (try lazymatch goal with
         | |- wp (audit _ _ _ _ _ _ _) _ _ => idtac
         | |- wp (mbind _ (audit _ _ _ _ _ _ _)) _ _ => idtac
         | |- wp (mbind _ _) _ _ => apply wp_bind
         | |- wp (upd_payment _ _) _ _ => apply wp_modify
         | |- wp (gets _) _ _ => apply wp_gets
         | |- wp (mret _) _ _ => apply wp_ret
         end; cbn beta iota).
    all: apply (wp_changes same_money); [change_only|]; intros ro s' Hf; assert (refunds_ok s') as Hs';
      [eapply refunds_ok_frame; [exact Hf|]
      |destruct ro; [|done]; apply (wp_changes same_money); [change_only|];
       intros ? s2 Hf2; by apply (refunds_ok_frame _ _ Hf2)].
    all: unfold refunds_ok; cbn.
    all: first [rewrite (alter_twice _ _ _ _ _ Hp) | rewrite (alter_lookup _ _ _ _ Hp)].
    all: apply (Hsome pid p); try done; apply completed_total_eq.
  - apply (wp_changes same_money); [change_only|]. intros _ s' Hf. eapply refunds_ok_frame; [exact Hf|].
    apply payment_of_missing in Ep. by apply Hnone.
Qed.

(** ** Every history *)

Lemma exec_ok o : preserves refunds_ok (Ops.exec o).
Proof.
  destruct o; simpl; try (apply preserves_bind; [|intros; apply preserves_ret]).
  - apply request_ok.
  - apply update_requested_amounts_ok.
  - apply reject_ok.
  - apply approve_ok.
  - apply mark_processing_ok.
  - apply complete_ok.
  - apply fail_ok.
  - by apply preserves_modify.
Qed.

Lemma exec_all_ok os s : refunds_ok s → refunds_ok (Ops.exec_all os s).
Proof.
  unfold Ops.exec_all. revert s; induction os as [|o os IH]; intros s Hs; [done|]. apply IH. by apply exec_ok.
Qed.

(** C1: Whatever sequence of refund requests, amendments, approvals, rejections,
    gateway dispatches, completions and failures runs, in any order and whether
    or not each one raises, the refunds completed in money for a payment never
    exceed what was paid, the payment's [amount_refunded] stays between zero and
    its completed refunds, and equals their sum when none was paid in points. *)
Theorem refunds_never_overpay (os : list Ops.op) (s : Store) :
  refunds_ok s →
  ∀ pid p, (Ops.exec_all os s).(payments) !! pid = Some p → 0 <= p.(pm_total_amount) →
    let rs := (Ops.exec_all os s).(refunds) in
    paid_back pid rs <= p.(pm_total_amount) ∧ 0 <= p.(pm_amount_refunded) <= completed pid rs ∧
    (paid_back pid rs = completed pid rs → p.(pm_amount_refunded) = completed pid rs).
Proof.
  intros Hs pid p Hp Htot. cbv zeta. destruct (proj2 (exec_all_ok os s Hs) pid p Hp Htot) as ((_ & H1 & H2) & H3).
  exact (conj H1 (conj H2 H3)).
Qed.

(** A paid booking: number 1, 20 KWD paid by payment 5, no refunds yet. *)
Definition demo_booking : Booking :=
  mk_booking (Some "BOK/2026/07/000001") (Some "INV/2026/07/000001") 9 None (Some 3) None 4
    1000 20000 "KWD" "confirmed" "success" "branch" "online" (Some (RefUuid 5)) (Some "deema") None None None None
    None None None 60 None None None None None None None None no_schedule.
Definition demo_payment : Payment :=
  mk_payment 5 (Some 1) 9 20000 0 "KWD" (Some "success") (Some "deema") None None None
    (Some "INV/2026/07/000001") (Some "tx-1") None 10
    "PMT/2026/07/000001" None None None None None None None 60 (Some 10) None None None None None None
    None None (Some "SUCCESS") None None None None None (Some "branch_service") None None no_details.
Definition demo_store : Store :=
  (empty_store 1784000000000000) <| bookings := {[ 1 := demo_booking ]} |> <| payments := {[ 5 := demo_payment ]} |>.

Lemma demo_store_ok : refunds_ok demo_store.
Proof.
  split; [intros k r; cbn; by rewrite lookup_empty|].
  intros pid p Hp _. cbn in Hp. apply lookup_singleton_Some in Hp as [<- <-]. unfold payment_row_ok, payment_row_bounds, paid_back, completed, total_of.
  by vm_compute.
Qed.

Definition demo_history : list Ops.op :=
  [Ops.Request 1 (Some 5) (of_fils 15000) (of_fils 2000) "manual" "cash" (Some "booking-cancel:1");
   Ops.Approve 1 "gateway" (of_fils 15000); Ops.MarkProcessing 1 (Some "rf_1");
   Ops.Complete 1 "webhook" (Some "rf_1") true;
   Ops.Request 1 (Some 5) (of_fils 6000) (of_fils 0) "manual" "cash" None].

Example demo_history_runs :
  (λ p, (p.(pm_amount_refunded), p.(pm_status))) <$> (Ops.exec_all demo_history demo_store).(payments) !! 5 =
    Some (15000, Some "partially_refunded") ∧
  size (Ops.exec_all demo_history demo_store).(refunds) = 1%nat.
Proof. by vm_compute. Qed.

Lemma refunds_never_overpay_witness :
  let s := Ops.exec_all demo_history demo_store in
  ∃ p, s.(payments) !! 5 = Some p ∧ p.(pm_amount_refunded) = 15000 ∧ paid_back 5 s.(refunds) <= 20000.
Proof.
  cbv zeta. pose proof (refunds_never_overpay demo_history demo_store demo_store_ok 5) as Hok.
  destruct ((Ops.exec_all demo_history demo_store).(payments) !! 5) as [p|] eqn:Hp; [|by vm_compute in Hp].
  exists p. assert (p.(pm_total_amount) = 20000 ∧ p.(pm_amount_refunded) = 15000) as [Ht Ha].
  { vm_compute in Hp. by injection Hp as <-. }
  destruct (Hok p eq_refl ltac:(lia)) as [Hle _]. rewrite Ht in Hle. by split_and!.
Defined.
