(* ===== verification/RefundSpec.v ===== *)
(** * What the refund operations do

    The refund state machine as a relation between the rows before and after
    any operation, the life of one idempotency key, the single completion of a
    refund, and the effects of [request] and [complete] on every branch. *)

From S2P Require Import Prelude Exceptions Effects Money Numbers Store RefundLifecycle RefundInvariant.
Import Lifecycle.
#[local] Open Scope Z_scope.

(** ** The refund state machine *)

(** The edges of the status graph the guards of the operations draw. *)
Definition refund_edge (a b : RefundStatus) : bool :=
  match a, b with
  | REQUESTED, (APPROVED | REJECTED | PROCESSING | COMPLETED | FAILED) => true
  | APPROVED, (PROCESSING | COMPLETED | FAILED) => true
  | PROCESSING, (COMPLETED | FAILED) => true
  | COMPLETED, FAILED => true
  | REJECTED, FAILED => true
  | _, _ => false
  end.

(** What may happen to a refund row: its identity stays, its status follows the
    edges, and its amount is fixed once it is no longer merely requested. *)
Record refund_moves (r r' : Refund) : Prop := {
  moves_id : r'.(rf_id) = r.(rf_id);
  moves_number : r'.(rf_refund_number) = r.(rf_refund_number);
  moves_key : r'.(rf_idempotency_key) = r.(rf_idempotency_key);
  moves_booking : r'.(rf_booking_id) = r.(rf_booking_id);
  moves_payment : r'.(rf_payment_id) = r.(rf_payment_id);
  moves_status : rtc (λ a b, refund_edge a b = true) r.(rf_status) r'.(rf_status);
  moves_amount : r.(rf_status) ≠ REQUESTED → r'.(rf_refunded_amount) = r.(rf_refunded_amount) }.

Definition refunds_move (s s' : Store) : Prop :=
  ∀ id r, s.(refunds) !! id = Some r → ∃ r', s'.(refunds) !! id = Some r' ∧ refund_moves r r'.

(** A status that left [REQUESTED] does not come back. *)
Lemma edge_not_requested a b : rtc (λ a b, refund_edge a b = true) a b → a ≠ REQUESTED → b ≠ REQUESTED.
Proof.
  induction 1 as [|x y z Hxy _ IH]; [done|]. intros Hx. apply IH. intros ->. by destruct x.
Qed.

#[export] Instance refund_moves_preorder : PreOrder refund_moves.
Proof.
  split; [intros r; by split|]. intros a b c H1 H2. split.
  1-5: destruct H1, H2; congruence.
  - etransitivity; [apply H1|apply H2].
  - intros Hst. rewrite (moves_amount _ _ H2), (moves_amount _ _ H1); [done..|].
    eapply edge_not_requested; [apply H1|done].
Qed.

#[export] Instance refunds_move_preorder : PreOrder refunds_move.
Proof.
  split.
  - intros s id r Hr. exists r. by split.
  - intros a b c H1 H2 id r Hr. destruct (H1 id r Hr) as (r' & Hr' & M1).
    destruct (H2 id r' Hr') as (r'' & Hr'' & M2). exists r''. split; [done|by etransitivity].
Qed.

(** ** Frames: steps that leave the refund rows alone *)
Definition same_refunds (s s' : Store) : Prop := s'.(refunds) = s.(refunds).
#[export] Instance same_refunds_preorder : PreOrder same_refunds.
Proof. split; [done|]. intros a b c H1 H2. unfold same_refunds in *. congruence. Qed.

Lemma same_refunds_move s s' : same_refunds s s' → refunds_move s s'.
Proof. intros Heq id r Hr. exists r. rewrite Heq. by split. Qed.

Lemma same_money_refunds {A} (m : M Store A) : changes same_money m → changes same_refunds m.
Proof. intros Hm s. apply Hm. Qed.

Lemma upd_payment_refunds id f : changes same_refunds (upd_payment id f).
Proof. done. Qed.
#[export] Hint Resolve same_money_refunds upd_payment_refunds : ush.

Lemma settle_payment_refunds p r src ref a d : changes same_refunds (settle_payment p r src ref a d).
Proof. unfold settle_payment. change_only. Qed.
#[export] Hint Resolve settle_payment_refunds : ush.

(** One write of a refund row, then steps that leave the rows alone. *)
Lemma upd_refund_moves_last id r f s :
  s.(refunds) !! id = Some r → refund_moves r (f r) → wp (upd_refund id f) s (λ _ s', refunds_move s s').
Proof.
  intros Hr Hm. apply wp_modify. intros i x Hx. cbn. destruct (decide (i = id)) as [->|Hne].
  - rewrite lookup_alter_eq, Hr. exists (f r). simplify_eq. by split.
  - rewrite lookup_alter_ne by done. exists x. by split.
Qed.

Lemma upd_refund_moves {A} id r f (k : () → M Store A) s :
  s.(refunds) !! id = Some r → refund_moves r (f r) → (∀ a, changes same_refunds (k a)) →
  wp (upd_refund id f ≫= k) s (λ _ s', refunds_move s s').
Proof.
  intros Hr Hm Hk. apply wp_bind. eapply wp_mono; [by apply (upd_refund_moves_last id r)|].
  intros [u|e] s1 H1; cbn beta iota; [|done]. apply (wp_changes same_refunds); [apply Hk|].
  intros _ s' Hf. etransitivity; [exact H1|by apply same_refunds_move].
Qed.

Lemma edge_once a b : refund_edge a b = true → rtc (λ a b, refund_edge a b = true) a b.
Proof. intros He. by apply rtc_once. Qed.

(** The rows the transitions write follow the machine. *)
Ltac row_moves Hst :=
  unfold stamp_actor; case_match; (split; cbn; [done..|apply edge_once; by rewrite Hst|congruence || done]).

Lemma rejected_row_moves t why a d r : r.(rf_status) = REQUESTED → refund_moves r (rejected_row t why a d r).
Proof. intros Hst. unfold rejected_row. row_moves Hst. Qed.
Lemma approved_row_moves t m net notes a d r :
  r.(rf_status) = REQUESTED → refund_moves r (approved_row t m net notes a d r).
Proof. intros Hst. unfold approved_row. row_moves Hst. Qed.
Lemma processing_row_moves t g resp a d r :
  r.(rf_status) ∈ [REQUESTED; APPROVED] → refund_moves r (processing_row t g resp a d r).
Proof.
  rewrite elem_of_cons, list_elem_of_singleton. unfold processing_row. intros [Hst|Hst]; row_moves Hst.
Qed.
Lemma completed_row_moves t ref resp r : is_open r = true → refund_moves r (completed_row t ref resp r).
Proof.
  intros Hopen. unfold completed_row.
  assert (refund_edge r.(rf_status) COMPLETED = true) as He.
  { revert Hopen. unfold is_open. by destruct (rf_status r). }
  destruct resp, (truthy_opt ref); cbn; try destruct (String.eqb _ _); (split; cbn; [done..|by apply edge_once|done]).
Qed.
Lemma failed_row_moves why resp r : r.(rf_status) ∉ [FAILED; CANCELLED] → refund_moves r (failed_row why resp r).
Proof.
  intros Hst. split; cbn; [done..| |done]. destruct (rf_status r); try (by apply edge_once); set_solver.
Qed.

(** ** Every operation follows the machine *)

Lemma wp_after {A} (m : M Store A) s s1 :
  refunds_move s s1 → wp m s1 (λ _ s', refunds_move s1 s') → wp m s1 (λ _ s', refunds_move s s').
Proof. intros H1 Hm. eapply wp_mono; [exact Hm|]. intros ? s' H2. by etransitivity. Qed.

(** Pass a step that leaves the refund rows alone. *)
Ltac moves_frame :=
  apply (wp_changes same_refunds); [change_only|];
  let H := fresh "Hsame" in intros [?|?] ? H; cbn beta iota;
  [try apply (wp_after _ _ _ (same_refunds_move _ _ H))|by apply same_refunds_move].

Ltac moves_write row :=
  first [eapply upd_refund_moves; [eassumption|apply row|intros; change_only]
        |eapply upd_refund_moves_last; [eassumption|apply row]].

Lemma insert_moves s id r :
  s.(refunds) !! id = None → refunds_move s (s <| refunds := <[id := r]> s.(refunds) |>).
Proof.
  intros Hnew i x Hx. exists x. cbn. rewrite lookup_insert_ne by congruence. by split.
Qed.

Lemma request_moves b p a f t m why notes key who d s :
  wp (request b p a f t m why notes key who d) s (λ _ s', refunds_move s s').
Proof.
  unfold request. store_steps; try reflexivity. moves_frame.
  store_steps; try reflexivity; [|apply insert_moves, new_id_fresh].
  apply (wp_changes same_refunds); [change_only|]. intros ro s2 H2.
  assert (refunds_move s' s2); [|by destruct ro].
  etransitivity; [apply insert_moves, new_id_fresh|by apply same_refunds_move].
Qed.

Lemma update_requested_amounts_moves id p a f s :
  wp (update_requested_amounts id p a f) s (λ _ s', refunds_move s s').
Proof.
  unfold update_requested_amounts. to_write; try reflexivity. moves_frame.
  eapply upd_refund_moves_last; [by rewrite Hsame|]. split; cbn; [done..|reflexivity|congruence].
Qed.

Lemma reject_moves id why who d s : wp (reject id why who d) s (λ _ s', refunds_move s s').
Proof. unfold reject. to_write; try reflexivity. by moves_write rejected_row_moves. Qed.

Lemma approve_moves id m a notes who d s : wp (approve id m a notes who d) s (λ _ s', refunds_move s s').
Proof.
  unfold approve. to_write; try reflexivity; [moves_frame; to_write; rewrite <- Hsame in Hrow|];
    by moves_write approved_row_moves.
Qed.

Lemma mark_processing_moves id g resp who d s :
  wp (mark_processing id g resp who d) s (λ _ s', refunds_move s s').
Proof. unfold mark_processing. to_write; try reflexivity. by moves_write processing_row_moves. Qed.

Lemma complete_moves id src ref resp who d pub s :
  wp (complete id src ref resp who d pub) s (λ _ s', refunds_move s s').
Proof. unfold complete. to_write; try reflexivity; by moves_write completed_row_moves. Qed.

Lemma fail_moves id why src ref resp who s :
  wp (fail id why src ref resp who) s (λ _ s', refunds_move s s').
Proof. unfold fail. to_write; try reflexivity. by moves_write failed_row_moves. Qed.

Lemma exec_moves o s : refunds_move s (Ops.exec o s).2.
Proof.
  assert (∀ A (m : M Store A), wp m s (λ _ s', refunds_move s s') → refunds_move s ((m ;; mret ()) s).2) as Hret.
  { intros A m Hm. change (wp (m ;; mret ()) s (λ _ s', refunds_move s s')). apply wp_bind.
    eapply wp_mono; [exact Hm|]. by intros [?|?] s1 H1. }
  destruct o; simpl.
  - apply Hret, request_moves.
  - apply update_requested_amounts_moves.
  - apply reject_moves.
  - apply approve_moves.
  - apply mark_processing_moves.
  - apply Hret, complete_moves.
  - apply fail_moves.
  - intros id r Hr. exists r. by split.
Qed.

(** ** Claims *)

Lemma exec_all_moves os s : refunds_move s (Ops.exec_all os s).
Proof.
  unfold Ops.exec_all. revert s; induction os as [|o os IH]; intros s; [cbn; reflexivity|].
  etransitivity; [apply exec_moves|apply IH].
Qed.

(** C31: Over any history of the operations of the refund lifecycle (request,
    amendment, rejection, approval, processing, completion, failure) a refund row
    is never lost, never changes number, idempotency key, booking or payment, its
    status only follows the edges of the refund state machine, and its amount is
    frozen as soon as it has left [REQUESTED].  Refunds are also written outside
    these operations: the deletion of a payment drops its refunds
    ([PaymentApi.delete_payment]), the webhook of a link refund writes its outcome
    whatever the status was (LinkWebhook.v) and a repeated cancellation request
    gives a refund the payment it lacks
    ([RefundService.create_refund_request]). *)
Theorem refund_state_machine (os : list Ops.op) (s : Store) (id : Z) (r : Refund) :
  s.(refunds) !! id = Some r →
  ∃ r', (Ops.exec_all os s).(refunds) !! id = Some r' ∧
    r'.(rf_refund_number) = r.(rf_refund_number) ∧ r'.(rf_idempotency_key) = r.(rf_idempotency_key) ∧
    r'.(rf_booking_id) = r.(rf_booking_id) ∧ r'.(rf_payment_id) = r.(rf_payment_id) ∧
    rtc (λ a b, refund_edge a b = true) r.(rf_status) r'.(rf_status) ∧
    (r.(rf_status) ≠ REQUESTED → r'.(rf_refunded_amount) = r.(rf_refunded_amount)).
Proof.
  intros Hr. destruct (exec_all_moves os s id r Hr) as (r' & Hr' & []). by exists r'.
Qed.

Lemma refund_state_machine_witness :
  let s := Ops.exec_all (take 1 demo_history) demo_store in
  ∃ r, s.(refunds) !! 1 = Some r ∧ r.(rf_status) = REQUESTED ∧
  ∃ r', (Ops.exec_all (drop 1 demo_history) s).(refunds) !! 1 = Some r' ∧
        r'.(rf_refund_number) = r.(rf_refund_number).
Proof.
  cbv zeta. set (s := Ops.exec_all (take 1 demo_history) demo_store).
  destruct (s.(refunds) !! 1) as [r|] eqn:Hr; [|by vm_compute in Hr]. exists r. split; [done|].
  split; [vm_compute in Hr; by injection Hr as <-|].
  destruct (refund_state_machine (drop 1 demo_history) s 1 r Hr) as (r' & Hr' & Hn & _). eauto.
Defined.

(** Nothing but the audit row. *)
Lemma audit_runs p r src a d ref old s row rrow :
  s.(payments) !! p = Some row → s.(refunds) !! r = Some rrow →
  ∃ h, audit p r src a d ref old s = (Ok (), s <| payment_status_history := s.(payment_status_history) ++ [h] |>).
Proof.
  intros Hp Hr. unfold audit, mbind, M_bind, get_payment_row, get_refund_row. rewrite Hp. cbn. rewrite Hr. cbn. eauto.
Qed.

(** When a request is accepted, and what it then does. *)
Definition request_acceptable (payment : option Z) (net fee : Z) (s : Store) : Prop :=
  0 < net ∧ 0 <= fee ∧
  (∀ pid p, payment = Some pid → s.(payments) !! pid = Some p →
     committed_total pid None s + net <= p.(pm_total_amount)).

Record requested (b : Z) (payment : option Z) (net fee : Z) (key : option string) (s s' : Store)
    (id : Z) (r : Refund) : Prop := {
  requested_new : s.(refunds) !! id = None;
  requested_refunds : s'.(refunds) = <[id := r]> s.(refunds);
  requested_others : s'.(bookings) = s.(bookings) ∧ s'.(payments) = s.(payments) ∧ s'.(events) = s.(events);
  requested_id : r.(rf_id) = id;
  requested_status : r.(rf_status) = REQUESTED;
  requested_amount : r.(rf_refunded_amount) = net ∧ r.(rf_requested_amount) = net + fee ∧ r.(rf_cancellation_fee) = fee;
  requested_booking : r.(rf_booking_id) = Some b;
  requested_payment : r.(rf_payment_id) = (payment ≫= λ pid, pm_id <$> s.(payments) !! pid);
  requested_key : r.(rf_idempotency_key) = key }.

(** No refund has this idempotency key. *)
Definition key_unused (key : option string) (s : Store) : Prop :=
  truthy_opt key = true → ∀ k r, s.(refunds) !! k = Some r → r.(rf_idempotency_key) ≠ key.

Lemma find_by_key_none key s :
  key_unused key s → List.filter (λ r, rf_idempotency_key r ==? key) (rows s.(refunds)) = [] ∨ truthy_opt key = false.
Proof.
  intros Hkey. destruct (truthy_opt key) eqn:Hk; [left|by right].
  destruct (List.filter _ _) as [|r l] eqn:E; [done|].
  assert (r ∈ List.filter (λ r, rf_idempotency_key r ==? key) (rows s.(refunds))) as Hin by (rewrite E; apply list_elem_of_here).
  apply elem_of_filter_list in Hin as [[k Hr]%elem_of_rows Heq]. breflect. by destruct (Hkey Hk k r Hr).
Qed.

(** A refund request that is not a repetition is accepted exactly when its
    net amount is positive, its fee is not negative and, with a payment, the
    amount fits in what open and completed refunds have left of the paid total;
    it then adds one requested refund for net plus fee and changes no other
    refund, booking or payment and publishes nothing; otherwise it raises a
    validation error and changes nothing. *)
Theorem request_correct (b : Z) (payment : option Z) (amount fee : Decimal) (rtype rmethod : string)
    (reason notes key who : option string) (data : option jdict) (s : Store) :
  is_Some (s.(bookings) !! b) → (∀ pid, payment = Some pid → is_Some (s.(payments) !! pid)) →
  key_unused key s →
  match request b payment amount fee rtype rmethod reason notes key who data s with
  | (Ok (id, created), s') =>
      request_acceptable payment (dec_fils amount) (dec_fils fee) s ∧ created = true ∧
      ∃ r, requested b payment (dec_fils amount) (dec_fils fee) key s s' id r
  | (Raise e, s') =>
      s' = s ∧ exn_class e = ValidationError ∧
      ¬ request_acceptable payment (dec_fils amount) (dec_fils fee) s
  end.
Proof.
  intros [booking Hb] Hp Hkey. unfold request. rewrite bind_run. cbn [gets].
  assert ((if truthy_opt key then rf_id <$> head (List.filter (λ r, rf_idempotency_key r ==? key) (rows s.(refunds)))
           else None) = None) as ->.
  { destruct (find_by_key_none key s Hkey) as [E|E]; [rewrite E; by destruct (truthy_opt key)|by rewrite E]. }
  unfold raise_if. destruct (dec_fils amount <=? 0) eqn:En;
    [cbn; split_and!; [done..|]; intros (? & _); breflect; lia|].
  destruct (dec_fils fee <? 0) eqn:Ef; [cbn; split_and!; [done..|]; intros (_ & ? & _); breflect; lia|].
  destruct payment as [pid|].
  - destruct (Hp pid eq_refl) as [p Hpay]. unfold check_cap. row_runs.
    destruct (exceeds _ _) eqn:Ee; cbn beta iota.
    { split_and!; [done..|]. intros (_ & _ & Hc). breflect_money. specialize (Hc pid p eq_refl Hpay). lia. }
    row_runs.
    match goal with |- context [audit ?p ?i ?x ?w ?d ?o ?g ?st] =>
      destruct (audit_runs p i x w d o g st _ _ Hpay (lookup_insert_eq _ _ _)) as [h ->] end.
    cbn beta iota. row_runs. split_and!; [|done|].
    { split_and!; [breflect; lia..|]. intros ? ? [= <-] ?. simplify_eq. by breflect_money. }
    eexists. split; try done. apply new_id_fresh.
  - unfold check_cap. row_runs. split_and!; [|done|].
    { split_and!; [breflect; lia..|done]. }
    eexists. split; try done. apply new_id_fresh.
Qed.

Lemma request_correct_witness :
  (match request 1 (Some 5) (of_fils 15000) (of_fils 2000) "manual" "cash" None None (Some "k") None None demo_store with
   | (Ok (id, created), s') => id = 1 ∧ created = true ∧ rf_requested_amount <$> s'.(refunds) !! 1 = Some 17000
   | _ => False end) ∧
  (match request 1 (Some 5) (of_fils 21000) (of_fils 2000) "manual" "cash" None None (Some "k") None None demo_store with
   | (Raise e, s') => s' = demo_store ∧ exn_class e = ValidationError
   | _ => False end).
Proof.
  assert (∀ a, match request 1 (Some 5) a (of_fils 2000) "manual" "cash" None None (Some "k") None None demo_store with
    | (Ok (id, created), s') => request_acceptable (Some 5) (dec_fils a) (dec_fils (of_fils 2000)) demo_store ∧ created = true ∧
        ∃ r, requested 1 (Some 5) (dec_fils a) (dec_fils (of_fils 2000)) (Some "k") demo_store s' id r
    | (Raise e, s') => s' = demo_store ∧ exn_class e = ValidationError ∧
        ¬ request_acceptable (Some 5) (dec_fils a) (dec_fils (of_fils 2000)) demo_store end) as H.
  { intros a. refine (request_correct 1 (Some 5) a (of_fils 2000) "manual" "cash" None None (Some "k") None None demo_store _ _ _).
    - by eexists.
    - intros pid [= <-]. by eexists.
    - intros _ k r. cbn. by rewrite lookup_empty. }
  split.
  - specialize (H (of_fils 15000)). destruct (request _ _ _ _ _ _ _ _ _ _ _ _) as [[[id created]|e] s'] eqn:E.
    + destruct H as (_ & -> & r & Hr). vm_compute in E. injection E as <- <-. by vm_compute.
    + vm_compute in E. discriminate E.
  - specialize (H (of_fils 21000)). destruct (request _ _ _ _ _ _ _ _ _ _ _ _) as [[[id created]|e] s'] eqn:E.
    + vm_compute in E. discriminate E.
    + by destruct H as (? & ? & _).
Defined.

Definition find_by_key (key : option string) (s : Store) : option Refund :=
  head (List.filter (λ r, rf_idempotency_key r ==? key) (rows s.(refunds))).

(** A key nobody used, then used by one inserted row, finds that row. *)
Lemma find_by_key_insert key (m : gmap Z Refund) id r :
  List.filter (λ r, rf_idempotency_key r ==? key) (rows m) = [] → m !! id = None → r.(rf_idempotency_key) = key →
  head (List.filter (λ r, rf_idempotency_key r ==? key) (rows (<[id := r]> m))) = Some r.
Proof.
  intros Hnil Hnew Hkey. set (l := List.filter _ (rows (<[id := r]> m))).
  assert (∀ x, x ∈ l → x = r) as Hall.
  { intros x [[k Hx]%elem_of_rows Hp]%elem_of_filter_list.
    apply lookup_insert_Some in Hx as [[_ <-]|[_ Hx]]; [done|].
    assert (x ∈ List.filter (λ r, rf_idempotency_key r ==? key) (rows m)) as Hin.
    { apply elem_of_filter_list. split; [|done]. apply elem_of_rows. eauto. }
    rewrite Hnil in Hin. by apply elem_of_nil in Hin. }
  assert (r ∈ l) as Hin.
  { apply elem_of_filter_list. split; [|by apply bool_decide_eq_true_2].
    apply elem_of_rows. exists id. apply lookup_insert_eq. }
  clearbody l. destruct l as [|x l]; [by apply elem_of_nil in Hin|]. cbn.
  f_equal. apply Hall, list_elem_of_here.
Qed.

Lemma request_found b p a f t m why notes key who d s r :
  truthy_opt key = true → find_by_key key s = Some r →
  request b p a f t m why notes key who d s = (Ok (r.(rf_id), false), s).
Proof.
  intros Hk Hf. unfold request. rewrite bind_run, gets_run. cbn beta iota. unfold find_by_key in Hf.
  by rewrite Hk, Hf.
Qed.

Lemma request_registers b p a f t m why notes key who d s :
  truthy_opt key = true →
  wp (request b p a f t m why notes key who d) s (λ res s',
    match res with
    | Ok (id, _) => ∃ r, find_by_key key s' = Some r ∧ r.(rf_id) = id
    | Raise _ => True
    end).
Proof.
  intros Hk. unfold request. rewrite Hk.
  apply wp_bind, wp_gets. cbn beta iota. fold (find_by_key key s).
  destruct (find_by_key key s) as [r|] eqn:Ef; cbn [fmap option_fmap option_map].
  { apply wp_ret. eauto. }
  assert (List.filter (λ r, rf_idempotency_key r ==? key) (rows s.(refunds)) = []) as Hnil.
  { unfold find_by_key in Ef. by destruct (List.filter _ _). }
  store_steps; try done. apply (wp_changes same_refunds); [change_only|]. intros [?|?] s1 H1; cbn beta iota; [|done].
  rewrite <- H1 in Hnil. store_steps; try done.
  2:{ eexists. split; [unfold find_by_key; cbn; apply find_by_key_insert; done || apply new_id_fresh|done]. }
  apply (wp_changes same_refunds); [change_only|]. intros [?|?] s2 H2; cbn beta iota; [|done]. apply wp_ret.
  eexists. unfold find_by_key. rewrite H2. cbn.
  split; [apply find_by_key_insert; done || apply new_id_fresh|done].
Qed.

(** An idempotency key makes at most one refund: once a request with a key
    returned a refund, every later request with that key, whatever its booking,
    payment, amounts or method, returns the same refund, reports that nothing
    was created, and changes nothing. *)
Theorem request_idempotent (b b' : Z) (p p' : option Z) (a a' f f' : Decimal) (t t' m m' : string)
    (why why' notes notes' key who who' : option string) (d d' : option jdict) (s s1 : Store)
    (id : Z) (created : bool) :
  truthy_opt key = true →
  request b p a f t m why notes key who d s = (Ok (id, created), s1) →
  request b' p' a' f' t' m' why' notes' key who' d' s1 = (Ok (id, false), s1).
Proof.
  intros Hk Hrun. pose proof (wp_run _ _ _ _ _ (request_registers b p a f t m why notes key who d s Hk) Hrun)
    as (r & Hf & <-). by apply request_found.
Qed.

Lemma request_idempotent_witness :
  let first := request 1 (Some 5) (of_fils 15000) (of_fils 2000) "manual" "cash" None None (Some "booking-cancel:1") None None demo_store in
  first.1 = Ok (1, true) ∧
  request 1 (Some 5) (of_fils 700) (of_fils 0) "manual" "card" None None (Some "booking-cancel:1") None None first.2 =
    (Ok (1, false), first.2).
Proof.
  cbv zeta. assert ((request 1 (Some 5) (of_fils 15000) (of_fils 2000) "manual" "cash" None None
    (Some "booking-cancel:1") None None demo_store).1 = Ok (1, true)) as H by (vm_compute; reflexivity).
  split; [exact H|].
  refine (request_idempotent 1 1 (Some 5) (Some 5) (of_fils 15000) (of_fils 700) (of_fils 2000) (of_fils 0)
    "manual" "manual" "cash" "card" None None None None (Some "booking-cancel:1") None None None None
    demo_store _ 1 true eq_refl _).
  destruct (request _ _ _ _ _ _ _ _ _ _ _ _) as [res s1]. cbn in *. by rewrite H.
Defined.

(** ** Completion *)

(** Steps that leave the refund rows and the published events alone. *)
Definition same_published (s s' : Store) : Prop := s'.(refunds) = s.(refunds) ∧ s'.(events) = s.(events).
#[export] Instance same_published_preorder : PreOrder same_published.
Proof. split; [done|]. intros a b c [H1 H2] [H3 H4]. split; congruence. Qed.

Lemma get_refund_row_published id : changes same_published (get_refund_row id).
Proof. intros s. unfold get_refund_row. by destruct (refunds s !! id). Qed.
Lemma get_payment_row_published id : changes same_published (get_payment_row id).
Proof. intros s. unfold get_payment_row. by destruct (payments s !! id). Qed.
Lemma upd_payment_published id f : changes same_published (upd_payment id f).
Proof. done. Qed.
Lemma upd_booking_published id f : changes same_published (upd_booking id f).
Proof. done. Qed.
Lemma add_history_published h : changes same_published (add_history h).
Proof. done. Qed.
#[export] Hint Resolve get_refund_row_published get_payment_row_published upd_payment_published
  upd_booking_published add_history_published : ush.
Lemma audit_published p r src a d ref old : changes same_published (audit p r src a d ref old).
Proof. unfold audit. change_only. Qed.
#[export] Hint Resolve audit_published : ush.
Lemma settle_payment_published p r src ref a d : changes same_published (settle_payment p r src ref a d).
Proof. unfold settle_payment. change_only. Qed.
#[export] Hint Resolve settle_payment_published : ush.

Definition completes (id : Z) (e : Event) : Prop :=
  match e with BookingRefundCompletedEvent e => ev_refund_id e = id ∧ ev_status e = COMPLETED | _ => False end.

Definition published_outcome (id : Z) (pub : bool) (s : Store) (res : result bool) (s' : Store) : Prop :=
  match res with
  | Ok done => (∃ r, s'.(refunds) !! id = Some r ∧ r.(rf_status) = COMPLETED) ∧ (done = false → s' = s) ∧
      ∃ evs, s'.(events) = s.(events) ++ evs ∧ length evs = (if done && pub then 1 else 0)%nat ∧
             Forall (completes id) evs
  | Raise _ => True
  end.

(** The end of [complete]: the write of the row, the summaries, the event. *)
Lemma complete_tail_published id r t ref resp pub s (bk : Store → option Z) payment
    (settle : M Store bool) (set_booking : option Z → bool → M Store ()) :
  s.(refunds) !! id = Some r → changes same_published settle →
  (∀ b f, changes same_published (set_booking b f)) →
  wp (upd_refund id (completed_row t ref resp) ≫= λ _,
      gets bk ≫= λ booking, settle ≫= λ fully, set_booking booking fully ≫= λ _,
      when pub (publish_completed_event id booking payment fully) ≫= λ _, mret true) s
    (published_outcome id pub s).
Proof.
  intros Hr Hsettle Hset. apply wp_bind, wp_modify. store_step. store_step.
  apply wp_bind, (wp_changes same_published); [done|]. intros [fully|?] s1 [H1 H1']; cbn beta iota; [|done].
  apply wp_bind, (wp_changes same_published); [done|]. intros [?|?] s2 [H2 H2']; cbn beta iota; [|done].
  assert (s2.(refunds) !! id = Some (completed_row t ref resp r)) as Hrow.
  { rewrite H2, H1. cbn. by rewrite lookup_alter_eq, Hr. }
  assert (s2.(events) = s.(events)) as Hev by (by rewrite H2', H1').
  pose proof (completed_row_fields t ref resp r) as (Hid & _ & Hst & _).
  destruct pub; cbn [when].
  - unfold publish_completed_event. store_steps; try done. simplify_eq. split; [by eexists|].
    split; [done|]. eexists. split; [cbn; by rewrite Hev|]. split; [done|]. by repeat constructor.
  - store_steps. split; [by eexists|]. split; [done|]. exists []. by rewrite app_nil_r.
Qed.

Lemma complete_published id src ref resp who d pub s :
  wp (complete id src ref resp who d pub) s (published_outcome id pub s).
Proof.
  unfold complete. to_write; try done.
  { split; [eauto|split; [done|]]. exists []. by rewrite app_nil_r. }
  - rewrite H0. apply (complete_tail_published id r); [done|cbn [negb]; change_only|intros; change_only].
  - rewrite H0. apply (complete_tail_published id r); [done|cbn [negb]; change_only|intros; change_only].
  - apply (complete_tail_published id r); [done|change_only|intros; change_only].
Qed.

(** A refund completes once. After a call of [complete] that returned, the
    refund is completed and every later call, with any source, reference or
    event flag, returns that nothing happened and changes nothing; the events
    published by the first call are exactly one completion event of this refund
    when it made the transition and was asked to publish, none otherwise. *)
Theorem complete_once (id : Z) (src src' : string) (ref ref' : option string) (resp resp' : option jdict)
    (who who' : option string) (d d' : option jdict) (pub pub' done : bool) (s s1 : Store) :
  complete id src ref resp who d pub s = (Ok done, s1) →
  complete id src' ref' resp' who' d' pub' s1 = (Ok false, s1) ∧
  ∃ evs, s1.(events) = s.(events) ++ evs ∧ length evs = (if done && pub then 1 else 0)%nat ∧
         Forall (completes id) evs.
Proof.
  intros Hrun. destruct (wp_run _ _ _ _ _ (complete_published id src ref resp who d pub s) Hrun)
    as ((r & Hr & Hst) & _ & Hev). split; [|done].
  unfold complete. row_runs. rewrite Hst. done.
Qed.

Definition demo_processing : Store := Ops.exec_all (take 3 demo_history) demo_store.

Lemma complete_once_witness :
  let first := complete 1 "webhook" (Some "rf_1") None None None true demo_processing in
  first.1 = Ok true ∧ complete 1 "api" None None None None true first.2 = (Ok false, first.2) ∧
  length first.2.(events) = 1%nat.
Proof.
  cbv zeta.
  assert ((complete 1 "webhook" (Some "rf_1") None None None true demo_processing).1 = Ok true) as H by (vm_compute; reflexivity).
  split; [exact H|].
  destruct (complete 1 "webhook" (Some "rf_1") None None None true demo_processing) as [res s1] eqn:Hrun.
  cbn in *. subst res.
  destruct (complete_once 1 "webhook" "api" (Some "rf_1") None None None None None None None true true true
    demo_processing s1 Hrun) as (Hagain & evs & Hev & Hlen & _).
  split; [exact Hagain|]. rewrite Hev, length_app, Hlen. by vm_compute.
Defined.

(** What the completion of a money refund of [amount] leaves on its payment and
    its booking; [kept] is the cancellation fee withheld. *)
Record settled (s s' : Store) (id pid bid : Z) (r : Refund) (p : Payment) (b : Booking) : Prop := {
  settled_refund : ∃ r', s'.(refunds) = <[id := r']> s.(refunds) ∧ r'.(rf_status) = COMPLETED ∧
    r'.(rf_refunded_amount) = r.(rf_refunded_amount) ∧ r'.(rf_completed_at) = Some s.(now);
  settled_payment : ∃ p', s'.(payments) = <[pid := p']> s.(payments) ∧
    p'.(pm_amount_refunded) = completed pid s'.(refunds) ∧
    completed pid s'.(refunds) = completed pid s.(refunds) + r.(rf_refunded_amount) ∧
    p'.(pm_total_amount) = p.(pm_total_amount) ∧
    p'.(pm_status) = Some (if p.(pm_total_amount) <=? p'.(pm_amount_refunded)
                           then "refunded" else "partially_refunded");
  settled_booking : ∃ b', s'.(bookings) = <[bid := b']> s.(bookings) ∧
    let target := Z.max 0 (p.(pm_total_amount) - Z.max (retained_fee pid s') r.(rf_cancellation_fee)) in
    b'.(bk_payment_status) = (if (0 <? target) && (target <=? completed pid s'.(refunds))
                              then "refunded" else "partially_refunded") ∧
    b'.(bk_status) = (if String.eqb (lower b.(bk_status)) "cancelled" then b.(bk_status) else "refunded") }.

Lemma completed_row_at t ref resp r : (completed_row t ref resp r).(rf_completed_at) = Some t.
Proof. unfold completed_row. destruct resp, (truthy_opt ref); cbn; try done; by destruct (String.eqb _ _). Qed.

Lemma completed_row_fee t ref resp r : (completed_row t ref resp r).(rf_cancellation_fee) = r.(rf_cancellation_fee).
Proof. unfold completed_row. destruct resp, (truthy_opt ref); cbn; try done; by destruct (String.eqb _ _). Qed.

Lemma retained_fee_refunds pid s s' : s'.(refunds) = s.(refunds) → retained_fee pid s' = retained_fee pid s.
Proof. intros Heq. unfold retained_fee. by rewrite Heq. Qed.

Lemma settle_payment_run pid id src ref a d s p r :
  s.(payments) !! pid = Some p → s.(refunds) !! id = Some r →
  p.(pm_amount_refunded) + r.(rf_refunded_amount) <= completed pid s.(refunds) → 0 < completed pid s.(refunds) →
  let D := completed pid s.(refunds) in
  let target := Z.max 0 (p.(pm_total_amount) - Z.max (retained_fee pid s) r.(rf_cancellation_fee)) in
  ∃ s', settle_payment pid id src ref a d s = (Ok ((0 <? target) && (target <=? D)), s') ∧
    s'.(refunds) = s.(refunds) ∧ s'.(bookings) = s.(bookings) ∧
    s'.(payments) = <[pid := p <| pm_amount_refunded := D |>
      <| pm_status := Some (if p.(pm_total_amount) <=? D then "refunded" else "partially_refunded") |>]> s.(payments).
Proof.
  intros Hp Hr Hle Hpos D target. unfold settle_payment. row_runs.
  rewrite completed_total_eq, Z.max_l by done. fold D.
  assert (∀ x y, reaches x y = (y <=? x)) as Hreach.
  { intros x y. apply eq_true_iff_eq. by rewrite reaches_spec, Z.leb_le. }
  rewrite !Hreach. replace (0 <? D) with true by (symmetry; by apply Z.ltb_lt).
  destruct (pm_total_amount p <=? D); cbn [when]; row_runs;
    (match goal with |- context [audit ?p ?i ?x ?w ?dd ?o ?g ?st] =>
       edestruct (audit_runs p i x w dd o g st) as [h ->];
         [cbn; rewrite !lookup_alter_eq, Hp; reflexivity|exact Hr|] end);
    cbn beta iota; row_runs; eexists; (split; [reflexivity|]); cbn; split_and!; try done; by rewrite (alter_twice _ _ _ _ _ Hp).
Qed.

(** C24: Completing an open money refund: it is refused, with nothing changed,
    exactly when the completed refunds and this one would exceed the paid total;
    otherwise the refund alone changes status, the payment's [amount_refunded]
    becomes the sum of its completed refunds and its status says whether the
    total was reached, and the booking is refunded or partially refunded
    according to the total less the retained fee, a cancelled booking staying
    cancelled. *)
Theorem complete_settles (id pid bid : Z) (src : string) (ref : option string) (resp : option jdict)
    (who : option string) (d : option jdict) (s : Store) (r : Refund) (p : Payment) (b : Booking) :
  refunds_ok s → 0 <= p.(pm_total_amount) →
  s.(refunds) !! id = Some r → is_open r = true → is_loyalty_method r.(rf_refund_method) = false →
  r.(rf_payment_id) = Some pid → s.(payments) !! pid = Some p →
  r.(rf_booking_id) = Some bid → s.(bookings) !! bid = Some b →
  match complete id src ref resp who d false s with
  | (Ok done, s') => done = true ∧ completed pid s.(refunds) + r.(rf_refunded_amount) <= p.(pm_total_amount) ∧
                     settled s s' id pid bid r p b
  | (Raise e, s') => s' = s ∧ exn_class e = ValidationError ∧
                     p.(pm_total_amount) < completed pid s.(refunds) + r.(rf_refunded_amount)
  end.
Proof.
  intros Hs Htot Hr Hopen Hl Hpid Hp Hbid Hb. unfold complete. row_runs.
  assert (rf_status r ≠ COMPLETED) as Hne by (intros Hst; unfold is_open in Hopen; by rewrite Hst in Hopen).
  rewrite (bool_decide_false (rf_status r = COMPLETED)), Hopen by done. cbn [negb]. unfold payment_of. row_runs. rewrite Hpid, Hp, Hl.
  cbn [negb]. row_runs.
  assert (exceeds (completed_total pid (Some id) s + rf_refunded_amount r) (pm_total_amount p) =
          (p.(pm_total_amount) <? completed pid s.(refunds) + r.(rf_refunded_amount))) as ->.
  { unfold completed_total. rewrite (sum_exclude _ _ _ _ _ (proj1 Hs) Hr), weight_other
      by by rewrite list_elem_of_singleton.
    rewrite Z.sub_0_r. apply eq_true_iff_eq. by rewrite exceeds_spec, Z.ltb_lt. }
  destruct (p.(pm_total_amount) <? completed pid s.(refunds) + r.(rf_refunded_amount)) eqn:Ecap; cbn beta iota; breflect.
  { by split_and!. }
  row_runs.
  pose proof (completed_row_fields (now s) ref resp r) as (Hi & Ha & Hst & Hpi & Hm & Hbi).
  destruct (money_ok_complete _ _ id r (completed_row (now s) ref resp) Hs Hr Hne ltac:(by split_and!)) as (_ & _ & Hsum).
  { intros ? ? ? ? _. by simplify_eq. }
  specialize (Hsum pid Hpid). rewrite (alter_lookup _ _ _ _ Hr) in *.
  set (s1 := s <| refunds := _ |>).
  destruct (settle_payment_run pid id src ref who d s1 p (completed_row (now s) ref resp r) Hp (lookup_insert_eq _ _ _))
    as (s2 & Hrun & Hr2 & Hb2 & Hp2); [..|rewrite Hrun; cbn beta iota].
  { cbn. rewrite Hsum, Ha. destruct (proj2 Hs pid p Hp Htot) as ((_ & _ & ?) & _). lia. }
  { cbn. rewrite Hsum. pose proof (proj2 (proj1 Hs id r Hr)).
    pose proof (total_nonneg pid [COMPLETED] false _ (proj1 Hs)). unfold completed. lia. }
  unfold booking_of. rewrite Hbid. change (bookings s1) with (bookings s). rewrite Hb. row_runs.
  split_and!; [done|done|]. split.
  - exists (completed_row (now s) ref resp r). cbn. split_and!; [exact Hr2|done..|apply completed_row_at].
  - eexists. cbn. split; [exact Hp2|]. cbn. rewrite Hr2. by split_and!.
  - cbn. rewrite Hb2. change (bookings s1) with (bookings s). rewrite (alter_lookup _ _ _ _ Hb).
    eexists. split; [reflexivity|]. cbn. rewrite completed_row_fee, orb_false_r.
    match goal with |- context [retained_fee pid ?x] =>
      lazymatch x with s1 => fail | _ => rewrite (retained_fee_refunds pid s1 x Hr2) end end.
    rewrite Hr2. done.
Qed.

Lemma complete_settles_witness :
  match complete 1 "webhook" (Some "rf_1") None None None false demo_processing with
  | (Ok done, s') => done = true ∧
      pm_status <$> s'.(payments) !! 5 = Some (Some "partially_refunded") ∧
      bk_payment_status <$> s'.(bookings) !! 1 = Some "partially_refunded"
  | _ => False
  end.
Proof.
  assert (refunds_ok demo_processing) as Hok by apply exec_all_ok, demo_store_ok.
  eassert (demo_processing.(refunds) !! 1 = Some _) as Hr by (vm_compute; reflexivity).
  eassert (demo_processing.(payments) !! 5 = Some _) as Hp by (vm_compute; reflexivity).
  eassert (demo_processing.(bookings) !! 1 = Some _) as Hb by (vm_compute; reflexivity).
  epose proof (λ H0 H1 H2 H3 H4, complete_settles 1 5 1 "webhook" (Some "rf_1") None None None demo_processing _ _ _ Hok
    H0 Hr H1 H2 H3 Hp H4 Hb) as H.
  specialize (H ltac:(vm_compute; discriminate) eq_refl eq_refl eq_refl eq_refl).
  destruct (complete 1 "webhook" (Some "rf_1") None None None false demo_processing) as [[done|e] s'] eqn:E.
  - destruct H as (-> & _ & _). split; [done|]. vm_compute in E. injection E as <-. clear. split; vm_compute; reflexivity.
  - vm_compute in E. discriminate E.
Defined.

(** ** Reversal *)

(** When the provider reports a completed money refund as failed, the refund
    becomes failed, the payment's [amount_refunded] drops to the sum of the
    refunds still completed and the booking's payment status goes back to
    success or partially refunded; the payment's own status is not recomputed: it
    keeps the value the completion gave it. *)
Theorem fail_completed (id pid bid : Z) (why src : string) (ref : option string) (resp : option jdict)
    (who : option string) (s : Store) (r : Refund) (p : Payment) (b : Booking) :
  refunds_ok s →
  s.(refunds) !! id = Some r → r.(rf_status) = COMPLETED →
  r.(rf_payment_id) = Some pid → s.(payments) !! pid = Some p →
  r.(rf_booking_id) = Some bid → s.(bookings) !! bid = Some b →
  let left := completed pid s.(refunds) - r.(rf_refunded_amount) in
  ∃ s' p', fail id why src ref resp who s = (Ok (), s') ∧
    s'.(refunds) = <[id := failed_row why resp r]> s.(refunds) ∧
    s'.(payments) = <[pid := p']> s.(payments) ∧
    p'.(pm_amount_refunded) = left ∧ p'.(pm_status) = p.(pm_status) ∧
    s'.(bookings) = <[bid := b <| bk_payment_status := if 0 <? left then "partially_refunded" else "success" |>]> s.(bookings).
Proof.
  intros Hs Hr Hst Hpid Hp Hbid Hb left.
  assert (completed_total pid None (s <| refunds := <[id := failed_row why resp r]> s.(refunds) |>) = left) as Hleft.
  { rewrite completed_total_eq. unfold left, completed. cbn [refunds].
    change (total_of pid [COMPLETED] false (<[id := failed_row why resp r]> s.(refunds)) =
            total_of pid [COMPLETED] false s.(refunds) - r.(rf_refunded_amount)).
    rewrite (total_update _ _ _ _ _ _ _ Hr), (weight_done _ _ r Hpid Hst), weight_other
      by by rewrite list_elem_of_singleton.
    simpl. lia. }
  unfold fail. row_runs. rewrite Hst. change (bool_decide (COMPLETED ∈ [FAILED; CANCELLED])) with false.
  change (bool_decide (COMPLETED = COMPLETED)) with true. cbn beta iota. row_runs.
  rewrite (alter_lookup _ _ _ _ Hr). unfold payment_of, booking_of. cbn [refunds payments bookings]. rewrite Hpid.
  change (payments (s <| refunds := ?x |>)) with (payments s). rewrite Hp.
  row_runs.
  match goal with |- context [audit _ _ _ _ _ _ _ ?st] => set (s1 := st) end.
  assert (∃ p', payments s1 = <[pid := p']> s.(payments) ∧ p'.(pm_amount_refunded) = left ∧ p'.(pm_status) = p.(pm_status))
    as (p' & Hp1 & Ham & Hps).
  { eexists. split; [cbn; apply (alter_twice _ _ _ _ _ Hp)|]. by split; [exact Hleft|]. }
  assert (s1.(payments) !! pid = Some p') as Hp2 by (rewrite Hp1; apply lookup_insert_eq). clearbody left.
  destruct (audit_runs pid id src who None ref None s1 _ _ Hp2 (lookup_insert_eq _ _ _)) as [h ->].
  cbn beta iota. row_runs. rewrite Hbid. set (s2 := s1 <| payment_status_history := _ |>).
  change (bookings s2) with (bookings s). rewrite Hb. row_runs.
  rewrite (get_payment_row_run _ s2 _ Hp2). row_runs.
  eexists _, p'. split; [reflexivity|]. split_and!; [done|exact Hp1|done|done|].
  rewrite <- Ham. apply (alter_lookup _ _ _ _ Hb).
Qed.

Lemma fail_completed_witness :
  let s := (complete 1 "webhook" (Some "rf_1") None None None false demo_processing).2 in
  ∃ s' p', fail 1 "bank" "webhook" None None None s = (Ok (), s') ∧ s'.(payments) !! 5 = Some p' ∧
    p'.(pm_amount_refunded) = 0 ∧ p'.(pm_status) = Some "partially_refunded".
Proof.
  cbv zeta. set (s := (complete 1 "webhook" (Some "rf_1") None None None false demo_processing).2).
  assert (refunds_ok s) as Hok by (apply complete_ok, exec_all_ok, demo_store_ok).
  eassert (s.(refunds) !! 1 = Some _) as Hr by (vm_compute; reflexivity).
  eassert (s.(payments) !! 5 = Some _) as Hp by (vm_compute; reflexivity).
  eassert (s.(bookings) !! 1 = Some _) as Hb by (vm_compute; reflexivity).
  epose proof (λ H1 H2 H3, fail_completed 1 5 1 "bank" "webhook" None None None s _ _ _ Hok Hr H1 H2 Hp H3 Hb) as H.
  destruct (H eq_refl eq_refl eq_refl) as (s' & p' & Hrun & _ & Hp' & Ha & Hst & _).
  exists s', p'. split; [exact Hrun|]. rewrite Hp', lookup_insert_eq. split; [reflexivity|].
  split; [rewrite Ha; vm_compute; reflexivity|exact Hst].
Defined.
