(* ===== verification/RefundService.v ===== *)
(** * The refund service
    (app/payment/application/refund_service.py)

    The operations the refund endpoints call, over [RefundLifecycle].  The
    payment providers are not part of the repository: [refund_payment] is what
    a provider answers to a request, given the calls made before it, and every
    call is recorded in the store's [outbound] trace.  The calls to the
    accounting service are best effort, their exceptions are swallowed and
    nothing is read back, so they only appear in the trace. *)

From S2P Require Import Prelude Exceptions Effects Money Numbers Store Loyalty RefundLifecycle.
From stdpp Require Import pretty.
#[local] Open Scope Z_scope.

(** [RefundResponse] of app/payment/domain/gateway_protocol.py. *)
Record RefundResponse := mk_refund_response {
  rs_is_successful : bool; rs_provider_refund_id : option string;
  rs_failure_reason : option string; rs_raw_response : jdict }.

(** [CreateManualRefundRequest] and [ProcessGatewayRefundRequest]
    (app/payment/interfaces/schemas.py). *)
Record CreateManualRefundRequest := mk_manual_request {
  mr_refund_amount : Decimal; mr_cancellation_fee : Decimal; mr_refund_method : string;
  mr_reason : option string; mr_notes : option string; mr_customer_confirmation : option string;
  mr_reference_number : option string; mr_change_by_user : option string;
  mr_change_by_user_data : option jdict }.

Record ProcessGatewayRefundRequest := mk_gateway_request {
  gr_refund_amount : option Decimal; gr_cancellation_fee : Decimal; gr_reason : option string;
  gr_notes : option string; gr_change_by_user : option string; gr_change_by_user_data : option jdict }.

Definition newline : string := String (Ascii.ascii_of_nat 10) "".

(** [refund_lifecycle.cancellation_idempotency_key]. *)
Definition cancellation_idempotency_key (booking_id : Z) : string :=
  ("booking-cancel:" ++ pretty booking_id)%string.

Module RefundService.
Import Lifecycle.

(** [result.scalar_one_or_none()]: more than one row raises
    [MultipleResultsFound]. *)
Definition scalar_one_or_none {V} (l : list V) : M Store (option V) :=
  match l with
  | [] => mret None
  | [v] => mret (Some v)
  | _ => raise (err PythonException)
  end.

Definition get_booking (booking_id : Z) : M Store Booking :=
  b ← gets (λ s, s.(bookings) !! booking_id);
  some_or_raise b (err NotFoundError).

(** Payments by a reference of free text. *)
Definition payment_by_text (t : string) : M Store (option Z) :=
  l ← gets (λ s, List.filter (λ p, p.(pm_payment_id) ==? Some t) (rows s.(payments)));
  p ← scalar_one_or_none l;
  mret (pm_id <$> p).
Definition payment_by_ref (r : PaymentRef) : M Store (option Z) :=
  match r with
  | RefUuid id => gets (λ s, pm_id <$> s.(payments) !! id)
  | RefText t => payment_by_text t
  end.

Definition get_payment_for_booking (booking_id : Z) (booking : Booking) : M Store (option Z) :=
  payment ← gets (λ s, pm_id <$> best (paid_rank ["success"; "partially_refunded"; "refunded"])
                               pm_created_at (payments_of_booking booking_id s));
  match payment with
  | Some p => mret (Some p)
  | None =>
      match booking.(bk_payment_id) with
      | Some r => if ref_truthy (Some r) then payment_by_ref r else mret None
      | None => mret None
      end
  end.

(** [_resolve_gateway_provider]. *)
Definition resolve_gateway_provider (payment : Payment) : string :=
  let prov := lower (strip (por_str (por payment.(pm_payment_provider) payment.(pm_payment_gateway)) "")) in
  if contains "fatoorah" prov then "myfatoorah"
  else if contains "deema" prov then "deema"
  else "tap".

(** [x or "0.000"] on a [Decimal]. *)
Definition or_zero (x : Decimal) : Decimal := if x.(coeff) =? 0 then ZERO else x.

(** [abs(a - b) > Decimal("0.0005")]. *)
Definition differs (a b : Decimal) : bool := dec_ltb (mk_dec 5 (-4)) (dec_abs (dec_sub a b)).

Definition resolve_refund_to_execute (booking_id : Z) (payment : option Z) (net_amount : option Decimal)
    (cancellation_fee : Decimal) (refund_type refund_method : string) (reason notes : option string)
    (actor_id : string) (actor_data : option jdict) : M Store Z :=
  open_refund ← find_open_refund booking_id;
  match open_refund with
  | Some id =>
      r ← get_refund_row id;
      raise_if (r.(rf_status) ==? PROCESSING) (err ValidationError) ;;
      match net_amount with
      | Some net =>
          when (differs (of_fils r.(rf_refunded_amount)) net ||
                differs (of_fils r.(rf_cancellation_fee)) cancellation_fee)
            (update_requested_amounts id payment net cancellation_fee)
      | None => mret ()
      end ;;
      upd_refund id (λ r, r <| rf_refund_type := refund_type |> <| rf_refund_method := refund_method |>
        <| rf_reason := if truthy_opt reason then reason else r.(rf_reason) |>
        <| rf_notes := if truthy_opt notes then notes else r.(rf_notes) |>) ;;
      mret id
  | None =>
      net ←
        match net_amount with
        | Some net => mret net
        | None =>
            match payment with
            | None => raise (err ValidationError)
            | Some pid =>
                p ← get_payment_row pid;
                committed ← gets (committed_total pid None);
                mret (dec_max ZERO (dec_sub (dec_sub (of_fils p.(pm_total_amount)) (of_fils committed)) cancellation_fee))
            end
        end;
      '(id, _) ← request booking_id payment net cancellation_fee refund_type refund_method reason notes
                   None (Some actor_id) actor_data;
      mret id
  end.

(** [_publish_refund_event]: the fields it does not pass keep the defaults of
    the event. *)
Definition publish_refund_event (booking_id refund_id : Z) (payment : option Z) : M Store () :=
  b ← get_booking_row booking_id;
  r ← get_refund_row refund_id;
  publish (BookingRefundCompletedEvent (mk_refund_event refund_id r.(rf_refund_number) (Some booking_id)
    payment (Some b.(bk_customer_id)) b.(bk_branch_id) r.(rf_refund_type) r.(rf_refund_method)
    r.(rf_status) r.(rf_requested_amount) r.(rf_cancellation_fee) r.(rf_refunded_amount)
    r.(rf_currency) r.(rf_reference_number) r.(rf_gateway_refund_id) 0 0 "" false)).

Definition record_manual_refund (booking_id : Z) (req : CreateManualRefundRequest)
    (current_user_id : string) (current_user_data : option jdict) : M Store Z :=
  booking ← get_booking booking_id;
  payment ← get_payment_for_booking booking_id booking;
  let requested_amount := req.(mr_refund_amount) in
  let cancellation_fee := or_zero req.(mr_cancellation_fee) in
  raise_if (dec_leb requested_amount ZERO) (err ValidationError) ;;
  raise_if (dec_ltb cancellation_fee ZERO) (err ValidationError) ;;
  raise_if (dec_ltb requested_amount cancellation_fee) (err ValidationError) ;;
  let user_id := por_str req.(mr_change_by_user) current_user_id in
  let user_data := Some (or_empty (por_dict req.(mr_change_by_user_data) current_user_data)) in
  id ← resolve_refund_to_execute booking_id payment (Some (dec_sub requested_amount cancellation_fee))
         cancellation_fee "manual" (RefundMethod.normalise req.(mr_refund_method))
         (Some (por_str req.(mr_reason) "Manual staff refund")) req.(mr_notes) user_id user_data;
  t ← gets now;
  upd_refund id (λ r, r
    <| rf_customer_confirmation := por req.(mr_customer_confirmation) r.(rf_customer_confirmation) |>
    <| rf_reference_number := por req.(mr_reference_number) r.(rf_reference_number) |>
    <| rf_processed_by := Some user_id |> <| rf_processed_by_data := user_data |>
    <| rf_processed_at := Some t |>) ;;
  complete id "ushdesk_manual_refund" req.(mr_reference_number) None (Some user_id) user_data false ;;
  r ← get_refund_row id;
  when (truthy_opt req.(mr_notes))
    (upd_booking booking_id (λ b, b <| bk_internal_notes := Some (strip
       (por_str b.(bk_internal_notes) "" ++ newline ++ "[Refund " ++ r.(rf_refund_number) ++ "]: " ++
        default "" req.(mr_notes))%string) |>)) ;;
  publish_refund_event booking_id id payment ;;
  mret id.

(** The reference the provider knows the payment by. *)
Definition gateway_payment_id (by_invoice : bool) (p : Payment) : option string :=
  if by_invoice then por (por p.(pm_invoice_id) p.(pm_payment_id)) p.(pm_transaction_id)
  else por (por p.(pm_payment_id) p.(pm_transaction_id)) p.(pm_invoice_id).

Section gateway.
(** What the provider answers to a request, after the calls made so far. *)
Context (refund_payment : list OutboundCall → string → RefundRequest → result RefundResponse).

(** [await provider.refund_payment(request)]. *)
Definition call_gateway (provider : string) (req : RefundRequest) : M Store RefundResponse :=
  past ← gets outbound;
  call_out (RefundPaymentCall provider req) ;;
  lift (refund_payment past provider req).

Definition process_gateway_refund (booking_id : Z) (req : ProcessGatewayRefundRequest)
    (current_user_id : string) (current_user_data : option jdict) : M Store Z :=
  booking ← get_booking booking_id;
  payment ← get_payment_for_booking booking_id booking;
  pid ← some_or_raise payment (err ValidationError);
  p ← get_payment_row pid;
  let cancellation_fee := or_zero req.(gr_cancellation_fee) in
  raise_if (dec_ltb cancellation_fee ZERO) (err ValidationError) ;;
  net_amount ←
    match req.(gr_refund_amount) with
    | Some requested_amount =>
        raise_if (dec_leb requested_amount ZERO) (err ValidationError) ;;
        raise_if (dec_ltb requested_amount cancellation_fee) (err ValidationError) ;;
        let net := dec_sub requested_amount cancellation_fee in
        raise_if (dec_leb net ZERO) (err ValidationError) ;;
        mret (Some net)
    | None => mret None
    end;
  let prov_lower := lower (por_str (por p.(pm_payment_provider) p.(pm_payment_gateway)) "") in
  let gid := gateway_payment_id (contains "fatoorah" prov_lower || contains "deema" prov_lower) p in
  raise_if (negb (truthy_opt gid)) (err ValidationError) ;;
  let user_id := por_str req.(gr_change_by_user) current_user_id in
  let user_data := Some (or_empty (por_dict req.(gr_change_by_user_data) current_user_data)) in
  id ← resolve_refund_to_execute booking_id payment net_amount cancellation_fee "automated"
         RefundMethod.PAYMENT_GATEWAY (Some (por_str req.(gr_reason) "Booking cancellation refund"))
         req.(gr_notes) user_id user_data;
  upd_refund id (λ r, r <| rf_payment_gateway := por p.(pm_payment_gateway) p.(pm_payment_provider) |>
                        <| rf_gateway_transaction_id := p.(pm_transaction_id) |>) ;;
  r ← get_refund_row id;
  res ← try_except
    (call_gateway (resolve_gateway_provider p)
       (mk_refund_request (default "" gid) r.(rf_refunded_amount)
          (por_str r.(rf_reason) "Booking cancellation refund")))
    (λ _, true) (λ _, raise (err ValidationError));
  raise_if (negb res.(rs_is_successful)) (err ValidationError) ;;
  mark_processing id res.(rs_provider_refund_id) (Some res.(rs_raw_response)) (Some user_id) user_data ;;
  mret id.

Definition get_refund_by_id (refund_id : Z) : M Store Refund :=
  r ← gets (λ s, s.(refunds) !! refund_id);
  some_or_raise r (err NotFoundError).

Definition confirm_refund (refund_id : Z) (provider_reference notes : option string) (actor_id : string)
    (actor_data : option jdict) : M Store () :=
  get_refund_by_id refund_id ;;
  when (truthy_opt notes)
    (upd_refund refund_id (λ r, r <| rf_notes := Some (strip
       (por_str r.(rf_notes) "" ++ newline ++ default "" notes)%string) |>)) ;;
  complete refund_id "ushdesk_refund_confirmation" provider_reference None (Some actor_id) actor_data true ;;
  mret ().

Definition link_credit_note (refund_id booking_id : option Z) (refund_number credit_note_number
    credit_note_id : option string) : M Store (option Z) :=
  refund ←
    match refund_id with
    | Some id => gets (λ s, s.(refunds) !! id)
    | None =>
        if truthy_opt refund_number
        then gets (λ s, head (List.filter (λ r, Some r.(rf_refund_number) ==? refund_number) (rows s.(refunds))))
        else match booking_id with
             | Some b => gets (λ s, newest (λ r, r.(rf_booking_id) ==? Some b) rf_created_at s.(refunds))
             | None => raise (err ValidationError)
             end
    end;
  match refund with
  | None => mret None
  | Some r =>
      let id := r.(rf_id) in
      if truthy_opt credit_note_number &&
         negb (negb (truthy_opt r.(rf_credit_note_number)) || (r.(rf_credit_note_number) ==? credit_note_number))
      then mret (Some id)
      else
        when (truthy_opt credit_note_number)
          (upd_refund id (λ r, r <| rf_credit_note_number := credit_note_number |>)) ;;
        when (truthy_opt credit_note_id)
          (upd_refund id (λ r, r <| rf_credit_note_id := credit_note_id |>)) ;;
        mret (Some id)
  end.

Definition create_refund_request (booking_id : Z) (payment_id : option PaymentRef)
    (invoice_id invoice_number : option string) (refund_amount : option Decimal) (cancellation_fee : Decimal)
    (reason notes actor_id : option string) (actor_data : option jdict) : M Store (Z * bool) :=
  booking ← get_booking booking_id;
  named ←
    match payment_id with
    | Some ref => if ref_truthy (Some ref) then payment_by_ref ref else mret None
    | None => mret None
    end;
  payment ← match named with Some p => mret (Some p) | None => get_payment_for_booking booking_id booking end;
  total ← gets (λ s, match payment ≫= λ pid, s.(payments) !! pid with Some p => p.(pm_total_amount) | None => 0 end);
  let tot_amt := of_fils (if total =? 0 then booking.(bk_total_amount) else total) in
  let fee_dec := or_zero cancellation_fee in
  let net_amt := match refund_amount with Some a => a | None => dec_max ZERO (dec_sub tot_amt fee_dec) end in
  '(id, created) ← request booking_id payment net_amt fee_dec "manual" RefundMethod.OTHER
    (Some (por_str reason "Booking cancellation refund requested"))
    (Some (por_str notes ("Refund requested on cancellation of booking " ++
                          por_str booking.(bk_booking_number) (pretty booking_id))%string))
    (Some (cancellation_idempotency_key booking_id)) actor_id actor_data;
  upd_refund id (λ r, r
    <| rf_invoice_number := if truthy_opt invoice_number && negb (truthy_opt r.(rf_invoice_number))
                            then invoice_number else r.(rf_invoice_number) |>
    <| rf_credit_note_id := if truthy_opt invoice_id && negb (truthy_opt r.(rf_credit_note_id))
                            then invoice_id else r.(rf_credit_note_id) |>
    <| rf_payment_id := match payment, r.(rf_payment_id) with
                        | Some p, None => Some p | _, old => old end |>) ;;
  mret (id, created).

(** The payload of [BookingRefundApprovedEvent] is cut down to the amount and
    the method. *)
Definition approve_refund (refund_id : Z) (refund_method : string) (approved_amount : Decimal)
    (notes actor_id : option string) (actor_data : option jdict) : M Store () :=
  get_refund_by_id refund_id ;;
  approve refund_id refund_method approved_amount notes actor_id actor_data ;;
  try_except
    (r ← get_refund_row refund_id;
     match r.(rf_booking_id) with
     | Some b => booking ← get_booking b; get_payment_for_booking b booking ;; mret ()
     | None => mret ()
     end ;;
     publish (BookingRefundApprovedEvent refund_id r.(rf_refunded_amount) r.(rf_refund_method)))
    (λ _, true) (λ _, mret ()).

Definition reject_refund (refund_id : Z) (reason actor_id : option string) (actor_data : option jdict)
    : M Store () :=
  get_refund_by_id refund_id ;;
  reject refund_id reason actor_id actor_data.

(** [int(Decimal(str(refund.refunded_amount or 0)))]: whole dinars. *)
Definition refund_points (r : Refund) : Z := Z.quot r.(rf_refunded_amount) 1000.

Definition process_loyalty (refund_id : Z) (r : Refund) (booking : option Z) (user_id : string)
    (user_data : option jdict) : M Store () :=
  let pts := refund_points r in
  match r.(rf_customer_id) with
  | Some c =>
      when (0 <? pts)
        (try_except
           (LoyaltyService.adjust_points c pts
              (Some ("Refund " ++ r.(rf_refund_number) ++ " approved as loyalty points")%string) user_id ;; mret ())
           (λ _, true) (λ _, raise (err ValidationError)))
  | None => mret ()
  end ;;
  complete refund_id "loyalty_point_refund" None None (Some user_id) user_data true ;;
  match booking with
  | Some b => upd_booking b (λ b, b <| bk_status := "cancelled" |> <| bk_payment_status := "refunded_with_points" |>)
  | None => mret ()
  end.

(** The name [process_refund] chooses the provider by. *)
Definition gateway_name (payment : option Payment) (booking : option Booking) : string :=
  match payment with
  | Some p =>
      if truthy_opt (por p.(pm_payment_gateway) p.(pm_payment_provider))
      then lower (por_str (por p.(pm_payment_gateway) p.(pm_payment_provider)) "")
      else match booking with
           | Some b => if truthy_opt (por b.(bk_payment_gateway) b.(bk_payment_provider))
                       then lower (por_str (por b.(bk_payment_gateway) b.(bk_payment_provider)) "") else "manual"
           | None => "manual"
           end
  | None =>
      match booking with
      | Some b => if truthy_opt (por b.(bk_payment_gateway) b.(bk_payment_provider))
                  then lower (por_str (por b.(bk_payment_gateway) b.(bk_payment_provider)) "") else "manual"
      | None => "manual"
      end
  end.

Definition pay_back (p : Payment) (r : Refund) (name : string) : M Store (option string * option jdict) :=
  if contains "fatoorah" name || contains "deema" name || contains "tap" name ||
     contains "gateway" (lower r.(rf_refund_method)) || contains "payment_link" (lower r.(rf_refund_method))
  then
    let gid := gateway_payment_id (contains "fatoorah" name || contains "deema" name) p in
    if truthy_opt gid then
      try_except
        (res ← call_gateway (resolve_gateway_provider p)
                 (mk_refund_request (default "" gid) r.(rf_refunded_amount)
                    (por_str r.(rf_reason) "Booking cancellation refund"));
         raise_if (negb res.(rs_is_successful)) (err ValidationError) ;;
         mret (res.(rs_provider_refund_id), Some res.(rs_raw_response)))
        (λ _, true) (λ _, raise (err ValidationError))
    else mret (None, None)
  else mret (None, None).

Definition process_money (refund_id : Z) (r : Refund) (booking payment : option Z) (user_id : string)
    (user_data : option jdict) : M Store () :=
  b ← gets (λ s, booking ≫= λ b, s.(bookings) !! b);
  p ← gets (λ s, payment ≫= λ p, s.(payments) !! p);
  let name := gateway_name p b in
  '(provider_ref, raw) ← match p with Some p => pay_back p r name | None => mret (None, None) end;
  complete refund_id "money_refund_process" provider_ref raw (Some user_id) user_data true ;;
  match booking, b with
  | Some bid, Some b =>
      r ← get_refund_row refund_id;
      call_out (CreateCreditNoteCall bid r.(rf_refunded_amount) r.(rf_cancellation_fee) r.(rf_refund_method)
        r.(rf_refund_number) b.(bk_branch_id) user_id)
  | _, _ => mret ()
  end.

Definition process_refund (refund_id : Z) (actor_id : option string) (actor_data : option jdict) : M Store () :=
  r ← get_refund_by_id refund_id;
  raise_if (r.(rf_status) !=? APPROVED) (err ValidationError) ;;
  booking ← match r.(rf_booking_id) with Some b => get_booking b ;; mret (Some b) | None => mret None end;
  payment ←
    match booking with
    | Some b => row ← get_booking_row b; get_payment_for_booking b row
    | None => mret None
    end;
  let user_id := por_str (por actor_id r.(rf_processed_by)) "staff" in
  let user_data := Some (or_empty (por_dict actor_data r.(rf_processed_by_data))) in
  if is_loyalty_method r.(rf_refund_method)
  then process_loyalty refund_id r booking user_id user_data
  else process_money refund_id r booking payment user_id user_data.

End gateway.

Definition get_booking_refunds (booking_id : Z) (s : Store) : list Refund :=
  sorted_by (λ r, - r.(rf_created_at)) (List.filter (λ r, r.(rf_booking_id) ==? Some booking_id) (rows s.(refunds))).

End RefundService.
