(* ===== verification/RefundServiceSpec.v ===== *)
(** * What the refund service guarantees

    The service operations keep the money invariant of RefundInvariant.v,
    whatever the payment providers answer; a gateway refund books nothing until
    it is confirmed; and the two ways a booking gets its refund are idempotent. *)

From S2P Require Import Prelude Exceptions Effects Money Numbers Store Loyalty RefundLifecycle.
From S2P Require Import RefundInvariant RefundSpec RefundService.
Import Lifecycle RefundService.
#[local] Open Scope Z_scope.

(** ** The endpoints as data *)
Module Endpoint.
Inductive op :=
  | RecordManual (booking_id : Z) (req : CreateManualRefundRequest) (user : string) (data : option jdict)
  | ProcessGateway (booking_id : Z) (req : ProcessGatewayRefundRequest) (user : string) (data : option jdict)
  | Confirm (refund_id : Z) (provider_reference notes : option string) (user : string) (data : option jdict)
  | LinkCreditNote (refund_id booking_id : option Z) (number credit_note_number credit_note_id : option string)
  | CreateRequest (booking_id : Z) (payment_id : option PaymentRef) (invoice_id invoice_number : option string)
      (amount : option Decimal) (fee : Decimal) (reason notes user : option string) (data : option jdict)
  | Approve (refund_id : Z) (rmethod : string) (amount : Decimal) (notes user : option string) (data : option jdict)
  | Reject (refund_id : Z) (reason user : option string) (data : option jdict)
  | Process (refund_id : Z) (user : option string) (data : option jdict).

Section serve.
Context (gw : list OutboundCall → string → RefundRequest → result RefundResponse).

Definition run (o : op) : M Store () :=
  match o with
  | RecordManual b req u d => record_manual_refund b req u d ;; mret ()
  | ProcessGateway b req u d => process_gateway_refund gw b req u d ;; mret ()
  | Confirm r ref n u d => confirm_refund r ref n u d
  | LinkCreditNote r b n c i => link_credit_note r b n c i ;; mret ()
  | CreateRequest b p i n a f why notes u d => create_refund_request b p i n a f why notes u d ;; mret ()
  | Approve r m a n u d => approve_refund r m a n u d
  | Reject r why u d => reject_refund r why u d
  | Process r u d => process_refund gw r u d
  end.

Definition serve (o : op) (s : Store) : Store := (in_session (run o) s).2.
Definition serve_all (os : list op) (s : Store) : Store := foldl (λ s o, serve o s) s os.
End serve.
End Endpoint.

(** ** Preservation *)

(** What the sums see of a refund row. *)
Definition core (r : Refund) := (r.(rf_id), r.(rf_refunded_amount), r.(rf_status), r.(rf_payment_id), r.(rf_refund_method)).

Lemma weight_core pid sts money r r' : core r' = core r → weight pid sts money r' = weight pid sts money r.
Proof.
  unfold core. intros [= Hid Ha Hst Hp Hm]. unfold weight, counted, is_money. by rewrite Ha, Hst, Hp, Hm.
Qed.

Lemma upd_refund_core id f : (∀ r, core (f r) = core r) → preserves refunds_ok (upd_refund id f).
Proof.
  intros Hf s Hs. cbn. unfold refunds_ok. cbn. destruct (s.(refunds) !! id) as [r|] eqn:Hr; [|by rewrite alter_absent].
  rewrite (alter_lookup _ _ _ _ Hr). apply (money_ok_update _ _ id r); [done|done| |].
  - pose proof (Hf r) as Hc. unfold core in Hc. injection Hc as Hid Ha _ _ _.
    destruct (proj1 Hs id r Hr). split; congruence.
  - intros. by apply weight_core.
Qed.

#[export] Hint Resolve request_ok update_requested_amounts_ok reject_ok approve_ok mark_processing_ok
  complete_ok fail_ok frame_preserves : ush.

Lemma call_out_frame c : changes same_money (call_out c).
Proof. done. Qed.
Lemma call_gateway_frame gw prov req : changes same_money (call_gateway gw prov req).
Proof. unfold call_gateway. apply changes_bind; [apply _|done|intros]. by apply changes_bind; [apply _|..]. Qed.
Lemma scalar_frame {V} (l : list V) : changes same_money (scalar_one_or_none l).
Proof. by destruct l as [|? []]. Qed.
#[export] Hint Resolve call_out_frame call_gateway_frame scalar_frame : ush.
Lemma get_booking_frame b : changes same_money (get_booking b).
Proof. unfold get_booking. change_only. Qed.
Lemma payment_by_ref_frame r : changes same_money (payment_by_ref r).
Proof. unfold payment_by_ref, payment_by_text. change_only. Qed.
#[export] Hint Resolve get_booking_frame payment_by_ref_frame : ush.
Lemma get_payment_for_booking_frame b row : changes same_money (get_payment_for_booking b row).
Proof. unfold get_payment_for_booking. change_only. Qed.
Lemma publish_refund_event_frame b r p : changes same_money (publish_refund_event b r p).
Proof. unfold publish_refund_event. change_only. Qed.
Lemma get_refund_by_id_frame id : changes same_money (get_refund_by_id id).
Proof. unfold get_refund_by_id. change_only. Qed.
Lemma adjust_points_frame c p n who : changes same_money (LoyaltyService.adjust_points c p n who).
Proof. intros s. unfold LoyaltyService.adjust_points. by rewrite repo_adjust_run. Qed.
Lemma pay_back_frame gw p r name : changes same_money (pay_back gw p r name).
Proof. unfold pay_back. change_only. Qed.
#[export] Hint Resolve get_payment_for_booking_frame publish_refund_event_frame get_refund_by_id_frame
  adjust_points_frame pay_back_frame : ush.

(** The open refund of a booking is a row of the table. *)
Lemma find_open_spec s b id :
  refunds_ok s → find_open_refund b s = (Ok (Some id), s) →
  ∃ r, s.(refunds) !! id = Some r ∧ is_open r = true ∧ r.(rf_booking_id) = Some b.
Proof.
  intros Hs. unfold find_open_refund, gets.
  destruct (newest _ _ _) as [r|] eqn:Hn; cbn; [|done]. intros [= <-].
  apply newest_spec in Hn as ((k & Hk) & Hp & _). breflect.
  exists r. by rewrite (proj1 (proj1 Hs k r Hk)).
Qed.

(** Relabelling a refund that is not completed. *)
Lemma upd_refund_open_ok id f s :
  refunds_ok s →
  (∀ r, s.(refunds) !! id = Some r → r.(rf_status) ≠ COMPLETED ∧ (f r).(rf_id) = r.(rf_id) ∧
     (f r).(rf_status) = r.(rf_status) ∧ (f r).(rf_refunded_amount) = r.(rf_refunded_amount)) →
  refunds_ok (upd_refund id f s).2.
Proof.
  intros Hs Hf. apply money_ok_quiet; [exact Hs|]. intros r Hr. destruct (Hf r Hr) as (Hst & Hi & Hs' & Ha).
  pose proof (proj2 (proj1 Hs id r Hr)). split_and!; [done|lia|done|congruence].
Qed.

Lemma open_not_completed r : is_open r = true → r.(rf_status) ≠ COMPLETED.
Proof. intros Ho Hst. unfold is_open in Ho. by rewrite Hst in Ho. Qed.

(** Amending amounts leaves an open refund open. *)
Lemma update_requested_amounts_open id p a f s r :
  s.(refunds) !! id = Some r → is_open r = true →
  ∃ r', (update_requested_amounts id p a f s).2.(refunds) !! id = Some r' ∧ is_open r' = true.
Proof.
  intros Hr Ho.
  enough (wp (update_requested_amounts id p a f) s (λ _ s', ∃ r', s'.(refunds) !! id = Some r' ∧ is_open r' = true)) by done.
  unfold update_requested_amounts. to_write; eauto.
  apply (wp_changes same_refunds); [change_only|]. intros [?|?] s' Hf; cbn beta iota; rewrite <- Hf in *; [|eauto].
  store_steps. cbn. rewrite lookup_alter_eq. simplify_eq. rewrite Hr. eexists. by split.
Qed.

Lemma resolve_ok b p net fee rt rm why notes who d :
  preserves refunds_ok (resolve_refund_to_execute b p net fee rt rm why notes who d).
Proof.
  apply preserves_wp. intros s Hs. unfold resolve_refund_to_execute. apply wp_bind.
  destruct (find_open_refund b s) as [[[id|]|e] s0] eqn:Hfind;
    (assert (s0 = s) as -> by (unfold find_open_refund, gets in Hfind; congruence));
    apply (wp_of_run _ _ _ _ _ Hfind); cbn beta iota; [| |done].
  - destruct (find_open_spec s b id Hs Hfind) as (r & Hr & Ho & _).
    apply wp_bind, wp_get_refund_row; [|done]. intros r0 Hr0. cbn beta iota. simplify_eq.
    apply wp_bind, wp_raise_if; intros _; cbn beta iota; [done|]. apply wp_bind.
    eapply (wp_mono _ _ (λ _ s', refunds_ok s' ∧ ∃ r', s'.(refunds) !! id = Some r' ∧ is_open r' = true)).
    + destruct net as [n|]; [|by apply wp_ret; eauto]. apply wp_when; intros _; [|by eauto].
      split; [by apply update_requested_amounts_ok|by eapply update_requested_amounts_open].
    + intros [?|?] s1 [Hs1 (r' & Hr' & Ho')]; cbn beta iota; [|done]. apply wp_bind.
      apply (upd_refund_open_ok id _ s1 Hs1). intros x Hx. simplify_eq. by split; [apply open_not_completed|].
  - apply (preserves_elim refunds_ok); [|done]. preserve.
Qed.
#[export] Hint Resolve resolve_ok : ush.

Lemma record_manual_ok b req u d : preserves refunds_ok (record_manual_refund b req u d).
Proof.
  unfold record_manual_refund. preserve. by apply upd_refund_core.
Qed.
Lemma process_gateway_ok gw b req u d : preserves refunds_ok (process_gateway_refund gw b req u d).
Proof. unfold process_gateway_refund. preserve. by apply upd_refund_core. Qed.
Lemma confirm_ok r ref n u d : preserves refunds_ok (confirm_refund r ref n u d).
Proof. unfold confirm_refund. preserve. by apply upd_refund_core. Qed.
Lemma link_ok r b n c i : preserves refunds_ok (link_credit_note r b n c i).
Proof. unfold link_credit_note. preserve; by apply upd_refund_core. Qed.
Lemma approve_refund_ok r m a n u d : preserves refunds_ok (approve_refund r m a n u d).
Proof. unfold approve_refund. preserve. Qed.
Lemma reject_refund_ok r why u d : preserves refunds_ok (reject_refund r why u d).
Proof. unfold reject_refund. preserve. Qed.
Lemma process_refund_ok gw r u d : preserves refunds_ok (process_refund gw r u d).
Proof. unfold process_refund, process_loyalty, process_money. preserve. Qed.

(** No completed refund of this booking's cancellation is without a payment:
    [create_refund_request] would attach it to one. *)
Definition no_detached (b : Z) (s : Store) : Prop :=
  ∀ k r, s.(refunds) !! k = Some r → r.(rf_idempotency_key) = Some (cancellation_idempotency_key b) →
    r.(rf_status) = COMPLETED → r.(rf_payment_id) ≠ None.

(** What [request] returns with a key: a row of that key. *)
Lemma request_row b p a f t m why notes key who d s id c s' :
  truthy_opt key = true → refunds_ok s' →
  request b p a f t m why notes key who d s = (Ok (id, c), s') →
  ∃ r, s'.(refunds) !! id = Some r ∧ r.(rf_idempotency_key) = key ∧ find_by_key key s' = Some r.
Proof.
  intros Hk Hs Hrun.
  pose proof (wp_run _ _ _ _ _ (request_registers b p a f t m why notes key who d s Hk) Hrun) as (r & Hf & <-).
  exists r. unfold find_by_key in Hf.
  assert (r ∈ List.filter (λ r, rf_idempotency_key r ==? key) (rows s'.(refunds))) as Hin.
  { destruct (List.filter _ _); [done|]. injection Hf as <-. apply list_elem_of_here. }
  apply elem_of_filter_list in Hin as [[k Hr]%elem_of_rows Hkey]. breflect.
  by rewrite (proj1 (proj1 Hs k r Hr)).
Qed.

Lemma key_truthy b : truthy_opt (Some (cancellation_idempotency_key b)) = true.
Proof. reflexivity. Qed.

Definition attached_ok (b : Z) (s : Store) : Prop := refunds_ok s ∧ no_detached b s.

Lemma attached_frame {A} b (m : M Store A) : changes same_money m → preserves (attached_ok b) m.
Proof.
  intros Hm s [Hs Hd]. specialize (Hm s). split; [by eapply refunds_ok_frame|].
  intros k r. rewrite (proj1 Hm). apply Hd.
Qed.
#[local] Hint Resolve attached_frame : ush.

Lemma no_detached_same b s s' : same_refunds s s' → no_detached b s → no_detached b s'.
Proof. intros Heq Hd k r. rewrite Heq. apply Hd. Qed.
Lemma no_detached_insert b s id r :
  no_detached b s → r.(rf_status) ≠ COMPLETED → no_detached b (s <| refunds := <[id := r]> s.(refunds) |>).
Proof.
  intros Hd Hst k x Hx. cbn in Hx. apply lookup_insert_Some in Hx as [[-> <-]|[_ Hk]]; [done|by apply (Hd k)].
Qed.

Lemma request_attached b b' p a f t m why notes key who d :
  preserves (attached_ok b) (request b' p a f t m why notes key who d).
Proof.
  intros s [Hs Hd]. split; [by apply request_ok|].
  enough (wp (request b' p a f t m why notes key who d) s (λ _ s', no_detached b s')) by done.
  unfold request. store_steps; try done. apply (wp_changes same_refunds); [change_only|].
  intros [?|?] s1 H1; cbn beta iota; (assert (no_detached b s1) as Hd1 by (intros k r; rewrite H1; apply Hd)); [|done].
  store_steps; try done; [|by apply no_detached_insert].
  apply (wp_changes same_refunds); [change_only|]; intros ro s2 H2.
  assert (no_detached b s2); [|by destruct ro].
  eapply no_detached_same; [exact H2|]. by apply no_detached_insert.
Qed.

Lemma request_wp b p a f t m why notes who d s :
  attached_ok b s →
  wp (request b p a f t m why notes (Some (cancellation_idempotency_key b)) who d) s (λ res s',
    attached_ok b s' ∧
    match res with
    | Ok (id, _) => ∃ r, s'.(refunds) !! id = Some r ∧ r.(rf_idempotency_key) = Some (cancellation_idempotency_key b)
    | Raise _ => True
    end).
Proof.
  intros Hb. set (key := Some _).
  pose proof (request_attached b b p a f t m why notes key who d s Hb) as Hb'.
  split; [exact Hb'|].
  destruct (request b p a f t m why notes key who d s) as [[[id c]|e] s1] eqn:Hrun; [|done]. cbn in *.
  destruct (request_row b p a f t m why notes key who d s id c s1 (key_truthy b) (proj1 Hb') Hrun) as (r & ? & ? & _).
  by exists r.
Qed.

(** Completing the details of the refund of a cancellation: a payment is only
    attached to a refund that is not completed. *)
Lemma upd_details_ok b id r f s :
  attached_ok b s → s.(refunds) !! id = Some r → r.(rf_idempotency_key) = Some (cancellation_idempotency_key b) →
  (∀ r, (f r).(rf_id) = r.(rf_id) ∧ (f r).(rf_status) = r.(rf_status) ∧
        (f r).(rf_refunded_amount) = r.(rf_refunded_amount) ∧ (f r).(rf_refund_method) = r.(rf_refund_method) ∧
        (r.(rf_payment_id) ≠ None → (f r).(rf_payment_id) = r.(rf_payment_id))) →
  refunds_ok (upd_refund id f s).2.
Proof.
  intros [Hs Hd] Hr Hkey Hf. destruct (Hf r) as (Hid & Hst & Ha & Hm & Hp).
  destruct (decide (r.(rf_status) = COMPLETED)) as [Hc|Hc].
  - unfold refunds_ok. cbn. rewrite (alter_lookup _ _ _ _ Hr). destruct (proj1 Hs id r Hr).
    apply (money_ok_update _ _ id r); [done|done|split; congruence|].
    intros. apply weight_core. unfold core. rewrite Hid, Hst, Ha, Hm, (Hp (Hd id r Hr Hkey Hc)). done.
  - apply upd_refund_open_ok; [done|]. intros x Hx. simplify_eq. done.
Qed.

Lemma create_request_ok b pay i n a f why notes u d s :
  refunds_ok s → no_detached b s → refunds_ok (create_refund_request b pay i n a f why notes u d s).2.
Proof.
  intros Hs Hdet. enough (wp (create_refund_request b pay i n a f why notes u d) s (λ _ s', refunds_ok s')) by done.
  unfold create_refund_request.
  assert (attached_ok b s) as Hb by done. clear Hs Hdet. revert s Hb.
  do 4 (intros s Hb; apply (wp_bind_preserves (attached_ok b)); [preserve|done| |by intros ? ? []]; intros ?; clear s Hb).
  intros s Hb. cbv zeta. apply wp_bind. eapply wp_mono; [by apply request_wp|].
  intros [[id c]|e] s1 [Hb1 Hrow]; cbn beta iota; [|apply Hb1]. destruct Hrow as (r & Hr & Hkey).
  apply wp_bind, wp_modify, wp_ret. eapply (upd_details_ok b); [done..|].
  intros x. split_and!; try done. cbn. intros Hp. destruct (rf_payment_id x); [by case_match|done].
Qed.

(** ** Every history of requests *)

Definition op_safe (o : Endpoint.op) (s : Store) : Prop :=
  match o with Endpoint.CreateRequest b _ _ _ _ _ _ _ _ _ => no_detached b s | _ => True end.

Fixpoint history_safe gw (os : list Endpoint.op) (s : Store) : Prop :=
  match os with
  | [] => True
  | o :: os => op_safe o s ∧ history_safe gw os (Endpoint.serve gw o s)
  end.

Lemma in_session_refunds_ok {A} (m : M Store A) s : refunds_ok s → refunds_ok (m s).2 → refunds_ok (in_session m s).2.
Proof. intros Hs Hm. unfold in_session. by destruct (m s) as [[?|?] ?]. Qed.

Lemma serve_ok gw o s : refunds_ok s → op_safe o s → refunds_ok (Endpoint.serve gw o s).
Proof.
  intros Hs Hsafe. apply in_session_refunds_ok; [done|].
  assert (∀ A (m : M Store A), refunds_ok (m s).2 → refunds_ok ((m ;; mret ()) s).2) as Hunit.
  { intros A m Hm. rewrite bind_run. by destruct (m s) as [[?|?] ?]. }
  destruct o; cbn [Endpoint.run]; try apply Hunit.
  - by apply record_manual_ok.
  - by apply process_gateway_ok.
  - by apply confirm_ok.
  - by apply link_ok.
  - by apply create_request_ok.
  - by apply approve_refund_ok.
  - by apply reject_refund_ok.
  - by apply process_refund_ok.
Qed.

(** C2: Whatever the refund endpoints are asked, in whatever order, and whatever
    the payment providers answer (success, decline, exception), the refunds
    completed in money for a payment never exceed what was paid and the
    payment's summary never exceeds its completed refunds, as long as no
    cancellation request meets a completed refund without a payment. *)
Theorem endpoints_never_overpay (gw : list OutboundCall → string → RefundRequest → result RefundResponse)
    (os : list Endpoint.op) (s : Store) :
  refunds_ok s → history_safe gw os s →
  ∀ pid p, (Endpoint.serve_all gw os s).(payments) !! pid = Some p → 0 <= p.(pm_total_amount) →
    paid_back pid (Endpoint.serve_all gw os s).(refunds) <= p.(pm_total_amount) ∧
    0 <= p.(pm_amount_refunded) <= completed pid (Endpoint.serve_all gw os s).(refunds).
Proof.
  intros Hs Hsafe. enough (refunds_ok (Endpoint.serve_all gw os s)) as Hok.
  { intros pid p Hp Htot. destruct (proj2 Hok pid p Hp Htot) as ((_ & H1 & H2) & _). exact (conj H1 H2). }
  revert s Hs Hsafe. unfold Endpoint.serve_all. induction os as [|o os IH]; intros s Hs Hsafe; [done|].
  destruct Hsafe as [Ho Hos]. cbn [foldl]. apply IH; [by apply serve_ok|done].
Qed.

(** A provider that accepts every refund. *)
Definition accepting (past : list OutboundCall) (provider : string) (req : RefundRequest) : result RefundResponse :=
  Ok (mk_refund_response true (Some "rf_1") None []).

Definition demo_requests : list Endpoint.op :=
  [Endpoint.CreateRequest 1 None None None None (of_fils 2000) None None (Some "9") None;
   Endpoint.ProcessGateway 1 (mk_gateway_request None (of_fils 0) None None None None) "staff" None;
   Endpoint.Confirm 1 (Some "rf_1") None "staff" None].

Lemma endpoints_never_overpay_witness :
  let s := Endpoint.serve_all accepting demo_requests demo_store in
  ∃ p, s.(payments) !! 5 = Some p ∧ paid_back 5 s.(refunds) <= p.(pm_total_amount) ∧
       p.(pm_amount_refunded) = 18000 ∧ rf_status <$> s.(refunds) !! 1 = Some COMPLETED.
Proof.
  cbv zeta.
  assert (history_safe accepting demo_requests demo_store) as Hsafe.
  { split; [|by split; [|split]]. intros k r. cbn. by rewrite lookup_empty. }
  pose proof (endpoints_never_overpay accepting demo_requests demo_store demo_store_ok Hsafe 5) as H.
  eassert ((Endpoint.serve_all accepting demo_requests demo_store).(payments) !! 5 = Some _) as Hp by (vm_compute; reflexivity).
  destruct (H _ Hp ltac:(vm_compute; discriminate)) as [H1 _]. eexists. split; [exact Hp|].
  split; [exact H1|]. clear H H1 Hp. split; vm_compute; reflexivity.
Defined.

(** Points and money are not kept apart: a refund of 15 dinars approved as
    50000 fils worth of loyalty points on a payment of 20 dinars, for which
    approval skips the cap, is picked up by the gateway refund of its booking,
    which asks the provider to pay 50 dinars back; the confirmation is then
    refused forever, because completing checks the cap. *)
Theorem points_refund_sent_to_gateway :
  let s := Endpoint.serve_all accepting
    [Endpoint.CreateRequest 1 None None None (Some (of_fils 15000)) (of_fils 0) None None None None;
     Endpoint.Approve 1 "loyalty_points" (of_fils 50000) None (Some "staff") None;
     Endpoint.ProcessGateway 1 (mk_gateway_request None (of_fils 0) None None None None) "staff" None] demo_store in
  s.(outbound) = [RefundPaymentCall "deema" (mk_refund_request "tx-1" 50000 "Booking cancellation refund")] ∧
  pm_total_amount <$> s.(payments) !! 5 = Some 20000 ∧ rf_status <$> s.(refunds) !! 1 = Some PROCESSING ∧
  (confirm_refund 1 (Some "rf_1") None "staff" None s).1 = Raise (err ValidationError).
Proof. cbv zeta. split_and!; vm_compute; reflexivity. Qed.

(** A cancellation request naming a payment attaches it to the refund its
    key finds even when that refund is already completed: a booking refunded
    30 dinars without a payment, then requested again with the payment of 20
    dinars named, leaves that payment with 30 dinars refunded and a summary of
    zero. *)
Theorem completed_refund_attached_later :
  let s0 := demo_store <| bookings := {[ 1 := demo_booking <| bk_payment_id := None |> <| bk_payment_gateway := None |>
                                            <| bk_payment_provider := None |> <| bk_total_amount := 30000 |> ]} |>
                       <| payments := {[ 5 := demo_payment <| pm_booking_id := None |> ]} |> in
  let s := Endpoint.serve_all accepting
    [Endpoint.CreateRequest 1 None None None None (of_fils 0) None None None None;
     Endpoint.Approve 1 "cash" (of_fils 30000) None (Some "staff") None;
     Endpoint.Process 1 (Some "staff") None;
     Endpoint.CreateRequest 1 (Some (RefUuid 5)) None None None (of_fils 0) None None None None] s0 in
  paid_back 5 s.(refunds) = 30000 ∧ pm_total_amount <$> s.(payments) !! 5 = Some 20000 ∧
  pm_amount_refunded <$> s.(payments) !! 5 = Some 0.
Proof. cbv zeta. split_and!; vm_compute; reflexivity. Qed.

(** ** The gateway refund *)

(** Steps that only write refund rows and their audit trail. *)
Definition only_refunds (s s' : Store) : Prop :=
  s'.(payments) = s.(payments) ∧ s'.(bookings) = s.(bookings) ∧ s'.(events) = s.(events) ∧ s'.(outbound) = s.(outbound).
#[export] Instance only_refunds_preorder : PreOrder only_refunds.
Proof. split; [done|]. intros a b c (?&?&?&?) (?&?&?&?). split_and!; congruence. Qed.

Lemma get_refund_row_only id : changes only_refunds (get_refund_row id).
Proof. intros s. unfold get_refund_row. by destruct (refunds s !! id). Qed.
Lemma get_payment_row_only id : changes only_refunds (get_payment_row id).
Proof. intros s. unfold get_payment_row. by destruct (payments s !! id). Qed.
Lemma get_booking_row_only id : changes only_refunds (get_booking_row id).
Proof. intros s. unfold get_booking_row. by destruct (bookings s !! id). Qed.
Lemma upd_refund_only id f : changes only_refunds (upd_refund id f).
Proof. done. Qed.
Lemma add_history_only h : changes only_refunds (add_history h).
Proof. done. Qed.
Lemma insert_refund_only id r : changes only_refunds (modify (λ s, s <| refunds := <[id := r]> s.(refunds) |>)).
Proof. done. Qed.
#[local] Hint Resolve get_refund_row_only get_payment_row_only get_booking_row_only upd_refund_only
  add_history_only insert_refund_only : ush.
Lemma audit_only p r src a d ref old : changes only_refunds (audit p r src a d ref old).
Proof. unfold audit. change_only. Qed.
Lemma check_cap_only p x n : changes only_refunds (check_cap p x n).
Proof. unfold check_cap. change_only. Qed.
#[local] Hint Resolve audit_only check_cap_only : ush.
Lemma request_only b p a f t m why notes key who d : changes only_refunds (request b p a f t m why notes key who d).
Proof. unfold request. change_only. Qed.
Lemma update_requested_amounts_only id p a f : changes only_refunds (update_requested_amounts id p a f).
Proof. unfold update_requested_amounts. change_only. Qed.
#[local] Hint Resolve request_only update_requested_amounts_only : ush.
Lemma resolve_only b p net fee rt rm why notes who d :
  changes only_refunds (resolve_refund_to_execute b p net fee rt rm why notes who d).
Proof. unfold resolve_refund_to_execute, find_open_refund. change_only. Qed.
Lemma mark_processing_only id g resp who d : changes only_refunds (mark_processing id g resp who d).
Proof. unfold mark_processing. change_only. Qed.
Lemma scalar_only {V} (l : list V) : changes only_refunds (scalar_one_or_none l).
Proof. by destruct l as [|? []]. Qed.
#[local] Hint Resolve resolve_only mark_processing_only scalar_only : ush.
Lemma get_payment_for_booking_only b row : changes only_refunds (get_payment_for_booking b row).
Proof. unfold get_payment_for_booking, payment_by_ref, payment_by_text. change_only. Qed.
Lemma get_booking_only b : changes only_refunds (get_booking b).
Proof. unfold get_booking. change_only. Qed.
#[local] Hint Resolve get_payment_for_booking_only get_booking_only : ush.

Definition fresh_status (id : Z) (s : Store) : Prop :=
  ∃ r, s.(refunds) !! id = Some r ∧ (r.(rf_status) = REQUESTED ∨ r.(rf_status) = APPROVED).

Lemma request_fresh b p a f t m why notes who d s :
  wp (request b p a f t m why notes None who d) s (λ res s',
    match res with Ok (id, _) => fresh_status id s' | Raise _ => True end).
Proof.
  unfold request. cbn [truthy_opt]. store_steps; try done.
  apply (wp_changes same_refunds); [change_only|]. intros [?|?] s1 H1; cbn beta iota; [|done].
  store_steps; try done; [apply (wp_changes same_refunds); [change_only|]; intros [?|?] s2 H2; cbn beta iota; [|done];
    apply wp_ret|];
    (eexists; split; [try rewrite H2; cbn; apply lookup_insert_eq|by left]).
Qed.

Lemma update_requested_amounts_fresh id p a f s :
  fresh_status id s → fresh_status id (update_requested_amounts id p a f s).2.
Proof.
  intros (r & Hr & Hst).
  enough (wp (update_requested_amounts id p a f) s (λ _ s', fresh_status id s')) by done.
  unfold update_requested_amounts. to_write; try (by exists r).
  apply (wp_changes same_refunds); [change_only|]. intros [?|?] s' Hf; cbn beta iota; [|exists r; by rewrite Hf].
  store_steps. rewrite <- Hf in Hr. eexists. cbn. rewrite lookup_alter_eq, Hr. by split.
Qed.

Lemma resolve_fresh b p net fee rt rm why notes who d s :
  refunds_ok s →
  wp (resolve_refund_to_execute b p net fee rt rm why notes who d) s (λ res s',
    match res with Ok id => fresh_status id s' | Raise _ => True end).
Proof.
  intros Hs. unfold resolve_refund_to_execute. apply wp_bind.
  destruct (find_open_refund b s) as [[[id|]|e] s0] eqn:Hfind;
    (assert (s0 = s) as -> by (unfold find_open_refund, gets in Hfind; congruence));
    apply (wp_of_run _ _ _ _ _ Hfind); cbn beta iota; [| |done].
  - destruct (find_open_spec s b id Hs Hfind) as (r & Hr & Ho & _).
    apply wp_bind, wp_get_refund_row; [|done]. intros r0 Hr0. cbn beta iota. simplify_eq.
    apply wp_bind, wp_raise_if; intros Hproc; cbn beta iota; [done|]. breflect.
    assert (fresh_status id s) as Hfresh.
    { exists r. split; [done|]. revert Ho Hproc. unfold is_open. destruct (rf_status r); auto; done. }
    apply wp_bind. eapply (wp_mono _ _ (λ _ s', fresh_status id s')).
    + destruct net as [n|]; [|by apply wp_ret]. apply wp_when; intros _; [|done].
      by apply update_requested_amounts_fresh.
    + intros [?|?] s1 (r1 & Hr1 & Hst1); cbn beta iota; [|done]. apply wp_bind, wp_modify, wp_ret.
      eexists. cbn. rewrite lookup_alter_eq, Hr1. by split.
  - assert (∀ n s1, wp (request b p n fee rt rm why notes None (Some who) d ≫= λ '(id, _), mret id) s1 (λ res s',
      match res with Ok id => fresh_status id s' | Raise _ => True end)) as Hreq.
    { intros n s1. apply wp_bind. eapply wp_mono; [apply request_fresh|]. by intros [[? ?]|?] ? ?. }
    apply wp_bind. apply (wp_changes (λ _ _, True)); [by intros ?|]. intros [n|?] s1 _; cbn beta iota; [apply Hreq|done].
Qed.

(** The request a gateway refund sends, and the state it leaves. *)
Definition dispatched (id : Z) (s s' : Store) : Prop :=
  ∃ r prov gid reason,
    s'.(refunds) !! id = Some r ∧ r.(rf_status) = PROCESSING ∧ truthy gid = true ∧
    s'.(outbound) = s.(outbound) ++ [RefundPaymentCall prov (mk_refund_request gid r.(rf_refunded_amount) reason)] ∧
    s'.(payments) = s.(payments) ∧ s'.(bookings) = s.(bookings) ∧ s'.(events) = s.(events).

Lemma scalar_read {V} (l : list V) : changes eq (scalar_one_or_none l).
Proof. by destruct l as [|? []]. Qed.
#[local] Hint Resolve scalar_read : ush.
Lemma get_booking_read b : changes eq (get_booking b).
Proof. unfold get_booking. change_only. Qed.
Lemma get_payment_for_booking_read b row : changes eq (get_payment_for_booking b row).
Proof. unfold get_payment_for_booking, payment_by_ref, payment_by_text. change_only. Qed.

Lemma mark_processing_fresh id g resp who d s r :
  s.(refunds) !! id = Some r → r.(rf_status) = REQUESTED ∨ r.(rf_status) = APPROVED →
  wp (mark_processing id g resp who d) s (λ res s',
    match res with
    | Ok _ => ∃ r', s'.(refunds) !! id = Some r' ∧ r'.(rf_status) = PROCESSING ∧
                    r'.(rf_refunded_amount) = r.(rf_refunded_amount)
    | Raise _ => True
    end).
Proof.
  intros Hr Hst. unfold mark_processing. apply wp_bind, wp_get_refund_row; [|done]. intros r0 Hr0. cbn beta iota. simplify_eq.
  destruct (bool_decide (rf_status r ∈ [COMPLETED; PROCESSING])) eqn:E.
  { apply bool_decide_eq_true in E. destruct Hst as [Hst|Hst]; rewrite Hst in E;
      by repeat (apply elem_of_cons in E as [E|E]; [done|]); apply elem_of_nil in E. }
  store_steps; try exact I.
  all: pose proof (processing_row_fields (now s) g resp who d r) as (_ & Ha & Hp & _).
  all: assert (alter (processing_row (now s) g resp who d) id s.(refunds) !! id = Some (processing_row (now s) g resp who d r)) as Hrow
    by (by rewrite lookup_alter_eq, Hr).
  - apply (wp_changes same_refunds); [change_only|]. intros [?|?] s1 H1; [|done]. cbn beta iota. rewrite H1. by eexists.
  - by eexists.
Qed.

(** A gateway refund that is accepted sends the provider exactly one request,
    for the amount of the refund and a non-empty payment reference, and leaves
    the refund processing; no payment, booking or event changes until the
    provider confirms. *)
Theorem gateway_refund_waits (gw : list OutboundCall → string → RefundRequest → result RefundResponse)
    (b : Z) (req : ProcessGatewayRefundRequest) (u : string) (d : option jdict) (s s' : Store) (id : Z) :
  refunds_ok s → process_gateway_refund gw b req u d s = (Ok id, s') → dispatched id s s'.
Proof.
  intros Hs Hrun.
  assert (wp (process_gateway_refund gw b req u d) s (λ res s', match res with Ok id => dispatched id s s' | Raise _ => True end)) as H;
    [|exact (wp_run _ _ _ _ _ H Hrun)].
  clear Hrun. unfold process_gateway_refund. cbv zeta.
  apply wp_bind, (wp_changes eq); [apply get_booking_read|]. intros [bk|?] ? <-; cbn beta iota; [|done].
  apply wp_bind, (wp_changes eq); [apply get_payment_for_booking_read|]. intros [pay|?] ? <-; cbn beta iota; [|done].
  apply wp_bind, wp_some_or_raise; [intros pid ->|done]; cbn beta iota.
  apply wp_bind, wp_get_payment_row; [|done]. intros p Hp; cbn beta iota.
  apply wp_bind, wp_raise_if; intros _; cbn beta iota; [done|].
  apply wp_bind, (wp_changes eq); [change_only; apply _|]. intros [net|?] ? <-; cbn beta iota; [|done].
  apply wp_bind, wp_raise_if; intros Hgid; cbn beta iota; [done|]. breflect.
  destruct (gateway_payment_id _ p) as [gid|]; [|done].
  apply wp_bind. eapply (wp_mono_changes only_refunds); [by apply resolve_fresh|apply resolve_only|].
  intros [rid|?] s1 Hfresh Honly; cbn beta iota; [|done]. destruct Hfresh as (r1 & Hr1 & Hst1).
  apply wp_bind, wp_modify. cbn beta iota. set (s2 := s1 <| refunds := _ |>).
  apply wp_bind, wp_get_refund_row; [|done]. intros r Hr. cbn beta iota.
  assert (r.(rf_status) = REQUESTED ∨ r.(rf_status) = APPROVED) as Hst.
  { cbn in Hr. rewrite lookup_alter_eq, Hr1 in Hr. by injection Hr as <-. }
  set (rq := mk_refund_request _ _ _). set (prov := resolve_gateway_provider p).
  apply wp_bind, wp_try. apply wp_bind, wp_gets. cbn beta iota. apply wp_bind, wp_modify. cbn beta iota. apply wp_lift.
  destruct (gw _ prov rq) as [res|?]; cbn beta iota; [|done].
  apply wp_bind, wp_raise_if; intros _; cbn beta iota; [done|].
  apply wp_bind. eapply (wp_mono_changes only_refunds); [by eapply mark_processing_fresh|apply mark_processing_only|].
  intros [?|?] s3 Hdone (Hp3 & Hb3 & He3 & Ho3); cbn beta iota; [|done]. apply wp_ret.
  destruct Hdone as (r3 & Hr3 & Hst3 & Ha3). destruct Honly as (Hp1 & Hb1 & He1 & Ho1).
  exists r3, prov, gid, (por_str (rf_reason r) "Booking cancellation refund"). rewrite Ha3.
  split_and!; try done; [rewrite Ho3; cbn; by rewrite Ho1|by rewrite Hp3|by rewrite Hb3|by rewrite He3].
Qed.

Definition demo_requested : Store := Endpoint.serve_all accepting (take 1 demo_requests) demo_store.

Lemma gateway_refund_waits_witness :
  let run := process_gateway_refund accepting 1 (mk_gateway_request None (of_fils 0) None None None None) "staff" None demo_requested in
  run.1 = Ok 1 ∧ dispatched 1 demo_requested run.2.
Proof.
  cbv zeta. set (run := process_gateway_refund _ _ _ _ _ _).
  assert (run.1 = Ok 1) as H1 by (vm_compute; reflexivity). split; [exact H1|].
  assert (refunds_ok demo_requested) as Hok.
  { unfold demo_requested. apply serve_ok; [apply demo_store_ok|]. intros k r. cbn. by rewrite lookup_empty. }
  refine (gateway_refund_waits accepting 1 (mk_gateway_request None (of_fils 0) None None None None) "staff" None
    demo_requested run.2 1 Hok _).
  fold run. rewrite <- H1. by destruct run.
Defined.

(** ** One refund per cancellation *)

(** Rows sit under their primary key, and the unique column holds one row per
    idempotency key. *)
Definition rows_keyed (s : Store) : Prop := ∀ k r, s.(refunds) !! k = Some r → r.(rf_id) = k.
Definition keys_unique (s : Store) : Prop :=
  ∀ k k' r r', s.(refunds) !! k = Some r → s.(refunds) !! k' = Some r' →
    truthy_opt r.(rf_idempotency_key) = true → r.(rf_idempotency_key) = r'.(rf_idempotency_key) → k = k'.
Definition keyed (s : Store) : Prop := rows_keyed s ∧ keys_unique s.

Lemma keyed_same s s' : same_refunds s s' → keyed s → keyed s'.
Proof. intros Heq [H1 H2]. split; [intros k r|intros k k' r r']; rewrite ?Heq; [apply H1|apply H2]. Qed.

Lemma keyed_update s id f :
  keyed s → (∀ r, (f r).(rf_id) = r.(rf_id) ∧ (f r).(rf_idempotency_key) = r.(rf_idempotency_key)) →
  keyed (upd_refund id f s).2.
Proof.
  intros [H1 H2] Hf.
  assert (∀ k x, alter f id s.(refunds) !! k = Some x → ∃ y, s.(refunds) !! k = Some y ∧
    x.(rf_id) = y.(rf_id) ∧ x.(rf_idempotency_key) = y.(rf_idempotency_key)) as Hback.
  { intros k x. destruct (decide (k = id)) as [->|Hne]; [rewrite lookup_alter_eq|rewrite lookup_alter_ne by done; eauto].
    destruct (refunds s !! id) as [y|]; [|done]. intros [= <-]. exists y. by destruct (Hf y). }
  split; cbn.
  - intros k r (y & Hy & -> & _)%Hback. by apply H1.
  - intros k k' r r' (y & Hy & _ & ->)%Hback (y' & Hy' & _ & ->)%Hback. by apply (H2 k k' y y').
Qed.

Lemma keyed_insert s id r :
  keyed s → s.(refunds) !! id = None → r.(rf_id) = id → key_unused r.(rf_idempotency_key) s →
  keyed (s <| refunds := <[id := r]> s.(refunds) |>).
Proof.
  intros [H1 H2] Hnew Hid Hun. split; cbn.
  - intros k x Hx. cbn in Hx. apply lookup_insert_Some in Hx as [[-> <-]|[_ Hx]]; [done|by apply H1].
  - intros k k' x x' Hx Hx' Ht Heq. cbn in Hx, Hx'.
    apply lookup_insert_Some in Hx as [[-> <-]|[_ Hx]]; apply lookup_insert_Some in Hx' as [[-> <-]|[_ Hx']]; try done.
    + exfalso. by apply (Hun Ht k' x' Hx').
    + exfalso. rewrite Heq in Ht. by apply (Hun Ht k x Hx).
    + by apply (H2 k k' x x').
Qed.

(** A row with a key is the row the key finds. *)
Lemma find_by_key_row key s id r :
  keyed s → truthy_opt key = true → s.(refunds) !! id = Some r → r.(rf_idempotency_key) = key →
  find_by_key key s = Some r.
Proof.
  intros [H1 H2] Ht Hr Hkey. unfold find_by_key.
  assert (r ∈ List.filter (λ r, rf_idempotency_key r ==? key) (rows s.(refunds))) as Hin.
  { apply elem_of_filter_list. split; [apply elem_of_rows; eauto|by apply bool_decide_eq_true_2]. }
  set (l := List.filter _ _) in *. assert (∀ x, x ∈ l → x = r) as Hall.
  { intros x [[k Hx]%elem_of_rows Hp]%elem_of_filter_list. breflect.
    assert (k = id) as -> by (apply (H2 k id x r); congruence). congruence. }
  destruct l as [|x l]; [by apply elem_of_nil in Hin|]. cbn. f_equal. apply Hall, list_elem_of_here.
Qed.

Lemma find_by_key_unused key s : truthy_opt key = true → find_by_key key s = None → key_unused key s.
Proof.
  intros Ht Hf _ k r Hr Hkey. unfold find_by_key in Hf.
  assert (r ∈ List.filter (λ r, rf_idempotency_key r ==? key) (rows s.(refunds))) as Hin.
  { apply elem_of_filter_list. split; [apply elem_of_rows; eauto|by apply bool_decide_eq_true_2]. }
  destruct (List.filter _ _); [by apply elem_of_nil in Hin|done].
Qed.

Lemma request_keyed b p a f t m why notes key who d s :
  truthy_opt key = true → keyed s →
  wp (request b p a f t m why notes key who d) s (λ res s',
    match res with
    | Ok (id, _) => keyed s' ∧ ∃ r, s'.(refunds) !! id = Some r ∧ r.(rf_idempotency_key) = key
    | Raise _ => True
    end).
Proof.
  intros Ht Hs. destruct (find_by_key key s) as [r|] eqn:Hf.
  - apply (wp_of_run _ _ _ _ _ (request_found b p a f t m why notes key who d s r Ht Hf)). split; [done|].
    unfold find_by_key in Hf.
    assert (r ∈ List.filter (λ r, rf_idempotency_key r ==? key) (rows s.(refunds))) as Hin.
    { destruct (List.filter _ _); [done|]. injection Hf as <-. apply list_elem_of_here. }
    apply elem_of_filter_list in Hin as [[k Hr]%elem_of_rows Hkey]. breflect. exists r. by rewrite (proj1 Hs k r Hr).
  - pose proof (find_by_key_unused key s Ht Hf) as Hun. unfold request. rewrite Ht.
    apply wp_bind, wp_gets. cbn beta iota. fold (find_by_key key s). rewrite Hf. cbn [fmap option_fmap option_map].
    store_steps; try exact I. apply (wp_changes same_refunds); [change_only|].
    intros [?|?] s1 H1; cbn beta iota; [|done].
    assert (keyed s1) as Hs1 by (by eapply keyed_same).
    assert (key_unused key s1) as Hun1 by (intros ? k x; rewrite H1; by apply Hun).
    store_steps; try exact I.
    + apply (wp_changes same_refunds); [change_only|]. intros [?|?] s2 H2; cbn beta iota; [|done]. apply wp_ret.
      split; [eapply keyed_same; [exact H2|]; apply keyed_insert; done || apply new_id_fresh|].
      eexists. rewrite H2. split; [apply lookup_insert_eq|done].
    + split; [apply keyed_insert; done || apply new_id_fresh|]. eexists. split; [apply lookup_insert_eq|done].
Qed.

(** The reads of [create_refund_request] before the request. *)
Lemma create_request_wp b pay i n a f why notes u d s (Q : result (Z * bool) → Store → Prop) :
  (∀ p net fee why' notes', wp (request b p net fee "manual" RefundMethod.OTHER why' notes'
      (Some (cancellation_idempotency_key b)) u d) s (λ res s1,
     match res with
     | Ok (id, c) => ∀ g, (∀ r, (g r).(rf_id) = r.(rf_id) ∧ (g r).(rf_idempotency_key) = r.(rf_idempotency_key)) →
                     Q (Ok (id, c)) (upd_refund id g s1).2
     | Raise e => Q (Raise e) s1
     end)) →
  (∀ e, Q (Raise e) s) → wp (create_refund_request b pay i n a f why notes u d) s Q.
Proof.
  intros Hreq Hraise. unfold create_refund_request.
  apply wp_bind, (wp_changes eq); [apply get_booking_read|]. intros [bk|?] ? <-; cbn beta iota; [|done].
  apply wp_bind, (wp_changes eq); [unfold payment_by_ref, payment_by_text; change_only|].
  intros [named|?] ? <-; cbn beta iota; [|done].
  apply wp_bind, (wp_changes eq); [destruct named; [change_only|apply get_payment_for_booking_read]|].
  intros [payment|?] ? <-; cbn beta iota; [|done].
  apply wp_bind, wp_gets. cbv zeta. apply wp_bind. eapply wp_mono; [apply Hreq|].
  intros [[id c]|e] s1 H1; cbn beta iota; [|done]. apply wp_bind, wp_modify, wp_ret. by apply H1.
Qed.

(** ** Keys over every history of requests *)

(** No refund is lost or changes its key, and keys stay unique. *)
Record keys_kept (s s' : Store) : Prop := mk_keys_kept {
  kk_rows : ∀ id r, s.(refunds) !! id = Some r →
    ∃ r', s'.(refunds) !! id = Some r' ∧ r'.(rf_idempotency_key) = r.(rf_idempotency_key);
  kk_keyed : keyed s → keyed s' }.
#[export] Instance keys_kept_preorder : PreOrder keys_kept.
Proof.
  split; [intros s; split; eauto|]. intros s1 s2 s3 [A1 A2] [B1 B2]. split; [|by auto].
  intros id r Hr. destruct (A1 id r Hr) as (r' & Hr' & E). destruct (B1 id r' Hr') as (x & Hx & E'). exists x. split; [done|congruence].
Qed.
Lemma same_keys s s' : same_refunds s s' → keys_kept s s'.
Proof. intros E. split; [intros id r Hr; exists r; by rewrite E|by apply keyed_same]. Qed.
Lemma frame_keys {A} (m : M Store A) : changes same_money m → changes keys_kept m.
Proof. intros Hm s. apply same_keys. exact (proj1 (Hm s)). Qed.
Lemma upd_refund_keys id f :
  (∀ r, (f r).(rf_id) = r.(rf_id) ∧ (f r).(rf_idempotency_key) = r.(rf_idempotency_key)) → changes keys_kept (upd_refund id f).
Proof.
  intros Hf s. split; [|intros Hs; by apply keyed_update]. intros j r Hr. cbn.
  destruct (decide (id = j)) as [->|Hj]; [rewrite lookup_alter_eq, Hr|rewrite lookup_alter_ne by done; by exists r].
  exists (f r). split; [done|apply Hf].
Qed.
Lemma insert_keys s id r :
  s.(refunds) !! id = None → r.(rf_id) = id → key_unused r.(rf_idempotency_key) s →
  keys_kept s (s <| refunds := <[id := r]> s.(refunds) |>).
Proof.
  intros Hnew Hid Hun. split; [|intros Hs; by apply keyed_insert]. intros j x Hx. exists x. cbn.
  rewrite lookup_insert_ne by congruence. done.
Qed.
Lemma upd_payment_keys id f : changes keys_kept (upd_payment id f).
Proof. intros s. by apply same_keys. Qed.

(** A request inserts under a key only when no row has it. *)
Lemma request_keys b p a f t m why notes key who d : changes keys_kept (request b p a f t m why notes key who d).
Proof.
  intros s. enough (wp (request b p a f t m why notes key who d) s (λ _ s', keys_kept s s')) by done.
  unfold request. apply wp_bind, wp_gets. cbn beta iota.
  destruct (if truthy_opt key then _ else None) eqn:Hf; [by apply wp_ret|].
  assert (key_unused key s) as Hun.
  { intros Ht. rewrite Ht in Hf. apply (find_by_key_unused key s Ht); [|done]. unfold find_by_key. by destruct (List.filter _ _). }
  store_steps; try reflexivity. apply (wp_changes same_refunds); [change_only|].
  intros [?|?] s1 H1; cbn beta iota; [|by apply same_keys].
  assert (key_unused key s1) as Hun1 by (intros ? k x; rewrite H1; by apply Hun).
  apply same_keys in H1. store_steps; try done.
  - apply (wp_changes same_refunds); [change_only|]. intros ro s2 H2%same_keys.
    assert (keys_kept s s2); [|by destruct ro].
    etransitivity; [exact H1|]. etransitivity; [|exact H2]. by apply insert_keys; [apply new_id_fresh|..].
  - etransitivity; [exact H1|]. by apply insert_keys; [apply new_id_fresh|..].
Qed.

Create HintDb refund_rows.
#[local] Hint Unfold rejected_row approved_row processing_row completed_row failed_row stamp_actor : refund_rows.
#[local] Hint Resolve frame_keys request_keys upd_payment_keys : ush.
#[local] Hint Extern 2 (changes keys_kept (upd_refund _ _)) =>
  (apply upd_refund_keys; intros; autounfold with refund_rows; split; repeat case_match; reflexivity) : ush.

Lemma lifecycle_keys :
  (∀ id p a f, changes keys_kept (update_requested_amounts id p a f)) ∧
  (∀ id why who d, changes keys_kept (reject id why who d)) ∧
  (∀ id m a notes who d, changes keys_kept (approve id m a notes who d)) ∧
  (∀ id g resp who d, changes keys_kept (mark_processing id g resp who d)) ∧
  (∀ id src ref resp who d pub, changes keys_kept (complete id src ref resp who d pub)) ∧
  (∀ id why src ref resp who, changes keys_kept (fail id why src ref resp who)).
Proof.
  split_and!; intros.
  - unfold update_requested_amounts. change_only.
  - unfold reject. change_only.
  - unfold approve. change_only.
  - unfold mark_processing. change_only.
  - unfold complete, settle_payment. change_only.
  - unfold fail. change_only.
Qed.

Section keys.
Context (gw : list OutboundCall → string → RefundRequest → result RefundResponse).

Lemma run_keys o : changes keys_kept (Endpoint.run gw o).
Proof.
  pose proof lifecycle_keys as (H1 & H2 & H3 & H4 & H5 & H6).
  assert (∀ b p net fee rt rm why notes who d, changes keys_kept (resolve_refund_to_execute b p net fee rt rm why notes who d)) as H7
    by (intros; unfold resolve_refund_to_execute, find_open_refund; change_only).
  destruct o; cbn [Endpoint.run].
  - unfold record_manual_refund. change_only.
  - unfold process_gateway_refund. change_only.
  - unfold confirm_refund. change_only.
  - unfold link_credit_note. change_only.
  - unfold create_refund_request. change_only.
  - unfold approve_refund. change_only.
  - unfold reject_refund. change_only.
  - unfold process_refund, process_loyalty, process_money. change_only.
Qed.
Lemma serve_keys o s : keys_kept s (Endpoint.serve gw o s).
Proof.
  unfold Endpoint.serve, in_session. pose proof (run_keys o s) as Hk. destruct (Endpoint.run gw o s) as [[?|?] s1]; [exact Hk|].
  by apply same_keys.
Qed.
Lemma serve_all_keys os s : keys_kept s (Endpoint.serve_all gw os s).
Proof.
  unfold Endpoint.serve_all. revert s; induction os as [|o os IH]; intros s; [cbn; reflexivity|].
  etransitivity; [apply serve_keys|apply IH].
Qed.
End keys.

(** What the request of a cancellation leaves: the row of its key. *)
Lemma create_request_keyed b pay i n a f why notes u d s id c s1 :
  keyed s → create_refund_request b pay i n a f why notes u d s = (Ok (id, c), s1) →
  keyed s1 ∧ ∃ r, s1.(refunds) !! id = Some r ∧ r.(rf_idempotency_key) = Some (cancellation_idempotency_key b).
Proof.
  intros Hs Hrun.
  enough (wp (create_refund_request b pay i n a f why notes u d) s (λ res s', match res with
    | Ok (id, _) => keyed s' ∧ ∃ r, s'.(refunds) !! id = Some r ∧ r.(rf_idempotency_key) = Some (cancellation_idempotency_key b)
    | Raise _ => True end)) as H by exact (wp_run _ _ _ _ _ H Hrun).
  apply create_request_wp; [|done]. intros p net fee why1 notes1.
  eapply wp_mono; [apply request_keyed; [apply key_truthy|done]|].
  intros [[x ?]|?] s' H; [|done]. destruct H as (Hk & r & Hr & Hkey). intros g Hg. split; [by apply keyed_update|].
  exists (g r). cbn. rewrite lookup_alter_eq, Hr. destruct (Hg r) as [_ ->]. by split.
Qed.
(** A request that finds it. *)
Lemma create_request_again b pay i n a f why notes u d s id r id' c' s' :
  keyed s → s.(refunds) !! id = Some r → r.(rf_idempotency_key) = Some (cancellation_idempotency_key b) →
  create_refund_request b pay i n a f why notes u d s = (Ok (id', c'), s') →
  id' = id ∧ c' = false ∧ dom s'.(refunds) = dom s.(refunds).
Proof.
  intros Hs Hr Hkey Hrun.
  enough (wp (create_refund_request b pay i n a f why notes u d) s (λ res s', match res with
      | Ok (id', c') => id' = id ∧ c' = false ∧ dom s'.(refunds) = dom s.(refunds) | Raise _ => True end))
    as H by exact (wp_run _ _ _ _ _ H Hrun).
  apply create_request_wp; [|done]. intros p net fee why1 notes1.
  eapply wp_of_run; [apply request_found; [apply key_truthy|by apply find_by_key_row with id]|].
  intros g _. split_and!; [apply (proj1 Hs id r Hr)|done|]. cbn. apply dom_alter_L.
Qed.

(** C32: Cancelling a booking asks for one refund only.  Once a cancellation
    request returned, then after any history of refund requests (manual and
    gateway refunds, confirmations, approvals, rejections, processing, credit
    notes, other cancellations), however they end and whatever the payment
    providers answer, its refund is still there and is the only one with the key
    of this cancellation; and every further cancellation request for the booking
    that returns names that refund, reports that it created nothing and adds no
    row, however its payment, amount, fee or texts differ. *)
Theorem cancellation_refund_once (gw : list OutboundCall → string → RefundRequest → result RefundResponse)
    (os : list Endpoint.op) (b : Z) (pay : option PaymentRef) (i n : option string)
    (a : option Decimal) (f : Decimal) (why notes u : option string) (d : option jdict) (s s1 : Store) (id : Z) (c : bool) :
  keyed s → create_refund_request b pay i n a f why notes u d s = (Ok (id, c), s1) →
  let s2 := Endpoint.serve_all gw os s1 in
  (∃ r, s2.(refunds) !! id = Some r ∧ r.(rf_idempotency_key) = Some (cancellation_idempotency_key b)) ∧
  (∀ k r, s2.(refunds) !! k = Some r → r.(rf_idempotency_key) = Some (cancellation_idempotency_key b) → k = id) ∧
  ∀ pay' i' n' a' f' why' notes' u' d' id' c' s3,
    create_refund_request b pay' i' n' a' f' why' notes' u' d' s2 = (Ok (id', c'), s3) →
    id' = id ∧ c' = false ∧ dom s3.(refunds) = dom s2.(refunds).
Proof.
  intros Hs Hrun s2. destruct (create_request_keyed b pay i n a f why notes u d s id c s1 Hs Hrun) as (Hs1 & r1 & Hr1 & Hkey1).
  destruct (serve_all_keys gw os s1) as [Hrows Hkeyed]. fold s2 in Hrows, Hkeyed. specialize (Hkeyed Hs1).
  destruct (Hrows id r1 Hr1) as (r & Hr & Hkey). rewrite Hkey1 in Hkey. split_and!; [by exists r| |].
  - intros k x Hx Hxk. apply (proj2 Hkeyed k id x r Hx Hr); [by rewrite Hxk|congruence].
  - intros pay' i' n' a' f' why' notes' u' d' id' c' s3. by apply create_request_again with r.
Qed.

Lemma cancellation_refund_once_witness :
  let s1 := (create_refund_request 1 None None None None (of_fils 2000) None None None None demo_store).2 in
  let s2 := Endpoint.serve_all accepting [Endpoint.Approve 1 "cash" (of_fils 1000) None None None; Endpoint.Process 1 (Some "9") None] s1 in
  let run := create_refund_request 1 (Some (RefUuid 5)) (Some "CN") None (Some (of_fils 100)) (of_fils 0) None None (Some "9") None s2 in
  rf_status <$> s2.(refunds) !! 1 = Some COMPLETED ∧
  run.1 = Ok (1, false) ∧ dom run.2.(refunds) = dom s2.(refunds).
Proof.
  cbv zeta. set (s1 := (create_refund_request 1 None None None None (of_fils 2000) None None None None demo_store).2).
  set (os := [_; _]).
  set (run := create_refund_request 1 (Some (RefUuid 5)) _ _ _ _ _ _ _ _ _).
  assert (keyed demo_store) as Hk by (split; [intros k r|intros k k' r r']; cbn; by rewrite lookup_empty).
  assert (create_refund_request 1 None None None None (of_fils 2000) None None None None demo_store = (Ok (1, true), s1)) as H1.
  { unfold s1. apply injective_projections; [vm_compute; reflexivity|reflexivity]. }
  assert (run.1 = Ok (1, false)) as Ev by (vm_compute; reflexivity).
  assert (run = (Ok (1, false), run.2)) as H2 by (rewrite <- Ev; apply surjective_pairing).
  destruct (cancellation_refund_once accepting os 1 None None None None (of_fils 2000) None None None None demo_store s1 1 true Hk H1)
    as (_ & _ & Hagain).
  destruct (Hagain (Some (RefUuid 5)) (Some "CN") None (Some (of_fils 100)) (of_fils 0) None None (Some "9") None 1 false run.2 H2)
    as (_ & _ & Hdom).
  split; [vm_compute; reflexivity|]. split; [exact Ev|exact Hdom].
Defined.

(** A credit note, once linked to a refund, is never replaced: linking again,
    by any identifier and with any other number, leaves the number it has. *)
Theorem credit_note_kept (rid bid : option Z) (number cn cid : option string) (s : Store) (k : Z) (r : Refund) :
  rows_keyed s → s.(refunds) !! k = Some r → truthy_opt r.(rf_credit_note_number) = true →
  ∃ r', (link_credit_note rid bid number cn cid s).2.(refunds) !! k = Some r' ∧
        r'.(rf_credit_note_number) = r.(rf_credit_note_number).
Proof.
  intros Hs Hr Ht.
  enough (wp (link_credit_note rid bid number cn cid) s (λ _ s', ∃ r', s'.(refunds) !! k = Some r' ∧
    r'.(rf_credit_note_number) = r.(rf_credit_note_number))) by done.
  unfold link_credit_note. apply wp_bind.
  apply (wp_mono_changes eq _ _ (λ res _, ∀ x, res = Ok (Some x) → s.(refunds) !! x.(rf_id) = Some x)).
  - destruct rid as [i|]; [|destruct (truthy_opt number); [|destruct bid as [b|]; [|by apply wp_raise]]]; apply wp_gets;
      intros x [= Hx].
    + by rewrite (Hs i x Hx).
    + destruct (List.filter _ _) as [|y l] eqn:E; [done|]. injection Hx as ->.
      assert (x ∈ List.filter (λ r, Some r.(rf_refund_number) ==? number) (rows s.(refunds))) as Hin
        by (rewrite E; apply list_elem_of_here).
      apply elem_of_filter_list in Hin as [[j Hj]%elem_of_rows _]. by rewrite (Hs j x Hj).
    + apply newest_spec in Hx as ((j & Hj) & _). by rewrite (Hs j x Hj).
  - change_only.
  - intros [[x|]|e] ? Hx <-; cbn beta iota; [|by apply wp_ret; eauto|by eauto]. specialize (Hx x eq_refl). cbv zeta.
    destruct (_ && _) eqn:Ec; [by apply wp_ret; eauto|].
    assert (∀ t, rf_id x = k → truthy_opt cn = true → t = cn → t = rf_credit_note_number r) as Hsame.
    { intros t Hid Hcn ->. rewrite Hid in Hx. simplify_eq. rewrite Hcn, Ht in Ec. cbn in Ec.
      apply negb_false_iff in Ec. breflect. congruence. }
    assert (∀ f : Refund → Refund, (∀ y, (f y).(rf_credit_note_number) = y.(rf_credit_note_number)) ∨
       (rf_id x = k → ∀ y, (f y).(rf_credit_note_number) = r.(rf_credit_note_number)) → ∀ s1,
       (∃ r', s1.(refunds) !! k = Some r' ∧ r'.(rf_credit_note_number) = r.(rf_credit_note_number)) →
       ∃ r', (upd_refund (rf_id x) f s1).2.(refunds) !! k = Some r' ∧ r'.(rf_credit_note_number) = r.(rf_credit_note_number)) as Hupd.
    { intros f Hf s1 (r1 & Hr1 & Hc1). cbn. destruct (decide (k = rf_id x)) as [->|Hne].
      - rewrite lookup_alter_eq, Hr1. exists (f r1). split; [done|]. destruct Hf as [Hf|Hf]; [by rewrite Hf|by apply Hf].
      - rewrite lookup_alter_ne by done. by exists r1. }
    apply wp_bind. eapply (wp_mono _ _ (λ _ s', ∃ r', s'.(refunds) !! k = Some r' ∧ r'.(rf_credit_note_number) = r.(rf_credit_note_number))).
    + apply wp_when; intros Hcn; [|by eauto]. apply Hupd; [|by eauto]. right. intros Hid y. cbn. by apply Hsame.
    + intros [?|?] s1 H1; cbn beta iota; [|done]. apply wp_bind. apply wp_when; intros _; cbn beta iota.
      * apply (Hupd (λ r, r <| rf_credit_note_id := cid |>)); [by left|done].
      * by apply wp_ret.
Qed.

Lemma credit_note_kept_witness :
  let s0 := Endpoint.serve_all accepting (take 1 demo_requests) demo_store in
  let s1 := (link_credit_note (Some 1) None None (Some "CN-1") None s0).2 in
  ∃ r', (link_credit_note None (Some 1) None (Some "CN-2") (Some "x") s1).2.(refunds) !! 1 = Some r' ∧
        r'.(rf_credit_note_number) = Some "CN-1".
Proof.
  cbv zeta. set (s1 := (link_credit_note (Some 1) None None (Some "CN-1") None _).2).
  eassert (s1.(refunds) = {[ 1 := _ ]}) as Hs by (vm_compute; reflexivity).
  eassert (s1.(refunds) !! 1 = Some _) as Hr by (vm_compute; reflexivity).
  refine (credit_note_kept None (Some 1) None (Some "CN-2") (Some "x") s1 1 _ _ Hr _); [|reflexivity].
  intros k r Hk. rewrite Hs in Hk. apply lookup_singleton_Some in Hk as [<- <-]. reflexivity.
Defined.
