(* ===== verification/Sessions.v ===== *)
(** * The services and sessions of a booking
    (app/booking/domain/services_snapshot.py, app/booking/domain/sessions.py,
    app/booking/application/multi_therapist.py)

    A booking stores service entries and sessions as JSON objects.  Where the
    source reads a key of a stored object the model reads it with [jget]: what is
    not an object has no keys, where Python would raise.  A [datetime] after
    [to_local_tz] is its instant (PyDate.v).  A fresh [uuid4] is an argument. *)

From S2P Require Import Prelude Exceptions Effects Money Numbers Store PyText PyDate.
#[local] Open Scope Z_scope.

(** ** services_snapshot.py: values *)

Definition MAX_SERVICES_PER_BOOKING : Z := 10.

(** [_to_str_id]: text, stripped; a UUID is given as its text. *)
Definition to_str_id (value : json) : option string :=
  match value with JStr s => or_none (strip s) | _ => None end.
Definition opt_json (o : option string) : json := match o with Some s => JStr s | None => JNull end.

(** [_to_decimal]. *)
Definition to_decimal (value : json) : Decimal :=
  default (mk_dec 0 0) (if jblank value then None else parse_number (json_str value)).

(** [int(value)]; [None] for [TypeError] and [ValueError]. *)
Definition int_of (value : json) : option Z :=
  match value with
  | JInt z => Some z
  | JBool b => Some (if b then 1 else 0)
  | JFloat d => Some (truncate d)
  | JStr s => py_int s
  | _ => None
  end.
(** [_to_int]. *)
Definition to_int (value : json) : Z := default 0 (int_of value).

(** [f"{value:.3f}"]. *)
Definition money (value : Decimal) : string := format_fixed 3 value.
(** [sum(..., Decimal("0"))]. *)
Definition sum_decimals (l : list Decimal) : Decimal := foldl dec_add (mk_dec 0 0) l.
Definition sum_ints (l : list Z) : Z := foldl Z.add 0 l.

(** [d or {}]. *)
Definition jdict_of (j : json) : jdict := match j with JDict d => d | _ => [] end.
(** [l or []]. *)
Definition jlist_of (j : json) : list json := match j with JList l => l | _ => [] end.
(** [str(a or b or "")]. *)
Definition text_or_empty (l : list json) : string := json_str (jor_list (l ++ [JStr ""])).

(** ** services_snapshot.py: service entries *)

Definition build_service_entry (service_id : json) (service_data : jdict) (service_arrangement_id : json)
    (service_arrangement_data : jdict) (base_price duration_minutes : json) (position : Z) : json :=
  let svc := JDict service_data in
  let price := to_decimal (match base_price with JNull => jget svc "base_price" | p => p end) in
  let duration := to_int (match duration_minutes with
                          | JNull => jor (jget svc "base_duration") (jget svc "duration_minutes")
                          | d => d
                          end) in
  let s_name := text_or_empty [jget svc "name"; jget svc "service_name"] in
  JDict [("service_id", JStr (por_str (to_str_id service_id) "")); ("name", JStr s_name); ("service_name", JStr s_name);
    ("service_data", svc); ("service_arrangement_id", opt_json (to_str_id service_arrangement_id));
    ("service_arrangement_data", JDict service_arrangement_data); ("base_price", JStr (money price));
    ("duration_minutes", JInt duration); ("position", JInt position)].

(** The columns of a booking row that these functions read; the instants are
    those the database driver returns, in UTC. *)
Record BookingColumns := mk_columns {
  bc_id : Z; bc_services : list json; bc_sessions : list json;
  bc_service_id : option Z; bc_service_data : option jdict;
  bc_service_arrangement_id : option Z; bc_service_arrangement_data : option jdict;
  bc_therapist_id : Z; bc_therapist_data : option jdict;
  bc_secondary_therapist_id : option Z; bc_secondary_therapist_data : option jdict;
  bc_addons : list json; bc_appointment_start : Z; bc_appointment_end : Z;
  bc_duration_minutes : Z; bc_extra_minutes : Z; bc_total_duration : option Z;
  bc_base_price : option Z; bc_addons_duration : option Z;
  bc_price_for_extra_minutes : Z; bc_addon_price : Z }.

Definition uuid_json (o : option Z) : json := match o with Some id => JStr (uuid_str id) | None => JNull end.
(** A [Numeric] column as [Decimal(str(value))] reads it. *)
Definition numeric_json (o : option Z) : json := match o with Some z => JStr (dec_str (of_fils z)) | None => JNull end.

(** A non-empty list of objects. *)
Definition objects (l : list json) : bool := match l with [] => false | _ => forallb is_mapping l end.

Definition get_booking_services (b : BookingColumns) : list json :=
  if objects b.(bc_services) then b.(bc_services)
  else match b.(bc_service_id), b.(bc_service_data) with
       | None, None => []
       | _, _ =>
           [build_service_entry (uuid_json b.(bc_service_id)) (or_empty b.(bc_service_data))
              (uuid_json b.(bc_service_arrangement_id)) (or_empty b.(bc_service_arrangement_data))
              (numeric_json b.(bc_base_price)) (JInt b.(bc_duration_minutes)) 0]
       end.

Definition entry_service_name (entry : json) : string :=
  let sd := jget entry "service_data" in text_or_empty [jget sd "name"; jget sd "service_name"].
Definition entry_arrangement_name (entry : json) : string :=
  let ad := jget entry "service_arrangement_data" in
  text_or_empty [jget ad "arrangement_name"; jget ad "room_name"; jget ad "name"].

Definition service_names (entries : list json) : list string :=
  List.filter truthy (entry_service_name <$> entries).
Definition joined_service_name (entries : list json) (sep : string) : string := join sep (service_names entries).

Definition total_services_price (entries : list json) : Decimal :=
  sum_decimals ((λ e, to_decimal (jget e "base_price")) <$> entries).
Definition total_services_duration (entries : list json) : Z :=
  sum_ints ((λ e, to_int (jget e "duration_minutes")) <$> entries).

(** [dict.fromkeys]: the first occurrence of each. *)
Fixpoint distinct (seen l : list string) : list string :=
  match l with
  | [] => []
  | x :: l => if x in? seen then distinct seen l else x :: distinct (x :: seen) l
  end.
Definition distinct_arrangement_ids (entries : list json) : list string :=
  distinct [] (omap (λ e, to_str_id (jget e "service_arrangement_id")) entries).

(** [(loyalty_points, price_in_points)] of an entry. *)
Definition effective_points (entry : json) : Z * Z :=
  let sd := jget entry "service_data" in
  let ad := jget entry "service_arrangement_data" in
  let pick (k : string) := match jget ad k with JNull => to_int (jget sd k) | v => to_int v end in
  (pick "loyalty_points", pick "price_in_points").

(** [points_cost]. *)
Definition points_cost (entry : json) : Z :=
  let sd := jget entry "service_data" in
  let ad := jget entry "service_arrangement_data" in
  let p := to_int (jget ad "price_in_points") in
  if p =? 0 then to_int (jget sd "price_in_points") else p.

(** [cache_services_payload]. *)
Definition cache_services_payload (entries : list json) : list json :=
  (λ e, JDict [("service_id", jor (jget e "service_id") JNull);
               ("service_name", opt_json (or_none (entry_service_name e)));
               ("service_arrangement_id", jor (jget e "service_arrangement_id") JNull);
               ("service_arrangement_name", opt_json (or_none (entry_arrangement_name e)));
               ("duration_minutes", JInt (to_int (jget e "duration_minutes")))]) <$> entries.

(** ** multi_therapist.py *)

Definition MULTI_THERAPIST_ARRANGEMENT_TYPES : list string := ["couple_room"; "double_room"].

Definition required_therapist_count (arrangement_type : json) : Z :=
  if lower (strip (json_str (jor arrangement_type (JStr "")))) in? MULTI_THERAPIST_ARRANGEMENT_TYPES then 2 else 1.

Definition entries_required_therapists (entries : list json) : Z :=
  foldl (λ needed entry,
    let arr_data := jget entry "service_arrangement_data" in
    Z.max needed (required_therapist_count (jor (jget arr_data "arrangement_type") (jget arr_data "type")))) 1 entries.

(** [unique_ids]. *)
Definition unique_ids (ids : list json) : list string :=
  distinct [] (json_str <$> List.filter (λ j, jtruthy (Some j)) ids).

Definition therapist_display_name (raw : json) : string :=
  if jtruthy (Some raw) then
    let name := jor_list [jget raw "therapist_name"; jget raw "name"; jget raw "full_name"] in
    if jtruthy (Some name) then json_str name
    else
      let part k := match raw with JDict d => match dict_get d k with Some v => json_str v | None => "" end | _ => "" end in
      strip (part "first_name" ++ " " ++ part "last_name")
  else "".

(** ** sessions.py: building a session *)

Definition MAX_SESSIONS_PER_BOOKING : Z := 3.
Definition MAX_PACKAGE_SESSIONS_PER_BOOKING : Z := 5.

Definition compute_extra_price (extra_minutes : Z) (unit_minutes unit_price : json) : Decimal :=
  let mins := Z.max extra_minutes 0 in
  let rate := to_decimal unit_price in
  if (mins =? 0) || dec_leb rate (mk_dec 0 0) then mk_dec 0 0
  else
    let unit := or_int (to_int unit_minutes) 30 in
    dec_mul (dec_div (mk_dec mins 0) (mk_dec unit 0)) rate.

Definition normalise_addon (a : json) : json :=
  JDict [("addon_id", JStr (por_str (por (to_str_id (jget a "addon_id")) (to_str_id (jget a "id"))) ""));
         ("name", JStr (text_or_empty [jget a "name"])); ("price", JStr (money (to_decimal (jget a "price"))));
         ("duration_minutes", JInt (to_int (jor (jget a "duration_minutes") (jget a "duration"))))].
Definition normalise_addons (addons : list json) : list json := normalise_addon <$> addons.

Definition with_key (j : json) (k : string) (v : json) : json := JDict (dict_set (jdict_of j) k v).

(** The keyword arguments of [build_session]. *)
Record SessionArgs := mk_session_args {
  sa_position : Z; sa_start : Z; sa_therapist_id : json; sa_therapist_data : jdict;
  sa_arrangement_id : json; sa_arrangement_data : jdict; sa_services : list json; sa_addons : list json;
  sa_extra_minutes : Z; sa_extra_unit_minutes : json; sa_extra_unit_price : json;
  sa_secondary_therapist_id : json; sa_secondary_therapist_data : jdict; sa_session_id : json }.

(** The entries of a session, renumbered and placed in its arrangement. *)
Definition session_entries (a : SessionArgs) : list json :=
  imap (λ i e,
    let e := with_key e "position" (JInt (Z.of_nat i)) in
    with_key e "service_arrangement_id"
      (match to_str_id a.(sa_arrangement_id) with Some id => JStr id | None => jget e "service_arrangement_id" end))
    a.(sa_services).

Definition session_service_name (e : json) : string :=
  let sd := jget e "service_data" in
  text_or_empty [jget sd "name"; jget sd "service_name"; jget e "name"; jget e "service_name"].

(** [e.get("service_id")] of the entries that have one. *)
Definition entry_ids (entries : list json) : list json :=
  List.filter (λ j, jtruthy (Some j)) ((λ e, jget e "service_id") <$> entries).

Definition build_session (a : SessionArgs) (fresh : string) : result json :=
  match a.(sa_services) with
  | [] => Raise (err SessionValidationError)
  | _ =>
      let entries := session_entries a in
      let addon_list := normalise_addons a.(sa_addons) in
      let services_duration := sum_ints ((λ e, to_int (jget e "duration_minutes")) <$> entries) in
      let services_price := sum_decimals ((λ e, to_decimal (jget e "base_price")) <$> entries) in
      let addons_duration := sum_ints ((λ e, to_int (jget e "duration_minutes")) <$> addon_list) in
      let addons_price := sum_decimals ((λ e, to_decimal (jget e "price")) <$> addon_list) in
      let extra := Z.max a.(sa_extra_minutes) 0 in
      let extra_price := compute_extra_price extra a.(sa_extra_unit_minutes) a.(sa_extra_unit_price) in
      let total_duration := services_duration + addons_duration + extra in
      let end_ := a.(sa_start) + total_duration * us_per_minute in
      Ok (JDict [
        ("session_id", JStr (por_str (to_str_id a.(sa_session_id)) fresh));
        ("position", JInt a.(sa_position));
        ("therapist_id", opt_json (to_str_id a.(sa_therapist_id)));
        ("therapist_data", JDict a.(sa_therapist_data));
        ("secondary_therapist_id", opt_json (to_str_id a.(sa_secondary_therapist_id)));
        ("secondary_therapist_data",
          if jtruthy (Some a.(sa_secondary_therapist_id)) then JDict a.(sa_secondary_therapist_data) else JNull);
        ("service_arrangement_id", opt_json (to_str_id a.(sa_arrangement_id)));
        ("service_arrangement_data", JDict a.(sa_arrangement_data));
        ("service_name", JStr (join " + " (List.filter truthy (session_service_name <$> entries))));
        ("services", JList entries);
        ("service_ids", JList (entry_ids entries));
        ("addons", JList addon_list);
        ("extra_minutes", JInt extra);
        ("price_for_extra_minutes", JStr (money extra_price));
        ("services_duration", JInt services_duration);
        ("addons_duration", JInt addons_duration);
        ("total_session_duration", JInt total_duration);
        ("services_price", JStr (money services_price));
        ("addons_price", JStr (money addons_price));
        ("session_price", JStr (money (dec_add (dec_add services_price addons_price) extra_price)));
        ("appointment_start", JStr (isoformat KUWAIT a.(sa_start)));
        ("appointment_end", JStr (isoformat KUWAIT end_))])
  end.

(** ** sessions.py: windows and validation *)

(** [_parse_dt] of a JSON value. *)
Definition parse_dt (value : json) : option Z :=
  match value with
  | JStr s => if truthy (strip s) then to_local_tz <$> fromisoformat (replace_all "Z" "+00:00" (strip s)) else None
  | _ => None
  end.
Definition session_window (s : json) : option Z * option Z :=
  (parse_dt (jget s "appointment_start"), parse_dt (jget s "appointment_end")).

(** [datetime.max] in UTC. *)
Definition DATETIME_MAX : Z := 2932897 * us_per_day - 1.
Definition start_key (s : json) : Z := default DATETIME_MAX (session_window s).1.

(** [sort_sessions]: stable, renumbered. *)
Definition sort_sessions (sessions : list json) : list json :=
  imap (λ i s, with_key s "position" (JInt (Z.of_nat i))) (sorted_by start_key sessions).

(** A session that may be stored. *)
Definition well_formed (s : json) : bool :=
  jtruthy (Some (jget s "therapist_id")) && jtruthy (Some (jget s "services")) &&
  match session_window s with (Some start, Some end_) => start <? end_ | _ => false end.

(** The second loop: one local day, no overlap. *)
Fixpoint in_order (day : Z) (prev_end : option Z) (l : list json) : bool :=
  match l with
  | [] => true
  | s :: l =>
      match session_window s with
      | (Some start, Some end_) =>
          (local_day start =? day) && (local_day end_ =? day) &&
          match prev_end with Some p => negb (start <? p) | None => true end &&
          in_order day (Some end_) l
      | _ => false
      end
  end.

Definition validate_sessions (sessions : list json) (max_sessions : Z) : result (list json) :=
  if match sessions with [] => true | _ => false end then Raise (err SessionValidationError)
  else if max_sessions <? Z.of_nat (length sessions) then Raise (err SessionValidationError)
  else if negb (forallb well_formed sessions) then Raise (err SessionValidationError)
  else
    let ordered := sort_sessions sessions in
    let day := local_day (start_key (default JNull (head ordered))) in
    if in_order day None ordered then Ok ordered else Raise (err SessionValidationError).

(** ** sessions.py: what is derived from sessions *)

Definition flatten_services (sessions : list json) : list json :=
  imap (λ i e, with_key e "position" (JInt (Z.of_nat i)))
    (sessions ≫= λ s, (λ e, with_key e "session_id" (jget s "session_id")) <$> jlist_of (jget s "services")).
Definition flatten_addons (sessions : list json) : list json :=
  sessions ≫= λ s, (λ a, with_key a "session_id" (jget s "session_id")) <$> jlist_of (jget s "addons").

Record Totals := mk_totals {
  t_services_price : Decimal; t_addons_price : Decimal; t_extra_price : Decimal; t_session_price_total : Decimal;
  t_services_duration : Z; t_addons_duration : Z; t_extra_minutes : Z; t_total_duration : Z }.

Definition sum_prices (k : string) (sessions : list json) : Decimal :=
  sum_decimals ((λ s, to_decimal (jget s k)) <$> sessions).
Definition sum_minutes (k : string) (sessions : list json) : Z := sum_ints ((λ s, to_int (jget s k)) <$> sessions).

Definition booking_totals (sessions : list json) : Totals :=
  mk_totals (sum_prices "services_price" sessions) (sum_prices "addons_price" sessions)
    (sum_prices "price_for_extra_minutes" sessions) (sum_prices "session_price" sessions)
    (sum_minutes "services_duration" sessions) (sum_minutes "addons_duration" sessions)
    (sum_minutes "extra_minutes" sessions) (sum_minutes "total_session_duration" sessions).

(** [legacy_mirror]: the single-session columns of the booking. *)
Record Mirror := mk_mirror {
  m_therapist_id : json; m_therapist_data : json; m_secondary_therapist_id : json; m_secondary_therapist_data : json;
  m_service_arrangement_id : json; m_service_arrangement_data : json;
  m_services : list json; m_addons : list json; m_appointment_start : option Z; m_appointment_end : option Z;
  m_totals : Totals }.

Definition legacy_mirror (sessions : list json) : Mirror :=
  let first := default JNull (head sessions) in
  let last_ := default JNull (last sessions) in
  mk_mirror (jget first "therapist_id") (jor (jget first "therapist_data") (JDict []))
    (jget first "secondary_therapist_id") (jget first "secondary_therapist_data")
    (jget first "service_arrangement_id") (jor (jget first "service_arrangement_data") (JDict []))
    (flatten_services sessions) (flatten_addons sessions)
    (session_window first).1 (session_window last_).2 (booking_totals sessions).

(** ** sessions.py: stored and legacy bookings *)

(** [session_from_booking]. *)
Definition session_from_booking (b : BookingColumns) : json :=
  let entries := get_booking_services b in
  let addons := List.filter is_mapping b.(bc_addons) in
  let base_price := total_services_price entries in
  let extra_price := of_fils b.(bc_price_for_extra_minutes) in
  let addon_price := of_fils b.(bc_addon_price) in
  JDict [
    ("session_id", JStr (uuid_str b.(bc_id))); ("position", JInt 0);
    ("therapist_id", JStr (uuid_str b.(bc_therapist_id)));
    ("therapist_data", JDict (or_empty b.(bc_therapist_data)));
    ("secondary_therapist_id", uuid_json b.(bc_secondary_therapist_id));
    ("secondary_therapist_data",
      match b.(bc_secondary_therapist_id), b.(bc_secondary_therapist_data) with Some _, Some d => JDict d | _, _ => JNull end);
    ("service_arrangement_id", uuid_json b.(bc_service_arrangement_id));
    ("service_arrangement_data", JDict (or_empty b.(bc_service_arrangement_data)));
    ("service_name", JStr (join ", " (List.filter truthy
       ((λ e, json_str (jor_list [jget e "name"; jget (jget e "service_data") "name"; JStr ""])) <$> entries))));
    ("services", JList entries); ("service_ids", JList (entry_ids entries));
    ("addons", JList (normalise_addons addons)); ("extra_minutes", JInt b.(bc_extra_minutes));
    ("price_for_extra_minutes", JStr (money extra_price));
    ("services_duration", JInt (total_services_duration entries));
    ("addons_duration", JInt (default 0 b.(bc_addons_duration)));
    ("total_session_duration", JInt (default (b.(bc_duration_minutes) + b.(bc_extra_minutes)) b.(bc_total_duration)));
    ("services_price", JStr (money base_price)); ("addons_price", JStr (money addon_price));
    ("session_price", JStr (money (dec_add (dec_add base_price addon_price) extra_price)));
    ("appointment_start", JStr (isoformat 0 b.(bc_appointment_start)));
    ("appointment_end", JStr (isoformat 0 b.(bc_appointment_end)))].

(** [get_booking_sessions], and [stored_sessions] with [None] for legacy rows. *)
Definition get_booking_sessions (b : BookingColumns) : list json :=
  if objects b.(bc_sessions) then b.(bc_sessions) else [session_from_booking b].
Definition stored_sessions (b : BookingColumns) : option (list json) :=
  if objects b.(bc_sessions) then Some b.(bc_sessions) else None.

(** The window of a session served by the therapist. *)
Definition busy_window (tid : string) (s : json) : option (Z * Z) :=
  if (to_str_id (jget s "therapist_id") ==? Some tid) || (to_str_id (jget s "secondary_therapist_id") ==? Some tid) then
    match session_window s with (Some start, Some end_) => Some (start, end_) | _ => None end
  else None.

Definition therapist_busy_windows (b : BookingColumns) (therapist_id : Z) : list (Z * Z) :=
  let tid := uuid_str therapist_id in
  if objects b.(bc_sessions) then omap (busy_window tid) b.(bc_sessions)
  else if (tid ==? uuid_str b.(bc_therapist_id)) || (Some tid ==? (uuid_str <$> b.(bc_secondary_therapist_id)))
       then [(b.(bc_appointment_start), b.(bc_appointment_end))]
       else [].

(** [_overlaps_per_session] (app/booking/infrastructure/repository.py). *)
Definition overlaps_per_session (b : BookingColumns) (therapist_id start end_ : Z) : bool :=
  existsb (λ w, (w.1 <? end_) && (start <? w.2)) (therapist_busy_windows b therapist_id).

Definition distinct_session_arrangements (b : BookingColumns) : Z :=
  Z.of_nat (length (distinct_arrangement_ids (get_booking_services b))).

(** [str(v) if v else None]. *)
Definition str_or_none (v : json) : json := if jtruthy (Some v) then JStr (json_str v) else JNull.

Definition cache_session (s : json) : json :=
  let sd := jget s "therapist_data" in
  let sec := jget s "secondary_therapist_data" in
  let ad := jget s "service_arrangement_data" in
  let person d := text_or_empty [jget d "name"; jget d "full_name"; jget d "therapist_name"] in
  JDict [
    ("session_id", str_or_none (jget s "session_id")); ("position", JInt (to_int (jget s "position")));
    ("therapist_id", str_or_none (jget s "therapist_id")); ("therapist_name", JStr (person sd));
    ("secondary_therapist_id", str_or_none (jget s "secondary_therapist_id"));
    ("secondary_therapist_name", JStr (person sec));
    ("service_arrangement_id", str_or_none (jget s "service_arrangement_id"));
    ("service_arrangement_name", JStr (text_or_empty [jget ad "arrangement_name"; jget ad "room_name"; jget ad "name"]));
    ("service_ids", JList (omap (λ x, match x with JNull => None | _ => Some (JStr (json_str x)) end)
                             (jlist_of (jget s "service_ids"))));
    ("service_name", JStr (join ", " (List.filter truthy (entry_service_name <$> jlist_of (jget s "services")))));
    ("appointment_start", jget s "appointment_start"); ("appointment_end", jget s "appointment_end");
    ("duration_minutes", JInt (or_int (to_int (jget s "total_session_duration"))
       (or_int (to_int (jget s "duration_minutes")) (or_int (to_int (jget s "duration")) 60))))].
(** [cache_sessions_payload] and [cache_payload_for]. *)
Definition cache_sessions_payload (sessions : list json) : list json := cache_session <$> sessions.
Definition cache_payload_for (b : BookingColumns) : list json :=
  match stored_sessions b with Some sessions => cache_sessions_payload sessions | None => [] end.
