(* ===== verification/SessionPlanner.v ===== *)
(** * Planning the sessions of a booking
    (app/booking/application/multi_service.py, package_rules.py,
    session_planner.py)

    A [sessions[]] request is turned into stored sessions against the catalogue
    of another service, [Ushauth]: its answers are functions of the request alone,
    as one plan reads them within a moment.  Sessions are built and checked
    concurrently in the source; here one after the other, so of several failures
    the first session's is raised.  The request schemas have validated the items:
    a session has at least one service. *)

From S2P Require Import Prelude Exceptions Effects Money Numbers Store PyText PyDate Sessions.
From Stdlib Require Import Ascii.
#[local] Open Scope Z_scope.

(** ** The catalogue *)

(** A question about the room and the therapists of a session. *)
Record AvailabilityQuery := mk_query {
  aq_arrangement_id : string; aq_date : string; aq_time : string; aq_duration : Z;
  aq_therapist_id : json; aq_therapist_ids : option (list string); aq_required_therapists : Z;
  aq_branch_id : option string; aq_service_id : json; aq_exclude_booking_id : option string;
  aq_allow_single_therapist : bool }.

Class Ushauth := {
  get_service : string → result json;
  get_service_arrangement : string → result json;
  get_therapist : string → result json;
  check_appointment_availability : AvailabilityQuery → result json;
  (** therapist, date, time, minutes *)
  check_booking_therapist_availability : string → string → string → Z → result json;
}.

(** [_unwrap]. *)
Definition unwrap (raw : json) : json := mapping (jget_or raw "data" raw).

(** A lookup whose failure is only logged. *)
Definition fetched (r : result json) : json := match r with Ok raw => unwrap raw | Raise _ => JDict [] end.

(** [int(value)] where a failure is raised. *)
Definition int_or_raise (value : json) : result Z :=
  match int_of value with Some z => Ok z | None => Raise (err ValueError) end.

(** ** Requests *)

Record ServiceItem := mk_service_item {
  si_service_id : option string; si_service_name : option string; si_service_category : option string;
  si_service_data : option jdict; si_service_arrangement_id : option string; si_arrangement_name : option string;
  si_arrangement_type : option string; si_room_name : option string; si_service_arrangement_data : option jdict;
  si_base_price : json; si_base_duration : option Z; si_is_eligible_for_loyalty : bool; si_loyalty_points : Z;
  si_arrangement_loyalty_points : option Z; si_price_in_points : Z; si_arrangement_price_in_points : option Z;
  si_package_id : option string }.

#[export] Instance eta_ServiceItem : Eta ServiceItem := λ i, mk_service_item
  i.(si_service_id) i.(si_service_name) i.(si_service_category) i.(si_service_data) i.(si_service_arrangement_id)
  i.(si_arrangement_name) i.(si_arrangement_type) i.(si_room_name) i.(si_service_arrangement_data) i.(si_base_price)
  i.(si_base_duration) i.(si_is_eligible_for_loyalty) i.(si_loyalty_points) i.(si_arrangement_loyalty_points)
  i.(si_price_in_points) i.(si_arrangement_price_in_points) i.(si_package_id).

Record SessionItem := mk_session_item {
  it_session_id : option string; it_therapist_id : string; it_therapist_name : option string;
  it_therapist_data : option jdict; it_secondary_therapist_id : option string; it_secondary_therapist_name : option string;
  it_secondary_therapist_data : option jdict; it_service_arrangement_id : option string;
  it_arrangement_name : option string; it_arrangement_type : option string; it_room_name : option string;
  it_service_arrangement_data : option jdict; it_services : list ServiceItem; it_addons : list json;
  it_extra_minutes : Z; it_appointment_time : option string; it_appointment_start : option datetime }.

(** ** multi_service.py *)

Section planner.
Context `{Ushauth}.

(** The points an arrangement gives one service: the first row that names it. *)
Definition arrangement_service (db_arrangement : json) (service_id : option string) : json :=
  match service_id with
  | Some id =>
      default JNull (List.find (λ a, String.eqb (json_str (jget a "service_id")) id)
                       (jlist_of (jget db_arrangement "arrangement_services")))
  | None => JNull
  end.

(** [int(db) if db is not None and int(db) > 0 else ...]. *)
Definition positive_or (db : json) (other : result json) : result json :=
  match db with
  | JNull => other
  | _ => z ← int_or_raise db; if 0 <? z then Ok (JInt z) else other
  end.

Definition own_points (db : json) (item_points : Z) (sd : json) (k : string) : result json :=
  positive_or db
    (if 0 <? item_points then Ok (JInt item_points)
     else z ← int_or_raise (jor (jget sd k) (JInt 0)); Ok (JInt z)).
Definition arrangement_points (db : json) (item_points : option Z) (ad : json) (k : string) : result json :=
  positive_or db (match item_points with Some z => Ok (JInt z) | None => Ok (jget ad k) end).

(** The full record of the catalogue under the snapshot; the extra-time rate is
    always the catalogue's. *)
Definition full_service_data (db_service : json) (service_data : jdict) : jdict :=
  foldl (λ d k, match jget db_service k with JNull => d | v => dict_set d k v end)
    (dict_merge (jdict_of db_service) service_data) ["extra_minutes"; "price_for_extra_minutes"].

(** [_build_one]. *)
Definition build_one (item : ServiceItem) (position : Z) (db_service db_arrangement : json)
    (is_loyalty_booking full_details : bool) (fresh : string) : result json :=
  let item_sd := JDict (or_empty item.(si_service_data)) in
  let item_ad := JDict (or_empty item.(si_service_arrangement_data)) in
  let asvc := arrangement_service db_arrangement item.(si_service_id) in
  loyalty ← own_points (jget db_service "loyalty_points") item.(si_loyalty_points) item_sd "loyalty_points";
  price_in_points ← own_points (jget db_service "price_in_points") item.(si_price_in_points) item_sd "price_in_points";
  let is_eligible :=
    match jget db_service "is_eligible_for_loyalty" with
    | JNull => item.(si_is_eligible_for_loyalty) || jtruthy (Some (jget item_sd "is_eligible_for_loyalty"))
    | v => jtruthy (Some v)
    end in
  arr_loyalty ← arrangement_points (jget asvc "loyalty_points") item.(si_arrangement_loyalty_points) item_ad "loyalty_points";
  arr_price_in_points ←
    arrangement_points (jget asvc "price_in_points") item.(si_arrangement_price_in_points) item_ad "price_in_points";
  let service_name := jor_list [opt_json item.(si_service_name); jget db_service "name";
                                jget item_sd "service_name"; jget item_sd "name"; JStr ""] in
  let service_category := jor_list [opt_json item.(si_service_category); jget db_service "category";
                                    jget item_sd "service_category"; jget item_sd "category"; JStr ""] in
  let base_price := json_str (jor_list [item.(si_base_price); jget db_service "base_price"; jget item_sd "base_price"; JStr "0"]) in
  base_duration ← int_or_raise (jor_list [match item.(si_base_duration) with Some z => JInt z | None => JNull end;
                                          jget db_service "duration_minutes"; jget item_sd "base_duration";
                                          jget item_sd "duration"; JInt 60]);
  let service_data :=
    dict_merge
      (dict_merge [("id", JStr (default "" item.(si_service_id))); ("name", service_name); ("category", service_category);
                   ("base_price", JStr base_price); ("base_duration", JInt base_duration)] (jdict_of item_sd))
      [("is_eligible_for_loyalty", JBool (is_eligible && negb is_loyalty_booking));
       ("loyalty_points", if is_loyalty_booking then JInt 0 else loyalty); ("price_in_points", price_in_points)] in
  let service_data := if full_details then full_service_data db_service service_data else service_data in
  let arrangement_type := jor_list [opt_json item.(si_arrangement_type); jget db_arrangement "arrangement_type";
                                    jget item_ad "arrangement_type"; jget item_ad "type"; JStr ""] in
  let room_name := jor_list [opt_json item.(si_room_name); opt_json item.(si_arrangement_name); jget db_arrangement "name";
                             jget item_ad "arrangement_name"; jget item_ad "room_name"; jget item_ad "name"; JStr ""] in
  let arrangement_data :=
    dict_merge
      (dict_merge [("id", JStr (default "" item.(si_service_arrangement_id))); ("arrangement_type", arrangement_type);
                   ("room_name", room_name); ("arrangement_name", room_name)] (jdict_of item_ad))
      [("loyalty_points", if is_loyalty_booking then JInt 0 else arr_loyalty); ("price_in_points", arr_price_in_points)] in
  Ok (build_service_entry (JStr (default fresh item.(si_service_id))) service_data
        (opt_json item.(si_service_arrangement_id)) arrangement_data (JStr base_price) (JInt base_duration) position).

(** The records of the catalogue for an item. *)
Definition db_service_of (item : ServiceItem) : json :=
  match item.(si_service_id) with Some id => fetched (get_service id) | None => JDict [] end.
Definition db_arrangement_of (item : ServiceItem) : json :=
  match item.(si_service_arrangement_id) with Some id => fetched (get_service_arrangement id) | None => JDict [] end.

(** A service that its arrangement lists as inactive, or not at all. *)
Definition not_offered (item : ServiceItem) : bool :=
  match item.(si_service_id), item.(si_service_arrangement_id) with
  | Some id, Some _ =>
      let offered := jget (db_arrangement_of item) "arrangement_services" in
      jtruthy (Some offered) &&
      negb (id in? ((λ a, json_str (jget a "service_id")) <$>
        List.filter (λ a, jtruthy (Some (jget_or a "is_active" (JBool true)))) (jlist_of offered)))
  | _, _ => false
  end.

(** The branches of the arrangements. *)
Definition branch_names (items : list ServiceItem) : list string :=
  distinct [] (omap (λ item, let n := jget (db_arrangement_of item) "branch_name" in
                             if jtruthy (Some n) then Some (lower (strip (json_str n))) else None) items).

(** [_validate_consistency]. *)
Definition validate_consistency (items : list ServiceItem) : result () :=
  if existsb not_offered items || (1 <? Z.of_nat (length (branch_names items)))
  then Raise (err ServiceValidationError) else Ok ().

Definition indexed {A} (l : list A) : list (nat * A) := imap pair l.

Definition resolve_service_entries (items : list ServiceItem) (is_loyalty_booking full_details : bool)
    (validate : option bool) (fresh : nat → string) : result (list json) :=
  entries ← mapM (λ '(pos, item), build_one item (Z.of_nat pos) (db_service_of item) (db_arrangement_of item)
                                    is_loyalty_booking full_details (fresh pos)) (indexed items);
  (if default (1 <? Z.of_nat (length items)) validate then validate_consistency items else Ok ()) ;;
  Ok entries.

(** ** package_rules.py *)

(** [sorted] of texts. *)
Fixpoint insert_text (x : string) (l : list string) : list string :=
  match l with [] => [x] | y :: l' => if (y <? x)%string then y :: insert_text x l' else x :: l end.
Fixpoint sort_texts (l : list string) : list string :=
  match l with [] => [] | x :: l => insert_text x (sort_texts l) end.

(** Where a component is requested: session, service, and the service's id. *)
Record Ref := mk_ref { ref_session : nat; ref_service : nat; ref_id : string }.

(** [wanted], flattened: the package of every tagged service. *)
Definition wanted (items : list SessionItem) : list (string * Ref) :=
  indexed items ≫= λ '(si, item),
    omap (λ '(sj, svc), match svc.(si_package_id), svc.(si_service_id) with
                        | Some pid, Some id => Some (pid, mk_ref si sj id)
                        | _, _ => None
                        end) (indexed item.(it_services)).

Definition refs_of (items : list SessionItem) (pid : string) : list Ref :=
  omap (λ '(p, r), if String.eqb p pid then Some r else None) (wanted items).

(** [min((r[0], r[1]) for r in refs)]. *)
Definition ref_before (a b : nat * nat) : bool := (a.1 <? b.1)%nat || ((a.1 =? b.1)%nat && (a.2 <? b.2)%nat).
Fixpoint min_position (best : nat * nat) (l : list (nat * nat)) : nat * nat :=
  match l with [] => best | p :: l => min_position (if ref_before p best then p else best) l end.

Record PackageInfo := mk_package_info {
  pi_name : json; pi_price : Decimal; pi_carrier : nat * nat; pi_durations : list (string * json) }.

Definition package_info (pid : string) (refs : list Ref) : result PackageInfo :=
  match get_service pid with
  | Raise _ => Raise (err SessionValidationError)
  | Ok raw =>
      let pkg := unwrap raw in
      let included := jlist_of (jor (jget pkg "included_services") (JList [])) in
      let included_ids := (λ c, json_str (jget c "id")) <$> included in
      if negb (jtruthy (Some (jget pkg "is_packaged_services"))) then Raise (err SessionValidationError)
      else if match included with [] => true | _ => false end then Raise (err SessionValidationError)
      else if negb (sort_texts (ref_id <$> refs) ==? sort_texts included_ids) then Raise (err SessionValidationError)
      else
        let positions := (λ r, (r.(ref_session), r.(ref_service))) <$> refs in
        Ok (mk_package_info (jor (jget pkg "name") (JStr "")) (to_decimal (jget pkg "base_price"))
              (min_position (default (0%nat, 0%nat) (head positions)) positions)
              (rev ((λ c, (json_str (jget c "id"), jget c "duration_minutes")) <$> included)))
  end.

Definition resolve_package_context (items : list SessionItem) : result (list (string * PackageInfo)) :=
  mapM (λ pid, info ← package_info pid (refs_of items pid); Ok (pid, info)) (distinct [] (wanted items).*1).

(** [d.get(k)] of an association list. *)
Fixpoint assoc {A} (l : list (string * A)) (k : string) : option A :=
  match l with [] => None | (k', a) :: l => if String.eqb k' k then Some a else assoc l k end.

(** A component entry: stamped with its package, priced once per package. *)
Definition package_entry (pid : string) (info : PackageInfo) (position : nat * nat) (entry : json) : result json :=
  let sid := json_str (jor (jget entry "service_id") (JStr "")) in
  let e := with_key entry "package_id" (JStr pid) in
  let e := with_key e "package_name" info.(pi_name) in
  let e := with_key e "package_price" (JStr (money info.(pi_price))) in
  let e := with_key e "component_price" (jget entry "base_price") in
  e ← match assoc info.(pi_durations) sid with
      | Some d => if jtruthy (Some d) then minutes ← int_or_raise d; Ok (with_key e "duration_minutes" (JInt minutes)) else Ok e
      | None => Ok e
      end;
  let e := with_key e "base_price" (JStr (if info.(pi_carrier) ==? position then money info.(pi_price) else "0.000")) in
  Ok (match jget e "service_data" with
      | JDict sd => with_key e "service_data" (JDict (dict_set (dict_set sd "package_id" (JStr pid)) "package_name" info.(pi_name)))
      | _ => e
      end).

Definition apply_package_context (entries : list json) (svc_items : list ServiceItem) (session_index : nat)
    (ctx : list (string * PackageInfo)) : result (list json) :=
  mapM (λ '(j, (svc, entry)),
    match svc.(si_package_id) ≫= λ pid, pair pid <$> assoc ctx pid with
    | Some (pid, info) => package_entry pid info (session_index, j) entry
    | None => Ok entry
    end) (indexed (zip svc_items entries)).

(** [_truthy]. *)
Definition flag (v : json) : bool := lower (strip (json_str v)) in? ["true"; "1"; "yes"].

(** The package an entry belongs to: as a component, or as a whole. *)
Definition component_of (entry : json) : option string :=
  let pid := jget entry "package_id" in if jtruthy (Some pid) then Some (json_str pid) else None.
Definition is_whole_package (entry : json) : bool :=
  match component_of entry with
  | Some _ => false
  | None => flag (jget (jget entry "service_data") "is_packaged_services")
  end.
Definition package_of (entry : json) : option string :=
  match component_of entry with
  | Some pid => Some pid
  | None => if is_whole_package entry then Some (json_str (jor (jget entry "service_id") (JStr ""))) else None
  end.

Definition validate_package_exclusivity (sessions : list json) : result () :=
  let entries := sessions ≫= λ s, jlist_of (jget s "services") in
  let packages := distinct [] (omap package_of entries) in
  if match packages with [] => true | _ => false end then Ok ()
  else if (1 <? length packages)%nat || (1 <? length (List.filter is_whole_package entries))%nat
       then Raise (err SessionValidationError)
  else if existsb (λ e, match package_of e with None => true | Some _ => false end) entries
       then Raise (err SessionValidationError)
  else Ok ().

(** ** session_planner.py *)

Definition start_of (item : SessionItem) (appointment_date : string) : result Z :=
  match item.(it_appointment_time), item.(it_appointment_start) with
  | Some time, start =>
      if truthy time then
        match fromisoformat (appointment_date ++ "T" ++ time) with
        | Some dt => Ok (to_local_tz dt)
        | None => Raise (err SessionValidationError)
        end
      else match start with Some dt => Ok (to_local_tz dt) | None => Raise (err SessionValidationError) end
  | None, Some dt => Ok (to_local_tz dt)
  | None, None => Raise (err SessionValidationError)
  end.

(** [d.setdefault(k, v)]. *)
Definition setdefault (d : jdict) (k : string) (v : json) : jdict :=
  match dict_get d k with Some _ => d | None => dict_set d k v end.

(** [_therapist_snapshot]: a failing profile lookup never blocks a booking. *)
Definition therapist_snapshot (therapist_id : option string) (provided : option jdict) (name : option string) : jdict :=
  let tid := default "" therapist_id in
  let data := JDict (or_empty provided) in
  let nm := jor (opt_json name) (JStr (therapist_display_name data)) in
  let avatar := jor (jget data "avatar") (jget data "photo_url") in
  let missing v := negb (jtruthy (Some v)) in
  let profile :=
    if truthy tid && (missing nm || missing avatar)
    then match get_therapist tid with Ok raw => Some (unwrap raw) | Raise _ => None end else None in
  let nm := match profile with Some p => jor nm (JStr (therapist_display_name p)) | None => nm end in
  let avatar := match profile with Some p => jor_list [avatar; jget p "avatar"; jget p "photo_url"] | None => avatar end in
  let snap := dict_merge [("id", JStr tid); ("name", nm); ("therapist_name", nm); ("full_name", nm)] (or_empty provided) in
  if missing avatar then snap else setdefault (setdefault snap "avatar" avatar) "photo_url" avatar.

(** [_enrich_addons]: the arrangement's name, price and duration win. *)
Definition enrich_addons (raw_addons : list json) (db_arrangement : json) : list json :=
  let db_by_id := rev ((λ a, (json_str (jor (jget a "id") (jget a "addon_id")), a)) <$>
                       List.filter is_mapping (jlist_of (jget db_arrangement "addons"))) in
  (λ a,
    match assoc db_by_id (json_str (jor_list [jget a "addon_id"; jget a "id"; JStr ""])) with
    | Some db =>
        if jtruthy (Some db) then
          let m := with_key a "name" (jor (jget db "name") (jget a "name")) in
          let m := match jget db "price" with JNull => m | p => with_key m "price" p end in
          match jget db "duration_minutes" with JNull => m | d => with_key m "duration_minutes" d end
        else a
    | None => a
    end) <$> List.filter is_mapping raw_addons.

(** The snapshot of the arrangement of a session. *)
Definition session_arrangement (item : SessionItem) (db_arr : json) (entries : list json) : jdict :=
  let text l := jor_list (l ++ [JStr ""]) in
  let arr_data := dict_merge
    [("id", JStr (default "" item.(it_service_arrangement_id)));
     ("arrangement_type", text [opt_json item.(it_arrangement_type); jget db_arr "arrangement_type"]);
     ("room_name", text [opt_json item.(it_room_name); opt_json item.(it_arrangement_name); jget db_arr "name"]);
     ("arrangement_name", text [opt_json item.(it_arrangement_name); opt_json item.(it_room_name); jget db_arr "name"])]
    (or_empty item.(it_service_arrangement_data)) in
  if jtruthy (Some (jget (JDict arr_data) "arrangement_type")) then arr_data
  else dict_set arr_data "arrangement_type"
         (jget_or (jget (default JNull (head entries)) "service_arrangement_data") "arrangement_type" (JStr "")).

(** [_build_one_session]. *)
Definition build_one_session (item : SessionItem) (position : nat) (appointment_date : string) (is_loyalty_booking : bool)
    (package_ctx : list (string * PackageInfo)) (fresh : nat → nat → string) : result json :=
  let arr_id := item.(it_service_arrangement_id) in
  let svc_items := (λ s, s <| si_service_arrangement_id :=
                      match arr_id with Some a => Some a | None => s.(si_service_arrangement_id) end |>) <$> item.(it_services) in
  entries ← resolve_service_entries svc_items is_loyalty_booking true (Some true) (fresh (S position));
  entries ← apply_package_context entries svc_items position package_ctx;
  let db_arr := match arr_id with Some a => fetched (get_service_arrangement a) | None => JDict [] end in
  let arr_data := session_arrangement item db_arr entries in
  let therapist_data := therapist_snapshot (Some item.(it_therapist_id)) item.(it_therapist_data) item.(it_therapist_name) in
  let secondary_data :=
    match item.(it_secondary_therapist_id) with
    | Some id => therapist_snapshot (Some id) item.(it_secondary_therapist_data) item.(it_secondary_therapist_name)
    | None => []
    end in
  let primary_sd := jget (default JNull (head entries)) "service_data" in
  start ← start_of item appointment_date;
  build_session
    (mk_session_args (Z.of_nat position) start (JStr item.(it_therapist_id)) therapist_data (opt_json arr_id) arr_data
       entries (enrich_addons item.(it_addons) db_arr) item.(it_extra_minutes) (jget primary_sd "extra_minutes")
       (jget primary_sd "price_for_extra_minutes") (opt_json item.(it_secondary_therapist_id)) secondary_data
       (opt_json item.(it_session_id)))
    (fresh 0%nat position).

(** *** Availability *)

(** Is [res] a yes? *)
Definition said_yes (res : json) : bool := match jget res "available" with JStr s => String.eqb s "yes" | _ => false end.

Definition session_start (s : json) : Z := default 0 (session_window s).1.
Definition start_clock (s : json) : string := clock_text (time_of_day (session_start s)).

(** The question a session with a room asks. *)
Definition session_query (s : json) (appointment_date : string) (branch_id exclude_booking_id : option string) : AvailabilityQuery :=
  let required := entries_required_therapists [JDict [("service_arrangement_data", jget s "service_arrangement_data")]] in
  let therapist_ids := unique_ids [jget s "therapist_id"; jget s "secondary_therapist_id"] in
  mk_query (json_str (jget s "service_arrangement_id")) appointment_date (start_clock s)
    (to_int (jget s "total_session_duration")) (jget s "therapist_id")
    (if (1 <? length therapist_ids)%nat then Some therapist_ids else None) required branch_id
    (default JNull (head (jlist_of (jget s "service_ids")))) exclude_booking_id
    ((1 <? required) && negb (jtruthy (Some (jget s "secondary_therapist_id")))).

(** The therapists the other service actually reserved. *)
Definition reserved_therapists (s res : json) (required : Z) : json :=
  let chosen := jget res "therapist_id" in
  let s := if jtruthy (Some chosen) && negb (String.eqb (json_str chosen) (json_str (jget s "therapist_id")))
           then with_key s "therapist_id" (JStr (json_str chosen)) else s in
  if (1 <? required) && negb (jtruthy (Some (jget s "secondary_therapist_id"))) then
    match unique_ids (chosen :: jlist_of (jget res "therapist_ids") ++ [jget res "secondary_therapist_id"]) with
    | _ :: second :: _ =>
        match uuid_of_string second with
        | Some id =>
            if String.eqb (uuid_str id) (json_str (jget s "therapist_id")) then s
            else with_key (with_key s "secondary_therapist_id" (JStr (uuid_str id)))
                   "secondary_therapist_data" (JDict [("id", JStr (uuid_str id))])
        | None => s
        end
    | _ => s
    end
  else s.

(** [_check_session_availability]: the session with the therapists reserved. *)
Definition check_session_availability (s : json) (appointment_date : string) (branch_id exclude_booking_id : option string) : result json :=
  if jtruthy (Some (jget s "service_arrangement_id")) then
    let query := session_query s appointment_date branch_id exclude_booking_id in
    res ← check_appointment_availability query;
    if said_yes res then Ok (reserved_therapists s res query.(aq_required_therapists))
    else Raise (err SessionAvailabilityError)
  else if truthy_opt exclude_booking_id then Ok s
  else
    mapM (λ tid,
      res ← check_booking_therapist_availability tid appointment_date (start_clock s) (to_int (jget s "total_session_duration"));
      if said_yes res then Ok () else Raise (err SessionAvailabilityError))
      (unique_ids [jget s "therapist_id"; jget s "secondary_therapist_id"]) ;;
    Ok s.

(** *** The plan *)

Record SessionPlan := mk_plan {
  plan_session_list : list json; plan_mirror : Mirror; plan_totals : Totals; plan_service_entries : list json }.

(** [except ServiceValidationError: raise SessionValidationError]. *)
Definition as_session_error {A} (r : result A) : result A :=
  match r with
  | Raise e => if isinstance e ServiceValidationError then Raise (err SessionValidationError) else Raise e
  | Ok a => Ok a
  end.

(** [s.split("T")[0]]. *)
Fixpoint before_t (s : string) : string :=
  match s with
  | EmptyString => EmptyString
  | String c s => if (c =? "T")%char then EmptyString else String c (before_t s)
  end.

Definition plan_sessions (items : list SessionItem) (appointment_date : string)
    (is_loyalty_booking check_availability : bool) (branch_id exclude_booking_id : option string)
    (fresh : nat → nat → string) : result SessionPlan :=
  '(package_ctx, built) ← as_session_error
    (package_ctx ← resolve_package_context items;
     built ← mapM (λ '(idx, it), build_one_session it idx appointment_date is_loyalty_booking package_ctx fresh) (indexed items);
     Ok (package_ctx, built));
  validate_package_exclusivity built ;;
  sessions ← validate_sessions built
    (match package_ctx with [] => MAX_SESSIONS_PER_BOOKING | _ => MAX_PACKAGE_SESSIONS_PER_BOOKING end);
  let day := before_t appointment_date in
  (if String.eqb (date_text (local_day (start_key (default JNull (head sessions))))) day
   then Ok () else Raise (err SessionValidationError)) ;;
  sessions ← (if check_availability
              then mapM (λ s, check_session_availability s day branch_id exclude_booking_id) sessions
              else Ok sessions);
  Ok (mk_plan sessions (legacy_mirror sessions) (booking_totals sessions) (flatten_services sessions)).
End planner.
