(* ===== verification/SessionSpec.v ===== *)
(** * Sessions: order, windows and blocked therapists

    What validation accepts, what the windows of a booking's sessions block, and
    the single-session columns they are mirrored in. *)

From S2P Require Import Prelude Exceptions Effects Money Numbers Store PyText PyDate Sessions.
#[local] Open Scope Z_scope.

(** ** Keys of objects *)

Lemma jget_with_key j k v k' : jget (with_key j k v) k' = if String.eqb k k' then v else jget j k'.
Proof.
  unfold with_key, jget at 1. rewrite dict_get_set. destruct (k =? k')%string; [done|]. by destruct j.
Qed.

Lemma jget_with_other j k v k' : String.eqb k k' = false → jget (with_key j k v) k' = jget j k'.
Proof. intros E. by rewrite jget_with_key, E. Qed.

(** A key that is not part of a window leaves it alone. *)
Lemma window_with_key s k v :
  String.eqb k "appointment_start" = false → String.eqb k "appointment_end" = false →
  session_window (with_key s k v) = session_window s.
Proof. intros E1 E2. unfold session_window. by rewrite !jget_with_other. Qed.

(** ** Validation *)

(** Two sessions that do not overlap. *)
Definition apart (s t : json) : Prop :=
  match session_window s, session_window t with
  | (Some a, Some b), (Some c, Some d) => b <= c ∨ d <= a
  | _, _ => False
  end.
(** A session whose window lies in one local day. *)
Definition on_day (day : Z) (s : json) : Prop :=
  match session_window s with (Some a, Some b) => local_day a = day ∧ local_day b = day | _ => False end.
(** [s] ends before [t] begins. *)
Definition ends_before (s t : json) : Prop :=
  match session_window s, session_window t with (_, Some b), (Some c, _) => b <= c | _, _ => False end.

Lemma apart_sym s t : apart s t → apart t s.
Proof. unfold apart. destruct (session_window s) as [[] []], (session_window t) as [[] []]; tauto. Qed.

(** A symmetric relation between any two elements does not depend on their order. *)
Lemma pairs_permutation {A} (R : relation A) (l l' : list A) :
  (∀ a b, R a b → R b a) → l ≡ₚ l' → ForallOrdPairs R l → ForallOrdPairs R l'.
Proof.
  intros Hsym Hp. induction Hp as [|x l l' Hp IH|x y l|l l' l'' ? IH1 ? IH2]; intros Hl; [done|..].
  - inversion Hl as [|? ? Hx Hrest]; subst. constructor; [by rewrite <- Hp|auto].
  - inversion Hl as [|? ? Hy Hrest]; subst. inversion Hrest as [|? ? Hx Hl']; subst.
    inversion Hy as [|? ? Hyx Hyl]; subst. constructor; [constructor; auto|by constructor].
  - auto.
Qed.

Lemma pairs_impl {A} (R S : relation A) (P : A → Prop) l :
  Forall P l → (∀ a b, P a → P b → R a b → S a b) → ForallOrdPairs R l → ForallOrdPairs S l.
Proof.
  intros HP HRS Hl. induction Hl as [|a l Ha Hl IH]; [constructor|].
  inversion HP as [|? ? Hpa Hpl]; subst. constructor; [|auto].
  rewrite Forall_forall in *. intros b Hb. auto.
Qed.

(** The window of a well-formed session. *)
Definition proper (s : json) : Prop :=
  match session_window s with (Some a, Some b) => a < b | _ => False end.
(** [s] starts no earlier than [p]. *)
Definition from_on (p : Z) (s : json) : Prop :=
  match session_window s with (Some a, _) => p <= a | _ => False end.

Lemma proper_window s : proper s ↔ ∃ a b, session_window s = (Some a, Some b) ∧ a < b.
Proof.
  unfold proper. split.
  - destruct (session_window s) as [[a|] [b|]]; [eauto|done..].
  - by intros (a & b & -> & ?).
Qed.

Lemma in_order_spec day prev l :
  Forall proper l →
  in_order day prev l = true ↔
    Forall (on_day day) l ∧ ForallOrdPairs ends_before l ∧ (∀ p, prev = Some p → Forall (from_on p) l).
Proof.
  intros Hl. revert prev. induction Hl as [|s l Hs Hl IH]; intros prev; cbn [in_order].
  { split; [intros _|done]. split_and!; [constructor|constructor|]. intros. constructor. }
  apply proper_window in Hs as (a & b & Hw & Hab). rewrite Hw.
  assert (∀ p, from_on p s ↔ p <= a) as Hfrom by (intros p; unfold from_on; by rewrite Hw).
  assert (on_day day s ↔ local_day a = day ∧ local_day b = day) as Hday by (unfold on_day; by rewrite Hw).
  assert (∀ t, ends_before s t ↔ from_on b t) as Hends.
  { intros t. unfold ends_before, from_on. rewrite Hw. by destruct (session_window t) as [[] []]. }
  rewrite !andb_true_iff, !Z.eqb_eq, IH, Forall_cons, Hday. split.
  - intros (([??] & Hp) & Hdays & Hpairs & Hnext). split_and!; [tauto|tauto|done| |].
    + constructor; [|done]. eapply List.Forall_impl; [apply Hends|by apply Hnext].
    + intros p ->. apply negb_true_iff, Z.ltb_ge in Hp. apply Forall_cons. split; [by apply Hfrom|].
      eapply Forall_impl; [by apply Hnext|]. intros t. unfold from_on. destruct (session_window t) as [[] ?]; [lia|done].
  - intros ((? & Hdays) & Hpairs & Hp). inversion Hpairs as [|? ? Hst Hrest]; subst. split_and!; [tauto|tauto| |done|done|].
    + destruct prev as [p|]; [|done]. apply negb_true_iff, Z.ltb_ge, Hfrom.
      by pose proof (Hp p eq_refl) as [? _]%Forall_cons.
    + intros p [= <-]. eapply List.Forall_impl; [|exact Hst]. apply Hends.
Qed.

(** Sorting keeps the windows: it permutes the sessions and renumbers them. *)
Lemma sort_sessions_windows sessions :
  session_window <$> sort_sessions sessions = session_window <$> sorted_by start_key sessions.
Proof.
  unfold sort_sessions. apply fmap_imap_ext. intros. by apply window_with_key.
Qed.

Lemma length_sort_sessions sessions : length (sort_sessions sessions) = length sessions.
Proof. unfold sort_sessions. rewrite length_imap. apply Permutation_length, sorted_by_perm. Qed.

(** What depends on windows alone holds of the sorted sessions as of the sorted input. *)
Lemma Forall_windows (P : option Z * option Z → Prop) (l l' : list json) :
  session_window <$> l = session_window <$> l' →
  Forall (λ s, P (session_window s)) l ↔ Forall (λ s, P (session_window s)) l'.
Proof.
  intros Hw. change (Forall (P ∘ session_window) l ↔ Forall (P ∘ session_window) l'). by rewrite <- !Forall_fmap, Hw.
Qed.
Lemma pairs_windows (R : relation (option Z * option Z)) (l l' : list json) :
  session_window <$> l = session_window <$> l' →
  ForallOrdPairs (λ s t, R (session_window s) (session_window t)) l ↔
  ForallOrdPairs (λ s t, R (session_window s) (session_window t)) l'.
Proof.
  revert l'. assert (∀ l l', session_window <$> l = session_window <$> l' →
    ForallOrdPairs (λ s t, R (session_window s) (session_window t)) l →
    ForallOrdPairs (λ s t, R (session_window s) (session_window t)) l') as Himp.
  { clear l. induction l as [|s l IH]; intros [|t l'] Hw Hl; try done. rewrite !fmap_cons in Hw. apply (inj2 cons) in Hw as [Hst Hw].
    inversion Hl as [|? ? Hs Hrest]; subst. constructor; [|by apply IH].
    rewrite <- Hst. by apply (Forall_windows (R (session_window s)) l). }
  intros l' Hw. split; by apply Himp.
Qed.

(** Starts in order. *)
Definition starts_before (s t : json) : Prop := start_key s <= start_key t.

Lemma sorted_starts sessions : ForallOrdPairs starts_before (sort_sessions sessions).
Proof.
  assert (ForallOrdPairs starts_before (sorted_by start_key sessions)) as Hs.
  { pose proof (sorted_by_sorted start_key sessions) as Hsort.
    induction Hsort as [|s l Hl IH Hs]; constructor; done. }
  by apply (pairs_windows (λ w w', default DATETIME_MAX w.1 <= default DATETIME_MAX w'.1) _ _ (sort_sessions_windows sessions)).
Qed.

(** For sessions in the order of their starts, not to overlap is to end in time. *)
Lemma apart_in_order s t : proper s → proper t → starts_before s t → apart s t ↔ ends_before s t.
Proof.
  intros (a & b & Hs & Hab)%proper_window (c & d & Ht & Hcd)%proper_window.
  unfold starts_before, start_key, apart, ends_before. rewrite Hs, Ht. cbn. unfold id. lia.
Qed.

Lemma well_formed_proper s : well_formed s = true → proper s.
Proof.
  unfold well_formed, proper. rewrite !andb_true_iff. intros [_ Hw].
  destruct (session_window s) as [[a|] [b|]]; try done. by apply Z.ltb_lt.
Qed.

(** The rules of a booking's sessions. *)
Record acceptable (sessions : list json) (max_sessions : Z) : Prop := {
  acc_count : 1 <= Z.of_nat (length sessions) <= max_sessions;
  acc_formed : Forall (λ s, well_formed s = true) sessions;
  acc_day : ∃ day, Forall (on_day day) sessions;
  acc_apart : ForallOrdPairs apart sessions;
}.

Lemma pairs_and {A} (R S : relation A) l :
  ForallOrdPairs R l → ForallOrdPairs S l → ForallOrdPairs (λ a b, R a b ∧ S a b) l.
Proof.
  intros HR. induction HR as [|a l Ha Hl IH]; intros HS; [constructor|].
  inversion HS as [|? ? Hsa Hsl]; subst. constructor; [|auto]. apply Forall_and. by split.
Qed.

Lemma Forall_sorted (P : option Z * option Z → Prop) sessions :
  Forall (λ s, P (session_window s)) (sort_sessions sessions) ↔ Forall (λ s, P (session_window s)) sessions.
Proof. rewrite (Forall_windows P _ _ (sort_sessions_windows sessions)). by rewrite sorted_by_perm. Qed.

(** The second loop of the validation. *)
Lemma sorted_in_order sessions :
  sessions ≠ [] → Forall proper sessions →
  let ordered := sort_sessions sessions in
  in_order (local_day (start_key (default JNull (head ordered)))) None ordered = true ↔
    (∃ day, Forall (on_day day) sessions) ∧ ForallOrdPairs apart sessions.
Proof.
  intros Hne Hp ordered.
  assert (Forall proper ordered) as Hpo.
  { apply (Forall_sorted (λ w, match w with (Some a, Some b) => a < b | _ => False end)), Hp. }
  rewrite in_order_spec by done.
  assert (∀ day, Forall (on_day day) ordered ↔ Forall (on_day day) sessions) as Hday.
  { intros day. apply (Forall_sorted (λ w, match w with (Some a, Some b) => local_day a = day ∧ local_day b = day | _ => False end)). }
  assert (ForallOrdPairs ends_before ordered ↔ ForallOrdPairs apart sessions) as Hapart.
  { transitivity (ForallOrdPairs apart ordered).
    - split; intros Hl; (eapply (pairs_impl _ _ proper); [exact Hpo| |exact (pairs_and _ _ _ (sorted_starts sessions) Hl)]);
        intros s t Hs Ht [Hst Hr]; [by apply (apart_in_order s t)|by apply (apart_in_order s t) in Hr].
    - transitivity (ForallOrdPairs apart (sorted_by start_key sessions)).
      + apply (pairs_windows (λ w w', match w, w' with (Some a, Some b), (Some c, Some d) => b <= c ∨ d <= a | _, _ => False end)),
          sort_sessions_windows.
      + pose proof (sorted_by_perm start_key sessions) as Hperm.
        split; apply pairs_permutation; auto using apart_sym. by symmetry. }
  rewrite Hday, Hapart. split; [intros (? & ? & _); eauto|]. intros ([day Hd] & Ha). split_and!; [|done|done].
  replace (local_day _) with day; [done|].
  pose proof (proj2 (Hday day) Hd) as Hdo. pose proof (length_sort_sessions sessions) as Hlen. fold ordered in Hlen.
  clearbody ordered.
  destruct ordered as [|s l]; [by symmetry in Hlen; apply length_zero_iff_nil in Hlen|]. change (default JNull (head (s :: l))) with s. inversion Hdo as [|? ? Hs _]; subst.
  inversion Hpo as [|? ? (a & b & Hw & _)%proper_window _]; subst.
  unfold on_day in Hs. unfold start_key. rewrite Hw in Hs |- *. by destruct Hs.
Qed.

(** C36: Sessions are accepted exactly when there are between one and the allowed
    number of them, each has a therapist, services and a window, all windows lie
    in one local day and no two of them overlap; what is returned is then the
    input sorted by start (renumbered), each session ending before the next
    begins, and any other input is refused. *)
Theorem validate_sessions_correct (sessions : list json) (max_sessions : Z) :
  (acceptable sessions max_sessions →
     validate_sessions sessions max_sessions = Ok (sort_sessions sessions) ∧
     ForallOrdPairs ends_before (sort_sessions sessions)) ∧
  (¬ acceptable sessions max_sessions →
     validate_sessions sessions max_sessions = Raise (err SessionValidationError)).
Proof.
  unfold validate_sessions. destruct sessions as [|s0 l0] eqn:Es.
  { split; [|done]. intros [Hc _ _ _]. cbn in Hc. lia. }
  rewrite <- Es. assert (sessions ≠ []) as Hne by by rewrite Es. clear Es s0 l0.
  destruct (max_sessions <? Z.of_nat (length sessions)) eqn:Hmax; breflect.
  { split; [|done]. intros [Hc _ _ _]. lia. }
  destruct (forallb well_formed sessions) eqn:Hf; cbn [negb].
  2:{ split; [|done]. intros [_ Hw _ _]. apply not_true_iff_false in Hf. destruct Hf.
      apply forallb_forall. intros s Hs. rewrite Forall_forall in Hw. by apply Hw, list_elem_of_In. }
  assert (Forall (λ s, well_formed s = true) sessions) as Hw.
  { apply Forall_forall. intros s Hs. by apply (proj1 (forallb_forall _ _) Hf), list_elem_of_In. }
  assert (Forall proper sessions) as Hp by (eapply Forall_impl; [exact Hw|apply well_formed_proper]).
  assert (1 <= Z.of_nat (length sessions)) as Hlen by (destruct sessions; [done|cbn; lia]).
  pose proof (sorted_in_order sessions Hne Hp) as Hio. cbv zeta in Hio. split.
  - intros [_ _ Hday Hapart]. rewrite (proj2 Hio (conj Hday Hapart)). split; [done|].
    pose proof (proj2 Hio (conj Hday Hapart)) as Hord. apply in_order_spec in Hord; [apply Hord|].
    apply (Forall_sorted (λ w, match w with (Some a, Some b) => a < b | _ => False end)), Hp.
  - intros Hno. destruct (in_order _ _ _); [|done]. destruct Hno. destruct (proj1 Hio eq_refl). by split.
Qed.

(** ** Text of instants and amounts *)

Lemma parse_dt_iso minutes t :
  0 <= minutes < 1440 → in_range ((t + minutes * us_per_minute) / us_per_day) →
  parse_dt (JStr (isoformat (minutes * us_per_minute) t)) = Some t.
Proof.
  intros Hm Hr. assert (0 <= minutes * us_per_minute) as Hoff by (unfold us_per_minute, us_per_second; lia).
  pose proof (isoformat_iso _ t Hoff Hr) as Hiso. unfold parse_dt.
  assert (∀ P : Ascii.ascii → bool, forallb (λ c, implb (is_iso_char c) (P c)) (Ascii.ascii_of_nat <$> seq 0 256) = true →
    all_chars P (isoformat (minutes * us_per_minute) t) = true) as Hall.
  { intros P HP. revert Hiso. apply all_chars_impl. intros c Hc.
    pose proof (ascii_forall _ HP c) as H. cbv beta in H. by rewrite Hc in H. }
  rewrite strip_id, replace_absent by (apply Hall; vm_compute; reflexivity).
  rewrite iso_roundtrip by done. destruct (truthy _) eqn:Et.
  - cbn. f_equal. unfold to_local_tz. cbn. unfold id. lia.
  - exfalso. apply negb_false_iff, String.eqb_eq in Et. by pose proof (iso_roundtrip minutes t Hm Hr) as Hi; rewrite Et in Hi.
Qed.

Lemma parse_dt_local t : in_range (local_day t) → parse_dt (JStr (isoformat KUWAIT t)) = Some t.
Proof. intros Hr. by apply (parse_dt_iso 180). Qed.
Lemma parse_dt_utc t : in_range (t / us_per_day) → parse_dt (JStr (isoformat 0 t)) = Some t.
Proof. intros Hr. apply (parse_dt_iso 0); [lia|]. by rewrite Z.add_0_r. Qed.

Lemma to_str_id_uuid z : 0 <= z → to_str_id (JStr (uuid_str z)) = Some (uuid_str z).
Proof.
  intros Hz. unfold to_str_id. rewrite strip_id by (apply uuid_str_all; [lia|vm_compute; reflexivity..]).
  unfold or_none. destruct (truthy _) eqn:Et; [done|].
  apply negb_false_iff, String.eqb_eq, (f_equal String.length) in Et.
  unfold uuid_str in Et. rewrite !string_length_app, !hex_digits_length in Et. discriminate.
Qed.

(** An amount stored as text is read back rounded to the fils. *)
Lemma to_decimal_money d : to_decimal (JStr (money d)) = of_fils (rounded 3 d).
Proof.
  unfold to_decimal, money. cbn [json_str]. rewrite parse_format_fixed by lia. destruct (jblank _) eqn:Hb; [|done].
  exfalso. unfold jblank in Hb. apply negb_true_iff, negb_false_iff, String.eqb_eq in Hb.
  pose proof (parse_format_fixed 3 d ltac:(lia)) as Hp. by rewrite Hb in Hp.
Qed.

Lemma money_of_fils z : to_decimal (JStr (money (of_fils z))) = of_fils z.
Proof. by rewrite to_decimal_money, rounded_fils. Qed.

(** ** Legacy bookings *)

Definition times_in_range (b : BookingColumns) : Prop :=
  in_range (b.(bc_appointment_start) / us_per_day) ∧ in_range (b.(bc_appointment_end) / us_per_day).
Definition ids_in_range (b : BookingColumns) : Prop :=
  0 <= b.(bc_therapist_id) ∧ (∀ id, b.(bc_secondary_therapist_id) = Some id → 0 <= id).

Lemma session_from_booking_window b :
  times_in_range b → session_window (session_from_booking b) = (Some b.(bc_appointment_start), Some b.(bc_appointment_end)).
Proof.
  intros [H1 H2]. unfold session_window.
  change (jget (session_from_booking b) "appointment_start") with (JStr (isoformat 0 b.(bc_appointment_start))).
  change (jget (session_from_booking b) "appointment_end") with (JStr (isoformat 0 b.(bc_appointment_end))).
  by rewrite !parse_dt_utc.
Qed.

(** The windows that block a therapist are those of the booking's sessions
    the therapist serves, whether the sessions are stored or the booking is a
    legacy row, for which one session is made up: both readings agree. *)
Theorem busy_windows_agree (b : BookingColumns) (therapist_id : Z) :
  times_in_range b → ids_in_range b →
  therapist_busy_windows b therapist_id = omap (busy_window (uuid_str therapist_id)) (get_booking_sessions b).
Proof.
  intros Ht [Hp Hs]. unfold therapist_busy_windows, get_booking_sessions.
  destruct (objects (bc_sessions b)); [done|]. cbn [omap list_omap]. unfold busy_window.
  rewrite session_from_booking_window by done.
  change (jget (session_from_booking b) "therapist_id") with (JStr (uuid_str b.(bc_therapist_id))).
  change (jget (session_from_booking b) "secondary_therapist_id") with (uuid_json b.(bc_secondary_therapist_id)).
  rewrite to_str_id_uuid by done.
  assert (to_str_id (uuid_json b.(bc_secondary_therapist_id)) = uuid_str <$> b.(bc_secondary_therapist_id)) as ->.
  { destruct (bc_secondary_therapist_id b); [|done]. apply to_str_id_uuid. auto. }
  rewrite (bool_decide_ext (uuid_str therapist_id = uuid_str (bc_therapist_id b)) (Some (uuid_str (bc_therapist_id b)) = Some (uuid_str therapist_id)))
    by (split; congruence).
  rewrite (bool_decide_ext (Some (uuid_str therapist_id) = (uuid_str <$> bc_secondary_therapist_id b)) ((uuid_str <$> bc_secondary_therapist_id b) = Some (uuid_str therapist_id)))
    by (split; congruence).
  by destruct (_ || _).
Qed.

Lemma sum_one d :
  Z.abs (rounded 3 d) < 10 ^ prec → sum_decimals [to_decimal (JStr (money d))] = of_fils (rounded 3 d).
Proof.
  intros Hz. rewrite to_decimal_money. unfold sum_decimals. cbn [foldl].
  change (dec_add (of_fils 0) (of_fils (rounded 3 d)) = of_fils (rounded 3 d)). by apply dec_add_fils.
Qed.

(** The price of the services of a booking, in fils. *)
Definition services_price_fils (b : BookingColumns) : Z := rounded 3 (total_services_price (get_booking_services b)).

(** Amounts that a [Decimal] of 28 digits holds. *)
Definition amounts_in_range (b : BookingColumns) : Prop :=
  Z.abs b.(bc_price_for_extra_minutes) < 10 ^ prec ∧ Z.abs b.(bc_addon_price) < 10 ^ prec ∧
  Z.abs (services_price_fils b) < 10 ^ prec.

(** Entry [i] of a mirrored list of services: the stored one, numbered and
    tagged with its session. *)
Definition mirrored_service (id : Z) (i : nat) (e e' : json) : Prop :=
  jget e' "position" = JInt (Z.of_nat i) ∧ jget e' "session_id" = JStr (uuid_str id) ∧
  ∀ k, k ≠ "position" → k ≠ "session_id" → jget e' k = jget e k.

(** A mirrored add-on: name, price in fils and duration of the stored one. *)
Definition mirrored_addon (id : Z) (a a' : json) : Prop :=
  jget a' "session_id" = JStr (uuid_str id) ∧
  (∀ name, jget a "name" = JStr name → jget a' "name" = JStr name) ∧
  to_decimal (jget a' "price") = of_fils (rounded 3 (to_decimal (jget a "price"))) ∧
  (∀ n, n ≠ 0 → jget a "duration_minutes" = JInt n → jget a' "duration_minutes" = JInt n).

Lemma mirrored_services b i :
  let m := legacy_mirror [session_from_booking b] in
  match get_booking_services b !! i, m.(m_services) !! i with
  | Some e, Some e' => mirrored_service b.(bc_id) i e e'
  | None, None => True
  | _, _ => False
  end.
Proof.
  cbv zeta. unfold legacy_mirror, flatten_services. cbn [m_services]. rewrite bind_cons, app_nil_r, list_lookup_imap, list_lookup_fmap.
  change (jlist_of (jget (session_from_booking b) "services")) with (get_booking_services b).
  change (jget (session_from_booking b) "session_id") with (JStr (uuid_str (bc_id b))).
  destruct (get_booking_services b !! i) as [e|]; [|done]. cbn. split_and!.
  - by rewrite jget_with_key, String.eqb_refl.
  - by rewrite jget_with_other, jget_with_key by done.
  - intros k Hp Hs. by rewrite !jget_with_other by (apply String.eqb_neq; congruence).
Qed.

Lemma mirrored_addons b :
  Forall2 (mirrored_addon b.(bc_id)) (List.filter is_mapping b.(bc_addons)) (legacy_mirror [session_from_booking b]).(m_addons).
Proof.
  unfold legacy_mirror, flatten_addons. cbn [m_addons]. rewrite bind_cons, app_nil_r.
  change (jlist_of (jget (session_from_booking b) "addons")) with (normalise_addons (List.filter is_mapping b.(bc_addons))).
  change (jget (session_from_booking b) "session_id") with (JStr (uuid_str (bc_id b))).
  unfold normalise_addons. rewrite <- list_fmap_compose. apply Forall2_fmap_r, Forall_Forall2_diag, Forall_forall.
  intros a _. unfold mirrored_addon. cbn [compose]. unfold compose. rewrite !jget_with_key. split_and!; [done| | |].
  - intros name Hn. cbn. rewrite Hn. unfold text_or_empty. cbn. by destruct name.
  - cbn. apply to_decimal_money.
  - intros n Hn Ha. cbn. rewrite Ha. cbn. by destruct n.
Qed.

(** C37: a booking without sessions, read as its one session and mirrored back
    into the single-session columns, keeps them: therapists, room and their
    data, window, every service with all it carries, the name, price and
    duration of every add-on, prices (to the fils) and durations; a booking
    from before several services keeps its service and its duration. *)
Theorem legacy_roundtrip (b : BookingColumns) :
  times_in_range b → amounts_in_range b →
  let m := legacy_mirror [session_from_booking b] in
  let entries := get_booking_services b in
  (m.(m_therapist_id), m.(m_therapist_data)) = (JStr (uuid_str b.(bc_therapist_id)), JDict (or_empty b.(bc_therapist_data))) ∧
  m.(m_secondary_therapist_id) = uuid_json b.(bc_secondary_therapist_id) ∧
  (∀ id, b.(bc_secondary_therapist_id) = Some id →
     m.(m_secondary_therapist_data) = match b.(bc_secondary_therapist_data) with Some d => JDict d | None => JNull end) ∧
  (m.(m_service_arrangement_id), m.(m_service_arrangement_data)) =
    (uuid_json b.(bc_service_arrangement_id), JDict (or_empty b.(bc_service_arrangement_data))) ∧
  (m.(m_appointment_start), m.(m_appointment_end)) = (Some b.(bc_appointment_start), Some b.(bc_appointment_end)) ∧
  (∀ i, match entries !! i, m.(m_services) !! i with
        | Some e, Some e' => mirrored_service b.(bc_id) i e e'
        | None, None => True
        | _, _ => False
        end) ∧
  Forall2 (mirrored_addon b.(bc_id)) (List.filter is_mapping b.(bc_addons)) m.(m_addons) ∧
  m.(m_totals).(t_services_price) = of_fils (services_price_fils b) ∧
  m.(m_totals).(t_extra_price) = of_fils b.(bc_price_for_extra_minutes) ∧
  m.(m_totals).(t_addons_price) = of_fils b.(bc_addon_price) ∧
  m.(m_totals).(t_services_duration) = total_services_duration entries ∧
  m.(m_totals).(t_extra_minutes) = b.(bc_extra_minutes) ∧
  m.(m_totals).(t_addons_duration) = default 0 b.(bc_addons_duration) ∧
  m.(m_totals).(t_total_duration) = default (b.(bc_duration_minutes) + b.(bc_extra_minutes)) b.(bc_total_duration) ∧
  (objects b.(bc_services) = false → ∀ id, 0 <= id → b.(bc_service_id) = Some id →
     ∃ e, m.(m_services) = [e] ∧ jget e "service_id" = JStr (uuid_str id) ∧
       jget e "service_data" = JDict (or_empty b.(bc_service_data)) ∧
       m.(m_totals).(t_services_duration) = b.(bc_duration_minutes)).
Proof.
  intros Ht (Hx & Ha & Hp) m entries.
  assert ((m.(m_appointment_start), m.(m_appointment_end)) = (Some b.(bc_appointment_start), Some b.(bc_appointment_end))) as Hw.
  { change (((session_window (session_from_booking b)).1, (session_window (session_from_booking b)).2) =
      (Some b.(bc_appointment_start), Some b.(bc_appointment_end))). by rewrite session_from_booking_window. }
  split_and!.
  - unfold m. cbn. by destruct (or_empty _).
  - done.
  - intros id Hid. unfold m. cbn. by rewrite Hid.
  - unfold m. cbn. by destruct (or_empty (bc_service_arrangement_data b)).
  - done.
  - apply mirrored_services.
  - apply mirrored_addons.
  - apply (sum_one _ Hp).
  - rewrite <- (rounded_fils (bc_price_for_extra_minutes b)). apply sum_one. by rewrite rounded_fils.
  - rewrite <- (rounded_fils (bc_addon_price b)). apply sum_one. by rewrite rounded_fils.
  - done.
  - done.
  - done.
  - done.
  - intros Ho id Hpos Hid. pose proof (mirrored_services b 0) as Hs. unfold get_booking_services in Hs.
    rewrite Ho, Hid in Hs. cbn [lookup list_lookup] in Hs. destruct (m_services _ !! 0%nat) as [e|] eqn:He; [|done].
    destruct Hs as (_ & _ & Hs). exists e. split_and!.
    + unfold m. unfold legacy_mirror, flatten_services in *. cbn [m_services] in *. rewrite bind_cons, app_nil_r in *.
      change (jlist_of (jget (session_from_booking b) "services")) with (get_booking_services b) in *.
      unfold get_booking_services in *. rewrite Ho, Hid in *. cbn in He |- *. by injection He as ->.
    + rewrite Hs by done. change (jget (build_service_entry (uuid_json (Some id)) (or_empty (bc_service_data b)) _ _ _ _ 0) "service_id")
        with (JStr (por_str (to_str_id (JStr (uuid_str id))) "")). by rewrite to_str_id_uuid.
    + by rewrite Hs.
    + change (total_services_duration entries = bc_duration_minutes b). unfold entries, get_booking_services. rewrite Ho, Hid. done.
Qed.

(** *** A legacy booking *)

Definition legacy_booking : BookingColumns :=
  mk_columns 7 [] [] (Some 3) (Some [("name", JStr "Massage"); ("base_price", JStr "12.500")]) (Some 4) None
    11 (Some [("name", JStr "Maria")]) (Some 12) None [] 1784023200000000 1784028600000000 60 30 None (Some 12500) None 5000 0.

Lemma busy_windows_agree_witness :
  therapist_busy_windows legacy_booking 12 = [(1784023200000000, 1784028600000000)] ∧
  therapist_busy_windows legacy_booking 12 = omap (busy_window (uuid_str 12)) (get_booking_sessions legacy_booking).
Proof.
  split; [vm_compute; reflexivity|]. apply busy_windows_agree.
  - split; vm_compute; split; discriminate || reflexivity.
  - split; [by vm_compute|]. by intros ? [= <-].
Defined.

Lemma legacy_roundtrip_witness :
  let m := legacy_mirror [session_from_booking legacy_booking] in
  m.(m_therapist_id) = JStr (uuid_str 11) ∧ m.(m_totals).(t_services_price) = of_fils 12500 ∧
  m.(m_totals).(t_services_duration) = 60 ∧
  jget (default JNull (head m.(m_services))) "service_id" = JStr (uuid_str 3).
Proof.
  destruct (legacy_roundtrip legacy_booking) as (H1 & _ & _ & _ & _ & _ & _ & H2 & _ & _ & _ & _ & _ & _ & H3).
  - split; vm_compute; split; discriminate || reflexivity.
  - split_and!; by vm_compute.
  - destruct (H3 eq_refl 3 ltac:(lia) eq_refl) as (e & He & Hid & _ & Hd). split_and!.
    + exact (f_equal fst H1).
    + rewrite H2. by vm_compute.
    + exact Hd.
    + rewrite He. exact Hid.
Defined.
