(* ===== verification/PlanSpec.v ===== *)
(** * What a planned booking promises

    The sessions that [plan_sessions] returns: their windows, their availability,
    and the prices and points of their entries, followed from the catalogue's
    records to the entries that are stored. *)

From S2P Require Import Prelude Exceptions Effects Money Numbers Store PyText PyDate Sessions SessionPlanner SessionSpec.
#[local] Open Scope Z_scope.

(** ** Building a session *)

(** What is asked later of an entry: not its place. *)
Definition entry_core (e : json) : json * json * json * json * json :=
  (jget e "base_price", jget e "package_id", jget e "service_data", jget e "service_arrangement_data", jget e "duration_minutes").

Lemma entry_core_with_key e k v :
  (k in? ["base_price"; "package_id"; "service_data"; "service_arrangement_data"; "duration_minutes"]) = false →
  entry_core (with_key e k v) = entry_core e.
Proof.
  rewrite bool_decide_eq_false, !not_elem_of_cons. intros (? & ? & ? & ? & ? & _). unfold entry_core.
  rewrite !jget_with_other by (by apply String.eqb_neq). done.
Qed.

(** The services of a session. *)
Definition services_of (s : json) : list json := jlist_of (jget s "services").

Lemma session_entries_core a : entry_core <$> session_entries a = entry_core <$> a.(sa_services).
Proof.
  unfold session_entries. apply fmap_imap_ext. intros. by rewrite !entry_core_with_key.
Qed.

(** The length of a session in minutes. *)
Definition session_minutes (a : SessionArgs) : Z :=
  sum_ints ((λ e, to_int (jget e "duration_minutes")) <$> a.(sa_services)) +
  sum_ints ((λ e, to_int (jget e "duration_minutes")) <$> normalise_addons a.(sa_addons)) +
  Z.max a.(sa_extra_minutes) 0.

(** Its price before rounding. *)
Definition session_amount (a : SessionArgs) : Decimal :=
  dec_add
    (dec_add (sum_decimals ((λ e, to_decimal (jget e "base_price")) <$> a.(sa_services)))
       (sum_decimals ((λ e, to_decimal (jget e "price")) <$> normalise_addons a.(sa_addons))))
    (compute_extra_price (Z.max a.(sa_extra_minutes) 0) a.(sa_extra_unit_minutes) a.(sa_extra_unit_price)).

Lemma session_entries_minutes a :
  (λ e, to_int (jget e "duration_minutes")) <$> session_entries a = (λ e, to_int (jget e "duration_minutes")) <$> a.(sa_services).
Proof.
  pose proof (f_equal (fmap (λ c : json * json * json * json * json, to_int c.2)) (session_entries_core a)) as H.
  by rewrite <- !list_fmap_compose in H.
Qed.
Lemma session_entries_prices a :
  (λ e, to_decimal (jget e "base_price")) <$> session_entries a = (λ e, to_decimal (jget e "base_price")) <$> a.(sa_services).
Proof.
  pose proof (f_equal (fmap (λ c : json * json * json * json * json, to_decimal c.1.1.1.1)) (session_entries_core a)) as H.
  by rewrite <- !list_fmap_compose in H.
Qed.

(** The instants at which a clock of UTC+3 shows a date of four digits. *)
Definition printable (t : Z) : Prop := in_range (local_day t).

(** A session is built from at least one service, and then runs from its
    start for the minutes of its services, its add-ons and its extra time, costs
    the sum of their prices rounded to the fils, and stores the start, the end
    and the price in a form that is read back as the same instants and amount. *)
Theorem build_session_correct (a : SessionArgs) (fresh : string) :
  printable a.(sa_start) → printable (a.(sa_start) + session_minutes a * us_per_minute) →
  match build_session a fresh with
  | Ok s =>
      a.(sa_services) ≠ [] ∧
      session_window s = (Some a.(sa_start), Some (a.(sa_start) + session_minutes a * us_per_minute)) ∧
      to_int (jget s "total_session_duration") = session_minutes a ∧
      to_decimal (jget s "session_price") = of_fils (rounded 3 (session_amount a)) ∧
      entry_core <$> services_of s = entry_core <$> a.(sa_services)
  | Raise e => e = err SessionValidationError ∧ a.(sa_services) = []
  end.
Proof.
  intros Hs He. unfold build_session. destruct (sa_services a) eqn:Ea; [done|]. rewrite <- Ea.
  rewrite session_entries_minutes, session_entries_prices.
  unfold session_window, services_of. cbn [jget dict_get String.eqb Ascii.eqb Bool.eqb default]. unfold id.
  split; [by rewrite Ea|]. split; [f_equal; by apply parse_dt_local|]. split; [reflexivity|].
  split; [unfold session_amount; apply to_decimal_money|apply session_entries_core].
Qed.

Section plan.
Context `{Ushauth}.

(** ** The steps of a plan *)

(** The session as reserved, when availability is asked for. *)
Definition reserved (check : bool) (day : string) (branch_id exclude : option string) (s s' : json) : Prop :=
  if check then check_session_availability s day branch_id exclude = Ok s' else s' = s.

Record planned (items : list SessionItem) (date : string) (loyalty check : bool) (branch_id exclude : option string)
    (fresh : nat → nat → string) (p : SessionPlan) (ctx : list (string * PackageInfo)) (built ordered : list json) : Prop := {
  pl_context : resolve_package_context items = Ok ctx;
  pl_built : Forall2 (λ '(i, it) s, build_one_session it i date loyalty ctx fresh = Ok s) (indexed items) built;
  pl_exclusive : validate_package_exclusivity built = Ok ();
  pl_ordered : validate_sessions built (match ctx with [] => MAX_SESSIONS_PER_BOOKING | _ => MAX_PACKAGE_SESSIONS_PER_BOOKING end) = Ok ordered;
  pl_day : date_text (local_day (start_key (default JNull (head ordered)))) = before_t date;
  pl_reserved : Forall2 (reserved check (before_t date) branch_id exclude) ordered p.(plan_session_list);
  pl_plan : p = mk_plan p.(plan_session_list) (legacy_mirror p.(plan_session_list)) (booking_totals p.(plan_session_list))
                  (flatten_services p.(plan_session_list));
}.

Lemma as_session_error_ok {A} (r : result A) a : as_session_error r = Ok a → r = Ok a.
Proof. unfold as_session_error. destruct r; [done|]. by destruct (isinstance _ _). Qed.

Lemma plan_steps items date loyalty check branch_id exclude fresh p :
  plan_sessions items date loyalty check branch_id exclude fresh = Ok p →
  ∃ ctx built ordered, planned items date loyalty check branch_id exclude fresh p ctx built ordered.
Proof.
  intros ([ctx built] & Hb%as_session_error_ok & Hp)%result_bind_ok. ok_steps.
  repeat match goal with H : (_, _) = (_, _) |- _ => injection H as ? ?; subst end.
  match goal with Hv : validate_sessions _ _ = Ok ?o |- _ => rename o into ordered, Hv into Hordered end.
  cbv zeta in Hp. destruct (String.eqb _ _) eqn:Hday in Hp; ok_steps.
  match goal with Hr : (if check then _ else _) = Ok ?l |- _ => rename l into final, Hr into Hfinal end.
  exists ctx, built, ordered. subst p. split; cbn; try done.
  - eapply Forall2_impl; [by apply mapM_ok|]. by intros [].
  - by repeat match goal with u : () |- _ => destruct u end.
  - by apply String.eqb_eq.
  - unfold reserved. destruct check; [by apply mapM_ok|]. ok_steps. subst.
    by apply Forall_Forall2_diag, Forall_true.
Qed.

(** ** Reserving a session *)

(** Two sessions with the same values but for the therapists. *)
Definition same_but_therapists (s s' : json) : Prop :=
  ∀ k, (k in? ["therapist_id"; "secondary_therapist_id"; "secondary_therapist_data"]) = false → jget s' k = jget s k.

Lemma same_with_key s s' k v :
  (k in? ["therapist_id"; "secondary_therapist_id"; "secondary_therapist_data"]) = true →
  same_but_therapists s s' → same_but_therapists s (with_key s' k v).
Proof.
  intros Hk Hs k' Hk'. rewrite jget_with_other; [by apply Hs|]. apply String.eqb_neq. intros ->. congruence.
Qed.

Lemma reserved_therapists_same s res required : same_but_therapists s (reserved_therapists s res required).
Proof.
  unfold reserved_therapists. set (s0 := if (_ && _) then with_key s _ _ else s).
  assert (same_but_therapists s s0) as H0.
  { unfold s0. destruct (_ && _); [by apply same_with_key|done]. }
  clearbody s0. repeat first [exact H0|apply same_with_key; [reflexivity|]|case_match].
Qed.

Lemma check_session_same s day branch_id exclude s' :
  check_session_availability s day branch_id exclude = Ok s' → same_but_therapists s s'.
Proof.
  unfold check_session_availability. cbv zeta. intros Hc. repeat case_match; ok_steps; subst; try done.
  case_match; ok_steps. subst. apply reserved_therapists_same.
Qed.

Lemma reserved_same check day branch_id exclude s s' :
  reserved check day branch_id exclude s s' → same_but_therapists s s'.
Proof. unfold reserved. destruct check; [apply check_session_same|]. by intros ->. Qed.

Lemma same_window s s' : same_but_therapists s s' → session_window s' = session_window s.
Proof. intros Hs. unfold session_window. by rewrite !Hs. Qed.

Lemma same_services s s' : same_but_therapists s s' → services_of s' = services_of s.
Proof. intros Hs. unfold services_of. by rewrite Hs. Qed.

(** ** Where and when the sessions are *)

Lemma validated_sessions sessions n ordered :
  validate_sessions sessions n = Ok ordered →
  ordered = sort_sessions sessions ∧ acceptable sessions n ∧ ForallOrdPairs ends_before ordered.
Proof.
  unfold validate_sessions. destruct sessions as [|s0 l0] eqn:Es; [done|]. rewrite <- Es.
  assert (sessions ≠ []) as Hne by by rewrite Es. clear Es s0 l0.
  destruct (_ <? _) eqn:Hmax; [done|]. destruct (forallb _ _) eqn:Hf; [cbn [negb]|done]. breflect.
  assert (Forall (λ s, well_formed s = true) sessions) as Hw.
  { apply Forall_forall. intros s Hs. by apply (proj1 (forallb_forall _ _) Hf), list_elem_of_In. }
  assert (Forall proper sessions) as Hp by (eapply Forall_impl; [exact Hw|apply well_formed_proper]).
  destruct (in_order _ _ _) eqn:Hio; [|done]. intros [= <-]. split; [done|].
  destruct (proj1 (sorted_in_order sessions Hne Hp) Hio) as [Hday Hapart]. split.
  - split; [destruct sessions; [done|cbn [length] in *; lia]|done..].
  - apply in_order_spec in Hio; [apply Hio|].
    apply (Forall_sorted (λ w, match w with (Some a, Some b) => a < b | _ => False end)), Hp.
Qed.

Lemma reserved_windows check day branch_id exclude l l' :
  Forall2 (reserved check day branch_id exclude) l l' → session_window <$> l' = session_window <$> l.
Proof. induction 1 as [|s s' l l' Hs _ IH]; [done|]. rewrite !fmap_cons, IH. f_equal. eapply same_window, reserved_same, Hs. Qed.

Lemma start_key_window s a w : session_window s = (Some a, w) → start_key s = a.
Proof. intros Hw. unfold start_key. by rewrite Hw. Qed.

(** C39: a plan keeps every requested session: between one and three of them (five
    in a package), in the order of their starts, each ending before the next
    begins and all within the requested local date; the booking's own window
    opens with the first session and closes with the last. *)
Theorem planned_sessions_fit items date loyalty check branch_id exclude fresh p :
  plan_sessions items date loyalty check branch_id exclude fresh = Ok p →
  let sessions := p.(plan_session_list) in
  length sessions = length items ∧
  1 <= Z.of_nat (length sessions) <= match resolve_package_context items with Ok [] => 3 | _ => 5 end ∧
  ForallOrdPairs ends_before sessions ∧
  (∃ day, date_text day = before_t date ∧ Forall (on_day day) sessions) ∧
  (p.(plan_mirror).(m_appointment_start), p.(plan_mirror).(m_appointment_end)) =
    ((session_window (default JNull (head sessions))).1, (session_window (default JNull (last sessions))).2).
Proof.
  intros (ctx & built & ordered & [Hctx Hbuilt _ Hord Hday Hres Hp])%plan_steps. cbv zeta.
  apply validated_sessions in Hord as (-> & Hacc & Hends).
  pose proof (reserved_windows _ _ _ _ _ _ Hres) as Hw. pose proof (Forall2_length _ _ _ Hres) as Hl.
  rewrite length_sort_sessions in Hl. apply Forall2_length in Hbuilt. unfold indexed in Hbuilt. rewrite length_imap in Hbuilt.
  pose proof (f_equal plan_mirror Hp) as ->. rewrite Hctx. cbn [plan_mirror legacy_mirror m_appointment_start m_appointment_end].
  assert (length (plan_session_list p) = length built) as Hlen by done.
  split_and!; [congruence|..|done].
  - rewrite Hlen. destruct Hacc as [[? ?] _ _ _]. unfold MAX_SESSIONS_PER_BOOKING, MAX_PACKAGE_SESSIONS_PER_BOOKING in *. by destruct ctx.
  - rewrite Hlen. destruct Hacc as [[? ?] _ _ _]. unfold MAX_SESSIONS_PER_BOOKING, MAX_PACKAGE_SESSIONS_PER_BOOKING in *. by destruct ctx.
  - by apply (pairs_windows (λ w w', match w, w' with (_, Some b), (Some c, _) => b <= c | _, _ => False end) _ _ Hw).
  - destruct Hacc as [[Hc _] _ [day Hd] _]. exists day.
    set (P := λ w : option Z * option Z, match w with (Some a, Some b) => local_day a = day ∧ local_day b = day | _ => False end).
    apply (Forall_sorted P) in Hd. split.
    + destruct (sort_sessions built) as [|s l] eqn:Es.
      { apply (f_equal length) in Es. rewrite length_sort_sessions in Es. simpl in Es. lia. }
      change (default JNull (head (s :: l))) with s in Hday. inversion Hd as [|? ? Hs _]; subst. unfold P in Hs.
      destruct (session_window s) as [[a|] [b|]] eqn:Ew; try done. by rewrite (start_key_window _ _ _ Ew), (proj1 Hs) in Hday.
    + by apply (Forall_windows P _ _ Hw).
Qed.

(** ** Who has confirmed them *)






(** ** From the request to the entries of the plan *)

(** The requested services with their places: session, and service within it. *)
Definition placed_services (items : list SessionItem) : list ((nat * nat) * ServiceItem) :=
  indexed items ≫= λ '(i, it), (λ '(j, svc), ((i, j), svc)) <$> indexed it.(it_services).

(** What a stored entry is to the service at its place: a component carries its
    package, and the price of the package once. *)
Definition entry_of (loyalty : bool) (ctx : list (string * PackageInfo)) (r : (nat * nat) * ServiceItem) (e : json) : Prop :=
  match r.2.(si_package_id) ≫= λ pid, pair pid <$> assoc ctx pid with
  | Some (pid, info) =>
      jget e "package_id" = JStr pid ∧
      jget e "base_price" = JStr (if info.(pi_carrier) ==? r.1 then money info.(pi_price) else "0.000")
  | None => jget e "package_id" = JNull
  end ∧
  (loyalty = true → (effective_points e).1 = 0).

Lemma flatten_cores l : entry_core <$> flatten_services l = l ≫= λ s, entry_core <$> services_of s.
Proof.
  unfold flatten_services. rewrite (fmap_imap_ext _ _ entry_core), fmap_bind by (intros; by apply entry_core_with_key).
  induction l as [|s l IH]; [done|]. rewrite !bind_cons, IH. f_equal.
  rewrite <- list_fmap_compose. apply list_fmap_ext. intros. unfold compose. by apply entry_core_with_key.
Qed.

Lemma plan_cores items date loyalty check branch_id exclude fresh p ctx built ordered :
  planned items date loyalty check branch_id exclude fresh p ctx built ordered →
  entry_core <$> p.(plan_service_entries) ≡ₚ built ≫= λ s, entry_core <$> services_of s.
Proof.
  intros [_ _ _ Hord _ Hres Hp]. pose proof (f_equal plan_service_entries Hp) as ->. cbn [plan_service_entries].
  rewrite flatten_cores. apply validated_sessions in Hord as (-> & _ & _).
  assert (plan_session_list p ≫= (λ s, entry_core <$> services_of s) = sort_sessions built ≫= λ s, entry_core <$> services_of s) as ->.
  - clear Hp. induction Hres as [|s s' l l' Hs _ IH]; [done|].
    rewrite !bind_cons, IH. f_equal. f_equal. eapply same_services, reserved_same, Hs.
  - unfold sort_sessions. rewrite (bind_imap _ _ (λ s, entry_core <$> services_of s)); [by rewrite sorted_by_perm|].
    intros. unfold services_of. by rewrite jget_with_other.
Qed.

(** *** One service *)

Lemma build_service_entry_keys id sd aid ad bp dm pos :
  let e := build_service_entry id sd aid ad bp dm pos in
  jget e "package_id" = JNull ∧ jget e "service_data" = JDict sd ∧ jget e "service_arrangement_data" = JDict ad.
Proof. done. Qed.

Lemma jget_dict_set d k v k' : jget (JDict (dict_set d k v)) k' = if (k =? k')%string then v else jget (JDict d) k'.
Proof. unfold jget. rewrite dict_get_set. by destruct (k =? k')%string. Qed.

(** A merged dictionary has the last value of a key. *)
Lemma dict_merge_get a b k : jget (JDict (dict_merge a b)) k = jget_or (JDict (rev b)) k (jget (JDict a) k).
Proof.
  unfold dict_merge, jget_or. revert a. induction b as [|[k' v] b IH]; intros a; [done|].
  cbn [foldl rev]. rewrite IH, jget_dict_set.
  assert (∀ l d, default d (dict_get (l ++ [(k', v)]) k) = default (if (k' =? k)%string then v else d) (dict_get l k)) as Happ.
  { intros l d. induction l as [|[k1 v1] l IHl]; [|cbn [app dict_get]; by destruct (k1 =? k)%string].
    cbn. by destruct (k' =? k)%string. }
  by rewrite Happ.
Qed.

Lemma build_one_entry item pos ds da loyalty fresh e :
  build_one item pos ds da loyalty true fresh = Ok e →
  jget e "package_id" = JNull ∧ (loyalty = true → (effective_points e).1 = 0).
Proof.
  unfold build_one. cbv zeta. intros Hb. ok_steps. subst e. split; [done|]. intros ->.
  match goal with |- context [build_service_entry ?a ?sd ?c ?ad ?e ?f ?g] =>
    destruct (build_service_entry_keys a sd c ad e f g) as (_ & Hsd & Had); remember (build_service_entry a sd c ad e f g) as en eqn:Hen end.
  clear Hen. unfold effective_points. cbv zeta. rewrite Had.
  rewrite dict_merge_get. done.
Qed.

Lemma effective_points_core e e' :
  entry_core e' = entry_core e → effective_points e' = effective_points e.
Proof. unfold entry_core. intros [= _ _ H1 H2 _]. unfold effective_points. by rewrite H1, H2. Qed.

(** What the points of an entry depend on. *)
Lemma points_from e e' :
  jget e' "service_arrangement_data" = jget e "service_arrangement_data" →
  (∀ k, k = "loyalty_points" ∨ k = "price_in_points" → jget (jget e' "service_data") k = jget (jget e "service_data") k) →
  effective_points e' = effective_points e.
Proof. intros Ha Hs. unfold effective_points. rewrite Ha, !Hs by auto. done. Qed.

Lemma package_entry_spec pid info pos e e' :
  package_entry pid info pos e = Ok e' →
  jget e' "package_id" = JStr pid ∧
  jget e' "base_price" = JStr (if info.(pi_carrier) ==? pos then money info.(pi_price) else "0.000") ∧
  effective_points e' = effective_points e.
Proof.
  unfold package_entry. cbv zeta.
  set (e1 := with_key (with_key (with_key (with_key e _ _) _ _) _ _) _ _). intros (e2 & H2 & He)%result_bind_ok.
  assert (jget e2 "package_id" = JStr pid ∧ jget e2 "service_data" = jget e "service_data" ∧
          jget e2 "service_arrangement_data" = jget e "service_arrangement_data") as (Hp & Hs & Ha).
  { assert (jget e1 "package_id" = JStr pid ∧ jget e1 "service_data" = jget e "service_data" ∧
            jget e1 "service_arrangement_data" = jget e "service_arrangement_data") as H1
      by (unfold e1; by rewrite !jget_with_key).
    clearbody e1. repeat case_match; ok_steps; subst; by rewrite ?jget_with_other. }
  clear H2. clearbody e1. clear e1. apply (inj Ok) in He. subst e'. rewrite jget_with_other, Hs by done.
  destruct (jget e "service_data") eqn:Esd; try (rewrite !jget_with_key; split_and!; try done;
    apply points_from; rewrite !jget_with_other, ?Hs, ?Esd by done; done).
  rewrite !jget_with_key. split_and!; [done|done|]. apply points_from; [by rewrite !jget_with_key|].
  intros k Hk. rewrite jget_with_key, String.eqb_refl, !jget_dict_set, Esd by done. by destruct Hk as [-> | ->].
Qed.

Lemma build_session_entries a fresh s : build_session a fresh = Ok s → services_of s = session_entries a.
Proof. unfold build_session. destruct (sa_services a); [done|]. by intros <-%(inj Ok). Qed.

Lemma indexed_lookup {A} (l : list A) j p : indexed l !! j = Some p → p.1 = j ∧ l !! j = Some p.2.
Proof. unfold indexed. rewrite list_lookup_imap. destruct (l !! j); [|done]. by intros [= <-]. Qed.

Lemma resolved_entries items loyalty fresh raw :
  resolve_service_entries items loyalty true (Some true) fresh = Ok raw →
  Forall2 (λ (_ : ServiceItem) e, jget e "package_id" = JNull ∧ (loyalty = true → (effective_points e).1 = 0)) items raw.
Proof.
  intros (raw' & Hm%mapM_ok & (? & _ & <-%(inj Ok))%result_bind_ok)%result_bind_ok.
  pose proof (Forall2_length _ _ _ Hm) as Hl. unfold indexed in Hl. rewrite length_imap in Hl.
  apply Forall2_same_length_lookup_2; [done|]. intros j it e Hit He.
  eapply Forall2_lookup_lr in Hm; [| |exact He]; [|unfold indexed; rewrite list_lookup_imap, Hit; done].
  cbn in Hm. by eapply build_one_entry.
Qed.

Lemma build_one_session_entries it i date loyalty ctx fresh s :
  build_one_session it i date loyalty ctx fresh = Ok s →
  ∃ es, entry_core <$> services_of s = entry_core <$> es ∧
    Forall2 (λ r e, entry_of loyalty ctx ((i, r.1), r.2) e) (indexed it.(it_services)) es.
Proof.
  intros (raw & Hraw%resolved_entries & (es & Hes%mapM_ok & (start & _ & Hs)%result_bind_ok)%result_bind_ok)%result_bind_ok.
  apply build_session_entries in Hs. exists es. split; [by rewrite Hs, session_entries_core|].
  pose proof (Forall2_length _ _ _ Hraw) as Hl. rewrite length_fmap in Hl.
  pose proof (Forall2_length _ _ _ Hes) as Hl'. unfold indexed in Hl'. rewrite length_imap, length_zip_with, length_fmap, <- Hl, Nat.min_id in Hl'.
  apply Forall2_same_length_lookup_2; [unfold indexed; by rewrite length_imap|].
  intros j [j' svc] e [Hj Hsvc]%indexed_lookup He. cbn [fst snd] in *. subst j'.
  destruct (lookup_lt_is_Some_2 raw j) as [r Hr]; [rewrite <- Hl; by eapply lookup_lt_Some|].
  eapply Forall2_lookup_lr in Hraw; [|rewrite list_lookup_fmap, Hsvc; reflexivity|exact Hr]. destruct Hraw as [Hno Hpts].
  eapply Forall2_lookup_lr in Hes; [| |exact He];
    [|unfold indexed; rewrite list_lookup_imap, lookup_zip_with, list_lookup_fmap, Hsvc, Hr; reflexivity].
  cbn in Hes. unfold entry_of. cbn [fst snd].
  destruct (si_package_id svc ≫= _) as [[pid info]|]; [|apply (inj Ok) in Hes; by subst].
  destruct (package_entry_spec _ _ _ _ _ Hes) as (? & ? & ->). done.
Qed.

Lemma plan_entries items date loyalty check branch_id exclude fresh p ctx built ordered :
  planned items date loyalty check branch_id exclude fresh p ctx built ordered →
  ∃ es, entry_core <$> p.(plan_service_entries) ≡ₚ entry_core <$> es ∧
    Forall2 (entry_of loyalty ctx) (placed_services items) es.
Proof.
  intros Hp. pose proof (plan_cores _ _ _ _ _ _ _ _ _ _ _ Hp) as Hc. pose proof (pl_built _ _ _ _ _ _ _ _ _ _ _ Hp) as Hb.
  assert (∃ es, (built ≫= λ s, entry_core <$> services_of s) = entry_core <$> es ∧
    Forall2 (entry_of loyalty ctx) (placed_services items) es) as (es & He & HF); [|exists es; by rewrite Hc, He].
  clear Hc Hp. unfold placed_services. induction Hb as [|[i it] s l built Hs _ (es & He & HF)]; [by exists []|].
  apply build_one_session_entries in Hs as (es1 & He1 & HF1). exists (es1 ++ es). rewrite !bind_cons, fmap_app. split; [by rewrite He1, He|].
  apply Forall2_app; [|done]. rewrite Forall2_fmap_l. eapply Forall2_impl; [exact HF1|]. by intros [].
Qed.

(** The services of a loyalty booking earn no points: whatever the catalogue and
    the request say of a service or its arrangement, and in a package too, its
    stored entry is worth none. *)
Theorem loyalty_booking_earns_nothing items date check branch_id exclude fresh p :
  plan_sessions items date true check branch_id exclude fresh = Ok p →
  Forall (λ e, (effective_points e).1 = 0) p.(plan_service_entries).
Proof.
  intros (ctx & built & ordered & (es & Hp & HF)%plan_entries)%plan_steps.
  apply Forall_forall. intros e He. apply (list_elem_of_fmap_2 entry_core) in He. rewrite Hp in He.
  apply list_elem_of_fmap in He as (e' & Hcore & He'). rewrite (effective_points_core e' e) by done.
  apply list_elem_of_lookup in He' as [j Hj]. destruct (Forall2_lookup_r _ _ _ _ _ HF Hj) as (r & _ & _ & Hpts). auto.
Qed.

(** *** Packages *)

Lemma sort_texts_perm l : sort_texts l ≡ₚ l.
Proof.
  induction l as [|x l IH]; [done|]. cbn [sort_texts]. rewrite <- IH at 2. generalize (sort_texts l). clear.
  intros l. induction l as [|y l IH]; [done|]. cbn [insert_text]. destruct (_ <? _)%string; [|done].
  by rewrite IH, Permutation_swap.
Qed.

Lemma elem_of_distinct x seen l : x ∈ distinct seen l ↔ x ∈ l ∧ x ∉ seen.
Proof.
  revert seen. induction l as [|y l IH]; intros seen; cbn [distinct]; [set_solver|].
  destruct (bool_decide_reflect (y ∈ seen)); rewrite ?elem_of_cons, IH, ?elem_of_cons; [|destruct (decide (x = y)); set_solver].
  destruct (decide (x = y)) as [->|]; tauto.
Qed.

Lemma min_position_elem best l : min_position best l = best ∨ min_position best l ∈ l.
Proof.
  revert best. induction l as [|p l IH]; intros best; cbn [min_position]; [by left|].
  destruct (IH (if ref_before p best then p else best)) as [-> | ?]; [|right; by constructor].
  destruct (ref_before p best); [right; by constructor|by left].
Qed.

(** The places tagged with a package. *)
Definition tagged (pid : string) (r : (nat * nat) * ServiceItem) : bool := r.2.(si_package_id) ==? Some pid.

Lemma refs_placed items pid r :
  r ∈ refs_of items pid → ∃ svc, ((r.(ref_session), r.(ref_service)), svc) ∈ placed_services items ∧ svc.(si_package_id) = Some pid.
Proof.
  unfold refs_of, wanted, placed_services. intros ([p r'] & Hw & Hr)%list_elem_of_omap.
  destruct (p =? pid)%string eqn:Ep; [|done]. apply String.eqb_eq in Ep. subst p. injection Hr as ->.
  apply list_elem_of_bind in Hw as ([i it] & Hw & Hi). apply list_elem_of_omap in Hw as ([j svc] & Hj & Hr).
  destruct (si_package_id svc) as [p|] eqn:Ep, (si_service_id svc); try done. injection Hr as -> <-.
  exists svc. split; [|done]. apply list_elem_of_bind. exists (i, it). split; [|done].
  apply list_elem_of_fmap. by exists (j, svc).
Qed.

Lemma indexed_nodup {A} (l : list A) : NoDup (indexed l).
Proof. apply NoDup_alt. intros i j x [<- _]%indexed_lookup [<- _]%indexed_lookup. done. Qed.
Lemma indexed_unique {A} (l : list A) i a b : (i, a) ∈ indexed l → (i, b) ∈ indexed l → a = b.
Proof.
  intros [k [Hk Ha]%indexed_lookup]%list_elem_of_lookup [k' [Hk' Hb]%indexed_lookup]%list_elem_of_lookup. cbn in *. congruence.
Qed.
Lemma indexed_keys_nodup {A} (l : list A) : NoDup (indexed l).*1.
Proof. apply NoDup_alt. intros i j x. rewrite !list_lookup_fmap. intros Hi Hj.
  destruct (indexed l !! i) eqn:Ei, (indexed l !! j) eqn:Ej; try done. injection Hi as <-. injection Hj as Hj.
  apply indexed_lookup in Ei as [<- _], Ej as [<- _]. done.
Qed.

Lemma placed_nodup items : NoDup (placed_services items).*1.
Proof.
  unfold placed_services. rewrite fmap_bind. apply NoDup_bind; [| |apply indexed_nodup].
  - intros [i it] [i' it'] q H1 H2 H3 H4.
    apply list_elem_of_fmap in H3 as (? & -> & ([? ?] & -> & _)%list_elem_of_fmap).
    apply list_elem_of_fmap in H4 as (? & Heq & ([? ?] & -> & _)%list_elem_of_fmap). injection Heq as -> ->.
    f_equal. by eapply indexed_unique.
  - intros [i it] _. rewrite <- list_fmap_compose.
    rewrite (list_fmap_ext _ (pair i ∘ fst)) by (by intros ? []).
    rewrite list_fmap_compose. apply NoDup_fmap_2; [by intros ?? [=]|apply indexed_keys_nodup].
Qed.

Lemma context_info items ctx pid :
  resolve_package_context items = Ok ctx → pid ∈ (wanted items).*1 →
  ∃ info, assoc ctx pid = Some info ∧ package_info pid (refs_of items pid) = Ok info.
Proof.
  unfold resolve_package_context. intros Hm%mapM_ok Hp.
  assert (pid ∈ distinct [] (wanted items).*1) as Hd by (apply elem_of_distinct; set_solver).
  revert Hd Hm. generalize (distinct [] (wanted items).*1) as l. intros l Hd Hm. clear Hp.
  induction Hm as [|q [q' info] l ctx (info' & Hi & Heq%(inj Ok))%result_bind_ok _ IH]; [set_solver|].
  injection Heq as -> ->. cbn [assoc]. destruct (q' =? pid)%string eqn:E.
  - apply String.eqb_eq in E. subst. eauto.
  - apply String.eqb_neq in E. apply IH. set_solver.
Qed.

Lemma package_info_spec pid refs info :
  package_info pid refs = Ok info → refs ≠ [] →
  ∃ raw, get_service pid = Ok raw ∧ info.(pi_price) = to_decimal (jget (unwrap raw) "base_price") ∧
    ref_id <$> refs ≡ₚ (λ c, json_str (jget c "id")) <$> jlist_of (jor (jget (unwrap raw) "included_services") (JList [])) ∧
    info.(pi_carrier) ∈ (λ r, (r.(ref_session), r.(ref_service))) <$> refs.
Proof.
  unfold package_info. intros Hi Hne. destruct (get_service pid) as [raw|]; [|done]. exists raw. split; [done|].
  destruct (negb (jtruthy _)); [done|]. case_match; [done|]. destruct (bool_decide_reflect (sort_texts (ref_id <$> refs) = sort_texts
     ((λ c, json_str (jget c "id")) <$> jlist_of (jor (jget (unwrap raw) "included_services") (JList []))))) as [Hs|]; [|done].
  cbn [negb] in Hi. apply (inj Ok) in Hi. subst info. split; [done|]. split.
  - by rewrite <- (sort_texts_perm (ref_id <$> refs)), Hs, sort_texts_perm.
  - cbn [pi_carrier]. destruct refs as [|r refs]; [done|]. rewrite fmap_cons. cbn [head default].
    match goal with |- min_position ?b ?l ∈ _ => destruct (min_position_elem b l) as [-> | ?] end; [constructor|done].
Qed.

(** The price of a component of the package. *)
Definition component_price (pid : string) (e : json) : option json :=
  if component_of e ==? Some pid then Some (jget e "base_price") else None.

Lemma component_prices pid l :
  (λ e, jget e "base_price") <$> List.filter (λ e, component_of e ==? Some pid) l = omap (component_price pid) l.
Proof.
  induction l as [|e l IH]; [done|]. cbn [List.filter omap list_omap]. unfold component_price at 1.
  destruct (_ ==? _); [|done]. rewrite fmap_cons. by f_equal.
Qed.

Lemma component_price_core pid e e' : entry_core e = entry_core e' → component_price pid e = component_price pid e'.
Proof. unfold entry_core. intros [= Hb Hp _ _ _]. unfold component_price, component_of. by rewrite Hb, Hp. Qed.

Lemma omap_cores {B} (f : json → option B) l l' :
  (∀ e e', entry_core e = entry_core e' → f e = f e') → entry_core <$> l ≡ₚ entry_core <$> l' → omap f l ≡ₚ omap f l'.
Proof.
  intros Hf (k & Hk & ->)%Permutation_map_inv. assert (omap f l = omap f k) as ->; [|done].
  revert k Hk. induction l as [|e l IH]; intros [|e' k]; try done.
  intros [He Hk]%(inj2 cons). cbn [omap list_omap]. by rewrite (Hf _ _ He), (IH k).
Qed.

Lemma one_carrier {A B} (c : A) `{EqDecision A} (a b : B) (l : list (A * ServiceItem)) :
  NoDup l.*1 → c ∈ l.*1 → (λ r, if c ==? r.1 then a else b) <$> l ≡ₚ a :: replicate (length l - 1) b.
Proof.
  induction l as [|[x svc] l IH]; cbn [fmap list_fmap fst]; [set_solver|]. intros [Hx Hnd]%NoDup_cons Hc.
  destruct (bool_decide_reflect (c = x)) as [->|Hne].
  - cbn [length]. rewrite Nat.sub_succ, Nat.sub_0_r. constructor.
    clear IH Hnd Hc. induction l as [|[y svc'] l IH]; [done|]. cbn [fmap list_fmap fst length replicate].
    destruct (bool_decide_reflect (x = y)) as [->|]; [set_solver|]. constructor. apply IH. set_solver.
  - assert (c ∈ l.*1) as Hin by set_solver. rewrite (IH Hnd Hin).
    destruct l; [set_solver|]. cbn [length]. rewrite !Nat.sub_succ, !Nat.sub_0_r. cbn [replicate]. apply Permutation_swap.
Qed.

Lemma component_prices_placed items ctx loyalty pid info es :
  assoc ctx pid = Some info → pid ≠ "" → Forall2 (entry_of loyalty ctx) items es →
  omap (component_price pid) es =
    (λ r, JStr (if info.(pi_carrier) ==? r.1 then money info.(pi_price) else "0.000")) <$> List.filter (tagged pid) items.
Proof.
  intros Hctx Hne. induction 1 as [|r e l es [He _] _ IH]; [done|]. cbn [omap list_omap List.filter]. rewrite IH. clear IH.
  unfold component_price, component_of, tagged. destruct (si_package_id r.2) as [p|] eqn:Ep; cbn [mbind option_bind] in He.
  2:{ rewrite He. done. }
  destruct (bool_decide_reflect (Some p = Some pid)) as [[= ->]|Hp].
  - rewrite Hctx in He. destruct He as [-> ->]. cbn. rewrite (proj2 (truthy_spec pid) Hne). cbn.
    rewrite bool_decide_true by done. done.
  - destruct (assoc ctx p) as [info'|]; cbn in He; [destruct He as [-> _]|by rewrite He].
    cbn. destruct (truthy p); [|done]. rewrite bool_decide_false by congruence. done.
Qed.

(** C40: A package booked by its components is booked with each of its included
    services exactly once and charged once: of the entries stored for it one
    carries the catalogue's price of the package and every other costs nothing. *)
Theorem package_charged_once items date loyalty check branch_id exclude fresh p pid :
  plan_sessions items date loyalty check branch_id exclude fresh = Ok p →
  pid ≠ "" → pid ∈ (wanted items).*1 →
  ∃ raw, get_service pid = Ok raw ∧
    ref_id <$> refs_of items pid ≡ₚ
      (λ c, json_str (jget c "id")) <$> jlist_of (jor (jget (unwrap raw) "included_services") (JList [])) ∧
    (λ e, jget e "base_price") <$> List.filter (λ e, component_of e ==? Some pid) p.(plan_service_entries) ≡ₚ
      JStr (money (to_decimal (jget (unwrap raw) "base_price"))) ::
      replicate (length (List.filter (tagged pid) (placed_services items)) - 1) (JStr "0.000").
Proof.
  intros (ctx & built & ordered & Hp)%plan_steps Hne Hw.
  destruct (context_info _ _ _ (pl_context _ _ _ _ _ _ _ _ _ _ _ Hp) Hw) as (info & Hctx & Hinfo).
  destruct (plan_entries _ _ _ _ _ _ _ _ _ _ _ Hp) as (es & Hes & HF).
  assert (refs_of items pid ≠ []) as Hrefs.
  { apply list_elem_of_fmap in Hw as ([q r] & -> & Hr). intros Hnil. assert (r ∈ refs_of items q) as Hin; [|cbn in Hnil; rewrite Hnil in Hin; set_solver].
    unfold refs_of. apply list_elem_of_omap. exists (q, r). by rewrite String.eqb_refl. }
  destruct (package_info_spec _ _ _ Hinfo Hrefs) as (raw & Hraw & Hprice & Hids & Hcar).
  exists raw. split; [done|]. split; [done|]. rewrite component_prices, (omap_cores _ _ _ (component_price_core pid) Hes).
  rewrite (component_prices_placed _ _ _ _ _ _ Hctx Hne HF), <- Hprice.
  rewrite (list_fmap_ext _ (λ r, if info.(pi_carrier) ==? r.1 then JStr (money info.(pi_price)) else JStr "0.000"))
    by (intros ? r _; by destruct (_ ==? _)).
  apply one_carrier.
  - apply filter_keys_nodup, placed_nodup.
  - apply list_elem_of_fmap in Hcar as (r & -> & (svc & Hin & Hsvc)%refs_placed).
    apply list_elem_of_fmap. exists ((ref_session r, ref_service r), svc). split; [done|].
    apply elem_of_filter_list. split; [done|]. unfold tagged. cbn. by apply bool_decide_true.
Qed.
End plan.

(** ** A catalogue *)

(** A catalogue of one package of two services, with a room and a therapist that
    are always free. *)
Definition demo_service (id : string) : json :=
  if String.eqb id "p1" then
    JDict [("id", JStr "p1"); ("name", JStr "Spa day"); ("is_packaged_services", JBool true); ("base_price", JStr "20.000");
           ("included_services", JList [JDict [("id", JStr "s1"); ("duration_minutes", JInt 45)];
                                        JDict [("id", JStr "s2"); ("duration_minutes", JInt 30)]])]
  else JDict [("id", JStr id); ("name", JStr "Massage"); ("base_price", JStr "12.500"); ("duration_minutes", JInt 60);
              ("loyalty_points", JInt 5); ("extra_minutes", JInt 30); ("price_for_extra_minutes", JStr "5.000")].
Definition demo_catalogue : Ushauth := Build_Ushauth
  (λ id, Ok (demo_service id))
  (λ id, Ok (JDict [("name", JStr "Room 1"); ("arrangement_type", JStr "single")]))
  (λ id, Ok (JDict [("name", JStr "Maria")]))
  (λ q, Ok (JDict [("available", JStr "yes"); ("therapist_id", JStr "t1")]))
  (λ _ _ _ _, Ok (JDict [("available", JStr "yes")])).

Definition demo_item (id : string) (package : option string) : ServiceItem :=
  mk_service_item (Some id) None None None None None None None None JNull None false 0 None 0 None package.
Definition demo_session (time : string) (services : list ServiceItem) : SessionItem :=
  mk_session_item None "t1" None None None None None (Some "a1") None None None None services [] 15 (Some time) None.
Definition demo_items : list SessionItem :=
  [demo_session "12:00:00" [demo_item "s2" (Some "p1")]; demo_session "10:00:00" [demo_item "s1" (Some "p1")]].

Definition demo_run : result SessionPlan :=
  plan_sessions (H := demo_catalogue) demo_items "2026-07-14" true true None None (λ i j, "u").
Definition demo_plan : SessionPlan :=
  match demo_run with Ok p => p | Raise _ => mk_plan [] (legacy_mirror []) (booking_totals []) [] end.

Lemma demo_planned : plan_sessions (H := demo_catalogue) demo_items "2026-07-14" true true None None (λ i j, "u") = Ok demo_plan.
Proof. vm_compute. reflexivity. Qed.

Lemma planned_sessions_fit_witness :
  length demo_plan.(plan_session_list) = 2%nat ∧ ForallOrdPairs ends_before demo_plan.(plan_session_list).
Proof.
  destruct (planned_sessions_fit (H := demo_catalogue) _ _ _ _ _ _ _ _ demo_planned) as (H1 & _ & H2 & _). split; [exact H1|exact H2].
Defined.


Lemma loyalty_booking_earns_nothing_witness :
  length demo_plan.(plan_service_entries) = 2%nat ∧ Forall (λ e, (effective_points e).1 = 0) demo_plan.(plan_service_entries).
Proof. split; [vm_compute; reflexivity|]. exact (loyalty_booking_earns_nothing (H := demo_catalogue) _ _ _ _ _ _ _ demo_planned). Defined.

Lemma package_charged_once_witness :
  ∃ raw, get_service (Ushauth := demo_catalogue) "p1" = Ok raw ∧
    (λ e, jget e "base_price") <$> List.filter (λ e, component_of e ==? Some "p1") demo_plan.(plan_service_entries) ≡ₚ
      JStr (money (to_decimal (jget (unwrap raw) "base_price"))) :: [JStr "0.000"].
Proof.
  destruct (package_charged_once (H := demo_catalogue) _ _ _ _ _ _ _ _ "p1" demo_planned) as (raw & H1 & _ & H2).
  - discriminate.
  - vm_compute. left.
  - exists raw. split; [exact H1|exact H2].
Defined.

(** The session of the witness: one service of an hour and a quarter. *)
Definition demo_args : SessionArgs :=
  mk_session_args 0 1784023200000000 (JStr "t1") [] (JStr "a1") [] [JDict [("base_price", JStr "12.500"); ("duration_minutes", JInt 60)]]
    [] 15 (JInt 30) (JStr "5.000") JNull [] JNull.

Lemma build_session_correct_witness :
  ∃ s, build_session demo_args "u" = Ok s ∧
    session_window s = (Some 1784023200000000, Some (1784023200000000 + 75 * us_per_minute)) ∧
    to_decimal (jget s "session_price") = of_fils 15000.
Proof.
  pose proof (build_session_correct demo_args "u") as H. destruct (build_session demo_args "u") as [s|e] eqn:E.
  - exists s. split; [reflexivity|]. destruct H as (_ & H1 & _ & H2 & _); [vm_compute; split; discriminate || reflexivity..|].
    split; [exact H1|exact H2].
  - destruct H as [_ H]; [vm_compute; split; discriminate || reflexivity..|]. discriminate H.
Defined.

(** *** What planning does not prevent *)

(** A half fils: ten minutes of a rate of 0.001 for twenty, twice. *)
Example price_is_not_the_sum_of_its_parts :
  let a := mk_session_args 0 1784023200000000 (JStr "t1") [] JNull []
    [JDict [("base_price", JStr "0.0005"); ("duration_minutes", JInt 60)]] [] 10 (JInt 20) (JStr "0.001") JNull [] JNull in
  match build_session a "u" with
  | Ok s => (jget s "services_price", jget s "price_for_extra_minutes", jget s "session_price") =
            (JStr "0.000", JStr "0.000", JStr "0.001")
  | Raise _ => False
  end.
Proof. vm_compute. reflexivity. Qed.

(** A service tagged with the package but without an id is not one of its
    included services, and is stored as a free component of it. *)
Example untitled_service_is_free :
  match plan_sessions (H := demo_catalogue)
          [demo_session "10:00:00" [demo_item "s1" (Some "p1"); demo_item "s2" (Some "p1");
             mk_service_item None (Some "Facial") None None None None None None None (JStr "30.000") (Some 60) false 0 None 0 None (Some "p1")]]
          "2026-07-14" false true None None (λ i j, "u") with
  | Ok p => (λ e, (jget e "service_name", jget e "base_price")) <$> p.(plan_service_entries) =
              [(JStr "Massage", JStr "20.000"); (JStr "Massage", JStr "0.000"); (JStr "Facial", JStr "0.000")]
  | Raise _ => False
  end.
Proof. vm_compute. reflexivity. Qed.
