(* ===== verification/LinkGateway.v ===== *)
(** * Payment gateways behind payment links
    (app/payment_links/domain/gateway.py, app/payment_links/domain/registry.py)

    The normalised vocabulary every adapter translates to, the registry of
    adapters, and [World]: what the services outside the repository answer.
    The adapters' own translations are in [LinkAdapters]. *)

From S2P Require Import Prelude Exceptions Effects StateMachines Money Numbers Store PyText Attribution RefundService.
#[local] Open Scope Z_scope.

(** ** Statuses *)

Module Link.
Inductive PaymentLinkStatus :=
  | CREATED | PENDING | PAID | FAILED | EXPIRED | CANCELLED | REFUNDED | PARTIALLY_REFUNDED.

Definition PaymentLinkStatus_value (s : PaymentLinkStatus) : string :=
  match s with
  | CREATED => "created" | PENDING => "pending" | PAID => "paid" | FAILED => "failed"
  | EXPIRED => "expired" | CANCELLED => "cancelled" | REFUNDED => "refunded"
  | PARTIALLY_REFUNDED => "partially_refunded"
  end.

#[global] Instance PaymentLinkStatus_eq_dec : EqDecision PaymentLinkStatus.
Proof. solve_decision. Defined.
#[global, refine] Instance PaymentLinkStatus_enum : StrEnum PaymentLinkStatus := {
  members := [CREATED; PENDING; PAID; FAILED; EXPIRED; CANCELLED; REFUNDED; PARTIALLY_REFUNDED];
  value := PaymentLinkStatus_value }.
Proof.
  - intros []; by apply (bool_decide_unpack _).
  - by intros [] [].
Defined.

(** [PaymentLinkTarget]. *)
Definition BOOKING : string := "booking".
Definition GIFT_VOUCHER : string := "gift_voucher".

(** Statuses in which a link can still be paid, and those of a settled one. *)
Definition OPEN_STATUSES : list string := [value CREATED; value PENDING; value FAILED].
Definition SETTLED : list string := [value PAID; value REFUNDED; value PARTIALLY_REFUNDED].
End Link.

(** The outcome a gateway reports, in one vocabulary. *)
Module Outcome.
Inductive GatewayPaymentStatus := PENDING | PAID | FAILED | CANCELED | EXPIRED.
#[global] Instance GatewayPaymentStatus_eq_dec : EqDecision GatewayPaymentStatus.
Proof. solve_decision. Defined.
Definition text (s : GatewayPaymentStatus) : string :=
  match s with
  | PENDING => "pending" | PAID => "paid" | FAILED => "failed"
  | CANCELED => "canceled" | EXPIRED => "expired"
  end.
End Outcome.
Import Outcome.

Inductive WebhookEventKind := PAYMENT_STATUS | REFUND_STATUS | IGNORED.
#[export] Instance WebhookEventKind_eq_dec : EqDecision WebhookEventKind.
Proof. solve_decision. Defined.
Definition event_kind_text (k : WebhookEventKind) : string :=
  match k with
  | PAYMENT_STATUS => "payment_status" | REFUND_STATUS => "refund_status" | IGNORED => "ignored"
  end.

(** The raw answer a state carries is never read. *)
Record GatewayPaymentState := mk_state {
  gs_status : GatewayPaymentStatus; gs_invoice_id : option string; gs_payment_id : option string;
  gs_transaction_id : option string; gs_track_id : option string; gs_reference_id : option string;
  gs_payment_method : option string; gs_amount : option Decimal; gs_currency : option string;
  gs_failure_reason : option string }.

#[export] Instance eta_GatewayPaymentState : Eta GatewayPaymentState := λ g, mk_state
  g.(gs_status) g.(gs_invoice_id) g.(gs_payment_id) g.(gs_transaction_id) g.(gs_track_id)
  g.(gs_reference_id) g.(gs_payment_method) g.(gs_amount) g.(gs_currency) g.(gs_failure_reason).

Record GatewayWebhookEvent := mk_gateway_event {
  ge_kind : WebhookEventKind; ge_event_reference : option string; ge_invoice_id : option string;
  ge_status : option GatewayPaymentStatus; ge_state : option GatewayPaymentState;
  ge_refund_id : option string; ge_refund_status : option string; ge_refund_amount : option Decimal }.

(** [PaymentLinkResult], the raw request and answer apart. *)
Record PaymentLinkResult := mk_link_result { lr_gateway_invoice_id : string; lr_payment_url : string }.

(** ** The registry *)

(** An adapter: its [name] and [provider_label]. *)
Record Gateway := mk_gateway { gw_name : string; gw_provider_label : string }.

Definition MyFatoorahGateway : Gateway := mk_gateway "myfatoorah" "MyFatoorah".
Definition DeemaGateway : Gateway := mk_gateway "deema" "Deema".
Definition TapKnetGateway : Gateway := mk_gateway "tap_knet" "Tap KNET".
Definition TapCardGateway : Gateway := mk_gateway "tap_card" "Tap Card".
Definition TapApplePayGateway : Gateway := mk_gateway "tap_applepay" "Tap Apple Pay".

(** [_FACTORIES] in the order of registration; two names share an adapter. *)
Definition FACTORIES : list (string * Gateway) := [
  ("myfatoorah", MyFatoorahGateway); ("knet", MyFatoorahGateway);
  ("deema", DeemaGateway); ("deema_paymentlink", DeemaGateway);
  ("tap_knet", TapKnetGateway); ("tap_card", TapCardGateway); ("tap_applepay", TapApplePayGateway)].

Definition TAP_FAMILY_GATEWAYS : list string := ["deema"; "tap_knet"; "tap_card"; "tap_applepay"].

Definition provider_group_for (gateway_name : option string) : option string :=
  let name := lower (strip (default "" gateway_name)) in
  if negb (truthy name) then None
  else if name in? TAP_FAMILY_GATEWAYS then Some "Tap"
  else if String.eqb name "myfatoorah" then Some "MyFatoorah"
  else Some name.

Definition resolve_gateway_name (provider : option string) (default_ : string) : string :=
  let key := remove " " (lower (strip (por_str provider default_))) in
  match List.find (λ '(name, _), String.eqb (remove "_" name) (remove "_" key)) FACTORIES with
  | Some (name, _) => name
  | None =>
      match List.find (λ '(name, _), contains name key || contains key name) FACTORIES with
      | Some (name, _) => name
      | None => lower (strip default_)
      end
  end.

Definition get_gateway (name : string) : result Gateway :=
  match List.find (λ '(n, _), String.eqb n (lower (strip name))) FACTORIES with
  | Some (_, gw) => Ok gw
  | None => Raise (err_code ValidationError "UNSUPPORTED_GATEWAY")
  end.

(** ** What is outside the repository

    The answers of other services, as functions of the calls made before (which
    the store records); the keys of the settings; and functions of Python's
    library that are kept abstract: the JSON and ISO date parsers ([None] for
    [ValueError]) and the digests.  No theorem constrains any of them. *)
Class World := {
  json_loads : string → option json;
  fromisoformat : string → option Z;
  hmac_sha256_hex : string → string → string;
  hmac_sha256_base64 : string → string → string;
  sha256_hex : string → string;
  secret_key : Gateway → string;
  schedule_answer : list OutboundCall → OutboundCall → result string;
  provider_refund : list OutboundCall → string → RefundRequest → result RefundResponse;
  (** The body a gateway answers to a request. *)
  gateway_http : list OutboundCall → OutboundCall → result json;
  (** The accounting invoice of a booking: its id and name. *)
  invoice_lookup : list OutboundCall → Z → result (option (option string * string));
}.

Section asking.
Context `{World}.

Definition asking {A} (c : OutboundCall) (answer : list OutboundCall → result A) : M Store A :=
  calls ← gets outbound;
  call_out c ;;
  lift (answer calls).

Definition ask_gateway (c : OutboundCall) : M Store json := asking c (λ calls, gateway_http calls c).
Definition get_invoice_by_source (booking_id : Z) : M Store (option (option string * string)) :=
  asking (InvoiceLookupCall booking_id) (λ calls, invoice_lookup calls booking_id).
End asking.
