(* ===== verification/LinkAdapters.v ===== *)
(** * The adapters of the payment gateways
    (app/payment_links/infrastructure/deema_gateway.py, tap_gateway.py,
    myfatoorah_gateway.py)

    How an adapter reads what its provider sends: the state of a payment, a
    webhook and its signature.  The requests' payloads and the retries over
    HTTP are left out: [ask_gateway] is the body that comes back.  Text is
    ASCII; a number that is not finite reads as no number. *)

From S2P Require Import Prelude Exceptions Effects StateMachines Money Numbers Store PyText Attribution.
From S2P Require Import RefundService LinkGateway.
From Stdlib Require Import Ascii.
#[local] Open Scope Z_scope.

(** [_to_decimal]. *)
Definition to_decimal (value : json) : option Decimal :=
  if jblank value then None else parse_number (json_str value).

(** ** Tap and Deema *)

Module Tap.
(** [_to_str]. *)
Definition to_str (value : json) : string := match value with JNull => "" | _ => strip (json_str value) end.

Definition PAID_STATUSES : list string := ["CAPTURED"; "AUTHORIZED"; "PAID"; "SUCCESS"; "SUCCEEDED"].
Definition FAILED_STATUSES : list string := ["FAILED"; "DECLINED"; "RESTRICTED"; "INVALID"; "CAPTURED_FAILED"].
Definition CANCELED_STATUSES : list string := ["CANCELLED"; "CANCELED"; "VOID"; "ABANDONED"].
Definition EXPIRED_STATUSES : list string := ["TIMEDOUT"; "EXPIRED"].
Definition REFUND_OK_STATUSES : list string := ["INITIATED"; "PENDING"; "ACCEPTED"; "APPROVED"; "REFUNDED"; "SUCCEEDED"].
Definition REFUND_FAIL_STATUSES : list string := ["FAILED"; "DECLINED"; "CANCELLED"; "CANCELED"; "RESTRICTED"].

Definition map_charge_status (tap_status : string) : Outcome.GatewayPaymentStatus :=
  let upper := upper (strip tap_status) in
  if upper in? PAID_STATUSES then Outcome.PAID
  else if upper in? EXPIRED_STATUSES then Outcome.EXPIRED
  else if upper in? CANCELED_STATUSES then Outcome.CANCELED
  else if upper in? FAILED_STATUSES then Outcome.FAILED
  else Outcome.PENDING.

(** [a or b or None] on texts. *)
Fixpoint first_text (l : list string) : option string :=
  match l with [] => None | s :: l => if truthy s then Some s else first_text l end.

Definition state_from_charge (body : json) (fallback_id : option string) : GatewayPaymentState :=
  let charge_id := por_str (or_none (to_str (jget body "id"))) (strip (default "" fallback_id)) in
  let status := map_charge_status (to_str (jget body "status")) in
  let ref_obj := mapping (jget body "reference") in
  let tx_obj := mapping (jget body "transaction") in
  let receipt_obj := mapping (jget body "receipt") in
  let source_obj := mapping (jget body "source") in
  let resp_obj := mapping (jget body "response") in
  let meta_obj := mapping (jget body "metadata") in
  let raw_method := lower (to_str (jor (jget source_obj "payment_method") (jget source_obj "id"))) in
  mk_state status (or_none charge_id)
    (first_text [to_str (jget ref_obj "payment"); to_str (jget receipt_obj "id"); charge_id])
    (first_text [to_str (jget ref_obj "transaction"); to_str (jget tx_obj "authorization_id"); charge_id])
    (first_text [to_str (jget ref_obj "track"); to_str (jget ref_obj "acquirer")])
    (first_text [to_str (jget meta_obj "payment_link_id"); to_str (jget ref_obj "order"); to_str (jget ref_obj "gateway")])
    (Some (if contains "deema" raw_method || negb (truthy raw_method) then "deema" else raw_method))
    (to_decimal (jget body "amount"))
    (Some (por_str (or_none (to_str (jget body "currency"))) "KWD"))
    (if status ==? Outcome.FAILED then or_none (to_str (jget resp_obj "message")) else None).

(** [_TapSourceGateway._state_from_charge]: an unknown method is the one of the
    source. *)
Definition default_payment_method (gw : Gateway) : option string :=
  if String.eqb gw.(gw_name) "tap_knet" then Some "knet"
  else if String.eqb gw.(gw_name) "tap_card" then Some "card"
  else if String.eqb gw.(gw_name) "tap_applepay" then Some "apple_pay"
  else None.
Definition charge_state (gw : Gateway) (body : json) (fallback_id : option string) : GatewayPaymentState :=
  let state := state_from_charge body fallback_id in
  match default_payment_method gw with
  | Some m => if state.(gs_payment_method) ==? Some "deema" then state <| gs_payment_method := Some m |> else state
  | None => state
  end.

Definition event_reference (entity_id status : string) : option string :=
  if truthy entity_id && truthy status then Some (entity_id ++ ":" ++ status)%string else or_none entity_id.

Definition parse_event (gw : Gateway) (payload : json) : GatewayWebhookEvent :=
  let obj_type := lower (to_str (jget payload "object")) in
  let entity_id := to_str (jget payload "id") in
  let status_upper := upper (to_str (jget payload "status")) in
  if String.eqb obj_type "refund" || String.prefix "ref_" entity_id then
    let charge_id := or_none (to_str (jor (jget payload "charge_id") (jget (mapping (jget payload "charge")) "id"))) in
    let refund_status := if status_upper in? REFUND_OK_STATUSES then Some "REFUNDED"
                         else if status_upper in? REFUND_FAIL_STATUSES then Some "CANCELED"
                         else or_none status_upper in
    mk_gateway_event REFUND_STATUS (event_reference entity_id status_upper) charge_id None None
      (or_none entity_id) refund_status (to_decimal (jget payload "amount"))
  else if (obj_type in? ["charge"; "authorize"; ""]) && (truthy entity_id || truthy status_upper) then
    let state := charge_state gw payload None in
    mk_gateway_event PAYMENT_STATUS (event_reference entity_id status_upper) state.(gs_invoice_id)
      (Some state.(gs_status)) (Some state) None None None
  else mk_gateway_event IGNORED (or_none entity_id) None None None None None None.

(** ** Signatures *)

Definition THREE_DECIMAL_CURRENCIES : list string := ["KWD"; "BHD"; "OMR"; "JOD"; "TND"].

Definition format_tap_amount (amount : json) (currency : string) : string :=
  match to_decimal amount with
  | None => to_str amount
  | Some d =>
      format_fixed (if upper (if truthy currency then currency else "KWD") in? THREE_DECIMAL_CURRENCIES then 3 else 2) d
  end.

Definition build_signature_string (payload : json) (formatted_amount : bool) : option string :=
  let charge_id := to_str (jget payload "id") in
  if negb (truthy charge_id) then None
  else
    let currency := upper (to_str (jor (jget payload "currency") (JStr "KWD"))) in
    let raw_amt := jget payload "amount" in
    let amount := if formatted_amount then format_tap_amount raw_amt currency else to_str raw_amt in
    let ref_obj := mapping (jget payload "reference") in
    let tx_obj := mapping (jget payload "transaction") in
    Some ("x_id" ++ charge_id ++ "x_amount" ++ amount ++ "x_currency" ++ currency ++
          "x_gateway_reference" ++ to_str (jget ref_obj "gateway") ++
          "x_payment_reference" ++ to_str (jget ref_obj "payment") ++
          "x_status" ++ to_str (jget payload "status") ++
          "x_created" ++ to_str (jor (jget tx_obj "created") (jget payload "created")))%string.

Definition SIGNATURE_HEADERS : list string := ["hashstring"; "x-tap-signature"; "tap-signature"; "hash"].

Section world.
Context `{World}.

Definition verify_signature (gw : Gateway) (headers : list (string * string)) (payload : json) : bool :=
  truthy (secret_key gw) &&
  match List.find (λ '(k, v), (lower k in? SIGNATURE_HEADERS) && truthy v) headers with
  | None => false
  | Some (_, provided) =>
      existsb (λ fmt, match build_signature_string payload fmt with
                      | Some sig => String.eqb (lower (hmac_sha256_hex (secret_key gw) sig)) (lower (strip provided))
                      | None => false
                      end) [true; false]
  end.

Definition get_payment_state (gw : Gateway) (invoice_id : string) : M Store GatewayPaymentState :=
  let charge_id := strip invoice_id in
  body ← ask_gateway (PaymentStateCall gw.(gw_name) charge_id "charges");
  raise_if (negb (jtruthy (Some (jget body "id")))) (err_code PaymentProviderError "DEEMA_STATUS_FAILED") ;;
  mret (charge_state gw body (Some charge_id)).

Definition refund_payment (gw : Gateway) (provider_payment_id : string) (amount : Decimal) : M Store RefundResponse :=
  body ← ask_gateway (LinkRefundCall gw.(gw_name) provider_payment_id amount);
  let refund_id := to_str (jget body "id") in
  let refund_status := upper (to_str (jget body "status")) in
  raise_if (negb (truthy refund_id) || (truthy refund_status && (refund_status in? REFUND_FAIL_STATUSES)))
    (err_code RefundError "DEEMA_REFUND_FAILED") ;;
  mret (mk_refund_response true (Some refund_id) None (match body with JDict d => d | _ => [] end)).

Definition create_link (gw : Gateway) (link_id : Z) (amount : Decimal) : M Store PaymentLinkResult :=
  body ← ask_gateway (CreateLinkCall gw.(gw_name) link_id amount);
  let charge_id := to_str (jget body "id") in
  let url := to_str (jor (jget (mapping (jget body "transaction")) "url") (jget body "url")) in
  let status := upper (to_str (jget body "status")) in
  raise_if ((status in? FAILED_STATUSES) || negb (truthy charge_id) || negb (truthy url))
    (err_code PaymentProviderError "DEEMA_SEND_PAYMENT_FAILED") ;;
  mret (mk_link_result charge_id url).
End world.
End Tap.

(** ** MyFatoorah *)

Module MyFatoorah.
(** [_to_str]. *)
Definition to_str (value : json) : string := match value with JNull => "" | _ => json_str value end.

Definition FLAT_FALLBACKS : list (string * list string) := [
  ("Invoice.Id", ["InvoiceId"; "invoice_id"]); ("Invoice.Status", ["InvoiceStatus"; "invoice_status"]);
  ("Invoice.ExternalIdentifier", ["ExternalIdentifier"; "CustomerReference"; "customer_reference"]);
  ("Transaction.Status", ["TransactionStatus"; "transaction_status"]);
  ("Transaction.PaymentId", ["PaymentId"; "payment_id"]); ("Transaction.Id", ["TransactionId"; "transaction_id"]);
  ("Transaction.TrackId", ["TrackId"; "track_id"]); ("Transaction.ReferenceId", ["ReferenceId"; "reference_id"]);
  ("Transaction.PaymentMethod", ["PaymentMethod"; "PaymentGateway"; "payment_method"]);
  ("Amount.ValueInBaseCurrency", ["InvoiceValueInBaseCurrency"; "InvoiceValue"; "Amount"]);
  ("Amount.BaseCurrency", ["BaseCurrency"; "Currency"]); ("Refund.Id", ["RefundId"; "RefundReference"]);
  ("Refund.Status", ["RefundStatus"]); ("Refund.InvoiceId", ["RefundInvoiceId"; "InvoiceId"]);
  ("ReferencedInvoice.Id", ["ReferencedInvoiceId"; "InvoiceId"])].

(** [dotted.split(".")]. *)
Fixpoint split_dots (s : string) : list string :=
  match s with
  | EmptyString => [""]
  | String c s =>
      if (c =? ".")%char then "" :: split_dots s
      else match split_dots s with
           | w :: ws => String c w :: ws
           | [] => [String c ""]
           end
  end.

(** [_dig]: the nested value, or the first flat one that is not blank. *)
Definition dig (data : json) (dotted : string) : json :=
  let cur := foldl jget data (split_dots dotted) in
  if negb (jblank cur) then cur
  else
    let fallbacks := default [] (snd <$> List.find (λ '(k, _), String.eqb k dotted) FLAT_FALLBACKS) in
    match List.find (λ v, negb (jblank v)) (jget data <$> (if is_mapping data then fallbacks else [])) with
    | Some v => v
    | None => cur
    end.

(** [[t for t in (x or []) if isinstance(t, Mapping)]]; a number is not
    iterable ([TypeError]). *)
Definition mappings (x : json) : result (list json) :=
  match x with
  | JList l => Ok (List.filter is_mapping l)
  | JStr _ | JDict _ => Ok []
  | _ => if jtruthy (Some x) then Raise (err PythonException) else Ok []
  end.

(** [payload.get("Data") or {}] and its [get], which only a mapping has
    ([AttributeError]). *)
Definition data_of (payload : json) : result json :=
  let data := jor (jget payload "Data") (JDict []) in
  if is_mapping data then Ok data else Raise (err PythonException).

Definition event_code (payload : json) (none : json) : json :=
  if is_mapping (jget payload "Event") then dig payload "Event.Code"
  else jor (jor (jget payload "EventCode") (jget payload "Event")) none.

Definition has_key (k : string) (j : json) : bool :=
  match j with JDict d => match dict_get d k with Some _ => true | None => false end | _ => false end.

(** [{**data, "Transaction": t}] when there is none. *)
Definition with_transaction (data t : json) : json :=
  match data with JDict d => JDict (dict_set d "Transaction" t) | _ => data end.

Definition tx_ok (tx : json) : bool :=
  lower (strip (to_str (jget tx "TransactionStatus"))) in? ["succss"; "success"; "succeeded"].

Definition PAYMENT_SIGNATURE_FIELDS : list string :=
  ["Invoice.Id"; "Invoice.Status"; "Transaction.Status"; "Transaction.PaymentId"; "Invoice.ExternalIdentifier"].
Definition REFUND_SIGNATURE_FIELDS : list string :=
  ["Refund.Id"; "Refund.Status"; "Amount.ValueInBaseCurrency"; "ReferencedInvoice.Id"].
Definition PAYMENT_CODES : list string := ["1"; "TransactionsStatusChanged"; "PAYMENT_STATUS_CHANGED"].
Definition REFUND_CODES : list string := ["2"; "RefundStatusChanged"; "REFUND_STATUS_CHANGED"].

Definition build_signature_string (payload : json) : result (option string) :=
  let code := json_str (event_code payload JNull) in
  let data0 := jor (jget payload "Data") (JDict []) in
  data ← (if is_mapping data0 && negb (has_key "Transaction" data0) then
            tx_list ← mappings (jget data0 "InvoiceTransactions");
            mret (match tx_list with t :: _ => with_transaction data0 t | [] => data0 end)
          else mret data0);
  mret (match (if code in? PAYMENT_CODES then Some PAYMENT_SIGNATURE_FIELDS
               else if code in? REFUND_CODES then Some REFUND_SIGNATURE_FIELDS else None) with
        | Some fields => Some (join "," ((λ f, (f ++ "=" ++ to_str (dig data f))%string) <$> fields))
        | None => None
        end).

(** The status a payment webhook reports. *)
Definition event_status (inv_status tx_status : string) : Outcome.GatewayPaymentStatus :=
  if String.eqb inv_status "PAID" || String.eqb tx_status "SUCCESS" || (negb (truthy inv_status) && negb (truthy tx_status))
  then Outcome.PAID
  else if String.eqb tx_status "FAILED" || String.eqb inv_status "FAILED" then Outcome.FAILED
  else if (tx_status in? ["CANCELED"; "CANCELLED"]) || (inv_status in? ["CANCELED"; "CANCELLED"]) then Outcome.CANCELED
  else Outcome.PENDING.

Definition parse_event (payload : json) : result GatewayWebhookEvent :=
  let code := json_str (event_code payload (JStr "")) in
  let reference := or_none (to_str (jor (dig payload "Event.Reference") (jget payload "WebhookReference"))) in
  data0 ← data_of payload;
  tx_list ← mappings (jget data0 "InvoiceTransactions");
  let success_tx := match List.find tx_ok tx_list with
                    | Some t => t
                    | None => default (JDict []) (head tx_list)
                    end in
  let data := if negb (has_key "Transaction" data0) && (match tx_list with [] => false | _ => true end)
              then with_transaction data0 success_tx else data0 in
  let text (l : list json) := or_none (to_str (jor_list l)) in
  let inv_id := text [dig data "Invoice.Id"; jget payload "InvoiceId"; jget payload "invoice_id"] in
  let pmt_id := text [dig data "Transaction.PaymentId"; jget success_tx "PaymentId"; jget payload "PaymentId";
                      jget payload "payment_id"] in
  if (code in? PAYMENT_CODES) || (match inv_id, pmt_id with None, None => false | _, _ => true end) then
    let tx_status := upper (to_str (jor (dig data "Transaction.Status") (jget payload "TransactionStatus"))) in
    let inv_status := upper (to_str (jor (dig data "Invoice.Status") (jget payload "InvoiceStatus"))) in
    let status := event_status inv_status tx_status in
    let state := mk_state status inv_id pmt_id
      (text [dig data "Transaction.Id"; jget success_tx "TransactionId"; jget success_tx "Id"; jget payload "TransactionId"])
      (text [dig data "Transaction.TrackId"; jget success_tx "TrackId"; jget payload "TrackId"])
      (text [dig data "Transaction.ReferenceId"; jget success_tx "ReferenceId"; jget payload "ReferenceId"])
      (text [dig data "Transaction.PaymentMethod"; jget success_tx "PaymentMethod"; jget success_tx "PaymentGateway";
             jget payload "PaymentMethod"])
      (to_decimal (jor (dig data "Amount.ValueInBaseCurrency") (jget payload "InvoiceValue")))
      (text [dig data "Amount.BaseCurrency"; jget success_tx "Currency"; jget payload "Currency"])
      (text [dig data "Transaction.Error.Message"; jget success_tx "Error"]) in
    mret (mk_gateway_event PAYMENT_STATUS reference inv_id (Some status) (Some state) None None None)
  else if String.eqb code "2" then
    mret (mk_gateway_event REFUND_STATUS reference
      (match or_none (to_str (dig data "ReferencedInvoice.Id")) with
       | Some i => Some i
       | None => or_none (to_str (dig data "Refund.InvoiceId"))
       end) None None
      (or_none (to_str (dig data "Refund.Id"))) (or_none (upper (to_str (dig data "Refund.Status"))))
      (to_decimal (dig data "Amount.ValueInBaseCurrency")))
  else mret (mk_gateway_event IGNORED reference None None None None None None).

(** The state in the answer of GetPaymentStatus. *)
Definition is_failed (tx : json) : bool := String.eqb (lower (to_str (jget tx "TransactionStatus"))) "failed".

Definition state_status (invoice_status : string) (transactions : list json) (matched_tx : option json) : Outcome.GatewayPaymentStatus :=
  if String.eqb invoice_status "paid" || existsb tx_ok transactions then Outcome.PAID
  else if String.eqb invoice_status "expired" then Outcome.EXPIRED
  else if invoice_status in? ["canceled"; "cancelled"] then Outcome.CANCELED
  else if match matched_tx with Some tx => is_failed tx | None => false end then Outcome.FAILED
  else match transactions with
       | [] => Outcome.PENDING
       | _ => if forallb (λ t, negb (tx_ok t) && is_failed t) transactions then Outcome.FAILED else Outcome.PENDING
       end.

Definition payment_state (body : json) (invoice_id : string) : result GatewayPaymentState :=
  data ← data_of body;
  transactions ← mappings (jget data "InvoiceTransactions");
  let invoice_status := lower (strip (to_str (jget data "InvoiceStatus"))) in
  let matched_tx := List.find (λ t, String.eqb (to_str (jget t "PaymentId")) invoice_id ||
                                    String.eqb (to_str (jget t "TransactionId")) invoice_id) transactions in
  let status := state_status invoice_status transactions matched_tx in
  let tx := match List.find tx_ok transactions with
            | Some t => t
            | None => match matched_tx with
                      | Some t => if jtruthy (Some t) then t else default (JDict []) (last transactions)
                      | None => default (JDict []) (last transactions)
                      end
            end in
  let raw_cur := upper (strip (to_str (jor (jor (jor (jget tx "Currency") (jget data "DisplayCurrencyIso"))
                                            (jget data "CurrencyIso")) (JStr "")))) in
  mret (mk_state status (Some (por_str (or_none (to_str (jget data "InvoiceId"))) invoice_id))
    (or_none (to_str (jget tx "PaymentId"))) (or_none (to_str (jget tx "TransactionId")))
    (or_none (to_str (jget tx "TrackId"))) (or_none (to_str (jget tx "ReferenceId")))
    (or_none (to_str (jget tx "PaymentGateway"))) (to_decimal (jget data "InvoiceValue"))
    (if raw_cur in? ["KD"; "K.D."; "K.D"; "د.ك"; "KWD"] then Some "KWD" else or_none raw_cur)
    (if status ==? Outcome.FAILED then or_none (to_str (jget tx "Error")) else None)).

Section world.
Context `{World}.

Definition verify_signature (gw : Gateway) (headers : list (string * string)) (payload : json) : result bool :=
  if negb (truthy (secret_key gw)) then mret false
  else
    signature_string ← build_signature_string payload;
    mret (match List.find (λ '(k, _), String.eqb (lower k) "myfatoorah-signature") headers, signature_string with
          | Some (_, provided), Some sig =>
              truthy provided && String.eqb (hmac_sha256_base64 (secret_key gw) sig) (strip provided)
          | _, _ => false
          end).

(** One probe of GetPaymentStatus; what it raises is logged. *)
Definition probe (gw : Gateway) (key key_type : string) : M Store (option json) :=
  try_except
    (body ← ask_gateway (PaymentStateCall gw.(gw_name) key key_type);
     mret (if is_mapping body && jtruthy (Some (jget body "IsSuccess")) then Some body else None))
    (λ _, true) (λ _, mret None).

Definition get_payment_state (gw : Gateway) (invoice_id : string) : M Store GatewayPaymentState :=
  let key := strip invoice_id in
  let is_payment_id := (14 <=? String.length key)%nat || String.prefix "0" key in
  let '(primary, secondary) := if is_payment_id then ("PaymentId", "InvoiceId") else ("InvoiceId", "PaymentId") in
  body ← probe gw key primary;
  body ← match body with Some b => mret (Some b) | None => probe gw key secondary end;
  match body with
  | Some b => lift (payment_state b invoice_id)
  | None =>
      if is_payment_id then raise (err_code PaymentProviderError "MYFATOORAH_STATUS_FAILED")
      else mret (mk_state Outcome.PENDING (Some key) None None None None None None None None)
  end.

Definition refund_payment (gw : Gateway) (provider_payment_id : string) (amount : Decimal) : M Store RefundResponse :=
  body ← ask_gateway (LinkRefundCall gw.(gw_name) provider_payment_id amount);
  raise_if (negb (jtruthy (Some (jget body "IsSuccess")))) (err_code RefundError "MYFATOORAH_REFUND_FAILED") ;;
  data ← lift (data_of body);
  mret (mk_refund_response true (or_none (to_str (jor (jget data "RefundId") (jget data "RefundReference")))) None
          (match body with JDict d => d | _ => [] end)).

Definition create_link (gw : Gateway) (link_id : Z) (amount : Decimal) : M Store PaymentLinkResult :=
  body ← ask_gateway (CreateLinkCall gw.(gw_name) link_id amount);
  raise_if (negb (jtruthy (Some (jget body "IsSuccess")))) (err_code PaymentProviderError "MYFATOORAH_SEND_PAYMENT_FAILED") ;;
  data ← lift (data_of body);
  let invoice_id := to_str (jget data "InvoiceId") in
  let url := to_str (jor (jget data "InvoiceURL") (jget data "PaymentURL")) in
  raise_if (negb (truthy invoice_id) || negb (truthy url)) (err_code PaymentProviderError "MYFATOORAH_BAD_RESPONSE") ;;
  mret (mk_link_result invoice_id url).
End world.
End MyFatoorah.

(** ** The adapter of a gateway *)

Definition is_myfatoorah (gw : Gateway) : bool := String.eqb gw.(gw_name) "myfatoorah".

Section adapter.
Context `{World}.

Definition verify_signature (gw : Gateway) (headers : list (string * string)) (payload : json) : result bool :=
  if is_myfatoorah gw then MyFatoorah.verify_signature gw headers payload else Ok (Tap.verify_signature gw headers payload).
Definition parse_event (gw : Gateway) (payload : json) : result GatewayWebhookEvent :=
  if is_myfatoorah gw then MyFatoorah.parse_event payload else Ok (Tap.parse_event gw payload).
Definition get_payment_state (gw : Gateway) (invoice_id : string) : M Store GatewayPaymentState :=
  if is_myfatoorah gw then MyFatoorah.get_payment_state gw invoice_id else Tap.get_payment_state gw invoice_id.
Definition refund_payment (gw : Gateway) (provider_payment_id : string) (amount : Decimal) : M Store RefundResponse :=
  if is_myfatoorah gw then MyFatoorah.refund_payment gw provider_payment_id amount
  else Tap.refund_payment gw provider_payment_id amount.
Definition create_gateway_link (gw : Gateway) (link_id : Z) (amount : Decimal) : M Store PaymentLinkResult :=
  if is_myfatoorah gw then MyFatoorah.create_link gw link_id amount else Tap.create_link gw link_id amount.
(** [cancel_link], whose callers swallow what it raises: one call. *)
Definition cancel_gateway_link (gw : Gateway) (gateway_invoice_id : string) : M Store () :=
  try_except (ask_gateway (CancelLinkCall gw.(gw_name) gateway_invoice_id) ;; mret ()) (λ _, true) (λ _, mret ()).
End adapter.
