(* ===== verification/Settlement.v ===== *)
(** * Settlement of payment links
    (app/payment_links/application/settlement.py)

    [apply] takes a verified gateway outcome to a link and to the booking or
    gift voucher it pays.  The events a settlement queues are its result: the
    endpoints publish them after the commit.  A row variable of the source is a
    key here; times inside JSON columns are microseconds; of the
    [needs_attention] text only what distinguishes its two forms is kept. *)

From S2P Require Import Prelude Exceptions Effects StateMachines Money Numbers Store PyText PyDate Attribution.
From S2P Require Import VoucherSnapshot VoucherService RefundService LinkGateway LinkAdapters.
#[local] Open Scope Z_scope.

Inductive SettlementOutcome := SETTLED | ALREADY_SETTLED | FAILURE_RECORDED | PENDING | AMOUNT_MISMATCH.
#[export] Instance SettlementOutcome_eq_dec : EqDecision SettlementOutcome.
Proof. solve_decision. Defined.
Definition outcome_text (o : SettlementOutcome) : string :=
  match o with
  | SETTLED => "settled" | ALREADY_SETTLED => "already_settled"
  | FAILURE_RECORDED => "failure_recorded" | PENDING => "pending" | AMOUNT_MISMATCH => "amount_mismatch"
  end.

Definition NOT_PAYABLE_BOOKING : list string := [value Booking.CANCELLED; value Booking.NO_SHOW].
(** [_AMOUNT_TOLERANCE]. *)
Definition AMOUNT_TOLERANCE : Decimal := mk_dec 1 (-3).

(** [_state_dict]. *)
Definition state_dict (state : GatewayPaymentState) : jdict := [
  ("status", JStr (Outcome.text state.(gs_status))); ("invoice_id", opt_str state.(gs_invoice_id));
  ("payment_id", opt_str state.(gs_payment_id)); ("transaction_id", opt_str state.(gs_transaction_id));
  ("track_id", opt_str state.(gs_track_id)); ("reference_id", opt_str state.(gs_reference_id));
  ("payment_method", opt_str state.(gs_payment_method));
  ("amount", opt_str (dec_str <$> state.(gs_amount))); ("currency", opt_str state.(gs_currency));
  ("failure_reason", opt_str state.(gs_failure_reason))].
Definition settled_state (state : GatewayPaymentState) (source : string) (now_ : Z) : jdict :=
  dict_merge (state_dict state) [("settled_via", JStr source); ("settled_at", JInt now_)].

(** A booking's reference in the text of the [payment_id] column. *)
Definition ref_of_text (t : string) : PaymentRef :=
  match uuid_of_string t with Some id => RefUuid id | None => RefText t end.

Section settlement.
Context `{World}.

(** ** Flushes: the attribution listeners *)

(** [apply_branch_name]: the column, filled from the snapshot when empty. *)
Definition apply_branch_name (branch_data : option jdict) (branch_name : option string) : option string :=
  let name := jor (jget (opt_dict branch_data) "name") (jget (opt_dict branch_data) "branch_name") in
  if truthy_opt branch_name || negb (jtruthy (Some name)) then branch_name
  else Some (String.substring 0 255 (json_str name)).

Definition attribute_booking (b : Booking) : Booking :=
  let a := apply_attribution json_loads (mk_attributed b.(bk_payment_through) b.(bk_payment_provider)
             (Some b.(bk_payment_gateway)) (Some b.(bk_payment_method)) b.(bk_payment_data)
             [Some b.(bk_payment_status); Some b.(bk_status)]) in
  b <| bk_payment_through := a.(at_through) |> <| bk_payment_provider := a.(at_provider) |>
    <| bk_payment_gateway := default None a.(at_gateway) |>
    <| bk_payment_method := default None a.(at_method) |>
    <| bk_schedule := b.(bk_schedule) <| sc_branch_name := apply_branch_name b.(bk_branch_data) b.(bk_schedule).(sc_branch_name) |> |>.
Definition attribute_payment (p : Payment) : Payment :=
  let a := apply_attribution json_loads (mk_attributed p.(pm_payment_through) p.(pm_payment_provider)
             (Some p.(pm_payment_gateway)) (Some p.(pm_payment_method)) p.(pm_payment_data)
             [p.(pm_status); p.(pm_transaction_status)]) in
  p <| pm_payment_through := a.(at_through) |> <| pm_payment_provider := a.(at_provider) |>
    <| pm_payment_gateway := default None a.(at_gateway) |>
    <| pm_payment_method := default None a.(at_method) |>
    <| pm_details := p.(pm_details) <| pd_branch_name := apply_branch_name p.(pm_branch_data) p.(pm_details).(pd_branch_name) |> |>.

Definition flush_booking (booking_id : Z) : M Store () := upd_booking booking_id attribute_booking.
Definition flush_payment (payment_id : Z) : M Store () := upd_payment payment_id attribute_payment.

(** [session.add(payment)] and the flush: the key is drawn, and the number must
    be unique ([IntegrityError]). *)
Definition insert_payment (p : Z → Payment) : M Store Z :=
  s ← get;
  let id := new_id s.(payments) in
  let row := attribute_payment (p id) in
  raise_if (row.(pm_payment_number) in? (pm_payment_number <$> rows s.(payments))) (err PythonException) ;;
  modify (λ s, s <| payments := <[id := row]> s.(payments) |>) ;;
  mret id.

(** ** Finding and locking a link *)

(** [get_locked_link]. *)
Definition get_locked_link (link_id : Z) (s : Store) : option Z :=
  match s.(payment_links) !! link_id with Some _ => Some link_id | None => None end.

Definition get_locked_link_by_gateway_invoice (gateway gateway_invoice_id : string) (s : Store) : option Z :=
  newest_key (λ l, String.eqb l.(pl_gateway) gateway && (l.(pl_gateway_invoice_id) ==? Some gateway_invoice_id))
    pl_created_at s.(payment_links).
Definition link_by_gateway_payment (gateway payment_id : string) (s : Store) : option Z :=
  newest_key (λ l, String.eqb l.(pl_gateway) gateway && (l.(pl_gateway_payment_id) ==? Some payment_id))
    pl_created_at s.(payment_links).
(** A unique column: [limit(1)] without an order. *)
Definition link_by_number (number : string) (s : Store) : option Z :=
  newest_key (λ l, l.(pl_link_number) ==? Some number) (λ _, 0) s.(payment_links).

(** The first of the answers. *)
Fixpoint first_some {A B} (f : A → option B) (l : list A) : option B :=
  match l with [] => None | a :: l => match f a with Some b => Some b | None => first_some f l end end.

Definition get_locked_link_by_any_identifier (gateway : string) (identifier reference_id payment_id : option string)
    (s : Store) : option Z :=
  let by_gateway (key : option string) :=
    match key with
    | Some k =>
        if truthy k
        then match get_locked_link_by_gateway_invoice gateway k s with
             | Some id => Some id
             | None => link_by_gateway_payment gateway k s
             end
        else None
    | None => None
    end in
  let by_identity (candidate : option string) :=
    match candidate with
    | Some c =>
        if truthy c
        then match uuid_of_string (strip c) ≫= λ id, get_locked_link id s with
             | Some id => Some id
             | None => link_by_number (strip c) s
             end
        else None
    | None => None
    end in
  match first_some by_gateway [identifier; payment_id] with
  | Some id => Some id
  | None => first_some by_identity [reference_id; identifier; payment_id]
  end.

(** ** A paid booking *)

(** The columns a payment puts on its booking. *)
Definition settled_booking (link_id : Z) (link : PaymentLink) (paid_at : Z) (b : Booking) : Booking :=
  b <| bk_payment_status := "success" |>
    <| bk_payment_id := if truthy_opt link.(pl_gateway_payment_id)
                        then ref_of_text <$> link.(pl_gateway_payment_id) else b.(bk_payment_id) |>
    <| bk_payment_provider := Some link.(pl_provider_label) |>
    <| bk_payment_provider_group := provider_group_for (Some link.(pl_gateway)) |>
    <| bk_payment_source := Some link.(pl_gateway) |>
    <| bk_payment_link_id := Some link_id |>
    <| bk_payment_method := por link.(pl_payment_method) b.(bk_payment_method) |>
    <| bk_payment_url := link.(pl_payment_url) |>
    <| bk_payment_data := Some (dict_merge (or_empty b.(bk_payment_data)) [
         ("payment_link_id", JStr (uuid_str link_id)); ("gateway_invoice_id", opt_str link.(pl_gateway_invoice_id));
         ("gateway_payment_id", opt_str link.(pl_gateway_payment_id));
         ("transaction_id", opt_str link.(pl_transaction_id)); ("paid_at", JInt paid_at)]) |>
    <| bk_invoice_number := if truthy_opt link.(pl_invoice_number) && negb (truthy_opt b.(bk_invoice_number))
                            then link.(pl_invoice_number) else b.(bk_invoice_number) |>.

(** [a or b] on optional integers. *)
Definition or_opt_int (a : option Z) (b : Z) : Z := match a with Some z => or_int z b | None => b end.

(** The row a paid link creates for its booking. *)
Definition booking_payment (link_id : Z) (link : PaymentLink) (bid : Z) (b : Booking) (number : string)
    (paid_at : Z) (id : Z) : Payment :=
  mk_payment id (Some bid) b.(bk_customer_id) link.(pl_amount) 0 link.(pl_currency) (Some "success")
    (Some link.(pl_provider_label)) (Some link.(pl_gateway)) link.(pl_gateway_payment_id)
    link.(pl_gateway_invoice_id) (por link.(pl_invoice_number) b.(bk_invoice_number))
    link.(pl_transaction_id)
    (Some [("payment_link_id", JStr (uuid_str link_id)); ("gateway", JStr link.(pl_gateway))]) paid_at
    number b.(bk_customer_data) (Some b.(bk_service_id)) b.(bk_service_data) b.(bk_branch_id)
    b.(bk_branch_data) b.(bk_service_arrangement_id) b.(bk_service_arrangement_data)
    (or_opt_int b.(bk_total_duration) b.(bk_duration_minutes)) (Some paid_at) None None None None
    (Some link.(pl_amount)) link.(pl_payment_url) link.(pl_track_id) link.(pl_reference_id)
    (Some "SUCCESS") (Some (por_str link.(pl_payment_method) "card")) (Some "ushdesk")
    (provider_group_for (Some link.(pl_gateway))) (Some link.(pl_gateway)) (Some link_id)
    (Some (if truthy b.(bk_booking_type) then b.(bk_booking_type) else "branch_service"))
    link.(pl_created_by) link.(pl_created_by_data) (no_details <| pd_transaction_date := Some (isoformat 0 paid_at) |>).

(** The audit row of a new payment. *)
Definition link_history (link_id : Z) (link : PaymentLink) (payment_id : Z) (status : option string) : PaymentStatusHistory :=
  mk_history payment_id None (default "" status) "payment_link"
    (por link.(pl_gateway_payment_id) link.(pl_gateway_invoice_id)) (Some (uuid_str link_id)) None
    (Some (por_str link.(pl_created_by) "payment_link")) link.(pl_created_by_data).

(** A payment row the booking already has. *)
Definition paid_again (link_id : Z) (link : PaymentLink) (paid_at : Z) (p : Payment) : Payment :=
  p <| pm_status := Some "success" |>
    <| pm_payment_id := por link.(pl_gateway_payment_id) p.(pm_payment_id) |>
    <| pm_transaction_id := por link.(pl_transaction_id) p.(pm_transaction_id) |>
    <| pm_invoice_id := por link.(pl_gateway_invoice_id) p.(pm_invoice_id) |>
    <| pm_transaction_status := Some "SUCCESS" |> <| pm_paid_at := Some paid_at |>
    <| pm_payment_provider := Some link.(pl_provider_label) |>
    <| pm_payment_provider_group := provider_group_for (Some link.(pl_gateway)) |>
    <| pm_payment_source := Some link.(pl_gateway) |> <| pm_payment_link_id := Some link_id |>
    <| pm_payment_method := por link.(pl_payment_method) p.(pm_payment_method) |>.

Definition confirm_booking (link : PaymentLink) (bid : Z) (old_status : string) : M Store () :=
  when (old_status in? [value Booking.REQUESTED; value Booking.PAYMENT_PENDING; value Booking.DRAFT])
    (upd_booking bid (λ b, b <| bk_status := value Booking.CONFIRMED |>) ;;
     add_booking_history (mk_booking_history bid (Some old_status) (value Booking.CONFIRMED)
       (Some ("payment_link_" ++ link.(pl_gateway))%string)
       (Some "Payment link settled via webhook/callback"))).

(** The payment row of the booking, created or updated. *)
Definition record_booking_payment (link_id : Z) (link : PaymentLink) (bid : Z) (paid_at : Z) : M Store Z :=
  b ← get_booking_row bid;
  payment ← gets (λ s, newest_key (λ p, p.(pm_booking_id) ==? Some bid) pm_created_at s.(payments));
  match payment with
  | None =>
      s ← get;
      let number := generate_payment_number s.(now) (pm_payment_number <$> rows s.(payments)) in
      pid ← insert_payment (booking_payment link_id link bid b number paid_at);
      p ← get_payment_row pid;
      add_history (link_history link_id link pid p.(pm_status)) ;;
      mret pid
  | Some pid => upd_payment pid (paid_again link_id link paid_at) ;; flush_payment pid ;; mret pid
  end.

Definition settle_booking (link_id paid_at : Z) : M Store (list Event) :=
  link ← get_link_row link_id;
  let bid := link.(pl_target_id) in
  booking ← gets (λ s, s.(bookings) !! bid);
  booking ← some_or_raise booking (err ValidationError);
  raise_if (booking.(bk_status) in? NOT_PAYABLE_BOOKING) (err BookingStateError) ;;
  confirm_booking link bid booking.(bk_status) ;;
  upd_booking bid (settled_booking link_id link paid_at) ;;
  flush_booking bid ;;
  pid ← record_booking_payment link_id link bid paid_at;
  upd_link link_id (λ l, l <| pl_payment_row_id := Some pid |>) ;;
  mret [PaymentLinkPaidEvent link_id bid link.(pl_gateway_payment_id) link.(pl_amount)].

(** ** A paid gift voucher *)

Definition voucher_payment (link_id : Z) (link : PaymentLink) (vid : Z) (v : GiftVoucher) (number : string)
    (paid_at : Z) (id : Z) : Payment :=
  mk_payment id None v.(gv_sender_id) link.(pl_amount) 0 link.(pl_currency) (Some "success")
    (Some link.(pl_provider_label)) None link.(pl_gateway_payment_id) link.(pl_gateway_invoice_id)
    link.(pl_invoice_number) link.(pl_transaction_id)
    (Some [("payment_link_id", JStr (uuid_str link_id)); ("gateway", JStr link.(pl_gateway))]) paid_at
    number v.(gv_sender_data) v.(gv_service_id) (Some v.(gv_service_data)) v.(gv_branch_id)
    v.(gv_branch_data) v.(gv_service_arrangement_id) v.(gv_service_arrangement_data)
    v.(gv_total_duration) (Some paid_at) v.(gv_recipient_phone) v.(gv_recipient_data) (Some vid)
    v.(gv_voucher_number) (Some link.(pl_amount)) link.(pl_payment_url) link.(pl_track_id)
    link.(pl_reference_id) (Some "SUCCESS") (Some (por_str link.(pl_payment_method) "payment_link"))
    (Some "ushdesk") (provider_group_for (Some link.(pl_gateway))) (Some link.(pl_gateway)) (Some link_id)
    (Some "gift_voucher") link.(pl_created_by) link.(pl_created_by_data)
    (no_details <| pd_transaction_date := Some (isoformat 0 paid_at) |>).

(** [_create_voucher_payment]. *)
Definition create_voucher_payment (link_id : Z) (link : PaymentLink) (vid : Z) (v : GiftVoucher) (paid_at : Z) : M Store Z :=
  s ← get;
  let number := generate_payment_number s.(now) (pm_payment_number <$> rows s.(payments)) in
  pid ← insert_payment (voucher_payment link_id link vid v number paid_at);
  p ← get_payment_row pid;
  add_history (link_history link_id link pid p.(pm_status)) ;;
  mret pid.

Definition voucher_paid_again (link_id : Z) (link : PaymentLink) (v : GiftVoucher) (paid_at : Z) (p : Payment) : Payment :=
  p <| pm_status := Some "success" |> <| pm_paid_at := Some paid_at |>
    <| pm_payment_id := por link.(pl_gateway_payment_id) p.(pm_payment_id) |>
    <| pm_transaction_id := por link.(pl_transaction_id) p.(pm_transaction_id) |>
    <| pm_track_id := por link.(pl_track_id) p.(pm_track_id) |>
    <| pm_reference_id := por link.(pl_reference_id) p.(pm_reference_id) |>
    <| pm_payment_provider := por (Some link.(pl_provider_label)) p.(pm_payment_provider) |>
    <| pm_payment_provider_group := por (provider_group_for (Some link.(pl_gateway))) p.(pm_payment_provider_group) |>
    <| pm_payment_source := por (Some link.(pl_gateway)) p.(pm_payment_source) |>
    <| pm_payment_link_id := Some link_id |>
    <| pm_payment_method := por link.(pl_payment_method) p.(pm_payment_method) |>
    <| pm_payment_url := por link.(pl_payment_url) p.(pm_payment_url) |>
    <| pm_invoice_number := if truthy_opt link.(pl_invoice_number) && negb (truthy_opt p.(pm_invoice_number))
                            then link.(pl_invoice_number) else p.(pm_invoice_number) |>
    <| pm_voucher_number := if truthy_opt v.(gv_voucher_number) && negb (truthy_opt p.(pm_voucher_number))
                            then v.(gv_voucher_number) else p.(pm_voucher_number) |>.

(** The snapshot of the payment on the voucher. *)
Definition payment_snapshot (link_id : Z) (link : PaymentLink) (pid : Z) (p : Payment) (paid_at : Z) : jdict := [
  ("payment_id", JStr (por_str link.(pl_gateway_payment_id) (uuid_str pid)));
  ("payment_number", JStr p.(pm_payment_number));
  ("invoice_id", opt_str (por link.(pl_gateway_invoice_id) p.(pm_invoice_id)));
  ("invoice_number", opt_str (por link.(pl_invoice_number) p.(pm_invoice_number)));
  ("payment_link_id", JStr (uuid_str link_id)); ("status", opt_str p.(pm_status));
  ("payment_provider", JStr link.(pl_provider_label)); ("payment_method", opt_str link.(pl_payment_method));
  ("payment_url", opt_str link.(pl_payment_url)); ("transaction_id", opt_str link.(pl_transaction_id));
  ("track_id", opt_str link.(pl_track_id)); ("reference_id", opt_str link.(pl_reference_id));
  ("paid_at", JInt paid_at)].

(** The keyword arguments of the voucher's [update_status]. *)
Definition activation_args (link : PaymentLink) (pid : Z) (snapshot : jdict) : StatusArgs :=
  no_args
    <| st_payment_id := Some (por_str (por link.(pl_gateway_payment_id) link.(pl_gateway_invoice_id)) (uuid_str pid)) |>
    <| st_payment_data := Some snapshot |> <| st_payment_url := link.(pl_payment_url) |>
    <| st_payment_provider := Some link.(pl_provider_label) |> <| st_payment_through := Some "ushdesk" |>
    <| st_actor_id := link.(pl_created_by) |>.

Definition settle_voucher (link_id paid_at : Z) : M Store () :=
  link ← get_link_row link_id;
  let vid := link.(pl_target_id) in
  voucher ← gets (λ s, s.(vouchers) !! vid);
  v ← some_or_raise voucher (err ValidationError);
  payment ← gets (λ s, newest_key (λ p, p.(pm_voucher_id) ==? Some vid) pm_created_at s.(payments));
  pid ← match payment with
        | None => create_voucher_payment link_id link vid v paid_at
        | Some pid => upd_payment pid (voucher_paid_again link_id link v paid_at) ;; flush_payment pid ;; mret pid
        end;
  upd_link link_id (λ l, l <| pl_payment_row_id := Some pid |>) ;;
  p ← get_payment_row pid;
  GiftVoucherService.update_status schedule_answer vid (value Voucher.ACTIVE)
    (activation_args link pid (payment_snapshot link_id link pid p paid_at)).

(** ** Outcomes *)

(** [abs(state.amount - expected) > _AMOUNT_TOLERANCE]. *)
Definition amount_differs (amount : Decimal) (expected : Z) : bool :=
  dec_ltb AMOUNT_TOLERANCE (dec_abs (dec_sub amount (of_fils expected))).

(** The columns of a link that was paid. *)
Definition paid_link (state : GatewayPaymentState) (source : string) (now_ : Z) (l : PaymentLink) : PaymentLink :=
  l <| pl_status := value Link.PAID |> <| pl_paid_at := Some now_ |>
    <| pl_gateway_payment_id := por state.(gs_payment_id) l.(pl_gateway_payment_id) |>
    <| pl_transaction_id := por state.(gs_transaction_id) l.(pl_transaction_id) |>
    <| pl_track_id := por state.(gs_track_id) l.(pl_track_id) |>
    <| pl_reference_id := por state.(gs_reference_id) l.(pl_reference_id) |>
    <| pl_payment_method := por state.(gs_payment_method) l.(pl_payment_method) |>
    <| pl_webhook_data := Some (settled_state state source now_) |> <| pl_failure_data := None |>.

(** [state.amount or link.amount]. *)
Definition refund_amount (state : GatewayPaymentState) (link : PaymentLink) : Decimal :=
  match state.(gs_amount) with
  | Some a => if a.(coeff) =? 0 then of_fils link.(pl_amount) else a
  | None => of_fils link.(pl_amount)
  end.

(** The automatic refund of a payment that cannot be used; whether it went
    through is kept as a note. *)
Definition auto_refund (link_id : Z) (state : GatewayPaymentState) : M Store () :=
  upd_link link_id (λ l, l <| pl_status := value Link.REFUNDED |>) ;;
  link ← get_link_row link_id;
  let inv_key := por_str (por link.(pl_gateway_invoice_id) link.(pl_gateway_payment_id))
                   (por_str (por state.(gs_invoice_id) state.(gs_payment_id)) "") in
  refunded ← try_except
    (gw ← lift (get_gateway link.(pl_gateway));
     (if truthy inv_key then refund_payment gw inv_key (refund_amount state link) ;; mret () else mret ()) ;;
     mret true)
    (λ _, true) (λ _, mret false);
  upd_link link_id (λ l, l <| pl_meta := Some (dict_set (or_empty l.(pl_meta)) "needs_attention"
    (JStr (if refunded : bool then "auto-refunded" else "auto-refund error"))) |>).

Definition settle_target (link_id now_ : Z) : M Store (list Event) :=
  link ← get_link_row link_id;
  if String.eqb link.(pl_target_type) Link.BOOKING then settle_booking link_id now_
  else if String.eqb link.(pl_target_type) Link.GIFT_VOUCHER then settle_voucher link_id now_ ;; mret []
  else mret [].

(** [except (BookingStateError, ValidationError)]. *)
Definition not_activatable (e : exn) : bool := isinstance e BookingStateError || isinstance e ValidationError.

Definition apply_paid (link_id : Z) (state : GatewayPaymentState) (source : string) : M Store (SettlementOutcome * list Event) :=
  link ← get_link_row link_id;
  if link.(pl_status) in? Link.SETTLED then mret (ALREADY_SETTLED, [])
  else if match state.(gs_amount) with Some a => amount_differs a link.(pl_amount) | None => false end then
    upd_link link_id (λ l, l <| pl_meta := Some (dict_set (or_empty l.(pl_meta)) "amount_mismatch"
      (JDict [("expected", JStr (dec_str (of_fils link.(pl_amount))));
              ("received", opt_str (dec_str <$> state.(gs_amount)))])) |>) ;;
    mret (AMOUNT_MISMATCH, [])
  else
    now_ ← gets now;
    upd_link link_id (paid_link state source now_) ;;
    try_except
      (events ← settle_target link_id now_; mret (SETTLED, events))
      not_activatable
      (λ _, auto_refund link_id state ;; mret (FAILURE_RECORDED, [])).

(** [_record_failure]. *)
Definition record_failure (link_id : Z) (state : GatewayPaymentState) (source : string) : M Store (SettlementOutcome * list Event) :=
  link ← get_link_row link_id;
  if link.(pl_status) in? Link.SETTLED then mret (ALREADY_SETTLED, [])
  else
    now_ ← gets now;
    upd_link link_id (λ l, l
      <| pl_status := value Link.FAILED |>
      <| pl_payment_method := por state.(gs_payment_method) l.(pl_payment_method) |>
      <| pl_failure_data := Some [("reason", opt_str state.(gs_failure_reason));
           ("payment_method", opt_str state.(gs_payment_method)); ("source", JStr source); ("at", JInt now_)] |>
      <| pl_webhook_data := Some (settled_state state source now_) |>) ;;
    mret (FAILURE_RECORDED,
      if String.eqb link.(pl_target_type) Link.BOOKING
      then [PaymentLinkFailedEvent link_id link.(pl_target_id) state.(gs_failure_reason) link.(pl_amount)]
      else []).

Definition close_link (link_id : Z) (status : Link.PaymentLinkStatus) : M Store (SettlementOutcome * list Event) :=
  link ← get_link_row link_id;
  when (negb (link.(pl_status) in? Link.SETTLED)) (upd_link link_id (λ l, l <| pl_status := value status |>)) ;;
  mret (PENDING, []).

Definition apply (link_id : Z) (state : GatewayPaymentState) (source : string) : M Store (SettlementOutcome * list Event) :=
  match state.(gs_status) with
  | Outcome.PAID => apply_paid link_id state source
  | Outcome.FAILED => record_failure link_id state source
  | Outcome.EXPIRED => close_link link_id Link.EXPIRED
  | Outcome.CANCELED => close_link link_id Link.CANCELLED
  | Outcome.PENDING => mret (PENDING, [])
  end.

(** [publish_pending_events]; a publication that fails is logged. *)
Definition publish_pending_events (events : list Event) : M Store () := for_each events publish.
End settlement.
