(* ===== verification/LinkService.v ===== *)
(** * Creating and cancelling payment links
    (app/payment_links/application/link_service.py)

    The customer's contact and the description a gateway request carries are
    for the payment page and left out; the request and response copies of a
    link are not kept.  [create_link] commits a failed attempt before it
    raises: it returns that exception as a value, which the endpoint raises
    after the commit. *)

From S2P Require Import Prelude Exceptions Effects StateMachines Money Numbers Store PyText PyDate Attribution.
From S2P Require Import VoucherSnapshot VoucherService RefundService LinkGateway LinkAdapters Settlement.
#[local] Open Scope Z_scope.

Definition PAID_BOOKING_STATUSES : list string := ["success"; "refunded"; "partially_refunded"; "rewarded"].
Definition BOOKING_LINKABLE : list string := ["confirmed"; "payment_pending"; "draft"; "requested"; "payment_failed"; "cancelled"].

Definition normalise_target_type (target_type : string) : string :=
  if String.eqb target_type "voucher" then Link.GIFT_VOUCHER else target_type.

(** A booking or a gift voucher, by its key. *)
Inductive Target := TBooking (id : Z) | TVoucher (id : Z).

(** [f"PL-{now:%y%m%d}-{secrets.token_hex(3).upper()}"]. *)
Definition link_number (now_ : Z) (token : string) : string :=
  let day := now_ / us_per_day in
  let '(y, m) := year_month day in
  ("PL-" ++ fixed_width 2 (y mod 100) ++ fixed_width 2 m ++ fixed_width 2 (day_of_month day) ++ "-" ++ upper token)%string.

(** What a [Numeric(_, 3)] column stores: fils, halves away from zero. *)
Definition db_fils (d : Decimal) : Z :=
  let e := d.(exp) + 3 in
  if 0 <=? e then d.(coeff) * 10 ^ e
  else let p := 10 ^ (- e) in
       Z.sgn d.(coeff) * ((2 * Z.abs d.(coeff) + p) / (2 * p)).

(** What a [Numeric(10, 3)] column takes: fils, below ten digits; PostgreSQL
    refuses more. *)
Definition numeric_10_3 (d : Decimal) : result Z :=
  let z := db_fils d in if 10 ^ 10 <=? Z.abs z then Raise (err PythonException) else Ok z.

(** [Decimal(str(x))] of a JSON value; [InvalidOperation] otherwise (also for
    infinities and NaN). *)
Definition json_decimal (j : json) : option Decimal := parse_number (json_str j).

(** A key that no link has had ([uuid.uuid4()]): link rows are deleted, and the
    events name the ones that were. *)
Definition event_link (e : Event) : Z :=
  match e with PaymentLinkPaidEvent id _ _ _ | PaymentLinkFailedEvent id _ _ _ => id | _ => 0 end.
Definition new_link_id (s : Store) : Z :=
  foldr (λ e acc, Z.max (event_link e + 1) acc) (new_id s.(payment_links)) s.(events).

(** The request to create a link. *)
Record CreateLink := mk_create_link {
  cl_target_type : string; cl_target_id : Z; cl_amount : option Decimal; cl_actor_id : string;
  cl_actor_data : option jdict; cl_invoice_id : option string; cl_invoice_number : option string;
  cl_force_new : bool; cl_expiry_minutes : option Z; cl_token : string }.

Module PaymentLinkService.
Section service.
Context `{World}.
Context (PAYMENT_LINK_EXPIRY_MINUTES : Z).

Definition get_link (link_id : Z) : M Store PaymentLink :=
  l ← gets (λ s, s.(payment_links) !! link_id);
  some_or_raise l (err NotFoundError).

Definition list_for_target (target_type : string) (target_id : Z) (s : Store) : list PaymentLink :=
  sorted_by (λ l, - l.(pl_created_at))
    (List.filter (λ l, String.eqb l.(pl_target_type) (normalise_target_type target_type) &&
                       (l.(pl_target_id) =? target_id)) (rows s.(payment_links))).

Definition is_expired (now_ : Z) (link : PaymentLink) : bool :=
  match link.(pl_expires_at) with Some t => t <=? now_ | None => false end.

(** ** Loading the target *)

Definition load_booking (booking_id : Z) : M Store Target :=
  b ← gets (λ s, s.(bookings) !! booking_id);
  b ← some_or_raise b (err NotFoundError);
  let status_val := lower b.(bk_status) in
  raise_if (negb (b.(bk_status) in? BOOKING_LINKABLE) && negb (status_val in? BOOKING_LINKABLE)) (err ValidationError) ;;
  raise_if (negb (String.eqb status_val "cancelled") &&
            ((b.(bk_payment_status) in? PAID_BOOKING_STATUSES) ||
             (truthy b.(bk_payment_status) && (lower b.(bk_payment_status) in? PAID_BOOKING_STATUSES))))
    (err ValidationError) ;;
  mret (TBooking booking_id).

Definition load_voucher (voucher_id : Z) : M Store Target :=
  v ← gets (λ s, s.(vouchers) !! voucher_id);
  v ← some_or_raise v (err NotFoundError);
  raise_if (negb (v.(gv_status) in? [value Voucher.CREATED; value Voucher.PAYMENT_PENDING])) (err ValidationError) ;;
  mret (TVoucher voucher_id).

Definition load_target (canonical : string) (target_id : Z) : M Store Target :=
  if String.eqb canonical Link.BOOKING then load_booking target_id
  else if String.eqb canonical Link.GIFT_VOUCHER then load_voucher target_id
  else raise (err ValidationError).

(** ** The amount *)

(** For a cancelled booking the refund noted in its payment data; a booking
    without payment data has no attribute [payments_data] to fall back on
    ([AttributeError]). *)
Definition cancelled_amount (b : Booking) : M Store Decimal :=
  match or_empty b.(bk_payment_data) with
  | [] => raise (err PythonException)
  | d =>
      let ref_amt := if jtruthy (dict_get d "refund_amount") then dict_get d "refund_amount"
                     else dict_get d "refunded_amount" in
      match ref_amt with
      | None | Some JNull => mret (of_fils b.(bk_total_amount))
      | Some j => some_or_raise (json_decimal j) (err ArithmeticError)
      end
  end.

Definition resolve_amount (target : Target) (amount : option Decimal) : M Store Decimal :=
  match amount, target with
  | Some a, _ => mret a
  | None, TBooking id =>
      b ← get_booking_row id;
      if String.eqb b.(bk_status) "cancelled" then cancelled_amount b
      else mret (of_fils b.(bk_total_amount))
  | None, TVoucher id => v ← get_voucher_row id; mret (of_fils v.(gv_total_amount))
  end.

(** ** An open link of the target *)

Definition find_open_link (target_type : string) (target_id : Z) (s : Store) : option Z :=
  newest_key (λ l, String.eqb l.(pl_target_type) target_type && (l.(pl_target_id) =? target_id) &&
                   (l.(pl_status) in? Link.OPEN_STATUSES)) pl_created_at s.(payment_links).

Definition delete_row (link_id : Z) : M Store () :=
  modify (λ s, s <| payment_links := delete link_id s.(payment_links) |>).

(** Best effort: the gateway's refusal is logged. *)
Definition cancel_at_gateway (gw : Gateway) (link : PaymentLink) : M Store () :=
  when (truthy_opt link.(pl_gateway_invoice_id)) (cancel_gateway_link gw (default "" link.(pl_gateway_invoice_id))).

(** The existing open link: returned when it can be reused, replaced when not;
    one at another gateway that is still payable is a conflict. *)
Definition settle_existing (gw : Gateway) (existing : option Z) (amount : Decimal) (force_new : bool) : M Store (option Z) :=
  match existing with
  | None => mret None
  | Some id =>
      l ← get_link_row id;
      now_ ← gets now;
      raise_if (negb (String.eqb l.(pl_gateway) gw.(gw_name)) &&
                (l.(pl_status) in? [value Link.CREATED; value Link.PENDING]) &&
                truthy_opt l.(pl_payment_url) && negb (is_expired now_ l))
        (err_code ConflictError "ACTIVE_PAYMENT_LINK_EXISTS") ;;
      let reusable := truthy_opt l.(pl_payment_url) && negb (is_expired now_ l) &&
                      String.eqb l.(pl_gateway) gw.(gw_name) &&
                      dec_leb (of_fils l.(pl_amount)) amount && dec_leb amount (of_fils l.(pl_amount)) in
      if reusable && negb force_new then mret (Some id)
      else cancel_at_gateway gw l ;; delete_row id ;; mret None
  end.

(** ** The accounting invoice *)

Definition blank_to_none (o : option string) : option string :=
  match o with Some t => if truthy (strip t) then Some t else None | None => None end.

(** [_resolve_invoice]; the lookup must never block the link. *)
Definition resolve_invoice (target : Target) (invoice_id invoice_number : option string) : M Store (option string * option string) :=
  match target with
  | TVoucher _ => mret (invoice_id, invoice_number)
  | TBooking bid =>
      b ← get_booking_row bid;
      let invoice_number := por invoice_number b.(bk_invoice_number) in
      if truthy_opt invoice_id && truthy_opt invoice_number then mret (invoice_id, invoice_number)
      else
        found ← try_except
          (existing ← get_invoice_by_source bid;
           match existing with
           | Some (iid, name) =>
               if truthy name then
                 when (negb (truthy_opt b.(bk_invoice_number)))
                   (upd_booking bid (λ b, b <| bk_invoice_number := Some name |>) ;; flush_booking bid) ;;
                 mret (Some (iid, name))
               else mret None
           | None => mret None
           end)
          (λ _, true) (λ _, mret None);
        match found with
        | Some (iid, name) => mret (por invoice_id (if truthy_opt iid then iid else None), por invoice_number (Some name))
        | None => mret (invoice_id, invoice_number)
        end
  end.

(** ** The row *)

Definition new_link (gw : Gateway) (c : CreateLink) (canonical : string) (target_ref : option string) (customer_id : Z)
    (currency : string) (amount : Decimal) (invoice_id invoice_number : option string) (now_ : Z) : PaymentLink :=
  mk_link (Some (link_number now_ c.(cl_token))) canonical c.(cl_target_id) target_ref invoice_id invoice_number
    gw.(gw_name) gw.(gw_provider_label) None None (db_fils amount) 0
    (if truthy currency then currency else "KWD") (value Link.CREATED) (Some customer_id) None None None
    None None None None None None (Some c.(cl_actor_id)) c.(cl_actor_data)
    (Some (now_ + 60 * 1000000 *
             (match c.(cl_expiry_minutes) with Some 0 | None => PAYMENT_LINK_EXPIRY_MINUTES | Some m => m end)))
    None now_.

(** [session.add(link)] and its flush: the number is unique. *)
Definition insert_link (l : PaymentLink) : M Store Z :=
  s ← get;
  raise_if (existsb (λ k, k.(pl_link_number) ==? l.(pl_link_number)) (rows s.(payment_links))) (err PythonException) ;;
  let id := new_link_id s in
  modify (λ s, s <| payment_links := <[id := l]> s.(payment_links) |>) ;;
  mret id.

(** [_attach_link_to_target]. *)
Definition attach_link_to_target (target : Target) (link_id : Z) (actor_id : string) : M Store () :=
  link ← get_link_row link_id;
  match target with
  | TBooking bid =>
      upd_booking bid (λ b, b <| bk_payment_url := link.(pl_payment_url) |>
        <| bk_payment_provider := Some link.(pl_provider_label) |>
        <| bk_payment_provider_group := provider_group_for (Some link.(pl_gateway)) |>
        <| bk_payment_source := Some link.(pl_gateway) |> <| bk_payment_link_id := Some link_id |>) ;;
      flush_booking bid
  | TVoucher vid =>
      upd_voucher vid (λ v, v <| gv_payment_url := link.(pl_payment_url) |>
                              <| gv_payment_provider := Some link.(pl_provider_label) |>) ;;
      v ← get_voucher_row vid;
      if String.eqb v.(gv_status) (value Voucher.CREATED) then
        GiftVoucherService.update_status schedule_answer vid (value Voucher.PAYMENT_PENDING)
          (no_args <| st_payment_url := link.(pl_payment_url) |>
                   <| st_payment_provider := Some link.(pl_provider_label) |>
                   <| st_actor_id := Some actor_id |>)
      else flush_voucher vid
  end.

(** The new row, the call to the gateway, and its answer on the row. *)
Definition issue_link (gw : Gateway) (c : CreateLink) (canonical : string) (target : Target) (amount : Decimal)
    (invoice_id invoice_number : option string) : M Store (result Z) :=
  now_ ← gets now;
  '(target_ref, customer_id, currency) ←
    match target with
    | TBooking id => b ← get_booking_row id; mret (b.(bk_booking_number), b.(bk_customer_id), b.(bk_currency))
    | TVoucher id => v ← get_voucher_row id; mret (v.(gv_voucher_number), v.(gv_sender_id), v.(gv_currency))
    end;
  id ← insert_link (new_link gw c canonical target_ref customer_id currency amount invoice_id invoice_number now_);
  answer ← try_except (r ← create_gateway_link gw id amount; mret (Ok r))
             (λ e, isinstance e PaymentProviderError) (λ e, mret (Raise e));
  match answer with
  | Raise e =>
      upd_link id (λ l, l <| pl_status := value Link.FAILED |>
        <| pl_failure_data := Some [("stage", JStr "create_link"); ("code", JStr e.(exn_code)); ("at", JInt now_)] |>) ;;
      mret (Raise e)
  | Ok r =>
      upd_link id (λ l, l <| pl_gateway_invoice_id := Some r.(lr_gateway_invoice_id) |>
        <| pl_payment_url := Some r.(lr_payment_url) |> <| pl_status := value Link.PENDING |>) ;;
      attach_link_to_target target id c.(cl_actor_id) ;;
      mret (Ok id)
  end.

Definition create_link (gw : Gateway) (c : CreateLink) : M Store (result Z) :=
  let canonical := normalise_target_type c.(cl_target_type) in
  target ← load_target canonical c.(cl_target_id);
  amount ← resolve_amount target c.(cl_amount);
  raise_if (dec_leb amount ZERO) (err ValidationError) ;;
  existing ← gets (find_open_link canonical c.(cl_target_id));
  reused ← settle_existing gw existing amount c.(cl_force_new);
  match reused with
  | Some id => mret (Ok id)
  | None =>
      '(invoice_id, invoice_number) ← resolve_invoice target (blank_to_none c.(cl_invoice_id))
                                        (blank_to_none c.(cl_invoice_number));
      issue_link gw c canonical target amount invoice_id invoice_number
  end.

(** ** Renewal and synchronisation *)

Definition renew_link (gw : Gateway) (link_id : Z) (actor_id : string) (actor_data : option jdict)
    (expiry_minutes : option Z) (token : string) : M Store (result Z) :=
  old ← get_link link_id;
  raise_if (old.(pl_status) in? Link.SETTLED) (err ValidationError) ;;
  now_ ← gets now;
  raise_if (negb ((old.(pl_status) in? [value Link.EXPIRED; value Link.CANCELLED; value Link.FAILED]) ||
                  is_expired now_ old)) (err ValidationError) ;;
  create_link gw (mk_create_link old.(pl_target_type) old.(pl_target_id) (Some (of_fils old.(pl_amount))) actor_id
    actor_data old.(pl_invoice_id) old.(pl_invoice_number) true expiry_minutes token).

Definition sync_status (gw : Gateway) (link_id : Z) : M Store (list Event) :=
  link ← get_link link_id;
  if negb (link.(pl_status) in? Link.OPEN_STATUSES) || negb (truthy_opt link.(pl_gateway_invoice_id)) then mret []
  else
    state ← get_payment_state gw (default "" link.(pl_gateway_invoice_id));
    r ← apply link_id state "manual_sync";
    mret (snd r).

(** ** Cancelling and deleting *)

Definition cancel_link (gw : Gateway) (link_id : Z) : M Store () :=
  link ← get_link link_id;
  raise_if (negb (link.(pl_status) in? Link.OPEN_STATUSES)) (err ValidationError) ;;
  cancel_at_gateway gw link ;;
  now_ ← gets now;
  upd_link link_id (λ l, l <| pl_status := value Link.CANCELLED |>
    <| pl_meta := Some (dict_merge (or_empty l.(pl_meta))
         [("cancel_reason", JStr "Payment link cancelled by staff"); ("cancelled_at", JInt now_)]) |>).

Definition delete_link (gw : Gateway) (link_id : Z) : M Store () :=
  link ← get_link link_id;
  cancel_at_gateway gw link ;;
  when (String.eqb link.(pl_target_type) Link.BOOKING)
    (b ← gets (λ s, s.(bookings) !! link.(pl_target_id));
     when (match b with Some b => b.(bk_payment_url) ==? link.(pl_payment_url) | None => false end)
       (upd_booking link.(pl_target_id) (λ b, b <| bk_payment_url := None |>) ;;
        flush_booking link.(pl_target_id))) ;;
  delete_row link_id.

Fixpoint cancel_and_delete (gw : Gateway) (links : list (Z * PaymentLink)) : M Store () :=
  match links with
  | [] => mret ()
  | (id, link) :: links => cancel_at_gateway gw link ;; delete_row id ;; cancel_and_delete gw links
  end.

(** [list(d.get("cancelled_invoice_ids", []))], and membership of a text. *)
Definition cancelled_ids (d : jdict) : list json :=
  match dict_get d "cancelled_invoice_ids" with Some (JList l) => l | _ => [] end.
Definition has_text (t : string) (l : list json) : bool :=
  existsb (λ j, match j with JStr t' => String.eqb t' t | _ => false end) l.
Definition add_cancelled (l : list json) (invoice_id : option string) : list json :=
  match invoice_id with
  | Some t => if truthy t && negb (has_text t l) then l ++ [JStr t] else l
  | None => l
  end.

Definition note_cancelled (gw : Gateway) (links : list (Z * PaymentLink)) (booking_id : Z) (b : Booking) : M Store () :=
  let pdata := or_empty b.(bk_payment_data) in
  let cancelled := foldl add_cancelled (cancelled_ids pdata) (pl_gateway_invoice_id ∘ snd <$> links) in
  let gw_inv := if jtruthy (dict_get pdata "gateway_invoice_id") then dict_get pdata "gateway_invoice_id"
                else dict_get pdata "invoice_id" in
  cancelled ←
    match gw_inv with
    | Some j =>
        if jtruthy (Some j) && negb (has_text (json_str j) cancelled)
        then cancel_gateway_link gw (json_str j) ;; mret (cancelled ++ [JStr (json_str j)])
        else mret cancelled
    | None => mret cancelled
    end;
  now_ ← gets now;
  upd_booking booking_id (λ b, b <| bk_payment_url := None |>
    <| bk_payment_data := Some (dict_set (dict_set pdata "cancelled_invoice_ids" (JList cancelled))
                                  "payment_link_cancelled_at" (JInt now_)) |>) ;;
  flush_booking booking_id.

Definition cancel_and_delete_links_for_target (gw : Gateway) (target_type : string) (target_id : Z) : M Store Z :=
  let canonical := normalise_target_type target_type in
  links ← gets (λ s, List.filter (λ '(_, l), String.eqb l.(pl_target_type) canonical && (l.(pl_target_id) =? target_id))
                       (map_to_list s.(payment_links)));
  cancel_and_delete gw links ;;
  when (String.eqb canonical Link.BOOKING)
    (b ← gets (λ s, s.(bookings) !! target_id);
     match b with Some b => note_cancelled gw links target_id b | None => mret () end) ;;
  mret (Z.of_nat (length links)).
End service.
End PaymentLinkService.
