(* ===== verification/LinkWebhook.v ===== *)
(** * Gateway webhooks
    (app/payment_links/application/webhook_service.py)

    A webhook is authenticated, recorded once in the inbox, checked against the
    gateway and settled.  Debug logging and the sanitised copy of the payload
    are left out; the endpoint commits and then publishes the events. *)

From S2P Require Import Prelude Exceptions Effects StateMachines Money Numbers Store PyText Attribution.
From S2P Require Import RefundService LinkGateway LinkAdapters Settlement.
#[local] Open Scope Z_scope.

(** [s[:n]]. *)
Definition take_text (n : nat) (s : string) : string := String.substring 0 n s.

(** A [WebhookRetryRequired] is a [PaymentProviderError]. *)
Definition PAYMENT_NOT_VERIFIED : exn := err_code PaymentProviderError "PAYMENT_NOT_VERIFIED".

Module PaymentWebhookService.
Section service.
Context `{World}.
(** Not in production, and [PAYMENT_WEBHOOK_MAX_AGE_SECONDS]. *)
Context (is_dev : bool) (max_age : Z).

(** [_check_age]: [.get] fails on an event that is not an object, and a date
    that does not parse is let through. *)
Definition check_age (payload : json) : M Store () :=
  if max_age =? 0 then mret ()
  else
    let event := jor (jget payload "Event") (JDict []) in
    raise_if (negb (is_mapping event)) (err PythonException) ;;
    now_ ← gets now;
    match fromisoformat (take_text 26 (replace_all "Z" "+00:00" (json_str (jget event "CreationDate")))) with
    | Some ts => raise_if (max_age * 1000000 <? now_ - ts) (err_code AuthenticationError "STALE_WEBHOOK")
    | None => mret ()
    end.

(** [_claim_event]: [INSERT ... ON CONFLICT DO NOTHING]; nothing for an event
    that is in the inbox. *)
Definition claim_event (gw : Gateway) (event : GatewayWebhookEvent) (reference : string) : M Store (option Z) :=
  s ← get;
  let ref := take_text 150 reference in
  if existsb (λ e, String.eqb e.(we_gateway) gw.(gw_name) && String.eqb e.(we_event_reference) ref)
       (rows s.(payment_webhook_events))
  then mret None
  else
    let id := new_id s.(payment_webhook_events) in
    modify (λ s, s <| payment_webhook_events := <[id := mk_webhook_event gw.(gw_name) ref
      (event_kind_text event.(ge_kind)) event.(ge_invoice_id) None "received" None]> s.(payment_webhook_events) |>) ;;
    mret (Some id).

(** ** Payment events *)

(** What the webhook or the gateway says, and the link it is about. *)
Definition lookup_id (event : GatewayWebhookEvent) : option string :=
  match event.(ge_invoice_id) with
  | Some t => if truthy t then Some t else event.(ge_state) ≫= gs_payment_id
  | None => event.(ge_state) ≫= gs_payment_id
  end.
Definition event_link_reference (event : GatewayWebhookEvent) : option string :=
  if truthy_opt event.(ge_event_reference) then event.(ge_event_reference)
  else (λ st, default "None" st.(gs_reference_id)) <$> event.(ge_state).

(** [_handle_payment_event].  With neither a verified state nor one in the
    event the code names [GatewayPaymentState], which the module does not
    import. *)
Definition handle_payment_event (gw : Gateway) (event : GatewayWebhookEvent) : M Store (string * option Z * list Event) :=
  let source := ("webhook_" ++ gw.(gw_name))%string in
  let lookup := lookup_id event in
  let known := if truthy_opt lookup then lookup else None in
  link ← gets (get_locked_link_by_any_identifier gw.(gw_name) known (event_link_reference event) None);
  verified ← match known with
             | Some k => try_except (st ← get_payment_state gw k; mret (Some st)) (λ _, true) (λ _, mret None)
             | None => mret None
             end;
  link ← match link, verified with
         | None, Some st =>
             if truthy_opt st.(gs_invoice_id)
             then gets (get_locked_link_by_any_identifier gw.(gw_name) st.(gs_invoice_id)
                          (Some (por_str st.(gs_reference_id) "")) None)
             else mret None
         | _, _ => mret link
         end;
  match link with
  | None => mret ("ignored", None, [])
  | Some id =>
      let current_status := match verified with Some st => Some st.(gs_status) | None => event.(ge_status) end in
      let state_to_use := match verified with Some st => Some st | None => event.(ge_state) end in
      if (current_status ==? Some Outcome.PAID) || (event.(ge_status) ==? Some Outcome.PAID) then
        raise_if (match verified with Some st => st.(gs_status) !=? Outcome.PAID | None => false end)
          PAYMENT_NOT_VERIFIED ;;
        merged ←
          match verified with
          | Some st => mret (if truthy_opt st.(gs_payment_id) then st else default st event.(ge_state))
          | None => match event.(ge_state) with
                    | Some st => mret st
                    | None => raise (err PythonException)
                    end
          end;
        '(outcome, events) ← apply id merged source;
        mret (outcome_text outcome, Some id, events)
      else
        match current_status ==? Some Outcome.FAILED, state_to_use with
        | true, Some st =>
            '(outcome, events) ← apply id st source;
            mret (outcome_text outcome, Some id, events)
        | _, _ => mret (outcome_text PENDING, Some id, [])
        end
  end.

(** ** Refund events *)

Definition find_payment_for_update (gw : Gateway) (invoice_id : option string) (s : Store) : option Z :=
  match invoice_id with
  | Some t =>
      if truthy t
      then newest_key (λ p, (p.(pm_invoice_id) ==? Some t) && (p.(pm_payment_provider) ==? Some gw.(gw_provider_label)))
             pm_created_at s.(payments)
      else None
  | None => None
  end.

(** The refund a gateway cancelled, taken back from its payment. *)
Definition revert_refund (gw : Gateway) (event : GatewayWebhookEvent) (pid : Z) (r : Refund) : M Store () :=
  upd_refund r.(rf_id) (λ r, r <| rf_status := FAILED |>) ;;
  old ← get_payment_row pid;
  let left := Z.max 0 (old.(pm_amount_refunded) - r.(rf_refunded_amount)) in
  let status := if left =? 0 then "success" else "partially_refunded" in
  upd_payment pid (λ p, p <| pm_amount_refunded := left |> <| pm_status := Some status |>) ;;
  add_history (mk_history pid old.(pm_status) status ("webhook_" ++ gw.(gw_name))%string event.(ge_refund_id)
    None None (Some ("webhook_" ++ gw.(gw_name))%string) None) ;;
  upd_payment pid (λ p, p <| pm_payment_data := Some (dict_set (or_empty p.(pm_payment_data)) "needs_attention"
    (JStr ("Refund " ++ r.(rf_refund_number) ++ " was cancelled by the gateway.")%string)) |>) ;;
  flush_payment pid.

Definition handle_refund_event (gw : Gateway) (event : GatewayWebhookEvent) : M Store (string * option Z * list Event) :=
  payment ← gets (find_payment_for_update gw event.(ge_invoice_id));
  match payment with
  | None => mret ("ignored", None, [])
  | Some pid =>
      refund ←
        (if truthy_opt event.(ge_refund_id) then
           l ← gets (λ s, List.filter (λ r, (r.(rf_payment_id) ==? Some pid) &&
                             (r.(rf_gateway_refund_id) ==? event.(ge_refund_id))) (rows s.(refunds)));
           RefundService.scalar_one_or_none l
         else mret None);
      if event.(ge_refund_status) ==? Some "REFUNDED" then
        match refund with
        | Some r => when (r.(rf_status) !=? COMPLETED) (upd_refund r.(rf_id) (λ r, r <| rf_status := COMPLETED |>))
        | None => mret ()
        end ;;
        mret ("processed", Some pid, [])
      else
        match refund, (default "" event.(ge_refund_status)) in? ["CANCELED"; "CANCELLED"] with
        | Some r, true =>
            when (r.(rf_status) !=? FAILED) (revert_refund gw event pid r) ;;
            mret ("processed", Some pid, [])
        | _, _ => mret ("ignored", Some pid, [])
        end
  end.

(** ** The pipeline *)

Definition handle_event (gw : Gateway) (event : GatewayWebhookEvent) : M Store (string * option Z * list Event) :=
  match event.(ge_kind) with
  | PAYMENT_STATUS => handle_payment_event gw event
  | _ => handle_refund_event gw event
  end.

Definition process (gw : Gateway) (headers : list (string * string)) (raw_body : string) : M Store (string * list Event) :=
  payload ← match json_loads (if truthy raw_body then raw_body else "{}") with
            | Some (JDict d) => mret (JDict d)
            | _ => raise (err_code ValidationError "INVALID_WEBHOOK_PAYLOAD")
            end;
  verified ← lift (verify_signature gw headers payload);
  raise_if (negb verified && negb is_dev) (err_code AuthenticationError "INVALID_WEBHOOK_SIGNATURE") ;;
  event ← lift (parse_event gw payload);
  if event.(ge_kind) ==? IGNORED then mret ("ignored", [])
  else
    check_age payload ;;
    inbox_id ← claim_event gw event (por_str event.(ge_event_reference) (sha256_hex raw_body));
    match inbox_id with
    | None => mret ("duplicate", [])
    | Some inbox =>
        '(outcome, target_id, events) ← handle_event gw event;
        now_ ← gets now;
        modify (λ s, s <| payment_webhook_events := alter (λ e, e <| we_outcome := outcome |>
          <| we_payment_id := target_id |> <| we_processed_at := Some now_ |>) inbox s.(payment_webhook_events) |>) ;;
        mret (outcome, events)
    end.

(** The endpoint ([gateway_webhook] of app/payment_links/api/router.py): the
    events are published after the commit. *)
Definition gateway_webhook (gw : Gateway) (headers : list (string * string)) (raw_body : string) : M Store string :=
  '(outcome, events) ← in_session (process gw headers raw_body);
  publish_pending_events events ;;
  mret outcome.
End service.
End PaymentWebhookService.
