(* ===== verification/LinkRefund.v ===== *)
(** * Refunds of payment links
    (app/payment_links/application/refund_service.py)

    A booking's refund goes through [RefundService]; a gift voucher's is made
    here.  The link then counts what was refunded. *)

From S2P Require Import Prelude Exceptions Effects StateMachines Money Numbers Store PyText Attribution.
From S2P Require Import VoucherSnapshot VoucherService Loyalty RefundLifecycle RefundService.
From S2P Require Import LinkGateway LinkAdapters Settlement LinkService.
#[local] Open Scope Z_scope.

Definition REFUNDABLE : list string := ["success"; "partially_refunded"].
Definition REFUNDABLE_LINK : list string := [value Link.PAID; value Link.PARTIALLY_REFUNDED].
Definition REDEEMED_VOUCHER : list string :=
  [value Voucher.REDEEMED; value Voucher.PARTIALLY_REDEEMED; value Voucher.FULFILLED].

Module PaymentLinkRefundService.
Section service.
Context `{World}.

(** [_find_payment]. *)
Definition find_payment (link : PaymentLink) (s : Store) : option Z :=
  pm_id <$> Lifecycle.best (Lifecycle.paid_rank REFUNDABLE) pm_created_at
    (List.filter (λ p,
       match link.(pl_payment_row_id) with
       | Some pid => p.(pm_id) =? pid
       | None => if String.eqb link.(pl_target_type) Link.BOOKING
                 then p.(pm_booking_id) ==? Some link.(pl_target_id)
                 else p.(pm_voucher_id) ==? Some link.(pl_target_id)
       end) (rows s.(payments))).

(** [_sync_link_refund]. *)
Definition sync_link_refund (refunded_amount : Z) (l : PaymentLink) : PaymentLink :=
  let refunded := l.(pl_amount_refunded) + refunded_amount in
  l <| pl_amount_refunded := refunded |>
    <| pl_status := if l.(pl_amount) <=? refunded then value Link.REFUNDED else value Link.PARTIALLY_REFUNDED |>.

(** The columns of a voucher's refund. *)
Definition voucher_refund (id : Z) (number : string) (pid : Z) (p : Payment) (amount : Z) (reason : option string)
    (actor_id : string) (actor_data : option jdict) (now_ : Z) (answer : RefundResponse) : Refund :=
  mk_refund id number None None None (Some pid) p.(pm_invoice_number) None None (Some p.(pm_customer_id))
    p.(pm_customer_data) p.(pm_branch_id) p.(pm_branch_data) "automated" "payment_link" COMPLETED
    amount 0 amount p.(pm_currency) (Some (por_str reason "Gift voucher refund")) None None None
    p.(pm_payment_provider) p.(pm_transaction_id) answer.(rs_provider_refund_id) (Some answer.(rs_raw_response))
    (Some actor_id) actor_data (Some now_) None None now_.

(** [_refund_voucher_payment].  When the gateway fails, a row for the failed
    refund is added and the exception goes on to the endpoint, which rolls the
    session back. *)
Definition refund_voucher_payment (gw : Gateway) (pid : Z) (amount : option Decimal) (reason : option string)
    (actor_id : string) (actor_data : option jdict) : M Store Z :=
  p ← get_payment_row pid;
  voucher ← gets (λ s, p.(pm_voucher_id) ≫= λ v, s.(vouchers) !! v);
  raise_if (match voucher with Some v => v.(gv_status) in? REDEEMED_VOUCHER | None => false end) (err ValidationError) ;;
  let total := of_fils p.(pm_total_amount) in
  let already := of_fils p.(pm_amount_refunded) in
  let remaining := dec_sub total already in
  let amount := match amount with Some a => a | None => remaining end in
  raise_if (dec_leb amount ZERO || dec_ltb remaining amount) (err ValidationError) ;;
  let gateway_ref := por p.(pm_invoice_id) p.(pm_payment_id) in
  raise_if (negb (truthy_opt gateway_ref)) (err ValidationError) ;;
  s ← get;
  let number := generate_refund_number s.(now) (rf_refund_number <$> rows s.(refunds)) in
  result ← refund_payment gw (default "" gateway_ref) amount;
  s ← get;
  let id := new_id s.(refunds) in
  modify (λ s, s <| refunds := <[id := voucher_refund id number pid p (db_fils amount) reason actor_id actor_data
                                          s.(now) result]> s.(refunds) |>) ;;
  let refunded := dec_add already amount in
  let status := if dec_leb total refunded then "refunded" else "partially_refunded" in
  upd_payment pid (λ p, p <| pm_amount_refunded := db_fils refunded |> <| pm_status := Some status |>) ;;
  add_history (mk_history pid p.(pm_status) status "ushdesk" result.(rs_provider_refund_id) (Some number) None
                 (Some actor_id) actor_data) ;;
  flush_payment pid ;;
  match p.(pm_voucher_id), voucher with
  | Some vid, Some v =>
      when (String.eqb status "refunded" && String.eqb v.(gv_status) (value Voucher.ACTIVE))
        (GiftVoucherService.update_status schedule_answer vid (value Voucher.CANCELLED)
           (no_args <| st_actor_id := Some actor_id |>))
  | _, _ => mret ()
  end ;;
  mret id.

Definition refund (gw : Gateway) (link_id : Z) (amount : option Decimal) (reason : option string) (actor_id : string)
    (actor_data : option jdict) : M Store Z :=
  l ← gets (λ s, s.(payment_links) !! link_id);
  link ← some_or_raise l (err NotFoundError);
  raise_if (negb (link.(pl_status) in? REFUNDABLE_LINK)) (err ValidationError) ;;
  payment ← gets (find_payment link);
  pid ← some_or_raise payment (err ValidationError);
  p ← get_payment_row pid;
  raise_if (negb (default "" p.(pm_status) in? REFUNDABLE)) (err ValidationError) ;;
  id ← (if String.eqb link.(pl_target_type) Link.BOOKING then
          RefundService.process_gateway_refund provider_refund link.(pl_target_id)
            (mk_gateway_request amount ZERO reason None None None) actor_id actor_data
        else if String.eqb link.(pl_target_type) Link.GIFT_VOUCHER then
          refund_voucher_payment gw pid amount reason actor_id actor_data
        else raise (err ValidationError));
  r ← get_refund_row id;
  upd_link link_id (sync_link_refund r.(rf_refunded_amount)) ;;
  mret id.
End service.
End PaymentLinkRefundService.
