(* ===== verification/LinkApi.v ===== *)
(** * The payment link endpoints
    (app/payment_links/api/router.py)

    What a request does to the database and to the outside: the gateway it is
    served by, its session, and the events published after the commit.  The
    authentication of the staff, the redirect addresses and the JSON of the
    answers are left out.  A database error leaves a session that cannot be
    committed, so a callback that swallows an exception keeps no writes. *)

From S2P Require Import Prelude Exceptions Effects StateMachines Money Numbers Store PyText Attribution.
From S2P Require Import RefundService LinkGateway LinkAdapters Settlement LinkService LinkWebhook LinkRefund.
#[local] Open Scope Z_scope.

(** The query of a request, and its body when it is an object. *)
Notation params := (list (string * string)).

Definition param (qp : params) (k : string) : option string :=
  snd <$> List.find (λ '(k', _), String.eqb k' k) qp.

(** [a or b or ...] over the names, in a query or a body. *)
Definition query_key (qp : params) (names : list string) : option string :=
  first_some (λ k, match param qp k with Some v => if truthy v then Some v else None | None => None end) names.
Definition body_key (bd : jdict) (names : list string) : option string :=
  first_some (λ k, match dict_get bd k with
                   | Some v => if jtruthy (Some v) then Some (json_str v) else None
                   | None => None
                   end) names.

Definition QUERY_KEYS : list string :=
  ["paymentId"; "PaymentId"; "tap_id"; "charge_id"; "Id"; "id"; "InvoiceId"; "invoiceId"; "invoice_id"].
Definition BODY_KEYS : list string :=
  ["paymentId"; "PaymentId"; "tap_id"; "charge_id"; "Id"; "id"; "InvoiceId"].

(** [_extract_lookup_key], as the text it is used as. *)
Definition extract_lookup_key (qp : params) (bd : jdict) : option string :=
  match query_key qp QUERY_KEYS with
  | Some k => Some k
  | None =>
      match body_key bd BODY_KEYS with
      | Some k => Some k
      | None => match query_key qp ["link_id"] with Some k => Some k | None => body_key bd ["link_id"] end
      end
  end.

(** The gateway a callback names, or the sign of a Tap charge. *)
Definition callback_gateway (qp : params) (bd : jdict) (lookup_key : option string) : option string :=
  match query_key qp ["gateway"] with
  | Some g => Some g
  | None =>
      match body_key bd ["gateway"] with
      | Some g => Some g
      | None =>
          if truthy_opt (query_key qp ["tap_id"]) || truthy_opt (body_key bd ["tap_id"]) ||
             String.prefix "chg_" (default "" lookup_key)
          then Some "deema" else None
      end
  end.

(** What a callback found: the state at the gateway, and the link it settled. *)
Record Callback := mk_callback {
  cb_state : GatewayPaymentState; cb_link : option (Z * SettlementOutcome) }.

Section api.
Context `{World}.
Context (PAYMENT_LINK_DEFAULT_GATEWAY : string) (PAYMENT_LINK_EXPIRY_MINUTES : Z) (is_dev : bool) (max_age : Z).

(** [_gateway]. *)
Definition gateway_for (name : option string) : result Gateway :=
  get_gateway (por_str name PAYMENT_LINK_DEFAULT_GATEWAY).

(** The body of the callbacks' [try]: ask the gateway, find the link, settle. *)
Definition settle_by_lookup (gw : Gateway) (lookup_key source : string) : M Store (Callback * list Event) :=
  state ← get_payment_state gw lookup_key;
  link ← gets (get_locked_link_by_any_identifier gw.(gw_name) (Some (por_str state.(gs_invoice_id) lookup_key))
                 (Some (por_str state.(gs_reference_id) lookup_key)) (Some (por_str state.(gs_payment_id) lookup_key)));
  match link with
  | Some id =>
      '(outcome, events) ← apply id state source;
      mret (mk_callback state (Some (id, outcome)), events)
  | None => mret (mk_callback state None, [])
  end.

(** Committed, published, and nothing raised. *)
Definition callback (gateway : result Gateway) (lookup_key source : string) : M Store (option Callback) :=
  try_except
    (gw ← lift gateway;
     '(cb, events) ← in_session (settle_by_lookup gw lookup_key source);
     publish_pending_events events ;;
     mret (Some cb))
    (λ _, true) (λ _, mret None).

(** The page the customer is sent to says that the payment went through. *)
Definition callback_is_paid (cb : option Callback) : bool :=
  match cb with
  | Some cb =>
      (cb.(cb_state).(gs_status) ==? Outcome.PAID) &&
      match cb.(cb_link) with Some (_, outcome) => outcome !=? FAILURE_RECORDED | None => true end
  | None => false
  end.

(** A browser coming back, or a ping ([None]). *)
Definition gateway_webhook_get (gateway : string) (qp : params) : M Store (option bool) :=
  gw ← lift (gateway_for (Some gateway));
  match extract_lookup_key qp [] with
  | None => mret None
  | Some key =>
      cb ← callback (Ok gw) key ("webhook_get_" ++ gw.(gw_name))%string;
      mret (Some (callback_is_paid cb))
  end.

(** A server's message; one without a body is looked up by its query. *)
Definition gateway_webhook_post (gateway : string) (qp : params) (headers : params) (raw_body : string) : M Store string :=
  gw ← lift (gateway_for (Some gateway));
  settled ←
    (if negb (truthy (strip raw_body)) || String.eqb (strip raw_body) "{}" then
       match extract_lookup_key qp [] with
       | Some key => callback (Ok gw) key ("webhook_post_" ++ gw.(gw_name))%string
       | None => mret None
       end
     else mret None);
  match settled with
  | Some (mk_callback _ (Some (_, outcome))) => mret (outcome_text outcome)
  | _ => PaymentWebhookService.gateway_webhook is_dev max_age gw headers raw_body
  end.

(** [payment_link_success] and [payment_link_failed]. *)
Definition payment_link_callback (qp : params) (bd : jdict) : M Store (option Callback) :=
  match extract_lookup_key qp bd with
  | Some key => callback (gateway_for (callback_gateway qp bd (Some key))) key "callback"
  | None => mret None
  end.

(** ** The staff's endpoints *)

(** A failed attempt is committed before its exception is raised. *)
Definition create_payment_link (gateway : option string) (c : CreateLink) : M Store Z :=
  gw ← lift (gateway_for gateway);
  r ← in_session (PaymentLinkService.create_link PAYMENT_LINK_EXPIRY_MINUTES gw c);
  lift r.

(** The gateway of the link, which is read first. *)
Definition link_gateway (link_id : Z) : M Store Gateway :=
  link ← PaymentLinkService.get_link link_id;
  lift (gateway_for (Some link.(pl_gateway))).

Definition renew_payment_link (link_id : Z) (actor_id : string) (actor_data : option jdict) (token : string) : M Store Z :=
  gw ← link_gateway link_id;
  r ← in_session (PaymentLinkService.renew_link PAYMENT_LINK_EXPIRY_MINUTES gw link_id actor_id actor_data None token);
  lift r.

Definition sync_payment_link (link_id : Z) : M Store () :=
  gw ← link_gateway link_id;
  events ← in_session (PaymentLinkService.sync_status gw link_id);
  publish_pending_events events.

(** Served by the default gateway, whatever the link's. *)
Definition cancel_payment_link (link_id : Z) : M Store () :=
  gw ← lift (gateway_for None);
  in_session (PaymentLinkService.cancel_link gw link_id).

Definition delete_payment_link (link_id : Z) : M Store () :=
  gw ← link_gateway link_id;
  in_session (PaymentLinkService.delete_link gw link_id).

(** [cancel_payment_links_by_target] and [delete_payment_links_for_target]. *)
Definition cancel_payment_links_by_target (target_type : string) (target_id : Z) : M Store Z :=
  gw ← lift (gateway_for None);
  in_session (PaymentLinkService.cancel_and_delete_links_for_target gw target_type target_id).

Definition refund_payment_link (link_id : Z) (amount : option Decimal) (reason : option string) (actor_id : string)
    (actor_data : option jdict) : M Store Z :=
  gw ← link_gateway link_id;
  in_session (PaymentLinkRefundService.refund gw link_id amount reason actor_id actor_data).

(** ** Requests as data *)

Inductive LinkRequest :=
  | WebhookGet (gateway : string) (qp : params)
  | WebhookPost (gateway : string) (qp headers : params) (raw_body : string)
  | LinkCallback (qp : params) (bd : jdict)
  | Create (gateway : option string) (c : CreateLink)
  | Renew (link_id : Z) (actor_id : string) (actor_data : option jdict) (token : string)
  | Sync (link_id : Z)
  | Cancel (link_id : Z)
  | Delete (link_id : Z)
  | CancelByTarget (target_type : string) (target_id : Z)
  | RefundLink (link_id : Z) (amount : option Decimal) (reason : option string) (actor_id : string) (actor_data : option jdict).

Definition handle (r : LinkRequest) : M Store () :=
  match r with
  | WebhookGet g qp => gateway_webhook_get g qp ;; mret ()
  | WebhookPost g qp hs body => gateway_webhook_post g qp hs body ;; mret ()
  | LinkCallback qp bd => payment_link_callback qp bd ;; mret ()
  | Create g c => create_payment_link g c ;; mret ()
  | Renew id a d t => renew_payment_link id a d t ;; mret ()
  | Sync id => sync_payment_link id
  | Cancel id => cancel_payment_link id
  | Delete id => delete_payment_link id
  | CancelByTarget t id => cancel_payment_links_by_target t id ;; mret ()
  | RefundLink id amt why a d => refund_payment_link id amt why a d ;; mret ()
  end.

(** One request after the other, on the database each leaves; each at its own
    time. *)
Definition serve (r : Z * LinkRequest) (s : Store) : Store := (handle r.2 (s <| now := r.1 |>)).2.
Definition serve_all (rs : list (Z * LinkRequest)) (s : Store) : Store := foldl (λ s r, serve r s) s rs.
End api.
