(* ===== verification/LinkLedger.v ===== *)
(** * What the payment links are, abstractly

    The contract of the payment link component without its rows: a board that
    holds the status of each link and the links whose payment was announced to
    the rest of the system.  [LinkSpec] shows that the requests implement it;
    what holds of every run of the board is proved here. *)

From S2P Require Import Prelude Exceptions Effects StateMachines Money Numbers Store RefundService LinkGateway.
#[local] Open Scope Z_scope.

(** The status of each link, and the links announced as paid. *)
Notation board := (gmap Z string * list Z)%type.

Definition settled (status : string) : bool := status in? Link.SETTLED.

(** What a request may do to one link.  A notification closes, pays, announces
    or returns it; the staff issue, replace, cancel, drop and refund it. *)
Inductive kind := Issues | Replaces | Closes | Pays | Announces | Returns | Cancels | Refunds | Drops.

(** A step of the given kind on the link [id]: a new link has a key never
    announced; only a link that is not settled is closed or paid, only an open
    one is cancelled or replaced, and only a paid one is refunded. *)
Inductive board_step : kind → Z → board → board → Prop :=
  | board_issues m an id b :
      m !! id = None → (id ∉ an) → b ∈ [value Link.PENDING; value Link.FAILED] →
      board_step Issues id (m, an) (<[id := b]> m, an)
  | board_replaces m an id a :
      m !! id = Some a → a ∈ Link.OPEN_STATUSES → board_step Replaces id (m, an) (delete id m, an)
  | board_closes m an id a b :
      m !! id = Some a → settled a = false →
      b ∈ [value Link.FAILED; value Link.EXPIRED; value Link.CANCELLED] →
      board_step Closes id (m, an) (<[id := b]> m, an)
  | board_pays m an id a :
      m !! id = Some a → settled a = false → board_step Pays id (m, an) (<[id := value Link.PAID]> m, an)
  | board_announces m an id a :
      m !! id = Some a → settled a = false → board_step Announces id (m, an) (<[id := value Link.PAID]> m, an ++ [id])
  | board_returns m an id a :
      m !! id = Some a → settled a = false → board_step Returns id (m, an) (<[id := value Link.REFUNDED]> m, an)
  | board_cancels m an id a :
      m !! id = Some a → a ∈ Link.OPEN_STATUSES →
      board_step Cancels id (m, an) (<[id := value Link.CANCELLED]> m, an)
  | board_refunds m an id a b :
      m !! id = Some a → a ∈ [value Link.PAID; value Link.PARTIALLY_REFUNDED] →
      b ∈ [value Link.REFUNDED; value Link.PARTIALLY_REFUNDED] →
      board_step Refunds id (m, an) (<[id := b]> m, an)
  | board_drops m an id a : m !! id = Some a → board_step Drops id (m, an) (delete id m, an).

(** A step of whatever kind, on whatever link. *)
Definition any_step (x y : board) : Prop := ∃ k id, board_step k id x y.

(** Nothing, or one step of one of the kinds [ks] on a link of [on]. *)
Definition at_most (ks : list kind) (on : Z → Prop) (x y : board) : Prop :=
  x = y ∨ ∃ k id, k ∈ ks ∧ on id ∧ board_step k id x y.
#[export] Instance at_most_reflexive ks on : Reflexive (at_most ks on).
Proof. by left. Qed.

Lemma at_most_once ks on k id x y : board_step k id x y → k ∈ ks → on id → at_most ks on x y.
Proof. intros H Hk Hid. right. by exists k, id. Qed.
Lemma at_most_mono ks on on' x y : at_most ks on x y → (∀ id, on id → on' id) → at_most ks on' x y.
Proof. intros [->|(k & id & Hk & Hid & H)] Hon; [by left|]. right. exists k, id. auto. Qed.
Lemma at_most_run ks on x y : at_most ks on x y → rtc any_step x y.
Proof. intros [->|(k & id & _ & _ & H)]; [done|]. apply rtc_once. by exists k, id. Qed.

Definition notifications : list kind := [Closes; Pays; Announces; Returns].

(** ** What every run keeps *)

Definition announced_once (x : board) : Prop :=
  NoDup x.2 ∧ ∀ id st, id ∈ x.2 → x.1 !! id = Some st → settled st = true.

Lemma settled_refund b : b ∈ [value Link.REFUNDED; value Link.PARTIALLY_REFUNDED] → settled b = true.
Proof. intros [-> | [-> | []%elem_of_nil]%elem_of_cons]%elem_of_cons; reflexivity. Qed.

Lemma unsettled_unannounced m an id a :
  announced_once (m, an) → m !! id = Some a → settled a = false → id ∉ an.
Proof. intros [_ H] Hm Ha Hin. specialize (H id a Hin Hm). congruence. Qed.

(** Writing the status of one link. *)
Lemma announced_insert m an id b :
  announced_once (m, an) → (id ∈ an → settled b = true) → announced_once (<[id := b]> m, an).
Proof.
  intros [Hnd H] Hb. split; [done|]. intros j st Hj. simpl.
  rewrite lookup_insert_Some. intros [[<- <-]|[_ Hst]]; [by apply Hb|by apply (H j)].
Qed.

Lemma announced_delete m an id : announced_once (m, an) → announced_once (delete id m, an).
Proof. intros [Hnd H]. split; [done|]. intros j st Hj. simpl. intros [_ Hst]%lookup_delete_Some. by apply (H j). Qed.

Lemma open_unsettled st : st ∈ Link.OPEN_STATUSES → settled st = false.
Proof. unfold Link.OPEN_STATUSES. by intros [-> | [-> | ->%list_elem_of_singleton]%elem_of_cons]%elem_of_cons. Qed.

Lemma board_step_once k i x y : board_step k i x y → announced_once x → announced_once y.
Proof.
  intros H Hx. destruct H as [m an id b Hm Hni _|m an id a Hm Ha|m an id a b Hm Ha _|m an id a Hm Ha|m an id a Hm Ha
                             |m an id a Hm Ha|m an id a Hm Ha%open_unsettled|m an id a b Hm Ha Hb|m an id a Hm].
  - by apply announced_insert.
  - by apply announced_delete.
  - apply announced_insert; [done|]. intros Hin. by destruct (unsettled_unannounced m an id a Hx Hm Ha).
  - by apply announced_insert.
  - pose proof (unsettled_unannounced m an id a Hx Hm Ha) as Hni. destruct Hx as [Hnd H]. split; simpl.
    + apply NoDup_app. split_and!; [done| |apply NoDup_singleton].
      intros j Hj ?%list_elem_of_singleton; subst. done.
    + intros j st Hj. rewrite lookup_insert_Some. intros [[_ <-]|[Hne Hst]]; [reflexivity|].
      apply elem_of_app in Hj as [Hj|Hj%list_elem_of_singleton]; [by apply (H j)|done].
  - by apply announced_insert.
  - apply announced_insert; [done|]. intros Hin. by destruct (unsettled_unannounced m an id a Hx Hm Ha).
  - apply announced_insert; [done|]. intros _. by apply settled_refund.
  - by apply announced_delete.
Qed.

Lemma board_steps_once x y : rtc any_step x y → announced_once x → announced_once y.
Proof. induction 1 as [|x y z (k & id & H) _ IH]; [done|]. eauto using board_step_once. Qed.

(** Announcements are never taken back. *)
Lemma board_step_announced k i x y : board_step k i x y → ∃ l, y.2 = x.2 ++ l.
Proof. intros []; simpl; try (exists []; by rewrite app_nil_r). by eexists. Qed.

(** A link announced as paid is not open again: it stays settled, and once
    refunded in full it stays so, until its row is dropped. *)
Definition terminal_at (id : Z) (x : board) : Prop :=
  id ∈ x.2 ∧ ∀ st, x.1 !! id = Some st → st = value Link.REFUNDED.

Lemma board_step_terminal k i id x y : board_step k i x y → terminal_at id x → terminal_at id y.
Proof.
  intros H [Hin Ht]. pose proof (board_step_announced _ _ _ _ H) as [l Hl]. split; [rewrite Hl; set_solver|].
  destruct H as [m an j b Hm Hni _|m an j a Hm Ha|m an j a b Hm Ha _|m an j a Hm Ha|m an j a Hm Ha
                |m an j a Hm Ha|m an j a Hm Ha%open_unsettled|m an j a b Hm Ha Hb|m an j a Hm]; simpl in *; intros st.
  2,9: by intros [_ Hst]%lookup_delete_Some; apply Ht.
  all: rewrite lookup_insert_Some; intros [[<- <-]|[_ Hst]]; [|by apply Ht]; try done.
  all: try (by rewrite (Ht _ Hm) in Ha).
  rewrite (Ht _ Hm) in Ha. by apply elem_of_cons in Ha as [Ha|[Ha|[]%elem_of_nil]%elem_of_cons].
Qed.
Lemma board_steps_terminal id x y : rtc any_step x y → terminal_at id x → terminal_at id y.
Proof. induction 1 as [|x y z (k & i & H) _ IH]; [done|]. eauto using board_step_terminal. Qed.
