(* ===== verification/LinkFrame.v ===== *)
(** * What a step on payment links leaves alone

    Most steps of the payment link services write bookings, payments, refunds,
    vouchers and audit rows and call the gateways.  A relation between two
    databases that such writes respect ([LinkFrame]) is respected by each of
    those operations; the theorems of [LinkSpec] and [LinkInbox] instantiate it
    with what they follow. *)

From S2P Require Import Prelude Exceptions Effects StateMachines Money Numbers Store PyText Attribution.
From S2P Require Import VoucherSnapshot VoucherService Loyalty RefundLifecycle RefundService.
From S2P Require Import LinkGateway LinkAdapters Settlement LinkService LinkWebhook LinkRefund LinkApi LinkLedger.
#[local] Open Scope Z_scope.

(** The link an event announces as paid. *)
Definition paid_link_of (e : Event) : option Z :=
  match e with PaymentLinkPaidEvent id _ _ _ => Some id | _ => None end.

(** The steps of the voucher service: vouchers, the scheduler, events. *)
Class VoucherFrame (R : relation Store) : Prop := {
  frame_preorder :: PreOrder R;
  frame_vouchers : ∀ s m, R s (s <| vouchers := m |>);
  frame_outbound : ∀ s c, R s (s <| outbound := s.(outbound) ++ [c] |>);
  frame_events : ∀ s e, paid_link_of e = None → R s (s <| events := s.(events) ++ [e] |>) }.

(** Those of the payment links: the relation may look at the links and their
    statuses, the paid events, the inbox and the tables no link step writes. *)
Class LinkFrame (R : relation Store) : Prop := {
  frame_voucher_steps :: VoucherFrame R;
  frame_bookings : ∀ s m, R s (s <| bookings := m |>);
  frame_payments : ∀ s m, R s (s <| payments := m |>);
  frame_refunds : ∀ s m, R s (s <| refunds := m |>);
  frame_history : ∀ s l, R s (s <| payment_status_history := l |>);
  frame_booking_history : ∀ s l, R s (s <| booking_status_history := l |>);
  frame_link : ∀ s id f, (∀ l, (f l).(pl_status) = l.(pl_status)) →
    R s (s <| payment_links := alter f id s.(payment_links) |>) }.

Section voucher_frame.
Context (R : relation Store) `{!VoucherFrame R}.

(** ** Rows *)

Lemma get_refund_row_framed id : changes R (get_refund_row id).
Proof. intros s. unfold get_refund_row. by destruct (refunds s !! id). Qed.
Lemma get_payment_row_framed id : changes R (get_payment_row id).
Proof. intros s. unfold get_payment_row. by destruct (payments s !! id). Qed.
Lemma get_booking_row_framed id : changes R (get_booking_row id).
Proof. intros s. unfold get_booking_row. by destruct (bookings s !! id). Qed.
Lemma get_voucher_row_framed id : changes R (get_voucher_row id).
Proof. intros s. unfold get_voucher_row. by destruct (vouchers s !! id). Qed.
Lemma get_link_row_framed id : changes R (get_link_row id).
Proof. intros s. unfold get_link_row. by destruct (payment_links s !! id). Qed.
Lemma upd_voucher_framed id f : changes R (upd_voucher id f).
Proof. intros s. apply frame_vouchers. Qed.
Lemma call_out_framed c : changes R (call_out c).
Proof. intros s. apply frame_outbound. Qed.
Lemma publish_framed e : paid_link_of e = None → changes R (publish e).
Proof. intros He s. by apply frame_events. Qed.
Hint Resolve get_refund_row_framed get_payment_row_framed get_booking_row_framed get_voucher_row_framed
  get_link_row_framed upd_voucher_framed call_out_framed : ush.
Hint Extern 2 (changes _ (publish _)) => (apply publish_framed; reflexivity) : ush.

(** Vouchers. *)
Section vouchers.
Context (answer : list OutboundCall → OutboundCall → result string).

Lemma as_validation_framed {A} (r : result A) : changes R (as_validation r).
Proof. destruct r; intros s; cbn; reflexivity. Qed.
Lemma emit_framed id st : changes R (emit_status_event id st).
Proof. unfold emit_status_event. change_only. Qed.
Lemma flush_voucher_framed id : changes R (flush_voucher id).
Proof. unfold flush_voucher. change_only. Qed.
Hint Resolve as_validation_framed emit_framed flush_voucher_framed : ush.
Lemma schedule_framed id : changes R (GiftVoucherService.schedule_delivery answer id).
Proof.
  unfold GiftVoucherService.schedule_delivery, GiftVoucherService.best_effort, GiftVoucherService.create_voucher_schedule,
    GiftVoucherService.call_scheduler.
  change_only.
Qed.
Lemma unschedule_framed id : changes R (GiftVoucherService.cancel_delivery answer id).
Proof.
  unfold GiftVoucherService.cancel_delivery, GiftVoucherService.best_effort, GiftVoucherService.delete_voucher_schedule,
    GiftVoucherService.call_scheduler.
  change_only.
Qed.
Hint Resolve schedule_framed unschedule_framed : ush.
Lemma update_status_framed id st a : changes R (GiftVoucherService.update_status answer id st a).
Proof. unfold GiftVoucherService.update_status, get_by_id, append_history. change_only. Qed.
End vouchers.
End voucher_frame.
#[export] Hint Resolve get_refund_row_framed get_payment_row_framed get_booking_row_framed get_voucher_row_framed
  get_link_row_framed upd_voucher_framed call_out_framed flush_voucher_framed update_status_framed : ush.
#[export] Hint Extern 2 (changes _ (publish _)) => (apply publish_framed; [apply _|reflexivity]) : ush.

Section frame.
Context (R : relation Store) `{!LinkFrame R}.

Lemma upd_refund_framed id f : changes R (upd_refund id f).
Proof. intros s. apply frame_refunds. Qed.
Lemma upd_payment_framed id f : changes R (upd_payment id f).
Proof. intros s. apply frame_payments. Qed.
Lemma upd_booking_framed id f : changes R (upd_booking id f).
Proof. intros s. apply frame_bookings. Qed.
Lemma add_history_framed h : changes R (add_history h).
Proof. intros s. apply frame_history. Qed.
Lemma add_booking_history_framed h : changes R (add_booking_history h).
Proof. intros s. apply frame_booking_history. Qed.
Lemma upd_link_framed id f : (∀ l, (f l).(pl_status) = l.(pl_status)) → changes R (upd_link id f).
Proof. intros Hf s. by apply frame_link. Qed.
Lemma scalar_framed {V} (l : list V) : changes R (RefundService.scalar_one_or_none l).
Proof. destruct l as [|? []]; intros s; cbn; reflexivity. Qed.
Hint Resolve upd_refund_framed upd_payment_framed upd_booking_framed add_history_framed add_booking_history_framed
  scalar_framed : ush.
Hint Extern 2 (changes _ (upd_link _ _)) => (apply upd_link_framed; reflexivity) : ush.
Hint Extern 3 (changes _ (modify _)) =>
  (apply changes_modify; intros; first [apply frame_refunds | apply frame_payments]) : ush.

(** Refunds of a booking, up to the provider's answer. *)
Section refunds.
Context (gw : list OutboundCall → string → RefundRequest → result RefundResponse).
Import Lifecycle RefundService.

Lemma audit_framed p r src a d ref old : changes R (audit p r src a d ref old).
Proof. unfold audit. change_only. Qed.
Lemma check_cap_framed p x n : changes R (check_cap p x n).
Proof. unfold check_cap. change_only. Qed.
Hint Resolve audit_framed check_cap_framed : ush.
Lemma request_framed b p a f t m why notes key who d : changes R (request b p a f t m why notes key who d).
Proof. unfold request. change_only. Qed.
Lemma update_requested_amounts_framed id p a f : changes R (update_requested_amounts id p a f).
Proof. unfold update_requested_amounts. change_only. Qed.
Hint Resolve request_framed update_requested_amounts_framed : ush.
Lemma resolve_framed b p net fee rt rm why notes who d :
  changes R (resolve_refund_to_execute b p net fee rt rm why notes who d).
Proof. unfold resolve_refund_to_execute, find_open_refund. change_only. Qed.
Lemma mark_processing_framed id g resp who d : changes R (mark_processing id g resp who d).
Proof. unfold mark_processing. change_only. Qed.
Lemma get_booking_framed b : changes R (get_booking b).
Proof. unfold get_booking. change_only. Qed.
Lemma get_payment_for_booking_framed b row : changes R (get_payment_for_booking b row).
Proof. unfold get_payment_for_booking, payment_by_ref, payment_by_text. change_only. Qed.
Lemma call_gateway_framed prov req : changes R (call_gateway gw prov req).
Proof. unfold call_gateway. change_only. Qed.
Hint Resolve resolve_framed mark_processing_framed get_booking_framed get_payment_for_booking_framed
  call_gateway_framed : ush.
Lemma process_gateway_refund_framed b req u d : changes R (process_gateway_refund gw b req u d).
Proof. unfold process_gateway_refund. change_only. Qed.
End refunds.
Hint Resolve process_gateway_refund_framed : ush.

Section world.
Context `{World}.

(** The gateways. *)
Lemma ask_gateway_framed c : changes R (ask_gateway c).
Proof. unfold ask_gateway, asking. change_only. Qed.
Lemma get_invoice_framed b : changes R (get_invoice_by_source b).
Proof. unfold get_invoice_by_source, asking. change_only. Qed.
Hint Resolve ask_gateway_framed get_invoice_framed : ush.
Lemma probe_framed gw key t : changes R (MyFatoorah.probe gw key t).
Proof. unfold MyFatoorah.probe. change_only. Qed.
Hint Resolve probe_framed : ush.
Lemma get_payment_state_framed gw id : changes R (get_payment_state gw id).
Proof. unfold get_payment_state, MyFatoorah.get_payment_state, Tap.get_payment_state. change_only. Qed.
Lemma refund_payment_framed gw id amount : changes R (refund_payment gw id amount).
Proof. unfold refund_payment, MyFatoorah.refund_payment, Tap.refund_payment. change_only. Qed.
Lemma create_gateway_link_framed gw id amount : changes R (create_gateway_link gw id amount).
Proof. unfold create_gateway_link, MyFatoorah.create_link, Tap.create_link. change_only. Qed.
Lemma cancel_gateway_link_framed gw id : changes R (cancel_gateway_link gw id).
Proof. unfold cancel_gateway_link. change_only. Qed.
Hint Resolve get_payment_state_framed refund_payment_framed create_gateway_link_framed cancel_gateway_link_framed : ush.

(** Settlement of the target. *)
Lemma flush_booking_framed id : changes R (flush_booking id).
Proof. apply upd_booking_framed. Qed.
Lemma flush_payment_framed id : changes R (flush_payment id).
Proof. apply upd_payment_framed. Qed.
Lemma insert_payment_framed p : changes R (insert_payment p).
Proof. unfold insert_payment. change_only. Qed.
Hint Resolve flush_booking_framed flush_payment_framed insert_payment_framed : ush.
Lemma confirm_booking_framed l b st : changes R (confirm_booking l b st).
Proof. unfold confirm_booking. change_only. Qed.
Lemma record_booking_payment_framed id l b t : changes R (record_booking_payment id l b t).
Proof. unfold record_booking_payment. change_only. Qed.
Lemma create_voucher_payment_framed id l vid v t : changes R (create_voucher_payment id l vid v t).
Proof. unfold create_voucher_payment. change_only. Qed.
Hint Resolve confirm_booking_framed record_booking_payment_framed create_voucher_payment_framed : ush.
Lemma settle_booking_framed id t : changes R (settle_booking id t).
Proof. unfold settle_booking. change_only. Qed.
Lemma settle_voucher_framed id t : changes R (settle_voucher id t).
Proof. unfold settle_voucher. change_only. Qed.
Hint Resolve settle_booking_framed settle_voucher_framed : ush.
Lemma settle_target_framed id t : changes R (settle_target id t).
Proof. unfold settle_target. change_only. Qed.
Hint Resolve settle_target_framed : ush.
Lemma check_age_framed n payload : changes R (PaymentWebhookService.check_age n payload).
Proof. unfold PaymentWebhookService.check_age. change_only. Qed.
Lemma revert_refund_framed gw ev pid r : changes R (PaymentWebhookService.revert_refund gw ev pid r).
Proof. unfold PaymentWebhookService.revert_refund. change_only. Qed.
Hint Resolve revert_refund_framed : ush.
Lemma handle_refund_event_framed gw ev : changes R (PaymentWebhookService.handle_refund_event gw ev).
Proof. unfold PaymentWebhookService.handle_refund_event. change_only. Qed.

(** ** The other operations on links *)

Lemma attach_framed target id actor : changes R (PaymentLinkService.attach_link_to_target target id actor).
Proof. unfold PaymentLinkService.attach_link_to_target. change_only. Qed.
Lemma note_cancelled_framed gw links b row : changes R (PaymentLinkService.note_cancelled gw links b row).
Proof. unfold PaymentLinkService.note_cancelled. change_only. Qed.
Lemma refund_voucher_payment_framed gw pid amount why who d :
  changes R (PaymentLinkRefundService.refund_voucher_payment gw pid amount why who d).
Proof. unfold PaymentLinkRefundService.refund_voucher_payment. change_only. Qed.
Lemma link_gateway_framed default_gateway id : changes R (link_gateway default_gateway id).
Proof. unfold link_gateway, PaymentLinkService.get_link. change_only. Qed.
End world.
End frame.

(** Outside the section, for any relation with an instance. *)
#[export] Hint Resolve upd_refund_framed upd_payment_framed upd_booking_framed add_history_framed
  add_booking_history_framed scalar_framed
  process_gateway_refund_framed ask_gateway_framed get_invoice_framed get_payment_state_framed refund_payment_framed
  create_gateway_link_framed cancel_gateway_link_framed flush_booking_framed flush_payment_framed insert_payment_framed
  settle_target_framed check_age_framed handle_refund_event_framed attach_framed note_cancelled_framed
  refund_voucher_payment_framed link_gateway_framed : ush.
#[export] Hint Extern 2 (changes _ (upd_link _ _)) => (apply upd_link_framed; [apply _|reflexivity]) : ush.
