(* ===== verification/LinkSpec.v ===== *)
(** * What the payment links guarantee

    Every request to the payment link endpoints does to the board of
    [LinkLedger] what a request of its kind may, so a payment is announced once
    over every history of requests; [LinkSettle] has what a settlement does, and [LinkInbox] what a
    webhook may cause. *)

From S2P Require Import Prelude Exceptions Effects StateMachines Money Numbers Store PyText Attribution.
From S2P Require Import VoucherSnapshot VoucherService Loyalty RefundLifecycle RefundService.
From S2P Require Import LinkGateway LinkAdapters Settlement LinkService LinkWebhook LinkRefund LinkApi LinkLedger LinkFrame.
#[local] Open Scope Z_scope.

(** ** The board of a database *)

Definition announced (evs : list Event) : list Z := omap paid_link_of evs.
Definition abs (s : Store) : board := (pl_status <$> s.(payment_links), announced s.(events)).

Lemma announced_app a b : announced (a ++ b) = announced a ++ announced b.
Proof. apply omap_app. Qed.

(** Steps the board does not see. *)
Definition same_board (s s' : Store) : Prop := abs s' = abs s.
#[export] Instance same_board_preorder : PreOrder same_board.
Proof. split; unfold same_board; [done|]. intros ???. congruence. Qed.

(** The board after a write to a link. *)
Lemma abs_upd_link s id f l :
  s.(payment_links) !! id = Some l →
  abs (s <| payment_links := alter f id s.(payment_links) |>) = (<[id := (f l).(pl_status)]> (abs s).1, (abs s).2).
Proof. intros Hl. unfold abs. cbn. by rewrite (alter_lookup _ _ _ _ Hl), fmap_insert. Qed.

Lemma abs_delete s id :
  abs (s <| payment_links := delete id s.(payment_links) |>) = (delete id (abs s).1, (abs s).2).
Proof. unfold abs. cbn. by rewrite fmap_delete. Qed.

Lemma abs_lookup s id l : s.(payment_links) !! id = Some l → (abs s).1 !! id = Some l.(pl_status).
Proof. intros Hl. unfold abs. cbn. by rewrite lookup_fmap, Hl. Qed.
Lemma abs_lookup_inv s id st : (abs s).1 !! id = Some st → ∃ l, s.(payment_links) !! id = Some l ∧ l.(pl_status) = st.
Proof. unfold abs. cbn. rewrite lookup_fmap, fmap_Some. intros (l & Hl & ->). eauto. Qed.


(** The board does not see the other tables. *)
#[export] Instance same_board_frame : LinkFrame same_board.
Proof.
  split; try done.
  - split; try done; [apply _|]. intros s e He. unfold same_board, abs. cbn. rewrite announced_app. unfold announced at 2. cbn. by rewrite He, app_nil_r.
  - intros s id f Hf. unfold same_board, abs. cbn. f_equal. apply map_eq. intros j. rewrite !lookup_fmap.
    destruct (decide (j = id)) as [->|Hne]; [|by rewrite lookup_alter_ne].
    rewrite lookup_alter_eq. destruct (payment_links s !! id); cbn; [by rewrite Hf|done].
Qed.

Section world.
Context `{World}.

(** ** Settlement *)

(** An operation that hands back events to publish: from a board [x], what the
    board will be once they are published is as [Q] of the value says; one that
    raises has announced nothing. *)
Definition ends {A} (Q : A → relation board) (evs : A → list Event) (x : board) (r : result A) (s' : Store) : Prop :=
  match r with
  | Ok a => Q a x ((abs s').1, (abs s').2 ++ announced (evs a))
  | Raise _ => (abs s').2 = x.2
  end.

(** A notification: at most one step, on a link of [on]. *)
Notation notifies on := (ends (λ _, at_most notifications on)).

Lemma ends_quiet {A} (Q : A → relation board) evs x a s :
  Reflexive (Q a) → abs s = x → announced (evs a) = [] → ends Q evs x (Ok a) s.
Proof. intros HQ <- He. cbn -[abs]. rewrite He, app_nil_r. by destruct (abs s). Qed.
#[local] Ltac quiet_ret := apply wp_ret, ends_quiet; [apply _|done|done].
Lemma ends_raise {A} (Q : A → relation board) evs x e s : abs s = x → ends Q evs x (Raise e) s.
Proof. by intros <-. Qed.

(** Steps before. *)
Lemma wp_quiet {A B} (m : M Store A) (k : A → M Store B) (Q : B → relation board) (evs : B → list Event) x s :
  changes same_board m → abs s = x → (∀ a s1, abs s1 = x → wp (k a) s1 (ends Q evs x)) →
  wp (m ≫= k) s (ends Q evs x).
Proof.
  intros Hm Hs Hk. apply wp_bind, (wp_changes _ _ _ _ Hm). intros [a|e] s1 H1; cbn beta iota.
  - apply Hk. by rewrite <- Hs.
  - apply ends_raise. by rewrite <- Hs.
Qed.

(** Nothing but such steps. *)
Lemma wp_all_quiet {A} (m : M Store A) (Q : A → relation board) evs x s :
  changes same_board m → abs s = x → (∀ a, Reflexive (Q a)) → returns m (λ a, announced (evs a) = []) → wp m s (ends Q evs x).
Proof.
  intros Hm Hs HQ Hr. unfold wp. pose proof (Hm s) as H1. pose proof (Hr s) as Hv. unfold same_board in H1.
  destruct (m s) as [[a|e] s1]; cbn [fst snd] in *; [|apply ends_raise; congruence].
  apply ends_quiet; [done|congruence|done].
Qed.

(** What a settlement of the target announces: nothing, or its link. *)
Lemma settle_target_returns id t :
  returns (settle_target id t) (λ evs, announced evs = [] ∨ announced evs = [id]).
Proof. unfold settle_target, settle_booking. return_steps; cbn; auto. Qed.

(** The refund of a payment that cannot be used closes the link. *)
Lemma auto_refund_board id state s l :
  s.(payment_links) !! id = Some l →
  abs (auto_refund id state s).2 = (<[id := value Link.REFUNDED]> (abs s).1, (abs s).2).
Proof.
  intros Hl. enough (wp (auto_refund id state) s (λ _ s', abs s' = (<[id := value Link.REFUNDED]> (abs s).1, (abs s).2))) by done.
  unfold auto_refund. apply wp_bind, wp_modify. cbn beta iota. set (s1 := s <| payment_links := _ |>).
  assert (abs s1 = (<[id := value Link.REFUNDED]> (abs s).1, (abs s).2)) as <-
    by exact (abs_upd_link s id (λ l, l <| pl_status := value Link.REFUNDED |>) l Hl).
  apply (wp_changes same_board); [|done]. change_only.
Qed.

Lemma apply_paid_settles id state source s :
  wp (apply_paid id state source) s (notifies (.= id) snd (abs s)).
Proof.
  unfold apply_paid. apply wp_bind, wp_get_link_row; [|done]. intros l Hl. cbn beta iota.
  destruct (l.(pl_status) in? Link.SETTLED) eqn:Hst; [quiet_ret|].
  destruct (match gs_amount state with Some _ => _ | None => _ end).
  { apply wp_quiet; [change_only|done|]. intros _ s1 H1. quiet_ret. }
  apply wp_bind, wp_gets. cbn beta iota. apply wp_bind, wp_modify. cbn beta iota.
  set (s1 := s <| payment_links := _ |>). assert (abs s1 = (<[id := value Link.PAID]> (abs s).1, (abs s).2)) as H1
    by apply (abs_upd_link s id (paid_link state source (now s)) l Hl).
  pose proof (abs_lookup s id l Hl) as Hm. destruct (abs s) as [m an]. cbn [fst snd] in *.
  apply wp_try. eapply (wp_mono_changes same_board); [| |].
  - apply wp_bind. apply (wp_returns _ _ _ _ (settle_target_returns id (now s))). apply wp_of_run with (1 := surjective_pairing _).
    instantiate (1 := λ r s2, match r with Ok p => announced p.2 = [] ∨ announced p.2 = [id] | Raise _ => True end).
    destruct (settle_target id (now s) s1).1; [|done]. intros Hev. by apply wp_ret.
  - change_only.
  - intros [[o evs]|e] s2 He H2; unfold same_board in H2; cbn beta iota.
    + unfold ends. rewrite H2, H1. cbn [fst snd] in *. destruct He as [-> | ->]; [rewrite app_nil_r|].
      * eapply at_most_once; [by eapply board_pays|set_solver|done].
      * eapply at_most_once; [by eapply board_announces|set_solver|done].
    + destruct (not_activatable e); [|by rewrite H1 in H2; cbn -[abs]; rewrite H2].
      destruct (abs_lookup_inv s2 id (value Link.PAID)) as (l2 & Hl2 & _); [rewrite H2, H1; apply lookup_insert_eq|].
      apply wp_bind. apply wp_of_run with (1 := surjective_pairing _).
      pose proof (auto_refund_board id state s2 l2 Hl2) as H3. rewrite H2, H1 in H3. cbn [fst snd] in H3.
      rewrite insert_insert_eq in H3. destruct (auto_refund id state s2).1; cbn beta iota.
      * apply wp_ret. cbn -[abs]. rewrite H3, app_nil_r. eapply at_most_once; [by eapply board_returns|set_solver|done].
      * cbn -[abs]. by rewrite H3.
Qed.


Lemma closes_board id st s :
  st ∈ [Link.EXPIRED; Link.CANCELLED] → wp (close_link id st) s (notifies (.= id) snd (abs s)).
Proof.
  intros Hin. unfold close_link. apply wp_bind, wp_get_link_row; [|done]. intros l Hl. cbn beta iota.
  apply wp_bind, wp_when; intros Hst; cbn beta iota; [|quiet_ret].
  apply wp_modify, wp_ret. unfold ends. apply negb_true_iff in Hst.
  rewrite (abs_upd_link s id _ l Hl). pose proof (abs_lookup s id l Hl) as Hm. destruct (abs s) as [m an].
  cbn. rewrite app_nil_r. eapply at_most_once; [eapply board_closes; [done..|]|set_solver|done].
  apply elem_of_cons in Hin as [-> | ->%list_elem_of_singleton]; set_solver.
Qed.

Lemma apply_settles id state source s : wp (apply id state source) s (notifies (.= id) snd (abs s)).
Proof.
  unfold apply. destruct (gs_status state); [quiet_ret|apply apply_paid_settles|..].
  - unfold record_failure. apply wp_bind, wp_get_link_row; [|done]. intros l Hl. cbn beta iota.
    destruct (l.(pl_status) in? Link.SETTLED) eqn:Hst; [quiet_ret|].
    apply wp_bind, wp_gets. cbn beta iota. apply wp_bind, wp_modify, wp_ret. unfold ends.
    rewrite (abs_upd_link s id _ l Hl). pose proof (abs_lookup s id l Hl) as Hm. destruct (abs s) as [m an].
    cbn [fst snd pl_status] in *. eapply at_most_once; [destruct (String.eqb _ _); cbn; rewrite app_nil_r; eapply board_closes; [done..|set_solver|done|done|set_solver]|set_solver|done].
  - apply closes_board. set_solver.
  - apply closes_board. set_solver.
Qed.
Hint Resolve apply_settles : ush.

(** ** The webhook *)

Hint Extern 3 (changes same_board (modify _)) => done : ush.
Lemma claim_event_board gw ev ref : changes same_board (PaymentWebhookService.claim_event gw ev ref).
Proof. unfold PaymentWebhookService.claim_event. change_only. Qed.
Hint Resolve claim_event_board : ush.

(** Settling as the last step, whatever is made of its outcome. *)
Lemma wp_apply_then {B} id state source (k : SettlementOutcome * list Event → M Store B) (Q : B → relation board)
    (evs : B → list Event) x s :
  abs s = x →
  (∀ o es, ∃ b, k (o, es) = mret b ∧ evs b = es ∧ ∀ y, at_most notifications (.= id) x y → Q b x y) →
  wp (apply id state source ≫= k) s (ends Q evs x).
Proof.
  intros <- Hk. apply wp_bind. eapply wp_mono; [apply apply_settles|].
  intros [[o es]|e] s1 H1; cbn beta iota; [|done]. destruct (Hk o es) as (b & -> & Hb & HQ). apply wp_ret.
  unfold ends. rewrite Hb. by apply HQ.
Qed.

(** On whatever link the notification turns out to name. *)
Notation some_link := (λ _ : Z, True) (only parsing).

Lemma wp_apply_some {B} id state source (k : SettlementOutcome * list Event → M Store B) (evs : B → list Event) x s :
  abs s = x → (∀ o es, ∃ b, k (o, es) = mret b ∧ evs b = es) →
  wp (apply id state source ≫= k) s (notifies some_link evs x).
Proof.
  intros Hs Hk. apply wp_apply_then; [done|]. intros o es. destruct (Hk o es) as (b & Hb & He).
  exists b. split_and!; [done..|]. intros y Hy. by eapply at_most_mono.
Qed.

Lemma handle_payment_event_settles gw ev s x :
  abs s = x → wp (PaymentWebhookService.handle_payment_event gw ev) s (notifies some_link snd x).
Proof.
  intros Hs. unfold PaymentWebhookService.handle_payment_event. cbv zeta.
  apply wp_quiet; [change_only|done|]. intros link s1 H1. apply wp_quiet; [change_only|done|]. intros verified s2 H2.
  apply wp_quiet; [change_only|done|]. intros link' s3 H3.
  destruct link' as [id|]; [|quiet_ret].
  destruct (_ || _).
  - apply wp_quiet; [change_only|done|]. intros _ s4 H4. apply wp_quiet; [change_only|done|]. intros merged s5 H5.
    apply wp_apply_some; [done|]. intros. by eexists.
  - destruct (_ ==? _); [|quiet_ret].
    destruct (match verified with Some st => Some st | None => ge_state ev end); [|quiet_ret].
    apply wp_apply_some; [done|]. intros. by eexists.
Qed.

Lemma handle_refund_event_settles gw ev s x :
  abs s = x → wp (PaymentWebhookService.handle_refund_event gw ev) s (notifies some_link snd x).
Proof.
  intros Hs. apply wp_all_quiet; [apply handle_refund_event_framed, _|done|intros; apply _|].
  unfold PaymentWebhookService.handle_refund_event. return_steps; done.
Qed.

Lemma process_settles dev n gw headers body s x :
  abs s = x → wp (PaymentWebhookService.process dev n gw headers body) s (notifies some_link snd x).
Proof.
  intros Hs. unfold PaymentWebhookService.process.
  apply wp_quiet; [change_only|done|]. intros payload s1 H1. apply wp_quiet; [change_only|done|]. intros ok s2 H2.
  apply wp_quiet; [change_only|done|]. intros _ s3 H3. apply wp_quiet; [change_only|done|]. intros ev s4 H4.
  destruct (_ ==? _); [quiet_ret|].
  apply wp_quiet; [change_only|done|]. intros _ s5 H5. apply wp_quiet; [change_only|done|]. intros inbox s6 H6.
  destruct inbox as [inbox|]; [|quiet_ret].
  apply wp_bind. apply (wp_mono _ _ (notifies some_link snd x)).
  - unfold PaymentWebhookService.handle_event.
    destruct (ge_kind ev); [by apply handle_payment_event_settles|by apply handle_refund_event_settles..].
  - intros [[[o t] evs]|e] s7 H7; cbn beta iota; [|done]. by apply wp_bind, wp_gets, wp_bind, wp_modify, wp_ret.
Qed.

(** ** Sessions and publication *)

(** What a request, or a part of it, does to the board. *)
Definition does (Q : relation board) {A} (m : M Store A) : Prop := ∀ s, Q (abs s) (abs (m s).2).

Lemma does_quiet (Q : relation board) {A B} (m : M Store A) (k : A → M Store B) :
  Reflexive Q → changes same_board m → (∀ a, does Q (k a)) → does Q (m ≫= k).
Proof.
  intros HQ Hm Hk s. rewrite bind_run. pose proof (Hm s) as H1. unfold same_board in H1.
  destruct (m s) as [[a|e] s1]; cbn -[abs] in *; rewrite <- H1; [apply Hk|reflexivity].
Qed.
Lemma does_then (Q : relation board) {A B} (m : M Store A) (k : A → M Store B) :
  does Q m → (∀ a, changes same_board (k a)) → does Q (m ≫= k).
Proof.
  intros Hm Hk s. rewrite bind_run. specialize (Hm s). destruct (m s) as [[a|e] s1]; [|exact Hm].
  pose proof (Hk a s1) as H1. unfold same_board in H1. cbn -[abs] in *. by rewrite H1.
Qed.

(** A session that fails leaves the board it started from. *)
Lemma in_session_ends {A} (m : M Store A) (Q : A → relation board) (evs : A → list Event) s :
  wp m s (ends Q evs (abs s)) →
  wp (in_session m) s (λ r s', match r with
    | Ok a => Q a (abs s) ((abs s').1, (abs s').2 ++ announced (evs a))
    | Raise _ => abs s' = abs s end).
Proof.
  unfold wp, in_session. destruct (m s) as [[a|e] s1]; cbn -[abs]; [done|]. intros H1.
  unfold abs in *. cbn -[announced] in *. by rewrite H1.
Qed.

Lemma does_session {A} (Q : relation board) (m : M Store A) :
  Reflexive Q → (∀ s, wp m s (ends (λ _, Q) (λ _, []) (abs s))) → does Q (in_session m).
Proof.
  intros HQ Hm s. pose proof (in_session_ends m _ _ s (Hm s)) as Hr. unfold wp in Hr.
  destruct (in_session m s) as [[a|e] s1]; cbn -[abs] in *; [|by rewrite Hr].
  rewrite app_nil_r in Hr. by destruct (abs s1).
Qed.

Lemma wp_publish evs s :
  wp (publish_pending_events evs) s (λ r s', r = Ok () ∧ abs s' = ((abs s).1, (abs s).2 ++ announced evs)).
Proof.
  unfold publish_pending_events. revert s; induction evs as [|e evs IH]; intros s; cbn [for_each].
  - apply wp_ret. split; [done|]. cbn -[abs]. rewrite app_nil_r. by destruct (abs s).
  - apply wp_bind, wp_modify. cbn beta iota. eapply wp_mono; [apply IH|]. intros r s' [-> ->]. split; [done|].
    unfold abs. cbn -[announced]. by rewrite announced_app, <- app_assoc, <- announced_app.
Qed.

(** An endpoint: a session, then the publication of its events. *)
Lemma session_publish {A B} (m : M Store A) (K : A → M Store B) (Q : A → relation board) (evs : A → list Event)
    (k : A → M Store B) (R : relation board) :
  (∀ a s, K a s = (publish_pending_events (evs a) ;; k a) s) → Reflexive R →
  (∀ s, wp m s (ends Q evs (abs s))) → (∀ a x y, Q a x y → R x y) → (∀ a, changes same_board (k a)) →
  does R (a ← in_session m; K a).
Proof.
  intros HK HR Hm HQ Hk s. enough (wp (in_session m ≫= K) s (λ _ s', R (abs s) (abs s'))) by done.
  apply wp_bind. eapply wp_mono; [by apply (in_session_ends m Q evs)|].
  intros [a|e] s1 H1; cbn beta iota; [|by rewrite H1]. unfold wp. rewrite HK.
  change (wp (publish_pending_events (evs a) ;; k a) s1 (λ _ s', R (abs s) (abs s'))).
  apply wp_bind. eapply wp_mono; [apply wp_publish|]. intros r s2 [-> H2]; cbn beta iota.
  apply (wp_changes same_board); [apply Hk|]. intros r s3 H3. unfold same_board in H3. rewrite H3, H2. by eapply HQ.
Qed.

(** ** Creating links *)

Lemma new_link_id_fresh s : s.(payment_links) !! new_link_id s = None ∧ (new_link_id s ∉ announced s.(events)).
Proof.
  assert (∀ b evs, b ≤ foldr (λ e acc, Z.max (event_link e + 1) acc) b evs ∧
    ∀ e, e ∈ evs → event_link e < foldr (λ e acc, Z.max (event_link e + 1) acc) b evs) as Hmax.
  { intros b evs. induction evs as [|e evs [IH1 IH2]]; cbn; [split; [lia|by intros e ?%elem_of_nil]|].
    split; [lia|]. intros e' [-> |He']%elem_of_cons; [lia|]. specialize (IH2 e' He'). lia. }
  destruct (Hmax (new_id s.(payment_links)) s.(events)) as [H1 H2]. fold (new_link_id s) in H1, H2. split.
  - destruct (payment_links s !! new_link_id s) as [l|] eqn:E; [|done].
    assert (∀ (m : gmap Z PaymentLink) k, m !! k ≠ None → k < new_id m) as Hlt.
    { intros m. unfold new_id. apply (map_fold_weak_ind (λ r m, ∀ k, m !! k ≠ None → k < r)); [by intros k|].
      intros k v m' r _ IH k'. destruct (decide (k = k')) as [->|Hne]; [lia|]. rewrite lookup_insert_ne by done.
      intros Hk'. specialize (IH k' Hk'). lia. }
    specialize (Hlt s.(payment_links) (new_link_id s)). rewrite E in Hlt. specialize (Hlt ltac:(done)). lia.
  - intros Hin. unfold announced in Hin. apply list_elem_of_omap in Hin as (e & He & Hid).
    specialize (H2 e He). destruct e; try done. cbn in *. simplify_eq. lia.
Qed.

(** Writing the status of a link the board knows, as the last step seen. *)
Lemma abs_upd id f s m an st :
  abs s = (m, an) → is_Some (m !! id) → (∀ l, (f l).(pl_status) = st) →
  abs (s <| payment_links := alter f id s.(payment_links) |>) = (<[id := st]> m, an).
Proof.
  intros Hs [a Ha] Hf. destruct (abs_lookup_inv s id a) as (l & Hl & _); [by rewrite Hs|].
  by rewrite (abs_upd_link s id f l Hl), Hs, Hf.
Qed.

(** The new row is committed as offered, or as failed when the gateway
    refuses; any other exception undoes it. *)
Lemma issue_link_ends minutes gw c canonical target amount iid inum s x :
  abs s = x →
  wp (PaymentLinkService.issue_link minutes gw c canonical target amount iid inum) s
    (ends (λ _ x y, ∃ id, board_step Issues id x y) (λ _, []) x).
Proof.
  intros Hs. unfold PaymentLinkService.issue_link.
  apply wp_quiet; [change_only|done|]. intros now_ s1 H1. apply wp_quiet; [change_only|done|]. intros [[ref who] cur] s2 H2.
  unfold PaymentLinkService.insert_link. apply wp_bind, wp_bind, wp_get. cbn beta iota.
  apply wp_bind, wp_raise_if; intros _; cbn beta iota; [by apply ends_raise|]. cbv zeta. apply wp_bind, wp_modify. cbn beta iota.
  apply wp_ret. cbn beta iota. set (id := new_link_id s2). set (l := PaymentLinkService.new_link _ _ _ _ _ _ _ _ _ _ _).
  set (s3 := s2 <| payment_links := _ |>). destruct (new_link_id_fresh s2) as [Hnew Hun].
  assert ((abs s2).1 !! id = None) as Hn by (unfold abs; cbn; rewrite lookup_fmap; exact (f_equal (fmap pl_status) Hnew)).
  assert (abs s3 = (<[id := value Link.CREATED]> x.1, x.2)) as H3.
  { rewrite <- H2. unfold s3, abs. cbn. by rewrite fmap_insert. }
  change (announced (events s2)) with (abs s2).2 in Hun. rewrite H2 in Hn, Hun. destruct x as [m an]. cbn [fst snd] in *.
  assert (is_Some ((<[id := value Link.CREATED]> m) !! id)) as Hsome by (by rewrite lookup_insert_eq).
  clearbody s3. apply wp_bind, (wp_changes same_board); [change_only|]. intros answer s4 H4. unfold same_board in H4.
  rewrite H3 in H4. destruct answer as [[r|e]|e]; cbn beta iota; [| |by unfold ends; rewrite H4].
  - apply wp_bind, wp_modify. cbn beta iota. set (s5 := s4 <| payment_links := _ |>).
    assert (abs s5 = (<[id := value Link.PENDING]> m, an)) as H5
      by (unfold s5; rewrite (abs_upd id _ s4 _ _ (value Link.PENDING) H4 Hsome) by done; by rewrite insert_insert_eq).
    clearbody s5. apply wp_bind, (wp_changes same_board); [change_only|]. intros r' s6 H6. unfold same_board in H6. rewrite H5 in H6.
    destruct r'; cbn beta iota; [|by unfold ends; rewrite H6]. apply wp_ret. unfold ends. rewrite H6. cbn. rewrite app_nil_r.
    exists id. apply board_issues; [done..|set_solver].
  - apply wp_bind, wp_modify, wp_ret. unfold ends. cbn beta.
    rewrite (abs_upd id _ s4 _ _ (value Link.FAILED) H4 Hsome) by done.
    rewrite insert_insert_eq. cbn. rewrite app_nil_r. exists id. apply board_issues; [done..|set_solver].
Qed.

(** The open link of the target may be dropped to make room for a new one. *)
Definition creates (x y : board) : Prop :=
  x = y ∨ ∃ mid id, at_most [Replaces] some_link x mid ∧ board_step Issues id mid y.
#[local] Instance creates_reflexive : Reflexive creates.
Proof. by left. Qed.

Lemma settle_existing_ends gw existing amount force s x :
  abs s = x → (∀ id, existing = Some id → ∃ a, x.1 !! id = Some a ∧ a ∈ Link.OPEN_STATUSES) →
  wp (PaymentLinkService.settle_existing gw existing amount force) s
    (ends (λ o : option Z, match o with Some _ => eq | None => at_most [Replaces] some_link end) (λ _, []) x).
Proof.
  intros Hs Hex. unfold PaymentLinkService.settle_existing.
  destruct existing as [id|]; [|quiet_ret].
  destruct (Hex id eq_refl) as (a & Ha & Hopen).
  apply wp_quiet; [change_only|done|]. intros l s1 H1. apply wp_quiet; [change_only|done|]. intros now_ s2 H2.
  apply wp_quiet; [change_only|done|]. intros _ s3 H3. cbv zeta.
  destruct (_ && negb force); [quiet_ret|].
  unfold PaymentLinkService.cancel_at_gateway. apply wp_quiet; [change_only|done|]. intros _ s4 H4.
  apply wp_bind, wp_modify, wp_ret. unfold ends. cbn beta.
  rewrite abs_delete, H4. destruct x as [m an]. cbn [fst snd announced omap list_omap] in *. rewrite app_nil_r. eapply at_most_once; [by eapply board_replaces|set_solver|done].
Qed.

Lemma create_link_ends minutes gw c s x :
  abs s = x → wp (PaymentLinkService.create_link minutes gw c) s (ends (λ _, creates) (λ _, []) x).
Proof.
  intros Hs. unfold PaymentLinkService.create_link, PaymentLinkService.load_target, PaymentLinkService.load_booking,
    PaymentLinkService.load_voucher, PaymentLinkService.resolve_amount, PaymentLinkService.cancelled_amount.
  apply wp_quiet; [change_only|done|]. intros target s1 H1. apply wp_quiet; [change_only|done|]. intros amount s2 H2.
  apply wp_quiet; [change_only|done|]. intros _ s3 H3. apply wp_bind, wp_gets. cbn beta iota.
  apply wp_bind. eapply wp_mono; [apply settle_existing_ends; [exact H3|]|].
  { intros id (l & Hl & [_ Hst]%andb_true_iff & _)%newest_key_spec. exists l.(pl_status). rewrite <- H3.
    split; [by apply abs_lookup|by apply bool_decide_eq_true in Hst]. }
  intros [[id|]|e] s4 H4; cbn beta iota; [| |exact H4].
  - apply wp_ret. left. exact H4.
  - unfold ends in H4. cbn -[abs] in H4. rewrite app_nil_r, <- surjective_pairing in H4.
    assert ((abs s4).2 = x.2) as Han by (by destruct H4 as [->|(k & i & Hk%list_elem_of_singleton & _ & Hst)]; [|subst k; inversion Hst]).
    unfold PaymentLinkService.resolve_invoice. set (x4 := abs s4) in *.
    apply (wp_mono _ _ (ends (λ _ x y, ∃ id, board_step Issues id x y) (λ _, []) x4)).
    + apply wp_quiet; [change_only|done|]. intros [iid inum] s5 H5. by apply issue_link_ends.
    + intros [a|e] s' H'; cbn -[abs] in *; [|by rewrite H', Han]. destruct H' as [id H']. right. by exists x4, id.
Qed.

Lemma renew_link_ends minutes gw id who d e token s x :
  abs s = x → wp (PaymentLinkService.renew_link minutes gw id who d e token) s (ends (λ _, creates) (λ _, []) x).
Proof.
  intros Hs. unfold PaymentLinkService.renew_link, PaymentLinkService.get_link.
  apply wp_quiet; [change_only|done|]. intros old s1 H1. apply wp_quiet; [change_only|done|]. intros _ s2 H2.
  apply wp_quiet; [change_only|done|]. intros now_ s3 H3. apply wp_quiet; [change_only|done|]. intros _ s4 H4.
  by apply create_link_ends.
Qed.

(** ** The other operations on links *)

Lemma sync_status_settles gw id s x :
  abs s = x → wp (PaymentLinkService.sync_status gw id) s (notifies (.= id) (λ e, e) x).
Proof.
  intros Hs. unfold PaymentLinkService.sync_status, PaymentLinkService.get_link.
  apply wp_quiet; [change_only|done|]. intros l s1 H1.
  destruct (_ || _); [quiet_ret|].
  apply wp_quiet; [change_only|done|]. intros state s2 H2.
  apply wp_apply_then; [done|]. intros o es. by eexists.
Qed.

(** A link whose status was read stays on the board over such steps. *)
Lemma abs_row s id l x : s.(payment_links) !! id = Some l → abs s = x → x.1 !! id = Some l.(pl_status).
Proof. intros Hl <-. by apply abs_lookup. Qed.

Lemma cancel_link_ends gw id s x :
  abs s = x → wp (PaymentLinkService.cancel_link gw id) s (ends (λ _, at_most [Cancels] (.= id)) (λ _, []) x).
Proof.
  intros Hs. unfold PaymentLinkService.cancel_link, PaymentLinkService.get_link, PaymentLinkService.cancel_at_gateway.
  apply wp_bind, wp_bind, wp_gets. cbn beta iota. apply wp_some_or_raise; [|by intros; apply ends_raise]. intros l Hl. cbn beta iota.
  pose proof (abs_row s id l x Hl Hs) as Hm.
  apply wp_bind, wp_raise_if; intros Hopen; cbn beta iota; [by apply ends_raise|].
  apply negb_false_iff, bool_decide_eq_true in Hopen.
  apply wp_quiet; [change_only|done|]. intros _ s1 H1. apply wp_quiet; [change_only|done|]. intros now_ s2 H2.
  destruct x as [m an]. apply wp_modify. unfold ends.
  rewrite (abs_upd id _ s2 m an (value Link.CANCELLED) H2 ltac:(by eexists)) by done. cbn. rewrite app_nil_r.
  eapply at_most_once; [by eapply board_cancels|set_solver|done].
Qed.

Lemma delete_row_board id s m an :
  abs s = (m, an) → at_most [Drops] (.= id) (m, an) (abs (PaymentLinkService.delete_row id s).2).
Proof.
  intros Hs. change (PaymentLinkService.delete_row id s).2 with (s <| payment_links := delete id s.(payment_links) |>).
  rewrite abs_delete, Hs. cbn [fst snd].
  destruct (m !! id) as [a|] eqn:Ha; [|left; by rewrite delete_id].
  eapply at_most_once; [by eapply board_drops|set_solver|done].
Qed.

Lemma delete_link_ends gw id s x :
  abs s = x → wp (PaymentLinkService.delete_link gw id) s (ends (λ _, at_most [Drops] (.= id)) (λ _, []) x).
Proof.
  intros Hs. unfold PaymentLinkService.delete_link, PaymentLinkService.get_link, PaymentLinkService.cancel_at_gateway.
  do 3 (apply wp_quiet; [change_only|done|]; intros ? ? ?). destruct x as [m an].
  unfold wp, ends. match goal with H : abs ?z = _ |- context [PaymentLinkService.delete_row id ?z] => pose proof (delete_row_board id z m an H) as Hd end.
  cbn -[abs PaymentLinkService.delete_row] in *. rewrite app_nil_r, <- surjective_pairing. exact Hd.
Qed.

(** Any number of links of a target. *)
Definition drops : relation board := rtc (at_most [Drops] some_link).

Lemma cancel_and_delete_ends gw links s x y :
  abs s = y → drops x y → wp (PaymentLinkService.cancel_and_delete gw links) s (ends (λ _, drops) (λ _, []) x).
Proof.
  revert s y. induction links as [|[id l] links IH]; intros s y Hs Hxy; cbn [PaymentLinkService.cancel_and_delete].
  - apply wp_ret. unfold ends. cbn -[abs]. rewrite app_nil_r, <- surjective_pairing. by rewrite Hs.
  - assert (y.2 = x.2) as Hy.
    { clear -Hxy. induction Hxy as [x|x z y Hz _ IH]; [done|]. rewrite IH. by destruct Hz as [->|(k & i & Hk%list_elem_of_singleton & _ & Hst)]; [|subst k; inversion Hst]. }
    unfold PaymentLinkService.cancel_at_gateway. apply wp_bind, (wp_changes same_board); [change_only|].
    intros r s1 H1. unfold same_board in H1. rewrite Hs in H1. destruct r; cbn beta iota; [|by unfold ends; rewrite H1].
    destruct y as [m an]. pose proof (delete_row_board id s1 m an H1) as Hd. apply wp_bind, wp_modify. cbn beta iota.
    eapply IH; [reflexivity|]. eapply rtc_r; [exact Hxy|]. eapply at_most_mono; [exact Hd|done].
Qed.

Lemma wp_then_quiet {A B} (m : M Store A) (k : A → M Store B) (Q : relation board) s x :
  wp m s (ends (λ _, Q) (λ _, []) x) → (∀ y, Q x y → y.2 = x.2) → (∀ a, changes same_board (k a)) →
  wp (m ≫= k) s (ends (λ _, Q) (λ _, []) x).
Proof.
  intros Hm HQ Hk. apply wp_bind. eapply wp_mono; [exact Hm|]. intros [a|e] s1 H1; cbn beta iota; [|exact H1].
  unfold ends in H1. cbn -[abs] in H1. rewrite app_nil_r, <- surjective_pairing in H1.
  apply (wp_changes same_board); [apply Hk|]. intros r s2 H2. unfold same_board in H2. unfold ends.
  destruct r; cbn -[abs]; rewrite H2; [by rewrite app_nil_r, <- surjective_pairing|by apply HQ].
Qed.

Lemma drops_announced x y : drops x y → y.2 = x.2.
Proof. induction 1 as [x|x z y Hz _ IH]; [done|]. rewrite IH. by destruct Hz as [->|(k & i & Hk%list_elem_of_singleton & _ & Hst)]; [|subst k; inversion Hst]. Qed.

Lemma cancel_by_target_ends gw t id s x :
  abs s = x → wp (PaymentLinkService.cancel_and_delete_links_for_target gw t id) s (ends (λ _, drops) (λ _, []) x).
Proof.
  intros Hs. unfold PaymentLinkService.cancel_and_delete_links_for_target. cbv zeta.
  apply wp_quiet; [change_only|done|]. intros links s1 H1.
  apply wp_then_quiet; [by eapply cancel_and_delete_ends|apply drops_announced|intros; change_only].
Qed.

Lemma refund_ends gw id amount why who d s x :
  abs s = x → wp (PaymentLinkRefundService.refund gw id amount why who d) s
                (ends (λ _, at_most [Refunds] (.= id)) (λ _, []) x).
Proof.
  intros Hs. unfold PaymentLinkRefundService.refund. apply wp_bind, wp_gets. cbn beta iota.
  apply wp_bind, wp_some_or_raise; [|by intros; apply ends_raise]. intros l Hl. cbn beta iota.
  pose proof (abs_row s id l x Hl Hs) as Hm.
  apply wp_bind, wp_raise_if; intros Hst; cbn beta iota; [by apply ends_raise|]. apply negb_false_iff, bool_decide_eq_true in Hst.
  do 6 (apply wp_quiet; [change_only|done|]; intros ? ? ?).
  match goal with |- wp (?u ≫= _) ?z _ => set (s6 := z) in *; assert (abs s6 = x) as H6 by done end. clearbody s6.
  destruct (abs_lookup_inv s6 id l.(pl_status)) as (l6 & Hl6 & Hst6); [by rewrite H6|].
  apply wp_bind, wp_modify, wp_ret. unfold ends. rewrite (abs_upd_link s6 id _ l6 Hl6), H6. destruct x as [m an].
  cbn [fst snd announced omap list_omap]. rewrite app_nil_r. cbn [fst snd] in Hm.
  eapply at_most_once; [eapply board_refunds; [exact Hm|exact Hst|]|set_solver|done].
  cbn. destruct (_ <=? _); set_solver.
Qed.

(** ** Requests *)

(** What each request may do to the board. *)
Definition request_effect (r : LinkRequest) : relation board :=
  match r with
  | WebhookGet _ _ | WebhookPost _ _ _ _ | LinkCallback _ _ => at_most notifications some_link
  | Sync id => at_most notifications (.= id)
  | Create _ _ | Renew _ _ _ _ => creates
  | Cancel id => at_most [Cancels] (.= id)
  | Delete id => at_most [Drops] (.= id)
  | CancelByTarget _ _ => drops
  | RefundLink id _ _ _ _ => at_most [Refunds] (.= id)
  end.

(** The requests of a history, each doing what it may. *)
Fixpoint board_history (rs : list LinkRequest) (x y : board) : Prop :=
  match rs with
  | [] => x = y
  | r :: rs => ∃ mid, request_effect r x mid ∧ board_history rs mid y
  end.

Lemma drops_run x y : drops x y → rtc any_step x y.
Proof. induction 1 as [|x z y Hz _ IH]; [done|]. etransitivity; [by eapply at_most_run|done]. Qed.
Lemma creates_run x y : creates x y → rtc any_step x y.
Proof.
  intros [->|(mid & id & H1 & H2)]; [done|]. etransitivity; [by eapply at_most_run|]. apply rtc_once. by exists Issues, id.
Qed.
Lemma request_effect_run r x y : request_effect r x y → rtc any_step x y.
Proof. destruct r; cbn; eauto using at_most_run, drops_run, creates_run. Qed.
Lemma board_history_run rs x y : board_history rs x y → rtc any_step x y.
Proof.
  revert x; induction rs as [|r rs IH]; intros x; cbn; [by intros ->|]. intros (mid & H1 & H2).
  etransitivity; [by eapply request_effect_run|by apply IH].
Qed.

Section settings.
Context (default_gateway : string) (minutes : Z) (is_dev : bool) (max_age : Z).

Lemma settle_by_lookup_ends gw key source s x :
  abs s = x → wp (settle_by_lookup gw key source) s
    (ends (λ a : Callback * list Event, match a.1.(cb_link) with Some _ => at_most notifications some_link | None => eq end) snd x).
Proof.
  intros Hs. unfold settle_by_lookup. apply wp_quiet; [change_only|done|]. intros state s1 H1.
  apply wp_quiet; [change_only|done|]. intros link s2 H2. destruct link as [id|]; [|quiet_ret].
  apply wp_apply_then; [done|]. intros o es. eexists. split_and!; [done..|]. intros y Hy. by eapply at_most_mono.
Qed.

(** A callback that reports no link has changed none. *)
Definition callback_effect (r : result (option Callback)) : relation board :=
  match r with Ok (Some (mk_callback _ (Some _))) => at_most notifications some_link | _ => eq end.

Lemma callback_ends g key source s : wp (callback g key source) s (λ r s', callback_effect r (abs s) (abs s')).
Proof.
  unfold callback. apply wp_try, wp_bind, wp_lift. destruct g as [gw|e]; cbn beta iota; [|by apply wp_ret].
  apply wp_bind. eapply wp_mono; [eapply in_session_ends, settle_by_lookup_ends; reflexivity|].
  intros [[cb evs]|e] s1 H1; cbn beta iota; [|by apply wp_ret]. cbn [snd] in H1.
  apply wp_bind. eapply wp_mono; [apply wp_publish|]. intros r s2 [-> H2]; cbn beta iota. apply wp_ret. cbn -[abs].
  rewrite H2. by destruct cb as [st [l|]].
Qed.

Lemma callback_does g key source : does (at_most notifications some_link) (callback g key source).
Proof.
  intros s. pose proof (callback_ends g key source s) as Hc. unfold wp, callback_effect in Hc.
  by destruct (callback g key source s).1 as [[[st [l|]]|]|e]; [|rewrite Hc..].
Qed.

Lemma gateway_webhook_does gw headers body :
  does (at_most notifications some_link) (PaymentWebhookService.gateway_webhook is_dev max_age gw headers body).
Proof.
  eapply (session_publish _ _ (λ _, at_most notifications some_link) snd (λ a, mret a.1)).
  - by intros [o evs].
  - apply _.
  - intros s. by apply process_settles.
  - done.
  - intros a. change_only.
Qed.

Lemma webhook_post_does g qp headers body :
  does (at_most notifications some_link) (gateway_webhook_post default_gateway is_dev max_age g qp headers body).
Proof.
  apply does_quiet; [apply _|change_only|]. intros gw s.
  set (m := if _ : bool then _ else _).
  assert (wp m s (λ r s', callback_effect r (abs s) (abs s'))) as Hm.
  { unfold m. destruct (_ || _); [|done]. destruct (extract_lookup_key qp []); [apply callback_ends|done]. }
  clearbody m. unfold wp in Hm. rewrite bind_run. destruct (m s) as [[[[st [[l o]|]]|]|e] s1]; cbn -[abs] in *; [exact Hm| | |];
    rewrite Hm; [apply gateway_webhook_does..|reflexivity].
Qed.

Lemma sync_does id : does (at_most notifications (.= id)) (sync_payment_link default_gateway id).
Proof.
  apply does_quiet; [apply _|change_only|]. intros gw.
  apply (session_publish _ _ (λ _, at_most notifications (.= id)) (λ e, e) (λ _, mret ())).
  - intros evs s. rewrite bind_run. by destruct (publish_pending_events evs s) as [[[]|e] s1].
  - apply _.
  - intros s. by apply sync_status_settles.
  - done.
  - intros a. change_only.
Qed.

(** An endpoint of one session. *)
Lemma endpoint_does {A B C} (Q : relation board) (m0 : M Store A) (m : A → M Store B) (k : B → M Store C) :
  Reflexive Q → changes same_board m0 → (∀ a s x, abs s = x → wp (m a) s (ends (λ _, Q) (λ _, []) x)) →
  (∀ b, changes same_board (k b)) → does Q (a ← m0; b ← in_session (m a); k b).
Proof.
  intros HQ H0 Hm Hk. apply does_quiet; [done..|]. intros a. apply does_then; [|done].
  apply does_session; [done|]. intros s. by apply Hm.
Qed.

Lemma session_does {A B} (Q : relation board) (m0 : M Store A) (m : A → M Store B) :
  Reflexive Q → changes same_board m0 → (∀ a s x, abs s = x → wp (m a) s (ends (λ _, Q) (λ _, []) x)) →
  does Q (a ← m0; in_session (m a)).
Proof. intros HQ H0 Hm. apply does_quiet; [done..|]. intros a. apply does_session; [done|]. intros s. by apply Hm. Qed.

Lemma handle_does r : does (request_effect r) (handle default_gateway minutes is_dev max_age r).
Proof.
  destruct r; cbn [handle request_effect];
    lazymatch goal with |- does _ (mbind _ _) => apply does_then; [|intros; change_only] | _ => idtac end.
  - apply does_quiet; [apply _|change_only|]. intros gw. destruct (extract_lookup_key qp []); [|by intros s].
    apply does_then; [apply callback_does|intros; change_only].
  - apply webhook_post_does.
  - unfold payment_link_callback. destruct (extract_lookup_key qp bd); [apply callback_does|by intros s].
  - apply endpoint_does; [apply _|change_only|intros; by apply create_link_ends|intros; change_only].
  - apply endpoint_does; [apply _|change_only|intros; by apply renew_link_ends|intros; change_only].
  - apply sync_does.
  - apply session_does; [apply _|change_only|intros; by apply cancel_link_ends].
  - apply session_does; [apply _|change_only|intros; by apply delete_link_ends].
  - apply session_does; [unfold drops; apply _|change_only|intros; by apply cancel_by_target_ends].
  - apply session_does; [apply _|change_only|intros; by apply refund_ends].
Qed.

Lemma serve_does r s :
  request_effect r.2 (abs s) (abs (serve default_gateway minutes is_dev max_age r s)).
Proof.
  unfold serve. change (abs s) with (abs (s <| now := r.1 |>)) at 1. apply handle_does.
Qed.

Lemma serve_all_history rs s :
  board_history (snd <$> rs) (abs s) (abs (serve_all default_gateway minutes is_dev max_age rs s)).
Proof.
  unfold serve_all. revert s; induction rs as [|r rs IH]; intros s; cbn; [done|]. eexists. split; [apply serve_does|apply IH].
Qed.
Lemma serve_all_run rs s : rtc any_step (abs s) (abs (serve_all default_gateway minutes is_dev max_age rs s)).
Proof. eapply board_history_run, serve_all_history. Qed.
Lemma serve_all_once rs s :
  announced_once (abs s) → announced_once (abs (serve_all default_gateway minutes is_dev max_age rs s)).
Proof. apply board_steps_once, serve_all_run. Qed.
End settings.
End world.

(** ** Every history of requests *)

(** C6: Every history of requests to the payment link endpoints does to the
    links and announcements, whatever the gateways answer, what its requests may
    do and nothing else.  A webhook, a callback or a synchronisation takes at
    most one step, on one link that is not settled (the one synchronised): it
    closes it, pays it, pays and announces it, or returns the payment.  Creation
    and renewal drop at most one open link and issue one under a key never
    announced.  Cancelling takes an open link, a refund a paid one; deletion
    drops the link it names and the targeted one links only. *)
Theorem link_requests_refine_board `{World} (default_gateway : string) (minutes : Z) (is_dev : bool) (max_age : Z)
    (rs : list (Z * LinkRequest)) (s : Store) :
  board_history (snd <$> rs) (abs s) (abs (serve_all default_gateway minutes is_dev max_age rs s)).
Proof. apply serve_all_history. Qed.

(** C7: A payment is announced once: over every history of requests, repeated
    notifications of the same payment included, each link has at most one
    payment_link.paid event, and a link that was announced is settled as long as
    its row exists. *)
Theorem payment_announced_once `{World} (default_gateway : string) (minutes : Z) (is_dev : bool) (max_age : Z)
    (rs : list (Z * LinkRequest)) (s : Store) :
  announced_once (abs s) →
  let s' := serve_all default_gateway minutes is_dev max_age rs s in
  NoDup (announced s'.(events)) ∧
  ∀ id l, id ∈ announced s'.(events) → s'.(payment_links) !! id = Some l → l.(pl_status) ∈ Link.SETTLED.
Proof.
  intros Hs s'. destruct (serve_all_once default_gateway minutes is_dev max_age rs s Hs) as [Hnd Hst]. split; [exact Hnd|].
  intros id l Hin Hl. specialize (Hst id l.(pl_status) Hin (abs_lookup s' id l Hl)). by apply bool_decide_eq_true in Hst.
Qed.

(** A gateway that accepts everything: a Tap charge that is captured, and
    refunds that go through. *)
Definition demo_charge : json := JDict [
  ("object", JStr "charge"); ("id", JStr "chg_1"); ("status", JStr "CAPTURED"); ("amount", JInt 20);
  ("currency", JStr "KWD"); ("transaction", JDict [("url", JStr "https://pay/1")])].
Definition demo_refund_answer : json := JDict [("object", JStr "refund"); ("id", JStr "re_1"); ("status", JStr "PENDING")].

#[local] Instance demo_world : World := {|
  json_loads := λ t, if String.eqb t "charge" then Some demo_charge else Some (JDict []);
  fromisoformat := λ _, None;
  hmac_sha256_hex := λ _ t, t;
  hmac_sha256_base64 := λ _ t, t;
  sha256_hex := λ t, t;
  secret_key := λ _, "secret";
  schedule_answer := λ _ _, Ok "arn";
  provider_refund := λ _ _ _, Ok (mk_refund_response true (Some "re_1") None []);
  gateway_http := λ _ c, match c with LinkRefundCall _ _ _ => Ok demo_refund_answer | _ => Ok demo_charge end;
  invoice_lookup := λ _ _, Ok None |}.

(** A booking that waits for its payment, and a request for a link. *)
Definition demo_unpaid : Booking :=
  mk_booking (Some "BOK/2026/07/000001") None 9 None (Some 3) None 4
    1000 20000 "KWD" "payment_pending" "pending" "branch" "online" None None None None None None
    None None None 60 None None None None None None None None no_schedule.
Definition demo_links : Store := (empty_store 1784000000000000) <| bookings := {[ 1 := demo_unpaid ]} |>.
Definition demo_create : LinkRequest :=
  Create (Some "deema") (mk_create_link "booking" 1 None "staff" None None None false None "a1b2c3").
(** The gateway's webhook, signed. *)
Definition demo_headers : list (string * string) :=
  [("hashstring", "x_idchg_1x_amount20.000x_currencykwdx_gateway_referencex_payment_referencex_statuscapturedx_created")].
Definition demo_webhook : LinkRequest := WebhookPost "deema" [] demo_headers "charge".

Lemma payment_announced_once_witness :
  let s := serve_all "deema" 60 false 0
    ((1784000000000000,.) <$> [demo_create; demo_webhook; demo_webhook; LinkCallback [("tap_id", "chg_1")] []; Sync 1]) demo_links in
  announced s.(events) = [1] ∧ NoDup (announced s.(events)) ∧ pl_status <$> s.(payment_links) !! 1 = Some "paid".
Proof.
  cbv zeta. split; [vm_compute; reflexivity|]. split; [|vm_compute; reflexivity].
  apply (payment_announced_once "deema" 60 false 0
    ((1784000000000000,.) <$> [demo_create; demo_webhook; demo_webhook; LinkCallback [("tap_id", "chg_1")] []; Sync 1]) demo_links).
  split; [apply NoDup_nil_2|]. intros id st [] % elem_of_nil.
Defined.

(** A link that was announced as paid and has been refunded in full stays
    refunded: no webhook, callback, synchronisation, renewal, cancelling or
    refund request of any later history changes its status, short of dropping
    its row. *)
Theorem refunded_link_is_final `{World} (default_gateway : string) (minutes : Z) (is_dev : bool) (max_age : Z)
    (rs : list (Z * LinkRequest)) (s : Store) (id : Z) (l l' : PaymentLink) :
  s.(payment_links) !! id = Some l → l.(pl_status) = value Link.REFUNDED → id ∈ announced s.(events) →
  (serve_all default_gateway minutes is_dev max_age rs s).(payment_links) !! id = Some l' →
  l'.(pl_status) = value Link.REFUNDED.
Proof.
  intros Hl Hst Hin Hl'. set (s' := serve_all _ _ _ _ _ _) in *.
  assert (terminal_at id (abs s')) as [_ Ht].
  { apply (board_steps_terminal id (abs s)).
    - apply serve_all_run.
    - split; [exact Hin|]. intros st Hm. rewrite (abs_lookup s id l Hl) in Hm. simplify_eq. done. }
  apply Ht, (abs_lookup s' id l' Hl').
Qed.

Definition demo_refunded : Store :=
  serve_all "deema" 60 false 0 ((1784000000000000,.) <$> [demo_create; demo_webhook; RefundLink 1 None None "staff" None]) demo_links.

Lemma refunded_link_is_final_witness :
  ∃ l, (serve_all "deema" 60 false 0 ((1784000000000000,.) <$> [demo_webhook; Sync 1; Cancel 1; Renew 1 "staff" None "d4e5f6"])
          demo_refunded).(payment_links) !! 1 = Some l ∧ l.(pl_status) = "refunded".
Proof.
  set (rs := (1784000000000000,.) <$> _).
  assert (∃ l, demo_refunded.(payment_links) !! 1 = Some l ∧ l.(pl_status) = "refunded") as (l & Hl & Hst)
    by (eexists; split; vm_compute; reflexivity).
  assert (∃ l', (serve_all "deema" 60 false 0 rs demo_refunded).(payment_links) !! 1 = Some l') as [l' Hl']
    by (eexists; vm_compute; reflexivity).
  exists l'. split; [exact Hl'|].
  refine (refunded_link_is_final "deema" 60 false 0 rs demo_refunded 1 l l' Hl Hst _ Hl').
  apply (bool_decide_unpack _). vm_compute. exact I.
Defined.
