(* ===== verification/LinkSettle.v ===== *)
(** * What a settlement does

    The branches of [Settlement.apply]: a link that is settled is left alone; a
    wrong amount settles nothing; a payable booking is confirmed with one
    payment row; a payment that cannot be used is sent back. *)

From S2P Require Import Prelude Exceptions Effects StateMachines Money Numbers Store PyText Attribution.
From S2P Require Import VoucherSnapshot VoucherService RefundService.
From S2P Require Import LinkGateway LinkAdapters Settlement LinkService LinkWebhook LinkRefund LinkApi LinkLedger LinkFrame LinkSpec.
#[local] Open Scope Z_scope.

(** The gateway names an amount that is not the link's. *)
Definition wrong_amount (state : GatewayPaymentState) (l : PaymentLink) : bool :=
  match state.(gs_amount) with Some a => amount_differs a l.(pl_amount) | None => false end.

(** The database with the link as a payment leaves it. *)
Definition with_paid (id : Z) (state : GatewayPaymentState) (source : string) (l : PaymentLink) (s : Store) : Store :=
  s <| payment_links := <[id := paid_link state source s.(now) l]> s.(payment_links) |>.

Section world.
Context `{World}.

(** A settled link: nothing is written and nothing published. *)
Lemma apply_settled_run id state source s l :
  s.(payment_links) !! id = Some l → l.(pl_status) ∈ Link.SETTLED →
  ∃ o, apply id state source s = (Ok (o, []), s) ∧ o ≠ SETTLED ∧ o ≠ FAILURE_RECORDED.
Proof.
  intros Hl Hst%(bool_decide_eq_true_2 _). unfold apply.
  destruct (gs_status state); [by exists PENDING|exists ALREADY_SETTLED|exists ALREADY_SETTLED|exists PENDING|exists PENDING].
  all: unfold apply_paid, record_failure, close_link; split; [|done]; row_runs; by rewrite Hst.
Qed.

(** The amount is compared before anything is settled. *)
Lemma apply_paid_mismatch id state source s l :
  s.(payment_links) !! id = Some l → l.(pl_status) ∉ Link.SETTLED → wrong_amount state l = true →
  ∃ d, apply_paid id state source s =
    (Ok (AMOUNT_MISMATCH, []), s <| payment_links := <[id := l <| pl_meta := Some d |>]> s.(payment_links) |>).
Proof.
  intros Hl Hst%(bool_decide_eq_false_2 _) Ha. unfold wrong_amount in Ha. eexists. unfold apply_paid. row_runs.
  rewrite Hst, Ha. row_runs. rewrite (alter_lookup _ _ _ _ Hl). reflexivity.
Qed.

Lemma apply_paid_enter id state source s l :
  s.(payment_links) !! id = Some l → l.(pl_status) ∉ Link.SETTLED → wrong_amount state l = false →
  apply_paid id state source s =
    try_except (events ← settle_target id s.(now); mret (SETTLED, events)) not_activatable
      (λ _, auto_refund id state ;; mret (FAILURE_RECORDED, [])) (with_paid id state source l s).
Proof.
  intros Hl Hst%(bool_decide_eq_false_2 _) Ha. unfold wrong_amount in Ha. unfold apply_paid. row_runs.
  rewrite Hst, Ha. row_runs. unfold with_paid. by rewrite (alter_lookup _ _ _ _ Hl).
Qed.

Lemma with_paid_row id state source l s :
  (with_paid id state source l s).(payment_links) !! id = Some (paid_link state source s.(now) l).
Proof. apply lookup_insert_eq. Qed.

(** ** A booking that cannot be paid for *)

Definition unpayable (b : option Booking) : Prop :=
  match b with Some b => b.(bk_status) ∈ NOT_PAYABLE_BOOKING | None => True end.

Lemma settle_target_unpayable id t s l :
  s.(payment_links) !! id = Some l → l.(pl_target_type) = Link.BOOKING → unpayable (s.(bookings) !! l.(pl_target_id)) →
  ∃ e, settle_target id t s = (Raise e, s) ∧ not_activatable e = true.
Proof.
  intros Hl Ht Hb. unfold settle_target. row_runs. rewrite Ht. cbn [String.eqb].
  change (Link.BOOKING =? Link.BOOKING)%string with true. cbn beta iota.
  unfold settle_booking. row_runs. unfold unpayable in Hb. destruct (bookings s !! pl_target_id l) as [b|]; cbn beta iota.
  - row_runs. apply (bool_decide_eq_true_2 _) in Hb. rewrite Hb. by eexists.
  - by eexists.
Qed.

(** What the refund asks of the gateway. *)
Definition refund_key (state : GatewayPaymentState) (l : PaymentLink) : string :=
  por_str (por l.(pl_gateway_invoice_id) l.(pl_gateway_payment_id)) (por_str (por state.(gs_invoice_id) state.(gs_payment_id)) "").

Lemma refund_payment_calls gw key amount s :
  (refund_payment gw key amount s).2 = s <| outbound := s.(outbound) ++ [LinkRefundCall gw.(gw_name) key amount] |>.
Proof.
  enough (∀ k : json → M Store RefundResponse, (∀ j, changes eq (k j)) →
    ((ask_gateway (LinkRefundCall gw.(gw_name) key amount) ≫= k) s).2 =
      s <| outbound := s.(outbound) ++ [LinkRefundCall gw.(gw_name) key amount] |>) as Hk.
  { unfold refund_payment, MyFatoorah.refund_payment, Tap.refund_payment. destruct (is_myfatoorah gw);
      (apply Hk; intros j; change_only; apply _). }
  intros k Hk. unfold ask_gateway, asking. run_steps. unfold lift.
  destruct (gateway_http _ _) as [j|e]; [|done]. symmetry. apply (Hk j).
Qed.

(** The calls of an automatic refund. *)
Definition refund_calls (state : GatewayPaymentState) (l : PaymentLink) : list OutboundCall :=
  match get_gateway l.(pl_gateway) with
  | Ok gw => if truthy (refund_key state l)
             then [LinkRefundCall gw.(gw_name) (refund_key state l) (refund_amount state l)] else []
  | Raise _ => []
  end.

Lemma auto_refund_run id state s l :
  s.(payment_links) !! id = Some l →
  ∃ m, auto_refund id state s = (Ok (),
    s <| payment_links := <[id := l <| pl_status := value Link.REFUNDED |> <| pl_meta := m |>]> s.(payment_links) |>
      <| outbound := s.(outbound) ++ refund_calls state l |>).
Proof.
  intros Hl. unfold auto_refund. row_runs. set (l1 := l <| pl_status := value Link.REFUNDED |>).
  set (s1 := s <| payment_links := _ |>).
  assert (payment_links s1 !! id = Some l1) as Hl1 by (unfold s1; cbn; by rewrite lookup_alter_eq, Hl).
  row_runs. change (pl_gateway l1) with (pl_gateway l). change (refund_amount state l1) with (refund_amount state l).
  change (por_str (por (pl_gateway_invoice_id l1) _) _) with (refund_key state l). unfold refund_calls.
  match goal with |- context [try_except ?m ?c ?h s1] =>
    assert (∃ b, try_except m c h s1 = (Ok b, s1 <| outbound := s.(outbound) ++ refund_calls state l |>)) as [b Hb] end.
  { unfold try_except, refund_calls. row_runs. unfold lift. destruct (get_gateway (pl_gateway l)) as [gw|e].
    2: { exists false. cbn. rewrite app_nil_r. by destruct s. }
    row_runs. destruct (truthy (refund_key state l)); row_runs.
    2: { exists true. cbn. rewrite app_nil_r. by destruct s. }
    pose proof (refund_payment_calls gw (refund_key state l) (refund_amount state l) s1) as Hs.
    destruct (refund_payment _ _ _ s1) as [[r|e] s2]; cbn in Hs; subst s2; [by exists true|by exists false]. }
  rewrite Hb. cbn beta iota. unfold refund_calls in *. row_runs. eexists. f_equal.
  unfold s1. cbn. rewrite (alter_twice _ _ _ _ _ Hl). reflexivity.
Qed.

(** C26: A payment for a booking that was cancelled, missed or deleted settles
    nothing: the link is marked refunded, the gateway named by the link is
    asked exactly once to pay the amount back (never, when neither the link nor
    the state names the payment), and no booking, payment, voucher or event
    changes, whatever the gateway answers. *)
Theorem unpayable_booking_is_refunded (id : Z) (state : GatewayPaymentState) (source : string) (s : Store) (l : PaymentLink) :
  s.(payment_links) !! id = Some l → l.(pl_status) ∉ Link.SETTLED → l.(pl_target_type) = Link.BOOKING →
  state.(gs_status) = Outcome.PAID → wrong_amount state l = false → unpayable (s.(bookings) !! l.(pl_target_id)) →
  ∃ l' s', apply id state source s = (Ok (FAILURE_RECORDED, []), s') ∧
    s'.(payment_links) = <[id := l']> s.(payment_links) ∧ l'.(pl_status) = value Link.REFUNDED ∧
    s'.(outbound) = s.(outbound) ++ refund_calls state (paid_link state source s.(now) l) ∧
    s'.(bookings) = s.(bookings) ∧ s'.(payments) = s.(payments) ∧ s'.(vouchers) = s.(vouchers) ∧
    s'.(refunds) = s.(refunds) ∧ s'.(events) = s.(events).
Proof.
  intros Hl Hst Ht Hp Ha Hb. unfold apply. rewrite Hp, (apply_paid_enter id state source s l Hl Hst Ha).
  set (s1 := with_paid id state source l s).
  destruct (settle_target_unpayable id s.(now) s1 _ (with_paid_row id state source l s) Ht Hb) as (e & He & Hc).
  destruct (auto_refund_run id state s1 _ (with_paid_row id state source l s)) as [m Hr].
  unfold try_except. rewrite bind_run, He. cbn beta iota. rewrite Hc, bind_run, Hr. cbn beta iota.
  do 2 eexists. split; [reflexivity|]. split; [cbn; by rewrite insert_insert_eq|]. by split_and!.
Qed.

(** ** A paid link is settled, once *)

Lemma apply_paid_link_settled id state source s l r :
  s.(payment_links) !! id = Some l → state.(gs_status) = Outcome.PAID → wrong_amount state l = false →
  ∀ s1, apply id state source s = (Ok r, s1) →
  ∃ l1, s1.(payment_links) !! id = Some l1 ∧ l1.(pl_status) ∈ Link.SETTLED.
Proof.
  intros Hl Hp Ha s1. unfold apply. rewrite Hp. destruct (decide (l.(pl_status) ∈ Link.SETTLED)) as [Hst|Hst].
  { unfold apply_paid. row_runs. rewrite (bool_decide_eq_true_2 _ Hst). row_runs. intros [= <- <-]. by exists l. }
  rewrite (apply_paid_enter id state source s l Hl Hst Ha). set (s0 := with_paid id state source l s).
  pose proof (abs_lookup s0 id _ (with_paid_row id state source l s)) as Hrow.
  unfold try_except. rewrite bind_run. pose proof (settle_target_framed same_board id s.(now) s0) as Hb. unfold same_board in Hb.
  destruct (settle_target id (now s) s0) as [[evs|e] s2]; cbn -[abs] in Hb; rewrite <- Hb in Hrow;
    apply abs_lookup_inv in Hrow as (l2 & Hl2 & Hst2).
  - cbn. intros [= <- <-]. exists l2. split; [done|]. rewrite Hst2. apply (bool_decide_unpack _). vm_compute. exact I.
  - destruct (not_activatable e); [|done]. destruct (auto_refund_run id state s2 l2 Hl2) as [m Hr].
    rewrite bind_run, Hr. cbn -[refund_calls]. intros [= <- <-]. eexists. split; [apply lookup_insert_eq|].
    apply (bool_decide_unpack _). vm_compute. exact I.
Qed.

(** Settling is idempotent: once a paid outcome was applied to a link (and
    its amount was right), applying any outcome to it again, from whatever
    source, writes nothing and publishes nothing. *)
Theorem apply_paid_once (id : Z) (state state' : GatewayPaymentState) (source source' : string) (s s1 : Store)
    (l : PaymentLink) (r : SettlementOutcome * list Event) :
  s.(payment_links) !! id = Some l → state.(gs_status) = Outcome.PAID → wrong_amount state l = false →
  apply id state source s = (Ok r, s1) → ∃ o, apply id state' source' s1 = (Ok (o, []), s1) ∧ o ≠ SETTLED.
Proof.
  intros Hl Hp Ha Hrun. destruct (apply_paid_link_settled id state source s l r Hl Hp Ha s1 Hrun) as (l1 & Hl1 & Hst1).
  destruct (apply_settled_run id state' source' s1 l1 Hl1 Hst1) as (o & Ho & Hne & _). by exists o.
Qed.

(** How far an amount is from [n] fils, in units of its last decimal place (of
    a fils, when it has none finer), and the tolerance in these units. *)
Definition amount_unit (a : Decimal) : Z := Z.min a.(exp) (-3).
Definition amount_gap (a : Decimal) (n : Z) : Z :=
  Z.abs (a.(coeff) * 10 ^ (a.(exp) - amount_unit a) - n * 10 ^ (-3 - amount_unit a)).
Definition one_fils (a : Decimal) : Z := 10 ^ (-3 - amount_unit a).

Lemma amount_differs_gap a n : amount_gap a n < 10 ^ prec → amount_differs a n = (one_fils a <? amount_gap a n).
Proof.
  intros Ha. unfold amount_differs, dec_sub, coeff_at. cbn [of_fils coeff exp]. change (Z.min (exp a) (-3)) with (amount_unit a).
  set (d := a.(coeff) * 10 ^ (a.(exp) - amount_unit a) - n * 10 ^ (-3 - amount_unit a)).
  change (Z.abs d < 10 ^ prec) in Ha. rewrite fix_prec_exact by exact Ha.
  unfold dec_abs. cbn [coeff exp]. rewrite fix_prec_exact by (cbn; rewrite Z.abs_idemp; exact Ha).
  unfold dec_ltb, dec_compare, coeff_at, AMOUNT_TOLERANCE. cbn [coeff exp].
  rewrite Z.min_r by (unfold amount_unit; lia). by rewrite Z.sub_diag, Z.mul_1_r, Z.mul_1_l.
Qed.

(** C29: When a gateway reports a link as paid and names an amount (of up to 28
    digits), an amount more than one fils away from the link's changes nothing but
    a note on the link, and any other leaves the link settled whenever the
    settlement returns.  A report that names no amount is not compared with the
    link's: it settles the link as it is. *)
Theorem settled_for_its_amount (id : Z) (state : GatewayPaymentState) (source : string) (s : Store) (l : PaymentLink) :
  s.(payment_links) !! id = Some l → l.(pl_status) ∉ Link.SETTLED → state.(gs_status) = Outcome.PAID →
  (∀ a, state.(gs_amount) = Some a → amount_gap a l.(pl_amount) < 10 ^ prec →
     (one_fils a < amount_gap a l.(pl_amount) → ∃ d, apply id state source s =
        (Ok (AMOUNT_MISMATCH, []), s <| payment_links := <[id := l <| pl_meta := Some d |>]> s.(payment_links) |>)) ∧
     (amount_gap a l.(pl_amount) <= one_fils a → ∀ r s1, apply id state source s = (Ok r, s1) →
        ∃ l1, s1.(payment_links) !! id = Some l1 ∧ l1.(pl_status) ∈ Link.SETTLED)) ∧
  (state.(gs_amount) = None → ∀ r s1, apply id state source s = (Ok r, s1) →
     ∃ l1, s1.(payment_links) !! id = Some l1 ∧ l1.(pl_status) ∈ Link.SETTLED).
Proof.
  intros Hl Hst Hp. split.
  - intros a Ha Hsmall. assert (wrong_amount state l = (one_fils a <? amount_gap a l.(pl_amount))) as Hw
      by (unfold wrong_amount; rewrite Ha; by apply amount_differs_gap).
    split; intros Hd.
    + unfold apply. rewrite Hp. apply apply_paid_mismatch; [done..|]. rewrite Hw. by apply Z.ltb_lt.
    + intros r s1. apply (apply_paid_link_settled id state source s l r Hl Hp). rewrite Hw. by apply Z.ltb_ge.
  - intros Ha r s1. apply (apply_paid_link_settled id state source s l r Hl Hp). unfold wrong_amount. by rewrite Ha.
Qed.

(** ** A booking that can be paid for *)

Definition CONFIRMABLE : list string := [value Booking.REQUESTED; value Booking.PAYMENT_PENDING; value Booking.DRAFT].

(** The booking a payment confirms, and the row of its payment. *)
Definition confirmed (b : Booking) : Booking :=
  if b.(bk_status) in? CONFIRMABLE then b <| bk_status := value Booking.CONFIRMED |> else b.
Definition paid_booking (id : Z) (l : PaymentLink) (t : Z) (b : Booking) : Booking :=
  attribute_booking (settled_booking id l t (confirmed b)).
Definition payment_number (s : Store) : string := generate_payment_number s.(now) (pm_payment_number <$> rows s.(payments)).
Definition payment_row (id : Z) (l : PaymentLink) (t : Z) (b : Booking) (s : Store) : Payment :=
  attribute_payment (booking_payment id l l.(pl_target_id) (paid_booking id l t b) (payment_number s) t (new_id s.(payments))).

Lemma confirm_booking_run l bid b s :
  s.(bookings) !! bid = Some b →
  ∃ h, confirm_booking l bid b.(bk_status) s =
    (Ok (), s <| bookings := <[bid := confirmed b]> s.(bookings) |> <| booking_status_history := s.(booking_status_history) ++ h |>) ∧
    (h = [] ↔ (b.(bk_status) ∉ CONFIRMABLE)).
Proof.
  intros Hb. unfold confirm_booking, confirmed. fold CONFIRMABLE. destruct (b.(bk_status) in? CONFIRMABLE) eqn:E; breflect.
  - eexists [_]. split; [|done]. row_runs. unfold add_booking_history. row_runs. by rewrite (alter_lookup _ _ _ _ Hb).
  - exists []. split; [|done]. row_runs. rewrite insert_id by done. rewrite app_nil_r. by destruct s.
Qed.

Lemma newest_key_absent (p : Payment → bool) key (m : gmap Z Payment) :
  (∀ k v, m !! k = Some v → p v = false) → newest_key p key m = None.
Proof. apply newest_key_None. Qed.

Lemma record_booking_payment_run id l t b0 s :
  let bid := l.(pl_target_id) in
  let b := attribute_booking (settled_booking id l t b0) in
  let row := attribute_payment (booking_payment id l bid b (payment_number s) t (new_id s.(payments))) in
  s.(bookings) !! bid = Some b →
  (∀ k p, s.(payments) !! k = Some p → p.(pm_booking_id) ≠ Some bid) →
  (payment_number s ∉ (pm_payment_number <$> rows s.(payments))) →
  ∃ h, record_booking_payment id l bid t s = (Ok (new_id s.(payments)),
    s <| payments := <[new_id s.(payments) := row]> s.(payments) |>
      <| payment_status_history := s.(payment_status_history) ++ [h] |>).
Proof.
  intros bid b row Hb Hnone Hnum. eexists. unfold record_booking_payment. row_runs.
  rewrite (newest_key_absent _ _ s.(payments)) by (intros k p Hp; by apply bool_decide_eq_false_2, (Hnone k)).
  row_runs. unfold insert_payment. row_runs. fold (payment_number s). fold row.
  change (pm_payment_number row) with (payment_number s). rewrite (bool_decide_eq_false_2 _ Hnum). row_runs.
  set (s1 := s <| payments := _ |>). assert (payments s1 !! new_id s.(payments) = Some row) as Hrow by apply lookup_insert_eq.
  row_runs. unfold add_history. row_runs. reflexivity.
Qed.

(** What a payable booking needs for its payment to be recorded: no payment
    yet, and a number nobody has. *)
Definition payable (bid : Z) (b : Booking) (s : Store) : Prop :=
  s.(bookings) !! bid = Some b ∧ (b.(bk_status) ∉ NOT_PAYABLE_BOOKING) ∧
  (∀ k p, s.(payments) !! k = Some p → p.(pm_booking_id) ≠ Some bid) ∧
  (payment_number s ∉ (pm_payment_number <$> rows s.(payments))).

Lemma settle_booking_run id t s l b :
  s.(payment_links) !! id = Some l → payable l.(pl_target_id) b s →
  ∃ h hb, settle_booking id t s =
    (Ok [PaymentLinkPaidEvent id l.(pl_target_id) l.(pl_gateway_payment_id) l.(pl_amount)],
     s <| bookings := <[l.(pl_target_id) := paid_booking id l t b]> s.(bookings) |>
       <| booking_status_history := s.(booking_status_history) ++ hb |>
       <| payments := <[new_id s.(payments) := payment_row id l t b s]> s.(payments) |>
       <| payment_status_history := s.(payment_status_history) ++ [h] |>
       <| payment_links := <[id := l <| pl_payment_row_id := Some (new_id s.(payments)) |>]> s.(payment_links) |>) ∧
    (hb = [] ↔ b.(bk_status) ∉ CONFIRMABLE).
Proof.
  intros Hl (Hb & Hst & Hnone & Hnum). unfold settle_booking. row_runs. rewrite Hb. row_runs.
  rewrite (bool_decide_eq_false_2 _ Hst). row_runs.
  destruct (confirm_booking_run l _ b s Hb) as (hb & Hc & Hiff). rewrite Hc. row_runs.
  unfold flush_booking. row_runs.
  set (s1 := s <| bookings := _ |> <| booking_status_history := _ |> <| bookings := _ |> <| bookings := _ |>).
  assert (bookings s1 = <[l.(pl_target_id) := paid_booking id l t b]> s.(bookings)) as Hbs.
  { unfold s1. cbn -[settled_booking attribute_booking].
    rewrite (alter_insert_eq _ _ (settled_booking id l t)), alter_insert_eq, ?insert_insert_eq. done. }
  pose proof (record_booking_payment_run id l t (confirmed b) s1) as Hrec. cbv zeta in Hrec.
  destruct Hrec as [h Hrec]; [rewrite Hbs; apply lookup_insert_eq|exact Hnone|exact Hnum|].
  rewrite Hrec. clear Hrec. row_runs. exists h, hb. split; [|exact Hiff]. apply (f_equal (pair _)).
  assert (s1 = s <| bookings := <[l.(pl_target_id) := paid_booking id l t b]> s.(bookings) |>
                 <| booking_status_history := s.(booking_status_history) ++ hb |>) as ->.
  { rewrite <- Hbs. unfold s1. reflexivity. }
  cbn -[paid_booking booking_payment attribute_payment payment_row]. rewrite (alter_lookup _ _ _ _ Hl). reflexivity.
Qed.

(** C25: A payment for a booking that can be paid settles it completely: the
    link is paid and points to the one payment row made for it (for the link's
    amount, nothing refunded, under a new key), the booking is paid and linked,
    and confirmed when it was requested, waiting for its payment or a draft,
    with one row in its history exactly then; one event is left to publish and
    nobody outside is called. *)
Theorem payable_booking_is_settled (id : Z) (state : GatewayPaymentState) (source : string) (s : Store) (l : PaymentLink)
    (b : Booking) :
  s.(payment_links) !! id = Some l → l.(pl_status) ∉ Link.SETTLED → l.(pl_target_type) = Link.BOOKING →
  state.(gs_status) = Outcome.PAID → wrong_amount state l = false → payable l.(pl_target_id) b s →
  ∃ s' l' b' p, apply id state source s =
      (Ok (SETTLED, [PaymentLinkPaidEvent id l.(pl_target_id) l'.(pl_gateway_payment_id) l.(pl_amount)]), s') ∧
    s'.(payment_links) = <[id := l']> s.(payment_links) ∧ l'.(pl_status) = value Link.PAID ∧
    l'.(pl_paid_at) = Some s.(now) ∧ l'.(pl_payment_row_id) = Some (new_id s.(payments)) ∧
    s'.(payments) = <[new_id s.(payments) := p]> s.(payments) ∧ s.(payments) !! new_id s.(payments) = None ∧
    p.(pm_booking_id) = Some l.(pl_target_id) ∧ p.(pm_total_amount) = l.(pl_amount) ∧ p.(pm_amount_refunded) = 0 ∧
    p.(pm_status) = Some "success" ∧ p.(pm_payment_link_id) = Some id ∧
    s'.(bookings) = <[l.(pl_target_id) := b']> s.(bookings) ∧ b'.(bk_payment_status) = "success" ∧
    b'.(bk_payment_link_id) = Some id ∧ b'.(bk_total_amount) = b.(bk_total_amount) ∧
    b'.(bk_status) = (if b.(bk_status) in? CONFIRMABLE then value Booking.CONFIRMED else b.(bk_status)) ∧
    (s'.(booking_status_history) = s.(booking_status_history) ↔ (b.(bk_status) ∉ CONFIRMABLE)) ∧
    s'.(outbound) = s.(outbound) ∧ s'.(events) = s.(events) ∧ s'.(vouchers) = s.(vouchers).
Proof.
  intros Hl Hst Ht Hp Ha Hpay. set (l1 := paid_link state source s.(now) l). set (s1 := with_paid id state source l s).
  destruct (settle_booking_run id s.(now) s1 l1 b (with_paid_row id state source l s) Hpay) as (h & hb & Hrun & Hiff).
  match type of Hrun with _ = (_, ?x) => set (s2 := x) in Hrun end.
  exists s2, (l1 <| pl_payment_row_id := Some (new_id s.(payments)) |>), (paid_booking id l1 s.(now) b),
    (payment_row id l1 s.(now) b s1). split.
  { unfold apply. rewrite Hp, (apply_paid_enter id state source s l Hl Hst Ha). fold s1. unfold try_except.
    rewrite bind_run. unfold settle_target. rewrite bind_run, (get_link_row_run id s1 l1) by apply with_paid_row.
    cbn beta iota. change (pl_target_type l1) with (pl_target_type l). rewrite Ht.
    change (Link.BOOKING =? Link.BOOKING)%string with true. cbn beta iota. rewrite Hrun. reflexivity. }
  split.
  { change (payment_links s2) with (<[id := l1 <| pl_payment_row_id := Some (new_id s.(payments)) |>]> (<[id := l1]> s.(payment_links))).
    apply insert_insert_eq. }
  do 3 (split; [reflexivity|]). split; [reflexivity|]. split; [apply new_id_fresh|].
  do 5 (split; [reflexivity|]). split; [reflexivity|]. split; [reflexivity|]. split; [reflexivity|].
  unfold paid_booking, confirmed. split; [by destruct (_ in? _)|]. split; [by destruct (_ in? _)|].
  split; [|by split_and!]. cbn. rewrite <- Hiff. split; [|intros ->; apply app_nil_r].
  intros Heq. apply (f_equal length) in Heq. rewrite length_app in Heq. destruct hb; [done|simpl in Heq; lia].
Qed.
End world.

(** ** Examples *)

#[local] Existing Instance demo_world.

Definition demo_open : Store := serve_all "deema" 60 false 0 [(1784000000000000, demo_create)] demo_links.
Definition demo_state : GatewayPaymentState := Tap.charge_state DeemaGateway demo_charge None.
Definition demo_cancelled : Store :=
  demo_open <| bookings := alter (λ b, b <| bk_status := "cancelled" |>) 1 demo_open.(bookings) |>.

(** An unsettled link. *)
Ltac unsettled := apply (bool_decide_unpack _); vm_compute; exact I.

Lemma unpayable_booking_is_refunded_witness :
  ∃ s', apply 1 demo_state "manual_sync" demo_cancelled = (Ok (FAILURE_RECORDED, []), s') ∧
        pl_status <$> s'.(payment_links) !! 1 = Some "refunded" ∧
        s'.(outbound) = demo_cancelled.(outbound) ++ [LinkRefundCall "deema" "chg_1" (mk_dec 20 0)].
Proof.
  eassert (demo_cancelled.(payment_links) !! 1 = Some _) as Hl by (vm_compute; reflexivity).
  eassert (demo_cancelled.(bookings) !! 1 = Some _) as Hb by (vm_compute; reflexivity).
  destruct (unpayable_booking_is_refunded 1 demo_state "manual_sync" demo_cancelled _ Hl) as (l' & s' & Hr & Hls & Hst & Hout & _);
    [unsettled|reflexivity|reflexivity|vm_compute; reflexivity| |].
  { cbn [pl_target_id]. rewrite Hb. cbn [unpayable bk_status]. apply (bool_decide_unpack _). vm_compute. exact I. }
  exists s'. split; [exact Hr|]. split; [rewrite Hls, lookup_insert_eq; cbn; by rewrite Hst|].
  rewrite Hout. vm_compute. reflexivity.
Defined.

Lemma apply_paid_once_witness :
  let s1 := (apply 1 demo_state "callback" demo_open).2 in
  ∃ o, apply 1 demo_state "webhook_deema" s1 = (Ok (o, []), s1) ∧ o ≠ SETTLED.
Proof.
  cbv zeta. eassert (demo_open.(payment_links) !! 1 = Some _) as Hl by (vm_compute; reflexivity).
  eassert ((apply 1 demo_state "callback" demo_open).1 = Ok _) as Hr by (vm_compute; reflexivity).
  refine (apply_paid_once 1 demo_state demo_state "callback" "webhook_deema" demo_open _ _ _ Hl _ _ _).
  - reflexivity.
  - vm_compute. reflexivity.
  - rewrite <- Hr. apply surjective_pairing.
Defined.

Lemma settled_for_its_amount_witness :
  let wrong := demo_state <| gs_amount := Some (mk_dec 199985 (-4)) |> in
  ∃ d l, demo_open.(payment_links) !! 1 = Some l ∧ apply 1 wrong "callback" demo_open =
    (Ok (AMOUNT_MISMATCH, []), demo_open <| payment_links := <[1 := l <| pl_meta := Some d |>]> demo_open.(payment_links) |>).
Proof.
  cbv zeta. eassert (demo_open.(payment_links) !! 1 = Some _) as Hl by (vm_compute; reflexivity).
  edestruct (settled_for_its_amount 1 (demo_state <| gs_amount := Some (mk_dec 199985 (-4)) |>) "callback" demo_open _ Hl) as [H _];
    [unsettled|reflexivity|].
  destruct (H _ eq_refl) as [[d Hd] _]; [vm_compute; reflexivity..|]. exists d. eexists. split; [exact Hl|exact Hd].
Defined.

Lemma payable_booking_is_settled_witness :
  ∃ s' e, apply 1 demo_state "callback" demo_open = (Ok (SETTLED, [e]), s') ∧
    pm_total_amount <$> s'.(payments) !! 1 = Some 20000 ∧ bk_status <$> s'.(bookings) !! 1 = Some "confirmed".
Proof.
  eassert (demo_open.(payment_links) !! 1 = Some _) as Hl by (vm_compute; reflexivity).
  assert (∃ b, demo_open.(bookings) !! 1 = Some b ∧ b.(bk_status) = "payment_pending") as (b & Hb & Hbs0)
    by (eexists; split; vm_compute; reflexivity).
  destruct (payable_booking_is_settled 1 demo_state "callback" demo_open _ b Hl)
    as (s' & l' & b' & p & Hr & _ & _ & _ & _ & Hp & _ & _ & Ht & _ & _ & _ & Hbs & _ & _ & _ & Hst & _);
    [unsettled|reflexivity|reflexivity|vm_compute; reflexivity| |].
  - split; [exact Hb|]. split; [rewrite Hbs0; unsettled|]. change (demo_open.(payments)) with (∅ : gmap Z Payment). split.
    + intros k p Hk. by rewrite lookup_empty in Hk.
    + unfold payment_number. change (demo_open.(payments)) with (∅ : gmap Z Payment). unsettled.
  - exists s'. eexists. split; [exact Hr|]. split.
    + rewrite Hp. change (new_id (payments demo_open)) with 1. rewrite lookup_insert_eq. cbn. by rewrite Ht.
    + rewrite Hbs. cbn [pl_target_id]. rewrite lookup_insert_eq. cbn. by rewrite Hst, Hbs0.
Defined.
