(* ===== verification/LinkInbox.v ===== *)
(** * What a webhook may cause

    A webhook is handled at most once over every later history of requests; a
    payment the gateway does not confirm settles nothing; an unsigned webhook
    is refused. *)

From S2P Require Import Prelude Exceptions Effects StateMachines Money Numbers Store PyText Attribution.
From S2P Require Import VoucherSnapshot VoucherService RefundService.
From S2P Require Import LinkGateway LinkAdapters Settlement LinkService LinkWebhook LinkRefund LinkApi LinkLedger LinkFrame LinkSpec.
#[local] Open Scope Z_scope.

(** ** The inbox only grows *)

Definition received (gateway reference : string) (s : Store) : Prop :=
  ∃ k e, s.(payment_webhook_events) !! k = Some e ∧ e.(we_gateway) = gateway ∧ e.(we_event_reference) = reference.
Definition inbox_grows (s s' : Store) : Prop := ∀ g r, received g r s → received g r s'.

#[export] Instance inbox_grows_preorder : PreOrder inbox_grows.
Proof. split; unfold inbox_grows; [by intros s g r|]. intros a b c Hab Hbc g r Hr. by apply Hbc, Hab. Qed.
#[export] Instance inbox_grows_frame : LinkFrame inbox_grows.
Proof. split; [split; [apply _|..]|..]; intros; by intros ? ?. Qed.

Lemma inbox_alter f k s :
  (∀ e, (f e).(we_gateway) = e.(we_gateway) ∧ (f e).(we_event_reference) = e.(we_event_reference)) →
  inbox_grows s (s <| payment_webhook_events := alter f k s.(payment_webhook_events) |>).
Proof.
  intros Hf g r (j & e & He & Hg & Hr). destruct (decide (j = k)) as [->|Hne].
  - exists k, (f e). destruct (Hf e) as [-> ->]. cbn. by rewrite lookup_alter_eq, He.
  - exists j, e. cbn. by rewrite lookup_alter_ne.
Qed.
Lemma inbox_insert e s :
  inbox_grows s (s <| payment_webhook_events := <[new_id s.(payment_webhook_events) := e]> s.(payment_webhook_events) |>).
Proof.
  intros g r (j & e' & He & Hgr). exists j, e'. cbn. rewrite lookup_insert_ne; [done|].
  intros <-. by rewrite new_id_fresh in He.
Qed.

(** Links may change as they will. *)
Lemma upd_link_inbox id f : changes inbox_grows (upd_link id f).
Proof. by intros s ? ?. Qed.
Lemma delete_row_inbox id : changes inbox_grows (PaymentLinkService.delete_row id).
Proof. by intros s ? ?. Qed.
Lemma insert_link_inbox l : changes inbox_grows (PaymentLinkService.insert_link l).
Proof.
  unfold PaymentLinkService.insert_link. apply changes_bind; [apply _|change_only|intros s0].
  apply changes_bind; [apply _|change_only|intros _]. by intros s ? ?.
Qed.
Lemma publish_pending_inbox evs : changes inbox_grows (publish_pending_events evs).
Proof.
  unfold publish_pending_events. induction evs as [|e evs IH]; cbn [for_each]; [change_only|].
  apply changes_bind; [apply _|by intros s ? ?|intros _; apply IH].
Qed.
Lemma in_session_inbox {A} (m : M Store A) : changes inbox_grows m → changes inbox_grows (in_session m).
Proof. intros Hm s. specialize (Hm s). unfold in_session. destruct (m s) as [[a|e] s1]; [done|by intros ? ?]. Qed.
#[local] Hint Resolve upd_link_inbox delete_row_inbox insert_link_inbox publish_pending_inbox in_session_inbox : ush.

Section world.
Context `{World}.

Lemma auto_refund_inbox id state : changes inbox_grows (auto_refund id state).
Proof. unfold auto_refund. change_only. Qed.
Hint Resolve auto_refund_inbox : ush.
Lemma apply_inbox id state source : changes inbox_grows (apply id state source).
Proof. unfold apply, apply_paid, record_failure, close_link. change_only. Qed.
Hint Resolve apply_inbox : ush.

Lemma claim_event_inbox gw ev ref : changes inbox_grows (PaymentWebhookService.claim_event gw ev ref).
Proof.
  intros s. unfold PaymentWebhookService.claim_event. rewrite bind_run, get_run. cbn beta iota zeta.
  destruct (existsb _ _); [reflexivity|]. apply inbox_insert.
Qed.
Lemma handle_payment_event_inbox gw ev : changes inbox_grows (PaymentWebhookService.handle_payment_event gw ev).
Proof. unfold PaymentWebhookService.handle_payment_event. change_only. Qed.
Lemma handle_event_inbox gw ev : changes inbox_grows (PaymentWebhookService.handle_event gw ev).
Proof. pose proof handle_payment_event_inbox. unfold PaymentWebhookService.handle_event. change_only. Qed.
Hint Resolve claim_event_inbox handle_event_inbox : ush.
Lemma note_outcome_inbox k (o : string) (t : option Z) (n : Z) :
  changes inbox_grows (modify (λ s, s <| payment_webhook_events := alter (λ e, e <| we_outcome := o |>
    <| we_payment_id := t |> <| we_processed_at := Some n |>) k s.(payment_webhook_events) |>)).
Proof. intros s. by apply inbox_alter. Qed.
Hint Resolve note_outcome_inbox : ush.
Lemma process_inbox dev n gw headers body : changes inbox_grows (PaymentWebhookService.process dev n gw headers body).
Proof. unfold PaymentWebhookService.process. change_only. Qed.

Lemma issue_link_inbox minutes gw c t target amount i n :
  changes inbox_grows (PaymentLinkService.issue_link minutes gw c t target amount i n).
Proof. unfold PaymentLinkService.issue_link. change_only. Qed.
Lemma create_link_inbox minutes gw c : changes inbox_grows (PaymentLinkService.create_link minutes gw c).
Proof.
  pose proof issue_link_inbox.
  unfold PaymentLinkService.create_link, PaymentLinkService.settle_existing, PaymentLinkService.resolve_invoice,
    PaymentLinkService.load_target, PaymentLinkService.load_booking, PaymentLinkService.load_voucher,
    PaymentLinkService.resolve_amount, PaymentLinkService.cancelled_amount, PaymentLinkService.cancel_at_gateway.
  change_only.
Qed.
Lemma cancel_and_delete_inbox gw links : changes inbox_grows (PaymentLinkService.cancel_and_delete gw links).
Proof.
  induction links as [|[id l] links IH]; cbn [PaymentLinkService.cancel_and_delete];
    unfold PaymentLinkService.cancel_at_gateway; change_only.
Qed.
Hint Resolve process_inbox create_link_inbox cancel_and_delete_inbox : ush.

Lemma handle_inbox default_gateway minutes dev age r : changes inbox_grows (handle default_gateway minutes dev age r).
Proof.
  destruct r; cbn [handle]; unfold gateway_webhook_get, gateway_webhook_post, payment_link_callback, callback,
    settle_by_lookup, PaymentWebhookService.gateway_webhook, create_payment_link, renew_payment_link, sync_payment_link,
    cancel_payment_link, delete_payment_link, cancel_payment_links_by_target, refund_payment_link;
  unfold PaymentLinkService.renew_link, PaymentLinkService.sync_status, PaymentLinkService.cancel_link,
    PaymentLinkService.delete_link, PaymentLinkService.cancel_and_delete_links_for_target,
    PaymentLinkService.get_link, PaymentLinkService.cancel_at_gateway, PaymentLinkRefundService.refund; repeat first [apply in_session_inbox | change_step].
Qed.

Lemma serve_all_inbox default_gateway minutes dev age rs s :
  inbox_grows s (serve_all default_gateway minutes dev age rs s).
Proof.
  unfold serve_all. revert s; induction rs as [|r rs IH]; intros s; [by unfold inbox_grows|].
  cbn [foldl]. etransitivity; [|apply IH]. unfold serve.
  intros g ref Hr. by apply (handle_inbox default_gateway minutes dev age r.2 (s <| now := r.1 |>)).
Qed.
End world.

(** ** A webhook is handled once *)

Section once.
Context `{World}.
Context (is_dev : bool) (max_age : Z) (gw : Gateway) (body : string).

(** The reference a webhook is recorded under. *)
Definition reference_of (ev : GatewayWebhookEvent) : string :=
  take_text 150 (por_str ev.(ge_event_reference) (sha256_hex body)).

(** The event in a body, when it is one. *)
Definition body_event (ev : GatewayWebhookEvent) : Prop :=
  ∃ d, json_loads (if truthy body then body else "{}") = Some (JDict d) ∧ parse_event gw (JDict d) = Ok ev.

Lemma existsb_received ref s :
  existsb (λ e, String.eqb e.(we_gateway) gw.(gw_name) && String.eqb e.(we_event_reference) ref)
    (rows s.(payment_webhook_events)) = true ↔ received gw.(gw_name) ref s.
Proof.
  rewrite existsb_exists. split.
  - intros (e & [k Hk]%list_elem_of_In%elem_of_rows & He). breflect. by exists k, e.
  - intros (k & e & Hk & Hg & Hr). exists e. split; [apply list_elem_of_In, elem_of_rows; eauto|].
    by rewrite Hg, Hr, !String.eqb_refl.
Qed.

(** What [process] does before it records the webhook writes nothing. *)
Lemma process_event_wp headers s (Q : result (string * list Event) → Store → Prop) :
  (∀ e, Q (Raise e) s) →
  (∀ ev, body_event ev → ev.(ge_kind) = IGNORED → Q (Ok ("ignored", [])) s) →
  (∀ ev, body_event ev → ev.(ge_kind) ≠ IGNORED →
     wp (inbox_id ← PaymentWebhookService.claim_event gw ev (por_str ev.(ge_event_reference) (sha256_hex body));
         match inbox_id with
         | None => mret ("duplicate", [])
         | Some inbox =>
             '(outcome, target_id, events) ← PaymentWebhookService.handle_event gw ev;
             now_ ← gets now;
             modify (λ s, s <| payment_webhook_events := alter (λ e, e <| we_outcome := outcome |>
               <| we_payment_id := target_id |> <| we_processed_at := Some now_ |>) inbox s.(payment_webhook_events) |>) ;;
             mret (outcome, events)
         end) s Q) →
  wp (PaymentWebhookService.process is_dev max_age gw headers body) s Q.
Proof.
  intros Hraise Hignored Hclaim. unfold PaymentWebhookService.process. apply wp_bind.
  destruct (json_loads _) as [[| | | | | |d]|] eqn:Hd; try apply Hraise. apply wp_ret.
  apply wp_bind, wp_lift. destruct (verify_signature _ _ _); [|apply Hraise].
  apply wp_bind, wp_raise_if; intros _; cbn beta iota; [apply Hraise|].
  apply wp_bind, wp_lift. destruct (parse_event gw (JDict d)) as [ev|] eqn:Hev; [|apply Hraise].
  assert (body_event ev) as Hbody by (by exists d).
  destruct (ge_kind ev ==? IGNORED) eqn:Hk; breflect; [by apply wp_ret, (Hignored ev)|].
  apply wp_bind, (wp_changes eq); [unfold PaymentWebhookService.check_age; change_only; apply _|].
  intros [[]|e] ? <-; cbn beta iota; [by apply Hclaim|apply Hraise].
Qed.

(** The headers vouch for the body, or nobody asks. *)
Definition accepted (headers : list (string * string)) (d : jdict) : bool :=
  match verify_signature gw headers (JDict d) with Ok v => v || is_dev | Raise _ => false end.

(** The steps before the inbox. *)
Lemma process_entry headers s d :
  json_loads (if truthy body then body else "{}") = Some (JDict d) →
  (accepted headers d = false → ∃ e, PaymentWebhookService.process is_dev max_age gw headers body s = (Raise e, s)) ∧
  (accepted headers d = true → ∀ ev, parse_event gw (JDict d) = Ok ev → ev.(ge_kind) = IGNORED →
     PaymentWebhookService.process is_dev max_age gw headers body s = (Ok ("ignored", []), s)) ∧
  (∀ e, accepted headers d = true → parse_event gw (JDict d) = Raise e →
     PaymentWebhookService.process is_dev max_age gw headers body s = (Raise e, s)).
Proof.
  intros Hd. unfold accepted, PaymentWebhookService.process. rewrite !bind_run, Hd. cbn beta iota. rewrite !ret_run. cbn beta iota.
  rewrite !bind_run. unfold lift at 1 3 5. destruct (verify_signature _ _ _) as [v|e]; [|by split; [eauto|split]].
  rewrite !bind_run, !raise_if_run. split_and!.
  - destruct v, is_dev; try done. eauto.
  - intros Hv ev Hev Hk. replace (negb v && negb is_dev) with false by (by destruct v, is_dev). rewrite bind_run. unfold lift.
    by rewrite Hev, bool_decide_eq_true_2.
  - intros e Hv Hev. replace (negb v && negb is_dev) with false by (by destruct v, is_dev). rewrite bind_run. unfold lift. by rewrite Hev.
Qed.

(** What was answered was a JSON object with an event of this gateway, and its
    headers were accepted. *)
Lemma process_answered headers s o s1 :
  PaymentWebhookService.process is_dev max_age gw headers body s = (Ok o, s1) →
  ∃ d ev, json_loads (if truthy body then body else "{}") = Some (JDict d) ∧ parse_event gw (JDict d) = Ok ev ∧
    accepted headers d = true.
Proof.
  intros Hrun. destruct (json_loads (if truthy body then body else "{}")) as [j|] eqn:Hd.
  2:{ unfold PaymentWebhookService.process in Hrun. by rewrite bind_run, Hd in Hrun. }
  destruct j as [| | | | | |d]; try (unfold PaymentWebhookService.process in Hrun; by rewrite bind_run, Hd in Hrun).
  destruct (process_entry headers s d Hd) as (H1 & _ & H3). exists d.
  destruct (accepted headers d) eqn:Ha; [|destruct (H1 eq_refl) as [e E]; congruence].
  destruct (parse_event gw (JDict d)) as [ev|e] eqn:Hev; [by exists ev|]. rewrite (H3 e eq_refl eq_refl) in Hrun. done.
Qed.

Lemma check_age_same payload s : (PaymentWebhookService.check_age max_age payload s).2 = s.
Proof.
  symmetry. revert s. change (changes eq (PaymentWebhookService.check_age max_age payload)).
  unfold PaymentWebhookService.check_age. change_only; apply _.
Qed.

(** A webhook in the inbox is answered without a write. *)
Lemma process_received headers s d ev :
  json_loads (if truthy body then body else "{}") = Some (JDict d) → parse_event gw (JDict d) = Ok ev →
  accepted headers d = true → ev.(ge_kind) ≠ IGNORED → received gw.(gw_name) (reference_of ev) s →
  PaymentWebhookService.process is_dev max_age gw headers body s =
    (match (PaymentWebhookService.check_age max_age (JDict d) s).1 with Ok _ => Ok ("duplicate", []) | Raise e => Raise e end, s).
Proof.
  intros Hd Hev Ha Hk Hrec. unfold accepted in Ha. unfold PaymentWebhookService.process. rewrite bind_run, Hd. cbn beta iota.
  rewrite ret_run. cbn beta iota. rewrite bind_run. unfold lift at 1. destruct (verify_signature _ _ _) as [v|e]; [|done].
  rewrite bind_run, raise_if_run. replace (negb v && negb is_dev) with false by (by destruct v, is_dev).
  rewrite bind_run. unfold lift. rewrite Hev, bool_decide_eq_false_2 by done. rewrite bind_run.
  pose proof (check_age_same (JDict d) s) as Hs. destruct (PaymentWebhookService.check_age _ _ s) as [[[]|e] s'];
    cbn [fst snd] in *; subst s'; [|done].
  unfold PaymentWebhookService.claim_event. rewrite !bind_run, get_run. cbn beta iota zeta. fold (reference_of ev).
  by rewrite (proj2 (existsb_received (reference_of ev) s) Hrec).
Qed.

Lemma body_event_unique ev ev' : body_event ev → body_event ev' → ev = ev'.
Proof. intros (d & Hd & Hev) (d' & Hd' & Hev'). rewrite Hd in Hd'. simplify_eq. rewrite Hev in Hev'. by simplify_eq. Qed.

(** A webhook that was answered is in the inbox. *)
Lemma process_records headers s o s1 :
  PaymentWebhookService.process is_dev max_age gw headers body s = (Ok o, s1) →
  ∀ ev, body_event ev → ev.(ge_kind) ≠ IGNORED → received gw.(gw_name) (reference_of ev) s1.
Proof.
  intros Hrun ev Hbody Hk.
  assert (wp (PaymentWebhookService.process is_dev max_age gw headers body) s (λ r s1,
    match r with Ok _ => received gw.(gw_name) (reference_of ev) s1 | Raise _ => True end)) as Hwp;
    [|exact (wp_run _ _ _ _ _ Hwp Hrun)].
  apply process_event_wp; [done| |].
  - intros ev' Hbody' Hk'. by rewrite (body_event_unique ev ev' Hbody Hbody') in Hk.
  - intros ev' Hbody' _. rewrite <- (body_event_unique ev ev' Hbody Hbody'). clear ev' Hbody'.
    unfold PaymentWebhookService.claim_event. apply wp_bind, wp_bind, wp_get. cbn beta iota zeta.
    destruct (existsb _ _) eqn:E; [apply wp_ret, wp_ret; by apply (existsb_received (reference_of ev))|].
    apply wp_bind, wp_modify. cbn beta iota. apply wp_ret. cbn beta iota. set (s2 := s <| payment_webhook_events := _ |>).
    assert (received gw.(gw_name) (reference_of ev) s2) as Hs2
      by (eexists _, _; split; [apply lookup_insert_eq|done]).
    apply wp_bind, (wp_changes _ _ _ _ (handle_event_inbox gw ev)). intros [[[o' t] evs]|e] s3 H3; cbn beta iota; [|done].
    apply wp_bind, wp_gets. cbn beta iota. apply wp_bind, wp_modify, wp_ret.
    by apply inbox_alter, H3.
Qed.
End once.

(** C27: A webhook is handled at most once.  Once one was answered, its body was
    an event and its headers were accepted; and after any later history of
    requests the same body changes nothing at all.  With accepted headers (the
    first ones are) it is answered "duplicate", as long as it is not older than
    the settings allow, and "ignored" if it is of a kind that is always ignored;
    with any others it is refused. *)
Theorem webhook_handled_once `{World} (default_gateway : string) (minutes : Z) (is_dev : bool) (max_age : Z)
    (gw : Gateway) (body : string) (headers : list (string * string)) (s s1 : Store)
    (o : string * list Event) (rs : list (Z * LinkRequest)) :
  PaymentWebhookService.process is_dev max_age gw headers body s = (Ok o, s1) →
  let s2 := serve_all default_gateway minutes is_dev max_age rs s1 in
  ∃ d ev, json_loads (if truthy body then body else "{}") = Some (JDict d) ∧ parse_event gw (JDict d) = Ok ev ∧
    accepted is_dev gw headers d = true ∧
    ∀ headers',
      let repeated := PaymentWebhookService.process is_dev max_age gw headers' body s2 in
      (accepted is_dev gw headers' d = false → ∃ e, repeated = (Raise e, s2)) ∧
      (accepted is_dev gw headers' d = true → ev.(ge_kind) = IGNORED → repeated = (Ok ("ignored", []), s2)) ∧
      (accepted is_dev gw headers' d = true → ev.(ge_kind) ≠ IGNORED →
         repeated = (match (PaymentWebhookService.check_age max_age (JDict d) s2).1 with
                     | Ok _ => Ok ("duplicate", []) | Raise e => Raise e end, s2)).
Proof.
  intros Hrun s2. pose proof (serve_all_inbox default_gateway minutes is_dev max_age rs s1) as Hgrows.
  fold s2 in Hgrows. clearbody s2.
  destruct (process_answered is_dev max_age gw body headers s o s1 Hrun) as (d & ev & Hd & Hev & Ha).
  exists d, ev. split_and!; [done..|]. intros headers'. cbv zeta.
  destruct (process_entry is_dev max_age gw body headers' s2 d Hd) as (H1 & H2 & _). split_and!; [exact H1|intros Hh Hk; by eapply H2|].
  intros Hh Hk. apply (process_received is_dev max_age gw body headers' s2 d ev); [done..|].
  apply Hgrows, (process_records is_dev max_age gw body headers s o s1 Hrun ev); [by exists d|done].
Qed.

(** ** Only what the gateway confirms is settled *)

(** A status that is not a settled one. *)
Ltac unsettled := apply (bool_decide_unpack _); vm_compute; exact I.

Section confirmed.
Context `{World}.

(** No link becomes settled, and nothing is announced. *)
Definition settles_nothing (s s' : Store) : Prop :=
  ∀ id l', s'.(payment_links) !! id = Some l' → l'.(pl_status) ∈ Link.SETTLED →
    ∃ l, s.(payment_links) !! id = Some l ∧ l.(pl_status) ∈ Link.SETTLED.

Lemma settles_nothing_same s s' : abs s' = abs s → settles_nothing s s'.
Proof.
  intros Heq id l' Hl' Hst. pose proof (abs_lookup s' id l' Hl') as Hm. rewrite Heq in Hm.
  apply abs_lookup_inv in Hm as (l & Hl & Hs). exists l. by rewrite Hs.
Qed.

(** An outcome other than paid. *)
Lemma apply_not_paid id state source s :
  state.(gs_status) ≠ Outcome.PAID →
  wp (apply id state source) s (λ r s', settles_nothing s s' ∧
    match r with Ok (_, evs) => announced evs = [] | Raise _ => True end).
Proof.
  intros Hp.
  assert (∀ f, (∀ l, (f l).(pl_status) ∉ Link.SETTLED) →
    settles_nothing s (s <| payment_links := alter f id s.(payment_links) |>)) as Hupd.
  { intros f Hf j l' Hl' Hst. cbn in Hl'. destruct (decide (j = id)) as [->|Hne].
    - rewrite lookup_alter_eq in Hl'. destruct (payment_links s !! id) as [l|]; [|done]. cbn in Hl'. simplify_eq.
      by apply Hf in Hst.
    - rewrite lookup_alter_ne in Hl' by done. by exists l'. }
  unfold apply. destruct (gs_status state); [..|].
  - apply wp_ret. split; [by apply settles_nothing_same|done].
  - done.
  - unfold record_failure. store_steps; try (split; [by apply settles_nothing_same|done]).
    split; [apply Hupd; intros l; unsettled|by destruct (String.eqb _ _)].
  - unfold close_link. store_steps; try (split; [by apply settles_nothing_same|done]).
    split; [apply Hupd; intros l; unsettled|done].
  - unfold close_link. store_steps; try (split; [by apply settles_nothing_same|done]).
    split; [apply Hupd; intros l; unsettled|done].
Qed.

(** C28: A webhook never settles a payment its gateway does not confirm: when the
    gateway answers the lookup with any status other than paid, then whatever
    the webhook's body claims, no link becomes settled and no paid event is
    queued; a body that claims the payment was made makes the handling fail. *)
Theorem unconfirmed_payment_settles_nothing (gw : Gateway) (ev : GatewayWebhookEvent) (s s' : Store) (key : string)
    (st : GatewayPaymentState) (r : result (string * option Z * list Event)) :
  PaymentWebhookService.lookup_id ev = Some key → truthy key = true →
  (get_payment_state gw key s).1 = Ok st → st.(gs_status) ≠ Outcome.PAID →
  PaymentWebhookService.handle_payment_event gw ev s = (r, s') →
  settles_nothing s s' ∧ (match r with Ok (_, evs) => announced evs = [] | Raise _ => True end) ∧
  (ev.(ge_status) = Some Outcome.PAID → r = Ok ("ignored", None, []) ∨ r = Raise PAYMENT_NOT_VERIFIED).
Proof.
  intros Hkey Ht Hst Hne Hrun. revert Hrun.
  enough (wp (PaymentWebhookService.handle_payment_event gw ev) s (λ r s', settles_nothing s s' ∧
    (match r with Ok (_, evs) => announced evs = [] | Raise _ => True end) ∧
    (ev.(ge_status) = Some Outcome.PAID → r = Ok ("ignored", None, []) ∨ r = Raise PAYMENT_NOT_VERIFIED))) as Hwp
    by exact (λ Hrun, wp_run _ _ _ _ _ Hwp Hrun).
  unfold PaymentWebhookService.handle_payment_event. rewrite Hkey. cbv zeta. cbn [truthy_opt]. rewrite Ht.
  apply wp_bind, wp_gets. cbn beta iota. apply wp_bind, wp_try, wp_bind.
  pose proof (get_payment_state_framed same_board gw key s) as Hs.
  destruct (get_payment_state gw key s) as [r1 s1] eqn:E1. cbn [fst snd] in Hst, Hs. subst r1. unfold same_board in Hs.
  apply (wp_of_run _ _ _ _ _ E1). cbn beta iota. apply wp_ret. cbn beta iota.
  apply wp_bind.
  match goal with |- wp ?m s1 _ => assert (∃ link, m s1 = (Ok link, s1)) as [link Hlink] end.
  { destruct (get_locked_link_by_any_identifier _ _ _ _ s); [by eexists|]. destruct (truthy_opt _); by eexists. }
  apply (wp_of_run _ _ _ _ _ Hlink). cbn beta iota. clear Hlink.
  destruct link as [id|]; [|apply wp_ret; split; [by apply settles_nothing_same|by auto]].
  rewrite (bool_decide_eq_false_2 (Some (gs_status st) = Some Outcome.PAID)) by congruence. cbn [orb].
  destruct (ge_status ev ==? Some Outcome.PAID) eqn:Eb; breflect.
  - apply wp_bind, wp_raise_if; intros Hv; breflect; [|congruence]. cbn beta iota.
    split; [by apply settles_nothing_same|by auto].
  - destruct (Some (gs_status st) ==? Some Outcome.FAILED).
    + apply wp_bind. eapply wp_mono; [by apply apply_not_paid|]. intros [[o evs]|e] s2 [H1 H2]; cbn beta iota.
      * apply wp_ret. split; [|done]. intros j l' Hl' Hj. destruct (H1 j l' Hl' Hj) as (l1 & Hl1 & Hst1).
        by apply (settles_nothing_same s s1 Hs j l1).
      * split; [|done]. intros j l' Hl' Hj. destruct (H1 j l' Hl' Hj) as (l1 & Hl1 & Hst1).
        by apply (settles_nothing_same s s1 Hs j l1).
    + apply wp_ret. split; [by apply settles_nothing_same|done].
Qed.
End confirmed.

(** ** Authentication *)

Section authentic.
Context `{World}.

(** In production a webhook no header of which signs it is refused and
    changes nothing: a body is only acted on when some header, stripped, is
    (for Tap up to case) the keyed digest of a signature string of that body. *)
Theorem unsigned_webhook_refused (max_age : Z) (gw : Gateway) (headers : list (string * string)) (body : string)
    (d : jdict) (s : Store) :
  json_loads (if truthy body then body else "{}") = Some (JDict d) →
  (∀ name v sig, (name, v) ∈ headers →
     (is_myfatoorah gw = true → MyFatoorah.build_signature_string (JDict d) = Ok (Some sig) →
        hmac_sha256_base64 (secret_key gw) sig ≠ strip v) ∧
     (is_myfatoorah gw = false → ∀ fmt, Tap.build_signature_string (JDict d) fmt = Some sig →
        lower (hmac_sha256_hex (secret_key gw) sig) ≠ lower (strip v))) →
  ∃ e, PaymentWebhookService.process false max_age gw headers body s = (Raise e, s) ∧
    (e = err_code AuthenticationError "INVALID_WEBHOOK_SIGNATURE" ∨ verify_signature gw headers (JDict d) = Raise e).
Proof.
  intros Hd Hforged. unfold PaymentWebhookService.process. rewrite bind_run, Hd. cbn beta iota. rewrite ret_run. cbn beta iota.
  rewrite bind_run. cbn [lift].
  assert (verify_signature gw headers (JDict d) = Ok false ∨ ∃ e, verify_signature gw headers (JDict d) = Raise e) as [Hv|[e Hv]].
  2: { eexists. unfold lift. rewrite Hv. cbn beta iota. split; [reflexivity|by left]. }
  2: { exists e. unfold lift. rewrite Hv. cbn beta iota. by auto. }
  unfold verify_signature. destruct (is_myfatoorah gw) eqn:Hgw.
  - unfold MyFatoorah.verify_signature. destruct (negb (truthy (secret_key gw))); [by left|].
    destruct (MyFatoorah.build_signature_string (JDict d)) as [sig|e] eqn:Hsig; [|by right; exists e]. left. cbn.
    destruct (List.find _ headers) as [[k v]|] eqn:Hf; [|done]. destruct sig as [sig|]; [|done].
    apply List.find_some in Hf as [Hin _]. apply list_elem_of_In in Hin.
    destruct (Hforged k v sig Hin) as [Hne _]. specialize (Hne eq_refl eq_refl).
    apply String.eqb_neq in Hne. by rewrite Hne, andb_false_r.
  - left. f_equal. unfold Tap.verify_signature. apply andb_false_iff. right.
    destruct (List.find _ headers) as [[k v]|] eqn:Hf; [|done].
    apply List.find_some in Hf as [Hin _]. apply list_elem_of_In in Hin.
    cbn. destruct (Tap.build_signature_string (JDict d) true) as [sig|] eqn:H1,
      (Tap.build_signature_string (JDict d) false) as [sig'|] eqn:H2; rewrite ?orb_false_r; try done.
    + apply orb_false_iff; split; apply String.eqb_neq;
        [exact (proj2 (Hforged k v sig Hin) eq_refl true H1)|exact (proj2 (Hforged k v sig' Hin) eq_refl false H2)].
    + apply String.eqb_neq. exact (proj2 (Hforged k v sig Hin) eq_refl true H1).
    + apply String.eqb_neq. exact (proj2 (Hforged k v sig' Hin) eq_refl false H2).
Qed.

End authentic.

(** ** Examples *)

#[local] Existing Instance demo_world.

Definition demo_inbox : Store := serve_all "deema" 60 false 0 [(1784000000000000, demo_create)] demo_links.
Definition demo_gw : Gateway := DeemaGateway.

Lemma webhook_handled_once_witness :
  let run := PaymentWebhookService.process false 0 demo_gw demo_headers "charge" demo_inbox in
  let s2 := serve_all "deema" 60 false 0 [(1784000500000000, Sync 1)] run.2 in
  PaymentWebhookService.process false 0 demo_gw demo_headers "charge" s2 = (Ok ("duplicate", []), s2).
Proof.
  cbv zeta. set (run := PaymentWebhookService.process false 0 demo_gw demo_headers "charge" demo_inbox).
  eassert (run.1 = Ok _) as Hr by (vm_compute; reflexivity).
  destruct (webhook_handled_once "deema" 60 false 0 demo_gw "charge" demo_headers demo_inbox run.2 _
    [(1784000500000000, Sync 1)] ltac:(rewrite <- Hr; apply surjective_pairing)) as (d & ev & Hd & Hev & Ha & Hagain).
  destruct (Hagain demo_headers) as (_ & _ & Hdup). injection Hd as <-. injection Hev as <-.
  apply (Hdup Ha). vm_compute. discriminate.
Defined.

(** The same charge, declined. *)
Definition demo_declined : World := {|
  json_loads := λ t, if String.eqb t "charge" then Some demo_charge else Some (JDict []);
  fromisoformat := λ _, None; hmac_sha256_hex := λ _ t, t; hmac_sha256_base64 := λ _ t, t; sha256_hex := λ t, t;
  secret_key := λ _, "secret"; schedule_answer := λ _ _, Ok "arn";
  provider_refund := λ _ _ _, Ok (mk_refund_response true (Some "re_1") None []);
  gateway_http := λ _ _, Ok (JDict [("id", JStr "chg_1"); ("status", JStr "DECLINED")]);
  invoice_lookup := λ _ _, Ok None |}.

Lemma unconfirmed_payment_settles_nothing_witness :
  let ev := Tap.parse_event demo_gw demo_charge in
  (@PaymentWebhookService.handle_payment_event demo_declined demo_gw ev demo_inbox).1 = Raise PAYMENT_NOT_VERIFIED ∧
  settles_nothing demo_inbox (@PaymentWebhookService.handle_payment_event demo_declined demo_gw ev demo_inbox).2.
Proof.
  cbv zeta. set (run := @PaymentWebhookService.handle_payment_event demo_declined demo_gw (Tap.parse_event demo_gw demo_charge) demo_inbox). split; [vm_compute; reflexivity|].
  eassert ((@get_payment_state demo_declined demo_gw "chg_1" demo_inbox).1 = Ok _) as Hst by (vm_compute; reflexivity).
  refine (proj1 (@unconfirmed_payment_settles_nothing demo_declined demo_gw (Tap.parse_event demo_gw demo_charge)
    demo_inbox run.2 "chg_1" _ run.1 _ _ Hst _ _)).
  - vm_compute. reflexivity.
  - reflexivity.
  - vm_compute. discriminate.
  - apply surjective_pairing.
Defined.

Lemma unsigned_webhook_refused_witness :
  ∃ e, PaymentWebhookService.process false 0 demo_gw [("hashstring", "forged")] "charge" demo_inbox = (Raise e, demo_inbox).
Proof.
  destruct (unsigned_webhook_refused 0 demo_gw [("hashstring", "forged")] "charge"
    (match demo_charge with JDict d => d | _ => [] end) demo_inbox) as (e & He & _).
  - reflexivity.
  - intros name v sig [= -> ->]%list_elem_of_singleton. split; [done|]. intros _ [] Hsig; injection Hsig as <-;
      vm_compute; discriminate.
  - exists e. exact He.
Defined.

(** The module says that the body of a webhook is never trusted and a payment is
    settled from the gateway's own answer; when the lookup raises, the body is
    what settles it: a gateway that is down, and a webhook saying paid. *)
Definition demo_down : World := {|
  json_loads := λ t, if String.eqb t "charge" then Some demo_charge else Some (JDict []);
  fromisoformat := λ _, None; hmac_sha256_hex := λ _ t, t; hmac_sha256_base64 := λ _ t, t; sha256_hex := λ t, t;
  secret_key := λ _, "secret"; schedule_answer := λ _ _, Ok "arn";
  provider_refund := λ _ _ _, Ok (mk_refund_response true (Some "re_1") None []);
  gateway_http := λ _ _, Raise (err GatewayError); invoice_lookup := λ _ _, Ok None |}.

Example webhook_body_settles :
  let s := (@PaymentWebhookService.process demo_down false 0 demo_gw demo_headers "charge" demo_inbox).2 in
  pl_status <$> s.(payment_links) !! 1 = Some "paid" ∧ bk_payment_status <$> s.(bookings) !! 1 = Some "success".
Proof. split; vm_compute; reflexivity. Qed.

