(* ===== verification/LinkRefundSpec.v ===== *)
(** * What a refund of a payment link guarantees

    A gift voucher's refund never exceeds what is left of its payment; and the
    places where the accounts of links, payments and bookings come apart. *)

From S2P Require Import Prelude Exceptions Effects StateMachines Money Numbers Store PyText Attribution.
From S2P Require Import VoucherSnapshot VoucherService RefundService.
From S2P Require Import LinkGateway LinkAdapters Settlement LinkService LinkWebhook LinkRefund LinkApi LinkLedger LinkFrame LinkSpec.
From S2P Require Import LinkSettle LinkInbox.
#[local] Open Scope Z_scope.

(** Steps that leave the accounts and take no call back. *)
Definition same_accounts (s s' : Store) : Prop :=
  s'.(payments) = s.(payments) ∧ s'.(refunds) = s.(refunds) ∧ ∀ c, c ∈ s.(outbound) → c ∈ s'.(outbound).
#[export] Instance same_accounts_preorder : PreOrder same_accounts.
Proof. split; [by intros s|]. intros a b c (? & ? & ?) (? & ? & ?). split_and!; [congruence..|auto]. Qed.
#[export] Instance same_accounts_frame : VoucherFrame same_accounts.
Proof. split; [apply _|..]; intros; split_and!; try done. intros c' ?. apply elem_of_app. by left. Qed.

Lemma db_fils_of_fils x : db_fils (of_fils x) = x.
Proof. unfold db_fils, of_fils. cbn [exp coeff]. change (-3 + 3) with 0. cbn. lia. Qed.

Section world.
Context `{World}.

(** The amount of a refund: what is asked for, in fils, or all that is left. *)
Definition asked (amount : option Z) (p : Payment) : Z := default (p.(pm_total_amount) - p.(pm_amount_refunded)) amount.

(** The accounts a refund of [x] fils leaves. *)
Definition refunded_by (gw : Gateway) (pid : Z) (p : Payment) (x id : Z) (s s' : Store) : Prop :=
  0 < x <= p.(pm_total_amount) - p.(pm_amount_refunded) ∧
  (∃ key, LinkRefundCall gw.(gw_name) key (of_fils x) ∈ s'.(outbound)) ∧
  ∃ r p', s.(refunds) !! id = None ∧ s'.(refunds) = <[id := r]> s.(refunds) ∧ r.(rf_refunded_amount) = x ∧
    s'.(payments) !! pid = Some p' ∧ p'.(pm_total_amount) = p.(pm_total_amount) ∧
    p'.(pm_amount_refunded) = p.(pm_amount_refunded) + x ∧
    (p'.(pm_status) = Some "refunded" ↔ p'.(pm_amount_refunded) = p.(pm_total_amount)).

(** A gift voucher's payment is never refunded beyond what was paid: a
    refund that goes through is for more than nothing and no more than what is
    left, is sent to the gateway exactly once for that amount, is kept as one
    completed refund, and leaves the payment refunded by exactly that much more,
    fully refunded exactly when nothing is left. *)
Theorem voucher_refund_bounded (gw : Gateway) (pid : Z) (amount : option Z) (reason : option string) (actor : string)
    (data : option jdict) (s s' : Store) (id : Z) (p : Payment) :
  s.(payments) !! pid = Some p → 0 <= p.(pm_amount_refunded) <= p.(pm_total_amount) → p.(pm_total_amount) < 10 ^ 22 →
  PaymentLinkRefundService.refund_voucher_payment gw pid (of_fils <$> amount) reason actor data s = (Ok id, s') →
  refunded_by gw pid p (asked amount p) id s s'.
Proof.
  intros Hp Hle Hmax Hrun.
  enough (wp (PaymentLinkRefundService.refund_voucher_payment gw pid (of_fils <$> amount) reason actor data) s (λ res s',
    match res with Ok id => refunded_by gw pid p (asked amount p) id s s' | Raise _ => True end)) as Hwp
    by exact (wp_run _ _ _ _ _ Hwp Hrun).
  clear Hrun s' id. unfold PaymentLinkRefundService.refund_voucher_payment.
  apply wp_bind, wp_get_payment_row; [|done]. intros p0 Hp0. cbn beta iota. simplify_eq.
  apply wp_bind, wp_gets. cbn beta iota. apply wp_bind, wp_raise_if; intros _; cbn beta iota; [done|]. cbv zeta.
  rewrite dec_sub_fils by (apply small_prec; lia).
  assert (match of_fils <$> amount with Some a => a | None => of_fils (p.(pm_total_amount) - p.(pm_amount_refunded)) end =
    of_fils (asked amount p)) as -> by (by destruct amount).
  apply wp_bind, wp_raise_if; intros Hbound; cbn beta iota; [done|]. apply orb_false_iff in Hbound as [Hpos Hbound].
  unfold dec_leb, ZERO in Hpos. rewrite dec_ltb_fils in Hpos. rewrite dec_ltb_fils in Hbound. breflect.
  apply wp_bind, wp_raise_if; intros _; cbn beta iota; [done|]. apply wp_bind, wp_get. cbn beta iota.
  apply wp_bind. set (key := default "" _). pose proof (refund_payment_calls gw key (of_fils (asked amount p)) s) as Hcall.
  destruct (refund_payment gw key (of_fils (asked amount p)) s) as [[res|e] s1] eqn:E; cbn [snd] in Hcall;
    apply (wp_of_run _ _ _ _ _ E); cbn beta iota; [|done]. subst s1. clear E.
  rewrite dec_add_fils by (apply small_prec; lia). rewrite !db_fils_of_fils. unfold dec_leb. rewrite dec_ltb_fils.
  set (status := if negb _ then "refunded" else "partially_refunded").
  apply wp_bind, wp_get. cbn beta iota. apply wp_bind, wp_modify. cbn beta iota.
  apply wp_bind, wp_modify. cbn beta iota. apply wp_bind, wp_modify. cbn beta iota.
  apply wp_bind, wp_modify. cbn beta iota. set (s5 := _ <| payments := _ |>).
  assert (refunded_by gw pid p (asked amount p) (new_id s.(refunds)) s s5) as H5.
  { split; [lia|]. split; [exists key; cbn; apply elem_of_app; right; apply list_elem_of_here|].
    do 2 eexists. split; [apply new_id_fresh|]. split; [reflexivity|]. split; [done|].
    split; [cbn -[attribute_payment]; by rewrite !lookup_alter_eq, Hp|]. split; [done|]. split; [done|]. cbn -[status].
    unfold status. destruct (pm_amount_refunded p + asked amount p <? pm_total_amount p) eqn:Elt; breflect; cbn;
      (split; [|done || (intros; lia)]); intros; [done|lia]. }
  clearbody s5. apply wp_bind, (wp_changes same_accounts); [change_only|].
  intros [?|?] s6 (Hpay & Href & Hout); cbn beta iota; [|done]. apply wp_ret.
  destruct H5 as (H1 & (k & Hk) & H2). unfold refunded_by. rewrite Hpay, Href. split; [done|]. split; [eauto|done].
Qed.
End world.

(** ** Examples *)

#[local] Existing Instance demo_world.

Definition demo_voucher_payment : Payment :=
  mk_payment 7 None 9 30000 10000 "KWD" (Some "partially_refunded") (Some "deema") None None (Some "chg_9") None
    (Some "tx-9") None 10 "PMT/2026/07/000009" None None None None None None None 0 (Some 10) None None (Some 2) None None
    None None None (Some "SUCCESS") None None None None None (Some "gift_voucher") None None no_details.
Definition demo_voucher_store : Store := (empty_store 1784000000000000) <| payments := {[ 7 := demo_voucher_payment ]} |>.

Lemma voucher_refund_bounded_witness :
  ∃ id s', PaymentLinkRefundService.refund_voucher_payment DeemaGateway 7 None None "staff" None demo_voucher_store = (Ok id, s') ∧
    pm_amount_refunded <$> s'.(payments) !! 7 = Some 30000 ∧
    refunded_by DeemaGateway 7 demo_voucher_payment 20000 id demo_voucher_store s'.
Proof.
  eassert (PaymentLinkRefundService.refund_voucher_payment DeemaGateway 7 None None "staff" None demo_voucher_store = (Ok 1, _)) as Hrun.
  { apply injective_projections; [vm_compute; reflexivity|reflexivity]. }
  do 2 eexists. split; [exact Hrun|]. split; [vm_compute; reflexivity|].
  apply (voucher_refund_bounded DeemaGateway 7 None None "staff" None demo_voucher_store _ 1 demo_voucher_payment);
    [reflexivity|cbn; lia|cbn; lia|exact Hrun].
Defined.

(** The accounts of a payment that cannot be used: the gateway that refuses the
    automatic refund leaves the link marked as refunded all the same. *)
Example refused_refund_marks_link_refunded :
  let s := (@apply demo_down 1 demo_state "callback" demo_cancelled).2 in
  pl_status <$> s.(payment_links) !! 1 = Some "refunded" ∧
  (s.(payment_links) !! 1 ≫= pl_meta) = Some [("needs_attention", JStr "auto-refund error")].
Proof. split; vm_compute; reflexivity. Qed.

(** Two links of one booking that are both paid: both are announced, and one
    payment row is left. *)
Definition demo_two_links : Store :=
  demo_open <| payment_links := match demo_open.(payment_links) !! 1 with
    | Some l => <[2 := l <| pl_gateway_invoice_id := Some "chg_2" |> <| pl_link_number := Some "PL-2" |>]> demo_open.(payment_links)
    | None => ∅ end |>.
Example booking_paid_twice :
  let run1 := apply 1 demo_state "callback" demo_two_links in
  let run2 := apply 2 (demo_state <| gs_payment_id := Some "chg_2" |>) "callback" run1.2 in
  (announced ∘ snd <$> match run1.1 with Ok r => Some r | _ => None end) = Some [1] ∧
  (announced ∘ snd <$> match run2.1 with Ok r => Some r | _ => None end) = Some [2] ∧
  size run2.2.(payments) = 1%nat ∧ pm_payment_id <$> run2.2.(payments) !! 1 = Some (Some "chg_2").
Proof. cbv zeta. split_and!; vm_compute; reflexivity. Qed.

(** A payment on a link that was replaced or deleted settles nothing, and the
    browser is told that it went through: the automatic refund of that branch
    names functions the module does not import. *)
Example payment_without_link_reported_paid :
  (gateway_webhook_get "deema" "deema" [("tap_id", "chg_1")] demo_links).1 = Ok (Some true) ∧
  (gateway_webhook_get "deema" "deema" [("tap_id", "chg_1")] demo_links).2.(bookings) = demo_links.(bookings).
Proof. split; vm_compute; reflexivity. Qed.

(** The listeners store the provider as the key of its family, and a refund
    webhook looks it up under the gateway's label. *)
Example refund_webhook_finds_no_payment :
  let s := serve_all "deema" 60 false 0 ((1784000000000000,.) <$> [demo_create; demo_webhook]) demo_links in
  pm_invoice_id <$> s.(payments) !! 1 = Some (Some "chg_1") ∧ pm_payment_provider <$> s.(payments) !! 1 = Some (Some "tap") ∧
  PaymentWebhookService.find_payment_for_update DeemaGateway (Some "chg_1") s = None.
Proof. cbv zeta. split_and!; vm_compute; reflexivity. Qed.

(** A refund notice of MyFatoorah without nested objects reads as a payment that
    was made. *)
Example myfatoorah_refund_reads_as_payment :
  match MyFatoorah.parse_event (JDict [("EventCode", JInt 2); ("Data", JDict [("RefundId", JInt 7); ("InvoiceId", JInt 5);
      ("RefundStatus", JStr "Refunded")])]) with
  | Ok ev => ev.(ge_kind) = PAYMENT_STATUS ∧ ev.(ge_status) = Some Outcome.PAID ∧ ev.(ge_invoice_id) = Some "5"
  | Raise _ => False
  end.
Proof. vm_compute. split_and!; reflexivity. Qed.

(** A link for a cancelled booking that has no payment data cannot be made. *)
Example cancelled_booking_without_data_fails :
  (PaymentLinkService.create_link 60 DeemaGateway (mk_create_link "booking" 1 None "staff" None None None false None "a1b2c3")
     (demo_links <| bookings := {[ 1 := demo_unpaid <| bk_status := "cancelled" |> ]} |>)).1 = Raise (err PythonException).
Proof. vm_compute. reflexivity. Qed.

(** Cancelling a link asks the default gateway, whatever the link's own. *)
Example cancel_asks_default_gateway :
  let s := serve_all "myfatoorah" 60 false 0 [(1784000000000000, demo_create); (1784000000000000, Cancel 1)] demo_links in
  last s.(outbound) = Some (CancelLinkCall "myfatoorah" "chg_1") ∧ pl_gateway <$> s.(payment_links) !! 1 = Some "deema".
Proof. split; vm_compute; reflexivity. Qed.

(** A paid link can be deleted: its booking stays paid. *)
Example paid_link_deleted :
  let s := serve_all "deema" 60 false 0 ((1784000000000000,.) <$> [demo_create; demo_webhook; Delete 1]) demo_links in
  s.(payment_links) !! 1 = None ∧ bk_payment_status <$> s.(bookings) !! 1 = Some "success".
Proof. split; vm_compute; reflexivity. Qed.
