(* ===== verification/BookingEvents.v ===== *)
(** * What a booking says of itself
    (the helpers of app/booking/application/services.py)

    The fields a booking row gives to the events of the booking service.  A
    column the row keeps as [Numeric] is written with its three decimals. *)

From S2P Require Import Prelude Exceptions Effects Money Numbers Store PyText PyDate Sessions.
#[local] Open Scope Z_scope.

(** The columns of a row that the session functions read. *)
Definition columns_of (id : Z) (b : Booking) : BookingColumns :=
  let c := b.(bk_schedule) in
  mk_columns id c.(sc_services) c.(sc_sessions) (Some b.(bk_service_id)) b.(bk_service_data)
    b.(bk_service_arrangement_id) b.(bk_service_arrangement_data) c.(sc_therapist_id) c.(sc_therapist_data)
    c.(sc_secondary_therapist_id) c.(sc_secondary_therapist_data) (default [] c.(sc_addons))
    b.(bk_appointment_start) c.(sc_appointment_end) b.(bk_duration_minutes) c.(sc_extra_minutes)
    b.(bk_total_duration) c.(sc_base_price) c.(sc_addons_duration) c.(sc_price_for_extra_minutes) c.(sc_addon_price).

(** ** Names *)

(** [f"{d.get('first_name') or ''} {d.get('last_name') or ''}".strip()]. *)
Definition full_name (d : json) : string :=
  strip (text_or_empty [jget d "first_name"] ++ " " ++ text_or_empty [jget d "last_name"]).

Definition _extract_customer_name (customer_data : option jdict) : string :=
  let d := JDict (or_empty customer_data) in
  if negb (jtruthy (Some d)) then ""
  else if jtruthy (Some (jget d "name")) then json_str (jget d "name")
  else if truthy (full_name d) then full_name d
  else text_or_empty [jget d "phone_number"; jget d "email"].

Definition _extract_therapist_name (therapist_data : option jdict) : string :=
  let d := JDict (or_empty therapist_data) in
  if negb (jtruthy (Some d)) then ""
  else if jtruthy (Some (jget d "name")) then json_str (jget d "name") else full_name d.

(** ** Values *)

(** [str(key or "")] of an optional key. *)
Definition id_text (o : option Z) : string := match o with Some id => uuid_str id | None => "" end.
Definition ref_text (r : option PaymentRef) : string :=
  match r with Some (RefUuid id) => uuid_str id | Some (RefText s) => s | None => "" end.
Definition opt_text (o : option string) : string := default "" o.
(** [str(numeric)] of a column. *)
Definition amount_text (z : Z) : string := dec_str (of_fils z).
(** [x or 0] of an optional integer, [x or y]. *)
Definition or_zero (o : option Z) : Z := default 0 o.
Definition or_minutes (o : option Z) (other : Z) : Z := or_int (or_zero o) other.

(** [strftime("%H:%M")]. *)
Definition hour_minute (t : Z) : string := String.substring 0 5 (clock_text (time_of_day t)).

(** [int(x or 0)]. *)
Definition int_or_zero (v : json) : result Z :=
  match int_of (jor v (JInt 0)) with Some z => Ok z | None => Raise (err ValueError) end.

(** Paid for with loyalty points. *)
Definition is_loyalty_redemption (b : Booking) : bool :=
  let loyalty := JDict (or_empty b.(bk_loyalty_data)) in
  String.eqb b.(bk_booking_type) "loyalty" || String.eqb b.(bk_payment_type) "rewarded" ||
  String.eqb (lower b.(bk_payment_status)) "rewarded" || bool_decide (is_Some b.(bk_reward_id)) ||
  jtruthy (Some (jget loyalty "points_cost")) || jtruthy (Some (jget loyalty "reward_id")).

Definition language_of (customer : json) : string :=
  let raw := lower (strip (json_str (jor_list [jget customer "language_preference"; jget customer "language"; JStr "ar"]))) in
  if String.prefix "en" raw then "en" else "ar".

(** (eligible for loyalty, points earned, price in points). *)
Definition loyalty_figures (b : Booking) (entries : list json) : result (bool * Z * Z) :=
  let redemption := is_loyalty_redemption b in
  let raw := JDict (or_empty b.(bk_service_data)) in
  if (1 <? length entries)%nat then
    Ok (negb redemption && existsb (λ e, jtruthy (Some (jget (jget e "service_data") "is_eligible_for_loyalty"))) entries,
        (if redemption then 0 else sum_ints ((λ e, (effective_points e).1) <$> entries)),
        sum_ints ((λ e, (effective_points e).2) <$> entries))
  else
    points ← (if redemption then Ok 0 else int_or_zero (jget raw "loyalty_points"));
    price ← int_or_zero (jget raw "price_in_points");
    Ok (negb redemption && jtruthy (Some (jget raw "is_eligible_for_loyalty")), points, price).

Definition pricing_dict (b : Booking) : jdict :=
  let c := b.(bk_schedule) in [
    ("arrangement_price", JStr (amount_text c.(sc_arrangement_price)));
    ("price_for_extra_minutes", JStr (amount_text c.(sc_price_for_extra_minutes)));
    ("addon_price", JStr (amount_text c.(sc_addon_price))); ("discount", JStr (amount_text c.(sc_discount)));
    ("tax", JStr (amount_text c.(sc_tax))); ("fees", JStr (amount_text c.(sc_fees)));
    ("total", JStr (amount_text b.(bk_total_amount))); ("currency", JStr b.(bk_currency))].

(** The minutes of the booking: the stored total, or its parts. *)
Definition total_minutes (b : Booking) : Z :=
  let c := b.(bk_schedule) in
  or_minutes b.(bk_total_duration) (b.(bk_duration_minutes) + c.(sc_extra_minutes) + or_zero c.(sc_addons_duration)).

(** [_build_booking_event_data]; [updated_at] is left out. *)
Definition _build_booking_event_data (id : Z) (b : Booking) : result jdict :=
  let c := b.(bk_schedule) in
  let customer := JDict (or_empty b.(bk_customer_data)) in
  let branch := JDict (or_empty b.(bk_branch_data)) in
  let arr := JDict (or_empty b.(bk_service_arrangement_data)) in
  let therapist := JDict (or_empty c.(sc_therapist_data)) in
  let second := JDict (or_empty c.(sc_secondary_therapist_data)) in
  let payment_data := JDict (or_empty b.(bk_payment_data)) in
  let entries := get_booking_services (columns_of id b) in
  let multi := (1 <? length entries)%nat in
  let redemption := is_loyalty_redemption b in
  '(eligible, points, price) ← loyalty_figures b entries;
  let service := dict_merge (or_empty b.(bk_service_data))
    [("is_eligible_for_loyalty", JBool eligible); ("loyalty_points", JInt points); ("price_in_points", JInt price)] in
  let start := b.(bk_appointment_start) in
  let end_ := c.(sc_appointment_end) in
  let created_by := JStr (opt_text c.(sc_created_by_user)) in
  let created_by_data := JDict (or_empty c.(sc_created_by_user_data)) in
  Ok [
    ("booking_id", JStr (uuid_str id)); ("booking_number", JStr (opt_text b.(bk_booking_number)));
    ("booking_reference", JStr (json_str (jor_list [jget payment_data "invoice_reference"; jget payment_data "invoice_id";
                                                  jget payment_data "payment_id"; JStr (uuid_str id)])));
    ("customer_id", JStr (uuid_str b.(bk_customer_id)));
    ("customer_name", JStr (let n := _extract_customer_name b.(bk_customer_data) in
                            if truthy n then n else text_or_empty [jget payment_data "customer_name"]));
    ("customer_phone", JStr (text_or_empty [jget customer "phone_number"; jget customer "phone"; jget payment_data "customer_mobile"]));
    ("customer_email", JStr (text_or_empty [jget customer "email"; jget payment_data "customer_email"]));
    ("customer_language", JStr (language_of customer)); ("language_preference", JStr (language_of customer));
    ("customer_data", customer);
    ("branch_id", JStr (id_text b.(bk_branch_id)));
    ("branch_name", JStr (text_or_empty [jget branch "name"; jget branch "branch_name"])); ("branch_data", branch);
    ("service_id", JStr (uuid_str b.(bk_service_id)));
    ("service_name", JStr (if multi then joined_service_name entries ", "
                           else text_or_empty [jget (JDict service) "name"; jget (JDict service) "service_name"]));
    ("service_data", JDict service);
    ("service_arrangement_id", JStr (id_text b.(bk_service_arrangement_id)));
    ("service_arrangement_name", JStr (text_or_empty [jget arr "arrangement_name"; jget arr "room_name"; jget arr "name"]));
    ("service_arrangement_data", arr);
    ("services", JList ((λ e, with_key (with_key e "service_name" (JStr (entry_service_name e)))
                                "service_arrangement_name" (JStr (entry_arrangement_name e))) <$> entries));
    ("sessions", JList (cache_payload_for (columns_of id b)));
    ("therapist_id", JStr (uuid_str c.(sc_therapist_id)));
    ("therapist_name", JStr (let n := _extract_therapist_name c.(sc_therapist_data) in
                             if truthy n then n else text_or_empty [jget therapist "therapist_name"]));
    ("therapist_data", therapist);
    ("secondary_therapist_id", JStr (id_text c.(sc_secondary_therapist_id)));
    ("secondary_therapist_name", JStr (let n := _extract_therapist_name c.(sc_secondary_therapist_data) in
                                       if truthy n then n else text_or_empty [jget second "therapist_name"; jget second "full_name"]));
    ("secondary_therapist_data", second);
    ("appointment_start", JStr (isoformat KUWAIT start)); ("appointment_end", JStr (isoformat KUWAIT end_));
    ("appointment_date", JStr (date_text (local_day start)));
    ("appointment_starttime", JStr (hour_minute start)); ("appointment_endtime", JStr (hour_minute end_));
    ("appointment_time", JStr (hour_minute start));
    ("duration_minutes", JInt b.(bk_duration_minutes)); ("extra_minutes", JInt c.(sc_extra_minutes));
    ("total_duration", JInt (total_minutes b)); ("addons_duration", JInt (or_zero c.(sc_addons_duration)));
    ("booking_type", JStr b.(bk_booking_type)); ("payment_type", JStr b.(bk_payment_type));
    ("status", JStr b.(bk_status)); ("payment_status", JStr b.(bk_payment_status));
    ("payment_id", JStr (ref_text b.(bk_payment_id))); ("payment_provider", JStr (opt_text b.(bk_payment_provider)));
    ("payment_gateway", JStr (opt_text b.(bk_payment_gateway))); ("payment_through", JStr (opt_text b.(bk_payment_through)));
    ("payment_method", JStr (opt_text b.(bk_payment_method))); ("payment_url", JStr (opt_text b.(bk_payment_url)));
    ("total_amount", JStr (amount_text b.(bk_total_amount))); ("currency", JStr b.(bk_currency));
    ("pricing", JDict (pricing_dict b)); ("addons", JList (default [] c.(sc_addons)));
    ("customer_notes", opt_json c.(sc_customer_notes)); ("internal_notes", opt_json b.(bk_internal_notes));
    ("payment_data", payment_data); ("is_eligible_for_loyalty", JBool eligible);
    ("loyalty_points", JInt points);
    ("arrangement_loyalty_points", if redemption || multi then JNull else jget arr "loyalty_points");
    ("price_in_points", JInt price);
    ("arrangement_price_in_points", if multi then JNull else jget arr "price_in_points");
    ("created_at", JStr (isoformat KUWAIT c.(sc_created_at)));
    ("created_by", created_by); ("created_by_user", created_by); ("created_by_user_data", created_by_data);
    ("change_by_user", created_by); ("change_by_user_data", created_by_data);
    ("loyalty_data", JDict (or_empty b.(bk_loyalty_data))); ("reward_id", JStr (id_text b.(bk_reward_id)));
    ("voucher_id", JStr (id_text c.(sc_voucher_id))); ("voucher_data", JDict (or_empty c.(sc_voucher_data)));
    ("invoice_number", JStr (opt_text b.(bk_invoice_number)));
    ("payment_number", JStr (text_or_empty [jget payment_data "payment_number"]))].

(** ** Event contracts (app/events/contracts.py) *)

(** The fields all status events have. *)
Definition STATUS_EVENT_FIELDS : list string := [
  "booking_id"; "booking_number"; "booking_reference"; "customer_id"; "customer_name"; "customer_phone";
  "customer_email"; "customer_language"; "language_preference"; "customer_data"; "branch_id"; "branch_name";
  "branch_data"; "service_id"; "service_name"; "service_data"; "service_arrangement_id"; "service_arrangement_name";
  "service_arrangement_data"; "services"; "sessions"; "therapist_id"; "therapist_name"; "therapist_data";
  "secondary_therapist_id"; "secondary_therapist_name"; "secondary_therapist_data"; "appointment_start";
  "appointment_end"; "appointment_date"; "appointment_starttime"; "appointment_endtime"; "appointment_time";
  "duration_minutes"; "extra_minutes"; "total_duration"; "addons_duration"; "booking_type"; "payment_type";
  "status"; "payment_status"; "payment_id"; "payment_provider"; "payment_gateway"; "payment_through";
  "payment_method"; "payment_url"; "total_amount"; "currency"; "pricing"; "addons"; "customer_notes";
  "internal_notes"; "payment_data"; "is_eligible_for_loyalty"; "loyalty_points"; "arrangement_loyalty_points";
  "price_in_points"; "arrangement_price_in_points"; "loyalty_data"; "reward_id"; "voucher_id"; "voucher_data";
  "invoice_number"; "payment_number"; "created_at"; "updated_at"; "created_by"; "created_by_user";
  "created_by_user_data"; "change_by_user"; "change_by_user_data"].

(** [_safe_event_kwargs] for a status event. *)
Definition _safe_event_kwargs (data : jdict) : jdict := List.filter (λ '(k, _), k in? STATUS_EVENT_FIELDS) data.

(** [d.pop(k, None)]. *)
Definition without (d : jdict) (ks : list string) : jdict := List.filter (λ '(k, _), negb (k in? ks)) d.
