(* ===== verification/BookingRepo.v ===== *)
(** * The booking repository (app/booking/infrastructure/repository.py) and the
      rules of the booking domain (app/booking/domain/rules.py)

    The overlap queries that keep a therapist from being booked twice, the
    temporary holds, and the conditions on rescheduling. *)

From S2P Require Import Prelude Exceptions Effects StateMachines Numbers Store PyText PyDate Sessions BookingEvents.
#[local] Open Scope Z_scope.

(** ** Overlap *)

(** [cast(column, Text) LIKE '%t%'] of a JSON column, for a text [t] that cannot
    spread over two values: some key or text of the value contains it. *)
Fixpoint mentions (t : string) (j : json) : bool :=
  match j with
  | JStr s => contains t s
  | JList l => (fix any (l : list json) := match l with [] => false | j :: l => mentions t j || any l end) l
  | JDict d =>
      (fix any (d : list (string * json)) :=
         match d with [] => false | (k, j) :: d => contains t k || mentions t j || any d end) d
  | _ => false
  end.

(** [_therapist_involved]. *)
Definition _therapist_involved (therapist_ids : list Z) (b : Booking) : bool :=
  let c := b.(bk_schedule) in
  existsb (λ t, (c.(sc_therapist_id) =? t) || (c.(sc_secondary_therapist_id) ==? Some t) ||
                mentions (uuid_str t) (JList c.(sc_sessions))) therapist_ids.

(** A booking that occupies its therapists. *)
Definition blocking (b : Booking) : bool := negb (b.(bk_status) in? Booking.NON_BLOCKING_BOOKING_STATUSES).

(** What the queries select before the sessions are looked at. *)
Definition candidates (therapist_ids : list Z) (start end_ : Z) (s : Store) : list (Z * Booking) :=
  List.filter (λ '(_, b), _therapist_involved therapist_ids b && (b.(bk_appointment_start) <? end_) &&
                          (start <? b.(bk_schedule).(sc_appointment_end)) && blocking b)
    (map_to_list s.(bookings)).

Definition find_therapist_overlap (therapist_id start end_ : Z) (exclude_booking_id : option Z) (s : Store) : option (Z * Booking) :=
  List.find (λ '(id, b), negb (exclude_booking_id ==? Some id) && overlaps_per_session (columns_of id b) therapist_id start end_)
    (candidates [therapist_id] start end_ s).
Definition check_therapist_overlap (therapist_id start end_ : Z) (exclude_booking_id : option Z) (s : Store) : bool :=
  bool_decide (is_Some (find_therapist_overlap therapist_id start end_ exclude_booking_id s)).

Definition get_active_bookings_for_therapist_in_range (therapist_id start end_ : Z) (s : Store) : list Z :=
  (sorted_by (λ '(_, b), b.(bk_appointment_start))
     (List.filter (λ '(id, b), overlaps_per_session (columns_of id b) therapist_id start end_)
        (candidates [therapist_id] start end_ s))).*1.

(** ** Temporary holds *)

Definition create_hold (h : TemporaryHold) : M Store () := modify (λ s, s <| holds := s.(holds) ++ [h] |>).
Definition delete_hold (booking_id : Z) : M Store () :=
  modify (λ s, s <| holds := List.filter (λ h, negb (h.(th_booking_id) =? booking_id)) s.(holds) |>).
Definition hold_overlaps (start end_ now_ : Z) (h : TemporaryHold) : bool :=
  (h.(th_appointment_start) <? end_) && (start <? h.(th_appointment_end)) && (now_ <? h.(th_expires_at)).
Definition get_active_holds_for_therapist_in_range (therapist_id start end_ : Z) (s : Store) : list TemporaryHold :=
  List.filter (λ h, (h.(th_therapist_id) =? therapist_id) && hold_overlaps start end_ s.(now) h) s.(holds).
(** The number of rows deleted. *)
Definition cleanup_expired_holds : M Store Z :=
  s ← get;
  modify (λ s, s <| holds := List.filter (λ h, s.(now) <? h.(th_expires_at)) s.(holds) |>) ;;
  mret (Z.of_nat (length (List.filter (λ h, h.(th_expires_at) <=? s.(now)) s.(holds)))).

(** [get_busy_therapist_ids_in_range]: by a booking or an unexpired hold. *)
Definition get_busy_therapist_ids_in_range (therapist_ids : list Z) (start end_ : Z) (s : Store) : list Z :=
  let rows := candidates therapist_ids start end_ s in
  List.filter (λ t,
    existsb (λ '(id, b), overlaps_per_session (columns_of id b) t start end_) rows ||
    existsb (λ h, (h.(th_therapist_id) =? t) && hold_overlaps start end_ s.(now) h) s.(holds)) therapist_ids.

(** ** Rows *)

Definition get_by_id (booking_id : Z) : M Store Booking :=
  b ← gets (λ s, s.(bookings) !! booking_id);
  some_or_raise b (err BookingNotFoundError).
Definition get_by_idempotency_key (key : string) (s : Store) : option Z :=
  fst <$> head (List.filter (λ '(_, b), b.(bk_schedule).(sc_idempotency_key) ==? Some key) (map_to_list s.(bookings))).
(** [generate_booking_number(for_date)] for the local date of an instant. *)
Definition booking_number_for (start : Z) (s : Store) : string :=
  generate_booking_number start (omap bk_booking_number (rows s.(bookings))).

(** ** Rules of the domain *)

Definition us_per_hour : Z := 60 * us_per_minute.
Definition MIN_HOURS_BEFORE : Z := 6.

Definition assert_reschedule_window (appointment_start now_ min_hours_before : Z) : result () :=
  if appointment_start <=? now_ + min_hours_before * us_per_hour
  then Raise (err_code RescheduleWindowError "RESCHEDULE_WINDOW_VIOLATION") else Ok ().
Definition assert_booking_is_reschedulable (current_status : Booking.BookingStatus) : result () :=
  if current_status !=? Booking.CONFIRMED then Raise (err_code InvalidRescheduleError "BOOKING_NOT_RESCHEDULABLE") else Ok ().
Definition assert_home_service_eligible (is_available_for_home_service : bool) : result () :=
  if is_available_for_home_service then Ok () else Raise (err_code ValidationError "THERAPIST_NOT_HOME_SERVICE_ELIGIBLE").
Definition assert_service_duration_fits (slot_start slot_end duration_minutes : Z) : result () :=
  if Z.quot (slot_end - slot_start) us_per_minute <? duration_minutes then Raise (err_code ValidationError "SLOT_TOO_SHORT") else Ok ().
