(* ===== verification/BookingService.v ===== *)
(** * The booking service (app/booking/application/services.py)

    Creating, confirming, cancelling and rescheduling bookings, and changing the
    therapist of one session.  What other services answer is in [BookingWorld].
    Python's [except Exception] around a call keeps the changes the call made
    before it failed, as the session does. *)

From S2P Require Import Prelude Exceptions Effects StateMachines Money Numbers Store PyText PyDate Sessions SessionPlanner RefundLifecycle RefundService LinkGateway Settlement LinkService BookingEvents BookingRepo.
#[local] Open Scope Z_scope.

(** ** What other services answer *)

Class BookingWorld := {
  #[global] booking_world :: World;
  #[global] booking_catalogue :: Ushauth;
  (** ushauth's appointment cache: deleting or updating its rows. *)
  appointment_cache : list OutboundCall → OutboundCall → result ();
  (** ushanr's invoice of a booking, created when there is none. *)
  booking_invoice : list OutboundCall → Z → result (option string);
}.

(** [try: m except Exception: pass]. *)
Definition swallow {A} (m : M Store A) : M Store (option A) :=
  try_except (a ← m; mret (Some a)) (λ _, true) (λ _, mret None).

(** ** Rows and events *)

(** [repo.update(booking)] after an assignment: the flush runs the attribution
    listener. *)
Definition upd_schedule (booking_id : Z) (f : BookingSchedule → BookingSchedule) : M Store () :=
  upd_booking booking_id (λ b, b <| bk_schedule := f b.(bk_schedule) |>).

(** [_enqueue_event]: failures are only logged. *)
Definition emit (name : string) (data : jdict) : M Store () := publish (BookingEvent name data).

(** [{**(a or {}), **b}]. *)
Definition merged_payment_data (a : option jdict) (b : jdict) : option jdict := Some (dict_merge (or_empty a) b).

(** [f"{notes or ''}\n{line}".strip()]. *)
Definition newline : string := String (Ascii.ascii_of_nat 10) EmptyString.
Definition add_note (notes : option string) (line : string) : option string :=
  Some (strip (opt_text notes ++ newline ++ line)).

(** [primary_fields] (app/booking/domain/services_snapshot.py). *)
Definition uuid_field (v : json) : result (option Z) :=
  if jtruthy (Some v)
  then match v with
       | JStr s => match uuid_of_string s with Some id => Ok (Some id) | None => Raise (err ValueError) end
       | _ => Raise (err PythonException)
       end
  else Ok None.
Record PrimaryFields := mk_primary {
  pf_service_id : option Z; pf_service_data : jdict; pf_service_arrangement_id : option Z; pf_service_arrangement_data : jdict }.
Definition primary_fields (entries : list json) : result PrimaryFields :=
  match entries with
  | [] => Raise (err PythonException)
  | first :: _ =>
      sid ← uuid_field (jget first "service_id");
      aid ← uuid_field (jget first "service_arrangement_id");
      Ok (mk_primary sid (jdict_of (jget first "service_data")) aid (jdict_of (jget first "service_arrangement_data")))
  end.

(** [uuid.UUID(str(v))]. *)
Definition uuid_of_json (v : json) : result Z :=
  match uuid_of_string (json_str v) with Some id => Ok id | None => Raise (err ValueError) end.

(** [local_midnight]. *)
Definition local_midnight (t : Z) : Z := local_day t * us_per_day - KUWAIT.

Definition ALREADY_BOOKED : exn := err_code DoubleBookingError "DOUBLE_BOOKING".

(** The therapists of a session that are set. *)
Definition session_therapists (sess : json) : list json :=
  List.filter (λ j, jtruthy (Some j)) [jget sess "therapist_id"; jget sess "secondary_therapist_id"].

(** Is the therapist taken in the window of the session?  A window that is not
    known matches no row. *)
Definition session_taken (sess : json) (therapist_id : Z) (exclude : option Z) (s : Store) : bool :=
  match session_window sess with
  | (Some start, Some end_) => check_therapist_overlap therapist_id start end_ exclude s
  | _ => false
  end.

Module BookingService.
Section service.
Context `{BookingWorld}.
Context (TEMPORARY_HOLD_MINUTES : Z).

(** ** Helpers *)

Definition _record_status_change (booking_id : Z) (old_status : option Booking.BookingStatus)
    (new_status : Booking.BookingStatus) (source reason : option string) : M Store () :=
  add_booking_history (mk_booking_history booking_id (value <$> old_status) (value new_status) source reason).

(** The refreshed snapshot of a service. *)
Definition refreshed_service (svc_data : json) (service_dict : jdict) : result (jdict * bool) :=
  let take (st : jdict * bool) (k : string) : result (jdict * bool) :=
    match jget svc_data k with
    | JNull => Ok st
    | v => z ← int_or_raise v; Ok (if 0 <? z then (dict_set st.1 k (JInt z), true) else st)
    end in
  st ← take (service_dict, false) "loyalty_points";
  st ← take st "price_in_points";
  Ok (match jget svc_data "is_eligible_for_loyalty" with
      | JNull => st
      | v => (dict_set st.1 "is_eligible_for_loyalty" (JBool (jtruthy (Some v))), true)
      end).

(** [raw.get("data", raw) if isinstance(raw, dict) else {}]; the result is read
    as a dictionary. *)
Definition data_of (raw : json) : result json :=
  match raw with
  | JDict _ => let d := jget_or raw "data" raw in if is_mapping d then Ok d else Raise (err PythonException)
  | _ => Ok (JDict [])
  end.

(** The arrangement's points for the service of the booking. *)
Definition refreshed_arrangement (arr_data : json) (service_id : Z) (arr_dict : jdict) : result (jdict * bool) :=
  rows ← match jget_or arr_data "arrangement_services" (JList []) with JList l => Ok l | _ => Raise (err PythonException) end;
  Ok (match List.find (λ a, String.eqb (json_str (jget a "service_id")) (uuid_str service_id)) rows with
      | Some asvc =>
          let st := match jget asvc "loyalty_points" with JNull => (arr_dict, false) | v => (dict_set arr_dict "loyalty_points" v, true) end in
          match jget asvc "price_in_points" with JNull => st | v => (dict_set st.1 "price_in_points" v, true) end
      | None => (arr_dict, false)
      end).

(** The entries of a booking whose first service shows the refreshed snapshots. *)
Definition with_refreshed_primary (booking_id : Z) (b : Booking) : list json :=
  match get_booking_services (columns_of booking_id b) with
  | [] => b.(bk_schedule).(sc_services)
  | e :: l => with_key (with_key e "service_data" (JDict (or_empty b.(bk_service_data))))
                "service_arrangement_data" (JDict (or_empty b.(bk_service_arrangement_data))) :: l
  end.

Definition _ensure_booking_loyalty_details (booking_id : Z) : M Store () :=
  b ← get_booking_row booking_id;
  if is_loyalty_redemption b then mret ()
  else
    let service_dict := or_empty b.(bk_service_data) in
    let arr_dict := or_empty b.(bk_service_arrangement_data) in
    points ← lift (int_or_zero (jget (JDict service_dict) "loyalty_points"));
    let needs_service := points =? 0 in
    let needs_arr := bool_decide (is_Some b.(bk_service_arrangement_id)) &&
                     match jget (JDict arr_dict) "loyalty_points" with JNull => true | _ => false end in
    if negb (needs_service || needs_arr) then mret ()
    else
      swallow (
        modified ← (if needs_service
          then (svc ← lift (raw ← get_service (uuid_str b.(bk_service_id)); data_of raw);
                '(d, m) ← lift (refreshed_service svc service_dict);
                upd_booking booking_id (λ b, b <| bk_service_data := Some d |>) ;; mret m)
          else mret false);
        modified' ← (match b.(bk_service_arrangement_id) with
          | Some aid =>
              if needs_arr
              then (arr ← lift (raw ← get_service_arrangement (uuid_str aid); data_of raw);
                    '(d, m) ← lift (refreshed_arrangement arr b.(bk_service_id) arr_dict);
                    upd_booking booking_id (λ b, b <| bk_service_arrangement_data := Some d |>) ;; mret m)
              else mret false
          | None => mret false
          end);
        when (modified || modified')
          (upd_booking booking_id (λ b, b <| bk_schedule := b.(bk_schedule) <| sc_services := with_refreshed_primary booking_id b |> |>) ;;
           flush_booking booking_id)) ;;
      mret ().

(** [_ensure_booking_invoice]. *)
Definition set_payment_invoices (booking_id : Z) (invoice : string) : M Store () :=
  modify (λ s, s <| payments := (λ p, if p.(pm_booking_id) ==? Some booking_id
                                      then p <| pm_invoice_number := Some invoice |> else p) <$> s.(payments) |>).
Definition _ensure_booking_invoice (booking_id : Z) : M Store () :=
  b ← get_booking_row booking_id;
  let p_status := lower (strip b.(bk_payment_status)) in
  let b_type := lower (strip b.(bk_booking_type)) in
  let p_type := lower (strip b.(bk_payment_type)) in
  let p_method := lower (strip (opt_text b.(bk_payment_method))) in
  if negb (p_status in? ["success"; "paid"]) then mret ()
  else if String.eqb b_type "gift_voucher" || String.eqb p_type "gift_voucher" || (p_method in? ["voucher"; "gift_voucher"]) then mret ()
  else if truthy_opt b.(bk_invoice_number) then set_payment_invoices booking_id (opt_text b.(bk_invoice_number))
  else
    swallow (
      name ← asking (BookingInvoiceCall booking_id) (λ calls, booking_invoice calls booking_id);
      match name with
      | Some n =>
          when (truthy n)
            (upd_booking booking_id (λ b, b <| bk_invoice_number := Some n |>) ;; flush_booking booking_id ;;
             set_payment_invoices booking_id n)
      | None => mret ()
      end) ;;
    mret ().

(** An event made of the fields of the booking. *)
Definition event_data (booking_id : Z) : M Store jdict :=
  b ← get_booking_row booking_id;
  lift (_build_booking_event_data booking_id b).
Definition status_event (name : string) (booking_id : Z) : M Store () :=
  ev_data ← event_data booking_id;
  emit name (_safe_event_kwargs ev_data).
Definition confirmed_event (booking_id : Z) : M Store () :=
  _ensure_booking_loyalty_details booking_id ;;
  status_event "Booking.Confirmed" booking_id.

(** ** Creating a booking *)

Record CreateBooking := mk_create_booking {
  cb_customer_id : Z; cb_customer_data : option jdict; cb_branch_id : option Z; cb_branch_data : option jdict;
  cb_services : list json; cb_service_id : option Z; cb_service_data : option jdict;
  cb_service_arrangement_id : option Z; cb_service_arrangement_data : option jdict;
  cb_therapist_id : Z; cb_therapist_data : option jdict;
  cb_secondary_therapist_id : option Z; cb_secondary_therapist_data : option jdict;
  cb_appointment_start : Z; cb_appointment_end : Z; cb_duration_minutes : Z; cb_extra_minutes : Z;
  cb_total_duration : option Z; cb_addons_duration : option Z; cb_base_price : option Decimal;
  cb_pricing : PricingBreakdown; cb_addons : option (list json); cb_customer_notes : option string;
  cb_payment_id : option string; cb_payment_provider : option string; cb_payment_gateway : option string;
  cb_payment_through : option string; cb_payment_method : option string; cb_payment_url : option string;
  cb_payment_data : option jdict; cb_idempotency_key : option string; cb_booking_type : string;
  cb_payment_type : string; cb_status : string; cb_payment_status : string; cb_loyalty_data : option jdict;
  cb_reward_id : option Z; cb_voucher_id : option Z; cb_voucher_data : option jdict;
  cb_invoice_number : option string; cb_created_by_user : option string; cb_created_by_user_data : option jdict;
  cb_created_by : option string; cb_source : option string; cb_sessions : list json }.

(** The entries to store: those given, or one made of the single-service
    arguments. *)
Definition requested_services (c : CreateBooking) : result (list json) :=
  match c.(cb_services) with
  | [] =>
      match c.(cb_service_id) with
      | None => Raise (err ValidationError)
      | Some sid =>
          Ok [build_service_entry (JStr (uuid_str sid)) (or_empty c.(cb_service_data))
                (uuid_json c.(cb_service_arrangement_id)) (or_empty c.(cb_service_arrangement_data))
                (match c.(cb_base_price) with Some d => JStr (dec_str d) | None => JNull end)
                (JInt c.(cb_duration_minutes)) 0]
      end
  | l => if MAX_SERVICES_PER_BOOKING <? Z.of_nat (length l) then Raise (err ValidationError) else Ok l
  end.

(** The overlap checks before a booking is created. *)
Definition check_sessions (sessions : list json) (exclude : option Z) : M Store () :=
  for_each sessions (λ sess,
    for_each (session_therapists sess) (λ t,
      tid ← lift (uuid_of_json t);
      taken ← gets (session_taken sess tid exclude);
      raise_if taken ALREADY_BOOKED)).
Definition check_therapists (therapists : list Z) (start end_ : Z) (exclude : option Z) : M Store () :=
  for_each therapists (λ t,
    taken ← gets (check_therapist_overlap t start end_ exclude);
    raise_if taken ALREADY_BOOKED).

Definition new_booking (c : CreateBooking) (services : list json) (pf : PrimaryFields) (service_id : Z)
    (number : string) (now_ : Z) : Booking :=
  let p := c.(cb_pricing) in
  mk_booking (Some number) c.(cb_invoice_number) c.(cb_customer_id) (Some (or_empty c.(cb_customer_data)))
    c.(cb_branch_id) (Some (or_empty c.(cb_branch_data))) service_id c.(cb_appointment_start) (db_fils p.(pb_total))
    p.(pb_currency) c.(cb_status) c.(cb_payment_status) c.(cb_booking_type) c.(cb_payment_type)
    (ref_of_text <$> c.(cb_payment_id)) c.(cb_payment_provider) c.(cb_payment_gateway) None c.(cb_loyalty_data)
    c.(cb_reward_id) (Some pf.(pf_service_data)) pf.(pf_service_arrangement_id) (Some pf.(pf_service_arrangement_data))
    c.(cb_duration_minutes) c.(cb_total_duration) c.(cb_payment_through) c.(cb_payment_method) None None None
    c.(cb_payment_url) (Some (or_empty c.(cb_payment_data)))
    (mk_schedule services c.(cb_sessions) c.(cb_therapist_id) (Some (or_empty c.(cb_therapist_data)))
       c.(cb_secondary_therapist_id)
       (match c.(cb_secondary_therapist_id) with Some _ => Some (or_empty c.(cb_secondary_therapist_data)) | None => None end)
       (Some (default [] c.(cb_addons))) (local_midnight c.(cb_appointment_start)) c.(cb_appointment_end)
       c.(cb_extra_minutes) (db_fils <$> c.(cb_base_price)) c.(cb_addons_duration)
       (db_fils p.(pb_arrangement_price)) (db_fils p.(pb_price_for_extra_minutes)) (db_fils p.(pb_addon_price))
       (db_fils p.(pb_discount)) (db_fils p.(pb_tax)) (db_fils p.(pb_fees))
       c.(cb_idempotency_key) c.(cb_customer_notes) c.(cb_voucher_id) c.(cb_voucher_data)
       (por c.(cb_created_by_user) c.(cb_created_by)) c.(cb_created_by_user_data) now_ None).

(** [repo.create]: the number is unique. *)
Definition insert_booking (b : Booking) : M Store Z :=
  s ← get;
  let id := new_id s.(bookings) in
  raise_if (existsb (λ b', b'.(bk_booking_number) ==? b.(bk_booking_number)) (rows s.(bookings))) (err PythonException) ;;
  modify (λ s, s <| bookings := <[id := attribute_booking b]> s.(bookings) |>) ;;
  mret id.

(** The holds of a booking that is not confirmed. *)
Definition hold_until (now_ : Z) : Z := now_ + TEMPORARY_HOLD_MINUTES * us_per_minute.
Definition hold_session (booking_id : Z) (sess : json) : M Store () :=
  if negb (jtruthy (Some (jget sess "service_arrangement_id"))) then mret ()
  else
    tid ← lift (uuid_of_json (jget sess "therapist_id"));
    aid ← lift (uuid_of_json (jget sess "service_arrangement_id"));
    now_ ← gets now;
    match session_window sess with
    | (Some start, Some end_) => create_hold (mk_hold booking_id tid aid start end_ (hold_until now_))
    | _ => raise (err PythonException)
    end.
Definition create_holds (c : CreateBooking) (booking_id : Z) (pf : PrimaryFields) : M Store () :=
  let unconfirmed := negb (c.(cb_status) in? [value Booking.CONFIRMED; value Booking.DRAFT]) in
  match c.(cb_sessions), pf.(pf_service_arrangement_id) with
  | _ :: _ as sessions, aid =>
      if unconfirmed then for_each sessions (hold_session booking_id) else mret ()
  | [], Some aid =>
      when unconfirmed
        (now_ ← gets now;
         create_hold (mk_hold booking_id c.(cb_therapist_id) aid c.(cb_appointment_start) c.(cb_appointment_end) (hold_until now_)))
  | [], None => mret ()
  end.

Definition effective_source (c : CreateBooking) : string :=
  let role := jget (JDict (or_empty c.(cb_created_by_user_data))) "role" in
  por_str (por c.(cb_source) c.(cb_payment_through))
    (match role with JStr r => if r in? ["admin"; "desk"; "agent"] then r else "ushspa" | _ => "ushspa" end).
Definition effective_user (c : CreateBooking) : string :=
  por_str (por c.(cb_created_by_user) c.(cb_created_by)) (uuid_str c.(cb_customer_id)).

Definition created_event (c : CreateBooking) (services : list json) (booking_id : Z) (b : Booking) : jdict :=
  let sc := b.(bk_schedule) in
  let customer := JDict (or_empty b.(bk_customer_data)) in
  let therapist := JDict (or_empty sc.(sc_therapist_data)) in
  let second := JDict (or_empty sc.(sc_secondary_therapist_data)) in [
    ("booking_id", JStr (uuid_str booking_id)); ("booking_number", JStr (opt_text b.(bk_booking_number)));
    ("customer_id", JStr (uuid_str b.(bk_customer_id)));
    ("customer_name", JStr (_extract_customer_name b.(bk_customer_data)));
    ("customer_phone", JStr (text_or_empty [jget customer "phone_number"; jget customer "phone"]));
    ("customer_email", JStr (text_or_empty [jget customer "email"]));
    ("branch_id", JStr (match b.(bk_branch_id) with Some id => uuid_str id | None => "None" end));
    ("branch_name", JStr (text_or_empty [jget (JDict (or_empty b.(bk_branch_data))) "name"]));
    ("service_id", JStr (uuid_str b.(bk_service_id)));
    ("service_name", JStr (let n := joined_service_name services ", " in
                           if truthy n then n else text_or_empty [jget (JDict (or_empty b.(bk_service_data))) "name"]));
    ("services", JList (cache_services_payload services)); ("sessions", JList (cache_payload_for (columns_of booking_id b)));
    ("therapist_id", JStr (uuid_str sc.(sc_therapist_id)));
    ("therapist_name", JStr (text_or_empty [jget therapist "name"; jget therapist "full_name"]));
    ("secondary_therapist_id", JStr (id_text sc.(sc_secondary_therapist_id)));
    ("secondary_therapist_name", JStr (text_or_empty [jget second "name"; jget second "full_name"]));
    ("secondary_therapist_data", second);
    ("appointment_start", JStr (isoformat KUWAIT b.(bk_appointment_start)));
    ("appointment_end", JStr (isoformat KUWAIT sc.(sc_appointment_end)));
    ("duration_minutes", JInt b.(bk_duration_minutes)); ("total_amount", JStr (amount_text b.(bk_total_amount)));
    ("currency", JStr b.(bk_currency)); ("status", JStr b.(bk_status));
    ("created_by_user", JStr (effective_user c)); ("created_by_user_data", JDict (or_empty c.(cb_created_by_user_data)));
    ("change_by_user", JStr (effective_user c)); ("change_by_user_data", JDict (or_empty c.(cb_created_by_user_data)))].

(** The events of a new booking; a draft has none. *)
Definition announce_created (c : CreateBooking) (services : list json) (booking_id : Z) : M Store () :=
  b ← get_booking_row booking_id;
  if String.eqb b.(bk_status) (value Booking.DRAFT) then mret ()
  else
    emit "Booking.Created" (created_event c services booking_id b) ;;
    if String.eqb b.(bk_status) (value Booking.CONFIRMED) then confirmed_event booking_id
    else if String.eqb b.(bk_status) (value Booking.PAYMENT_PENDING)
    then _ensure_booking_loyalty_details booking_id ;; status_event "Booking.PaymentPending" booking_id
    else mret ().

Definition create_booking (c : CreateBooking) : M Store Z :=
  services ← lift (requested_services c);
  pf ← lift (primary_fields services);
  existing ← gets (λ s, if truthy_opt c.(cb_idempotency_key)
                        then get_by_idempotency_key (opt_text c.(cb_idempotency_key)) s else None);
  match existing with
  | Some id => mret id
  | None =>
      raise_if (c.(cb_secondary_therapist_id) ==? Some c.(cb_therapist_id)) (err ValidationError) ;;
      (match c.(cb_sessions) with
       | [] => check_therapists (c.(cb_therapist_id) :: option_list c.(cb_secondary_therapist_id))
                 c.(cb_appointment_start) c.(cb_appointment_end) None
       | sessions => check_sessions sessions None
       end) ;;
      number ← gets (booking_number_for c.(cb_appointment_start));
      now_ ← gets now;
      service_id ← some_or_raise pf.(pf_service_id) (err PythonException);
      id ← insert_booking (new_booking c services pf service_id number now_);
      create_holds c id pf ;;
      _record_status_change id None
        (match of_value c.(cb_status) with Ok st => st | Raise _ => Booking.REQUESTED end)
        (Some (effective_source c)) None ;;
      announce_created c services id ;;
      mret id
  end.
End service.
End BookingService.
