(* ===== verification/BookingChanges.v ===== *)
(** * Changes of a booking (app/booking/application/services.py)

    Confirmation, cancellation with its refund, the request to reschedule, the
    therapist of one session, and the payment rows a booking drags along. *)

From S2P Require Import Prelude Exceptions Effects StateMachines Money Numbers Store PyText PyDate Sessions SessionPlanner RefundLifecycle RefundService LinkGateway Settlement LinkService BookingEvents BookingRepo BookingService.
Import Lifecycle BookingService.
#[local] Open Scope Z_scope.

(** [isoformat] of a datetime as it was given. *)
Definition iso_of (dt : datetime) : string :=
  match dt.(offset) with
  | Some off => isoformat off (dt.(wall) - off)
  | None => let s := isoformat 0 dt.(wall) in String.substring 0 (String.length s - 6) s
  end.

(** A [Decimal] argument that is [None] or zero counts as [Decimal("0.000")]. *)
Definition or_no_amount (d : option Decimal) : Decimal :=
  match d with Some x => if x.(coeff) =? 0 then ZERO else x | None => ZERO end.

Section changes.
Context `{BookingWorld}.
Context (PAYMENT_LINK_DEFAULT_GATEWAY : string).

(** ** Payment rows *)

(** The payments a booking names when none is linked to it. *)
Definition candidate_ids (b : Booking) : list string :=
  let pid := ref_text b.(bk_payment_id) in
  let data := JDict (or_empty b.(bk_payment_data)) in
  let named := jor (jget data "payment_id") (jget data "id") in
  (if truthy pid then [pid] else []) ++ (if jtruthy (Some named) then [json_str named] else []).
Definition payments_named (cid : string) (s : Store) : list Z :=
  pm_id <$> List.filter (λ p, (p.(pm_payment_id) ==? Some cid) || (Some p.(pm_id) ==? uuid_of_string cid)) (rows s.(payments)).
Definition link_candidates (booking_id : Z) (cids : list string) : M Store () :=
  for_each cids (λ cid,
    ids ← gets (payments_named cid);
    for_each ids (λ pid, upd_payment pid (λ p, p <| pm_booking_id := Some booking_id |>))).

(** The payment row of a booking that was paid without one. *)
Definition fallback_payment (booking_id : Z) (b : Booking) (number : string) (target : string)
    (v_num : option string) (change_by_user source : option string) (change_by_user_data : option jdict)
    (now_ id : Z) : Payment :=
  let c := b.(bk_schedule) in
  mk_payment id (Some booking_id) b.(bk_customer_id) b.(bk_total_amount) 0
    (if truthy b.(bk_currency) then b.(bk_currency) else "KWD") (Some target)
    (Some (por_str b.(bk_payment_provider) "Other")) (Some (por_str b.(bk_payment_gateway) "Other")) None None None None
    b.(bk_payment_data) now_ number b.(bk_customer_data) (Some b.(bk_service_id)) b.(bk_service_data) b.(bk_branch_id)
    b.(bk_branch_data) b.(bk_service_arrangement_id) b.(bk_service_arrangement_data)
    (or_int (total_minutes b) 60) None None None c.(sc_voucher_id) v_num None None None None None
    (Some (por_str b.(bk_payment_method) "card")) (Some (por_str b.(bk_payment_through) "ushspa")) None None None
    (Some "branch_service") (if truthy_opt change_by_user then change_by_user else if truthy_opt source then source else None)
    change_by_user_data (no_details <| pd_voucher_data := c.(sc_voucher_data) |>).

(** The number of the voucher a booking was paid with. *)
Definition voucher_number_of (b : Booking) (s : Store) : option string :=
  let c := b.(bk_schedule) in
  let n := jget (JDict (or_empty c.(sc_voucher_data))) "voucher_number" in
  match c.(sc_voucher_id) with
  | Some vid => if jtruthy (Some n) then Some (json_str n) else s.(vouchers) !! vid ≫= gv_voucher_number
  | None => match n with JNull => None | _ => Some (json_str n) end
  end.

(** The audit row of a payment that follows its booking. *)
Definition sync_history (pid : Z) (old : option string) (target b_status : string) (source change_by_user : option string)
    (change_by_user_data : option jdict) (correlation_id : option string) (pm_ref : string) : PaymentStatusHistory :=
  mk_history pid old target (por_str source "booking_cancellation") None (Some (por_str correlation_id pm_ref)) None
    (if truthy_opt change_by_user then change_by_user else if truthy_opt source then source else None) change_by_user_data.

Definition sync_payment (booking_id : Z) (b_status target : string) (source change_by_user : option string)
    (change_by_user_data : option jdict) (correlation_id : option string) (pid : Z) : M Store () :=
  p ← get_payment_row pid;
  when (p.(pm_status) !=? Some target)
    (upd_payment pid (λ p, p <| pm_status := Some target |>) ;;
     add_history (sync_history pid p.(pm_status) target b_status source change_by_user change_by_user_data correlation_id
                    (por_str p.(pm_payment_id) (uuid_str pid))) ;;
     flush_payment pid).

Definition _sync_booking_payment_status (booking_id : Z) (target_payment_status : string) (source change_by_user : option string)
    (change_by_user_data : option jdict) (correlation_id : option string) : M Store () :=
  b ← get_booking_row booking_id;
  let target := lower (strip target_payment_status) in
  linked ← gets (λ s, pm_id <$> payments_of_booking booking_id s);
  (match linked with [] => link_candidates booking_id (candidate_ids b) | _ => mret () end) ;;
  ids ← gets (λ s, pm_id <$> payments_of_booking booking_id s);
  for_each ids (sync_payment booking_id b.(bk_status) target source change_by_user change_by_user_data correlation_id) ;;
  let unpaid :=
    (target in? ["cancelled"; "refunded"]) ||
    (lower (strip b.(bk_payment_status)) in? ["pending"; "payment_pending"; "unpaid"; "not_initiated"; "cancelled"]) ||
    String.eqb (lower (strip b.(bk_status))) "cancelled" in
  when (match ids with [] => true | _ => false end && negb unpaid && (target in? ["success"; "paid"]) && negb (b.(bk_total_amount) =? 0))
    (swallow (
       s ← get;
       let number := generate_payment_number s.(now) (pm_payment_number <$> rows s.(payments)) in
       pid ← insert_payment (fallback_payment booking_id b number target (voucher_number_of b s) change_by_user source
                               change_by_user_data s.(now));
       add_history (sync_history pid None target b.(bk_status) source change_by_user change_by_user_data correlation_id (uuid_str pid))) ;;
     mret ()).

(** ** Confirmation *)

Definition take_payment_data (booking_id : Z) (payment_data : option jdict) : M Store () :=
  match payment_data with
  | Some d => upd_booking booking_id (λ b, b <| bk_payment_data := merged_payment_data b.(bk_payment_data) d |>)
  | None => mret ()
  end.

Definition confirm_booking (booking_id : Z) (payment_id : string) (payment_data : option jdict) (source : option string) : M Store () :=
  booking ← get_by_id booking_id;
  current_status ← lift (of_value booking.(bk_status) : result Booking.BookingStatus);
  if current_status ==? Booking.CONFIRMED then
    when (bool_decide (is_Some payment_data))
      (take_payment_data booking_id payment_data ;;
       upd_booking booking_id (λ b, b <| bk_payment_status := "success" |>) ;;
       flush_booking booking_id) ;;
    _ensure_booking_invoice booking_id
  else
    lift (transition_to current_status Booking.CONFIRMED) ;;
    upd_booking booking_id (λ b, b <| bk_status := value Booking.CONFIRMED |> <| bk_payment_status := "success" |>) ;;
    take_payment_data booking_id payment_data ;;
    flush_booking booking_id ;;
    delete_hold booking_id ;;
    _record_status_change booking_id (Some current_status) Booking.CONFIRMED (Some (por_str source "payment_webhook")) None ;;
    _ensure_booking_loyalty_details booking_id ;;
    _ensure_booking_invoice booking_id ;;
    status_event "Booking.Confirmed" booking_id.

(** ** Cancellation *)

Definition _ensure_cancellation_refund (booking_id : Z) (cancelled_by reason effective_user : string)
    (change_by_user_data : option jdict) (refund_amount cancellation_fee : Decimal) : M Store Z :=
  payment ← find_payment_for_booking booking_id;
  '(id, _) ← request booking_id payment (dec_max ZERO refund_amount) cancellation_fee "manual" RefundMethod.CASH
    (Some (if truthy reason then reason else "Booking cancellation refund"))
    (Some ("Auto-generated on booking cancellation by " ++ cancelled_by)%string)
    (Some (cancellation_idempotency_key booking_id))
    (if truthy effective_user then Some effective_user else None) (Some (or_empty change_by_user_data));
  mret id.

Definition _cancel_booking_payment_links (booking_id : Z) : M Store () :=
  swallow (
    b ← get_booking_row booking_id;
    gw ← lift (get_gateway (resolve_gateway_name b.(bk_payment_provider) PAYMENT_LINK_DEFAULT_GATEWAY));
    PaymentLinkService.cancel_and_delete_links_for_target gw "booking" booking_id ;;
    upd_booking booking_id (λ b, b <| bk_payment_url := None |>) ;;
    flush_booking booking_id) ;;
  mret ().

(** Calls to the appointment cache. *)
Definition ask_cache (c : OutboundCall) : M Store () := asking c (λ calls, appointment_cache calls c).
Definition drop_appointment_cache (booking_id : Z) : M Store () :=
  b ← get_booking_row booking_id;
  swallow (
    try_except (ask_cache (DeleteAppointmentCacheCall (uuid_str booking_id))) (λ _, true)
      (λ _, ask_cache (UpdateAppointmentCacheCall (uuid_str booking_id) "cancelled"
                         (if String.eqb (lower b.(bk_payment_status)) "refunded" then "refunded" else "cancelled")))) ;;
  mret ().

(** The value of a refund status. *)
Definition RefundStatus_text (st : RefundStatus) : string :=
  match st with
  | REQUESTED => "requested" | APPROVED => "approved" | REJECTED => "rejected" | PROCESSING => "processing"
  | COMPLETED => "completed" | FAILED => "failed" | CANCELLED => "cancelled"
  end.

(** The refund of a booking in the event. *)
Definition cancelled_event (ev_data : jdict) (reason cancelled_by user : string) (change_by_user_data : option jdict)
    (refund : option Refund) (is_refund_req : bool) (calc_refundable fee : Decimal) (old_status old_payment_status : string) : jdict :=
  let amount := JStr (match refund with Some r => amount_text r.(rf_refunded_amount) | None => dec_str calc_refundable end) in
  _safe_event_kwargs (without ev_data ["change_by_user"; "change_by_user_data"]) ++ [
    ("cancellation_reason", JStr reason); ("reason", JStr reason); ("cancelled_by", JStr cancelled_by);
    ("change_by_user", JStr user); ("change_by_user_data", JDict (or_empty change_by_user_data));
    ("refund_issued", JBool (bool_decide (is_Some refund)));
    ("refund_amount", if is_refund_req then amount else JNull); ("refund_required", JBool is_refund_req);
    ("refundable_amount", if is_refund_req then amount else JStr "0.000");
    ("cancellation_fee", JStr (match refund with Some r => amount_text r.(rf_cancellation_fee) | None => dec_str fee end));
    ("refund_id", match refund with Some r => JStr (uuid_str r.(rf_id)) | None => JNull end);
    ("refund_number", match refund with Some r => JStr r.(rf_refund_number) | None => JNull end);
    ("refund_type", match refund with Some r => JStr r.(rf_refund_type) | None => JNull end);
    ("refund_method", match refund with Some r => JStr r.(rf_refund_method) | None => JNull end);
    ("refund_status", match refund with Some r => JStr (RefundStatus_text r.(rf_status)) | None => JNull end);
    ("old_status", JStr old_status); ("previous_status", JStr old_status);
    ("old_payment_status", JStr old_payment_status); ("previous_payment_status", JStr old_payment_status)].

(** A loyalty booking that names what it was bought with. *)
Definition bought_with_points (b : Booking) : bool :=
  String.eqb (lower b.(bk_booking_type)) "loyalty" && jtruthy (Some (JDict (or_empty b.(bk_loyalty_data)))).

Definition cancel_booking (booking_id : Z) (reason cancelled_by : string) (change_by_user : option string)
    (change_by_user_data : option jdict) (refund_amount cancellation_fee : option Decimal) (correlation_id : option string) : M Store () :=
  booking ← get_by_id booking_id;
  raise_if (bought_with_points booking) (err ValidationError) ;;
  old_status ← lift (of_value booking.(bk_status) : result Booking.BookingStatus);
  let old_payment_status := booking.(bk_payment_status) in
  lift (transition_to old_status Booking.CANCELLED) ;;
  upd_booking booking_id (λ b, b <| bk_status := value Booking.CANCELLED |>
    <| bk_internal_notes := add_note b.(bk_internal_notes) ("Cancelled by " ++ cancelled_by ++ ": " ++ reason)%string |>) ;;
  flush_booking booking_id ;;
  delete_hold booking_id ;;
  let effective_user := por_str change_by_user cancelled_by in
  _record_status_change booking_id (Some old_status) Booking.CANCELLED (Some cancelled_by) (Some reason) ;;
  let is_paid := lower old_payment_status in? ["success"; "paid"] in
  let is_refund_req := String.eqb booking.(bk_payment_status) "refund_requested" || is_paid in
  let fee := or_no_amount cancellation_fee in
  let calc_refundable :=
    match refund_amount with Some a => a | None => dec_max ZERO (dec_sub (of_fils booking.(bk_total_amount)) fee) end in
  refund_id ←
    (if is_refund_req
     then swallow (_ensure_cancellation_refund booking_id cancelled_by reason effective_user change_by_user_data calc_refundable fee)
     else if negb (truthy booking.(bk_payment_status)) ||
             (lower booking.(bk_payment_status) in? ["unpaid"; "pending"; "not_initiated"])
     then upd_booking booking_id (λ b, b <| bk_payment_status := "cancelled" |>) ;;
          flush_booking booking_id ;;
          swallow (_sync_booking_payment_status booking_id "cancelled" (Some cancelled_by) (Some effective_user)
                     change_by_user_data correlation_id) ;;
          mret None
     else mret None);
  refund ← gets (λ s, refund_id ≫= λ id, s.(refunds) !! id);
  ev_data ← event_data booking_id;
  emit "Booking.Cancelled"
    (cancelled_event ev_data reason cancelled_by effective_user change_by_user_data refund is_refund_req calc_refundable fee
       (value old_status) old_payment_status) ;;
  _cancel_booking_payment_links booking_id ;;
  drop_appointment_cache booking_id.

(** ** Rescheduling *)

Definition reschedule_event (booking_id : Z) (b : Booking) (new_start new_end : datetime) : jdict := [
  ("booking_id", JStr (uuid_str booking_id)); ("customer_id", JStr (uuid_str b.(bk_customer_id)));
  ("current_appointment_start", JStr (isoformat KUWAIT b.(bk_appointment_start)));
  ("requested_appointment_start", JStr (isoformat KUWAIT (to_local_tz new_start)));
  ("requested_appointment_end", JStr (isoformat KUWAIT (to_local_tz new_end)))].

Definition request_reschedule (booking_id : Z) (new_start new_end : datetime) (customer_id : Z) (source : string) : M Store () :=
  booking ← get_by_id booking_id;
  raise_if (negb (booking.(bk_customer_id) =? customer_id)) (err AuthorizationError) ;;
  old_status ← lift (of_value booking.(bk_status) : result Booking.BookingStatus);
  lift (assert_booking_is_reschedulable old_status) ;;
  now_ ← gets now;
  lift (assert_reschedule_window booking.(bk_appointment_start) now_ MIN_HOURS_BEFORE) ;;
  lift (transition_to old_status Booking.RESCHEDULE_REQUESTED) ;;
  let note := ("Reschedule requested: " ++ iso_of new_start ++ " to " ++ iso_of new_end)%string in
  upd_booking booking_id (λ b, b <| bk_status := value Booking.RESCHEDULE_REQUESTED |>
    <| bk_internal_notes := add_note b.(bk_internal_notes) note |>) ;;
  flush_booking booking_id ;;
  _record_status_change booking_id (Some old_status) Booking.RESCHEDULE_REQUESTED (Some source) (Some note) ;;
  b ← get_booking_row booking_id;
  emit "Booking.RescheduleRequested" (reschedule_event booking_id b new_start new_end).

(** ** The therapist of one session *)

Record ChangeTherapist := mk_change_therapist {
  ct_session_id : string; ct_therapist_id : option Z; ct_therapist_data : option jdict;
  ct_secondary_therapist_id : option Z; ct_secondary_therapist_data : option jdict; ct_secondary_provided : bool }.

Definition id_json (o : option Z) : json := match o with Some id => JStr (uuid_str id) | None => JNull end.

(** The session with its new therapists. *)
Definition reassigned (c : ChangeTherapist) (new_secondary : json) (target : json) : json :=
  let target := match c.(ct_therapist_id) with
                | Some t => with_key (with_key target "therapist_id" (JStr (uuid_str t)))
                              "therapist_data" (JDict (or_empty c.(ct_therapist_data)))
                | None => target
                end in
  if c.(ct_secondary_provided)
  then with_key (with_key target "secondary_therapist_id" new_secondary) "secondary_therapist_data"
         (if jtruthy (Some new_secondary) then JDict (or_empty c.(ct_secondary_therapist_data)) else JNull)
  else target.

(** The first session with the id, and the list with it replaced. *)
Fixpoint replace_first {A} (p : A → bool) (f : A → A) (l : list A) : list A :=
  match l with [] => [] | x :: l => if p x then f x :: l else x :: replace_first p f l end.
Definition is_session (session_id : string) (s : json) : bool := String.eqb (json_str (jget s "session_id")) session_id.

(** The columns that mirror the therapists of the sessions. *)
Definition mirror_therapists (sessions : list json) (c : BookingSchedule) : result BookingSchedule :=
  let m := legacy_mirror sessions in
  tid ← uuid_of_json m.(m_therapist_id);
  sec ← (if jtruthy (Some m.(m_secondary_therapist_id))
         then id ← uuid_of_json m.(m_secondary_therapist_id); Ok (Some id) else Ok None);
  Ok (c <| sc_therapist_id := tid |> <| sc_therapist_data := Some (jdict_of m.(m_therapist_data)) |>
        <| sc_secondary_therapist_id := sec |>
        <| sc_secondary_therapist_data :=
             match sec, m.(m_secondary_therapist_data) with Some _, JDict d => Some d | _, _ => None end |>).

(** Move the hold of the session. *)
Definition move_hold (booking_id old_primary therapist_id : Z) (start : option Z) : M Store () :=
  modify (λ s, s <| holds := (λ h,
    if (h.(th_booking_id) =? booking_id) && (h.(th_therapist_id) =? old_primary) && (Some h.(th_appointment_start) ==? start)
    then h <| th_therapist_id := therapist_id |> else h) <$> s.(holds) |>).

Definition change_session_therapist (booking_id : Z) (c : ChangeTherapist) : M Store () :=
  booking ← get_by_id booking_id;
  let sessions := get_booking_sessions (columns_of booking_id booking) in
  target ← some_or_raise (List.find (is_session c.(ct_session_id)) sessions) (err ValidationError);
  let new_primary := match c.(ct_therapist_id) with Some t => JStr (uuid_str t) | None => jget target "therapist_id" end in
  let new_secondary := if c.(ct_secondary_provided) then id_json c.(ct_secondary_therapist_id)
                       else jget target "secondary_therapist_id" in
  raise_if (jtruthy (Some new_secondary) && String.eqb (json_str new_secondary) (json_str new_primary)) (err ValidationError) ;;
  for_each (List.filter (λ j, jtruthy (Some j)) [new_primary; new_secondary]) (λ t,
    if json_str t in? [json_str (jget target "therapist_id"); json_str (jget target "secondary_therapist_id")] then mret ()
    else
      tid ← lift (uuid_of_json t);
      taken ← gets (session_taken target tid (Some booking_id));
      raise_if taken ALREADY_BOOKED) ;;
  let sessions' := replace_first (is_session c.(ct_session_id)) (reassigned c new_secondary) sessions in
  schedule ← lift (mirror_therapists sessions' (booking.(bk_schedule) <| sc_sessions := sessions' |>));
  upd_schedule booking_id (λ _, schedule) ;;
  let old_primary := jget target "therapist_id" in
  (match c.(ct_therapist_id) with
   | Some t =>
       when (jtruthy (Some old_primary) && negb (String.eqb (json_str old_primary) (uuid_str t)))
         (old ← lift (uuid_of_json old_primary);
          move_hold booking_id old t (session_window target).1)
   | None => mret ()
   end) ;;
  flush_booking booking_id.
End changes.
