(* ===== verification/BookingUpdate.v ===== *)
(** * Updating a booking (app/booking/application/services.py)

    [update_booking] in the order of its sections: sessions, services, timing and
    therapists, branch and arrangement, payment, prices, the stored sessions, and
    the status with its event.  The attribute assignments of a section are a
    function of the row; a section that calls out is an operation.  Amounts are
    given as decimals; what is assigned to a column is rounded when it is
    assigned, and read exactly where the source reads it before the flush. *)

From S2P Require Import Prelude Exceptions Effects StateMachines Money Numbers Store PyText PyDate Sessions SessionPlanner LinkGateway Settlement LinkService BookingEvents BookingRepo BookingService BookingChanges.
Import BookingService.
#[local] Open Scope Z_scope.

(** ** The request *)

Record UpdateBooking := mk_update {
  ub_status : option Booking.BookingStatus; ub_payment_status : option string; ub_payment_id : option string;
  ub_payment_provider : option string; ub_payment_gateway : option string; ub_payment_through : option string;
  ub_payment_method : option string; ub_payment_url : option string; ub_payment_type : option string;
  ub_payment_data : option jdict; ub_created_by_user : option string; ub_created_by_user_data : option jdict;
  ub_therapist_id : option Z; ub_therapist_data : option jdict;
  ub_secondary_therapist_id : option Z; ub_secondary_therapist_data : option jdict; ub_secondary_provided : bool;
  ub_branch_id : option Z; ub_branch_data : option jdict;
  ub_service_arrangement_id : option Z; ub_service_arrangement_data : option jdict;
  ub_services : option (list json); ub_appointment_start : option Z; ub_extra_minutes : option Z;
  ub_customer_notes : option string; ub_internal_notes : option string; ub_reason : option string;
  ub_source : string; ub_changed_by : option string; ub_change_by_user_data : option jdict;
  ub_correlation_id : option string; ub_loyalty_data : option jdict; ub_reward_id : option Z;
  ub_voucher_id : option Z; ub_voucher_data : option jdict; ub_invoice_number : option string;
  ub_addons : option (list json); ub_addon_price : option Decimal; ub_addons_duration : option Z;
  ub_price_for_extra_minutes : option Decimal; ub_total_duration : option Z; ub_total_amount : option Decimal;
  ub_sessions : option (list json) }.

#[export] Instance eta_UpdateBooking : Eta UpdateBooking := λ u, mk_update
  u.(ub_status) u.(ub_payment_status) u.(ub_payment_id) u.(ub_payment_provider) u.(ub_payment_gateway)
  u.(ub_payment_through) u.(ub_payment_method) u.(ub_payment_url) u.(ub_payment_type) u.(ub_payment_data)
  u.(ub_created_by_user) u.(ub_created_by_user_data) u.(ub_therapist_id) u.(ub_therapist_data)
  u.(ub_secondary_therapist_id) u.(ub_secondary_therapist_data) u.(ub_secondary_provided) u.(ub_branch_id)
  u.(ub_branch_data) u.(ub_service_arrangement_id) u.(ub_service_arrangement_data) u.(ub_services)
  u.(ub_appointment_start) u.(ub_extra_minutes) u.(ub_customer_notes) u.(ub_internal_notes) u.(ub_reason)
  u.(ub_source) u.(ub_changed_by) u.(ub_change_by_user_data) u.(ub_correlation_id) u.(ub_loyalty_data)
  u.(ub_reward_id) u.(ub_voucher_id) u.(ub_voucher_data) u.(ub_invoice_number) u.(ub_addons)
  u.(ub_addon_price) u.(ub_addons_duration) u.(ub_price_for_extra_minutes) u.(ub_total_duration)
  u.(ub_total_amount) u.(ub_sessions).

(** An update that changes nothing, on behalf of [source]. *)
Definition no_update (source : string) : UpdateBooking :=
  mk_update None None None None None None None None None None None None None None None None false None None None None
    None None None None None None source None None None None None None None None None None None None None None None.

(** [changed_by or created_by_user], and the data that goes with it. *)
Definition effective_changed_by (u : UpdateBooking) : option string := por u.(ub_changed_by) u.(ub_created_by_user).
Definition effective_changed_data (u : UpdateBooking) : option jdict :=
  por_dict u.(ub_change_by_user_data) u.(ub_created_by_user_data).

(** [x if x is not None else column], as assignments. *)
Definition given {A} (new old : option A) : option A := match new with Some _ => new | None => old end.

(** ** Sessions and services *)

(** The total when none is given: the parts less the discount the booking has. *)
Definition repriced (u : UpdateBooking) (services_price : Decimal) (b : Booking) : Decimal :=
  let c := b.(bk_schedule) in
  let addon := default (of_fils c.(sc_addon_price)) u.(ub_addon_price) in
  let extra := default (of_fils c.(sc_price_for_extra_minutes)) u.(ub_price_for_extra_minutes) in
  dec_max (mk_dec 0 0) (dec_sub (dec_add (dec_add services_price addon) extra) (of_fils c.(sc_discount))).

Definition with_primary (pf : PrimaryFields) (service_id : Z) (entries : list json) (b : Booking) : Booking :=
  b <| bk_service_id := service_id |> <| bk_service_data := Some pf.(pf_service_data) |>
    <| bk_service_arrangement_id := pf.(pf_service_arrangement_id) |>
    <| bk_service_arrangement_data := Some pf.(pf_service_arrangement_data) |>
    <| bk_schedule := b.(bk_schedule) <| sc_services := entries |> |>.

(** The columns mirrored from the sessions. *)
Definition mirror_columns (u : UpdateBooking) (sessions : list json) (start end_ : Z) (b : Booking) : Booking :=
  let m := legacy_mirror sessions in
  let t := m.(m_totals) in
  b <| bk_appointment_start := start |>
    <| bk_duration_minutes := or_int t.(t_services_duration) b.(bk_duration_minutes) |>
    <| bk_total_duration := Some t.(t_total_duration) |>
    <| bk_total_amount := match u.(ub_total_amount) with
                          | None => db_fils (repriced u t.(t_services_price) b)
                          | Some _ => b.(bk_total_amount)
                          end |>
    <| bk_schedule := b.(bk_schedule) <| sc_addons := Some m.(m_addons) |> <| sc_appointment_end := end_ |>
         <| sc_appointment_date := local_midnight start |> <| sc_extra_minutes := t.(t_extra_minutes) |>
         <| sc_addons_duration := Some t.(t_addons_duration) |>
         <| sc_base_price := Some (db_fils t.(t_services_price)) |>
         <| sc_arrangement_price := db_fils t.(t_services_price) |> |>.

Definition with_sessions (u : UpdateBooking) (sessions : list json) (b : Booking) : result Booking :=
  let m := legacy_mirror sessions in
  pf ← primary_fields m.(m_services);
  match pf.(pf_service_id), m.(m_appointment_start), m.(m_appointment_end) with
  | Some service_id, Some start, Some end_ =>
      schedule ← mirror_therapists sessions (b.(bk_schedule) <| sc_sessions := sessions |>);
      Ok (mirror_columns u sessions start end_
            (with_primary pf service_id m.(m_services) (b <| bk_schedule := schedule |>)))
  | _, _, _ => Raise (err PythonException)
  end.

Definition with_services (entries : list json) (b : Booking) : result Booking :=
  pf ← primary_fields entries;
  match pf.(pf_service_id) with
  | Some service_id =>
      let b := with_primary pf service_id entries b in
      Ok (b <| bk_duration_minutes := or_int (total_services_duration entries) b.(bk_duration_minutes) |>
            <| bk_schedule := b.(bk_schedule) <| sc_base_price := Some (db_fils (total_services_price entries)) |> |>)
  | None => Raise (err PythonException)
  end.

(** ** Therapists and times *)

(** The second therapist: the target of the check, and what is assigned. *)
Record Secondary := mk_secondary {
  sec_target : option Z; sec_id : option Z; sec_data : option jdict; sec_provided : bool }.

Definition secondary (u : UpdateBooking) (b : Booking) : result Secondary :=
  let c := b.(bk_schedule) in
  let target := default c.(sc_therapist_id) u.(ub_therapist_id) in
  if u.(ub_secondary_provided) || bool_decide (is_Some u.(ub_secondary_therapist_id)) then
    if u.(ub_secondary_therapist_id) ==? Some target then Raise (err ValidationError)
    else Ok (mk_secondary u.(ub_secondary_therapist_id) u.(ub_secondary_therapist_id) u.(ub_secondary_therapist_data)
               u.(ub_secondary_provided))
  else if c.(sc_secondary_therapist_id) ==? Some target then
    if negb (c.(sc_therapist_id) =? target)
    then Ok (mk_secondary (Some c.(sc_therapist_id)) (Some c.(sc_therapist_id)) c.(sc_therapist_data) true)
    else Ok (mk_secondary None None None true)
  else Ok (mk_secondary c.(sc_secondary_therapist_id) None u.(ub_secondary_therapist_data) false).

Definition sec_assigned (sec : Secondary) : bool := sec.(sec_provided) || bool_decide (is_Some sec.(sec_id)).

Definition target_extra (u : UpdateBooking) (b : Booking) : Z := default b.(bk_schedule).(sc_extra_minutes) u.(ub_extra_minutes).
Definition eff_total_duration (u : UpdateBooking) (b : Booking) : Z :=
  match u.(ub_total_duration) with
  | Some d => d
  | None => b.(bk_duration_minutes) + target_extra u b +
            default (default 0 b.(bk_schedule).(sc_addons_duration)) u.(ub_addons_duration)
  end.

(** [(target_start, target_end)]. *)
Definition target_window (u : UpdateBooking) (b : Booking) : Z * Z :=
  match u.(ub_sessions) with
  | Some _ => (b.(bk_appointment_start), b.(bk_schedule).(sc_appointment_end))
  | None =>
      let start := default b.(bk_appointment_start) u.(ub_appointment_start) in
      (start, start + eff_total_duration u b * us_per_minute)
  end.

Definition timing_touched (u : UpdateBooking) (sec : Secondary) : bool :=
  bool_decide (is_Some u.(ub_therapist_id)) || sec_assigned sec || bool_decide (is_Some u.(ub_appointment_start)) ||
  bool_decide (is_Some u.(ub_extra_minutes)) || bool_decide (is_Some u.(ub_services)).

Definition retimed (u : UpdateBooking) (sec : Secondary) (b : Booking) : Booking :=
  let c := b.(bk_schedule) in
  let '(start, end_) := target_window u b in
  let c := c <| sc_therapist_id := default c.(sc_therapist_id) u.(ub_therapist_id) |>
             <| sc_therapist_data := given u.(ub_therapist_data) c.(sc_therapist_data) |>
             <| sc_extra_minutes := target_extra u b |> <| sc_appointment_end := end_ |>
             <| sc_appointment_date := local_midnight start |> in
  let c := if sec_assigned sec
           then c <| sc_secondary_therapist_id := sec.(sec_id) |>
                  <| sc_secondary_therapist_data :=
                       match sec.(sec_id) with None => None | Some _ => given sec.(sec_data) c.(sc_secondary_therapist_data) end |>
           else c in
  b <| bk_appointment_start := start |> <| bk_schedule := c |>.

(** The new data of a second therapist who stays. *)
Definition with_secondary_data (sec : Secondary) (b : Booking) : Booking :=
  match sec.(sec_data), b.(bk_schedule).(sc_secondary_therapist_id) with
  | Some d, Some _ => b <| bk_schedule := b.(bk_schedule) <| sc_secondary_therapist_data := Some d |> |>
  | _, _ => b
  end.

(** ** Columns that are only assigned *)

Definition with_branch (booking_id : Z) (u : UpdateBooking) (b : Booking) : Booking :=
  let b := b <| bk_branch_id := given u.(ub_branch_id) b.(bk_branch_id) |>
             <| bk_branch_data := given u.(ub_branch_data) b.(bk_branch_data) |>
             <| bk_service_arrangement_id := given u.(ub_service_arrangement_id) b.(bk_service_arrangement_id) |>
             <| bk_service_arrangement_data := given u.(ub_service_arrangement_data) b.(bk_service_arrangement_data) |> in
  match u.(ub_services), u.(ub_service_arrangement_id), u.(ub_service_arrangement_data) with
  | Some _, _, _ | None, None, None => b
  | None, aid, data =>
      match get_booking_services (columns_of booking_id b) with
      | [] => b
      | e :: l =>
          let e := match aid with Some a => with_key e "service_arrangement_id" (JStr (uuid_str a)) | None => e end in
          let e := match data with Some d => with_key e "service_arrangement_data" (JDict d) | None => e end in
          b <| bk_schedule := b.(bk_schedule) <| sc_services := e :: l |> |>
      end
  end.

Definition with_notes (u : UpdateBooking) (b : Booking) : Booking :=
  b <| bk_internal_notes := given u.(ub_internal_notes) b.(bk_internal_notes) |>
    <| bk_schedule := b.(bk_schedule) <| sc_customer_notes := given u.(ub_customer_notes) b.(bk_schedule).(sc_customer_notes) |> |>.

Definition with_payment_columns (u : UpdateBooking) (b : Booking) : Booking :=
  b <| bk_payment_data := match u.(ub_payment_data) with
                          | Some d => merged_payment_data b.(bk_payment_data) d
                          | None => b.(bk_payment_data)
                          end |>
    <| bk_payment_id := match u.(ub_payment_id) with Some t => Some (ref_of_text t) | None => b.(bk_payment_id) end |>
    <| bk_payment_provider := given u.(ub_payment_provider) b.(bk_payment_provider) |>
    <| bk_payment_gateway := given u.(ub_payment_gateway) b.(bk_payment_gateway) |>
    <| bk_payment_through := given u.(ub_payment_through) b.(bk_payment_through) |>
    <| bk_payment_method := given u.(ub_payment_method) b.(bk_payment_method) |>
    <| bk_payment_url := given u.(ub_payment_url) b.(bk_payment_url) |>
    <| bk_payment_type := default b.(bk_payment_type) u.(ub_payment_type) |>
    <| bk_invoice_number := given u.(ub_invoice_number) b.(bk_invoice_number) |>
    <| bk_loyalty_data := given u.(ub_loyalty_data) b.(bk_loyalty_data) |>
    <| bk_reward_id := given u.(ub_reward_id) b.(bk_reward_id) |>
    <| bk_schedule := b.(bk_schedule)
         <| sc_created_by_user := given u.(ub_created_by_user) b.(bk_schedule).(sc_created_by_user) |>
         <| sc_created_by_user_data := given u.(ub_created_by_user_data) b.(bk_schedule).(sc_created_by_user_data) |>
         <| sc_voucher_id := given u.(ub_voucher_id) b.(bk_schedule).(sc_voucher_id) |>
         <| sc_voucher_data := given u.(ub_voucher_data) b.(bk_schedule).(sc_voucher_data) |> |>.

Definition with_prices (u : UpdateBooking) (b : Booking) : Booking :=
  let c := b.(bk_schedule) in
  b <| bk_total_duration := given u.(ub_total_duration) b.(bk_total_duration) |>
    <| bk_total_amount := match u.(ub_total_amount) with Some a => db_fils a | None => b.(bk_total_amount) end |>
    <| bk_schedule := c <| sc_addons := given u.(ub_addons) c.(sc_addons) |>
         <| sc_addon_price := match u.(ub_addon_price) with Some p => db_fils p | None => c.(sc_addon_price) end |>
         <| sc_addons_duration := given u.(ub_addons_duration) c.(sc_addons_duration) |>
         <| sc_price_for_extra_minutes :=
              match u.(ub_price_for_extra_minutes) with Some p => db_fils p | None => c.(sc_price_for_extra_minutes) end |> |>.

(** ** The stored sessions follow the columns *)

(** A price as it stands before the flush. *)
Definition exact (new : option Decimal) (column : Z) : Decimal := default (of_fils column) new.

(** [if x is not None: s[k] = f(x)]. *)
Definition put_opt {A} (k : string) (f : A → json) (o : option A) (j : json) : json :=
  match o with Some a => with_key j k (f a) | None => j end.
Definition put_data (k : string) (data : option jdict) (j : json) : json := put_opt k JDict data j.
Definition put_secondary (c : BookingSchedule) (j : json) : json :=
  with_key (with_key j "secondary_therapist_id" (uuid_json c.(sc_secondary_therapist_id))) "secondary_therapist_data"
    (match c.(sc_secondary_therapist_id), c.(sc_secondary_therapist_data) with
     | Some _, Some (_ :: _ as d) => JDict d
     | _, _ => JNull
     end).
Definition put_assigned (sec : Secondary) (c : BookingSchedule) (j : json) : json :=
  if sec_assigned sec then put_secondary c j else j.

(** The only session of a booking. *)
Definition synced_single (u : UpdateBooking) (sec : Secondary) (eff : Z) (b : Booking) (s0 : json) : json :=
  let c := b.(bk_schedule) in
  let s0 := with_key s0 "appointment_start" (JStr (isoformat KUWAIT b.(bk_appointment_start))) in
  let s0 := with_key s0 "appointment_end" (JStr (isoformat KUWAIT c.(sc_appointment_end))) in
  let s0 := put_data "therapist_data" c.(sc_therapist_data) (with_key s0 "therapist_id" (JStr (uuid_str c.(sc_therapist_id)))) in
  let s0 := put_assigned sec c s0 in
  let s0 := put_opt "service_arrangement_id" (λ a, JStr (uuid_str a)) b.(bk_service_arrangement_id) s0 in
  let s0 := put_data "service_arrangement_data" b.(bk_service_arrangement_data) s0 in
  let s0 := with_key s0 "extra_minutes" (JInt c.(sc_extra_minutes)) in
  let s0 := with_key s0 "price_for_extra_minutes" (JStr (money (exact u.(ub_price_for_extra_minutes) c.(sc_price_for_extra_minutes)))) in
  let s0 := with_key s0 "total_session_duration" (JInt (or_minutes b.(bk_total_duration) eff)) in
  let s0 := put_opt "addons" (λ l, JList (normalise_addons l)) c.(sc_addons) s0 in
  let s0 := with_key s0 "addons_price" (JStr (money (exact u.(ub_addon_price) c.(sc_addon_price)))) in
  let s0 := put_opt "addons_duration" JInt c.(sc_addons_duration) s0 in
  with_key s0 "session_price" (JStr (money (exact u.(ub_total_amount) b.(bk_total_amount)))).

(** One of several sessions: moved with the start of the booking, the first with
    its therapists, the last with its extra minutes. *)
Definition lengthened (u : UpdateBooking) (b : Booking) (extra_diff : Z) (s : json) : result json :=
  extra ← int_or_raise (jget_or s "extra_minutes" (JInt 0));
  let s := with_key s "extra_minutes" (JInt (Z.max 0 (extra + extra_diff))) in
  dur ← int_or_raise (jget_or s "total_session_duration" (JInt 0));
  Ok (with_key (with_key s "total_session_duration" (JInt (dur + extra_diff))) "price_for_extra_minutes"
        (JStr (money (exact u.(ub_price_for_extra_minutes) b.(bk_schedule).(sc_price_for_extra_minutes))))).

Definition shifted (u : UpdateBooking) (sec : Secondary) (b : Booking) (time_delta extra_diff : Z) (first last_ : bool)
    (s : json) : result json :=
  match session_window s with
  | (Some st, Some en) =>
      let c := b.(bk_schedule) in
      let s := if first then put_data "therapist_data" c.(sc_therapist_data) (with_key s "therapist_id" (JStr (uuid_str c.(sc_therapist_id)))) else s in
      let s := if first then put_assigned sec c s else s in
      let longer := negb (extra_diff =? 0) && last_ in
      s ← (if longer then lengthened u b extra_diff s else Ok s);
      Ok (with_key (with_key s "appointment_start" (JStr (isoformat KUWAIT (st + time_delta)))) "appointment_end"
            (JStr (isoformat KUWAIT (en + time_delta + (if longer then extra_diff * us_per_minute else 0)))))
  | _ => Ok s
  end.

Fixpoint shift_all (f : bool → bool → json → result json) (first : bool) (l : list json) : result (list json) :=
  match l with
  | [] => Ok []
  | s :: l =>
      s' ← f first (match l with [] => true | _ => false end) s;
      l' ← shift_all f false l;
      Ok (s' :: l')
  end.

Definition synced_sessions (u : UpdateBooking) (sec : Secondary) (eff : Z) (initial_start initial_extra : Z) (b : Booking) : result (list json) :=
  let stored := b.(bk_schedule).(sc_sessions) in
  if negb (forallb is_mapping stored) then Raise (err PythonException)
  else match u.(ub_sessions), stored with
  | Some _, _ | _, [] => Ok stored
  | None, [s0] => Ok [synced_single u sec eff b s0]
  | None, _ =>
      shift_all (shifted u sec b (b.(bk_appointment_start) - initial_start) (b.(bk_schedule).(sc_extra_minutes) - initial_extra))
        true stored
  end.

(** ** Sources and statuses *)

(** [str(source).lower()] names a service that must not be told. *)
Definition internal_source (source : string) : bool := lower source in? ["ushnotice"; "notice"; "system_sync"].

(** Statuses that release the hold of the slot. *)
Definition HOLD_RELEASING : list Booking.BookingStatus :=
  [Booking.CONFIRMED; Booking.CHECKED_IN; Booking.IN_PROGRESS; Booking.CANCELLED; Booking.REFUNDED; Booking.COMPLETED; Booking.PARKED].

(** A parked booking that the update leaves parked. *)
Definition remain_parked (initial_status : string) (u : UpdateBooking) : bool :=
  String.eqb (lower initial_status) (value Booking.PARKED) &&
  match u.(ub_status) with None => true | Some st => st ==? Booking.PARKED end.

Module BookingUpdates.
Section updates.
Context `{BookingWorld}.
Context (PAYMENT_LINK_DEFAULT_GATEWAY : string) (PAYMENT_LINK_EXPIRY_MINUTES : Z).

(** Attribute assignments computed from the row. *)
Definition assign (booking_id : Z) (f : Booking → result Booking) : M Store () :=
  b ← get_booking_row booking_id;
  b' ← lift (f b);
  upd_booking booking_id (λ _, b').
Definition assigns (booking_id : Z) (f : Booking → Booking) : M Store () := assign booking_id (λ b, Ok (f b)).

Definition replace_sessions (booking_id : Z) (u : UpdateBooking) (parked : bool) : M Store () :=
  match u.(ub_sessions) with
  | None => mret ()
  | Some sessions =>
      raise_if (match sessions with [] => true | _ => MAX_PACKAGE_SESSIONS_PER_BOOKING <? Z.of_nat (length sessions) end)
        (err ValidationError) ;;
      when (negb parked) (check_sessions sessions (Some booking_id)) ;;
      assign booking_id (with_sessions u sessions)
  end.

Definition replace_services (booking_id : Z) (u : UpdateBooking) : M Store () :=
  match u.(ub_services) with
  | None => mret ()
  | Some entries =>
      raise_if (match entries with [] => true | _ => MAX_SERVICES_PER_BOOKING <? Z.of_nat (length entries) end)
        (err ValidationError) ;;
      assign booking_id (with_services entries)
  end.

(** The second therapist and the total duration are used again by the sessions. *)
Definition update_timing (booking_id : Z) (u : UpdateBooking) (parked : bool) : M Store (Secondary * Z) :=
  b ← get_booking_row booking_id;
  sec ← lift (secondary u b);
  (if timing_touched u sec
   then when (negb (parked || bool_decide (is_Some u.(ub_sessions))))
          (let '(start, end_) := target_window u b in
           check_therapists (default b.(bk_schedule).(sc_therapist_id) u.(ub_therapist_id) :: option_list sec.(sec_target))
             start end_ (Some booking_id)) ;;
        assigns booking_id (retimed u sec)
   else assigns booking_id (with_secondary_data sec)) ;;
  mret (sec, eff_total_duration u b).

(** ** Payment *)

Definition sync_quietly (booking_id : Z) (u : UpdateBooking) (target : string) : M Store () :=
  swallow (_sync_booking_payment_status booking_id target (Some u.(ub_source)) (effective_changed_by u)
             (effective_changed_data u) u.(ub_correlation_id)) ;;
  mret ().

Definition update_payment_status (booking_id : Z) (u : UpdateBooking) : M Store () :=
  match u.(ub_payment_status) with
  | None => mret ()
  | Some ps =>
      b ← get_booking_row booking_id;
      let p := lower (strip ps) in
      let set (v : string) := upd_booking booking_id (λ b, b <| bk_payment_status := v |>) in
      if (lower (strip b.(bk_payment_status)) in? ["paid"; "success"]) && (u.(ub_status) ==? Some Booking.CANCELLED) &&
         String.eqb p "success" then set "success"
      else if String.eqb p "refund_requested" then set "refund_requested"
      else
        set ps ;;
        (if p in? ["refunded"; "cancelled"] then sync_quietly booking_id u p
         else if p in? ["success"; "paid"] then sync_quietly booking_id u (value Payment.SUCCESS)
         else mret ())
  end.

(** The amount of a confirmed, unpaid booking changed: its payment link is
    replaced by one for the new amount. *)
Definition link_request (booking_id : Z) (u : UpdateBooking) (amount : Decimal) (token : string) : CreateLink :=
  mk_create_link "booking" booking_id (Some amount) (por_str (effective_changed_by u) "system") (effective_changed_data u)
    None None true None token.

Definition recreate_link (booking_id : Z) (u : UpdateBooking) (amount : Decimal) (token : string) : M Store () :=
  b ← get_booking_row booking_id;
  gw ← lift (get_gateway (resolve_gateway_name b.(bk_payment_provider) PAYMENT_LINK_DEFAULT_GATEWAY));
  open_ ← gets (PaymentLinkService.find_open_link "booking" booking_id);
  gw ← match open_ with
       | Some id =>
           l ← get_link_row id;
           if truthy l.(pl_gateway) && negb (String.eqb l.(pl_gateway) gw.(gw_name))
           then lift (get_gateway l.(pl_gateway)) else mret gw
       | None => mret gw
       end;
  when (bool_decide (is_Some open_) || truthy_opt b.(bk_payment_url))
    (PaymentLinkService.cancel_and_delete_links_for_target gw "booking" booking_id ;;
     made ← PaymentLinkService.create_link PAYMENT_LINK_EXPIRY_MINUTES gw (link_request booking_id u amount token);
     id ← lift made;
     l ← get_link_row id;
     upd_booking booking_id (λ b, b <| bk_payment_url := l.(pl_payment_url) |>
                                    <| bk_payment_provider := Some l.(pl_provider_label) |>)).

Definition amount_changed (u : UpdateBooking) (old_amount : Z) (b : Booking) (amount : Decimal) : bool :=
  String.eqb (lower (strip (match u.(ub_status) with Some st => value st | None => b.(bk_status) end))) (value Booking.CONFIRMED) &&
  (lower (strip (por_str u.(ub_payment_status) b.(bk_payment_status))) in? ["pending"; "unpaid"]) &&
  amount_differs amount old_amount.

Definition update_prices (booking_id : Z) (u : UpdateBooking) (token : string) : M Store () :=
  old ← get_booking_row booking_id;
  assigns booking_id (with_prices u) ;;
  match u.(ub_total_amount) with
  | Some amount =>
      b ← get_booking_row booking_id;
      when (amount_changed u old.(bk_total_amount) b amount)
        (swallow (recreate_link booking_id u amount token) ;; mret ())
  | None => mret ()
  end.

Definition sync_sessions (booking_id : Z) (u : UpdateBooking) (sec : Secondary) (eff : Z) (initial : Booking) : M Store () :=
  assign booking_id (λ b,
    sessions ← synced_sessions u sec eff initial.(bk_appointment_start) initial.(bk_schedule).(sc_extra_minutes) b;
    Ok (b <| bk_schedule := b.(bk_schedule) <| sc_sessions := sessions |> |>)).

(** ** Events *)

(** [ev_data] with who made the change. *)
Definition changed_by_data (u : UpdateBooking) (ev_data : jdict) : jdict :=
  let d := if truthy_opt (effective_changed_by u)
           then dict_set ev_data "change_by_user" (JStr (opt_text (effective_changed_by u))) else ev_data in
  match effective_changed_data u with Some x => dict_set d "change_by_user_data" (JDict x) | None => d end.

Definition status_cancelled_event (u : UpdateBooking) (reason : option string) (b : Booking) (ev_data : jdict)
    (old_status old_payment_status : string) : jdict :=
  let is_refund_req := String.eqb (lower (strip b.(bk_payment_status))) "refund_requested" in
  _safe_event_kwargs (without ev_data ["change_by_user"; "change_by_user_data"]) ++ [
    ("cancellation_reason", JStr (opt_text reason)); ("reason", JStr (opt_text reason));
    ("cancelled_by", JStr (por_str (Some u.(ub_source)) "admin"));
    ("change_by_user", JStr (por_str (effective_changed_by u) (por_str (Some u.(ub_source)) "admin")));
    ("change_by_user_data", JDict (or_empty (effective_changed_data u))); ("refund_issued", JBool false);
    ("refund_amount", if is_refund_req then JStr (amount_text b.(bk_total_amount)) else JNull);
    ("refund_required", JBool is_refund_req);
    ("refundable_amount", JStr (if is_refund_req then amount_text b.(bk_total_amount) else "0.000"));
    ("cancellation_fee", JStr "0.000"); ("refund_id", JNull); ("refund_number", JNull); ("refund_type", JNull);
    ("refund_method", JNull); ("refund_status", JNull);
    ("old_status", JStr old_status); ("previous_status", JStr old_status);
    ("old_payment_status", JStr old_payment_status); ("previous_payment_status", JStr old_payment_status)].

Definition status_updated_event (u : UpdateBooking) (reason : option string) (ev_data : jdict) (old_status new_status : string) : jdict :=
  _safe_event_kwargs (without ev_data ["change_by_user"; "change_by_user_data"]) ++ [
    ("old_status", JStr old_status); ("new_status", JStr new_status); ("reason", opt_json reason);
    ("source", JStr u.(ub_source));
    ("change_by_user", JStr (por_str (effective_changed_by u) (por_str (Some u.(ub_source)) "admin")));
    ("change_by_user_data", JDict (or_empty (effective_changed_data u)))].

(** [_dispatch_status_event]. *)
Definition dispatch_status_event (booking_id : Z) (u : UpdateBooking) (old_status : string) (new_status : Booking.BookingStatus)
    (old_payment_status : string) (reason : option string) : M Store () :=
  when (new_status ==? Booking.CONFIRMED) (_ensure_booking_loyalty_details booking_id) ;;
  raw ← event_data booking_id;
  b ← get_booking_row booking_id;
  let ev_data := changed_by_data u raw in
  match new_status with
  | Booking.CONFIRMED => emit "Booking.Confirmed" (_safe_event_kwargs ev_data)
  | Booking.PAYMENT_PENDING => emit "Booking.PaymentPending" (_safe_event_kwargs ev_data)
  | Booking.COMPLETED => emit "Booking.Completed" (_safe_event_kwargs ev_data)
  | Booking.CANCELLED => emit "Booking.Cancelled" (status_cancelled_event u reason b ev_data old_status old_payment_status)
  | Booking.NO_SHOW =>
      emit "Booking.NoShow" [("booking_id", jget (JDict ev_data) "booking_id"); ("customer_id", jget (JDict ev_data) "customer_id");
                             ("therapist_id", jget (JDict ev_data) "therapist_id")]
  | Booking.PARKED | Booking.CHECKED_IN | Booking.IN_PROGRESS => mret ()
  | _ => emit "Booking.StatusUpdated" (status_updated_event u reason ev_data old_status (value new_status))
  end.

(** ** Status *)

(** Only a paid, confirmed booking can be parked. *)
Definition check_parking (u : UpdateBooking) (old_status : Booking.BookingStatus) (b : Booking) : M Store () :=
  raise_if (negb (lower (por_str u.(ub_payment_status) b.(bk_payment_status)) in? ["success"; "paid"; "rewarded"])) (err ValidationError) ;;
  raise_if (negb (old_status in? [Booking.CONFIRMED; Booking.RESCHEDULE_APPROVED])) (err ValidationError).

(** A transition outside the state machine is logged and made all the same. *)
Definition status_note (u : UpdateBooking) (new_status : Booking.BookingStatus) (now_ : Z) : string :=
  ("[" ++ isoformat 0 now_ ++ "] Status changed to " ++ value new_status ++ " by " ++ u.(ub_source) ++ ": " ++ opt_text u.(ub_reason))%string.

(** What follows a status that was stored. *)
Definition release_parked (booking_id : Z) : M Store () :=
  swallow (ask_cache (DeleteAppointmentCacheCall (uuid_str booking_id))) ;; mret ().
Definition after_cancel (booking_id : Z) : M Store () :=
  _cancel_booking_payment_links PAYMENT_LINK_DEFAULT_GATEWAY booking_id ;;
  b ← get_booking_row booking_id;
  swallow (ask_cache (UpdateAppointmentCacheCall (uuid_str booking_id) "cancelled"
             (if lower b.(bk_payment_status) in? ["refunded"; "success"; "paid"] then "refunded" else "cancelled"))) ;;
  mret ().

Definition change_status (booking_id : Z) (u : UpdateBooking) (old_status new_status : Booking.BookingStatus)
    (initial_payment_status : string) : M Store () :=
  b ← get_booking_row booking_id;
  when (new_status ==? Booking.PARKED) (check_parking u old_status b) ;;
  now_ ← gets now;
  upd_booking booking_id (λ b, b <| bk_status := value new_status |>
    <| bk_internal_notes := if truthy_opt u.(ub_reason) then add_note b.(bk_internal_notes) (status_note u new_status now_)
                            else b.(bk_internal_notes) |>) ;;
  when (new_status in? HOLD_RELEASING) (delete_hold booking_id) ;;
  when (new_status ==? Booking.REFUNDED)
    (upd_booking booking_id (λ b, b <| bk_payment_status := "refunded" |>) ;;
     sync_quietly booking_id u (value Payment.REFUNDED)) ;;
  flush_booking booking_id ;;
  _record_status_change booking_id (Some old_status) new_status (Some u.(ub_source)) u.(ub_reason) ;;
  when (negb (internal_source u.(ub_source)))
    (dispatch_status_event booking_id u (value old_status) new_status initial_payment_status u.(ub_reason)) ;;
  when (new_status ==? Booking.PARKED) (release_parked booking_id) ;;
  when (new_status ==? Booking.CANCELLED) (after_cancel booking_id).

(** No change of status: an event only when the payment status moved. *)
Definition keep_status (booking_id : Z) (u : UpdateBooking) (initial : Booking) : M Store () :=
  flush_booking booking_id ;;
  b ← get_booking_row booking_id;
  match (of_value b.(bk_status) : result Booking.BookingStatus) with
  | Ok current =>
      when (negb (internal_source u.(ub_source)) &&
            negb (String.eqb (lower b.(bk_payment_status)) (lower initial.(bk_payment_status))) &&
            (current in? [Booking.CONFIRMED; Booking.PAYMENT_PENDING; Booking.COMPLETED]))
        (dispatch_status_event booking_id u initial.(bk_status) current initial.(bk_payment_status)
           (Some (por_str u.(ub_reason) "Booking updated")))
  | Raise _ => mret ()
  end.

Definition update_booking (booking_id : Z) (u : UpdateBooking) (token : string) : M Store () :=
  initial ← get_by_id booking_id;
  let parked := remain_parked initial.(bk_status) u in
  replace_sessions booking_id u parked ;;
  replace_services booking_id u ;;
  '(sec, eff) ← update_timing booking_id u parked;
  assigns booking_id (with_branch booking_id u) ;;
  assigns booking_id (with_notes u) ;;
  update_payment_status booking_id u ;;
  assigns booking_id (with_payment_columns u) ;;
  update_prices booking_id u token ;;
  sync_sessions booking_id u sec eff initial ;;
  b ← get_booking_row booking_id;
  match u.(ub_status) with
  | None => keep_status booking_id u initial
  | Some new_status =>
      old_status ← lift (of_value b.(bk_status) : result Booking.BookingStatus);
      if old_status ==? new_status then keep_status booking_id u initial
      else change_status booking_id u old_status new_status initial.(bk_payment_status)
  end.

(** ** Shorthands *)

Definition update_status (booking_id : Z) (new_status : Booking.BookingStatus) (u : UpdateBooking) (token : string) : M Store () :=
  update_booking booking_id (u <| ub_status := Some new_status |>) token.
Definition complete_booking (booking_id : Z) : M Store () :=
  update_status booking_id Booking.COMPLETED (no_update "system") "".
Definition mark_no_show (booking_id : Z) : M Store () :=
  update_status booking_id Booking.NO_SHOW (no_update "system") "".
End updates.
End BookingUpdates.
