(* ===== verification/BookingSlots.v ===== *)
(** * Who is busy when

    What the overlap queries of the booking repository promise: as long as the
    stored rows are well formed, a window they report free overlaps no window
    in which another booking occupies the therapist.  [schedule_ok] is the
    invariant the operations of the booking service are judged by. *)

From S2P Require Import Prelude Exceptions Effects StateMachines Store PyText PyDate Sessions SessionSpec BookingEvents BookingRepo BookingService.
#[local] Open Scope Z_scope.

(** ** The part of a row that occupies therapists *)

Record Slot := mk_slot {
  sl_status : string; sl_start : Z; sl_end : Z; sl_sessions : list json; sl_therapist : Z; sl_secondary : option Z;
  sl_extra_minutes : Z }.
Definition slot_of (b : Booking) : Slot :=
  let c := b.(bk_schedule) in
  mk_slot b.(bk_status) b.(bk_appointment_start) c.(sc_appointment_end) c.(sc_sessions) c.(sc_therapist_id)
    c.(sc_secondary_therapist_id) c.(sc_extra_minutes).

(** The windows in which booking [b] occupies therapist [t]. *)
Definition busy (b : Booking) (t : Z) : list (Z * Z) := therapist_busy_windows (columns_of 0 b) t.
Definition apart_windows (w v : Z * Z) : Prop := w.2 <= v.1 ∨ v.2 <= w.1.

(** A key that has a UUID text, and a JSON field that holds such a key. *)
Definition valid_id (z : Z) : Prop := 0 <= z < 2 ^ 128.
Definition id_field (o : option Z) (j : json) : Prop :=
  match o with Some z => valid_id z ∧ j = JStr (uuid_str z) | None => j = JNull end.

(** ** Well-formed rows *)

Record session_ok (lo hi : Z) (s : json) : Prop := mk_session_ok {
  so_mapping : is_mapping s = true;
  so_therapist : ∃ t, id_field (Some t) (jget s "therapist_id");
  so_secondary : ∃ o, id_field o (jget s "secondary_therapist_id");
  so_window : ∃ a b, session_window s = (Some a, Some b) ∧ lo <= a ∧ b <= hi }.

(** The columns mirror the sessions: the window covers them, the therapists are
    those of the first. *)
Definition mirrors (start end_ t : Z) (t2 : option Z) (sessions : list json) : Prop :=
  match sessions with
  | [] => True
  | first :: rest =>
      Forall (session_ok start end_) sessions ∧ id_field (Some t) (jget first "therapist_id") ∧
      id_field t2 (jget first "secondary_therapist_id") ∧
      (rest = [] → session_window first = (Some start, Some end_))
  end.
Record slot_ok (l : Slot) : Prop := mk_slot_ok {
  ok_therapist : valid_id l.(sl_therapist);
  ok_secondary : ∀ t2, l.(sl_secondary) = Some t2 → valid_id t2 ∧ t2 ≠ l.(sl_therapist);
  ok_status : ∃ st : Booking.BookingStatus, l.(sl_status) = value st;
  ok_mirrors : mirrors l.(sl_start) l.(sl_end) l.(sl_therapist) l.(sl_secondary) l.(sl_sessions) }.

(** ** The invariant *)

(** No therapist is in two bookings at once. *)
Definition no_double_booking (s : Store) : Prop :=
  ∀ i j b c t w v, s.(bookings) !! i = Some b → s.(bookings) !! j = Some c → i ≠ j →
    blocking b = true → blocking c = true → valid_id t → w ∈ busy b t → v ∈ busy c t → apart_windows w v.
Definition rows_ok (s : Store) : Prop := ∀ i b, s.(bookings) !! i = Some b → slot_ok (slot_of b).
Definition schedule_ok (s : Store) : Prop := no_double_booking s ∧ rows_ok s.

(** No booking but [id] occupies [t] during [w]. *)
Definition free (s : Store) (id t : Z) (w : Z * Z) : Prop :=
  ∀ j c v, s.(bookings) !! j = Some c → j ≠ id → blocking c = true → v ∈ busy c t → apart_windows w v.

(** ** Keys and fields *)

Lemma uuid_str_inj y z : valid_id y → valid_id z → uuid_str y = uuid_str z → y = z.
Proof. intros Hy Hz E. apply (f_equal uuid_of_string) in E. rewrite !uuid_roundtrip in E by done. by simplify_eq. Qed.

Lemma id_field_str o j t : id_field o j → valid_id t → to_str_id j = Some (uuid_str t) ↔ o = Some t.
Proof.
  intros Hf Ht. destruct o as [z|]; cbn in Hf.
  - destruct Hf as [Hz ->]. rewrite to_str_id_uuid by apply Hz. split; [|by intros [= ->]].
    intros E%(inj Some). f_equal. by apply uuid_str_inj.
  - subst j. by split.
Qed.

Lemma index_self t : String.index 0 t t = Some 0%nat.
Proof.
  assert (String.prefix t t = true) as Hp by (induction t as [|a t IH]; cbn; [done|]; by destruct (Ascii.ascii_dec a a)).
  destruct t; cbn in *; [done|]. by rewrite Hp.
Qed.
Lemma contains_self t : contains t t = true.
Proof. unfold contains. by rewrite index_self. Qed.

(** A field of an object that is a text is found by the search. *)
Lemma mentions_field t d k : jget (JDict d) k = JStr t → mentions t (JDict d) = true.
Proof.
  unfold jget. induction d as [|[k' v] d IH]; [done|]. cbn [dict_get]. destruct (String.eqb k' k); cbn [default].
  - intros Hv. unfold id in Hv. subst v. change (contains t k' || mentions t (JStr t) || mentions t (JDict d) = true).
    cbn [mentions]. by rewrite contains_self, orb_true_r.
  - intros Hd. change (contains t k' || mentions t v || mentions t (JDict d) = true). by rewrite IH, orb_true_r.
Qed.
Lemma mentions_elem t s l : s ∈ l → mentions t s = true → mentions t (JList l) = true.
Proof.
  intros Hs Hm. induction Hs as [|s l s' Hs IH]; change (mentions t (JList (?a :: ?l))) with (mentions t a || mentions t (JList l)).
  - by rewrite Hm.
  - by rewrite (IH Hm), orb_true_r.
Qed.

(** ** What the queries find *)

Lemma busy_window_spec t s w :
  busy_window (uuid_str t) s = Some w → ∃ k, (k = "therapist_id" ∨ k = "secondary_therapist_id") ∧
    to_str_id (jget s k) = Some (uuid_str t) ∧ session_window s = (Some w.1, Some w.2).
Proof.
  unfold busy_window. destruct (_ || _) eqn:Ht; [|done]. destruct (session_window s) as [[a|] [b|]] eqn:Hw; [|done..].
  intros Hww%(inj Some); subst w. apply orb_true_iff in Ht as [Ht|Ht]; breflect;
    [exists "therapist_id"|exists "secondary_therapist_id"]; auto.
Qed.

Lemma session_mentions lo hi s t w :
  session_ok lo hi s → valid_id t → busy_window (uuid_str t) s = Some w →
  mentions (uuid_str t) s = true ∧ lo <= w.1 ∧ w.2 <= hi.
Proof.
  intros [Hm [t1 H1] [o H2] (a & b & Hab & Hlo & Hhi)] Ht (k & Hk & Hid & Hw)%busy_window_spec.
  rewrite Hab in Hw. simplify_eq. split; [|done].
  assert (jget s k = JStr (uuid_str t)) as Hj.
  { assert (∃ o, id_field o (jget s k)) as [o' Hf] by (destruct Hk as [-> | ->]; eauto).
    apply (id_field_str _ _ _ Hf Ht) in Hid as ->. apply Hf. }
  destruct s as [| | | | | |d]; try discriminate Hm. by apply (mentions_field _ _ k).
Qed.

(** A therapist who is busy is found before the sessions are looked at. *)
Lemma busy_involved b t w :
  slot_ok (slot_of b) → valid_id t → w ∈ busy b t →
  _therapist_involved [t] b = true ∧ b.(bk_appointment_start) <= w.1 ∧ w.2 <= b.(bk_schedule).(sc_appointment_end).
Proof.
  intros [H1 H2 _ Hm] Ht. unfold busy, therapist_busy_windows, _therapist_involved, columns_of. cbn in H1, H2, Hm. cbn -[mentions].
  rewrite orb_false_r. destruct (objects (sc_sessions (bk_schedule b))) eqn:Ho.
  - intros (s & Hs & Hw)%list_elem_of_omap. destruct (sc_sessions (bk_schedule b)) as [|first rest]; [done|].
    destruct Hm as (Hall & _). rewrite Forall_forall in Hall.
    destruct (session_mentions _ _ _ _ _ (Hall s Hs) Ht Hw) as [Hin Hspan]. split; [|done].
    apply orb_true_iff. right. by apply mentions_elem with s.
  - destruct (_ || _) eqn:Hb; [|by intros ?%elem_of_nil]. intros ->%list_elem_of_singleton. cbn. split; [|lia].
    rewrite !orb_true_iff. left. apply orb_true_iff in Hb as [Hb|Hb]; breflect.
    + left. apply Z.eqb_eq. by apply uuid_str_inj.
    + right. destruct (sc_secondary_therapist_id (bk_schedule b)) as [t2|] eqn:E2; [|done]. cbn in Hb.
      apply bool_decide_eq_true. f_equal. apply uuid_str_inj; [by apply H2|done|congruence].
Qed.

Lemma overlaps_spec b t start end_ :
  overlaps_per_session (columns_of 0 b) t start end_ = false → ∀ v, v ∈ busy b t → apart_windows (start, end_) v.
Proof.
  unfold overlaps_per_session. intros Hno v Hv. apply not_true_iff_false in Hno. rewrite existsb_exists in Hno.
  destruct (decide (apart_windows (start, end_) v)) as [?|Hd]; [done|]. exfalso. apply Hno. exists v.
  split; [by apply list_elem_of_In|]. unfold apart_windows in Hd. cbn in Hd. rewrite andb_true_iff, !Z.ltb_lt. lia.
Qed.

Lemma overlaps_id id b t start end_ : overlaps_per_session (columns_of id b) t start end_ = overlaps_per_session (columns_of 0 b) t start end_.
Proof. reflexivity. Qed.

(** A window the check passes is free of every other booking. *)
Lemma check_free s t start end_ ex :
  valid_id t → check_therapist_overlap t start end_ ex s = false →
  ∀ id b v, s.(bookings) !! id = Some b → slot_ok (slot_of b) → ex ≠ Some id → blocking b = true → v ∈ busy b t →
    apart_windows (start, end_) v.
Proof.
  intros Ht Hc id b v Hb Hok Hex Hbl Hv. unfold check_therapist_overlap in Hc. apply bool_decide_eq_false in Hc.
  destruct (find_therapist_overlap t start end_ ex s) eqn:Hf; [destruct Hc; eauto|]. clear Hc.
  pose proof (busy_involved b t v Hok Ht Hv) as (Hin & Hlo & Hhi).
  destruct (decide (apart_windows (start, end_) v)) as [?|Hd]; [done|]. exfalso.
  assert (In (id, b) (candidates [t] start end_ s)) as Hcand.
  { apply filter_In. split; [apply list_elem_of_In, elem_of_map_to_list; done|]. rewrite Hin, Hbl.
    unfold apart_windows in Hd. cbn in Hd. rewrite !andb_true_iff, !Z.ltb_lt. split_and!; [done|lia|lia|done]. }
  pose proof (List.find_none _ _ Hf _ Hcand) as Hno. cbv beta iota in Hno. rewrite overlaps_id in Hno.
  apply andb_false_iff in Hno as [Hno|Hno].
  - apply negb_false_iff, bool_decide_eq_true in Hno. done.
  - by apply Hd, (overlaps_spec b t).
Qed.

(** ** Writing a row *)

Lemma busy_slot b b' t : slot_of b = slot_of b' → busy b t = busy b' t.
Proof.
  unfold slot_of, busy, therapist_busy_windows, columns_of. intros [= _ H1 H2 H3 H4 H5 _]. cbn. by rewrite H1, H2, H3, H4, H5.
Qed.
Lemma blocking_slot b b' : slot_of b = slot_of b' → blocking b = blocking b'.
Proof. unfold slot_of, blocking. by intros [= -> _ _ _ _ _ _]. Qed.

(** The row of [id] may be replaced by one whose windows are free. *)
Lemma place s s' id b :
  schedule_ok s → slot_ok (slot_of b) →
  (blocking b = true → ∀ t w, valid_id t → w ∈ busy b t → free s id t w) →
  s'.(bookings) = <[id := b]> s.(bookings) → schedule_ok s'.
Proof.
  intros [Hdb Hrows] Hb Hfree E. split.
  - intros i j c d t w v. rewrite E. destruct (decide (i = id)) as [->|Hi], (decide (j = id)) as [->|Hj].
    + done.
    + rewrite lookup_insert_eq, lookup_insert_ne by done. intros [= <-] Hd _ Hbl Hdl Ht Hw Hv. by eapply Hfree.
    + rewrite lookup_insert_eq, lookup_insert_ne by done. intros Hc [= <-] _ Hcl Hbl Ht Hw Hv.
      assert (apart_windows v w) by (by eapply Hfree). unfold apart_windows in *. tauto.
    + rewrite !lookup_insert_ne by done. by apply Hdb.
  - intros i c. rewrite E. destruct (decide (i = id)) as [->|Hi].
    + rewrite lookup_insert_eq. by intros [= <-].
    + rewrite lookup_insert_ne by done. apply Hrows.
Qed.

(** What the row of [id] already occupies is free. *)
Lemma own_window_free s id b t w :
  schedule_ok s → s.(bookings) !! id = Some b → blocking b = true → valid_id t → w ∈ busy b t → free s id t w.
Proof. intros [Hdb _] Hb Hbl Ht Hw j c v Hc Hj Hcl Hv. by eapply (Hdb id j b c). Qed.

(** ** Operations that leave the slots alone *)

Definition slots_kept (s s' : Store) : Prop := ∀ id, slot_of <$> s.(bookings) !! id = slot_of <$> s'.(bookings) !! id.
#[export] Instance slots_kept_preorder : PreOrder slots_kept.
Proof. split; [by intros s id|]. intros s1 s2 s3 H1 H2 id. by rewrite H1, H2. Qed.

Lemma slots_kept_lookup s s' id b' :
  slots_kept s s' → s'.(bookings) !! id = Some b' → ∃ b, s.(bookings) !! id = Some b ∧ slot_of b = slot_of b'.
Proof.
  intros H Hb. specialize (H id). rewrite Hb in H. destruct (bookings s !! id) as [b|]; [|done]. cbn in H.
  exists b. split; congruence.
Qed.

Lemma schedule_ok_kept s s' : slots_kept s s' → schedule_ok s → schedule_ok s'.
Proof.
  intros H [Hdb Hrows]. split.
  - intros i j b' c' t w v Hb' Hc' Hij Hbl Hcl Ht Hw Hv.
    destruct (slots_kept_lookup _ _ _ _ H Hb') as (b & Hb & Eb), (slots_kept_lookup _ _ _ _ H Hc') as (c & Hc & Ec).
    rewrite <- (blocking_slot _ _ Eb) in Hbl. rewrite <- (blocking_slot _ _ Ec) in Hcl.
    rewrite <- (busy_slot _ _ t Eb) in Hw. rewrite <- (busy_slot _ _ t Ec) in Hv. by eapply (Hdb i j b c).
  - intros i b' Hb'. destruct (slots_kept_lookup _ _ _ _ H Hb') as (b & Hb & <-). by eapply Hrows.
Qed.
