(* ===== verification/BookingFrame.v ===== *)
(** * What the helpers of the booking service leave alone

    Refund requests, payment links, invoices, loyalty details, payment audits and
    events never touch the status, the payment status, the amount, the customer
    or the slot of a booking, the holds, or the history of statuses.
    [core_kept] states it for two databases; the lemmas give it for each
    helper. *)

From S2P Require Import Prelude Exceptions Effects StateMachines Money Numbers Store PyText Sessions RefundLifecycle RefundService LinkGateway LinkAdapters Settlement LinkService LinkFrame BookingEvents BookingRepo BookingService BookingChanges BookingUpdate BookingSlots.
Import Lifecycle BookingService.
#[local] Open Scope Z_scope.

(** The columns of a booking no helper writes. *)
Record Core := mk_core { co_slot : Slot; co_payment_status : string; co_total_amount : Z; co_customer_id : Z; co_booking_type : string }.
Definition core_of (b : Booking) : Core :=
  mk_core (slot_of b) b.(bk_payment_status) b.(bk_total_amount) b.(bk_customer_id) b.(bk_booking_type).

Record core_kept (s s' : Store) : Prop := mk_core_kept {
  ck_rows : ∀ id, core_of <$> s.(bookings) !! id = core_of <$> s'.(bookings) !! id;
  ck_holds : s'.(holds) = s.(holds);
  ck_history : s'.(booking_status_history) = s.(booking_status_history) }.
#[export] Instance core_kept_preorder : PreOrder core_kept.
Proof. split; [done|]. intros s1 s2 s3 [A1 A2 A3] [B1 B2 B3]. split; [|congruence..]. intros id. by rewrite A1, B1. Qed.

Lemma core_kept_slots s s' : core_kept s s' → slots_kept s s'.
Proof.
  intros [H _ _] id. specialize (H id). apply (f_equal (fmap co_slot)) in H. by rewrite <- !option_fmap_compose in H.
Qed.
Lemma core_kept_lookup s s' id b :
  core_kept s s' → s.(bookings) !! id = Some b → ∃ b', s'.(bookings) !! id = Some b' ∧ core_of b' = core_of b.
Proof.
  intros [H _ _] Hb. specialize (H id). rewrite Hb in H. destruct (bookings s' !! id) as [b'|]; [|done]. cbn in H.
  exists b'. split; congruence.
Qed.

#[export] Instance core_voucher_frame : VoucherFrame core_kept.
Proof. split; [apply _|by intros; split..]. Qed.

(** ** Rows *)

(** A row of a table the booking service does not own. *)
Definition own_tables (s : Store) := (s.(bookings), s.(holds), s.(booking_status_history)).
Lemma same_tables_kept s s' : own_tables s = own_tables s' → core_kept s s'.
Proof. intros [= E1 E2 E3]. split; [|done..]. intros id. by rewrite E1. Qed.
Lemma upd_booking_kept id f : (∀ b, core_of (f b) = core_of b) → changes core_kept (upd_booking id f).
Proof.
  intros Hf s. split; [|done..]. intros j. unfold upd_booking, modify. cbn. destruct (decide (j = id)) as [->|Hj].
  - rewrite lookup_alter_eq. destruct (bookings s !! id) as [b|]; cbn; [|done]. by rewrite Hf.
  - by rewrite lookup_alter_ne.
Qed.
Lemma upd_schedule_kept id f : (∀ b, core_of (b <| bk_schedule := f b.(bk_schedule) |>) = core_of b) → changes core_kept (upd_schedule id f).
Proof. intros Hf. by apply upd_booking_kept. Qed.
Lemma modify_kept f : (∀ s, own_tables (f s) = own_tables s) → changes core_kept (modify f).
Proof. intros Hf s. apply same_tables_kept. symmetry. apply Hf. Qed.

#[export] Hint Extern 2 (changes core_kept (upd_booking _ _)) => (apply upd_booking_kept; intros; reflexivity) : ush.
#[export] Hint Extern 2 (changes core_kept (upd_schedule _ _)) => (apply upd_schedule_kept; intros; reflexivity) : ush.
#[export] Hint Extern 3 (changes core_kept (modify _)) => (apply modify_kept; intros; reflexivity) : ush.
#[export] Hint Extern 3 (changes core_kept (upd_payment _ _)) => (apply modify_kept; intros; reflexivity) : ush.
#[export] Hint Extern 3 (changes core_kept (upd_refund _ _)) => (apply modify_kept; intros; reflexivity) : ush.
#[export] Hint Extern 3 (changes core_kept (upd_link _ _)) => (apply modify_kept; intros; reflexivity) : ush.
#[export] Hint Extern 3 (changes core_kept (add_history _)) => (apply modify_kept; intros; reflexivity) : ush.
#[export] Hint Extern 3 (changes core_kept (publish _)) => (apply modify_kept; intros; reflexivity) : ush.
#[export] Hint Extern 3 (changes core_kept (emit _ _)) => (apply modify_kept; intros; reflexivity) : ush.

(** ** Control *)

Lemma swallow_kept {A} (m : M Store A) : changes core_kept m → changes core_kept (swallow m).
Proof. intros Hm. unfold swallow. change_only. Qed.
Lemma for_each_kept {A} (l : list A) (f : A → M Store ()) : (∀ a, changes core_kept (f a)) → changes core_kept (for_each l f).
Proof. intros Hf. induction l as [|a l IH]; cbn [for_each]; change_only. Qed.
Ltac kept := repeat (first
  [ apply for_each_kept; intros | apply swallow_kept | change_step ]).

(** ** Steps that keep the slots *)

Lemma core_slots {A} (m : M Store A) : changes core_kept m → changes slots_kept m.
Proof. intros Hm s. apply core_kept_slots, Hm. Qed.
Lemma alter_slots s id f : (∀ b, slot_of (f b) = slot_of b) → slots_kept s (s <| bookings := alter f id s.(bookings) |>).
Proof.
  intros Hf j. cbn. destruct (decide (j = id)) as [->|Hj]; [|by rewrite lookup_alter_ne].
  rewrite lookup_alter_eq. destruct (bookings s !! id) as [b|]; cbn; [by rewrite Hf|done].
Qed.
Lemma upd_booking_slots id f : (∀ b, slot_of (f b) = slot_of b) → changes slots_kept (upd_booking id f).
Proof. intros Hf s. by apply alter_slots. Qed.
Lemma modify_slots f : (∀ s, (f s).(bookings) = s.(bookings)) → changes slots_kept (modify f).
Proof. intros Hf s id. unfold modify. cbn. by rewrite Hf. Qed.
Lemma record_slots id o n src why : changes slots_kept (_record_status_change id o n src why).
Proof. by apply modify_slots. Qed.
Lemma create_hold_slots h : changes slots_kept (create_hold h).
Proof. by apply modify_slots. Qed.
Lemma delete_hold_slots id : changes slots_kept (delete_hold id).
Proof. by apply modify_slots. Qed.
Lemma move_hold_slots id o t start : changes slots_kept (move_hold id o t start).
Proof. by apply modify_slots. Qed.
Lemma for_each_slots {A} (l : list A) (f : A → M Store ()) : (∀ a, changes slots_kept (f a)) → changes slots_kept (for_each l f).
Proof. intros Hf. induction l as [|a l IH]; cbn [for_each]; change_only. Qed.
#[export] Hint Resolve record_slots create_hold_slots delete_hold_slots move_hold_slots : ush.
#[export] Hint Extern 2 (changes slots_kept (upd_booking _ _)) => (apply upd_booking_slots; intros; reflexivity) : ush.
#[export] Hint Extern 2 (changes slots_kept (swallow _)) => (apply core_slots, swallow_kept) : ush.
#[export] Hint Extern 4 (changes slots_kept _) => (apply core_slots) : ush.
Ltac slots := repeat (first [ apply for_each_slots; intros | change_step ]).

Section refunds.

Lemma audit_kept p r src a d ref old : changes core_kept (audit p r src a d ref old).
Proof. unfold audit. kept. Qed.
Lemma check_cap_kept p x n : changes core_kept (check_cap p x n).
Proof. unfold check_cap. kept. Qed.
#[local] Hint Resolve audit_kept check_cap_kept : ush.
Lemma request_kept b p a f t m why notes key who d : changes core_kept (request b p a f t m why notes key who d).
Proof. unfold request. kept. Qed.
Lemma find_payment_kept b : changes core_kept (find_payment_for_booking b).
Proof. unfold find_payment_for_booking. kept. Qed.
End refunds.
#[export] Hint Resolve request_kept find_payment_kept : ush.

Section world.
Context `{BookingWorld}.

(** ** Flushes and gateways *)

Lemma flush_booking_kept id : changes core_kept (flush_booking id).
Proof. apply upd_booking_kept. intros b. reflexivity. Qed.
Lemma flush_payment_kept id : changes core_kept (flush_payment id).
Proof. apply modify_kept. reflexivity. Qed.
Lemma insert_payment_kept p : changes core_kept (insert_payment p).
Proof. unfold insert_payment. kept. Qed.
Lemma asking_kept {A} c (answer : list OutboundCall → result A) : changes core_kept (asking c answer).
Proof. unfold asking. kept. Qed.
Hint Resolve flush_booking_kept flush_payment_kept insert_payment_kept asking_kept : ush.
Lemma cancel_gateway_link_kept gw id : changes core_kept (cancel_gateway_link gw id).
Proof. unfold cancel_gateway_link, ask_gateway. kept. Qed.
Lemma create_gateway_link_kept gw id amount : changes core_kept (create_gateway_link gw id amount).
Proof. unfold create_gateway_link, MyFatoorah.create_link, Tap.create_link, ask_gateway. kept. Qed.
Lemma get_invoice_kept b : changes core_kept (get_invoice_by_source b).
Proof. apply asking_kept. Qed.
Hint Resolve cancel_gateway_link_kept create_gateway_link_kept get_invoice_kept : ush.

(** ** Payment links *)

Lemma cancel_at_gateway_kept gw l : changes core_kept (PaymentLinkService.cancel_at_gateway gw l).
Proof. unfold PaymentLinkService.cancel_at_gateway. kept. Qed.
Lemma delete_row_kept id : changes core_kept (PaymentLinkService.delete_row id).
Proof. apply modify_kept. reflexivity. Qed.
Hint Resolve cancel_at_gateway_kept delete_row_kept : ush.
Lemma cancel_and_delete_kept gw links : changes core_kept (PaymentLinkService.cancel_and_delete gw links).
Proof. induction links as [|[id l] links IH]; cbn [PaymentLinkService.cancel_and_delete]; kept. Qed.
Lemma note_cancelled_kept gw links id b : changes core_kept (PaymentLinkService.note_cancelled gw links id b).
Proof. unfold PaymentLinkService.note_cancelled. kept. Qed.
Hint Resolve cancel_and_delete_kept note_cancelled_kept : ush.
Lemma cancel_links_kept gw t id : changes core_kept (PaymentLinkService.cancel_and_delete_links_for_target gw t id).
Proof. unfold PaymentLinkService.cancel_and_delete_links_for_target. kept. Qed.
Lemma load_target_kept c id : changes core_kept (PaymentLinkService.load_target c id).
Proof. unfold PaymentLinkService.load_target, PaymentLinkService.load_booking, PaymentLinkService.load_voucher. kept. Qed.
Lemma resolve_amount_kept t a : changes core_kept (PaymentLinkService.resolve_amount t a).
Proof. unfold PaymentLinkService.resolve_amount, PaymentLinkService.cancelled_amount. kept. Qed.
Lemma settle_existing_kept gw e a f : changes core_kept (PaymentLinkService.settle_existing gw e a f).
Proof. unfold PaymentLinkService.settle_existing. kept. Qed.
Lemma resolve_invoice_kept t a b : changes core_kept (PaymentLinkService.resolve_invoice t a b).
Proof. unfold PaymentLinkService.resolve_invoice. kept. Qed.
Lemma attach_kept t id who : changes core_kept (PaymentLinkService.attach_link_to_target t id who).
Proof. unfold PaymentLinkService.attach_link_to_target. kept. Qed.
Lemma insert_link_kept l : changes core_kept (PaymentLinkService.insert_link l).
Proof. unfold PaymentLinkService.insert_link. kept. Qed.
Hint Resolve load_target_kept resolve_amount_kept settle_existing_kept resolve_invoice_kept attach_kept insert_link_kept : ush.
Lemma issue_link_kept m gw c canonical t a i n : changes core_kept (PaymentLinkService.issue_link m gw c canonical t a i n).
Proof. unfold PaymentLinkService.issue_link. kept. Qed.
Hint Resolve cancel_links_kept issue_link_kept : ush.
Lemma create_link_kept m gw c : changes core_kept (PaymentLinkService.create_link m gw c).
Proof. unfold PaymentLinkService.create_link. kept. Qed.
Hint Resolve create_link_kept : ush.

(** ** The booking service *)

Lemma loyalty_kept id : changes core_kept (_ensure_booking_loyalty_details id).
Proof. unfold _ensure_booking_loyalty_details. kept. Qed.
Lemma invoice_kept id : changes core_kept (_ensure_booking_invoice id).
Proof. unfold _ensure_booking_invoice, set_payment_invoices. kept. Qed.
Lemma event_data_kept id : changes core_kept (event_data id).
Proof. unfold event_data. kept. Qed.
Hint Resolve loyalty_kept invoice_kept event_data_kept : ush.
Lemma status_event_kept name id : changes core_kept (status_event name id).
Proof. unfold status_event. kept. Qed.
Hint Resolve status_event_kept : ush.
Lemma check_sessions_kept l ex : changes core_kept (check_sessions l ex).
Proof. unfold check_sessions. kept. Qed.
Lemma check_therapists_kept l a b ex : changes core_kept (check_therapists l a b ex).
Proof. unfold check_therapists. kept. Qed.
Lemma get_by_id_kept id : changes core_kept (get_by_id id).
Proof. unfold get_by_id. kept. Qed.
Lemma sync_payment_kept id st t src who d c pid : changes core_kept (sync_payment id st t src who d c pid).
Proof. unfold sync_payment. kept. Qed.
Hint Resolve sync_payment_kept : ush.
Lemma sync_status_kept id t src who d c : changes core_kept (_sync_booking_payment_status id t src who d c).
Proof. unfold _sync_booking_payment_status, link_candidates. kept. Qed.
Lemma cancellation_refund_kept id by_ why who d a f : changes core_kept (_ensure_cancellation_refund id by_ why who d a f).
Proof. unfold _ensure_cancellation_refund. kept. Qed.
Lemma drop_links_kept g id : changes core_kept (_cancel_booking_payment_links g id).
Proof. unfold _cancel_booking_payment_links. kept. Qed.
Lemma drop_cache_kept id : changes core_kept (drop_appointment_cache id).
Proof. unfold drop_appointment_cache, ask_cache. kept. Qed.
Lemma take_payment_data_kept id d : changes core_kept (take_payment_data id d).
Proof. unfold take_payment_data. kept. Qed.
Hint Resolve sync_status_kept cancellation_refund_kept drop_links_kept drop_cache_kept take_payment_data_kept : ush.

(** ** Updates *)

Lemma dispatch_kept id u o n p why : changes core_kept (BookingUpdates.dispatch_status_event id u o n p why).
Proof. unfold BookingUpdates.dispatch_status_event. kept. Qed.
Lemma recreate_link_kept g m id u a token : changes core_kept (BookingUpdates.recreate_link g m id u a token).
Proof. unfold BookingUpdates.recreate_link. kept. Qed.
Lemma sync_quietly_kept id u t : changes core_kept (BookingUpdates.sync_quietly id u t).
Proof. unfold BookingUpdates.sync_quietly. kept. Qed.
Lemma after_cancel_kept g id : changes core_kept (BookingUpdates.after_cancel g id).
Proof. unfold BookingUpdates.after_cancel, ask_cache. kept. Qed.
Lemma release_parked_kept id : changes core_kept (BookingUpdates.release_parked id).
Proof. unfold BookingUpdates.release_parked, ask_cache. kept. Qed.
Hint Resolve dispatch_kept : ush.
Lemma keep_status_kept id u b : changes core_kept (BookingUpdates.keep_status id u b).
Proof. unfold BookingUpdates.keep_status. kept. Qed.
End world.

#[export] Hint Resolve flush_booking_kept flush_payment_kept insert_payment_kept asking_kept loyalty_kept
  invoice_kept event_data_kept status_event_kept check_sessions_kept check_therapists_kept get_by_id_kept
  sync_status_kept cancellation_refund_kept drop_links_kept drop_cache_kept take_payment_data_kept dispatch_kept
  recreate_link_kept sync_quietly_kept after_cancel_kept release_parked_kept keep_status_kept : ush.
