(* ===== verification/BookingSpec.v ===== *)
(** * No therapist is booked twice

    The operations of the booking service keep [schedule_ok]: the rows mirror
    their sessions and no two bookings that occupy a therapist overlap.  The
    operations that do not keep it are shown by runs. *)

From S2P Require Import Prelude Exceptions Effects StateMachines Money Numbers Store PyText PyDate Sessions SessionPlanner SessionSpec RefundLifecycle RefundService LinkGateway Settlement LinkService LinkFrame BookingEvents BookingRepo BookingService BookingChanges BookingUpdate BookingSlots BookingFrame.
Import BookingService BookingUpdates.
#[local] Open Scope Z_scope.

(** ** What a row occupies *)

Lemma mirrors_objects start end_ t t2 sessions :
  mirrors start end_ t t2 sessions → sessions ≠ [] → objects sessions = true.
Proof.
  destruct sessions as [|first rest]; [done|]. intros (Hall & _) _. unfold objects. apply forallb_forall.
  intros s Hs%list_elem_of_In. rewrite Forall_forall in Hall. by apply (so_mapping _ _ _ (Hall s Hs)).
Qed.

Lemma busy_sessions b t :
  slot_ok (slot_of b) → b.(bk_schedule).(sc_sessions) ≠ [] →
  busy b t = omap (busy_window (uuid_str t)) b.(bk_schedule).(sc_sessions).
Proof. intros [_ _ _ Hm] Hne. unfold busy, therapist_busy_windows. cbn in Hm |- *. by rewrite (mirrors_objects _ _ _ _ _ Hm Hne). Qed.

Lemma busy_legacy b t w :
  slot_ok (slot_of b) → b.(bk_schedule).(sc_sessions) = [] → valid_id t → w ∈ busy b t →
  t ∈ b.(bk_schedule).(sc_therapist_id) :: option_list b.(bk_schedule).(sc_secondary_therapist_id) ∧
  w = (b.(bk_appointment_start), b.(bk_schedule).(sc_appointment_end)).
Proof.
  intros [H1 H2 _ _] Hnil Ht. unfold busy, therapist_busy_windows. cbn in H1, H2 |- *. rewrite Hnil. cbn [objects].
  destruct (_ || _) eqn:Hb; [|by intros ?%elem_of_nil]. intros ->%list_elem_of_singleton. split; [|done].
  apply orb_true_iff in Hb as [Hb|Hb]; breflect.
  - rewrite (uuid_str_inj _ _ Ht H1 Hb). apply list_elem_of_here.
  - destruct (sc_secondary_therapist_id (bk_schedule b)) as [t2|] eqn:E2; [|done]. cbn in Hb.
    rewrite (uuid_str_inj t t2); [|done|by apply H2|congruence]. apply list_elem_of_further, list_elem_of_singleton. done.
Qed.

(** ** What the checks establish *)

Lemma wp_check_therapists l start end_ ex s (Q : result () → Store → Prop) :
  (∀ e, Q (Raise e) s) → ((∀ t, t ∈ l → check_therapist_overlap t start end_ ex s = false) → Q (Ok ()) s) →
  wp (check_therapists l start end_ ex) s Q.
Proof.
  intros Hr. unfold check_therapists. induction l as [|t l IH]; cbn [for_each]; intros Hok.
  - apply wp_ret, Hok. by intros t ?%elem_of_nil.
  - apply wp_bind, wp_bind, wp_gets, wp_raise_if; [done|]. intros Ht. apply IH. intros Hl. apply Hok. intros t' [->|Ht']%elem_of_cons; auto.
Qed.

(** Every therapist of the session is free of other bookings. *)
Definition session_checked (s : Store) (ex : option Z) (sess : json) : Prop :=
  ∀ j tid, j ∈ session_therapists sess → uuid_of_json j = Ok tid → session_taken sess tid ex s = false.

Lemma wp_check_session l sess ex s (Q : result () → Store → Prop) :
  (∀ e, Q (Raise e) s) →
  ((∀ j tid, j ∈ l → uuid_of_json j = Ok tid → session_taken sess tid ex s = false) → Q (Ok ()) s) →
  wp (for_each l (λ t, tid ← lift (uuid_of_json t); taken ← gets (session_taken sess tid ex); raise_if taken ALREADY_BOOKED)) s Q.
Proof.
  intros Hr. induction l as [|j l IH]; cbn [for_each]; intros Hok.
  - apply wp_ret, Hok. by intros j tid ?%elem_of_nil.
  - apply wp_bind, wp_bind, wp_lift. destruct (uuid_of_json j) as [tid|e] eqn:Ej; [|done].
    apply wp_bind, wp_gets, wp_raise_if; [done|]. intros Ht. apply IH. intros Hl. apply Hok.
    intros j' tid' [->|Hj]%elem_of_cons Hj'; [congruence|eauto].
Qed.

Lemma wp_check_sessions l ex s (Q : result () → Store → Prop) :
  (∀ e, Q (Raise e) s) → (Forall (session_checked s ex) l → Q (Ok ()) s) → wp (check_sessions l ex) s Q.
Proof.
  intros Hr. unfold check_sessions. induction l as [|sess l IH]; cbn [for_each]; intros Hok.
  - by apply wp_ret, Hok.
  - apply wp_bind, wp_check_session; [done|]. intros Hs. apply IH. auto.
Qed.

(** What the check finds free in [s1] is free of the other bookings of [s]. *)
Definition checks_free (s1 s : Store) (ex : option Z) (id : Z) : Prop :=
  ∀ t a z, valid_id t → check_therapist_overlap t a z ex s1 = false → free s id t (a, z).
Lemma checks_free_here s ex id : rows_ok s → (ex = None ∨ ex = Some id) → checks_free s s ex id.
Proof.
  intros Hrows Hex t a z Ht Hc j c v Hcj Hj Hbl Hv.
  apply (check_free s t a z ex Ht Hc j c v Hcj (Hrows _ _ Hcj)); [|done..]. destruct Hex as [-> | ->]; congruence.
Qed.

(** A window a session check passed is free. *)
Lemma session_free s1 s ex id lo hi sess t w :
  checks_free s1 s ex id → session_ok lo hi sess → session_checked s1 ex sess → valid_id t →
  busy_window (uuid_str t) sess = Some w → free s id t w.
Proof.
  intros Hcf Hok Hc Ht (k & Hk & Hid & Hw)%busy_window_spec.
  assert (jget sess k = JStr (uuid_str t)) as Hjk.
  { assert (∃ o, id_field o (jget sess k)) as [o Hf].
    { destruct Hok as [_ [t1 H1] [o2 H2] _]. destruct Hk as [-> | ->]; eauto. }
    apply (id_field_str _ _ _ Hf Ht) in Hid as ->. apply Hf. }
  assert (jtruthy (Some (JStr (uuid_str t))) = true) as Htr.
  { cbn. apply truthy_spec. intros E. apply (f_equal uuid_of_string) in E. by rewrite uuid_roundtrip in E. }
  assert (session_taken sess t ex s1 = false) as Hfree.
  { apply (Hc (JStr (uuid_str t))).
    - apply list_elem_of_In, filter_In. split; [|done]. rewrite <- Hjk. destruct Hk as [-> | ->]; cbn; auto.
    - unfold uuid_of_json. cbn [json_str]. by rewrite uuid_roundtrip. }
  unfold session_taken in Hfree. rewrite Hw in Hfree. destruct w as [a z]. by apply Hcf.
Qed.

(** The row of [id] after a write whose windows were checked. *)
Definition row_checked (s : Store) (ex : option Z) (l : Slot) : Prop :=
  match l.(sl_sessions) with
  | [] => ∀ t, t ∈ l.(sl_therapist) :: option_list l.(sl_secondary) →
            check_therapist_overlap t l.(sl_start) l.(sl_end) ex s = false
  | sessions => Forall (session_checked s ex) sessions
  end.

Lemma checked_free s1 s ex id b t w :
  checks_free s1 s ex id → slot_ok (slot_of b) → row_checked s1 ex (slot_of b) → valid_id t → w ∈ busy b t → free s id t w.
Proof.
  intros Hcf Hok Hc Ht Hw. unfold row_checked in Hc. cbn in Hc.
  destruct (sc_sessions (bk_schedule b)) as [|first rest] eqn:Es.
  - destruct (busy_legacy b t w Hok Es Ht Hw) as [Hin ->]. by apply Hcf; [|apply Hc].
  - rewrite (busy_sessions b t Hok) in Hw by by rewrite Es. rewrite Es in Hw.
    apply list_elem_of_omap in Hw as (sess & Hs & Hw). destruct Hok as [_ _ _ Hm]. cbn in Hm. rewrite Es in Hm.
    destruct Hm as (Hall & _). rewrite Forall_forall in Hall, Hc. by eapply session_free; eauto.
Qed.

Lemma place_checked s s' ex id b :
  schedule_ok s → slot_ok (slot_of b) → (ex = None ∨ ex = Some id) → row_checked s ex (slot_of b) →
  s'.(bookings) = <[id := b]> s.(bookings) → schedule_ok s'.
Proof. intros Hs Hb Hex Hc E. eapply place; [done..| |done]. intros _ t w Ht Hw. eapply checked_free; [by apply checks_free_here; [apply Hs|]|done..]. Qed.

(** Steps that leave the slots alone. *)
Lemma wp_kept {A} (m : M Store A) s (Q : result A → Store → Prop) :
  changes slots_kept m → schedule_ok s → (∀ r s', schedule_ok s' → Q r s') → wp m s Q.
Proof. intros Hm Hs HQ. apply HQ. eapply schedule_ok_kept; [apply Hm|done]. Qed.

(** A row rewritten so that its windows are free. *)
Lemma wp_place id f b s (Q : result () → Store → Prop) :
  schedule_ok s → s.(bookings) !! id = Some b → slot_ok (slot_of (f b)) →
  (blocking (f b) = true → ∀ t w, valid_id t → w ∈ busy (f b) t → free s id t w) →
  (∀ s', schedule_ok s' → s'.(bookings) = <[id := f b]> s.(bookings) → Q (Ok ()) s') → wp (upd_booking id f) s Q.
Proof.
  intros Hs Hb Hok Hfree HQ. apply HQ; [|cbn; by apply alter_lookup].
  eapply (place s _ id (f b)); [done..|cbn; by apply alter_lookup].
Qed.

(** A new status that occupies no more than the old one. *)
Definition with_status (st : string) (l : Slot) : Slot :=
  mk_slot st l.(sl_start) l.(sl_end) l.(sl_sessions) l.(sl_therapist) l.(sl_secondary) l.(sl_extra_minutes).
Lemma wp_restatus id f s (Q : result () → Store → Prop) :
  schedule_ok s → (∀ b, slot_of (f b) = with_status (f b).(bk_status) (slot_of b)) →
  (∀ b, ∃ st : Booking.BookingStatus, (f b).(bk_status) = value st) →
  (∀ b, s.(bookings) !! id = Some b → blocking (f b) = true → blocking b = true) →
  (∀ s', schedule_ok s' → Q (Ok ()) s') → wp (upd_booking id f) s Q.
Proof.
  intros Hs Hf Hst Hbl HQ. apply HQ. destruct (bookings s !! id) as [b|] eqn:Hb.
  2:{ eapply schedule_ok_kept; [|exact Hs]. intros j. cbn. by rewrite alter_id by congruence. }
  eapply (place s _ id (f b)); [done| | |cbn; by apply alter_lookup].
  - destruct (proj2 Hs _ _ Hb) as [O1 O2 _ O4]. rewrite Hf. split; [exact O1|exact O2|apply Hst|exact O4].
  - intros Hfb t w Ht Hw. eapply own_window_free; eauto.
    unfold busy, therapist_busy_windows, columns_of in *. specialize (Hf b). unfold slot_of, with_status in Hf.
    injection Hf as H1 H2 H3 H4 H5 _. cbn in *. by rewrite H1, H2, H3, H4, H5 in Hw.
Qed.

Ltac kept_step :=
  first [ done | wp_step
        | match goal with |- match ?r with Ok _ => _ | Raise _ => _ end => let E := fresh "E" in destruct r eqn:E end
        | eapply wp_kept; [solve [slots]|eassumption|let r := fresh "r" in let s := fresh "s" in intros r s ?; destruct r] ].
Ltac kept_steps := repeat kept_step.

Section spec.
Context `{BookingWorld}.
Context (TEMPORARY_HOLD_MINUTES PAYMENT_LINK_EXPIRY_MINUTES : Z) (PAYMENT_LINK_DEFAULT_GATEWAY : string).

(** ** Creating *)

(** The request names keys and a status, and its columns mirror its sessions. *)
Definition request_ok (c : CreateBooking) : Prop :=
  valid_id c.(cb_therapist_id) ∧ (∀ t2, c.(cb_secondary_therapist_id) = Some t2 → valid_id t2) ∧
  (∃ st : Booking.BookingStatus, c.(cb_status) = value st) ∧
  mirrors c.(cb_appointment_start) c.(cb_appointment_end) c.(cb_therapist_id) c.(cb_secondary_therapist_id) c.(cb_sessions).

Lemma hold_session_slots id sess : changes slots_kept (hold_session TEMPORARY_HOLD_MINUTES id sess).
Proof. unfold hold_session. slots. Qed.
Hint Resolve hold_session_slots : ush.
Lemma create_holds_slots c id pf : changes slots_kept (create_holds TEMPORARY_HOLD_MINUTES c id pf).
Proof. unfold create_holds. slots. Qed.
Lemma announce_kept c l id : changes core_kept (announce_created c l id).
Proof. unfold announce_created, confirmed_event. kept. Qed.
Hint Resolve create_holds_slots announce_kept : ush.

Lemma wp_create_booking c s :
  schedule_ok s → request_ok c → wp (create_booking TEMPORARY_HOLD_MINUTES c) s (λ _ s', schedule_ok s').
Proof.
  intros Hs Hc. unfold create_booking.
  store_step. apply wp_lift. destruct (requested_services c) as [services|e]; [|done].
  store_step. apply wp_lift. destruct (primary_fields services) as [pf|e]; [|done].
  store_step. apply wp_gets. destruct (if truthy_opt _ then _ else _) as [old|]; [done|].
  apply wp_bind, wp_raise_if; [done|]. intros Hne%bool_decide_eq_false. apply wp_bind.
  assert (∀ (Q : result () → Store → Prop), (∀ e, Q (Raise e) s) →
    ((∀ number now_ svc sid, row_checked s None (slot_of (attribute_booking (new_booking c svc pf sid number now_)))) → Q (Ok ()) s) →
    wp (match cb_sessions c with [] => check_therapists (cb_therapist_id c :: option_list (cb_secondary_therapist_id c))
          (cb_appointment_start c) (cb_appointment_end c) None | l => check_sessions l None end) s Q) as Hcheck.
  { intros Q Hr Hok. unfold row_checked in Hok. cbn in Hok. destruct (cb_sessions c) as [|s0 l].
    - apply wp_check_therapists; [done|]. intros Hl. apply Hok. intros _ _ _ _. exact Hl.
    - apply wp_check_sessions; [done|]. intros Hl. apply Hok. intros _ _ _ _. exact Hl. }
  apply Hcheck; [done|]. clear Hcheck. intros Hck. store_steps; try done.
  unfold insert_booking. store_steps; try done.
  assert (schedule_ok (s <| bookings := <[new_id (bookings s) := attribute_booking
    (new_booking c services pf a (booking_number_for (cb_appointment_start c) s) (now s))]> (bookings s) |>)) as Hs'.
  { eapply (place_checked s _ None); [done| | | |reflexivity]; [|by left|apply Hck].
    destruct Hc as (H1' & H2' & H3' & H4'). split; [done| |done..]. intros t2 Ht2. split; [by apply H2'|].
    intros ->. by apply Hne. }
  kept_steps.
Qed.

(** C3: Creating a booking never books a therapist twice: whatever the request
    and however the call ends, in the resulting database no therapist is in two
    bookings at once and every row mirrors its sessions, provided this was so
    before and the request's columns mirror its sessions. *)
Theorem create_booking_no_double_booking c s :
  schedule_ok s → request_ok c → schedule_ok (create_booking TEMPORARY_HOLD_MINUTES c s).2.
Proof. intros Hs Hc. by apply wp_create_booking. Qed.

(** ** Confirming, cancelling, asking for another time *)

Lemma blocking_of st b : (of_value b.(bk_status) : result Booking.BookingStatus) = Ok st → st ∉ [Booking.CANCELLED; Booking.NO_SHOW; Booking.REFUNDED; Booking.PAYMENT_FAILED; Booking.PARKED] → blocking b = true.
Proof.
  intros Hst%of_value_ok Hn. unfold blocking. rewrite <- Hst. apply negb_true_iff. destruct st; try reflexivity; exfalso; apply Hn; set_solver.
Qed.

Lemma wp_booking_by_id id s (Q : result Booking → Store → Prop) :
  (∀ b, s.(bookings) !! id = Some b → Q (Ok b) s) → (∀ e, Q (Raise e) s) → wp (get_by_id id) s Q.
Proof. intros H1 H2. unfold get_by_id. store_steps; auto. Qed.

Lemma confirm_keeps_schedule id pid d src s :
  schedule_ok s → (∀ b, s.(bookings) !! id = Some b → b.(bk_status) ≠ "parked") → schedule_ok (confirm_booking id pid d src s).2.
Proof.
  intros Hs Hp. change (wp (confirm_booking id pid d src) s (λ _ s', schedule_ok s')).
  unfold confirm_booking. apply wp_bind, wp_booking_by_id; [intros b Hb|done]. kept_steps.
  apply wp_restatus; [done|reflexivity|by eexists| |intros s1 Hs1]; [|kept_steps].
  intros b' Hb' _. simplify_eq. eapply blocking_of; [done|]. intros Hin.
  repeat (apply elem_of_cons in Hin as [->|Hin]; [first [discriminate|by apply of_value_ok in E; destruct (Hp _ Hb)]|]).
  by apply elem_of_nil in Hin.
Qed.

Lemma cancel_keeps_schedule id why by_ who d a f corr s :
  schedule_ok s → schedule_ok (cancel_booking PAYMENT_LINK_DEFAULT_GATEWAY id why by_ who d a f corr s).2.
Proof.
  intros Hs. change (wp (cancel_booking PAYMENT_LINK_DEFAULT_GATEWAY id why by_ who d a f corr) s (λ _ s', schedule_ok s')).
  unfold cancel_booking. apply wp_bind, wp_booking_by_id; [intros b Hb|done]. kept_steps.
  apply wp_restatus; [done|reflexivity|by eexists|done|intros s1 Hs1]. kept_steps.
Qed.
Lemma reschedule_keeps_schedule id start end_ customer src s :
  schedule_ok s → schedule_ok (request_reschedule id start end_ customer src s).2.
Proof.
  intros Hs. change (wp (request_reschedule id start end_ customer src) s (λ _ s', schedule_ok s')).
  unfold request_reschedule. apply wp_bind, wp_booking_by_id; [intros b Hb|done]. kept_steps.
  apply wp_restatus; [done|reflexivity|by eexists| |intros s1 Hs1]; [|kept_steps].
  intros b' Hb' _. simplify_eq. eapply blocking_of; [done|]. intros Hin.
  repeat (apply elem_of_cons in Hin as [->|Hin]; [discriminate|]). by apply elem_of_nil in Hin.
Qed.
End spec.
