(* ===== verification/SessionChange.v ===== *)
(** * Changing the therapist of one session

    [change_session_therapist] checks only the therapists it brings in, and only
    for the window of the session; that is enough. *)

From S2P Require Import Prelude Exceptions Effects StateMachines Money Numbers Store PyText PyDate Sessions SessionPlanner SessionSpec RefundLifecycle RefundService LinkGateway Settlement LinkService LinkFrame BookingEvents BookingRepo BookingService BookingChanges BookingSlots BookingFrame BookingSpec.
Import BookingService.
#[local] Open Scope Z_scope.

(** The times of a row without stored sessions are written and read back. *)
Definition times_ok (b : Booking) : Prop := times_in_range (columns_of 0 b).

Lemma legacy_session_ok id b :
  slot_ok (slot_of b) → times_ok b → b.(bk_schedule).(sc_sessions) = [] →
  mirrors b.(bk_appointment_start) b.(bk_schedule).(sc_appointment_end) b.(bk_schedule).(sc_therapist_id)
    b.(bk_schedule).(sc_secondary_therapist_id) [session_from_booking (columns_of id b)].
Proof.
  intros [H1 H2 _ _] Ht _. cbn in H1, H2. pose proof (session_from_booking_window (columns_of id b) Ht) as Hw. cbn in Hw.
  assert (id_field (sc_secondary_therapist_id (bk_schedule b))
            (jget (session_from_booking (columns_of id b)) "secondary_therapist_id")) as Hsec.
  { change (jget _ _) with (uuid_json (sc_secondary_therapist_id (bk_schedule b))).
    destruct (sc_secondary_therapist_id (bk_schedule b)) as [t2|]; [split; [by apply H2|done]|done]. }
  split_and!; [|by split|done|done]. apply Forall_singleton. split; [done|by eexists; split|by eexists|].
  eexists _, _. split; [exact Hw|lia].
Qed.

(** The sessions of a row, stored or made up. *)
Lemma own_mirrors id b :
  slot_ok (slot_of b) → times_ok b →
  mirrors b.(bk_appointment_start) b.(bk_schedule).(sc_appointment_end) b.(bk_schedule).(sc_therapist_id)
    b.(bk_schedule).(sc_secondary_therapist_id) (get_booking_sessions (columns_of id b)).
Proof.
  intros Hok Ht. unfold get_booking_sessions. cbn [bc_sessions columns_of].
  destruct (sc_sessions (bk_schedule b)) as [|first rest] eqn:Es.
  - by apply legacy_session_ok.
  - destruct Hok as [_ _ _ Hm]. cbn in Hm. rewrite Es in Hm. rewrite (mirrors_objects _ _ _ _ _ Hm) by done. exact Hm.
Qed.

Lemma own_session_ok id b sess :
  slot_ok (slot_of b) → times_ok b → sess ∈ get_booking_sessions (columns_of id b) →
  session_ok b.(bk_appointment_start) b.(bk_schedule).(sc_appointment_end) sess.
Proof.
  intros Hok Hti Hin. pose proof (own_mirrors id b Hok Hti) as Hm. destruct (get_booking_sessions _) as [|s0 l]; [by apply elem_of_nil in Hin|].
  destruct Hm as (Hall & _). rewrite Forall_forall in Hall. by apply Hall.
Qed.

Lemma own_busy id b sess t w :
  slot_ok (slot_of b) → times_ok b → valid_id t → sess ∈ get_booking_sessions (columns_of id b) →
  busy_window (uuid_str t) sess = Some w → w ∈ busy b t.
Proof.
  intros Hok Hti Ht. unfold get_booking_sessions. cbn [bc_sessions columns_of].
  destruct (sc_sessions (bk_schedule b)) as [|first rest] eqn:Es.
  - cbn [objects]. intros ->%list_elem_of_singleton (k & Hk & Hid & Hw)%busy_window_spec.
    rewrite session_from_booking_window in Hw by exact Hti. cbn in Hw. unfold busy, therapist_busy_windows. cbn. rewrite Es.
    cbn [objects]. assert (w = (bk_appointment_start b, sc_appointment_end (bk_schedule b))) as -> by (destruct w; cbn in Hw; congruence).
    destruct (legacy_session_ok id b Hok Hti Es) as (_ & H1 & H2 & _).
    replace (_ || _) with true; [by apply list_elem_of_singleton|]. symmetry. apply orb_true_iff.
    destruct Hk as [-> | ->].
    + left. apply (id_field_str _ _ _ H1 Ht) in Hid. apply bool_decide_eq_true. congruence.
    + right. apply (id_field_str _ _ _ H2 Ht) in Hid as ->. by apply bool_decide_eq_true.
  - pose proof (ok_mirrors _ Hok) as Hm. cbn in Hm. rewrite Es in Hm. rewrite (mirrors_objects _ _ _ _ _ Hm) by done.
    intros Hs Hw. rewrite busy_sessions, Es; [|done|by rewrite Es]. apply list_elem_of_omap. eauto.
Qed.

(** ** Replacing one session *)

Lemma replace_first_elem {A} (p : A → bool) f l x y :
  List.find p l = Some x → y ∈ replace_first p f l → y ∈ l ∨ y = f x.
Proof.
  induction l as [|z l IH]; [done|]. cbn. destruct (p z).
  - intros [= ->] [->|Hy]%elem_of_cons; [by right|left; by apply list_elem_of_further].
  - intros Hf [->|Hy]%elem_of_cons; [left; apply list_elem_of_here|].
    destruct (IH Hf Hy) as [?|?]; [left; by apply list_elem_of_further|by right].
Qed.

Lemma with_key_ids_window s k v :
  String.eqb k "appointment_start" = false → String.eqb k "appointment_end" = false →
  session_window (with_key s k v) = session_window s.
Proof. intros H1 H2. unfold session_window. by rewrite !jget_with_other. Qed.

Lemma uuid_of_json_str z : valid_id z → uuid_of_json (JStr (uuid_str z)) = Ok z.
Proof. intros Hz. unfold uuid_of_json. cbn [json_str]. by rewrite uuid_roundtrip. Qed.
Lemma uuid_truthy z : valid_id z → jtruthy (Some (JStr (uuid_str z))) = true.
Proof. intros Hz. cbn. apply truthy_spec. intros E. apply (f_equal uuid_of_string) in E. by rewrite uuid_roundtrip in E. Qed.

Lemma json_str_field o j t : id_field o j → valid_id t → json_str j = uuid_str t → o = Some t.
Proof.
  intros Hf Ht. destruct o as [z|]; cbn in Hf.
  - destruct Hf as [Hz ->]. cbn [json_str]. intros E. f_equal. by apply uuid_str_inj.
  - subst j. intros E. apply (f_equal uuid_of_string) in E. by rewrite uuid_roundtrip in E.
Qed.
Lemma busy_window_intro t s k w :
  k = "therapist_id" ∨ k = "secondary_therapist_id" → to_str_id (jget s k) = Some (uuid_str t) →
  session_window s = (Some w.1, Some w.2) → busy_window (uuid_str t) s = Some w.
Proof.
  intros Hk Hid Hw. unfold busy_window. replace (_ || _) with true; [rewrite Hw; by destruct w|].
  symmetry. apply orb_true_iff. destruct Hk as [-> | ->]; [left|right]; by apply bool_decide_eq_true.
Qed.

Section reassigned.
Context (c : ChangeTherapist).
Context (target : json).
Let new_primary := match c.(ct_therapist_id) with Some t => JStr (uuid_str t) | None => jget target "therapist_id" end.
Let new_secondary :=
  if c.(ct_secondary_provided) then id_json c.(ct_secondary_therapist_id) else jget target "secondary_therapist_id".

Lemma reassigned_window : session_window (reassigned c new_secondary target) = session_window target.
Proof.
  unfold reassigned. destruct (ct_secondary_provided c), (ct_therapist_id c);
    by repeat rewrite with_key_ids_window by reflexivity.
Qed.
Lemma reassigned_primary : jget (reassigned c new_secondary target) "therapist_id" = new_primary.
Proof.
  unfold reassigned, new_primary. destruct (ct_secondary_provided c), (ct_therapist_id c);
    by repeat rewrite jget_with_key; cbn [String.eqb Ascii.eqb Bool.eqb].
Qed.
Lemma reassigned_secondary : jget (reassigned c new_secondary target) "secondary_therapist_id" = new_secondary.
Proof.
  unfold reassigned, new_secondary. destruct (ct_secondary_provided c), (ct_therapist_id c);
    by repeat rewrite jget_with_key; cbn [String.eqb Ascii.eqb Bool.eqb].
Qed.

Lemma reassigned_ok lo hi :
  (∀ t, c.(ct_therapist_id) = Some t → valid_id t) → (∀ t, c.(ct_secondary_therapist_id) = Some t → valid_id t) →
  session_ok lo hi target → session_ok lo hi (reassigned c new_secondary target).
Proof.
  intros Hc1 Hc2 [Hm [t1 H1] [o H2] Hw]. split.
  - unfold reassigned. destruct (ct_secondary_provided c), (ct_therapist_id c); done.
  - rewrite reassigned_primary. unfold new_primary. destruct (ct_therapist_id c) as [t|] eqn:E; [|eauto].
    exists t. split; [by apply Hc1|done].
  - rewrite reassigned_secondary. unfold new_secondary. destruct (ct_secondary_provided c); [|eauto].
    exists (ct_secondary_therapist_id c). unfold id_json. destruct (ct_secondary_therapist_id c) as [t|] eqn:E; [|done].
    split; [by apply Hc2|done].
  - by rewrite reassigned_window.
Qed.

(** Who serves the changed session served it before, or is new to it. *)
Lemma reassigned_busy lo hi t w :
  (∀ t, c.(ct_therapist_id) = Some t → valid_id t) → (∀ t, c.(ct_secondary_therapist_id) = Some t → valid_id t) →
  session_ok lo hi target → valid_id t →
  busy_window (uuid_str t) (reassigned c new_secondary target) = Some w →
  busy_window (uuid_str t) target = Some w ∨
  (JStr (uuid_str t) ∈ List.filter (λ j, jtruthy (Some j)) [new_primary; new_secondary] ∧
  (uuid_str t ∉ [json_str (jget target "therapist_id"); json_str (jget target "secondary_therapist_id")]) ∧
  session_window target = (Some w.1, Some w.2)).
Proof.
  intros Hc1 Hc2 Hok Ht (k & Hk & Hid & Hw)%busy_window_spec. rewrite reassigned_window in Hw.
  destruct (reassigned_ok lo hi Hc1 Hc2 Hok) as [_ [t1 F1] [o F2] _]. destruct Hok as [_ [t1' G1] [o' G2] _].
  destruct (decide (uuid_str t ∈ [json_str (jget target "therapist_id"); json_str (jget target "secondary_therapist_id")]))
    as [Hold|Hnew].
  - left. apply elem_of_cons in Hold as [Hold|Hold%list_elem_of_singleton].
    + eapply busy_window_intro; [by left| |done]. apply (id_field_str _ _ _ G1 Ht), (json_str_field _ _ _ G1 Ht). done.
    + eapply busy_window_intro; [by right| |done]. apply (id_field_str _ _ _ G2 Ht), (json_str_field _ _ _ G2 Ht). done.
  - right. split_and!; [|done..]. apply list_elem_of_In, filter_In. split; [|by apply uuid_truthy].
    destruct Hk as [-> | ->].
    + apply (id_field_str _ _ _ F1 Ht) in Hid. simplify_eq. left. rewrite <- reassigned_primary. apply F1.
    + apply (id_field_str _ _ _ F2 Ht) in Hid as ->. right; left. rewrite <- reassigned_secondary. apply F2.
Qed.
End reassigned.

Lemma mirror_therapists_spec first rest c c' t o :
  id_field (Some t) (jget first "therapist_id") → id_field o (jget first "secondary_therapist_id") →
  mirror_therapists (first :: rest) c = Ok c' →
  c'.(sc_therapist_id) = t ∧ c'.(sc_secondary_therapist_id) = o ∧ c'.(sc_sessions) = c.(sc_sessions) ∧
  c'.(sc_appointment_end) = c.(sc_appointment_end).
Proof.
  intros [Ht H1] H2. unfold mirror_therapists, legacy_mirror. cbn [head default m_therapist_id m_secondary_therapist_id]. unfold id.
  rewrite H1, uuid_of_json_str by done. destruct o as [t2|]; cbn in H2.
  - destruct H2 as [Ht2 ->]. rewrite uuid_of_json_str, uuid_truthy by done. cbn -[uuid_str]. by intros <-%(inj Ok).
  - rewrite H2. cbn -[uuid_str]. by intros <-%(inj Ok).
Qed.

(** The sessions after the change still mirror the columns they give. *)
Lemma replaced_mirrors f p start end_ t o sessions target :
  mirrors start end_ t o sessions → List.find p sessions = Some target →
  (∀ lo hi, session_ok lo hi target → session_ok lo hi (f target)) → session_window (f target) = session_window target →
  ∃ first rest t' o', replace_first p f sessions = first :: rest ∧
    id_field (Some t') (jget first "therapist_id") ∧ id_field o' (jget first "secondary_therapist_id") ∧
    mirrors start end_ t' o' (replace_first p f sessions) ∧ (first = f target ∨ (t' = t ∧ o' = o)).
Proof.
  destruct sessions as [|s0 l]; [done|]. intros (Hall & H1 & H2 & H3) Hf Hok Hw.
  assert (Forall (session_ok start end_) (replace_first p f (s0 :: l))) as Hall'.
  { rewrite Forall_forall in Hall |- *. intros s [Hs| ->]%(replace_first_elem _ _ _ _ _ Hf); [by apply Hall|].
    apply Hok, Hall. apply List.find_some in Hf as [Hin _]. by apply list_elem_of_In. }
  cbn [replace_first] in Hall' |- *. cbn [List.find] in Hf. destruct (p s0).
  - injection Hf as ->. pose proof (Forall_inv Hall') as [_ [t' Ht'] [o' Ho'] _].
    exists (f target), l, t', o'. split_and!; [done..| |by left]. split_and!; [done..|]. intros Hl. rewrite Hw. by apply H3.
  - exists s0, (replace_first p f l), t, o. split_and!; [done..| |by right]. split_and!; [done..|].
    intros Hl. destruct l as [|s1 l]; [done|]. cbn in Hl. by destruct (p s1).
Qed.

(** ** The checks *)

Lemma wp_check_new l (known : list string) target id s (Q : result () → Store → Prop) :
  (∀ e, Q (Raise e) s) →
  ((∀ j tid, j ∈ l → json_str j ∉ known → uuid_of_json j = Ok tid → session_taken target tid (Some id) s = false) → Q (Ok ()) s) →
  wp (for_each l (λ t, if json_str t in? known then mret ()
                       else tid ← lift (uuid_of_json t); taken ← gets (session_taken target tid (Some id)); raise_if taken ALREADY_BOOKED)) s Q.
Proof.
  intros Hr. induction l as [|j l IH]; cbn [for_each]; intros Hok.
  - apply wp_ret, Hok. by intros j tid ?%elem_of_nil.
  - apply wp_bind. destruct (json_str j in? known) eqn:Ek.
    + apply wp_ret, IH. intros Hl. apply Hok. intros j' tid [->|Hj]%elem_of_cons Hk; [|eauto].
      destruct Hk. by apply bool_decide_eq_true in Ek.
    + apply wp_bind, wp_lift. destruct (uuid_of_json j) as [tid|e] eqn:Ej; [|done].
      apply wp_bind, wp_gets, wp_raise_if; [done|]. intros Ht. apply IH. intros Hl. apply Hok.
      intros j' tid' [->|Hj]%elem_of_cons Hk Hj'; [congruence|eauto].
Qed.

Section change.
Context `{BookingWorld}.

Lemma wp_change_session_therapist id c s :
  schedule_ok s → (∀ t, c.(ct_therapist_id) = Some t → valid_id t) →
  (∀ t, c.(ct_secondary_therapist_id) = Some t → valid_id t) →
  (∀ b, s.(bookings) !! id = Some b → times_ok b) →
  wp (change_session_therapist id c) s (λ _ s', schedule_ok s').
Proof.
  intros Hs Hc1 Hc2 Hti. unfold change_session_therapist. apply wp_bind, wp_booking_by_id; [intros b Hb|done]. cbv zeta.
  apply wp_bind, wp_some_or_raise; [intros target Hf|done]. apply wp_bind, wp_raise_if; [done|]. intros Hdist.
  apply wp_bind, wp_check_new; [done|]. intros Hck. apply wp_bind, wp_lift.
  destruct (mirror_therapists _ _) as [schedule|e] eqn:Hm; [|done].
  pose proof (proj2 Hs _ _ Hb) as Hok. specialize (Hti _ Hb).
  set (sec := if ct_secondary_provided c then _ else _) in *.
  destruct (replaced_mirrors (reassigned c sec) _ _ _ _ _ _ target (own_mirrors id b Hok Hti) Hf
              (λ lo hi, reassigned_ok c target lo hi Hc1 Hc2) (reassigned_window c target))
    as (first & rest & t' & o' & E & H1 & H2 & Hmir & Hfirst).
  rewrite E in Hm. pose proof (mirror_therapists_spec _ _ _ _ _ _ H1 H2 Hm) as (Et & Eo & Es & Ee).
  rewrite <- E in Es. cbn in Es, Ee.
  assert (o' ≠ Some t') as Hne.
  { destruct Hfirst as [-> | [-> ->]]; [|intros Heq; by destruct (ok_secondary _ Hok _ Heq)].
    unfold sec in H1, H2. rewrite reassigned_primary in H1. rewrite reassigned_secondary in H2. fold sec in H2. intros ->.
    destruct H1 as [Ht' H1], H2 as [_ H2]. rewrite H1, H2, uuid_truthy, String.eqb_refl in Hdist by done. discriminate. }
  assert (slot_ok (slot_of (b <| bk_schedule := schedule |>))) as Hok'.
  { destruct Hok as [O1 O2 O3 O4]. split; cbn; rewrite ?Et, ?Eo, ?Es, ?Ee; [apply H1| |exact O3|exact Hmir].
    intros t2 ->. split; [apply H2|congruence]. }
  apply wp_bind. eapply wp_place; [done|exact Hb|exact Hok'| |].
  - intros Hbl t w Ht Hw. rewrite busy_sessions in Hw; [|exact Hok'|cbn; by rewrite Es, E].
    cbn in Hw. rewrite Es in Hw. apply list_elem_of_omap in Hw as (sess & Hsess & Hw).
    destruct (replace_first_elem _ _ _ _ _ Hf Hsess) as [Hold| ->].
    + eapply own_window_free; [done..|]. by eapply own_busy.
    + assert (target ∈ get_booking_sessions (columns_of id b)) as Hin by by apply List.find_some in Hf as [? _]; apply list_elem_of_In.
      destruct (reassigned_busy c target _ _ t w Hc1 Hc2 (own_session_ok _ _ _ Hok Hti Hin) Ht Hw) as [Hold|(Hnew & Hk & Hwin)].
      * eapply own_window_free; [done..|]. by eapply own_busy.
      * intros j c' v Hcj Hj Hbl' Hv. pose proof (Hck _ _ Hnew Hk (uuid_of_json_str t Ht)) as Hfree.
        unfold session_taken in Hfree. rewrite Hwin in Hfree. destruct w as [a z].
        apply (check_free s t a z _ Ht Hfree j c' v Hcj); [by apply (proj2 Hs j)|congruence|done..].
  - intros s' Hs' _. kept_steps.
Qed.

(** C11: Changing the therapists of one session never books a therapist twice,
    although only the therapists that are new to the session are looked up, and
    only for its window. *)
Theorem change_session_therapist_no_double_booking id c s :
  schedule_ok s → (∀ t, c.(ct_therapist_id) = Some t → valid_id t) →
  (∀ t, c.(ct_secondary_therapist_id) = Some t → valid_id t) →
  (∀ b, s.(bookings) !! id = Some b → times_ok b) →
  schedule_ok (change_session_therapist id c s).2.
Proof. intros. by apply wp_change_session_therapist. Qed.
End change.
