(* ===== verification/UpdateSpec.v ===== *)
(** * Updating a booking keeps therapists apart

    [update_booking] rewrites the sessions, the therapists and the times of one
    row; the row may be ill-formed in between, so the steps are followed as
    changes of that row alone, and the invariant is re-established at the end. *)

From S2P Require Import Prelude Exceptions Effects StateMachines Money Numbers Store PyText PyDate Sessions SessionPlanner SessionSpec RefundLifecycle RefundService LinkGateway Settlement LinkService LinkFrame BookingEvents BookingRepo BookingService BookingChanges BookingUpdate BookingSlots BookingFrame BookingSpec SessionChange.
Import BookingService BookingUpdates.
#[local] Open Scope Z_scope.

(** ** One row apart from the others *)

Definition others_kept (s : Store) (id : Z) (s' : Store) : Prop :=
  ∀ j, j ≠ id → slot_of <$> s.(bookings) !! j = slot_of <$> s'.(bookings) !! j.

Lemma others_lookup s id s' j c' :
  others_kept s id s' → j ≠ id → s'.(bookings) !! j = Some c' → ∃ c, s.(bookings) !! j = Some c ∧ slot_of c = slot_of c'.
Proof.
  intros H Hj Hc. specialize (H j Hj). rewrite Hc in H. destruct (bookings s !! j) as [c|]; [|done]. cbn in H.
  exists c. split; congruence.
Qed.
Lemma others_lookup' s id s' j c :
  others_kept s id s' → j ≠ id → s.(bookings) !! j = Some c → ∃ c', s'.(bookings) !! j = Some c' ∧ slot_of c' = slot_of c.
Proof.
  intros H Hj Hc. specialize (H j Hj). rewrite Hc in H. destruct (bookings s' !! j) as [c'|]; [|done]. cbn in H.
  exists c'. split; congruence.
Qed.

Lemma checks_free_others s id s1 : rows_ok s → others_kept s id s1 → checks_free s1 s (Some id) id.
Proof.
  intros Hrows Ho t a z Ht Hc j c v Hcj Hj Hbl Hv.
  destruct (others_lookup' _ _ _ _ _ Ho Hj Hcj) as (c' & Hc' & E).
  apply (check_free s1 t a z (Some id) Ht Hc j c' v Hc'); [rewrite E; by eapply Hrows|congruence| |].
  - by rewrite (blocking_slot _ _ E).
  - by rewrite (busy_slot _ _ t E).
Qed.

(** The end of the rewriting. *)
Lemma rejoin s id s' b' :
  schedule_ok s → others_kept s id s' → s'.(bookings) !! id = Some b' → slot_ok (slot_of b') →
  (blocking b' = true → ∀ t w, valid_id t → w ∈ busy b' t → free s id t w) → schedule_ok s'.
Proof.
  intros Hs Ho Hb Hok Hfree.
  assert (schedule_ok (s <| bookings := <[id := b']> s.(bookings) |>)) as Hs' by by eapply (place s _ id b').
  eapply schedule_ok_kept; [|exact Hs']. intros j. cbn. destruct (decide (j = id)) as [->|Hj].
  - by rewrite lookup_insert_eq, Hb.
  - rewrite lookup_insert_ne by done. by apply Ho.
Qed.

(** ** Steps that keep the slots *)

Section kept.
Context `{BookingWorld}.
Lemma payment_status_slots id u : changes slots_kept (update_payment_status id u).
Proof. unfold update_payment_status. change_only. Qed.
Lemma recreate_slots g m id u a token : changes slots_kept (swallow (recreate_link g m id u a token)).
Proof. apply core_slots, swallow_kept, recreate_link_kept. Qed.
End kept.
#[export] Hint Resolve payment_status_slots recreate_slots : ush.

(** ** Steps *)

Section steps.
Context (s : Store) (id : Z).

(** The rest of the operation, from a state that differs in the row only. *)
Definition at_row (s1 : Store) (b : Booking) : Prop := others_kept s id s1 ∧ s1.(bookings) !! id = Some b.

Lemma at_row_kept s1 s2 b : at_row s1 b → slots_kept s1 s2 → ∃ b2, at_row s2 b2 ∧ slot_of b2 = slot_of b.
Proof.
  intros [Ho Hb] Hk. pose proof (Hk id) as E. rewrite Hb in E. destruct (bookings s2 !! id) as [b2|] eqn:Hb2; [|done].
  exists b2. split; [split; [|done]|apply (inj Some); by symmetry]. intros j Hj. by rewrite (Ho j Hj).
Qed.

Lemma wp_at_kept {A} (m : M Store A) s1 b (Q : result A → Store → Prop) :
  at_row s1 b → changes slots_kept m → (∀ r s2 b2, at_row s2 b2 → slot_of b2 = slot_of b → Q r s2) → wp m s1 Q.
Proof. intros Ha Hm HQ. destruct (at_row_kept s1 _ b Ha (Hm s1)) as (b2 & Hb2 & E). by eapply HQ. Qed.

Lemma wp_at_upd f s1 b (Q : result () → Store → Prop) :
  at_row s1 b → (∀ s2, at_row s2 (f b) → Q (Ok ()) s2) → wp (upd_booking id f) s1 Q.
Proof.
  intros [Ho Hb] HQ. apply HQ. split; [|cbn; by rewrite lookup_alter_eq, Hb].
  intros j Hj. cbn. rewrite lookup_alter_ne by done. by apply Ho.
Qed.

Lemma wp_at_get s1 b (Q : result Booking → Store → Prop) : at_row s1 b → Q (Ok b) s1 → wp (get_booking_row id) s1 Q.
Proof. intros [_ Hb] HQ. unfold wp. by rewrite (get_booking_row_run _ _ _ Hb). Qed.

Lemma wp_at_assign f s1 b (Q : result () → Store → Prop) :
  at_row s1 b → (∀ e, Q (Raise e) s1) → (∀ b' s2, f b = Ok b' → at_row s2 b' → Q (Ok ()) s2) → wp (assign id f) s1 Q.
Proof.
  intros Ha Hr HQ. unfold assign. apply wp_bind. eapply wp_at_get; [done|]. apply wp_bind, wp_lift.
  destruct (f b) as [b'|e] eqn:E; [|done]. eapply wp_at_upd; [done|]. intros s2 H2. by apply (HQ b').
Qed.
Lemma wp_at_assigns f s1 b (Q : result () → Store → Prop) :
  at_row s1 b → (∀ s2, at_row s2 (f b) → Q (Ok ()) s2) → wp (assigns id f) s1 Q.
Proof.
  intros Ha HQ. unfold assigns, assign. apply wp_bind. eapply wp_at_get; [done|]. eapply wp_at_upd; [done|]. exact HQ.
Qed.
End steps.

(** ** Assignments that leave the slot alone *)

Lemma with_services_slot entries b b' : with_services entries b = Ok b' → slot_of b' = slot_of b.
Proof. unfold with_services. intros H. ok_steps. destruct (pf_service_id _); ok_steps; by subst. Qed.
Lemma with_branch_slot id u b : slot_of (with_branch id u b) = slot_of b.
Proof.
  unfold with_branch. destruct (ub_services u), (ub_service_arrangement_id u), (ub_service_arrangement_data u); try done.
  all: destruct (get_booking_services _); done.
Qed.
Lemma with_prices_slot u b : slot_of (with_prices u b) = slot_of b.
Proof. reflexivity. Qed.
Lemma with_secondary_data_slot sec b : slot_of (with_secondary_data sec b) = slot_of b.
Proof. unfold with_secondary_data. destruct (sec_data sec), (sc_secondary_therapist_id (bk_schedule b)); done. Qed.

(** ** The request *)

(** Sessions as [plan_sessions] hands them over. *)
Definition planned (sessions : list json) : Prop :=
  ∃ start end_ t o, sessions ≠ [] ∧ mirrors start end_ t o sessions ∧ o ≠ Some t ∧
    (legacy_mirror sessions).(m_appointment_start) = Some start ∧ (legacy_mirror sessions).(m_appointment_end) = Some end_.

(** Nothing that moves a therapist or a time is given. *)
Definition untimed (u : UpdateBooking) : Prop :=
  u.(ub_therapist_id) = None ∧ u.(ub_secondary_therapist_id) = None ∧ u.(ub_secondary_provided) = false ∧
  u.(ub_appointment_start) = None ∧ u.(ub_extra_minutes) = None ∧ u.(ub_services) = None.

Definition printable_window (w : Z * Z) : Prop := in_range (local_day w.1) ∧ in_range (local_day w.2).

(** The row when its times are computed. *)
Definition serviced (u : UpdateBooking) (b : Booking) : result Booking :=
  match u.(ub_services) with Some entries => with_services entries b | None => Ok b end.

(** What makes an update safe for the schedule. *)
Record update_safe (u : UpdateBooking) (b : Booking) : Prop := mk_update_safe {
  (** Therapists are named by their keys; new sessions bring their own. *)
  us_ids : ∀ t, u.(ub_therapist_id) = Some t ∨ u.(ub_secondary_therapist_id) = Some t → valid_id t;
  us_sessions : ∀ l, u.(ub_sessions) = Some l → planned l ∧ u.(ub_therapist_id) = None ∧
                  u.(ub_secondary_therapist_id) = None ∧ u.(ub_secondary_provided) = false;
  (** Several stored sessions are replaced, or not moved. *)
  us_one : u.(ub_sessions) = None → (length b.(bk_schedule).(sc_sessions) <= 1)%nat ∨ untimed u;
  (** A booking that occupies nobody is not brought back by its status alone. *)
  us_active : u.(ub_sessions) = None → untimed u → blocking b = false →
    ∀ st, u.(ub_status) = Some st → value st ∈ Booking.NON_BLOCKING_BOOKING_STATUSES;
  (** The times can be written. *)
  us_times : ∀ s, s ∈ b.(bk_schedule).(sc_sessions) → ∀ a z, session_window s = (Some a, Some z) → printable_window (a, z);
  us_target : u.(ub_sessions) = None → ∀ b1, serviced u b = Ok b1 → printable_window (target_window u b1) }.

(** ** Sessions, services and times *)

Lemma with_sessions_slot u l b b' start end_ t o :
  l ≠ [] → mirrors start end_ t o l → (legacy_mirror l).(m_appointment_start) = Some start →
  (legacy_mirror l).(m_appointment_end) = Some end_ → with_sessions u l b = Ok b' →
  slot_of b' = mk_slot b.(bk_status) start end_ l t o (legacy_mirror l).(m_totals).(t_extra_minutes).
Proof.
  intros Hne Hm Hs He. destruct l as [|first rest]; [done|]. destruct Hm as (_ & H1 & H2 & _).
  unfold with_sessions. rewrite Hs, He. intros (pf & Hpf & Hb)%result_bind_ok. destruct (pf_service_id pf); [|done].
  apply result_bind_ok in Hb as (c & Hc & Hb). destruct (mirror_therapists_spec _ _ _ _ _ _ H1 H2 Hc) as (Et & Eo & Es & Ee).
  apply (inj Ok) in Hb. subst b'. unfold slot_of, mirror_columns, with_primary. cbn. rewrite Et, Eo, Es. reflexivity.
Qed.

(** The second therapist is checked, or the one the row has. *)
Lemma secondary_spec u b sec :
  slot_ok (slot_of b) → (∀ t, u.(ub_therapist_id) = Some t ∨ u.(ub_secondary_therapist_id) = Some t → valid_id t) →
  secondary u b = Ok sec →
  let tp := default b.(bk_schedule).(sc_therapist_id) u.(ub_therapist_id) in
  valid_id tp ∧ (∀ t2, sec.(sec_target) = Some t2 → valid_id t2 ∧ t2 ≠ tp) ∧
  sec.(sec_target) = (if sec_assigned sec then sec.(sec_id) else b.(bk_schedule).(sc_secondary_therapist_id)).
Proof.
  intros [O1 O2 _ _] Hids Hsec. cbn in O1, O2. cbv zeta. unfold secondary in Hsec.
  assert (valid_id (default (sc_therapist_id (bk_schedule b)) (ub_therapist_id u))) as Htp
    by (destruct (ub_therapist_id u) eqn:E; cbn; auto).
  split; [done|]. destruct (ub_secondary_provided u || _) eqn:Ep.
  - destruct (_ ==? _) eqn:Ene; [done|]. apply (inj Ok) in Hsec. subst sec. unfold sec_assigned. cbn. rewrite Ep. breflect.
    split; [|done]. intros t2 E2. split; [auto|congruence].
  - destruct (sc_secondary_therapist_id (bk_schedule b) ==? _) eqn:Eq.
    + destruct (negb _) eqn:En; apply (inj Ok) in Hsec; subst sec; cbn; (split; [|done]); [|done].
      intros t2 [= <-]. breflect. done.
    + apply (inj Ok) in Hsec. subst sec. breflect. unfold sec_assigned. cbn. split; [|done].
      intros t2 E2. destruct (O2 _ E2) as [? _]. split; [done|congruence].
Qed.

Lemma untimed_not_touched u b sec :
  slot_ok (slot_of b) → untimed u → secondary u b = Ok sec → timing_touched u sec = false.
Proof.
  intros [_ O2 _ _] (U1 & U2 & U3 & U4 & U5 & U6). cbn in O2. unfold secondary, timing_touched, sec_assigned.
  rewrite U1, U2, U3, U4, U5, U6. cbn. destruct (_ ==? _) eqn:Eq.
  - breflect. by destruct (O2 _ Eq).
  - by intros <-%(inj Ok).
Qed.
Lemma untimed_of u b sec : secondary u b = Ok sec → timing_touched u sec = false → untimed u ∧ sec_assigned sec = false.
Proof.
  unfold timing_touched. intros Hsec H. repeat (apply orb_false_iff in H as [H ?]). breflect.
  assert (ub_secondary_provided u = false ∧ ub_secondary_therapist_id u = None) as [? ?].
  { unfold secondary in Hsec. destruct (_ || _) eqn:Ep; [|by breflect; destruct (ub_secondary_therapist_id u) eqn:?;
      [exfalso; eauto|]].
    destruct (_ ==? _); [done|]. apply (inj Ok) in Hsec. subst sec. unfold sec_assigned in *. cbn in *. congruence. }
  unfold untimed. repeat match goal with H : ¬ is_Some ?o |- _ => apply eq_None_not_Some in H end. done.
Qed.

(** The slot after the times are written. *)
Lemma retimed_slot u sec b :
  slot_of (retimed u sec b) =
    let w := target_window u b in
    mk_slot b.(bk_status) w.1 w.2 b.(bk_schedule).(sc_sessions) (default b.(bk_schedule).(sc_therapist_id) u.(ub_therapist_id))
      (if sec_assigned sec then sec.(sec_id) else b.(bk_schedule).(sc_secondary_therapist_id)) (target_extra u b).
Proof. unfold retimed. destruct (target_window u b) as [start end_]. destruct (sec_assigned sec); reflexivity. Qed.

(** ** The stored sessions *)

Lemma jget_put_opt {A} k (f : A → json) o j k' : String.eqb k k' = false → jget (put_opt k f o j) k' = jget j k'.
Proof. intros Hk. unfold put_opt. destruct o; [by apply jget_with_other|done]. Qed.
Lemma jget_put_assigned sec c j k :
  String.eqb "secondary_therapist_id" k = false → String.eqb "secondary_therapist_data" k = false →
  jget (put_assigned sec c j) k = jget j k.
Proof.
  intros H1 H2. unfold put_assigned. destruct (sec_assigned sec); [|reflexivity]. unfold put_secondary.
  rewrite (jget_with_other _ _ _ _ H2), (jget_with_other _ _ _ _ H1). reflexivity.
Qed.
Lemma put_assigned_id sec c j :
  jget (put_assigned sec c j) "secondary_therapist_id" =
    if sec_assigned sec then uuid_json c.(sc_secondary_therapist_id) else jget j "secondary_therapist_id".
Proof.
  unfold put_assigned. destruct (sec_assigned sec); [|reflexivity]. unfold put_secondary.
  rewrite jget_with_other by reflexivity. rewrite jget_with_key. reflexivity.
Qed.

(** Reads a field of a session through the writes of the others. *)
Ltac field_steps :=
  unfold put_data;
  repeat first
    [ rewrite jget_with_other by reflexivity | rewrite jget_put_opt by reflexivity
    | rewrite jget_put_assigned by reflexivity ].

Section single.
Context (u : UpdateBooking) (sec : Secondary) (eff : Z) (b : Booking) (s0 : json).
Lemma synced_therapist : jget (synced_single u sec eff b s0) "therapist_id" = JStr (uuid_str b.(bk_schedule).(sc_therapist_id)).
Proof. unfold synced_single. cbv zeta. field_steps. by rewrite jget_with_key. Qed.
Lemma synced_secondary :
  jget (synced_single u sec eff b s0) "secondary_therapist_id" =
    if sec_assigned sec then uuid_json b.(bk_schedule).(sc_secondary_therapist_id) else jget s0 "secondary_therapist_id".
Proof. unfold synced_single. cbv zeta. field_steps. rewrite put_assigned_id. by field_steps. Qed.
Lemma synced_window :
  printable_window (b.(bk_appointment_start), b.(bk_schedule).(sc_appointment_end)) →
  session_window (synced_single u sec eff b s0) = (Some b.(bk_appointment_start), Some b.(bk_schedule).(sc_appointment_end)).
Proof.
  intros [H1 H2]. unfold session_window.
  assert (jget (synced_single u sec eff b s0) "appointment_start" = JStr (isoformat KUWAIT (bk_appointment_start b))) as ->
    by (unfold synced_single; cbv zeta; field_steps; by rewrite jget_with_key).
  assert (jget (synced_single u sec eff b s0) "appointment_end" = JStr (isoformat KUWAIT (sc_appointment_end (bk_schedule b)))) as ->
    by (unfold synced_single; cbv zeta; field_steps; by rewrite jget_with_key).
  by rewrite !parse_dt_local.
Qed.
End single.

(** Served by the same therapists at the same time. *)
Record same_service (s s' : json) : Prop := mk_same_service {
  ss_mapping : is_mapping s' = true;
  ss_therapist : jget s' "therapist_id" = jget s "therapist_id";
  ss_secondary : jget s' "secondary_therapist_id" = jget s "secondary_therapist_id";
  ss_window : session_window s' = session_window s }.

Lemma same_service_ok lo hi s s' : same_service s s' → session_ok lo hi s → session_ok lo hi s'.
Proof. intros [H1 H2 H3 H4] [_ O2 O3 O4]. split; rewrite ?H2, ?H3, ?H4; done. Qed.
Lemma same_service_busy t s s' : same_service s s' → busy_window t s' = busy_window t s.
Proof. intros [H1 H2 H3 H4]. unfold busy_window. by rewrite H2, H3, H4. Qed.
Lemma same_services_ok lo hi l l' : Forall2 same_service l l' → Forall (session_ok lo hi) l → Forall (session_ok lo hi) l'.
Proof.
  induction 1 as [|s s' l l' Hs Hl IH]; [constructor|]. intros [Ho Hr]%Forall_cons.
  constructor; [by eapply same_service_ok|by apply IH].
Qed.
Lemma same_services_mirrors start end_ t o l l' :
  Forall2 same_service l l' → mirrors start end_ t o l → mirrors start end_ t o l'.
Proof.
  intros Hl. pose proof (same_services_ok start end_ _ _ Hl) as Hok. destruct Hl as [|s s' l l' Hs Hl]; [done|].
  intros (Hall & H1 & H2 & H3). pose proof Hs as [_ E1 E2 E3].
  split_and!; [by apply Hok|by rewrite E1|by rewrite E2|]. intros ->. inversion Hl; subst. rewrite E3. by apply H3.
Qed.
Lemma same_services_busy t l l' : Forall2 same_service l l' → omap (busy_window t) l' = omap (busy_window t) l.
Proof.
  induction 1 as [|s s' l l' Hs Hl IH]; [done|]. cbn. rewrite (same_service_busy t _ _ Hs). destruct (busy_window t s); by rewrite IH.
Qed.

(** ** The sections of the update *)

Definition place_of (l : Slot) := (l.(sl_start), l.(sl_end), l.(sl_sessions), l.(sl_therapist), l.(sl_secondary)).
Lemma busy_place b b' t : place_of (slot_of b) = place_of (slot_of b') → busy b t = busy b' t.
Proof.
  unfold place_of, slot_of, busy, therapist_busy_windows, columns_of. cbn. intros [= H1 H2 H3 H4 H5].
  by rewrite H1, H2, H3, H4, H5.
Qed.
Lemma slot_ok_restatus l l' :
  place_of l = place_of l' → (∃ st : Booking.BookingStatus, l'.(sl_status) = value st) → slot_ok l → slot_ok l'.
Proof. intros [= E1 E2 E3 E4 E5] O3 [O1 O2 _ O4]. rewrite E1, E2, E3, E4, E5 in *. by split. Qed.
Lemma slot_ok_place l l' : place_of l = place_of l' → l.(sl_status) = l'.(sl_status) → slot_ok l → slot_ok l'.
Proof. intros E Est Hok. eapply slot_ok_restatus; [exact E|rewrite <- Est; apply Hok|exact Hok]. Qed.

Section sections.
Context `{BookingWorld}.
Context (s : Store) (id : Z) (u : UpdateBooking) (b0 : Booking).
Context (Hs : schedule_ok s) (Hb0 : s.(bookings) !! id = Some b0) (Hu : update_safe u b0).
Let parked := remain_parked b0.(bk_status) u.

Definition occupies_free (b : Booking) : Prop := ∀ t w, valid_id t → w ∈ busy b t → free s id t w.

Definition replaced (b1 : Booking) : Prop :=
  match u.(ub_sessions) with
  | None => b1 = b0
  | Some _ => slot_ok (slot_of b1) ∧ b1.(bk_status) = b0.(bk_status) ∧ (parked = false → occupies_free b1)
  end.

Lemma wp_replace_sessions (Q : result () → Store → Prop) :
  (∀ e s1, Q (Raise e) s1) → (∀ s1 b1, at_row s id s1 b1 → replaced b1 → Q (Ok ()) s1) → wp (replace_sessions id u parked) s Q.
Proof.
  intros Hr HQ. unfold replace_sessions, replaced in *. destruct (ub_sessions u) as [l|] eqn:El.
  2:{ by apply wp_ret, (HQ s b0). }
  destruct (us_sessions _ _ Hu l El) as [(start & end_ & t & o & Hne & Hm & Hot & Hst & Hen) _].
  apply wp_bind, wp_raise_if; [done|]. intros _.
  assert (∀ (Q : result () → Store → Prop), (∀ e, Q (Raise e) s) →
    ((parked = false → Forall (session_checked s (Some id)) l) → Q (Ok ()) s) → wp (when (negb parked) (check_sessions l (Some id))) s Q) as Hck.
  { intros Q' Hr' HQ'. apply wp_when.
    - intros Hp. apply wp_check_sessions; [done|]. intros Hl. by apply HQ'.
    - intros Hp. apply HQ'. intros E. by rewrite E in Hp. }
  apply wp_bind, Hck; [done|]. intros Hl. eapply (wp_at_assign s id); [split; [done|exact Hb0]|done|].
  intros b1 s1 Hb1 Ha. pose proof (with_sessions_slot _ _ _ _ _ _ _ _ Hne Hm Hst Hen Hb1) as Hslot.
  apply (HQ s1 b1 Ha).
  assert (slot_ok (slot_of b1)) as Hok1.
  { rewrite Hslot. pose proof (proj2 Hs _ _ Hb0) as [_ _ O3 _]. destruct l as [|first rest]; [done|].
    destruct Hm as (M1 & M2 & M3 & M4). split; [apply M2| |exact O3|exact (conj M1 (conj M2 (conj M3 M4)))].
    cbn. intros t2 ->. split; [apply M3|congruence]. }
  split_and!; [done|exact (f_equal sl_status Hslot)|]. intros Hp t' w Ht' Hw.
  eapply (checked_free s s (Some id)); [by apply checks_free_here; [apply Hs|right]|exact Hok1| |done..].
  unfold row_checked. rewrite Hslot. cbn. destruct l; [done|by apply Hl].
Qed.

Lemma wp_replace_services s1 b1 (Q : result () → Store → Prop) :
  at_row s id s1 b1 → (∀ e s1, Q (Raise e) s1) → (∀ s2 b2, at_row s id s2 b2 → serviced u b1 = Ok b2 → Q (Ok ()) s2) →
  wp (replace_services id u) s1 Q.
Proof.
  intros Ha Hr HQ. unfold replace_services, serviced in *. destruct (ub_services u) as [l|].
  2:{ by apply wp_ret, (HQ s1 b1). }
  apply wp_bind, wp_raise_if; [done|]. intros _. eapply wp_at_assign; [exact Ha|done|]. intros b2 s2 Hb2 Ha2. by apply (HQ s2 b2).
Qed.

(** The row after its times were updated. *)
Inductive timed (b1 : Booking) (sec : Secondary) : Prop :=
  | timed_sessions : u.(ub_sessions) ≠ None → slot_ok (slot_of b1) → b1.(bk_status) = b0.(bk_status) →
      (parked = false → occupies_free b1) → timed b1 sec
  | timed_moved w tp o x : u.(ub_sessions) = None → printable_window w → (length b0.(bk_schedule).(sc_sessions) <= 1)%nat →
      slot_of b1 = mk_slot b0.(bk_status) w.1 w.2 b0.(bk_schedule).(sc_sessions) tp o x →
      valid_id tp → (∀ t2, o = Some t2 → valid_id t2 ∧ t2 ≠ tp) →
      (sec_assigned sec = false → o = b0.(bk_schedule).(sc_secondary_therapist_id)) →
      (parked = false → ∀ t, t ∈ tp :: option_list o → free s id t w) → timed b1 sec
  | timed_same : u.(ub_sessions) = None → untimed u → sec_assigned sec = false → slot_of b1 = slot_of b0 → timed b1 sec.

Lemma serviced_slot b1 b2 : serviced u b1 = Ok b2 → slot_of b2 = slot_of b1.
Proof. unfold serviced. destruct (ub_services u); [apply with_services_slot|by intros [= ->]]. Qed.

Lemma wp_update_timing s1 b1 b2 (Q : result (Secondary * Z) → Store → Prop) :
  at_row s id s1 b2 → replaced b1 → serviced u b1 = Ok b2 → (∀ e s1, Q (Raise e) s1) →
  (∀ s2 b3 sec eff, at_row s id s2 b3 → timed b3 sec → Q (Ok (sec, eff)) s2) →
  wp (update_timing id u parked) s1 Q.
Proof.
  intros Ha Hrep Hsv Hr HQ. pose proof (serviced_slot _ _ Hsv) as Esl. unfold update_timing.
  apply wp_bind. eapply wp_at_get; [exact Ha|]. apply wp_bind, wp_lift. destruct (secondary u b2) as [sec|e] eqn:Esec; [|done].
  assert (slot_ok (slot_of b2)) as Hok2.
  { rewrite Esl. unfold replaced in Hrep. destruct (ub_sessions u); [apply Hrep|subst b1; by apply (proj2 Hs id)]. }
  destruct (secondary_spec u b2 sec Hok2 (us_ids _ _ Hu) Esec) as (Htp & Htarget & Eassigned). apply wp_bind.
  destruct (timing_touched u sec) eqn:Et.
  - apply wp_bind. destruct (ub_sessions u) as [l|] eqn:El.
    + rewrite orb_true_r. apply wp_when; [done|]. intros _. eapply wp_at_assigns; [exact Ha|]. intros s2 Ha2. apply wp_ret.
      eapply HQ; [exact Ha2|]. destruct (us_sessions _ _ Hu l El) as (_ & U1 & U2 & U3).
      unfold replaced in Hrep. rewrite El in Hrep. destruct Hrep as (R1 & R2 & R3).
      assert (sec_assigned sec = false) as Hsa.
      { unfold secondary in Esec. rewrite U3, U2 in Esec. cbn in Esec. pose proof (ok_secondary _ Hok2) as O2. cbn in O2.
        destruct (_ ==? _) eqn:Eq in Esec.
        - breflect. destruct (O2 _ Eq) as [_ Hd]. rewrite U1 in Hd. done.
        - apply (inj Ok) in Esec. by subst sec. }
      assert (place_of (slot_of (retimed u sec b2)) = place_of (slot_of b1)) as E.
      { rewrite retimed_slot, Hsa, U1. unfold target_window. rewrite El, <- Esl. reflexivity. }
      apply timed_sessions; [by rewrite El| | |].
      * eapply slot_ok_place; [symmetry; exact E| |exact R1]. rewrite retimed_slot. exact (f_equal sl_status (eq_sym Esl)).
      * rewrite <- R2. exact (eq_trans (f_equal sl_status (retimed_slot u sec b2)) (f_equal sl_status Esl)).
      * intros Hp t w. rewrite (busy_place _ _ t E). by apply R3.
    + unfold replaced in Hrep. rewrite El in Hrep. subst b1. destruct (target_window u b2) as [a z] eqn:Ew.
      set (tp := default _ _) in *.
      assert (∀ (Q : result () → Store → Prop), (∀ e, Q (Raise e) s1) →
        ((parked = false → ∀ t, t ∈ tp :: option_list (sec_target sec) → free s id t (a, z)) → Q (Ok ()) s1) →
        wp (when (negb (parked || false)) (check_therapists (tp :: option_list (sec_target sec)) a z (Some id))) s1 Q) as Hck.
      { intros Q' Hr' HQ'. rewrite orb_false_r. apply wp_when.
        - intros Hp. apply wp_check_therapists; [done|]. intros Hl. apply HQ'. intros _ t Ht.
          apply (checks_free_others s id s1 (proj2 Hs) (proj1 Ha)); [|by apply Hl].
          apply elem_of_cons in Ht as [->|Ht]; [done|]. destruct (sec_target sec) as [t2|] eqn:E2; [|by apply elem_of_nil in Ht].
          apply list_elem_of_singleton in Ht as ->. by apply Htarget.
        - intros Hp. apply HQ'. intros E. by rewrite E in Hp. }
      apply Hck; [done|]. clear Hck. intros Hfree. eapply wp_at_assigns; [exact Ha|]. intros s2 Ha2. apply wp_ret.
      eapply HQ; [exact Ha2|].
      apply (timed_moved _ _ (a, z) tp (sec_target sec) (target_extra u b2)); [done| | |..].
      * rewrite <- Ew. by apply (us_target _ _ Hu El).
      * destruct (us_one _ _ Hu El) as [?|Hun]; [done|]. exfalso.
        pose proof (untimed_not_touched u b2 sec Hok2 Hun Esec). congruence.
      * rewrite retimed_slot, Ew, Eassigned. unfold slot_of in Esl. injection Esl as E1 _ _ E4 _ _ _. cbn. by rewrite E1, E4.
      * done.
      * done.
      * intros Hsa. rewrite Eassigned, Hsa. exact (f_equal sl_secondary Esl).
      * done.
  - eapply wp_at_assigns; [exact Ha|]. intros s2 Ha2. apply wp_ret. eapply HQ; [exact Ha2|].
    destruct (untimed_of _ _ _ Esec Et) as [Hun Hsa].
    pose proof (with_secondary_data_slot sec b2) as Esd. destruct (ub_sessions u) as [l|] eqn:El; unfold replaced in Hrep; rewrite El in Hrep.
    + destruct Hrep as (R1 & R2 & R3). rewrite Esl in Esd. apply timed_sessions; [by rewrite El|by rewrite Esd| |].
      * rewrite <- R2. exact (f_equal sl_status Esd).
      * intros Hp t w. rewrite (busy_slot _ _ t Esd). by apply R3.
    + subst b1. apply timed_same; [done..|]. by rewrite Esd, Esl.
Qed.

(** Between the times and the stored sessions the slot stays. *)
Lemma wp_update_prices g m token s1 b1 (Q : result () → Store → Prop) :
  at_row s id s1 b1 → (∀ e s1, Q (Raise e) s1) → (∀ s2 b2, at_row s id s2 b2 → slot_of b2 = slot_of b1 → Q (Ok ()) s2) →
  wp (update_prices g m id u token) s1 Q.
Proof.
  intros Ha Hr HQ. unfold update_prices. apply wp_bind. eapply wp_at_get; [exact Ha|].
  apply wp_bind. eapply wp_at_assigns; [exact Ha|]. intros s2 Ha2. destruct (ub_total_amount u) as [amount|]; [|by eapply HQ].
  apply wp_bind. eapply wp_at_get; [exact Ha2|]. eapply wp_at_kept; [exact Ha2|change_only|].
  intros [[]|e] s3 b3 Ha3 E; [|done]. eapply HQ; [exact Ha3|by rewrite E].
Qed.

(** ** The stored sessions follow *)

(** The row before its status changes: either its windows are free, or it
    occupies what it did before, in an update that moves nothing. *)
Record settled (b3 : Booking) : Prop := mk_settled {
  st_ok : slot_ok (slot_of b3);
  st_status : b3.(bk_status) = b0.(bk_status);
  st_free : (parked = false → occupies_free b3) ∨
            (u.(ub_sessions) = None ∧ untimed u ∧ ∀ t, busy b3 t = busy b0 t) }.

Definition with_stored (sessions : list json) (b : Booking) : Booking :=
  b <| bk_schedule := b.(bk_schedule) <| sc_sessions := sessions |> |>.

Lemma shifted_same sec b first last_ sess sess' lo hi :
  session_ok lo hi sess → (∀ a z, session_window sess = (Some a, Some z) → printable_window (a, z)) →
  (first = true → jget sess "therapist_id" = JStr (uuid_str b.(bk_schedule).(sc_therapist_id))) →
  sec_assigned sec = false → shifted u sec b 0 0 first last_ sess = Ok sess' → same_service sess sess'.
Proof.
  intros [O1 _ _ (a & z & Hw & _)] Hp Hfirst Hsec. unfold shifted. rewrite Hw. destruct (Hp _ _ Hw) as [P1 P2]. cbn in P1, P2.
  change (negb (0 =? 0) && last_) with false. cbv iota. rewrite !Z.add_0_r.
  intros (x & [= <-] & [= <-])%result_bind_ok. unfold put_assigned. rewrite Hsec. split.
  - done.
  - field_steps. destruct first; [|done]. field_steps. by rewrite jget_with_key, (Hfirst eq_refl).
  - field_steps. destruct first; [|done]. by field_steps.
  - rewrite Hw. unfold session_window. field_steps. rewrite !jget_with_key. cbn [String.eqb Ascii.eqb Bool.eqb]. by rewrite !parse_dt_local.
Qed.

Lemma shift_all_spec (R : json → json → Prop) (P F : json → Prop) f l :
  (∀ first last_ sess sess', P sess → (first = true → F sess) → f first last_ sess = Ok sess' → R sess sess') →
  Forall P l → ∀ first l', (first = true → ∀ sess, head l = Some sess → F sess) → shift_all f first l = Ok l' → Forall2 R l l'.
Proof.
  intros Hf. induction 1 as [|sess l Hp Hl IH]; intros first l' Hh.
  - intros [= <-]. constructor.
  - cbn [shift_all]. intros (sess' & Hs' & (l2 & Hl2 & [= <-])%result_bind_ok)%result_bind_ok. constructor; [|by apply (IH false)].
    eapply Hf; [done| |exact Hs']. intros E. by apply Hh.
Qed.

(** What a row that was not touched becomes. *)
Lemma synced_same sec eff b l :
  u.(ub_sessions) = None → sec_assigned sec = false → slot_of b = slot_of b0 →
  synced_sessions u sec eff b0.(bk_appointment_start) b0.(bk_schedule).(sc_extra_minutes) b = Ok l →
  Forall2 same_service b0.(bk_schedule).(sc_sessions) l.
Proof.
  intros El Hsa E. pose proof (proj2 Hs _ _ Hb0) as [_ _ _ Hm]. cbn in Hm. pose proof (us_times _ _ Hu) as Hti.
  unfold slot_of in E. injection E as E1 E2 E3 E4 E5 E6 E7. unfold synced_sessions. rewrite El, E4.
  destruct (negb _); [done|].
  destruct (sc_sessions (bk_schedule b0)) as [|first rest] eqn:Es; [by intros [= <-]; constructor|].
  destruct Hm as (Hall & [_ H1] & H2 & H3). destruct rest as [|second rest].
  - intros [= <-]. constructor; [|constructor]. specialize (H3 eq_refl).
    assert (printable_window (bk_appointment_start b, sc_appointment_end (bk_schedule b))) as Hpr.
    { rewrite E2, E3. apply (Hti first); [apply list_elem_of_here|done]. }
    split; [done| | |].
    + by rewrite synced_therapist, E5, H1.
    + by rewrite synced_secondary, Hsa.
    + by rewrite synced_window, H3, E2, E3.
  - rewrite E2, E7, !Z.sub_diag. intros Hshift. revert Hshift.
    apply (shift_all_spec same_service (λ sess, session_ok (bk_appointment_start b0) (sc_appointment_end (bk_schedule b0)) sess ∧
             ∀ a z, session_window sess = (Some a, Some z) → printable_window (a, z))
             (λ sess, jget sess "therapist_id" = JStr (uuid_str (sc_therapist_id (bk_schedule b))))).
    + intros f l1 sess sess' [Ho Hp] Hf. by eapply shifted_same.
    + rewrite Forall_forall in Hall |- *. intros sess Hin. split; [by apply Hall|by apply Hti].
    + intros _ sess [= <-]. by rewrite E5.
Qed.

Lemma settle_same b2 sec eff l :
  u.(ub_sessions) = None → untimed u → sec_assigned sec = false → slot_of b2 = slot_of b0 →
  synced_sessions u sec eff b0.(bk_appointment_start) b0.(bk_schedule).(sc_extra_minutes) b2 = Ok l →
  settled (with_stored l b2).
Proof.
  intros El Hun Hsa E Hl. pose proof (synced_same sec eff b2 l El Hsa E Hl) as Hsame.
  pose proof (proj2 Hs _ _ Hb0) as Hok0. pose proof Hok0 as [O1 O2 O3 O4].
  assert (slot_of (with_stored l b2) = mk_slot b0.(bk_status) b0.(bk_appointment_start) b0.(bk_schedule).(sc_appointment_end) l
            b0.(bk_schedule).(sc_therapist_id) b0.(bk_schedule).(sc_secondary_therapist_id) b0.(bk_schedule).(sc_extra_minutes)) as Esl.
  { unfold slot_of in *. injection E as E1 E2 E3 _ E5 E6 E7. unfold with_stored. cbn. by rewrite E1, E2, E3, E5, E6, E7. }
  assert (slot_ok (slot_of (with_stored l b2))) as Hok.
  { rewrite Esl. split; [exact O1|exact O2|exact O3|]. cbn. by eapply same_services_mirrors. }
  split; [exact Hok|exact (f_equal sl_status Esl)|]. right. split_and!; [done..|]. intros t.
  destruct (sc_sessions (bk_schedule b0)) as [|s0 rest] eqn:Es.
  - inversion Hsame; subst l. apply busy_slot. rewrite Esl. unfold slot_of. by rewrite Es.
  - rewrite (busy_sessions b0 t Hok0) by by rewrite Es. rewrite (busy_sessions _ t Hok).
    + rewrite Es. by apply same_services_busy.
    + cbn. intros ->. inversion Hsame.
Qed.

(** A row of at most one session occupies its therapists in its window. *)
Lemma busy_single b t v :
  slot_ok (slot_of b) → (length b.(bk_schedule).(sc_sessions) <= 1)%nat → valid_id t → v ∈ busy b t →
  t ∈ b.(bk_schedule).(sc_therapist_id) :: option_list b.(bk_schedule).(sc_secondary_therapist_id) ∧
  v = (b.(bk_appointment_start), b.(bk_schedule).(sc_appointment_end)).
Proof.
  intros Hok Hlen Ht Hv. destruct (sc_sessions (bk_schedule b)) as [|s0 [|s1 rest]] eqn:Es; [by apply busy_legacy| |cbn in Hlen; lia].
  rewrite busy_sessions, Es in Hv; [|done|by rewrite Es]. apply list_elem_of_omap in Hv as (sess & ->%list_elem_of_singleton & Hw).
  pose proof (ok_mirrors _ Hok) as H'. cbn in H'. rewrite Es in H'. destruct H' as (_ & H1 & H2 & H3).
  apply busy_window_spec in Hw as (k & Hk & Hid & Hw). rewrite (H3 eq_refl) in Hw. split; [|destruct v; cbn in *; congruence].
  destruct Hk as [-> | ->].
  - apply (id_field_str _ _ _ H1 Ht) in Hid. injection Hid as ->. apply list_elem_of_here.
  - apply (id_field_str _ _ _ H2 Ht) in Hid. rewrite Hid. apply list_elem_of_further, list_elem_of_singleton. done.
Qed.

(** A single session that took over the columns. *)
Lemma synced_mirrors sec eff b s0 a z tp o :
  is_mapping s0 = true → printable_window (a, z) → valid_id tp → (∀ t2, o = Some t2 → valid_id t2) →
  (sec_assigned sec = false → id_field o (jget s0 "secondary_therapist_id")) →
  b.(bk_appointment_start) = a → b.(bk_schedule).(sc_appointment_end) = z → b.(bk_schedule).(sc_therapist_id) = tp →
  b.(bk_schedule).(sc_secondary_therapist_id) = o →
  mirrors a z tp o [synced_single u sec eff b s0].
Proof.
  intros Hm Hp Htp Ho Hsec <- <- <- <-.
  pose proof (synced_window u sec eff b s0 Hp) as Hw.
  assert (id_field (Some (sc_therapist_id (bk_schedule b))) (jget (synced_single u sec eff b s0) "therapist_id")) as F1
    by (split; [done|apply synced_therapist]).
  assert (id_field (sc_secondary_therapist_id (bk_schedule b)) (jget (synced_single u sec eff b s0) "secondary_therapist_id")) as F2.
  { rewrite synced_secondary. destruct (sec_assigned sec); [|by apply Hsec].
    destruct (sc_secondary_therapist_id (bk_schedule b)) as [t2|]; [split; [by apply Ho|done]|done]. }
  split_and!; [|exact F1|exact F2|done]. apply Forall_singleton. split; [done|by eexists|by eexists|].
  eexists _, _. split; [exact Hw|lia].
Qed.

Lemma settle_moved b2 sec eff l w tp o x :
  u.(ub_sessions) = None → printable_window w → (length b0.(bk_schedule).(sc_sessions) <= 1)%nat →
  slot_of b2 = mk_slot b0.(bk_status) w.1 w.2 b0.(bk_schedule).(sc_sessions) tp o x →
  valid_id tp → (∀ t2, o = Some t2 → valid_id t2 ∧ t2 ≠ tp) →
  (sec_assigned sec = false → o = b0.(bk_schedule).(sc_secondary_therapist_id)) →
  (parked = false → ∀ t, t ∈ tp :: option_list o → free s id t w) →
  synced_sessions u sec eff b0.(bk_appointment_start) b0.(bk_schedule).(sc_extra_minutes) b2 = Ok l →
  settled (with_stored l b2).
Proof.
  intros El Hp Hlen Esl Htp Ho Hsa Hfree Hl. pose proof (proj2 Hs _ _ Hb0) as [_ _ O3 O4]. cbn in O4.
  pose proof Esl as Esl'. unfold slot_of in Esl'. injection Esl' as E1 E2 E3 E4 E5 E6 E7.
  assert (mirrors w.1 w.2 tp o l ∧ (length l <= 1)%nat) as [Hm Hll].
  { unfold synced_sessions in Hl. rewrite El, E4 in Hl. destruct (negb _); [done|].
    destruct (sc_sessions (bk_schedule b0)) as [|s0 [|s1 rest]] eqn:Es; [by injection Hl as <-| |cbn in Hlen; lia].
    injection Hl as <-. split; [|done]. destruct O4 as (Hall & _ & H2 & _). apply Forall_inv in Hall as [Hmap _ _ _].
    apply synced_mirrors; [exact Hmap|by destruct w|exact Htp|intros t2 Ht2; by apply Ho| |exact E2|exact E3|exact E5|exact E6].
    intros Hsec. rewrite (Hsa Hsec). exact H2. }
  assert (slot_of (with_stored l b2) = mk_slot b0.(bk_status) w.1 w.2 l tp o x) as Esl2.
  { unfold slot_of, with_stored. cbn. by rewrite E1, E2, E3, E5, E6, E7. }
  assert (slot_ok (slot_of (with_stored l b2))) as Hok by (rewrite Esl2; split; [exact Htp|exact Ho|exact O3|exact Hm]).
  split; [exact Hok|exact (f_equal sl_status Esl2)|]. left. intros Hpk t v Ht Hv.
  destruct (busy_single _ t v Hok Hll Ht Hv) as [Hin ->]. unfold with_stored in Hin |- *. cbn in Hin |- *.
  rewrite E2, E3. rewrite E5, E6 in Hin. destruct w. by apply Hfree.
Qed.

Lemma settle b1 b2 sec eff l :
  timed b1 sec → slot_of b2 = slot_of b1 →
  synced_sessions u sec eff b0.(bk_appointment_start) b0.(bk_schedule).(sc_extra_minutes) b2 = Ok l →
  settled (with_stored l b2).
Proof.
  intros [Hne Hok Hst Hfree|w tp o x El Hp Hlen Esl Htp Ho Hsa Hfree|El Hun Hsa Esl] E Hl.
  - assert (l = sc_sessions (bk_schedule b2)) as ->.
    { unfold synced_sessions in Hl. destruct (negb _); [done|]. destruct (ub_sessions u); [|done]. by injection Hl. }
    assert (slot_of (with_stored (sc_sessions (bk_schedule b2)) b2) = slot_of b1) as E' by (rewrite <- E; reflexivity).
    split; [by rewrite E'|rewrite <- Hst; exact (f_equal sl_status E')|]. left. intros Hpk t v Ht.
    rewrite (busy_slot _ _ t E'). by apply Hfree.
  - eapply settle_moved; eauto. by rewrite E.
  - eapply settle_same; eauto. by rewrite E.
Qed.

(** ** The status *)

Lemma parked_status : parked = true →
  b0.(bk_status) = value Booking.PARKED ∧ (u.(ub_status) = None ∨ u.(ub_status) = Some Booking.PARKED).
Proof.
  unfold parked, remain_parked. intros [Hl Hst]%andb_true_iff. destruct (ok_status _ (proj2 Hs _ _ Hb0)) as [st Hv]. cbn in Hv.
  split; [|by destruct (ub_status u); [right; breflect; subst|left]].
  rewrite Hv in Hl |- *. breflect. by destruct st.
Qed.

(** What occupies its therapists in the end was checked, or was there before. *)
Lemma settled_free b3 b4 :
  settled b3 → place_of (slot_of b4) = place_of (slot_of b3) → blocking b4 = true →
  (b4.(bk_status) = b0.(bk_status) ∨ ∃ st, u.(ub_status) = Some st ∧ b4.(bk_status) = value st) → occupies_free b4.
Proof.
  intros [Hok Hst [Hfree|(El & Hun & Hsame)]] E Hbl Hstatus t w Ht; rewrite (busy_place _ _ t E).
  - destruct parked eqn:Hp; [|by apply Hfree]. destruct (parked_status Hp) as [Hpk Hu'].
    assert (b4.(bk_status) = value Booking.PARKED) as E4.
    { destruct Hstatus as [-> |(st & Est & ->)]; [done|]. destruct Hu' as [Hu'|Hu']; congruence. }
    exfalso. unfold blocking in Hbl. by rewrite E4 in Hbl.
  - rewrite Hsame. intros Hw. eapply own_window_free; [exact Hs|exact Hb0| |exact Ht|exact Hw].
    destruct (blocking b0) eqn:Hbl0; [done|]. unfold blocking in Hbl. destruct Hstatus as [E4|(st & Est & E4)]; rewrite E4 in Hbl.
    + unfold blocking in Hbl0. congruence.
    + pose proof (us_active _ _ Hu El Hun Hbl0 st Est) as Hin. apply negb_true_iff, bool_decide_eq_false in Hbl. done.
Qed.

Lemma wp_keep_status s1 b3 :
  at_row s id s1 b3 → settled b3 → wp (keep_status id u b0) s1 (λ _ s', schedule_ok s').
Proof.
  intros Ha Hset. eapply wp_at_kept; [exact Ha|apply core_slots, keep_status_kept|]. intros _ s2 b4 [Ho Hb4] E.
  pose proof Hset as [Hok Hst _]. eapply rejoin; [exact Hs|exact Ho|exact Hb4|by rewrite E|].
  intros Hbl. apply (settled_free b3); [done|by rewrite E|done|]. left. rewrite <- Hst. exact (f_equal sl_status E).
Qed.

Lemma wp_change_status g st old ps s1 b3 :
  u.(ub_status) = Some st → at_row s id s1 b3 → settled b3 →
  wp (change_status g id u old st ps) s1 (λ r s', match r with Ok _ => schedule_ok s' | Raise _ => True end).
Proof.
  intros Est Ha Hset. unfold change_status. apply wp_bind. eapply wp_at_get; [exact Ha|].
  apply wp_bind. eapply wp_at_kept; [exact Ha|apply core_slots; unfold check_parking; change_only|].
  intros [[]|e] s2 b4 Ha2 E4; [|done]. apply wp_bind, wp_gets, wp_bind. eapply wp_at_upd; [exact Ha2|]. intros s3 Ha3.
  eapply wp_at_kept; [exact Ha3| |].
  - change_only.
  - intros r s4 b5 [Ho Hb5] E5. destruct r; [|done].
    assert (place_of (slot_of b5) = place_of (slot_of b3) ∧ b5.(bk_status) = value st) as [Ep Ev].
    { unfold slot_of in E4, E5. injection E4 as _ A1 A2 A3 A4 A5 _. injection E5 as B0 B1 B2 B3 B4 B5 _.
      split; [|exact B0]. unfold place_of, slot_of. cbn. by rewrite B1, B2, B3, B4, B5, <- A1, <- A2, <- A3, <- A4, <- A5. }
    eapply rejoin; [exact Hs|exact Ho|exact Hb5| |].
    + eapply slot_ok_restatus; [symmetry; exact Ep|by exists st|apply Hset].
    + intros Hbl. apply (settled_free b3); [exact Hset|exact Ep|exact Hbl|]. right. by exists st.
Qed.

End sections.

Section update.
Context `{BookingWorld}.
Context (PAYMENT_LINK_DEFAULT_GATEWAY : string) (PAYMENT_LINK_EXPIRY_MINUTES : Z).

Lemma wp_update_booking id u token s :
  schedule_ok s → (∀ b, s.(bookings) !! id = Some b → update_safe u b) →
  wp (update_booking PAYMENT_LINK_DEFAULT_GATEWAY PAYMENT_LINK_EXPIRY_MINUTES id u token) s
    (λ r s', match r with Ok _ => schedule_ok s' | Raise _ => True end).
Proof.
  intros Hs Hsafe.
  unfold update_booking. apply wp_bind, wp_booking_by_id; [intros b0 Hb0|done]. specialize (Hsafe _ Hb0). cbv zeta.
  apply wp_bind. eapply (wp_replace_sessions s id u b0); [done..|]. intros s1 b1 Ha1 Hrep.
  apply wp_bind. eapply (wp_replace_services s id u s1 b1); [done..|]. intros s2 b2 Ha2 Hsv.
  apply wp_bind. eapply (wp_update_timing s id u b0); [done..|]. intros s3 b3 sec eff Ha3 Htimed.
  apply wp_bind. eapply wp_at_assigns; [exact Ha3|]. intros s4 Ha4.
  apply wp_bind. eapply wp_at_assigns; [exact Ha4|]. intros s5 Ha5.
  apply wp_bind. eapply wp_at_kept; [exact Ha5|apply payment_status_slots|]. intros [[]|e] s6 b6 Ha6 E6; [|done].
  apply wp_bind. eapply wp_at_assigns; [exact Ha6|]. intros s7 Ha7.
  apply wp_bind. eapply (wp_update_prices s id u); [exact Ha7|done|]. intros s8 b8 Ha8 E8.
  apply wp_bind. eapply wp_at_assign; [exact Ha8|done|]. intros b9 s9 Hb9 Ha9.
  apply result_bind_ok in Hb9 as (l & Hl & [= <-]).
  change (at_row s id s9 (with_stored l b8)) in Ha9. assert (settled s id u b0 (with_stored l b8)) as Hset.
  { eapply settle; [done..|exact Htimed| |exact Hl]. rewrite E8. transitivity (slot_of b6); [reflexivity|]. rewrite E6.
    transitivity (slot_of (with_branch id u b3)); [reflexivity|apply with_branch_slot]. }
  apply wp_bind. eapply wp_at_get; [exact Ha9|]. destruct (ub_status u) as [st|] eqn:Est.
  - apply wp_bind, wp_lift. destruct (of_value _) as [old|e]; [|done]. destruct (old ==? st).
    + eapply wp_mono; [eapply wp_keep_status; done|]. by intros [].
    + eapply wp_change_status; done.
  - eapply wp_mono; [eapply wp_keep_status; done|]. by intros [].
Qed.

(** C4: An update that returns never books a therapist twice and leaves every row
    mirroring its sessions, for every combination of new sessions, services,
    therapists, times, payment fields and status that is safe: it replaces the
    sessions by planned ones, or moves a booking of at most one stored session,
    or moves nothing and does not bring a released booking back. *)
Theorem update_booking_no_double_booking id u token s s' :
  schedule_ok s → (∀ b, s.(bookings) !! id = Some b → update_safe u b) →
  update_booking PAYMENT_LINK_DEFAULT_GATEWAY PAYMENT_LINK_EXPIRY_MINUTES id u token s = (Ok (), s') → schedule_ok s'.
Proof. intros Hs Hsafe Hrun. exact (wp_run _ _ _ _ _ (wp_update_booking id u token s Hs Hsafe) Hrun). Qed.
End update.
