(* ===== verification/CancelSpec.v ===== *)
(** * Confirming and cancelling a booking

    What the two operations leave behind: the row, the holds of its slot, one
    line in its history and one event. *)

From S2P Require Import Prelude Exceptions Effects StateMachines Money Numbers Store PyText Sessions RefundLifecycle RefundService LinkGateway LinkAdapters Settlement LinkService LinkFrame BookingEvents BookingRepo BookingService BookingChanges BookingUpdate BookingSlots BookingFrame BookingSpec.
Import Lifecycle BookingService.
#[local] Open Scope Z_scope.

(** ** What is followed of a booking

    Part [proj] of a row, which the attribution listener and the notes of the
    payment links leave alone. *)
Class Followed {X} (proj : Booking → X) : Prop := {
  followed_attribution b t p g m n :
    proj (b <| bk_payment_through := t |> <| bk_payment_provider := p |> <| bk_payment_gateway := g |>
            <| bk_payment_method := m |> <| bk_schedule := b.(bk_schedule) <| sc_branch_name := n |> |>) = proj b;
  followed_link b u d : proj (b <| bk_payment_url := u |> <| bk_payment_data := d |>) = proj b;
  followed_url b u : proj (b <| bk_payment_url := u |>) = proj b;
  followed_data b d : proj (b <| bk_payment_data := d |>) = proj b }.

#[export] Instance core_followed : Followed core_of.
Proof. by split. Qed.

(** All of the row but the columns just named. *)
Definition bare (b : Booking) : Booking :=
  b <| bk_payment_url := None |> <| bk_payment_data := None |> <| bk_payment_through := None |>
    <| bk_payment_provider := None |> <| bk_payment_gateway := None |> <| bk_payment_method := None |>
    <| bk_schedule := b.(bk_schedule) <| sc_branch_name := None |> |>.
#[export] Instance bare_followed : Followed bare.
Proof. by split. Qed.

(** ** Steps that leave it alone, and send no event *)

Section following.
Context {X : Type} (proj : Booking → X) `{!Followed proj}.

Record still (s s' : Store) : Prop := mk_still {
  sl_rows : ∀ id, proj <$> s.(bookings) !! id = proj <$> s'.(bookings) !! id;
  sl_holds : s'.(holds) = s.(holds); sl_history : s'.(booking_status_history) = s.(booking_status_history);
  sl_events : s'.(events) = s.(events) }.
#[export] Instance still_preorder : PreOrder still.
Proof.
  split; [intros s; by split|]. intros s1 s2 s3 [A1 A2 A3 A4] [B1 B2 B3 B4]. split; [|congruence..]. intros id. by rewrite A1, B1.
Qed.

Lemma upd_booking_still id f : (∀ b, proj (f b) = proj b) → changes still (upd_booking id f).
Proof.
  intros Hf s. split; [|done..]. intros j. cbn. destruct (decide (j = id)) as [->|Hj]; [|by rewrite lookup_alter_ne].
  rewrite lookup_alter_eq. destruct (bookings s !! id) as [b|]; cbn; [by rewrite Hf|done].
Qed.
Lemma modify_still f : (∀ s, (own_tables (f s), (f s).(events)) = (own_tables s, s.(events))) → changes still (modify f).
Proof. intros Hf s. specialize (Hf s). injection Hf as H1 H2 H3 H4. split; [|done..]. intros id. cbn. by rewrite H1. Qed.
Hint Extern 2 (changes still (upd_booking _ _)) =>
  (apply upd_booking_still; intros; first [apply followed_link | apply followed_url | apply followed_data]) : ush.
Hint Extern 3 (changes still (modify _)) => (apply modify_still; intros; reflexivity) : ush.
Hint Extern 3 (changes still (upd_payment _ _)) => (apply modify_still; intros; reflexivity) : ush.
Hint Extern 3 (changes still (add_history _)) => (apply modify_still; intros; reflexivity) : ush.
Hint Extern 3 (changes still (call_out _)) => (apply modify_still; intros; reflexivity) : ush.

Lemma get_booking_still id : changes still (get_booking_row id).
Proof. intros s. unfold get_booking_row. by destruct (bookings s !! id). Qed.
Lemma get_payment_still id : changes still (get_payment_row id).
Proof. intros s. unfold get_payment_row. by destruct (payments s !! id). Qed.
Lemma get_refund_still id : changes still (get_refund_row id).
Proof. intros s. unfold get_refund_row. by destruct (refunds s !! id). Qed.
Hint Resolve get_booking_still get_payment_still get_refund_still : ush.
Lemma swallow_still {A} (m : M Store A) : changes still m → changes still (swallow m).
Proof. intros Hm. unfold swallow. change_only. Qed.
Lemma for_each_still {A} (l : list A) (f : A → M Store ()) : (∀ a, changes still (f a)) → changes still (for_each l f).
Proof. intros Hf. induction l as [|a l IH]; cbn [for_each]; change_only. Qed.
Ltac still := repeat (first [ apply for_each_still; intros | apply swallow_still | change_step ]).

Lemma audit_still p r src a d ref old : changes still (audit p r src a d ref old).
Proof. unfold audit. still. Qed.
Lemma check_cap_still p x n : changes still (check_cap p x n).
Proof. unfold check_cap. still. Qed.
Hint Resolve audit_still check_cap_still : ush.
Lemma request_still b p a f t m why notes key who d : changes still (request b p a f t m why notes key who d).
Proof. unfold request. still. Qed.
Lemma find_payment_still b : changes still (find_payment_for_booking b).
Proof. unfold find_payment_for_booking. still. Qed.
Hint Resolve request_still find_payment_still : ush.

Section world.
Context `{BookingWorld}.
Lemma flush_booking_still id : changes still (flush_booking id).
Proof. apply upd_booking_still. intros b. apply followed_attribution. Qed.
Lemma flush_payment_still id : changes still (flush_payment id).
Proof. apply modify_still. reflexivity. Qed.
Lemma insert_payment_still p : changes still (insert_payment p).
Proof. unfold insert_payment. still. Qed.
Lemma asking_still {A} c (answer : list OutboundCall → result A) : changes still (asking c answer).
Proof. unfold asking. still. Qed.
Hint Resolve flush_booking_still flush_payment_still insert_payment_still asking_still : ush.
Lemma cancel_at_gateway_still gw l : changes still (PaymentLinkService.cancel_at_gateway gw l).
Proof. unfold PaymentLinkService.cancel_at_gateway, cancel_gateway_link, ask_gateway. still. Qed.
Lemma delete_row_still id : changes still (PaymentLinkService.delete_row id).
Proof. apply modify_still. reflexivity. Qed.
Hint Resolve cancel_at_gateway_still delete_row_still : ush.
Lemma cancel_and_delete_still gw links : changes still (PaymentLinkService.cancel_and_delete gw links).
Proof. induction links as [|[id l] links IH]; cbn [PaymentLinkService.cancel_and_delete]; still. Qed.
Lemma note_cancelled_still gw links id b : changes still (PaymentLinkService.note_cancelled gw links id b).
Proof. unfold PaymentLinkService.note_cancelled, cancel_gateway_link, ask_gateway. still. Qed.
Hint Resolve cancel_and_delete_still note_cancelled_still : ush.
Lemma drop_links_still g id : changes still (_cancel_booking_payment_links g id).
Proof. unfold _cancel_booking_payment_links, PaymentLinkService.cancel_and_delete_links_for_target. still. Qed.
Lemma drop_cache_still id : changes still (drop_appointment_cache id).
Proof. unfold drop_appointment_cache, ask_cache. still. Qed.
Lemma event_data_still id : changes still (event_data id).
Proof. unfold event_data. still. Qed.
Lemma sync_payment_still id st t src who d c pid : changes still (sync_payment id st t src who d c pid).
Proof. unfold sync_payment. still. Qed.
Hint Resolve sync_payment_still : ush.
Lemma sync_status_still id t src who d c : changes still (_sync_booking_payment_status id t src who d c).
Proof. unfold _sync_booking_payment_status, link_candidates. still. Qed.
Lemma cancellation_refund_still id by_ why who d a f : changes still (_ensure_cancellation_refund id by_ why who d a f).
Proof. unfold _ensure_cancellation_refund. still. Qed.
Lemma take_payment_data_still id d : changes still (take_payment_data id d).
Proof. unfold take_payment_data. still. Qed.
End world.

(** ** What stands after some steps *)

(** What is followed of the row [id], the other rows, the holds, the history and
    the events, against the database [s]. *)
Record stands (s : Store) (id : Z) (c : X) (hs : list TemporaryHold) (h : list BookingStatusHistory) (es : list Event) (s' : Store) : Prop := mk_stands {
  sd_row : proj <$> s'.(bookings) !! id = Some c;
  sd_others : ∀ j, j ≠ id → proj <$> s'.(bookings) !! j = proj <$> s.(bookings) !! j;
  sd_holds : s'.(holds) = hs; sd_history : s'.(booking_status_history) = h; sd_events : s'.(events) = es }.

Section stands.
Context (s : Store) (id : Z).

Lemma stands_here b : s.(bookings) !! id = Some b → stands s id (proj b) s.(holds) s.(booking_status_history) s.(events) s.
Proof. intros Hb. split; [by rewrite Hb|done..]. Qed.

Lemma stands_still c hs h es s1 s2 : stands s id c hs h es s1 → still s1 s2 → stands s id c hs h es s2.
Proof.
  intros [H1 H2 H3 H4 H5] [K1 K2 K3 K4]. split; [by rewrite <- K1| |congruence..]. intros j Hj. rewrite <- K1. by apply H2.
Qed.
Lemma wp_stands_still {A} (m : M Store A) c hs h es s1 (Q : result A → Store → Prop) :
  stands s id c hs h es s1 → changes still m → (∀ r s2, stands s id c hs h es s2 → Q r s2) → wp m s1 Q.
Proof. intros Hst Hm HQ. apply HQ. eapply stands_still; [exact Hst|apply Hm]. Qed.

Lemma wp_stands_upd f g c hs h es s1 (Q : result () → Store → Prop) :
  stands s id c hs h es s1 → (∀ b, proj (f b) = g (proj b)) →
  (∀ s2, stands s id (g c) hs h es s2 → Q (Ok ()) s2) → wp (upd_booking id f) s1 Q.
Proof.
  intros [H1 H2 H3 H4 H5] Hf HQ. apply HQ. split; [| |done..]; cbn.
  - rewrite lookup_alter_eq. destruct (bookings s1 !! id) as [b|]; [|done]. cbn in *. injection H1 as <-. by rewrite Hf.
  - intros j Hj. rewrite lookup_alter_ne by done. by apply H2.
Qed.
Lemma wp_stands_delete_hold c hs h es s1 (Q : result () → Store → Prop) :
  stands s id c hs h es s1 →
  (∀ s2, stands s id c (List.filter (λ x, negb (x.(th_booking_id) =? id)) hs) h es s2 → Q (Ok ()) s2) → wp (delete_hold id) s1 Q.
Proof. intros [H1 H2 H3 H4 H5] HQ. apply HQ. split; [done|done|by cbn; rewrite H3|done|done]. Qed.
Lemma wp_stands_record o n src why c hs h es s1 (Q : result () → Store → Prop) :
  stands s id c hs h es s1 →
  (∀ s2, stands s id c hs (h ++ [mk_booking_history id (value <$> o) (value n) src why]) es s2 → Q (Ok ()) s2) →
  wp (_record_status_change id o n src why) s1 Q.
Proof. intros [H1 H2 H3 H4 H5] HQ. apply HQ. split; [done|done|done|by cbn; rewrite H4|done]. Qed.
Lemma wp_stands_emit name data c hs h es s1 (Q : result () → Store → Prop) :
  stands s id c hs h es s1 → (∀ s2, stands s id c hs h (es ++ [BookingEvent name data]) s2 → Q (Ok ()) s2) →
  wp (emit name data) s1 Q.
Proof. intros [H1 H2 H3 H4 H5] HQ. apply HQ. split; [done..|by cbn; rewrite H5]. Qed.
Lemma wp_stands_get c hs h es s1 (Q : result Booking → Store → Prop) :
  stands s id c hs h es s1 → (∀ b, proj b = c → Q (Ok b) s1) → wp (get_booking_row id) s1 Q.
Proof.
  intros [H1 _ _ _ _] HQ. unfold wp, get_booking_row. destruct (bookings s1 !! id) as [b|]; [|done]. cbn in *. apply HQ. congruence.
Qed.
End stands.
End following.

(** A run that returns. *)
Lemma wp_returned {A} (m : M Store A) s (P : Store → Prop) :
  wp m s (λ r s', match r with Ok _ => P s' | Raise _ => True end) → ∀ a s', m s = (Ok a, s') → P s'.
Proof. intros Hm a s' E. exact (wp_run _ _ _ _ _ Hm E). Qed.

(** ** Cancelling *)

Definition core_status (st : string) (c : Core) : Core :=
  mk_core (with_status st c.(co_slot)) c.(co_payment_status) c.(co_total_amount) c.(co_customer_id) c.(co_booking_type).
Definition core_payment (ps : string) (c : Core) : Core :=
  mk_core c.(co_slot) ps c.(co_total_amount) c.(co_customer_id) c.(co_booking_type).

(** The payment status a cancellation leaves: a paid booking keeps its own until
    the refund is made, an unpaid one is cancelled. *)
Definition cancelled_payment_status (ps : string) : string :=
  if String.eqb ps "refund_requested" || (lower ps in? ["success"; "paid"]) then ps
  else if negb (truthy ps) || (lower ps in? ["unpaid"; "pending"; "not_initiated"]) then "cancelled" else ps.

(** The row after a cancellation, as far as it is followed. *)
Definition cancelled_row (by_ why : string) (b : Booking) : Booking :=
  bare (b <| bk_status := "cancelled" |>
          <| bk_internal_notes := add_note b.(bk_internal_notes) ("Cancelled by " ++ by_ ++ ": " ++ why)%string |>
          <| bk_payment_status := cancelled_payment_status b.(bk_payment_status) |>).

#[local] Hint Resolve flush_booking_still asking_still drop_links_still drop_cache_still
  event_data_still sync_status_still cancellation_refund_still take_payment_data_still : ush.

Section spec.
Context `{BookingWorld}.
Context (PAYMENT_LINK_DEFAULT_GATEWAY : string).

Lemma cancelled_payment_cases (refund cancel : M Store (option Z)) ps s1 (Q : result (option Z) → Store → Prop) :
  (cancelled_payment_status ps = ps → wp refund s1 Q) →
  (cancelled_payment_status ps = "cancelled" → wp cancel s1 Q) →
  (cancelled_payment_status ps = ps → Q (Ok None) s1) →
  wp (if String.eqb ps "refund_requested" || (lower ps in? ["success"; "paid"]) then refund
      else if negb (truthy ps) || (lower ps in? ["unpaid"; "pending"; "not_initiated"]) then cancel else mret None) s1 Q.
Proof.
  unfold cancelled_payment_status. destruct (_ || _); [intros H1 _ _; by apply H1|].
  destruct (_ || _); [intros _ H2 _; by apply H2|intros _ _ H3; apply wp_ret; by apply H3].
Qed.

(** C12: A cancellation is refused, and changes nothing, when the booking was
    bought with points or its status has no transition to cancelled.  One that
    returns leaves the booking cancelled, with a note of who and why appended; its
    payment status is kept when it was paid (the refund is made later) and is
    cancelled when it was not; every other column is as it was, except the
    address of the payment page, the payment data (where the cancelled invoices
    are noted) and the columns the attribution listener writes, of which nothing
    is said.  Its holds are gone, its history has one line more and exactly one
    event was sent.  No other booking, hold or history line changes, but for
    those same columns. *)
Theorem cancel_booking_correct id why by_ who d a f corr s b st :
  s.(bookings) !! id = Some b → (of_value b.(bk_status) : result Booking.BookingStatus) = Ok st →
  (bought_with_points b = true ∨ can_transition_to st Booking.CANCELLED = false →
     ∃ e, cancel_booking PAYMENT_LINK_DEFAULT_GATEWAY id why by_ who d a f corr s = (Raise e, s)) ∧
  (∀ s', cancel_booking PAYMENT_LINK_DEFAULT_GATEWAY id why by_ who d a f corr s = (Ok (), s') →
     ∃ data, stands bare s id (cancelled_row by_ why b)
       (List.filter (λ x, negb (x.(th_booking_id) =? id)) s.(holds))
       (s.(booking_status_history) ++ [mk_booking_history id (Some (value st)) "cancelled" (Some by_) (Some why)])
       (s.(events) ++ [BookingEvent "Booking.Cancelled" data]) s').
Proof.
  intros Hb Hst. split.
  { unfold cancel_booking, get_by_id, transition_to. rewrite !bind_run, gets_run, Hb. cbn beta iota. rewrite some_or_raise_run, bind_run, raise_if_run.
    destruct (bought_with_points b); [by eauto|]. intros [?|Hstep]; [done|]. rewrite bind_run. unfold lift at 1. rewrite Hst.
    cbn beta iota zeta. rewrite bind_run. unfold lift at 1. rewrite Hstep. cbn [negb]. eauto. }
  apply wp_returned.
  unfold cancel_booking, get_by_id. apply wp_bind, wp_bind, wp_gets, wp_some_or_raise; [|done]. rewrite Hb. intros ? [= <-].
  apply wp_bind, wp_raise_if; [done|]. intros Hbp. rewrite Hst. apply wp_bind, wp_lift. cbv zeta.
  apply wp_bind, wp_lift. unfold transition_to. destruct (can_transition_to st Booking.CANCELLED) eqn:Hstep; [|done]. cbn [negb].
  pose proof (stands_here bare s id b Hb) as Hsd. set (note := ("Cancelled by " ++ by_ ++ ": " ++ why)%string) in *.
  set (half := λ c : Booking, c <| bk_status := "cancelled" |> <| bk_internal_notes := add_note c.(bk_internal_notes) note |>).
  apply wp_bind. eapply (wp_stands_upd bare _ _ _ half); [exact Hsd|reflexivity|]. clear Hsd. intros s1 Hsd.
  apply wp_bind. eapply wp_stands_still; [exact Hsd|apply flush_booking_still; apply _|]. clear Hsd. intros [[]|e] s2 Hsd; [|done].
  apply wp_bind. eapply wp_stands_delete_hold; [exact Hsd|]. clear Hsd. intros s3 Hsd.
  apply wp_bind. eapply wp_stands_record; [exact Hsd|]. clear Hsd. intros s4 Hsd.
  match goal with |- wp (?m ≫= ?k) _ ?Q => assert (∀ r s5, stands bare s id (cancelled_row by_ why b)
      (List.filter (λ x, negb (x.(th_booking_id) =? id)) s.(holds))
      (s.(booking_status_history) ++ [mk_booking_history id (Some (value st)) "cancelled" (Some by_) (Some why)])
      s.(events) s5 → wp (k r) s5 Q) as Htail end.
  { clear Hsd. intros r s5 Hsd. apply wp_bind, wp_gets, wp_bind.
    eapply wp_stands_still; [exact Hsd|apply event_data_still; apply _|]. clear Hsd. intros [data|e] s6 Hsd; [|done].
    apply wp_bind. eapply wp_stands_emit; [exact Hsd|]. clear Hsd. intros s7 Hsd.
    apply wp_bind. eapply wp_stands_still; [exact Hsd|apply drop_links_still; apply _|]. clear Hsd. intros [[]|e] s8 Hsd; [|done].
    eapply wp_stands_still; [exact Hsd|apply drop_cache_still; apply _|]. intros [[]|e] s9 Hsd9; [by eexists|done]. }
  assert (cancelled_payment_status b.(bk_payment_status) = b.(bk_payment_status) → half (bare b) = cancelled_row by_ why b) as Hsame.
  { unfold cancelled_row. intros ->. by destruct b. }
  apply wp_bind, cancelled_payment_cases.
  - intros Eps. eapply wp_stands_still; [exact Hsd|apply swallow_still, cancellation_refund_still; apply _|].
    intros [r|e] s5 Hsd5; [|done]. apply Htail. by rewrite <- Hsame.
  - intros Eps. apply wp_bind. eapply (wp_stands_upd bare _ _ _ (λ c, c <| bk_payment_status := "cancelled" |>)); [exact Hsd|reflexivity|].
    clear Hsd. intros s5 Hsd.
    apply wp_bind. eapply wp_stands_still; [exact Hsd|apply flush_booking_still; apply _|]. clear Hsd. intros [[]|e] s6 Hsd; [|done].
    apply wp_bind. eapply wp_stands_still; [exact Hsd|apply swallow_still, sync_status_still; apply _|]. intros [r|e] s7 Hsd7; [|done].
    apply wp_ret, Htail. unfold cancelled_row. rewrite Eps. exact Hsd7.
  - intros Eps. apply Htail. by rewrite <- Hsame.
Qed.

(** ** Confirming *)

#[local] Hint Extern 2 (changes (still core_of) (upd_booking _ _)) => (apply upd_booking_still; intros; reflexivity) : ush.
#[local] Hint Extern 3 (changes (still _) (modify _)) => (apply modify_still; intros; reflexivity) : ush.
#[local] Hint Resolve get_booking_still asking_still : ush.
Ltac following := repeat (first [ apply swallow_still | change_step ]).
Lemma loyalty_still id : changes (still core_of) (_ensure_booking_loyalty_details id).
Proof. unfold _ensure_booking_loyalty_details. following. Qed.
Lemma invoice_still id : changes (still core_of) (_ensure_booking_invoice id).
Proof. unfold _ensure_booking_invoice, set_payment_invoices. following. Qed.

(** C13: Confirming is refused, and changes nothing, when the status has no
    transition to confirmed and is not confirmed yet.  A confirmation that
    returns leaves the booking confirmed and paid, with its times, therapists
    and amount as they were, its holds gone, one line more in its history and
    exactly one event; confirming again changes nothing but the payment status
    (when payment data is given), and sends nothing. *)
Theorem confirm_booking_correct id pid d src s b st :
  s.(bookings) !! id = Some b → (of_value b.(bk_status) : result Booking.BookingStatus) = Ok st →
  (st ≠ Booking.CONFIRMED → can_transition_to st Booking.CONFIRMED = false →
     ∃ e, confirm_booking id pid d src s = (Raise e, s)) ∧
  (st ≠ Booking.CONFIRMED → ∀ s', confirm_booking id pid d src s = (Ok (), s') →
     ∃ data, stands core_of s id (core_status "confirmed" (core_payment "success" (core_of b)))
       (List.filter (λ x, negb (x.(th_booking_id) =? id)) s.(holds))
       (s.(booking_status_history) ++
          [mk_booking_history id (Some (value st)) "confirmed" (Some (por_str src "payment_webhook")) None])
       (s.(events) ++ [BookingEvent "Booking.Confirmed" data]) s') ∧
  (st = Booking.CONFIRMED → ∀ s', confirm_booking id pid d src s = (Ok (), s') →
     stands core_of s id (match d with Some _ => core_payment "success" (core_of b) | None => core_of b end)
       s.(holds) s.(booking_status_history) s.(events) s').
Proof.
  intros Hb Hst. pose proof (stands_here core_of s id b Hb) as Hsd. split_and!.
  - intros Hne Hstep. unfold confirm_booking, get_by_id, transition_to. rewrite !bind_run, gets_run, Hb. cbn beta iota.
    rewrite some_or_raise_run, bind_run. unfold lift at 1. rewrite Hst. cbn beta iota. rewrite bool_decide_eq_false_2 by done.
    rewrite bind_run. unfold lift at 1. rewrite Hstep. cbn [negb]. eauto.
  - intros Hne. apply wp_returned. unfold confirm_booking, get_by_id.
    apply wp_bind, wp_bind, wp_gets, wp_some_or_raise; [|done]. rewrite Hb. intros ? [= <-].
    apply wp_bind, wp_lift. rewrite Hst, bool_decide_eq_false_2 by done.
    apply wp_bind, wp_lift. unfold transition_to. destruct (can_transition_to st Booking.CONFIRMED); [|done]. cbn [negb].
    apply wp_bind. eapply (wp_stands_upd core_of _ _ _ (λ c, core_status "confirmed" (core_payment "success" c))); [exact Hsd|reflexivity|].
    clear Hsd. intros s1 Hsd.
    apply wp_bind. eapply wp_stands_still; [exact Hsd|apply take_payment_data_still; apply _|]. clear Hsd. intros [[]|e] s2 Hsd; [|done].
    apply wp_bind. eapply wp_stands_still; [exact Hsd|apply flush_booking_still; apply _|]. clear Hsd. intros [[]|e] s3 Hsd; [|done].
    apply wp_bind. eapply wp_stands_delete_hold; [exact Hsd|]. clear Hsd. intros s4 Hsd.
    apply wp_bind. eapply wp_stands_record; [exact Hsd|]. clear Hsd. intros s5 Hsd.
    apply wp_bind. eapply wp_stands_still; [exact Hsd|apply loyalty_still|]. clear Hsd. intros [[]|e] s6 Hsd; [|done].
    apply wp_bind. eapply wp_stands_still; [exact Hsd|apply invoice_still|]. clear Hsd. intros [[]|e] s7 Hsd; [|done].
    apply wp_bind. eapply wp_stands_still; [exact Hsd|apply event_data_still; apply _|]. clear Hsd. intros [data|e] s8 Hsd; [|done].
    eapply wp_stands_emit; [exact Hsd|]. intros s9 Hsd9. by eexists.
  - intros ->. apply wp_returned. unfold confirm_booking, get_by_id.
    apply wp_bind, wp_bind, wp_gets, wp_some_or_raise; [|done]. rewrite Hb. intros ? [= <-].
    apply wp_bind, wp_lift. rewrite Hst, bool_decide_eq_true_2 by done. destruct d as [data|].
    + rewrite bool_decide_eq_true_2 by eauto. apply wp_bind. cbn [when]. apply wp_bind.
      eapply wp_stands_still; [exact Hsd|apply take_payment_data_still; apply _|]. clear Hsd. intros [[]|e] s2 Hsd; [|done].
      apply wp_bind. eapply (wp_stands_upd core_of _ _ _ (core_payment "success")); [exact Hsd|reflexivity|]. clear Hsd. intros s3 Hsd.
      eapply wp_stands_still; [exact Hsd|apply flush_booking_still; apply _|]. clear Hsd. intros [[]|e] s4 Hsd; [|done].
      eapply wp_stands_still; [exact Hsd|apply invoice_still|]. by intros [[]|e] s5 Hsd5.
    + rewrite bool_decide_eq_false_2 by (by intros [? ?]). apply wp_bind, wp_ret.
      eapply wp_stands_still; [exact Hsd|apply invoice_still|]. by intros [[]|e] s5 Hsd5.
Qed.
End spec.
