(* ===== verification/BookingRuns.v ===== *)
(** * Runs of the booking service

    A demonstration database and the calls the theorems are applied to; the runs
    that end with a therapist in two bookings, which the hypotheses of the
    theorems exclude. *)

From S2P Require Import Prelude Exceptions Effects StateMachines Money Numbers Store PyText PyDate Sessions SessionPlanner SessionSpec RefundLifecycle RefundService LinkGateway Settlement LinkService LinkFrame BookingEvents BookingRepo BookingService BookingChanges BookingUpdate BookingSlots BookingFrame BookingSpec SessionChange UpdateSpec CancelSpec.
Import BookingService BookingUpdates.
#[local] Open Scope Z_scope.

(** ** A world and some requests *)

#[local] Instance demo_catalogue : Ushauth := {|
  get_service := λ _, Ok (JDict [("name", JStr "Massage")]);
  get_service_arrangement := λ _, Ok (JDict [("name", JStr "Room 1")]);
  get_therapist := λ _, Ok (JDict [("name", JStr "Maria")]);
  check_appointment_availability := λ _, Ok (JDict [("available", JStr "yes")]);
  check_booking_therapist_availability := λ _ _ _ _, Ok (JDict [("available", JStr "yes")]) |}.
#[local] Instance demo_world : World := {|
  json_loads := λ _, None; LinkGateway.fromisoformat := λ _, None; hmac_sha256_hex := λ _ t, t;
  hmac_sha256_base64 := λ _ t, t; sha256_hex := λ t, t; secret_key := λ _, "secret";
  schedule_answer := λ _ _, Ok ""; provider_refund := λ _ _ _, Raise (err PaymentProviderError);
  gateway_http := λ _ _, Raise (err PaymentProviderError); invoice_lookup := λ _ _, Ok None |}.
#[local] Instance demo_booking_world : BookingWorld := {|
  booking_world := demo_world; booking_catalogue := demo_catalogue;
  appointment_cache := λ _ _, Ok (); booking_invoice := λ _ _, Ok None |}.

(** 2026-07-14 in Kuwait. *)
Definition midnight : Z := Eval vm_compute in default 0 (parse_dt (JStr "2026-07-14T00:00:00+03:00")).
Definition at_hour (h : Z) : Z := midnight + h * us_per_hour.
Definition hours_session (position start t : Z) : json :=
  match build_session (mk_session_args position (at_hour start) (JStr (uuid_str t)) [] (JStr (uuid_str 50)) []
          [JDict [("service_id", JStr (uuid_str 60)); ("service_data", JDict [("name", JStr "Massage")]);
                  ("duration_minutes", JInt 60); ("base_price", JStr "20.000"); ("service_arrangement_id", JStr (uuid_str 50))]] []
          0 JNull JNull JNull [] JNull) (uuid_str (70 + position)) with
  | Ok s => s | Raise _ => JNull end.

(** A request for sessions of one hour: their starts and therapists. *)
Definition request_for (customer : Z) (l : list (Z * Z)) : CreateBooking :=
  let sessions := imap (λ i '(start, t), hours_session (Z.of_nat i) start t) l in
  let m := legacy_mirror sessions in
  mk_create_booking customer None (Some 3) None m.(m_services) None None None None
    (match l with (_, t) :: _ => t | [] => 0 end) None None None
    (default 0 m.(m_appointment_start)) (default 0 m.(m_appointment_end)) (60 * Z.of_nat (length l)) 0
    (Some (60 * Z.of_nat (length l))) (Some 0) None
    (mk_pricing (of_fils 20000) ZERO ZERO ZERO ZERO ZERO (of_fils 20000) "KWD") None None
    None None None None None None None None "branch_service" "service" "confirmed" "pending" None None None None None
    None None None None sessions.

(** The requests in turn, each from the database the last one left. *)
Definition run_steps (l : list (M Store ())) (s : Store) : result () * Store := for_each l id s.
Definition create (customer : Z) (l : list (Z * Z)) : M Store () := create_booking 15 (request_for customer l) ;; mret ().
Definition update (id : Z) (u : UpdateBooking) : M Store () := update_booking "deema" 60 id u "a1b2c3".
Definition opening : Store := empty_store (at_hour (-72)).

(** ** Databases that are well formed *)

Lemma empty_schedule t : schedule_ok (empty_store t).
Proof. split; [intros i j b c t' w v Hb|intros i b Hb]; cbn in Hb; by rewrite lookup_empty in Hb. Qed.

Lemma single_schedule s id b : s.(bookings) = {[ id := b ]} → slot_ok (slot_of b) → schedule_ok s.
Proof.
  intros E Hok. split; [intros i j c d t w v Hc Hd Hij|intros i c Hc]; rewrite E in *.
  - apply lookup_singleton_Some in Hc as [-> _]. by apply lookup_singleton_Some in Hd as [-> _].
  - by apply lookup_singleton_Some in Hc as [_ <-].
Qed.

(** The database after one request for an hour at ten. *)
Definition booked : Store := Eval vm_compute in (create 9 [(10, 1)] opening).2.
Definition booked_row : Booking := Eval vm_compute in
  match booked.(bookings) !! 1 with Some b => b | None => attribute_booking (new_booking (request_for 9 []) [] (mk_primary None [] None []) 0 "" 0) end.

(** The sessions of a request for one hour mirror its columns. *)
Ltac one_hour t :=
  split_and!; [|done|done|intros _; vm_compute; reflexivity];
  constructor; [|constructor]; split; [done|by exists t|by exists None|];
  eexists _, _; split_and!; [vm_compute; reflexivity|done|done].

Lemma booked_row_ok : slot_ok (slot_of booked_row).
Proof. split; [done|intros t2 [=]|by exists Booking.CONFIRMED|]. one_hour 1. Qed.
Lemma booked_schedule : schedule_ok booked.
Proof. by apply (single_schedule _ 1 booked_row), booked_row_ok. Qed.
Lemma run_ok {A} (r : result A * Store) a : r.1 = Ok a → r = (Ok a, r.2).
Proof. destruct r. cbn. by intros ->. Qed.
Lemma booked_lookup b : booked.(bookings) !! 1 = Some b → b = booked_row.
Proof. vm_compute. by intros [= <-]. Qed.

(** The booking still on hold, before its payment. *)
Definition held : Store := booked <| bookings := {[ 1 := booked_row <| bk_status := "draft" |> ]} |>
  <| holds := [mk_hold 1 1 50 (at_hour 10) (at_hour 11) (at_hour (-71))] |>.

(** ** The theorems at these databases *)

Lemma create_booking_no_double_booking_witness :
  let run := create_booking 15 (request_for 8 [(14, 1)]) booked in run.1 = Ok 2 ∧ schedule_ok run.2.
Proof.
  split; [vm_compute; reflexivity|]. apply (create_booking_no_double_booking 15); [exact booked_schedule|].
  split; [done|]. split; [intros t2 [=]|]. split; [by exists Booking.CONFIRMED|]. one_hour 1.
Defined.

Lemma change_session_therapist_no_double_booking_witness :
  let run := change_session_therapist 1 (mk_change_therapist (uuid_str 70) (Some 2) None None None false) booked in
  run.1 = Ok () ∧ schedule_ok run.2.
Proof.
  split; [vm_compute; reflexivity|]. apply change_session_therapist_no_double_booking; [exact booked_schedule| | |].
  - intros t. cbn. by intros [= <-].
  - intros t [=].
  - intros b ->%booked_lookup. by vm_compute.
Defined.

Definition moved : UpdateBooking := (no_update "admin") <| ub_appointment_start := Some (at_hour 14) |>.
Lemma moved_times sess a z :
  sess ∈ booked_row.(bk_schedule).(sc_sessions) → session_window sess = (Some a, Some z) → printable_window (a, z).
Proof.
  intros Hs%list_elem_of_singleton E. assert (session_window sess = (Some (at_hour 10), Some (at_hour 11))) as E'
    by (rewrite Hs; vm_compute; reflexivity).
  rewrite E in E'. injection E' as -> ->. vm_compute. split; split; done.
Qed.
Lemma moved_target : printable_window (target_window moved booked_row).
Proof. vm_compute. split; split; done. Qed.
Lemma moved_safe : update_safe moved booked_row.
Proof.
  split.
  - intros t. by intros [[=]|[=]].
  - intros l [=].
  - left. cbn. lia.
  - intros _ (_ & _ & _ & [=] & _).
  - intros sess Hs a z. by apply moved_times.
  - intros _ b1 [= <-]. exact moved_target.
Qed.

Lemma update_booking_no_double_booking_witness :
  let run := update_booking "deema" 60 1 moved "a1b2c3" booked in
  run.1 = Ok () ∧ schedule_ok run.2.
Proof.
  split; [vm_compute; reflexivity|].
  eapply (update_booking_no_double_booking "deema" 60 1 _ "a1b2c3" booked); [exact booked_schedule| |apply run_ok; vm_compute; reflexivity].
  intros b ->%booked_lookup. exact moved_safe.
Defined.

Lemma cancel_booking_correct_witness :
  let run := cancel_booking "deema" 1 "ill" "admin" None None None None (Some "c1") held in
  run.1 = Ok () ∧
  ∃ data, stands bare held 1 (cancelled_row "admin" "ill" (booked_row <| bk_status := "draft" |>)) []
            (held.(booking_status_history) ++ [mk_booking_history 1 (Some "draft") "cancelled" (Some "admin") (Some "ill")])
            (held.(events) ++ [BookingEvent "Booking.Cancelled" data]) run.2.
Proof.
  split; [vm_compute; reflexivity|].
  refine (proj2 (cancel_booking_correct "deema" 1 "ill" "admin" None None None None (Some "c1") held
           (booked_row <| bk_status := "draft" |>) Booking.DRAFT eq_refl eq_refl) _ _).
  apply run_ok. vm_compute. reflexivity.
Defined.

Lemma confirm_booking_correct_witness :
  let run := confirm_booking 1 "p1" None None held in
  run.1 = Ok () ∧
  ∃ data, stands core_of held 1 (core_status "confirmed" (core_payment "success" (core_of (booked_row <| bk_status := "draft" |>)))) []
            (held.(booking_status_history) ++ [mk_booking_history 1 (Some "draft") "confirmed" (Some "payment_webhook") None])
            (held.(events) ++ [BookingEvent "Booking.Confirmed" data]) run.2.
Proof.
  split; [vm_compute; reflexivity|].
  refine (proj1 (proj2 (confirm_booking_correct 1 "p1" None None held
           (booked_row <| bk_status := "draft" |>) Booking.DRAFT eq_refl eq_refl)) _ _ _); [discriminate|].
  apply run_ok. vm_compute. reflexivity.
Defined.

(** ** Double bookings *)

(** Two bookings that occupy a therapist at once. *)
Definition overlapping (w v : Z * Z) : bool := (w.1 <? v.2) && (v.1 <? w.2).
Definition double_booked (t : Z) (s : Store) : bool :=
  existsb (λ '(i, b), existsb (λ '(j, c), negb (i =? j) && blocking b && blocking c &&
    existsb (λ w, existsb (overlapping w) (busy c t)) (busy b t)) (map_to_list s.(bookings))) (map_to_list s.(bookings)).

Lemma double_booked_spec t s : valid_id t → double_booked t s = true → ¬ no_double_booking s.
Proof.
  unfold double_booked. intros Ht H Hno. apply existsb_exists in H as ([i b] & Hb & H).
  apply existsb_exists in H as ([j c] & Hc & H). breflect.
  match goal with H : existsb _ _ = true |- _ => apply existsb_exists in H as (w & Hw & (v & Hv & Ho)%existsb_exists) end.
  apply list_elem_of_In, elem_of_map_to_list in Hb, Hc. apply list_elem_of_In in Hw, Hv.
  assert (apart_windows w v) as Ha by by eapply (Hno i j b c).
  unfold overlapping in Ho. unfold apart_windows in Ha. breflect. lia.
Qed.

(** A booking of two sessions with a break between them whose therapist alone
    is changed: the row's end becomes the start plus the minutes worked, so the
    second session is no longer looked up, and its therapist is booked again. *)
Theorem reassigned_booking_hides_a_session :
  let run := run_steps [create 9 [(10, 1); (14, 2)]; update 1 ((no_update "admin") <| ub_therapist_id := Some 3 |>);
                        create 8 [(14, 2)]] opening in
  run.1 = Ok () ∧ ¬ no_double_booking run.2.
Proof. split; [vm_compute; reflexivity|]. apply (double_booked_spec 2); [done|]. vm_compute. reflexivity. Qed.

(** A booking of two sessions moved by its start: only the first therapist is
    looked up at the new time, and the second session lands on another booking
    of its therapist. *)
Theorem moved_sessions_double_book :
  let run := run_steps [create 9 [(10, 1); (11, 2)]; create 8 [(15, 2)];
                        update 1 ((no_update "admin") <| ub_appointment_start := Some (at_hour 14) |>)] opening in
  run.1 = Ok () ∧ ¬ no_double_booking run.2.
Proof. split; [vm_compute; reflexivity|]. apply (double_booked_spec 2); [done|]. vm_compute. reflexivity. Qed.

(** A parked booking whose slot was given to another is brought back by its
    status alone: nothing is looked up. *)
Theorem unparked_booking_double_books :
  let run := run_steps [create 9 [(10, 1)];
                        update 1 ((no_update "admin") <| ub_status := Some Booking.PARKED |> <| ub_payment_status := Some "success" |>);
                        create 8 [(10, 1)]; update 1 ((no_update "admin") <| ub_status := Some Booking.CONFIRMED |>)] opening in
  run.1 = Ok () ∧ ¬ no_double_booking run.2.
Proof. split; [vm_compute; reflexivity|]. apply (double_booked_spec 1); [done|]. vm_compute. reflexivity. Qed.
