(* ===== verification/GatewayParser.v ===== *)
(** * Reading what payment gateways answer (app/payment/domain/parser.py)

    [parse_gateway_response] turns the response of a gateway (MyFatoorah, Tap or
    any other) into the columns of a payment, for the payment endpoints.  Numbers
    are finite: a text that reads as an infinity or not-a-number is left out. *)

From S2P Require Import Prelude Exceptions Effects StateMachines Money Numbers Store PyText PyDate Sessions LinkService.
#[local] Open Scope Z_scope.

(** [_safe_decimal]. *)
Definition _safe_decimal (value : json) (default_ : Decimal) : Decimal :=
  if jblank value then default_
  else default default_ (parse_number (strip (remove "," (remove "KWD" (remove "KD" (json_str value)))))).

(** [_safe_datetime]. *)
Definition _safe_datetime (value : option string) : option datetime :=
  match value with
  | Some v => if truthy v then PyDate.fromisoformat (replace_all " " "T" (strip v)) else None
  | None => None
  end.

(** [str(a or b or "").strip() or None]. *)
Definition stripped (l : list json) : option string := or_none (strip (text_or_empty l)).

(** What the parser returns. *)
Record Parsed := mk_parsed {
  ps_status : string; ps_total_amount : Decimal; ps_currency : string; ps_invoice_value : Decimal;
  ps_invoice_id : option string; ps_transaction_id : option string; ps_payment_id : option string;
  ps_reference_id : option string; ps_track_id : option string; ps_transaction_status : option string;
  ps_transaction_date : option string; ps_payment_method : string; ps_payment_gateway : option string;
  ps_payment_url : option string; ps_country : option string; ps_customer_data : option jdict;
  ps_paid_at : option datetime; ps_payment_data : jdict }.

(** The wrapped data and its first transaction. *)
Definition wrapped (payload : json) : json := mapping (jor_list [jget payload "data"; jget payload "Data"; JDict []]).
Definition first_txn (data : json) : json :=
  match jor_list [jget data "InvoiceTransactions"; jget data "invoice_transactions"; JList []] with
  | JList (t :: _) => mapping t
  | _ => JDict []
  end.

(** ** The status *)

Definition is_true (j : json) : bool := match j with JBool b => b | _ => false end.
Definition is_paid_flag (payload : json) : bool :=
  is_true (jget payload "isPaid") || is_true (jget payload "IsSuccess") || is_true (jget payload "is_paid").
Definition parsed_status (payload data txn : json) : string :=
  let invoice_status := lower (text_or_empty [jget data "InvoiceStatus"; jget payload "status"]) in
  let txn_status := lower (text_or_empty [jget txn "TransactionStatus"]) in
  if is_paid_flag payload || String.eqb invoice_status "paid" || contains "succ" txn_status ||
     (invoice_status in? ["success"; "captured"]) then value Payment.SUCCESS
  else if (invoice_status in? ["failed"; "error"]) || contains "fail" txn_status then value Payment.FAILED
  else if invoice_status in? ["cancelled"; "canceled"] then value Payment.CANCELLED
  else value Payment.PENDING.

(** ** Amount and currency *)

Definition raw_amount (payload data txn : json) : json :=
  jor_list [jget data "InvoiceValue"; jget txn "TransationValue"; jget txn "DueValue"; jget payload "amount";
            jget data "InvoiceDisplayValue"].
Definition parsed_currency (payload data txn : json) : string :=
  let currency := upper (json_str (jor_list [jget txn "Currency"; jget txn "PaidCurrency"; jget data "CurrencyIso";
                                             jget payload "currency"; JStr "KWD"])) in
  if currency in? ["KD"; "KWD"] then "KWD" else currency.

(** ** Method and gateway *)

Definition gateway_name (payload txn : json) (source_id : string) : option string :=
  match stripped [jget txn "PaymentGateway"; jget payload "gateway"] with
  | Some g => Some g
  | None => if contains "deema" source_id then Some "Deema" else None
  end.
Definition mentions_text (t : string) (name : option string) : bool := contains t (lower (default "" name)).
Definition parsed_method (name : option string) (source_id : string) : string :=
  if contains "deema" source_id || mentions_text "deema" name then "deema"
  else if mentions_text "apple" name then "apple_pay"
  else if mentions_text "google" name then "google_pay"
  else if mentions_text "knet" name then "knet" else "card".
Definition parsed_gateway (name : option string) : option string :=
  (λ g, let up := upper g in
        if contains "KNET" up || contains "K-NET" up then "KNET"
        else if contains "DEEMA" up then "Deema"
        else if contains "TAP" up then "TAP" else "Other") <$> name.

(** ** Customer and audit data *)

(** [{k: v for k, v in d if v is not None}] of texts. *)
Definition present (l : list (string * json)) : jdict := List.filter (λ '(_, v), match v with JNull => false | _ => true end) l.

Definition gateway_customer (payload data : json) : option jdict :=
  let mobile := opt_json (stripped [jget data "CustomerMobile"; jget payload "customer_mobile"]) in
  match present [
    ("name", opt_json (stripped [jget data "CustomerName"; jget payload "customer_name"]));
    ("mobile", mobile); ("phone_number", mobile);
    ("email", opt_json (stripped [jget data "CustomerEmail"; jget payload "customer_email"]))] with
  | [] => None
  | d => Some d
  end.

Definition card_info (txn : json) : json :=
  match jget txn "Card" with
  | JDict (_ :: _) as card =>
      JDict ((λ '(k, gateway_key), (k, jget_or card gateway_key (JStr ""))) <$> [
        ("name_on_card", "NameOnCard"); ("brand", "Brand"); ("issuer", "Issuer"); ("issuer_country", "IssuerCountry");
        ("funding_method", "FundingMethod"); ("pan_hash", "PanHash"); ("expiry_month", "ExpiryMonth");
        ("expiry_year", "ExpiryYear")])
  | _ => JNull
  end.

(** ** The whole response *)

Definition parse_dict (d : jdict) : Parsed :=
  let payload := JDict d in
  let data := wrapped payload in
  let txn := first_txn data in
  let raw := raw_amount payload data txn in
  let amount := _safe_decimal raw ZERO in
  let ref_obj := mapping (jget payload "reference") in
  let source_obj := mapping (jget payload "source") in
  let charge_id := if String.prefix "chg_" (text_or_empty [jget payload "id"]) then jget payload "id" else JStr "" in
  let invoice_id := stripped [jget data "InvoiceId"; jget payload "invoiceId"; jget payload "InvoiceId"; charge_id] in
  let transaction_id := stripped [jget txn "TransactionId"; jget payload "transaction_id"; jget ref_obj "transaction"] in
  let payment_id := stripped [jget txn "PaymentId"; jget data "PaymentId"; jget payload "payment_id"; jget payload "PaymentId";
                              jget ref_obj "payment"; jget payload "id"] in
  let source_id := lower (strip (text_or_empty [jget source_obj "id"; jget source_obj "payment_method"])) in
  let name := gateway_name payload txn source_id in
  let transaction_date := stripped [jget txn "TransactionDate"; jget payload "transaction_date"] in
  let country := stripped [jget txn "Country"] in
  let invoice_reference := stripped [jget data "InvoiceReference"] in
  mk_parsed (parsed_status payload data txn) amount (parsed_currency payload data txn)
    (_safe_decimal (jor_list [jget data "InvoiceValue"; jget txn "DueValue"; raw]) amount)
    invoice_id transaction_id payment_id
    (stripped [jget txn "ReferenceId"; jget ref_obj "gateway"; jget ref_obj "order"])
    (stripped [jget txn "TrackId"; jget ref_obj "track"; jget ref_obj "acquirer"])
    (stripped [jget txn "TransactionStatus"; jget payload "status"]) transaction_date
    (parsed_method name source_id) (parsed_gateway name)
    (stripped [jget payload "paymentUrl"; jget data "PaymentURL"]) country (gateway_customer payload data)
    (_safe_datetime (match transaction_date with Some t => Some t | None => stripped [jget data "CreatedDate"] end))
    (present [
      ("provider_payment_id", opt_json invoice_id);
      ("provider_reference", opt_json (match invoice_reference with Some r => Some r | None => invoice_id end));
      ("provider_transaction_id", opt_json transaction_id); ("invoice_reference", opt_json invoice_reference);
      ("customer_reference", opt_json (stripped [jget data "CustomerReference"]));
      ("authorization_id", opt_json (stripped [jget txn "AuthorizationId"])); ("payment_id_gateway", opt_json payment_id);
      ("gateway_name", opt_json name); ("ip_address", opt_json (stripped [jget txn "IpAddress"; jget payload "ip_address"]));
      ("country", opt_json country); ("card_info", card_info txn); ("raw_response", payload)]).

(** [{}] of anything but an object. *)
Definition parse_gateway_response (payload : json) : option Parsed :=
  match payload with JDict d => Some (parse_dict d) | _ => None end.
