(* ===== verification/PaymentApi.v ===== *)
(** * The payment endpoints (app/api/v1/payments.py)

    Creating, updating and deleting payment rows, initiating a payment, linking
    an invoice, and the two gateway webhooks.  The session does not flush on its
    own: a row read and assigned to is a [Draft] until an explicit flush, when the
    attribution listener runs and the database checks the numeric columns and the
    unique payment number; lengths of text columns are not checked.  An endpoint
    returns the HTTP status with the payment; the body it renders is left out, as
    are the listings.  A body is the validated one.  The key of a deleted payment
    may be drawn again. *)

From S2P Require Import Prelude Exceptions Effects StateMachines Money Numbers Store PyText PyDate Attribution Sessions RefundLifecycle VoucherSnapshot VoucherService RefundService LinkGateway LinkAdapters Settlement LinkService BookingEvents BookingRepo BookingService BookingChanges GatewayParser.
From Stdlib Require Import Ascii.
Import BookingService.
#[local] Open Scope Z_scope.

(** ** Value objects (app/payment/domain/value_objects.py) *)

Definition PaymentProvider_normalise (v : string) : string :=
  match normalise_provider (Some v) with
  | Some canonical => canonical
  | None => if lower (strip v) in? ["knet"; "card"] then "knet_pos" else "other"
  end.
Definition PaymentThrough_normalise (v : string) : string := default "other" (normalise_through (Some v)).
Definition PaymentGateway_normalise (v : string) : string :=
  let v := remove " " (remove "_" (remove "-" (upper (strip v)))) in
  if String.eqb v "KNET" then "KNET" else if String.eqb v "TAP" then "TAP"
  else if v in? ["DEEMA"; "DEEMAPAYMENTLINK"] then "Deema" else "Other".
Definition PaymentFor_normalise (v : string) : string :=
  let v := replace_all " " "_" (replace_all "-" "_" (lower (strip v))) in
  if v in? ["home_service"; "home"] then "home_service"
  else if v in? ["gift_voucher"; "voucher"] then "gift_voucher"
  else if v in? ["product_items"; "products"; "product"] then "product_items"
  else "branch_service".

(** ** Helpers *)

(** [^[A-Z]{2,6}/\d{4}/\d{2}/\d{5,}$] of a text without trailing newline. *)
Fixpoint span (P : Ascii.ascii → bool) (s : string) : Z * string :=
  match s with
  | String c s' => if P c then let '(n, r) := span P s' in (n + 1, r) else (0, s)
  | EmptyString => (0, EmptyString)
  end.
Definition is_capital (c : Ascii.ascii) : bool :=
  let n := Z.of_nat (Ascii.nat_of_ascii c) in (65 <=? n) && (n <=? 90).
Definition after_slash (s : string) : option string :=
  match s with String c s => if (c =? "/")%char then Some s else None | EmptyString => None end.
Definition invoice_name_ok (s : string) : bool :=
  let '(letters, r) := span is_capital s in
  (2 <=? letters) && (letters <=? 6) &&
  match after_slash r with
  | Some r =>
      let '(year, r) := span is_digit r in
      (year =? 4) &&
      match after_slash r with
      | Some r =>
          let '(month, r) := span is_digit r in
          (month =? 2) &&
          match after_slash r with
          | Some r => let '(number, r) := span is_digit r in (5 <=? number) && negb (truthy r)
          | None => false
          end
      | None => false
      end
  | None => false
  end.

Definition _trusted_invoice_number (supplied : option string) (booking : option Booking) : option string :=
  let booking_inv := strip (default "" (booking ≫= bk_invoice_number)) in
  let cleaned := strip (default "" supplied) in
  if invoice_name_ok booking_inv then Some booking_inv
  else if invoice_name_ok cleaned then Some cleaned else None.

Definition has_key (d : jdict) (k : string) : bool := bool_decide (is_Some (dict_get d k)).
(** [d.get(k) or ""] of an optional column. *)
Definition field_or_empty (d : option jdict) (k : string) : json := jor (jget (JDict (or_empty d)) k) (JStr "").
(** [(d or {}).get(k, "")]. *)
Definition field_default (d : option jdict) (k : string) : json := jget_or (JDict (or_empty d)) k (JStr "").

Definition _build_booking_snapshot (id : Z) (b : Booking) : jdict :=
  let c := b.(bk_schedule) in
  let services := get_booking_services (columns_of id b) in
  let therapist := JDict (or_empty c.(sc_therapist_data)) in [
    ("booking_id", JStr (uuid_str id)); ("booking_number", opt_str b.(bk_booking_number));
    ("service_id", JStr (uuid_str b.(bk_service_id)));
    ("service_name", jor (JStr (joined_service_name services ", ")) (field_default b.(bk_service_data) "name"));
    ("services", JList (cache_services_payload services));
    ("service_category", field_default b.(bk_service_data) "category");
    ("branch_id", id_json b.(bk_branch_id)); ("branch_name", field_default b.(bk_branch_data) "name");
    ("branch_address", field_default b.(bk_branch_data) "address");
    ("service_arrangement_id", id_json b.(bk_service_arrangement_id));
    ("arrangement_type", field_default b.(bk_service_arrangement_data) "arrangement_type");
    ("room_name", field_default b.(bk_service_arrangement_data) "room_name");
    ("therapist_id", JStr (uuid_str c.(sc_therapist_id)));
    ("therapist_name", jor_list [jget therapist "name"; jget therapist "full_name"; JStr ""]);
    ("appointment_start", JStr (isoformat KUWAIT b.(bk_appointment_start)));
    ("appointment_end", JStr (isoformat KUWAIT c.(sc_appointment_end)));
    ("duration_minutes", JInt b.(bk_duration_minutes)); ("extra_minutes", JInt c.(sc_extra_minutes));
    ("arrangement_price", JStr (amount_text c.(sc_arrangement_price)));
    ("price_for_extra_minutes", JStr (amount_text c.(sc_price_for_extra_minutes)));
    ("addon_price", JStr (amount_text c.(sc_addon_price))); ("discount", JStr (amount_text c.(sc_discount)));
    ("tax", JStr (amount_text c.(sc_tax))); ("fees", JStr (amount_text c.(sc_fees)));
    ("total_amount", JStr (amount_text b.(bk_total_amount))); ("currency", JStr b.(bk_currency));
    ("addons", JList (default [] c.(sc_addons))); ("customer_notes", opt_str c.(sc_customer_notes))].

(** ** Requests (app/payment/interfaces/schemas.py) *)

(** The optional fields the requests to create and to update share. *)
Record PaymentFields := mk_fields {
  pf_customer_data : option jdict; pf_sender_id : option Z; pf_sender_data : option jdict;
  pf_service_id : option Z; pf_service_data : option jdict; pf_branch_id : option Z; pf_branch_data : option jdict;
  pf_service_arrangement_id : option Z; pf_service_arrangement_data : option jdict;
  pf_addons : option json; pf_addons_price : option Decimal; pf_extra_time : option Z;
  pf_price_for_extra_time : option Decimal; pf_country : option string; pf_status : option string;
  pf_paid_at : option datetime; pf_recipient_id : option Z; pf_recipient_phone : option string;
  pf_recipient_data : option jdict; pf_booking_id : option Z; pf_booking_data : option jdict;
  pf_voucher_id : option Z; pf_voucher_number : option string; pf_voucher_data : option jdict;
  pf_product_order_id : option Z; pf_product_order_items : option json; pf_invoice_id : option string;
  pf_invoice_value : option Decimal; pf_payment_url : option string; pf_transaction_id : option string;
  pf_track_id : option string; pf_reference_id : option string; pf_transaction_status : option string;
  pf_transaction_date : option string; pf_receipt_image : option string; pf_payment_method : option string;
  pf_payment_through : option string; pf_payment_provider : option string; pf_payment_gateway : option string;
  pf_payment_for : option string; pf_payment_number : option string; pf_invoice_number : option string;
  pf_payment_id : option string; pf_payment_data : option jdict; pf_gateway_response : option jdict;
  pf_created_by_user : option string; pf_created_by : option string; pf_created_by_user_data : option jdict }.
#[export] Instance eta_PaymentFields : Eta PaymentFields := λ f, mk_fields
  f.(pf_customer_data) f.(pf_sender_id) f.(pf_sender_data) f.(pf_service_id) f.(pf_service_data) f.(pf_branch_id)
  f.(pf_branch_data) f.(pf_service_arrangement_id) f.(pf_service_arrangement_data) f.(pf_addons) f.(pf_addons_price)
  f.(pf_extra_time) f.(pf_price_for_extra_time) f.(pf_country) f.(pf_status) f.(pf_paid_at) f.(pf_recipient_id)
  f.(pf_recipient_phone) f.(pf_recipient_data) f.(pf_booking_id) f.(pf_booking_data) f.(pf_voucher_id)
  f.(pf_voucher_number) f.(pf_voucher_data) f.(pf_product_order_id) f.(pf_product_order_items) f.(pf_invoice_id)
  f.(pf_invoice_value) f.(pf_payment_url) f.(pf_transaction_id) f.(pf_track_id) f.(pf_reference_id)
  f.(pf_transaction_status) f.(pf_transaction_date) f.(pf_receipt_image) f.(pf_payment_method)
  f.(pf_payment_through) f.(pf_payment_provider) f.(pf_payment_gateway) f.(pf_payment_for) f.(pf_payment_number)
  f.(pf_invoice_number) f.(pf_payment_id) f.(pf_payment_data) f.(pf_gateway_response) f.(pf_created_by_user)
  f.(pf_created_by) f.(pf_created_by_user_data).
Definition no_fields : PaymentFields := mk_fields
  None None None None None None None None None None None None None None None None None None None None None None None None
  None None None None None None None None None None None None None None None None None None None None None None None None.

Record CreatePaymentRequest := mk_create_payment {
  cp_customer_id : Z; cp_total_amount : Decimal; cp_total_duration : Z; cp_currency : string; cp_fields : PaymentFields }.
Record UpdatePaymentRequest := mk_update_payment {
  up_total_amount : option Decimal; up_total_duration : option Z; up_currency : option string; up_source : string;
  up_fields : PaymentFields }.
Record LinkInvoiceRequest := mk_link_invoice { li_source_type : string; li_source_id : string; li_invoice_number : string }.
(** The claims of the caller's token. *)
Record CurrentUser := mk_current_user {
  cu_sub : string; cu_first_name : option string; cu_last_name : option string; cu_phone_number : option string;
  cu_email : option string; cu_role : option string; cu_user_type : option string; cu_language_preference : option string }.

(** asyncpg reads a datetime without offset at the offset of the process. *)
Class PaymentWorld := {
  #[global] payment_world :: BookingWorld;
  process_offset : Z;
}.

(** ** A row with pending assignments *)

(** Numbers and the time of payment are kept as they were assigned; the other
    columns of [dr_row] are the instance's. *)
Record Draft := mk_draft {
  dr_row : Payment; dr_total_amount : option Decimal; dr_invoice_value : option Decimal; dr_addons_price : option Decimal;
  dr_price_for_extra_time : option Decimal; dr_paid_at : option datetime; dr_dirty : bool }.
#[export] Instance eta_Draft : Eta Draft := λ d, mk_draft
  d.(dr_row) d.(dr_total_amount) d.(dr_invoice_value) d.(dr_addons_price) d.(dr_price_for_extra_time) d.(dr_paid_at)
  d.(dr_dirty).
Definition draft_of (p : Payment) : Draft := mk_draft p None None None None None false.

(** What the attributes read. *)
Definition mem_total_amount (d : Draft) : Decimal := default (of_fils d.(dr_row).(pm_total_amount)) d.(dr_total_amount).
Definition mem_invoice_value (d : Draft) : option Decimal :=
  match d.(dr_invoice_value) with Some v => Some v | None => of_fils <$> d.(dr_row).(pm_invoice_value) end.
Definition mem_paid_at (d : Draft) : option Z :=
  match d.(dr_paid_at) with Some dt => Some (to_local_tz dt) | None => d.(dr_row).(pm_paid_at) end.

(** [if v is not None: payment.column = ...], and a list of such statements. *)
Definition assign {A} (o : option A) (f : A → Draft → Draft) (d : Draft) : Draft :=
  match o with Some a => (f a d) <| dr_dirty := true |> | None => d end.
Definition column {A} (o : option A) (f : A → Payment → Payment) : Draft → Draft :=
  assign o (λ a d, d <| dr_row := f a d.(dr_row) |>).
Definition details {A} (o : option A) (f : A → PaymentDetails → PaymentDetails) : Draft → Draft :=
  column o (λ a p, p <| pm_details := f a p.(pm_details) |>).
Definition only_if {A} (b : bool) (a : A) : option A := if b then Some a else None.
Definition statements (l : list (Draft → Draft)) (d : Draft) : Draft := foldl (λ d f, f d) d l.

(** A truthy value for an empty column. *)
Definition fill (new old : option string) : option string := only_if (truthy_opt new && negb (truthy_opt old)) new ≫= id.
Definition present_dict (d : option jdict) : option jdict := match d with Some (_ :: _) => d | _ => None end.

Definition fill_dict (new old : option jdict) : option jdict := match present_dict old with None => present_dict new | Some _ => None end.

(** The columns of a parsed response that Tap's webhook stores, and the others. *)
Definition tap_columns (ps : Parsed) : list (Draft → Draft) := [
  column (Some ps.(ps_status)) (λ v p, p <| pm_status := Some v |>);
  column ps.(ps_transaction_id) (λ v p, p <| pm_transaction_id := Some v |>);
  column ps.(ps_track_id) (λ v p, p <| pm_track_id := Some v |>);
  column ps.(ps_reference_id) (λ v p, p <| pm_reference_id := Some v |>);
  assign ps.(ps_paid_at) (λ v d, d <| dr_paid_at := Some v |>)].
Definition gateway_columns (ps : Parsed) : list (Draft → Draft) := tap_columns ps ++ [
  assign (Some ps.(ps_total_amount)) (λ v d, d <| dr_total_amount := Some v |>);
  column (Some ps.(ps_currency)) (λ v p, p <| pm_currency := v |>);
  column ps.(ps_invoice_id) (λ v p, p <| pm_invoice_id := Some v |>);
  assign (Some ps.(ps_invoice_value)) (λ v d, d <| dr_invoice_value := Some v |>);
  column ps.(ps_payment_id) (λ v p, p <| pm_payment_id := Some v |>);
  column ps.(ps_transaction_status) (λ v p, p <| pm_transaction_status := Some v |>);
  details ps.(ps_transaction_date) (λ v p, p <| pd_transaction_date := Some v |>);
  column (Some ps.(ps_payment_method)) (λ v p, p <| pm_payment_method := Some v |>);
  column ps.(ps_payment_gateway) (λ v p, p <| pm_payment_gateway := Some v |>);
  column ps.(ps_payment_url) (λ v p, p <| pm_payment_url := Some v |>);
  details ps.(ps_country) (λ v p, p <| pd_country := Some v |>);
  column (present_dict ps.(ps_customer_data))
    (λ v p, p <| pm_customer_data := merged_payment_data p.(pm_customer_data) v |>)].
Definition gateway_data (ps : Parsed) : Draft → Draft :=
  column (Some ps.(ps_payment_data)) (λ v p, p <| pm_payment_data := merged_payment_data p.(pm_payment_data) v |>).

(** What the booking learns of the payment; the keys differ by endpoint. *)
Definition _meta_snapshot (pid : Z) (d : Draft) : jdict :=
  let p := d.(dr_row) in [
    ("payment_id", JStr (por_str p.(pm_payment_id) (uuid_str pid))); ("transaction_id", opt_str p.(pm_transaction_id));
    ("invoice_id", opt_str p.(pm_invoice_id));
    ("invoice_value", JStr (dec_str (match mem_invoice_value d with
                                     | Some v => if v.(coeff) =? 0 then mem_total_amount d else v
                                     | None => mem_total_amount d end)));
    ("status", opt_str p.(pm_status)); ("reference_id", opt_str p.(pm_reference_id));
    ("transaction_date", opt_str p.(pm_details).(pd_transaction_date)); ("payment_gateway", opt_str p.(pm_payment_gateway));
    ("payment_provider", opt_str p.(pm_payment_provider)); ("paid_at", opt_str (isoformat KUWAIT <$> mem_paid_at d))].
Definition keep_keys (ks : list string) (d : jdict) : jdict := List.filter (λ '(k, _), k in? ks) d.

Section payments.
Context `{PaymentWorld}.

(** A column of type timestamptz. *)
Definition stored_instant (dt : datetime) : Z := dt.(wall) - default process_offset dt.(offset).
Definition numeric_column (o : option Decimal) (old : option Z) : result (option Z) :=
  match o with Some d => z ← numeric_10_3 d; Ok (Some z) | None => Ok old end.

(** The row a draft becomes. *)
Definition flushed (d : Draft) : result Payment :=
  let p := d.(dr_row) in
  let x := p.(pm_details) in
  total ← numeric_column d.(dr_total_amount) (Some p.(pm_total_amount));
  invoice_value ← numeric_column d.(dr_invoice_value) p.(pm_invoice_value);
  addons_price ← numeric_column d.(dr_addons_price) x.(pd_addons_price);
  extra_price ← numeric_column d.(dr_price_for_extra_time) x.(pd_price_for_extra_time);
  Ok (attribute_payment (p <| pm_total_amount := default p.(pm_total_amount) total |> <| pm_invoice_value := invoice_value |>
        <| pm_paid_at := match d.(dr_paid_at) with Some dt => Some (stored_instant dt) | None => p.(pm_paid_at) end |>
        <| pm_details := x <| pd_addons_price := addons_price |> <| pd_price_for_extra_time := extra_price |> |>)).
Definition flush_draft (pid : Z) (d : Draft) : M Store () :=
  when d.(dr_dirty)
    (row ← lift (flushed d);
     taken ← gets (λ s, existsb (λ '(id, q), negb (id =? pid) && String.eqb q.(pm_payment_number) row.(pm_payment_number))
                          (map_to_list s.(payments)));
     raise_if taken (err PythonException) ;;
     upd_payment pid (λ _, row)).

Definition next_payment_number (s : Store) : string :=
  generate_payment_number s.(now) (pm_payment_number <$> rows s.(payments)).
Definition number_taken (number : string) (s : Store) : bool := number in? (pm_payment_number <$> rows s.(payments)).
(** A new row, its number drawn again when it is taken and was generated; the
    listener has run on the row before. *)
Fixpoint insert_numbered (retries : nat) (auto_generate : bool) (number : string) (row : string → Z → Payment) : M Store Z :=
  taken ← gets (number_taken number);
  if (taken : bool) then
    match retries with
    | S retries =>
        if auto_generate then
          number ← gets next_payment_number;
          insert_numbered retries auto_generate number (λ n id, attribute_payment (row n id))
        else raise (err PythonException)
    | O => raise (err PythonException)
    end
  else insert_payment (row number).
Definition MAX_ATTEMPTS : nat := 5.
Definition insert_new (number : option string) (row : string → Z → Payment) : M Store Z :=
  let given := fill number None in
  n ← (match given with Some n => mret n | None => gets next_payment_number end : M Store string);
  insert_numbered (MAX_ATTEMPTS - 1) (negb (bool_decide (is_Some given))) n row.

(** ** What a successful payment sets off *)

(** The booking service reaches its flush. *)
Definition confirm_flushes (b : Booking) : bool :=
  match (of_value b.(bk_status) : result Booking.BookingStatus) with
  | Ok st => (st ==? Booking.CONFIRMED) || can_transition_to st Booking.CONFIRMED
  | Raise _ => false
  end.
(** [confirm_booking] in its [try], and the booking's invoice for the payment. *)
Definition auto_confirm (pid booking_id : Z) (meta : jdict) : M Store () :=
  swallow (
    confirm_booking booking_id (uuid_str pid) (Some meta) None ;;
    b ← get_booking_row booking_id;
    p ← get_payment_row pid;
    when (truthy_opt b.(bk_invoice_number) && negb (truthy_opt p.(pm_invoice_number)))
      (upd_payment pid (λ p, p <| pm_invoice_number := b.(bk_invoice_number) |>) ;; flush_payment pid)) ;;
  mret ().
(** [mark_invoice_paid] in a task of its own. *)
Definition notify_ushanr (pid : Z) (d : Draft) (invoice_number : option string) : M Store () :=
  match fill invoice_number None with
  | Some n => call_out (MarkInvoicePaidCall n (mem_total_amount d) pid)
  | None => mret ()
  end.
Definition is_success (status : option string) : bool := status ==? Some (value Payment.SUCCESS).

(** A successful draft: the confirmation, whose flush takes the draft along,
    the message to ushanr, and the flush that ends the request. *)
Definition settle_success (pid : Z) (d : Draft) (meta : jdict) : M Store () :=
  found ← gets (λ s, d.(dr_row).(pm_booking_id) ≫= λ bid, (λ b, (bid, b)) <$> s.(bookings) !! bid);
  match found with
  | Some (bid, b) =>
      if confirm_flushes b then
        flush_draft pid d ;;
        auto_confirm pid bid meta ;;
        p ← get_payment_row pid;
        notify_ushanr pid d p.(pm_invoice_number)
      else notify_ushanr pid d d.(dr_row).(pm_invoice_number) ;; flush_draft pid d
  | None => notify_ushanr pid d d.(dr_row).(pm_invoice_number) ;; flush_draft pid d
  end.

(** ** Creating a payment *)

Definition voucher_by_number (number : string) (s : Store) : option Z :=
  newest_key (λ v, v.(gv_voucher_number) ==? Some number) (λ _, 0) s.(vouchers).
Definition resolve_voucher (voucher_id : option Z) (voucher_number : option string) (s : Store) : option Z * option string :=
  match voucher_id, fill voucher_number None with
  | Some vid, None => (voucher_id, s.(vouchers) !! vid ≫= gv_voucher_number)
  | None, Some n => (voucher_by_number n s, Some n)
  | _, n => (voucher_id, n)
  end.

(** [int or 0], [Decimal or other]. *)
Definition or_decimal (a b : Decimal) : Decimal := if a.(coeff) =? 0 then b else a.

(** The fields of a request with what the gateway response and the booking add. *)
Record Resolved := mk_resolved {
  rs_payment_for : string; rs_provider : option string; rs_through : option string; rs_gateway : option string;
  rs_customer_data : jdict; rs_booking_data : jdict; rs_total_amount : Decimal; rs_total_duration : Z; rs_currency : string;
  rs_invoice_id : option string; rs_invoice_value : Decimal; rs_payment_url : option string;
  rs_transaction_id : option string; rs_track_id : option string; rs_reference_id : option string;
  rs_transaction_status : option string; rs_transaction_date : string; rs_status : string; rs_paid_at : option datetime;
  rs_payment_data : jdict; rs_branch_id : option Z; rs_branch_data : option jdict; rs_branch_name : option string }.

Definition home_booking (b : Booking) : bool := b.(bk_booking_type) in? ["home_service"; "home"].
Definition resolve_payment_for (f : PaymentFields) (booking : option (Z * Booking)) (voucher : option Z * option string) : string :=
  match fill f.(pf_payment_for) None with
  | Some v => PaymentFor_normalise v
  | None =>
      if bool_decide (is_Some voucher.1) || truthy_opt voucher.2 then "gift_voucher"
      else if existsb home_booking (option_list (snd <$> booking)) then "home_service" else "branch_service"
  end.
Definition resolve_customer (f : PaymentFields) (ps : option Parsed) (booking : option (Z * Booking)) : jdict :=
  let own := match or_empty f.(pf_customer_data) with [] => or_empty (ps ≫= ps_customer_data) | d => d end in
  dict_merge (or_empty (booking ≫= λ '(_, b), b.(bk_customer_data))) own.
Definition resolve_booking_data (f : PaymentFields) (booking : option (Z * Booking)) : jdict :=
  match booking, or_empty f.(pf_booking_data) with
  | None, d => d
  | Some (id, b), [] => _build_booking_snapshot id b
  | Some (_, b), d =>
      match fill b.(bk_booking_number) None with
      | Some n => if has_key d "booking_number" then d else dict_set d "booking_number" (JStr n)
      | None => d
      end
  end.
(** The branch: the body's or the booking's; a home service keeps its own snapshot. *)
Definition resolve_branch (f : PaymentFields) (booking : option (Z * Booking)) : option Z * option jdict * option string :=
  let b := snd <$> booking in
  let home := existsb (λ b, String.eqb b.(bk_booking_type) "home_service") (option_list b) in
  let at_home := home && bool_decide (is_Some (present_dict (b ≫= bk_branch_data))) in
  let data := if at_home then b ≫= bk_branch_data
              else present_dict (por_dict f.(pf_branch_data) (b ≫= bk_branch_data)) in
  let id := if at_home then None else match f.(pf_branch_id) with Some i => Some i | None => b ≫= bk_branch_id end in
  let named := match data with
               | Some d => or_none (strip (text_or_empty [jget (JDict d) "name"; jget (JDict d) "branch_name"]))
               | None => None
               end in
  let of_booking := or_none (strip (default "" (b ≫= λ b, b.(bk_schedule).(sc_branch_name)))) in
  (id, data, match named, of_booking with
             | Some n, _ | None, Some n => Some n
             | None, None => if home then Some "Home Service" else None
             end).

Definition resolve (c : CreatePaymentRequest) (ps : option Parsed) (booking : option (Z * Booking))
    (voucher : option Z * option string) (now_ : Z) : Resolved :=
  let f := c.(cp_fields) in
  let b := snd <$> booking in
  let total := or_decimal c.(cp_total_amount) (or_decimal (default ZERO (ps_total_amount <$> ps))
                 (or_decimal (default ZERO ((λ b, of_fils b.(bk_total_amount)) <$> b)) ZERO)) in
  let currency := if truthy c.(cp_currency) then c.(cp_currency)
                  else por_str (ps_currency <$> ps) (default "KWD" (bk_currency <$> b)) in
  let status := por_str f.(pf_status) (por_str (ps_status <$> ps) (value Payment.INITIATED)) in
  let '(branch_id, branch_data, branch_name) := resolve_branch f booking in
  mk_resolved (resolve_payment_for f booking voucher)
    (PaymentProvider_normalise <$> fill f.(pf_payment_provider) None)
    (PaymentThrough_normalise <$> fill f.(pf_payment_through) None)
    (PaymentGateway_normalise <$> fill (por f.(pf_payment_gateway) (ps ≫= ps_payment_gateway)) None)
    (resolve_customer f ps booking) (resolve_booking_data f booking) total
    (or_int c.(cp_total_duration) (default 0 (bk_duration_minutes <$> b)))
    (if currency in? ["KD"; "KWD"] then "KWD" else currency)
    (fill (por f.(pf_invoice_id) (ps ≫= ps_invoice_id)) None)
    (or_decimal (default ZERO f.(pf_invoice_value)) (or_decimal (default ZERO (ps_invoice_value <$> ps)) total))
    (fill (por f.(pf_payment_url) (ps ≫= ps_payment_url)) None)
    (fill (por f.(pf_transaction_id) (ps ≫= ps_transaction_id)) None)
    (fill (por f.(pf_track_id) (ps ≫= ps_track_id)) None)
    (fill (por f.(pf_reference_id) (ps ≫= ps_reference_id)) None)
    (fill (por f.(pf_transaction_status) (ps ≫= ps_transaction_status)) None)
    (por_str f.(pf_transaction_date) (por_str (ps ≫= ps_transaction_date) (isoformat 0 now_)))
    status
    (match f.(pf_paid_at), ps ≫= ps_paid_at with
     | Some t, _ | None, Some t => Some t
     | None, None => only_if (String.eqb status (value Payment.SUCCESS)) (mk_datetime now_ (Some 0))
     end)
    (dict_merge (or_empty (ps_payment_data <$> ps)) (or_empty f.(pf_payment_data)))
    branch_id branch_data branch_name.

(** What both deduplicating branches put on the existing row. *)
Definition empty_amount (o : option Z) : bool := match o with Some z => z =? 0 | None => true end.
Definition creator_columns (f : PaymentFields) (p : Payment) : list (Draft → Draft) := [
  column (fill f.(pf_created_by_user) p.(pm_created_by_user)) (λ v p, p <| pm_created_by_user := Some v |>);
  column (fill_dict f.(pf_created_by_user_data) p.(pm_created_by_user_data))
    (λ v p, p <| pm_created_by_user_data := Some v |>)].
Definition classification_columns (f : PaymentFields) (r : Resolved) (p : Payment) : list (Draft → Draft) := [
  column (fill r.(rs_provider) p.(pm_payment_provider)) (λ v p, p <| pm_payment_provider := Some v |>);
  column (fill r.(rs_through) p.(pm_payment_through)) (λ v p, p <| pm_payment_through := Some v |>);
  column (fill r.(rs_gateway) p.(pm_payment_gateway)) (λ v p, p <| pm_payment_gateway := Some v |>);
  column (fill f.(pf_payment_method) p.(pm_payment_method)) (λ v p, p <| pm_payment_method := Some v |>);
  column (only_if (negb (is_success p.(pm_status))) r.(rs_status)) (λ v p, p <| pm_status := Some v |>);
  column (fill r.(rs_invoice_id) p.(pm_invoice_id)) (λ v p, p <| pm_invoice_id := Some v |>)].

(** The payment the booking already has. *)
Definition again_for_booking (f : PaymentFields) (r : Resolved) (p : Payment) : Draft :=
  let known := or_empty p.(pm_details).(pd_booking_data) in
  statements (classification_columns f r p ++ [
    column (fill f.(pf_invoice_number) p.(pm_invoice_number)) (λ v p, p <| pm_invoice_number := Some v |>);
    assign (only_if (empty_amount p.(pm_invoice_value)) r.(rs_invoice_value)) (λ v d, d <| dr_invoice_value := Some v |>)] ++
    creator_columns f p ++ [
    details (if has_key known "booking_number" then None else present_dict (Some r.(rs_booking_data)))
      (λ v x, x <| pd_booking_data := Some (dict_merge known v) |>)]) (draft_of p).

(** The payment the voucher already has. *)
Definition again_for_voucher (f : PaymentFields) (r : Resolved) (booking : option Booking) (voucher_number : option string)
    (p : Payment) : Draft :=
  statements ([
    column (_trusted_invoice_number f.(pf_invoice_number) booking) (λ v p, p <| pm_invoice_number := Some v |>);
    assign (only_if (negb (r.(rs_invoice_value).(coeff) =? 0)) r.(rs_invoice_value)) (λ v d, d <| dr_invoice_value := Some v |>);
    column (fill voucher_number p.(pm_voucher_number)) (λ v p, p <| pm_voucher_number := Some v |>);
    details (present_dict f.(pf_voucher_data)) (λ v x, x <| pd_voucher_data := merged_payment_data x.(pd_voucher_data) v |>);
    column (present_dict (Some r.(rs_payment_data)))
      (λ v p, p <| pm_payment_data := merged_payment_data p.(pm_payment_data) v |>)] ++
    classification_columns f r p ++ [
    column (fill r.(rs_transaction_id) p.(pm_transaction_id)) (λ v p, p <| pm_transaction_id := Some v |>);
    column (fill r.(rs_track_id) p.(pm_track_id)) (λ v p, p <| pm_track_id := Some v |>);
    column (fill r.(rs_reference_id) p.(pm_reference_id)) (λ v p, p <| pm_reference_id := Some v |>)] ++
    creator_columns f p) (draft_of p).

(** The payment's references on its voucher. *)
Definition voucher_references (p : Payment) (v : GiftVoucher) : jdict :=
  let put (k : string) (o : option string) (d : jdict) := match fill o None with Some x => dict_set d k (JStr x) | None => d end in
  foldl (λ d '(k, o), put k o d) (or_empty v.(gv_payment_data)) [
    ("invoice_number", p.(pm_invoice_number)); ("payment_number", Some p.(pm_payment_number));
    ("payment_provider", p.(pm_payment_provider)); ("payment_method", p.(pm_payment_method));
    ("transaction_id", p.(pm_transaction_id)); ("track_id", p.(pm_track_id)); ("reference_id", p.(pm_reference_id))].
Definition if_voucher (vid : Z) (m : M Store ()) : M Store () :=
  v ← gets (λ s, s.(vouchers) !! vid);
  when (bool_decide (is_Some v)) m.
Definition note_on_voucher (p : Payment) (vid : Z) : M Store () :=
  if_voucher vid (upd_voucher vid (λ v, v <| gv_payment_data := Some (voucher_references p v) |>) ;; flush_voucher vid).
(** The number a voucher takes must be free ([IntegrityError]). *)
Definition note_new_payment (p : Payment) (vid : Z) : M Store () :=
  if_voucher vid
    (v ← get_voucher_row vid;
     let number := fill p.(pm_voucher_number) v.(gv_voucher_number) in
     taken ← gets (λ s, number ≫= λ n, voucher_by_number n s);
     raise_if (bool_decide (is_Some taken)) (err PythonException) ;;
     upd_voucher vid (λ v, v <| gv_payment_data := Some (dict_set (voucher_references p v) "status" (opt_str p.(pm_status))) |>
                             <| gv_voucher_number := match number with Some _ => number | None => v.(gv_voucher_number) end |>) ;;
     flush_voucher vid).

(** The new row. *)
Definition new_payment (c : CreatePaymentRequest) (r : Resolved) (ps : option Parsed) (booking : option (Z * Booking))
    (voucher : option Z * option string) (amounts : Z * Z * option Z * option Z) (now_ : Z) (number : string) (id : Z) : Payment :=
  let f := c.(cp_fields) in
  let b := snd <$> booking in
  let '(total, invoice_value, addons_price, extra_price) := amounts in
  let vdata := or_empty f.(pf_voucher_data) in
  mk_payment id f.(pf_booking_id) c.(cp_customer_id) total 0 r.(rs_currency) (Some r.(rs_status)) r.(rs_provider)
    r.(rs_gateway) (por f.(pf_payment_id) (ps ≫= ps_payment_id)) r.(rs_invoice_id)
    (_trusted_invoice_number f.(pf_invoice_number) b) r.(rs_transaction_id) None now_ number
    (present_dict (Some r.(rs_customer_data)))
    (match f.(pf_service_id) with Some i => Some i | None => bk_service_id <$> b end)
    (present_dict (por_dict f.(pf_service_data) (b ≫= bk_service_data)))
    r.(rs_branch_id) r.(rs_branch_data)
    (match f.(pf_service_arrangement_id) with Some i => Some i | None => b ≫= bk_service_arrangement_id end)
    (present_dict (por_dict f.(pf_service_arrangement_data) (b ≫= bk_service_arrangement_data)))
    r.(rs_total_duration) (stored_instant <$> r.(rs_paid_at)) f.(pf_recipient_phone) f.(pf_recipient_data)
    voucher.1 voucher.2 (Some invoice_value) r.(rs_payment_url) r.(rs_track_id) r.(rs_reference_id)
    r.(rs_transaction_status) (por f.(pf_payment_method) (ps_payment_method <$> ps)) r.(rs_through) None None None
    (Some r.(rs_payment_for)) (por f.(pf_created_by_user) f.(pf_created_by)) f.(pf_created_by_user_data)
    (mk_details f.(pf_sender_id) f.(pf_sender_data) r.(rs_branch_name)
       (match f.(pf_addons) with Some a => Some a | None => b ≫= λ b, JList <$> b.(bk_schedule).(sc_addons) end)
       addons_price
       (match f.(pf_extra_time) with Some t => Some t | None => (λ b, b.(bk_schedule).(sc_extra_minutes)) <$> b end)
       extra_price (por f.(pf_country) (ps ≫= ps_country)) f.(pf_recipient_id) (present_dict (Some r.(rs_booking_data)))
       (match vdata, fill voucher.2 None with
        | [], None => None
        | d, Some n => Some (if has_key d "voucher_number" then d else dict_set d "voucher_number" (JStr n))
        | d, None => Some d
        end)
       f.(pf_product_order_id) f.(pf_product_order_items) (Some r.(rs_transaction_date)) f.(pf_receipt_image)).
Definition new_amounts (c : CreatePaymentRequest) (r : Resolved) (b : option Booking) : result (Z * Z * option Z * option Z) :=
  let f := c.(cp_fields) in
  total ← numeric_10_3 r.(rs_total_amount);
  invoice_value ← numeric_10_3 r.(rs_invoice_value);
  addons_price ← numeric_column f.(pf_addons_price) ((λ b, b.(bk_schedule).(sc_addon_price)) <$> b);
  extra_price ← numeric_column f.(pf_price_for_extra_time) ((λ b, b.(bk_schedule).(sc_price_for_extra_minutes)) <$> b);
  Ok (total, invoice_value, addons_price, extra_price).

(** The audit row of a payment that is new. *)
Definition created_history (pid : Z) (status : option string) (source : string) (who : option string) (data : option jdict)
    (correlation_id : string) : PaymentStatusHistory :=
  mk_history pid None (default "" status) source None (Some correlation_id) None who data.

Definition insert_created (c : CreatePaymentRequest) (r : Resolved) (ps : option Parsed) (booking : option (Z * Booking))
    (voucher : option Z * option string) : M Store (Z * Z) :=
  let f := c.(cp_fields) in
  now_ ← gets now;
  amounts ← lift (new_amounts c r (snd <$> booking));
  pid ← insert_new f.(pf_payment_number) (new_payment c r ps booking voucher amounts now_);
  p ← get_payment_row pid;
  add_history (created_history pid p.(pm_status) (match or_empty f.(pf_gateway_response) with [] => "manual" | _ => "gateway_webhook" end)
    (por f.(pf_created_by_user) f.(pf_created_by)) f.(pf_created_by_user_data) (por_str p.(pm_payment_id) (uuid_str pid))) ;;
  (match booking with
   | Some (bid, b) =>
       let meta := _meta_snapshot pid (draft_of p) in
       upd_booking bid (λ b, b <| bk_payment_data := merged_payment_data b.(bk_payment_data) meta |>) ;;
       if is_success p.(pm_status) then
         when (negb (confirm_flushes b)) (flush_booking bid) ;;
         auto_confirm pid bid meta
       else flush_booking bid
   | None => mret ()
   end) ;;
  p ← get_payment_row pid;
  (match voucher.1 with Some vid => note_new_payment p vid | None => mret () end) ;;
  mret (201, pid).

Definition create_payment (c : CreatePaymentRequest) : M Store (Z * Z) :=
  let f := c.(cp_fields) in
  let ps := parse_dict <$> present_dict f.(pf_gateway_response) in
  s ← get;
  let booking := f.(pf_booking_id) ≫= λ id, (λ b, (id, b)) <$> s.(bookings) !! id in
  let voucher := resolve_voucher f.(pf_voucher_id) (fill f.(pf_voucher_number) None) s in
  let r := resolve c ps booking voucher s.(now) in
  match f.(pf_booking_id), voucher.1 with
  | Some bid, _ =>
      match newest_key (λ p, p.(pm_booking_id) ==? Some bid) (λ _, 0) s.(payments) with
      | Some pid =>
          p ← get_payment_row pid;
          flush_draft pid (again_for_booking f r p) ;;
          mret (200, pid)
      | None => insert_created c r ps booking voucher
      end
  | None, Some vid =>
      match newest_key (λ p, p.(pm_voucher_id) ==? Some vid) pm_created_at s.(payments) with
      | Some pid =>
          p ← get_payment_row pid;
          let d := again_for_voucher f r (snd <$> booking) voucher.2 p in
          note_on_voucher d.(dr_row) vid ;;
          flush_draft pid d ;;
          mret (200, pid)
      | None => insert_created c r ps booking voucher
      end
  | None, None => insert_created c r ps booking voucher
  end.

(** ** Updating a payment *)

(** The response of a gateway, stored with its raw form. *)
Definition ingest_columns (response : option jdict) : list (Draft → Draft) :=
  match present_dict response with
  | Some raw =>
      let ps := parse_dict raw in
      [gateway_data ps;
       column (Some raw) (λ v p, p <| pm_payment_data := Some (dict_set (or_empty p.(pm_payment_data)) "raw_response" (JDict v)) |>)] ++
      gateway_columns ps
  | None => []
  end.

(** The fields of the body, up to the booking. *)
Definition body_columns (u : UpdatePaymentRequest) : list (Draft → Draft) :=
  let f := u.(up_fields) in [
    column f.(pf_customer_data) (λ v p, p <| pm_customer_data := merged_payment_data p.(pm_customer_data) v |>);
    details f.(pf_sender_id) (λ v x, x <| pd_sender_id := Some v |>);
    details f.(pf_sender_data) (λ v x, x <| pd_sender_data := merged_payment_data x.(pd_sender_data) v |>);
    column f.(pf_service_id) (λ v p, p <| pm_service_id := Some v |>);
    column f.(pf_service_data) (λ v p, p <| pm_service_data := merged_payment_data p.(pm_service_data) v |>);
    column f.(pf_branch_id) (λ v p, p <| pm_branch_id := Some v |>);
    column f.(pf_branch_data) (λ v p, p <| pm_branch_data := merged_payment_data p.(pm_branch_data) v |>);
    column f.(pf_service_arrangement_id) (λ v p, p <| pm_service_arrangement_id := Some v |>);
    column f.(pf_service_arrangement_data)
      (λ v p, p <| pm_service_arrangement_data := merged_payment_data p.(pm_service_arrangement_data) v |>);
    details f.(pf_addons) (λ v x, x <| pd_addons := Some v |>);
    assign f.(pf_addons_price) (λ v d, d <| dr_addons_price := Some v |>);
    details f.(pf_extra_time) (λ v x, x <| pd_extra_time := Some v |>);
    assign f.(pf_price_for_extra_time) (λ v d, d <| dr_price_for_extra_time := Some v |>);
    assign u.(up_total_amount) (λ v d, d <| dr_total_amount := Some v |>);
    column u.(up_total_duration) (λ v p, p <| pm_total_duration := v |>);
    column u.(up_currency) (λ v p, p <| pm_currency := v |>);
    details f.(pf_country) (λ v x, x <| pd_country := Some v |>);
    column f.(pf_status) (λ v p, p <| pm_status := Some v |>);
    assign f.(pf_paid_at) (λ v d, d <| dr_paid_at := Some v |>)].
(** [paid_at] of a payment that has become successful without one. *)
Definition stamp_paid_at (f : PaymentFields) (now_ : Z) (d : Draft) : Draft :=
  assign (only_if (bool_decide (f.(pf_paid_at) = None) && is_success d.(dr_row).(pm_status) &&
                   bool_decide (mem_paid_at d = None)) (mk_datetime now_ (Some 0)))
    (λ v d, d <| dr_paid_at := Some v |>) d.
Definition recipient_columns (f : PaymentFields) : list (Draft → Draft) := [
  details f.(pf_recipient_id) (λ v x, x <| pd_recipient_id := Some v |>);
  column f.(pf_recipient_phone) (λ v p, p <| pm_recipient_phone := Some v |>);
  column f.(pf_recipient_data) (λ v p, p <| pm_recipient_data := merged_payment_data p.(pm_recipient_data) v |>);
  column f.(pf_booking_id) (λ v p, p <| pm_booking_id := Some v |>);
  details f.(pf_booking_data) (λ v x, x <| pd_booking_data := merged_payment_data x.(pd_booking_data) v |>)].

(** A key added to a dictionary in place: the column is written only when this
    request has assigned it. *)
Definition in_place (assigned : bool) (f : PaymentDetails → PaymentDetails) (d : Draft) : Draft :=
  if assigned then d <| dr_row := d.(dr_row) <| pm_details := f d.(dr_row).(pm_details) |> |> else d.
Definition lacks (d : option jdict) (k : string) : bool := negb (has_key (or_empty d) k).
(** The number of the booking in the snapshot. *)
Definition name_booking (f : PaymentFields) (s : Store) (d : Draft) : Draft :=
  let data := d.(dr_row).(pm_details).(pd_booking_data) in
  match d.(dr_row).(pm_booking_id) ≫= (λ bid, s.(bookings) !! bid ≫= bk_booking_number), present_dict data with
  | Some n, Some x =>
      if truthy n && lacks data "booking_number"
      then in_place (bool_decide (is_Some f.(pf_booking_data)))
             (λ y, y <| pd_booking_data := Some (dict_set x "booking_number" (JStr n)) |>) d
      else d
  | _, _ => d
  end.
Definition voucher_columns (f : PaymentFields) : list (Draft → Draft) := [
  column f.(pf_voucher_id) (λ v p, p <| pm_voucher_id := Some v |>);
  column f.(pf_voucher_number) (λ v p, p <| pm_voucher_number := Some v |>);
  details f.(pf_voucher_data) (λ v x, x <| pd_voucher_data := merged_payment_data x.(pd_voucher_data) v |>)].
(** The voucher's number of its key, or the key of its number. *)
Definition name_voucher (f : PaymentFields) (s : Store) (d : Draft) : Draft :=
  let p := d.(dr_row) in
  match p.(pm_voucher_id), fill p.(pm_voucher_number) None with
  | Some vid, None =>
      match s.(vouchers) !! vid ≫= (λ v, fill v.(gv_voucher_number) None) with
      | Some n =>
          let d := column (Some n) (λ v p, p <| pm_voucher_number := Some v |>) d in
          match p.(pm_details).(pd_voucher_data) with
          | Some x =>
              if has_key x "voucher_number" then d
              else in_place (bool_decide (is_Some f.(pf_voucher_data)))
                     (λ y, y <| pd_voucher_data := Some (dict_set x "voucher_number" (JStr n)) |>) d
          | None => d
          end
      | None => d
      end
  | None, Some n => column (voucher_by_number n s) (λ v p, p <| pm_voucher_id := Some v |>) d
  | _, _ => d
  end.
Definition reference_columns (f : PaymentFields) : list (Draft → Draft) := [
  details f.(pf_product_order_id) (λ v x, x <| pd_product_order_id := Some v |>);
  details f.(pf_product_order_items) (λ v x, x <| pd_product_order_items := Some v |>);
  column f.(pf_invoice_id) (λ v p, p <| pm_invoice_id := Some v |>);
  column f.(pf_payment_number) (λ v p, p <| pm_payment_number := v |>);
  column (_trusted_invoice_number f.(pf_invoice_number) None) (λ v p, p <| pm_invoice_number := Some v |>);
  assign f.(pf_invoice_value) (λ v d, d <| dr_invoice_value := Some v |>);
  column f.(pf_payment_url) (λ v p, p <| pm_payment_url := Some v |>);
  column f.(pf_transaction_id) (λ v p, p <| pm_transaction_id := Some v |>);
  column f.(pf_track_id) (λ v p, p <| pm_track_id := Some v |>);
  column f.(pf_reference_id) (λ v p, p <| pm_reference_id := Some v |>);
  column f.(pf_transaction_status) (λ v p, p <| pm_transaction_status := Some v |>);
  details f.(pf_transaction_date) (λ v x, x <| pd_transaction_date := Some v |>);
  details f.(pf_receipt_image) (λ v x, x <| pd_receipt_image := Some v |>);
  column f.(pf_payment_method) (λ v p, p <| pm_payment_method := Some v |>);
  column f.(pf_payment_through) (λ v p, p <| pm_payment_through := Some (PaymentThrough_normalise v) |>);
  column f.(pf_payment_provider) (λ v p, p <| pm_payment_provider := Some (PaymentProvider_normalise v) |>);
  column f.(pf_payment_gateway) (λ v p, p <| pm_payment_gateway := Some (PaymentGateway_normalise v) |>);
  column f.(pf_payment_for) (λ v p, p <| pm_payment_for := Some (PaymentFor_normalise v) |>);
  column f.(pf_payment_id) (λ v p, p <| pm_payment_id := Some v |>);
  column f.(pf_payment_data) (λ v p, p <| pm_payment_data := merged_payment_data p.(pm_payment_data) v |>);
  column (por f.(pf_created_by_user) f.(pf_created_by)) (λ v p, p <| pm_created_by_user := Some v |>);
  column f.(pf_created_by_user_data)
    (λ v p, p <| pm_created_by_user_data := merged_payment_data p.(pm_created_by_user_data) v |>)].

(** The row with everything the request assigns. *)
Definition updated (u : UpdatePaymentRequest) (s : Store) (p : Payment) : Draft :=
  let f := u.(up_fields) in
  statements (ingest_columns f.(pf_gateway_response) ++ body_columns u ++ [stamp_paid_at f s.(now)] ++ recipient_columns f ++
              [name_booking f s] ++ voucher_columns f ++ [name_voucher f s] ++ reference_columns f) (draft_of p).

Definition user_info (u : CurrentUser) : jdict := [
  ("id", JStr u.(cu_sub)); ("first_name", JStr (default "" u.(cu_first_name))); ("last_name", JStr (default "" u.(cu_last_name)));
  ("phone_number", JStr (default "" u.(cu_phone_number))); ("email", JStr (default "" u.(cu_email)));
  ("role", opt_str u.(cu_role))].
(** A text of the payment's data. *)
Definition provider_reference (p : Payment) : option string :=
  match jget (JDict (or_empty p.(pm_payment_data))) "provider_reference" with JNull => None | j => Some (json_str j) end.
Definition updated_history (pid : Z) (old : option string) (u : UpdatePaymentRequest) (user : CurrentUser) (p : Payment) : PaymentStatusHistory :=
  let f := u.(up_fields) in
  mk_history pid old (default "" p.(pm_status)) u.(up_source) (provider_reference p)
    (Some (por_str p.(pm_payment_id) (uuid_str pid))) None
    (por (por (por f.(pf_created_by_user) f.(pf_created_by)) (Some user.(cu_sub))) (Some u.(up_source)))
    (por_dict f.(pf_created_by_user_data) (Some (user_info user))).

Definition find_payment_row (payment_id : Z) : M Store Payment :=
  p ← gets (λ s, s.(payments) !! payment_id);
  some_or_raise p (http_error "404").

Definition update_payment (payment_id : Z) (u : UpdatePaymentRequest) (user : CurrentUser) : M Store () :=
  p ← find_payment_row payment_id;
  s ← get;
  let d := updated u s p in
  let status := d.(dr_row).(pm_status) in
  if status !=? p.(pm_status) then
    add_history (updated_history payment_id p.(pm_status) u user d.(dr_row)) ;;
    if is_success status then settle_success payment_id d (_meta_snapshot payment_id d)
    else flush_draft payment_id d
  else flush_draft payment_id d.

(** The refunds and the history of the payment go with it. *)
Definition delete_payment (payment_id : Z) : M Store () :=
  _ ← find_payment_row payment_id;
  modify (λ s, s <| payments := delete payment_id s.(payments) |>
    <| refunds := filter (λ '(_, r), r.(rf_payment_id) ≠ Some payment_id) s.(refunds) |>
    <| payment_status_history := List.filter (λ h, negb (h.(hs_payment_id) =? payment_id)) s.(payment_status_history) |>).

(** ** The invoice of a source document *)

Definition source_column (source_type : string) : option (Payment → option Z) :=
  if String.eqb source_type "booking" then Some pm_booking_id
  else if String.eqb source_type "shop_order" then Some (λ p, p.(pm_details).(pd_product_order_id))
  else if source_type in? ["gift_voucher"; "gift_voucher_purchase"] then Some pm_voucher_id
  else None.
Definition gift_source (source_type : string) : bool := source_type in? ["gift_voucher"; "gift_voucher_purchase"].

Definition link_payment (source_type invoice_number : string) (voucher_number : option string) (pid : Z) : M Store () :=
  upd_payment pid (λ p, p <| pm_invoice_number := Some invoice_number |>
    <| pm_voucher_number := if gift_source source_type && negb (truthy_opt p.(pm_voucher_number)) && truthy_opt voucher_number
                            then voucher_number else p.(pm_voucher_number) |>) ;;
  flush_payment pid.
Definition link_voucher (vid : Z) (invoice_number : string) (first : option string) : M Store () :=
  if_voucher vid
    (upd_voucher vid (λ v, v <| gv_payment_data := Some (
       let d := dict_set (or_empty v.(gv_payment_data)) "invoice_number" (JStr invoice_number) in
       match fill first None with Some n => dict_set d "payment_number" (JStr n) | None => d end) |>) ;;
     flush_voucher vid) ;;
  modify (λ s, s <| payment_links := (λ l,
    if (l.(pl_target_type) in? ["gift_voucher"; "voucher"]) && (l.(pl_target_id) =? vid)
    then l <| pl_invoice_number := Some invoice_number |> else l) <$> s.(payment_links) |>).
Definition link_booking (bid : Z) (invoice_number : string) : M Store () :=
  b ← gets (λ s, s.(bookings) !! bid);
  when (bool_decide (is_Some b))
    (upd_booking bid (λ b, b <| bk_invoice_number := Some invoice_number |>) ;; flush_booking bid).

(** (status, payments updated). *)
Definition link_invoice_to_payments (l : LinkInvoiceRequest) : M Store (Z * Z) :=
  match source_column l.(li_source_type), uuid_of_string l.(li_source_id) with
  | Some col, Some source =>
      s ← get;
      let found := List.filter (λ '(_, p), col p ==? Some source) (map_to_list s.(payments)) in
      for_each (fst <$> found)
        (link_payment l.(li_source_type) l.(li_invoice_number) (s.(vouchers) !! source ≫= gv_voucher_number)) ;;
      when (String.eqb l.(li_source_type) "booking") (link_booking source l.(li_invoice_number)) ;;
      when (gift_source l.(li_source_type))
        (link_voucher source l.(li_invoice_number) ((λ '(_, p), p.(pm_payment_number)) <$> head found)) ;;
      mret (200, Z.of_nat (length found))
  | _, _ => mret (400, 0)
  end.

(** ** Initiating a payment *)

Definition uuid_arg (t : option string) : M Store Z := some_or_raise (t ≫= uuid_of_string) (err ValueError).

(** The guard on the booking's status reads [BookingStatus.PENDING], which the
    enumeration does not have: [AttributeError], for every booking.  What follows
    the guard is never reached. *)
Definition initiate_payment (booking_id : option string) (user : CurrentUser) : M Store () :=
  bid ← uuid_arg booking_id;
  customer_id ← uuid_arg (Some user.(cu_sub));
  found ← gets (λ s, s.(bookings) !! bid);
  _ ← some_or_raise (found ≫= λ b, only_if (b.(bk_customer_id) =? customer_id) b) (http_error "404");
  raise (err PythonException).

(** ** Webhooks *)

(** [scalar_one_or_none] over the payments. *)
Definition one_payment (where_ : Payment → bool) : M Store (option Z) :=
  found ← gets (λ s, fst <$> List.filter (λ '(_, p), where_ p) (map_to_list s.(payments)));
  match found with
  | [] => mret None
  | [pid] => mret (Some pid)
  | _ => raise (err PythonException)
  end.
Definition webhook_history (pid : Z) (old : option string) (source : string) (p : Payment) (reference : option string)
    (correlation_id : string) : PaymentStatusHistory :=
  mk_history pid old (default "" p.(pm_status)) source reference (Some correlation_id) None (Some source)
    (Some [("source", JStr source)]).
(** The confirmation and the message of a successful payment, or its flush. *)
Definition finish_webhook (pid : Z) (d : Draft) (meta_keys : list string) : M Store () :=
  if is_success d.(dr_row).(pm_status) then settle_success pid d (keep_keys meta_keys (_meta_snapshot pid d))
  else flush_draft pid d.

Definition MYFATOORAH_META : list string := ["payment_id"; "invoice_id"; "status"; "payment_gateway"; "payment_provider"; "paid_at"].
Definition TAP_META : list string := ["payment_id"; "transaction_id"; "status"; "payment_gateway"; "payment_provider"; "paid_at"].

Definition webhook_payment (ps : Parsed) (booking_id : option Z) (booking : option Booking) (customer_id : Z)
    (total invoice_value now_ : Z) (number : string) (id : Z) : Payment :=
  let sched := bk_schedule <$> booking in
  mk_payment id booking_id (default customer_id (bk_customer_id <$> booking)) total 0 ps.(ps_currency) (Some ps.(ps_status))
    (Some "myfatoorah") ps.(ps_payment_gateway) ps.(ps_payment_id) ps.(ps_invoice_id) None ps.(ps_transaction_id)
    (Some ps.(ps_payment_data)) now_ number ps.(ps_customer_data) None None None None None None
    (default 0 (bk_duration_minutes <$> booking)) (stored_instant <$> ps.(ps_paid_at)) None None None None
    (Some invoice_value) ps.(ps_payment_url) ps.(ps_track_id) ps.(ps_reference_id) ps.(ps_transaction_status)
    (Some ps.(ps_payment_method)) None None None None (Some "branch_service") (sched ≫= sc_created_by_user)
    (sched ≫= sc_created_by_user_data)
    (no_details <| pd_country := ps.(ps_country) |>
                <| pd_booking_data := match booking_id, booking with
                                      | Some bid, Some b => Some (_build_booking_snapshot bid b) | _, _ => None end |>
                <| pd_transaction_date := Some (por_str ps.(ps_transaction_date) (isoformat 0 now_)) |>).

(** A payment first heard of from the gateway; [customer_id] is the fresh key of
    a customer nobody named. *)
Definition webhook_new (ps : Parsed) (customer_id : Z) : M Store Z :=
  let reference := jget (JDict ps.(ps_payment_data)) "customer_reference" in
  let booking_id := if jtruthy (Some reference) then uuid_of_string (json_str reference) else None in
  s ← get;
  let booking := booking_id ≫= λ bid, s.(bookings) !! bid in
  total ← lift (numeric_10_3 ps.(ps_total_amount));
  invoice_value ← lift (numeric_10_3 ps.(ps_invoice_value));
  pid ← insert_new None (webhook_payment ps booking_id booking customer_id total invoice_value s.(now));
  p ← get_payment_row pid;
  finish_webhook pid ((draft_of p) <| dr_total_amount := Some ps.(ps_total_amount) |> <| dr_paid_at := ps.(ps_paid_at) |>)
    MYFATOORAH_META ;;
  mret pid.

Definition webhook_update (ps : Parsed) (pid : Z) : M Store () :=
  p ← get_payment_row pid;
  let d := statements (gateway_data ps :: gateway_columns ps) (draft_of p) in
  let row := d.(dr_row) in
  when (row.(pm_status) !=? p.(pm_status))
    (add_history (webhook_history pid p.(pm_status) "webhook_myfatoorah" row (provider_reference row)
                    (por_str row.(pm_payment_id) (uuid_str pid)))) ;;
  finish_webhook pid d MYFATOORAH_META.

Definition myfatoorah_webhook (payload : json) (customer_id : Z) : M Store (option Z) :=
  match parse_gateway_response payload with
  | Some ps =>
      match ps.(ps_invoice_id) with
      | Some invoice_id =>
          found ← one_payment (λ p, (p.(pm_invoice_id) ==? Some invoice_id) || (p.(pm_payment_id) ==? Some invoice_id));
          match found with
          | Some pid => webhook_update ps pid ;; mret (Some pid)
          | None => pid ← webhook_new ps customer_id; mret (Some pid)
          end
      | None => mret None
      end
  | None => mret None
  end.

Definition tap_columns_of (ps : Parsed) (p : Payment) : Draft := statements (gateway_data ps :: tap_columns ps) (draft_of p).
(** Anything but an object has no [get]. *)
Definition tap_webhook (payload : json) : M Store () :=
  match parse_gateway_response payload with
  | Some ps =>
      let charge_id := match ps.(ps_payment_id) with Some i => JStr i | None => jget payload "id" end in
      if jtruthy (Some charge_id) then
        found ← one_payment (λ p, p.(pm_payment_id) ==? Some (json_str charge_id));
        match found with
        | Some pid =>
            p ← get_payment_row pid;
            let d := tap_columns_of ps p in
            when (d.(dr_row).(pm_status) !=? p.(pm_status))
              (add_history (webhook_history pid p.(pm_status) "webhook_tap" d.(dr_row) None (json_str charge_id))) ;;
            finish_webhook pid d TAP_META
        | None => mret ()
        end
      else mret ()
  | None => raise (err PythonException)
  end.
End payments.
