(* ===== verification/BookingApi.v ===== *)
(** * The booking endpoints (app/api/v1/bookings.py)

    Updating, cancelling and rescheduling a booking, its status, the therapist of
    one session and its invoice number.  A body is the validated one; an amount of
    a body is a text or a float.  The key of a new session is an argument.  An
    endpoint returns nothing: the body it renders is left out. *)

From S2P Require Import Prelude Exceptions Effects StateMachines Money Numbers Store PyText PyDate Sessions SessionPlanner LinkGateway Settlement LinkService BookingEvents BookingRepo BookingService BookingChanges BookingUpdate PaymentApi.
Import BookingService BookingUpdates.
From Stdlib Require Import Ascii.
#[local] Open Scope Z_scope.

(** ushauth's branches and customers, the verified claims of a token, the
    accounting invoice (number, id) of a booking, created when there is none, and
    whether the driver stores a UUID object in a text column (asyncpg raises). *)
Class BookingApiWorld := {
  #[global] booking_api_world :: PaymentWorld;
  get_branch : string → result json;
  get_customer_profile : string → result json;
  decode_token : string → result CurrentUser;
  booking_invoice_data : list OutboundCall → Z → result (option (string * string));
  text_takes_uuid : bool;
}.

(** ** Helpers *)

Definition _safe_str (o : option string) : option string := o ≫= λ s, or_none (strip s).

(** [try: ... except <class>: raise HTTPException(<status>)]. *)
Definition status_for (l : list (exc_class * string)) (e : exn) : exn :=
  match List.find (λ '(c, _), isinstance e c) l with Some (_, status) => http_error status | None => e end.
Definition refusing {A} (l : list (exc_class * string)) (r : result A) : result A :=
  match r with Ok a => Ok a | Raise e => Raise (status_for l e) end.
Definition answering {A} (l : list (exc_class * string)) (m : M Store A) : M Store A :=
  try_except m (λ _, true) (λ e, raise (status_for l e)).

(** [raw.get("data") if isinstance(raw.get("data"), dict) else raw]. *)
Definition profile (raw : json) : result jdict :=
  match raw with
  | JDict d => Ok (match jget raw "data" with JDict d' => d' | _ => d end)
  | _ => Raise (err PythonException)
  end.
(** The snapshot given, or the one looked up; a failure is passed over. *)
Definition looked_up (lookup : string → result json) (id : option Z) (data : option jdict) : option jdict :=
  match id, present_dict data with
  | Some i, None => match (raw ← lookup (uuid_str i); profile raw) with Ok d => Some d | Raise _ => data end
  | _, _ => data
  end.
Definition with_names (data : option jdict) : option jdict :=
  match present_dict data with
  | Some d =>
      let n := therapist_display_name (JDict d) in
      Some (if truthy n
            then setdefault (setdefault (setdefault d "name" (JStr n)) "therapist_name" (JStr n)) "full_name" (JStr n)
            else d)
  | None => data
  end.

(** ** Requests (app/booking/interfaces/schemas.py) *)

Record CancelBookingRequest := mk_cancel_request {
  cr_reason : string; cr_change_by_user : option string; cr_change_by_user_data : option jdict }.
Record RescheduleRequest := mk_reschedule_request {
  rr_new_start : datetime; rr_change_by_user : option string; rr_change_by_user_data : option jdict }.
(** [payment_status] is a text: the union of the schema keeps it as it came. *)
Record UpdateBookingStatusRequest := mk_status_request {
  sr_status : Booking.BookingStatus; sr_payment_status : option string; sr_payment_data : option jdict;
  sr_payment_type : option string; sr_payment_id : option string; sr_payment_provider : option string;
  sr_payment_gateway : option string; sr_payment_through : option string; sr_payment_method : option string;
  sr_payment_url : option string; sr_invoice_number : option string; sr_payment_number : option string;
  sr_reason : option string; sr_source : string; sr_loyalty_data : option jdict; sr_reward_id : option Z;
  sr_voucher_id : option Z; sr_voucher_data : option jdict; sr_change_by_user : option string;
  sr_changed_by : option string; sr_change_by_user_data : option jdict; sr_created_by_user : option string;
  sr_created_by_user_data : option jdict }.
Record ChangeSessionTherapistRequest := mk_therapist_request {
  tr_therapist_id : option Z; tr_therapist_data : option jdict; tr_secondary_therapist_id : option Z;
  tr_secondary_therapist_data : option jdict; tr_secondary_given : bool }.
(** [ur_secondary_given]: [secondary_therapist_id] is among the fields that were
    set. *)
Record UpdateBookingRequest := mk_update_request {
  ur_status : option Booking.BookingStatus; ur_payment_status : option string; ur_payment_data : option jdict;
  ur_payment_type : option string; ur_payment_id : option string; ur_payment_provider : option string;
  ur_payment_gateway : option string; ur_payment_through : option string; ur_payment_method : option string;
  ur_payment_url : option string; ur_created_by_user : option string; ur_created_by : option string;
  ur_created_by_user_data : option jdict; ur_change_by_user : option string; ur_change_by_user_data : option jdict;
  ur_therapist_id : option Z; ur_therapist_data : option jdict; ur_secondary_therapist_id : option Z;
  ur_secondary_therapist_data : option jdict; ur_secondary_given : bool; ur_branch_id : option Z;
  ur_branch_data : option jdict; ur_service_arrangement_id : option Z; ur_service_arrangement_data : option jdict;
  ur_services : list ServiceItem; ur_sessions : list SessionItem; ur_appointment_date : option string;
  ur_appointment_time : option string; ur_appointment_start : option datetime; ur_extra_minutes : option Z;
  ur_customer_notes : option string; ur_internal_notes : option string; ur_reason : option string; ur_source : string;
  ur_voucher_id : option Z; ur_voucher_data : option jdict; ur_invoice_number : option string;
  ur_payment_number : option string; ur_addons : option (list json); ur_selected_addons : option (list json);
  ur_addon_price : json; ur_addons_price : json; ur_addons_duration : option Z; ur_price_for_extra_minutes : json;
  ur_extra_price : json; ur_total_duration : option Z; ur_total_amount : json; ur_total_price : json }.

(** [sync_created_by_fields]. *)
Definition request_user (u : UpdateBookingRequest) : option string :=
  por (por u.(ur_change_by_user) u.(ur_created_by_user)) u.(ur_created_by).
Definition request_user_data (u : UpdateBookingRequest) : option jdict :=
  por_dict u.(ur_change_by_user_data) u.(ur_created_by_user_data).

(** [Decimal(str(value))] of an amount that is given. *)
Definition amount_arg (value : json) : result (option Decimal) :=
  match value with
  | JNull => Ok None
  | _ => match parse_number (json_str value) with Some d => Ok (Some d) | None => Raise (err PythonException) end
  end.
Definition por_list {A} (a b : option (list A)) : option (list A) := match a with Some (_ :: _) => a | _ => b end.

(** [s.split(" ")[0]]. *)
Fixpoint before_space (s : string) : string :=
  match s with
  | EmptyString => EmptyString
  | String c s => if (c =? " ")%char then EmptyString else String c (before_space s)
  end.
(** The values of the payment statuses of a booking
    (app/booking/domain/value_objects.py). *)
Definition PAYMENT_STATUSES : list string := [
  "not_initiated"; "initiated"; "pending"; "success"; "failed"; "cancelled"; "refunded"; "rewarded"; "partially_refunded";
  "refund_requested"; "refunded_with_points"].

(** The value of a [str]-based enumeration inside [str()]. *)
Definition enum_str (st : Booking.BookingStatus) : string := ("BookingStatus." ++ upper (value st))%string.

Section endpoints.
Context `{BookingApiWorld}.
Context (PAYMENT_LINK_DEFAULT_GATEWAY : string) (PAYMENT_LINK_EXPIRY_MINUTES : Z).

(** [BookingService.get_booking]: a booking without a payment id or an invoice
    number takes those of its newest payment, and keeps them. *)
Definition with_payment (p : Payment) (b : Booking) : Booking :=
  b <| bk_payment_id := if ref_truthy b.(bk_payment_id) then b.(bk_payment_id) else Some (RefUuid p.(pm_id)) |>
    <| bk_invoice_number := if truthy_opt p.(pm_invoice_number) && negb (truthy_opt b.(bk_invoice_number))
                            then p.(pm_invoice_number) else b.(bk_invoice_number) |>.
Definition get_booking (booking_id : Z) : M Store Booking :=
  get_by_id booking_id ;;
  newest_payment ← gets (λ s, newest (λ p, p.(pm_booking_id) ==? Some booking_id) pm_created_at s.(payments));
  (match newest_payment with Some p => upd_booking booking_id (with_payment p) | None => mret () end) ;;
  get_booking_row booking_id.

Definition user_key (user : CurrentUser) : M Store Z := uuid_arg (Some user.(cu_sub)).

(** ** Cancelling and rescheduling *)

Definition cancel_request (booking_id : Z) (body : CancelBookingRequest) (user : CurrentUser) : M Store () :=
  booking ← get_booking booking_id;
  key ← user_key user;
  raise_if (negb (booking.(bk_customer_id) =? key)) (http_error "403") ;;
  let user_id := por_str body.(cr_change_by_user) user.(cu_sub) in
  cancel_booking PAYMENT_LINK_DEFAULT_GATEWAY booking_id body.(cr_reason) user_id (Some user_id)
    (por_dict body.(cr_change_by_user_data) (Some (user_info user))) None None None.

Definition reschedule_request (booking_id : Z) (body : RescheduleRequest) (user : CurrentUser) : M Store () :=
  key ← user_key user;
  booking ← get_booking booking_id;
  let start := body.(rr_new_start) in
  let new_end := mk_datetime (start.(wall) + booking.(bk_duration_minutes) * us_per_minute) start.(offset) in
  request_reschedule booking_id start new_end key "customer".

(** ** The invoice number *)

(** The comment promises the payments without an invoice number; the statement
    takes them all. *)
Definition link_booking_invoice (booking_id : Z) (invoice_number : string) : M Store () :=
  found ← gets (λ s, s.(bookings) !! booking_id);
  _ ← some_or_raise found (http_error "404");
  upd_booking booking_id (λ b, b <| bk_invoice_number := Some invoice_number |>) ;;
  set_payment_invoices booking_id invoice_number ;;
  flush_booking booking_id.

(** ** The therapist of one session *)

Definition sync_cache (booking_id : Z) (fields : jdict) : M Store () :=
  swallow (ask_cache (SyncAppointmentCacheCall (uuid_str booking_id) fields)) ;; mret ().
Definition CHANGE_REFUSALS : list (exc_class * string) := [(DoubleBookingError, "409"); (ValidationError, "422")].
Definition therapist_change (session_id : string) (body : ChangeSessionTherapistRequest) : ChangeTherapist :=
  mk_change_therapist session_id body.(tr_therapist_id)
    (with_names (looked_up get_therapist body.(tr_therapist_id) body.(tr_therapist_data)))
    body.(tr_secondary_therapist_id)
    (with_names (looked_up get_therapist body.(tr_secondary_therapist_id) body.(tr_secondary_therapist_data)))
    body.(tr_secondary_given).
Definition therapist_request (booking_id : Z) (session_id : string) (body : ChangeSessionTherapistRequest) : M Store () :=
  answering CHANGE_REFUSALS (change_session_therapist booking_id (therapist_change session_id body)) ;;
  b ← get_booking_row booking_id;
  sync_cache booking_id
    [("therapist_id", JStr (uuid_str b.(bk_schedule).(sc_therapist_id)));
     ("sessions", JList (cache_sessions_payload (get_booking_sessions (columns_of booking_id b))))].

(** ** Updating a booking *)

Definition is_parked (b : Booking) : bool := String.eqb (lower b.(bk_status)) (value Booking.PARKED).

(** A timestamp is read back in UTC, and so is its date. *)
Definition stored_date (t : Z) : string := date_text (t / us_per_day).
Definition plan_date (body : UpdateBookingRequest) (b : Booking) : string :=
  por_str body.(ur_appointment_date) (stored_date b.(bk_appointment_start)).
Definition PLAN_REFUSALS : list (exc_class * string) := [(SessionValidationError, "422"); (SessionAvailabilityError, "409")].

(** The plan of the new sessions, and whether a parked booking moves; sessions
    that keep their starts are not asked for. *)
Definition starts_of (sessions : list json) : list (option Z) := (λ s, (session_window s).1) <$> sessions.
Definition update_plan (booking_id : Z) (body : UpdateBookingRequest) (b : Booking) (fresh : bool → nat → nat → string)
    : result (option SessionPlan * bool) :=
  match body.(ur_sessions) with
  | [] => Ok (None, true)
  | items =>
      let plan check :=
        plan_sessions items (plan_date body b) (String.eqb b.(bk_booking_type) "loyalty") check
          (Some (match body.(ur_branch_id) with Some id => uuid_str id | None => id_text b.(bk_branch_id) end))
          (Some (uuid_str booking_id)) (fresh check) in
      refusing PLAN_REFUSALS
        (if is_parked b then
           kept ← plan false;
           if starts_of (get_booking_sessions (columns_of booking_id b)) ==? starts_of kept.(plan_session_list)
           then Ok (Some kept, false)
           else p ← plan true; Ok (Some p, true)
         else p ← plan true; Ok (Some p, true))
  end.

Definition update_services (body : UpdateBookingRequest) (b : Booking) (fresh : nat → string) : result (option (list json)) :=
  match body.(ur_services) with
  | [] => Ok None
  | items =>
      refusing [(ServiceValidationError, "422")]
        (l ← resolve_service_entries items (String.eqb b.(bk_booking_type) "loyalty") false None fresh; Ok (Some l))
  end.

Definition date_and_time (body : UpdateBookingRequest) : option (string * string) :=
  match body.(ur_appointment_date), body.(ur_appointment_time) with
  | Some d, Some t => if truthy d && truthy t then Some (d, t) else None
  | _, _ => None
  end.
Definition update_start (body : UpdateBookingRequest) (plan : option SessionPlan) : option Z :=
  match plan, body.(ur_appointment_start), date_and_time body with
  | Some p, _, _ => p.(plan_mirror).(m_appointment_start)
  | None, Some dt, _ => Some (to_local_tz dt)
  | None, None, Some (d, t) => to_local_tz <$> PyDate.fromisoformat (d ++ "T" ++ t)
  | None, None, None => None
  end.
(** A parked booking that moves comes back. *)
Definition effective_status (body : UpdateBookingRequest) (b : Booking) (moved : bool) : option Booking.BookingStatus :=
  let asked := match body.(ur_sessions) with [] => false | _ => true end ||
               bool_decide (is_Some body.(ur_appointment_start)) || bool_decide (is_Some (date_and_time body)) in
  match body.(ur_status) with
  | Some st => Some st
  | None => if is_parked b && moved && asked then Some Booking.CONFIRMED else None
  end.

Definition user_snapshot (u : CurrentUser) : jdict := [
  ("id", JStr u.(cu_sub)); ("first_name", JStr (default "" u.(cu_first_name))); ("last_name", JStr (default "" u.(cu_last_name)));
  ("phone_number", JStr (default "" u.(cu_phone_number))); ("email", JStr (default "" u.(cu_email)));
  ("user_type", JStr (default "customer" (_safe_str u.(cu_user_type)))); ("role", opt_json (_safe_str u.(cu_role)))].

(** What the service is asked, with the start the request gives. *)
Definition update_arguments (booking_id user_id : Z) (body : UpdateBookingRequest) (user : CurrentUser) (b : Booking)
    (fresh : bool → nat → nat → string) : result UpdateBooking :=
  own_services ← update_services body b (fresh false 0%nat);
  '(plan, moved) ← update_plan booking_id body b fresh;
  addon_price ← amount_arg (jor body.(ur_addon_price) body.(ur_addons_price));
  extra_price ← amount_arg (jor body.(ur_price_for_extra_minutes) body.(ur_extra_price));
  total_amount ← amount_arg (jor body.(ur_total_amount) body.(ur_total_price));
  Ok (mk_update (effective_status body b moved) body.(ur_payment_status) body.(ur_payment_id) body.(ur_payment_provider)
        body.(ur_payment_gateway) body.(ur_payment_through) body.(ur_payment_method) body.(ur_payment_url)
        body.(ur_payment_type) body.(ur_payment_data) (request_user body) (request_user_data body)
        body.(ur_therapist_id) (with_names (looked_up get_therapist body.(ur_therapist_id) body.(ur_therapist_data)))
        body.(ur_secondary_therapist_id)
        (with_names (looked_up get_therapist body.(ur_secondary_therapist_id) body.(ur_secondary_therapist_data)))
        body.(ur_secondary_given) body.(ur_branch_id) (looked_up get_branch body.(ur_branch_id) body.(ur_branch_data))
        body.(ur_service_arrangement_id)
        (looked_up get_service_arrangement body.(ur_service_arrangement_id) body.(ur_service_arrangement_data))
        (match plan with Some p => Some p.(plan_service_entries) | None => own_services end)
        (update_start body plan) body.(ur_extra_minutes) body.(ur_customer_notes) body.(ur_internal_notes) body.(ur_reason)
        body.(ur_source) (Some (por_str (request_user body) (uuid_str user_id)))
        (por_dict (request_user_data body) (Some (user_snapshot user))) None None None
        body.(ur_voucher_id) body.(ur_voucher_data) body.(ur_invoice_number) (por_list body.(ur_addons) body.(ur_selected_addons))
        addon_price body.(ur_addons_duration) extra_price body.(ur_total_duration) total_amount
        (plan_session_list <$> plan)).

(** [if body.payment_number: ...]. *)
Definition note_payment_number (booking_id : Z) (number : option string) : M Store () :=
  match fill number None with
  | Some n =>
      upd_booking booking_id (λ b, b <| bk_payment_data := Some (dict_set (or_empty b.(bk_payment_data)) "payment_number" (JStr n)) |>) ;;
      flush_booking booking_id
  | None => mret ()
  end.

(** *** The event *)

Definition taken_minutes (b : Booking) : Z := b.(bk_duration_minutes) + b.(bk_schedule).(sc_extra_minutes).
Definition updated_event (booking_id : Z) (body : UpdateBookingRequest) (b : Booking) (ev_data : jdict) : jdict :=
  let c := b.(bk_schedule) in
  let ev := JDict ev_data in
  let text k := JStr (text_or_empty [jget ev k]) in
  let text_or k other := JStr (text_or_empty [jget ev k; JStr other]) in
  let number := opt_text b.(bk_booking_number) in [
    ("booking_id", JStr (uuid_str booking_id)); ("customer_id", JStr (uuid_str b.(bk_customer_id)));
    ("appointment_date", JStr (date_text (local_day b.(bk_appointment_start))));
    ("appointment_time", JStr (clock_text (time_of_day b.(bk_appointment_start))));
    ("duration", JInt (taken_minutes b)); ("therapist_id", JStr (uuid_str c.(sc_therapist_id)));
    ("secondary_therapist_id", text_or "secondary_therapist_id" (id_text c.(sc_secondary_therapist_id)));
    ("secondary_therapist_name", text "secondary_therapist_name");
    ("secondary_therapist_data", jor (jget ev "secondary_therapist_data") (JDict (or_empty c.(sc_secondary_therapist_data))));
    ("status", JStr b.(bk_status)); ("payment_status", JStr b.(bk_payment_status));
    ("branch_id", JStr (id_text b.(bk_branch_id))); ("service_arrangement_id", JStr (id_text b.(bk_service_arrangement_id)));
    ("services", jor (jget ev "services") (JList [])); ("source", JStr body.(ur_source));
    ("reason", JStr (opt_text body.(ur_reason))); ("booking_number", text_or "booking_number" number);
    ("booking_reference", text_or "booking_reference" (if truthy number then number else uuid_str booking_id));
    ("customer_name", text "customer_name"); ("customer_phone", text "customer_phone"); ("customer_email", text "customer_email");
    ("language_preference", text "language_preference");
    ("customer_data", jor (jget ev "customer_data") (JDict (or_empty b.(bk_customer_data))));
    ("service_name", text "service_name"); ("branch_name", text "branch_name"); ("therapist_name", text "therapist_name");
    ("total_amount", text_or "total_amount" (amount_text b.(bk_total_amount)));
    ("currency", JStr (text_or_empty [jget ev "currency"; JStr b.(bk_currency); JStr "KWD"]));
    ("appointment_start", text "appointment_start"); ("appointment_end", text "appointment_end");
    ("appointment_endtime", text "appointment_endtime")].
Definition announce_updated (booking_id : Z) (body : UpdateBookingRequest) : M Store () :=
  b ← get_booking_row booking_id;
  let ev_data := match _build_booking_event_data booking_id b with Ok d => d | Raise _ => [] end in
  emit "Booking.Updated" (updated_event booking_id body b ev_data).

(** *** The appointment cache *)

Definition _STATUS_NORM : list (string * string) := [
  ("draft", "confirmed"); ("payment_pending", "confirmed"); ("requested", "pending"); ("reschedule_requested", "pending");
  ("reschedule_approved", "confirmed"); ("payment_failed", "cancelled"); ("no_show", "completed")].
Definition _PAYMENT_STATUS_NORM : list (string * string) := [
  ("not_initiated", "unpaid"); ("initiated", "pending"); ("payment_pending", "pending"); ("paid", "success")].
Definition normed (table : list (string * string)) (v : string) : json := JStr (default v (assoc table v)).

Definition cache_fields (booking_id : Z) (b : Booking) (plan : option (list json)) (second_mentioned : bool) : jdict :=
  let c := b.(bk_schedule) in
  let st := strip (lower b.(bk_status)) in
  let ps := strip (lower b.(bk_payment_status)) in
  let sessions := match plan with Some l => l | None => get_booking_sessions (columns_of booking_id b) end in
  [("appointment_date", JStr (date_text (local_day b.(bk_appointment_start))));
   ("appointment_time", JStr (clock_text (time_of_day b.(bk_appointment_start))));
   ("duration", JInt (taken_minutes b)); ("therapist_id", JStr (uuid_str c.(sc_therapist_id)));
   ("status", if truthy st then normed _STATUS_NORM st else JNull);
   ("payment_status", if truthy ps then normed _PAYMENT_STATUS_NORM ps
                      else if st in? ["payment_pending"; "draft"] then JStr "pending" else JNull);
   ("branch_id", uuid_json b.(bk_branch_id)); ("service_arrangement_id", uuid_json b.(bk_service_arrangement_id));
   ("services", JList (cache_services_payload (get_booking_services (columns_of booking_id b))));
   ("sessions", match plan, sessions with None, [] => JNull | _, l => JList (cache_sessions_payload l) end)] ++
  (if second_mentioned || bool_decide (is_Some c.(sc_secondary_therapist_id))
   then [("secondary_therapist_id", uuid_json c.(sc_secondary_therapist_id));
         ("secondary_therapist_name", jor (jget (JDict (or_empty c.(sc_secondary_therapist_data))) "name") JNull)]
   else []).
(** A parked booking has no rows in the cache. *)
Definition sync_updated (booking_id : Z) (plan : option (list json)) (second_mentioned : bool) : M Store () :=
  b ← get_booking_row booking_id;
  if is_parked b then mret () else sync_cache booking_id (cache_fields booking_id b plan second_mentioned).

Definition update_request (booking_id : Z) (body : UpdateBookingRequest) (user : CurrentUser)
    (fresh : bool → nat → nat → string) (token : string) : M Store () :=
  booking ← get_booking booking_id;
  user_id ← user_key user;
  raise_if (String.eqb body.(ur_source) "customer" && negb (booking.(bk_customer_id) =? user_id)) (http_error "403") ;;
  u ← lift (update_arguments booking_id user_id body user booking fresh);
  update_booking PAYMENT_LINK_DEFAULT_GATEWAY PAYMENT_LINK_EXPIRY_MINUTES booking_id u token ;;
  note_payment_number booking_id body.(ur_payment_number) ;;
  announce_updated booking_id body ;;
  sync_updated booking_id u.(ub_sessions)
    (bool_decide (is_Some booking.(bk_schedule).(sc_secondary_therapist_id)) || body.(ur_secondary_given)).

(** ** The status of a booking *)

(** The body says the payment was made. *)
Definition says_paid (data : option jdict) : bool :=
  let d := JDict (or_empty data) in
  match jget d "is_paid" with JBool b => b | _ => false end ||
  (lower (json_str (jget_or d "status" (JStr ""))) in? ["paid"; "success"]).
Definition status_payment (body : UpdateBookingStatusRequest) : option string :=
  match fill body.(sr_payment_status) None with
  | Some t => only_if (lower t in? PAYMENT_STATUSES) (lower t)
  | None => only_if (jtruthy (Some (JDict (or_empty body.(sr_payment_data)))) && says_paid body.(sr_payment_data)) "success"
  end.

(** The bearer of the token of the request, when it is valid. *)
Definition bearer (authorization : option string) : option CurrentUser :=
  match authorization with
  | Some h =>
      if String.prefix "Bearer " h
      then match decode_token (before_space (String.substring 7 (String.length h) h)) with Ok u => Some u | Raise _ => None end
      else None
  | None => None
  end.
Definition bearer_name (u : CurrentUser) : string :=
  let n := strip (default "" u.(cu_first_name) ++ " " ++ default "" u.(cu_last_name)) in if truthy n then n else u.(cu_sub).
Definition bearer_role (u : CurrentUser) : jdict := [
  ("user_type", JStr (default "customer" (_safe_str u.(cu_user_type)))); ("role", opt_json (_safe_str u.(cu_role)))].
Definition bearer_data (u : CurrentUser) : jdict := [
  ("id", JStr u.(cu_sub)); ("name", JStr (bearer_name u)); ("full_name", JStr (bearer_name u));
  ("first_name", JStr (default "" u.(cu_first_name))); ("last_name", JStr (default "" u.(cu_last_name)));
  ("phone_number", JStr (default "" u.(cu_phone_number))); ("email", JStr (default "" u.(cu_email)))] ++ bearer_role u.

(** Who changed the status: the body, the bearer, a name in the data, the
    source. *)
Definition status_user (body : UpdateBookingStatusRequest) (authorization : option string) : string * option jdict :=
  let named := por (por body.(sr_change_by_user) body.(sr_changed_by)) body.(sr_created_by_user) in
  let data := por_dict body.(sr_change_by_user_data) body.(sr_created_by_user_data) in
  let '(name, data) :=
    if truthy_opt named then (named, data)
    else match bearer authorization with
         | Some u =>
             (Some u.(cu_sub),
              match present_dict data with
              | None => Some (bearer_data u)
              | Some d => Some (foldl (λ d '(k, v), setdefault d k v) d (bearer_role u))
              end)
         | None => (named, data)
         end in
  (if truthy_opt name then opt_text name
   else let d := JDict (or_empty data) in text_or_empty [jget d "full_name"; jget d "name"; JStr body.(sr_source); JStr "system"],
   match present_dict data with
   | Some _ => data
   | None => if truthy body.(sr_source)
             then Some [("source", JStr body.(sr_source)); ("reason", opt_json body.(sr_reason))] else None
   end).

Definition status_arguments (body : UpdateBookingStatusRequest) (authorization : option string) : UpdateBooking :=
  let '(name, data) := status_user body authorization in
  (no_update body.(sr_source)) <| ub_payment_status := status_payment body |>
    <| ub_payment_id := body.(sr_payment_id) |> <| ub_payment_provider := body.(sr_payment_provider) |>
    <| ub_payment_gateway := body.(sr_payment_gateway) |> <| ub_payment_through := body.(sr_payment_through) |>
    <| ub_payment_method := body.(sr_payment_method) |> <| ub_payment_url := body.(sr_payment_url) |>
    <| ub_payment_type := body.(sr_payment_type) |> <| ub_payment_data := body.(sr_payment_data) |>
    <| ub_reason := body.(sr_reason) |> <| ub_changed_by := Some name |> <| ub_change_by_user_data := data |>
    <| ub_loyalty_data := body.(sr_loyalty_data) |> <| ub_reward_id := body.(sr_reward_id) |>
    <| ub_voucher_id := body.(sr_voucher_id) |> <| ub_voucher_data := body.(sr_voucher_data) |>
    <| ub_invoice_number := body.(sr_invoice_number) |>.

(** The cache of a cancelled booking; the test compares a text no status has. *)
Definition cache_payment (body : UpdateBookingStatusRequest) (b : Booking) : string :=
  let raw := match status_payment body with
             | Some ps => ps
             | None => if (b.(bk_payment_status) in? ["refunded"; "success"; "paid"]) ||
                          jtruthy (Some (jget (JDict (or_empty b.(bk_payment_data))) "is_paid")) then "refunded" else "cancelled"
             end in
  if raw in? ["refunded"; "success"; "paid"] then "refunded" else "cancelled".
Definition set_cache_status (booking_id : Z) (new_status payment_status : string) : M Store () :=
  swallow (ask_cache (UpdateAppointmentCacheCall (uuid_str booking_id) new_status payment_status)) ;; mret ().
Definition status_cancelled_cache (booking_id : Z) (body : UpdateBookingStatusRequest) : M Store () :=
  when (String.eqb (lower (enum_str body.(sr_status))) "cancelled")
    (b ← get_booking_row booking_id; set_cache_status booking_id "cancelled" (cache_payment body b)).

(** Paid at the desk. *)
Definition paid_on_desk (body : UpdateBookingStatusRequest) : bool :=
  (status_payment body ==? Some "success") &&
  (lower (strip body.(sr_source)) in? ["ushdesk"; "desk"; "ushspa app"]) &&
  String.eqb (lower (strip (opt_text body.(sr_reason)))) "paid on desk".
Definition announce_desk_payment (booking_id : Z) (body : UpdateBookingStatusRequest) : M Store () :=
  when (paid_on_desk body)
    (set_cache_status booking_id "confirmed" "success" ;;
     b ← get_booking_row booking_id;
     emit "Booking.PaymentStatusSuccess"
       [("booking_id", JStr (uuid_str booking_id)); ("customer_id", JStr (uuid_str b.(bk_customer_id)));
        ("payment_status", JStr "success"); ("source", JStr body.(sr_source)); ("reason", JStr (opt_text body.(sr_reason)))]).

Definition status_request (booking_id : Z) (body : UpdateBookingStatusRequest) (authorization : option string) (token : string) : M Store () :=
  update_status PAYMENT_LINK_DEFAULT_GATEWAY PAYMENT_LINK_EXPIRY_MINUTES booking_id body.(sr_status)
    (status_arguments body authorization) token ;;
  note_payment_number booking_id body.(sr_payment_number) ;;
  status_cancelled_cache booking_id body ;;
  announce_desk_payment booking_id body.
End endpoints.
