(* ===== verification/BookingIntake.v ===== *)
(** * Creating a booking over HTTP (app/api/v1/bookings.py)

    The endpoint resolves the customer, the services or sessions, the statuses,
    the therapists and the price, asks for availability, has the booking service
    create the booking, and then redeems points, bills and announces it.  It
    commits in between ([with_commits]), so that a failure afterwards keeps what
    was stored. *)

From S2P Require Import Prelude Exceptions Effects StateMachines Money Numbers Store PyText PyDate Sessions SessionPlanner Loyalty RefundLifecycle LinkGateway Settlement LinkService BookingEvents BookingRepo BookingService BookingChanges BookingUpdate PaymentApi BookingApi.
From Stdlib Require Import Ascii.
Import BookingService.
#[local] Open Scope Z_scope.

(** ** The request (app/booking/interfaces/schemas.py) *)

(** Prices are texts or floats; [nb_services] is the list the schema keeps in step
    with the fields of a single service. *)
Record CreateBookingRequest := mk_booking_request {
  nb_customer_id : option Z; nb_services : list ServiceItem; nb_sessions : list SessionItem; nb_loyalty_points : Z;
  nb_price_in_points : Z; nb_base_price : json; nb_base_duration : option Z; nb_branch_id : option Z;
  nb_branch_name : option string; nb_branch_address : option string; nb_branch_data : option jdict;
  nb_service_arrangement_id : option Z; nb_selected_addons : list json; nb_addons_price : json;
  nb_addons_duration : option Z; nb_extra_minutes : option Z; nb_extra_price : json; nb_therapist_id : option Z;
  nb_therapist_name : option string; nb_therapist_data : option jdict; nb_selected_therapist_ids : list string;
  nb_therapist_ids : list string; nb_secondary_therapist_id : option Z; nb_secondary_therapist_name : option string;
  nb_secondary_therapist_data : option jdict; nb_allow_single_therapist : bool; nb_date : option string;
  nb_appointment_date : option string; nb_time_slot : option string; nb_start_time : option string;
  nb_appointment_time : option string; nb_appointment_start : option datetime; nb_booking_type : option string;
  nb_payment_type : option string; nb_status : option string; nb_payment_status : option string;
  nb_customer_message : option string; nb_customer_notes : option string; nb_pricing_details : option jdict;
  nb_discount : json; nb_total_price : json; nb_total_duration : option Z; nb_currency : string;
  nb_payment_id : option string; nb_payment_provider : option string; nb_payment_gateway : option string;
  nb_payment_through : option string; nb_payment_method : option string; nb_payment_url : option string;
  nb_payment_data : option jdict; nb_created_by_user : option string; nb_created_by : option string;
  nb_created_by_user_data : option jdict; nb_change_by_user : option string; nb_change_by_user_data : option jdict;
  nb_loyalty_data : option jdict; nb_reward_id : option Z; nb_voucher_id : option Z; nb_voucher_data : option jdict;
  nb_invoice_number : option string; nb_payment_number : option string; nb_idempotency_key : option string }.
#[export] Instance eta_CreateBookingRequest : Eta CreateBookingRequest := λ r, mk_booking_request
  r.(nb_customer_id) r.(nb_services) r.(nb_sessions) r.(nb_loyalty_points) r.(nb_price_in_points) r.(nb_base_price)
  r.(nb_base_duration) r.(nb_branch_id) r.(nb_branch_name) r.(nb_branch_address) r.(nb_branch_data)
  r.(nb_service_arrangement_id) r.(nb_selected_addons) r.(nb_addons_price) r.(nb_addons_duration) r.(nb_extra_minutes)
  r.(nb_extra_price) r.(nb_therapist_id) r.(nb_therapist_name) r.(nb_therapist_data) r.(nb_selected_therapist_ids)
  r.(nb_therapist_ids) r.(nb_secondary_therapist_id) r.(nb_secondary_therapist_name) r.(nb_secondary_therapist_data)
  r.(nb_allow_single_therapist) r.(nb_date) r.(nb_appointment_date) r.(nb_time_slot) r.(nb_start_time)
  r.(nb_appointment_time) r.(nb_appointment_start) r.(nb_booking_type) r.(nb_payment_type) r.(nb_status)
  r.(nb_payment_status) r.(nb_customer_message) r.(nb_customer_notes) r.(nb_pricing_details) r.(nb_discount)
  r.(nb_total_price) r.(nb_total_duration) r.(nb_currency) r.(nb_payment_id) r.(nb_payment_provider)
  r.(nb_payment_gateway) r.(nb_payment_through) r.(nb_payment_method) r.(nb_payment_url) r.(nb_payment_data)
  r.(nb_created_by_user) r.(nb_created_by) r.(nb_created_by_user_data) r.(nb_change_by_user) r.(nb_change_by_user_data)
  r.(nb_loyalty_data) r.(nb_reward_id) r.(nb_voucher_id) r.(nb_voucher_data) r.(nb_invoice_number) r.(nb_payment_number)
  r.(nb_idempotency_key).
(** The headers the endpoint reads. *)
Record IntakeHeaders := mk_headers { hd_client_app : option string; hd_app_source : option string; hd_idempotency_key : option string }.

(** ** Who asks, from where *)

(** The caller, with the kind of user added to the data given. *)
Definition requester (body : CreateBookingRequest) (user : CurrentUser) : string * jdict :=
  (por_str (por (por body.(nb_change_by_user) body.(nb_created_by_user)) body.(nb_created_by)) user.(cu_sub),
   match por_dict body.(nb_change_by_user_data) body.(nb_created_by_user_data) with
   | Some d => foldl (λ d '(k, v), setdefault d k v) d (bearer_role user)
   | None => user_snapshot user
   end).
Definition request_source (body : CreateBookingRequest) (user : CurrentUser) (headers : IntakeHeaders) : string :=
  let named := por (por body.(nb_payment_through) headers.(hd_client_app)) headers.(hd_app_source) in
  por_str named (if lower (default "" user.(cu_role)) in? ["admin"; "agent"; "staff"; "desk"] then "ushdesk" else "ushspa").

(** ** Date and time *)

Definition ends_offset (s : string) : bool :=
  match s with
  | String sign (String a (String b (String colon (String c (String d EmptyString))))) =>
      ((sign =? "+")%char || (sign =? "-")%char) && is_digit a && is_digit b && (colon =? ":")%char && is_digit c && is_digit d
  | _ => false
  end.
Definition drop_last (n : nat) (s : string) : string := String.substring 0 (String.length s - n) s.
Definition suffix (n : nat) (s : string) : string := String.substring (String.length s - n) n s.
(** [s.split(<c>)[0]], and the number of parts. *)
Fixpoint before_char (c : ascii) (s : string) : string :=
  match s with
  | EmptyString => EmptyString
  | String c' s => if (c' =? c)%char then EmptyString else String c' (before_char c s)
  end.
Fixpoint parts (c : ascii) (s : string) : Z :=
  match s with EmptyString => 1 | String c' s => (if (c' =? c)%char then 1 else 0) + parts c s end.
Definition clean_time (raw : string) : string :=
  let s := strip raw in
  let s := if String.eqb (suffix 1 s) "Z" then drop_last 1 s else s in
  let s := if (6 <=? String.length s)%nat && ends_offset (suffix 6 s) then drop_last 6 s else s in
  let s := before_char "." s in
  if parts ":" s =? 3 then s else (s ++ ":00")%string.

Definition intake_date (body : CreateBookingRequest) : string :=
  strip (before_t (por_str (por body.(nb_appointment_date) body.(nb_date))
    (match body.(nb_appointment_start) with Some dt => date_text (local_day (to_local_tz dt)) | None => "" end))).
Definition intake_time (body : CreateBookingRequest) : string :=
  clean_time (por_str (por (por body.(nb_appointment_time) body.(nb_start_time)) body.(nb_time_slot))
    (match body.(nb_appointment_start) with Some dt => clock_text (time_of_day (to_local_tz dt)) | None => "" end)).

(** ** Kinds and statuses *)

Definition canonical_type (body : CreateBookingRequest) : string :=
  let t := lower (strip (por_str body.(nb_booking_type) "branch_service")) in
  let t := if String.eqb t "home" then "home_service" else if String.eqb t "branch" then "branch_service" else t in
  if truthy t then t else "branch_service".
Definition pays_with_points (body : CreateBookingRequest) : bool :=
  let d := JDict (or_empty body.(nb_loyalty_data)) in
  String.eqb (canonical_type body) "loyalty" || String.eqb (lower (opt_text body.(nb_payment_type))) "rewarded" ||
  bool_decide (is_Some body.(nb_reward_id)) || jtruthy (Some (jget d "points_cost")) || jtruthy (Some (jget d "reward_id")).
Definition intake_payment_type (body : CreateBookingRequest) : string :=
  por_str body.(nb_payment_type)
    (if pays_with_points body then "rewarded"
     else if String.eqb (canonical_type body) "gift_voucher" then "gift_voucher" else "service").
(** A request that mentions loyalty is a booking of the app. *)
Definition mentions_loyalty (body : CreateBookingRequest) : bool := pays_with_points body || bool_decide (is_Some body.(nb_loyalty_data)).
Definition intake_type (body : CreateBookingRequest) : string :=
  if mentions_loyalty body && (canonical_type body in? ["branch_service"; "branch"; ""]) then "loyalty" else canonical_type body.
Definition intake_through (body : CreateBookingRequest) : option string :=
  if mentions_loyalty body && negb (truthy_opt body.(nb_payment_through)) then Some "ushspa" else body.(nb_payment_through).
Definition intake_source (body : CreateBookingRequest) (user : CurrentUser) (headers : IntakeHeaders) : string :=
  if mentions_loyalty body then "ushspa" else request_source body user headers.
Definition is_redemption (body : CreateBookingRequest) : bool := pays_with_points body || String.eqb (intake_type body) "loyalty".

Definition BOOKING_STATUSES : list string := value <$> @members Booking.BookingStatus _.
Definition asked_status (body : CreateBookingRequest) : option string :=
  fill body.(nb_status) None ≫= λ t, only_if (lower (strip t) in? BOOKING_STATUSES) (lower (strip t)).
Definition asked_payment_status (body : CreateBookingRequest) : option string :=
  let own := fill body.(nb_payment_status) None ≫= λ t,
    let t := lower (strip t) in
    if t in? ["paid"; "success"] then Some "success" else only_if (t in? PAYMENT_STATUSES) t in
  match own with
  | Some v => Some v
  | None => only_if (jtruthy (Some (JDict (or_empty body.(nb_payment_data)))) && says_paid body.(nb_payment_data)) "success"
  end.
(** (status, payment status): each may follow from the other. *)
Definition intake_statuses (body : CreateBookingRequest) : string * string :=
  let st := asked_status body in
  let ps := asked_payment_status body in
  let '(st, ps) :=
    if is_redemption body || String.eqb (intake_payment_type body) "rewarded"
    then (Some (default "confirmed" st), Some (default "rewarded" ps))
    else if st ==? Some "confirmed" then (st, Some (default "success" ps))
    else if ps ==? Some "success" then (Some (default "confirmed" st), ps)
    else (st, ps) in
  (default "requested" st, default "not_initiated" ps).

Section intake.
Context `{BookingApiWorld}.
Context (TEMPORARY_HOLD_MINUTES : Z).

(** ** The customer *)

(** [a.get(k) or b.get(k') or ...]: only an object has a [get]. *)
Fixpoint pick (l : list (json * string)) : result json :=
  match l with
  | [] => Ok JNull
  | (j, k) :: l => if is_mapping j then (let v := jget j k in if jtruthy (Some v) then Ok v else pick l) else Raise (err PythonException)
  end.
Definition pick_or (other : string) (l : list (json * string)) : result json := v ← pick l; Ok (jor v (JStr other)).

Definition own_customer (user : CurrentUser) : result (Z * jdict) :=
  id ← uuid_of_json (JStr user.(cu_sub));
  let text o := JStr (default "" o) in
  Ok (id, [("id", JStr (uuid_str id)); ("first_name", text user.(cu_first_name)); ("last_name", text user.(cu_last_name));
           ("phone_number", text user.(cu_phone_number)); ("email", text user.(cu_email));
           ("language_preference", JStr (por_str user.(cu_language_preference) "en"))]).
Definition named_customer (id : Z) : result (Z * jdict) :=
  raw ← get_customer_profile (uuid_str id);
  _ ← (if is_mapping raw then Ok () else Raise (err PythonException));
  let p := jget_or raw "data" raw in
  _ ← (if is_mapping p then Ok () else Raise (err PythonException));
  let u := jget_or p "user" (JDict []) in
  lang ← pick_or "en" [(p, "language_preference"); (u, "language_preference"); (p, "language"); (u, "language")];
  first_name ← pick_or "" [(p, "first_name"); (u, "first_name")];
  last_name ← pick_or "" [(p, "last_name"); (u, "last_name")];
  phone ← pick_or "" [(p, "phone_number"); (u, "phone_number"); (u, "mobile")];
  email ← pick_or "" [(p, "email"); (u, "email")];
  Ok (id, [("id", JStr (uuid_str id)); ("first_name", first_name); ("last_name", last_name); ("phone_number", phone);
           ("email", email);
           ("language_preference", JStr (if String.prefix "ar" (lower (strip (json_str lang))) then "ar" else "en"))]).
(** A customer that cannot be looked up is replaced by the caller. *)
Definition intake_customer (body : CreateBookingRequest) (user : CurrentUser) : result (Z * jdict) :=
  match body.(nb_customer_id) with
  | Some id => match named_customer id with Ok c => Ok c | Raise _ => own_customer user end
  | None => own_customer user
  end.

(** ** Services and duration *)

Record Intake := mk_intake {
  in_plan : option SessionPlan; in_entries : list json; in_duration : Z }.

Definition intake_services (body : CreateBookingRequest) (fresh : nat → nat → string) : result Intake :=
  match body.(nb_sessions) with
  | [] =>
      entries ← refusing [(ServiceValidationError, "422")]
                  (resolve_service_entries body.(nb_services) (pays_with_points body) false None (fresh 0%nat));
      Ok (mk_intake None entries
            (if (1 <? length entries)%nat
             then or_int (Z.max (or_zero body.(nb_total_duration)) (total_services_duration entries)) 60
             else or_minutes body.(nb_total_duration) (or_minutes body.(nb_base_duration) 60)))
  | items =>
      plan ← refusing PLAN_REFUSALS
               (plan_sessions items (intake_date body) (pays_with_points body) true (uuid_str <$> body.(nb_branch_id)) None fresh);
      Ok (mk_intake (Some plan) plan.(plan_service_entries) plan.(plan_totals).(t_total_duration))
  end.

(** ** Therapists *)

(** The first therapist asked for, all of them, and how many are needed. *)
Record Choice := mk_choice { ch_first : option string; ch_all : list string; ch_required : Z }.
Definition first_or (o : option string) (l : list string) : option string := if truthy_opt o then o else head l.
Definition chosen_therapists (body : CreateBookingRequest) (entries : list json) : Choice :=
  let own := uuid_str <$> body.(nb_therapist_id) in
  let listed := match body.(nb_selected_therapist_ids), body.(nb_therapist_ids) with
                | [], [] => option_list own | [], l => l | l, _ => l end in
  let ids := List.filter truthy listed in
  let first_ := first_or own ids in
  let second := uuid_str <$> body.(nb_secondary_therapist_id) in
  let required := if body.(nb_allow_single_therapist) && negb (bool_decide (is_Some second)) then 1 else entries_required_therapists entries in
  if (1 <? required) || bool_decide (is_Some second) then
    let ids := unique_ids (opt_json first_ :: opt_json second :: (JStr <$> ids)) in
    mk_choice (first_or first_ ids) ids required
  else mk_choice first_ ids required.

(** The therapists of the booking and its room. *)
Record Selected := mk_selected { se_therapist : Z; se_second : option Z; se_arrangement : option string }.

Definition AVAILABILITY_REFUSED {A} (r : result A) : result A :=
  match r with
  | Raise e => Raise (http_error (if isinstance e GatewayTimeoutError then "504" else "502"))
  | Ok a => Ok a
  end.
Definition raise_unless (b : bool) (e : exn) : result () := if b then Ok () else Raise e.
Definition therapist_key (t : option string) : result Z :=
  match t with
  | Some t => if truthy t then match uuid_of_string t with Some id => Ok id | None => Raise (http_error "422") end
              else Raise (http_error "422")
  | None => Raise (http_error "422")
  end.

Definition room_query (body : CreateBookingRequest) (i : Intake) (arrangement : string) (ch : Choice) : AvailabilityQuery :=
  mk_query arrangement (intake_date body) (intake_time body) i.(in_duration) (opt_json ch.(ch_first))
    (match ch.(ch_all) with [] => None | l => Some l end) ch.(ch_required) (uuid_str <$> body.(nb_branch_id))
    (match i.(in_entries) with e :: _ => JStr (json_str (jget e "service_id")) | [] => JNull end) None
    body.(nb_allow_single_therapist).

(** The second therapist that was reserved. *)
Definition second_reserved (res : json) (first_ : Z) (required : Z) : result (option Z) :=
  needed ← int_or_raise (jor (jget res "required_therapists") (JInt 1));
  if 1 <? Z.max required needed then
    match unique_ids (jget res "therapist_id" :: jlist_of (jget res "therapist_ids") ++ [jget res "secondary_therapist_id"]) with
    | _ :: second :: _ =>
        match uuid_of_string second with
        | Some id => if id =? first_ then Raise (http_error "409") else Ok (Some id)
        | None => Raise (http_error "409")
        end
    | _ => Raise (http_error "409")
    end
  else Ok None.

Definition select_room (body : CreateBookingRequest) (i : Intake) (arrangement : string) : result Selected :=
  let ch := chosen_therapists body i.(in_entries) in
  raise_unless (truthy_opt ch.(ch_first) || match ch.(ch_all) with [] => false | _ => true end) (http_error "422") ;;
  res ← AVAILABILITY_REFUSED (check_appointment_availability (room_query body i arrangement ch));
  raise_unless (said_yes res) (http_error "409") ;;
  let chosen := jget res "therapist_id" in
  raise_unless (jtruthy (Some chosen)) (http_error "409") ;;
  match uuid_of_string (json_str chosen) with
  | Some t => second ← second_reserved res t ch.(ch_required); Ok (mk_selected t second (Some arrangement))
  | None => Raise (http_error "502")
  end.
Definition select_home (body : CreateBookingRequest) (i : Intake) : result Selected :=
  let t := (chosen_therapists body i.(in_entries)).(ch_first) in
  raise_unless (truthy_opt t) (http_error "422") ;;
  res ← AVAILABILITY_REFUSED (check_booking_therapist_availability (opt_text t) (intake_date body) (intake_time body) i.(in_duration));
  raise_unless (said_yes res) (http_error "409") ;;
  id ← therapist_key t;
  Ok (mk_selected id None (uuid_str <$> body.(nb_service_arrangement_id))).
Definition select_unchecked (body : CreateBookingRequest) (i : Intake) : result Selected :=
  id ← therapist_key (chosen_therapists body i.(in_entries)).(ch_first);
  Ok (mk_selected id None (uuid_str <$> body.(nb_service_arrangement_id))).

(** Those of the first session. *)
Definition select_planned (body : CreateBookingRequest) (plan : SessionPlan) : result Selected :=
  let first_ := default JNull (head plan.(plan_session_list)) in
  t ← uuid_of_json (jget first_ "therapist_id");
  second ← (let s := jget first_ "secondary_therapist_id" in
            if jtruthy (Some s) then id ← uuid_of_json s; Ok (Some id) else Ok None);
  let a := jget first_ "service_arrangement_id" in
  Ok (mk_selected t second
        (if jtruthy (Some a) then Some (json_str a) else uuid_str <$> body.(nb_service_arrangement_id))).

Definition in_branch (body : CreateBookingRequest) : bool := intake_type body in? ["branch_service"; "branch"; "loyalty"].
Definition select_therapists (body : CreateBookingRequest) (i : Intake) : result Selected :=
  match i.(in_plan), body.(nb_service_arrangement_id) with
  | Some plan, _ => select_planned body plan
  | None, Some a =>
      if in_branch body then select_room body i (uuid_str a)
      else if intake_type body in? ["home_service"; "home"] then select_home body i else select_unchecked body i
  | None, None => if intake_type body in? ["home_service"; "home"] then select_home body i else select_unchecked body i
  end.

(** The rooms of the other services, for the same therapists. *)
Definition other_room (body : CreateBookingRequest) (i : Intake) (sel : Selected) (arrangement : string) : AvailabilityQuery :=
  mk_query arrangement (intake_date body) (intake_time body) i.(in_duration) (JStr (uuid_str sel.(se_therapist)))
    (match sel.(se_second) with Some t => Some [uuid_str sel.(se_therapist); uuid_str t] | None => None end)
    0 None JNull None false.
Definition check_other_rooms (body : CreateBookingRequest) (i : Intake) (sel : Selected) : result () :=
  match i.(in_plan) with
  | Some _ => Ok ()
  | None =>
      if in_branch body then
        mapM (λ a, res ← AVAILABILITY_REFUSED (check_appointment_availability (other_room body i sel a));
                   raise_unless (said_yes res) (http_error "409"))
          (List.filter (λ a, negb (sel.(se_arrangement) ==? Some a)) (distinct_arrangement_ids i.(in_entries))) ;;
        Ok ()
      else Ok ()
  end.

(** ** Times and prices *)

Definition intake_window (body : CreateBookingRequest) (i : Intake) (now_ : Z) : result (Z * Z) :=
  match i.(in_plan) with
  | Some plan =>
      match plan.(plan_mirror).(m_appointment_start), plan.(plan_mirror).(m_appointment_end) with
      | Some a, Some z => Ok (a, z)
      | _, _ => Raise (err PythonException)
      end
  | None =>
      let start := match PyDate.fromisoformat (intake_date body ++ "T" ++ intake_time body) with
                   | Some dt => to_local_tz dt
                   | None => match body.(nb_appointment_start) with Some dt => to_local_tz dt | None => now_ end
                   end in
      Ok (start, start + i.(in_duration) * us_per_minute)
  end.

(** [Decimal(str(value))]. *)
Definition price_of (value : json) : result Decimal :=
  match parse_number (json_str value) with Some d => Ok d | None => Raise (err PythonException) end.
Definition details_of (body : CreateBookingRequest) : json := JDict (or_empty body.(nb_pricing_details)).
Definition discount_of (body : CreateBookingRequest) : json :=
  jor_list [body.(nb_discount); jget (details_of body) "discount"; jget (details_of body) "discount_amount"; JStr "0"].
(** What a flat booking costs when the request does not say. *)
Definition fallback_base (body : CreateBookingRequest) (i : Intake) : json :=
  if (length i.(in_entries) =? 1)%nat then body.(nb_base_price)
  else let total := total_services_price i.(in_entries) in
       if total.(coeff) =? 0 then JNull else JStr (dec_str total).

Definition planned_pricing (body : CreateBookingRequest) (t : Totals) : result PricingBreakdown :=
  discount ← price_of (discount_of body);
  Ok (mk_pricing t.(t_services_price) t.(t_extra_price) t.(t_addons_price) discount ZERO ZERO
        (dec_add (dec_add t.(t_services_price) t.(t_addons_price)) t.(t_extra_price)) (por_str (Some body.(nb_currency)) "KWD")).
Definition flat_pricing (body : CreateBookingRequest) (base : json) : result PricingBreakdown :=
  let d := details_of body in
  let detailed := jtruthy (Some d) in
  let zero := JStr "0" in
  arrangement ← price_of (if detailed
    then jor_list [jget d "arrangement_price"; jget d "arrangement"; jget d "base_price"; jget d "base"; base; zero]
    else jor_list [base; body.(nb_total_price); zero]);
  addons ← price_of (if detailed then jor_list [jget d "addons_price"; jget d "addons"; body.(nb_addons_price); zero]
                     else jor body.(nb_addons_price) zero);
  extra ← price_of (if detailed then jor_list [jget d "extra_time_price"; jget d "extratime"; body.(nb_extra_price); zero]
                    else jor body.(nb_extra_price) zero);
  total ← price_of (if detailed then jor_list [jget d "total_price"; jget d "total"; body.(nb_total_price); zero]
                    else jor_list [body.(nb_total_price); base; zero]);
  discount ← price_of (discount_of body);
  Ok (mk_pricing arrangement extra addons discount ZERO ZERO total
        (json_str (jor_list [if detailed then jget d "currency" else JNull; JStr body.(nb_currency); JStr "KWD"]))).
(** The price, and the base price of the services. *)
Definition intake_pricing (body : CreateBookingRequest) (i : Intake) : result (PricingBreakdown * option Decimal) :=
  match i.(in_plan) with
  | Some plan => p ← planned_pricing body plan.(plan_totals); Ok (p, Some plan.(plan_totals).(t_services_price))
  | None =>
      let base := fallback_base body i in
      p ← flat_pricing body base;
      b ← amount_arg base;
      Ok (p, b)
  end.
Definition addon_records (body : CreateBookingRequest) : list json :=
  (λ a, JDict [("addon_id", JStr (text_or_empty [jget a "id"; jget a "addon_id"])); ("name", jget_or a "name" (JStr ""));
               ("price", JStr (json_str (jget_or a "price" (JStr "0"))))]) <$> List.filter is_mapping body.(nb_selected_addons).

(** ** Snapshots *)

Definition branch_text (own : option string) (data : json) (k k' : string) : json :=
  jor (opt_json own) (if jtruthy (Some data) then jor (jget data k) (jget data k') else JStr "").
Definition at_home : json := JStr "Home Service".
Definition is_home (body : CreateBookingRequest) : bool := String.eqb (intake_type body) "home_service".
Definition intake_branch_name (body : CreateBookingRequest) : json :=
  if is_home body then at_home
  else branch_text body.(nb_branch_name) (JDict (or_empty body.(nb_branch_data))) "branch_name" "name".
Definition intake_branch (body : CreateBookingRequest) : jdict :=
  let data := JDict (or_empty body.(nb_branch_data)) in
  let home := is_home body in
  let name := intake_branch_name body in
  let address := branch_text body.(nb_branch_address) data "branch_address" "address" in
  let address := if home then jor address at_home else address in
  let d := dict_merge [("id", JStr (id_text body.(nb_branch_id))); ("name", name); ("address", address);
                       ("branch_name", name); ("branch_address", address)] (or_empty body.(nb_branch_data)) in
  if home then dict_set (dict_set d "name" name) "branch_name" name else d.

Definition portrait (d : json) : json := jor (jget d "avatar") (jget d "photo_url").
Definition with_portrait (avatar : json) (d : jdict) : jdict :=
  if jtruthy (Some avatar) then setdefault (setdefault d "avatar" avatar) "photo_url" avatar else d.
(** The profile fetched when the name or the picture is missing. *)
Definition fetched_profile (id : Z) (name : string) (avatar : json) : option jdict :=
  if truthy name && jtruthy (Some avatar) then None
  else match (raw ← get_therapist (uuid_str id); profile raw) with Ok d => Some d | Raise _ => None end.
Definition snapshot_of (id : Z) (name : string) (avatar : json) (data : jdict) : jdict :=
  let n := JStr name in
  with_portrait avatar
    (dict_merge [("id", JStr (uuid_str id)); ("name", n); ("therapist_name", n); ("full_name", n)] data).
Definition intake_therapist (body : CreateBookingRequest) (id : Z) : jdict :=
  let data := JDict (or_empty body.(nb_therapist_data)) in
  let name := por_str body.(nb_therapist_name) (therapist_display_name data) in
  let avatar := portrait data in
  match fetched_profile id name avatar with
  | Some p =>
      snapshot_of id (if truthy name then name else therapist_display_name (JDict p)) (jor avatar (portrait (JDict p)))
        (match present_dict body.(nb_therapist_data) with Some d => d | None => p end)
  | None => snapshot_of id name avatar (or_empty body.(nb_therapist_data))
  end.
(** What the request says of the second therapist counts if that one came. *)
Definition intake_second (body : CreateBookingRequest) (id : Z) : jdict :=
  let asked := body.(nb_secondary_therapist_id) ==? Some id in
  let data := if asked then or_empty body.(nb_secondary_therapist_data) else [] in
  let name := if asked then por_str body.(nb_secondary_therapist_name) (therapist_display_name (JDict data)) else "" in
  let avatar := portrait (JDict data) in
  match fetched_profile id name avatar with
  | Some p => snapshot_of id (if truthy name then name else therapist_display_name (JDict p)) (jor avatar (portrait (JDict p))) data
  | None => snapshot_of id name avatar data
  end.

(** ** Invoice and payment numbers *)

Definition text_field (v : json) : option string := match v with JNull => None | _ => Some (json_str v) end.
Definition known_number (own : option string) (body : CreateBookingRequest) (k : string) : option string :=
  text_field (jor_list [opt_json own; jget (JDict (or_empty body.(nb_payment_data))) k; jget (JDict (or_empty body.(nb_voucher_data))) k]).
(** The payment the request names; a name that is no UUID finds nothing. *)
Definition names_payment (payment_id : string) (p : Payment) : bool :=
  match uuid_of_string payment_id with
  | Some id => (p.(pm_id) =? id) || (p.(pm_payment_id) ==? Some payment_id)
  | None => false
  end.
Definition intake_numbers (body : CreateBookingRequest) (s : Store) : option string * option string :=
  let invoice := known_number body.(nb_invoice_number) body "invoice_number" in
  let number := known_number body.(nb_payment_number) body "payment_number" in
  match fill body.(nb_payment_id) None with
  | Some pid =>
      if truthy_opt invoice && truthy_opt number then (invoice, number)
      else match List.find (names_payment pid) (rows s.(payments)) with
           | Some p =>
               (match fill p.(pm_invoice_number) invoice with Some n => Some n | None => invoice end,
                match fill (Some p.(pm_payment_number)) number with Some n => Some n | None => number end)
           | None => (invoice, number)
           end
  | None => (invoice, number)
  end.
Definition intake_payment_data (body : CreateBookingRequest) (invoice number : option string) : jdict :=
  let put k (o : option string) d := match fill o None with Some n => dict_set d k (JStr n) | None => d end in
  put "invoice_number" invoice (put "payment_number" number (or_empty body.(nb_payment_data))).

(** ** The booking *)

(** What the service is asked to create. *)
Definition intake_booking (body : CreateBookingRequest) (user : CurrentUser) (headers : IntakeHeaders) (customer : Z * jdict)
    (i : Intake) (sel : Selected) (window : Z * Z) (price : PricingBreakdown * option Decimal) (s : Store) : CreateBooking :=
  let '(invoice, number) := intake_numbers body s in
  let '(by_, by_data) := requester body user in
  let '(status, payment_status) := intake_statuses body in
  mk_create_booking customer.1 (Some customer.2) body.(nb_branch_id) (Some (intake_branch body)) i.(in_entries) None None None None
    sel.(se_therapist) (Some (intake_therapist body sel.(se_therapist))) sel.(se_second) (intake_second body <$> sel.(se_second))
    window.1 window.2 (or_int (total_services_duration i.(in_entries)) 60) (or_zero body.(nb_extra_minutes))
    body.(nb_total_duration) body.(nb_addons_duration) price.2 price.1 (Some (addon_records body))
    (fill (por body.(nb_customer_notes) body.(nb_customer_message)) None)
    body.(nb_payment_id) body.(nb_payment_provider) body.(nb_payment_gateway) (intake_through body) body.(nb_payment_method)
    body.(nb_payment_url) (Some (intake_payment_data body invoice number)) (por body.(nb_idempotency_key) headers.(hd_idempotency_key))
    (intake_type body) (intake_payment_type body) status payment_status body.(nb_loyalty_data) body.(nb_reward_id)
    body.(nb_voucher_id) body.(nb_voucher_data) invoice (Some by_) (Some by_data) (Some by_)
    (Some (intake_source body user headers)) (match i.(in_plan) with Some p => p.(plan_session_list) | None => [] end).

(** Everything that is decided before the booking is created. *)
Definition prepare (body : CreateBookingRequest) (user : CurrentUser) (headers : IntakeHeaders) (fresh : nat → nat → string)
    (s : Store) : result (CreateBooking * Intake) :=
  customer ← intake_customer body user;
  i ← intake_services body fresh;
  sel ← select_therapists body i;
  check_other_rooms body i sel ;;
  window ← intake_window body i s.(now);
  price ← intake_pricing body i;
  Ok (intake_booking body user headers customer i sel window price s, i).

(** [except DoubleBookingError: 409; except USHBaseError: its status]. *)
Definition service_error (e : exn) : exn :=
  if isinstance e DoubleBookingError then http_error "409"
  else if isinstance e USHBaseError then http_error (json_str (JInt (default 500 (status_code e.(exn_class))))) else e.

(** The payment the booking was paid with is linked to it, and the session
    committed. *)
Definition link_where (booking_id : Z) (p : Payment → bool) : M Store () :=
  modify (λ s, s <| payments := (λ q, if p q then q <| pm_booking_id := Some booking_id |> else q) <$> s.(payments) |>).
Definition link_payment (body : CreateBookingRequest) (number : option string) (booking_id : Z) : M Store bool :=
  match fill body.(nb_payment_id) None, fill number None with
  | Some pid, _ =>
      match uuid_of_string pid with
      | Some _ => link_where booking_id (names_payment pid) ;; mret true
      | None => mret false
      end
  | None, Some n => link_where booking_id (λ p, String.eqb p.(pm_payment_number) n) ;; mret true
  | None, None => mret false
  end.

(** The first part of the request, and whether it was committed. *)
Definition open_booking (body : CreateBookingRequest) (user : CurrentUser) (headers : IntakeHeaders)
    (fresh : nat → nat → string) : M Store (Z * Intake * CreateBooking * bool) :=
  s ← get;
  '(c, i) ← lift (prepare body user headers fresh s);
  id ← try_except (create_booking TEMPORARY_HOLD_MINUTES c) (λ _, true) (λ e, raise (service_error e));
  committed ← link_payment body (intake_numbers body s).2 id;
  mret (id, i, c, committed).

(** ** Points *)

Definition points_due (body : CreateBookingRequest) (i : Intake) : result Z :=
  let cost := sum_ints (points_cost <$> i.(in_entries)) in
  if negb (cost =? 0) then Ok cost
  else if negb (body.(nb_price_in_points) =? 0) then Ok body.(nb_price_in_points)
  else if negb (body.(nb_loyalty_points) =? 0) then Ok body.(nb_loyalty_points)
  else match present_dict body.(nb_loyalty_data) with
       | Some d => int_or_raise (jget_or (JDict d) "points_cost" (JInt 0))
       | None => Ok 0
       end.
Definition redeem (body : CreateBookingRequest) (i : Intake) (c : CreateBooking) (booking_id : Z) : M Store () :=
  if is_redemption body then
    points ← lift (points_due body i);
    b ← get_booking_row booking_id;
    when (0 <? points)
      (answering [(ValueError, "400")]
         (LoyaltyService.redeem_points c.(cb_customer_id) points (Some booking_id) b.(bk_booking_number)
            (opt_text c.(cb_created_by)) ;; mret ()))
  else mret ().

(** ** The invoice *)

Definition by_voucher (body : CreateBookingRequest) : bool :=
  String.eqb (intake_type body) "gift_voucher" || String.eqb (intake_payment_type body) "gift_voucher" ||
  bool_decide (is_Some body.(nb_voucher_id)) || (lower (opt_text body.(nb_payment_method)) in? ["voucher"; "gift_voucher"]).
Definition is_rewarded (body : CreateBookingRequest) (b : Booking) : bool :=
  is_redemption body || String.eqb (lower (strip b.(bk_payment_status))) "rewarded" ||
  jtruthy (Some (JDict (or_empty body.(nb_loyalty_data)))).
Definition set_invoices (booking_id : Z) (number id : string) : M Store () :=
  modify (λ s, s <| payments := (λ p, if p.(pm_booking_id) ==? Some booking_id
                                      then p <| pm_invoice_number := Some number |> <| pm_invoice_id := Some id |>
                                      else p) <$> s.(payments) |>).
(** (number, id) as far as they are known, and whether the session is
    committed. *)
Definition bill (body : CreateBookingRequest) (booking_id : Z) : M Store (option string * option string * bool) :=
  b ← get_booking_row booking_id;
  if truthy_opt b.(bk_invoice_number) then
    found ← swallow (get_invoice_by_source booking_id);
    mret (b.(bk_invoice_number), match found with Some (Some (Some id, _)) => fill (Some id) None | _ => None end, false)
  else if negb (by_voucher body) && ((lower (strip b.(bk_payment_status)) in? ["success"; "paid"]) || is_rewarded body b) then
    made ← swallow (asking (BookingInvoiceCall booking_id) (λ calls, booking_invoice_data calls booking_id));
    match made with
    | Some (Some (number, id)) =>
        when (truthy number) (upd_booking booking_id (λ b, b <| bk_invoice_number := Some number |>) ;; flush_booking booking_id) ;;
        set_invoices booking_id number id ;;
        mret (Some number, Some id, true)
    | _ => mret (b.(bk_invoice_number), None, false)
    end
  else mret (b.(bk_invoice_number), None, false).

(** ** The payment of a booking bought with points *)

Definition zero_payment (booking_id : Z) (b : Booking) (number : string) (invoice : option string * option string) (points : Z)
    (c : CreateBooking) (now_ id : Z) : Payment :=
  let data := dict_merge (or_empty c.(cb_payment_data))
    [("booking_type", JStr "loyalty"); ("invoice_number", opt_json invoice.1); ("invoice_id", opt_json invoice.2);
     ("points_cost", JInt points)] in
  mk_payment id (Some booking_id) b.(bk_customer_id) 0 0 (if truthy b.(bk_currency) then b.(bk_currency) else "KWD")
    (Some "success") (Some "Loyalty Points") (Some "Other") None invoice.2 invoice.1 None (Some data) now_ number
    b.(bk_customer_data) (Some b.(bk_service_id)) b.(bk_service_data) b.(bk_branch_id) b.(bk_branch_data)
    b.(bk_service_arrangement_id) b.(bk_service_arrangement_data) (or_int (total_minutes b) 60) None None None None None
    (Some 0) None None None None (Some "loyalty_points") (Some "ushspa") None None None (Some "branch_service")
    (Some (por_str c.(cb_created_by_user) (por_str c.(cb_created_by) "customer"))) c.(cb_created_by_user_data) no_details.
Definition zero_history (pid : Z) (c : CreateBooking) : PaymentStatusHistory :=
  mk_history pid None "success" "ushspa" None (Some (uuid_str pid)) None
    (Some (por_str c.(cb_created_by_user) (por_str c.(cb_created_by) "customer"))) c.(cb_created_by_user_data).
(** A payment that is there becomes a successful one of nothing. *)
Definition zeroed (invoice : option string * option string) (p : Payment) : Payment :=
  let keep (new old : option string) := match fill new None with Some n => Some n | None => old end in
  let unless (old : option string) (new : string) := if truthy_opt old then old else Some new in
  p <| pm_invoice_number := keep invoice.1 p.(pm_invoice_number) |> <| pm_invoice_id := keep invoice.2 p.(pm_invoice_id) |>
    <| pm_total_amount := 0 |> <| pm_invoice_value := Some 0 |> <| pm_status := Some "success" |>
    <| pm_payment_provider := unless p.(pm_payment_provider) "Loyalty Points" |>
    <| pm_payment_through := unless p.(pm_payment_through) "ushspa" |>
    <| pm_payment_method := unless p.(pm_payment_method) "loyalty_points" |>.
Definition paid_with_points (invoice : option string * option string) (pid : Z) (number : string) (b : Booking) : Booking :=
  let put k (o : option string) d := match fill o None with Some n => dict_set d k (JStr n) | None => d end in
  b <| bk_payment_id := Some (RefUuid pid) |>
    <| bk_payment_data := Some (put "invoice_id" invoice.2 (put "invoice_number" invoice.1
                                 (put "payment_number" (Some number) (or_empty b.(bk_payment_data))))) |>.
Definition record_points_payment (body : CreateBookingRequest) (i : Intake) (c : CreateBooking) (booking_id : Z)
    (invoice : option string * option string) : M Store () :=
  b ← get_booking_row booking_id;
  existing ← gets (λ s, head (Lifecycle.payments_of_booking booking_id s));
  pid ← (match existing with
         | Some p => upd_payment p.(pm_id) (zeroed invoice) ;; flush_payment p.(pm_id) ;; mret p.(pm_id)
         | None =>
             s ← get;
             points ← lift (points_due body i);
             pid ← insert_payment (zero_payment booking_id b (next_payment_number s) invoice points c s.(now));
             add_history (zero_history pid c) ;; mret pid
         end);
  p ← get_payment_row pid;
  upd_booking booking_id (paid_with_points invoice pid p.(pm_payment_number)) ;;
  flush_booking booking_id.

(** ** The appointment cache *)

Definition customer_name (c : CreateBooking) : string :=
  let d := JDict (or_empty c.(cb_customer_data)) in
  strip (json_str (jget_or d "first_name" (JStr "")) ++ " " ++ json_str (jget_or d "last_name" (JStr ""))).
Definition new_cache_fields (body : CreateBookingRequest) (i : Intake) (c : CreateBooking) (b : Booking) : jdict :=
  let st := lower b.(bk_status) in [
    ("service_arrangement_id", uuid_json body.(nb_service_arrangement_id)); ("therapist_id", JStr (uuid_str c.(cb_therapist_id)));
    ("appointment_date", JStr (date_text (local_day c.(cb_appointment_start))));
    ("appointment_time", JStr (clock_text (time_of_day c.(cb_appointment_start))));
    ("booking_type", JStr (if intake_type body in? ["home_service"; "home"] then "home" else "branch"));
    ("duration", JInt i.(in_duration));
    ("status", JStr (if st in? ["confirmed"; "draft"] then "confirmed" else if truthy st then st else "confirmed"));
    ("payment_status", JStr (if lower b.(bk_payment_status) in? ["success"; "paid"] then "paid" else "pending"));
    ("customer_id", JStr (uuid_str c.(cb_customer_id))); ("customer_name", opt_json (or_none (customer_name c)));
    ("branch_id", uuid_json body.(nb_branch_id));
    ("branch_name", jor (intake_branch_name body) JNull);
    ("service_id", jor (jget (default JNull (head i.(in_entries))) "service_id") JNull);
    ("service_name", opt_json (or_none (joined_service_name i.(in_entries) ", ")));
    ("services", JList (cache_services_payload i.(in_entries)));
    ("secondary_therapist_id", uuid_json c.(cb_secondary_therapist_id));
    ("secondary_therapist_name", jor (jget (JDict (or_empty c.(cb_secondary_therapist_data))) "name") JNull);
    ("sessions", match i.(in_plan) with Some p => JList (cache_sessions_payload p.(plan_session_list)) | None => JNull end)].
Definition create_cache (body : CreateBookingRequest) (i : Intake) (c : CreateBooking) (booking_id : Z) (b : Booking) : M Store () :=
  swallow (ask_cache (CreateAppointmentCacheCall (uuid_str booking_id) (new_cache_fields body i c b))) ;; mret ().

(** ** The session *)

(** The database goes back to [base]; what was sent outside stays sent. *)
Definition back_to (base s : Store) : Store :=
  base <| now := s.(now) |> <| events := s.(events) |> <| outbound := s.(outbound) |>.
(** What was committed, and the database as the session sees it. *)
Definition Session : Type := Store * Store.
Definition work {A} (m : M Store A) : M Session A := λ '(saved, s), let '(r, s') := m s in (r, (saved, s')).
Definition commit : M Session () := λ '(_, s), (Ok (), (s, s)).
Definition roll_back : M Session () := λ '(saved, s), (Ok (), (saved, back_to saved s)).
Definition with_commits {A} (m : M Session A) : M Store A := λ s,
  match m (s, s) with
  | (Ok a, (_, s')) => (Ok a, s')
  | (Raise e, (saved, s')) => (Raise e, back_to saved s')
  end.

(** The key of the payment is assigned to a text column of the booking.  When the
    driver refuses it the commit fails, which is passed over: the session is back
    at its last commit, and a booking stored there is expired, so that reading it
    for the response fails. *)
Definition keep_points_payment (body : CreateBookingRequest) (i : Intake) (c : CreateBooking) (booking_id : Z)
    (invoice : option string * option string) : M Session () :=
  recorded ← work (swallow (record_points_payment body i c booking_id invoice));
  match recorded with
  | None => mret ()
  | Some _ =>
      if text_takes_uuid then commit
      else
        roll_back ;;
        session ← get;
        raise_if (bool_decide (is_Some (session.1.(bookings) !! booking_id))) (err PythonException)
  end.

(** Everything after the booking is created. *)
Definition close_booking (body : CreateBookingRequest) (i : Intake) (c : CreateBooking) (booking_id : Z) : M Session Z :=
  work (redeem body i c booking_id) ;;
  '(invoice, billed) ← work (bill body booking_id);
  when billed commit ;;
  b ← work (get_booking_row booking_id);
  when (is_rewarded body b) (keep_points_payment body i c booking_id invoice) ;;
  work (create_cache body i c booking_id b) ;;
  mret booking_id.

Definition create_request (body : CreateBookingRequest) (user : CurrentUser) (headers : IntakeHeaders)
    (fresh : nat → nat → string) : M Store Z :=
  with_commits
    ('(booking_id, i, c, linked) ← work (open_booking body user headers fresh);
     when linked commit ;;
     close_booking body i c booking_id).
End intake.
