(* ===== verification/BookingApiSpec.v ===== *)
(** * The booking endpoints keep the schedule

    What the planner hands over is what the booking service relies on; what each
    request leaves of the rows; histories of requests. *)

From S2P Require Import Prelude Exceptions Effects StateMachines Money Numbers Store PyText PyDate Sessions SessionPlanner SessionSpec PlanSpec RefundLifecycle RefundService Loyalty LinkGateway Settlement LinkService LinkFrame BookingEvents BookingRepo BookingService BookingChanges BookingUpdate BookingSlots BookingFrame BookingSpec SessionChange UpdateSpec PaymentApi BookingApi BookingIntake.
Import BookingService BookingUpdates.
#[local] Open Scope Z_scope.

(** ** From the planner to the service *)

(** The therapists of the sessions are named by their keys, two different ones in
    the first. *)
Definition by_key (s : json) : Prop :=
  (∃ t, id_field (Some t) (jget s "therapist_id")) ∧ ∃ o, id_field o (jget s "secondary_therapist_id").
Definition named_by_keys (sessions : list json) : Prop :=
  Forall by_key sessions ∧
  ∀ first, head sessions = Some first → jget first "secondary_therapist_id" ≠ jget first "therapist_id".

Lemma by_key_mapping s : by_key s → is_mapping s = true.
Proof. intros [[t [_ Ht]] _]. by destruct s. Qed.

(** Sessions in order lie between the first start and the last end. *)
Lemma within_last s l : proper s → Forall proper l → ForallOrdPairs ends_before (s :: l) →
  ∃ a z, session_window s = (Some a, Some z) ∧
  ∃ hi, (session_window (default JNull (last (s :: l)))).2 = Some hi ∧
    Forall (λ s', ∃ a' z', session_window s' = (Some a', Some z') ∧ a <= a' ∧ z' <= hi) (s :: l).
Proof.
  revert s. induction l as [|s' l IH]; intros s (a & z & Hw & Haz)%proper_window Hl Hp.
  - exists a, z. split; [done|]. exists z. change (default JNull (last [s])) with s. rewrite Hw. split; [done|]. repeat constructor. exists a, z. split_and!; [done|lia..].
  - inversion Hl as [|? ? Hs' Hl']; subst. inversion Hp as [|? ? Hall Hp']; subst.
    destruct (IH s' Hs' Hl' Hp') as (a' & z' & Hw' & hi & Hhi & HF). exists a, z. split; [done|]. exists hi. split; [exact Hhi|].
    assert (z <= a') as Hza.
    { inversion Hall as [|? ? He _]; subst. unfold ends_before in He. by rewrite Hw, Hw' in He. }
    assert (a' <= z') by (apply proper_window in Hs' as (x & y & E & ?); rewrite Hw' in E; injection E as -> ->; lia).
    assert (z' <= hi) by (inversion HF as [|? ? (x & y & E & ?) _]; subst; rewrite Hw' in E; injection E as <- <-; lia).
    constructor; [exists a, z; split_and!; [done|lia..]|].
    eapply Forall_impl; [exact HF|]. cbn. intros s1 (x & y & E & ?). exists x, y. split_and!; [done|lia..].
Qed.

Section planner.
Context `{Ushauth}.

Lemma plan_proper items date loyalty check branch_id exclude fresh p :
  plan_sessions items date loyalty check branch_id exclude fresh = Ok p →
  p.(plan_session_list) ≠ [] ∧ Forall proper p.(plan_session_list) ∧ ForallOrdPairs ends_before p.(plan_session_list) ∧
  p.(plan_mirror) = legacy_mirror p.(plan_session_list).
Proof.
  intros (ctx & built & ordered & [_ _ _ Hord _ Hres Hp])%plan_steps.
  apply validated_sessions in Hord as (-> & Hacc & Hends).
  pose proof (reserved_windows _ _ _ _ _ _ Hres) as Hw. pose proof (Forall2_length _ _ _ Hres) as Hl. rewrite length_sort_sessions in Hl.
  split_and!.
  - intros E. rewrite E in Hl. destruct Hacc as [[Hc _] _ _ _]. cbn in Hl. lia.
  - set (P := λ w : option Z * option Z, match w with (Some a, Some b) => a < b | _ => False end).
    apply (Forall_windows P _ _ Hw), (Forall_sorted P).
    destruct Hacc as [_ Hwf _ _]. eapply Forall_impl; [exact Hwf|]. intros s Hs. by apply well_formed_proper.
  - by apply (pairs_windows (λ w w', match w, w' with (_, Some b), (Some c, _) => b <= c | _, _ => False end) _ _ Hw).
  - by rewrite Hp.
Qed.

(** A plan whose therapists are named by keys is what the service asks for. *)
Lemma plan_planned items date loyalty check branch_id exclude fresh p :
  plan_sessions items date loyalty check branch_id exclude fresh = Ok p → named_by_keys p.(plan_session_list) →
  UpdateSpec.planned p.(plan_session_list).
Proof.
  intros (Hne & Hpr & Hends & _)%plan_proper [Hk Hd]. destruct (plan_session_list p) as [|s l] eqn:El; [done|].
  inversion Hpr as [|? ? Hs Hl]; subst. destruct (within_last s l Hs Hl Hends) as (a & z & Hw & hi & Hhi & HF).
  inversion Hk as [|? ? [[t Ht] [o Ho]] _]; subst. exists a, hi, t, o. split_and!; [done| | | |].
  - split_and!; [|done|done|].
    + apply Forall_forall. intros s' Hs'. rewrite Forall_forall in Hk, HF. pose proof (Hk s' Hs') as Hb.
      destruct (HF s' Hs') as (a' & z' & E & ?). split; [by apply by_key_mapping|apply Hb|apply Hb|by exists a', z'].
    + intros ->. change (default JNull (last [s])) with s in Hhi. rewrite Hw in Hhi |- *. cbn in Hhi. congruence.
  - intros ->. apply (Hd s); [done|]. destruct Ht as [_ ->], Ho as [_ ->]. done.
  - unfold legacy_mirror. cbn [m_appointment_start head default]. unfold id. by rewrite Hw.
  - exact Hhi.
Qed.
End planner.

(** ** The request the endpoint makes *)

Lemma char_hex_bound c d : char_hex c = Some d → 0 <= d < 16.
Proof.
  unfold char_hex. cbv zeta. repeat case_match; intros [= <-];
    repeat match goal with H : (_ && _) = true |- _ => apply andb_true_iff in H as [?%Nat.leb_le ?%Nat.leb_le] end; lia.
Qed.
Lemma parse_hex_bound s acc z : 0 <= acc → parse_hex acc s = Some z → 0 <= z < (acc + 1) * 16 ^ Z.of_nat (String.length s).
Proof.
  revert acc. induction s as [|c s IH]; intros acc Ha; cbn [parse_hex String.length]; [intros [= <-]; cbn; lia|].
  destruct (char_hex c) as [d|] eqn:Ed; [|done]. apply char_hex_bound in Ed. intros H%IH; [|lia].
  rewrite Nat2Z.inj_succ, Z.pow_succ_r by lia. nia.
Qed.
Lemma uuid_of_string_valid s z : uuid_of_string s = Some z → valid_id z.
Proof.
  unfold uuid_of_string. cbv zeta. destruct (_ =? 32)%nat eqn:El; [|done]. apply Nat.eqb_eq in El.
  intros [H1 H2]%parse_hex_bound; [|lia]. rewrite El in H2. split; [done|exact H2].
Qed.
Lemma uuid_of_json_valid j z : uuid_of_json j = Ok z → valid_id z.
Proof. unfold uuid_of_json. destruct (uuid_of_string _) eqn:E; [|done]. intros [= <-]. by eapply uuid_of_string_valid. Qed.
Lemma therapist_key_valid t z : therapist_key t = Ok z → valid_id z.
Proof.
  unfold therapist_key. destruct t as [t|]; [|done]. destruct (truthy t); [|done].
  destruct (uuid_of_string t) eqn:E; [|done]. intros [= <-]. by eapply uuid_of_string_valid.
Qed.

Lemma intake_status_value body : ∃ st : Booking.BookingStatus, (intake_statuses body).1 = value st.
Proof.
  assert (∀ t, asked_status body = Some t → ∃ st : Booking.BookingStatus, t = value st) as Hasked.
  { intros t. unfold asked_status. destruct (fill _ _) as [t0|]; [|done]. cbn [mbind option_bind]. unfold only_if.
    destruct (_ in? _) eqn:E; [|done]. intros [= <-]. apply bool_decide_eq_true in E. unfold BOOKING_STATUSES in E.
    apply list_elem_of_fmap in E as (st & -> & _). by exists st. }
  unfold intake_statuses.
  assert (∀ o, (∀ t, o = Some t → ∃ st : Booking.BookingStatus, t = value st) → (∃ st : Booking.BookingStatus, default "requested" o = value st) ∧
            ∃ st : Booking.BookingStatus, default "confirmed" o = value st) as Hd.
  { intros [t|] Ho; [by split; apply Ho|]. split; [by exists Booking.REQUESTED|by exists Booking.CONFIRMED]. }
  destruct (Hd _ Hasked) as [H1 H2]. repeat case_match; simplify_eq/=; done.
Qed.

Section intake.
Context `{BookingApiWorld}.

Lemma refusing_ok {A} l (r : result A) a : refusing l r = Ok a → r = Ok a.
Proof. unfold refusing. by destruct r. Qed.
Lemma availability_ok {A} (r : result A) a : AVAILABILITY_REFUSED r = Ok a → r = Ok a.
Proof. unfold AVAILABILITY_REFUSED. by destruct r. Qed.

Lemma second_reserved_valid res t required o : second_reserved res t required = Ok o → ∀ t2, o = Some t2 → valid_id t2.
Proof.
  intros (needed & _ & Ho)%result_bind_ok. repeat case_match; simplify_eq/=; try done. intros t2 [= <-].
  by eapply uuid_of_string_valid.
Qed.
Lemma select_valid body i sel :
  select_therapists body i = Ok sel → valid_id sel.(se_therapist) ∧ ∀ t2, sel.(se_second) = Some t2 → valid_id t2.
Proof.
  assert (∀ sel, select_unchecked body i = Ok sel → valid_id sel.(se_therapist) ∧ ∀ t2, sel.(se_second) = Some t2 → valid_id t2) as Hu.
  { intros sel' (id & Hid & [= <-])%result_bind_ok. split; [by eapply therapist_key_valid|done]. }
  assert (∀ sel, select_home body i = Ok sel → valid_id sel.(se_therapist) ∧ ∀ t2, sel.(se_second) = Some t2 → valid_id t2) as Hh.
  { intros sel'. unfold select_home. cbv zeta. intros Hs. ok_steps. subst sel'. split; [by eapply therapist_key_valid|done]. }
  unfold select_therapists. destruct (in_plan i) as [plan|].
  - intros (t & Ht & (second & H2 & [= <-])%result_bind_ok)%result_bind_ok. split; [by eapply uuid_of_json_valid|].
    cbn. intros t2 ->. cbv zeta in H2. case_match; [|done]. apply result_bind_ok in H2 as (id & Hid & [= <-]). by eapply uuid_of_json_valid.
  - destruct (nb_service_arrangement_id body) as [a|]; [|case_match; eauto].
    destruct (in_branch body); [|case_match; eauto]. unfold select_room. cbv zeta. intros Hs. ok_steps.
    destruct (uuid_of_string _) as [t|] eqn:Et in Hs; [|done]. ok_steps. subst sel. cbn.
    split; [by eapply uuid_of_string_valid|]. by eapply second_reserved_valid.
Qed.

(** The service is asked for a booking that mirrors its sessions. *)
Lemma prepare_request_ok body user headers fresh s c i :
  prepare body user headers fresh s = Ok (c, i) →
  (∀ p, i.(in_plan) = Some p → named_by_keys p.(plan_session_list)) → request_ok c.
Proof.
  intros (customer & _ & (i' & Hi & (sel & Hsel & (u & _ & (window & Hw & (price & _ & [= <- <-])%result_bind_ok)%result_bind_ok)%result_bind_ok)%result_bind_ok)%result_bind_ok)%result_bind_ok Hk.
  pose proof (select_valid _ _ _ Hsel) as [Hv1 Hv2]. pose proof (intake_status_value body) as Hst.
  unfold intake_booking. destruct (intake_numbers _ _) as [invoice number], (requester _ _) as [by_ by_data], (intake_statuses body) as [st ps].
  unfold request_ok. cbn. cbn in Hst. split_and!; [done..|].
  destruct (in_plan i') as [p|] eqn:Ep; [|done]. specialize (Hk p eq_refl).
  unfold intake_services in Hi. destruct (nb_sessions body) as [|it its]; [by apply result_bind_ok in Hi as (? & _ & [= <-])|].
  apply result_bind_ok in Hi as (plan & Hplan%refusing_ok & [= <-]). cbn in Ep. injection Ep as ->.
  pose proof (plan_proper _ _ _ _ _ _ _ _ Hplan) as (_ & _ & _ & Em).
  destruct (plan_planned _ _ _ _ _ _ _ _ Hplan Hk) as (start & end_ & t & o & Hne & Hm & Hot & Hs & He).
  unfold intake_window in Hw. cbn [in_plan] in Hw. rewrite Em, Hs, He in Hw. injection Hw as <-. cbn [fst snd].
  destruct (plan_session_list p) as [|first rest] eqn:El; [done|]. destruct Hm as (M1 & M2 & M3 & M4).
  unfold select_therapists, select_planned in Hsel. cbn [in_plan] in Hsel. rewrite El in Hsel. cbn [head default] in Hsel. unfold id in Hsel.
  destruct M2 as [Ht E2]. rewrite E2, uuid_of_json_str in Hsel by done. apply result_bind_ok in Hsel as (t' & [= <-] & Hsel).
  apply result_bind_ok in Hsel as (o' & Ho & [= <-]). cbn [se_therapist se_second].
  assert (o' = o) as ->; [|by split_and!].
  destruct o as [t2|]; cbn in M3.
  - destruct M3 as [Ht2 E3]. rewrite E3, uuid_truthy, uuid_of_json_str in Ho by done. by injection Ho.
  - rewrite M3 in Ho. by injection Ho.
Qed.
End intake.
