(* ===== verification/BookingRequests.v ===== *)
(** * Histories of booking requests

    Every endpoint keeps the schedule: what each request leaves of the slots, the
    request of the booking service it makes, and any history of them. *)

From S2P Require Import Prelude Exceptions Effects StateMachines Money Numbers Store PyText PyDate Sessions SessionPlanner SessionSpec PlanSpec RefundLifecycle RefundService Loyalty LinkGateway Settlement LinkService LinkFrame BookingEvents BookingRepo BookingService BookingChanges BookingUpdate BookingSlots BookingFrame BookingSpec SessionChange UpdateSpec PaymentApi BookingApi BookingIntake BookingApiSpec.
Import BookingService BookingUpdates.
#[local] Open Scope Z_scope.

(** ** What the endpoints add to the service *)

Section frame.
Context `{BookingApiWorld}.

Lemma answering_kept {A} l (m : M Store A) : changes core_kept m → changes core_kept (answering l m).
Proof. intros Hm. unfold answering. kept. Qed.
Lemma ask_cache_kept c : changes core_kept (ask_cache c).
Proof. unfold ask_cache. kept. Qed.
Hint Resolve ask_cache_kept : ush.
Lemma get_booking_kept id : changes core_kept (get_booking id).
Proof. unfold get_booking. kept. Qed.
Lemma user_key_kept user : changes core_kept (user_key user).
Proof. unfold user_key, uuid_arg. kept. Qed.
Lemma link_invoice_kept id n : changes core_kept (link_booking_invoice id n).
Proof. unfold link_booking_invoice, set_payment_invoices. kept. Qed.
Lemma sync_cache_kept id d : changes core_kept (sync_cache id d).
Proof. unfold sync_cache. kept. Qed.
Lemma note_number_kept id n : changes core_kept (note_payment_number id n).
Proof. unfold note_payment_number. kept. Qed.
Lemma announce_updated_kept id body : changes core_kept (announce_updated id body).
Proof. unfold announce_updated. kept. Qed.
Hint Resolve sync_cache_kept : ush.
Lemma sync_updated_kept id plan second : changes core_kept (sync_updated id plan second).
Proof. unfold sync_updated. kept. Qed.
Lemma set_cache_status_kept id st ps : changes core_kept (set_cache_status id st ps).
Proof. unfold set_cache_status. kept. Qed.
Hint Resolve set_cache_status_kept : ush.
Lemma cancelled_cache_kept id body : changes core_kept (status_cancelled_cache id body).
Proof. unfold status_cancelled_cache. kept. Qed.
Lemma desk_payment_kept id body : changes core_kept (announce_desk_payment id body).
Proof. unfold announce_desk_payment. kept. Qed.

Lemma link_payment_kept body n id : changes core_kept (link_payment body n id).
Proof. unfold link_payment, link_where. kept. Qed.
Lemma redeem_points_kept c points b n who : changes core_kept (LoyaltyService.redeem_points c points b n who).
Proof.
  unfold LoyaltyService.redeem_points, LoyaltyService.get_account, Repository.debit_points, Repository.expire_account_if_needed,
    Repository.get_account_by_customer, Repository.touch_account, Repository.upd_account, Repository.add_txn. kept.
Qed.
Hint Resolve redeem_points_kept answering_kept : ush.
Lemma redeem_kept body i c id : changes core_kept (redeem body i c id).
Proof. unfold redeem. kept. apply answering_kept. kept. Qed.
Lemma bill_kept body id : changes core_kept (bill body id).
Proof. unfold bill, set_invoices. kept. Qed.
Lemma points_payment_kept body i c id invoice : changes core_kept (record_points_payment body i c id invoice).
Proof. unfold record_points_payment. kept. Qed.
Lemma create_cache_kept body i c id b : changes core_kept (create_cache body i c id b).
Proof. unfold create_cache. kept. Qed.
End frame.
#[export] Hint Resolve get_booking_kept user_key_kept link_invoice_kept sync_cache_kept note_number_kept announce_updated_kept
  sync_updated_kept cancelled_cache_kept desk_payment_kept link_payment_kept redeem_kept bill_kept points_payment_kept create_cache_kept : ush.

(** ** Requests *)

Inductive BookingRequest :=
  | CreateBookingReq (body : CreateBookingRequest) (user : CurrentUser) (headers : IntakeHeaders) (fresh : nat → nat → string)
  | UpdateBookingReq (booking_id : Z) (body : UpdateBookingRequest) (user : CurrentUser) (fresh : bool → nat → nat → string) (token : string)
  | CancelBookingReq (booking_id : Z) (body : CancelBookingRequest) (user : CurrentUser)
  | RescheduleReq (booking_id : Z) (body : RescheduleRequest) (user : CurrentUser)
  | StatusReq (booking_id : Z) (body : UpdateBookingStatusRequest) (authorization : option string) (token : string)
  | TherapistReq (booking_id : Z) (session_id : string) (body : ChangeSessionTherapistRequest)
  | InvoiceReq (booking_id : Z) (invoice_number : string).

Section history.
Context `{BookingApiWorld}.
Context (PAYMENT_LINK_DEFAULT_GATEWAY : string) (PAYMENT_LINK_EXPIRY_MINUTES TEMPORARY_HOLD_MINUTES : Z).

(** The database a request leaves. *)
Definition serve (r : BookingRequest) (s : Store) : Store :=
  match r with
  | CreateBookingReq body user headers fresh => (create_request TEMPORARY_HOLD_MINUTES body user headers fresh s).2
  | UpdateBookingReq id body user fresh token =>
      (in_session (update_request PAYMENT_LINK_DEFAULT_GATEWAY PAYMENT_LINK_EXPIRY_MINUTES id body user fresh token) s).2
  | CancelBookingReq id body user => (in_session (cancel_request PAYMENT_LINK_DEFAULT_GATEWAY id body user) s).2
  | RescheduleReq id body user => (in_session (reschedule_request id body user) s).2
  | StatusReq id body authorization token =>
      (in_session (status_request PAYMENT_LINK_DEFAULT_GATEWAY PAYMENT_LINK_EXPIRY_MINUTES id body authorization token) s).2
  | TherapistReq id session_id body => (in_session (therapist_request id session_id body) s).2
  | InvoiceReq id number => (in_session (link_booking_invoice id number) s).2
  end.

(** An update that brings new sessions, or one that is safe for the service. *)
Definition update_admitted (u : UpdateBooking) (b : Booking) : Prop :=
  match u.(ub_sessions) with
  | Some l =>
      named_by_keys l ∧ u.(ub_therapist_id) = None ∧ u.(ub_secondary_therapist_id) = None ∧ u.(ub_secondary_provided) = false ∧
      ∀ sess, sess ∈ b.(bk_schedule).(sc_sessions) → ∀ a z, session_window sess = (Some a, Some z) → printable_window (a, z)
  | None => update_safe u b
  end.
Definition admitted (r : BookingRequest) (s : Store) : Prop :=
  match r with
  | CreateBookingReq body user headers fresh =>
      ∀ c i p, prepare body user headers fresh s = Ok (c, i) → i.(in_plan) = Some p → named_by_keys p.(plan_session_list)
  | UpdateBookingReq id body user fresh token =>
      ∀ b s1 key u, get_booking id s = (Ok b, s1) → update_arguments id key body user b fresh = Ok u → update_admitted u b
  | StatusReq id body authorization token =>
      ∀ b, s.(bookings) !! id = Some b →
        update_safe ((status_arguments body authorization) <| ub_status := Some body.(sr_status) |>) b
  | TherapistReq id session_id body =>
      (∀ t, body.(tr_therapist_id) = Some t → valid_id t) ∧ (∀ t, body.(tr_secondary_therapist_id) = Some t → valid_id t) ∧
      ∀ b, s.(bookings) !! id = Some b → times_ok b
  | CancelBookingReq _ _ _ | RescheduleReq _ _ _ | InvoiceReq _ _ => True
  end.

Definition serve_all (rs : list BookingRequest) (s : Store) : Store := foldl (λ s r, serve r s) s rs.
Fixpoint all_admitted (rs : list BookingRequest) (s : Store) : Prop :=
  match rs with [] => True | r :: rs => admitted r s ∧ all_admitted rs (serve r s) end.

(** ** Each request *)

Lemma in_session_schedule {A} (m : M Store A) s :
  schedule_ok s → wp m s (λ r s', match r with Ok _ => schedule_ok s' | Raise _ => True end) → schedule_ok (in_session m s).2.
Proof.
  intros Hs Hm. unfold in_session, wp in *. destruct (m s) as [[a|e] s1]; [exact Hm|].
  eapply schedule_ok_kept; [|exact Hs]. by intros id.
Qed.
Lemma any_schedule {A} (m : M Store A) s :
  wp m s (λ _ s', schedule_ok s') → wp m s (λ r s', match r with Ok _ => schedule_ok s' | Raise _ => True end).
Proof. intros Hm. eapply wp_mono; [exact Hm|]. by intros [] ?. Qed.
Lemma back_schedule base s : schedule_ok base → schedule_ok (back_to base s).
Proof. intros Hb. eapply schedule_ok_kept; [|exact Hb]. by intros id. Qed.

(** What is committed and what the session sees. *)
Definition session_schedule (x : Session) : Prop := schedule_ok x.1 ∧ schedule_ok x.2.
Lemma work_schedule {A} (m : M Store A) : changes core_kept m → preserves session_schedule (work m).
Proof.
  intros Hm [saved s] [Hs1 Hs2]. specialize (Hm s). unfold work. destruct (m s) as [r s']. split; [exact Hs1|].
  eapply schedule_ok_kept; [by apply core_kept_slots|exact Hs2].
Qed.
Lemma commit_schedule : preserves session_schedule commit.
Proof. by intros [saved s] [_ Hs]. Qed.
Lemma roll_back_schedule : preserves session_schedule roll_back.
Proof. intros [saved s] [Hs _]. split; [exact Hs|by apply back_schedule]. Qed.
Hint Resolve commit_schedule roll_back_schedule : ush.
Lemma close_schedule body i c id : preserves session_schedule (close_booking body i c id).
Proof.
  unfold close_booking, keep_points_payment. repeat (first [apply work_schedule; solve [kept] | preserve_step]).
Qed.

Lemma open_schedule body user headers fresh s :
  schedule_ok s → admitted (CreateBookingReq body user headers fresh) s →
  schedule_ok (open_booking TEMPORARY_HOLD_MINUTES body user headers fresh s).2.
Proof.
  intros Hs Ha. change (wp (open_booking TEMPORARY_HOLD_MINUTES body user headers fresh) s (λ _ s', schedule_ok s')).
  unfold open_booking. apply wp_bind, wp_get, wp_bind, wp_lift.
  destruct (prepare body user headers fresh s) as [[c i]|e] eqn:Ep; [|exact Hs].
  assert (request_ok c) as Hc by (eapply prepare_request_ok; [exact Ep|intros p; by eapply Ha]).
  apply wp_bind, wp_try. eapply wp_mono; [by apply wp_create_booking|]. intros [id|e] s1 Hs1; [|exact Hs1]. kept_steps.
Qed.
Lemma create_schedule body user headers fresh s :
  schedule_ok s → admitted (CreateBookingReq body user headers fresh) s → schedule_ok (serve (CreateBookingReq body user headers fresh) s).
Proof.
  intros Hs Ha. cbn [serve]. pose proof (open_schedule _ _ _ _ _ Hs Ha) as Ho. unfold create_request, with_commits.
  rewrite bind_run. unfold work at 1. destruct (open_booking _ _ _ _ _ s) as [[[[[id i] c] linked]|e] s1]; [|by apply back_schedule].
  cbn in Ho. cbn beta iota. match goal with |- context [?m (s, s1)] =>
    assert (session_schedule (m (s, s1)).2) as Hx by
      (assert (preserves session_schedule m) as Hm by (preserve; apply close_schedule); by apply Hm);
    destruct (m (s, s1)) as [[r|e] [saved s2]]; destruct Hx as [Hx1 Hx2] end; [exact Hx2|by apply back_schedule].
Qed.

Lemma update_admitted_safe id key body user b fresh u :
  update_arguments id key body user b fresh = Ok u → update_admitted u b → update_safe u b.
Proof.
  intros Hu Ha. unfold update_admitted in Ha. destruct (ub_sessions u) as [l|] eqn:El; [|exact Ha].
  destruct Ha as (Hk & E1 & E2 & E3 & Ht).
  apply result_bind_ok in Hu as (own & _ & ([plan moved] & Hp & Hu)%result_bind_ok).
  apply result_bind_ok in Hu as (ap & _ & (ep & _ & (tot & _ & [= <-])%result_bind_ok)%result_bind_ok).
  cbn in El, E1, E2, E3. destruct plan as [p|]; [|done]. injection El as <-.
  split; cbn; rewrite ?E1, ?E2, ?E3; [by intros t [[=]|[=]]| |done..].
  intros l [= <-]. split_and!; [|done..].
  unfold update_plan in Hp. destruct (ur_sessions body) as [|it its]; [done|].
  apply refusing_ok in Hp. destruct (is_parked b).
  - apply result_bind_ok in Hp as (kept_ & Hkept & Hp). destruct (_ ==? _).
    + injection Hp as <- _. by eapply plan_planned.
    + apply result_bind_ok in Hp as (p' & Hp' & [= <- _]). by eapply plan_planned.
  - apply result_bind_ok in Hp as (p' & Hp' & [= <- _]). by eapply plan_planned.
Qed.

Lemma kept_schedule s s' : core_kept s s' → schedule_ok s → schedule_ok s'.
Proof. intros Hk%core_kept_slots Hs. by eapply schedule_ok_kept. Qed.

Lemma get_booking_returns id s b s1 : get_booking id s = (Ok b, s1) → s1.(bookings) !! id = Some b.
Proof.
  unfold get_booking. rewrite bind_run. destruct (get_by_id id s) as [[b0|e] s2]; [|done]. rewrite bind_run, gets_run, bind_run.
  destruct (newest _ _ _) as [p|]; unfold upd_booking; rewrite ?modify_run, ?ret_run; cbn beta iota; unfold get_booking_row;
    (destruct (bookings _ !! id) as [b1|] eqn:E; [|done]); rewrite some_or_raise_run; by intros [= <- <-].
Qed.

Lemma update_schedule id body user fresh token s :
  schedule_ok s → admitted (UpdateBookingReq id body user fresh token) s →
  schedule_ok (serve (UpdateBookingReq id body user fresh token) s).
Proof.
  intros Hs Ha. apply in_session_schedule; [exact Hs|]. cbn in Ha. unfold update_request. apply wp_bind.
  destruct (get_booking id s) as [r s1] eqn:Eg. apply (wp_of_run _ _ _ _ _ Eg).
  assert (core_kept s s1) as Hk by (pose proof (get_booking_kept id s) as Hk; by rewrite Eg in Hk).
  destruct r as [b|e]; [|done]. assert (s1.(bookings) !! id = Some b) as Hb by (by eapply get_booking_returns).
  apply (kept_schedule _ _ Hk) in Hs. apply wp_bind, wp_some_or_raise; [intros key _|done].
  apply wp_bind, wp_raise_if; [done|]. intros _. apply wp_bind, wp_lift.
  destruct (update_arguments id key body user b fresh) as [u|e] eqn:Eu; [|done]. apply wp_bind.
  eapply wp_mono; [apply wp_update_booking; [exact Hs|]|].
  - intros b'. rewrite Hb. intros [= <-]. eapply update_admitted_safe; [exact Eu|]. by eapply Ha.
  - intros [[]|e] s3 Hs3; [|done]. apply any_schedule. kept_steps.
Qed.
Lemma status_schedule id body authorization token s :
  schedule_ok s → admitted (StatusReq id body authorization token) s → schedule_ok (serve (StatusReq id body authorization token) s).
Proof.
  intros Hs Ha. apply in_session_schedule; [exact Hs|]. unfold status_request, update_status. apply wp_bind.
  eapply wp_mono; [apply wp_update_booking; [exact Hs|exact Ha]|]. intros [[]|e] s1 Hs1; [|done]. apply any_schedule. kept_steps.
Qed.

Lemma therapist_schedule id session_id body s :
  schedule_ok s → admitted (TherapistReq id session_id body) s → schedule_ok (serve (TherapistReq id session_id body) s).
Proof.
  intros Hs (H1 & H2 & H3). apply in_session_schedule; [exact Hs|]. apply any_schedule.
  unfold therapist_request, answering. apply wp_bind, wp_try.
  eapply wp_mono; [by apply wp_change_session_therapist|]. intros [[]|e] s1 Hs1; [|exact Hs1]. kept_steps.
Qed.

Lemma cancel_schedule id body user s : schedule_ok s → schedule_ok (serve (CancelBookingReq id body user) s).
Proof.
  intros Hs. apply in_session_schedule; [exact Hs|]. apply any_schedule. unfold cancel_request, user_key, uuid_arg. kept_steps.
  by apply cancel_keeps_schedule.
Qed.
Lemma reschedule_schedule id body user s : schedule_ok s → schedule_ok (serve (RescheduleReq id body user) s).
Proof.
  intros Hs. apply in_session_schedule; [exact Hs|]. apply any_schedule. unfold reschedule_request, user_key, uuid_arg. kept_steps.
  by apply reschedule_keeps_schedule.
Qed.
Lemma invoice_schedule id n s : schedule_ok s → schedule_ok (serve (InvoiceReq id n) s).
Proof. intros Hs. apply in_session_schedule; [exact Hs|]. apply any_schedule. kept_steps. Qed.

Lemma serve_schedule r s : schedule_ok s → admitted r s → schedule_ok (serve r s).
Proof.
  intros Hs Ha. destruct r; [by apply create_schedule|by apply update_schedule|by apply cancel_schedule|by apply reschedule_schedule|
    by apply status_schedule|by apply therapist_schedule|by apply invoice_schedule].
Qed.

(** C5: Over any history of booking requests, each in its own session, creations
    that commit halfway included, however they end and whatever the catalogue,
    the gateways and the other services answer: no therapist is in two bookings
    at once and every row mirrors its sessions, as long as the planned therapists
    are named by their keys and what is asked of a booking that is moved or
    brought back is safe for it. *)
Theorem booking_requests_history rs s :
  schedule_ok s → all_admitted rs s → schedule_ok (serve_all rs s).
Proof. revert s. induction rs as [|r rs IH]; intros s Hs; [done|]. intros [Ha Hrs]. apply IH; [by apply serve_schedule|exact Hrs]. Qed.
End history.

(** ** Whose booking it is *)

Section ownership.
Context `{BookingApiWorld}.
Context (PAYMENT_LINK_DEFAULT_GATEWAY : string) (PAYMENT_LINK_EXPIRY_MINUTES : Z).

Lemma get_booking_run id s b :
  s.(bookings) !! id = Some b →
  ∃ b', b'.(bk_customer_id) = b.(bk_customer_id) ∧
    get_booking id s = (Ok b', s <| bookings := <[id := b']> s.(bookings) |>).
Proof.
  intros Hb. unfold get_booking, BookingRepo.get_by_id. rewrite !bind_run, gets_run. cbn beta iota.
  rewrite Hb, some_or_raise_run, bind_run, gets_run, bind_run. cbn beta iota.
  destruct (newest _ _ _) as [p|].
  - exists (with_payment p b). split; [done|]. unfold upd_booking. rewrite modify_run, (alter_lookup _ _ _ _ Hb). cbn beta iota.
    unfold get_booking_row. cbn. by rewrite lookup_insert_eq.
  - exists b. split; [done|]. rewrite ret_run. cbn beta iota. unfold get_booking_row. rewrite Hb, some_or_raise_run.
    rewrite insert_id by done. by destruct s.
Qed.

(** A session that only read the booking leaves the database as it was. *)
Lemma read_only {A} (m : M Store A) e s bs : m s = (Raise e, s <| bookings := bs |>) → in_session m s = (Raise e, s).
Proof. intros E. unfold in_session. rewrite E. by destruct s. Qed.

(** C15: A customer cannot touch the booking of another: cancelling it, asking
    for another time and, as a customer, updating it are refused, and the
    database is left as it was, bookings, payments, events and calls included. *)
Theorem others_bookings_untouched id user key b s :
  s.(bookings) !! id = Some b → uuid_of_string user.(cu_sub) = Some key → key ≠ b.(bk_customer_id) →
  (∀ body, in_session (cancel_request PAYMENT_LINK_DEFAULT_GATEWAY id body user) s = (Raise (http_error "403"), s)) ∧
  (∀ body, in_session (reschedule_request id body user) s = (Raise (err AuthorizationError), s)) ∧
  (∀ body fresh token, body.(ur_source) = "customer" →
    in_session (update_request PAYMENT_LINK_DEFAULT_GATEWAY PAYMENT_LINK_EXPIRY_MINUTES id body user fresh token) s =
      (Raise (http_error "403"), s)).
Proof.
  intros Hb Hkey Hne. destruct (get_booking_run id s b Hb) as (b' & Hc & Hg).
  assert ((bk_customer_id b' =? key) = false) as Hk by (apply Z.eqb_neq; congruence).
  split_and!.
  - intros body. eapply read_only. unfold cancel_request, user_key, uuid_arg. rewrite bind_run, Hg. cbn [mbind option_bind].
    rewrite Hkey, bind_run, some_or_raise_run, Hk. reflexivity.
  - intros body. eapply read_only. unfold reschedule_request, user_key, uuid_arg. cbn [mbind option_bind].
    rewrite Hkey, bind_run, some_or_raise_run, bind_run, Hg. unfold request_reschedule, BookingRepo.get_by_id.
    rewrite !bind_run, gets_run. cbn. rewrite lookup_insert_eq. cbn. by rewrite Hk.
  - intros body fresh token Hsrc. eapply read_only. unfold update_request, user_key, uuid_arg. rewrite bind_run, Hg.
    cbn [mbind option_bind]. rewrite Hkey, bind_run, some_or_raise_run, Hk, Hsrc. reflexivity.
Qed.
End ownership.
