(* ===== verification/BookingPoints.v ===== *)
(** * Bookings bought with points

    A request that buys a booking with points takes exactly the points due from
    the account of the customer, once, and only for a booking that is stored;
    nothing else in the request touches an account. *)

From S2P Require Import Prelude Exceptions Effects StateMachines Money Numbers Store PyText PyDate Sessions SessionPlanner RefundLifecycle RefundService Loyalty LinkGateway Settlement LinkService LinkFrame BookingEvents BookingRepo BookingService BookingChanges BookingUpdate BookingSlots BookingFrame PaymentApi BookingApi BookingIntake BookingRequests.
Import BookingService.
#[local] Open Scope Z_scope.

(** ** What keeps the accounts *)

Definition accounts (s : Store) := (s.(loyalty_accounts), s.(loyalty_transactions), s.(now)).
Definition accounts_kept (s s' : Store) : Prop := accounts s' = accounts s.
#[export] Instance accounts_preorder : PreOrder accounts_kept.
Proof. split; [done|]. intros s1 s2 s3 H1 H2. unfold accounts_kept in *. congruence. Qed.
#[export] Instance accounts_frame : LinkFrame accounts_kept.
Proof. split; [split; [apply _|done..]|done..]. Qed.

Lemma modify_accounts f : (∀ s, accounts (f s) = accounts s) → changes accounts_kept (modify f).
Proof. intros Hf s. apply Hf. Qed.
Lemma swallow_accounts {A} (m : M Store A) : changes accounts_kept m → changes accounts_kept (swallow m).
Proof. intros Hm. unfold swallow. change_only. Qed.
Lemma for_each_accounts {A} (l : list A) (f : A → M Store ()) : (∀ a, changes accounts_kept (f a)) → changes accounts_kept (for_each l f).
Proof. intros Hf. induction l as [|a l IH]; cbn [for_each]; change_only. Qed.
Ltac modified := apply modify_accounts; intros; reflexivity.
#[local] Hint Extern 2 (changes accounts_kept (modify _)) => modified : ush.
#[local] Hint Extern 2 (changes accounts_kept (upd_booking _ _)) => modified : ush.
#[local] Hint Extern 2 (changes accounts_kept (flush_booking _)) => modified : ush.
#[local] Hint Extern 2 (changes accounts_kept (upd_payment _ _)) => modified : ush.
#[local] Hint Extern 2 (changes accounts_kept (flush_payment _)) => modified : ush.
#[local] Hint Extern 2 (changes accounts_kept (add_history _)) => modified : ush.
#[local] Hint Extern 2 (changes accounts_kept (emit _ _)) => modified : ush.
#[local] Hint Extern 2 (changes accounts_kept (create_hold _)) => modified : ush.
#[local] Hint Extern 2 (changes accounts_kept (_record_status_change _ _ _ _ _)) => modified : ush.
Ltac same_accounts := repeat (first [ apply for_each_accounts; intros | apply swallow_accounts | change_step ]).

Section points.
Context `{BookingApiWorld}.
Context (TEMPORARY_HOLD_MINUTES : Z).

Lemma asking_accounts {A} c (answer : list OutboundCall → result A) : changes accounts_kept (asking c answer).
Proof. unfold asking. same_accounts. Qed.
Hint Resolve asking_accounts : ush.
Lemma loyalty_details_accounts id : changes accounts_kept (_ensure_booking_loyalty_details id).
Proof. unfold _ensure_booking_loyalty_details. same_accounts. Qed.
Hint Resolve loyalty_details_accounts : ush.
Lemma create_booking_accounts c : changes accounts_kept (create_booking TEMPORARY_HOLD_MINUTES c).
Proof.
  unfold create_booking, check_therapists, check_sessions, insert_booking, create_holds, hold_session, announce_created,
    confirmed_event, status_event, event_data. same_accounts.
Qed.
Lemma link_payment_accounts body n id : changes accounts_kept (link_payment body n id).
Proof. unfold link_payment, link_where. same_accounts. Qed.
Lemma bill_accounts body id : changes accounts_kept (bill body id).
Proof. unfold bill, set_invoices, get_invoice_by_source. same_accounts. Qed.
Lemma points_payment_accounts body i c id invoice : changes accounts_kept (record_points_payment body i c id invoice).
Proof. unfold record_points_payment, insert_payment. same_accounts. Qed.
Lemma create_cache_accounts body i c id b : changes accounts_kept (create_cache body i c id b).
Proof. unfold create_cache, ask_cache. same_accounts. Qed.
Hint Resolve create_booking_accounts link_payment_accounts bill_accounts points_payment_accounts create_cache_accounts : ush.

(** ** The request *)

Lemma open_booking_spec body user headers fresh s :
  wp (open_booking TEMPORARY_HOLD_MINUTES body user headers fresh) s (λ r s1,
    accounts s1 = accounts s ∧
    match r with Ok (id, i, c, _) => prepare body user headers fresh s = Ok (c, i) | Raise _ => True end).
Proof.
  unfold open_booking. apply wp_bind, wp_get, wp_bind, wp_lift.
  destruct (prepare body user headers fresh s) as [[c i]|e]; [|done]. apply wp_bind, wp_try.
  eapply wp_changes; [apply create_booking_accounts|]. intros [id|e] s1 E1; [|done]. apply wp_bind.
  eapply wp_changes; [apply link_payment_accounts|]. intros [b|e] s2 E2; unfold accounts_kept in *; [|by rewrite E2, E1].
  apply wp_ret. by rewrite E2, E1.
Qed.

(** What is taken for booking [id]: nothing, or the points of an account that
    has them. *)
Definition taken (c : CreateBooking) (id points : Z) (s s' : Store) : Prop :=
  if 0 <? points then
    ∃ a number, s.(loyalty_accounts) !! c.(cb_customer_id) = Some a ∧ points <= a.(la_balance_points) ∧
      s'.(loyalty_accounts) = <[c.(cb_customer_id) := mk_account (a.(la_balance_points) - points) a.(la_total_earned)
        (a.(la_total_redeemed) + points) a.(la_points_expire_at) s.(now)]> s.(loyalty_accounts) ∧
      s'.(loyalty_transactions) = s.(loyalty_transactions) ++
        [mk_txn c.(cb_customer_id) REDEEM points (Some id) number (PointsRedeemedFor number (Some id)) (Some (opt_text c.(cb_created_by)))]
  else s'.(loyalty_accounts) = s.(loyalty_accounts) ∧ s'.(loyalty_transactions) = s.(loyalty_transactions).

Lemma redeem_taken body i c id s s1 :
  redeem body i c id s = (Ok (), s1) → is_redemption body = true → ∃ points, points_due body i = Ok points ∧ taken c id points s s1.
Proof.
  intros Hrun Hred. unfold redeem in Hrun. rewrite Hred, bind_run in Hrun. destruct (points_due body i) as [points|e]; [|done].
  exists points. split; [done|]. unfold taken. cbn in Hrun. rewrite bind_run in Hrun.
  unfold get_booking_row in Hrun. destruct (bookings s !! id) as [b|]; [|done]. cbn in Hrun. rewrite when_run in Hrun.
  destruct (0 <? points) eqn:Hp; [|by simplify_eq]. unfold answering, try_except in Hrun. rewrite bind_run in Hrun.
  set (who := opt_text (cb_created_by c)) in *. set (n := bk_booking_number b) in *.
  pose proof (redeem_correct 0 c.(cb_customer_id) points (Some id) n who s) as Hr. cbv zeta in Hr.
  destruct (loyalty_accounts s !! cb_customer_id c) as [a|] eqn:Ha; [|by rewrite Hr in Hrun].
  destruct (_ && _ && _) eqn:Hok in Hr; rewrite Hr in Hrun; [|done]. cbn in Hrun. injection Hrun as <-.
  breflect. by exists a, n.
Qed.

Definition ledger (s : Store) := (s.(loyalty_accounts), s.(loyalty_transactions)).
Lemma accounts_ledger s s' : accounts s' = accounts s → ledger s' = ledger s.
Proof. by intros [= E1 E2 _]; unfold ledger; rewrite E1, E2. Qed.

Section request.
Context (body : CreateBookingRequest) (i : Intake) (c : CreateBooking) (id : Z) (s : Store).

(** The points due were taken, for a booking that is stored. *)
Definition charged (t : Store) : Prop :=
  is_redemption body = true ∧ ∃ points, points_due body i = Ok points ∧ taken c id points s t ∧ is_Some (t.(bookings) !! id).
Definition untouched_or_charged (t : Store) : Prop := ledger t = ledger s ∨ charged t.
(** After the points are redeemed. *)
Definition settled (t : Store) : Prop := if is_redemption body then charged t else ledger t = ledger s.

Lemma settled_held t : settled t → untouched_or_charged t.
Proof. unfold settled, untouched_or_charged. destruct (is_redemption body); auto. Qed.
Lemma charged_kept t t' : accounts t' = accounts t → core_kept t t' → charged t → charged t'.
Proof.
  intros [= E1 E2 _] Hk (Hr & points & Hp & Ht & [b Hb]). split; [done|]. exists points. split_and!; [done| |].
  - unfold taken in *. rewrite E1, E2. exact Ht.
  - destruct (core_kept_lookup _ _ _ _ Hk Hb) as (b' & Hb' & _). by exists b'.
Qed.
Lemma settled_kept t t' : accounts t' = accounts t → core_kept t t' → settled t → settled t'.
Proof.
  intros Ha Hk. unfold settled. destruct (is_redemption body); [by apply charged_kept|]. intros E. rewrite <- E. by apply accounts_ledger.
Qed.
Lemma held_kept t t' : accounts t' = accounts t → core_kept t t' → untouched_or_charged t → untouched_or_charged t'.
Proof. intros Ha Hk [E|Hc]; [left; rewrite <- E; by apply accounts_ledger|right; by eapply charged_kept]. Qed.
Lemma held_back base t : untouched_or_charged base → untouched_or_charged (back_to base t).
Proof. intros [Hl|Hc]; [by left|by right]. Qed.

Lemma wp_work {A} (m : M Store A) saved t (Q : result A → Session → Prop) :
  wp m t (λ r t', Q r (saved, t')) → wp (work m) (saved, t) Q.
Proof. unfold wp, work. by destruct (m t). Qed.

(** A step that leaves the accounts and the rows alone. *)
Lemma wp_work_settled {A} (m : M Store A) saved t (Q : result A → Session → Prop) :
  changes accounts_kept m → changes core_kept m → settled t →
  (∀ r t', settled t' → Q r (saved, t')) → wp (work m) (saved, t) Q.
Proof. intros Ha Hk Ht HQ. apply wp_work, HQ. eapply settled_kept; [apply Ha|apply Hk|exact Ht]. Qed.

Lemma redeem_settled s1 s2 : accounts s1 = accounts s → redeem body i c id s1 = (Ok (), s2) → settled s2.
Proof.
  intros E Hrun. unfold settled. pose proof (redeem_kept body i c id s1) as Hk. rewrite Hrun in Hk. destruct (is_redemption body) eqn:Hred.
  - destruct (redeem_taken _ _ _ _ _ _ Hrun Hred) as (points & Hp & Ht). split; [done|]. exists points. split_and!; [done| |].
    + unfold taken in *. injection E as E1 E2 E3. rewrite <- E1, <- E2, <- E3. exact Ht.
    + assert (∃ b, bookings s1 !! id = Some b) as [b Hb].
      { unfold redeem in Hrun. rewrite Hred, bind_run, Hp in Hrun. cbn in Hrun. rewrite bind_run in Hrun. unfold get_booking_row in Hrun.
        destruct (bookings s1 !! id) as [b|]; [by exists b|done]. }
      destruct (core_kept_lookup _ _ _ _ Hk Hb) as (b' & Hb' & _). by exists b'.
  - unfold redeem in Hrun. rewrite Hred in Hrun. injection Hrun as <-. by apply accounts_ledger.
Qed.

(** What is committed, and what the session sees when it goes on. *)
Definition session_held (x : Session) : Prop := untouched_or_charged x.1 ∧ untouched_or_charged x.2 ∧ (text_takes_uuid = true → settled x.2).
Definition outcome {A} (r : result A) (x : Session) : Prop := match r with Ok _ => session_held x | Raise _ => untouched_or_charged x.1 end.
Lemma held_settled saved t : untouched_or_charged saved → settled t → session_held (saved, t).
Proof. intros Hs Ht. split_and!; [exact Hs|by apply settled_held|done]. Qed.

Lemma keep_payment_held invoice saved t :
  untouched_or_charged saved → settled t → wp (keep_points_payment body i c id invoice) (saved, t) outcome.
Proof.
  intros Hs Ht. unfold keep_points_payment. apply wp_bind.
  apply wp_work_settled; [unfold swallow; same_accounts|kept|exact Ht|]. intros [[[]|]|e] t1 Ht1; [| |exact Hs].
  - destruct text_takes_uuid eqn:Et.
    + apply held_settled; [by apply settled_held|exact Ht1].
    + apply wp_bind. unfold wp, roll_back. cbn. apply wp_bind, wp_get, wp_raise_if; intros _; cbn; [exact Hs|].
      split_and!; [exact Hs|by apply held_back|congruence].
  - by apply held_settled.
Qed.

Lemma close_held saved s1 :
  ledger saved = ledger s → accounts s1 = accounts s →
  wp (close_booking body i c id) (saved, s1) (λ r x, outcome r x ∧ match r with Ok k => k = id | Raise _ => True end).
Proof.
  intros Hs E. unfold close_booking. apply wp_bind, wp_work. destruct (redeem body i c id s1) as [[[]|e] s2] eqn:Hr;
    eapply wp_of_run; [exact Hr| |exact Hr|]; [|split; [by left|done]].
  assert (settled s2) as H2 by by eapply redeem_settled. apply wp_bind.
  apply wp_work_settled; [same_accounts|kept|exact H2|]. intros [[invoice billed]|e] s3 H3; [|split; [by left|done]]. apply wp_bind.
  assert (∃ saved', untouched_or_charged saved' ∧ when billed commit (saved, s3) = (Ok (), (saved', s3))) as (saved' & Hs' & Ew).
  { destruct billed; [exists s3; split; [by apply settled_held|done]|exists saved; split; [by left|done]]. }
  apply (wp_of_run _ _ _ _ _ Ew). apply wp_bind.
  apply wp_work_settled; [same_accounts|kept|exact H3|]. intros [b|e] s4 H4; [|by split].
  apply wp_bind.
  assert (wp (when (is_rewarded body b) (keep_points_payment body i c id invoice)) (saved', s4) outcome) as Hw.
  { apply wp_when; intros _; [by apply keep_payment_held|by apply held_settled]. }
  eapply wp_mono; [exact Hw|]. intros [[]|e] [saved5 s5] H5; [|by split].
  destruct H5 as (Hs5 & Hc5 & Ht5). apply wp_bind, wp_work.
  pose proof (create_cache_accounts body i c id b s5) as Ha. pose proof (create_cache_kept body i c id b s5) as Hk.
  unfold wp. destruct (create_cache body i c id b s5) as [[[]|e] s6]; [|by split].
  split; [|done]. split_and!; [exact Hs5|by eapply held_kept|intros Et; eapply settled_kept; [exact Ha|exact Hk|by apply Ht5]].
Qed.
End request.

(** C14: Points are taken at most once and only for a booking that is stored: after
    a request, however it ends and wherever it was committed, the accounts are
    untouched, or the request was a redemption, exactly the points due are gone
    from the customer's account, which had them, and, unless none were due, one
    new line names the booking, whose row is there; and a redemption that succeeds has taken them,
    when the driver stores the key of its payment. *)
Theorem points_booking_is_paid body user headers fresh s :
  let '(r, s') := create_request TEMPORARY_HOLD_MINUTES body user headers fresh s in
  (ledger s' = ledger s ∨ ∃ c i id, prepare body user headers fresh s = Ok (c, i) ∧ charged body i c id s s') ∧
  (∀ id, r = Ok id → text_takes_uuid = true → is_redemption body = true →
    ∃ c i, prepare body user headers fresh s = Ok (c, i) ∧ charged body i c id s s').
Proof.
  unfold create_request, with_commits. pose proof (open_booking_spec body user headers fresh s) as Ho. unfold wp in Ho.
  rewrite bind_run. unfold work at 1. destruct (open_booking _ _ _ _ _ s) as [[[[[id i] c] linked]|e] s1]; [|by split; [left|]].
  cbn in Ho. destruct Ho as [E1 Hp]. cbn beta iota. rewrite bind_run.
  assert (∃ saved, ledger saved = ledger s ∧ when linked commit (s, s1) = (Ok (), (saved, s1))) as (saved & Hs & Ew).
  { destruct linked; [exists s1; split; [by apply accounts_ledger|done]|by exists s]. }
  rewrite Ew. cbn beta iota. pose proof (close_held body i c id s saved s1 Hs E1) as Hc. unfold wp in Hc.
  destruct (close_booking body i c id (saved, s1)) as [[k|e] [saved' s2]]; cbn in Hc; destruct Hc as [Hc Hk].
  - subst k. destruct Hc as (_ & Hu & Ht). split; [destruct Hu as [Hu|Hu]; [by left|right; by exists c, i, id]|].
    intros ? [= <-] Et Hred. specialize (Ht Et). unfold settled in Ht. rewrite Hred in Ht. by exists c, i.
  - split; [|done]. apply (held_back _ _ _ _ _ _ s2) in Hc. destruct Hc as [Hu|Hu]; [by left|right; by exists c, i, id].
Qed.
End points.
