(* ===== verification/PaymentFrame.v ===== *)
(** * What confirming a booking leaves alone of the payments

    [confirm_booking] writes invoice numbers on the payments of its booking and
    runs the attribution listener; the bill of every payment stays: what was
    paid, by whom, for what, and its status.  Of the bookings it changes statuses,
    to confirmed and success only. *)

From S2P Require Import Prelude Exceptions Effects StateMachines Money Numbers Store PyText Sessions RefundLifecycle VoucherSnapshot VoucherService RefundService LinkGateway LinkAdapters Settlement LinkService LinkFrame BookingEvents BookingRepo BookingService BookingChanges BookingUpdate BookingSlots BookingFrame BookingSpec GatewayParser PaymentApi.
Import BookingService.
#[local] Open Scope Z_scope.

(** The columns of a payment that only the payment endpoints write. *)
Record Bill := mk_bill {
  bl_booking_id : option Z; bl_customer_id : Z; bl_total_amount : Z; bl_amount_refunded : Z; bl_payment_number : string;
  bl_status : option string; bl_created_at : Z; bl_voucher_id : option Z; bl_payment_link_id : option Z;
  bl_payment_id : option string }.
Definition bill_of (p : Payment) : Bill :=
  mk_bill p.(pm_booking_id) p.(pm_customer_id) p.(pm_total_amount) p.(pm_amount_refunded) p.(pm_payment_number) p.(pm_status)
    p.(pm_created_at) p.(pm_voucher_id) p.(pm_payment_link_id) p.(pm_payment_id).

(** A booking before and after: its price and customer, and its statuses. *)
Record confirms (b b' : Booking) : Prop := mk_confirms {
  cf_customer : b'.(bk_customer_id) = b.(bk_customer_id);
  cf_total : b'.(bk_total_amount) = b.(bk_total_amount);
  cf_status : b'.(bk_status) = b.(bk_status) ∨ b'.(bk_status) = "confirmed";
  cf_payment : b'.(bk_payment_status) = b.(bk_payment_status) ∨ b'.(bk_payment_status) = "success" }.
#[export] Instance confirms_preorder : PreOrder confirms.
Proof.
  split; [intros b; split; auto|]. intros b1 b2 b3 [A1 A2 A3 A4] [B1 B2 B3 B4].
  split; [congruence..|destruct B3 as [-> | ->]; auto|destruct B4 as [-> | ->]; auto].
Qed.
Definition bookings_confirmed (s s' : Store) : Prop := ∀ id, option_Forall2 confirms (s.(bookings) !! id) (s'.(bookings) !! id).
#[export] Instance bookings_confirmed_preorder : PreOrder bookings_confirmed.
Proof.
  split; [intros s id; by destruct (bookings s !! id); constructor|]. intros s1 s2 s3 H1 H2 id.
  specialize (H2 id). destruct (H1 id) as [b1 b2 H12|]; inversion H2; subst; constructor. by etransitivity.
Qed.

Record bills_kept (s s' : Store) : Prop := mk_bills_kept {
  bs_bills : ∀ pid, bill_of <$> s'.(payments) !! pid = bill_of <$> s.(payments) !! pid;
  bs_tables : (s'.(refunds), s'.(payment_status_history), s'.(vouchers), s'.(payment_links), s'.(now)) =
              (s.(refunds), s.(payment_status_history), s.(vouchers), s.(payment_links), s.(now));
  bs_bookings : bookings_confirmed s s' }.
#[export] Instance bills_kept_preorder : PreOrder bills_kept.
Proof.
  split; [by intros s; split|]. intros s1 s2 s3 [A1 A2 A3] [B1 B2 B3].
  split; [intros pid; by rewrite B1, A1|congruence|by etransitivity].
Qed.

(** ** Steps *)

Lemma alter_bills (m : gmap Z Payment) k f pid : (∀ p, bill_of (f p) = bill_of p) → bill_of <$> alter f k m !! pid = bill_of <$> m !! pid.
Proof.
  intros Hf. destruct (decide (k = pid)) as [->|Hk]; [|by rewrite lookup_alter_ne].
  rewrite lookup_alter_eq. destruct (m !! pid) as [p|]; cbn; [by rewrite Hf|done].
Qed.
Lemma alter_confirmed s k f : (∀ b, confirms b (f b)) → bookings_confirmed s (s <| bookings := alter f k s.(bookings) |>).
Proof.
  intros Hf id. cbn. destruct (decide (k = id)) as [->|Hk]; [rewrite lookup_alter_eq|rewrite lookup_alter_ne by done];
    destruct (bookings s !! id) as [b|]; constructor; [apply Hf|done].
Qed.
Lemma same_bookings s s' : s'.(bookings) = s.(bookings) → bookings_confirmed s s'.
Proof. intros E id. rewrite E. by destruct (bookings s !! id); constructor. Qed.
Lemma upd_booking_bills id f : (∀ b, confirms b (f b)) → changes bills_kept (upd_booking id f).
Proof. intros Hf s. split; [done|done|by apply alter_confirmed]. Qed.
Lemma upd_payment_bills id f : (∀ p, bill_of (f p) = bill_of p) → changes bills_kept (upd_payment id f).
Proof. intros Hf s. split; [|done|by apply same_bookings]. intros pid. by apply alter_bills. Qed.
Definition bill_tables (s : Store) :=
  (s.(payments), s.(refunds), s.(payment_status_history), s.(vouchers), s.(payment_links), s.(now), s.(bookings)).
Lemma modify_bills f : (∀ s, bill_tables (f s) = bill_tables s) → changes bills_kept (modify f).
Proof.
  intros Hf s. specialize (Hf s). unfold modify. cbn. injection Hf as H1 H2 H3 H4 H5 H6 H7.
  split; [intros pid; by rewrite H1|congruence|by apply same_bookings].
Qed.
Ltac confirming := intros; split; cbn; auto.
#[export] Hint Extern 2 (changes bills_kept (upd_booking _ _)) => (apply upd_booking_bills; confirming) : ush.
#[export] Hint Extern 2 (changes bills_kept (flush_booking _)) => (apply upd_booking_bills; confirming) : ush.
#[export] Hint Extern 2 (changes bills_kept (upd_payment _ _)) => (apply upd_payment_bills; intros; reflexivity) : ush.
#[export] Hint Extern 2 (changes bills_kept (flush_payment _)) => (apply upd_payment_bills; intros; reflexivity) : ush.
#[export] Hint Extern 3 (changes bills_kept (modify _)) => (apply modify_bills; intros; reflexivity) : ush.
#[export] Hint Extern 3 (changes bills_kept (call_out _)) => (apply modify_bills; intros; reflexivity) : ush.
#[export] Hint Extern 3 (changes bills_kept (emit _ _)) => (apply modify_bills; intros; reflexivity) : ush.
#[export] Hint Extern 3 (changes bills_kept (delete_hold _)) => (apply modify_bills; intros; reflexivity) : ush.
#[export] Hint Extern 3 (changes bills_kept (_record_status_change _ _ _ _ _)) => (apply modify_bills; intros; reflexivity) : ush.

Lemma get_booking_bills id : changes bills_kept (get_booking_row id).
Proof. intros s. unfold get_booking_row. by destruct (bookings s !! id). Qed.
Lemma get_payment_bills id : changes bills_kept (get_payment_row id).
Proof. intros s. unfold get_payment_row. by destruct (payments s !! id). Qed.
#[export] Hint Resolve get_booking_bills get_payment_bills : ush.
Lemma swallow_bills {A} (m : M Store A) : changes bills_kept m → changes bills_kept (swallow m).
Proof. intros Hm. unfold swallow. change_only. Qed.
Ltac bills := repeat (first [ apply swallow_bills | change_step ]).

Lemma set_invoices_bills bid n : changes bills_kept (set_payment_invoices bid n).
Proof.
  intros s. split; [|done|by apply same_bookings]. intros pid. unfold set_payment_invoices, modify. cbn. rewrite lookup_fmap.
  destruct (payments s !! pid) as [p|]; cbn; [|done]. by destruct (_ ==? _).
Qed.
#[export] Hint Resolve set_invoices_bills : ush.

Section confirm.
Context `{PaymentWorld}.
Lemma asking_bills {A} c (answer : list OutboundCall → result A) : changes bills_kept (asking c answer).
Proof. unfold asking. bills. Qed.
Hint Resolve asking_bills : ush.
Lemma loyalty_bills id : changes bills_kept (_ensure_booking_loyalty_details id).
Proof. unfold _ensure_booking_loyalty_details. bills. Qed.
Lemma invoice_bills id : changes bills_kept (_ensure_booking_invoice id).
Proof. unfold _ensure_booking_invoice. bills. Qed.
Lemma status_event_bills name id : changes bills_kept (status_event name id).
Proof. unfold status_event, event_data. bills. Qed.
Lemma take_data_bills id d : changes bills_kept (take_payment_data id d).
Proof. unfold take_payment_data. bills. Qed.
Lemma get_by_id_bills id : changes bills_kept (get_by_id id).
Proof. unfold get_by_id. bills. Qed.
Hint Resolve loyalty_bills invoice_bills status_event_bills take_data_bills get_by_id_bills : ush.
Lemma confirm_bills id pid d src : changes bills_kept (confirm_booking id pid d src).
Proof. unfold confirm_booking. bills. Qed.
Hint Resolve confirm_bills : ush.
Lemma auto_confirm_bills pid bid meta : changes bills_kept (auto_confirm pid bid meta).
Proof. unfold auto_confirm. bills. Qed.
Lemma notify_bills pid d n : changes bills_kept (notify_ushanr pid d n).
Proof. unfold notify_ushanr. bills. Qed.
End confirm.
#[export] Hint Resolve auto_confirm_bills notify_bills : ush.
