(* ===== verification/PaymentSpec.v ===== *)
(** * What payment requests do to the database

    [served] relates the databases before and after a request: payments keep
    their customer and their refunded amount, payment numbers stay unique, refunds
    stay, bookings are at most confirmed, and no therapist gets booked twice.
    Every endpoint but the deletion keeps it, also composed with the confirmation
    of the booking it pays. *)

From S2P Require Import Prelude Exceptions Effects StateMachines Money Numbers Store PyText PyDate Sessions RefundLifecycle VoucherSnapshot VoucherService RefundService LinkGateway LinkAdapters Settlement LinkService LinkFrame BookingEvents BookingRepo BookingService BookingChanges BookingUpdate BookingSlots BookingFrame BookingSpec GatewayParser PaymentApi PaymentFrame.
Import BookingService.
#[local] Open Scope Z_scope.

(** ** The invariant and the relation *)

Record Identity := mk_identity { it_customer_id : Z; it_amount_refunded : Z; it_created_at : Z; it_payment_link_id : option Z }.
Definition identity (p : Payment) : Identity :=
  mk_identity p.(pm_customer_id) p.(pm_amount_refunded) p.(pm_created_at) p.(pm_payment_link_id).

Definition numbers_unique (s : Store) : Prop :=
  ∀ i j p q, s.(payments) !! i = Some p → s.(payments) !! j = Some q → p.(pm_payment_number) = q.(pm_payment_number) → i = j.
(** Nobody is booked twice, and no booking is parked. *)
Definition calendar_ok (s : Store) : Prop :=
  schedule_ok s ∧ ∀ id b, s.(bookings) !! id = Some b → b.(bk_status) ≠ "parked".

Record served (s s' : Store) : Prop := mk_served {
  sv_rows : ∀ pid p, s.(payments) !! pid = Some p → ∃ p', s'.(payments) !! pid = Some p' ∧ identity p' = identity p;
  sv_numbers : numbers_unique s → numbers_unique s';
  sv_refunds : s'.(refunds) = s.(refunds);
  sv_bookings : bookings_confirmed s s';
  sv_calendar : calendar_ok s → calendar_ok s' }.
#[export] Instance served_preorder : PreOrder served.
Proof.
  split; [intros s; split; eauto; reflexivity|]. intros s1 s2 s3 [A1 A2 A3 A4 A5] [B1 B2 B3 B4 B5].
  split; [|auto|congruence|by etransitivity|auto].
  intros pid p Hp. destruct (A1 _ _ Hp) as (p' & Hp' & E'). destruct (B1 _ _ Hp') as (p'' & Hp'' & E''). exists p''. split; congruence.
Qed.

(** Confirmed bookings are not parked. *)
Lemma confirmed_unparked s s' id b' :
  (∀ id b, s.(bookings) !! id = Some b → b.(bk_status) ≠ "parked") → bookings_confirmed s s' →
  s'.(bookings) !! id = Some b' → b'.(bk_status) ≠ "parked".
Proof.
  intros Hs Hc Hb'. specialize (Hc id). rewrite Hb' in Hc. destruct (bookings s !! id) as [b|] eqn:Hb; [|by inversion Hc].
  assert (confirms b b') as [_ _ [-> | ->] _] by (by inversion Hc); [by eapply Hs|done].
Qed.
Lemma calendar_of s s' : bookings_confirmed s s' → (calendar_ok s → schedule_ok s') → calendar_ok s → calendar_ok s'.
Proof. intros Hc Hs Hok. split; [auto|]. intros id b Hb. eapply confirmed_unparked; [apply Hok|done..]. Qed.

Lemma bill_identity p q : bill_of p = bill_of q → identity p = identity q ∧ p.(pm_payment_number) = q.(pm_payment_number).
Proof. unfold bill_of, identity. intros [=]. split; congruence. Qed.
Lemma bills_served s s' : bills_kept s s' → (calendar_ok s → schedule_ok s') → served s s'.
Proof.
  intros [Hb [= Hr _ _ _ _] Hk] Hsched. split; [| |done|done|by apply calendar_of].
  - intros pid p Hp. specialize (Hb pid). rewrite Hp in Hb. destruct (payments s' !! pid) as [p'|]; [|done].
    exists p'. split; [done|]. apply (inj Some) in Hb. by apply (bill_identity p' p).
  - intros Hu i j p q Hp Hq E. pose proof (Hb i) as Hi. pose proof (Hb j) as Hj. rewrite Hp in Hi. rewrite Hq in Hj.
    destruct (payments s !! i) as [p0|] eqn:Ei; [|done]. destruct (payments s !! j) as [q0|] eqn:Ej; [|done].
    apply (inj Some) in Hi as [_ Hi]%bill_identity, Hj as [_ Hj]%bill_identity. eapply Hu; [done..|congruence].
Qed.

(** ** Steps *)

Lemma core_confirms b b' : core_of b' = core_of b → confirms b b'.
Proof. unfold core_of, slot_of. intros [=]. split; auto. Qed.
Lemma slots_calendar s s' : slots_kept s s' → calendar_ok s → schedule_ok s'.
Proof. intros Hk [Hs _]. by eapply schedule_ok_kept. Qed.
Lemma same_served s s' :
  (s'.(payments), s'.(refunds), s'.(bookings)) = (s.(payments), s.(refunds), s.(bookings)) → served s s'.
Proof.
  intros [= H1 H2 H3]. pose proof (same_bookings s s' H3) as Hk. split; [| |done|done|].
  - intros pid p Hp. exists p. by rewrite H1.
  - intros Hu i j p q. rewrite H1. apply Hu.
  - apply calendar_of; [done|]. apply slots_calendar. intros id. by rewrite H3.
Qed.
Lemma modify_served f : (∀ s, ((f s).(payments), (f s).(refunds), (f s).(bookings)) = (s.(payments), s.(refunds), s.(bookings))) →
  changes served (modify f).
Proof. intros Hf s. apply same_served, Hf. Qed.
Lemma upd_booking_served id f : (∀ b, core_of (f b) = core_of b) → changes served (upd_booking id f).
Proof.
  intros Hf s. apply bills_served.
  - apply upd_booking_bills. intros b. by apply core_confirms.
  - apply slots_calendar, core_kept_slots, upd_booking_kept, Hf.
Qed.
(** Rows that keep what identifies them. *)
Lemma keyed_served s s' :
  (∀ pid, (λ p, (identity p, p.(pm_payment_number))) <$> s'.(payments) !! pid = (λ p, (identity p, p.(pm_payment_number))) <$> s.(payments) !! pid) →
  (s'.(refunds), s'.(bookings)) = (s.(refunds), s.(bookings)) → served s s'.
Proof.
  intros Hk [= H2 H3]. pose proof (same_bookings s s' H3) as Hb. split; [| |done|done|].
  - intros pid p Hp. specialize (Hk pid). rewrite Hp in Hk. destruct (payments s' !! pid) as [p'|]; [|done].
    exists p'. split; [done|]. exact (f_equal fst (inj Some _ _ Hk)).
  - intros Hu i j p q Hp Hq E. pose proof (Hk i) as Hi. pose proof (Hk j) as Hj. rewrite Hp in Hi. rewrite Hq in Hj.
    destruct (payments s !! i) as [p0|] eqn:Ei; [|done]. destruct (payments s !! j) as [q0|] eqn:Ej; [|done].
    apply (inj Some), (f_equal snd) in Hi, Hj. cbn in Hi, Hj. eapply Hu; [done..|congruence].
  - apply calendar_of; [done|]. apply slots_calendar. intros id. by rewrite H3.
Qed.
Lemma upd_payment_served pid f :
  (∀ p, identity (f p) = identity p) → (∀ p, (f p).(pm_payment_number) = p.(pm_payment_number)) → changes served (upd_payment pid f).
Proof.
  intros H1 H2 s. apply keyed_served; [|done]. intros id. cbn. destruct (decide (pid = id)) as [->|Hne]; [|by rewrite lookup_alter_ne].
  rewrite lookup_alter_eq. destruct (payments s !! id) as [p|]; cbn; [by rewrite H1, H2|done].
Qed.

#[local] Hint Extern 2 (changes served (upd_booking _ _)) => (apply upd_booking_served; intros; reflexivity) : ush.
#[local] Hint Extern 2 (changes served (flush_booking _)) => (apply upd_booking_served; intros; reflexivity) : ush.
#[local] Hint Extern 2 (changes served (upd_payment _ _)) => (apply upd_payment_served; intros; reflexivity) : ush.
#[local] Hint Extern 2 (changes served (flush_payment _)) => (apply upd_payment_served; intros; reflexivity) : ush.
#[local] Hint Extern 3 (changes served (modify _)) => (apply modify_served; intros; reflexivity) : ush.
#[local] Hint Extern 3 (changes served (add_history _)) => (apply modify_served; intros; reflexivity) : ush.
#[local] Hint Extern 3 (changes served (upd_voucher _ _)) => (apply modify_served; intros; reflexivity) : ush.
#[local] Hint Extern 3 (changes served (call_out _)) => (apply modify_served; intros; reflexivity) : ush.
Lemma get_booking_served id : changes served (get_booking_row id).
Proof. intros s. unfold get_booking_row. by destruct (bookings s !! id). Qed.
Lemma get_payment_served id : changes served (get_payment_row id).
Proof. intros s. unfold get_payment_row. by destruct (payments s !! id). Qed.
Lemma get_voucher_served id : changes served (get_voucher_row id).
Proof. intros s. unfold get_voucher_row. by destruct (vouchers s !! id). Qed.
#[local] Hint Resolve get_booking_served get_payment_served get_voucher_served : ush.
Lemma for_each_served {A} (l : list A) (f : A → M Store ()) : (∀ a, changes served (f a)) → changes served (for_each l f).
Proof. intros Hf. induction l as [|a l IH]; cbn [for_each]; change_only. Qed.
Ltac serve := repeat (first [ apply for_each_served; intros | change_step ]).

Section requests.
Context `{PaymentWorld}.

Lemma flush_voucher_served vid : changes served (flush_voucher vid).
Proof. unfold flush_voucher. serve. Qed.
Hint Resolve flush_voucher_served : ush.

(** ** New rows *)

Lemma number_free (m : gmap Z Payment) n i p : n ∉ (pm_payment_number <$> rows m) → m !! i = Some p → p.(pm_payment_number) ≠ n.
Proof.
  intros Hn Hp <-. apply Hn, list_elem_of_fmap. exists p. split; [done|]. unfold rows. apply list_elem_of_fmap.
  exists (i, p). split; [done|]. by apply elem_of_map_to_list.
Qed.
Lemma insert_payment_served row : changes served (insert_payment row).
Proof.
  intros s. unfold insert_payment. rewrite bind_run, get_run. cbn beta iota zeta.
  rewrite bind_run, raise_if_run. destruct (_ in? _) eqn:Ht; [reflexivity|]. cbn beta iota. apply bool_decide_eq_false in Ht.
  set (p0 := attribute_payment _) in *.
  rewrite bind_run, modify_run. cbn beta iota.
  change (served s (s <| payments := <[new_id (payments s) := p0]> (payments s) |>)).
  pose proof (new_id_fresh s.(payments)) as Hfresh. split; cbn.
  - intros pid p Hp. exists p. split; [|done]. rewrite lookup_insert_ne; [done|]. congruence.
  - intros Hu i j p q. cbn. rewrite !lookup_insert_Some. intros [[<- <-]|[Hi Hp]] [[<- <-]|[Hj Hq]] E; [done| | |by eapply Hu].
    + by destruct (number_free _ _ _ _ Ht Hq).
    + by destruct (number_free _ _ _ _ Ht Hp).
  - done.
  - by apply same_bookings.
  - apply calendar_of; [by apply same_bookings|]. by apply slots_calendar.
Qed.
Hint Resolve insert_payment_served : ush.
Lemma insert_numbered_served n auto number row : changes served (insert_numbered n auto number row).
Proof. revert number row. induction n as [|n IH]; intros number row; cbn [insert_numbered]; serve. Qed.
Lemma insert_new_served number row : changes served (insert_new number row).
Proof. unfold insert_new. serve. apply insert_numbered_served. Qed.
Hint Resolve insert_new_served : ush.

(** ** The confirmation *)

Lemma auto_confirm_served pid bid meta : changes served (auto_confirm pid bid meta).
Proof.
  intros s. apply bills_served; [apply auto_confirm_bills|]. intros [Hs Hp].
  change (wp (auto_confirm pid bid meta) s (λ _ s', schedule_ok s')). unfold auto_confirm, swallow.
  apply wp_bind, wp_try, wp_bind, wp_bind.
  pose proof (confirm_keeps_schedule bid (uuid_str pid) (Some meta) None s Hs (Hp bid)) as Hc.
  apply (wp_mono _ _ (λ _ s', schedule_ok s')); [exact Hc|]. intros r s1 Hs1. destruct r as [[]|e]; [|by apply wp_ret, wp_ret].
  kept_steps.
Qed.
Hint Resolve auto_confirm_served : ush.
Lemma notify_served pid d n : changes served (notify_ushanr pid d n).
Proof. unfold notify_ushanr. serve. Qed.
Hint Resolve notify_served : ush.

(** ** Drafts *)

(** Statements that leave alone what identifies the payment. *)
Definition keeps (f : Draft → Draft) : Prop := ∀ d, identity (f d).(dr_row) = identity d.(dr_row).
Lemma assign_keeps {A} (o : option A) f : (∀ a, keeps (f a)) → keeps (assign o f).
Proof. intros Hf d. destruct o as [a|]; [apply (Hf a d)|done]. Qed.
Lemma column_keeps {A} (o : option A) f : (∀ a p, identity (f a p) = identity p) → keeps (column o f).
Proof. intros Hf. apply assign_keeps. intros a d. apply Hf. Qed.
Lemma details_keeps {A} (o : option A) f : keeps (details o f).
Proof. by apply column_keeps. Qed.
Lemma statements_keep l d : Forall keeps l → identity (statements l d).(dr_row) = identity d.(dr_row).
Proof. intros Hl. revert d. induction Hl as [|f l Hf Hl IH]; intros d; [done|]. cbn. unfold statements in IH. by rewrite IH, Hf. Qed.
Ltac keep_all :=
  repeat first
    [ apply Forall_app_2 | apply Forall_cons_2 | apply Forall_nil_2 | apply details_keeps
    | apply column_keeps; intros; reflexivity | apply assign_keeps; intros ? ?; reflexivity ].

Lemma gateway_keeps ps : Forall keeps (gateway_data ps :: gateway_columns ps).
Proof. unfold gateway_columns, tap_columns, gateway_data. keep_all. Qed.
Lemma tap_keeps ps : Forall keeps (gateway_data ps :: tap_columns ps).
Proof. unfold tap_columns, gateway_data. keep_all. Qed.
Lemma ingest_keeps r : Forall keeps (ingest_columns r).
Proof. unfold ingest_columns. destruct (present_dict r) as [raw|]; [|done]. unfold gateway_columns, tap_columns, gateway_data. keep_all. Qed.
Lemma in_place_keeps b f : keeps (in_place b f).
Proof. intros d. by destruct b. Qed.
Lemma name_booking_keeps f s : keeps (name_booking f s).
Proof. intros d. unfold name_booking. repeat case_match; try done. apply in_place_keeps. Qed.
Lemma name_voucher_keeps f s : keeps (name_voucher f s).
Proof.
  intros d. unfold name_voucher. repeat case_match; try done; try (rewrite in_place_keeps); by apply column_keeps.
Qed.
Lemma updated_keeps u s p : identity (updated u s p).(dr_row) = identity p.
Proof.
  unfold updated. rewrite statements_keep; [done|].
  unfold body_columns, recipient_columns, voucher_columns, reference_columns. keep_all.
  - apply ingest_keeps.
  - intros d. by apply assign_keeps.
  - apply name_booking_keeps.
  - apply name_voucher_keeps.
Qed.
Lemma again_for_booking_keeps f r p : identity (again_for_booking f r p).(dr_row) = identity p.
Proof. unfold again_for_booking. rewrite statements_keep; [done|]. unfold classification_columns, creator_columns. keep_all. Qed.
Lemma again_for_voucher_keeps f r b n p : identity (again_for_voucher f r b n p).(dr_row) = identity p.
Proof. unfold again_for_voucher. rewrite statements_keep; [done|]. unfold classification_columns, creator_columns. keep_all. Qed.

(** A draft of the stored row. *)
Definition drawn (s : Store) (pid : Z) (d : Draft) : Prop :=
  ∃ p, s.(payments) !! pid = Some p ∧ identity d.(dr_row) = identity p.
Lemma flushed_identity d row : flushed d = Ok row → identity row = identity d.(dr_row).
Proof. unfold flushed. intros Hf. ok_steps. by subst row. Qed.

Lemma flush_draft_served s pid d : drawn s pid d → served s (flush_draft pid d s).2.
Proof.
  intros (p & Hp & Hid). unfold flush_draft. destruct (dr_dirty d); [|reflexivity]. cbn [when]. rewrite bind_run. unfold lift.
  destruct (flushed d) as [row|e] eqn:Ef; [|reflexivity]. rewrite bind_run, gets_run. cbn beta iota.
  rewrite bind_run, raise_if_run. destruct (existsb _ _) eqn:Hfree; [reflexivity|]. cbn beta iota. rewrite upd_payment_run.
  assert (∀ j q, j ≠ pid → s.(payments) !! j = Some q → q.(pm_payment_number) ≠ row.(pm_payment_number)) as Hn.
  { intros j q Hj Hq E. apply not_true_iff_false in Hfree. apply Hfree, existsb_exists. exists (j, q). split.
    - apply list_elem_of_In. by apply elem_of_map_to_list.
    - rewrite E, String.eqb_refl, andb_true_r. apply negb_true_iff. lia. }
  rewrite (alter_lookup _ _ _ _ Hp). split; cbn.
  - intros j q Hq. destruct (decide (j = pid)) as [->|Hj]; [|exists q; by rewrite lookup_insert_ne].
    exists row. rewrite lookup_insert_eq. split; [done|]. rewrite (flushed_identity _ _ Ef). congruence.
  - intros Hu i j q q'. cbn. rewrite !lookup_insert_Some. intros [[<- <-]|[Hi Hq]] [[<- <-]|[Hj Hq']] E; [done| | |by eapply Hu].
    + by destruct (Hn j q').
    + by destruct (Hn i q).
  - done.
  - by apply same_bookings.
  - apply calendar_of; [by apply same_bookings|]. by apply slots_calendar.
Qed.

(** Steps before the flush. *)
Lemma drawn_kept s s' pid d : s'.(payments) = s.(payments) → drawn s pid d → drawn s' pid d.
Proof. unfold drawn. by intros ->. Qed.
(** A run in parts: every part serves, from wherever the last one ended. *)
Lemma served_bind {A B} (m : M Store A) (k : A → M Store B) s :
  served s (m s).2 → (∀ a s1, m s = (Ok a, s1) → served s1 (k a s1).2) → served s ((m ≫= k) s).2.
Proof.
  rewrite bind_run. destruct (m s) as [[a|e] s1] eqn:E; intros Hm Hk; [|exact Hm]. etransitivity; [exact Hm|by apply Hk].
Qed.

Lemma notify_payments pid d n s : (notify_ushanr pid d n s).2.(payments) = s.(payments).
Proof. unfold notify_ushanr. by destruct (fill n None). Qed.
Lemma settle_success_served s pid d meta : drawn s pid d → served s (settle_success pid d meta s).2.
Proof.
  intros Hd. unfold settle_success. rewrite bind_run, gets_run. cbn beta iota.
  assert (∀ n, served s ((notify_ushanr pid d n ≫= λ _, flush_draft pid d) s).2) as Hlast.
  { intros n. apply served_bind; [apply notify_served|]. intros [] s1 E. apply flush_draft_served.
    eapply drawn_kept; [|exact Hd]. pose proof (notify_payments pid d n s) as En. by rewrite E in En. }
  destruct (_ ≫= _) as [[bid b]|]; [|apply Hlast]. destruct (confirm_flushes b); [|apply Hlast].
  apply served_bind; [by apply flush_draft_served|]. intros [] s1 _.
  revert s1. change (changes served (auto_confirm pid bid meta ;; p ← get_payment_row pid; notify_ushanr pid d p.(pm_invoice_number))). serve.
Qed.
Lemma finish_webhook_served s pid d keys : drawn s pid d → served s (finish_webhook pid d keys s).2.
Proof. intros Hd. unfold finish_webhook. destruct (is_success _); [by apply settle_success_served|by apply flush_draft_served]. Qed.

(** ** The endpoints *)

Lemma row_bind {B} pid p (k : Payment → M Store B) s :
  s.(payments) !! pid = Some p → served s (k p s).2 → served s ((get_payment_row pid ≫= k) s).2.
Proof. intros Hp Hk. by rewrite bind_run, (get_payment_row_run _ _ _ Hp). Qed.
Lemma draft_served {A} pid d (a : A) s : drawn s pid d → served s ((flush_draft pid d ;; mret a) s).2.
Proof. intros Hd. apply served_bind; [by apply flush_draft_served|]. intros [] s1 _. reflexivity. Qed.

Lemma if_voucher_served vid m : changes served m → changes served (if_voucher vid m).
Proof. intros Hm. unfold if_voucher. serve. Qed.
Lemma note_on_voucher_served p vid : changes served (note_on_voucher p vid).
Proof. apply if_voucher_served. serve. Qed.
Lemma note_on_voucher_payments p vid s : (note_on_voucher p vid s).2.(payments) = s.(payments).
Proof.
  change (wp (note_on_voucher p vid) s (λ _ s', payments s' = payments s)).
  unfold note_on_voucher, if_voucher, flush_voucher. by store_steps.
Qed.
Lemma note_new_payment_served p vid : changes served (note_new_payment p vid).
Proof. apply if_voucher_served. serve. Qed.
Hint Resolve note_new_payment_served : ush.
Lemma insert_created_served c r ps booking voucher : changes served (insert_created c r ps booking voucher).
Proof. unfold insert_created. serve. Qed.

Lemma create_payment_served c : changes served (create_payment c).
Proof.
  intros s. unfold create_payment. rewrite bind_run, get_run. cbn beta iota zeta.
  set (r := resolve _ _ _ _ _). set (voucher := resolve_voucher _ _ _). set (ps := parse_dict <$> _). set (booking := _ ≫= _).
  destruct (pf_booking_id (cp_fields c)) as [bid|].
  - destruct (newest_key _ _ _) as [pid|] eqn:Hn; [|apply insert_created_served].
    apply newest_key_spec in Hn as (p & Hp & _). apply (row_bind _ p); [done|]. apply draft_served.
    exists p. split; [done|apply again_for_booking_keeps].
  - destruct voucher.1 as [vid|]; [|apply insert_created_served].
    destruct (newest_key _ _ _) as [pid|] eqn:Hn; [|apply insert_created_served].
    apply newest_key_spec in Hn as (p & Hp & _). apply (row_bind _ p); [done|]. cbv zeta.
    set (d := again_for_voucher _ _ _ _ _).
    apply served_bind; [apply note_on_voucher_served|]. intros [] s1 E. apply draft_served.
    exists p. split; [|apply again_for_voucher_keeps].
    pose proof (note_on_voucher_payments d.(dr_row) vid s) as En. rewrite E in En. cbn in En. by rewrite En.
Qed.

Lemma update_payment_served pid u user : changes served (update_payment pid u user).
Proof.
  intros s. unfold update_payment, find_payment_row. rewrite bind_run, bind_run, gets_run. cbn beta iota. rewrite some_or_raise_run.
  destruct (payments s !! pid) as [p|] eqn:Hp; [|reflexivity]. rewrite bind_run, get_run. cbn beta iota zeta.
  assert (drawn s pid (updated u s p)) as Hd by (exists p; split; [done|apply updated_keeps]).
  destruct (_ !=? _); [|by apply flush_draft_served].
  apply served_bind; [by apply same_served|]. intros [] s1 E. injection E as <-.
  assert (drawn (s <| payment_status_history := payment_status_history s ++
    [updated_history pid (pm_status p) u user (dr_row (updated u s p))] |>) pid (updated u s p)) as Hd' by by eapply drawn_kept.
  destruct (is_success _); [by apply settle_success_served|by apply flush_draft_served].
Qed.

(** [delete_payment] takes one payment away, with its refunds and its history. *)
Lemma delete_payment_run pid s :
  delete_payment pid s =
    match s.(payments) !! pid with
    | Some _ => (Ok (), s <| payments := delete pid s.(payments) |>
        <| refunds := filter (λ '(_, r), r.(rf_payment_id) ≠ Some pid) s.(refunds) |>
        <| payment_status_history := List.filter (λ h, negb (h.(hs_payment_id) =? pid)) s.(payment_status_history) |>)
    | None => (Raise (http_error "404"), s)
    end.
Proof. unfold delete_payment, find_payment_row. rewrite !bind_run, gets_run. cbn beta iota. by destruct (payments s !! pid). Qed.

Lemma link_invoice_served l : changes served (link_invoice_to_payments l).
Proof.
  assert (∀ t n v pid, changes served (link_payment t n v pid)) as H1 by (intros; unfold link_payment; serve).
  assert (∀ vid n f, changes served (link_voucher vid n f)) as H2.
  { intros. unfold link_voucher. apply changes_bind; [apply _|apply if_voucher_served; serve|intros; serve]. }
  assert (∀ bid n, changes served (link_booking bid n)) as H3 by (intros; unfold link_booking; serve).
  unfold link_invoice_to_payments. serve.
Qed.

(** Starting a payment session always fails: the guard names a status the
    enumeration lacks. *)
Lemma initiate_payment_raises booking_id user s : ∃ e, initiate_payment booking_id user s = (Raise e, s).
Proof.
  unfold initiate_payment, uuid_arg. rewrite bind_run, some_or_raise_run. destruct (booking_id ≫= _) as [bid|]; [|by eexists].
  rewrite bind_run, some_or_raise_run. destruct (Some _ ≫= _) as [cid|]; [|by eexists]. rewrite bind_run, gets_run. cbn beta iota.
  rewrite bind_run, some_or_raise_run. destruct (_ ≫= _); by eexists.
Qed.

Lemma one_payment_run where_ s :
  (one_payment where_ s).2 = s ∧
  (∀ pid, (one_payment where_ s).1 = Ok (Some pid) → ∃ p, s.(payments) !! pid = Some p ∧ where_ p = true) ∧
  ((one_payment where_ s).1 = Ok None → ∀ pid p, s.(payments) !! pid = Some p → where_ p = false).
Proof.
  unfold one_payment. rewrite bind_run, gets_run. cbn beta iota.
  set (found := List.filter _ _). destruct found as [|[k p] [|]] eqn:E; cbn; split_and!; try done.
  - intros _ pid p Hp. apply elem_of_map_to_list in Hp. apply not_true_is_false. intros Hw.
    assert ((pid, p) ∈ found) as Hin by (apply elem_of_filter_list; done). rewrite E in Hin. by apply elem_of_nil in Hin.
  - intros pid [= <-]. exists p. assert ((k, p) ∈ found) as [Hin Hw]%elem_of_filter_list by (rewrite E; apply list_elem_of_here).
    split; [by apply elem_of_map_to_list|done].
Qed.

Lemma webhook_update_served ps pid s p : s.(payments) !! pid = Some p → served s (webhook_update ps pid s).2.
Proof.
  intros Hp. unfold webhook_update. apply (row_bind _ p); [done|]. cbv zeta. set (d := statements _ _).
  assert (drawn s pid d) as Hd. { exists p. split; [done|]. unfold d. by rewrite statements_keep by apply gateway_keeps. }
  apply served_bind.
  - destruct (_ !=? _); [by apply same_served|reflexivity].
  - intros [] s1 E. apply finish_webhook_served. eapply drawn_kept; [|exact Hd].
    destruct (_ !=? _); injection E as <-; done.
Qed.
Lemma webhook_new_served ps cid : changes served (webhook_new ps cid).
Proof.
  unfold webhook_new. cbv zeta. repeat (lazymatch goal with |- changes _ (insert_new _ _ ≫= _) => fail | _ => change_step end).
  apply changes_bind; [apply _|apply insert_new_served|]. intros pid s. unfold mbind at 1, M_bind at 1, get_payment_row.
  destruct (payments s !! pid) as [p|] eqn:Hp; [|reflexivity]. cbn [some_or_raise mret M_ret].
  apply served_bind; [apply finish_webhook_served; by exists p|]. intros [] s1 _. reflexivity.
Qed.
Lemma myfatoorah_served payload cid : changes served (myfatoorah_webhook payload cid).
Proof.
  intros s. unfold myfatoorah_webhook. destruct (parse_gateway_response payload) as [ps|]; [|reflexivity].
  destruct (ps_invoice_id ps) as [i|]; [|reflexivity]. set (w := λ p, _ || _). destruct (one_payment_run w s) as (Es & Hs & _).
  apply served_bind; [by rewrite Es|]. intros found s1 E. rewrite E in Es, Hs. cbn in Es, Hs. subst s1.
  destruct found as [pid|].
  - destruct (Hs pid eq_refl) as (p & Hp & _). apply served_bind; [by eapply webhook_update_served|]. intros [] s1 _. reflexivity.
  - apply served_bind; [apply webhook_new_served|]. intros pid s1 _. reflexivity.
Qed.
Lemma tap_served payload : changes served (tap_webhook payload).
Proof.
  intros s. unfold tap_webhook. destruct (parse_gateway_response payload) as [ps|]; [|reflexivity]. cbv zeta.
  destruct (jtruthy _); [|reflexivity]. set (w := λ p, _ ==? _). destruct (one_payment_run w s) as (Es & Hs & _).
  apply served_bind; [by rewrite Es|]. intros found s1 E. rewrite E in Es, Hs. cbn in Es, Hs. subst s1.
  destruct found as [pid|]; [|reflexivity]. destruct (Hs pid eq_refl) as (p & Hp & _). apply (row_bind _ p); [done|].
  assert (drawn s pid (tap_columns_of ps p)) as Hd.
  { exists p. split; [done|]. unfold tap_columns_of. by rewrite statements_keep by apply tap_keeps. }
  apply served_bind.
  - destruct (_ !=? _); [by apply same_served|reflexivity].
  - intros [] s1 E1. apply finish_webhook_served. eapply drawn_kept; [|exact Hd]. destruct (_ !=? _); injection E1 as <-; done.
Qed.
End requests.
