(* ===== verification/PaymentHistory.v ===== *)
(** * Histories of payment requests, and what single requests do

    The theorems on the payment endpoints: what every history of requests keeps,
    what creating a payment does when the booking has one and when it has none,
    what Tap's webhook writes, and what a gateway response can say. *)

From S2P Require Import Prelude Exceptions Effects StateMachines Money Numbers Store PyText PyDate Attribution Sessions SessionPlanner RefundLifecycle LinkGateway VoucherService Settlement LinkService BookingEvents BookingRepo BookingService BookingChanges BookingSlots BookingFrame GatewayParser PaymentApi PaymentFrame PaymentSpec.
Import BookingService.
#[local] Open Scope Z_scope.

(** ** Requests *)

Inductive PaymentRequest :=
  | CreateReq (c : CreatePaymentRequest)
  | UpdateReq (payment_id : Z) (u : UpdatePaymentRequest) (user : CurrentUser)
  | DeleteReq (payment_id : Z)
  | LinkInvoiceReq (l : LinkInvoiceRequest)
  | InitiateReq (booking_id : option string) (user : CurrentUser)
  | MyFatoorahReq (payload : json) (customer_id : Z)
  | TapReq (payload : json).

Section history.
Context `{PaymentWorld}.

Definition handle (r : PaymentRequest) : M Store () :=
  match r with
  | CreateReq c => create_payment c ;; mret ()
  | UpdateReq pid u user => update_payment pid u user
  | DeleteReq pid => delete_payment pid
  | LinkInvoiceReq l => link_invoice_to_payments l ;; mret ()
  | InitiateReq bid user => initiate_payment bid user
  | MyFatoorahReq payload cid => myfatoorah_webhook payload cid ;; mret ()
  | TapReq payload => tap_webhook payload
  end.
(** Each request in a session of its own. *)
Definition serve_all (rs : list PaymentRequest) (s : Store) : Store := foldl (λ s r, (in_session (handle r) s).2) s rs.

Lemma in_session_served {A} (m : M Store A) s : served s (m s).2 → served s (in_session m s).2.
Proof. unfold in_session. destruct (m s) as [[a|e] s1]; [done|]. intros _. by apply same_served. Qed.
Lemma then_served {A} (m : M Store A) : changes served m → changes served (m ;; mret ()).
Proof. intros Hm. change_only. Qed.
Lemma handle_served r : (∀ pid, r ≠ DeleteReq pid) → changes served (handle r).
Proof.
  intros Hr. destruct r as [c|pid u user|pid|l|bid user|payload cid|payload]; cbn [handle].
  - apply then_served, create_payment_served.
  - apply update_payment_served.
  - by destruct (Hr pid).
  - apply then_served, link_invoice_served.
  - intros s. destruct (initiate_payment_raises bid user s) as [e E]. by rewrite E.
  - apply then_served, myfatoorah_served.
  - apply tap_served.
Qed.

(** What a history keeps, of the payments nobody deletes. *)
Record history_kept (gone : list Z) (s s' : Store) : Prop := mk_history_kept {
  hk_rows : ∀ pid p, pid ∉ gone → s.(payments) !! pid = Some p → ∃ p', s'.(payments) !! pid = Some p' ∧ identity p' = identity p;
  hk_refunds : ∀ rid r, (∀ pid, r.(rf_payment_id) = Some pid → pid ∉ gone) → s.(refunds) !! rid = Some r → s'.(refunds) !! rid = Some r;
  hk_numbers : numbers_unique s → numbers_unique s';
  hk_bookings : bookings_confirmed s s';
  hk_calendar : calendar_ok s → calendar_ok s' }.
Lemma served_history gone s s' : served s s' → history_kept gone s s'.
Proof. intros [A1 A2 A3 A4 A5]. split; [eauto| |done..]. intros rid r _. by rewrite A3. Qed.
Lemma history_trans gone s1 s2 s3 : history_kept gone s1 s2 → history_kept gone s2 s3 → history_kept gone s1 s3.
Proof.
  intros [A1 A2 A3 A4 A5] [B1 B2 B3 B4 B5]. split; [|eauto|auto|by etransitivity|auto].
  intros pid p Hg Hp. destruct (A1 _ _ Hg Hp) as (q & Hq & E). destruct (B1 _ _ Hg Hq) as (q' & Hq' & E'). exists q'. split; congruence.
Qed.
Definition deleted (rs : list PaymentRequest) : list Z := omap (λ r, match r with DeleteReq pid => Some pid | _ => None end) rs.

Lemma delete_history gone pid s : pid ∈ gone → history_kept gone s (in_session (delete_payment pid) s).2.
Proof.
  intros Hg. unfold in_session. rewrite delete_payment_run. destruct (payments s !! pid) as [p0|] eqn:Hp0.
  2:{ apply served_history. by apply same_served. }
  split; cbn.
  - intros j p Hj Hp. exists p. rewrite lookup_delete_ne by congruence. done.
  - intros rid r Hr Hrid. apply map_lookup_filter_Some. split; [done|]. intros E. by destruct (Hr _ E).
  - intros Hu i j p q. cbn. rewrite !lookup_delete_Some. intros [_ Hp] [_ Hq]. by apply Hu.
  - by apply same_bookings.
  - apply calendar_of; [by apply same_bookings|]. intros [Hs _]. eapply schedule_ok_kept; [|exact Hs]. done.
Qed.
Lemma serve_all_kept rs gone s : (∀ pid, pid ∈ deleted rs → pid ∈ gone) → history_kept gone s (serve_all rs s).
Proof.
  revert s. induction rs as [|r rs IH]; intros s Hg; [by apply served_history|]. cbn.
  eapply history_trans; [|apply IH].
  - destruct r; try (apply served_history, in_session_served, handle_served; done). apply delete_history, Hg. cbn. apply list_elem_of_here.
  - intros pid Hpid. apply Hg. unfold deleted. cbn. destruct r; try done. by apply list_elem_of_further.
Qed.

(** C8: Over any history of payment requests, each in its own session, however
    they end and whatever the gateways send: payments whose numbers were unique
    keep them so, bookings change at most to confirmed and paid, and every payment
    that nobody deletes keeps its row, its customer, its creation time and its
    refunded amount, with its refunds.  When at the start no therapist is in two
    active bookings and no booking is parked, the same holds at the end; the
    second condition is needed, since a success confirms a parked booking without
    looking at the calendar. *)
Theorem payment_requests_history rs s :
  numbers_unique s →
  let s' := serve_all rs s in
  numbers_unique s' ∧ bookings_confirmed s s' ∧
  (∀ pid p, pid ∉ deleted rs → s.(payments) !! pid = Some p → ∃ p', s'.(payments) !! pid = Some p' ∧ identity p' = identity p) ∧
  (∀ rid r, (∀ pid, r.(rf_payment_id) = Some pid → pid ∉ deleted rs) → s.(refunds) !! rid = Some r → s'.(refunds) !! rid = Some r) ∧
  (calendar_ok s → calendar_ok s').
Proof. intros Hn. destruct (serve_all_kept rs (deleted rs) s) as [A1 A2 A3 A4 A5]; [done|]. split_and!; auto. Qed.

(** ** Statements that leave something alone *)

Lemma statements_same {X} (g : Draft → X) l d : Forall (λ f, ∀ d, g (f d) = g d) l → g (statements l d) = g d.
Proof. intros Hl. revert d. induction Hl as [|f l Hf Hl IH]; intros d; [done|]. cbn. unfold statements in IH. by rewrite IH, Hf. Qed.
Lemma assign_same {X A} (g : Draft → X) (o : option A) f : (∀ a d, g ((f a d) <| dr_dirty := true |>) = g d) → ∀ d, g (assign o f d) = g d.
Proof. intros Hf d. destruct o as [a|]; [apply Hf|done]. Qed.
Lemma row_same {X A} (h : Payment → X) (o : option A) f :
  (∀ a d, h (f a d).(dr_row) = h d.(dr_row)) → ∀ d, h (assign o f d).(dr_row) = h d.(dr_row).
Proof. intros Hf d. destruct o as [a|]; [apply (Hf a d)|done]. Qed.
Lemma fill_kept new old : truthy_opt old = true → fill new old = None.
Proof. intros Ho. unfold fill, only_if. by rewrite Ho, andb_false_r. Qed.
Ltac same_all :=
  repeat first
    [ apply Forall_app_2 | apply Forall_cons_2 | apply Forall_nil_2 | done
    | unfold details, column; first [apply row_same | apply assign_same]; intros; reflexivity ].

(** ** A payment the booking already has *)

(** A text offered to a column: what is there stays. *)
Definition filled (old new : option string) : option string :=
  if truthy_opt old then old else if truthy_opt new then new else old.

(** The row [p] after the request; [value] is the invoice's amount, in fils. *)
Definition again_row (f : PaymentFields) (r : Resolved) (value : Z) (p : Payment) : Payment :=
  let known := or_empty p.(pm_details).(pd_booking_data) in
  p <| pm_status := if is_success p.(pm_status) then p.(pm_status) else Some r.(rs_status) |>
    <| pm_payment_provider := filled p.(pm_payment_provider) r.(rs_provider) |>
    <| pm_payment_through := filled p.(pm_payment_through) r.(rs_through) |>
    <| pm_payment_gateway := filled p.(pm_payment_gateway) r.(rs_gateway) |>
    <| pm_payment_method := filled p.(pm_payment_method) f.(pf_payment_method) |>
    <| pm_invoice_id := filled p.(pm_invoice_id) r.(rs_invoice_id) |>
    <| pm_invoice_number := filled p.(pm_invoice_number) f.(pf_invoice_number) |>
    <| pm_invoice_value := if empty_amount p.(pm_invoice_value) then Some value else p.(pm_invoice_value) |>
    <| pm_created_by_user := filled p.(pm_created_by_user) f.(pf_created_by_user) |>
    <| pm_created_by_user_data :=
         match or_empty p.(pm_created_by_user_data), or_empty f.(pf_created_by_user_data) with
         | [], (_ :: _) as d => Some d
         | _, _ => p.(pm_created_by_user_data)
         end |>
    <| pm_details := p.(pm_details) <| pd_booking_data :=
         match r.(rs_booking_data) with
         | (_ :: _) as d => if has_key known "booking_number" then p.(pm_details).(pd_booking_data) else Some (dict_merge known d)
         | [] => p.(pm_details).(pd_booking_data)
         end |> |>.

Definition taken {A} (o old : option A) : option A := match o with Some v => Some v | None => old end.
Lemma taken_fill new old : taken (fill new old) old = filled old new.
Proof. unfold taken, filled, fill, only_if. by destruct (truthy_opt old), new as [t|]; cbn; try destruct (truthy t). Qed.
Lemma column_set {A} (set : option A → Payment → Payment) (get : Payment → option A) o d :
  (∀ p, set (get p) p = p) →
  dr_row (column o (λ v p, set (Some v) p) d) = set (taken o (get d.(dr_row))) d.(dr_row).
Proof. intros Hs. destruct o; cbn; [done|]. by rewrite Hs. Qed.
Ltac column_row set get :=
  let E := fresh in
  pose proof (λ o d, column_set set get o d ltac:(let p := fresh in intros p; destruct p; try match goal with x : PaymentDetails |- _ => destruct x end; reflexivity)) as E; cbn beta in E; rewrite E; clear E.

Lemma invoice_row (o : option Decimal) d : dr_row (assign o (λ v d, d <| dr_invoice_value := Some v |>) d) = d.(dr_row).
Proof. by destruct o. Qed.

Lemma booking_data_row known (o : option jdict) d :
  dr_row (details o (λ v x, x <| pd_booking_data := Some (dict_merge known v) |>) d) =
  d.(dr_row) <| pm_details := d.(dr_row).(pm_details)
    <| pd_booking_data := taken (dict_merge known <$> o) d.(dr_row).(pm_details).(pd_booking_data) |> |>.
Proof. destruct o, d as [p]; [done|]. cbn. destruct p. cbn. by destruct pm_details. Qed.

Lemma again_for_booking_row f r p value :
  (again_for_booking f r p).(dr_row) = (again_row f r value p) <| pm_invoice_value := p.(pm_invoice_value) |>.
Proof.
  unfold again_for_booking, classification_columns, creator_columns, statements. cbn [app foldl].
  rewrite booking_data_row.
  column_row (λ v p, p <| pm_created_by_user_data := v |>) pm_created_by_user_data.
  column_row (λ v p, p <| pm_created_by_user := v |>) pm_created_by_user.
  rewrite invoice_row.
  column_row (λ v p, p <| pm_invoice_number := v |>) pm_invoice_number.
  column_row (λ v p, p <| pm_invoice_id := v |>) pm_invoice_id.
  column_row (λ v p, p <| pm_status := v |>) pm_status.
  column_row (λ v p, p <| pm_payment_method := v |>) pm_payment_method.
  column_row (λ v p, p <| pm_payment_gateway := v |>) pm_payment_gateway.
  column_row (λ v p, p <| pm_payment_through := v |>) pm_payment_through.
  column_row (λ v p, p <| pm_payment_provider := v |>) pm_payment_provider.
  cbn [dr_row draft_of]. unfold again_row. destruct p, pm_details. cbn -[filled fill fill_dict is_success has_key dict_merge].
  rewrite !taken_fill. f_equal.
  - by destruct (is_success pm_status).
  - unfold fill_dict, present_dict. by destruct pm_created_by_user_data as [[|]|], (pf_created_by_user_data f) as [[|]|].
  - f_equal. destruct (has_key _ _), (rs_booking_data r); reflexivity.
Qed.

Lemma again_same {X} (g : Draft → X) f r p :
  Forall (λ f, ∀ d, g (f d) = g d) (classification_columns f r p ++ [
    column (fill f.(pf_invoice_number) p.(pm_invoice_number)) (λ v p, p <| pm_invoice_number := Some v |>);
    assign (only_if (empty_amount p.(pm_invoice_value)) r.(rs_invoice_value)) (λ v d, d <| dr_invoice_value := Some v |>)] ++
    creator_columns f p ++ [
    details (if has_key (or_empty p.(pm_details).(pd_booking_data)) "booking_number" then None else present_dict (Some r.(rs_booking_data)))
      (λ v x, x <| pd_booking_data := Some (dict_merge (or_empty p.(pm_details).(pd_booking_data)) v) |>)]) →
  g (again_for_booking f r p) = g (draft_of p).
Proof. apply statements_same. Qed.
Ltac again_all := apply again_same; unfold classification_columns, creator_columns; cbn [app].

Definition again_value (r : Resolved) (p : Payment) : result Z :=
  if empty_amount p.(pm_invoice_value) then numeric_10_3 r.(rs_invoice_value) else Ok 0.

Lemma again_invoice f r p :
  dr_invoice_value (again_for_booking f r p) = if empty_amount p.(pm_invoice_value) then Some r.(rs_invoice_value) else None.
Proof.
  unfold again_for_booking, classification_columns, creator_columns, statements. cbn [app foldl].
  unfold details, column. destruct (empty_amount _); unfold only_if;
    repeat (rewrite assign_same; [|by intros]); cbn [assign]; repeat (rewrite assign_same; [|by intros]); reflexivity.
Qed.
Lemma again_flushed f r p :
  flushed (again_for_booking f r p) = (value ← again_value r p; Ok (attribute_payment (again_row f r value p))).
Proof.
  assert (dr_total_amount (again_for_booking f r p) = None ∧ dr_addons_price (again_for_booking f r p) = None ∧
          dr_price_for_extra_time (again_for_booking f r p) = None ∧ dr_paid_at (again_for_booking f r p) = None)
    as (E1 & E2 & E3 & E4) by (split_and!; again_all; same_all).
  unfold flushed, again_value. rewrite E1, E2, E3, E4, again_invoice. cbn [numeric_column].
  destruct (empty_amount _) eqn:Ev; cbn [numeric_column]; [destruct (numeric_10_3 _) as [z|e]; [|done]|]; cbn [mbind result_bind].
  - rewrite (again_for_booking_row f r p z). cbn. do 2 f_equal. unfold again_row. rewrite Ev. destruct p, pm_details. reflexivity.
  - rewrite (again_for_booking_row f r p 0). cbn. do 2 f_equal. unfold again_row. rewrite Ev. destruct p, pm_details. reflexivity.
Qed.

(** A draft nothing was assigned to. *)
Lemma statements_clean l d :
  Forall (λ f, ∀ d, dr_dirty (f d) = false → f d = d) l → dr_dirty (statements l d) = false → statements l d = d.
Proof.
  intros Hl. revert d. induction Hl as [|f l Hf _ IH]; intros d Hd; [done|].
  change (statements (f :: l) d) with (statements l (f d)) in *. pose proof (IH _ Hd) as E. rewrite E in *. by apply Hf.
Qed.
Lemma again_clean f r p : dr_dirty (again_for_booking f r p) = false → again_for_booking f r p = draft_of p.
Proof.
  intros Hd. apply statements_clean; [|exact Hd]. unfold classification_columns, creator_columns, details, column. cbn [app].
  repeat apply Forall_cons_2; try apply Forall_nil_2; intros d; unfold assign; by destruct (_ : option _).
Qed.
Lemma again_nothing f r p :
  dr_dirty (again_for_booking f r p) = false → again_value r p = Ok 0 ∧ ∀ value, again_row f r value p = p.
Proof.
  intros E%again_clean. pose proof (again_invoice f r p) as Hv. rewrite E in Hv. unfold again_value.
  destruct (empty_amount _) eqn:Ev; [done|]. split; [done|]. intros value.
  pose proof (again_for_booking_row f r p value) as Hr. rewrite E in Hr. cbn [dr_row draft_of] in Hr. rewrite Hr at 2.
  unfold again_row. rewrite Ev. by destruct p.
Qed.

Lemma flushed_number d row : flushed d = Ok row → row.(pm_payment_number) = d.(dr_row).(pm_payment_number).
Proof. unfold flushed. intros Hf. ok_steps. by subst row. Qed.
(** The flush of a draft that keeps its number. *)
Lemma flush_draft_run s pid p d :
  numbers_unique s → s.(payments) !! pid = Some p → d.(dr_row).(pm_payment_number) = p.(pm_payment_number) →
  flush_draft pid d s =
    if d.(dr_dirty) then
      match flushed d with
      | Ok row => (Ok (), s <| payments := <[pid := row]> s.(payments) |>)
      | Raise e => (Raise e, s)
      end
    else (Ok (), s).
Proof.
  intros Hu Hp Hn. unfold flush_draft. destruct (dr_dirty d); [|done]. cbn [when]. rewrite bind_run. unfold lift.
  destruct (flushed d) as [row|e] eqn:Ef; [|done]. rewrite bind_run, gets_run. cbn beta iota. rewrite bind_run, raise_if_run.
  destruct (existsb _ _) eqn:Ht.
  - apply existsb_exists in Ht as ([j q] & Hin & [Hj Heq]%andb_true_iff). apply list_elem_of_In, elem_of_map_to_list in Hin.
    apply String.eqb_eq in Heq. rewrite (flushed_number _ _ Ef), Hn in Heq. rewrite (Hu j pid q p Hin Hp Heq), Z.eqb_refl in Hj. done.
  - cbn beta iota. by rewrite upd_payment_run, (alter_lookup _ _ _ _ Hp).
Qed.
Lemma replace_same s pid p : s.(payments) !! pid = Some p → s <| payments := <[pid := p]> s.(payments) |> = s.
Proof. intros Hp. destruct s. cbn in *. by rewrite insert_id. Qed.

(** C17: A booking gets one payment: when it has one, a request to create a
    payment adds no row and writes nothing but the row it finds, and that exactly
    as follows.  The status becomes the requested one (or the gateway's, or
    initiated) unless it is a success; provider, channel, gateway, method, creator
    and the invoice's key and number are filled in only where they are empty, the
    invoice's amount only where it is zero; the booking's snapshot is merged over
    the stored one unless that has the booking number; all other columns stay, and
    the attribution listener runs.  The request fails, without effect, exactly when
    the amount it would fill in does not fit its column. *)
Theorem create_payment_again c s bid :
  numbers_unique s → c.(cp_fields).(pf_booking_id) = Some bid →
  (∃ pid p, s.(payments) !! pid = Some p ∧ p.(pm_booking_id) = Some bid) →
  let f := c.(cp_fields) in
  let booking := (λ b, (bid, b)) <$> s.(bookings) !! bid in
  let voucher := resolve_voucher f.(pf_voucher_id) (fill f.(pf_voucher_number) None) s in
  let r := resolve c (parse_dict <$> present_dict f.(pf_gateway_response)) booking voucher s.(now) in
  ∃ pid p, s.(payments) !! pid = Some p ∧ p.(pm_booking_id) = Some bid ∧
    match create_payment c s with
    | (Ok (status, k), s') =>
        status = 200 ∧ k = pid ∧ ∃ value q, again_value r p = Ok value ∧
          s' = s <| payments := <[pid := q]> s.(payments) |> ∧
          (q = attribute_payment (again_row f r value p) ∨ q = p ∧ again_row f r value p = p)
    | (Raise e, s') => s' = s ∧ again_value r p = Raise e
    end.
Proof.
  intros Hu Hb (k & p' & Hk & Hp'). cbv zeta. unfold create_payment. rewrite bind_run, get_run. cbn beta iota zeta. rewrite Hb.
  cbn [mbind option_bind]. set (r := resolve _ _ _ _ _). set (f := cp_fields c) in *.
  destruct (newest_key (λ q, pm_booking_id q ==? Some bid) _ _) as [pid|] eqn:Hn.
  2:{ rewrite newest_key_None in Hn. specialize (Hn _ _ Hk). cbn in Hn. by rewrite Hp', bool_decide_eq_true_2 in Hn. }
  apply newest_key_spec in Hn as (p & Hp & Hpb%bool_decide_eq_true & _). exists pid, p. split_and!; [done|done|].
  rewrite bind_run, (get_payment_row_run _ _ _ Hp). rewrite bind_run.
  rewrite (flush_draft_run s pid p); [|done|done|].
  2:{ apply (again_same (λ d, d.(dr_row).(pm_payment_number))). unfold classification_columns, creator_columns; cbn [app]. same_all. }
  destruct (dr_dirty _) eqn:Hd; [rewrite again_flushed; destruct (again_value r p) as [z|e] eqn:Ez; cbn [mbind result_bind]|].
  - split_and!; [done|done|]. eexists z, _. split_and!; [done|done|by left].
  - done.
  - destruct (again_nothing _ _ _ Hd) as [Hv Hr]. split_and!; [done|done|]. exists 0, p.
    split_and!; [done|by rewrite replace_same|right]. by split.
Qed.

(** ** A new payment *)

Definition paid_up (s : Store) (bid : Z) : Prop :=
  ∃ b, s.(bookings) !! bid = Some b ∧ b.(bk_status) = "confirmed" ∧ b.(bk_payment_status) = "success".
Lemma paid_up_kept s s' bid : bookings_confirmed s s' → paid_up s bid → paid_up s' bid.
Proof.
  intros Hc (b & Hb & Hs & Hp). specialize (Hc bid). rewrite Hb in Hc. destruct (bookings s' !! bid) as [b'|] eqn:Hb'; [|by inversion Hc].
  assert (confirms b b') as [_ _ H1 H2] by (by inversion Hc). exists b'. split_and!; [done|destruct H1; congruence|destruct H2; congruence].
Qed.
Lemma wp_paid_up {A} (m : M Store A) s bid (Q : result A → Store → Prop) :
  changes bills_kept m → paid_up s bid → (∀ r s', paid_up s' bid → Q r s') → wp m s Q.
Proof. intros Hm Hp HQ. apply HQ. eapply paid_up_kept; [apply Hm|done]. Qed.

(** A booking that can be confirmed is, even when the call fails afterwards. *)
Lemma confirm_confirms bid ref d src s b :
  s.(bookings) !! bid = Some b → confirm_flushes b = true → paid_up (confirm_booking bid ref (Some d) src s).2 bid.
Proof.
  intros Hb Hc. change (wp (confirm_booking bid ref (Some d) src) s (λ _ s', paid_up s' bid)).
  assert (∀ f s1 (m : M Store ()), (∃ b1, s1.(bookings) !! bid = Some b1 ∧ (f b1).(bk_status) = "confirmed" ∧ (f b1).(bk_payment_status) = "success") →
    changes bills_kept m → wp (upd_booking bid f ;; m) s1 (λ _ s', paid_up s' bid)) as Hupd.
  { intros f s1 m (b1 & Hb1 & H1 & H2) Hm. apply wp_bind. unfold upd_booking. apply wp_modify.
    eapply wp_paid_up; [exact Hm| |done]. exists (f b1). cbn. by rewrite (alter_lookup _ _ _ _ Hb1), lookup_insert_eq. }
  unfold confirm_booking, get_by_id. apply wp_bind, wp_bind, wp_gets, wp_some_or_raise; [|congruence]. rewrite Hb. intros ? [= <-].
  unfold confirm_flushes in Hc. destruct (of_value (bk_status b)) as [st|e] eqn:Est; [|done]. apply wp_bind, wp_lift.
  destruct (st ==? Booking.CONFIRMED) eqn:Hst.
  - apply bool_decide_eq_true in Hst as ->. apply of_value_ok in Est.
    rewrite bool_decide_eq_true_2 by done. cbn [when]. apply wp_bind, wp_bind. unfold take_payment_data, upd_booking at 1. apply wp_modify.
    apply (wp_mono _ _ (λ _ s', paid_up s' bid)).
    + apply Hupd; [|bills]. eexists. cbn. rewrite (alter_lookup _ _ _ _ Hb), lookup_insert_eq. split; [reflexivity|done].
    + intros [[]|e] s1 Hs1; [|done]. eapply wp_paid_up; [apply invoice_bills|done|done].
  - cbn [orb] in Hc. unfold transition_to. rewrite Hc. cbn [negb]. apply wp_bind, wp_lift.
    apply Hupd; [by exists b|]. unfold take_payment_data. pose proof loyalty_bills. pose proof invoice_bills. pose proof status_event_bills. bills.
Qed.

Lemma auto_confirm_ok pid bid meta s : (auto_confirm pid bid meta s).1 = Ok ().
Proof.
  unfold auto_confirm, swallow, try_except. rewrite bind_run.
  match goal with |- context [match ?m s with _ => _ end] => destruct (m s) as [[a|e] s1] end; reflexivity.
Qed.
Lemma auto_confirm_paid pid bid meta s b :
  s.(bookings) !! bid = Some b → confirm_flushes b = true → paid_up (auto_confirm pid bid meta s).2 bid.
Proof.
  intros Hb Hc. change (wp (auto_confirm pid bid meta) s (λ _ s', paid_up s' bid)). unfold auto_confirm, swallow.
  apply wp_bind, wp_try, wp_bind, wp_bind. apply (wp_mono _ _ (λ _ s', paid_up s' bid)); [by apply (confirm_confirms _ _ _ _ _ b)|].
  intros [[]|e] s1 Hs1; [|by apply wp_ret, wp_ret]. eapply wp_paid_up; [|exact Hs1|].
  - bills.
  - intros [[]|e] s2 Hs2; repeat apply wp_ret; done.
Qed.

Lemma List_filter_none {A} (f : A → bool) l : (∀ x, x ∈ l → f x = false) → List.filter f l = [].
Proof.
  induction l as [|x l IH]; intros Hl; [done|]. cbn. rewrite (Hl x) by apply list_elem_of_here. apply IH. intros y Hy. by apply Hl, list_elem_of_further.
Qed.
Lemma insert_new_run number row s :
  let n := match fill number None with Some n => n | None => next_payment_number s end in
  (∀ n i, (row n i).(pm_payment_number) = n) → n ∉ (pm_payment_number <$> rows s.(payments)) →
  insert_new number row s = (Ok (new_id s.(payments)),
    s <| payments := <[new_id s.(payments) := attribute_payment (row n (new_id s.(payments)))]> s.(payments) |>).
Proof.
  cbv zeta. intros Hrow Hn. unfold insert_new.
  set (n := match fill number None with Some n => n | None => next_payment_number s end) in *.
  assert ((match fill number None with Some n => mret n | None => gets next_payment_number end : M Store string) s = (Ok n, s)) as En.
  { unfold n. by destruct (fill number None). }
  rewrite bind_run, En. cbn [Nat.sub MAX_ATTEMPTS insert_numbered]. rewrite bind_run, gets_run. unfold number_taken.
  rewrite bool_decide_eq_false_2 by done. unfold insert_payment. rewrite bind_run, get_run. cbn beta iota zeta.
  change (pm_payment_number (attribute_payment (row n (new_id (payments s))))) with (row n (new_id (payments s))).(pm_payment_number).
  rewrite Hrow, bind_run, raise_if_run, bool_decide_eq_false_2 by done. reflexivity.
Qed.

(** What the booking hears of its new payment. *)
Definition tell_booking (pid : Z) (p : Payment) (booking : option (Z * Booking)) : M Store () :=
  match booking with
  | Some (bid, b) =>
      let meta := _meta_snapshot pid (draft_of p) in
      upd_booking bid (λ b, b <| bk_payment_data := merged_payment_data b.(bk_payment_data) meta |>) ;;
      if is_success p.(pm_status) then
        when (negb (confirm_flushes b)) (flush_booking bid) ;;
        auto_confirm pid bid meta
      else flush_booking bid
  | None => mret ()
  end.
Lemma tell_booking_bills pid p booking : changes bills_kept (tell_booking pid p booking).
Proof. unfold tell_booking. bills. Qed.
Lemma tell_booking_ok pid p booking s : (tell_booking pid p booking s).1 = Ok ().
Proof.
  unfold tell_booking. destruct booking as [[bid b]|]; [|done]. cbv zeta. rewrite bind_run, upd_booking_run. cbn beta iota.
  destruct (is_success _); [|done]. destruct (negb _); cbn [when]; rewrite bind_run; apply auto_confirm_ok.
Qed.
Lemma tell_booking_pays pid p bid b s :
  s.(bookings) !! bid = Some b → confirm_flushes b = true → is_success p.(pm_status) = true →
  paid_up (tell_booking pid p (Some (bid, b)) s).2 bid.
Proof.
  intros Hb Hc Hs. unfold tell_booking. cbv zeta. rewrite bind_run, upd_booking_run. cbn beta iota.
  rewrite Hs, Hc. cbn [negb when]. rewrite bind_run. cbn [mret M_ret].
  apply (auto_confirm_paid _ _ _ _ (b <| bk_payment_data := merged_payment_data b.(bk_payment_data) (_meta_snapshot pid (draft_of p)) |>)).
  - cbn. by rewrite (alter_lookup _ _ _ _ Hb), lookup_insert_eq.
  - exact Hc.
Qed.
(** A payment that is not a success tells its booking only that it exists. *)
Lemma tell_booking_quiet pid p booking s :
  is_success p.(pm_status) = false → core_kept s (tell_booking pid p booking s).2.
Proof.
  intros Hs. revert s. change (changes core_kept (tell_booking pid p booking)). unfold tell_booking.
  destruct booking as [[bid b]|]; [|kept]. cbv zeta. rewrite Hs. kept.
Qed.

(** The row's bill and its first line of history. *)
Definition new_bill (c : CreatePaymentRequest) (status : string) (total now_ : Z) (number : string) : Bill :=
  let f := c.(cp_fields) in
  mk_bill f.(pf_booking_id) c.(cp_customer_id) total 0 number (Some status) now_ None None
    (por f.(pf_payment_id) ((parse_dict <$> present_dict f.(pf_gateway_response)) ≫= ps_payment_id)).

(** The row and the line of history of a request without a voucher. *)
Definition created_row (c : CreatePaymentRequest) (r : Resolved) (ps : option Parsed) (booking : option (Z * Booking))
    (amounts : Z * Z * option Z * option Z) (number : string) (s : Store) : Payment :=
  attribute_payment (new_payment c r ps booking (None, None) amounts s.(now) number (new_id s.(payments))).
Definition created_line (c : CreatePaymentRequest) (p : Payment) (pid : Z) : PaymentStatusHistory :=
  let f := c.(cp_fields) in
  created_history pid p.(pm_status) (match or_empty f.(pf_gateway_response) with [] => "manual" | _ => "gateway_webhook" end)
    (por f.(pf_created_by_user) f.(pf_created_by)) f.(pf_created_by_user_data) (por_str p.(pm_payment_id) (uuid_str pid)).
Definition with_created (p : Payment) (h : PaymentStatusHistory) (s : Store) : Store :=
  s <| payments := <[new_id s.(payments) := p]> s.(payments) |>
    <| payment_status_history := s.(payment_status_history) ++ [h] |>.

Lemma insert_created_run c r ps booking amounts s :
  let number := match fill c.(cp_fields).(pf_payment_number) None with Some n => n | None => next_payment_number s end in
  let pid := new_id s.(payments) in
  let p := created_row c r ps booking amounts number s in
  new_amounts c r (snd <$> booking) = Ok amounts → number ∉ (pm_payment_number <$> rows s.(payments)) →
  insert_created c r ps booking (None, None) s =
    (Ok (201, pid), (tell_booking pid p booking (with_created p (created_line c p pid) s)).2).
Proof.
  cbv zeta. intros Hamounts Hnum. unfold insert_created. rewrite bind_run, gets_run. cbn beta iota zeta.
  rewrite bind_run. unfold lift at 1. rewrite Hamounts. cbn beta iota.
  rewrite bind_run, insert_new_run; [|by destruct amounts as [[[? ?] ?] ?]|exact Hnum]. cbn beta iota.
  set (pid := new_id _). set (number := match _ with Some n => n | None => _ end). fold (created_row c r ps booking amounts number s).
  set (p := created_row _ _ _ _ _ _ _). set (s1 := s <| payments := _ |>).
  assert (s1.(payments) !! pid = Some p) as Hp by apply lookup_insert_eq.
  rewrite bind_run, (get_payment_row_run _ _ _ Hp). cbn beta iota. rewrite bind_run. unfold add_history at 1. rewrite modify_run. cbn beta iota.
  change (match booking with Some (bid, b) => _ | None => _ end) with (tell_booking pid p booking).
  change (s1 <| payment_status_history := _ |>) with (with_created p (created_line c p pid) s). set (s2 := with_created _ _ s).
  rewrite bind_run. pose proof (bs_bills _ _ (tell_booking_bills pid p booking s2) pid) as Hpid.
  change (payments s2 !! pid) with (payments s1 !! pid) in Hpid. rewrite Hp in Hpid.
  pose proof (tell_booking_ok pid p booking s2) as Hok.
  destruct (tell_booking pid p booking s2) as [o s3]. cbn [fst snd] in *. subst o.
  destruct (payments s3 !! pid) as [p3|] eqn:Hp3; [|done]. by rewrite bind_run, (get_payment_row_run _ _ _ Hp3).
Qed.

(** A request without a voucher for a booking without payment reaches the insertion. *)
Lemma create_payment_inserts c s :
  let f := c.(cp_fields) in
  let ps := parse_dict <$> present_dict f.(pf_gateway_response) in
  let booking := f.(pf_booking_id) ≫= λ id, (λ b, (id, b)) <$> s.(bookings) !! id in
  (∀ bid k p, f.(pf_booking_id) = Some bid → s.(payments) !! k = Some p → p.(pm_booking_id) ≠ Some bid) →
  f.(pf_voucher_id) = None → truthy_opt f.(pf_voucher_number) = false →
  create_payment c s = insert_created c (resolve c ps booking (None, None) s.(now)) ps booking (None, None) s.
Proof.
  cbv zeta. intros Hnone Hvid Hvnum. unfold create_payment. rewrite bind_run, get_run. cbn beta iota zeta.
  assert (resolve_voucher (pf_voucher_id (cp_fields c)) (fill (pf_voucher_number (cp_fields c)) None) s = (None, None)) as ->.
  { rewrite Hvid. unfold fill at 1. unfold only_if. by rewrite Hvnum. }
  destruct (pf_booking_id (cp_fields c)) as [bid|] eqn:Hb; [|done]. cbn [fst].
  assert (newest_key (λ q, pm_booking_id q ==? Some bid) (λ _, 0) s.(payments) = None) as ->; [|done].
  apply newest_key_None. intros k p Hp. apply bool_decide_eq_false. by apply (Hnone bid k).
Qed.

(** C16: A payment for a booking that has none, without a voucher, whose amounts
    fit and whose number is free: the request adds exactly one row, with that
    number, the booking, customer, amount and status asked for and nothing
    refunded, one line of history, and no other bill changes; a success confirms
    the booking whenever its state admits it, and any other status leaves every
    booking's status alone. *)
Theorem create_payment_new c s total invoice_value addons_price extra_price :
  let f := c.(cp_fields) in
  let booking := f.(pf_booking_id) ≫= λ id, (λ b, (id, b)) <$> s.(bookings) !! id in
  let r := resolve c (parse_dict <$> present_dict f.(pf_gateway_response)) booking (None, None) s.(now) in
  let number := match fill f.(pf_payment_number) None with Some n => n | None => next_payment_number s end in
  let pid := new_id s.(payments) in
  (∀ bid k p, f.(pf_booking_id) = Some bid → s.(payments) !! k = Some p → p.(pm_booking_id) ≠ Some bid) →
  f.(pf_voucher_id) = None → truthy_opt f.(pf_voucher_number) = false →
  new_amounts c r (snd <$> booking) = Ok (total, invoice_value, addons_price, extra_price) →
  number ∉ (pm_payment_number <$> rows s.(payments)) →
  ∃ s' h, create_payment c s = (Ok (201, pid), s') ∧
    bill_of <$> s'.(payments) !! pid = Some (new_bill c r.(rs_status) total s.(now) number) ∧
    (∀ k, k ≠ pid → bill_of <$> s'.(payments) !! k = bill_of <$> s.(payments) !! k) ∧
    s'.(payment_status_history) = s.(payment_status_history) ++ [h] ∧
    (h.(hs_payment_id), h.(hs_old_status), h.(hs_new_status)) = (pid, None, r.(rs_status)) ∧
    (∀ bid b, booking = Some (bid, b) → r.(rs_status) = "success" → confirm_flushes b = true → paid_up s' bid) ∧
    (r.(rs_status) ≠ "success" → ∀ id, core_of <$> s.(bookings) !! id = core_of <$> s'.(bookings) !! id).
Proof.
  cbv zeta. set (ps := parse_dict <$> _). set (booking := _ ≫= _). set (r := resolve _ _ _ _ _). set (pid := new_id _).
  intros Hnone Hvid Hvnum Hamounts Hnum. set (number := match _ with Some n => n | None => _ end) in *.
  rewrite create_payment_inserts by done. fold ps. fold booking. fold r.
  pose proof (insert_created_run c r ps booking _ s Hamounts Hnum) as E. cbv zeta in E. fold number in E. fold pid in E. rewrite E. clear E.
  set (p := created_row _ _ _ _ _ _ _). set (h := created_line c p pid). set (s2 := with_created p h s).
  assert (pm_status p = Some (rs_status r)) as Hst by done.
  pose proof (tell_booking_bills pid p booking s2) as [Hbills [= _ Hhist _ _ _] Hconf].
  eexists _, h. split; [done|]. split; [|split_and!].
  - rewrite Hbills. change (payments s2) with (<[pid := p]> s.(payments)). by rewrite lookup_insert_eq.
  - intros k Hk. rewrite Hbills. change (payments s2) with (<[pid := p]> s.(payments)). by rewrite lookup_insert_ne.
  - exact Hhist.
  - done.
  - intros bid b Hbk Hs Hc.
    assert (s2.(bookings) !! bid = Some b) as Hb2.
    { change (s.(bookings) !! bid = Some b). unfold booking in Hbk. destruct (pf_booking_id (cp_fields c)) as [i|]; [|done]. cbn in Hbk.
      destruct (bookings s !! i) as [b0|] eqn:Hi; [|done]. cbn in Hbk. by simplify_eq. }
    rewrite Hbk. apply tell_booking_pays; [done..|]. unfold is_success. by rewrite Hst, Hs.
  - intros Hs id. assert (is_success (pm_status p) = false) as Hq.
    { unfold is_success. rewrite Hst. apply bool_decide_eq_false. intros E. apply Hs. exact (inj Some _ _ E). }
    apply (ck_rows _ _ (tell_booking_quiet pid p booking s2 Hq)).
Qed.

(** ** Tap's webhook *)

(** The only payment of a query. *)
Lemma one_payment_unique where_ s pid p :
  s.(payments) !! pid = Some p → where_ p = true → (∀ k q, s.(payments) !! k = Some q → where_ q = true → k = pid) →
  one_payment where_ s = (Ok (Some pid), s).
Proof.
  intros Hp Hw Hone. unfold one_payment. rewrite bind_run, gets_run. cbn beta iota. set (found := List.filter _ _).
  assert (∀ x, x ∈ found → x = (pid, p)) as Hall.
  { intros [k q] [Hin Hq]%elem_of_filter_list. apply elem_of_map_to_list in Hin. pose proof (Hone k q Hin Hq) as ->. congruence. }
  assert ((pid, p) ∈ found) as Hin by (apply elem_of_filter_list; split; [by apply elem_of_map_to_list|done]).
  assert (NoDup found) as Hnd.
  { apply NoDup_ListNoDup, List.NoDup_filter, NoDup_ListNoDup, NoDup_map_to_list. }
  destruct found as [|x [|y l]].
  - by apply elem_of_nil in Hin.
  - rewrite (Hall x) by apply list_elem_of_here. done.
  - apply NoDup_cons in Hnd as [Hx _]. destruct Hx. rewrite (Hall x), <- (Hall y) by set_solver. apply list_elem_of_here.
Qed.

(** The row after a response of Tap. *)
Definition tapped (ps : Parsed) (p : Payment) : Payment :=
  let or_old (new old : option string) := match new with Some v => Some v | None => old end in
  attribute_payment (p <| pm_payment_data := merged_payment_data p.(pm_payment_data) ps.(ps_payment_data) |>
    <| pm_status := Some ps.(ps_status) |> <| pm_transaction_id := or_old ps.(ps_transaction_id) p.(pm_transaction_id) |>
    <| pm_track_id := or_old ps.(ps_track_id) p.(pm_track_id) |> <| pm_reference_id := or_old ps.(ps_reference_id) p.(pm_reference_id) |>
    <| pm_paid_at := match ps.(ps_paid_at) with Some t => Some (stored_instant t) | None => p.(pm_paid_at) end |>).
Definition tap_line (pid : Z) (ps : Parsed) (p : Payment) (charge_id : string) : list PaymentStatusHistory :=
  if Some ps.(ps_status) ==? p.(pm_status) then []
  else [mk_history pid p.(pm_status) ps.(ps_status) "webhook_tap" None (Some charge_id) None (Some "webhook_tap")
          (Some [("source", JStr "webhook_tap")])].

Lemma tapped_flush ps p : flushed (tap_columns_of ps p) = Ok (tapped ps p).
Proof.
  unfold flushed, tapped. generalize attribute_payment as att. intros att. cbv zeta.
  unfold tap_columns_of, statements, tap_columns, gateway_data, column, assign. cbn [foldl app].
  destruct p. destruct pm_details.
  destruct (ps_transaction_id ps), (ps_track_id ps), (ps_reference_id ps), (ps_paid_at ps); vm_compute; reflexivity.
Qed.
Lemma tap_draft ps p :
  let d := tap_columns_of ps p in
  d.(dr_dirty) = true ∧ d.(dr_row).(pm_status) = Some ps.(ps_status) ∧ d.(dr_row).(pm_payment_number) = p.(pm_payment_number) ∧
  d.(dr_row).(pm_booking_id) = p.(pm_booking_id).
Proof.
  unfold tap_columns_of, statements, tap_columns, gateway_data, column, assign. cbn [foldl].
  by destruct (ps_transaction_id ps), (ps_track_id ps), (ps_reference_id ps), (ps_paid_at ps).
Qed.

(** The webhook up to the end of the request. *)
Lemma tap_webhook_run d s charge pid p :
  let ps := parse_dict d in
  ps.(ps_payment_id) = Some charge → truthy charge = true → s.(payments) !! pid = Some p → p.(pm_payment_id) = Some charge →
  (∀ k q, s.(payments) !! k = Some q → q.(pm_payment_id) = Some charge → k = pid) →
  tap_webhook (JDict d) s = finish_webhook pid (tap_columns_of ps p) TAP_META
    (s <| payment_status_history := s.(payment_status_history) ++ tap_line pid ps p charge |>).
Proof.
  cbv zeta. intros Hps Ht Hp Hc Hone. unfold tap_webhook. cbn [parse_gateway_response]. set (ps := parse_dict d) in *. rewrite Hps.
  cbv zeta. change (jtruthy (Some (JStr charge))) with (truthy charge). rewrite Ht. rewrite bind_run, (one_payment_unique _ s pid p).
  2:{ done. } 2:{ by rewrite Hc; apply bool_decide_eq_true. } 2:{ intros k q Hq E%bool_decide_eq_true. by apply (Hone k q). }
  rewrite bind_run, (get_payment_row_run _ _ _ Hp). cbn beta iota. destruct (tap_draft ps p) as (_ & Hst & _ & _). rewrite Hst.
  unfold tap_line. rewrite bind_run. destruct (_ ==? _) eqn:E; [apply bool_decide_eq_true in E|apply bool_decide_eq_false in E].
  - cbn [negb when]. rewrite app_nil_r. by destruct s.
  - cbn [negb when]. unfold add_history. rewrite modify_run. unfold webhook_history. by rewrite Hst.
Qed.

(** ** A confirmation, seen from the payments *)

(** All of a payment but the invoice's number and what the listener writes. *)
Definition plain (p : Payment) : Payment :=
  p <| pm_invoice_number := None |> <| pm_payment_through := None |> <| pm_payment_provider := None |>
    <| pm_payment_gateway := None |> <| pm_payment_method := None |>
    <| pm_details := p.(pm_details) <| pd_branch_name := None |> |>.

(** Confirming the booking [bid] leaves these alone. *)
Record aside (bid : Z) (s s' : Store) : Prop := mk_aside {
  as_payments : ∀ k, plain <$> s'.(payments) !! k = plain <$> s.(payments) !! k;
  as_tables : (s'.(refunds), s'.(payment_status_history), s'.(vouchers), s'.(payment_links)) =
              (s.(refunds), s.(payment_status_history), s.(vouchers), s.(payment_links));
  as_bookings : ∀ j, j ≠ bid → s'.(bookings) !! j = s.(bookings) !! j }.
#[export] Instance aside_preorder bid : PreOrder (aside bid).
Proof.
  split; [by intros s; split|]. intros s1 s2 s3 [A1 A2 A3] [B1 B2 B3].
  split; [intros k; by rewrite B1|congruence|intros j Hj; by rewrite B3, A3].
Qed.
Lemma upd_booking_aside bid f : changes (aside bid) (upd_booking bid f).
Proof. intros s. split; [done..|]. intros j Hj. cbn. by rewrite lookup_alter_ne. Qed.
Lemma upd_payment_aside bid pid f : (∀ p, plain (f p) = plain p) → changes (aside bid) (upd_payment pid f).
Proof.
  intros Hf s. split; [|done..]. intros k. cbn. destruct (decide (pid = k)) as [->|Hk]; [|by rewrite lookup_alter_ne].
  rewrite lookup_alter_eq. destruct (payments s !! k); cbn; [by rewrite Hf|done].
Qed.
Lemma modify_aside bid f : (∀ s, bill_tables (f s) = bill_tables s) → changes (aside bid) (modify f).
Proof.
  intros Hf s. specialize (Hf s). injection Hf as H1 H2 H3 H4 H5 H6 H7. cbn.
  split; [intros k; by rewrite H1|congruence|intros j _; by rewrite H7].
Qed.
Hint Extern 2 (changes (aside _) (upd_booking _ _)) => apply upd_booking_aside : ush.
Hint Extern 2 (changes (aside _) (flush_booking _)) => apply upd_booking_aside : ush.
Hint Extern 2 (changes (aside _) (upd_payment _ _)) => (apply upd_payment_aside; intros; reflexivity) : ush.
Hint Extern 2 (changes (aside _) (flush_payment _)) => (apply upd_payment_aside; intros; reflexivity) : ush.
Hint Extern 3 (changes (aside _) (modify _)) => (apply modify_aside; intros; reflexivity) : ush.
Hint Extern 3 (changes (aside _) (call_out _)) => (apply modify_aside; intros; reflexivity) : ush.
Hint Extern 3 (changes (aside _) (emit _ _)) => (apply modify_aside; intros; reflexivity) : ush.
Hint Extern 3 (changes (aside _) (delete_hold _)) => (apply modify_aside; intros; reflexivity) : ush.
Hint Extern 3 (changes (aside _) (_record_status_change _ _ _ _ _)) => (apply modify_aside; intros; reflexivity) : ush.
Lemma get_booking_aside bid id : changes (aside bid) (get_booking_row id).
Proof. intros s. unfold get_booking_row. by destruct (bookings s !! id). Qed.
Lemma get_payment_aside bid id : changes (aside bid) (get_payment_row id).
Proof. intros s. unfold get_payment_row. by destruct (payments s !! id). Qed.
Lemma set_invoices_aside bid id n : changes (aside bid) (set_payment_invoices id n).
Proof.
  intros s. split; [|done..]. intros k. unfold set_payment_invoices, modify. cbn. rewrite lookup_fmap.
  destruct (payments s !! k) as [p|]; cbn; [|done]. by destruct (_ ==? _).
Qed.
Hint Resolve get_booking_aside get_payment_aside set_invoices_aside : ush.
Lemma swallow_aside bid {A} (m : M Store A) : changes (aside bid) m → changes (aside bid) (swallow m).
Proof. intros Hm. unfold swallow. change_only. Qed.
Ltac asides := repeat (first [ apply swallow_aside | change_step ]).
Lemma auto_confirm_aside pid bid meta : changes (aside bid) (auto_confirm pid bid meta).
Proof.
  assert (∀ {A} c (answer : list OutboundCall → result A), changes (aside bid) (asking c answer)) by (intros; unfold asking; asides).
  assert (changes (aside bid) (_ensure_booking_loyalty_details bid)) by (unfold _ensure_booking_loyalty_details; asides).
  assert (changes (aside bid) (_ensure_booking_invoice bid)) by (unfold _ensure_booking_invoice; asides).
  unfold auto_confirm, confirm_booking, take_payment_data, status_event, event_data, get_by_id. asides.
Qed.
Lemma notify_ok pid d n s : (notify_ushanr pid d n s).1 = Ok ().
Proof. unfold notify_ushanr. by destruct (fill n None). Qed.
Lemma notify_aside bid pid d n : changes (aside bid) (notify_ushanr pid d n).
Proof. unfold notify_ushanr. asides. Qed.

(** The message to ushanr when a payment has its invoice. *)
Definition paid_message (pid : Z) (p : Payment) : list OutboundCall :=
  match fill p.(pm_invoice_number) None with
  | Some n => [MarkInvoicePaidCall n (of_fils p.(pm_total_amount)) pid]
  | None => []
  end.
Lemma notify_run pid ps p s :
  notify_ushanr pid (tap_columns_of ps p) (tap_columns_of ps p).(dr_row).(pm_invoice_number) s =
    (Ok (), s <| outbound := s.(outbound) ++ paid_message pid p |>).
Proof.
  assert ((tap_columns_of ps p).(dr_row).(pm_invoice_number) = p.(pm_invoice_number) ∧
          mem_total_amount (tap_columns_of ps p) = of_fils p.(pm_total_amount)) as [-> Em].
  { unfold tap_columns_of, statements, tap_columns, gateway_data, column, assign. cbn [foldl].
    by destruct (ps_transaction_id ps), (ps_track_id ps), (ps_reference_id ps), (ps_paid_at ps). }
  unfold notify_ushanr, paid_message. rewrite Em. destruct (fill _ _); [done|]. rewrite app_nil_r. by destruct s.
Qed.

(** C18: What Tap's webhook does with a response that names a charge.  Without a
    payment for the charge, nothing.  Otherwise the row of that charge takes
    exactly the columns of the response and, when its status changes, there is one
    more line of history.  Nothing else changes when the response is not a
    success.  A success whose booking cannot be confirmed (or is missing) only
    adds the message to ushanr, when the invoice is known.  One whose booking can
    be confirmed leaves it confirmed and paid, and touches no other booking, no
    refund, voucher, link or further line of history, and of the payments nothing
    but invoice numbers and what the attribution listener writes. *)
Theorem tap_webhook_correct d s charge :
  let ps := parse_dict d in
  ps.(ps_payment_id) = Some charge → truthy charge = true → numbers_unique s →
  ((∀ k q, s.(payments) !! k = Some q → q.(pm_payment_id) ≠ Some charge) → tap_webhook (JDict d) s = (Ok (), s)) ∧
  (∀ pid p, s.(payments) !! pid = Some p → p.(pm_payment_id) = Some charge →
     (∀ k q, s.(payments) !! k = Some q → q.(pm_payment_id) = Some charge → k = pid) →
     let s' := s <| payments := <[pid := tapped ps p]> s.(payments) |>
                 <| payment_status_history := s.(payment_status_history) ++ tap_line pid ps p charge |> in
     (ps.(ps_status) ≠ "success" → tap_webhook (JDict d) s = (Ok (), s')) ∧
     (ps.(ps_status) = "success" →
        (∀ bid b, p.(pm_booking_id) = Some bid → s.(bookings) !! bid = Some b → confirm_flushes b = false) →
        tap_webhook (JDict d) s = (Ok (), s' <| outbound := s.(outbound) ++ paid_message pid p |>)) ∧
     (ps.(ps_status) = "success" →
        ∀ bid b, p.(pm_booking_id) = Some bid → s.(bookings) !! bid = Some b → confirm_flushes b = true →
        ∃ s2, tap_webhook (JDict d) s = (Ok (), s2) ∧ paid_up s2 bid ∧ aside bid s' s2)).
Proof.
  cbv zeta. intros Hps Ht Hu. split.
  - intros Hnone. unfold tap_webhook. cbn [parse_gateway_response]. rewrite Hps. cbv zeta.
    change (jtruthy (Some (JStr charge))) with (truthy charge). rewrite Ht, bind_run. set (w := λ p, _ ==? _).
    assert (List.filter (λ '(_, p), w p) (map_to_list s.(payments)) = []) as E.
    { apply List_filter_none. intros [k q] Hin%elem_of_map_to_list. apply bool_decide_eq_false. by apply (Hnone k). }
    unfold one_payment. rewrite bind_run, gets_run, E. done.
  - intros pid p Hp Hc Hone. pose proof (tap_webhook_run d s charge pid p Hps Ht Hp Hc Hone) as E.
    set (ps := parse_dict d) in *. destruct (tap_draft ps p) as (Hd & Hst & Hn & Hb).
    set (s1 := s <| payment_status_history := _ |>) in *.
    assert (∀ o, flush_draft pid (tap_columns_of ps p) (s1 <| outbound := o |>) =
                 (Ok (), s1 <| payments := <[pid := tapped ps p]> s.(payments) |> <| outbound := o |>)) as Hf.
    { intros o. rewrite (flush_draft_run (s1 <| outbound := o |>) pid p) by done. by rewrite Hd, tapped_flush. }
    assert (flush_draft pid (tap_columns_of ps p) s1 = (Ok (), s1 <| payments := <[pid := tapped ps p]> s.(payments) |>)) as Hf1.
    { rewrite (flush_draft_run s1 pid p) by done. by rewrite Hd, tapped_flush. }
    rewrite E. unfold finish_webhook. rewrite Hst. unfold is_success. split_and!; intros Hs.
    + rewrite bool_decide_eq_false_2 by (intros [= Hx]; by apply Hs). by rewrite Hf1.
    + intros Hno. rewrite bool_decide_eq_true_2 by by rewrite Hs. unfold settle_success. rewrite bind_run, gets_run. cbn beta iota. rewrite Hb.
      assert ((notify_ushanr pid (tap_columns_of ps p) (tap_columns_of ps p).(dr_row).(pm_invoice_number) ;;
               flush_draft pid (tap_columns_of ps p)) s1 =
              (Ok (), s1 <| payments := <[pid := tapped ps p]> s.(payments) |> <| outbound := s.(outbound) ++ paid_message pid p |>)) as Hend.
      { rewrite bind_run, notify_run. apply Hf. }
      destruct (pm_booking_id p) as [bid|] eqn:Hbid; cbn [mbind option_bind]; [|exact Hend].
      change (bookings s1 !! bid) with (bookings s !! bid). destruct (bookings s !! bid) as [b|] eqn:Hbk; [|exact Hend].
      cbn [fmap option_fmap option_map]. rewrite (Hno bid b) by done. exact Hend.
    + intros bid b Hbid Hbk Hc'. rewrite bool_decide_eq_true_2 by by rewrite Hs. unfold settle_success. rewrite bind_run, gets_run.
      cbn beta iota. rewrite Hb, Hbid. cbn [mbind option_bind]. change (bookings s1 !! bid) with (bookings s !! bid). rewrite Hbk.
      cbn beta iota. cbn [fmap option_fmap option_map]. rewrite Hc', bind_run, Hf1. cbn beta iota. set (s2 := s1 <| payments := _ |>).
      set (meta := keep_keys _ _). rewrite bind_run. pose proof (auto_confirm_ok pid bid meta s2) as Hok.
      pose proof (auto_confirm_paid pid bid meta s2 b Hbk Hc') as Hpaid. pose proof (auto_confirm_aside pid bid meta s2) as Ha.
      destruct (auto_confirm pid bid meta s2) as [o s3]. cbn [fst snd] in *. subst o.
      pose proof (as_payments _ _ _ Ha pid) as Hrow. change (payments s2) with (<[pid := tapped ps p]> s.(payments)) in Hrow.
      rewrite lookup_insert_eq in Hrow. destruct (payments s3 !! pid) as [p3|] eqn:Hp3; [|done].
      rewrite bind_run, (get_payment_row_run _ _ _ Hp3). pose proof (notify_bills pid (tap_columns_of ps p) (pm_invoice_number p3) s3) as Hb3.
      pose proof (notify_aside bid pid (tap_columns_of ps p) (pm_invoice_number p3) s3) as Ha3.
      pose proof (notify_ok pid (tap_columns_of ps p) (pm_invoice_number p3) s3) as Hok3.
      destruct (notify_ushanr _ _ _ s3) as [o s4]. cbn [fst snd] in *. subst o. exists s4.
      split_and!; [done|eapply paid_up_kept; [apply Hb3|done]|]. etransitivity; [exact Ha|exact Ha3].
Qed.
End history.

(** ** What a gateway response can say *)

Lemma present_get k v l k' :
  dict_get (present ((k, v) :: l)) k' =
    if String.eqb k k' then match v with JNull => dict_get (present l) k' | _ => Some v end else dict_get (present l) k'.
Proof. unfold present. destruct v; cbn [List.filter dict_get]; destruct (String.eqb k k'); reflexivity. Qed.

(** Whatever object a gateway sends, the parser reads a payment out of it
    whose status is a state of the payment machine that a webhook may set, whose
    method and network are of the known ones, whose currency never is the alias
    KD, whose customer data is absent rather than empty, and which keeps the whole
    response. *)
Theorem gateway_response_canonical d :
  let p := parse_dict d in
  parse_gateway_response (JDict d) = Some p ∧
  p.(ps_status) ∈ (value <$> [Payment.SUCCESS; Payment.FAILED; Payment.CANCELLED; Payment.PENDING]) ∧
  p.(ps_payment_method) ∈ ["deema"; "apple_pay"; "google_pay"; "knet"; "card"] ∧
  p.(ps_payment_gateway) ∈ [None; Some "KNET"; Some "Deema"; Some "TAP"; Some "Other"] ∧
  p.(ps_currency) ≠ "KD" ∧ p.(ps_customer_data) ≠ Some [] ∧
  dict_get p.(ps_payment_data) "raw_response" = Some (JDict d).
Proof.
  unfold parse_dict. cbn [ps_status ps_payment_method ps_payment_gateway ps_currency ps_customer_data ps_payment_data parse_gateway_response].
  split; [done|]. split_and!.
  - unfold parsed_status. repeat case_match; set_solver.
  - unfold parsed_method. repeat case_match; set_solver.
  - unfold parsed_gateway. destruct (gateway_name _ _ _); cbn; repeat case_match; set_solver.
  - unfold parsed_currency. cbv zeta. case_match eqn:E; [done|]. intros Hk. rewrite Hk in E. done.
  - unfold gateway_customer. cbv zeta. by destruct (present _).
  - by rewrite !present_get.
Qed.
