(* ===== verification/PaymentRuns.v ===== *)
(** * Runs of the payment endpoints

    The theorems at a demonstration database, and the runs that show where the
    endpoints depart from what their documentation says. *)

From S2P Require Import Prelude Exceptions Effects StateMachines Money Numbers Store PyText PyDate Sessions SessionPlanner LinkGateway Settlement LinkService BookingEvents BookingService BookingChanges BookingSlots BookingRuns GatewayParser PaymentApi PaymentFrame PaymentSpec PaymentHistory.
#[local] Open Scope Z_scope.

#[local] Instance demo_payment_world : PaymentWorld := {| payment_world := demo_booking_world; process_offset := 0 |}.

(** A successful payment of 20 dinars for the booking of the demonstration. *)
Definition paying : CreatePaymentRequest := mk_create_payment 9 (mk_dec 20 0) 60 "KD"
  (no_fields <| pf_booking_id := Some 1 |> <| pf_status := Some "success" |> <| pf_payment_id := Some "chg_7" |>
             <| pf_payment_provider := Some "tap" |>).
Definition charge : jdict := [("id", JStr "chg_7"); ("status", JStr "FAILED"); ("reference", JDict [("track", JStr "t9")])].

Lemma booked_calendar : calendar_ok booked.
Proof.
  split; [exact booked_schedule|]. intros id b Hb. change (({[ 1 := booked_row ]} : gmap Z Booking) !! id = Some b) in Hb.
  by apply lookup_singleton_Some in Hb as [_ <-].
Qed.
Lemma no_payments_unique s : s.(payments) = ∅ → numbers_unique s.
Proof. intros E i j p q. by rewrite E, lookup_empty. Qed.
(** The database once the booking is paid. *)
Definition paid : Store := Eval vm_compute in (create_payment paying booked).2.
Definition paid_row : Payment := Eval vm_compute in
  match paid.(payments) !! 1 with Some p => p | None => created_row paying (resolve paying None None (None, None) 0) None None (0, 0, None, None) "" booked end.
Lemma paid_payment k q : paid.(payments) !! k = Some q → k = 1 ∧ q = paid_row.
Proof.
  intros Hq. change (({[ 1 := paid_row ]} : gmap Z Payment) !! k = Some q) in Hq. by apply lookup_singleton_Some in Hq as [-> ->].
Qed.
Lemma no_payment k q : booked.(payments) !! k ≠ Some q.
Proof. change ((∅ : gmap Z Payment) !! k ≠ Some q). by rewrite lookup_empty. Qed.

Lemma payment_requests_history_witness :
  let rs := [CreateReq paying; CreateReq paying; TapReq (JDict charge); DeleteReq 5] in
  let s' := serve_all rs booked in
  calendar_ok s' ∧ numbers_unique s' ∧ bookings_confirmed booked s' ∧ size s'.(payments) = 1%nat.
Proof.
  cbv zeta. set (rs := [_; _; _; _]).
  destruct (payment_requests_history rs booked (no_payments_unique booked eq_refl)) as (H1 & H2 & _ & _ & H3).
  split_and!; [exact (H3 booked_calendar)|exact H1|exact H2|vm_compute; reflexivity].
Defined.

Lemma paid_unique : numbers_unique paid.
Proof.
  by intros i j p q [-> _]%paid_payment [-> _]%paid_payment _.
Qed.
(** A second request, with another status: the success stays. *)
Definition paying_less : CreatePaymentRequest :=
  mk_create_payment 9 (mk_dec 20 0) 60 "KD"
    (paying.(cp_fields) <| pf_status := Some "failed" |> <| pf_payment_method := Some "knet" |>).
Lemma create_payment_again_witness :
  ∃ q, create_payment paying_less paid = (Ok (200, 1), paid <| payments := <[1 := q]> paid.(payments) |>) ∧
    q.(pm_status) = Some "success" ∧ q.(pm_total_amount) = 20000.
Proof.
  destruct (create_payment_again paying_less paid 1 paid_unique eq_refl) as (pid & p & [-> ->]%paid_payment & _ & Hm).
  { exists 1. eexists. split; vm_compute; reflexivity. }
  destruct (create_payment paying_less paid) as [[[st k]|e] s'].
  - destruct Hm as (-> & -> & v & q & _ & -> & [->|[-> _]]); eexists; split_and!; reflexivity.
  - exfalso. destruct Hm as [_ Hm]. vm_compute in Hm. discriminate Hm.
Defined.

Lemma create_payment_new_witness :
  ∃ s' h, create_payment paying booked = (Ok (201, 1), s') ∧
    bill_of <$> s'.(payments) !! 1 = Some (new_bill paying "success" 20000 booked.(now) (next_payment_number booked)) ∧
    s'.(payment_status_history) = booked.(payment_status_history) ++ [h] ∧ paid_up s' 1.
Proof.
  destruct (create_payment_new paying booked 20000 20000 (Some 0) (Some 0)) as (s' & h & H1 & H2 & _ & H4 & _ & H6 & _).
  - intros bid k p _ Hp. by destruct (no_payment k p).
  - done.
  - done.
  - vm_compute. reflexivity.
  - by apply (bool_decide_unpack _).
  - exists s', h. split_and!; [exact H1|exact H2|exact H4|]. apply (H6 1 booked_row); [vm_compute; reflexivity|done|done].
Defined.

Lemma tap_webhook_correct_witness :
  tap_webhook (JDict charge) booked = (Ok (), booked) ∧
  ∃ p, paid.(payments) !! 1 = Some p ∧
    tap_webhook (JDict charge) paid = (Ok (), paid <| payments := <[1 := tapped (parse_dict charge) p]> paid.(payments) |>
      <| payment_status_history := paid.(payment_status_history) ++ tap_line 1 (parse_dict charge) p "chg_7" |>).
Proof.
  split.
  - apply (tap_webhook_correct charge booked "chg_7"); [vm_compute; reflexivity|done|by apply no_payments_unique|].
    intros k q Hq. by destruct (no_payment k q).
  - eexists. split; [vm_compute; reflexivity|].
    destruct (tap_webhook_correct charge paid "chg_7") as [_ H]; [vm_compute; reflexivity|done|exact paid_unique|].
    destruct (H 1 paid_row) as [H1 _]; [vm_compute; reflexivity|done|by intros k q [-> _]%paid_payment _|].
    apply H1. vm_compute. discriminate.
Defined.

(** ** What the endpoints do otherwise *)

(** The flag that the API call succeeded outweighs a failed invoice, and a
    transaction called unsuccessful contains the text of a success. *)
Example success_flag_outweighs_status :
  ps_status (parse_dict [("IsSuccess", JBool true); ("Data", JDict [("InvoiceStatus", JStr "Failed")])]) = "success".
Proof. reflexivity. Qed.
Example unsuccessful_is_success :
  ps_status (parse_dict [("Data", JDict [("InvoiceTransactions", JList [JDict [("TransactionStatus", JStr "Unsuccessful")]])])]) = "success".
Proof. reflexivity. Qed.

(** A webhook leaves the payment machine: a refunded payment is failed again. *)
Definition refunded : Store := paid <| payments := {[ 1 := paid_row <| pm_status := Some "refunded" |> ]} |>.
Example webhook_ignores_machine :
  can_transition_to Payment.REFUNDED Payment.FAILED = false ∧
  (tap_webhook (JDict charge) refunded).2.(payments) !! 1 ≫= pm_status = Some "failed".
Proof. split; vm_compute; reflexivity. Qed.

(** The status of a response ingested with a new payment is not used: the
    schema's default comes first; nor is the response stored with the row. *)
Definition ingesting : CreatePaymentRequest := mk_create_payment 9 (mk_dec 20 0) 60 "KWD"
  (no_fields <| pf_status := Some "initiated" |>
             <| pf_gateway_response := Some [("id", JStr "chg_8"); ("status", JStr "CAPTURED")] |>).
Example ingested_response_is_lost :
  ps_status (parse_dict [("id", JStr "chg_8"); ("status", JStr "CAPTURED")]) = "success" ∧
  (λ p, (p.(pm_status), p.(pm_payment_data))) <$> (create_payment ingesting booked).2.(payments) !! 1 = Some (Some "initiated", None).
Proof. split; vm_compute; reflexivity. Qed.

(** A number the format refuses is stored all the same on an existing row. *)
Example untrusted_number_is_stored :
  _trusted_invoice_number (Some "INV/2026/00011") None = None ∧
  (create_payment (mk_create_payment 9 (mk_dec 20 0) 60 "KWD"
     (no_fields <| pf_booking_id := Some 1 |> <| pf_invoice_number := Some "INV/2026/00011" |>)) paid).2.(payments) !! 1
    ≫= pm_invoice_number = Some "INV/2026/00011".
Proof. split; vm_compute; reflexivity. Qed.

(** A response without amount sets the total to zero. *)
Example webhook_zeroes_amount :
  (λ p, p.(pm_total_amount)) <$>
    (myfatoorah_webhook (JDict [("id", JStr "chg_7"); ("status", JStr "FAILED")]) 4 paid).2.(payments) !! 1 = Some 0.
Proof. vm_compute. reflexivity. Qed.

(** Deleting a payment deletes its refunds. *)
Example delete_takes_refunds pid r s :
  s.(refunds) = {[ 5 := r ]} → r.(rf_payment_id) = Some pid → is_Some (s.(payments) !! pid) →
  (delete_payment pid s).2.(refunds) = ∅.
Proof.
  intros Er Hr [p Hp]. rewrite delete_payment_run, Hp. cbn. rewrite Er. apply map_empty. intros k.
  apply map_lookup_filter_None. right. intros q [_ <-]%lookup_singleton_Some. by intros Hx.
Qed.
