(* ===== verification/BookingApiRuns.v ===== *)
(** * Runs of the booking endpoints

    The theorems at a demonstration database, and the runs that show where the
    endpoints depart from what they mean to do. *)

From S2P Require Import Prelude Exceptions Effects StateMachines Money Numbers Store PyText PyDate Sessions SessionPlanner SessionSpec PlanSpec RefundLifecycle RefundService Loyalty LinkGateway Settlement LinkService LinkFrame BookingEvents BookingRepo BookingService BookingChanges BookingUpdate BookingSlots BookingFrame BookingSpec SessionChange UpdateSpec BookingRuns PaymentApi BookingApi BookingIntake BookingApiSpec BookingRequests BookingPoints GatewayParser PaymentRuns.
Import BookingService BookingUpdates.
#[local] Open Scope Z_scope.

(** ** A world and some requests *)

(** A catalogue of massages of an hour, with every therapist free. *)
#[local] Instance api_catalogue : Ushauth := {|
  get_service := λ id, Ok (JDict [("id", JStr id); ("name", JStr "Massage"); ("base_price", JStr "20.000"); ("duration_minutes", JInt 60)]);
  get_service_arrangement := λ _, Ok (JDict [("name", JStr "Room 1"); ("arrangement_type", JStr "single")]);
  get_therapist := λ _, Ok (JDict [("name", JStr "Maria")]);
  check_appointment_availability := λ q, Ok (JDict [("available", JStr "yes"); ("therapist_id", q.(aq_therapist_id))]);
  check_booking_therapist_availability := λ _ _ _ _, Ok (JDict [("available", JStr "yes")]) |}.
#[local] Instance api_booking_world : BookingWorld := {|
  booking_world := BookingRuns.demo_world; booking_catalogue := api_catalogue;
  appointment_cache := λ _ _, Ok (); booking_invoice := λ _ _, Ok None |}.
(** The driver is asyncpg unless it stores UUID objects as texts. *)
Definition world_of (takes : bool) (invoices : bool) : BookingApiWorld := {|
  booking_api_world := {| payment_world := api_booking_world; process_offset := 0 |};
  get_branch := λ _, Ok (JDict [("name", JStr "Salmiya")]); get_customer_profile := λ _, Raise (err PythonException);
  decode_token := λ _, Raise (err PythonException); 
  booking_invoice_data := λ _ _, if invoices then Ok (Some ("INV-1", "77")) else Ok None; text_takes_uuid := takes |}.
#[local] Instance api_world : BookingApiWorld := world_of true true.

Definition caller (key : Z) : CurrentUser := mk_current_user (uuid_str key) (Some "Noor") None None None None None None.
Definition no_headers : IntakeHeaders := mk_headers None None None.
Definition an_hour : ServiceItem :=
  mk_service_item (Some (uuid_str 60)) None None None (Some (uuid_str 50)) None None None None JNull None false 0 None 0 None None.
Definition session_at (time : string) (therapist : Z) : SessionItem :=
  mk_session_item None (uuid_str therapist) None None None None None (Some (uuid_str 50)) None None None None [an_hour] [] 0 (Some time) None.
Definition a_request : CreateBookingRequest :=
  mk_booking_request None [] [] 0 0 JNull None (Some 3) None None None None [] JNull None None JNull None None None [] [] None None None false
    None (Some "2026-07-14") None None None None None None None None None None None JNull JNull None "KWD"
    None None None None None None None None None None None None None None None None None None None.
Definition planned_request : CreateBookingRequest :=
  a_request <| nb_sessions := [session_at "14:00:00" 1; session_at "15:00:00" 2] |> <| nb_status := Some "confirmed" |>.
Definition key_of (i j : nat) : string := uuid_str (80 + Z.of_nat i).
Definition cancelling : CancelBookingRequest := mk_cancel_request "ill" None None.

Definition no_change (source : string) : UpdateBookingRequest :=
  mk_update_request None None None None None None None None None None None None None None None None None None None false
    None None None None [] [] None None None None None None None source None None None None None None JNull JNull None
    JNull JNull None JNull JNull.
Definition completing : UpdateBookingStatusRequest :=
  mk_status_request Booking.COMPLETED None None None None None None None None None None None None "ushdesk" None None None None
    None None None None None.

(** ** The theorems at this database *)

(** The planned sessions of the request. *)
Definition planned_sessions : list json := Eval vm_compute in
  match intake_services planned_request key_of with Ok i => default [] (plan_session_list <$> i.(in_plan)) | Raise _ => [] end.
Lemma planned_named : named_by_keys planned_sessions.
Proof.
  split.
  - constructor; [|constructor; [|constructor]]; (split; [|by exists None]); [by exists 1|by exists 2].
  - intros first [= <-]. discriminate.
Qed.
Lemma planned_admitted s : admitted (CreateBookingReq planned_request (caller 8) no_headers key_of) s.
Proof.
  intros c i p (customer & _ & (i' & Hi & (sel & _ & (u & _ & (window & _ & (price & _ & [= _ ->])%result_bind_ok)%result_bind_ok)%result_bind_ok)%result_bind_ok)%result_bind_ok)%result_bind_ok Hp.
  assert (match intake_services planned_request key_of with Ok i => default [] (plan_session_list <$> i.(in_plan)) | Raise _ => [] end =
          planned_sessions) as E by (vm_compute; reflexivity).
  rewrite Hi, Hp in E. cbn in E. unfold id in E. rewrite E. exact planned_named.
Qed.

Lemma completing_safe : update_safe ((status_arguments completing None) <| ub_status := Some Booking.COMPLETED |>) booked_row.
Proof.
  split.
  - intros t. by intros [[=]|[=]].
  - intros l [=].
  - left. cbn. lia.
  - intros _ _ [=].
  - intros sess Hs a z. by apply moved_times.
  - intros _ b1 [= <-]. vm_compute. split; split; done.
Qed.

Lemma booking_requests_history_witness :
  let rs := [StatusReq 1 completing None "a1b2c3"; CreateBookingReq planned_request (caller 8) no_headers key_of;
             CancelBookingReq 1 cancelling (caller 9); InvoiceReq 1 "INV-9"] in
  let s' := serve_all "deema" 60 15 rs booked in
  schedule_ok s' ∧ (bk_status <$> s'.(bookings) !! 1 = Some "completed") ∧ size s'.(bookings) = 2%nat.
Proof.
  cbv zeta. split; [|split; vm_compute; reflexivity].
  apply (booking_requests_history "deema" 60 15); [exact booked_schedule|]. cbn [all_admitted]. split_and!; [|apply planned_admitted|done..].
  intros b ->%booked_lookup. exact completing_safe.
Defined.

Lemma others_bookings_untouched_witness :
  in_session (cancel_request "deema" 1 cancelling (caller 8)) booked = (Raise (http_error "403"), booked).
Proof.
  refine (proj1 (others_bookings_untouched "deema" 60 1 (caller 8) 8 booked_row booked _ _ _) cancelling);
    [vm_compute; reflexivity|vm_compute; reflexivity|discriminate].
Defined.

(** ** Points *)

Definition points_request : CreateBookingRequest :=
  a_request <| nb_services := [an_hour] |> <| nb_therapist_id := Some 1 |> <| nb_appointment_time := Some "14:00" |>
    <| nb_booking_type := Some "loyalty" |> <| nb_loyalty_points := 30 |> <| nb_idempotency_key := Some "k1" |>.
Definition rich : Store := booked <| loyalty_accounts := {[ 8 := mk_account 100 100 0 None 0 ]} |>.
Definition buy (s : Store) : result Z * Store := create_request 15 points_request (caller 8) no_headers key_of s.

Lemma points_booking_is_paid_witness :
  ∃ c i, prepare points_request (caller 8) no_headers key_of rich = Ok (c, i) ∧ charged points_request i c 2 rich (buy rich).2.
Proof.
  pose proof (points_booking_is_paid 15 points_request (caller 8) no_headers key_of rich) as H. unfold buy.
  assert ((create_request 15 points_request (caller 8) no_headers key_of rich).1 = Ok 2) as E by (vm_compute; reflexivity).
  destruct (create_request 15 points_request (caller 8) no_headers key_of rich) as [r s']. cbn [fst snd] in *.
  exact (proj2 H 2 E eq_refl eq_refl).
Defined.

Example points_are_taken :
  (buy rich).1 = Ok 2 ∧ la_balance_points <$> (buy rich).2.(loyalty_accounts) !! 8 = Some 70 ∧
  (λ b, (b.(bk_status), b.(bk_payment_status))) <$> (buy rich).2.(bookings) !! 2 = Some ("confirmed", "rewarded").
Proof. split_and!; vm_compute; reflexivity. Qed.

(** The same request again, with its idempotency key: the booking is the same,
    the points are taken again. *)
Example retried_request_takes_points_again :
  let s := (buy rich).2 in
  (buy s).1 = Ok 2 ∧ (buy s).2.(bookings) !! 3 = None ∧ la_balance_points <$> (buy s).2.(loyalty_accounts) !! 8 = Some 40.
Proof. split_and!; vm_compute; reflexivity. Qed.

(** With asyncpg the key of the payment cannot be stored: once the invoice is
    committed the points and the booking stay and the request fails; without an
    invoice the request succeeds and nothing of it is stored. *)
Example refused_key_fails_after_charging :
  let run := create_request (H := world_of false true) 15 points_request (caller 8) no_headers key_of rich in
  run.1 = Raise (err PythonException) ∧ la_balance_points <$> run.2.(loyalty_accounts) !! 8 = Some 70 ∧
  bk_status <$> run.2.(bookings) !! 2 = Some "confirmed" ∧ run.2.(payments) !! 1 = None.
Proof. split_and!; vm_compute; reflexivity. Qed.
Example refused_key_loses_booking :
  let run := create_request (H := world_of false false) 15 points_request (caller 8) no_headers key_of rich in
  run.1 = Ok 2 ∧ run.2.(bookings) !! 2 = None ∧ la_balance_points <$> run.2.(loyalty_accounts) !! 8 = Some 100.
Proof. split_and!; vm_compute; reflexivity. Qed.

(** Without an account the request is refused, but a booking that names a payment
    was committed before: confirmed and paid with points nobody gave. *)
Example refused_booking_stays :
  let run := create_request 15 (points_request <| nb_payment_number := Some "PAY-2026-000001" |>) (caller 8) no_headers key_of booked in
  run.1 = Raise (http_error "400") ∧
  (λ b, (b.(bk_status), b.(bk_payment_status))) <$> run.2.(bookings) !! 2 = Some ("confirmed", "rewarded").
Proof. split; vm_compute; reflexivity. Qed.

(** ** Whose booking it is *)

(** The owner is asked for when the body says the source is a customer. *)
Example anyone_updates_with_another_source :
  let body := {| ur_status := Some Booking.CANCELLED; ur_payment_status := None; ur_payment_data := None; ur_payment_type := None;
    ur_payment_id := None; ur_payment_provider := None; ur_payment_gateway := None; ur_payment_through := None;
    ur_payment_method := None; ur_payment_url := None; ur_created_by_user := None; ur_created_by := None;
    ur_created_by_user_data := None; ur_change_by_user := None; ur_change_by_user_data := None; ur_therapist_id := None;
    ur_therapist_data := None; ur_secondary_therapist_id := None; ur_secondary_therapist_data := None;
    ur_secondary_given := false; ur_branch_id := None; ur_branch_data := None; ur_service_arrangement_id := None;
    ur_service_arrangement_data := None; ur_services := []; ur_sessions := []; ur_appointment_date := None;
    ur_appointment_time := None; ur_appointment_start := None; ur_extra_minutes := None; ur_customer_notes := None;
    ur_internal_notes := None; ur_reason := None; ur_source := "admin"; ur_voucher_id := None; ur_voucher_data := None;
    ur_invoice_number := None; ur_payment_number := None; ur_addons := None; ur_selected_addons := None;
    ur_addon_price := JNull; ur_addons_price := JNull; ur_addons_duration := None; ur_price_for_extra_minutes := JNull;
    ur_extra_price := JNull; ur_total_duration := None; ur_total_amount := JNull; ur_total_price := JNull |} in
  let run := update_request "deema" 60 1 body (caller 8) (λ _ _ _, "") "a1b2c3" booked in
  run.1 = Ok () ∧ bk_status <$> run.2.(bookings) !! 1 = Some "cancelled".
Proof. split; vm_compute; reflexivity. Qed.

(** ** Invoices, payments, prices, dates *)

(** Every payment of the booking gets the number, those that have one included. *)
Definition invoiced : Store := paid <| payments := {[ 1 := paid_row <| pm_invoice_number := Some "INV-1" |> ]} |>.
Example linked_invoice_overwrites :
  (link_booking_invoice 1 "INV-9" invoiced).2.(payments) !! 1 ≫= pm_invoice_number = Some "INV-9".
Proof. vm_compute. reflexivity. Qed.

(** The id a gateway gives a charge links nothing, although a payment carries it. *)
Example gateway_id_links_nothing :
  paid_row.(pm_payment_id) = Some "chg_7" ∧
  link_payment (a_request <| nb_payment_id := Some "chg_7" |>) None 2 paid = (Ok false, paid).
Proof. split; vm_compute; reflexivity. Qed.

(** The text of a status is never the word it is compared with. *)
Lemma cancelled_cache_never st : String.eqb (lower (enum_str st)) "cancelled" = false.
Proof. by destruct st. Qed.
Lemma status_cancelled_cache_idle id body s : status_cancelled_cache id body s = (Ok (), s).
Proof. unfold status_cancelled_cache. by rewrite cancelled_cache_never, when_run. Qed.

(** The total of a booking of sessions leaves the discount out. *)
Example discount_is_not_subtracted :
  let t := mk_totals (of_fils 40000) ZERO ZERO (of_fils 40000) 120 0 0 120 in
  match planned_pricing (a_request <| nb_discount := JStr "5.000" |>) t with
  | Ok p => db_fils p.(pb_discount) = 5000 ∧ db_fils p.(pb_total) = 40000
  | Raise _ => False
  end.
Proof. vm_compute. split; reflexivity. Qed.

(** A booking at one in the morning is planned for the day before. *)
Example small_hours_are_yesterday :
  stored_date (at_hour 1) = "2026-07-13" ∧ date_text (local_day (at_hour 1)) = "2026-07-14".
Proof. split; vm_compute; reflexivity. Qed.
