(* ===== verification/Shop.v ===== *)
(** * The shop (app/shop)

    Product orders: the value objects, the rows, the repository, the service and
    the endpoints that change an order.  Orders live in tables of their own, so
    the shop has its own state.  The product catalogue of ushauth is the class
    [ProductCatalogue]; the random PIN and tracking token of an order are
    arguments.  The products the catalogue returns are JSON objects and their
    names texts. *)

From stdpp Require Import pretty.
From S2P Require Import Prelude Exceptions Effects StateMachines Money Numbers Store PyText Sessions SessionPlanner LinkService.
#[local] Open Scope Z_scope.

(** ** Value objects (domain/value_objects.py) *)

Inductive OrderPaymentStatus := NOT_INITIATED | PENDING | SUCCESS | FAILED | REFUNDED.
Definition OrderPaymentStatus_value (s : OrderPaymentStatus) : string :=
  match s with
  | NOT_INITIATED => "not_initiated" | PENDING => "pending" | SUCCESS => "success" | FAILED => "failed"
  | REFUNDED => "refunded"
  end.
#[export] Instance OrderPaymentStatus_eq_dec : EqDecision OrderPaymentStatus.
Proof. solve_decision. Defined.
#[export, refine] Instance OrderPaymentStatus_enum : StrEnum OrderPaymentStatus := {
  members := [NOT_INITIATED; PENDING; SUCCESS; FAILED; REFUNDED]; value := OrderPaymentStatus_value }.
Proof.
  - intros []; by apply (bool_decide_unpack _).
  - by intros [] [].
Defined.

(** [ShopPaymentThrough.normalise]. *)
Definition normalise_through (v : option string) : option string :=
  if negb (truthy_opt v) then None
  else
    let v := lower (strip (default "" v)) in
    Some (if v in? ["ushspa"; "app"; "mobile"] then "ushspa"
          else if v in? ["ushweb"; "web"] then "ushweb"
          else if v in? ["ushdesk"; "desk"; "pos"; "counter"] then "ushdesk"
          else "other").

(** ** Rows (infrastructure/models.py) *)

Record ShopOrderItem := mk_item {
  oi_product_id : Z; oi_product_name : string; oi_product_name_ar : string; oi_product_image_url : option string;
  oi_unit_price : Z; oi_quantity : Z; oi_line_total : Z; oi_currency : string }.

Record ShopOrder := mk_order {
  so_order_number : string; so_customer_id : Z; so_customer_name : string; so_customer_phone : string;
  so_contact_number : string; so_order_requested_by_user : option Z; so_order_requested_by_user_data : option jdict;
  so_area : string; so_block : string; so_street : string; so_building_no : string;
  so_floor : option string; so_apartment : option string; so_city : option string; so_delivery_notes : option string;
  so_delivery_status : string; so_tracking_code : string; so_public_token : string; so_token_expires_at : option Z;
  so_subtotal : Z; so_discount : Z; so_total_amount : Z; so_currency : string;
  so_payment_status : string; so_payment_method : option string; so_payment_through : option string;
  so_payment_provider : option string; so_payment_url : option string; so_payment_data : option jdict;
  so_internal_notes : option string; so_items : list ShopOrderItem }.

#[export] Instance eta_ShopOrder : Eta ShopOrder := λ o, mk_order
  o.(so_order_number) o.(so_customer_id) o.(so_customer_name) o.(so_customer_phone) o.(so_contact_number)
  o.(so_order_requested_by_user) o.(so_order_requested_by_user_data) o.(so_area) o.(so_block) o.(so_street)
  o.(so_building_no) o.(so_floor) o.(so_apartment) o.(so_city) o.(so_delivery_notes) o.(so_delivery_status)
  o.(so_tracking_code) o.(so_public_token) o.(so_token_expires_at) o.(so_subtotal) o.(so_discount)
  o.(so_total_amount) o.(so_currency) o.(so_payment_status) o.(so_payment_method) o.(so_payment_through)
  o.(so_payment_provider) o.(so_payment_url) o.(so_payment_data) o.(so_internal_notes) o.(so_items).

Record ShopOrderStatusHistory := mk_order_history {
  oh_order_id : Z; oh_from_status : string; oh_to_status : string; oh_changed_by : string; oh_note : option string }.

(** The tables, the clock and the [ShopOrderCreatedEvent]s handed to SQS. *)
Record ShopStore := mk_shop {
  shop_now : Z; orders : gmap Z ShopOrder; order_history : list ShopOrderStatusHistory; order_events : list jdict }.
#[export] Instance eta_ShopStore : Eta ShopStore := λ s, mk_shop s.(shop_now) s.(orders) s.(order_history) s.(order_events).
Definition empty_shop (t : Z) : ShopStore := mk_shop t ∅ [] [].

(** [formatted_address]. *)
Definition formatted_address (o : ShopOrder) : string :=
  let part (label : string) (v : string) : list string := if truthy v then [(label ++ v)%string] else [] in
  join ", " (part "Area: " o.(so_area) ++ part "Block: " o.(so_block) ++ part "Street: " o.(so_street) ++
             part "Bldg: " o.(so_building_no) ++ part "Floor: " (default "" o.(so_floor)) ++
             part "Apt: " (default "" o.(so_apartment)) ++ part "City: " (default "" o.(so_city))).

(** ** Repository (infrastructure/repository.py) *)

Definition ORDER_NOT_FOUND : exn := err_code NotFoundError "ShopOrderNotFoundError".

(** A flush of a new row, refused when a unique column repeats a value. *)
Definition clashes (o o' : ShopOrder) : bool :=
  String.eqb o.(so_order_number) o'.(so_order_number) || String.eqb o.(so_tracking_code) o'.(so_tracking_code) ||
  String.eqb o.(so_public_token) o'.(so_public_token).
Definition create (o : ShopOrder) : M ShopStore Z :=
  taken ← gets (λ s, existsb (clashes o) (rows s.(orders)));
  raise_if taken (err PythonException) ;;
  id ← gets (λ s, new_id s.(orders));
  modify (λ s, s <| orders := <[id := o]> s.(orders) |>) ;;
  mret id.
Definition add_status_history (h : ShopOrderStatusHistory) : M ShopStore () :=
  modify (λ s, s <| order_history := s.(order_history) ++ [h] |>).
Definition get_order (order_id : Z) : M ShopStore ShopOrder :=
  o ← gets (λ s, s.(orders) !! order_id);
  some_or_raise o ORDER_NOT_FOUND.
Definition get_by_public_token (public_token : string) : M ShopStore (Z * ShopOrder) :=
  found ← gets (λ s, List.filter (λ '(_, o), String.eqb o.(so_public_token) public_token) (map_to_list s.(orders)));
  match found with
  | [] => raise ORDER_NOT_FOUND
  | [x] => mret x
  | _ => raise (err PythonException)
  end.
Definition upd_order (id : Z) (f : ShopOrder → ShopOrder) : M ShopStore () :=
  modify (λ s, s <| orders := alter f id s.(orders) |>).
(** [next_order_number()] for today. *)
Definition order_number_now (s : ShopStore) : string :=
  next_order_number s.(shop_now) (so_order_number <$> rows s.(orders)).

(** ** The created event (services.py, [_enqueue_order_created_event]) *)

(** [v if isinstance(v, dict)]. *)
Definition inner_data (pdata : json) : json :=
  if is_mapping (jget pdata "data") then jget pdata "data"
  else if is_mapping (jget pdata "Data") then jget pdata "Data" else JDict [].
Definition first_transaction (pdata inner : json) : json :=
  match jor_list [jget inner "InvoiceTransactions"; jget pdata "InvoiceTransactions"; jget pdata "invoice_transactions"] with
  | JList (t :: _) => mapping t
  | _ => JDict []
  end.
Definition event_gateway (txn pdata : json) (payment_method : option string) : string :=
  let gw_raw := upper (text_or_empty [jget txn "PaymentGateway"; jget txn "payment_gateway"; jget pdata "paymentGateway";
                                     JStr (default "" payment_method)]) in
  if contains "KNET" gw_raw || contains "K-NET" gw_raw then "KNET"
  else if contains "TAP" gw_raw then "TAP"
  else if truthy gw_raw then "Other" else "".

Definition item_event (i : ShopOrderItem) : json := JDict [
  ("product_id", JStr (uuid_str i.(oi_product_id))); ("product_name", JStr i.(oi_product_name));
  ("product_name_ar", JStr i.(oi_product_name_ar)); ("quantity", JInt i.(oi_quantity));
  ("unit_price", JStr (dec_str (of_fils i.(oi_unit_price)))); ("line_total", JStr (dec_str (of_fils i.(oi_line_total))));
  ("product_image_url", opt_json i.(oi_product_image_url))].

(** The row has no language, so [getattr] falls back to Arabic. *)
Definition shop_event (id : Z) (o : ShopOrder) : jdict :=
  let pdata := JDict (or_empty o.(so_payment_data)) in
  let inner := inner_data pdata in
  let txn := first_transaction pdata inner in
  let text := text_or_empty in
  let lang := "ar" in
  let payment_id := text [jget txn "PaymentId"; jget txn "payment_id"; jget pdata "paymentId"; jget pdata "payment_id"; jget inner "PaymentId"] in
  let opt (v : option string) : json := JStr (default "" v) in [
    ("order_id", JStr (uuid_str id)); ("order_number", JStr o.(so_order_number));
    ("customer_id", JStr (uuid_str o.(so_customer_id))); ("customer_name", JStr o.(so_customer_name));
    ("customer_phone", JStr o.(so_customer_phone));
    ("customer_data", JDict [
       ("id", JStr (uuid_str o.(so_customer_id))); ("name", JStr o.(so_customer_name)); ("phone", JStr o.(so_customer_phone));
       ("contact_number", JStr (if truthy o.(so_contact_number) then o.(so_contact_number) else o.(so_customer_phone)));
       ("language_preference", JStr lang)]);
    ("customer_language", JStr lang); ("language_preference", JStr lang);
    ("order_requested_by_user", uuid_json o.(so_order_requested_by_user));
    ("order_requested_by_user_data", JDict (or_empty o.(so_order_requested_by_user_data)));
    ("delivery_address", JStr (formatted_address o));
    ("public_token", JStr o.(so_public_token)); ("tracking_code", JStr o.(so_tracking_code));
    ("subtotal", JStr (dec_str (of_fils o.(so_subtotal)))); ("total_amount", JStr (dec_str (of_fils o.(so_total_amount))));
    ("currency", JStr o.(so_currency)); ("payment_status", JStr o.(so_payment_status));
    ("payment_method", opt o.(so_payment_method)); ("payment_through", opt o.(so_payment_through));
    ("payment_type", opt o.(so_payment_through)); ("payment_provider", opt o.(so_payment_provider));
    ("payment_url", JStr (text [opt o.(so_payment_url); jget pdata "paymentUrl"; jget pdata "payment_url"; jget inner "PaymentURL"]));
    ("payment_data", pdata); ("payment_id", JStr payment_id);
    ("invoice_id", JStr (text [jget pdata "invoiceId"; jget pdata "invoice_id"; jget inner "InvoiceId"; jget inner "invoice_id"]));
    ("transaction_id", JStr (text [jget txn "TransactionId"; jget txn "transaction_id"; jget pdata "transactionId";
                                   jget pdata "transaction_id"; JStr payment_id]));
    ("reference_id", JStr (text [jget txn "ReferenceId"; jget txn "reference_id"; jget pdata "referenceId"; jget pdata "reference_id"]));
    ("track_id", JStr (text [jget txn "TrackId"; jget txn "track_id"; jget pdata "trackId"; jget pdata "track_id"; jget pdata "trace_id"]));
    ("transaction_date", JStr (text [jget txn "TransactionDate"; jget txn "transaction_date"; jget pdata "transactionDate";
                                     jget pdata "transaction_date"; jget inner "CreatedDate"]));
    ("transaction_status", JStr (text [jget txn "TransactionStatus"; jget txn "transaction_status"; jget pdata "status";
                                       jget inner "InvoiceStatus"]));
    ("payment_gateway", JStr (event_gateway txn pdata o.(so_payment_method)));
    ("country", JStr (text [jget txn "Country"; jget txn "country"; jget pdata "country"; jget inner "Country"]));
    ("created_by", JStr (uuid_str (default o.(so_customer_id) o.(so_order_requested_by_user))));
    ("items", JList (item_event <$> o.(so_items)))].

Definition _enqueue_order_created_event (id : Z) : M ShopStore () :=
  o ← get_order id;
  modify (λ s, s <| order_events := s.(order_events) ++ [shop_event id o] |>).

(** ** The service (application/services.py) *)

(** The product catalogue of ushauth at an instant. *)
Class ProductCatalogue := { get_product : Z → string → result jdict }.

(** [OrderItemIn] and [CreateShopOrderRequest] (interfaces/schemas.py). *)
Record OrderItemIn := mk_item_in { ii_product_id : Z; ii_quantity : Z }.
Record CreateShopOrderRequest := mk_create_order {
  cr_area : string; cr_block : string; cr_street : string; cr_building_no : string;
  cr_floor : option string; cr_apartment : option string; cr_city : option string; cr_delivery_notes : option string;
  cr_contact_number : option string; cr_items : list OrderItemIn; cr_internal_notes : option string;
  cr_order_requested_by_user : option Z; cr_order_requested_by_user_data : option jdict;
  cr_payment_through : option string; cr_payment_type : option string; cr_payment_status : option string;
  cr_payment_method : option string; cr_payment_provider : option string; cr_payment_invoice_id : option string;
  cr_payment_url : option string; cr_payment_data : option jdict }.

(** What the schema accepts. *)
Definition valid_request (b : CreateShopOrderRequest) : bool :=
  negb (bool_decide (b.(cr_items) = [])) && forallb (λ i, (1 <=? i.(ii_quantity)) && (i.(ii_quantity) <=? 999)) b.(cr_items) &&
  bool_decide (NoDup (ii_product_id <$> b.(cr_items))).

(** The keyword arguments of [create_order] beside the body. *)
Record OrderArgs := mk_order_args {
  oa_customer_id : Z; oa_customer_name : string; oa_customer_phone : string;
  oa_order_requested_by_user : option Z; oa_order_requested_by_user_data : option jdict;
  oa_payment_through : option string; oa_payment_status : option string; oa_payment_method : option string;
  oa_payment_provider : option string; oa_payment_invoice_id : option string; oa_payment_url : option string;
  oa_payment_data : option jdict }.

Definition or_id (a b : option Z) : option Z := match a with Some _ => a | None => b end.

(** The requested status when it is one, [not_initiated] otherwise. *)
Definition initial_payment_status (raw : option string) : string :=
  if truthy_opt raw
  then match (of_value (default "" raw) : result OrderPaymentStatus) with Ok st => value st | Raise _ => value NOT_INITIATED end
  else value NOT_INITIATED.
(** The invoice is kept inside the payment data. *)
Definition with_invoice (invoice_id : option string) (data : option jdict) : option jdict :=
  if truthy_opt invoice_id then Some (dict_set (or_empty data) "invoiceId" (JStr (default "" invoice_id))) else data.

(** A line before it is stored. *)
Record OrderLine := mk_line {
  ol_product_id : Z; ol_product_name : string; ol_product_name_ar : string; ol_product_image_url : option string;
  ol_unit_price : Decimal; ol_quantity : Z; ol_line_total : Decimal }.

Definition build_line (product : jdict) (item : OrderItemIn) : result OrderLine :=
  let p := JDict product in
  unit_price ← match json_decimal (jget_or p "price" (JStr "0")) with Some d => Ok d | None => Raise (err ArithmeticError) end;
  line_total ← quantize (dec_mul unit_price (mk_dec item.(ii_quantity) 0));
  let image := jor (jget p "image1") (jget p "image") in
  Ok (mk_line item.(ii_product_id) (text_or_empty [jget p "name"; jget p "name_en"]) (text_or_empty [jget p "name_ar"])
        (if jtruthy (Some image) then Some (json_str image) else None) unit_price item.(ii_quantity) line_total).

(** The line as its columns store it. *)
Definition stored_line (l : OrderLine) : result ShopOrderItem :=
  u ← numeric_10_3 l.(ol_unit_price);
  t ← numeric_10_3 l.(ol_line_total);
  Ok (mk_item l.(ol_product_id) l.(ol_product_name) l.(ol_product_name_ar) l.(ol_product_image_url) u l.(ol_quantity) t "KWD").

Definition order_subtotal (lines : list OrderLine) : Decimal := foldl (λ acc l, dec_add acc l.(ol_line_total)) ZERO lines.

Definition us_per_week : Z := 7 * us_per_day.
(** [_generate_tracking_code] of a random number. *)
Definition _generate_tracking_code (pin : Z) : string := pretty pin.

(** The row of the order, its amounts as stored. *)
Definition new_order (b : CreateShopOrderRequest) (a : OrderArgs) (number tracking_code public_token : string)
    (expires subtotal : Z) (items : list ShopOrderItem) : ShopOrder :=
  let through := por (por a.(oa_payment_through) b.(cr_payment_through)) b.(cr_payment_type) in
  mk_order number a.(oa_customer_id) a.(oa_customer_name) a.(oa_customer_phone)
    (por_str b.(cr_contact_number) a.(oa_customer_phone))
    (or_id a.(oa_order_requested_by_user) b.(cr_order_requested_by_user))
    (por_dict a.(oa_order_requested_by_user_data) b.(cr_order_requested_by_user_data))
    b.(cr_area) b.(cr_block) b.(cr_street) b.(cr_building_no) b.(cr_floor) b.(cr_apartment) b.(cr_city) b.(cr_delivery_notes)
    (value Delivery.ORDERED) tracking_code public_token (Some expires) subtotal 0 subtotal "KWD"
    (initial_payment_status (por a.(oa_payment_status) b.(cr_payment_status)))
    (por a.(oa_payment_method) b.(cr_payment_method)) (normalise_through through)
    (por a.(oa_payment_provider) b.(cr_payment_provider)) (por a.(oa_payment_url) b.(cr_payment_url))
    (with_invoice (por a.(oa_payment_invoice_id) b.(cr_payment_invoice_id)) (por_dict a.(oa_payment_data) b.(cr_payment_data)))
    b.(cr_internal_notes) items.

Record PaymentArgs := mk_payment_args {
  pa_payment_method : option string; pa_payment_through : option string; pa_payment_provider : option string;
  pa_payment_type : option string; pa_payment_url : option string; pa_payment_data : option jdict }.

Section service.
Context `{ProductCatalogue}.

(** The products of the order; a product that cannot be read refuses it. *)
Definition fetch_products (b : CreateShopOrderRequest) : M ShopStore (list (jdict * OrderItemIn)) :=
  now_ ← gets shop_now;
  lift (mapM (λ item, match get_product now_ (uuid_str item.(ii_product_id)) with
                      | Ok p => Ok (p, item)
                      | Raise _ => Raise (err ValidationError)
                      end) b.(cr_items)).

Definition create_order (b : CreateShopOrderRequest) (a : OrderArgs) (pin : Z) (token : string) : M ShopStore Z :=
  products ← fetch_products b;
  lines ← lift (mapM (λ '(p, item), build_line p item) products);
  number ← gets order_number_now;
  now_ ← gets shop_now;
  items ← lift (mapM stored_line lines);
  subtotal ← lift (numeric_10_3 (order_subtotal lines));
  id ← create (new_order b a number (_generate_tracking_code pin) token (now_ + us_per_week) subtotal items);
  add_status_history (mk_order_history id (value Delivery.ORDERED) (value Delivery.ORDERED) "system" (Some "Order placed")) ;;
  order ← get_order id;
  when (String.eqb order.(so_payment_status) (value SUCCESS)) (_enqueue_order_created_event id) ;;
  mret id.

(** [except InvalidDeliveryTransitionError: raise ValidationError]. *)
Definition checked (r : result ()) : M ShopStore () :=
  match r with Ok () => mret () | Raise _ => raise (err ValidationError) end.

Definition update_delivery_status (order_id : Z) (new_status : Delivery.DeliveryStatus) (changed_by : string)
    (note : option string) : M ShopStore () :=
  order ← get_order order_id;
  current ← lift (of_value order.(so_delivery_status) : result Delivery.DeliveryStatus);
  checked (Delivery.assert_staff_can_transition current new_status) ;;
  upd_order order_id (λ o, o <| so_delivery_status := value new_status |>) ;;
  add_status_history (mk_order_history order_id order.(so_delivery_status) (value new_status) changed_by note).

Definition with_payment (new_status : OrderPaymentStatus) (p : PaymentArgs) (o : ShopOrder) : ShopOrder :=
  let keep {A} (new old : option A) := match new with Some _ => new | None => old end in
  o <| so_payment_status := value new_status |>
    <| so_payment_through := match por p.(pa_payment_through) p.(pa_payment_type) with
                             | Some v => normalise_through (Some v) | None => o.(so_payment_through) end |>
    <| so_payment_method := keep p.(pa_payment_method) o.(so_payment_method) |>
    <| so_payment_provider := keep p.(pa_payment_provider) o.(so_payment_provider) |>
    <| so_payment_url := keep p.(pa_payment_url) o.(so_payment_url) |>
    <| so_payment_data := keep p.(pa_payment_data) o.(so_payment_data) |>.

Definition update_payment_status (order_id : Z) (new_status : OrderPaymentStatus) (p : PaymentArgs) : M ShopStore () :=
  get_order order_id ;;
  upd_order order_id (with_payment new_status p) ;;
  when (new_status ==? SUCCESS) (_enqueue_order_created_event order_id).

Definition confirm_received (public_token tracking_code : string) : M ShopStore () :=
  '(id, order) ← get_by_public_token public_token;
  now_ ← gets shop_now;
  raise_if (match order.(so_token_expires_at) with Some t => t <? now_ | None => false end) (err AuthorizationError) ;;
  raise_if (negb (String.eqb order.(so_tracking_code) tracking_code)) (err AuthorizationError) ;;
  current ← lift (of_value order.(so_delivery_status) : result Delivery.DeliveryStatus);
  checked (Delivery.assert_customer_can_transition current Delivery.RECEIVED) ;;
  upd_order id (λ o, o <| so_delivery_status := value Delivery.RECEIVED |>) ;;
  add_status_history (mk_order_history id order.(so_delivery_status) (value Delivery.RECEIVED) "customer"
                        (Some "Customer confirmed receipt via tracking URL")).
End service.

(** ** The endpoints (api/router.py) *)

(** [TokenPayload] (app/core/security.py), what the router reads of it. *)
Record TokenPayload := mk_token {
  tp_sub : string; tp_user_type : option string; tp_phone_number : option string; tp_email : option string;
  tp_first_name : option string; tp_last_name : option string; tp_avatar : option string;
  tp_is_staff : bool; tp_is_superuser : bool }.

Definition _is_staff_user (u : TokenPayload) : bool :=
  (lower (strip (default "" u.(tp_user_type))) in? ["staff"; "admin"; "superuser"; "employee"]) || u.(tp_is_staff) || u.(tp_is_superuser).
Definition _require_staff (u : TokenPayload) : M ShopStore () := raise_if (negb (_is_staff_user u)) (http_error "403").

(** The [except] clauses of the endpoints. *)
Definition as_http {A} (m : M ShopStore A) : M ShopStore A :=
  try_except m (λ e, isinstance e NotFoundError || isinstance e AuthorizationError || isinstance e ValidationError)
    (λ e, raise (http_error (if isinstance e NotFoundError then "404" else if isinstance e AuthorizationError then "403" else "422"))).
(** [get_db_session]: an exception undoes the request. *)
Definition shop_session {A} (m : M ShopStore A) : M ShopStore A := λ s,
  match m s with (Ok a, s') => (Ok a, s') | (Raise e, _) => (Raise e, s) end.

(** The requester's snapshot, made from the token when none is given. *)
Definition requester_data (u : TokenPayload) (id : Z) (name phone : string) : jdict := [
  ("id", JStr (uuid_str id)); ("name", JStr name); ("first_name", JStr (default "" u.(tp_first_name)));
  ("last_name", JStr (default "" u.(tp_last_name))); ("phone", JStr phone); ("email", JStr (default "" u.(tp_email)));
  ("image", JStr (default "" u.(tp_avatar)))].
Definition order_args (u : TokenPayload) (customer_id : Z) (b : CreateShopOrderRequest) : OrderArgs :=
  let name := join " " (List.filter truthy [default "" u.(tp_first_name); default "" u.(tp_last_name)]) in
  let phone := por_str u.(tp_phone_number) (default "" b.(cr_contact_number)) in
  let requested_by := default customer_id b.(cr_order_requested_by_user) in
  let through := por b.(cr_payment_through) b.(cr_payment_type) in
  mk_order_args customer_id name phone (Some requested_by)
    (match b.(cr_order_requested_by_user_data) with Some d => Some d | None => Some (requester_data u requested_by name phone) end)
    (if negb (truthy_opt through) && (u.(tp_user_type) ==? Some "customer") then Some "ushspa" else through)
    b.(cr_payment_status) b.(cr_payment_method) b.(cr_payment_provider) b.(cr_payment_invoice_id) b.(cr_payment_url)
    b.(cr_payment_data).

(** The payment arguments of a PATCH; the channel is who is asking when none is
    given. *)
Definition payment_args (u : TokenPayload) (p : PaymentArgs) : PaymentArgs :=
  let through := por p.(pa_payment_through) p.(pa_payment_type) in
  mk_payment_args p.(pa_payment_method)
    (if truthy_opt through then through else Some (if _is_staff_user u then "ushdesk" else "ushspa"))
    p.(pa_payment_provider) None p.(pa_payment_url) p.(pa_payment_data).

Module ShopApi.
Section api.
Context `{ProductCatalogue}.

Definition create_order (u : TokenPayload) (b : CreateShopOrderRequest) (pin : Z) (token : string) : M ShopStore Z :=
  raise_if (negb (valid_request b)) (http_error "422") ;;
  customer_id ← match uuid_of_string u.(tp_sub) with Some id => mret id | None => raise (err ValueError) end;
  as_http (Shop.create_order b (order_args u customer_id b) pin token).
Definition update_delivery_status (u : TokenPayload) (order_id : Z) (status : Delivery.DeliveryStatus) (note : option string) : M ShopStore () :=
  _require_staff u ;;
  as_http (Shop.update_delivery_status order_id status ("staff:" ++ u.(tp_sub))%string note).
Definition update_payment_status (u : TokenPayload) (order_id : Z) (status : OrderPaymentStatus) (p : PaymentArgs) : M ShopStore () :=
  as_http (Shop.update_payment_status order_id status (payment_args u p)).
Definition confirm_received (public_token tracking_code : string) : M ShopStore () :=
  raise_if ((String.length tracking_code <? 6)%nat || (12 <? String.length tracking_code)%nat) (http_error "422") ;;
  as_http (Shop.confirm_received public_token tracking_code).

(** ** Histories of requests *)

Inductive ShopRequest :=
  | CreateOrder (u : TokenPayload) (b : CreateShopOrderRequest) (pin : Z) (token : string)
  | UpdateDelivery (u : TokenPayload) (order_id : Z) (status : Delivery.DeliveryStatus) (note : option string)
  | UpdatePayment (u : TokenPayload) (order_id : Z) (status : OrderPaymentStatus) (p : PaymentArgs)
  | ConfirmReceived (public_token tracking_code : string)
  | Tick (us : Z).

Definition perform (r : ShopRequest) : M ShopStore () :=
  match r with
  | CreateOrder u b pin token => create_order u b pin token ;; mret ()
  | UpdateDelivery u id st note => update_delivery_status u id st note
  | UpdatePayment u id st p => update_payment_status u id st p
  | ConfirmReceived t c => confirm_received t c
  | Tick us => modify (λ s, s <| shop_now := s.(shop_now) + Z.max 0 us |>)
  end.
(** Each request in its own session; one that fails leaves no trace. *)
Definition serve (l : list ShopRequest) (s : ShopStore) : ShopStore := foldl (λ s r, (shop_session (perform r) s).2) s l.
End api.
End ShopApi.
