(* ===== verification/ShopSpec.v ===== *)
(** * What the shop guarantees

    Over every history of requests: the audit log of an order is the path of its
    delivery, its lines and amounts never change and add up, its number, PIN and
    tracking token are its own.  What an order is made of, and who may confirm
    its receipt. *)

From S2P Require Import Prelude Exceptions Effects StateMachines Money Numbers Store PyText PyDate Sessions SessionPlanner LinkService Shop.
#[local] Open Scope Z_scope.

(** ** Order numbers *)

Lemma ndigits_enough fuel z : 0 <= z < 2 ^ Z.of_nat fuel → z < 10 ^ ndigits_fuel fuel z ∧ 0 <= ndigits_fuel fuel z.
Proof.
  revert z; induction fuel as [|fuel IH]; intros z Hz; cbn [ndigits_fuel].
  { change (2 ^ Z.of_nat 0) with 1 in Hz. lia. }
  rewrite Nat2Z.inj_succ, Z.pow_succ_r in Hz by lia. case_if; [lia|].
  destruct (IH (z / 10)) as [H1 H2]; [pose proof (Z.div_pos z 10); split; [lia|]; apply Z.div_lt_upper_bound; lia|].
  split; [|lia]. rewrite Z.pow_add_r by lia. pose proof (Z.div_mod z 10). pose proof (Z.mod_pos_bound z 10). nia.
Qed.

Lemma format_d_parses w n : 0 <= n → parse_digits 0 (format_d w n) = Some n.
Proof.
  intros Hn. unfold format_d. rewrite parse_fixed_width by done. f_equal. rewrite Z.mul_0_l, Z.add_0_l. apply Z.mod_small.
  destruct (ndigits_enough (S (Z.to_nat (Z.log2 n))) n) as [H1 H2].
  { split; [done|]. rewrite Nat2Z.inj_succ, Z2Nat.id by apply Z.log2_nonneg.
    destruct (decide (n = 0)) as [->|]; [done|]. apply Z.log2_spec. lia. }
  split; [done|]. unfold ndigits. rewrite Z.abs_eq by done.
  eapply Z.lt_le_trans; [exact H1|]. apply Z.pow_le_mono_r; lia.
Qed.

Lemma format_d_last w n : 0 <= n → last_part (format_d w n) = format_d w n.
Proof. intros Hn. apply last_part_noslash. intros acc. by apply fixed_width_digits. Qed.

(** The number with sequence [k] of the month of [day]. *)
Definition letter_O : Ascii.ascii := Ascii.ascii_of_nat 79.
Definition sequence_number (day k : Z) : string := (date_prefix "ORD" day ++ format_d 6 k)%string.

Lemma append_inj_r s t u : String.length s = String.length t → (s ++ u = t ++ u)%string → s = t.
Proof.
  revert t; induction s as [|c s IH]; intros [|d t] Hl; try done. intros [= -> E]. f_equal. apply IH; [by injection Hl|done].
Qed.

Lemma sequence_number_inj day k day' k' :
  0 <= k → 0 <= k' → sequence_number day k = sequence_number day' k' → date_prefix "ORD" day = date_prefix "ORD" day' ∧ k = k'.
Proof.
  intros Hk Hk' E. unfold sequence_number in E.
  destruct (date_prefix_shape "ORD" letter_O "RD" day eq_refl) as [p Hp]. destruct (date_prefix_shape "ORD" letter_O "RD" day' eq_refl) as [p' Hp'].
  assert (∀ q j, 0 <= j → last_part (String letter_O (q ++ "/") ++ format_d 6 j) = format_d 6 j) as Hlast.
  { intros q j Hj. change (String letter_O (q ++ "/")) with ((String letter_O q ++ "/")%string). rewrite append_assoc.
    apply last_part_app. by apply format_d_last. }
  assert (format_d 6 k = format_d 6 k') as Ef.
  { rewrite <- (Hlast p k Hk), <- (Hlast p' k' Hk'), <- Hp, <- Hp'. by rewrite E. }
  assert (k = k') as ->; [|split; [|done]].
  - apply (f_equal (parse_digits 0)) in Ef. rewrite !format_d_parses in Ef by done. congruence.
  - eapply append_inj_r; [|exact E]. apply (f_equal String.length) in E. rewrite !length_app_string in E. lia.
Qed.

(** How many orders carry a prefix. *)
Definition has_prefix (p : string) (o : ShopOrder) : Z := if String.prefix p o.(so_order_number) then 1 else 0.
Definition month_count (p : string) (m : gmap Z ShopOrder) : Z := msum (has_prefix p) m.

Lemma filter_list_perm {A} (f : A → bool) l l' : l ≡ₚ l' → List.filter f l ≡ₚ List.filter f l'.
Proof.
  induction 1 as [|x l l' _ IH|x y l|l1 l2 l3 _ IH1 _ IH2]; simpl; [done| | |by etransitivity].
  - destruct (f x); [by constructor|done].
  - destruct (f x), (f y); try done. constructor.
Qed.
Lemma month_count_rows p (m : gmap Z ShopOrder) :
  Z.of_nat (length (like_prefix p (so_order_number <$> rows m))) = month_count p m.
Proof.
  induction m as [|i o m Hi IH] using map_ind; [done|].
  unfold month_count. rewrite msum_insert_new by done. fold (month_count p m). rewrite <- IH.
  assert (so_order_number <$> rows (<[i:=o]> m) ≡ₚ o.(so_order_number) :: (so_order_number <$> rows m)) as Hp.
  { unfold rows. rewrite map_to_list_insert by done. reflexivity. }
  unfold like_prefix. apply (filter_list_perm (String.prefix p)) in Hp. rewrite (Permutation_length Hp). unfold has_prefix. simpl.
  destruct (String.prefix p _); cbn [length]; lia.
Qed.

(** ** The invariant *)

(** The path of a delivery, as its audit log records it. *)
Definition DELIVERY_PATH : list (string * string) :=
  [("ordered", "ordered"); ("ordered", "ready_to_go"); ("ready_to_go", "on_the_way"); ("on_the_way", "delivered"); ("delivered", "received")].
Definition trail (h : list ShopOrderStatusHistory) (id : Z) : list (string * string) :=
  (λ e, (e.(oh_from_status), e.(oh_to_status))) <$> List.filter (λ e, e.(oh_order_id) =? id) h.
Definition line_totals (items : list ShopOrderItem) : Z := foldr (λ i acc, i.(oi_line_total) + acc) 0 items.

(** What an order says of itself: its amounts add up. *)
Record amounts_ok (o : ShopOrder) : Prop := mk_amounts_ok {
  ao_items : o.(so_items) ≠ [] ∧ Forall (λ i, 1 <= i.(oi_quantity) <= 999) o.(so_items) ∧ NoDup (oi_product_id <$> o.(so_items));
  ao_subtotal : o.(so_subtotal) = line_totals o.(so_items);
  ao_total : o.(so_total_amount) = o.(so_subtotal) - o.(so_discount) }.

Definition numbered (m : gmap Z ShopOrder) (o : ShopOrder) : Prop :=
  ∃ day k, o.(so_order_number) = sequence_number day k ∧ 1 <= k <= month_count (date_prefix "ORD" day) m.

Record shop_ok (s : ShopStore) : Prop := mk_shop_ok {
  sk_amounts : ∀ id o, s.(orders) !! id = Some o → amounts_ok o;
  sk_trail : ∀ id o, s.(orders) !! id = Some o → ∃ st,
    o.(so_delivery_status) = value st ∧ trail s.(order_history) id = take (S (Delivery.stage st)) DELIVERY_PATH;
  sk_numbered : ∀ id o, s.(orders) !! id = Some o → numbered s.(orders) o;
  sk_distinct : ∀ i j o o', s.(orders) !! i = Some o → s.(orders) !! j = Some o' → i ≠ j → clashes o o' = false;
  sk_history : ∀ e, e ∈ s.(order_history) → is_Some (s.(orders) !! e.(oh_order_id)) }.

(** ** What later requests may change *)

(** An order without its delivery and payment. *)
Definition fixed_part (o : ShopOrder) : ShopOrder :=
  o <| so_delivery_status := "" |> <| so_payment_status := "" |> <| so_payment_method := None |> <| so_payment_through := None |>
    <| so_payment_provider := None |> <| so_payment_url := None |> <| so_payment_data := None |>.
Definition stage_of (o : ShopOrder) : nat :=
  match (of_value o.(so_delivery_status) : result Delivery.DeliveryStatus) with Ok st => Delivery.stage st | Raise _ => 0%nat end.

Record later (s s' : ShopStore) : Prop := mk_later {
  la_orders : ∀ id o, s.(orders) !! id = Some o → ∃ o', s'.(orders) !! id = Some o' ∧ fixed_part o' = fixed_part o ∧ (stage_of o <= stage_of o')%nat;
  la_history : ∃ l, s'.(order_history) = s.(order_history) ++ l;
  la_events : ∃ l, s'.(order_events) = s.(order_events) ++ l;
  la_now : s.(shop_now) <= s'.(shop_now) }.
#[export] Instance later_preorder : PreOrder later.
Proof.
  split.
  - intros s. split; [by eauto|by exists []; rewrite app_nil_r|by exists []; rewrite app_nil_r|done].
  - intros a b c [O1 [l1 H1] [e1 E1] N1] [O2 [l2 H2] [e2 E2] N2]. split; [| | |lia].
    + intros id o Ho. destruct (O1 _ _ Ho) as (o1 & Ho1 & F1 & S1). destruct (O2 _ _ Ho1) as (o2 & Ho2 & F2 & S2).
      exists o2. split_and!; [done|congruence|lia].
    + exists (l1 ++ l2). by rewrite H2, H1, app_assoc.
    + exists (e1 ++ e2). by rewrite E2, E1, app_assoc.
Qed.

Lemma trail_app h l id : trail (h ++ l) id = trail h id ++ trail l id.
Proof. unfold trail. by rewrite List.filter_app, fmap_app. Qed.

Lemma trail_other id j l : Forall (λ e, e.(oh_order_id) = id) l → j ≠ id → trail l j = [].
Proof.
  intros Hl Hj. unfold trail. induction Hl as [|e l He _ IH]; [done|]. cbn [List.filter]. rewrite He.
  destruct (id =? j) eqn:E; [apply Z.eqb_eq in E; congruence|exact IH].
Qed.
Lemma trail_new s id : shop_ok s → s.(orders) !! id = None → trail s.(order_history) id = [].
Proof.
  intros Hs Hid. unfold trail. assert (List.filter (λ e, oh_order_id e =? id) (order_history s) = []) as ->; [|done].
  pose proof (sk_history s Hs) as Hh. induction (order_history s) as [|e h IH]; [done|]. cbn [List.filter].
  destruct (oh_order_id e =? id) eqn:E.
  - apply Z.eqb_eq in E. destruct (Hh e) as [o Ho]; [by left|]. congruence.
  - apply IH. intros e' He'. apply Hh. by right.
Qed.

Lemma numbered_mono m m' o : (∀ p, month_count p m <= month_count p m') → numbered m o → numbered m' o.
Proof. intros Hm (day & k & E & Hk). exists day, k. split; [done|]. specialize (Hm (date_prefix "ORD" day)). lia. Qed.

(** Rewriting a row that keeps its number keeps the counts. *)
Lemma month_count_alter p f id (m : gmap Z ShopOrder) :
  (∀ o, (f o).(so_order_number) = o.(so_order_number)) → month_count p (alter f id m) = month_count p m.
Proof.
  intros Hf. unfold month_count. destruct (m !! id) as [o|] eqn:Ho.
  - rewrite (alter_alt_Some _ _ _ _ Ho). rewrite (msum_update _ _ _ _ _ Ho). unfold has_prefix. rewrite Hf. lia.
  - by rewrite alter_id'.
Qed.

Section rows.
Context (s : ShopStore) (Hs : shop_ok s).

(** Rewriting one order, with the entries the log gets. *)
Section rewritten.
Context (id : Z) (f : ShopOrder → ShopOrder) (l : list ShopOrderStatusHistory) (o : ShopOrder).
Context (Ho : s.(orders) !! id = Some o) (Hf : ∀ o, fixed_part (f o) = fixed_part o) (Hl : Forall (λ e, e.(oh_order_id) = id) l).
Let s' : ShopStore := s <| orders := alter f id s.(orders) |> <| order_history := s.(order_history) ++ l |>.

Lemma fixed_fields x y :
  fixed_part x = fixed_part y → x.(so_order_number) = y.(so_order_number) ∧ x.(so_tracking_code) = y.(so_tracking_code) ∧
    x.(so_public_token) = y.(so_public_token) ∧ (amounts_ok x → amounts_ok y).
Proof.
  intros E. assert (∀ A (g : ShopOrder → A), g (fixed_part x) = g (fixed_part y)) as Hg by (intros; by rewrite E).
  split_and!; [exact (Hg _ so_order_number)|exact (Hg _ so_tracking_code)|exact (Hg _ so_public_token)|].
  pose proof (Hg _ so_items) as Ei. pose proof (Hg _ so_subtotal) as Es. pose proof (Hg _ so_total_amount) as Et.
  pose proof (Hg _ so_discount) as Ed. cbn in Ei, Es, Et, Ed. intros [H1 H2 H3]. split; congruence.
Qed.

Lemma rewritten_lookup j x : s'.(orders) !! j = Some x → ∃ y, s.(orders) !! j = Some y ∧ fixed_part x = fixed_part y ∧ (j ≠ id → x = y).
Proof.
  cbn. destruct (decide (j = id)) as [->|Hj].
  - rewrite lookup_alter_eq, Ho. intros [= <-]. exists o. split_and!; [done|apply Hf|done].
  - rewrite lookup_alter_ne by done. intros Hx. by exists x.
Qed.

Lemma rewritten_ok st :
  (f o).(so_delivery_status) = value st → trail (s.(order_history) ++ l) id = take (S (Delivery.stage st)) DELIVERY_PATH → shop_ok s'.
Proof.
  intros Hst Htr. destruct Hs as [K1 K2 K3 K4 K5]. split.
  - intros j x (y & Hy & E & _)%rewritten_lookup. apply (fixed_fields y x); [done|]. by eapply K1.
  - intros j x Hx. destruct (decide (j = id)) as [->|Hj].
    + cbn in Hx. rewrite lookup_alter_eq, Ho in Hx. injection Hx as <-. by exists st.
    + destruct (rewritten_lookup _ _ Hx) as (y & Hy & _ & Ex). rewrite (Ex Hj). destruct (K2 _ _ Hy) as (st' & H1 & H2).
      exists st'. split; [done|]. change (order_history s') with (order_history s ++ l). rewrite trail_app, H2. rewrite (trail_other id j l Hl Hj). apply app_nil_r.
  - intros j x (y & Hy & E & _)%rewritten_lookup. destruct (fixed_fields _ _ E) as (En & _).
    destruct (K3 _ _ Hy) as (day & k & Ek & Hk). exists day, k. cbn. rewrite month_count_alter; [by rewrite En|].
    intros z. by destruct (fixed_fields _ _ (Hf z)).
  - intros i j x y (x' & Hx & Ex & _)%rewritten_lookup (y' & Hy & Ey & _)%rewritten_lookup Hij.
    unfold clashes. destruct (fixed_fields _ _ Ex) as (-> & -> & -> & _). destruct (fixed_fields _ _ Ey) as (-> & -> & -> & _).
    by eapply (K4 i j).
  - intros e [He|He]%elem_of_app; cbn; apply lookup_alter_is_Some.
    + by apply K5.
    + rewrite Forall_forall in Hl. rewrite (Hl _ He), Ho. by eexists.
Qed.

Lemma rewritten_later : (stage_of o <= stage_of (f o))%nat → later s s'.
Proof.
  intros Hst. split; [|by eexists|by exists []; rewrite app_nil_r|done]. intros j x Hx. cbn.
  destruct (decide (j = id)) as [->|Hj].
  - rewrite lookup_alter_eq, Hx. exists (f x). split_and!; [done|apply Hf|]. simplify_eq. done.
  - rewrite lookup_alter_ne by done. by exists x.
Qed.
End rewritten.
End rows.

Lemma clashes_sym o o' : clashes o o' = clashes o' o.
Proof. unfold clashes. by rewrite (String.eqb_sym (so_order_number o)), (String.eqb_sym (so_tracking_code o)), (String.eqb_sym (so_public_token o)). Qed.

Lemma not_taken o (m : gmap Z ShopOrder) j o' : existsb (clashes o) (rows m) = false → m !! j = Some o' → clashes o o' = false.
Proof.
  intros H Hj. apply not_true_is_false. intros Hc. assert (existsb (clashes o) (rows m) = true); [|congruence].
  apply existsb_exists. exists o'. split; [|done]. apply list_elem_of_In, elem_of_rows. by exists j.
Qed.

Lemma month_count_nonneg p (m : gmap Z ShopOrder) : 0 <= month_count p m.
Proof. apply msum_nonneg. intros _ o _. unfold has_prefix. by destruct (String.prefix _ _). Qed.

(** A new order, placed by the number of orders of its month. *)
Definition placed (s : ShopStore) (o : ShopOrder) : Prop :=
  amounts_ok o ∧ o.(so_delivery_status) = "ordered" ∧ existsb (clashes o) (rows s.(orders)) = false ∧
  ∃ day, o.(so_order_number) = sequence_number day (month_count (date_prefix "ORD" day) s.(orders) + 1).

Definition opening_entry (id : Z) : ShopOrderStatusHistory := mk_order_history id "ordered" "ordered" "system" (Some "Order placed").

Lemma placed_ok s id o :
  shop_ok s → s.(orders) !! id = None → placed s o →
  shop_ok (s <| orders := <[id := o]> s.(orders) |> <| order_history := s.(order_history) ++ [opening_entry id] |>).
Proof.
  intros Hs Hid (Ha & Hst & Hcl & day & Hn). pose proof (trail_new s id Hs Hid) as Htr. destruct Hs as [K1 K2 K3 K4 K5].
  assert (∀ p, month_count p (<[id := o]> s.(orders)) = has_prefix p o + month_count p s.(orders)) as Hcount
    by (intros p; by apply msum_insert_new).
  assert (∀ p, 0 <= has_prefix p o) as Hge by (intros p; unfold has_prefix; by destruct (String.prefix _ _)).
  split; cbn -[trail numbered clashes take].
  - intros j x [[<- <-]|[_ Hx]]%lookup_insert_Some; [done|by eapply K1].
  - intros j x [[<- <-]|[Hj Hx]]%lookup_insert_Some.
    + exists Delivery.ORDERED. split; [done|]. change (trail (order_history s ++ [opening_entry id]) id = [("ordered", "ordered")]).
      rewrite trail_app, Htr. unfold trail. cbn. by rewrite Z.eqb_refl.
    + destruct (K2 _ _ Hx) as (st & E1 & E2). exists st. split; [done|].
      change (trail (order_history s ++ [opening_entry id]) j = take (S (Delivery.stage st)) DELIVERY_PATH).
      rewrite trail_app, E2, (trail_other id j); [apply app_nil_r|by repeat constructor|done].
  - intros j x [[<- <-]|[_ Hx]]%lookup_insert_Some.
    + exists day, (month_count (date_prefix "ORD" day) (orders s) + 1). split; [done|].
      change (1 <= month_count (date_prefix "ORD" day) (orders s) + 1 <= month_count (date_prefix "ORD" day) (<[id := o]> s.(orders))).
      rewrite Hcount. unfold has_prefix. rewrite Hn. unfold sequence_number. rewrite prefix_app.
      pose proof (month_count_nonneg (date_prefix "ORD" day) (orders s)). lia.
    + eapply numbered_mono; [|by eapply K3]. intros p.
      change (month_count p (orders s) <= month_count p (<[id := o]> s.(orders))). rewrite Hcount. specialize (Hge p). lia.
  - intros i j x y [[<- <-]|[Hi Hx]]%lookup_insert_Some [[<- <-]|[Hj Hy]]%lookup_insert_Some Hij; [done|..].
    + by eapply not_taken.
    + rewrite clashes_sym. by eapply not_taken.
    + by eapply (K4 i j).
  - intros e [He|He%list_elem_of_singleton]%elem_of_app; apply lookup_insert_is_Some'; [right; by apply K5|left; by rewrite He].
Qed.

Lemma placed_later s id o es :
  s.(orders) !! id = None →
  later s (s <| orders := <[id := o]> s.(orders) |> <| order_history := s.(order_history) ++ [opening_entry id] |>
             <| order_events := s.(order_events) ++ es |>).
Proof.
  intros Hid. split; [|by eexists|by eexists|done]. intros j x Hx. exists x. cbn. split_and!; [|done..].
  rewrite lookup_insert_ne; [done|]. congruence.
Qed.

Lemma events_ok s es : shop_ok s → shop_ok (s <| order_events := es |>).
Proof. intros [K1 K2 K3 K4 K5]. by split. Qed.

(** ** Amounts *)

Lemma numeric_10_3_ok d z : numeric_10_3 d = Ok z → z = db_fils d ∧ Z.abs z < 10 ^ 10.
Proof. unfold numeric_10_3. case_if; [done|]. intros [= <-]. by split. Qed.

Lemma shop_fils z : db_fils (of_fils z) = z.
Proof. unfold db_fils, of_fils. cbn [exp coeff]. change (-3 + 3) with 0. cbn. lia. Qed.

(** What a line asks and what the catalogue says of it. *)
Record line_of (p : jdict) (item : OrderItemIn) (i : ShopOrderItem) : Prop := mk_line_of {
  lo_product : i.(oi_product_id) = item.(ii_product_id);
  lo_quantity : i.(oi_quantity) = item.(ii_quantity);
  lo_price : ∃ price, json_decimal (jget_or (JDict p) "price" (JStr "0")) = Some price ∧ i.(oi_unit_price) = db_fils price ∧
               quantize (dec_mul price (mk_dec item.(ii_quantity) 0)) = Ok (of_fils i.(oi_line_total)) }.

Definition total_of (l : OrderLine) (i : ShopOrderItem) : Prop := l.(ol_line_total) = of_fils i.(oi_line_total) ∧ Z.abs i.(oi_line_total) < 10 ^ 10.

Lemma line_stored p item l i : build_line p item = Ok l → stored_line l = Ok i → line_of p item i ∧ total_of l i.
Proof.
  unfold build_line, stored_line. intros H (u & Hu & (t & Ht & [= <-])%result_bind_ok)%result_bind_ok.
  destruct (json_decimal _) as [price|] eqn:Hp; [|discriminate]. cbn in H.
  apply result_bind_ok in H as (total & Htotal & [= <-]). cbn in *.
  apply numeric_10_3_ok in Hu as [-> _]. apply numeric_10_3_ok in Ht as [-> Hb].
  assert (∃ q, total = of_fils q) as [q ->].
  { unfold quantize in Htotal. destruct (quantize_fils _) as [q|]; [|discriminate]. injection Htotal as <-. by exists q. }
  rewrite shop_fils in *. split; [|by split]. split; cbn; [done..|]. by exists price.
Qed.

Lemma sum_exact lines items a :
  Forall2 total_of lines items → Z.abs a + Z.of_nat (length lines) * 10 ^ 10 < 10 ^ prec →
  foldl (λ acc l, dec_add acc l.(ol_line_total)) (of_fils a) lines = of_fils (a + line_totals items).
Proof.
  intros H. revert a. induction H as [|l i lines items [Hl Hb] _ IH]; intros a Ha.
  { unfold line_totals. cbn. by rewrite Z.add_0_r. }
  cbn [length] in Ha. rewrite Nat2Z.inj_succ in Ha.
  cbn [foldl]. rewrite Hl, dec_add_fils, IH by lia. unfold line_totals. cbn [foldr]. f_equal. lia.
Qed.

Lemma order_subtotal_exact lines items :
  Forall2 total_of lines items → Z.of_nat (length lines) <= 10 ^ 15 → order_subtotal lines = of_fils (line_totals items).
Proof. intros H Hl. unfold order_subtotal, ZERO. rewrite (sum_exact _ items) by (done || (unfold prec; lia)). done. Qed.

(** ** Creating an order *)

Lemma lift_run {S A} (r : result A) (s : S) : lift r s = (r, s).
Proof. reflexivity. Qed.
#[local] Hint Rewrite @lift_run : run.

Section create.
Context `{ProductCatalogue}.

(** The items of a request as stored: each priced by the catalogue. *)
Definition priced (t : Z) (item : OrderItemIn) (i : ShopOrderItem) : Prop :=
  ∃ p, get_product t (uuid_str item.(ii_product_id)) = Ok p ∧ line_of p item i.

(** The order a request makes. *)
Record made (s : ShopStore) (b : CreateShopOrderRequest) (a : OrderArgs) (pin : Z) (token : string) (o : ShopOrder) : Prop := mk_made {
  ma_row : o = new_order b a (order_number_now s) (_generate_tracking_code pin) token (s.(shop_now) + us_per_week) o.(so_subtotal) o.(so_items);
  ma_items : Forall2 (priced s.(shop_now)) b.(cr_items) o.(so_items);
  ma_subtotal : Z.of_nat (length b.(cr_items)) <= 10 ^ 15 → o.(so_subtotal) = line_totals o.(so_items) }.

Lemma products_priced t items products lines rows_ :
  mapM (λ item, match get_product t (uuid_str item.(ii_product_id)) with Ok p => Ok (p, item) | Raise _ => Raise (err ValidationError) end) items = Ok products →
  mapM (λ '(p, item), build_line p item) products = Ok lines → mapM stored_line lines = Ok rows_ →
  Forall2 (priced t) items rows_ ∧ Forall2 total_of lines rows_ ∧ length lines = length items.
Proof.
  intros H1%mapM_ok H2%mapM_ok H3%mapM_ok. revert lines rows_ H2 H3.
  induction H1 as [|item [p item'] items products Hp _ IH]; intros lines rows_ H2 H3.
  { inversion H2; subst. inversion H3; subst. done. }
  inversion H2 as [|? l ? lines' Hl Hls]; subst. inversion H3 as [|? i ? rows' Hi His]; subst.
  destruct (get_product _ _) as [q|] eqn:Hq; [|discriminate]. injection Hp as -> ->.
  destruct (line_stored _ _ _ _ Hl Hi) as [Hline Htot]. destruct (IH _ _ Hls His) as (F1 & F2 & F3).
  split_and!; [constructor; [by exists p|done]|by constructor|simpl; lia].
Qed.

Lemma get_order_run s id o : s.(orders) !! id = Some o → get_order id s = (Ok o, s).
Proof. intros Ho. unfold get_order. rewrite bind_run, gets_run, Ho. done. Qed.

Lemma enqueue_run s id o :
  s.(orders) !! id = Some o → _enqueue_order_created_event id s = (Ok (), s <| order_events := s.(order_events) ++ [shop_event id o] |>).
Proof. intros Ho. unfold _enqueue_order_created_event. by rewrite bind_run, (get_order_run _ _ _ Ho). Qed.

(** A creation that succeeds. *)
Lemma create_run b a pin token s id s' :
  create_order b a pin token s = (Ok id, s') → ∃ o, made s b a pin token o ∧ s.(orders) !! id = None ∧
    existsb (clashes o) (rows s.(orders)) = false ∧
    s' = s <| orders := <[id := o]> s.(orders) |> <| order_history := s.(order_history) ++ [opening_entry id] |>
           <| order_events := s.(order_events) ++ (if String.eqb o.(so_payment_status) "success" then [shop_event id o] else []) |>.
Proof.
  unfold create_order, fetch_products. run_steps. destruct (mapM _ (cr_items b)) as [products|] eqn:Hp; [|discriminate].
  run_steps. destruct (mapM _ products) as [lines|] eqn:Hl; [|discriminate].
  run_steps. destruct (mapM stored_line lines) as [items|] eqn:Hi; [|discriminate].
  run_steps. destruct (numeric_10_3 _) as [subtotal|] eqn:Hsub; [|discriminate].
  destruct (products_priced _ _ _ _ _ Hp Hl Hi) as (F1 & F2 & F3).
  set (o := new_order b a _ _ _ _ _ _). unfold create, add_status_history. run_steps.
  destruct (existsb (clashes o) _) eqn:Hcl; [discriminate|]. run_steps.
  set (i := new_id (orders s)). assert (s.(orders) !! i = None) as Hfresh by apply new_id_fresh.
  match goal with |- context [get_order i ?s1] => set (s1' := s1) end. assert (s1'.(orders) !! i = Some o) as Ho by apply lookup_insert_eq.
  rewrite (get_order_run _ _ _ Ho). run_steps. intros Hrun. exists o.
  assert (id = i) as -> by (destruct (String.eqb _ _) in Hrun; [rewrite (enqueue_run _ _ _ Ho) in Hrun|]; by injection Hrun).
  split_and!; [|done|done|].
  - split; [done|exact F1|]. intros Hn. change (so_subtotal o) with subtotal. change (so_items o) with items.
    rewrite <- F3 in Hn. rewrite (order_subtotal_exact _ _ F2 Hn) in Hsub. apply numeric_10_3_ok in Hsub as [-> _]. apply shop_fils.
  - destruct (String.eqb _ _) in Hrun |- *; [rewrite (enqueue_run _ _ _ Ho) in Hrun|].
    + injection Hrun as <-. done.
    + injection Hrun as <-. unfold s1'. destruct s. cbn. by rewrite app_nil_r.
Qed.
End create.

(** ** Moving an order *)

Lemma path_step cur new :
  can_transition_to cur new = true →
  DELIVERY_PATH !! S (Delivery.stage cur) = Some (value cur, value new) ∧ Delivery.stage new = S (Delivery.stage cur).
Proof. destruct cur, new; vm_compute; try discriminate; done. Qed.

Definition moved (s : ShopStore) (id : Z) (cur new : Delivery.DeliveryStatus) (by_ : string) (note : option string) : ShopStore :=
  s <| orders := alter (λ o, o <| so_delivery_status := value new |>) id s.(orders) |>
    <| order_history := s.(order_history) ++ [mk_order_history id (value cur) (value new) by_ note] |>.

Lemma status_fixed st o : fixed_part (o <| so_delivery_status := st |>) = fixed_part o.
Proof. reflexivity. Qed.
Lemma stage_value o st : o.(so_delivery_status) = value st → stage_of o = Delivery.stage st.
Proof. intros E. unfold stage_of. by rewrite E, of_value_value. Qed.

Lemma moved_ok s id o cur new by_ note :
  shop_ok s → s.(orders) !! id = Some o → o.(so_delivery_status) = value cur → can_transition_to cur new = true →
  shop_ok (moved s id cur new by_ note) ∧ later s (moved s id cur new by_ note).
Proof.
  intros Hs Ho Hcur Hstep. destruct (path_step _ _ Hstep) as [Hpath Hstage]. split.
  - eapply (rewritten_ok s Hs id _ _ o Ho (status_fixed (value new))); [by repeat constructor|reflexivity|].
    destruct (sk_trail s Hs _ _ Ho) as (st & E & Htr). rewrite Hcur in E. apply value_inj in E as <-.
    rewrite trail_app, Htr. unfold trail. cbn [List.filter oh_order_id]. rewrite Z.eqb_refl.
    rewrite Hstage. symmetry. exact (take_S_r _ _ _ Hpath).
  - apply (rewritten_later s id _ _ o Ho (status_fixed (value new))).
    rewrite (stage_value _ cur Hcur), (stage_value _ new) by done. lia.
Qed.

Lemma paid_ok s id st p :
  shop_ok s → let s' := s <| orders := alter (with_payment st p) id s.(orders) |> in shop_ok s' ∧ later s s'.
Proof.
  intros Hs. assert (∀ o, fixed_part (with_payment st p o) = fixed_part o) as Hf by reflexivity.
  cbv zeta. destruct (orders s !! id) as [o|] eqn:Ho.
  - assert (s <| orders := alter (with_payment st p) id (orders s) |> =
            s <| orders := alter (with_payment st p) id (orders s) |> <| order_history := order_history s ++ [] |>) as ->
      by (destruct s; cbn; by rewrite app_nil_r).
    split; [|by apply (rewritten_later s id _ [] o Ho Hf)].
    destruct (sk_trail s Hs _ _ Ho) as (d & E & Htr).
    by apply (rewritten_ok s Hs id _ [] o Ho Hf (Forall_nil_2 _) d); rewrite ?app_nil_r.
  - assert (s <| orders := alter (with_payment st p) id (orders s) |> = s) as -> by (destruct s; cbn in *; by rewrite alter_id').
    split; [done|reflexivity].
Qed.

(** ** Every request *)

Section requests.
Context `{ProductCatalogue}.

Definition keeps {A} (m : M ShopStore A) : Prop := ∀ s a s', shop_ok s → m s = (Ok a, s') → shop_ok s' ∧ later s s'.

Lemma checked_ok r (s : ShopStore) a s' : checked r s = (Ok a, s') → r = Ok () ∧ s' = s.
Proof. destruct r as [[]|]; [by intros [= _ <-]|discriminate]. Qed.
Lemma staff_step cur new : Delivery.assert_staff_can_transition cur new = Ok () → can_transition_to cur new = true.
Proof. unfold Delivery.assert_staff_can_transition, Delivery.assert_can_transition. by destruct (can_transition_to cur new). Qed.
Lemma customer_step cur new : Delivery.assert_customer_can_transition cur new = Ok () → can_transition_to cur new = true.
Proof. unfold Delivery.assert_customer_can_transition, Delivery.assert_can_transition. by destruct (can_transition_to cur new). Qed.

Lemma get_order_ok id s o s' : get_order id s = (Ok o, s') → s.(orders) !! id = Some o ∧ s' = s.
Proof. unfold get_order. run_steps. destruct (orders s !! id); [by intros [= <- <-]|discriminate]. Qed.
Lemma get_order_missing id s : s.(orders) !! id = None → get_order id s = (Raise ORDER_NOT_FOUND, s).
Proof. intros Ho. unfold get_order. run_steps. by rewrite Ho. Qed.

(** A request that moves an order and succeeds. *)
Lemma delivery_run id new by_ note s s' :
  update_delivery_status id new by_ note s = (Ok (), s') → ∃ o cur,
    s.(orders) !! id = Some o ∧ o.(so_delivery_status) = value cur ∧ can_transition_to cur new = true ∧ s' = moved s id cur new by_ note.
Proof.
  unfold update_delivery_status. rewrite bind_run. destruct (get_order id s) as [[o|e] s1] eqn:Hg; [|discriminate].
  apply get_order_ok in Hg as [Ho ->]. run_steps. destruct (of_value _) as [cur|e] eqn:Hcur; [|discriminate]. run_steps.
  destruct (checked _ s) as [[[]|e] s1] eqn:Hc; [|discriminate]. apply checked_ok in Hc as [Hc%staff_step ->].
  apply of_value_ok in Hcur. intros Hrun. exists o, cur. split_and!; [done..|].
  unfold upd_order, add_status_history in Hrun. rewrite <- Hcur in Hrun. by injection Hrun as <-.
Qed.

Lemma delivery_keeps id new by_ note : keeps (update_delivery_status id new by_ note).
Proof. intros s [] s' Hs (o & cur & Ho & Hcur & Hstep & ->)%delivery_run. by eapply moved_ok. Qed.

Lemma payment_run id st p s s' :
  update_payment_status id st p s = (Ok (), s') → ∃ o, s.(orders) !! id = Some o ∧
    s' = s <| orders := alter (with_payment st p) id s.(orders) |>
           <| order_events := s.(order_events) ++ (if st ==? SUCCESS then [shop_event id (with_payment st p o)] else []) |>.
Proof.
  unfold update_payment_status. rewrite bind_run. destruct (get_order id s) as [[o|e] s1] eqn:Hg; [|discriminate].
  apply get_order_ok in Hg as [Ho ->]. unfold upd_order. run_steps. intros Hrun. exists o. split; [done|].
  destruct (st ==? SUCCESS).
  - rewrite (enqueue_run _ _ (with_payment st p o)) in Hrun by (cbn; by rewrite lookup_alter_eq, Ho). by injection Hrun as <-.
  - injection Hrun as <-. destruct s. cbn. by rewrite app_nil_r.
Qed.

Lemma later_events s s' es : later s s' → later s (s' <| order_events := s'.(order_events) ++ es |>).
Proof. intros [L1 L2 [l L3] L4]. split; [done..| |done]. exists (l ++ es). cbn. by rewrite L3, app_assoc. Qed.

Lemma payment_keeps id st p : keeps (update_payment_status id st p).
Proof.
  intros s [] s' Hs (o & Ho & ->)%payment_run. destruct (paid_ok s id st p Hs) as [H1 H2].
  split; [exact (events_ok _ _ H1)|exact (later_events _ _ _ H2)].
Qed.

Definition token_matches (token : string) (x : Z * ShopOrder) : bool := let '(_, o) := x in String.eqb o.(so_public_token) token.

Lemma received_run token code s s' :
  confirm_received token code s = (Ok (), s') → ∃ id o cur,
    s.(orders) !! id = Some o ∧ o.(so_public_token) = token ∧ o.(so_tracking_code) = code ∧
    (∀ t, o.(so_token_expires_at) = Some t → s.(shop_now) <= t) ∧ o.(so_delivery_status) = value cur ∧
    Delivery.assert_customer_can_transition cur Delivery.RECEIVED = Ok () ∧
    s' = moved s id cur Delivery.RECEIVED "customer" (Some "Customer confirmed receipt via tracking URL").
Proof.
  unfold confirm_received, get_by_public_token. run_steps.
  destruct (List.filter _ _) as [|[id o] [|]] eqn:Hf; [discriminate| |discriminate]. run_steps.
  assert ((id, o) ∈ List.filter (token_matches token) (map_to_list s.(orders))) as Hin by (unfold token_matches; rewrite Hf; by left).
  apply elem_of_filter_list in Hin as [Hin Ht]. apply elem_of_map_to_list in Hin. unfold token_matches in Ht. apply String.eqb_eq in Ht.
  destruct (match so_token_expires_at o with Some t => t <? shop_now s | None => false end) eqn:Hx; [discriminate|].
  run_steps. destruct (negb _) eqn:Hc; [discriminate|]. breflect. run_steps.
  destruct (of_value _) as [cur|e] eqn:Hcur; [|discriminate]. run_steps.
  destruct (checked _ s) as [[[]|e] s1] eqn:Hk; [|discriminate]. apply checked_ok in Hk as [Hk ->].
  apply of_value_ok in Hcur. intros Hrun. exists id, o, cur. split_and!; try done.
  - intros t Et. rewrite Et in Hx. by apply Z.ltb_ge in Hx.
  - unfold upd_order, add_status_history in Hrun. rewrite <- Hcur in Hrun. by injection Hrun as <-.
Qed.

Lemma received_keeps token code : keeps (confirm_received token code).
Proof.
  intros s [] s' Hs (id & o & cur & Ho & _ & _ & _ & Hcur & Hstep%customer_step & ->)%received_run. by eapply moved_ok.
Qed.

Lemma made_amounts s b a pin token o :
  valid_request b = true → Z.of_nat (length b.(cr_items)) <= 10 ^ 15 → made s b a pin token o → amounts_ok o.
Proof.
  unfold valid_request. intros Hv Hn [Hrow Hitems Hsub]. breflect. specialize (Hsub Hn).
  assert ((oi_product_id <$> so_items o) = (ii_product_id <$> cr_items b) ∧ length (so_items o) = length (cr_items b) ∧
          Forall (λ i, 1 <= i.(oi_quantity) <= 999) (so_items o)) as (E1 & E2 & E3).
  { match goal with H : forallb _ _ = true |- _ => rename H into Hq end. clear - Hitems Hq.
    induction Hitems as [|item i items l (p & _ & [L1 L2 _]) _ IH]; [done|]. cbn [forallb] in Hq. breflect.
    destruct IH as (I1 & I2 & I3); [done|]. rewrite !fmap_cons. split_and!; [congruence|simpl; congruence|constructor; [lia|done]]. }
  split.
  - split_and!; [|done|by rewrite E1]. intros E. rewrite E in E2. by destruct (cr_items b).
  - done.
  - rewrite Hrow. cbn. lia.
Qed.

Lemma made_placed s b a pin token o :
  valid_request b = true → Z.of_nat (length b.(cr_items)) <= 10 ^ 15 → made s b a pin token o →
  existsb (clashes o) (rows s.(orders)) = false → placed s o.
Proof.
  intros Hv Hn Hm Hcl. pose proof (made_amounts _ _ _ _ _ _ Hv Hn Hm) as Ha. destruct Hm as [Hrow _ _].
  split_and!; [done|by rewrite Hrow|done|]. exists ((s.(shop_now) + kuwait_offset) / us_per_day).
  rewrite Hrow. cbn [so_order_number new_order]. unfold order_number_now, next_order_number, sequence_number.
  by rewrite month_count_rows.
Qed.

Definition sensible (r : ShopApi.ShopRequest) : Prop :=
  match r with ShopApi.CreateOrder _ b _ _ => Z.of_nat (length b.(cr_items)) <= 10 ^ 15 | _ => True end.

Lemma as_http_ok {A} (m : M ShopStore A) s a s' : as_http m s = (Ok a, s') → m s = (Ok a, s').
Proof. unfold as_http, try_except. destruct (m s) as [[b|e] s1]; [done|]. by destruct (_ || _). Qed.
Lemma as_http_keeps {A} (m : M ShopStore A) : keeps m → keeps (as_http m).
Proof. intros Hm s a s' Hs Hr%as_http_ok. by eapply Hm. Qed.

Lemma creation_keeps u b pin token : Z.of_nat (length b.(cr_items)) <= 10 ^ 15 → keeps (ShopApi.create_order u b pin token).
Proof.
  intros Hn s id s' Hs. unfold ShopApi.create_order. run_steps. destruct (valid_request b) eqn:Hv; [|discriminate]. run_steps.
  destruct (uuid_of_string _) as [cid|]; [|discriminate]. run_steps.
  intros (o & Hm & Hid & Hcl & ->)%as_http_ok%create_run. pose proof (made_placed _ _ _ _ _ _ Hv Hn Hm Hcl) as Hp.
  split; [|by apply placed_later]. exact (events_ok _ _ (placed_ok _ _ _ Hs Hid Hp)).
Qed.

Lemma perform_keeps r : sensible r → keeps (ShopApi.perform r).
Proof.
  destruct r as [u b pin token|u id st note|u id st p|t c|us]; intros Hr s a s' Hs; cbn [ShopApi.perform].
  - rewrite bind_run. destruct (ShopApi.create_order u b pin token s) as [[id|e] s1] eqn:Hc; [|discriminate].
    intros [= _ <-]. by eapply creation_keeps.
  - unfold ShopApi.update_delivery_status, _require_staff. run_steps. destruct (negb _); [discriminate|].
    by apply (as_http_keeps _ (delivery_keeps _ _ _ _)).
  - by apply (as_http_keeps _ (payment_keeps _ _ _)).
  - unfold ShopApi.confirm_received. run_steps. destruct (_ || _); [discriminate|].
    by apply (as_http_keeps _ (received_keeps _ _)).
  - intros [= _ <-]. split; [by destruct Hs|]. split; [by eauto|by exists []; rewrite app_nil_r|by exists []; rewrite app_nil_r|cbn; lia].
Qed.

Lemma new_number_fresh s id o : shop_ok s → s.(orders) !! id = Some o → o.(so_order_number) ≠ order_number_now s.
Proof.
  intros Hs Ho. destruct (sk_numbered s Hs _ _ Ho) as (day & k & E & Hk). rewrite E. unfold order_number_now, next_order_number.
  rewrite month_count_rows. set (today := (_ + _) / _). intros (Ep & ->)%(sequence_number_inj day k today _); [|lia|].
  - rewrite Ep in Hk. lia.
  - pose proof (month_count_nonneg (date_prefix "ORD" today) (orders s)). lia.
Qed.

Lemma empty_shop_ok t : shop_ok (empty_shop t).
Proof.
  assert (∀ i o, orders (empty_shop t) !! i = Some o → False) as He by (intros i o Ho; cbn in Ho; by rewrite lookup_empty in Ho).
  split; [by intros ? ? []%He..|by intros ? ? ? ? []%He|by intros ? Hin%elem_of_nil].
Qed.

(** C20: Over every history of shop requests, each in its own session and whether
    it succeeds or fails, the shop stays well formed: the lines of an order are
    positive quantities of distinct products whose totals add up to its amount,
    its audit log is exactly the path from ordered to its delivery status, its
    number, PIN and tracking token belong to no other order, and the next order
    number is new.  No request ever loses an order or an entry of the log,
    changes anything of an order but its delivery and payment, or moves a
    delivery back. *)
Theorem shop_history_correct l t s :
  shop_ok (empty_shop t) ∧
  (shop_ok s → Forall sensible l → let s' := ShopApi.serve l s in
   shop_ok s' ∧ later s s' ∧ ∀ id o, s'.(orders) !! id = Some o → o.(so_order_number) ≠ order_number_now s').
Proof.
  split; [apply empty_shop_ok|].
  intros Hs Hl. cbv zeta. cut (shop_ok (ShopApi.serve l s) ∧ later s (ShopApi.serve l s)).
  { intros [H1 H2]. split_and!; [done..|]. intros id o. by apply new_number_fresh. }
  revert s Hs. induction Hl as [|r l Hr _ IH]; intros s Hs; [by split|]. unfold ShopApi.serve. cbn [foldl].
  assert (∃ s1, (shop_session (ShopApi.perform r) s).2 = s1 ∧ shop_ok s1 ∧ later s s1) as (s1 & -> & H1 & H2).
  { unfold shop_session. destruct (ShopApi.perform r s) as [[a|e] s1] eqn:Hr1; [|by exists s].
    exists s1. split; [done|]. by eapply perform_keeps. }
  destruct (IH s1 H1) as [H3 H4]. split; [exact H3|]. by etransitivity.
Qed.

(** ** Creating an order, on every branch *)

(** The items and the subtotal a request comes to at the catalogue's prices. *)
Definition quote (t : Z) (items : list OrderItemIn) : result (list ShopOrderItem * Z) :=
  products ← mapM (λ item, match get_product t (uuid_str item.(ii_product_id)) with
                           | Ok p => Ok (p, item)
                           | Raise _ => Raise (err ValidationError)
                           end) items;
  lines ← mapM (λ '(p, item), build_line p item) products;
  items ← mapM stored_line lines;
  subtotal ← numeric_10_3 (order_subtotal lines);
  Ok (items, subtotal).

Definition code_taken (m : gmap Z ShopOrder) (code token : string) : bool :=
  existsb (λ o, String.eqb code o.(so_tracking_code) || String.eqb token o.(so_public_token)) (rows m).

Lemma clash_codes s o :
  shop_ok s → o.(so_order_number) = order_number_now s →
  existsb (clashes o) (rows s.(orders)) = code_taken s.(orders) o.(so_tracking_code) o.(so_public_token).
Proof.
  intros Hs Hn. unfold code_taken. apply eq_iff_eq_true. rewrite !existsb_exists.
  assert (∀ x, In x (rows (orders s)) → clashes o x = String.eqb (so_tracking_code o) (so_tracking_code x) || String.eqb (so_public_token o) (so_public_token x)) as He.
  { intros x [id Hx]%list_elem_of_In%elem_of_rows. unfold clashes. rewrite Hn.
    assert (String.eqb (order_number_now s) (so_order_number x) = false) as ->; [|done].
    apply String.eqb_neq. intros E. by destruct (new_number_fresh _ _ _ Hs Hx). }
  split; intros (x & Hx & Hc); exists x; (split; [done|]); by rewrite He in * by done.
Qed.

Lemma as_http_raise {A} (m : M ShopStore A) s e s' : m s = (Raise e, s') → ∃ e', as_http m s = (Raise e', s').
Proof. intros E. unfold as_http, try_except. rewrite E. destruct (_ || _); by eexists. Qed.
Lemma as_http_returns {A} (m : M ShopStore A) s a s' : m s = (Ok a, s') → as_http m s = (Ok a, s').
Proof. intros E. unfold as_http, try_except. by rewrite E. Qed.

(** What the service does with a quote. *)
Lemma create_cases b a pin token s :
  shop_ok s →
  match quote s.(shop_now) b.(cr_items) with
  | Raise e => create_order b a pin token s = (Raise e, s)
  | Ok (items, subtotal) =>
      let o := new_order b a (order_number_now s) (_generate_tracking_code pin) token (s.(shop_now) + us_per_week) subtotal items in
      if code_taken s.(orders) (_generate_tracking_code pin) token
      then create_order b a pin token s = (Raise (err PythonException), s)
      else (create_order b a pin token s).1 = Ok (new_id s.(orders))
  end.
Proof.
  intros Hs. unfold quote, create_order, fetch_products. run_steps. destruct (mapM _ (cr_items b)) as [products|e]; [|done].
  cbn [mbind result_bind]. run_steps. destruct (mapM _ products) as [lines|e]; [|done].
  cbn [mbind result_bind]. run_steps. destruct (mapM stored_line lines) as [items|e]; [|done].
  cbn [mbind result_bind]. run_steps. destruct (numeric_10_3 _) as [subtotal|e]; [|done]. cbn [mbind result_bind]. cbv zeta.
  unfold create, add_status_history. run_steps. set (o := new_order b a _ _ _ _ _ _).
  rewrite (clash_codes s o Hs) by reflexivity. change (so_tracking_code o) with (_generate_tracking_code pin). change (so_public_token o) with token.
  destruct (code_taken _ _ _); [done|]. run_steps. set (i := new_id (orders s)).
  match goal with |- context [get_order i ?s1] => set (s1' := s1) end. assert (s1'.(orders) !! i = Some o) as Ho by apply lookup_insert_eq.
  rewrite (get_order_run _ _ _ Ho). run_steps. destruct (String.eqb _ _); [|done]. by rewrite (enqueue_run _ _ _ Ho).
Qed.

(** C22: A request for an order on every branch: refused with nothing changed when
    the request is not valid, a product cannot be read or priced, or the PIN or
    token is in use; otherwise the order is placed with the catalogue's prices
    and the exact sum of its lines (whatever amounts the request mentions), its
    log is opened, and it is announced exactly when it starts out paid. *)
Theorem create_order_correct u b pin token s customer_id :
  shop_ok s → uuid_of_string u.(tp_sub) = Some customer_id → Z.of_nat (length b.(cr_items)) <= 10 ^ 15 →
  let run := ShopApi.create_order u b pin token s in
  match quote s.(shop_now) b.(cr_items) with
  | Raise _ => ∃ e, run = (Raise e, s)
  | Ok (items, _) =>
      if negb (valid_request b) || code_taken s.(orders) (_generate_tracking_code pin) token then ∃ e, run = (Raise e, s)
      else ∃ id o, s.(orders) !! id = None ∧ made s b (order_args u customer_id b) pin token o ∧
        o.(so_subtotal) = line_totals o.(so_items) ∧ o.(so_total_amount) = o.(so_subtotal) ∧
        run = (Ok id, s <| orders := <[id := o]> s.(orders) |> <| order_history := s.(order_history) ++ [opening_entry id] |>
                        <| order_events := s.(order_events) ++ (if String.eqb o.(so_payment_status) "success" then [shop_event id o] else []) |>)
  end.
Proof.
  intros Hs Hu Hn. cbv zeta. unfold ShopApi.create_order. run_steps. rewrite Hu. run_steps.
  pose proof (create_cases b (order_args u customer_id b) pin token s Hs) as Hc.
  destruct (quote _ _) as [[items subtotal]|e]; cycle 1.
  { destruct (negb (valid_request b)); [by eexists|]. run_steps. by eapply as_http_raise. }
  destruct (negb (valid_request b)); [by eexists|]. run_steps. cbv zeta in Hc. destruct (code_taken _ _ _); [by eapply as_http_raise|].
  destruct (create_order b (order_args u customer_id b) pin token s) as [r s'] eqn:Hrun. cbn in Hc. subst r.
  pose proof (create_run _ _ _ _ _ _ _ Hrun) as (o & Hm & Hid & _ & ->). exists (new_id (orders s)), o.
  split_and!; [done|done|by apply Hm| |by apply as_http_returns]. rewrite (ma_row _ _ _ _ _ _ Hm). reflexivity.
Qed.

(** ** Confirming receipt, on every branch *)

Lemma unique_match {A} (p : A → bool) l x : NoDup l → x ∈ l → p x = true → (∀ y, y ∈ l → p y = true → y = x) → List.filter p l = [x].
Proof.
  intros Hnd Hx Hpx Huniq. induction Hnd as [|y l Hy Hnd IH]; [by apply elem_of_nil in Hx|]. cbn [List.filter].
  destruct (p y) eqn:Hpy.
  - assert (y = x) as -> by (apply Huniq; [by left|done]). f_equal. clear IH Hnd.
    assert (∀ z, z ∈ l → p z = false) as Hnone.
    { intros z Hz. apply not_true_is_false. intros Hpz. destruct Hy. rewrite <- (Huniq z); [done|by right|done]. }
    clear - Hnone. induction l as [|z l IH]; [done|]. cbn [List.filter]. rewrite (Hnone z) by (by left).
    apply IH. intros w Hw. apply Hnone. by right.
  - apply elem_of_cons in Hx as [->|Hx]; [congruence|]. apply IH; [done|]. intros z Hz. apply Huniq. by right.
Qed.

Lemma find_token s id o :
  shop_ok s → s.(orders) !! id = Some o → get_by_public_token o.(so_public_token) s = (Ok (id, o), s).
Proof.
  intros Hs Ho. unfold get_by_public_token. run_steps.
  assert (List.filter (token_matches (so_public_token o)) (map_to_list s.(orders)) = [(id, o)]) as E.
  { apply unique_match; [apply NoDup_map_to_list|by apply elem_of_map_to_list|by apply String.eqb_refl|].
    intros [j x] Hx%elem_of_map_to_list Hm%String.eqb_eq. destruct (decide (j = id)) as [->|Hj]; [congruence|].
    pose proof (sk_distinct s Hs _ _ _ _ Hx Ho Hj) as Hc. unfold clashes in Hc. rewrite Hm, String.eqb_refl, orb_true_r in Hc. done. }
  unfold token_matches in E. by rewrite E.
Qed.

Lemma no_token s token :
  (∀ id o, s.(orders) !! id = Some o → o.(so_public_token) ≠ token) → get_by_public_token token s = (Raise ORDER_NOT_FOUND, s).
Proof.
  intros Hno. unfold get_by_public_token. run_steps.
  assert (List.filter (token_matches token) (map_to_list s.(orders)) = []) as E; [|unfold token_matches in E; by rewrite E].
  destruct (List.filter _ _) as [|[j x] l] eqn:E; [done|]. exfalso.
  assert ((j, x) ∈ List.filter (token_matches token) (map_to_list s.(orders))) as [Hx%elem_of_map_to_list Hm%String.eqb_eq]%elem_of_filter_list
    by (rewrite E; by left).
  by apply (Hno _ _ Hx).
Qed.

(** Receipt is confirmed exactly when the link names an order, has not
    expired, the PIN is the order's and the order was delivered: the order is
    then received and the log gets one entry of the customer.  In every other
    case the request is refused with the status of the case (404, 403, 422) and
    nothing changes. *)
Theorem confirm_received_correct token code s :
  shop_ok s → (6 <= String.length code <= 12)%nat → let run := ShopApi.confirm_received token code s in
  ((∀ id o, s.(orders) !! id = Some o → o.(so_public_token) ≠ token) → run = (Raise (http_error "404"), s)) ∧
  (∀ id o cur, s.(orders) !! id = Some o → o.(so_public_token) = token → o.(so_delivery_status) = value cur →
     run = if match o.(so_token_expires_at) with Some t => t <? s.(shop_now) | None => false end || negb (String.eqb o.(so_tracking_code) code)
           then (Raise (http_error "403"), s)
           else if cur !=? Delivery.DELIVERED then (Raise (http_error "422"), s)
           else (Ok (), moved s id Delivery.DELIVERED Delivery.RECEIVED "customer" (Some "Customer confirmed receipt via tracking URL"))).
Proof.
  intros Hs Hlen. cbv zeta. unfold ShopApi.confirm_received.
  assert ((String.length code <? 6)%nat || (12 <? String.length code)%nat = false) as Hlen'
    by (apply orb_false_iff; split; apply Nat.ltb_ge; lia).
  run_steps. rewrite Hlen'. run_steps. clear Hlen Hlen'. split.
  - intros Hno. unfold as_http, try_except, confirm_received. rewrite bind_run, (no_token s token Hno). reflexivity.
  - intros id o cur Ho <- Hcur. unfold as_http, try_except, confirm_received. rewrite bind_run, (find_token s id o Hs Ho). run_steps.
    destruct (match so_token_expires_at o with Some t => t <? shop_now s | None => false end); [reflexivity|]. cbn [orb]. run_steps.
    destruct (negb (String.eqb _ _)); [reflexivity|]. run_steps. rewrite Hcur, of_value_value. run_steps.
    unfold moved, upd_order, add_status_history. destruct cur; reflexivity.
Qed.
End requests.

(** ** Runs *)

(** Where the shop falls short: any signed-in user can mark any order paid, and
    every time it is marked it is announced again. *)
Lemma anyone_marks_orders_paid `{ProductCatalogue} u id s o :
  s.(orders) !! id = Some o → ∃ s', ShopApi.update_payment_status u id SUCCESS (mk_payment_args None None None None None None) s = (Ok (), s') ∧
    so_payment_status <$> s'.(orders) !! id = Some "success" ∧ length s'.(order_events) = S (length s.(order_events)).
Proof.
  intros Ho. unfold ShopApi.update_payment_status, as_http, try_except, update_payment_status, upd_order.
  rewrite bind_run, (get_order_run _ _ _ Ho). run_steps. rewrite bool_decide_eq_true_2 by done.
  set (p := payment_args _ _). rewrite (enqueue_run _ id (with_payment SUCCESS p o)) by (cbn; by rewrite lookup_alter_eq, Ho).
  eexists. split_and!; [reflexivity| |].
  - cbn. by rewrite lookup_alter_eq, Ho.
  - cbn. rewrite length_app. simpl. lia.
Qed.

#[local] Instance demo_products : ProductCatalogue := {|
  get_product := λ _ id, if String.eqb id (uuid_str 7) then Ok [("name", JStr "Candle"); ("price", JStr "2.500")]
                         else if String.eqb id (uuid_str 8) then Ok [("name", JStr "Oil"); ("price", JStr "0.0006")]
                         else Raise (err NotFoundError) |}.
Definition demo_user : TokenPayload := mk_token (uuid_str 9) (Some "customer") (Some "96550000000") None (Some "Maria") None None false false.
Definition demo_order (items : list (Z * Z)) : CreateShopOrderRequest :=
  mk_create_order "Salmiya" "5" "7" "12" None None None None None ((λ '(p, q), mk_item_in p q) <$> items) None None None None None None
    None None None None None.
Definition demo_courier : TokenPayload := mk_token (uuid_str 30) (Some "staff") None None None None None true false.
Definition demo_requests : list ShopApi.ShopRequest := [
  ShopApi.CreateOrder demo_user (demo_order [(7, 2); (8, 10)]) 123456 "token-a";
  ShopApi.UpdateDelivery demo_courier 1 Delivery.READY_TO_GO None;
  ShopApi.UpdateDelivery demo_courier 1 Delivery.ON_THE_WAY None;
  ShopApi.UpdateDelivery demo_user 1 Delivery.DELIVERED None;
  ShopApi.UpdateDelivery demo_courier 1 Delivery.DELIVERED None].
Definition demo_now : Z := 1784012400000000.
Definition demo_shop : ShopStore := Eval vm_compute in ShopApi.serve demo_requests (empty_shop demo_now).

(** The price of a line is stored rounded, its total is not made from it. *)
Lemma stored_price_is_not_the_price_charged :
  (λ o, (λ i, (i.(oi_unit_price), i.(oi_quantity), i.(oi_line_total))) <$> o.(so_items)) <$> demo_shop.(orders) !! 1 = Some [(2500, 2, 5000); (1, 10, 6)].
Proof. reflexivity. Qed.

Lemma demo_served : ShopApi.serve demo_requests (empty_shop demo_now) = demo_shop.
Proof. vm_compute. reflexivity. Qed.
Lemma demo_sensible : Forall sensible demo_requests.
Proof. repeat constructor; by vm_compute. Qed.
Lemma demo_shop_ok : shop_ok demo_shop.
Proof.
  assert (∀ l s, Forall sensible l → shop_ok s → shop_ok (ShopApi.serve l s)) as H.
  { intros l. induction l as [|r l IH]; intros s Hl Hs; [done|]. inversion Hl; subst. apply IH; [done|].
    unfold shop_session. destruct (ShopApi.perform r s) as [[a|e] s1] eqn:E; [|done]. by eapply perform_keeps. }
  rewrite <- demo_served. apply H; [exact demo_sensible|apply empty_shop_ok].
Qed.

Lemma shop_history_correct_witness :
  let s := ShopApi.serve demo_requests (empty_shop demo_now) in
  so_delivery_status <$> s.(orders) !! 1 = Some "delivered" ∧ shop_ok s ∧ later (empty_shop demo_now) s.
Proof.
  split; [vm_compute; reflexivity|]. destruct (shop_history_correct demo_requests 0 (empty_shop demo_now)) as [_ H].
  destruct H as (H1 & H2 & _); [apply empty_shop_ok|exact demo_sensible|by split].
Defined.

Lemma create_order_correct_witness :
  ∃ o s', ShopApi.create_order demo_user (demo_order [(7, 3)]) 654321 "token-b" demo_shop = (Ok 2, s') ∧
    s'.(orders) !! 2 = Some o ∧ o.(so_subtotal) = line_totals o.(so_items) ∧ o.(so_total_amount) = 7500.
Proof.
  pose proof (create_order_correct demo_user (demo_order [(7, 3)]) 654321 "token-b" demo_shop 9 demo_shop_ok) as H.
  specialize (H ltac:(vm_compute; reflexivity) ltac:(by vm_compute)). vm_compute quote in H. cbv zeta in H.
  vm_compute code_taken in H. vm_compute valid_request in H. cbn [negb orb] in H.
  destruct H as (id & o & Hid & Hm & Hsub & Htot & Hrun).
  set (run := ShopApi.create_order _ _ _ _ _) in Hrun |- *.
  assert (run.1 = Ok 2) as E by (vm_compute; reflexivity). rewrite Hrun in E. cbn [fst] in E. apply (inj Ok) in E as ->.
  assert (so_total_amount <$> run.2.(orders) !! 2 = Some 7500) as E by (vm_compute; reflexivity).
  rewrite Hrun in E. unfold snd at 1 in E. cbn [orders] in E.
  exists o. eexists. split; [exact Hrun|]. split; [apply lookup_insert_eq|]. split; [exact Hsub|].
  change (so_total_amount <$> <[2 := o]> (orders demo_shop) !! 2 = Some 7500) in E. rewrite lookup_insert_eq in E. by injection E.
Defined.

Lemma confirm_received_correct_witness :
  ShopApi.confirm_received "token-a" "123456" demo_shop =
    (Ok (), moved demo_shop 1 Delivery.DELIVERED Delivery.RECEIVED "customer" (Some "Customer confirmed receipt via tracking URL")).
Proof.
  destruct (confirm_received_correct "token-a" "123456" demo_shop demo_shop_ok) as [_ H]; [simpl; lia|].
  destruct (demo_shop.(orders) !! 1) as [o|] eqn:Ho; [|discriminate Ho].
  rewrite (H 1 o Delivery.DELIVERED Ho); [|by vm_compute in Ho; injection Ho as <-..].
  vm_compute in Ho. injection Ho as <-. reflexivity.
Defined.
