(* ===== verification/CacheOutbox.v ===== *)
(** * The retry queue of the appointment cache
    (app/booking/infrastructure/cache_outbox.py,
    app/booking/application/cache_outbox_relay.py, and the reliable POST of
    app/integrations/ushauth_client.py)

    A call to the appointment cache of ushauth that fails for a passing reason is
    stored and replayed with a growing delay.  The queue has its own table and
    its own transactions, hence its own state; what ushauth answers is a function
    of the calls made so far.  The state remembers every call with the time its
    request was made. *)

From S2P Require Import Prelude Exceptions Effects Store.
#[local] Open Scope Z_scope.

(** ** Calls and their failures (ushauth_client.py, [_post]) *)

(** What comes back from an HTTP POST; [None] for a body that is not JSON. *)
Inductive HttpAnswer := Answered (status : Z) (body : option jdict) | TimedOut | TransportFailed.

(** The exceptions [_post] ends in. *)
Inductive Failure :=
  | TransportError                    (** [httpx.TransportError] *)
  | BadBody                           (** [ValueError] of [response.json()] *)
  | Failed (c : exc_class) (upstream_status : option Z).

Definition post_failure (a : HttpAnswer) : option Failure :=
  match a with
  | Answered status body =>
      if (200 <=? status) && (status <? 300) then match body with Some _ => None | None => Some BadBody end
      else if status =? 404 then Some (Failed NotFoundError None)
      else if (status =? 401) || (status =? 403) then Some (Failed AuthorizationError None)
      else Some (Failed GatewayError (Some status))
  | TimedOut => Some (Failed GatewayTimeoutError None)
  | TransportFailed => Some TransportError
  end.

Definition is_retryable_upstream_error (f : Failure) : bool :=
  match f with
  | TransportError => true
  | BadBody => false
  | Failed c upstream_status =>
      if issubclass c GatewayTimeoutError then true
      else if issubclass c NotFoundError || issubclass c AuthorizationError then false
      else if issubclass c GatewayError
           then match upstream_status with None => true | Some st => (500 <=? st) || (st =? 429) end
           else false
  end.
(** [isinstance(exc, (httpx.HTTPError, OSError))]. *)
Definition is_http_error (f : Failure) : bool := match f with TransportError => true | _ => false end.

(** ** The queue (cache_outbox.py) *)

Inductive OutboxStatus := PENDING | DELIVERED | DEAD.
#[export] Instance OutboxStatus_eq_dec : EqDecision OutboxStatus.
Proof. solve_decision. Defined.

Record OutboxRow := mk_row {
  ox_booking_id : string; ox_path : string; ox_payload : jdict; ox_status : OutboxStatus; ox_attempts : Z;
  ox_max_attempts : Z; ox_created_at : Z; ox_next_attempt_at : Z; ox_delivered_at : option Z }.
#[export] Instance eta_OutboxRow : Eta OutboxRow := λ r, mk_row
  r.(ox_booking_id) r.(ox_path) r.(ox_payload) r.(ox_status) r.(ox_attempts) r.(ox_max_attempts) r.(ox_created_at)
  r.(ox_next_attempt_at) r.(ox_delivered_at).

(** A call that was sent: for whom, what, when its request was made, and whether
    ushauth acknowledged it. *)
Record PostCall := mk_post { pc_booking_id : string; pc_path : string; pc_payload : jdict; pc_requested_at : Z; pc_acknowledged : bool }.

Record OutboxStore := mk_outbox { ob_now : Z; outbox : gmap Z OutboxRow; ob_calls : list PostCall }.
#[export] Instance eta_OutboxStore : Eta OutboxStore := λ s, mk_outbox s.(ob_now) s.(outbox) s.(ob_calls).
Definition empty_outbox (t : Z) : OutboxStore := mk_outbox t ∅ [].

(** ** Enqueue and replay (cache_outbox_relay.py) *)

Definition us_per_second : Z := 1000000.
Definition _LEASE_SECONDS : Z := 90.
Definition _MAX_BACKOFF_SECONDS : Z := 15 * 60.

Definition backoff_seconds (attempts : Z) : Z := Z.min (10 * 2 ^ Z.max (attempts - 1) 0) _MAX_BACKOFF_SECONDS.

Class Upstream := { http_post : list PostCall → string → jdict → HttpAnswer }.

(** The counters [process_outbox_once] returns. *)
Record Stats := mk_stats { st_delivered : Z; st_retried : Z; st_dead : Z }.

Section relay.
Context `{Upstream}.
Context (CACHE_OUTBOX_ENABLED : bool) (CACHE_OUTBOX_MAX_ATTEMPTS CACHE_OUTBOX_BATCH_SIZE : Z).

(** One POST: its failure, if any. *)
Definition _post (booking_id path : string) (payload : jdict) (requested_at : Z) : M OutboxStore (option Failure) :=
  f ← gets (λ s, post_failure (http_post s.(ob_calls) path payload));
  modify (λ s, s <| ob_calls := s.(ob_calls) ++ [mk_post booking_id path payload requested_at (bool_decide (f = None))] |>) ;;
  mret f.

Definition enqueue_cache_request (path : string) (payload : jdict) (booking_id : string) : M OutboxStore () :=
  modify (λ s, s <| outbox := <[new_id s.(outbox) :=
    mk_row booking_id path payload PENDING 1 CACHE_OUTBOX_MAX_ATTEMPTS s.(ob_now)
      (s.(ob_now) + backoff_seconds 1 * us_per_second) None]> s.(outbox) |>).

Definition is_pending_of (booking_id : string) (r : OutboxRow) : bool :=
  String.eqb r.(ox_booking_id) booking_id && (r.(ox_status) ==? PENDING).
Definition has_pending_for_booking (booking_id : string) (s : OutboxStore) : bool := existsb (is_pending_of booking_id) (rows s.(outbox)).

(** A row that may be replayed: due, and the oldest of its booking. *)
Definition claimable (s : OutboxStore) (r : OutboxRow) : bool :=
  (r.(ox_status) ==? PENDING) && (r.(ox_next_attempt_at) <=? s.(ob_now)) &&
  negb (existsb (λ o, is_pending_of r.(ox_booking_id) o && (o.(ox_created_at) <? r.(ox_created_at))) (rows s.(outbox))).

Definition due_batch (limit : Z) (s : OutboxStore) : list (Z * OutboxRow) :=
  take (Z.to_nat limit) (sorted_by (λ '(_, r), r.(ox_created_at)) (List.filter (λ '(_, r), claimable s r) (map_to_list s.(outbox)))).
Definition _finish (row_id : Z) (f : OutboxRow → OutboxRow) : M OutboxStore () :=
  modify (λ s, s <| outbox := alter f row_id s.(outbox) |>).
Definition _claim_due_batch (limit : Z) : M OutboxStore (list (Z * OutboxRow)) :=
  s ← get;
  let batch := due_batch limit s in
  for_each batch (λ '(id, _), _finish id (λ r, r <| ox_next_attempt_at := s.(ob_now) + _LEASE_SECONDS * us_per_second |>)) ;;
  mret batch.

(** [row.max_attempts or settings.CACHE_OUTBOX_MAX_ATTEMPTS]. *)
Definition attempts_allowed (r : OutboxRow) : Z := or_int r.(ox_max_attempts) CACHE_OUTBOX_MAX_ATTEMPTS.

(** One row of the batch: what it adds to the blocked bookings and the counters. *)
Definition replay_row (id : Z) (row : OutboxRow) (blocked_bookings : list string) (stats : Stats) : M OutboxStore (list string * Stats) :=
  now_ ← gets ob_now;
  let retry_at (attempts : Z) (r : OutboxRow) : OutboxRow := r <| ox_next_attempt_at := now_ + backoff_seconds attempts * us_per_second |> in
  if row.(ox_booking_id) in? blocked_bookings then _finish id (retry_at 1) ;; mret (blocked_bookings, stats)
  else
    answer ← _post row.(ox_booking_id) row.(ox_path) row.(ox_payload) row.(ox_created_at);
    match answer with
    | None =>
        _finish id (λ r, r <| ox_status := DELIVERED |> <| ox_delivered_at := Some now_ |>) ;;
        mret (blocked_bookings, mk_stats (stats.(st_delivered) + 1) stats.(st_retried) stats.(st_dead))
    | Some f =>
        let attempts := row.(ox_attempts) + 1 in
        let retryable := is_retryable_upstream_error f || is_http_error f in
        if negb retryable || (attempts_allowed row <=? attempts)
        then _finish id (λ r, r <| ox_status := DEAD |> <| ox_attempts := attempts |>) ;;
             mret (blocked_bookings, mk_stats stats.(st_delivered) stats.(st_retried) (stats.(st_dead) + 1))
        else _finish id (λ r, retry_at attempts r <| ox_attempts := attempts |>) ;;
             mret (row.(ox_booking_id) :: blocked_bookings, mk_stats stats.(st_delivered) (stats.(st_retried) + 1) stats.(st_dead))
    end.

Fixpoint replay (batch : list (Z * OutboxRow)) (blocked_bookings : list string) (stats : Stats) : M OutboxStore Stats :=
  match batch with
  | [] => mret stats
  | (id, row) :: batch =>
      '(blocked_bookings, stats) ← replay_row id row blocked_bookings stats;
      replay batch blocked_bookings stats
  end.

Definition process_outbox_once : M OutboxStore Stats :=
  batch ← _claim_due_batch CACHE_OUTBOX_BATCH_SIZE;
  replay batch [] (mk_stats 0 0 0).

(** ** The reliable POST (ushauth_client.py, [_post_reliable]) *)

Inductive Reliable := Acknowledged | Queued | PostFailed (f : Failure).

Definition _post_reliable (path : string) (payload : jdict) (booking_id : string) : M OutboxStore Reliable :=
  pending ← gets (has_pending_for_booking booking_id);
  if CACHE_OUTBOX_ENABLED && pending
  then enqueue_cache_request path payload booking_id ;; mret Queued
  else
    now_ ← gets ob_now;
    answer ← _post booking_id path payload now_;
    match answer with
    | None => mret Acknowledged
    | Some f =>
        when (CACHE_OUTBOX_ENABLED && is_retryable_upstream_error f) (enqueue_cache_request path payload booking_id) ;;
        mret (PostFailed f)
    end.

(** ** Histories: requests and ticks of the relay, at advancing times *)

Inductive OutboxStep := Request (path : string) (payload : jdict) (booking_id : string) | RelayTick.
Definition outbox_step (step : Z * OutboxStep) (s : OutboxStore) : OutboxStore :=
  let s := s <| ob_now := s.(ob_now) + step.1 |> in
  match step.2 with
  | Request path payload booking_id => (_post_reliable path payload booking_id s).2
  | RelayTick => (process_outbox_once s).2
  end.
Definition outbox_run (l : list (Z * OutboxStep)) (s : OutboxStore) : OutboxStore := foldl (λ s x, outbox_step x s) s l.
End relay.
