(* ===== verification/OutboxSpec.v ===== *)
(** * What the retry queue guarantees

    Whatever ushauth answers: no request overtakes an earlier one of its booking,
    an acknowledged request is not sent again, and a queue that is polled runs
    dry: every row is delivered or given up after finitely many ticks. *)

From S2P Require Import Prelude Exceptions Effects Store CacheOutbox.
#[local] Open Scope Z_scope.

(** ** What a step does to a row *)

(** A row whose replay has not been decided yet differs from the batch's copy in
    its next attempt only. *)
Definition same_request (row r : OutboxRow) : Prop :=
  r.(ox_booking_id) = row.(ox_booking_id) ∧ r.(ox_path) = row.(ox_path) ∧ r.(ox_payload) = row.(ox_payload) ∧
  r.(ox_created_at) = row.(ox_created_at) ∧ r.(ox_max_attempts) = row.(ox_max_attempts).
Definition pending_copy (row r : OutboxRow) : Prop :=
  same_request row r ∧ r.(ox_status) = PENDING ∧ r.(ox_attempts) = row.(ox_attempts).

(** What replaying a row can leave in its place, at time [t]. *)
Inductive replayed (CACHE_OUTBOX_MAX_ATTEMPTS t : Z) (r : OutboxRow) : list PostCall → OutboxRow → Prop :=
  | replayed_blocked : replayed CACHE_OUTBOX_MAX_ATTEMPTS t r [] (r <| ox_next_attempt_at := t + backoff_seconds 1 * us_per_second |>)
  | replayed_delivered :
      replayed CACHE_OUTBOX_MAX_ATTEMPTS t r [mk_post r.(ox_booking_id) r.(ox_path) r.(ox_payload) r.(ox_created_at) true]
        (r <| ox_status := DELIVERED |> <| ox_delivered_at := Some t |>)
  | replayed_dead :
      replayed CACHE_OUTBOX_MAX_ATTEMPTS t r [mk_post r.(ox_booking_id) r.(ox_path) r.(ox_payload) r.(ox_created_at) false]
        (r <| ox_status := DEAD |> <| ox_attempts := r.(ox_attempts) + 1 |>)
  | replayed_retried : r.(ox_attempts) + 1 < attempts_allowed CACHE_OUTBOX_MAX_ATTEMPTS r →
      replayed CACHE_OUTBOX_MAX_ATTEMPTS t r [mk_post r.(ox_booking_id) r.(ox_path) r.(ox_payload) r.(ox_created_at) false]
        (r <| ox_next_attempt_at := t + backoff_seconds (r.(ox_attempts) + 1) * us_per_second |> <| ox_attempts := r.(ox_attempts) + 1 |>).

Section spec.
Context `{Upstream}.
Context (CACHE_OUTBOX_MAX_ATTEMPTS CACHE_OUTBOX_BATCH_SIZE : Z).

Lemma finish_run id f s : _finish id f s = (Ok (), s <| outbox := alter f id s.(outbox) |>).
Proof. reflexivity. Qed.
Lemma post_run booking path payload t s :
  ∃ f, _post booking path payload t s =
    (Ok f, s <| ob_calls := s.(ob_calls) ++ [mk_post booking path payload t (bool_decide (f = None))] |>).
Proof. unfold _post. run_steps. by eexists. Qed.

Lemma replay_row_run id row r blocked stats s :
  s.(outbox) !! id = Some r → pending_copy row r →
  ∃ b st r' calls, replay_row CACHE_OUTBOX_MAX_ATTEMPTS id row blocked stats s =
      (Ok (b, st), s <| outbox := <[id := r']> s.(outbox) |> <| ob_calls := s.(ob_calls) ++ calls |>) ∧
    replayed CACHE_OUTBOX_MAX_ATTEMPTS s.(ob_now) r calls r' ∧ (calls = [] → row.(ox_booking_id) ∈ blocked).
Proof.
  intros Hr ((E1 & E2 & E3 & E4 & E5) & Hst & Eatt). unfold replay_row, _finish. run_steps.
  destruct (bool_decide_reflect (ox_booking_id row ∈ blocked)) as [Hb|Hb]; run_steps.
  { eexists _, _, _, []. split_and!; [|apply replayed_blocked|done].
    rewrite (alter_alt_Some _ _ _ _ Hr). destruct s; cbn. by rewrite app_nil_r. }
  destruct (post_run (ox_booking_id row) (ox_path row) (ox_payload row) (ox_created_at row) s) as [[f|] Hp]; rewrite Hp; run_steps.
  - rewrite bool_decide_eq_false_2 by done. rewrite <- E1, <- E2, <- E3, <- E4, <- Eatt.
    assert (attempts_allowed CACHE_OUTBOX_MAX_ATTEMPTS row = attempts_allowed CACHE_OUTBOX_MAX_ATTEMPTS r) as -> by (unfold attempts_allowed; by rewrite E5).
    destruct (negb _ || _) eqn:Hdead; run_steps; eexists _, _, _, [_]; split_and!; try done.
    + cbn. by rewrite (alter_alt_Some _ _ _ _ Hr).
    + apply replayed_dead.
    + cbn. by rewrite (alter_alt_Some _ _ _ _ Hr).
    + apply replayed_retried. breflect. lia.
  - rewrite bool_decide_eq_true_2 by done. rewrite <- E1, <- E2, <- E3, <- E4.
    eexists _, _, _, [_]. split_and!; [|apply replayed_delivered|done]. cbn. by rewrite (alter_alt_Some _ _ _ _ Hr).
Qed.

(** ** A tick as small steps *)

Definition pending (r : OutboxRow) : Prop := r.(ox_status) = PENDING.
(** No pending row of the same booking is older. *)
Definition oldest (s : OutboxStore) (r : OutboxRow) : Prop :=
  ∀ j o, s.(outbox) !! j = Some o → pending o → o.(ox_booking_id) = r.(ox_booking_id) → r.(ox_created_at) <= o.(ox_created_at).

Definition put (id : Z) (r : OutboxRow) (calls : list PostCall) (s : OutboxStore) : OutboxStore :=
  s <| outbox := <[id := r]> s.(outbox) |> <| ob_calls := s.(ob_calls) ++ calls |>.
Definition soon (s : OutboxStore) (t : Z) : Prop := t <= s.(ob_now) + _MAX_BACKOFF_SECONDS * us_per_second.

Inductive micro (s : OutboxStore) : OutboxStore → Prop :=
  | micro_lease id r t : s.(outbox) !! id = Some r → soon s t → micro s (put id (r <| ox_next_attempt_at := t |>) [] s)
  | micro_replay id r calls r' :
      s.(outbox) !! id = Some r → pending r → oldest s r → replayed CACHE_OUTBOX_MAX_ATTEMPTS s.(ob_now) r calls r' →
      micro s (put id r' calls s).

Lemma put_same_calls id r s : put id r [] s = s <| outbox := <[id := r]> s.(outbox) |>.
Proof. unfold put. destruct s. cbn. by rewrite app_nil_r. Qed.

Definition in_hand (s : OutboxStore) (x : Z * OutboxRow) : Prop :=
  ∃ r, s.(outbox) !! x.1 = Some r ∧ pending_copy x.2 r ∧ oldest s r.

Lemma lease_soon (s : OutboxStore) : soon s (s.(ob_now) + _LEASE_SECONDS * us_per_second).
Proof. unfold soon, _LEASE_SECONDS, _MAX_BACKOFF_SECONDS, us_per_second. lia. Qed.

Lemma pending_copy_lease row r t : pending_copy row r → pending_copy row (r <| ox_next_attempt_at := t |>).
Proof. done. Qed.

(** Another row of the batch stays in hand when a row is leased or decided. *)
Lemma in_hand_put s id r r' calls x :
  s.(outbox) !! id = Some r → same_request r r' → (pending r' → pending r) → x.1 ≠ id → in_hand s x → in_hand (put id r' calls s) x.
Proof.
  intros Hr (E1 & _ & _ & E4 & _) Hp Hx (r1 & H1 & H2 & H3). exists r1. split_and!; [cbn; by rewrite lookup_insert_ne|done|].
  intros j o Ho Hpo Eb. cbn in Ho. apply lookup_insert_Some in Ho as [[<- <-]|[_ Ho]]; [|by eapply H3].
  rewrite E4. eapply H3; [done|by apply Hp|congruence].
Qed.

Lemma in_hand_lease s id r t x :
  s.(outbox) !! id = Some r → in_hand s x → in_hand (put id (r <| ox_next_attempt_at := t |>) [] s) x.
Proof.
  intros Hr Hx. destruct (decide (x.1 = id)) as [<-|Hne]; [|by eapply in_hand_put].
  destruct Hx as (r1 & H1 & H2 & H3). assert (r1 = r) as -> by congruence. exists (r <| ox_next_attempt_at := t |>).
  split_and!; [cbn; apply lookup_insert_eq|done|]. intros j o Ho Hpo Eb. cbn in Ho.
  apply lookup_insert_Some in Ho as [[_ <-]|[_ Ho]]; [done|by eapply H3].
Qed.

Lemma leases_micro t l s :
  soon s t → Forall (in_hand s) l → ∃ s', for_each l (λ '(id, _), _finish id (λ r, r <| ox_next_attempt_at := t |>)) s = (Ok (), s') ∧
    rtc micro s s' ∧ Forall (in_hand s') l ∧ s'.(ob_calls) = s.(ob_calls).
Proof.
  intros Ht Hl. cut (∀ l' s, soon s t → Forall (in_hand s) l' → Forall (in_hand s) l → ∃ s',
    for_each l' (λ '(id, _), _finish id (λ r, r <| ox_next_attempt_at := t |>)) s = (Ok (), s') ∧
    rtc micro s s' ∧ Forall (in_hand s') l ∧ s'.(ob_calls) = s.(ob_calls)); [by intros H'; apply H'|].
  clear s Ht Hl. induction l' as [|[id row] l' IH]; intros s Ht Hl' Hl; [by exists s|].
  inversion Hl' as [|? ? (r & Hr & Hc & Ho) Hl'']; subst. cbn in Hr. cbn [for_each]. rewrite bind_run, finish_run. cbn beta iota.
  rewrite (alter_alt_Some _ _ _ _ Hr), <- put_same_calls. set (s1 := put id _ [] s).
  destruct (IH s1) as (s' & E & Hm & Hh & Ec).
  - done.
  - eapply Forall_impl; [exact Hl''|]. intros x. by apply in_hand_lease.
  - eapply Forall_impl; [exact Hl|]. intros x. by apply in_hand_lease.
  - exists s'. split_and!; [exact E| |exact Hh|by rewrite Ec; cbn; rewrite app_nil_r].
    eapply rtc_l; [|exact Hm]. by apply micro_lease.
Qed.

Lemma replayed_same M t r calls r' : replayed M t r calls r' → same_request r r' ∧ (pending r' → pending r).
Proof. intros H'. inversion H'; subst; by split. Qed.

Lemma replay_micro l blocked stats s :
  NoDup l.*1 → Forall (in_hand s) l → ∃ st s', replay CACHE_OUTBOX_MAX_ATTEMPTS l blocked stats s = (Ok st, s') ∧ rtc micro s s' ∧
    (l ≠ [] → blocked = [] → ∃ id r c r', s.(outbox) !! id = Some r ∧ pending r ∧ oldest s r ∧ c ≠ [] ∧
        replayed CACHE_OUTBOX_MAX_ATTEMPTS s.(ob_now) r c r' ∧ rtc micro (put id r' c s) s').
Proof.
  revert blocked stats s. induction l as [|[id row] l IH]; intros blocked stats s Hnd Hl; [by exists stats, s|].
  inversion Hl as [|? ? (r & Hr & Hc & Ho) Hl']; subst. cbn in Hr. apply NoDup_cons in Hnd as [Hid Hnd].
  destruct (replay_row_run id row r blocked stats s Hr Hc) as (b & st & r' & calls & Hrun & Hrep & Hcalls).
  cbn [replay]. rewrite bind_run, Hrun. destruct (replayed_same _ _ _ _ _ Hrep) as [Hsame Hp].
  destruct (IH b st (put id r' calls s)) as (st' & s' & E & Hm & _); [done| |].
  - rewrite Forall_forall in Hl' |- *. intros x Hx. eapply in_hand_put; [done..| |by apply Hl'].
    intros Ex. destruct Hid. apply list_elem_of_fmap. by exists x.
  - exists st', s'. split_and!; [exact E| |].
    + eapply rtc_l; [|exact Hm]. apply (micro_replay s id r); [done|apply Hc|done|done].
    + intros _ ->. exists id, r, calls, r'. split_and!; [done|apply Hc|done| |done|done].
      intros ->. by apply elem_of_nil in Hcalls.
Qed.

Lemma due_batch_spec limit s x :
  x ∈ due_batch limit s → s.(outbox) !! x.1 = Some x.2 ∧ claimable s x.2 = true.
Proof.
  destruct x as [id r]. intros Hin. unfold due_batch in Hin. apply elem_of_take in Hin as (n & Hn & _).
  apply list_elem_of_lookup_2 in Hn. rewrite elem_of_sorted_by, elem_of_filter_list in Hn. destruct Hn as [Hin Hc].
  by apply elem_of_map_to_list in Hin.
Qed.

Lemma due_batch_nodup limit s : NoDup (due_batch limit s).*1.
Proof.
  unfold due_batch. rewrite fmap_take. set (l := List.filter _ _).
  assert (NoDup (sorted_by (λ '(_, r), ox_created_at r) l).*1) as Hnd.
  { rewrite sorted_by_perm. apply filter_keys_nodup, NoDup_fst_map_to_list. }
  rewrite <- (take_drop (Z.to_nat limit)) in Hnd. by apply NoDup_app in Hnd as [? _].
Qed.

Lemma claimable_in_hand s id r : s.(outbox) !! id = Some r → claimable s r = true → pending r ∧ in_hand s (id, r).
Proof.
  intros Hr Hc. unfold claimable in Hc. breflect. split; [done|]. exists r. split_and!; [done|by repeat split|].
  intros j o Ho Hpo Eb. destruct (Z.leb_spec (ox_created_at r) (ox_created_at o)); [done|]. exfalso.
  match goal with H : existsb _ _ = false |- _ => apply not_true_iff_false in H; apply H end.
  apply existsb_exists. exists o. split; [apply list_elem_of_In, elem_of_rows; by exists j|].
  unfold is_pending_of. rewrite Eb, String.eqb_refl, Hpo. apply andb_true_iff. split; [done|by apply Z.ltb_lt].
Qed.

Lemma tick_micro s :
  ∃ st s', process_outbox_once CACHE_OUTBOX_MAX_ATTEMPTS CACHE_OUTBOX_BATCH_SIZE s = (Ok st, s') ∧ rtc micro s s' ∧
    (due_batch CACHE_OUTBOX_BATCH_SIZE s ≠ [] → ∃ s1 id r c r', rtc micro s s1 ∧ s1.(outbox) !! id = Some r ∧ pending r ∧ oldest s1 r ∧
        c ≠ [] ∧ replayed CACHE_OUTBOX_MAX_ATTEMPTS s1.(ob_now) r c r' ∧ rtc micro (put id r' c s1) s').
Proof.
  unfold process_outbox_once, _claim_due_batch. run_steps. set (batch := due_batch _ s).
  assert (Forall (in_hand s) batch) as Hh.
  { apply Forall_forall. intros [id r] Hx. destruct (due_batch_spec _ _ _ Hx) as [Hr Hc]. by apply claimable_in_hand. }
  destruct (leases_micro (ob_now s + _LEASE_SECONDS * us_per_second) batch s (lease_soon s) Hh) as (s1 & E & Hm & Hh1 & _).
  rewrite E. cbn beta iota. rewrite ret_run. cbn beta iota.
  destruct (replay_micro batch [] (mk_stats 0 0 0) s1) as (st & s2 & E2 & Hm2 & Hstrict); [apply due_batch_nodup|done|].
  exists st, s2. rewrite E2. split_and!; [done|by etransitivity|]. intros Hne.
  destruct (Hstrict Hne eq_refl) as (id & r & c & r' & ? & ? & ? & ? & ? & ?). by exists s1, id, r, c, r'.
Qed.

(** ** The work that is left *)

Definition work (r : OutboxRow) : Z :=
  if r.(ox_status) ==? PENDING then Z.max 1 (attempts_allowed CACHE_OUTBOX_MAX_ATTEMPTS r - r.(ox_attempts)) else 0.
Definition total_work (s : OutboxStore) : Z := msum work s.(outbox).

Lemma work_nonneg r : 0 <= work r.
Proof. unfold work. case_if; lia. Qed.
Lemma total_work_nonneg s : 0 <= total_work s.
Proof. apply msum_nonneg. intros. apply work_nonneg. Qed.
Lemma work_pending r : pending r → 1 <= work r.
Proof. intros Hp. unfold work. rewrite bool_decide_eq_true_2 by done. lia. Qed.

Lemma replayed_work t r c r' :
  pending r → replayed CACHE_OUTBOX_MAX_ATTEMPTS t r c r' → work r' + Z.of_nat (length c) <= work r ∧ (c = [] ∨ length c = 1%nat).
Proof.
  intros Hp Hr. pose proof (work_pending r Hp). inversion Hr; subst; cbn [length]; (split; [|by auto]).
  - change (work (r <| ox_next_attempt_at := t + backoff_seconds 1 * us_per_second |>)) with (work r). lia.
  - assert (work (r <| ox_status := DELIVERED |> <| ox_delivered_at := Some t |>) = 0) as -> by reflexivity. lia.
  - assert (work (r <| ox_status := DEAD |> <| ox_attempts := ox_attempts r + 1 |>) = 0) as -> by reflexivity. lia.
  - assert (∀ a n, work (r <| ox_next_attempt_at := n |> <| ox_attempts := a |>) = Z.max 1 (attempts_allowed CACHE_OUTBOX_MAX_ATTEMPTS r - a)) as Hw
      by (intros a n; unfold work; by rewrite bool_decide_eq_true_2).
    rewrite Hw. unfold work. rewrite bool_decide_eq_true_2 by done. lia.
Qed.

(** Every call pays with work. *)
Definition spends (s s' : OutboxStore) : Prop :=
  total_work s' + Z.of_nat (length s'.(ob_calls)) <= total_work s + Z.of_nat (length s.(ob_calls)) ∧ total_work s' <= total_work s.
#[local] Instance spends_preorder : PreOrder spends.
Proof. split; [by intros s|]. intros a b c [H1 H2] [H3 H4]. split; lia. Qed.

Lemma put_work id r r' c s : s.(outbox) !! id = Some r → total_work (put id r' c s) = total_work s - work r + work r'.
Proof. intros Hr. exact (msum_update work _ _ _ r' Hr). Qed.

Lemma micro_spends s s' : micro s s' → spends s s'.
Proof.
  intros Hm. inversion Hm as [id r t Hr Ht|id r c r' Hr Hp Ho Hrep]; subst; unfold spends; rewrite (put_work _ _ _ _ _ Hr).
  - change (work (r <| ox_next_attempt_at := t |>)) with (work r). cbn. rewrite app_nil_r. lia.
  - destruct (replayed_work _ _ _ _ Hp Hrep) as [Hw _]. cbn. rewrite length_app. lia.
Qed.
Lemma micros_spend s s' : rtc micro s s' → spends s s'.
Proof. induction 1 as [|s s1 s' Hm _ IH]; [done|]. etransitivity; [by apply micro_spends|done]. Qed.

(** ** The queue runs dry *)

(** Every pending row is due within the longest delay. *)
Definition due (s : OutboxStore) : Prop := ∀ id r, s.(outbox) !! id = Some r → pending r → soon s r.(ox_next_attempt_at).

Lemma backoff_soon (s : OutboxStore) n : soon s (s.(ob_now) + backoff_seconds n * us_per_second).
Proof. unfold soon, backoff_seconds, us_per_second. lia. Qed.

Lemma micro_due s s' : micro s s' → due s → due s' ∧ s'.(ob_now) = s.(ob_now).
Proof.
  intros Hm Hd. inversion Hm as [id r t Hr Ht|id r c r' Hr Hp Ho Hrep]; subst; split; try done;
    intros j o Hj Hpo; cbn in Hj; apply lookup_insert_Some in Hj as [[<- <-]|[_ Hj]]; [done|by eapply Hd| |by eapply Hd].
  pose proof (Hd _ _ Hr Hp) as Hs. inversion Hrep; subst; try done.
  - apply (backoff_soon s).
  - apply (backoff_soon s).
Qed.
Lemma micros_due s s' : rtc micro s s' → due s → due s' ∧ s'.(ob_now) = s.(ob_now).
Proof.
  induction 1 as [|s s1 s' Hm _ IH]; [done|]. intros [H1 E1]%(micro_due _ _ Hm). destruct (IH H1) as [H2 E2]. split; [done|congruence].
Qed.

(** What became of the rows, and of the calls. *)
Definition acknowledged (r : OutboxRow) : PostCall := mk_post r.(ox_booking_id) r.(ox_path) r.(ox_payload) r.(ox_created_at) true.
Record outcome (s s' : OutboxStore) : Prop := mk_outcome {
  oc_rows : ∀ id r, s.(outbox) !! id = Some r → ∃ r', s'.(outbox) !! id = Some r' ∧ same_request r r' ∧
    (pending r ∨ r'.(ox_status) = r.(ox_status)) ∧ (pending r → r'.(ox_status) = DELIVERED → acknowledged r ∈ s'.(ob_calls));
  oc_calls : ∃ l, s'.(ob_calls) = s.(ob_calls) ++ l }.
#[local] Instance outcome_preorder : PreOrder outcome.
Proof.
  split.
  - intros s. split; [|by exists []; rewrite app_nil_r]. intros id r Hr. exists r. split_and!; [done|by split|by right|].
    intros Hp Hd. unfold pending in Hp. congruence.
  - intros a b c [R1 [l1 C1]] [R2 [l2 C2]]. split; [|exists (l1 ++ l2); by rewrite C2, C1, app_assoc].
    intros id r Hr. destruct (R1 _ _ Hr) as (r1 & Hr1 & (E1 & E2 & E3 & E4 & E5) & P1 & D1).
    destruct (R2 _ _ Hr1) as (r2 & Hr2 & (F1 & F2 & F3 & F4 & F5) & P2 & D2).
    exists r2. split_and!; [done|split_and!; congruence| |].
    + destruct P1 as [?|E]; [by left|]. destruct P2 as [Hp|E']; [left; unfold pending in *; congruence|right; congruence].
    + intros Hp Hd. destruct P2 as [Hp1|E'].
      * unfold acknowledged. rewrite <- E1, <- E2, <- E3, <- E4. by apply D2.
      * rewrite C2. apply elem_of_app. left. apply D1; congruence.
Qed.

Lemma micro_outcome s s' : micro s s' → outcome s s'.
Proof.
  intros Hm. inversion Hm as [id r t Hr Ht|id r c r' Hr Hp Ho Hrep]; subst; (split; [|by eexists]); intros j o Hj; cbn;
    (destruct (decide (id = j)) as [<-|Hne];
     [assert (o = r) as -> by congruence; rewrite lookup_insert_eq; eexists; split; [reflexivity|]
     |rewrite lookup_insert_ne by done; exists o; split_and!; [done|done|by right|unfold pending; congruence]]).
  - split_and!; [done..|by right|]. unfold pending. cbn. congruence.
  - split_and!; [by eapply replayed_same|by left|]. intros _ Hd. apply elem_of_app. right.
    unfold pending in Hp. inversion Hrep; subst; cbn in Hd; try congruence. by left.
Qed.
Lemma micros_outcome s s' : rtc micro s s' → outcome s s'.
Proof. induction 1 as [|s s1 s' Hm _ IH]; [done|]. etransitivity; [by apply micro_outcome|done]. Qed.

(** Some pending row is the oldest of all. *)
Lemma some_claimable s id r :
  s.(outbox) !! id = Some r → pending r → (∀ j o, s.(outbox) !! j = Some o → pending o → o.(ox_next_attempt_at) <= s.(ob_now)) →
  1 <= CACHE_OUTBOX_BATCH_SIZE → due_batch CACHE_OUTBOX_BATCH_SIZE s ≠ [].
Proof.
  intros Hr Hp Hdue Hb.
  set (ps := sorted_by (λ '(_, r), r.(ox_created_at)) (List.filter (λ '(_, r), r.(ox_status) ==? PENDING) (map_to_list s.(outbox)))).
  assert (∀ j o, (j, o) ∈ ps ↔ s.(outbox) !! j = Some o ∧ pending o) as Hps.
  { intros j o. unfold ps. rewrite elem_of_sorted_by, elem_of_filter_list, elem_of_map_to_list, bool_decide_eq_true. done. }
  pose proof (proj2 (Hps id r) (conj Hr Hp)) as Hin.
  pose proof (sorted_by_sorted (λ '(_, r), r.(ox_created_at)) (List.filter (λ '(_, r), r.(ox_status) ==? PENDING) (map_to_list s.(outbox)))) as Hsorted.
  change (StronglySorted (λ a b, (let '(_, r) := a in r.(ox_created_at)) <= (let '(_, r) := b in r.(ox_created_at))) ps) in Hsorted.
  destruct ps as [|[j o] l] eqn:Eps; [by apply elem_of_nil in Hin|]. rewrite <- Eps in *.
  assert ((j, o) ∈ ps) as [Hj Hpo]%Hps by (rewrite Eps; by left).
  assert (claimable s o = true) as Hc.
  { unfold claimable. apply andb_true_iff. split; [apply andb_true_iff; split; [by apply bool_decide_eq_true|by apply Z.leb_le, (Hdue j)]|].
    apply negb_true_iff, not_true_is_false. intros (x & Hx & Hxp)%existsb_exists. apply list_elem_of_In, elem_of_rows in Hx as [i Hx].
    unfold is_pending_of in Hxp. breflect. assert ((i, x) ∈ ps) as Hi by by apply Hps.
    rewrite Eps in Hi, Hsorted. inversion Hsorted as [|? ? _ Hall]; subst.
    apply elem_of_cons in Hi as [[= -> ->]|Hi]; [lia|]. rewrite Forall_forall in Hall. specialize (Hall _ Hi). cbn in Hall. lia. }
  unfold due_batch. set (cs := sorted_by _ _).
  assert ((j, o) ∈ cs) as Hcs by (unfold cs; rewrite elem_of_sorted_by, elem_of_filter_list; split; [by apply elem_of_map_to_list|done]).
  destruct cs as [|x cs]; [by apply elem_of_nil in Hcs|]. destruct (Z.to_nat CACHE_OUTBOX_BATCH_SIZE) eqn:E; [lia|done].
Qed.

(** ** Histories *)

Abbreviation step_at := (outbox_step true CACHE_OUTBOX_MAX_ATTEMPTS CACHE_OUTBOX_BATCH_SIZE).
Abbreviation run_from := (outbox_run true CACHE_OUTBOX_MAX_ATTEMPTS CACHE_OUTBOX_BATCH_SIZE).

Definition wait (dt : Z) (s : OutboxStore) : OutboxStore := s <| ob_now := s.(ob_now) + dt |>.
Definition fresh_row (path : string) (payload : jdict) (booking : string) (s : OutboxStore) : OutboxRow :=
  mk_row booking path payload PENDING 1 CACHE_OUTBOX_MAX_ATTEMPTS s.(ob_now) (s.(ob_now) + backoff_seconds 1 * us_per_second) None.
Definition queue (path : string) (payload : jdict) (booking : string) (s : OutboxStore) : OutboxStore :=
  s <| outbox := <[new_id s.(outbox) := fresh_row path payload booking s]> s.(outbox) |>.
Definition call (path : string) (payload : jdict) (booking : string) (ack : bool) (s : OutboxStore) : OutboxStore :=
  s <| ob_calls := s.(ob_calls) ++ [mk_post booking path payload s.(ob_now) ack] |>.

(** What a request leaves: queued behind an older one, acknowledged, or called
    without an answer and then queued or not. *)
Lemma request_run path payload booking s :
  let s' := (_post_reliable true CACHE_OUTBOX_MAX_ATTEMPTS path payload booking s).2 in
  (has_pending_for_booking booking s = true ∧ s' = queue path payload booking s) ∨
  (has_pending_for_booking booking s = false ∧
    (s' = call path payload booking true s ∨ s' = call path payload booking false s ∨
     s' = queue path payload booking (call path payload booking false s))).
Proof.
  cbn zeta. unfold _post_reliable, enqueue_cache_request. run_steps.
  destruct (has_pending_for_booking booking s) eqn:Hp; cbn [andb]; run_steps; [by left|right; split; [done|]].
  destruct (post_run booking path payload (ob_now s) s) as [[f|] E]; rewrite E; run_steps.
  - rewrite bool_decide_eq_false_2 by done. right. destruct (is_retryable_upstream_error f); run_steps; [by right|by left].
  - rewrite bool_decide_eq_true_2 by done. by left.
Qed.

Lemma tick_run dt s : rtc micro (wait dt s) (step_at (dt, RelayTick) s).
Proof. destruct (tick_micro (wait dt s)) as (st & s' & E & Hm & _). unfold outbox_step. cbn [fst snd]. fold (wait dt s). by rewrite E. Qed.

Lemma due_wait dt s : 0 <= dt → due s → due (wait dt s).
Proof. intros Hdt Hd id r Hr Hp. pose proof (Hd id r Hr Hp). unfold soon in *. cbn. lia. Qed.
Lemma due_queue path payload booking s : due s → due (queue path payload booking s).
Proof.
  intros Hd id r Hr Hp. cbn in Hr. apply lookup_insert_Some in Hr as [[<- <-]|[_ Hr]]; [|by eapply Hd]. apply (backoff_soon s).
Qed.

Lemma due_step x s : 0 <= x.1 → due s → due (step_at x s).
Proof.
  destruct x as [dt step]. cbn [fst]. intros Hdt Hd0. pose proof (due_wait dt s Hdt Hd0) as Hd. destruct step as [path payload booking|].
  - unfold outbox_step. cbn [fst snd]. fold (wait dt s).
    destruct (request_run path payload booking (wait dt s)) as [ [_ ->] | [_ [ -> | [ -> | -> ] ] ] ]; [by apply due_queue|done|done|by apply due_queue].
  - by apply (micros_due _ _ (tick_run dt s)).
Qed.
Lemma due_run l s : Forall (λ x, 0 <= x.1) l → due s → due (run_from l s).
Proof. intros Hl. revert s. induction Hl as [|x l Hx _ IH]; [done|]. intros s Hd. apply IH. by apply due_step. Qed.

Lemma some_pending s : 0 < total_work s → ∃ id r, s.(outbox) !! id = Some r ∧ pending r.
Proof.
  intros Hw. destruct (decide (map_Exists (λ _ r, r.(ox_status) = PENDING) s.(outbox))) as [(id & r & Hr & Hp)|Hn]; [by exists id, r|].
  exfalso. cut (total_work s <= 0); [lia|]. rewrite <- (msum_zero s.(outbox)). apply msum_mono. intros id r Hr.
  unfold work. rewrite bool_decide_eq_false_2; [done|]. intros Hp. apply Hn. by exists id, r.
Qed.

(** A poll that finds something to replay makes a call. *)
Lemma batch_progress dt s :
  due_batch CACHE_OUTBOX_BATCH_SIZE (wait dt s) ≠ [] → total_work (step_at (dt, RelayTick) s) < total_work s.
Proof.
  intros Hne. destruct (tick_micro (wait dt s)) as (st & s' & E & _ & Hstrict).
  unfold outbox_step. cbn [fst snd]. fold (wait dt s). rewrite E. cbn [snd].
  destruct (Hstrict Hne) as (s1 & id1 & r1 & c & r1' & Hm1 & Hr1 & Hp1 & _ & Hc & Hrep & Hm2).
  destruct (micros_spend _ _ Hm1) as [_ H1], (micros_spend _ _ Hm2) as [_ H2].
  rewrite (put_work _ _ _ _ _ Hr1) in H2. destruct (replayed_work _ _ _ _ Hp1 Hrep) as [Hwork [?|Hlen]]; [done|].
  change (total_work (wait dt s)) with (total_work s) in H1. rewrite Hlen in Hwork. lia.
Qed.
(** One that finds nothing only lets time pass. *)
Lemma idle_poll dt s : due_batch CACHE_OUTBOX_BATCH_SIZE (wait dt s) = [] → step_at (dt, RelayTick) s = wait dt s.
Proof.
  intros E. unfold outbox_step. cbn [fst snd]. fold (wait dt s). unfold process_outbox_once, _claim_due_batch.
  run_steps. rewrite E. reflexivity.
Qed.

(** Every pending row is due within [R]. *)
Definition due_in (R : Z) (s : OutboxStore) : Prop :=
  ∀ id r, s.(outbox) !! id = Some r → pending r → r.(ox_next_attempt_at) <= s.(ob_now) + R.
Lemma due_progress dt R s :
  due_in R s → R <= dt → 1 <= CACHE_OUTBOX_BATCH_SIZE → 0 < total_work s →
  total_work (step_at (dt, RelayTick) s) < total_work s.
Proof.
  intros Hd HR Hb Hw. destruct (some_pending s Hw) as (id & r & Hr & Hp).
  apply batch_progress, (some_claimable (wait dt s) id r Hr Hp); [|done].
  intros j o Hj Hpo. pose proof (Hd _ _ Hj Hpo). cbn. lia.
Qed.

Lemma outcome_wait dt s s' : outcome (wait dt s) s' → outcome s s'.
Proof. by intros [R C]. Qed.

(** What a series of polls does, however long. *)
Lemma ticks_run dts s :
  let s' := run_from (map (λ dt, (dt, RelayTick)) dts) s in spends s s' ∧ outcome s s'.
Proof.
  cbn zeta. revert s. induction dts as [|dt dts IH]; [done|]. intros s. cbn [map outbox_run foldl].
  pose proof (tick_run dt s) as Hm. destruct (IH (step_at (dt, RelayTick) s)) as [H1 H2]. split.
  - etransitivity; [exact (micros_spend _ _ Hm)|exact H1].
  - etransitivity; [exact (outcome_wait dt s _ (micros_outcome _ _ Hm))|exact H2].
Qed.

Lemma drained s : total_work s <= 0 → ∀ id r, s.(outbox) !! id = Some r → ¬ pending r.
Proof.
  intros Hw id r Hr Hp. pose proof (work_pending r Hp). enough (work r <= total_work s) by lia.
  apply msum_lookup_le with (k := id); [intros; apply work_nonneg|done].
Qed.

Lemma polls_work dts s : total_work (run_from (map (λ dt, (dt, RelayTick)) dts) s) <= total_work s.
Proof. destruct (ticks_run dts s) as [[_ Hle] _]. lia. Qed.

(** Polls at least [p] apart that together outlast the longest delay make a call. *)
Lemma stretch_progress p dts R s :
  0 < p → Forall (λ dt, p <= dt) dts → due_in R s → R <= p * Z.of_nat (length dts) → dts ≠ [] →
  1 <= CACHE_OUTBOX_BATCH_SIZE → 0 < total_work s →
  total_work (run_from (map (λ dt, (dt, RelayTick)) dts) s) < total_work s.
Proof.
  intros Hp Hdts. revert R s. induction Hdts as [|dt dts Hdt _ IH]; [done|]. intros R s Hd HR _ Hb Hw.
  change (total_work (run_from (map (λ dt, (dt, RelayTick)) dts) (step_at (dt, RelayTick) s)) < total_work s).
  cbn [length] in HR. pose proof (polls_work dts (step_at (dt, RelayTick) s)) as Hrest.
  destruct (Z.leb_spec R dt) as [Hle|Hlt]; [pose proof (due_progress dt R s Hd Hle Hb Hw); lia|].
  destruct (decide (due_batch CACHE_OUTBOX_BATCH_SIZE (wait dt s) = [])) as [E|E]; [|pose proof (batch_progress dt s E); lia].
  rewrite (idle_poll dt s E) in *. change (total_work s) with (total_work (wait dt s)) in *.
  apply (IH (R - dt)); [|lia| |done|done].
  - intros id r Hr Hpr. specialize (Hd id r Hr Hpr). cbn. lia.
  - intros ->. cbn in HR. lia.
Qed.

Lemma polls_spend p k dts s :
  0 < p → Forall (λ dt, p <= dt) dts → _MAX_BACKOFF_SECONDS * us_per_second <= p * Z.of_nat k → due s →
  1 <= CACHE_OUTBOX_BATCH_SIZE → total_work s * Z.of_nat k <= Z.of_nat (length dts) →
  total_work (run_from (map (λ dt, (dt, RelayTick)) dts) s) <= 0.
Proof.
  intros Hp. remember (Z.to_nat (total_work s)) as n eqn:En. revert s dts En.
  induction n as [n IH] using lt_wf_ind. intros s dts En Hdts Hk Hd Hb Hlen. pose proof (total_work_nonneg s) as Hnn.
  destruct (Z.leb_spec (total_work s) 0) as [Hz|Hz]; [pose proof (polls_work dts s); lia|].
  assert (0 < Z.of_nat k) as Hk0 by (unfold _MAX_BACKOFF_SECONDS, us_per_second in Hk; nia).
  assert (k ≤ length dts)%nat as Hkl by nia.
  rewrite <- (take_drop k dts). rewrite map_app. unfold outbox_run. rewrite foldl_app.
  change (foldl _ s (map (λ dt, (dt, RelayTick)) (take k dts))) with (run_from (map (λ dt, (dt, RelayTick)) (take k dts)) s).
  set (s1 := run_from _ s). change (total_work (run_from (map (λ dt, (dt, RelayTick)) (drop k dts)) s1) <= 0).
  assert (total_work s1 < total_work s) as Hlt.
  { apply (stretch_progress p _ (_MAX_BACKOFF_SECONDS * us_per_second)); [done|by apply Forall_take|exact Hd| | |done|done].
    - rewrite length_take_le by done. lia.
    - intros E. apply (f_equal length) in E. rewrite length_take_le in E by done. cbn in E. lia. }
  pose proof (total_work_nonneg s1) as Hnn1.
  apply (IH (Z.to_nat (total_work s1))); [lia|done|by apply Forall_drop|done| |done|].
  - apply due_run; [|done]. apply Forall_map. apply Forall_take. eapply Forall_impl; [exact Hdts|]. intros dt Hdt. cbn. cbn in Hdt. lia.
  - rewrite length_drop. nia.
Qed.

(** ** The order of the calls of a booking *)

(** A later call is for a request that is not older, and an acknowledged request
    is over. *)
Definition before (a b : PostCall) : Prop :=
  a.(pc_booking_id) = b.(pc_booking_id) →
  a.(pc_requested_at) <= b.(pc_requested_at) ∧ (a.(pc_acknowledged) = true → a.(pc_requested_at) < b.(pc_requested_at)).

Record ordered (s : OutboxStore) : Prop := mk_ordered {
  or_calls : ForallOrdPairs before s.(ob_calls);
  or_past : ∀ c, c ∈ s.(ob_calls) → c.(pc_requested_at) <= s.(ob_now);
  or_rows : ∀ id r, s.(outbox) !! id = Some r → pending r → r.(ox_created_at) <= s.(ob_now);
  or_ahead : ∀ id r c, s.(outbox) !! id = Some r → pending r → c ∈ s.(ob_calls) → c.(pc_booking_id) = r.(ox_booking_id) →
    c.(pc_requested_at) <= r.(ox_created_at) ∧ (c.(pc_acknowledged) = true → c.(pc_requested_at) < r.(ox_created_at));
  or_distinct : ∀ i j r o, s.(outbox) !! i = Some r → s.(outbox) !! j = Some o → pending r → pending o →
    r.(ox_booking_id) = o.(ox_booking_id) → r.(ox_created_at) = o.(ox_created_at) → i = j }.

Lemma ord_pairs_snoc {A} (R : A → A → Prop) l x :
  ForallOrdPairs R l → (∀ y, y ∈ l → R y x) → ForallOrdPairs R (l ++ [x]).
Proof.
  induction 1 as [|y l Hy _ IH]; intros Hx; [by repeat constructor|]. cbn. constructor.
  - apply Forall_app. split; [done|]. constructor; [apply Hx; by left|done].
  - apply IH. intros z Hz. apply Hx. by right.
Qed.

(** Replacing a row by one of the same request that is pending only if the old
    one was, and making at most the call of that row. *)
Lemma ordered_put id r r' calls s :
  ordered s → s.(outbox) !! id = Some r → same_request r r' → (pending r' → pending r) →
  (calls = [] ∨ ∃ ack, calls = [mk_post r.(ox_booking_id) r.(ox_path) r.(ox_payload) r.(ox_created_at) ack] ∧
     pending r ∧ oldest s r ∧ (ack = true → ¬ pending r')) →
  ordered (put id r' calls s).
Proof.
  intros [H1 H2 H3 H4 H5] Hr (E1 & E2 & E3 & E4 & E5) Hp' Hc.
  assert (∀ j o, <[id := r']> s.(outbox) !! j = Some o → pending o → ∃ o', s.(outbox) !! j = Some o' ∧ pending o' ∧
    o'.(ox_booking_id) = o.(ox_booking_id) ∧ o'.(ox_created_at) = o.(ox_created_at)) as Hold.
  { intros j o Hj Hpo. apply lookup_insert_Some in Hj as [[<- <-]|[_ Hj]]; [exists r|exists o]; split_and!; auto. }
  split; unfold put; cbn [outbox ob_calls ob_now].
  - destruct Hc as [->|(ack & -> & Hp & Ho & Hack)]; [by rewrite app_nil_r|]. apply ord_pairs_snoc; [done|].
    intros c Hin Eb. cbn in Eb. by apply (H4 id r c).
  - intros c [Hin|Hin]%elem_of_app; [by apply H2|]. destruct Hc as [->|(ack & -> & Hp & _)]; [by apply elem_of_nil in Hin|].
    apply list_elem_of_singleton in Hin as ->. by apply (H3 id r).
  - intros j o Hj Hpo. destruct (Hold j o Hj Hpo) as (o' & Hj' & Hpo' & _ & <-). by apply (H3 j o').
  - intros j o c Hj Hpo Hin Eb. destruct (Hold j o Hj Hpo) as (o' & Hj' & Hpo' & Eb' & <-). rewrite <- Eb' in Eb.
    apply elem_of_app in Hin as [Hin|Hin]; [by apply (H4 j o' c)|].
    destruct Hc as [->|(ack & -> & Hp & Ho & Hack)]; [by apply elem_of_nil in Hin|].
    apply list_elem_of_singleton in Hin as ->. cbn in Eb |- *. pose proof (Ho j o' Hj' Hpo' (eq_sym Eb)). split; [done|].
    intros ->. enough (ox_created_at r ≠ ox_created_at o') by lia. intros E.
    assert (id = j) as -> by by apply (H5 id j r o'). apply (Hack eq_refl). cbn in Hj. rewrite lookup_insert_eq in Hj. congruence.
  - intros i j a b Hi Hj Hpa Hpb Eb Et. destruct (Hold i a Hi Hpa) as (a' & Hi' & Hpa' & Ea1 & Ea2).
    destruct (Hold j b Hj Hpb) as (b' & Hj' & Hpb' & Eb1 & Eb2). apply (H5 i j a' b'); [done..|congruence|congruence].
Qed.

Lemma micro_ordered s s' : micro s s' → ordered s → ordered s'.
Proof.
  intros Hm Ho. inversion Hm as [id r t Hr Ht|id r c r' Hr Hp Hold Hrep]; subst.
  - eapply ordered_put; [done|done|done|done|by left].
  - destruct (replayed_same _ _ _ _ _ Hrep) as [Hs Hp']. eapply ordered_put; [done|done|done|done|].
    inversion Hrep; subst; [by left|right; eexists; split_and!; [done..|]; unfold pending; cbn; congruence..].
Qed.
Lemma micros_ordered s s' : rtc micro s s' → ordered s → ordered s'.
Proof. induction 1 as [|s s1 s' Hm _ IH]; [done|]. intros Ho. apply IH. by eapply micro_ordered. Qed.

(** Everything lies before the present once time has passed. *)
Definition settled_past (s : OutboxStore) : Prop :=
  (∀ c, c ∈ s.(ob_calls) → c.(pc_requested_at) < s.(ob_now)) ∧
  (∀ id r, s.(outbox) !! id = Some r → pending r → r.(ox_created_at) < s.(ob_now)).
Lemma ordered_wait dt s : 0 < dt → ordered s → ordered (wait dt s) ∧ settled_past (wait dt s).
Proof.
  intros Hdt [H1 H2 H3 H4 H5]. split.
  - split; [done| | |done|done].
    + intros c Hc. specialize (H2 c Hc). cbn. lia.
    + intros id r Hr Hp. specialize (H3 id r Hr Hp). cbn. lia.
  - split.
    + intros c Hc. specialize (H2 c Hc). cbn. lia.
    + intros id r Hr Hp. specialize (H3 id r Hr Hp). cbn. lia.
Qed.

Lemma ordered_call path payload booking ack s :
  has_pending_for_booking booking s = false → settled_past s → ordered s → ordered (call path payload booking ack s).
Proof.
  intros Hn [P1 P2] [H1 H2 H3 H4 H5]. split; unfold call; cbn [outbox ob_calls ob_now].
  - apply ord_pairs_snoc; [done|]. intros c Hc _. specialize (P1 c Hc). cbn. split; lia.
  - intros c [Hc|Hc]%elem_of_app; [by apply H2|]. apply list_elem_of_singleton in Hc as ->. cbn. lia.
  - done.
  - intros id r c Hr Hp [Hc|Hc]%elem_of_app; [by apply H4 with (id := id)|]. apply list_elem_of_singleton in Hc as ->. cbn. intros Eb.
    exfalso. apply not_true_iff_false in Hn. apply Hn. apply existsb_exists. exists r. split.
    + apply list_elem_of_In, elem_of_rows. by exists id.
    + unfold is_pending_of. rewrite Eb, String.eqb_refl, Hp. done.
  - done.
Qed.

(** The new row is the newest; earlier calls were for older requests. *)
Lemma ordered_queue path payload booking s :
  (∀ c, c ∈ s.(ob_calls) → c.(pc_booking_id) = booking → c.(pc_acknowledged) = true → c.(pc_requested_at) < s.(ob_now)) →
  (∀ id r, s.(outbox) !! id = Some r → pending r → r.(ox_created_at) < s.(ob_now)) → ordered s →
  ordered (queue path payload booking s).
Proof.
  intros P1 P2 [H1 H2 H3 H4 H5]. split; unfold queue; cbn; [done|done| | |].
  - intros id r [[_ <-]|[_ Hr]]%lookup_insert_Some Hp; [cbn; lia|by apply (H3 id)].
  - intros id r c [[_ <-]|[_ Hr]]%lookup_insert_Some Hp Hc Eb; [|by apply (H4 id)]. cbn in *. split; [by apply H2|]. intros Ha. by apply P1.
  - intros i j a b [[<- <-]|[Hi Ha]]%lookup_insert_Some [[<- <-]|[Hj Hb]]%lookup_insert_Some Hpa Hpb Eb Et; try done.
    + specialize (P2 _ _ Hb Hpb). cbn in Et. lia.
    + specialize (P2 _ _ Ha Hpa). cbn in Et. lia.
    + by apply (H5 i j a b).
Qed.

Lemma ordered_step x s : 0 < x.1 → ordered s → ordered (step_at x s).
Proof.
  destruct x as [dt step]. cbn [fst]. intros Hdt Ho. destruct (ordered_wait dt s Hdt Ho) as [Hw Hpast].
  destruct step as [path payload booking|]; [|by apply (micros_ordered _ _ (tick_run dt s))].
  unfold outbox_step. cbn [fst snd]. fold (wait dt s). destruct Hpast as [P1 P2].
  destruct (request_run path payload booking (wait dt s)) as [ [_ ->] | [Hn [ -> | [ -> | -> ] ] ] ].
  - apply ordered_queue; [|done|done]. intros c Hc _ _. by apply P1.
  - by apply ordered_call.
  - by apply ordered_call.
  - apply ordered_queue; [|done|by apply ordered_call]. intros c [Hc|Hc]%elem_of_app _ Hack; [by apply P1|].
    apply list_elem_of_singleton in Hc as ->. done.
Qed.

Lemma ordered_run l s : Forall (λ x, 0 < x.1) l → ordered s → ordered (run_from l s).
Proof. intros Hl. revert s. induction Hl as [|x l Hx _ IH]; [done|]. intros s Ho. apply IH. by apply ordered_step. Qed.

Lemma ordered_empty t : ordered (empty_outbox t).
Proof. split; cbn; [constructor|by intros c Hc%elem_of_nil|done..]. Qed.
Lemma due_empty t : due (empty_outbox t).
Proof. done. Qed.
End spec.

(** C19: No request to the appointment cache overtakes an earlier one of its
    booking, whatever ushauth answers: in every history of requests and ticks of
    the relay at advancing times, the calls of one booking go out in the order
    their requests were made, and once a request is acknowledged neither it nor
    an earlier one is sent again. *)
Theorem calls_in_order `{Upstream} attempts batch (l : list (Z * OutboxStep)) t :
  Forall (λ x, 0 < x.1) l → ForallOrdPairs before (ob_calls (outbox_run true attempts batch l (empty_outbox t))).
Proof. intros Hl. by apply or_calls, ordered_run, ordered_empty. Qed.

(** Polls of one delay: the settings ask for between 1 and 600 seconds. *)
Definition polls_per_attempt (poll_seconds : Z) : Z := (_MAX_BACKOFF_SECONDS + poll_seconds - 1) / poll_seconds.

(** C21: A queue that is polled runs dry, whatever ushauth answers, at any poll
    interval: after any history, with polls at least [poll_seconds] (one second or
    more) apart, as many polls as attempts are left, times the polls that the
    longest delay of 15 minutes takes, leave no pending row.  No row is lost or
    altered, a row ends as delivered only if its call was acknowledged, and the
    polls make no more calls than there were attempts left. *)
Theorem relay_drains `{Upstream} attempts batch poll_seconds (l : list (Z * OutboxStep)) t (dts : list Z) :
  1 <= batch → 1 <= poll_seconds → Forall (λ x, 0 <= x.1) l → Forall (λ dt, poll_seconds * us_per_second <= dt) dts →
  let s := outbox_run true attempts batch l (empty_outbox t) in
  total_work attempts s * polls_per_attempt poll_seconds <= Z.of_nat (length dts) →
  let s' := outbox_run true attempts batch (map (λ dt, (dt, RelayTick)) dts) s in
  (∀ id r, s'.(outbox) !! id = Some r → ¬ pending r) ∧ outcome s s' ∧
  Z.of_nat (length s'.(ob_calls)) <= Z.of_nat (length s.(ob_calls)) + total_work attempts s.
Proof.
  intros Hb Hp Hl Hdts s Hw s'. assert (due s) as Hd by apply (due_run _ _ l _ Hl), due_empty.
  destruct (ticks_run attempts batch dts s) as [[Hs _] Ho]. fold s' in Hs, Ho.
  pose proof (total_work_nonneg attempts s'). split_and!; [|done|lia]. apply (drained attempts).
  apply (polls_spend attempts batch (poll_seconds * us_per_second) (Z.to_nat (polls_per_attempt poll_seconds)));
    [unfold us_per_second; lia|done| |done|done|].
  - unfold polls_per_attempt. rewrite Z2Nat.id by (apply Z.div_pos; unfold _MAX_BACKOFF_SECONDS; lia).
    pose proof (Z.mul_succ_div_gt (_MAX_BACKOFF_SECONDS + poll_seconds - 1) poll_seconds ltac:(lia)).
    unfold us_per_second in *. nia.
  - rewrite Z2Nat.id; [exact Hw|]. apply Z.div_pos; unfold _MAX_BACKOFF_SECONDS; lia.
Qed.

(** ** At concrete inputs *)

(** ushauth is down for the first calls, then answers. *)
Definition down_for (n : Z) : Upstream := {| http_post calls _ _ :=
  if Z.of_nat (length calls) <? n then Answered 503 None else Answered 200 (Some []) |}.

(** Two requests of one booking and one of another while ushauth is down. *)
Definition three_requests : list (Z * OutboxStep) :=
  [(1, Request "/appointments" [] "b1"); (1, Request "/appointments/status" [] "b1"); (1, Request "/appointments" [] "b2")].
Definition polls : list Z := repeat (_MAX_BACKOFF_SECONDS * us_per_second) 12.
(** The relay at its default interval of 15 seconds. *)
Definition quick_polls : list Z := replicate (12 * 60) (15 * us_per_second).

Lemma calls_in_order_witness :
  let s := @outbox_run (down_for 3) true 5 10 (three_requests ++ map (λ dt, (dt, RelayTick)) polls) (empty_outbox 0) in
  ForallOrdPairs before s.(ob_calls) ∧
  map (λ c, (c.(pc_booking_id), c.(pc_requested_at), c.(pc_acknowledged))) s.(ob_calls) =
    [("b1", 1, false); ("b2", 3, false); ("b1", 1, false); ("b2", 3, true); ("b1", 1, true); ("b1", 2, true)]%string.
Proof.
  split; [|vm_compute; reflexivity].
  apply (@calls_in_order (down_for 3)). repeat constructor.
Defined.

Lemma relay_drains_witness :
  let s := @outbox_run (down_for 3) true 5 10 three_requests (empty_outbox 0) in
  let s' := @outbox_run (down_for 3) true 5 10 (map (λ dt, (dt, RelayTick)) quick_polls) s in
  map ox_status (rows s.(outbox)) = [PENDING; PENDING; PENDING] ∧ map ox_status (rows s'.(outbox)) = [DELIVERED; DELIVERED; DELIVERED] ∧
  (∀ id r, s'.(outbox) !! id = Some r → ¬ pending r) ∧ outcome s s'.
Proof.
  intros s s'. split; [vm_compute; reflexivity|]. split; [vm_compute; reflexivity|].
  destruct (@relay_drains (down_for 3) 5 10 15 three_requests 0 quick_polls) as (H1 & H2 & _).
  - lia.
  - lia.
  - repeat constructor; discriminate.
  - apply Forall_forall. intros dt [-> _]%elem_of_replicate. reflexivity.
  - apply Z.leb_le. vm_compute. reflexivity.
  - split; [exact H1|exact H2].
Defined.

(** A row queued behind another counts an attempt that was never made: with two
    attempts allowed the first request is sent twice and the one behind it once. *)
Lemma queued_row_counts_an_attempt :
  let s := @outbox_run (down_for 99) true 2 10 (take 2 three_requests ++ repeat (_MAX_BACKOFF_SECONDS * us_per_second, RelayTick) 4) (empty_outbox 0) in
  map (λ r, (r.(ox_created_at), r.(ox_status), r.(ox_attempts))) (rows s.(outbox)) = [(2, DEAD, 2); (1, DEAD, 2)] ∧
  map pc_requested_at s.(ob_calls) = [1; 1; 2].
Proof. vm_compute. split; reflexivity. Qed.
